(* ===== verification/_CoqProject ===== *)
-Q . S2P
Prelude.v
Float32.v
Types.v
Commands.v
Track.v
World.v
Demo.v
Changes.v
Queues.v
RouteGraph.v
DeviceRules.v
Interlocking.v
Shl12.v
Routes.v
Switches.v
Physics.v
TrainSim.v
Fleet.v
Loop.v
EngineThread.v
Frame.v
Text.v
Json.v
DbWriter.v
Dispatch.v
Ingress.v
Schema.v
Snapshot.v
Session.v
Bus.v
FleetRegistry.v
Topology.v
Validation.v
SpawnResolver.v
Terminal.v
Timetable.v
Server.v
TrackView.v
Paths.v
UidTools.v
FleetFiles.v
Persistence.v
FleetEditor.v
UidWindow.v
PgWriter.v
FleetDisk.v
Flat.v
FlatTree.v
ProtoCommon.v
ProtoCommands.v
ProtoSession.v
ProtoEvents.v
ProtoSnapshot.v
ProtoDispatch.v
ProtoMisc.v
Protocol.v
Wire.v
WireSession.v
WireEvents.v
WireDispatch.v
