(* ===== verification/Prelude.v ===== *)
(** * Symulator: a verified model of the railway simulation server and its tools

    The program simulates a railway area: a server holds the world (track sections,
    switches, signals, derailers, block sections, level crossings, routes), runs the
    interlocking of the control systems EbiLock X4 and ESTW ML8, moves the trains at
    20 ticks a second and talks to dispatcher clients over TCP; desktop tools show a
    track schematic and edit the files of the fleet.  This library translates that code
    from C++ and proves what makes it correct.  Every definition that models code has
    the line [SRC file first-last symbol] above it, the path being relative to [src/].

    ** Conventions

    - A class is a Module or Section with its state as a Record; [r <| f := v |>] is an
      assignment to a field.  An [enum class] is a module of its enumerators, [code] the
      underlying integer.  Integers are [Z], narrowed by [u8], [u16], [u32], [u64] where
      the source narrows; [float] and [double] are executable IEEE binary32 and binary64.
    - A function that may throw returns [result] or, where it also mutates, a pair of
      the new state and a [result]: the state is what the exception leaves behind.
      An early return of a rejection is an [option] or a sum.
    - An [unordered_map] is a [gmap]; where the source iterates over one, the order is
      that of the parameter [visit], any permutation of the entries.
    - A virtual interface is a type class ([StateView], [ControlSystem], [IDbWriter],
      [ITrainControlPolicy], [IDataSource] ...); client theorems hold of every instance
      that keeps the laws, and the instances of the source are shown to keep them.
    - Threads are sequences of atomic steps: a function under a mutex is one step, and
      a theorem over all runs is over all interleavings.
    - Libraries (FlatBuffers, nlohmann::json, Qt, PostgreSQL, OpenSSL, the file system,
      the clock) are classes of operations with their documented behaviour as laws.
      Each class has an instance in a Demo module, on which the witnesses compute.

    ** The engine: [engine/], [srk/]

    - [Prelude] notations, record update, enumerations, generic lemmas; [Float32] the
      arithmetic; [Text] string conversions ([std::to_string], [stoull], [format]).
    - [Types] ([core/types.hpp]): the 48-bit identifier and its codec, the value types.
      [Commands] ([core/command.hpp]) and [Track] ([core/track_model.hpp]).
    - [World] ([state_view.hpp], [engine_state], [engine_snapshot]): the view
      interface with its laws, the mutable world, the published copy.  [Changes]
      ([control_system.hpp], [state_applier.hpp]): changes as local updates with
      footprints.  [Demo] is a small station for the examples.
    - [Queues] ([priority_command_queue.hpp], [event_queue.hpp], [event_dispatcher.hpp]):
      refined against abstract queues over the history of pushes.
    - [RouteGraph] ([srk/common/src/route_graph.cpp]) and [DeviceRules]
      ([device_rules.cpp]): path search and the rules R1 to R10, a check and an execution
      for each command.  [Interlocking] ([srk/ebilock], [srk/ml8]) is the class of
      control systems with its two instances and the abstract system of accepted
      commands.  [Switches], [Shl12] and [Routes] are the theorems about switch
      machines, block directions with their axle-counter reset, and routes.
    - [Physics] ([physics_model.hpp], [driver_ai.hpp]), [TrainSim] ([train_sim.cpp]) and
      [Fleet] ([train_fleet.cpp]): integrator, driver automaton, one train, all trains.
    - [Loop] ([engine_loop.cpp]): the tick that composes all of these; [EngineThread]:
      its thread, paced and interleaved with the other threads.
    - [Json] the JSON library and the exception monad; [FleetRegistry]
      ([fleet_registry.cpp]), [Topology] ([topology_loader.cpp]), [Timetable]
      ([timetable/], [train_scheduler.hpp]) and [SpawnResolver] ([spawn_resolver.cpp]):
      the files of a scenario and of the fleet.  [Validation] is
      [libscenario_validation].

    ** The server: [server/]

    - [Frame] ([frame.cpp]): the wire format with its CRC and the chunks of a snapshot.
      [Ingress] ([command_ingress.cpp]): payloads to commands.  [Snapshot]
      ([snapshot_service.cpp]): the snapshot message.
    - [DbWriter] ([db_writer.hpp]): the database interface and its recording
      implementation; [PgWriter] ([pg_db_writer.cpp], [docker/init.sql]): the production
      implementation on the tables of the schema.
    - [Dispatch] ([dispatch_exchange_manager.cpp], [edr_coordinator.cpp],
      [dispatch_coordinator.cpp], [dispatch_channel.cpp]): telegrams between areas.
    - [Session] ([transport_gateway.cpp], [ownership_guard.cpp]): connections, reassembly
      of frames, broadcasts, shutdown.  [Bus] ([dispatch_bus.cpp], [pip_writer.cpp]):
      state changes as domain events.
    - [Terminal] ([terminal/]): accounts, permissions, commands.  [Server]
      ([session_server.cpp]): the command line, the start, and the engine, IO and
      terminal threads over what they share.

    ** The protocol: [autogens/proto/]

    - [Flat] the FlatBuffers library as the class [FlatBuffers] with the laws
      [FlatBuffersOk], what generated code does with strings, vectors and nested
      tables, and the interface [Message] of a table; [FlatTree] an instance of it.
    - [ProtoCommon], [ProtoCommands], [ProtoSession], [ProtoEvents], [ProtoSnapshot],
      [ProtoDispatch] and [ProtoMisc] (ownership, chat, voice), one per group of headers:
      in the module [proto], the enumerations with their names, and for a table [X] the
      native struct [XT.t], the accessors and [Verify] in [X], the builder in
      [XBuilder], [CreateX], [CreateXDirect], [X_Pack], [X_UnPackTo] and [X_UnPack].
      The C++ names are kept; [None] is a read outside the buffer or a failed assertion.
    - [Protocol] all sixty-one tables at once.  [Wire] (commands), [WireSession]
      (handshakes, answers, snapshots), [WireEvents] and [WireDispatch] are the handlers
      of the server on the generated functions: they instantiate the readers and
      builders that [Ingress], [Session], [Bus] and [Dispatch] have as parameters.
    - An offset into a builder and a pointer into a buffer are one value [Obj]; a field
      of an enumeration type is its integer, as a peer may send any; elements of a
      vector of native structs are not null; buffers are below the limit of 2 GB.

    ** The tools: [libtrackview/], [tools/]

    - [TrackView]: layouts, their reader and validator, the render model.
    - [Paths] the paths and the disk; [UidTools] the identifier registry and generator;
      [FleetFiles] the loaders and data sources ([tools/shared]); [Persistence] the saves
      of the editor, [FleetEditor] its models, dialogs and window
      ([tools/vehicle-browser]); [UidWindow] the identifier generator
      ([tools/uid-generator]).
    - [FleetDisk] puts engine and tools on one disk: what either writes or reads, the
      other reads alike.

    ** How the parts interact

    A client's bytes become frames ([Session], [Frame]), command payloads become commands
    ([Ingress]) on the priority queue ([Queues]).  The tick ([Loop]) drains the queue
    through the control system ([Interlocking], [DeviceRules]), whose changes are applied
    to the world ([Changes], [World]); it applies the requests of the terminal to the
    fleet ([Terminal], [Fleet]), moves the trains ([TrainSim], [Physics]), publishes a
    snapshot ([World], [Snapshot]) and notifies the bus ([Bus]), which broadcasts and
    records the events ([Session], [DbWriter], [PgWriter]).  Dispatch frames go through
    [Dispatch] to the other areas and the database.  [Server] loads the world and the
    fleet ([Topology], [FleetRegistry]), builds the parts and runs the threads.  The
    tools share the file formats of the fleet and the view interface of the world.

    ** The theorems

    - Interlocking: an accepted route is free, set, locked and signalled; switches land
      in the commanded position after exactly the throw time; the block direction is a
      given state machine, its reset needs sixty seconds.
    - Engine: every run refines the abstract system; commands of a tick are handled in
      queue order against the worlds before them; replaying a notification gives the
      world; trains keep sections counted, in any order of the fleet; the driver stops.
      Broken up at every access to a shared queue the tick still is atomic for the
      world, never runs ahead of the clock, and ends when asked to.
    - Queues, search, frames: refinement of abstract queues, a complete and terminating
      path search, encodings with their inverses, reassembly under every segmentation.
    - Server: authorisation at the terminal, acknowledgement of every command, events and
      database rows that agree, exchanges that follow the protocol, the invariant of the
      running process, what starting it needs and does.
    - Files: loaders accept what is stated without their code, merges and validators
      agree with the loader, saves are read back, and a consist saved in the editor is
      one the engine loads.
    - Protocol: whatever is packed unpacks, whatever is verified is read inside its
      buffer; commands, snapshots, events and telegrams arrive through the generated
      code of both sides as they were meant; the enumerations of the wire agree with
      those of the engine ([engine_enums_match]).
    - Where the code falls short of its intent the theorem states what it does, and the
      name says so: [stop_deadlocks], [misfiled_consist_stops_engine].

    ** Bounds and fuel

    Loops are structural over their data where they can be.  [bfs_loop] has [bfs_fuel],
    two more than the number of sections and switches; [bfs_correct] shows that it never runs
    out and that [reconstruct] does not either.  [drain_fleet_commands] and the command
    drain of [Loop] have the length of the queue and the limit of 64 of the source;
    [process_buffer] has the length of the buffer, each round consuming a frame;
    [chunk_from] that of the snapshot; the search of [UidGenerator] the 65535 instances it
    tries, by which it has met each of them once.  The verifier has the limits of the
    library, 64 levels and a million tables; no message nests deeper than three levels.

    ** Not modelled

    - The FlatBuffers library and the layout of its bytes: a parameter with laws.  Of
      the generated headers the copies of native structs, which are the same value, and
      the size-prefixed buffers and the vectors of unions, which nothing uses.
    - Painting and layout of widgets, menus and selection lists ([qt_scene_renderer.cpp],
      the [build] functions of the windows, the command lines of the tools): calls of Qt.
    - Signals, thread creation and destruction order of the server, the polling of the
      terminal's input, printing of floats: calls of the operating system.  The time a
      step of the engine thread takes and the fairness of the scheduler: the clock
      moves by any amount between two steps.
    - Data races: atomics and mutexes are taken to do what they are documented to do.
    - Failures of allocation.  The exact order of an [unordered_map], the rounding of
      [std::hypot] and the interval arithmetic of the database stay open: the theorems
      hold for every choice. *)
From stdpp Require Export base gmap strings list fin_maps fin_sets pretty fin finite.
From Stdlib Require Export ZArith Lia.

#[export] Set Default Goal Selector "!".

(** ** Record update

    [r <| f := v |>] is the record [r] with field [f] replaced, the shape of an
    assignment [r.f = v] in the C++ source.  A record type joins by giving its
    eta-expansion as an [Eta] instance; the setter of a field is then computed
    by abstracting that expansion over the field's projection. *)
Class Eta (R : Type) := eta_expand : R -> R.
Class FieldSet {R E : Type} (proj : R -> E) := field_set : (E -> E) -> R -> R.
Arguments field_set {R E} proj {_} _ _ /.

Ltac solve_field_set :=
  lazymatch goal with
  | |- @FieldSet ?R ?E ?proj =>
      let inst := constr:(_ : Eta R) in
      let e := eval hnf in inst in
      lazymatch eval pattern proj in e with
      | ?abs _ =>
          let s := eval cbv beta in (fun (f : E -> E) => abs (fun r : R => f (proj r))) in
          exact s
      end
  end.
#[export] Hint Extern 1 (FieldSet _) => solve_field_set : typeclass_instances.

Declare Scope record_scope.
Delimit Scope record_scope with rec.
Open Scope record_scope.
Notation "r <| proj ::= f |>" := (field_set proj f r)
  (at level 12, f at next level, left associativity) : record_scope.
Notation "r <| proj := v |>" := (field_set proj (fun _ => v) r)
  (at level 12, left associativity, v at level 200) : record_scope.

(** ** Machine-width integers

    An unsigned [w]-bit value is a [Z] in [0 <= z < 2^w]; [wrap w] is the
    conversion [static_cast<uintw_t>]. *)
Definition wrap (w z : Z) : Z := z mod 2 ^ w.
Notation u8 := (wrap 8).
Notation u16 := (wrap 16).
Notation u32 := (wrap 32).
Notation u64 := (wrap 64).
Definition fits (w z : Z) : Prop := (0 <= z < 2 ^ w)%Z.
(** [static_cast<int8_t>]. *)
Definition i8 (z : Z) : Z := (wrap 8 (z + 128) - 128)%Z.

#[global] Arguments wrap : simpl never.

Section MachineIntegers.
Local Open Scope Z_scope.

Lemma wrap_small w z : fits w z -> wrap w z = z.
Proof. intros H. apply Z.mod_small, H. Qed.

Lemma wrap_fits w z : 0 <= w -> fits w (wrap w z).
Proof. intros Hw. apply Z.mod_pos_bound. by apply Z.pow_pos_nonneg. Qed.

Lemma wrap_wrap w z : wrap w (wrap w z) = wrap w z.
Proof. apply Zmod_mod. Qed.

Lemma i8_range z : -128 <= i8 z < 128.
Proof. unfold i8. pose proof (wrap_fits 8 (z + 128) ltac:(lia)) as H. unfold fits in H. lia. Qed.

Lemma i8_small z : -128 <= z < 128 -> i8 z = z.
Proof. intros H. unfold i8. rewrite wrap_small by (unfold fits; lia). lia. Qed.

Lemma u8_i8 z : u8 (i8 z) = u8 z.
Proof.
  unfold i8, wrap. rewrite Zminus_mod_idemp_l. f_equal. lia.
Qed.

Lemma land_mask w z : 0 <= w -> Z.land z (Z.ones w) = wrap w z.
Proof. apply Z.land_ones. Qed.

(** A field placed above [n] low bits adds up: no carry crosses the border. *)
Lemma lor_shiftl a b n :
  0 <= n -> 0 <= b < 2 ^ n -> Z.lor (Z.shiftl a n) b = a * 2 ^ n + b.
Proof.
  intros Hn Hb. rewrite <- Z.shiftl_mul_pow2 by done. rewrite <- Z.lxor_lor.
  - symmetry. apply Z.add_nocarry_lxor. apply Z.bits_inj'. intros i Hi.
    rewrite Z.land_spec, Z.shiftl_spec, Z.bits_0 by done.
    destruct (Z.ltb_spec i n); [by rewrite Z.testbit_neg_r by lia|].
    rewrite <- (Z.mod_small b (2 ^ n)), Z.mod_pow2_bits_high by lia. apply andb_false_r.
  - apply Z.bits_inj'. intros i Hi.
    rewrite Z.land_spec, Z.shiftl_spec, Z.bits_0 by done.
    destruct (Z.ltb_spec i n); [by rewrite Z.testbit_neg_r by lia|].
    rewrite <- (Z.mod_small b (2 ^ n)), Z.mod_pow2_bits_high by lia. apply andb_false_r.
Qed.
Lemma lxor_fits w a b : 0 <= w -> fits w a -> fits w b -> fits w (Z.lxor a b).
Proof.
  unfold fits. intros Hw Ha Hb.
  assert (Z.lxor a b = Z.lxor a b mod 2 ^ w) as ->; [|by apply Z.mod_pos_bound; lia].
  apply Z.bits_inj'. intros i Hi. destruct (Z.lt_ge_cases i w).
  - by rewrite Z.mod_pow2_bits_low.
  - rewrite Z.mod_pow2_bits_high, Z.lxor_spec by lia.
    rewrite <-(Z.mod_small a (2 ^ w)), <-(Z.mod_small b (2 ^ w)), !Z.mod_pow2_bits_high by lia. done.
Qed.
End MachineIntegers.

(** ** Enumerations

    A C++ [enum class] with a fixed underlying type: its enumerators, and the
    integer each stands for ([static_cast] to the underlying type).  [of_code]
    is the conversion back, undefined on integers that name no enumerator. *)
Definition decode_among {T : Type} (f : T -> Z) (l : list T) (z : Z) : option T :=
  List.find (fun x => Z.eqb (f x) z) l.

Class Enum (T : Type) : Type := {
  code : T -> Z;
  enumerators : list T;
  decode_code : forall x, decode_among code enumerators (code x) = Some x
}.
Definition of_code {T : Type} `{Enum T} : Z -> option T := decode_among code enumerators.

(** An enumeration with an 8-bit underlying type holds any byte, and [static_cast] from an
    integer keeps its low byte; the bytes that name no enumerator are its [Unnamed] values. *)
Lemma decode_among_inj {T : Type} (f : T -> Z) (l : list T) (x : T) :
  x ∈ l -> (forall y, f y = f x -> y = x) -> decode_among f l (f x) = Some x.
Proof.
  intros Hin Hinj. unfold decode_among. destruct (List.find _ l) as [y|] eqn:E.
  - apply find_some in E as [_ Hy%Z.eqb_eq]. f_equal. by apply Hinj.
  - apply list_elem_of_In in Hin. by apply (find_none _ _ E) in Hin as ?%Z.eqb_neq.
Qed.

Section Enumerations.
Context {T : Type} {E : Enum T}.

Lemma of_code_code (x : T) : of_code (code x) = Some x.
Proof. apply decode_code. Qed.

Lemma code_inj (x y : T) : code x = code y -> x = y.
Proof. intros Hc. apply (inj Some). by rewrite <- !of_code_code, Hc. Qed.

Lemma code_of_code (z : Z) (x : T) : of_code z = Some x -> code x = z.
Proof. intros H. by apply find_some in H as [_ ?%Z.eqb_eq]. Qed.

Definition enum_eq_decision : EqDecision T := fun x y =>
  match decide (code x = code y) with
  | left e => left (code_inj x y e)
  | right n => right (fun e => n (f_equal code e))
  end.
End Enumerations.

Class ByteEnum (T : Type) `{Enum T} : Type := {
  of_byte : Z -> T;
  code_of_byte : forall z, (0 <= z < 256)%Z -> code (of_byte z) = z;
  code_range : forall x : T, (0 <= code x < 256)%Z
}.

Lemma of_byte_code {T : Type} `{ByteEnum T} (x : T) : of_byte (code x) = x.
Proof. apply code_inj, code_of_byte, code_range. Qed.

(** A byte enumeration through a signed byte and back. *)
Lemma of_byte_i8 {T : Type} `{ByteEnum T} (x : T) : of_byte (u8 (i8 (code x))) = x.
Proof. rewrite u8_i8, wrap_small by apply code_range. apply of_byte_code. Qed.

(** The cases of [decode_code] for an enumeration whose values are its enumerators and
    then [Unnamed] ones, numbered on from them. *)
Ltac unnamed_decodes :=
  apply decode_among_inj;
  [apply elem_of_app; right; apply list_elem_of_fmap_2, elem_of_enum
  |let y := fresh "y" in let H := fresh "H" in
   intros y H; destruct y; cbn in H;
   first [exfalso; lia|f_equal; apply (inj fin_to_nat); lia]].
(** Every byte is the code of a value. *)
Definition covers_bytes {T : Type} `{Enum T} (of_byte : Z -> T) : bool :=
  forallb (fun z => (code (of_byte z) =? z)%Z) (seqZ 0 256).
Lemma covers_byte {T : Type} `{Enum T} (of_byte : Z -> T) z :
  covers_bytes of_byte = true -> (0 <= z < 256)%Z -> code (of_byte z) = z.
Proof.
  intros Hall Hz. apply Z.eqb_eq. unfold covers_bytes in Hall. rewrite forallb_forall in Hall.
  apply Hall, list_elem_of_In, elem_of_seqZ. lia.
Qed.

(** ** Automation *)

(** Case analysis on every [match]/[if] scrutinee of the goal or a hypothesis. *)
Ltac split_matches :=
  repeat (case_match; simplify_eq/=; try done).

(** Evaluates the comparisons of closed enumerators in the goal. *)
Ltac eval_decides :=
  repeat match goal with
  | |- context [bool_decide ?P] =>
      let b := eval vm_compute in (bool_decide P) in change (bool_decide P) with b
  end.
