(* ===== verification/Float32.v ===== *)
(** * IEEE-754 arithmetic

    The [float] of the C++ source, and its [double] as binary64, as the Standard
    Library's executable [SpecFloat] at the precision and exponent range of the
    format: every operation rounds to nearest even, as the
    default rounding mode does.  The standard functions the physics code calls
    ([std::min], [std::max], [std::clamp]) are written out on the comparison
    [<], so that their behaviour on a NaN is the code's. *)
From S2P Require Import Prelude.
From Stdlib Require Import SpecFloat.
Local Open Scope Z_scope.

Definition f32_prec : Z := 24.
Definition f32_emax : Z := 128.

Definition float : Set := spec_float.

Definition f32_of_Z (z : Z) : float := binary_normalize f32_prec f32_emax z 0 false.
(** The literal [m / 10^k]; correctly rounded, since both operands are exact. *)
Definition f32_lit (m k : Z) : float :=
  SFdiv f32_prec f32_emax (f32_of_Z m) (f32_of_Z (10 ^ k)).

Definition f32_add : float -> float -> float := SFadd f32_prec f32_emax.
Definition f32_sub : float -> float -> float := SFsub f32_prec f32_emax.
Definition f32_mul : float -> float -> float := SFmul f32_prec f32_emax.
Definition f32_div : float -> float -> float := SFdiv f32_prec f32_emax.
Definition f32_ltb : float -> float -> bool := SFltb.
Definition f32_leb : float -> float -> bool := SFleb.
Definition f32_zero : float := S754_zero false.

Declare Scope f32_scope.
Delimit Scope f32_scope with f32.
Infix "+" := f32_add : f32_scope.
Infix "-" := f32_sub : f32_scope.
Infix "*" := f32_mul : f32_scope.
Infix "/" := f32_div : f32_scope.
Infix "<?" := f32_ltb : f32_scope.
Infix "<=?" := f32_leb : f32_scope.
Notation "a >? b" := (f32_ltb b a) (only parsing) : f32_scope.
Notation "a >=? b" := (f32_leb b a) (only parsing) : f32_scope.

(** [std::min], [std::max] and [std::clamp] of [<algorithm>]. *)
Definition f32_min (a b : float) : float := if f32_ltb b a then b else a.
Definition f32_max (a b : float) : float := if f32_ltb a b then b else a.
Definition f32_clamp (v lo hi : float) : float :=
  if f32_ltb v lo then lo else if f32_ltb hi v then hi else v.

Definition f32_is_nan (x : float) : bool :=
  match x with S754_nan => true | _ => false end.

(** ** Binary64 *)

Definition f64_of_f32 (x : float) : float :=
  match x with S754_finite s m e => binary_round 53 1024 s m e | _ => x end.
Definition f64_of_Z (z : Z) : float := binary_normalize 53 1024 z 0 false.
Definition f64_add : float -> float -> float := SFadd 53 1024.
Definition f64_sub : float -> float -> float := SFsub 53 1024.
Definition f64_mul : float -> float -> float := SFmul 53 1024.
Definition f64_div : float -> float -> float := SFdiv 53 1024.
Definition f64_zero : float := S754_zero false.
Definition f64_one : float := f64_of_Z 1.
Definition f32_of_f64 (x : float) : float :=
  match x with S754_finite s m e => binary_round f32_prec f32_emax s m e | _ => x end.
(** [std::isfinite]. *)
Definition is_finite (x : float) : bool :=
  match x with S754_finite _ _ _ | S754_zero _ => true | _ => false end.

(** ** Order facts *)
Lemma f32_ltb_irrefl x : f32_ltb x x = false.
Proof.
  unfold f32_ltb, SFltb, SFcompare. destruct x as [[]|[]| |[] m e]; try done.
  - by rewrite Z.compare_refl, Pos.compare_cont_refl.
  - by rewrite Z.compare_refl, Pos.compare_cont_refl.
Qed.

Lemma f32_clamp_lo v lo hi : f32_ltb hi lo = false -> f32_ltb (f32_clamp v lo hi) lo = false.
Proof. unfold f32_clamp. intros H. repeat case_match; auto using f32_ltb_irrefl. Qed.

Lemma f32_clamp_hi v lo hi : f32_ltb hi lo = false -> f32_ltb hi (f32_clamp v lo hi) = false.
Proof. unfold f32_clamp. intros H. repeat case_match; auto using f32_ltb_irrefl. Qed.

(** Off the NaNs, [<=] is the negation of [>]. *)
Lemma f32_leb_ltb x y :
  f32_is_nan x = false -> f32_is_nan y = false -> f32_leb x y = negb (f32_ltb y x).
Proof.
  unfold f32_leb, f32_ltb, SFleb, SFltb, SFcompare.
  destruct x as [|[]| |[] mx ex], y as [|[]| |[] my ey]; try done; intros _ _; cbn [negb].
  all: rewrite (Z.compare_antisym ex ey).
  all: change (Pos.compare_cont Eq my mx) with (Pos.compare my mx).
  all: change (Pos.compare_cont Eq mx my) with (Pos.compare mx my).
  all: rewrite (Pos.compare_antisym mx my); by destruct (ex ?= ey), (Pos.compare mx my).
Qed.
