(* ===== verification/Types.v ===== *)
(** * Types: the vocabulary shared by all engine modules

    [engine/include/engine/core/types.hpp]: the 48-bit structured [UID] and
    its codec, the device-state enumerations, and the value records exchanged
    between the engine and the server.  An [enum class] is a module holding its
    enumerators ([t]); [code] is the underlying integer. *)
From S2P Require Import Prelude Float32.
Local Open Scope Z_scope.

(* SRC engine/include/engine/core/types.hpp 19-19 ENGINE_TICKS_PER_SECOND *)
Definition ENGINE_TICKS_PER_SECOND : Z := 20.

(** ** Universal identifiers *)

(* SRC engine/include/engine/core/types.hpp 26-30 UID *)
Record UID := mkUID { value : Z }.

#[global] Instance UID_eq_dec : EqDecision UID.
Proof. solve_decision. Defined.
#[global] Instance UID_countable : Countable UID.
Proof. refine (inj_countable' value mkUID _). by intros []. Defined.

(* SRC engine/include/engine/core/types.hpp 34-38 PlayerID *)
Record PlayerID := mkPlayerID { player_value : string }.

#[global] Instance PlayerID_eq_dec : EqDecision PlayerID.
Proof. solve_decision. Defined.

(* SRC engine/include/engine/core/types.hpp 40-45 UIDDomain *)
Module UIDDomain.
Inductive t : Set := | ROLLING_STOCK | INFRASTRUCTURE | OPERATIONS.
Definition to_code (x : t) : BinNums.Z :=
  match x with | ROLLING_STOCK => 1 | INFRASTRUCTURE => 2 | OPERATIONS => 3 end%Z.
Definition all : list t := [ROLLING_STOCK; INFRASTRUCTURE; OPERATIONS].
#[global] Instance enum : Enum t.
Proof. refine {| code := to_code; enumerators := all |}. by intros []. Defined.
#[global] Instance eq_dec : EqDecision t := enum_eq_decision.
End UIDDomain.

(* SRC engine/include/engine/core/types.hpp 47-75 UIDKind *)
Module UIDKind.
Inductive t : Set := | VEHICLE_TYPE | VEHICLE | TRAIN_CONSIST | CARRIER | STATION
  | DISPATCH_AREA | TRACK_SECTION | SWITCH | SIGNAL | DERAILER | BLOCK_SECTION | BOUNDARY_NODE
  | LEVEL_CROSSING | AXLE_COUNTER | INTERLOCKING | POWER_SUPPLY | ROUTE | ALARM
  | DISPATCH_EXCHANGE | TIMETABLE_POINT | TIMETABLE_CONNECTION.
Definition to_code (x : t) : BinNums.Z :=
  match x with | VEHICLE_TYPE => 1 | VEHICLE => 2 | TRAIN_CONSIST => 3 | CARRIER => 4
  | STATION => 17 | DISPATCH_AREA => 18 | TRACK_SECTION => 19 | SWITCH => 20 | SIGNAL => 21
  | DERAILER => 22 | BLOCK_SECTION => 23 | BOUNDARY_NODE => 24 | LEVEL_CROSSING => 25
  | AXLE_COUNTER => 26 | INTERLOCKING => 27 | POWER_SUPPLY => 28 | ROUTE => 33 | ALARM => 34
  | DISPATCH_EXCHANGE => 35 | TIMETABLE_POINT => 36 | TIMETABLE_CONNECTION => 37 end%Z.
Definition all : list t := [VEHICLE_TYPE; VEHICLE; TRAIN_CONSIST; CARRIER; STATION
  ; DISPATCH_AREA; TRACK_SECTION; SWITCH; SIGNAL; DERAILER; BLOCK_SECTION; BOUNDARY_NODE
  ; LEVEL_CROSSING; AXLE_COUNTER; INTERLOCKING; POWER_SUPPLY; ROUTE; ALARM; DISPATCH_EXCHANGE
  ; TIMETABLE_POINT; TIMETABLE_CONNECTION].
#[global] Instance enum : Enum t.
Proof. refine {| code := to_code; enumerators := all |}. by intros []. Defined.
#[global] Instance eq_dec : EqDecision t := enum_eq_decision.
End UIDKind.

(* SRC engine/include/engine/core/types.hpp 77-77 UID_MAX_SAFE_JSON_INTEGER *)
Definition UID_MAX_SAFE_JSON_INTEGER : Z := Z.shiftl 1 53 - 1.

(* SRC engine/include/engine/core/types.hpp 79-85 make_uid *)
Definition make_uid (domain : UIDDomain.t) (kind : UIDKind.t) (scope instance_ : Z) : UID :=
  mkUID (Z.lor (Z.lor (Z.lor (Z.shiftl (code domain) 40) (Z.shiftl (code kind) 32))
                      (Z.shiftl scope 16)) instance_).

(** The two enum-typed accessors return the byte a [static_cast] to the enum
    keeps: it may name no enumerator. *)
(* SRC engine/include/engine/core/types.hpp 87-90 uid_domain *)
Definition uid_domain (uid : UID) : Z := Z.land (Z.shiftr (value uid) 40) 0xFF.

(* SRC engine/include/engine/core/types.hpp 92-95 uid_kind *)
Definition uid_kind (uid : UID) : Z := Z.land (Z.shiftr (value uid) 32) 0xFF.

(* SRC engine/include/engine/core/types.hpp 97-100 uid_scope *)
Definition uid_scope (uid : UID) : Z := u16 (Z.land (Z.shiftr (value uid) 16) 0xFFFF).

(* SRC engine/include/engine/core/types.hpp 102-105 uid_instance *)
Definition uid_instance (uid : UID) : Z := u16 (Z.land (value uid) 0xFFFF).

(* SRC engine/include/engine/core/types.hpp 107-110 uid_is_safe_json_integer *)
Definition uid_is_safe_json_integer (uid : UID) : bool :=
  value uid <=? UID_MAX_SAFE_JSON_INTEGER.

(* SRC engine/include/engine/core/types.hpp 112-115 uid_has_kind *)
Definition uid_has_kind (uid : UID) (domain : UIDDomain.t) (kind : UIDKind.t) : bool :=
  uid_is_safe_json_integer uid && (uid_domain uid =? code domain) && (uid_kind uid =? code kind).

(** [UID{}]: the zero identifier, which no object carries. *)
Definition UID_zero : UID := mkUID 0.

(** ** Device-state enumerations *)

(* SRC engine/include/engine/core/types.hpp 122-128 CommandPriority *)
Module CommandPriority.
Inductive t : Set := | EMERGENCY | SAFETY | NORMAL | BACKGROUND.
Definition to_code (x : t) : BinNums.Z :=
  match x with | EMERGENCY => 0 | SAFETY => 1 | NORMAL => 2 | BACKGROUND => 3 end%Z.
Definition all : list t := [EMERGENCY; SAFETY; NORMAL; BACKGROUND].
#[global] Instance enum : Enum t.
Proof. refine {| code := to_code; enumerators := all |}. by intros []. Defined.
#[global] Instance eq_dec : EqDecision t := enum_eq_decision.
End CommandPriority.

(* SRC engine/include/engine/core/types.hpp 132-136 TrackOccupancy *)
Module TrackOccupancy.
Inductive t : Set := | FREE | OCCUPIED.
Definition to_code (x : t) : BinNums.Z :=
  match x with | FREE => 0 | OCCUPIED => 1 end%Z.
Definition all : list t := [FREE; OCCUPIED].
#[global] Instance enum : Enum t.
Proof. refine {| code := to_code; enumerators := all |}. by intros []. Defined.
#[global] Instance eq_dec : EqDecision t := enum_eq_decision.
End TrackOccupancy.

(* SRC engine/include/engine/core/types.hpp 138-144 SwitchPosition *)
Module SwitchPosition.
Inductive t : Set := | STRAIGHT | DIVERGENT | MOVING | TRAILED_DAMAGED.
Definition to_code (x : t) : BinNums.Z :=
  match x with | STRAIGHT => 0 | DIVERGENT => 1 | MOVING => 2 | TRAILED_DAMAGED => 3 end%Z.
Definition all : list t := [STRAIGHT; DIVERGENT; MOVING; TRAILED_DAMAGED].
#[global] Instance enum : Enum t.
Proof. refine {| code := to_code; enumerators := all |}. by intros []. Defined.
#[global] Instance eq_dec : EqDecision t := enum_eq_decision.
End SwitchPosition.

(* SRC engine/include/engine/core/types.hpp 154-160 LevelCrossingStatus *)
Module LevelCrossingStatus.
Inductive t : Set := | OPEN | WARNING | CLOSED | FAULT_NO_CONTROL.
Definition to_code (x : t) : BinNums.Z :=
  match x with | OPEN => 0 | WARNING => 1 | CLOSED => 2 | FAULT_NO_CONTROL => 3 end%Z.
Definition all : list t := [OPEN; WARNING; CLOSED; FAULT_NO_CONTROL].
#[global] Instance enum : Enum t.
Proof. refine {| code := to_code; enumerators := all |}. by intros []. Defined.
#[global] Instance eq_dec : EqDecision t := enum_eq_decision.
End LevelCrossingStatus.

(* SRC engine/include/engine/core/types.hpp 172-191 SignalAspect *)
Module SignalAspect.
Inductive t : Set := | S1_STOP | S2_PROCEED | S3_PROCEED_40 | S4_PROCEED_40_EXPECT_STOP
  | S5_EXPECT_STOP | S6_PROCEED_100 | S7_PROCEED_100_EXPECT_STOP | S8_PROCEED_100_EXPECT_40
  | S9_PROCEED_100_EXPECT_60 | S10_PROCEED_40 | S11_PROCEED_40_EXPECT_40 | S12_PROCEED_60
  | S13_PROCEED_60_EXPECT_60 | SZ_PROCEED | SZN_PROCEED_W24 | MS1_STOP | MS2_SHUNTING_ALLOWED | Unnamed (n : fin 239).
Definition to_code (x : t) : BinNums.Z :=
  match x with | S1_STOP => 0 | S2_PROCEED => 1 | S3_PROCEED_40 => 2
  | S4_PROCEED_40_EXPECT_STOP => 3 | S5_EXPECT_STOP => 4 | S6_PROCEED_100 => 5
  | S7_PROCEED_100_EXPECT_STOP => 6 | S8_PROCEED_100_EXPECT_40 => 7
  | S9_PROCEED_100_EXPECT_60 => 8 | S10_PROCEED_40 => 9 | S11_PROCEED_40_EXPECT_40 => 10
  | S12_PROCEED_60 => 11 | S13_PROCEED_60_EXPECT_60 => 12 | SZ_PROCEED => 13
  | SZN_PROCEED_W24 => 14 | MS1_STOP => 15 | MS2_SHUNTING_ALLOWED => 16
  | Unnamed n => 17 + Z.of_nat (fin_to_nat n) end%Z.
Definition named : list t := [S1_STOP; S2_PROCEED; S3_PROCEED_40; S4_PROCEED_40_EXPECT_STOP
  ; S5_EXPECT_STOP; S6_PROCEED_100; S7_PROCEED_100_EXPECT_STOP; S8_PROCEED_100_EXPECT_40
  ; S9_PROCEED_100_EXPECT_60; S10_PROCEED_40; S11_PROCEED_40_EXPECT_40; S12_PROCEED_60
  ; S13_PROCEED_60_EXPECT_60; SZ_PROCEED; SZN_PROCEED_W24; MS1_STOP; MS2_SHUNTING_ALLOWED].
Definition all : list t := named ++ (Unnamed <$> enum (fin 239)).
#[global] Instance enum : Enum t.
Proof. refine {| code := to_code; enumerators := all |}. intros []; try reflexivity. unnamed_decodes. Defined.
Definition cast (z : BinNums.Z) : t := default S1_STOP (of_code z).
#[global] Instance byte_enum : ByteEnum t.
Proof.
  refine {| of_byte := cast |}; [intros z; apply (covers_byte cast); by vm_compute|].
  intros []; cbn; try lia. pose proof (fin_to_nat_lt n). lia.
Defined.
#[global] Instance eq_dec : EqDecision t := enum_eq_decision.
End SignalAspect.

(* SRC engine/include/engine/core/types.hpp 198-206 RandomEventType *)
Module RandomEventType.
Inductive t : Set := | TRACK_CLOSURE | INFRASTRUCTURE_FAIL | MEDICAL_EMERGENCY | POLICE_CALL
  | RECOVERY_TRAIN | PASSENGER_ALARM.
Definition to_code (x : t) : BinNums.Z :=
  match x with | TRACK_CLOSURE => 0 | INFRASTRUCTURE_FAIL => 1 | MEDICAL_EMERGENCY => 2
  | POLICE_CALL => 3 | RECOVERY_TRAIN => 4 | PASSENGER_ALARM => 5 end%Z.
Definition all : list t := [TRACK_CLOSURE; INFRASTRUCTURE_FAIL; MEDICAL_EMERGENCY; POLICE_CALL
  ; RECOVERY_TRAIN; PASSENGER_ALARM].
#[global] Instance enum : Enum t.
Proof. refine {| code := to_code; enumerators := all |}. by intros []. Defined.
#[global] Instance eq_dec : EqDecision t := enum_eq_decision.
End RandomEventType.

(* SRC engine/include/engine/core/types.hpp 214-219 TrainCategory *)
Module TrainCategory.
Inductive t : Set := | PASSENGER | FREIGHT | MAINTENANCE.
Definition to_code (x : t) : BinNums.Z :=
  match x with | PASSENGER => 0 | FREIGHT => 1 | MAINTENANCE => 2 end%Z.
Definition all : list t := [PASSENGER; FREIGHT; MAINTENANCE].
#[global] Instance enum : Enum t.
Proof. refine {| code := to_code; enumerators := all |}. by intros []. Defined.
#[global] Instance eq_dec : EqDecision t := enum_eq_decision.
End TrainCategory.

(* SRC engine/include/engine/core/types.hpp 223-227 TractionStatus *)
Module TractionStatus.
Inductive t : Set := | OPERATIONAL | DEFECTIVE.
Definition to_code (x : t) : BinNums.Z :=
  match x with | OPERATIONAL => 0 | DEFECTIVE => 1 end%Z.
Definition all : list t := [OPERATIONAL; DEFECTIVE].
#[global] Instance enum : Enum t.
Proof. refine {| code := to_code; enumerators := all |}. by intros []. Defined.
#[global] Instance eq_dec : EqDecision t := enum_eq_decision.
End TractionStatus.

(* SRC engine/include/engine/core/types.hpp 233-245 DispatchFormType *)
Module DispatchFormType.
Inductive t : Set := | S2 | S24 | S25 | S26 | S35 | S51 | S52 | S55 | S56 | S76.
Definition to_code (x : t) : BinNums.Z :=
  match x with | S2 => 0 | S24 => 1 | S25 => 2 | S26 => 3 | S35 => 4 | S51 => 5 | S52 => 6
  | S55 => 7 | S56 => 8 | S76 => 9 end%Z.
Definition all : list t := [S2; S24; S25; S26; S35; S51; S52; S55; S56; S76].
#[global] Instance enum : Enum t.
Proof. refine {| code := to_code; enumerators := all |}. by intros []. Defined.
#[global] Instance eq_dec : EqDecision t := enum_eq_decision.
End DispatchFormType.

(* SRC engine/include/engine/core/types.hpp 254-258 TelegramDirection *)
Module TelegramDirection.
Inductive t : Set := | SENT | RECEIVED.
Definition to_code (x : t) : BinNums.Z :=
  match x with | SENT => 0 | RECEIVED => 1 end%Z.
Definition all : list t := [SENT; RECEIVED].
#[global] Instance enum : Enum t.
Proof. refine {| code := to_code; enumerators := all |}. by intros []. Defined.
#[global] Instance eq_dec : EqDecision t := enum_eq_decision.
End TelegramDirection.

(* SRC engine/include/engine/core/types.hpp 260-266 TelegramStatus *)
Module TelegramStatus.
Inductive t : Set := | PENDING | CONFIRMED | REJECTED | SUPERSEDED.
Definition to_code (x : t) : BinNums.Z :=
  match x with | PENDING => 0 | CONFIRMED => 1 | REJECTED => 2 | SUPERSEDED => 3 end%Z.
Definition all : list t := [PENDING; CONFIRMED; REJECTED; SUPERSEDED].
#[global] Instance enum : Enum t.
Proof. refine {| code := to_code; enumerators := all |}. by intros []. Defined.
#[global] Instance eq_dec : EqDecision t := enum_eq_decision.
End TelegramStatus.

(* SRC engine/include/engine/core/types.hpp 270-279 ExchangeStatus *)
Module ExchangeStatus.
Inductive t : Set := | IDLE | S2_SENT | S24_RECEIVED | S25_SENT | S26_RECEIVED | CLOSED
  | CANCELLED.
Definition to_code (x : t) : BinNums.Z :=
  match x with | IDLE => 0 | S2_SENT => 1 | S24_RECEIVED => 2 | S25_SENT => 3
  | S26_RECEIVED => 4 | CLOSED => 5 | CANCELLED => 6 end%Z.
Definition all : list t := [IDLE; S2_SENT; S24_RECEIVED; S25_SENT; S26_RECEIVED; CLOSED
  ; CANCELLED].
#[global] Instance enum : Enum t.
Proof. refine {| code := to_code; enumerators := all |}. by intros []. Defined.
#[global] Instance eq_dec : EqDecision t := enum_eq_decision.
End ExchangeStatus.

(* SRC engine/include/engine/core/types.hpp 285-290 ChangeCause *)
Module ChangeCause.
Inductive t : Set := | COMMAND | AUTO | TIMEOUT.
Definition to_code (x : t) : BinNums.Z :=
  match x with | COMMAND => 0 | AUTO => 1 | TIMEOUT => 2 end%Z.
Definition all : list t := [COMMAND; AUTO; TIMEOUT].
#[global] Instance enum : Enum t.
Proof. refine {| code := to_code; enumerators := all |}. by intros []. Defined.
#[global] Instance eq_dec : EqDecision t := enum_eq_decision.
End ChangeCause.

(* SRC engine/include/engine/core/types.hpp 294-298 DerailerState *)
Module DerailerState.
Inductive t : Set := | LOCKED | UNLOCKED.
Definition to_code (x : t) : BinNums.Z :=
  match x with | LOCKED => 0 | UNLOCKED => 1 end%Z.
Definition all : list t := [LOCKED; UNLOCKED].
#[global] Instance enum : Enum t.
Proof. refine {| code := to_code; enumerators := all |}. by intros []. Defined.
#[global] Instance eq_dec : EqDecision t := enum_eq_decision.
End DerailerState.

(* SRC engine/include/engine/core/types.hpp 305-314 BlockDirectionState *)
Module BlockDirectionState.
Inductive t : Set := | NEUTRAL | OUTBOUND_PENDING | OUTBOUND | INBOUND_PENDING | INBOUND
  | EMERGENCY | RESET_PENDING.
Definition to_code (x : t) : BinNums.Z :=
  match x with | NEUTRAL => 0 | OUTBOUND_PENDING => 1 | OUTBOUND => 2 | INBOUND_PENDING => 3
  | INBOUND => 4 | EMERGENCY => 5 | RESET_PENDING => 6 end%Z.
Definition all : list t := [NEUTRAL; OUTBOUND_PENDING; OUTBOUND; INBOUND_PENDING; INBOUND
  ; EMERGENCY; RESET_PENDING].
#[global] Instance enum : Enum t.
Proof. refine {| code := to_code; enumerators := all |}. by intros []. Defined.
#[global] Instance eq_dec : EqDecision t := enum_eq_decision.
End BlockDirectionState.

(* SRC engine/include/engine/core/types.hpp 318-322 BlockSectionState *)
Module BlockSectionState.
Inductive t : Set := | CLOSED | OPEN.
Definition to_code (x : t) : BinNums.Z :=
  match x with | CLOSED => 0 | OPEN => 1 end%Z.
Definition all : list t := [CLOSED; OPEN].
#[global] Instance enum : Enum t.
Proof. refine {| code := to_code; enumerators := all |}. by intros []. Defined.
#[global] Instance eq_dec : EqDecision t := enum_eq_decision.
End BlockSectionState.

(* SRC engine/include/engine/core/types.hpp 332-336 EntrySide *)
Module EntrySide.
Inductive t : Set := | LEFT | RIGHT.
Definition to_code (x : t) : BinNums.Z :=
  match x with | LEFT => 0 | RIGHT => 1 end%Z.
Definition all : list t := [LEFT; RIGHT].
#[global] Instance enum : Enum t.
Proof. refine {| code := to_code; enumerators := all |}. by intros []. Defined.
#[global] Instance eq_dec : EqDecision t := enum_eq_decision.
End EntrySide.

(** ** Records *)

(* SRC engine/include/engine/core/types.hpp 146-150 SwitchControlStateChange *)
Record SwitchControlStateChange := mkSwitchControlStateChange {
  scsc_switch_uid : UID; scsc_control_lost : bool }.

(* SRC engine/include/engine/core/types.hpp 162-166 LevelCrossingStateChange *)
Record LevelCrossingStateChange := mkLevelCrossingStateChange {
  lxsc_crossing_uid : UID; lxsc_status : LevelCrossingStatus.t }.

(* SRC engine/include/engine/core/types.hpp 247-250 EmergencyRouteReleaseExecuted *)
Record EmergencyRouteReleaseExecuted := mkEmergencyRouteReleaseExecuted { erre_route_uid : UID }.

(* SRC engine/include/engine/core/types.hpp 342-350 TrainSlot *)
Record TrainSlot := mkTrainSlot {
  slot_number : string;
  slot_has_extra_info : bool;
  slot_manually_placed : bool;
  slot_entry_side : EntrySide.t }.

#[global] Instance TrainSlot_eq_dec : EqDecision TrainSlot.
Proof. solve_decision. Defined.

(* SRC engine/include/engine/core/types.hpp 355-367 PipEvent *)
Record PipEvent := mkPipEvent {
  pip_section_uid : UID;
  pip_station_uid : UID;
  pip_occupancy : TrackOccupancy.t;
  pip_slot : option TrainSlot;
  pip_lcs_boundary_crossing : bool }.

(* SRC engine/include/engine/core/types.hpp 371-379 TrainSnapshot *)
Record TrainSnapshot := mkTrainSnapshot {
  tsn_uid : UID;
  tsn_section_uid : UID;
  tsn_speed_kmh : float;
  tsn_total_length_m : float;
  tsn_total_axles : Z;
  tsn_vehicle_uids : list UID }.

(** ** The UID codec *)

(** The [uint64_t] range of an identifier, and the range of the 48-bit layout. *)
Definition uid_u64 (uid : UID) : Prop := fits 64 (value uid).
Definition uid_structured (uid : UID) : Prop := fits 48 (value uid).

Lemma enum_byte (d : UIDDomain.t) (k : UIDKind.t) : fits 8 (code d) /\ fits 8 (code k).
Proof. by destruct d, k. Qed.

Lemma make_uid_value d k scope inst :
  fits 16 scope -> fits 16 inst ->
  value (make_uid d k scope inst)
  = code d * 2 ^ 40 + code k * 2 ^ 32 + scope * 2 ^ 16 + inst.
Proof.
  intros Hs Hi. destruct (enum_byte d k) as [Hd Hk]. unfold make_uid, fits in *. cbn [value].
  rewrite <- !Z.lor_assoc. rewrite (lor_shiftl scope inst 16) by lia.
  rewrite (lor_shiftl (code k) _ 32) by lia. rewrite (lor_shiftl (code d) _ 40) by lia. lia.
Qed.

Lemma uid_fields_div uid :
  uid_domain uid = value uid / 2 ^ 40 mod 2 ^ 8 /\
  uid_kind uid = value uid / 2 ^ 32 mod 2 ^ 8 /\
  uid_scope uid = value uid / 2 ^ 16 mod 2 ^ 16 /\
  uid_instance uid = value uid mod 2 ^ 16.
Proof.
  unfold uid_domain, uid_kind, uid_scope, uid_instance.
  change 255 with (Z.ones 8). change 65535 with (Z.ones 16).
  rewrite !Z.land_ones, !Z.shiftr_div_pow2 by lia. unfold wrap. rewrite !Zmod_mod. done.
Qed.

(** The layout is positional: the four fields of an identifier are the digits
    of its value, in both directions. *)
Lemma uid_fields_of_value uid d k s i :
  fits 8 d -> fits 8 k -> fits 16 s -> fits 16 i ->
  value uid = d * 2 ^ 40 + k * 2 ^ 32 + s * 2 ^ 16 + i ->
  uid_domain uid = d /\ uid_kind uid = k /\ uid_scope uid = s /\ uid_instance uid = i.
Proof.
  unfold fits. intros ???? Hv. destruct (uid_fields_div uid) as (Hd & Hk & Hs & Hi).
  rewrite Hd, Hk, Hs, Hi, Hv. clear Hd Hk Hs Hi Hv.
  split_and!; Z.div_mod_to_equations; lia.
Qed.

Lemma uid_value_of_fields uid :
  uid_structured uid ->
  value uid = uid_domain uid * 2 ^ 40 + uid_kind uid * 2 ^ 32 +
              uid_scope uid * 2 ^ 16 + uid_instance uid.
Proof.
  unfold uid_structured, fits. destruct (uid_fields_div uid) as (Hd & Hk & Hs & Hi).
  rewrite Hd, Hk, Hs, Hi. clear Hd Hk Hs Hi. intros. Z.div_mod_to_equations; lia.
Qed.

Lemma uid_scope_fits uid : fits 16 (uid_scope uid).
Proof. apply wrap_fits. lia. Qed.
Lemma uid_instance_fits uid : fits 16 (uid_instance uid).
Proof. apply wrap_fits. lia. Qed.

(** Packing and unpacking an identifier are inverse, and a packed identifier uses
    48 bits, so it is a JSON-safe integer of its own domain and kind. *)
Theorem uid_codec_roundtrip d k scope inst :
  fits 16 scope -> fits 16 inst ->
  let uid := make_uid d k scope inst in
  uid_domain uid = code d /\ uid_kind uid = code k /\
  uid_scope uid = scope /\ uid_instance uid = inst /\
  uid_structured uid /\ uid_has_kind uid d k = true.
Proof.
  intros Hs Hi uid. destruct (enum_byte d k) as [Hd Hk].
  pose proof (make_uid_value d k scope inst Hs Hi) as Hv. fold uid in Hv.
  destruct (uid_fields_of_value uid (code d) (code k) scope inst) as (Ed & Ek & Es & Ei);
    [done..|].
  split_and!; [done..| |].
  - unfold uid_structured, fits in *. lia.
  - unfold uid_has_kind, uid_is_safe_json_integer. rewrite Ed, Ek, !Z.eqb_refl.
    change UID_MAX_SAFE_JSON_INTEGER with (2 ^ 53 - 1). unfold fits in *.
    destruct (Z.leb_spec (value uid) (2 ^ 53 - 1)); [done | lia].
Qed.

Example uid_codec_roundtrip_witness :
  value (make_uid UIDDomain.INFRASTRUCTURE UIDKind.SIGNAL 1 7) = 2289217634311 /\
  uid_scope (make_uid UIDDomain.INFRASTRUCTURE UIDKind.SIGNAL 1 7) = 1.
Proof.
  split; [reflexivity|].
  apply (uid_codec_roundtrip UIDDomain.INFRASTRUCTURE UIDKind.SIGNAL 1 7); by vm_compute.
Defined.

(** Every 48-bit identifier whose domain and kind bytes name enumerators is the
    packing of its own fields, so distinct objects cannot share one. *)
Theorem make_uid_surjective uid d k :
  uid_structured uid ->
  of_code (uid_domain uid) = Some d -> of_code (uid_kind uid) = Some k ->
  make_uid d k (uid_scope uid) (uid_instance uid) = uid.
Proof.
  intros Hu Hd%code_of_code Hk%code_of_code.
  pose proof (make_uid_value d k _ _ (uid_scope_fits uid) (uid_instance_fits uid)) as Hv.
  pose proof (uid_value_of_fields uid Hu) as Hu'.
  destruct (make_uid d k _ _) as [v], uid as [u]. cbn [value] in Hv, Hu'.
  f_equal. rewrite Hv, Hd, Hk. symmetry. exact Hu'.
Qed.

Example make_uid_surjective_witness :
  make_uid UIDDomain.OPERATIONS UIDKind.ROUTE 3 9 = mkUID 3440269000713.
Proof. apply (make_uid_surjective (mkUID 3440269000713)); by vm_compute. Defined.
