(* ===== verification/Commands.v ===== *)
(** * Commands: operator command payloads and their envelope

    [engine/include/engine/core/command.hpp]: one record per command, the
    [Command] variant, the metadata added by the ingress, and the diagnostic
    names of the operator command codes. *)
From S2P Require Import Prelude Types.
Local Open Scope Z_scope.

(** ** Station and device commands *)

(* SRC engine/include/engine/core/command.hpp 26-30 SetSwitchPositionCmd *)
Record SetSwitchPositionCmd := mkSetSwitchPositionCmd { ssp_uid : UID; ssp_position : SwitchPosition.t }.

(* SRC engine/include/engine/core/command.hpp 32-36 SetSignalAspectCmd *)
Record SetSignalAspectCmd := mkSetSignalAspectCmd { ssa_uid : UID; ssa_aspect : SignalAspect.t }.

(* SRC engine/include/engine/core/command.hpp 38-42 SetDerailerPositionCmd *)
Record SetDerailerPositionCmd := mkSetDerailerPositionCmd { sdp_uid : UID; sdp_position : DerailerState.t }.

(* SRC engine/include/engine/core/command.hpp 44-48 SetBlockSectionCmd *)
Record SetBlockSectionCmd := mkSetBlockSectionCmd { sbs_uid : UID; sbs_state : BlockSectionState.t }.

(* SRC engine/include/engine/core/command.hpp 50-54 RequestRouteCmd *)
Record RequestRouteCmd := mkRequestRouteCmd { rr_from_signal_uid : UID; rr_to_signal_uid : UID }.

(* SRC engine/include/engine/core/command.hpp 56-60 CancelRouteCmd *)
Record CancelRouteCmd := mkCancelRouteCmd { cr_route_uid : UID; cr_force : bool }.

(* SRC engine/include/engine/core/command.hpp 62-65 AcknowledgeAlarmCmd *)
Record AcknowledgeAlarmCmd := mkAcknowledgeAlarmCmd { aa_alarm_uid : UID }.

(** ** SHL-12 block direction and axle-counter commands *)

(* SRC engine/include/engine/core/command.hpp 71-80 Shl12Op *)
Module Shl12Op.
Inductive t : Set := | BLW | BLP | BLO | BLZ | BLAI | BLA | OPS | Unnamed (n : fin 249).
Definition to_code (x : t) : BinNums.Z :=
  match x with | BLW => 0 | BLP => 1 | BLO => 2 | BLZ => 3 | BLAI => 4 | BLA => 5 | OPS => 6
  | Unnamed n => 7 + Z.of_nat (fin_to_nat n) end%Z.
Definition named : list t := [BLW; BLP; BLO; BLZ; BLAI; BLA; OPS].
Definition all : list t := named ++ (Unnamed <$> enum (fin 249)).
#[global] Instance enum : Enum t.
Proof. refine {| code := to_code; enumerators := all |}. intros []; try reflexivity. unnamed_decodes. Defined.
Definition cast (z : BinNums.Z) : t := default BLW (of_code z).
#[global] Instance byte_enum : ByteEnum t.
Proof.
  refine {| of_byte := cast |}; [intros z; apply (covers_byte cast); by vm_compute|].
  intros []; cbn; try lia. pose proof (fin_to_nat_lt n). lia.
Defined.
#[global] Instance eq_dec : EqDecision t := enum_eq_decision.
End Shl12Op.

(* SRC engine/include/engine/core/command.hpp 82-86 SetBlockDirectionCmd *)
Record SetBlockDirectionCmd := mkSetBlockDirectionCmd { sbd_block_section_uid : UID; sbd_operation : Shl12Op.t }.

(* SRC engine/include/engine/core/command.hpp 88-91 InitAxleCounterResetCmd *)
Record InitAxleCounterResetCmd := mkInitAxleCounterResetCmd { iac_block_section_uid : UID }.

(* SRC engine/include/engine/core/command.hpp 93-96 ResetAxleCounterCmd *)
Record ResetAxleCounterCmd := mkResetAxleCounterCmd { rac_block_section_uid : UID }.

(** ** Operator and ML8 console commands *)

(* SRC engine/include/engine/core/command.hpp 98-111 OperatorTargetKind *)
Module OperatorTargetKind.
Inductive t : Set := | SIGNAL | SWITCH | DERAILER | TRACK_SECTION | BLOCK_SECTION
  | AXLE_COUNTER_SYSTEM | STATION | ROUTE | LEVEL_CROSSING | INTERLOCKING_COMPUTER
  | POWER_SUPPLY | Unnamed (n : fin 245).
Definition to_code (x : t) : BinNums.Z :=
  match x with | SIGNAL => 0 | SWITCH => 1 | DERAILER => 2 | TRACK_SECTION => 3
  | BLOCK_SECTION => 4 | AXLE_COUNTER_SYSTEM => 5 | STATION => 6 | ROUTE => 7
  | LEVEL_CROSSING => 8 | INTERLOCKING_COMPUTER => 9 | POWER_SUPPLY => 10
  | Unnamed n => 11 + Z.of_nat (fin_to_nat n) end%Z.
Definition named : list t := [SIGNAL; SWITCH; DERAILER; TRACK_SECTION; BLOCK_SECTION
  ; AXLE_COUNTER_SYSTEM; STATION; ROUTE; LEVEL_CROSSING; INTERLOCKING_COMPUTER; POWER_SUPPLY].
Definition all : list t := named ++ (Unnamed <$> enum (fin 245)).
#[global] Instance enum : Enum t.
Proof. refine {| code := to_code; enumerators := all |}. intros []; try reflexivity. unnamed_decodes. Defined.
Definition cast (z : BinNums.Z) : t := default SIGNAL (of_code z).
#[global] Instance byte_enum : ByteEnum t.
Proof.
  refine {| of_byte := cast |}; [intros z; apply (covers_byte cast); by vm_compute|].
  intros []; cbn; try lia. pose proof (fin_to_nat_lt n). lia.
Defined.
#[global] Instance eq_dec : EqDecision t := enum_eq_decision.
End OperatorTargetKind.

(* SRC engine/include/engine/core/command.hpp 113-189 OperatorCommandCode *)
Module OperatorCommandCode.
Inductive t : Set := | SES | SEO | SZI | SZW | SZN | SZO | SAM | SAW | ZWP | ZWM | ZWS | ZWO
  | ITS | ITO | ZWB | ZBP | ZBM | ZRI | ZRK | OPS | SLI | SLK | BLW | BLP | BLO | BLZ | BLAI
  | BLA | BLS | OST | ZKB | PZM | OZK | ZESI | ZES | PZZI | PZZ | POZ | DPOI | DPO | DKOI | DKO
  | DKPI | DKP | BPZ | DPWI | DPW | BTW | BTO | BPO | BKO | PDZ | PDO | PZT | PAZ | PZO | PDII
  | PDI | MRS | ODS | ZAL | POC | PZA | PZAI | PZW | SSO | SSS | UPAI | UPA | UPAO | UPN | UPO
  | ZSO | ZSS | Unnamed (n : fin 182).
Definition to_code (x : t) : BinNums.Z :=
  match x with | SES => 0 | SEO => 1 | SZI => 2 | SZW => 3 | SZN => 4 | SZO => 5 | SAM => 6
  | SAW => 7 | ZWP => 8 | ZWM => 9 | ZWS => 10 | ZWO => 11 | ITS => 12 | ITO => 13 | ZWB => 14
  | ZBP => 15 | ZBM => 16 | ZRI => 17 | ZRK => 18 | OPS => 19 | SLI => 20 | SLK => 21
  | BLW => 22 | BLP => 23 | BLO => 24 | BLZ => 25 | BLAI => 26 | BLA => 27 | BLS => 28
  | OST => 29 | ZKB => 30 | PZM => 31 | OZK => 32 | ZESI => 33 | ZES => 34 | PZZI => 35
  | PZZ => 36 | POZ => 37 | DPOI => 38 | DPO => 39 | DKOI => 40 | DKO => 41 | DKPI => 42
  | DKP => 43 | BPZ => 44 | DPWI => 45 | DPW => 46 | BTW => 47 | BTO => 48 | BPO => 49
  | BKO => 50 | PDZ => 51 | PDO => 52 | PZT => 53 | PAZ => 54 | PZO => 55 | PDII => 56
  | PDI => 57 | MRS => 58 | ODS => 59 | ZAL => 60 | POC => 61 | PZA => 62 | PZAI => 63
  | PZW => 64 | SSO => 65 | SSS => 66 | UPAI => 67 | UPA => 68 | UPAO => 69 | UPN => 70
  | UPO => 71 | ZSO => 72 | ZSS => 73
  | Unnamed n => 74 + Z.of_nat (fin_to_nat n) end%Z.
Definition named : list t := [SES; SEO; SZI; SZW; SZN; SZO; SAM; SAW; ZWP; ZWM; ZWS; ZWO; ITS; ITO
  ; ZWB; ZBP; ZBM; ZRI; ZRK; OPS; SLI; SLK; BLW; BLP; BLO; BLZ; BLAI; BLA; BLS; OST; ZKB; PZM
  ; OZK; ZESI; ZES; PZZI; PZZ; POZ; DPOI; DPO; DKOI; DKO; DKPI; DKP; BPZ; DPWI; DPW; BTW; BTO
  ; BPO; BKO; PDZ; PDO; PZT; PAZ; PZO; PDII; PDI; MRS; ODS; ZAL; POC; PZA; PZAI; PZW; SSO; SSS
  ; UPAI; UPA; UPAO; UPN; UPO; ZSO; ZSS].
Definition all : list t := named ++ (Unnamed <$> enum (fin 182)).
#[global] Instance enum : Enum t.
Proof. refine {| code := to_code; enumerators := all |}. intros []; try reflexivity. unnamed_decodes. Defined.
Definition cast (z : BinNums.Z) : t := default SES (of_code z).
#[global] Instance byte_enum : ByteEnum t.
Proof.
  refine {| of_byte := cast |}; [intros z; apply (covers_byte cast); by vm_compute|].
  intros []; cbn; try lia. pose proof (fin_to_nat_lt n). lia.
Defined.
#[global] Instance eq_dec : EqDecision t := enum_eq_decision.
End OperatorCommandCode.

(* SRC engine/include/engine/core/command.hpp 191-196 OperatorCommandCmd *)
Record OperatorCommandCmd := mkOperatorCommandCmd { oc_target_uid : UID; oc_target_kind : OperatorTargetKind.t; oc_code : OperatorCommandCode.t }.

(* SRC engine/include/engine/core/command.hpp 198-271 Ml8CommandCode *)
Module Ml8CommandCode.
Inductive t : Set := | AK | AZK | BLZ | BLZC | DOP | DOPS | DPZ | HMI | KRA | KSR | LKA | LOFF
  | MAN | NPU | NPW | NPZ | OGI | OP | OPO | OSTOP | OTB | OTE | OTEYYY | OTP | OTPON | OT | OTZ
  | OUZ | OUZ_DR | OUZ_DZ | OUZ_JN | OUZ_PJ | OUZ_X | OUZ_ZN | OWBL | OZCZ | P | POC | POT | PZK
  | PPN | PPZ | PZ | PZB | PZS | SPEC | STJ | STOJ | STOP | SZ | NSZ | WBL | WPN | WPZ | WZ
  | ZCZ | ZDM | ZDP | ZEROLO | ZI | ZO | ZPO | ZW | ZWBL | Z | Z_DR | Z_DZ | Z_JN | Z_PJ | Z_X
  | Z_ZN | Unnamed (n : fin 185).
Definition to_code (x : t) : BinNums.Z :=
  match x with | AK => 0 | AZK => 1 | BLZ => 2 | BLZC => 3 | DOP => 4 | DOPS => 5 | DPZ => 6
  | HMI => 7 | KRA => 8 | KSR => 9 | LKA => 10 | LOFF => 11 | MAN => 12 | NPU => 13 | NPW => 14
  | NPZ => 15 | OGI => 16 | OP => 17 | OPO => 18 | OSTOP => 19 | OTB => 20 | OTE => 21
  | OTEYYY => 22 | OTP => 23 | OTPON => 24 | OT => 25 | OTZ => 26 | OUZ => 27 | OUZ_DR => 28
  | OUZ_DZ => 29 | OUZ_JN => 30 | OUZ_PJ => 31 | OUZ_X => 32 | OUZ_ZN => 33 | OWBL => 34
  | OZCZ => 35 | P => 36 | POC => 37 | POT => 38 | PZK => 39 | PPN => 40 | PPZ => 41 | PZ => 42
  | PZB => 43 | PZS => 44 | SPEC => 45 | STJ => 46 | STOJ => 47 | STOP => 48 | SZ => 49
  | NSZ => 50 | WBL => 51 | WPN => 52 | WPZ => 53 | WZ => 54 | ZCZ => 55 | ZDM => 56 | ZDP => 57
  | ZEROLO => 58 | ZI => 59 | ZO => 60 | ZPO => 61 | ZW => 62 | ZWBL => 63 | Z => 64
  | Z_DR => 65 | Z_DZ => 66 | Z_JN => 67 | Z_PJ => 68 | Z_X => 69 | Z_ZN => 70
  | Unnamed n => 71 + Z.of_nat (fin_to_nat n) end%Z.
Definition named : list t := [AK; AZK; BLZ; BLZC; DOP; DOPS; DPZ; HMI; KRA; KSR; LKA; LOFF; MAN
  ; NPU; NPW; NPZ; OGI; OP; OPO; OSTOP; OTB; OTE; OTEYYY; OTP; OTPON; OT; OTZ; OUZ; OUZ_DR
  ; OUZ_DZ; OUZ_JN; OUZ_PJ; OUZ_X; OUZ_ZN; OWBL; OZCZ; P; POC; POT; PZK; PPN; PPZ; PZ; PZB; PZS
  ; SPEC; STJ; STOJ; STOP; SZ; NSZ; WBL; WPN; WPZ; WZ; ZCZ; ZDM; ZDP; ZEROLO; ZI; ZO; ZPO; ZW
  ; ZWBL; Z; Z_DR; Z_DZ; Z_JN; Z_PJ; Z_X; Z_ZN].
Definition all : list t := named ++ (Unnamed <$> enum (fin 185)).
#[global] Instance enum : Enum t.
Proof. refine {| code := to_code; enumerators := all |}. intros []; try reflexivity. unnamed_decodes. Defined.
Definition cast (z : BinNums.Z) : t := default AK (of_code z).
#[global] Instance byte_enum : ByteEnum t.
Proof.
  refine {| of_byte := cast |}; [intros z; apply (covers_byte cast); by vm_compute|].
  intros []; cbn; try lia. pose proof (fin_to_nat_lt n). lia.
Defined.
#[global] Instance eq_dec : EqDecision t := enum_eq_decision.
End Ml8CommandCode.

(* SRC engine/include/engine/core/command.hpp 273-278 Ml8CommandCmd *)
Record Ml8CommandCmd := mkMl8CommandCmd { mc_target_uid : UID; mc_target_kind : OperatorTargetKind.t; mc_code : Ml8CommandCode.t }.

(* SRC engine/include/engine/core/command.hpp 282-286 Command *)
Inductive Command : Type :=
| CSetSwitchPosition (c : SetSwitchPositionCmd)
| CSetSignalAspect (c : SetSignalAspectCmd)
| CSetDerailerPosition (c : SetDerailerPositionCmd)
| CSetBlockSection (c : SetBlockSectionCmd)
| CRequestRoute (c : RequestRouteCmd)
| CCancelRoute (c : CancelRouteCmd)
| CAcknowledgeAlarm (c : AcknowledgeAlarmCmd)
| CSetBlockDirection (c : SetBlockDirectionCmd)
| CInitAxleCounterReset (c : InitAxleCounterResetCmd)
| CResetAxleCounter (c : ResetAxleCounterCmd)
| COperatorCommand (c : OperatorCommandCmd)
| CMl8Command (c : Ml8CommandCmd).

(* SRC engine/include/engine/core/command.hpp 292-299 CommandMeta *)
Record CommandMeta := mkCommandMeta { meta_seq_id : Z; meta_priority : CommandPriority.t; meta_player_id : PlayerID; meta_dispatch_area_uid : UID; meta_timestamp_us : Z }.

(* SRC engine/include/engine/core/command.hpp 301-305 EnvelopedCommand *)
Record EnvelopedCommand := mkEnvelopedCommand { env_meta : CommandMeta; env_payload : Command }.

(** ** Command-code names *)

(* SRC engine/include/engine/core/command.hpp 316-396 operator_command_code_name *)
Definition operator_command_code_name (code : OperatorCommandCode.t) : string :=
  match code with
  | OperatorCommandCode.SES => "SES" | OperatorCommandCode.SEO => "SEO"
  | OperatorCommandCode.SZI => "SZI" | OperatorCommandCode.SZW => "SZW"
  | OperatorCommandCode.SZN => "SZN" | OperatorCommandCode.SZO => "SZO"
  | OperatorCommandCode.SAM => "SAM" | OperatorCommandCode.SAW => "SAW"
  | OperatorCommandCode.ZWP => "ZWP" | OperatorCommandCode.ZWM => "ZWM"
  | OperatorCommandCode.ZWS => "ZWS" | OperatorCommandCode.ZWO => "ZWO"
  | OperatorCommandCode.ITS => "ITS" | OperatorCommandCode.ITO => "ITO"
  | OperatorCommandCode.ZWB => "ZWB" | OperatorCommandCode.ZBP => "ZBP"
  | OperatorCommandCode.ZBM => "ZBM" | OperatorCommandCode.ZRI => "ZRI"
  | OperatorCommandCode.ZRK => "ZRK" | OperatorCommandCode.OPS => "OPS"
  | OperatorCommandCode.SLI => "SLI" | OperatorCommandCode.SLK => "SLK"
  | OperatorCommandCode.BLW => "BLW" | OperatorCommandCode.BLP => "BLP"
  | OperatorCommandCode.BLO => "BLO" | OperatorCommandCode.BLZ => "BLZ"
  | OperatorCommandCode.BLAI => "BLAI" | OperatorCommandCode.BLA => "BLA"
  | OperatorCommandCode.BLS => "BLS" | OperatorCommandCode.OST => "OST"
  | OperatorCommandCode.ZKB => "ZKB" | OperatorCommandCode.PZM => "PZM"
  | OperatorCommandCode.OZK => "OZK" | OperatorCommandCode.ZESI => "ZESI"
  | OperatorCommandCode.ZES => "ZES" | OperatorCommandCode.PZZI => "PZZI"
  | OperatorCommandCode.PZZ => "PZZ" | OperatorCommandCode.POZ => "POZ"
  | OperatorCommandCode.DPOI => "DPOI" | OperatorCommandCode.DPO => "DPO"
  | OperatorCommandCode.DKOI => "DKOI" | OperatorCommandCode.DKO => "DKO"
  | OperatorCommandCode.DKPI => "DKPI" | OperatorCommandCode.DKP => "DKP"
  | OperatorCommandCode.BPZ => "BPZ" | OperatorCommandCode.DPWI => "DPWI"
  | OperatorCommandCode.DPW => "DPW" | OperatorCommandCode.BTW => "BTW"
  | OperatorCommandCode.BTO => "BTO" | OperatorCommandCode.BPO => "BPO"
  | OperatorCommandCode.BKO => "BKO" | OperatorCommandCode.PDZ => "PDZ"
  | OperatorCommandCode.PDO => "PDO" | OperatorCommandCode.PZT => "PZT"
  | OperatorCommandCode.PAZ => "PAZ" | OperatorCommandCode.PZO => "PZO"
  | OperatorCommandCode.PDII => "PDII" | OperatorCommandCode.PDI => "PDI"
  | OperatorCommandCode.MRS => "MRS" | OperatorCommandCode.ODS => "ODS"
  | OperatorCommandCode.ZAL => "ZAL" | OperatorCommandCode.POC => "POC"
  | OperatorCommandCode.PZA => "PZA" | OperatorCommandCode.PZAI => "PZAI"
  | OperatorCommandCode.PZW => "PZW" | OperatorCommandCode.SSO => "SSO"
  | OperatorCommandCode.SSS => "SSS" | OperatorCommandCode.UPAI => "UPAI"
  | OperatorCommandCode.UPA => "UPA" | OperatorCommandCode.UPAO => "UPAO"
  | OperatorCommandCode.UPN => "UPN" | OperatorCommandCode.UPO => "UPO"
  | OperatorCommandCode.ZSO => "ZSO" | OperatorCommandCode.ZSS => "ZSS"
  | OperatorCommandCode.Unnamed _ => ""
  end%string.

(* SRC engine/include/engine/core/command.hpp 398-475 ml8_command_code_name *)
Definition ml8_command_code_name (code : Ml8CommandCode.t) : string :=
  match code with
  | Ml8CommandCode.AK => "AK" | Ml8CommandCode.AZK => "AZK" | Ml8CommandCode.BLZ => "BLZ"
  | Ml8CommandCode.BLZC => "BLZC" | Ml8CommandCode.DOP => "DOP" | Ml8CommandCode.DOPS => "DOPS"
  | Ml8CommandCode.DPZ => "DPZ" | Ml8CommandCode.HMI => "HMI" | Ml8CommandCode.KRA => "KRA"
  | Ml8CommandCode.KSR => "KSR" | Ml8CommandCode.LKA => "LKA" | Ml8CommandCode.LOFF => "LOFF"
  | Ml8CommandCode.MAN => "MAN" | Ml8CommandCode.NPU => "NPU" | Ml8CommandCode.NPW => "NPW"
  | Ml8CommandCode.NPZ => "NPZ" | Ml8CommandCode.OGI => "OGI" | Ml8CommandCode.OP => "OP"
  | Ml8CommandCode.OPO => "OPO" | Ml8CommandCode.OSTOP => "OSTOP" | Ml8CommandCode.OTB => "OTB"
  | Ml8CommandCode.OTE => "OTE" | Ml8CommandCode.OTEYYY => "OTEYYY" | Ml8CommandCode.OTP => "OTP"
  | Ml8CommandCode.OTPON => "OTPON" | Ml8CommandCode.OT => "OT" | Ml8CommandCode.OTZ => "OTZ"
  | Ml8CommandCode.OUZ => "OUZ" | Ml8CommandCode.OUZ_DR => "OUZ_DR"
  | Ml8CommandCode.OUZ_DZ => "OUZ_DZ" | Ml8CommandCode.OUZ_JN => "OUZ_JN"
  | Ml8CommandCode.OUZ_PJ => "OUZ_PJ" | Ml8CommandCode.OUZ_X => "OUZ_X"
  | Ml8CommandCode.OUZ_ZN => "OUZ_ZN" | Ml8CommandCode.OWBL => "OWBL"
  | Ml8CommandCode.OZCZ => "OZCZ" | Ml8CommandCode.P => "P" | Ml8CommandCode.POC => "POC"
  | Ml8CommandCode.POT => "POT" | Ml8CommandCode.PZK => "PZK" | Ml8CommandCode.PPN => "PPN"
  | Ml8CommandCode.PPZ => "PPZ" | Ml8CommandCode.PZ => "PZ" | Ml8CommandCode.PZB => "PZB"
  | Ml8CommandCode.PZS => "PZS" | Ml8CommandCode.SPEC => "SPEC" | Ml8CommandCode.STJ => "STJ"
  | Ml8CommandCode.STOJ => "STOJ" | Ml8CommandCode.STOP => "STOP" | Ml8CommandCode.SZ => "SZ"
  | Ml8CommandCode.NSZ => "NSZ" | Ml8CommandCode.WBL => "WBL" | Ml8CommandCode.WPN => "WPN"
  | Ml8CommandCode.WPZ => "WPZ" | Ml8CommandCode.WZ => "WZ" | Ml8CommandCode.ZCZ => "ZCZ"
  | Ml8CommandCode.ZDM => "ZDM" | Ml8CommandCode.ZDP => "ZDP" | Ml8CommandCode.ZEROLO => "ZEROLO"
  | Ml8CommandCode.ZI => "ZI" | Ml8CommandCode.ZO => "ZO" | Ml8CommandCode.ZPO => "ZPO"
  | Ml8CommandCode.ZW => "ZW" | Ml8CommandCode.ZWBL => "ZWBL" | Ml8CommandCode.Z => "Z"
  | Ml8CommandCode.Z_DR => "Z_DR" | Ml8CommandCode.Z_DZ => "Z_DZ" | Ml8CommandCode.Z_JN => "Z_JN"
  | Ml8CommandCode.Z_PJ => "Z_PJ" | Ml8CommandCode.Z_X => "Z_X" | Ml8CommandCode.Z_ZN => "Z_ZN"
  | Ml8CommandCode.Unnamed _ => ""
  end%string.
