(* ===== verification/Track.v ===== *)
(** * Track: topology and runtime device state

    [engine/include/engine/core/track_model.hpp]: the value types of the world
    model.  Static fields are populated at scenario load; the runtime fields
    are mutated by the engine.  Field names carry a prefix per record, since
    the source reuses [uid], [pid] and [station_uid] in every struct. *)
From S2P Require Import Prelude Float32 Types Commands.
Local Open Scope Z_scope.

(* SRC engine/include/engine/core/track_model.hpp 24-38 OperatorCommandRuntimeState *)
Record OperatorCommandRuntimeState := mkOperatorCommandRuntimeState {
  os_stopped : bool;
  os_substitute_initialized : bool;
  os_substitute_active : bool;
  os_automatic_route_enabled : bool;
  os_clamped : bool;
  os_traffic_closed : bool;
  os_detection_bypassed : bool;
  os_special_initialized : bool;
  os_special_active : bool;
  os_axle_reset_initialized : bool;
  os_active_ml8_command : option Ml8CommandCode.t;
  os_active_command_timeout_tick : option Z }.
#[global] Instance eta_os : Eta OperatorCommandRuntimeState := fun s =>
  mkOperatorCommandRuntimeState (os_stopped s) (os_substitute_initialized s)
    (os_substitute_active s) (os_automatic_route_enabled s) (os_clamped s) (os_traffic_closed s)
    (os_detection_bypassed s) (os_special_initialized s) (os_special_active s)
    (os_axle_reset_initialized s) (os_active_ml8_command s) (os_active_command_timeout_tick s).
Definition OperatorCommandRuntimeState_default : OperatorCommandRuntimeState :=
  mkOperatorCommandRuntimeState false false false false false false false false false false None None.

Module CounterKind.
Inductive t : Set := IT | IZ.
End CounterKind.

(* SRC engine/include/engine/core/track_model.hpp 44-54 TrackPort *)
Record TrackPort := mkTrackPort {
  tp_neighbor_uid : UID;
  tp_counter_uid : UID;
  tp_counter_kind : CounterKind.t;
  tp_signal_uids : list UID }.

(* SRC engine/include/engine/core/track_model.hpp 57-75 TrackSection *)
Record TrackSection := mkTrackSection {
  ts_uid : UID;
  ts_pid : string;
  ts_station_uid : UID;
  ts_side_a : TrackPort;
  ts_side_b : TrackPort;
  ts_length_m : float;
  ts_electrified : bool;
  ts_max_speed_kmh : Z;
  ts_station_section : bool;
  ts_occupancy : TrackOccupancy.t;
  ts_axle_count : Z;
  ts_train_uid : option UID;
  ts_operator_state : OperatorCommandRuntimeState }.
#[global] Instance eta_ts : Eta TrackSection := fun s =>
  mkTrackSection (ts_uid s) (ts_pid s) (ts_station_uid s) (ts_side_a s) (ts_side_b s)
    (ts_length_m s) (ts_electrified s) (ts_max_speed_kmh s) (ts_station_section s)
    (ts_occupancy s) (ts_axle_count s) (ts_train_uid s) (ts_operator_state s).

(* SRC engine/include/engine/core/track_model.hpp 78-83 SwitchLeg *)
Record SwitchLeg := mkSwitchLeg {
  leg_neighbor_uid : UID;
  leg_iz_uid : UID;
  leg_signal_uids : list UID }.

(* SRC engine/include/engine/core/track_model.hpp 86-108 Switch *)
Record Switch := mkSwitch {
  sw_uid : UID;
  sw_pid : string;
  sw_station_uid : UID;
  sw_type_id : string;
  sw_trunk : SwitchLeg;
  sw_straight : SwitchLeg;
  sw_divergent : SwitchLeg;
  sw_length_m : float;
  sw_max_speed_straight_kmh : Z;
  sw_max_speed_divergent_kmh : Z;
  sw_position : SwitchPosition.t;
  sw_control_lost : bool;
  sw_occupancy : TrackOccupancy.t;
  sw_axle_count : Z;
  sw_locked_by_route_uid : option UID;
  sw_moving_ticks_remaining : Z;
  sw_operator_state : OperatorCommandRuntimeState }.
#[global] Instance eta_sw : Eta Switch := fun s =>
  mkSwitch (sw_uid s) (sw_pid s) (sw_station_uid s) (sw_type_id s) (sw_trunk s) (sw_straight s)
    (sw_divergent s) (sw_length_m s) (sw_max_speed_straight_kmh s) (sw_max_speed_divergent_kmh s)
    (sw_position s) (sw_control_lost s) (sw_occupancy s) (sw_axle_count s)
    (sw_locked_by_route_uid s) (sw_moving_ticks_remaining s) (sw_operator_state s).

Module SignalType.
Inductive t : Set := ENTRY | DEPARTURE | BLOCK | SHUNTING.
#[global] Instance eq_dec : EqDecision t.
Proof. solve_decision. Defined.
End SignalType.

(* SRC engine/include/engine/core/track_model.hpp 111-133 Signal *)
Record Signal := mkSignal {
  sig_uid : UID;
  sig_pid : string;
  sig_station_uid : UID;
  sig_type_id : string;
  sig_type : SignalType.t;
  sig_governs_section_uid : UID;
  sig_current_aspect : SignalAspect.t;
  sig_locked_by_route_uid : option UID;
  sig_operator_state : OperatorCommandRuntimeState }.
#[global] Instance eta_sig : Eta Signal := fun s =>
  mkSignal (sig_uid s) (sig_pid s) (sig_station_uid s) (sig_type_id s) (sig_type s)
    (sig_governs_section_uid s) (sig_current_aspect s) (sig_locked_by_route_uid s)
    (sig_operator_state s).

(* SRC engine/include/engine/core/track_model.hpp 136-149 Derailer *)
Record Derailer := mkDerailer {
  der_uid : UID;
  der_pid : string;
  der_station_uid : UID;
  der_type_id : string;
  der_guards_section_uid : UID;
  der_state : DerailerState.t;
  der_locked_by_route_uid : option UID;
  der_operator_state : OperatorCommandRuntimeState }.
#[global] Instance eta_der : Eta Derailer := fun s =>
  mkDerailer (der_uid s) (der_pid s) (der_station_uid s) (der_type_id s)
    (der_guards_section_uid s) (der_state s) (der_locked_by_route_uid s) (der_operator_state s).

(* SRC engine/include/engine/core/track_model.hpp 154-174 BlockSection *)
Record BlockSection := mkBlockSection {
  bs_uid : UID;
  bs_pid : string;
  bs_type_id : string;
  bs_station_uid : UID;
  bs_neighbor_station_uid : UID;
  bs_line_number : Z;
  bs_departure_signal_uid : UID;
  bs_entry_signal_uid : UID;
  bs_szlak_section_uids : list UID;
  bs_state : BlockSectionState.t;
  bs_direction : BlockDirectionState.t;
  bs_axle_count : Z;
  bs_operator_state : OperatorCommandRuntimeState;
  bs_reset_init_tick : option Z }.
#[global] Instance eta_bs : Eta BlockSection := fun s =>
  mkBlockSection (bs_uid s) (bs_pid s) (bs_type_id s) (bs_station_uid s)
    (bs_neighbor_station_uid s) (bs_line_number s) (bs_departure_signal_uid s)
    (bs_entry_signal_uid s) (bs_szlak_section_uids s) (bs_state s) (bs_direction s)
    (bs_axle_count s) (bs_operator_state s) (bs_reset_init_tick s).

(* SRC engine/include/engine/core/track_model.hpp 179-190 RouteState *)
Record RouteState := mkRouteState {
  rt_uid : UID;
  rt_from_signal_uid : UID;
  rt_to_signal_uid : UID;
  rt_section_uids : list UID;
  rt_switch_uids : list UID;
  rt_derailer_uids : list UID;
  rt_created_tick : Z;
  rt_train_entered : bool;
  rt_overlap_release_tick : option Z }.
#[global] Instance eta_rt : Eta RouteState := fun s =>
  mkRouteState (rt_uid s) (rt_from_signal_uid s) (rt_to_signal_uid s) (rt_section_uids s)
    (rt_switch_uids s) (rt_derailer_uids s) (rt_created_tick s) (rt_train_entered s)
    (rt_overlap_release_tick s).

(* SRC engine/include/engine/core/track_model.hpp 193-200 AlarmState *)
Record AlarmState := mkAlarmState {
  al_uid : UID;
  al_kind : string;
  al_object_uid : UID;
  al_message : string;
  al_timestamp_us : Z }.

(* SRC engine/include/engine/core/track_model.hpp 205-213 LevelCrossing *)
Record LevelCrossing := mkLevelCrossing {
  lx_uid : UID;
  lx_pid : string;
  lx_station_uid : UID;
  lx_status : LevelCrossingStatus.t;
  lx_warning_start_tick : option Z;
  lx_warning_duration_ticks : Z }.
#[global] Instance eta_lx : Eta LevelCrossing := fun s =>
  mkLevelCrossing (lx_uid s) (lx_pid s) (lx_station_uid s) (lx_status s)
    (lx_warning_start_tick s) (lx_warning_duration_ticks s).

(* SRC engine/include/engine/core/track_model.hpp 218-224 BoundaryNode *)
Record BoundaryNode := mkBoundaryNode {
  bn_uid : UID;
  bn_pid : string;
  bn_station_uid : UID;
  bn_description : string }.
