(* ===== verification/World.v ===== *)
(** * World: the state of the simulated railway and the view of it

    [engine/include/engine/core/state_view.hpp], [engine_state.hpp/.cpp] and
    [engine_snapshot.hpp/.cpp].  [StateView] is the interface [IStateView] the
    interlocking reads through, [EngineState] the mutable owner with its
    [apply_*] mutators, [EngineSnapshot] the published deep copy; both
    implement the interface and its laws.  The order in which an
    [std::unordered_map] is traversed is unspecified: it is the parameter
    [visit] of [MapOrder], of which only the permutation law is used. *)
From S2P Require Import Prelude Float32 Types Commands Track.
Local Open Scope Z_scope.

(** ** [std::unordered_map<UID, T>] *)

(** [emplace] inserts only when the key is absent. *)
Definition emplace {A} (k : UID) (x : A) (m : gmap UID A) : gmap UID A :=
  match m !! k with Some _ => m | None => <[k := x]> m end.

Class MapOrder := {
  visit : forall {A : Type}, gmap UID A -> list (UID * A);
  visit_perm : forall {A : Type} (m : gmap UID A), visit m ≡ₚ map_to_list m }.

Lemma elem_of_visit {MO : MapOrder} {A} (m : gmap UID A) k x :
  (k, x) ∈ visit m <-> m !! k = Some x.
Proof. rewrite visit_perm. apply elem_of_map_to_list. Qed.

Lemma elem_of_visit_values {MO : MapOrder} {A} (m : gmap UID A) x :
  x ∈ (visit m).*2 <-> exists k, m !! k = Some x.
Proof.
  rewrite list_elem_of_fmap. split.
  - intros ([k y] & -> & H). exists k. by apply elem_of_visit.
  - intros [k H]. exists (k, x). by rewrite elem_of_visit.
Qed.

(** Traversal in key-encoding order, one order an implementation may pick. *)
Definition canonical_order : MapOrder :=
  {| visit := fun A m => map_to_list m; visit_perm := fun A m => Permutation_refl _ |}.

(** ** [IStateView] *)

(* SRC engine/include/engine/core/state_view.hpp 22-52 IStateView *)
Class StateView (V : Type) := mkStateView {
  find_boundary_node : V -> UID -> option BoundaryNode;
  find_track_section : V -> UID -> option TrackSection;
  find_switch : V -> UID -> option Switch;
  find_signal : V -> UID -> option Signal;
  find_derailer : V -> UID -> option Derailer;
  find_block_section : V -> UID -> option BlockSection;
  find_route : V -> UID -> option RouteState;
  find_alarm : V -> UID -> option AlarmState;
  find_level_crossing : V -> UID -> option LevelCrossing;
  for_each_boundary_node : V -> list BoundaryNode;
  for_each_track_section : V -> list TrackSection;
  for_each_switch : V -> list Switch;
  for_each_signal : V -> list Signal;
  for_each_derailer : V -> list Derailer;
  for_each_block_section : V -> list BlockSection;
  for_each_route : V -> list RouteState;
  for_each_alarm : V -> list AlarmState;
  for_each_level_crossing : V -> list LevelCrossing;
  session_id : V -> string;
  current_tick : V -> Z }.

(** What an implementation of the interface promises: behind each pair of methods is
    one finite map, which [find_*] looks up and [for_each_*] visits once per key. *)
Definition backed {X : Type} (find : UID -> option X) (each : list X) : Prop :=
  exists m : gmap UID X, (forall uid, find uid = m !! uid) /\ each ≡ₚ (map_to_list m).*2.

Class StateViewLaws (V : Type) `{StateView V} : Prop := {
  boundary_node_backed : forall v, backed (find_boundary_node v) (for_each_boundary_node v);
  track_section_backed : forall v, backed (find_track_section v) (for_each_track_section v);
  switch_backed : forall v, backed (find_switch v) (for_each_switch v);
  signal_backed : forall v, backed (find_signal v) (for_each_signal v);
  derailer_backed : forall v, backed (find_derailer v) (for_each_derailer v);
  block_section_backed : forall v, backed (find_block_section v) (for_each_block_section v);
  route_backed : forall v, backed (find_route v) (for_each_route v);
  alarm_backed : forall v, backed (find_alarm v) (for_each_alarm v);
  level_crossing_backed : forall v, backed (find_level_crossing v) (for_each_level_crossing v) }.

Section Backed.
Context {X : Type} {find : UID -> option X} {each : list X}.

Lemma backed_elem : backed find each -> forall x, x ∈ each <-> exists uid, find uid = Some x.
Proof.
  intros (m & Hf & Hp) x. rewrite Hp, list_elem_of_fmap. split.
  - intros ([k y] & -> & Hk%elem_of_map_to_list). exists k. by rewrite Hf.
  - intros [k Hk]. exists (k, x). split; [done|]. apply elem_of_map_to_list. by rewrite <-Hf.
Qed.

(** The keys that [find] knows, as many as [each] has elements. *)
Lemma backed_keys :
  backed find each ->
  exists keys : gset UID, size keys = length each /\ forall uid, uid ∈ keys <-> is_Some (find uid).
Proof.
  intros (m & Hf & Hp). exists (dom m). split.
  - by rewrite Hp, length_fmap, length_map_to_list, size_dom.
  - intros uid. by rewrite elem_of_dom, Hf.
Qed.
End Backed.

(** ** [EngineState] *)

Module EngineState.

(* SRC engine/include/engine/core/engine_state.hpp 112-124 EngineState *)
Record t := mk {
  session_id_ : string;
  current_tick_ : Z;
  boundary_nodes : gmap UID BoundaryNode;
  track_sections : gmap UID TrackSection;
  switches : gmap UID Switch;
  signals : gmap UID Signal;
  derailers : gmap UID Derailer;
  block_sections : gmap UID BlockSection;
  routes : gmap UID RouteState;
  alarms : gmap UID AlarmState;
  level_crossings : gmap UID LevelCrossing }.
#[global] Instance eta : Eta t := fun s =>
  mk (session_id_ s) (current_tick_ s) (boundary_nodes s) (track_sections s) (switches s) (signals s) (derailers s) (block_sections s) (routes s) (alarms s) (level_crossings s).
Definition empty : t := mk "" 0 ∅ ∅ ∅ ∅ ∅ ∅ ∅ ∅ ∅.

(* SRC engine/src/engine_state.cpp 8-12 EngineState::find_boundary_node *)
Definition find_boundary_node (s : t) (uid : UID) : option BoundaryNode := boundary_nodes s !! uid.
(* SRC engine/src/engine_state.cpp 14-18 EngineState::find_track_section *)
Definition find_track_section (s : t) (uid : UID) : option TrackSection := track_sections s !! uid.
(* SRC engine/src/engine_state.cpp 20-24 EngineState::find_switch *)
Definition find_switch (s : t) (uid : UID) : option Switch := switches s !! uid.
(* SRC engine/src/engine_state.cpp 26-30 EngineState::find_signal *)
Definition find_signal (s : t) (uid : UID) : option Signal := signals s !! uid.
(* SRC engine/src/engine_state.cpp 32-36 EngineState::find_derailer *)
Definition find_derailer (s : t) (uid : UID) : option Derailer := derailers s !! uid.
(* SRC engine/src/engine_state.cpp 38-42 EngineState::find_block_section *)
Definition find_block_section (s : t) (uid : UID) : option BlockSection := block_sections s !! uid.
(* SRC engine/src/engine_state.cpp 50-54 EngineState::find_route *)
Definition find_route (s : t) (uid : UID) : option RouteState := routes s !! uid.
(* SRC engine/src/engine_state.cpp 62-66 EngineState::find_alarm *)
Definition find_alarm (s : t) (uid : UID) : option AlarmState := alarms s !! uid.
(* SRC engine/src/engine_state.cpp 44-48 EngineState::find_level_crossing *)
Definition find_level_crossing (s : t) (uid : UID) : option LevelCrossing := level_crossings s !! uid.

(* SRC engine/src/engine_state.cpp 112-116 EngineState::for_each_boundary_node *)
Definition for_each_boundary_node {MO : MapOrder} (s : t) : list BoundaryNode := (visit (boundary_nodes s)).*2.
(* SRC engine/src/engine_state.cpp 70-74 EngineState::for_each_track_section *)
Definition for_each_track_section {MO : MapOrder} (s : t) : list TrackSection := (visit (track_sections s)).*2.
(* SRC engine/src/engine_state.cpp 76-80 EngineState::for_each_switch *)
Definition for_each_switch {MO : MapOrder} (s : t) : list Switch := (visit (switches s)).*2.
(* SRC engine/src/engine_state.cpp 82-86 EngineState::for_each_signal *)
Definition for_each_signal {MO : MapOrder} (s : t) : list Signal := (visit (signals s)).*2.
(* SRC engine/src/engine_state.cpp 88-92 EngineState::for_each_derailer *)
Definition for_each_derailer {MO : MapOrder} (s : t) : list Derailer := (visit (derailers s)).*2.
(* SRC engine/src/engine_state.cpp 94-98 EngineState::for_each_block_section *)
Definition for_each_block_section {MO : MapOrder} (s : t) : list BlockSection := (visit (block_sections s)).*2.
(* SRC engine/src/engine_state.cpp 100-104 EngineState::for_each_route *)
Definition for_each_route {MO : MapOrder} (s : t) : list RouteState := (visit (routes s)).*2.
(* SRC engine/src/engine_state.cpp 106-110 EngineState::for_each_alarm *)
Definition for_each_alarm {MO : MapOrder} (s : t) : list AlarmState := (visit (alarms s)).*2.
(* SRC engine/src/engine_state.cpp 118-122 EngineState::for_each_level_crossing *)
Definition for_each_level_crossing {MO : MapOrder} (s : t) : list LevelCrossing := (visit (level_crossings s)).*2.

(* SRC engine/include/engine/core/engine_state.hpp 27-51 EngineState : IStateView *)
#[global] Instance view {MO : MapOrder} : StateView t :=
  mkStateView t find_boundary_node find_track_section find_switch find_signal find_derailer find_block_section find_route find_alarm find_level_crossing
    for_each_boundary_node for_each_track_section for_each_switch for_each_signal for_each_derailer for_each_block_section for_each_route for_each_alarm for_each_level_crossing
    session_id_ current_tick_.
#[global] Instance view_laws {MO : MapOrder} : StateViewLaws t.
Proof. split; intros v; (eexists; split; [done|]); by apply fmap_Permutation, visit_perm. Qed.

(* SRC engine/include/engine/core/engine_state.hpp 55-55 EngineState::set_session_id *)
Definition set_session_id (s : t) (id : string) : t := s <| session_id_ := id |>.

(* SRC engine/include/engine/core/engine_state.hpp 56-56 EngineState::set_current_tick *)
Definition set_current_tick (s : t) (tick : Z) : t := s <| current_tick_ := tick |>.

(** The use of the pointer [find_route_mut] returns: [f] updates the route it
    points to, and nothing happens when it is null. *)
(* SRC engine/src/engine_state.cpp 56-60 EngineState::find_route_mut *)
Definition find_route_mut (s : t) (route_uid : UID) (f : RouteState -> RouteState) : t :=
  s <| routes ::= alter f route_uid |>.

(** Topology insertion: [emplace], so an identifier inserted twice keeps its
    first object. *)
(* SRC engine/src/engine_state.cpp 126-129 EngineState::insert_boundary_node *)
Definition insert_boundary_node (s : t) (x : BoundaryNode) : t := s <| boundary_nodes ::= emplace (bn_uid x) x |>.
(* SRC engine/src/engine_state.cpp 130-133 EngineState::insert_track_section *)
Definition insert_track_section (s : t) (x : TrackSection) : t := s <| track_sections ::= emplace (ts_uid x) x |>.
(* SRC engine/src/engine_state.cpp 134-137 EngineState::insert_switch *)
Definition insert_switch (s : t) (x : Switch) : t := s <| switches ::= emplace (sw_uid x) x |>.
(* SRC engine/src/engine_state.cpp 138-141 EngineState::insert_signal *)
Definition insert_signal (s : t) (x : Signal) : t := s <| signals ::= emplace (sig_uid x) x |>.
(* SRC engine/src/engine_state.cpp 142-145 EngineState::insert_derailer *)
Definition insert_derailer (s : t) (x : Derailer) : t := s <| derailers ::= emplace (der_uid x) x |>.
(* SRC engine/src/engine_state.cpp 146-149 EngineState::insert_block_section *)
Definition insert_block_section (s : t) (x : BlockSection) : t := s <| block_sections ::= emplace (bs_uid x) x |>.
(* SRC engine/src/engine_state.cpp 151-154 EngineState::insert_level_crossing *)
Definition insert_level_crossing (s : t) (x : LevelCrossing) : t := s <| level_crossings ::= emplace (lx_uid x) x |>.

(** Runtime mutators: each changes one object, if it exists. *)
(* SRC engine/src/engine_state.cpp 158-165 EngineState::apply_track_section_occupancy *)
Definition apply_track_section_occupancy (s : t) (uid : UID) (occ : TrackOccupancy.t) (axle_count : Z) : t :=
  s <| track_sections ::= alter (fun x => x <| ts_occupancy := occ |> <| ts_axle_count := axle_count |>) uid |>.

(* SRC engine/src/engine_state.cpp 167-177 EngineState::apply_level_crossing_status *)
Definition apply_level_crossing_status (s : t) (uid : UID) (status : LevelCrossingStatus.t) : t :=
  s <| level_crossings ::= alter (fun x => x <| lx_status := status |>
    <| lx_warning_start_tick :=
         if decide (status = LevelCrossingStatus.WARNING) then Some (current_tick_ s) else None |>) uid |>.

(* SRC engine/src/engine_state.cpp 179-186 EngineState::apply_switch_position *)
Definition apply_switch_position (s : t) (uid : UID) (pos : SwitchPosition.t) (moving_ticks : Z) : t :=
  s <| switches ::= alter (fun x => x <| sw_position := pos |> <| sw_moving_ticks_remaining := moving_ticks |>) uid |>.

(* SRC engine/src/engine_state.cpp 188-194 EngineState::apply_switch_control *)
Definition apply_switch_control (s : t) (uid : UID) (control_lost : bool) : t :=
  s <| switches ::= alter (fun x => x <| sw_control_lost := control_lost |>) uid |>.

(* SRC engine/src/engine_state.cpp 196-200 EngineState::apply_switch_lock *)
Definition apply_switch_lock (s : t) (uid : UID) (route_uid : option UID) : t :=
  s <| switches ::= alter (fun x => x <| sw_locked_by_route_uid := route_uid |>) uid |>.

(* SRC engine/src/engine_state.cpp 202-209 EngineState::apply_switch_occupancy *)
Definition apply_switch_occupancy (s : t) (uid : UID) (occ : TrackOccupancy.t) (axle_count : Z) : t :=
  s <| switches ::= alter (fun x => x <| sw_occupancy := occ |> <| sw_axle_count := axle_count |>) uid |>.

(* SRC engine/src/engine_state.cpp 211-215 EngineState::apply_signal_aspect *)
Definition apply_signal_aspect (s : t) (uid : UID) (aspect : SignalAspect.t) : t :=
  s <| signals ::= alter (fun x => x <| sig_current_aspect := aspect |>) uid |>.

(* SRC engine/src/engine_state.cpp 217-221 EngineState::apply_signal_lock *)
Definition apply_signal_lock (s : t) (uid : UID) (route_uid : option UID) : t :=
  s <| signals ::= alter (fun x => x <| sig_locked_by_route_uid := route_uid |>) uid |>.

(* SRC engine/src/engine_state.cpp 223-227 EngineState::apply_derailer_state *)
Definition apply_derailer_state (s : t) (uid : UID) (state : DerailerState.t) : t :=
  s <| derailers ::= alter (fun x => x <| der_state := state |>) uid |>.

(* SRC engine/src/engine_state.cpp 229-233 EngineState::apply_derailer_lock *)
Definition apply_derailer_lock (s : t) (uid : UID) (route_uid : option UID) : t :=
  s <| derailers ::= alter (fun x => x <| der_locked_by_route_uid := route_uid |>) uid |>.

(* SRC engine/src/engine_state.cpp 235-239 EngineState::apply_block_section_state *)
Definition apply_block_section_state (s : t) (uid : UID) (state : BlockSectionState.t) : t :=
  s <| block_sections ::= alter (fun x => x <| bs_state := state |>) uid |>.

(* SRC engine/src/engine_state.cpp 241-251 EngineState::apply_block_section_direction *)
Definition apply_block_section_direction (s : t) (uid : UID) (dir : BlockDirectionState.t) : t :=
  s <| block_sections ::= alter (fun x => x <| bs_direction := dir |>
    <| bs_reset_init_tick :=
         if decide (dir = BlockDirectionState.RESET_PENDING) then Some (current_tick_ s) else None |>) uid |>.

(* SRC engine/src/engine_state.cpp 253-257 EngineState::apply_block_section_axle_count *)
Definition apply_block_section_axle_count (s : t) (uid : UID) (axle_count : Z) : t :=
  s <| block_sections ::= alter (fun x => x <| bs_axle_count := axle_count |>) uid |>.

(* SRC engine/src/engine_state.cpp 259-384 apply_operator_state *)
Definition apply_operator_state (state : OperatorCommandRuntimeState) (code : OperatorCommandCode.t)
    (active : bool) : OperatorCommandRuntimeState :=
  match code with
  | OperatorCommandCode.SES => state <| os_stopped := active |>
  | OperatorCommandCode.SEO => state <| os_stopped := false |>
  | OperatorCommandCode.SZI =>
      state
        <| os_substitute_initialized := active |>
        <| os_special_initialized := active |>
  | OperatorCommandCode.SZW | OperatorCommandCode.SZN =>
      state
        <| os_substitute_initialized := false |>
        <| os_substitute_active := active |>
        <| os_special_active := active |>
  | OperatorCommandCode.SZO =>
      state
        <| os_substitute_initialized := false |>
        <| os_substitute_active := false |>
        <| os_special_initialized := false |>
        <| os_special_active := false |>
  | OperatorCommandCode.SAM => state <| os_automatic_route_enabled := active |>
  | OperatorCommandCode.SAW => state <| os_automatic_route_enabled := false |>
  | OperatorCommandCode.ZWS => state <| os_clamped := active |>
  | OperatorCommandCode.ZWO => state <| os_clamped := false |>
  | OperatorCommandCode.ITS | OperatorCommandCode.BLS => state <| os_traffic_closed := active |>
  | OperatorCommandCode.ITO | OperatorCommandCode.OST => state <| os_traffic_closed := false |>
  | OperatorCommandCode.ZWB => state <| os_detection_bypassed := active |>
  | OperatorCommandCode.ZBP | OperatorCommandCode.ZBM => state <| os_detection_bypassed := false |>
  | OperatorCommandCode.ZRI | OperatorCommandCode.BLAI | OperatorCommandCode.ZKB |
    OperatorCommandCode.ZESI | OperatorCommandCode.PZZI | OperatorCommandCode.DPOI |
    OperatorCommandCode.DKOI | OperatorCommandCode.DKPI | OperatorCommandCode.DPWI |
    OperatorCommandCode.PDII | OperatorCommandCode.PZAI | OperatorCommandCode.UPAI =>
      state <| os_special_initialized := active |>
  | OperatorCommandCode.ZRK | OperatorCommandCode.BLA | OperatorCommandCode.ZES |
    OperatorCommandCode.PZZ | OperatorCommandCode.DPO | OperatorCommandCode.DKO |
    OperatorCommandCode.DKP | OperatorCommandCode.DPW | OperatorCommandCode.PDI |
    OperatorCommandCode.PZA | OperatorCommandCode.PZM =>
      state
        <| os_special_initialized := false |>
        <| os_special_active := active |>
  | OperatorCommandCode.OPS | OperatorCommandCode.OZK | OperatorCommandCode.BTO |
    OperatorCommandCode.PDO | OperatorCommandCode.UPAO | OperatorCommandCode.ZSO =>
      state
        <| os_special_initialized := false |>
        <| os_special_active := false |>
        <| os_axle_reset_initialized := false |>
  | OperatorCommandCode.SLI =>
      state
        <| os_axle_reset_initialized := active |>
        <| os_special_initialized := active |>
  | OperatorCommandCode.SLK =>
      state
        <| os_axle_reset_initialized := false |>
        <| os_special_initialized := false |>
  | OperatorCommandCode.BPO | OperatorCommandCode.BKO | OperatorCommandCode.BPZ |
    OperatorCommandCode.BTW | OperatorCommandCode.PDZ | OperatorCommandCode.PZT |
    OperatorCommandCode.PAZ | OperatorCommandCode.PZO | OperatorCommandCode.MRS |
    OperatorCommandCode.ODS | OperatorCommandCode.ZAL | OperatorCommandCode.POC |
    OperatorCommandCode.PZW | OperatorCommandCode.SSO | OperatorCommandCode.SSS |
    OperatorCommandCode.UPA | OperatorCommandCode.UPN | OperatorCommandCode.UPO |
    OperatorCommandCode.ZSS =>
      state <| os_special_active := active |>
  | _ => state <| os_special_active := active |>
  end.

(* SRC engine/src/engine_state.cpp 386-424 EngineState::apply_operator_command_state *)
Definition apply_operator_command_state (s : t) (uid : UID) (target_kind : OperatorTargetKind.t)
    (code : OperatorCommandCode.t) (active : bool) : t :=
  let f st := apply_operator_state st code active in
  match target_kind with
  | OperatorTargetKind.SIGNAL => s <| signals ::= alter (fun x => x <| sig_operator_state ::= f |>) uid |>
  | OperatorTargetKind.SWITCH =>
      let s := s <| switches ::= alter (fun x => x <| sw_operator_state ::= f |>) uid |> in
      match switches s !! uid with
      | None => s <| derailers ::= alter (fun x => x <| der_operator_state ::= f |>) uid |>
      | Some _ => s
      end
  | OperatorTargetKind.DERAILER =>
      s <| derailers ::= alter (fun x => x <| der_operator_state ::= f |>) uid |>
  | OperatorTargetKind.TRACK_SECTION =>
      s <| track_sections ::= alter (fun x => x <| ts_operator_state ::= f |>) uid |>
  | OperatorTargetKind.BLOCK_SECTION =>
      s <| block_sections ::= alter (fun x => x <| bs_operator_state ::= f |>) uid |>
  | _ => s
  end.

(* SRC engine/src/engine_state.cpp 426-460 EngineState::apply_ml8_command_state *)
Definition apply_ml8_command_state (s : t) (uid : UID) (target_kind : OperatorTargetKind.t)
    (code : Ml8CommandCode.t) (active : bool) : t :=
  let f st := st <| os_active_ml8_command := if active then Some code else None |> in
  match target_kind with
  | OperatorTargetKind.SIGNAL => s <| signals ::= alter (fun x => x <| sig_operator_state ::= f |>) uid |>
  | OperatorTargetKind.SWITCH =>
      let s := s <| switches ::= alter (fun x => x <| sw_operator_state ::= f |>) uid |> in
      match switches s !! uid with
      | None => s <| derailers ::= alter (fun x => x <| der_operator_state ::= f |>) uid |>
      | Some _ => s
      end
  | OperatorTargetKind.DERAILER =>
      s <| derailers ::= alter (fun x => x <| der_operator_state ::= f |>) uid |>
  | OperatorTargetKind.TRACK_SECTION =>
      s <| track_sections ::= alter (fun x => x <| ts_operator_state ::= f |>) uid |>
  | OperatorTargetKind.BLOCK_SECTION =>
      s <| block_sections ::= alter (fun x => x <| bs_operator_state ::= f |>) uid |>
  | _ => s
  end.

(* SRC engine/src/engine_state.cpp 462-478 EngineState::apply_axle_counter_reset *)
Definition apply_axle_counter_reset (s : t) (uid : UID) (target_kind : OperatorTargetKind.t) : t :=
  match target_kind with
  | OperatorTargetKind.SWITCH => apply_switch_occupancy s uid TrackOccupancy.FREE 0
  | OperatorTargetKind.TRACK_SECTION => apply_track_section_occupancy s uid TrackOccupancy.FREE 0
  | OperatorTargetKind.BLOCK_SECTION => apply_block_section_axle_count s uid 0
  | _ => s
  end.

(* SRC engine/src/engine_state.cpp 480-483 EngineState::add_route *)
Definition add_route (s : t) (route : RouteState) : t := s <| routes ::= emplace (rt_uid route) route |>.

(* SRC engine/src/engine_state.cpp 485-488 EngineState::remove_route *)
Definition remove_route (s : t) (route_uid : UID) : t := s <| routes ::= delete route_uid |>.

(* SRC engine/src/engine_state.cpp 490-493 EngineState::add_alarm *)
Definition add_alarm (s : t) (alarm : AlarmState) : t := s <| alarms ::= emplace (al_uid alarm) alarm |>.

(* SRC engine/src/engine_state.cpp 495-498 EngineState::remove_alarm *)
Definition remove_alarm (s : t) (alarm_uid : UID) : t := s <| alarms ::= delete alarm_uid |>.

End EngineState.

(** ** [EngineSnapshot] *)

Module EngineSnapshot.

(* SRC engine/include/engine/core/engine_snapshot.hpp 24-38 EngineSnapshot *)
Record t := mk {
  session : string;
  tick : Z;
  boundary_nodes : gmap UID BoundaryNode;
  track_sections : gmap UID TrackSection;
  switches : gmap UID Switch;
  signals : gmap UID Signal;
  derailers : gmap UID Derailer;
  block_sections : gmap UID BlockSection;
  routes : gmap UID RouteState;
  alarms : gmap UID AlarmState;
  level_crossings : gmap UID LevelCrossing;
  trains : list TrainSnapshot }.

(* SRC engine/src/engine_snapshot.cpp 8-12 EngineSnapshot::find_boundary_node *)
Definition find_boundary_node (s : t) (uid : UID) : option BoundaryNode := boundary_nodes s !! uid.
(* SRC engine/src/engine_snapshot.cpp 14-18 EngineSnapshot::find_track_section *)
Definition find_track_section (s : t) (uid : UID) : option TrackSection := track_sections s !! uid.
(* SRC engine/src/engine_snapshot.cpp 20-24 EngineSnapshot::find_switch *)
Definition find_switch (s : t) (uid : UID) : option Switch := switches s !! uid.
(* SRC engine/src/engine_snapshot.cpp 26-30 EngineSnapshot::find_signal *)
Definition find_signal (s : t) (uid : UID) : option Signal := signals s !! uid.
(* SRC engine/src/engine_snapshot.cpp 32-36 EngineSnapshot::find_derailer *)
Definition find_derailer (s : t) (uid : UID) : option Derailer := derailers s !! uid.
(* SRC engine/src/engine_snapshot.cpp 38-42 EngineSnapshot::find_block_section *)
Definition find_block_section (s : t) (uid : UID) : option BlockSection := block_sections s !! uid.
(* SRC engine/src/engine_snapshot.cpp 44-48 EngineSnapshot::find_route *)
Definition find_route (s : t) (uid : UID) : option RouteState := routes s !! uid.
(* SRC engine/src/engine_snapshot.cpp 50-54 EngineSnapshot::find_alarm *)
Definition find_alarm (s : t) (uid : UID) : option AlarmState := alarms s !! uid.
(* SRC engine/src/engine_snapshot.cpp 56-60 EngineSnapshot::find_level_crossing *)
Definition find_level_crossing (s : t) (uid : UID) : option LevelCrossing := level_crossings s !! uid.

(* SRC engine/src/engine_snapshot.cpp 106-110 EngineSnapshot::for_each_boundary_node *)
Definition for_each_boundary_node {MO : MapOrder} (s : t) : list BoundaryNode := (visit (boundary_nodes s)).*2.
(* SRC engine/src/engine_snapshot.cpp 64-68 EngineSnapshot::for_each_track_section *)
Definition for_each_track_section {MO : MapOrder} (s : t) : list TrackSection := (visit (track_sections s)).*2.
(* SRC engine/src/engine_snapshot.cpp 70-74 EngineSnapshot::for_each_switch *)
Definition for_each_switch {MO : MapOrder} (s : t) : list Switch := (visit (switches s)).*2.
(* SRC engine/src/engine_snapshot.cpp 76-80 EngineSnapshot::for_each_signal *)
Definition for_each_signal {MO : MapOrder} (s : t) : list Signal := (visit (signals s)).*2.
(* SRC engine/src/engine_snapshot.cpp 82-86 EngineSnapshot::for_each_derailer *)
Definition for_each_derailer {MO : MapOrder} (s : t) : list Derailer := (visit (derailers s)).*2.
(* SRC engine/src/engine_snapshot.cpp 88-92 EngineSnapshot::for_each_block_section *)
Definition for_each_block_section {MO : MapOrder} (s : t) : list BlockSection := (visit (block_sections s)).*2.
(* SRC engine/src/engine_snapshot.cpp 94-98 EngineSnapshot::for_each_route *)
Definition for_each_route {MO : MapOrder} (s : t) : list RouteState := (visit (routes s)).*2.
(* SRC engine/src/engine_snapshot.cpp 100-104 EngineSnapshot::for_each_alarm *)
Definition for_each_alarm {MO : MapOrder} (s : t) : list AlarmState := (visit (alarms s)).*2.
(* SRC engine/src/engine_snapshot.cpp 112-116 EngineSnapshot::for_each_level_crossing *)
Definition for_each_level_crossing {MO : MapOrder} (s : t) : list LevelCrossing := (visit (level_crossings s)).*2.

(* SRC engine/include/engine/core/engine_snapshot.hpp 40-62 EngineSnapshot : IStateView *)
#[global] Instance view {MO : MapOrder} : StateView t :=
  mkStateView t find_boundary_node find_track_section find_switch find_signal find_derailer find_block_section find_route find_alarm find_level_crossing
    for_each_boundary_node for_each_track_section for_each_switch for_each_signal for_each_derailer for_each_block_section for_each_route for_each_alarm for_each_level_crossing
    session tick.
#[global] Instance view_laws {MO : MapOrder} : StateViewLaws t.
Proof. split; intros v; (eexists; split; [done|]); by apply fmap_Permutation, visit_perm. Qed.

End EngineSnapshot.
