(* ===== verification/Demo.v ===== *)
(** * Demo: a small station for the concrete instances of the theorems

    A crossover between two parallel tracks, with one derailer, one block
    section and one level crossing:
<<
      b1 -- T1 --(W1)-- T2 -- b2
                   \
      b3 -- T4 --(W2)-- T3 -- b4
>>
    Signals A, B, C govern T1, T2, T3; derailer D guards T2. *)
From S2P Require Import Prelude Float32 Types Commands Track World.
Local Open Scope Z_scope.

#[export] Existing Instance canonical_order | 100.

Definition T1 := mkUID 101.
Definition T2 := mkUID 102.
Definition T3 := mkUID 103.
Definition T4 := mkUID 104.
Definition W1 := mkUID 201.
Definition W2 := mkUID 202.
Definition SigA := mkUID 301.
Definition SigB := mkUID 302.
Definition SigC := mkUID 303.
Definition DerD := mkUID 401.
Definition BlkE := mkUID 501.
Definition CrossF := mkUID 601.
Definition Station1 := mkUID 1.

Definition demo_section (u a b : UID) : TrackSection :=
  let port n := mkTrackPort n UID_zero CounterKind.IT [] in
  mkTrackSection u "T" Station1 (port a) (port b) (f32_of_Z 500) true 100 true
    TrackOccupancy.FREE 0 None OperatorCommandRuntimeState_default.
Definition demo_switch (u trunk straight divergent : UID) : Switch :=
  let leg n := mkSwitchLeg n UID_zero [] in
  mkSwitch u "W" Station1 "EEA-4" (leg trunk) (leg straight) (leg divergent) (f32_of_Z 30) 100 40
    SwitchPosition.STRAIGHT false TrackOccupancy.FREE 0 None 0 OperatorCommandRuntimeState_default.
Definition demo_signal (u governs : UID) : Signal :=
  mkSignal u "S" Station1 "4K" SignalType.ENTRY governs SignalAspect.S1_STOP None
    OperatorCommandRuntimeState_default.

Definition demo : EngineState.t :=
  let s := EngineState.set_session_id EngineState.empty "demo" in
  let s := EngineState.set_current_tick s 1000 in
  let s := foldl EngineState.insert_track_section s
    [demo_section T1 (mkUID 1001) W1; demo_section T2 W1 (mkUID 1002);
     demo_section T3 W2 (mkUID 1004); demo_section T4 (mkUID 1003) W2] in
  let s := foldl EngineState.insert_switch s
    [demo_switch W1 T1 T2 W2; demo_switch W2 T3 T4 W1] in
  let s := foldl EngineState.insert_signal s
    [demo_signal SigA T1; demo_signal SigB T2; demo_signal SigC T3] in
  let s := EngineState.insert_derailer s
    (mkDerailer DerD "D" Station1 "D" T2 DerailerState.LOCKED None
       OperatorCommandRuntimeState_default) in
  let s := EngineState.insert_block_section s
    (mkBlockSection BlkE "E" "SHL-12" Station1 UID_zero 1 SigA SigB [] BlockSectionState.CLOSED
       BlockDirectionState.NEUTRAL 0 OperatorCommandRuntimeState_default None) in
  EngineState.insert_level_crossing s
    (mkLevelCrossing CrossF "F" Station1 LevelCrossingStatus.OPEN None 600).

(** The state after a change of its devices that the loader does not make. *)
Definition with_switch (f : Switch -> Switch) (u : UID) (s : EngineState.t) : EngineState.t :=
  s <| EngineState.switches ::= alter f u |>.
Definition with_block (f : BlockSection -> BlockSection) (u : UID) (s : EngineState.t) : EngineState.t :=
  s <| EngineState.block_sections ::= alter f u |>.
Definition with_section (f : TrackSection -> TrackSection) (u : UID) (s : EngineState.t) : EngineState.t :=
  s <| EngineState.track_sections ::= alter f u |>.
