(* ===== verification/Changes.v ===== *)
(** * Changes: device state changes and their application

    [engine/include/engine/core/control_system.hpp] (the [DeviceStateChange]
    variant and [InterlockingViolation]) and
    [engine/include/engine/core/state_applier.hpp].  The theorems describe the
    variant as a language of local updates: each change reads and writes only
    the objects in its footprint, keeps the topology, is idempotent, and
    commutes with changes of disjoint footprint. *)
From S2P Require Import Prelude Float32 Types Commands Track World Demo.
Local Open Scope Z_scope.

(** ** [DeviceStateChange] *)

(* SRC engine/include/engine/core/control_system.hpp 35-41 SignalAspectChange *)
Record SignalAspectChange := mkSignalAspectChange {
  sac_uid : UID; sac_new_aspect : SignalAspect.t; sac_cause : ChangeCause.t;
  sac_route_uid : option UID }.
(* SRC engine/include/engine/core/control_system.hpp 43-49 SwitchPositionChange *)
Record SwitchPositionChange := mkSwitchPositionChange {
  spc_uid : UID; spc_new_position : SwitchPosition.t; spc_cause : ChangeCause.t;
  spc_moving_ticks_remaining : Z }.
(* SRC engine/include/engine/core/control_system.hpp 51-55 SwitchLocked *)
Record SwitchLocked := mkSwitchLocked { sl_switch_uid : UID; sl_route_uid : UID }.
(* SRC engine/include/engine/core/control_system.hpp 57-61 SwitchUnlocked *)
Record SwitchUnlocked := mkSwitchUnlocked { su_switch_uid : UID; su_route_uid : UID }.
(* SRC engine/include/engine/core/control_system.hpp 63-69 DerailerStateChange *)
Record DerailerStateChange := mkDerailerStateChange {
  dsc_uid : UID; dsc_new_state : DerailerState.t; dsc_cause : ChangeCause.t;
  dsc_route_uid : option UID }.
(* SRC engine/include/engine/core/control_system.hpp 71-75 BlockSectionStateChange *)
Record BlockSectionStateChange := mkBlockSectionStateChange {
  bssc_uid : UID; bssc_new_state : BlockSectionState.t }.
(* SRC engine/include/engine/core/control_system.hpp 81-87 TrackSectionOccupancyChange *)
Record TrackSectionOccupancyChange := mkTrackSectionOccupancyChange {
  tsoc_uid : UID; tsoc_occupancy : TrackOccupancy.t; tsoc_axle_count : Z; tsoc_train_uid : UID }.
(* SRC engine/include/engine/core/control_system.hpp 89-94 BlockDirectionChange *)
Record BlockDirectionChange := mkBlockDirectionChange {
  bdc_uid : UID; bdc_new_direction : BlockDirectionState.t;
  bdc_requires_neighbor_confirmation : bool }.
(* SRC engine/include/engine/core/control_system.hpp 96-100 AxleCounterResetChange *)
Record AxleCounterResetChange := mkAxleCounterResetChange {
  acrc_uid : UID; acrc_target_kind : OperatorTargetKind.t }.
(* SRC engine/include/engine/core/control_system.hpp 102-108 OperatorCommandStateChange *)
Record OperatorCommandStateChange := mkOperatorCommandStateChange {
  ocsc_uid : UID; ocsc_target_kind : OperatorTargetKind.t; ocsc_code : OperatorCommandCode.t;
  ocsc_active : bool }.
(* SRC engine/include/engine/core/control_system.hpp 110-116 Ml8CommandStateChange *)
Record Ml8CommandStateChange := mkMl8CommandStateChange {
  mcsc_uid : UID; mcsc_target_kind : OperatorTargetKind.t; mcsc_code : Ml8CommandCode.t;
  mcsc_active : bool }.
(* SRC engine/include/engine/core/control_system.hpp 123-127 RouteRemoved *)
Record RouteRemoved := mkRouteRemoved { rrm_route_uid : UID; rrm_reason : string }.
(* SRC engine/include/engine/core/control_system.hpp 139-143 RouteOverlapTimerStarted *)
Record RouteOverlapTimerStarted := mkRouteOverlapTimerStarted {
  rots_route_uid : UID; rots_release_tick : Z }.

(** [RouteAdded], [AlarmRaised] and [AlarmCleared] wrap a single value, which
    the constructor carries directly. *)
(* SRC engine/include/engine/core/control_system.hpp 145-149 DeviceStateChange *)
Inductive DeviceStateChange : Type :=
| DSignalAspect (c : SignalAspectChange)
| DSwitchPosition (c : SwitchPositionChange)
| DSwitchLocked (c : SwitchLocked)
| DSwitchUnlocked (c : SwitchUnlocked)
| DDerailerState (c : DerailerStateChange)
| DBlockSectionState (c : BlockSectionStateChange)
| DTrackSectionOccupancy (c : TrackSectionOccupancyChange)
| DBlockDirection (c : BlockDirectionChange)
| DAxleCounterReset (c : AxleCounterResetChange)
| DOperatorCommandState (c : OperatorCommandStateChange)
| DMl8CommandState (c : Ml8CommandStateChange)
| DRouteAdded (route : RouteState)
| DRouteRemoved (c : RouteRemoved)
| DAlarmRaised (alarm : AlarmState)
| DAlarmCleared (alarm_uid : UID)
| DRouteOverlapTimerStarted (c : RouteOverlapTimerStarted)
| DEmergencyRouteReleaseExecuted (c : EmergencyRouteReleaseExecuted)
| DLevelCrossingState (c : LevelCrossingStateChange)
| DSwitchControlState (c : SwitchControlStateChange).

(* SRC engine/include/engine/core/control_system.hpp 154-159 InterlockingViolation *)
Record InterlockingViolation := mkInterlockingViolation {
  iv_reason_code : Z; iv_reason_text : string; iv_offending_uid : UID }.

(** ** [StateApplier] *)

Import EngineState.

(* SRC engine/include/engine/core/state_applier.hpp 22-35 StateApplier::operator() *)
Definition apply_SignalAspectChange (state : EngineState.t) (c : SignalAspectChange) : EngineState.t :=
  let state := apply_signal_aspect state (sac_uid c) (sac_new_aspect c) in
  match sac_route_uid c with
  | Some _ => apply_signal_lock state (sac_uid c) (sac_route_uid c)
  | None =>
      if bool_decide (sac_new_aspect c = SignalAspect.S1_STOP)
         || bool_decide (sac_new_aspect c = SignalAspect.MS1_STOP)
      then apply_signal_lock state (sac_uid c) None
      else state
  end.

(* SRC engine/include/engine/core/state_applier.hpp 54-67 StateApplier::operator() *)
Definition apply_DerailerStateChange (state : EngineState.t) (c : DerailerStateChange) : EngineState.t :=
  let state := apply_derailer_state state (dsc_uid c) (dsc_new_state c) in
  match dsc_route_uid c with
  | Some _ => apply_derailer_lock state (dsc_uid c) (dsc_route_uid c)
  | None =>
      if bool_decide (dsc_new_state c = DerailerState.LOCKED)
      then apply_derailer_lock state (dsc_uid c) None
      else state
  end.

(* SRC engine/include/engine/core/state_applier.hpp 18-128 StateApplier *)
Definition StateApplier (state : EngineState.t) (change : DeviceStateChange) : EngineState.t :=
  match change with
  | DSignalAspect c => apply_SignalAspectChange state c
  | DSwitchPosition c =>
      apply_switch_position state (spc_uid c) (spc_new_position c) (spc_moving_ticks_remaining c)
  | DSwitchControlState c =>
      apply_switch_control state (scsc_switch_uid c) (scsc_control_lost c)
  | DSwitchLocked c => apply_switch_lock state (sl_switch_uid c) (Some (sl_route_uid c))
  | DSwitchUnlocked c => apply_switch_lock state (su_switch_uid c) None
  | DDerailerState c => apply_DerailerStateChange state c
  | DBlockSectionState c => apply_block_section_state state (bssc_uid c) (bssc_new_state c)
  | DTrackSectionOccupancy c =>
      apply_track_section_occupancy state (tsoc_uid c) (tsoc_occupancy c) (tsoc_axle_count c)
  | DBlockDirection c => apply_block_section_direction state (bdc_uid c) (bdc_new_direction c)
  | DAxleCounterReset c => apply_axle_counter_reset state (acrc_uid c) (acrc_target_kind c)
  | DOperatorCommandState c =>
      apply_operator_command_state state (ocsc_uid c) (ocsc_target_kind c) (ocsc_code c)
        (ocsc_active c)
  | DMl8CommandState c =>
      apply_ml8_command_state state (mcsc_uid c) (mcsc_target_kind c) (mcsc_code c) (mcsc_active c)
  | DRouteAdded route => add_route state route
  | DRouteRemoved c => remove_route state (rrm_route_uid c)
  | DLevelCrossingState c => apply_level_crossing_status state (lxsc_crossing_uid c) (lxsc_status c)
  | DRouteOverlapTimerStarted c =>
      find_route_mut state (rots_route_uid c)
        (fun route => route <| rt_overlap_release_tick := Some (rots_release_tick c) |>)
  | DEmergencyRouteReleaseExecuted _ => state
  | DAlarmRaised alarm => add_alarm state alarm
  | DAlarmCleared alarm_uid => remove_alarm state alarm_uid
  end.

(* SRC engine/include/engine/core/state_applier.hpp 131-134 apply *)
Definition apply_change (state : EngineState.t) (change : DeviceStateChange) : EngineState.t :=
  StateApplier state change.

(* SRC engine/include/engine/core/state_applier.hpp 137-141 apply_all *)
Definition apply_all (state : EngineState.t) (changes : list DeviceStateChange) : EngineState.t :=
  fold_left StateApplier changes state.

(** ** Footprints

    An object of the state by kind and identifier, and the objects a change
    may read or write. *)
Inductive Slot : Set :=
| SlBoundaryNode (u : UID) | SlTrackSection (u : UID) | SlSwitch (u : UID) | SlSignal (u : UID)
| SlDerailer (u : UID) | SlBlockSection (u : UID) | SlRoute (u : UID) | SlAlarm (u : UID)
| SlLevelCrossing (u : UID).

#[global] Instance Slot_eq_dec : EqDecision Slot.
Proof. solve_decision. Defined.

Inductive Obj : Type :=
| OBoundaryNode (x : BoundaryNode) | OTrackSection (x : TrackSection) | OSwitch (x : Switch)
| OSignal (x : Signal) | ODerailer (x : Derailer) | OBlockSection (x : BlockSection)
| ORoute (x : RouteState) | OAlarm (x : AlarmState) | OLevelCrossing (x : LevelCrossing).

#[global] Instance OTrackSection_inj : Inj eq eq OTrackSection. Proof. by intros ?? [=]. Qed.
#[global] Instance OSwitch_inj : Inj eq eq OSwitch. Proof. by intros ?? [=]. Qed.
#[global] Instance OSignal_inj : Inj eq eq OSignal. Proof. by intros ?? [=]. Qed.
#[global] Instance ODerailer_inj : Inj eq eq ODerailer. Proof. by intros ?? [=]. Qed.
#[global] Instance OBlockSection_inj : Inj eq eq OBlockSection. Proof. by intros ?? [=]. Qed.
#[global] Instance ORoute_inj : Inj eq eq ORoute. Proof. by intros ?? [=]. Qed.
#[global] Instance OAlarm_inj : Inj eq eq OAlarm. Proof. by intros ?? [=]. Qed.
#[global] Instance OBoundaryNode_inj : Inj eq eq OBoundaryNode. Proof. by intros ?? [=]. Qed.
#[global] Instance OLevelCrossing_inj : Inj eq eq OLevelCrossing. Proof. by intros ?? [=]. Qed.

Definition read (s : EngineState.t) (sl : Slot) : option Obj :=
  match sl with
  | SlBoundaryNode u => OBoundaryNode <$> boundary_nodes s !! u
  | SlTrackSection u => OTrackSection <$> track_sections s !! u
  | SlSwitch u => OSwitch <$> switches s !! u
  | SlSignal u => OSignal <$> signals s !! u
  | SlDerailer u => ODerailer <$> derailers s !! u
  | SlBlockSection u => OBlockSection <$> block_sections s !! u
  | SlRoute u => ORoute <$> routes s !! u
  | SlAlarm u => OAlarm <$> alarms s !! u
  | SlLevelCrossing u => OLevelCrossing <$> level_crossings s !! u
  end.

Definition slot_uid (sl : Slot) : UID :=
  match sl with
  | SlBoundaryNode u | SlTrackSection u | SlSwitch u | SlSignal u | SlDerailer u
  | SlBlockSection u | SlRoute u | SlAlarm u | SlLevelCrossing u => u
  end.

Definition obj_uid (o : Obj) : UID :=
  match o with
  | OBoundaryNode x => bn_uid x | OTrackSection x => ts_uid x | OSwitch x => sw_uid x
  | OSignal x => sig_uid x | ODerailer x => der_uid x | OBlockSection x => bs_uid x
  | ORoute x => rt_uid x | OAlarm x => al_uid x | OLevelCrossing x => lx_uid x
  end.

Definition kind_slots (k : OperatorTargetKind.t) (u : UID) : list Slot :=
  match k with
  | OperatorTargetKind.SIGNAL => [SlSignal u]
  | OperatorTargetKind.SWITCH => [SlSwitch u; SlDerailer u]
  | OperatorTargetKind.DERAILER => [SlDerailer u]
  | OperatorTargetKind.TRACK_SECTION => [SlTrackSection u]
  | OperatorTargetKind.BLOCK_SECTION => [SlBlockSection u]
  | _ => []
  end.

Definition footprint (c : DeviceStateChange) : list Slot :=
  match c with
  | DSignalAspect c => [SlSignal (sac_uid c)]
  | DSwitchPosition c => [SlSwitch (spc_uid c)]
  | DSwitchControlState c => [SlSwitch (scsc_switch_uid c)]
  | DSwitchLocked c => [SlSwitch (sl_switch_uid c)]
  | DSwitchUnlocked c => [SlSwitch (su_switch_uid c)]
  | DDerailerState c => [SlDerailer (dsc_uid c)]
  | DBlockSectionState c => [SlBlockSection (bssc_uid c)]
  | DTrackSectionOccupancy c => [SlTrackSection (tsoc_uid c)]
  | DBlockDirection c => [SlBlockSection (bdc_uid c)]
  | DAxleCounterReset c => kind_slots (acrc_target_kind c) (acrc_uid c)
  | DOperatorCommandState c => kind_slots (ocsc_target_kind c) (ocsc_uid c)
  | DMl8CommandState c => kind_slots (mcsc_target_kind c) (mcsc_uid c)
  | DRouteAdded route => [SlRoute (rt_uid route)]
  | DRouteRemoved c => [SlRoute (rrm_route_uid c)]
  | DRouteOverlapTimerStarted c => [SlRoute (rots_route_uid c)]
  | DAlarmRaised alarm => [SlAlarm (al_uid alarm)]
  | DAlarmCleared u => [SlAlarm u]
  | DEmergencyRouteReleaseExecuted _ => []
  | DLevelCrossingState c => [SlLevelCrossing (lxsc_crossing_uid c)]
  end.

(** The fields no change may write: the topology of an object. *)
Definition static_part (o : Obj) : Obj :=
  match o with
  | OTrackSection x => OTrackSection
      (x <| ts_occupancy := TrackOccupancy.FREE |> <| ts_axle_count := 0 |>
         <| ts_operator_state := OperatorCommandRuntimeState_default |>)
  | OSwitch x => OSwitch
      (x <| sw_position := SwitchPosition.STRAIGHT |> <| sw_control_lost := false |>
         <| sw_occupancy := TrackOccupancy.FREE |> <| sw_axle_count := 0 |>
         <| sw_locked_by_route_uid := None |> <| sw_moving_ticks_remaining := 0 |>
         <| sw_operator_state := OperatorCommandRuntimeState_default |>)
  | OSignal x => OSignal
      (x <| sig_current_aspect := SignalAspect.S1_STOP |> <| sig_locked_by_route_uid := None |>
         <| sig_operator_state := OperatorCommandRuntimeState_default |>)
  | ODerailer x => ODerailer
      (x <| der_state := DerailerState.LOCKED |> <| der_locked_by_route_uid := None |>
         <| der_operator_state := OperatorCommandRuntimeState_default |>)
  | OBlockSection x => OBlockSection
      (x <| bs_state := BlockSectionState.CLOSED |> <| bs_direction := BlockDirectionState.NEUTRAL |>
         <| bs_axle_count := 0 |> <| bs_reset_init_tick := None |>
         <| bs_operator_state := OperatorCommandRuntimeState_default |>)
  | OLevelCrossing x => OLevelCrossing
      (x <| lx_status := LevelCrossingStatus.OPEN |> <| lx_warning_start_tick := None |>)
  | OBoundaryNode _ | ORoute _ | OAlarm _ => o
  end.

Definition is_topology (sl : Slot) : bool :=
  match sl with SlRoute _ | SlAlarm _ => false | _ => true end.

(** Every object is stored under its own identifier. *)
Definition keyed (s : EngineState.t) : Prop :=
  forall sl o, read s sl = Some o -> obj_uid o = slot_uid sl.

Lemma lookup_emplace {A} (k k' : UID) (x : A) m :
  emplace k x m !! k' = if decide (k = k') then Some (default x (m !! k)) else m !! k'.
Proof.
  unfold emplace. destruct (m !! k) eqn:E; case_decide; subst; simplify_map_eq; done.
Qed.

Lemma lookup_alter_if {A} (f : A -> A) (k k' : UID) (m : gmap UID A) :
  alter f k m !! k' = if decide (k = k') then f <$> m !! k' else m !! k'.
Proof. case_decide; subst; [apply lookup_alter_eq | by apply lookup_alter_ne]. Qed.

Lemma lookup_delete_if {A} (k k' : UID) (m : gmap UID A) :
  delete k m !! k' = if decide (k = k') then None else m !! k'.
Proof. case_decide; subst; [apply lookup_delete_eq | by apply lookup_delete_ne]. Qed.

(** Computes the effect of a change on one slot, by cases on the change. *)
Ltac unfold_change :=
  unfold StateApplier, apply_SignalAspectChange, apply_DerailerStateChange, apply_signal_aspect,
    apply_signal_lock, apply_switch_position, apply_switch_control, apply_switch_lock,
    apply_switch_occupancy, apply_derailer_state, apply_derailer_lock, apply_block_section_state,
    apply_block_section_direction, apply_block_section_axle_count, apply_track_section_occupancy,
    apply_level_crossing_status, apply_operator_command_state, apply_ml8_command_state,
    apply_axle_counter_reset, add_route, remove_route, find_route_mut, add_alarm, remove_alarm in *.
Ltac split_change :=
  repeat first
    [ progress cbn in *
    | rewrite lookup_alter_if in * | rewrite lookup_emplace in * | rewrite lookup_delete_if in *
    | case_match ].

(** The effect of a change on one object: the update of the slot, computed from
    the objects of the footprint. *)
Lemma StateApplier_frame s c sl :
  sl ∉ footprint c -> read (StateApplier s c) sl = read s sl.
Proof.
  intros H. destruct c as [[]|[]|[]|[]|[]|[]|[]|[]|[]|[]|[]| |[]| | |[]| |[]|[]], sl; unfold_change;
    split_change; subst; try done; exfalso; apply H; set_solver.
Qed.

Lemma StateApplier_meta s c :
  session_id_ (StateApplier s c) = session_id_ s /\ current_tick_ (StateApplier s c) = current_tick_ s.
Proof.
  destruct c as [[]|[]|[]|[]|[]|[]|[]|[]|[]|[]|[]| |[]| | |[]| |[]|[]]; unfold_change;
    split_change; done.
Qed.

(** A change reads nothing outside its footprint, the tick aside. *)
Definition agree_on (s s' : EngineState.t) : list Slot -> Prop :=
  Forall (fun sl => read s sl = read s' sl).

Lemma StateApplier_local s s' c :
  current_tick_ s = current_tick_ s' ->
  agree_on s s' (footprint c) -> agree_on (StateApplier s c) (StateApplier s' c) (footprint c).
Proof.
  unfold agree_on. intros Ht Hr.
  destruct c as [[]|[]|[]|[]|[]|[]|[]|[]|[? []]|[? []]|[? []]| |[]| | |[]| |[]|[]];
    cbn [footprint kind_slots acrc_target_kind acrc_uid ocsc_target_kind ocsc_uid
      mcsc_target_kind mcsc_uid] in *;
    rewrite ?Forall_cons, ?Forall_nil in *; destruct_and?; split_and?; try done;
    unfold_change; cbn in *;
    repeat match goal with H : (_ <$> _) = (_ <$> _) |- _ => apply (inj (fmap _)) in H end;
    rewrite <-?Ht; split_change; simplify_eq; congruence.
Qed.

(** A state is its session, its tick, and its objects. *)
Lemma state_ext s s' :
  session_id_ s = session_id_ s' -> current_tick_ s = current_tick_ s' ->
  (forall sl, read s sl = read s' sl) -> s = s'.
Proof.
  intros Hs Ht Hr. destruct s as [??? ????????], s' as [??? ????????]. cbn in Hs, Ht. subst. f_equal.
  all: apply map_eq; intros u.
  - apply (inj (fmap OBoundaryNode)), (Hr (SlBoundaryNode u)).
  - apply (inj (fmap OTrackSection)), (Hr (SlTrackSection u)).
  - apply (inj (fmap OSwitch)), (Hr (SlSwitch u)).
  - apply (inj (fmap OSignal)), (Hr (SlSignal u)).
  - apply (inj (fmap ODerailer)), (Hr (SlDerailer u)).
  - apply (inj (fmap OBlockSection)), (Hr (SlBlockSection u)).
  - apply (inj (fmap ORoute)), (Hr (SlRoute u)).
  - apply (inj (fmap OAlarm)), (Hr (SlAlarm u)).
  - apply (inj (fmap OLevelCrossing)), (Hr (SlLevelCrossing u)).
Qed.

Lemma agree_outside s c fp :
  fp ## footprint c -> agree_on (StateApplier s c) s fp.
Proof.
  intros Hd. apply Forall_forall. intros sl Hsl. apply StateApplier_frame. set_solver.
Qed.

(** Changes that name different objects commute: their order in a batch is
    irrelevant. *)
Theorem StateApplier_commute s c1 c2 :
  footprint c1 ## footprint c2 ->
  StateApplier (StateApplier s c1) c2 = StateApplier (StateApplier s c2) c1.
Proof.
  intros Hd.
  destruct (StateApplier_meta s c1) as [Hs1 Ht1]. destruct (StateApplier_meta s c2) as [Hs2 Ht2].
  destruct (StateApplier_meta (StateApplier s c1) c2) as [Hs12 Ht12].
  destruct (StateApplier_meta (StateApplier s c2) c1) as [Hs21 Ht21].
  apply state_ext; [congruence..|]. intros sl.
  destruct (decide (sl ∈ footprint c1)) as [H1|H1]; [|destruct (decide (sl ∈ footprint c2)) as [H2|H2]].
  - rewrite StateApplier_frame by set_solver. symmetry.
    refine (proj1 (Forall_forall _ _) (StateApplier_local _ _ _ Ht2 _) sl H1).
    apply agree_outside. set_solver.
  - rewrite (StateApplier_frame _ c1) by done.
    refine (proj1 (Forall_forall _ _) (StateApplier_local _ _ _ Ht1 _) sl H2).
    apply agree_outside. set_solver.
  - by rewrite !StateApplier_frame by done.
Qed.

(** One goal per object of the footprint of each kind of change. *)
Ltac footprint_cases c :=
  destruct c as [[? ? ? []]|[]|[]|[]|[? ? ? []]|[]|[]|[]|[? []]|[? []]|[? []]| |[]| | |[]| |[]|[]];
    cbn -[StateApplier static_part read];
    rewrite ?Forall_cons, ?Forall_nil; split_and?; try done; cbn -[StateApplier static_part].
Ltac done_option :=
  repeat match goal with
    | H : _ <$> _ = None |- _ => apply fmap_None in H
    | H : _ <$> _ = Some _ |- _ => apply fmap_Some in H as (?&?&?)
    end; try congruence;
  rewrite <-?option_fmap_compose; apply option_fmap_ext; intros ?; cbn.

Lemma apply_operator_state_idem st code active :
  apply_operator_state (apply_operator_state st code active) code active
  = apply_operator_state st code active.
Proof. by destruct code. Qed.

Lemma StateApplier_idem_on s c :
  agree_on (StateApplier (StateApplier s c) c) (StateApplier s c) (footprint c).
Proof.
  unfold agree_on. footprint_cases c; unfold_change; split_change; try done; done_option;
    by rewrite ?apply_operator_state_idem.
Qed.

(** Applying a change twice is applying it once, so a change that was already
    applied within the tick can be applied again. *)
Theorem StateApplier_idempotent s c :
  StateApplier (StateApplier s c) c = StateApplier s c.
Proof.
  destruct (StateApplier_meta (StateApplier s c) c) as [Hs Ht].
  apply state_ext; [done..|]. intros sl. destruct (decide (sl ∈ footprint c)) as [H|H].
  - exact (proj1 (Forall_forall _ _) (StateApplier_idem_on s c) sl H).
  - by apply StateApplier_frame.
Qed.

Lemma StateApplier_topology s c sl :
  is_topology sl = true -> static_part <$> read (StateApplier s c) sl = static_part <$> read s sl.
Proof.
  intros Htop. destruct (decide (sl ∈ footprint c)) as [Hf|Hf]; [|by rewrite StateApplier_frame].
  refine (proj1 (Forall_forall (fun sl => is_topology sl = true ->
    static_part <$> read (StateApplier s c) sl = static_part <$> read s sl) _) _ sl Hf Htop).
  clear sl Hf Htop. footprint_cases c; intros Htop; try done; unfold_change; split_change; try done; done_option; try done.
Qed.

Ltac by_keyed Hk :=
  match goal with
  | |- bn_uid ?x = ?u => apply (Hk (SlBoundaryNode u) (OBoundaryNode x))
  | |- ts_uid ?x = ?u => apply (Hk (SlTrackSection u) (OTrackSection x))
  | |- sw_uid ?x = ?u => apply (Hk (SlSwitch u) (OSwitch x))
  | |- sig_uid ?x = ?u => apply (Hk (SlSignal u) (OSignal x))
  | |- der_uid ?x = ?u => apply (Hk (SlDerailer u) (ODerailer x))
  | |- bs_uid ?x = ?u => apply (Hk (SlBlockSection u) (OBlockSection x))
  | |- rt_uid ?x = ?u => apply (Hk (SlRoute u) (ORoute x))
  | |- al_uid ?x = ?u => apply (Hk (SlAlarm u) (OAlarm x))
  | |- lx_uid ?x = ?u => apply (Hk (SlLevelCrossing u) (OLevelCrossing x))
  end; cbn; match goal with H : _ !! _ = Some _ |- _ => by rewrite H end.

Lemma StateApplier_keyed s c : keyed s -> keyed (StateApplier s c).
Proof.
  intros Hk sl o'. destruct (decide (sl ∈ footprint c)) as [Hf|Hf];
    [|rewrite StateApplier_frame by done; apply Hk].
  revert o'. refine (proj1 (Forall_forall (fun sl => forall o',
    read (StateApplier s c) sl = Some o' -> obj_uid o' = slot_uid sl) _) _ sl Hf).
  clear sl Hf. footprint_cases c; intros o' Hr; unfold_change; split_change;
    simplify_option_eq; try match goal with |- context [?m !! ?k] => destruct (m !! k) eqn:? end;
    try done; by_keyed Hk.
Qed.

Lemma apply_all_cons s c cs : apply_all s (c :: cs) = apply_all (StateApplier s c) cs.
Proof. done. Qed.

Lemma apply_all_app s cs ds : apply_all s (cs ++ ds) = apply_all (apply_all s cs) ds.
Proof. apply fold_left_app. Qed.

(** No change alters the topology: for every object but routes and alarms,
    presence and static fields are those of the loaded scenario. *)
Theorem apply_all_topology s cs sl :
  is_topology sl = true ->
  static_part <$> read (apply_all s cs) sl = static_part <$> read s sl.
Proof.
  intros Ht. revert s. induction cs as [|c cs IH]; intros s; [done|].
  rewrite apply_all_cons, IH. by apply StateApplier_topology.
Qed.

Lemma keyed_apply_all s cs : keyed s -> keyed (apply_all s cs).
Proof.
  revert s. induction cs as [|c cs IH]; intros s Hs; [done|].
  rewrite apply_all_cons. by apply IH, StateApplier_keyed.
Qed.

(** Objects outside every footprint of a batch are untouched by it. *)
Lemma apply_all_frame s cs sl :
  Forall (fun c => sl ∉ footprint c) cs -> read (apply_all s cs) sl = read s sl.
Proof.
  intros H. revert s. induction H as [|c cs Hc _ IH]; intros s; [done|].
  by rewrite apply_all_cons, IH, StateApplier_frame.
Qed.

Lemma apply_bind_frame {A} s (f : A -> list DeviceStateChange) l sl :
  (forall x, x ∈ l -> Forall (fun c => sl ∉ footprint c) (f x)) ->
  read (apply_all s (l ≫= f)) sl = read s sl.
Proof.
  intros H. apply apply_all_frame, Forall_forall. intros c (x & Hc & Hx)%list_elem_of_bind.
  by apply (proj1 (Forall_forall _ _) (H x Hx)).
Qed.

(** In a batch built per element, an object that only one element names sees only
    that element's changes. *)
Lemma apply_bind_one {A} s (f : A -> list DeviceStateChange) l1 x l2 sl :
  (forall y, y ∈ l1 ++ l2 -> Forall (fun c => sl ∉ footprint c) (f y)) ->
  exists s1, read s1 sl = read s sl /\
             read (apply_all s ((l1 ++ x :: l2) ≫= f)) sl = read (apply_all s1 (f x)) sl.
Proof.
  intros H. exists (apply_all s (l1 ≫= f)). split.
  - apply apply_bind_frame. intros y Hy. apply H, elem_of_app. by left.
  - rewrite bind_app, bind_cons, !apply_all_app.
    apply apply_bind_frame. intros y Hy. apply H, elem_of_app. by right.
Qed.

Lemma apply_all_meta s cs :
  session_id_ (apply_all s cs) = session_id_ s /\ current_tick_ (apply_all s cs) = current_tick_ s.
Proof.
  revert s. induction cs as [|c cs IH]; intros s; [done|]. rewrite apply_all_cons.
  destruct (IH (StateApplier s c)), (StateApplier_meta s c). split; congruence.
Qed.

(** A batch of changes touches only the objects its changes name, keeps every
    object stored under its own identifier, and leaves session and tick alone. *)
Theorem apply_all_local s cs :
  keyed s ->
  keyed (apply_all s cs) /\
  (forall sl, Forall (fun c => sl ∉ footprint c) cs -> read (apply_all s cs) sl = read s sl) /\
  session_id_ (apply_all s cs) = session_id_ s /\ current_tick_ (apply_all s cs) = current_tick_ s.
Proof.
  intros Hk. split_and!; [by apply keyed_apply_all|apply apply_all_frame|apply apply_all_meta..].
Qed.

(** [keyed] as a computation over the nine maps. *)
Definition keyed_map {A} (f : A -> UID) (m : gmap UID A) : Prop := map_Forall (fun k x => f x = k) m.
Definition keyed_maps (s : EngineState.t) : Prop :=
  keyed_map bn_uid (boundary_nodes s) /\ keyed_map ts_uid (track_sections s) /\
  keyed_map sw_uid (switches s) /\ keyed_map sig_uid (signals s) /\
  keyed_map der_uid (derailers s) /\ keyed_map bs_uid (block_sections s) /\
  keyed_map rt_uid (routes s) /\ keyed_map al_uid (alarms s) /\
  keyed_map lx_uid (level_crossings s).

Lemma keyed_of_maps s : keyed_maps s -> keyed s.
Proof.
  intros (?&?&?&?&?&?&?&?&?) [] o Hr; cbn in *; apply fmap_Some in Hr as (x & Hx & ->); cbn;
    match goal with H : keyed_map _ (_ s), Hx : _ !! _ = Some _ |- _ => exact (H _ _ Hx) end.
Qed.

Lemma demo_keyed : keyed demo.
Proof.
  apply keyed_of_maps. unfold keyed_maps, keyed_map.
  split_and!; refine (bool_decide_unpack _ _); by vm_compute.
Qed.

Example StateApplier_commute_witness :
  let c1 := DSwitchLocked (mkSwitchLocked W1 (mkUID 7)) in
  let c2 := DSignalAspect (mkSignalAspectChange SigA SignalAspect.S2_PROCEED ChangeCause.AUTO None) in
  StateApplier (StateApplier demo c1) c2 = StateApplier (StateApplier demo c2) c1.
Proof.
  apply StateApplier_commute. by intros sl ->%list_elem_of_singleton ?%list_elem_of_singleton.
Defined.

Example apply_all_topology_witness :
  let c := DSwitchPosition (mkSwitchPositionChange W1 SwitchPosition.MOVING ChangeCause.COMMAND 90) in
  static_part <$> read (apply_all demo [c; c]) (SlSwitch W1) = static_part <$> read demo (SlSwitch W1).
Proof. by apply apply_all_topology. Defined.

Example apply_all_local_witness :
  let cs := [DRouteAdded (mkRouteState (mkUID 9) SigA SigB [] [] [] 0 false None)] in
  keyed (apply_all demo cs) /\ read (apply_all demo cs) (SlSwitch W1) = read demo (SlSwitch W1).
Proof.
  destruct (apply_all_local demo [DRouteAdded (mkRouteState (mkUID 9) SigA SigB [] [] [] 0 false None)])
    as (Hk & Hf & _); [apply demo_keyed|].
  split; [done|]. apply Hf. repeat constructor. by apply (bool_decide_unpack _).
Defined.
