(* ===== verification/Queues.v ===== *)
(** * Queues: the channels between threads

    [engine/include/engine/core/priority_command_queue.hpp],
    [event_queue.hpp] and [event_dispatcher.hpp].  Every operation of a queue
    runs under its mutex, so an interleaving of threads is a sequence of the
    operations below; a blocking operation is a step that is enabled only when
    its wait condition holds.  The two queues are refined against abstract
    queues over the history of pushes. *)
From S2P Require Import Prelude Types.
Local Open Scope Z_scope.

(** What a queue operation does, as seen by the calling thread. *)
Inductive QueueLabel (I T : Type) : Type :=
| LPush (i : I) | LPushThrows (i : I) | LTryPop (r : option T) | LWaitPop (r : option T) | LClose.
Arguments LPush {I T}.
Arguments LPushThrows {I T}.
Arguments LTryPop {I T}.
Arguments LWaitPop {I T}.
Arguments LClose {I T}.

(** Runs of the queue and of the abstract queue, with what every thread observed. *)
Inductive steps {S L : Type} (R : S -> L -> S -> Prop) : S -> list L -> S -> Prop :=
| steps_nil s : steps R s [] s
| steps_cons s s' s'' l ls : R s l s' -> steps R s' ls s'' -> steps R s (l :: ls) s''.

(** ** [PriorityCommandQueue] *)

Module PriorityCommandQueue.
Section Queue.
Context {T : Type}.

(* SRC engine/include/engine/core/priority_command_queue.hpp 36-37 kBucketCount *)
Definition kBucketCount : nat := Z.to_nat (code CommandPriority.BACKGROUND + 1).

(* SRC engine/include/engine/core/priority_command_queue.hpp 144-148 PriorityCommandQueue *)
Record t := mk { buckets_ : list (list T); closed_ : bool }.
Definition create : t := mk (replicate kBucketCount []) false.

(** [None] is the [std::runtime_error] of a push after [close]. *)
(* SRC engine/include/engine/core/priority_command_queue.hpp 49-61 PriorityCommandQueue::push *)
Definition push (q : t) (item : T) (priority : CommandPriority.t) : option t :=
  let idx := Z.to_nat (code priority) in
  if closed_ q then None
  else Some (mk (alter (fun b => b ++ [item]) idx (buckets_ q)) (closed_ q)).

(* SRC engine/include/engine/core/priority_command_queue.hpp 130-142 PriorityCommandQueue::pop_highest_locked *)
Fixpoint pop_highest (buckets : list (list T)) : option (T * list (list T)) :=
  match buckets with
  | [] => None
  | [] :: bs => '(x, bs') ← pop_highest bs; Some (x, [] :: bs')
  | (item :: b) :: bs => Some (item, b :: bs)
  end.

(* SRC engine/include/engine/core/priority_command_queue.hpp 65-69 PriorityCommandQueue::try_pop *)
Definition try_pop (q : t) : option T * t :=
  match pop_highest (buckets_ q) with
  | Some (item, bs) => (Some item, mk bs (closed_ q))
  | None => (None, q)
  end.

(* SRC engine/include/engine/core/priority_command_queue.hpp 117-127 PriorityCommandQueue::has_items_locked *)
Definition has_items_locked (q : t) : bool :=
  existsb (fun b => match b with [] => false | _ => true end) (buckets_ q).

(** [None] while the calling thread waits. *)
(* SRC engine/include/engine/core/priority_command_queue.hpp 73-78 PriorityCommandQueue::wait_and_pop *)
Definition wait_and_pop (q : t) : option (option T * t) :=
  if has_items_locked q || closed_ q then Some (try_pop q) else None.

(* SRC engine/include/engine/core/priority_command_queue.hpp 83-90 PriorityCommandQueue::close *)
Definition close (q : t) : t := mk (buckets_ q) true.

(* SRC engine/include/engine/core/priority_command_queue.hpp 92-96 PriorityCommandQueue::is_closed *)
Definition is_closed (q : t) : bool := closed_ q.

(* SRC engine/include/engine/core/priority_command_queue.hpp 99-108 PriorityCommandQueue::size *)
Definition size (q : t) : nat := fold_left (fun total b => (total + length b)%nat) (buckets_ q) 0%nat.

(* SRC engine/include/engine/core/priority_command_queue.hpp 110-114 PriorityCommandQueue::empty *)
Definition empty (q : t) : bool := negb (has_items_locked q).

(** One operation of one thread. *)
Inductive step : t -> QueueLabel (CommandPriority.t * T) T -> t -> Prop :=
| step_push q q' p x : push q x p = Some q' -> step q (LPush (p, x)) q'
| step_push_throws q p x : push q x p = None -> step q (LPushThrows (p, x)) q
| step_try_pop q q' r : try_pop q = (r, q') -> step q (LTryPop r) q'
| step_wait_pop q q' r : wait_and_pop q = Some (r, q') -> step q (LWaitPop r) q'
| step_close q : step q LClose (close q).

(** *** Abstract queue: the pending commands in order of arrival *)

Record spec := mkSpec { pending : list (CommandPriority.t * T); spec_closed : bool }.

(** [x] is the oldest among the most urgent pending commands. *)
Inductive most_urgent : list (CommandPriority.t * T) -> T -> list (CommandPriority.t * T) -> Prop :=
| most_urgent_intro l1 p x l2 :
    Forall (fun y => code p < code y.1) l1 -> Forall (fun y => code p <= code y.1) l2 ->
    most_urgent (l1 ++ (p, x) :: l2) x (l1 ++ l2).

Inductive pop_spec : list (CommandPriority.t * T) -> option T -> list (CommandPriority.t * T) -> Prop :=
| pop_spec_empty : pop_spec [] None []
| pop_spec_item l x l' : most_urgent l x l' -> pop_spec l (Some x) l'.

Inductive spec_step : spec -> QueueLabel (CommandPriority.t * T) T -> spec -> Prop :=
| spec_push l i : spec_step (mkSpec l false) (LPush i) (mkSpec (l ++ [i]) false)
| spec_push_throws l i : spec_step (mkSpec l true) (LPushThrows i) (mkSpec l true)
| spec_try_pop l c r l' : pop_spec l r l' -> spec_step (mkSpec l c) (LTryPop r) (mkSpec l' c)
| spec_wait_pop l c r l' :
    pop_spec l r l' -> l <> [] \/ c = true -> spec_step (mkSpec l c) (LWaitPop r) (mkSpec l' c)
| spec_close l c : spec_step (mkSpec l c) LClose (mkSpec l true).

(** *** Refinement *)

Definition of_priority (p : CommandPriority.t) (l : list (CommandPriority.t * T)) : list T :=
  (filter (fun y => y.1 = p) l).*2.

(** Bucket [p] holds the pending commands of priority [p], oldest first. *)
Definition refines (q : t) (s : spec) : Prop :=
  buckets_ q = (fun p => of_priority p (pending s)) <$> CommandPriority.all /\
  closed_ q = spec_closed s.

Lemma of_priority_app p l1 l2 : of_priority p (l1 ++ l2) = of_priority p l1 ++ of_priority p l2.
Proof. unfold of_priority. by rewrite filter_app, fmap_app. Qed.

Lemma of_priority_single p p' x :
  of_priority p [(p', x)] = if decide (p' = p) then [x] else [].
Proof. unfold of_priority. rewrite filter_cons, filter_nil. cbn. by destruct (decide (p' = p)). Qed.

Lemma of_priority_nil_inv p l : of_priority p l = [] -> Forall (fun y => y.1 <> p) l.
Proof.
  unfold of_priority. intros H%fmap_nil_inv. apply Forall_forall. intros y Hy Hp.
  apply (not_elem_of_nil y). rewrite <- H. by apply list_elem_of_filter.
Qed.

(** The head of a bucket splits the history at the oldest command of that priority. *)
Lemma of_priority_cons_inv p l x b :
  of_priority p l = x :: b ->
  exists l1 l2, l = l1 ++ (p, x) :: l2 /\ Forall (fun y => y.1 <> p) l1 /\ b = of_priority p l2.
Proof.
  revert x b. induction l as [|[p' y] l IH]; intros x b H; [done|].
  change ((p', y) :: l) with ([(p', y)] ++ l) in H.
  rewrite of_priority_app, of_priority_single in H. case_decide; simplify_eq/=.
  - by exists [], l.
  - destruct (IH x b H) as (l1 & l2 & -> & Hl1 & ->).
    exists ((p', y) :: l1), l2. by repeat constructor.
Qed.

Lemma of_priority_skip p l1 p' x l2 :
  p <> p' -> of_priority p (l1 ++ (p', x) :: l2) = of_priority p (l1 ++ l2).
Proof.
  intros Hp. change ((p', x) :: l2) with ([(p', x)] ++ l2).
  rewrite !of_priority_app, of_priority_single, decide_False by done. done.
Qed.

Lemma of_priority_none p l : Forall (fun y => y.1 <> p) l -> of_priority p l = [].
Proof.
  induction 1 as [|[p' y] l Hp _ IH]; [done|].
  change ((p', y) :: l) with ([(p', y)] ++ l).
  by rewrite of_priority_app, of_priority_single, decide_False, IH by done.
Qed.

Lemma alter_bucket p i l :
  alter (fun b => b ++ [i]) (Z.to_nat (code p)) ((fun p => of_priority p l) <$> CommandPriority.all)
  = (fun p' => of_priority p' (l ++ [(p, i)])) <$> CommandPriority.all.
Proof.
  cbn. rewrite !of_priority_app, !of_priority_single.
  destruct p; cbn; rewrite ?app_nil_r; done.
Qed.

Lemma push_refines q s p i q' :
  refines q s -> push q i p = Some q' ->
  exists s', spec_step s (LPush (p, i)) s' /\ refines q' s'.
Proof.
  intros [Hb Hc]. unfold push. destruct s as [l c], q as [bs c']; cbn in *; subst.
  destruct c; intros [= <-]. eexists; split; [constructor|]. split; cbn [buckets_ closed_]; [|done].
  apply alter_bucket.
Qed.

(** Popping the [k]-th bucket, the more urgent ones being empty, is popping the oldest
    of the most urgent pending commands. *)
Lemma pop_bucket_spec p l x b :
  (forall p', code p' < code p -> of_priority p' l = []) ->
  of_priority p l = x :: b ->
  exists l', most_urgent l x l' /\ b = of_priority p l' /\
             forall p', p' <> p -> of_priority p' l' = of_priority p' l.
Proof.
  intros Hall Hp. destruct (of_priority_cons_inv _ _ _ _ Hp) as (l1 & l2 & -> & Hl1 & ->).
  assert (Forall (fun y => code p <= code y.1) (l1 ++ (p, x) :: l2)) as Hmin.
  { apply Forall_forall. intros y Hy. destruct (Z.le_gt_cases (code p) (code y.1)) as [|Hlt]; [done|].
    exfalso. pose proof (of_priority_nil_inv _ _ (Hall y.1 Hlt)) as Hnil.
    by apply (proj1 (Forall_forall _ _) Hnil _ Hy). }
  apply Forall_app in Hmin as [Hm1 [_ Hm2]%Forall_cons].
  exists (l1 ++ l2). split_and!.
  - constructor; [|done]. apply Forall_forall. intros y Hy.
    pose proof (proj1 (Forall_forall _ _) Hm1 _ Hy) as Hle.
    pose proof (proj1 (Forall_forall _ _) Hl1 _ Hy) as Hne. cbn beta in *.
    assert (code p <> code y.1) by (intros Heq; by apply code_inj in Heq). lia.
  - by rewrite of_priority_app, (of_priority_none p l1).
  - intros p' Hp'. by rewrite of_priority_skip.
Qed.

Lemma pop_highest_refines l :
  let bs := (fun p => of_priority p l) <$> CommandPriority.all in
  match pop_highest bs with
  | Some (x, bs') => exists l', most_urgent l x l' /\ bs' = (fun p => of_priority p l') <$> CommandPriority.all
  | None => l = []
  end.
Proof.
  cbn.
  destruct (of_priority CommandPriority.EMERGENCY l) as [|x b] eqn:E0; cbn.
  2:{ destruct (pop_bucket_spec CommandPriority.EMERGENCY l x b) as (l' & Hl' & -> & Ho);
         [by intros [] ?|done|]. exists l'. split; [done|].
       by rewrite (Ho CommandPriority.SAFETY), (Ho CommandPriority.NORMAL), (Ho CommandPriority.BACKGROUND) by done. }
  destruct (of_priority CommandPriority.SAFETY l) as [|x b] eqn:E1; cbn.
  2:{ destruct (pop_bucket_spec CommandPriority.SAFETY l x b) as (l' & Hl' & -> & Ho);
         [by intros [] ?|done|]. exists l'. split; [done|].
       by rewrite (Ho CommandPriority.EMERGENCY), (Ho CommandPriority.NORMAL), (Ho CommandPriority.BACKGROUND), E0 by done. }
  destruct (of_priority CommandPriority.NORMAL l) as [|x b] eqn:E2; cbn.
  2:{ destruct (pop_bucket_spec CommandPriority.NORMAL l x b) as (l' & Hl' & -> & Ho);
         [by intros [] ?|done|]. exists l'. split; [done|].
       by rewrite (Ho CommandPriority.EMERGENCY), (Ho CommandPriority.SAFETY), (Ho CommandPriority.BACKGROUND), E0, E1 by done. }
  destruct (of_priority CommandPriority.BACKGROUND l) as [|x b] eqn:E3; cbn.
  2:{ destruct (pop_bucket_spec CommandPriority.BACKGROUND l x b) as (l' & Hl' & -> & Ho);
         [by intros [] ?|done|]. exists l'. split; [done|].
       by rewrite (Ho CommandPriority.EMERGENCY), (Ho CommandPriority.SAFETY), (Ho CommandPriority.NORMAL), E0, E1, E2 by done. }
  destruct l as [|[p y] l]; [done|]. exfalso.
  apply of_priority_nil_inv, Forall_cons in E0 as [H0 _].
  apply of_priority_nil_inv, Forall_cons in E1 as [H1 _].
  apply of_priority_nil_inv, Forall_cons in E2 as [H2 _].
  apply of_priority_nil_inv, Forall_cons in E3 as [H3 _]. by destruct p.
Qed.

Lemma try_pop_refines q s r q' :
  refines q s -> try_pop q = (r, q') ->
  exists l', pop_spec (pending s) r l' /\ refines q' (mkSpec l' (spec_closed s)).
Proof.
  destruct q as [bs c], s as [l c']. intros [Hb Hc]; cbn in *; subst.
  unfold try_pop; cbn [buckets_ closed_]. pose proof (pop_highest_refines l) as H. cbn zeta in H.
  destruct (pop_highest _) as [[x bs']|]; intros [= <- <-].
  - destruct H as (l' & Hl' & ->). exists l'. split; [by constructor|done].
  - subst. exists []. split; [constructor|done].
Qed.

Lemma has_items_spec q s : refines q s -> has_items_locked q = true <-> pending s <> [].
Proof.
  destruct q as [bs c], s as [l c']. intros [Hb Hc]; cbn [buckets_ pending] in Hb; subst.
  pose proof (pop_highest_refines l) as H. unfold has_items_locked. cbn [buckets_ pending].
  cbn zeta in H. revert H.
  generalize ((fun p => of_priority p l) <$> CommandPriority.all). intros bs H.
  assert (existsb (fun b => match b with [] => false | _ => true end) bs = true
          <-> pop_highest bs <> None) as ->.
  { clear. induction bs as [|[|x b] bs IH]; cbn; [by split; [|intros []]| |done].
    rewrite IH. by destruct (pop_highest bs) as [[]|]. }
  destruct (pop_highest bs) as [[x bs']|]; [|by subst; split; [intros []|]].
  split; [|done]. intros _ ->. destruct H as (l' & Hl' & _). inv Hl'. by destruct l1.
Qed.

Lemma create_refines : refines create (mkSpec [] false).
Proof. done. Qed.

Lemma step_refines q s lbl q' :
  refines q s -> step q lbl q' -> exists s', spec_step s lbl s' /\ refines q' s'.
Proof.
  intros HR Hstep. destruct s as [l c]. pose proof HR as [_ Hc]. cbn in Hc.
  destruct Hstep as [q q' p x Hp|q p x Hp|q q' r Hp|q q' r Hp|q].
  - by eapply push_refines.
  - unfold push in Hp. rewrite Hc in Hp. destruct c; [|done].
    exists (mkSpec l true). by split; [constructor|].
  - destruct (try_pop_refines _ _ _ _ HR Hp) as (l' & Hl' & HR').
    exists (mkSpec l' c). by split; [constructor|].
  - unfold wait_and_pop in Hp. destruct (has_items_locked q || closed_ q) eqn:Hw; [|done].
    injection Hp as Hp. destruct (try_pop_refines _ _ _ _ HR Hp) as (l' & Hl' & HR').
    exists (mkSpec l' c). split; [constructor; [done|]|done].
    apply orb_true_iff in Hw as [Hw|Hw]; [left; by apply (has_items_spec _ _ HR)|right; congruence].
  - exists (mkSpec l true). split; [constructor|]. by split; [apply HR|].
Qed.

(** C6: every interleaving of pushes, pops and closes observes what the abstract
    queue allows: a pop returns the oldest among the most urgent pending
    commands, nothing is lost or invented, a push fails exactly after [close],
    and [wait_and_pop] returns [nullopt] only when closed and drained. *)
Theorem priority_queue_refines tr q :
  steps step create tr q ->
  exists s, steps spec_step (mkSpec [] false) tr s /\ refines q s /\
            size q = length (pending s) /\ (empty q = true <-> pending s = []).
Proof.
  intros H.
  assert (forall q0 s0, refines q0 s0 -> steps step q0 tr q ->
            exists s, steps spec_step s0 tr s /\ refines q s) as Hsim.
  { clear H. induction tr as [|lbl tr IH]; intros q0 s0 HR H; inv H.
    - exists s0. split; [constructor|done].
    - destruct (step_refines _ _ _ _ HR ltac:(eassumption)) as (s1 & Hs1 & HR1).
      destruct (IH _ _ HR1 ltac:(eassumption)) as (s2 & Hs2 & HR2).
      exists s2. split; [by econstructor|done]. }
  destruct (Hsim _ _ create_refines H) as (s & Hs & HR). exists s. split_and!; [done..| |].
  - destruct HR as [Hb _]. unfold size. rewrite Hb. clear. destruct s as [l c]. cbn [pending].
    induction l as [|[p x] l IH]; [done|]. change ((p, x) :: l) with ([(p, x)] ++ l).
    cbn [CommandPriority.all fmap list_fmap fold_left] in *.
    rewrite !of_priority_app, !of_priority_single, !length_app in *.
    destruct p; repeat case_decide; try done; cbn in *; lia.
  - unfold empty. pose proof (has_items_spec _ _ HR) as Hi.
    rewrite negb_true_iff, <-not_true_iff_false, Hi. by destruct (pending s); split; intros ?; [|intros []|contradict H0|].
Qed.

(** A command pushed at a strictly more urgent level than everything pending is the
    next one out, whatever was pushed before it. *)
Lemma overtakes q s p x q' :
  refines q s -> Forall (fun y => code p < code y.1) (pending s) ->
  push q x p = Some q' -> exists q'', try_pop q' = (Some x, q'').
Proof.
  intros HR Hall Hp. destruct (push_refines _ _ _ _ _ HR Hp) as (s' & Hs & HR').
  inv Hs. destruct (try_pop q') as [r q''] eqn:E. exists q''. f_equal.
  destruct (try_pop_refines _ _ _ _ HR' E) as (l' & Hl' & _). cbn in *.
  inv Hl'; [by destruct l|]. match goal with H : most_urgent _ _ _ |- _ => inv H end.
  match goal with H : _ ++ _ :: _ = _ ++ [_] |- _ => rename H into He end.
  destruct l2 as [|y l2 _] using rev_ind; [by apply app_inj_tail in He as [_ [= -> ->]]|].
  rewrite app_comm_cons, app_assoc in He. apply app_inj_tail in He as [<- ->].
  apply Forall_app in Hall as [_ [Hlt _]%Forall_cons].
  match goal with H : Forall _ (_ ++ [_]) |- _ => apply Forall_app in H as [_ [Hle _]%Forall_cons] end.
  cbn in *. lia.
Qed.
End Queue.
End PriorityCommandQueue.

(** Two normal commands, then an emergency one: it overtakes them. *)
Example priority_queue_refines_witness :
  let tr := [LPush (CommandPriority.NORMAL, 1); LPush (CommandPriority.NORMAL, 2);
             LPush (CommandPriority.EMERGENCY, 3); LTryPop (Some 3); LWaitPop (Some 1); LClose;
             LPushThrows (CommandPriority.SAFETY, 4); LWaitPop (Some 2); LWaitPop None] in
  exists q s, steps PriorityCommandQueue.step PriorityCommandQueue.create tr q /\
    steps PriorityCommandQueue.spec_step (PriorityCommandQueue.mkSpec [] false) tr s /\
    PriorityCommandQueue.empty q = true.
Proof.
  set (tr := [_;_;_;_;_;_;_;_;_]).
  assert (exists q, steps (@PriorityCommandQueue.step Z) PriorityCommandQueue.create tr q /\
            PriorityCommandQueue.empty q = true) as (q & Hq & He).
  { eexists. split; [repeat (econstructor; [econstructor; reflexivity|]); constructor|done]. }
  destruct (PriorityCommandQueue.priority_queue_refines _ _ Hq) as (s & Hs & _).
  by exists q, s.
Defined.

(** ** [EventQueue] *)

Module EventQueue.
Section Queue.
Context {T : Type}.

(* SRC engine/include/engine/core/event_queue.hpp 119-124 EventQueue *)
Record t := mk { queue_ : list T; closed_ : bool }.
Definition create : t := mk [] false.

(* SRC engine/include/engine/core/event_queue.hpp 43-54 EventQueue::push *)
Definition push (q : t) (item : T) : option t :=
  if closed_ q then None else Some (mk (queue_ q ++ [item]) (closed_ q)).

(* SRC engine/include/engine/core/event_queue.hpp 57-67 EventQueue::try_pop *)
Definition try_pop (q : t) : option T * t :=
  match queue_ q with
  | [] => (None, q)
  | item :: rest => (Some item, mk rest (closed_ q))
  end.

(* SRC engine/include/engine/core/event_queue.hpp 72-83 EventQueue::wait_and_pop *)
Definition wait_and_pop (q : t) : option (option T * t) :=
  if bool_decide (queue_ q <> []) || closed_ q then
    Some (match queue_ q with
          | [] => (None, q)
          | item :: rest => (Some item, mk rest (closed_ q))
          end)
  else None.

(* SRC engine/include/engine/core/event_queue.hpp 89-96 EventQueue::close *)
Definition close (q : t) : t := mk (queue_ q) true.

(* SRC engine/include/engine/core/event_queue.hpp 99-103 EventQueue::is_closed *)
Definition is_closed (q : t) : bool := closed_ q.

(* SRC engine/include/engine/core/event_queue.hpp 107-111 EventQueue::size *)
Definition size (q : t) : nat := length (queue_ q).

(* SRC engine/include/engine/core/event_queue.hpp 113-117 EventQueue::empty *)
Definition empty (q : t) : bool := match queue_ q with [] => true | _ => false end.

Inductive step : t -> QueueLabel T T -> t -> Prop :=
| step_push q q' x : push q x = Some q' -> step q (LPush x) q'
| step_push_throws q x : push q x = None -> step q (LPushThrows x) q
| step_try_pop q q' r : try_pop q = (r, q') -> step q (LTryPop r) q'
| step_wait_pop q q' r : wait_and_pop q = Some (r, q') -> step q (LWaitPop r) q'
| step_close q : step q LClose (close q).

(** The items a run accepted, and the items it delivered. *)
Definition pushed (tr : list (QueueLabel T T)) : list T :=
  omap (fun l => match l with LPush x => Some x | _ => None end) tr.
Definition popped (tr : list (QueueLabel T T)) : list T :=
  omap (fun l => match l with LTryPop r | LWaitPop r => r | _ => None end) tr.
Definition closes (tr : list (QueueLabel T T)) : bool :=
  existsb (fun l => match l with LClose => true | _ => false end) tr.

Lemma steps_fifo q tr q' :
  steps step q tr q' ->
  queue_ q ++ pushed tr = popped tr ++ queue_ q' /\ closed_ q' = closed_ q || closes tr.
Proof.
  induction 1 as [q|q q1 q2 lbl tr Hstep _ [IH1 IH2]]; [by rewrite app_nil_r, orb_false_r|].
  destruct q as [l c], Hstep as [q q' x Hp|q x Hp|q q' r Hp|q q' r Hp|q];
    unfold push, try_pop, wait_and_pop, close in *; destruct q as [ql qc];
    cbn in *; repeat case_match; simplify_eq/=; rewrite ?IH2, ?orb_true_r; split; try done;
    unfold pushed, popped in *; rewrite <-?app_assoc in *; cbn in *; congruence.
Qed.

(** The queue is a FIFO channel under every interleaving: what is delivered is
    the accepted items in order, less those still queued; a push fails exactly
    when a close precedes it, and a blocking pop returns [nullopt] only when a
    close precedes it and everything accepted was delivered. *)
Theorem event_queue_fifo tr q lbl q' :
  steps step create tr q -> step q lbl q' ->
  pushed tr = popped tr ++ queue_ q /\
  match lbl with
  | LPush _ => closes tr = false
  | LPushThrows _ => closes tr = true
  | LTryPop (Some x) | LWaitPop (Some x) => popped tr ++ [x] `prefix_of` pushed tr
  | LTryPop None => popped tr = pushed tr
  | LWaitPop None => closes tr = true /\ popped tr = pushed tr
  | LClose => is_closed q' = true
  end.
Proof.
  intros Hs Hstep. apply steps_fifo in Hs as [Hf Hc]. cbn in Hf, Hc. split; [done|].
  destruct q as [l c], Hstep as [q q' x Hp|q x Hp|q q' r Hp|q q' r Hp|q];
    unfold push, try_pop, wait_and_pop, close in *; destruct q as [ql qc];
    cbn in *; repeat case_match; simplify_eq/=; rewrite ?Hf, ?app_nil_r; try done.
  all: eexists; by rewrite <-app_assoc.
Qed.
End Queue.
End EventQueue.

Example event_queue_fifo_witness :
  let q := EventQueue.mk [2] false in
  steps EventQueue.step EventQueue.create [LPush 1; LPush 2; LTryPop (Some 1)] q /\
  [1; 2] `prefix_of` EventQueue.pushed [LPush 1; LPush 2; LTryPop (Some 1)].
Proof.
  set (q := EventQueue.mk [2] false).
  assert (steps EventQueue.step EventQueue.create [LPush 1; LPush 2; LTryPop (Some 1)] q) as Hq.
  { repeat (econstructor; [econstructor; reflexivity|]); constructor. }
  split; [done|].
  apply (EventQueue.event_queue_fifo _ q (LTryPop (Some 2)) (EventQueue.mk [] false) Hq).
  by constructor.
Defined.

(** ** [EventDispatcher] *)

Module EventDispatcher.
Section Dispatcher.
Context {EventT Handler : Type}.

(** A handler may itself subscribe and unsubscribe; what else it does is not
    visible to the dispatcher. *)
Inductive Action := Subscribe (h : Handler) | Unsubscribe (token : Z).
Context (run_handler : Handler -> EventT -> list Action).

(* SRC engine/include/engine/core/event_dispatcher.hpp 99-103 Subscription *)
Record Subscription := mkSubscription { token : Z; handler : Handler }.

(* SRC engine/include/engine/core/event_dispatcher.hpp 105-108 EventDispatcher *)
Record t := mk { subscriptions_ : list Subscription; next_token_ : Z }.
Definition create : t := mk [] 0.

(* SRC engine/include/engine/core/event_dispatcher.hpp 54-60 EventDispatcher::subscribe *)
Definition subscribe (d : t) (h : Handler) : Z * t :=
  let tok := next_token_ d in
  (tok, mk (subscriptions_ d ++ [mkSubscription tok h]) (u64 (next_token_ d + 1))).

(* SRC engine/include/engine/core/event_dispatcher.hpp 64-71 EventDispatcher::unsubscribe *)
Definition unsubscribe (d : t) (tok : Z) : t :=
  mk (filter (fun s => token s <> tok) (subscriptions_ d)) (next_token_ d).

Definition act (d : t) (a : Action) : t :=
  match a with Subscribe h => (subscribe d h).2 | Unsubscribe tok => unsubscribe d tok end.

(** The subscriptions whose handler ran, in order, and the dispatcher left. *)
(* SRC engine/include/engine/core/event_dispatcher.hpp 76-89 EventDispatcher::publish *)
Definition publish (d : t) (event : EventT) : list Subscription * t :=
  let snapshot := subscriptions_ d in
  foldl (fun '(called, d) s => (called ++ [s], foldl act d (run_handler (handler s) event)))
        ([], d) snapshot.

(* SRC engine/include/engine/core/event_dispatcher.hpp 92-96 EventDispatcher::subscriber_count *)
Definition subscriber_count (d : t) : nat := length (subscriptions_ d).

(** Tokens are distinct and below the next one, while the counter has not wrapped. *)
Definition wf (d : t) : Prop :=
  NoDup (token <$> subscriptions_ d) /\ Forall (fun s => token s < next_token_ d) (subscriptions_ d).

Lemma wf_create : wf create.
Proof. split; constructor. Qed.

Lemma wf_subscribe d h :
  wf d -> 0 <= next_token_ d < 2 ^ 64 - 1 -> wf (subscribe d h).2.
Proof.
  intros [Hn Hl] Hb. unfold wf, subscribe. cbn [snd subscriptions_ next_token_].
  rewrite (wrap_small 64) by (unfold fits; lia).
  rewrite fmap_app, Forall_app. split_and!.
  - apply NoDup_app. split_and!; [done| |apply NoDup_singleton].
    intros x (s & -> & Hs)%list_elem_of_fmap He%list_elem_of_singleton.
    pose proof (proj1 (Forall_forall _ _) Hl _ Hs). cbn in *. lia.
  - eapply Forall_impl; [exact Hl|]. cbn. intros. lia.
  - repeat constructor. cbn. lia.
Qed.

Lemma wf_unsubscribe d tok : wf d -> wf (unsubscribe d tok).
Proof.
  intros [Hn Hl]. split; cbn.
  - eapply sublist_NoDup; [exact Hn|]. apply fmap_sublist, sublist_filter.
  - apply Forall_forall. intros s [_ Hs]%list_elem_of_filter. by eapply Forall_forall in Hl.
Qed.

Lemma publish_called d called event l :
  (foldl (fun '(called, d) s => (called ++ [s], foldl act d (run_handler (handler s) event)))
         (called, d) l).1 = called ++ l.
Proof.
  revert d called. induction l as [|s l IH]; intros d called; cbn.
  - by rewrite app_nil_r.
  - by rewrite IH, <-app_assoc.
Qed.

(** A dispatch round calls exactly the handlers registered when it starts, in
    registration order, whatever they subscribe or unsubscribe meanwhile; a new
    subscription has a fresh token and comes last, and unsubscribing a token
    silences it and nothing else. *)
Theorem dispatch_rounds d event h tok :
  wf d -> 0 <= next_token_ d < 2 ^ 64 - 1 ->
  (publish d event).1 = subscriptions_ d /\
  (publish (subscribe d h).2 event).1 = (publish d event).1 ++ [mkSubscription (subscribe d h).1 h] /\
  ((subscribe d h).1 ∉ (token <$> (publish d event).1)) /\
  (publish (unsubscribe d tok) event).1 = filter (fun s => token s <> tok) (publish d event).1 /\
  wf (subscribe d h).2 /\ wf (unsubscribe d tok).
Proof.
  intros Hwf Hb.
  assert (forall d', (publish d' event).1 = subscriptions_ d') as Hp.
  { intros d'. by apply (publish_called d' []). }
  rewrite !Hp. split_and!; [done..| |done|by apply wf_subscribe|by apply wf_unsubscribe].
  intros (s & He & Hs)%list_elem_of_fmap. destruct Hwf as [_ Hl].
  pose proof (proj1 (Forall_forall _ _) Hl _ Hs). cbn in *. lia.
Qed.
End Dispatcher.
End EventDispatcher.

Example dispatch_rounds_witness :
  let d := EventDispatcher.mk [EventDispatcher.mkSubscription 0 "a"] 1 in
  let run (_ : string) (_ : Z) := [EventDispatcher.Subscribe "b"; EventDispatcher.Unsubscribe 0] in
  (EventDispatcher.publish run d 7).1 = [EventDispatcher.mkSubscription 0 "a"].
Proof.
  intros d run. apply (EventDispatcher.dispatch_rounds run d 7 "c" 0); [|done].
  split; [apply NoDup_singleton|repeat constructor].
Defined.
