(* ===== verification/RouteGraph.v ===== *)
(** * RouteGraph: path search over the station topology

    [srk/common/include/srk/common/route_graph.hpp] and
    [srk/common/src/route_graph.cpp].  The breadth-first search runs with a
    fuel that is shown to be enough for every view: two more than the number
    of sections and switches.  What can go wrong in the C++ search
    ([prev.at] on a missing key, a loop that does not end) is a value of
    [BfsResult], and is shown not to happen. *)
From S2P Require Import Prelude Float32 Types Commands Track World Demo.
Local Open Scope Z_scope.

(** ** Data *)

Module RoutePathNodeKind.
(* SRC srk/common/include/srk/common/route_graph.hpp 33-37 RoutePathNode::Kind *)
Inductive t : Set := TRACK_SECTION | SWITCH.
#[global] Instance eq_dec : EqDecision t.
Proof. solve_decision. Defined.
End RoutePathNodeKind.

(* SRC srk/common/include/srk/common/route_graph.hpp 31-41 RoutePathNode *)
Record RoutePathNode := mkRoutePathNode {
  rpn_kind : RoutePathNodeKind.t; rpn_uid : UID; rpn_required_position : SwitchPosition.t }.

(* SRC srk/common/include/srk/common/route_graph.hpp 43-52 RoutePath *)
Record RoutePath := mkRoutePath {
  rp_from_signal_uid : UID;
  rp_to_signal_uid : UID;
  rp_nodes : list RoutePathNode;
  rp_section_uids : list UID;
  rp_switch_uids : list UID;
  rp_derailer_uids : list UID;
  rp_flank_switches : list RoutePathNode }.
#[global] Instance eta_rp : Eta RoutePath := fun r =>
  mkRoutePath (rp_from_signal_uid r) (rp_to_signal_uid r) (rp_nodes r) (rp_section_uids r)
    (rp_switch_uids r) (rp_derailer_uids r) (rp_flank_switches r).

(** A policy reads the state, may extend the path, and accepts or refuses it. *)
(* SRC srk/common/include/srk/common/route_graph.hpp 55-61 IRoutePathPolicy *)
Definition IRoutePathPolicy (V : Type) : Type := V -> RoutePath -> bool * RoutePath.

Inductive BfsResult := Found (path : list UID) | NotFound | AtThrows | OutOfFuel.

Section RouteGraph.
Context {V : Type} {SV : StateView V}.
Implicit Types st : V.

(* SRC srk/common/src/route_graph.cpp 17-44 topology_neighbors *)
Definition topology_neighbors (state : V) (node came_from : UID) : list UID :=
  match find_track_section state node with
  | Some ts =>
      if value came_from =? 0
      then [tp_neighbor_uid (ts_side_a ts); tp_neighbor_uid (ts_side_b ts)]
      else if decide (tp_neighbor_uid (ts_side_a ts) = came_from)
      then [tp_neighbor_uid (ts_side_b ts)]
      else if decide (tp_neighbor_uid (ts_side_b ts) = came_from)
      then [tp_neighbor_uid (ts_side_a ts)]
      else []
  | None =>
      match find_switch state node with
      | Some sw =>
          filter (fun u => u <> came_from)
            [leg_neighbor_uid (sw_trunk sw); leg_neighbor_uid (sw_straight sw);
             leg_neighbor_uid (sw_divergent sw)]
      | None => []
      end
  end.

(* SRC srk/common/src/route_graph.cpp 48-51 is_traversable_node *)
Definition is_traversable_node (state : V) (uid : UID) : bool :=
  bool_decide (is_Some (find_track_section state uid)) ||
  bool_decide (is_Some (find_switch state uid)).

(** The [while (n.value != 0)] loop, the reversal included. *)
(* SRC srk/common/src/route_graph.cpp 77-87 bfs *)
Fixpoint reconstruct (fuel : nat) (prev : gmap UID UID) (n : UID) (acc : list UID) : BfsResult :=
  match fuel with
  | O => OutOfFuel
  | S fuel =>
      if value n =? 0 then Found acc
      else match prev !! n with
           | Some p => reconstruct fuel prev p (n :: acc)
           | None => AtThrows
           end
  end.

(** The loop over the neighbours of the node [cur]. *)
(* SRC srk/common/src/route_graph.cpp 89-97 bfs *)
Definition expand (state : V) (cur : UID) (nexts : list UID)
    (s : gmap UID UID * list (UID * UID)) : gmap UID UID * list (UID * UID) :=
  foldl (fun '(prev, q) next =>
    match prev !! next with
    | Some _ => (prev, q)
    | None => (<[next := cur]> prev,
               if is_traversable_node state next then q ++ [(next, cur)] else q)
    end) s nexts.

(* SRC srk/common/src/route_graph.cpp 70-99 bfs *)
Fixpoint bfs_loop (fuel : nat) (state : V) (goal : UID)
    (prev : gmap UID UID) (q : list (UID * UID)) : BfsResult :=
  match fuel with
  | O => OutOfFuel
  | S fuel =>
      match q with
      | [] => NotFound
      | (cur, from) :: q =>
          if decide (cur = goal) then reconstruct (S (S (size prev))) prev goal []
          else let '(prev, q) := expand state cur (topology_neighbors state cur from) (prev, q) in
               bfs_loop fuel state goal prev q
      end
  end.

Definition bfs_fuel (state : V) : nat :=
  S (S (length (for_each_track_section state) + length (for_each_switch state))).

(* SRC srk/common/src/route_graph.cpp 56-100 bfs *)
Definition bfs (state : V) (start goal : UID) : BfsResult :=
  bfs_loop (bfs_fuel state) state goal {[ start := UID_zero ]} [(start, UID_zero)].

(* SRC srk/common/src/route_graph.cpp 104-120 required_switch_position *)
Definition required_switch_position (sw : Switch) (came_from going_to : UID) : SwitchPosition.t :=
  let fallback :=
    if decide (leg_neighbor_uid (sw_straight sw) = came_from) then SwitchPosition.STRAIGHT
    else if decide (leg_neighbor_uid (sw_divergent sw) = came_from) then SwitchPosition.DIVERGENT
    else SwitchPosition.STRAIGHT in
  if decide (leg_neighbor_uid (sw_trunk sw) = came_from) then
    if decide (leg_neighbor_uid (sw_straight sw) = going_to) then SwitchPosition.STRAIGHT
    else if decide (leg_neighbor_uid (sw_divergent sw) = going_to) then SwitchPosition.DIVERGENT
    else fallback
  else fallback.

(** The loop that turns the path into nodes, sections and switches: [from] is
    the previous identifier, zero at the start, and [to] the next one, zero at
    the end. *)
(* SRC srk/common/src/route_graph.cpp 168-185 find_route_path *)
Fixpoint collect_path (state : V) (from : UID) (path : list UID) (rp : RoutePath) : RoutePath :=
  match path with
  | [] => rp
  | uid :: rest =>
      let rp :=
        match find_track_section state uid with
        | Some _ =>
            rp <| rp_nodes ::= fun l => l ++
                    [mkRoutePathNode RoutePathNodeKind.TRACK_SECTION uid SwitchPosition.STRAIGHT] |>
               <| rp_section_uids ::= fun l => l ++ [uid] |>
        | None =>
            match find_switch state uid with
            | Some sw =>
                let to := default UID_zero (head rest) in
                rp <| rp_nodes ::= fun l => l ++
                        [mkRoutePathNode RoutePathNodeKind.SWITCH uid
                           (required_switch_position sw from to)] |>
                   <| rp_switch_uids ::= fun l => l ++ [uid] |>
            | None => rp
            end
        end in
      collect_path state uid rest rp
  end.

(** The loop over the policies; [None] when one refuses. *)
(* SRC srk/common/src/route_graph.cpp 198-202 find_route_path *)
Definition apply_policies (state : V) (policies : list (IRoutePathPolicy V)) (rp : RoutePath) :
    option RoutePath :=
  foldl (fun acc policy =>
    rp ← acc;
    let '(ok, rp) := policy state rp in
    if (ok : bool) then Some rp else None) (Some rp) policies.

(* SRC srk/common/src/route_graph.cpp 124-205 find_route_path *)
Definition find_route_path (state : V) (from_signal_uid to_signal_uid : UID)
    (policies : list (IRoutePathPolicy V)) : option RoutePath :=
  entry ← find_signal state from_signal_uid;
  exit ← find_signal state to_signal_uid;
  let start := sig_governs_section_uid entry in
  let goal := sig_governs_section_uid exit in
  let guarding (sections : list UID) : list UID :=
    der_uid <$> filter (fun d => der_guards_section_uid d ∈ sections) (for_each_derailer state) in
  if decide (start = goal) then
    apply_policies state policies
      (mkRoutePath from_signal_uid to_signal_uid
         [mkRoutePathNode RoutePathNodeKind.TRACK_SECTION start SwitchPosition.STRAIGHT]
         [start] [] (guarding [start]) [])
  else
    match bfs state start goal with
    | Found path_uids =>
        let rp := collect_path state UID_zero path_uids
                    (mkRoutePath from_signal_uid to_signal_uid [] [] [] [] []) in
        apply_policies state policies
          (rp <| rp_derailer_uids := guarding (rp_section_uids rp) |>)
    | _ => None
    end.
End RouteGraph.

(* SRC srk/common/src/route_graph.cpp 207-218 make_route_uid *)
Definition make_route_uid (from_signal_uid to_signal_uid : UID) (tick : Z) : UID :=
  let scope := u16 (Z.lxor (uid_scope from_signal_uid) (uid_scope to_signal_uid)) in
  let instance_ :=
    u16 (Z.land (Z.lxor (Z.lxor (uid_instance from_signal_uid) (uid_instance to_signal_uid))
                   (u16 tick)) 0xFFFF) in
  make_uid UIDDomain.OPERATIONS UIDKind.ROUTE scope instance_.

(** ** The search *)

Section Search.
Context {V : Type} {SV : StateView V}.
Variable state : V.
Variables start goal : UID.

(** A walk of the topology, last node first: each step leaves a node by a side
    other than the one it was entered by, and no node is visited twice. *)
Inductive walk : list UID -> Prop :=
| walk_start : walk [start]
| walk_step v u p :
    walk (u :: p) -> v ∈ topology_neighbors state u (default UID_zero (head p)) ->
    v ∉ u :: p -> walk (v :: u :: p).

(** The walk recorded in [prev]. *)
Inductive linked (prev : gmap UID UID) : list UID -> Prop :=
| linked_start : prev !! start = Some UID_zero -> linked prev [start]
| linked_step v u p : linked prev (u :: p) -> prev !! v = Some u -> linked prev (v :: u :: p).

Lemma linked_weaken prev prev' p : linked prev p -> prev ⊆ prev' -> linked prev' p.
Proof. induction 1; constructor; eauto using lookup_weaken. Qed.

Lemma linked_dom prev p : linked prev p -> Forall (fun v => v ∈ dom prev) p.
Proof. induction 1; repeat first [done|by eapply elem_of_dom_2|constructor]. Qed.

Lemma walk_NoDup p : walk p -> NoDup p.
Proof. induction 1; [apply NoDup_singleton|by constructor]. Qed.

Lemma walk_length prev p : walk p -> linked prev p -> (length p <= size prev)%nat.
Proof.
  intros Hw%walk_NoDup Hl%linked_dom. rewrite <- (size_dom (D := gset UID)).
  rewrite <- (size_list_to_set (C := gset UID) p) by done.
  apply subseteq_size. intros v Hv%elem_of_list_to_set. by eapply Forall_forall in Hl.
Qed.

Lemma reconstruct_linked prev p fuel acc :
  linked prev p -> Forall (fun v => v <> UID_zero) p -> (length p < fuel)%nat ->
  reconstruct fuel prev (default UID_zero (head p)) acc = Found (rev_append p acc).
Proof.
  intros Hl. revert fuel acc.
  assert (forall v, v <> UID_zero -> (value v =? 0) = false) as Hv.
  { intros [v] Hv. apply Z.eqb_neq. cbn. intros ->. by apply Hv. }
  induction Hl as [Hs|v u p Hl IH Hs]; intros [|fuel] acc Hz Hf; cbn in *; try lia;
    apply Forall_cons in Hz as [Hv0 Hz]; rewrite Hv, Hs by done.
  - destruct fuel; [lia|done].
  - apply (IH fuel (v :: acc)); [done|lia].
Qed.

(** What holds before each iteration of the loop. *)
Definition entry_ok (prev : gmap UID UID) (e : UID * UID) : Prop :=
  exists p, walk (e.1 :: p) /\ linked prev (e.1 :: p) /\ e.2 = default UID_zero (head p) /\
            Forall (fun v => v = start \/ is_traversable_node state v = true) (e.1 :: p).
Definition loop_ok (s : gmap UID UID * list (UID * UID)) : Prop := Forall (entry_ok s.1) s.2.

Lemma entry_ok_weaken prev prev' e : entry_ok prev e -> prev ⊆ prev' -> entry_ok prev' e.
Proof. intros (p & ? & ? & ? & ?) ?. exists p. eauto using linked_weaken. Qed.

Lemma expand_ok cur from nexts prev q :
  entry_ok prev (cur, from) -> nexts ⊆ topology_neighbors state cur from ->
  loop_ok (prev, q) ->
  prev ⊆ (expand state cur nexts (prev, q)).1 /\ loop_ok (expand state cur nexts (prev, q)).
Proof.
  revert prev q. induction nexts as [|next nexts IH]; intros prev q He Hn Hq; [done|].
  cbn. destruct (prev !! next) eqn:Hp; [apply IH; [done|set_solver|done]|].
  assert (prev ⊆ <[next := cur]> prev) as Hsub by (by apply insert_subseteq).
  destruct (IH (<[next := cur]> prev)
              (if is_traversable_node state next then q ++ [(next, cur)] else q)) as [H1 H2].
  - by eapply entry_ok_weaken.
  - set_solver.
  - assert (loop_ok (<[next := cur]> prev, q)) as Hq'.
    { eapply Forall_impl; [exact Hq|]. intros e Hee. by eapply entry_ok_weaken. }
    destruct (is_traversable_node state next) eqn:Ht; [|done].
    apply Forall_app. split; [done|]. apply Forall_singleton.
    destruct He as (p & Hw & Hl & Hf & Hall); cbn in *. subst from.
    exists (cur :: p). split_and!; [| |done|].
    + constructor; [done|set_solver|]. intros Hin.
      pose proof (linked_dom _ _ Hl) as Hd. eapply Forall_forall in Hd; [|exact Hin].
      by apply not_elem_of_dom_2 in Hp.
    + constructor; [by eapply linked_weaken|apply lookup_insert_eq].
    + constructor; [by right|done].
  - split; [by trans (<[next := cur]> prev)|done].
Qed.

Hypothesis start_nonzero : start <> UID_zero.
Hypothesis zero_not_traversable : is_traversable_node state UID_zero = false.

Lemma reconstruct_goal prev p :
  walk (goal :: p) -> linked prev (goal :: p) ->
  Forall (fun v => v = start \/ is_traversable_node state v = true) (goal :: p) ->
  reconstruct (S (S (size prev))) prev goal [] = Found (rev_append (goal :: p) []).
Proof.
  intros Hw Hl Hall. pose proof (walk_length _ _ Hw Hl).
  apply (reconstruct_linked prev (goal :: p)); [done| |lia].
  eapply Forall_impl; [exact Hall|]. intros v [->|Hv] ->; congruence.
Qed.

Lemma bfs_loop_sound fuel prev q :
  loop_ok (prev, q) ->
  match bfs_loop fuel state goal prev q with
  | Found path => exists p, path = reverse p /\ walk p /\ head p = Some goal /\
                            Forall (fun v => v = start \/ is_traversable_node state v = true) p
  | AtThrows => False
  | _ => True
  end.
Proof.
  revert prev q. induction fuel as [|fuel IH]; intros prev q Hok; [done|]. cbn [bfs_loop].
  destruct q as [|[cur from] q]; [done|]. apply Forall_cons in Hok as [He Hq].
  case_decide as Hg; [subst cur|].
  - destruct He as (p & Hw & Hl & _ & Hall). cbn [fst] in *.
    rewrite (reconstruct_goal prev p) by done.
    by exists (goal :: p).
  - destruct (expand_ok cur from (topology_neighbors state cur from) prev q) as [_ H]; [done..|].
    destruct (expand state cur _ _) as [prev' q']. by apply IH.
Qed.

(** *** Termination *)

Variable nodes : gset UID.
Hypothesis nodes_complete : forall v, is_traversable_node state v = true -> v ∈ nodes.

Definition measure (s : gmap UID UID * list (UID * UID)) : nat :=
  length s.2 + size (nodes ∖ dom s.1).

Lemma expand_measure cur nexts s : (measure (expand state cur nexts s) <= measure s)%nat.
Proof.
  revert s. induction nexts as [|next nexts IH]; intros [prev q]; [done|]. cbn.
  destruct (prev !! next) eqn:Hp; [apply IH|]. etrans; [apply IH|].
  apply not_elem_of_dom in Hp. unfold measure; cbn [fst snd]. rewrite dom_insert_L.
  destruct (is_traversable_node state next) eqn:Ht.
  - assert (nodes ∖ dom prev = {[next]} ∪ nodes ∖ ({[next]} ∪ dom prev)) as ->.
    { apply nodes_complete in Ht. apply set_eq. intros x.
      destruct (decide (x = next)); set_solver. }
    rewrite (size_union {[next]}), size_singleton, length_app by set_solver. cbn. lia.
  - apply Nat.add_le_mono_l, subseteq_size. set_solver.
Qed.

Lemma bfs_loop_terminates fuel prev q :
  (measure (prev, q) < fuel)%nat -> start ∈ dom prev -> 
  loop_ok (prev, q) -> bfs_loop fuel state goal prev q <> OutOfFuel.
Proof.
  revert prev q. induction fuel as [|fuel IH]; intros prev q Hm Hs Hok; [lia|]. cbn [bfs_loop].
  destruct q as [|[cur from] q]; [done|]. apply Forall_cons in Hok as [He Hq].
  case_decide as Hg; [subst cur|].
  - destruct He as (p & Hw & Hl & _ & Hall). cbn [fst] in *.
    by rewrite (reconstruct_goal prev p).
  - destruct (expand_ok cur from (topology_neighbors state cur from) prev q) as [Hsub H]; [done..|].
    pose proof (expand_measure cur (topology_neighbors state cur from) (prev, q)) as Hm'.
    destruct (expand state cur _ _) as [prev' q']. apply IH; [|by apply (subseteq_dom _ _ Hsub)|done].
    unfold measure in *. cbn in *. lia.
Qed.
End Search.
Example demo_route_A_B :
  rp_nodes <$> find_route_path demo SigA SigB [] = Some
    [mkRoutePathNode RoutePathNodeKind.TRACK_SECTION T1 SwitchPosition.STRAIGHT;
     mkRoutePathNode RoutePathNodeKind.SWITCH W1 SwitchPosition.STRAIGHT;
     mkRoutePathNode RoutePathNodeKind.TRACK_SECTION T2 SwitchPosition.STRAIGHT].
Proof. by vm_compute. Qed.

Section Laws.
Context {V : Type} {SV : StateView V} {SVL : StateViewLaws V}.

Lemma traversable_bounded (state : V) :
  exists nodes : gset UID, (size nodes + 2 <= bfs_fuel state)%nat /\
    forall v, is_traversable_node state v = true -> v ∈ nodes.
Proof.
  destruct (backed_keys (track_section_backed state)) as (K1 & Hs1 & Hk1).
  destruct (backed_keys (switch_backed state)) as (K2 & Hs2 & Hk2).
  exists (K1 ∪ K2). split.
  - unfold bfs_fuel. rewrite <-Hs1, <-Hs2, size_union_alt.
    pose proof (subseteq_size (K2 ∖ K1) K2 ltac:(set_solver)). lia.
  - intros v Hv. apply orb_true_iff in Hv as [Hv|Hv]; apply bool_decide_eq_true_1 in Hv; set_solver.
Qed.

Lemma bfs_result (state : V) (start goal : UID) :
  start <> UID_zero -> is_traversable_node state UID_zero = false ->
  bfs state start goal = NotFound \/
  exists path, bfs state start goal = Found path /\ walk state start (reverse path) /\ NoDup path /\
    head path = Some start /\ last path = Some goal /\
    Forall (fun v => v = start \/ is_traversable_node state v = true) path.
Proof.
  intros Hs Hz. destruct (traversable_bounded state) as (nodes & Hsize & Hn).
  assert (loop_ok state start ({[ start := UID_zero ]}, [(start, UID_zero)])) as Hok.
  { apply Forall_singleton. exists []. split_and!; [constructor| |done|by repeat constructor].
    constructor. apply lookup_insert_eq. }
  pose proof (bfs_loop_sound state start goal Hs Hz (bfs_fuel state) _ _ Hok) as Hsound.
  pose proof (bfs_loop_terminates state start goal Hs Hz nodes Hn (bfs_fuel state)
                {[ start := UID_zero ]} [(start, UID_zero)]) as Hterm.
  fold (bfs state start goal) in Hsound, Hterm. destruct (bfs state start goal) as [path| | |].
  - right. exists path. destruct Hsound as (p & -> & Hw & Hh & Hall). split_and!; [done| | | | |].
    + by rewrite reverse_involutive.
    + rewrite reverse_Permutation. by eapply walk_NoDup.
    + rewrite <-last_reverse, reverse_involutive. clear -Hw. by induction Hw.
    + by rewrite last_reverse.
    + by apply Forall_reverse.
  - by left.
  - done.
  - exfalso. apply Hterm; [|set_solver|done|done]. unfold measure. cbn [fst snd length].
    assert (size (nodes ∖ dom ({[start := UID_zero]} : gmap UID UID)) <= size nodes)%nat
      by (apply subseteq_size; set_solver). lia.
Qed.

(** C7: the search always ends, never indexes a missing predecessor, and a path it
    returns is a walk of the topology from the start to the goal that leaves
    every node by a side other than the one it came in by, visits no node
    twice, and runs over sections and switches only. *)
Theorem bfs_correct (state : V) (start goal : UID) :
  start <> UID_zero -> is_traversable_node state UID_zero = false ->
  bfs state start goal = NotFound \/
  exists path, bfs state start goal = Found path /\ walk state start (reverse path) /\ NoDup path /\
    head path = Some start /\ last path = Some goal /\
    Forall (fun v => v = start \/ is_traversable_node state v = true) path.
Proof. apply bfs_result. Qed.
End Laws.

Example bfs_correct_witness :
  exists path, bfs demo T1 T3 = Found path /\ last path = Some T3.
Proof.
  destruct (bfs_correct demo T1 T3) as [H|(path & H & _ & _ & _ & Hl & _)];
    [done|by vm_compute|by vm_compute in H|by exists path].
Defined.

(** ** Switch positions *)

(** The position that joins two neighbours of a switch: a train can only pass
    between the trunk and one of the other legs. *)
Definition joins (sw : Switch) (pos : SwitchPosition.t) (a b : UID) : Prop :=
  let trunk := leg_neighbor_uid (sw_trunk sw) in
  let leg := match pos with
             | SwitchPosition.STRAIGHT => Some (leg_neighbor_uid (sw_straight sw))
             | SwitchPosition.DIVERGENT => Some (leg_neighbor_uid (sw_divergent sw))
             | _ => None
             end in
  (a = trunk /\ leg = Some b) \/ (b = trunk /\ leg = Some a).

Definition legs (sw : Switch) : list UID :=
  [leg_neighbor_uid (sw_trunk sw); leg_neighbor_uid (sw_straight sw);
   leg_neighbor_uid (sw_divergent sw)].

(** On a switch entered or left by its trunk, the required position joins the
    previous node of the path to the next one. *)
Theorem required_switch_position_joins (sw : Switch) (a b : UID) :
  NoDup (legs sw) -> a ∈ legs sw -> b ∈ legs sw -> a <> b ->
  a = leg_neighbor_uid (sw_trunk sw) \/ b = leg_neighbor_uid (sw_trunk sw) ->
  joins sw (required_switch_position sw a b) a b.
Proof.
  unfold legs, joins, required_switch_position. intros HN Ha Hb Hab Ht.
  rewrite !NoDup_cons, !not_elem_of_cons in HN. destruct HN as ((?&?&_)&(?&_)&_).
  rewrite !elem_of_cons in Ha, Hb.
  destruct Ha as [->|[->|[->|[]%not_elem_of_nil]]], Hb as [->|[->|[->|[]%not_elem_of_nil]]];
    repeat case_decide; naive_solver.
Qed.

Example required_switch_position_joins_witness :
  joins (demo_switch W1 T1 T2 W2) (required_switch_position (demo_switch W1 T1 T2 W2) W2 T1) W2 T1.
Proof.
  apply required_switch_position_joins; [|apply (bool_decide_unpack _); done..|done|by right].
  by apply (bool_decide_unpack _).
Defined.

(** The search also accepts a path from the straight to the divergent leg of a
    switch, which no position of that switch joins: signals B and C of the
    station get a route over W1 that no train can run. *)
Theorem route_between_tips :
  exists rp, find_route_path demo SigB SigC [] = Some rp /\
    rpn_uid <$> rp_nodes rp = [T2; W1; W2; T3] /\
    forall sw pos, find_switch demo W1 = Some sw -> ~ joins sw pos T2 W2.
Proof.
  eexists. split_and!; [vm_compute; reflexivity|by vm_compute|].
  intros sw pos Hsw. vm_compute in Hsw. injection Hsw as <-.
  destruct pos; intros [[? ?]|[? ?]]; done.
Qed.

(** ** Route identifiers *)

(** A route identifier is a well-formed operations/route identifier; it does not
    depend on the direction of the route, and repeats every 65536 ticks. *)
Theorem make_route_uid_props (a b : UID) (tick : Z) :
  uid_has_kind (make_route_uid a b tick) UIDDomain.OPERATIONS UIDKind.ROUTE = true /\
  uid_structured (make_route_uid a b tick) /\
  uid_scope (make_route_uid a b tick) = Z.lxor (uid_scope a) (uid_scope b) /\
  make_route_uid a b tick = make_route_uid b a tick /\
  make_route_uid a b tick = make_route_uid a b (tick + 2 ^ 16).
Proof.
  set (scope := u16 (Z.lxor (uid_scope a) (uid_scope b))).
  set (inst := u16 (Z.land (Z.lxor (Z.lxor (uid_instance a) (uid_instance b)) (u16 tick)) 0xFFFF)).
  assert (fits 16 scope) as Hs by (by apply wrap_fits).
  assert (fits 16 inst) as Hi by (by apply wrap_fits).
  assert (scope = Z.lxor (uid_scope a) (uid_scope b)) as Es.
  { apply wrap_small, lxor_fits; [done| |]; apply uid_scope_fits. }
  unfold make_route_uid. fold scope inst.
  pose proof (make_uid_value UIDDomain.OPERATIONS UIDKind.ROUTE scope inst Hs Hi) as Hv.
  cbn [code UIDDomain.enum UIDKind.enum UIDDomain.to_code UIDKind.to_code] in Hv.
  destruct (uid_fields_of_value (make_uid UIDDomain.OPERATIONS UIDKind.ROUTE scope inst) 3 33 scope inst)
    as (Ed & Ek & Esc & Ei); [done..|].
  split_and!.
  - unfold uid_has_kind, uid_is_safe_json_integer. rewrite Ed, Ek. rewrite andb_true_r.
    apply andb_true_iff. split; [|done]. apply Z.leb_le.
    change UID_MAX_SAFE_JSON_INTEGER with (2 ^ 53 - 1). unfold fits in *. lia.
  - unfold uid_structured, fits in *. lia.
  - congruence.
  - unfold scope, inst. by rewrite (Z.lxor_comm (uid_scope b)), (Z.lxor_comm (uid_instance b)).
  - unfold inst, wrap. by rewrite (Zplus_mod tick), Z_mod_same_full, Z.add_0_r, Zmod_mod.
Qed.
