(* ===== verification/DeviceRules.v ===== *)
(** * DeviceRules: the interlocking rules shared by the control systems

    [srk/common/include/srk/common/device_rules.hpp], [nak_codes.hpp] and
    [srk/common/src/device_rules.cpp].  A [check_*] returns the first
    violation, [None] when the command is safe; an [execute_*] returns the
    state changes.  All read the world through [StateView] only. *)
From S2P Require Import Prelude Float32 Types Commands Track World Changes RouteGraph.
Local Open Scope Z_scope.

(** ** Reason codes *)
(* SRC srk/common/include/srk/common/nak_codes.hpp 15-15 NAK_UNSPECIFIED *)
Definition NAK_UNSPECIFIED : Z := 0x00.
(* SRC srk/common/include/srk/common/nak_codes.hpp 16-16 NAK_NOT_FOUND *)
Definition NAK_NOT_FOUND : Z := 0x01.
(* SRC srk/common/include/srk/common/nak_codes.hpp 17-17 NAK_SAFETY_BLOCK *)
Definition NAK_SAFETY_BLOCK : Z := 0x02.
(* SRC srk/common/include/srk/common/nak_codes.hpp 18-18 NAK_INVALID_STATE *)
Definition NAK_INVALID_STATE : Z := 0x03.
(* SRC srk/common/include/srk/common/nak_codes.hpp 19-19 NAK_ROUTE_LOCKED *)
Definition NAK_ROUTE_LOCKED : Z := 0x04.
(* SRC srk/common/include/srk/common/nak_codes.hpp 20-20 NAK_NO_PATH *)
Definition NAK_NO_PATH : Z := 0x05.
(* SRC srk/common/include/srk/common/nak_codes.hpp 21-21 NAK_SWITCH_MOVING *)
Definition NAK_SWITCH_MOVING : Z := 0x06.
(* SRC srk/common/include/srk/common/nak_codes.hpp 22-22 NAK_UNSUPPORTED *)
Definition NAK_UNSUPPORTED : Z := 0x07.
(* SRC srk/common/include/srk/common/nak_codes.hpp 23-23 NAK_UNAUTHORIZED *)
Definition NAK_UNAUTHORIZED : Z := 0x08.
(* SRC srk/common/include/srk/common/nak_codes.hpp 24-24 NAK_SESSION_PAUSED *)
Definition NAK_SESSION_PAUSED : Z := 0x09.

(** The result of a check: [None] accepts. *)
Notation check := (option InterlockingViolation).

(* SRC srk/common/src/device_rules.cpp 13-16 violation *)
Definition violation (code : Z) (text : string) (uid : UID) : check :=
  Some (mkInterlockingViolation code text uid).

(* SRC srk/common/src/device_rules.cpp 18-21 uid_str *)
Definition uid_str (uid : UID) : string := pretty (value uid).

(** The first violation of a sequence of checks: the early returns of the source. *)
Definition first_violation (checks : list check) : check :=
  foldr (fun c rest => match c with Some v => Some v | None => rest end) None checks.
Definition reject_if (b : bool) (v : check) : check := if b then v else None.

Section Rules.
Context {V : Type} {SV : StateView V}.
Implicit Types state : V.

(** ** R1: SetSwitchPosition *)

(* SRC srk/common/src/device_rules.cpp 25-50 check_set_switch_position *)
Definition check_set_switch_position state (cmd : SetSwitchPositionCmd) : check :=
  let u := ssp_uid cmd in
  match find_switch state u with
  | None => violation NAK_NOT_FOUND ("Switch not found: " +:+ uid_str u) u
  | Some sw =>
      if decide (sw_position sw = SwitchPosition.MOVING) then
        violation NAK_SWITCH_MOVING ("Switch is already moving: " +:+ uid_str u) u
      else if decide (sw_occupancy sw = TrackOccupancy.OCCUPIED) then
        violation NAK_SAFETY_BLOCK ("Switch is occupied: " +:+ uid_str u) u
      else match sw_locked_by_route_uid sw with
      | Some route => violation NAK_ROUTE_LOCKED
            ("Switch locked by route " +:+ uid_str route +:+ ": " +:+ uid_str u) u
      | None =>
          if decide (sw_position sw = ssp_position cmd) then
            violation NAK_INVALID_STATE ("Switch already in requested position: " +:+ uid_str u) u
          else None
      end
  end.

(* SRC srk/common/src/device_rules.cpp 52-70 execute_set_switch_position *)
Definition execute_set_switch_position state (cmd : SetSwitchPositionCmd) (throw_time_ticks : Z) :
    list DeviceStateChange :=
  if 0 <? throw_time_ticks then
    [DSwitchPosition (mkSwitchPositionChange (ssp_uid cmd) SwitchPosition.MOVING
                        ChangeCause.COMMAND throw_time_ticks)]
  else
    [DSwitchPosition (mkSwitchPositionChange (ssp_uid cmd) (ssp_position cmd)
                        ChangeCause.COMMAND 0)].

(** ** R2: SetSignalAspect *)

(* SRC srk/common/src/device_rules.cpp 74-95 check_set_signal_aspect *)
Definition check_set_signal_aspect state (cmd : SetSignalAspectCmd) : check :=
  let u := ssa_uid cmd in
  match find_signal state u with
  | None => violation NAK_NOT_FOUND ("Signal not found: " +:+ uid_str u) u
  | Some sig =>
      match sig_locked_by_route_uid sig with
      | Some _ =>
          let is_stop := bool_decide (ssa_aspect cmd = SignalAspect.S1_STOP)
                         || bool_decide (ssa_aspect cmd = SignalAspect.MS1_STOP) in
          if is_stop then None
          else violation NAK_ROUTE_LOCKED
                 ("Cannot change locked signal to proceed aspect: " +:+ uid_str u) u
      | None => None
      end
  end.

(* SRC srk/common/src/device_rules.cpp 97-101 execute_set_signal_aspect *)
Definition execute_set_signal_aspect state (cmd : SetSignalAspectCmd) : list DeviceStateChange :=
  [DSignalAspect (mkSignalAspectChange (ssa_uid cmd) (ssa_aspect cmd) ChangeCause.COMMAND None)].

(** ** R3: SetDerailerPosition *)

(* SRC srk/common/src/device_rules.cpp 105-127 check_set_derailer_position *)
Definition check_set_derailer_position state (cmd : SetDerailerPositionCmd) : check :=
  let u := sdp_uid cmd in
  match find_derailer state u with
  | None => violation NAK_NOT_FOUND ("Derailer not found: " +:+ uid_str u) u
  | Some d =>
      match der_locked_by_route_uid d with
      | Some route => violation NAK_ROUTE_LOCKED
            ("Derailer locked by route " +:+ uid_str route +:+ ": " +:+ uid_str u) u
      | None =>
          if decide (sdp_position cmd = DerailerState.UNLOCKED) then
            match find_track_section state (der_guards_section_uid d) with
            | Some guarded =>
                if decide (ts_occupancy guarded = TrackOccupancy.OCCUPIED) then
                  violation NAK_SAFETY_BLOCK ("Guarded section is occupied: " +:+ uid_str u) u
                else None
            | None => None
            end
          else None
      end
  end.

(* SRC srk/common/src/device_rules.cpp 129-133 execute_set_derailer_position *)
Definition execute_set_derailer_position state (cmd : SetDerailerPositionCmd) : list DeviceStateChange :=
  [DDerailerState (mkDerailerStateChange (sdp_uid cmd) (sdp_position cmd) ChangeCause.COMMAND None)].

(** ** R4: SetBlockSection *)

(* SRC srk/common/src/device_rules.cpp 137-151 check_set_block_section *)
Definition check_set_block_section state (cmd : SetBlockSectionCmd) : check :=
  let u := sbs_uid cmd in
  match find_block_section state u with
  | None => violation NAK_NOT_FOUND ("Block section not found: " +:+ uid_str u) u
  | Some bs =>
      if bool_decide (sbs_state cmd = BlockSectionState.CLOSED) && negb (bs_axle_count bs =? 0) then
        violation NAK_SAFETY_BLOCK
          ("Cannot close block section: axle count " +:+ pretty (bs_axle_count bs) +:+
           " != 0: " +:+ uid_str u) u
      else None
  end.

(* SRC srk/common/src/device_rules.cpp 153-157 execute_set_block_section *)
Definition execute_set_block_section state (cmd : SetBlockSectionCmd) : list DeviceStateChange :=
  [DBlockSectionState (mkBlockSectionStateChange (sbs_uid cmd) (sbs_state cmd))].

(** ** R5: RequestRoute *)

(** The flank node of one path node: the switch at the end of the leg the route
    does not use, in the position that deflects away from the route. *)
(* SRC srk/common/src/device_rules.cpp 163-187 FlankProtectionPolicy::apply *)
Definition flank_node state (node : RoutePathNode) : option RoutePathNode :=
  if decide (rpn_kind node <> RoutePathNodeKind.SWITCH) then None
  else
    sw ← find_switch state (rpn_uid node);
    let unused_leg :=
      if decide (rpn_required_position node = SwitchPosition.STRAIGHT)
      then leg_neighbor_uid (sw_divergent sw) else leg_neighbor_uid (sw_straight sw) in
    flank_sw ← find_switch state unused_leg;
    let deflect_pos :=
      if decide (leg_neighbor_uid (sw_trunk flank_sw) = sw_uid sw) then SwitchPosition.DIVERGENT
      else if decide (leg_neighbor_uid (sw_straight flank_sw) = sw_uid sw) then SwitchPosition.DIVERGENT
      else if decide (leg_neighbor_uid (sw_divergent flank_sw) = sw_uid sw) then SwitchPosition.STRAIGHT
      else SwitchPosition.STRAIGHT in
    Some (mkRoutePathNode RoutePathNodeKind.SWITCH (sw_uid flank_sw) deflect_pos).

(* SRC srk/common/src/device_rules.cpp 161-189 FlankProtectionPolicy::apply *)
Definition FlankProtectionPolicy : IRoutePathPolicy V := fun state path =>
  (true, path <| rp_flank_switches ::= fun l => l ++ omap (flank_node state) (rp_nodes path) |>).

(* SRC srk/common/src/device_rules.cpp 217-235 check_request_route *)
Definition check_path_node state (node : RoutePathNode) : check :=
  let u := rpn_uid node in
  if decide (rpn_kind node <> RoutePathNodeKind.SWITCH) then None
  else match find_switch state u with
  | None => None
  | Some sw =>
      if decide (sw_occupancy sw = TrackOccupancy.OCCUPIED) then
        violation NAK_SAFETY_BLOCK ("Switch occupied on route path: " +:+ uid_str u) u
      else if decide (is_Some (sw_locked_by_route_uid sw)) then
        violation NAK_ROUTE_LOCKED ("Switch locked by another route: " +:+ uid_str u) u
      else if decide (sw_position sw = SwitchPosition.MOVING) then
        violation NAK_SWITCH_MOVING ("Switch is moving: " +:+ uid_str u) u
      else None
  end.

(* SRC srk/common/src/device_rules.cpp 237-244 check_request_route *)
Definition check_path_section state (suid : UID) : check :=
  match find_track_section state suid with
  | Some ts =>
      if decide (ts_occupancy ts = TrackOccupancy.OCCUPIED) then
        violation NAK_SAFETY_BLOCK ("Track section occupied on route path: " +:+ uid_str suid) suid
      else None
  | None => None
  end.

(* SRC srk/common/src/device_rules.cpp 191-247 check_request_route *)
Definition check_request_route state (cmd : RequestRouteCmd) (policies : list (IRoutePathPolicy V)) : check :=
  let from := rr_from_signal_uid cmd in
  let to := rr_to_signal_uid cmd in
  match find_signal state from with
  | None => violation NAK_NOT_FOUND ("Entry signal not found: " +:+ uid_str from) from
  | Some entry =>
      match find_signal state to with
      | None => violation NAK_NOT_FOUND ("Exit signal not found: " +:+ uid_str to) to
      | Some _ =>
          if decide (is_Some (sig_locked_by_route_uid entry)) then
            violation NAK_ROUTE_LOCKED ("Entry signal already route-locked: " +:+ uid_str from) from
          else match find_route_path state from to policies with
          | None => violation NAK_NO_PATH
                ("No topology path from " +:+ uid_str from +:+ " to " +:+ uid_str to) UID_zero
          | Some path =>
              match first_violation (check_path_node state <$> rp_nodes path) with
              | Some v => Some v
              | None => first_violation (check_path_section state <$> rp_section_uids path)
              end
          end
      end
  end.

(** Setting and locking one switch of the route, or of its flank. *)
(* SRC srk/common/src/device_rules.cpp 262-275 execute_request_route *)
Definition set_and_lock state (route_uid : UID) (node : RoutePathNode) : list DeviceStateChange :=
  match find_switch state (rpn_uid node) with
  | None => []
  | Some sw =>
      (if decide (sw_position sw <> rpn_required_position node) then
         [DSwitchPosition (mkSwitchPositionChange (rpn_uid node) (rpn_required_position node)
                             ChangeCause.AUTO 0)]
       else []) ++
      [DSwitchLocked (mkSwitchLocked (rpn_uid node) route_uid)]
  end.

(* SRC srk/common/src/device_rules.cpp 292-300 execute_request_route *)
Definition unlock_derailer state (route_uid duid : UID) : list DeviceStateChange :=
  match find_derailer state duid with
  | None => []
  | Some d =>
      if decide (der_state d = DerailerState.LOCKED) then
        [DDerailerState (mkDerailerStateChange duid DerailerState.UNLOCKED ChangeCause.AUTO
                           (Some route_uid))]
      else []
  end.

(* SRC srk/common/src/device_rules.cpp 249-318 execute_request_route *)
Definition execute_request_route state (cmd : RequestRouteCmd) (tick : Z)
    (policies : list (IRoutePathPolicy V)) : list DeviceStateChange :=
  let from := rr_from_signal_uid cmd in
  let to := rr_to_signal_uid cmd in
  match find_route_path state from to policies with
  | None => []
  | Some path =>
      let route_uid := make_route_uid from to tick in
      let path_switches :=
        filter (fun n => rpn_kind n = RoutePathNodeKind.SWITCH) (rp_nodes path) in
      let flank_locked :=
        filter (fun n => is_Some (find_switch state (rpn_uid n))) (rp_flank_switches path) in
      let switch_uids := rp_switch_uids path ++ (rpn_uid <$> flank_locked) in
      (path_switches ≫= set_and_lock state route_uid) ++
      (rp_flank_switches path ≫= set_and_lock state route_uid) ++
      (rp_derailer_uids path ≫= unlock_derailer state route_uid) ++
      [DSignalAspect (mkSignalAspectChange from SignalAspect.S2_PROCEED ChangeCause.AUTO
                        (Some route_uid));
       DRouteAdded (mkRouteState route_uid from to (rp_section_uids path) switch_uids
                      (rp_derailer_uids path) tick false None)]
  end.

(** ** R5: CancelRoute *)

(* SRC srk/common/src/device_rules.cpp 322-336 check_cancel_route *)
Definition check_cancel_route state (cmd : CancelRouteCmd) : check :=
  let u := cr_route_uid cmd in
  match find_route state u with
  | None => violation NAK_NOT_FOUND ("Route not found: " +:+ uid_str u) u
  | Some route =>
      if negb (cr_force cmd) && rt_train_entered route then
        violation NAK_SAFETY_BLOCK
          ("Train has entered route; use force to cancel: " +:+ uid_str u) u
      else None
  end.

(* SRC srk/common/src/device_rules.cpp 338-372 execute_cancel_route *)
Definition execute_cancel_route state (cmd : CancelRouteCmd) : list DeviceStateChange :=
  let u := cr_route_uid cmd in
  match find_route state u with
  | None => []
  | Some route =>
      [DSignalAspect (mkSignalAspectChange (rt_from_signal_uid route) SignalAspect.S1_STOP
                        ChangeCause.COMMAND (Some u))] ++
      ((fun swuid => DSwitchUnlocked (mkSwitchUnlocked swuid u)) <$> rt_switch_uids route) ++
      (rt_derailer_uids route ≫= fun duid =>
         match find_derailer state duid with
         | Some d =>
             if decide (der_state d = DerailerState.UNLOCKED) then
               [DDerailerState (mkDerailerStateChange duid DerailerState.LOCKED ChangeCause.AUTO None)]
             else []
         | None => []
         end) ++
      (if cr_force cmd then [DEmergencyRouteReleaseExecuted (mkEmergencyRouteReleaseExecuted u)]
       else []) ++
      [DRouteRemoved (mkRouteRemoved u (if cr_force cmd then "FORCE" else "OPERATOR_CANCEL"))]
  end.

(** ** R7: AcknowledgeAlarm *)

(* SRC srk/common/src/device_rules.cpp 376-383 check_acknowledge_alarm *)
Definition check_acknowledge_alarm state (cmd : AcknowledgeAlarmCmd) : check :=
  match find_alarm state (aa_alarm_uid cmd) with
  | None => violation NAK_NOT_FOUND ("Alarm not found: " +:+ uid_str (aa_alarm_uid cmd))
              (aa_alarm_uid cmd)
  | Some _ => None
  end.

(* SRC srk/common/src/device_rules.cpp 385-389 execute_acknowledge_alarm *)
Definition execute_acknowledge_alarm state (cmd : AcknowledgeAlarmCmd) : list DeviceStateChange :=
  [DAlarmCleared (aa_alarm_uid cmd)].

(** ** Operator commands *)

(* SRC srk/common/src/device_rules.cpp 391-415 target_exists *)
Definition target_exists state (target_kind : OperatorTargetKind.t) (target_uid : UID) : bool :=
  match target_kind with
  | OperatorTargetKind.SIGNAL => bool_decide (is_Some (find_signal state target_uid))
  | OperatorTargetKind.SWITCH =>
      bool_decide (is_Some (find_switch state target_uid)) ||
      bool_decide (is_Some (find_derailer state target_uid))
  | OperatorTargetKind.DERAILER => bool_decide (is_Some (find_derailer state target_uid))
  | OperatorTargetKind.TRACK_SECTION => bool_decide (is_Some (find_track_section state target_uid))
  | OperatorTargetKind.BLOCK_SECTION => bool_decide (is_Some (find_block_section state target_uid))
  | OperatorTargetKind.AXLE_COUNTER_SYSTEM | OperatorTargetKind.STATION | OperatorTargetKind.ROUTE
  | OperatorTargetKind.LEVEL_CROSSING | OperatorTargetKind.INTERLOCKING_COMPUTER
  | OperatorTargetKind.POWER_SUPPLY => negb (value target_uid =? 0)
  | OperatorTargetKind.Unnamed _ => false
  end.

(* SRC srk/common/src/device_rules.cpp 417-452 check_operator_command *)
Definition check_operator_command state (cmd : OperatorCommandCmd) : check :=
  let u := oc_target_uid cmd in
  if negb (target_exists state (oc_target_kind cmd) u) then
    violation NAK_NOT_FOUND ("Operator command target not found: " +:+ uid_str u) u
  else
    let switch_check :=
      match oc_code cmd with
      | OperatorCommandCode.ZWP | OperatorCommandCode.ZWM
      | OperatorCommandCode.ZBP | OperatorCommandCode.ZBM =>
          match find_switch state u with
          | Some sw =>
              if decide (sw_occupancy sw = TrackOccupancy.OCCUPIED) then
                violation NAK_SAFETY_BLOCK ("Switch is occupied: " +:+ uid_str u) u
              else if decide (is_Some (sw_locked_by_route_uid sw)) then
                violation NAK_ROUTE_LOCKED ("Switch locked by route: " +:+ uid_str u) u
              else if decide (sw_position sw = SwitchPosition.MOVING) then
                violation NAK_SWITCH_MOVING ("Switch is moving: " +:+ uid_str u) u
              else None
          | None => None
          end
      | _ => None
      end in
    match switch_check with
    | Some v => Some v
    | None =>
        if decide (oc_code cmd = OperatorCommandCode.BLZ) then
          match find_block_section state u with
          | Some bs =>
              if negb (bs_axle_count bs =? 0) then
                violation NAK_SAFETY_BLOCK "Cannot release block direction: axle count != 0" u
              else None
          | None => None
          end
        else None
    end.

(** Moving a switch, or else the derailer of the same identifier. *)
(* SRC srk/common/src/device_rules.cpp 493-505 execute_operator_command *)
Definition throw_switch_or_derailer state (u : UID) (pos : SwitchPosition.t)
    (derailer : DerailerState.t) (throw_time_ticks : Z) : list DeviceStateChange :=
  match find_switch state u with
  | Some _ => execute_set_switch_position state (mkSetSwitchPositionCmd u pos) throw_time_ticks
  | None =>
      match find_derailer state u with
      | Some _ => execute_set_derailer_position state (mkSetDerailerPositionCmd u derailer)
      | None => []
      end
  end.

(** Putting a signal to stop, main or shunting. *)
(* SRC srk/common/src/device_rules.cpp 464-470 execute_operator_command *)
Definition stop_signal state (u : UID) : list DeviceStateChange :=
  match find_signal state u with
  | Some sig =>
      let aspect := if decide (sig_type sig = SignalType.SHUNTING) then SignalAspect.MS1_STOP
                    else SignalAspect.S1_STOP in
      [DSignalAspect (mkSignalAspectChange u aspect ChangeCause.COMMAND None)]
  | None => []
  end.

(** Confirming the pending direction of a block section. *)
(* SRC srk/common/src/device_rules.cpp 545-552 execute_operator_command *)
Definition confirm_direction state (u : UID) : list DeviceStateChange :=
  match find_block_section state u with
  | Some bs =>
      let direction := if decide (bs_direction bs = BlockDirectionState.INBOUND_PENDING)
                       then BlockDirectionState.INBOUND else BlockDirectionState.OUTBOUND in
      [DBlockDirection (mkBlockDirectionChange u direction false);
       DBlockSectionState (mkBlockSectionStateChange u BlockSectionState.OPEN)]
  | None => []
  end.

(* SRC srk/common/src/device_rules.cpp 454-573 execute_operator_command *)
Definition execute_operator_command state (cmd : OperatorCommandCmd) (throw_time_ticks : Z) :
    list DeviceStateChange :=
  let u := oc_target_uid cmd in
  let record active := DOperatorCommandState
    (mkOperatorCommandStateChange u (oc_target_kind cmd) (oc_code cmd) active) in
  let direction d confirm := DBlockDirection (mkBlockDirectionChange u d confirm) in
  let block s := DBlockSectionState (mkBlockSectionStateChange u s) in
  record true ::
  match oc_code cmd with
  | OperatorCommandCode.SES => stop_signal state u
  | OperatorCommandCode.SEO | OperatorCommandCode.SZO | OperatorCommandCode.SAW
  | OperatorCommandCode.ZWO | OperatorCommandCode.ITO | OperatorCommandCode.OST
  | OperatorCommandCode.OZK | OperatorCommandCode.BTO | OperatorCommandCode.PDO
  | OperatorCommandCode.UPAO | OperatorCommandCode.ZSO => [record false]
  | OperatorCommandCode.SZW | OperatorCommandCode.SZN =>
      [DSignalAspect (mkSignalAspectChange u SignalAspect.S2_PROCEED ChangeCause.COMMAND None)]
  | OperatorCommandCode.ZWP | OperatorCommandCode.ZBP =>
      throw_switch_or_derailer state u SwitchPosition.STRAIGHT DerailerState.LOCKED throw_time_ticks
  | OperatorCommandCode.ZWM | OperatorCommandCode.ZBM =>
      throw_switch_or_derailer state u SwitchPosition.DIVERGENT DerailerState.UNLOCKED throw_time_ticks
  | OperatorCommandCode.SLK =>
      [DAxleCounterReset (mkAxleCounterResetChange u (oc_target_kind cmd)); record false]
  | OperatorCommandCode.BLS => [block BlockSectionState.CLOSED]
  | OperatorCommandCode.BLW | OperatorCommandCode.BPZ =>
      [direction BlockDirectionState.OUTBOUND_PENDING true]
  | OperatorCommandCode.BPO | OperatorCommandCode.BKO | OperatorCommandCode.BTW
  | OperatorCommandCode.POC | OperatorCommandCode.PZW => [block BlockSectionState.CLOSED]
  | OperatorCommandCode.BLP | OperatorCommandCode.POZ => confirm_direction state u
  | OperatorCommandCode.BLO | OperatorCommandCode.BLZ | OperatorCommandCode.BLA
  | OperatorCommandCode.OPS | OperatorCommandCode.DPW =>
      [direction BlockDirectionState.NEUTRAL false; block BlockSectionState.CLOSED]
  | OperatorCommandCode.BLAI | OperatorCommandCode.DPWI =>
      [direction BlockDirectionState.EMERGENCY false]
  | _ => []
  end.

(** ** R8: SetBlockDirection (SHL-12) *)

(* SRC srk/common/src/device_rules.cpp 577-641 check_set_block_direction *)
Definition check_set_block_direction state (cmd : SetBlockDirectionCmd) : check :=
  let u := sbd_block_section_uid cmd in
  match find_block_section state u with
  | None => violation NAK_NOT_FOUND ("Block section not found: " +:+ uid_str u) u
  | Some bs =>
      let dir := bs_direction bs in
      match sbd_operation cmd with
      | Shl12Op.BLW =>
          if decide (dir <> BlockDirectionState.NEUTRAL) then
            violation NAK_INVALID_STATE
              ("BLW requires NEUTRAL direction, current: " +:+ pretty (code dir)) u
          else None
      | Shl12Op.BLP =>
          if decide (dir <> BlockDirectionState.OUTBOUND_PENDING /\
                     dir <> BlockDirectionState.INBOUND_PENDING) then
            violation NAK_INVALID_STATE "BLP requires OUTBOUND_PENDING or INBOUND_PENDING" u
          else None
      | Shl12Op.BLO =>
          if decide (dir <> BlockDirectionState.OUTBOUND_PENDING) then
            violation NAK_INVALID_STATE "BLO requires OUTBOUND_PENDING" u
          else None
      | Shl12Op.BLZ =>
          if decide (dir <> BlockDirectionState.OUTBOUND /\ dir <> BlockDirectionState.INBOUND) then
            violation NAK_INVALID_STATE "BLZ requires OUTBOUND or INBOUND" u
          else if negb (bs_axle_count bs =? 0) then
            violation NAK_SAFETY_BLOCK "Cannot release direction: axle count != 0" u
          else None
      | Shl12Op.BLAI =>
          if decide (dir = BlockDirectionState.RESET_PENDING) then
            violation NAK_INVALID_STATE "BLAI not allowed in RESET_PENDING state" u
          else None
      | Shl12Op.BLA =>
          if decide (dir <> BlockDirectionState.EMERGENCY) then
            violation NAK_INVALID_STATE "BLA requires EMERGENCY state" u
          else None
      | Shl12Op.OPS =>
          if decide (dir <> BlockDirectionState.EMERGENCY /\
                     dir <> BlockDirectionState.RESET_PENDING) then
            violation NAK_INVALID_STATE "OPS requires EMERGENCY or RESET_PENDING state" u
          else None
      | Shl12Op.Unnamed _ => None
      end
  end.

(* SRC srk/common/src/device_rules.cpp 643-711 execute_set_block_direction *)
Definition execute_set_block_direction state (cmd : SetBlockDirectionCmd) : list DeviceStateChange :=
  let u := sbd_block_section_uid cmd in
  match find_block_section state u with
  | None => []
  | Some bs =>
      let direction d confirm := DBlockDirection (mkBlockDirectionChange u d confirm) in
      let block s := DBlockSectionState (mkBlockSectionStateChange u s) in
      match sbd_operation cmd with
      | Shl12Op.BLW => [direction BlockDirectionState.OUTBOUND_PENDING true]
      | Shl12Op.BLP =>
          if decide (bs_direction bs = BlockDirectionState.OUTBOUND_PENDING) then
            [direction BlockDirectionState.OUTBOUND false; block BlockSectionState.OPEN]
          else
            [direction BlockDirectionState.INBOUND false; block BlockSectionState.OPEN]
      | Shl12Op.BLO => [direction BlockDirectionState.NEUTRAL false]
      | Shl12Op.BLZ => [direction BlockDirectionState.NEUTRAL false; block BlockSectionState.CLOSED]
      | Shl12Op.BLAI => [direction BlockDirectionState.EMERGENCY false]
      | Shl12Op.BLA => [direction BlockDirectionState.NEUTRAL false; block BlockSectionState.CLOSED]
      | Shl12Op.OPS => [direction BlockDirectionState.NEUTRAL false; block BlockSectionState.CLOSED]
      | Shl12Op.Unnamed _ => []
      end
  end.

(** ** R9: InitAxleCounterReset (SLI) *)

(* SRC srk/common/src/device_rules.cpp 715-728 check_init_axle_counter_reset *)
Definition check_init_axle_counter_reset state (cmd : InitAxleCounterResetCmd) : check :=
  let u := iac_block_section_uid cmd in
  match find_block_section state u with
  | None => violation NAK_NOT_FOUND ("Block section not found: " +:+ uid_str u) u
  | Some bs =>
      if decide (bs_direction bs <> BlockDirectionState.NEUTRAL) then
        violation NAK_INVALID_STATE "SLI requires NEUTRAL direction" u
      else None
  end.

(* SRC srk/common/src/device_rules.cpp 730-734 execute_init_axle_counter_reset *)
Definition execute_init_axle_counter_reset state (cmd : InitAxleCounterResetCmd) : list DeviceStateChange :=
  [DBlockDirection (mkBlockDirectionChange (iac_block_section_uid cmd)
                      BlockDirectionState.RESET_PENDING false)].

(** ** R10: ResetAxleCounter (SLK) *)

(* SRC srk/common/src/device_rules.cpp 738-756 check_reset_axle_counter *)
Definition check_reset_axle_counter state (cmd : ResetAxleCounterCmd) : check :=
  let u := rac_block_section_uid cmd in
  match find_block_section state u with
  | None => violation NAK_NOT_FOUND ("Block section not found: " +:+ uid_str u) u
  | Some bs =>
      if decide (bs_direction bs <> BlockDirectionState.RESET_PENDING) then
        violation NAK_INVALID_STATE "SLK requires RESET_PENDING state" u
      else
        let too_early :=
          match bs_reset_init_tick bs with
          | None => true
          | Some t => current_tick state <? u64 (t + 60 * ENGINE_TICKS_PER_SECOND)
          end in
        if too_early then violation NAK_SAFETY_BLOCK "SLK requires 60s delay after SLI" u
        else None
  end.

(* SRC srk/common/src/device_rules.cpp 758-765 execute_reset_axle_counter *)
Definition execute_reset_axle_counter state (cmd : ResetAxleCounterCmd) : list DeviceStateChange :=
  let u := rac_block_section_uid cmd in
  [DBlockDirection (mkBlockDirectionChange u BlockDirectionState.NEUTRAL false);
   DBlockSectionState (mkBlockSectionStateChange u BlockSectionState.CLOSED)].

(** ** Tick helpers *)

(** The visit of one switch: the changes and what is left of the targets. *)
(* SRC srk/common/src/device_rules.cpp 775-808 tick_switch_machines *)
Definition tick_switch_machine (pending_targets : gmap UID SwitchPosition.t) (sw : Switch) :
    list DeviceStateChange * gmap UID SwitchPosition.t :=
  let u := sw_uid sw in
  let land_switch :=
    let target := default SwitchPosition.STRAIGHT (pending_targets !! u) in
    ([DSwitchPosition (mkSwitchPositionChange u target ChangeCause.AUTO 0)],
     delete u pending_targets) in
  if decide (sw_position sw <> SwitchPosition.MOVING) then ([], delete u pending_targets)
  else if sw_moving_ticks_remaining sw <=? 0 then land_switch
  else
    let remaining := sw_moving_ticks_remaining sw - 1 in
    if remaining =? 0 then land_switch
    else ([DSwitchPosition (mkSwitchPositionChange u SwitchPosition.MOVING ChangeCause.AUTO remaining)],
          pending_targets).

(* SRC srk/common/src/device_rules.cpp 769-811 tick_switch_machines *)
Definition tick_switch_machines state (pending_targets : gmap UID SwitchPosition.t) :
    list DeviceStateChange * gmap UID SwitchPosition.t :=
  foldl (fun '(changes, pending) sw =>
    let '(more, pending) := tick_switch_machine pending sw in (changes ++ more, pending))
    ([], pending_targets) (for_each_switch state).

(** The visit of one route. *)
(* SRC srk/common/src/device_rules.cpp 817-856 tick_route_auto_release *)
Definition tick_route state (current_tick : Z) (route : RouteState) : list DeviceStateChange :=
  if negb (rt_train_entered route) then []
  else
    let occupied suid :=
      match find_track_section state suid with
      | Some ts => bool_decide (ts_occupancy ts = TrackOccupancy.OCCUPIED)
      | None => false
      end in
    if existsb occupied (rt_section_uids route) then []
    else match rt_overlap_release_tick route with
    | None =>
        [DRouteOverlapTimerStarted (mkRouteOverlapTimerStarted (rt_uid route)
           (u64 (current_tick + 60 * ENGINE_TICKS_PER_SECOND)))]
    | Some release =>
        if current_tick <? release then []
        else
          [DSignalAspect (mkSignalAspectChange (rt_from_signal_uid route) SignalAspect.S1_STOP
                            ChangeCause.AUTO (Some (rt_uid route)))] ++
          ((fun swuid => DSwitchUnlocked (mkSwitchUnlocked swuid (rt_uid route)))
             <$> rt_switch_uids route) ++
          [DRouteRemoved (mkRouteRemoved (rt_uid route) "TRAIN_CLEARED")]
    end.

(* SRC srk/common/src/device_rules.cpp 813-859 tick_route_auto_release *)
Definition tick_route_auto_release state (current_tick : Z) : list DeviceStateChange :=
  for_each_route state ≫= tick_route state current_tick.

(* SRC srk/common/src/device_rules.cpp 861-879 tick_level_crossings *)
Definition tick_level_crossings state (current_tick : Z) : list DeviceStateChange :=
  for_each_level_crossing state ≫= fun lx =>
    if decide (lx_status lx = LevelCrossingStatus.WARNING) then
      match lx_warning_start_tick lx with
      | Some t =>
          if u64 (t + lx_warning_duration_ticks lx) <=? current_tick then
            [DLevelCrossingState (mkLevelCrossingStateChange (lx_uid lx) LevelCrossingStatus.CLOSED)]
          else []
      | None => []
      end
    else [].
End Rules.
