(* ===== verification/Interlocking.v ===== *)
(** * Interlocking: the control systems behind one interface

    [engine/include/engine/core/control_system.hpp] ([IControlSystem]),
    [srk/ebilock] and [srk/ml8].  The interface is the class [ControlSystem];
    each system is a record of its throw time and its pending switch targets. *)
From S2P Require Import Prelude Float32 Types Commands Track World Changes RouteGraph DeviceRules.
Local Open Scope Z_scope.

(* SRC engine/include/engine/core/control_system.hpp 162-189 IControlSystem *)
Class ControlSystem (C V : Type) := mkControlSystem {
  system_id : C -> string;
  check_command : C -> V -> Command -> check;
  execute_command : C -> V -> Command -> list DeviceStateChange * C;
  on_tick : C -> V -> Z -> list DeviceStateChange * C;
  supported_command_types : C -> list string }.

(** ** EbiLock X4 *)

Module EbiLockSystem.
(* SRC srk/ebilock/include/srk/ebilock/ebilock_system.hpp 29-56 EbiLockSystem *)
Record t := mk { eea4_throw_ticks_ : Z; pending_targets_ : gmap UID SwitchPosition.t }.
#[global] Instance eta : Eta t := fun s => mk (eea4_throw_ticks_ s) (pending_targets_ s).

(* SRC srk/ebilock/src/ebilock_system.cpp 24-24 EbiLockSystem *)
Definition create (eea4_throw_ticks : Z) : t := mk eea4_throw_ticks ∅.

(* SRC srk/ebilock/src/ebilock_system.cpp 28-31 EbiLockSystem::system_id *)
Definition system_id (self : t) : string := "ebilock_x4".

(* SRC srk/ebilock/src/ebilock_system.cpp 35-43 EbiLockSystem::supported_command_types *)
Definition supported_command_types (self : t) : list string :=
  ["SetSwitchPositionCmd"; "SetSignalAspectCmd"; "SetDerailerPositionCmd"; "SetBlockSectionCmd";
   "RequestRouteCmd"; "CancelRouteCmd"; "AcknowledgeAlarmCmd"; "SetBlockDirectionCmd";
   "InitAxleCounterResetCmd"; "ResetAxleCounterCmd"; "OperatorCommandCmd"]%string.

Section Ops.
Context {V : Type} {SV : StateView V}.

(* SRC srk/ebilock/src/ebilock_system.cpp 47-48 kPolicies *)
Definition kPolicies : list (IRoutePathPolicy V) := [FlankProtectionPolicy].

(* SRC srk/ebilock/src/ebilock_system.cpp 50-95 EbiLockSystem::check_command *)
Definition check_command (self : t) (state : V) (cmd : Command) : check :=
  match cmd with
  | CSetSwitchPosition c => check_set_switch_position state c
  | CSetSignalAspect c => check_set_signal_aspect state c
  | CSetDerailerPosition c => check_set_derailer_position state c
  | CSetBlockSection c => check_set_block_section state c
  | CRequestRoute c => check_request_route state c kPolicies
  | CCancelRoute c => check_cancel_route state c
  | CAcknowledgeAlarm c => check_acknowledge_alarm state c
  | CSetBlockDirection c => check_set_block_direction state c
  | CInitAxleCounterReset c => check_init_axle_counter_reset state c
  | CResetAxleCounter c => check_reset_axle_counter state c
  | COperatorCommand c => check_operator_command state c
  | CMl8Command _ => violation NAK_UNSUPPORTED "Unrecognised command" UID_zero
  end.

(* SRC srk/ebilock/src/ebilock_system.cpp 99-150 EbiLockSystem::execute_command *)
Definition execute_command (self : t) (state : V) (cmd : Command) : list DeviceStateChange * t :=
  match cmd with
  | CSetSwitchPosition c =>
      let changes := execute_set_switch_position state c (eea4_throw_ticks_ self) in
      (changes,
       if 0 <? eea4_throw_ticks_ self
       then self <| pending_targets_ ::= insert (ssp_uid c) (ssp_position c) |> else self)
  | CSetSignalAspect c => (execute_set_signal_aspect state c, self)
  | CSetDerailerPosition c => (execute_set_derailer_position state c, self)
  | CSetBlockSection c => (execute_set_block_section state c, self)
  | CRequestRoute c => (execute_request_route state c (current_tick state) kPolicies, self)
  | CCancelRoute c => (execute_cancel_route state c, self)
  | CAcknowledgeAlarm c => (execute_acknowledge_alarm state c, self)
  | CSetBlockDirection c => (execute_set_block_direction state c, self)
  | CInitAxleCounterReset c => (execute_init_axle_counter_reset state c, self)
  | CResetAxleCounter c => (execute_reset_axle_counter state c, self)
  | COperatorCommand c => (execute_operator_command state c (eea4_throw_ticks_ self), self)
  | CMl8Command _ => ([], self)
  end.

(* SRC srk/ebilock/src/ebilock_system.cpp 154-161 EbiLockSystem::on_tick *)
Definition on_tick (self : t) (state : V) (tick_num : Z) : list DeviceStateChange * t :=
  let '(changes, pending) := tick_switch_machines state (pending_targets_ self) in
  let routes := tick_route_auto_release state tick_num in
  (changes ++ routes, self <| pending_targets_ := pending |>).

#[global] Instance control : ControlSystem t V :=
  mkControlSystem t V system_id check_command execute_command on_tick supported_command_types.
End Ops.
End EbiLockSystem.

(** ** ESTW ML8 *)

Module Ml8System.
(* SRC srk/ml8/include/srk/ml8/ml8_system.hpp 34-65 Ml8System *)
Record t := mk { eea4_throw_ticks_ : Z; pending_targets_ : gmap UID SwitchPosition.t }.
#[global] Instance eta : Eta t := fun s => mk (eea4_throw_ticks_ s) (pending_targets_ s).

(* SRC srk/ml8/src/ml8_system.cpp 25-25 Ml8System *)
Definition create (eea4_throw_ticks : Z) : t := mk eea4_throw_ticks ∅.

(* SRC srk/ml8/src/ml8_system.cpp 29-32 Ml8System::system_id *)
Definition system_id (self : t) : string := "estw_ml8".

(* SRC srk/ml8/src/ml8_system.cpp 36-44 Ml8System::supported_command_types *)
Definition supported_command_types (self : t) : list string :=
  ["SetSwitchPositionCmd"; "SetSignalAspectCmd"; "SetDerailerPositionCmd"; "SetBlockSectionCmd";
   "RequestRouteCmd"; "CancelRouteCmd"; "AcknowledgeAlarmCmd"; "SetBlockDirectionCmd";
   "InitAxleCounterResetCmd"; "ResetAxleCounterCmd"; "OperatorCommandCmd"; "Ml8CommandCmd"]%string.

Section Ops.
Context {V : Type} {SV : StateView V}.

(* SRC srk/ml8/src/ml8_system.cpp 48-49 kPolicies *)
Definition kPolicies : list (IRoutePathPolicy V) := [FlankProtectionPolicy].

(* SRC srk/ml8/src/ml8_system.cpp 151-210 Ml8System::check_ml8_command *)
Definition check_ml8_command (self : t) (state : V) (cmd : Ml8CommandCmd) : check :=
  let u := mc_target_uid cmd in
  if negb (target_exists state (mc_target_kind cmd) u) then
    violation NAK_NOT_FOUND ("ML8 command target not found: " +:+ pretty (value u)) u
  else
    let switch_check :=
      match mc_code cmd with
      | Ml8CommandCode.PZ | Ml8CommandCode.DPZ | Ml8CommandCode.PPZ | Ml8CommandCode.WPZ =>
          match find_switch state u with
          | Some sw =>
              if decide (sw_occupancy sw = TrackOccupancy.OCCUPIED) then
                violation NAK_SAFETY_BLOCK ("Switch is occupied: " +:+ pretty (value u)) u
              else if decide (sw_position sw = SwitchPosition.MOVING) then
                violation NAK_INVALID_STATE ("Switch is moving: " +:+ pretty (value u)) u
              else None
          | None => None
          end
      | _ => None
      end in
    match switch_check with
    | Some v => Some v
    | None =>
        match mc_code cmd with
        | Ml8CommandCode.BLZ | Ml8CommandCode.ZWBL =>
            match find_block_section state u with
            | Some bs =>
                if negb (bs_axle_count bs =? 0) then
                  violation NAK_SAFETY_BLOCK "Cannot restore block: axle count != 0" u
                else None
            | None => None
            end
        | _ => None
        end
    end.

(* SRC srk/ml8/src/ml8_system.cpp 212-316 Ml8System::execute_ml8_command *)
Definition execute_ml8_command (self : t) (state : V) (cmd : Ml8CommandCmd) :
    list DeviceStateChange * t :=
  let u := mc_target_uid cmd in
  let record active := DMl8CommandState
    (mkMl8CommandStateChange u (mc_target_kind cmd) (mc_code cmd) active) in
  let direction d confirm := DBlockDirection (mkBlockDirectionChange u d confirm) in
  let block s := DBlockSectionState (mkBlockSectionStateChange u s) in
  let more changes := (record true :: changes, self) in
  match mc_code cmd with
  | Ml8CommandCode.STOJ | Ml8CommandCode.STJ | Ml8CommandCode.STOP => more (stop_signal state u)
  | Ml8CommandCode.SZ | Ml8CommandCode.NSZ =>
      more (match find_signal state u with
            | Some _ => [DSignalAspect (mkSignalAspectChange u SignalAspect.S2_PROCEED
                                          ChangeCause.COMMAND None)]
            | None => []
            end)
  | Ml8CommandCode.PZ | Ml8CommandCode.DPZ =>
      match find_switch state u with
      | Some _ =>
          (record true :: execute_set_switch_position state
                            (mkSetSwitchPositionCmd u SwitchPosition.DIVERGENT)
                            (eea4_throw_ticks_ self),
           if 0 <? eea4_throw_ticks_ self
           then self <| pending_targets_ ::= insert u SwitchPosition.DIVERGENT |> else self)
      | None =>
          more (match find_derailer state u with
                | Some _ => execute_set_derailer_position state
                              (mkSetDerailerPositionCmd u DerailerState.UNLOCKED)
                | None => []
                end)
      end
  | Ml8CommandCode.PPZ => more [record false]
  | Ml8CommandCode.ZEROLO => more [DAxleCounterReset (mkAxleCounterResetChange u (mc_target_kind cmd))]
  | Ml8CommandCode.WBL => more [direction BlockDirectionState.OUTBOUND_PENDING true]
  | Ml8CommandCode.PZK => more (confirm_direction state u)
  | Ml8CommandCode.AZK => more [direction BlockDirectionState.EMERGENCY false]
  | Ml8CommandCode.BLZ | Ml8CommandCode.ZWBL | Ml8CommandCode.OWBL =>
      more [direction BlockDirectionState.NEUTRAL false; block BlockSectionState.CLOSED]
  | Ml8CommandCode.OSTOP | Ml8CommandCode.OUZ | Ml8CommandCode.OUZ_DR | Ml8CommandCode.OUZ_DZ
  | Ml8CommandCode.OUZ_JN | Ml8CommandCode.OUZ_PJ | Ml8CommandCode.OUZ_X | Ml8CommandCode.OUZ_ZN
  | Ml8CommandCode.OPO | Ml8CommandCode.WPN | Ml8CommandCode.WPZ => more [record false]
  | _ => more []
  end.

(* SRC srk/ml8/src/ml8_system.cpp 51-90 Ml8System::check_command *)
Definition check_command (self : t) (state : V) (cmd : Command) : check :=
  match cmd with
  | CSetSwitchPosition c => check_set_switch_position state c
  | CSetSignalAspect c => check_set_signal_aspect state c
  | CSetDerailerPosition c => check_set_derailer_position state c
  | CSetBlockSection c => check_set_block_section state c
  | CRequestRoute c => check_request_route state c kPolicies
  | CCancelRoute c => check_cancel_route state c
  | CAcknowledgeAlarm c => check_acknowledge_alarm state c
  | CSetBlockDirection c => check_set_block_direction state c
  | CInitAxleCounterReset c => check_init_axle_counter_reset state c
  | CResetAxleCounter c => check_reset_axle_counter state c
  | COperatorCommand c => check_operator_command state c
  | CMl8Command c => check_ml8_command self state c
  end.

(* SRC srk/ml8/src/ml8_system.cpp 94-136 Ml8System::execute_command *)
Definition execute_command (self : t) (state : V) (cmd : Command) : list DeviceStateChange * t :=
  match cmd with
  | CSetSwitchPosition c =>
      let changes := execute_set_switch_position state c (eea4_throw_ticks_ self) in
      (changes,
       if 0 <? eea4_throw_ticks_ self
       then self <| pending_targets_ ::= insert (ssp_uid c) (ssp_position c) |> else self)
  | CSetSignalAspect c => (execute_set_signal_aspect state c, self)
  | CSetDerailerPosition c => (execute_set_derailer_position state c, self)
  | CSetBlockSection c => (execute_set_block_section state c, self)
  | CRequestRoute c => (execute_request_route state c (current_tick state) kPolicies, self)
  | CCancelRoute c => (execute_cancel_route state c, self)
  | CAcknowledgeAlarm c => (execute_acknowledge_alarm state c, self)
  | CSetBlockDirection c => (execute_set_block_direction state c, self)
  | CInitAxleCounterReset c => (execute_init_axle_counter_reset state c, self)
  | CResetAxleCounter c => (execute_reset_axle_counter state c, self)
  | COperatorCommand c => (execute_operator_command state c (eea4_throw_ticks_ self), self)
  | CMl8Command c => execute_ml8_command self state c
  end.

(* SRC srk/ml8/src/ml8_system.cpp 140-147 Ml8System::on_tick *)
Definition on_tick (self : t) (state : V) (tick_num : Z) : list DeviceStateChange * t :=
  let '(changes, pending) := tick_switch_machines state (pending_targets_ self) in
  let routes := tick_route_auto_release state tick_num in
  (changes ++ routes, self <| pending_targets_ := pending |>).

#[global] Instance control : ControlSystem t V :=
  mkControlSystem t V system_id check_command execute_command on_tick supported_command_types.
End Ops.
End Ml8System.

(** ** The registry *)

Module ControlSystemRegistry.
Section Registry.
(** What a factory builds. *)
Context {System : Type}.

(* SRC engine/include/engine/core/control_system_registry.hpp 52-56 ControlSystemRegistry *)
Definition t : Type := gmap string (unit -> System).

(** [None] is [std::logic_error]: the identifier is already registered. *)
(* SRC engine/src/control_system_registry.cpp 14-19 ControlSystemRegistry::register_system *)
Definition register_system (factories : t) (id : string) (factory : unit -> System) : option t :=
  match factories !! id with
  | Some _ => None
  | None => Some (<[id := factory]> factories)
  end.

(** [None] is [std::out_of_range]. *)
(* SRC engine/src/control_system_registry.cpp 21-27 ControlSystemRegistry::create *)
Definition create (factories : t) (id : string) : option System :=
  match factories !! id with Some f => Some (f tt) | None => None end.

(* SRC engine/src/control_system_registry.cpp 29-32 ControlSystemRegistry::has *)
Definition has (factories : t) (id : string) : bool := bool_decide (is_Some (factories !! id)).
End Registry.
End ControlSystemRegistry.

(** ** A control system driving the world

    One step of the engine as far as the control system is concerned: an
    accepted command, the per-tick logic, or an occupancy reported by a train.
    [EngineLoop] composes these. *)
Section Steps.
Context {MO : MapOrder} {C : Type} {CS : ControlSystem C EngineState.t}.

Definition run_command (c : C * EngineState.t) (cmd : Command) : C * EngineState.t :=
  let '(self, s) := c in
  let '(changes, self) := execute_command self s cmd in
  (self, apply_all s changes).

(** An engine tick without commands and trains. *)
Definition quiet_tick (c : C * EngineState.t) : C * EngineState.t :=
  let '(self, s) := c in
  let tick := u64 (current_tick s + 1) in
  let '(changes, self) := on_tick self s tick in
  (self, EngineState.set_current_tick (apply_all s changes) tick).

Inductive sys_step : C * EngineState.t -> C * EngineState.t -> Prop :=
| step_command self s cmd :
    check_command self s cmd = None -> sys_step (self, s) (run_command (self, s) cmd)
| step_tick c : sys_step c (quiet_tick c)
| step_train self s u occ n :
    sys_step (self, s) (self, EngineState.apply_track_section_occupancy s u occ n).

(** An invariant of the world that every single change of a step keeps is kept
    by every run. *)
Lemma sys_invariant (P : EngineState.t -> Prop) :
  (forall self s cmd c, P s -> check_command self s cmd = None ->
     c ∈ (execute_command self s cmd).1 -> forall s', P s' -> P (StateApplier s' c)) ->
  (forall self s c, P s -> c ∈ (on_tick self s (u64 (current_tick s + 1))).1 ->
     forall s', P s' -> P (StateApplier s' c)) ->
  (forall s u occ n, P s -> P (EngineState.apply_track_section_occupancy s u occ n)) ->
  (forall s t, P s -> P (EngineState.set_current_tick s t)) ->
  forall c c', rtc sys_step c c' -> P c.2 -> P c'.2.
Proof.
  intros Hcmd Htick Htrain Hset.
  assert (forall cs s, (forall c, c ∈ cs -> forall s', P s' -> P (StateApplier s' c)) ->
                       P s -> P (apply_all s cs)) as Hall.
  { induction cs as [|c cs IH]; intros s Hcs Hs; [done|]. rewrite apply_all_cons.
    apply IH; [intros c' Hc'; apply Hcs; by right|apply Hcs; [by left|done]]. }
  intros c c' Hr. induction Hr as [|c c1 c2 Hstep _ IH]; [done|]. intros HP. apply IH.
  destruct Hstep as [self s cmd Hc|[self s]|self s u occ n]; cbn [snd] in *; [| |by apply Htrain].
  - unfold run_command. specialize (Hcmd self s cmd). destruct (execute_command self s cmd) as [cs self'].
    apply Hall; [|done]. intros c Hin. by apply Hcmd.
  - unfold quiet_tick. specialize (Htick self s). destruct (on_tick self s _) as [cs self'].
    apply Hset, Hall; [|done]. intros c Hin. by apply Htick.
Qed.
End Steps.
