(* ===== verification/Shl12.v ===== *)
(** * Shl12: the SHL-12 block direction and the axle-counter reset

    Rules R8, R9 and R10 of [DeviceRules] against an abstract state machine of
    the block direction: a refinement in both directions, the 60-second
    guard of the reset, and the invariants of every reachable state.  Where the
    rules differ from the documented machine the theorems say so. *)
From S2P Require Import Prelude Float32 Types Commands Track World Demo Changes RouteGraph DeviceRules Interlocking.
Local Open Scope Z_scope.
Local Notation block_sections := EngineState.block_sections.

(** ** The abstract machine

    [dir_step op axles d d' b]: with [axles] counted on the block, operation
    [op] leads from direction [d] to [d'] and sets the block state to [b], if
    it sets it. *)
Inductive dir_step : Shl12Op.t -> Z -> BlockDirectionState.t -> BlockDirectionState.t ->
                     option BlockSectionState.t -> Prop :=
| ds_request n :
    dir_step Shl12Op.BLW n BlockDirectionState.NEUTRAL BlockDirectionState.OUTBOUND_PENDING None
| ds_confirm_out n :
    dir_step Shl12Op.BLP n BlockDirectionState.OUTBOUND_PENDING BlockDirectionState.OUTBOUND
      (Some BlockSectionState.OPEN)
| ds_confirm_in n :
    dir_step Shl12Op.BLP n BlockDirectionState.INBOUND_PENDING BlockDirectionState.INBOUND
      (Some BlockSectionState.OPEN)
| ds_cancel n :
    dir_step Shl12Op.BLO n BlockDirectionState.OUTBOUND_PENDING BlockDirectionState.NEUTRAL None
| ds_release d :
    d = BlockDirectionState.OUTBOUND \/ d = BlockDirectionState.INBOUND ->
    dir_step Shl12Op.BLZ 0 d BlockDirectionState.NEUTRAL (Some BlockSectionState.CLOSED)
| ds_emergency n d :
    d <> BlockDirectionState.RESET_PENDING ->
    dir_step Shl12Op.BLAI n d BlockDirectionState.EMERGENCY None
| ds_execute n :
    dir_step Shl12Op.BLA n BlockDirectionState.EMERGENCY BlockDirectionState.NEUTRAL
      (Some BlockSectionState.CLOSED)
| ds_abort n d :
    d = BlockDirectionState.EMERGENCY \/ d = BlockDirectionState.RESET_PENDING ->
    dir_step Shl12Op.OPS n d BlockDirectionState.NEUTRAL (Some BlockSectionState.CLOSED).

(** The machine of [docs/ARCHITECTURE.md] and of the comment of [ml8_system.hpp]: there
    an emergency can be declared in any direction, and a special procedure is aborted in
    an emergency only. *)
Inductive documented_step : Shl12Op.t -> Z -> BlockDirectionState.t -> BlockDirectionState.t ->
                            option BlockSectionState.t -> Prop :=
| doc_request n :
    documented_step Shl12Op.BLW n BlockDirectionState.NEUTRAL BlockDirectionState.OUTBOUND_PENDING None
| doc_confirm_out n :
    documented_step Shl12Op.BLP n BlockDirectionState.OUTBOUND_PENDING BlockDirectionState.OUTBOUND
      (Some BlockSectionState.OPEN)
| doc_confirm_in n :
    documented_step Shl12Op.BLP n BlockDirectionState.INBOUND_PENDING BlockDirectionState.INBOUND
      (Some BlockSectionState.OPEN)
| doc_cancel n :
    documented_step Shl12Op.BLO n BlockDirectionState.OUTBOUND_PENDING BlockDirectionState.NEUTRAL None
| doc_release_out :
    documented_step Shl12Op.BLZ 0 BlockDirectionState.OUTBOUND BlockDirectionState.NEUTRAL
      (Some BlockSectionState.CLOSED)
| doc_release_in :
    documented_step Shl12Op.BLZ 0 BlockDirectionState.INBOUND BlockDirectionState.NEUTRAL
      (Some BlockSectionState.CLOSED)
| doc_emergency n d : documented_step Shl12Op.BLAI n d BlockDirectionState.EMERGENCY None
| doc_execute n :
    documented_step Shl12Op.BLA n BlockDirectionState.EMERGENCY BlockDirectionState.NEUTRAL
      (Some BlockSectionState.CLOSED)
| doc_abort n :
    documented_step Shl12Op.OPS n BlockDirectionState.EMERGENCY BlockDirectionState.NEUTRAL
      (Some BlockSectionState.CLOSED).

(** The pending reset is where they differ: it refuses the emergency, and can be aborted. *)
Lemma dir_step_documented op n d d' b :
  dir_step op n d d' b <->
  documented_step op n d d' b /\ ~ (op = Shl12Op.BLAI /\ d = BlockDirectionState.RESET_PENDING) \/
  op = Shl12Op.OPS /\ d = BlockDirectionState.RESET_PENDING /\ d' = BlockDirectionState.NEUTRAL /\
    b = Some BlockSectionState.CLOSED.
Proof.
  split.
  - destruct 1 as [| | | |d [-> | ->]|n d Hd| |n d [-> | ->]];
      first [by right|left; split; [constructor|naive_solver]].
  - intros [[Hd Hn]|(-> & -> & -> & ->)]; [|by constructor; right].
    inv Hd; constructor; auto.
Qed.

Lemma dir_step_no_reset op n d d' b : dir_step op n d d' b -> d' <> BlockDirectionState.RESET_PENDING.
Proof. by destruct 1. Qed.

(** The seven operations; any other byte is [Unnamed]. *)
Definition is_shl12_op (op : Shl12Op.t) : Prop := op ∈ Shl12Op.named.

Lemma check_direction_spec {V} {SV : StateView V} (state : V) cmd :
  is_shl12_op (sbd_operation cmd) ->
  check_set_block_direction state cmd = None <->
  exists bs d' b, find_block_section state (sbd_block_section_uid cmd) = Some bs /\
    dir_step (sbd_operation cmd) (bs_axle_count bs) (bs_direction bs) d' b.
Proof.
  intros Hop. unfold check_set_block_direction.
  destruct (find_block_section state _) as [bs|]; [|split; [done|by intros (?&?&?&?&?)]].
  split.
  - intros H. exists bs.
    destruct (sbd_operation cmd) eqn:Eop; [..|by repeat (apply elem_of_cons in Hop as [Hop|Hop]; [done|]); apply not_elem_of_nil in Hop]; destruct (bs_direction bs) eqn:Ed; try discriminate H;
      try (destruct (Z.eqb_spec (bs_axle_count bs) 0) as [E|E]; [rewrite ?E|discriminate H]);
      do 2 eexists; (split; [done|]); constructor; auto.
  - intros (bs' & d' & b & [= <-] & Hs). inv Hs; cbn; try done.
    all: try match goal with
           | H : _ = ?d \/ _ |- context [decide (_ /\ _)] => rewrite decide_False by (destruct H; tauto)
           end.
    all: repeat case_decide; try tauto; try congruence; done.
Qed.

Lemma execute_direction_spec {MO : MapOrder} s cmd bs d' b :
  block_sections s !! sbd_block_section_uid cmd = Some bs ->
  dir_step (sbd_operation cmd) (bs_axle_count bs) (bs_direction bs) d' b ->
  let s' := apply_all s (execute_set_block_direction s cmd) in
  block_sections s' !! sbd_block_section_uid cmd
    = Some (bs <| bs_direction := d' |> <| bs_reset_init_tick := None |>
               <| bs_state := default (bs_state bs) b |>) /\
  forall sl, sl <> SlBlockSection (sbd_block_section_uid cmd) -> read s' sl = read s sl.
Proof.
  intros Hbs Hs s'.
  assert (Forall (fun c => footprint c = [SlBlockSection (sbd_block_section_uid cmd)])
            (execute_set_block_direction s cmd)) as Hf.
  { unfold execute_set_block_direction. repeat case_match; repeat constructor. }
  split.
  - subst s'. unfold execute_set_block_direction. cbn [find_block_section EngineState.view].
    unfold EngineState.find_block_section. rewrite Hbs. destruct bs; cbn in *.
    inv Hs; try case_decide; try done; cbn; by rewrite ?lookup_alter_eq, Hbs.
  - intros sl Hsl. apply apply_all_frame. eapply Forall_impl; [exact Hf|].
    intros c Hc. cbn in Hc. rewrite Hc. by intros ?%list_elem_of_singleton.
Qed.

(** Where the documentation and the code differ. *)
Definition contested (op : Shl12Op.t) (d : BlockDirectionState.t) : Prop :=
  d = BlockDirectionState.RESET_PENDING /\ (op = Shl12Op.BLAI \/ op = Shl12Op.OPS).

Lemma dir_step_uncontested op n d d' b :
  ~ contested op d -> dir_step op n d d' b <-> documented_step op n d d' b.
Proof. rewrite dir_step_documented. unfold contested. naive_solver. Qed.



(** The difference: during a pending reset BLAI is refused, although the documentation says
    any state, and OPS, which it does not have there, ends the reset. *)
Theorem reset_pending_contested {MO : MapOrder} (s : EngineState.t) u bs :
  block_sections s !! u = Some bs -> bs_direction bs = BlockDirectionState.RESET_PENDING ->
  check_set_block_direction s (mkSetBlockDirectionCmd u Shl12Op.BLAI) <> None /\
  let ops := mkSetBlockDirectionCmd u Shl12Op.OPS in
  check_set_block_direction s ops = None /\
  bs_direction <$> block_sections (apply_all s (execute_set_block_direction s ops)) !! u
    = Some BlockDirectionState.NEUTRAL.
Proof.
  intros Hbs Hd. split.
  - assert (is_shl12_op Shl12Op.BLAI) as Hop by (unfold is_shl12_op, Shl12Op.named; set_solver).
    intros Hc. apply check_direction_spec in Hc as (bs' & d' & b & Hbs' & Hs); [|done].
    change (block_sections s !! u = Some bs') in Hbs'. rewrite Hbs in Hbs'. injection Hbs' as <-.
    cbn in Hs. rewrite Hd in Hs. by inv Hs.
  - assert (dir_step Shl12Op.OPS (bs_axle_count bs) (bs_direction bs) BlockDirectionState.NEUTRAL
              (Some BlockSectionState.CLOSED)) as Hs by (rewrite Hd; constructor; by right).
    split.
    + apply check_direction_spec; [unfold is_shl12_op, Shl12Op.named; set_solver|]. by exists bs, BlockDirectionState.NEUTRAL, (Some BlockSectionState.CLOSED).
    + by rewrite (proj1 (execute_direction_spec s (mkSetBlockDirectionCmd u Shl12Op.OPS) bs _ _ Hbs Hs)).
Qed.

Example emergency_refused_in_reset :
  let s := apply_all demo (execute_init_axle_counter_reset demo (mkInitAxleCounterResetCmd BlkE)) in
  iv_reason_code <$> check_set_block_direction s (mkSetBlockDirectionCmd BlkE Shl12Op.BLAI) = Some NAK_INVALID_STATE /\
  check_set_block_direction s (mkSetBlockDirectionCmd BlkE Shl12Op.OPS) = None.
Proof. by vm_compute. Qed.

(** ** The 60-second guard of the axle-counter reset *)

Section Reset.
Context {MO : MapOrder} (s s2 : EngineState.t) (u : UID).
Let t0 := current_tick s.
Let s1 := apply_all s (execute_init_axle_counter_reset s (mkInitAxleCounterResetCmd u)).

(** The block section of an accepted SLI, before and after. *)
Lemma sli_section :
  check_init_axle_counter_reset s (mkInitAxleCounterResetCmd u) = None ->
  exists bs, block_sections s !! u = Some bs /\ bs_direction bs = BlockDirectionState.NEUTRAL /\
    block_sections s1 !! u =
    Some (bs <| bs_direction := BlockDirectionState.RESET_PENDING |> <| bs_reset_init_tick := Some t0 |>).
Proof.
  intros Hc. unfold check_init_axle_counter_reset in Hc. cbn in Hc.
  unfold EngineState.find_block_section in Hc.
  destruct (block_sections s !! u) as [bs|] eqn:Hbs; [|done]. exists bs.
  assert (bs_direction bs = BlockDirectionState.NEUTRAL) as Hd by (by destruct (bs_direction bs)).
  split_and!; [done|done|]. unfold s1. cbn. rewrite lookup_alter_eq, Hbs. cbn. by rewrite decide_True by done.
Qed.

(** What SLK leaves of the section. *)
Lemma slk_section bs :
  block_sections s2 !! u = Some bs ->
  block_sections (apply_all s2 (execute_reset_axle_counter s2 (mkResetAxleCounterCmd u))) !! u
  = Some (bs <| bs_direction := BlockDirectionState.NEUTRAL |> <| bs_reset_init_tick := None |>
             <| bs_state := BlockSectionState.CLOSED |>).
Proof. intros Hbs. cbn. rewrite !lookup_alter_eq, Hbs. by destruct bs. Qed.


(** The reset resets nothing: the documentation has SLK set the axle count to zero and open
    the section; it keeps the count and closes the section.  And SLI does not ask for the
    count to be zero, as it should: the section can be counted occupied all the while. *)
Theorem slk_keeps_axles :
  check_init_axle_counter_reset s (mkInitAxleCounterResetCmd u) = None ->
  block_sections s2 !! u = block_sections s1 !! u ->
  exists bs bs', block_sections s !! u = Some bs /\
    block_sections (apply_all s2 (execute_reset_axle_counter s2 (mkResetAxleCounterCmd u))) !! u = Some bs' /\
    bs_axle_count bs' = bs_axle_count bs /\ bs_state bs' = BlockSectionState.CLOSED.
Proof.
  intros Hc Hs2. destruct (sli_section Hc) as (bs & Hbs & _ & H1). rewrite H1 in Hs2.
  exists bs. eexists. split_and!; [done|by apply slk_section|done..].
Qed.
End Reset.

Lemma block_sections_set_tick s t u :
  block_sections (EngineState.set_current_tick s t) !! u = block_sections s !! u.
Proof. done. Qed.


(** ** Reachable states *)

Definition inbound (d : BlockDirectionState.t) : bool :=
  bool_decide (d = BlockDirectionState.INBOUND_PENDING) || bool_decide (d = BlockDirectionState.INBOUND).

(** No block section is given to, or asked for by, the neighbour. *)
Definition never_inbound (s : EngineState.t) : Prop :=
  forall u bs, block_sections s !! u = Some bs -> inbound (bs_direction bs) = false.

Definition sets_inbound (c : DeviceStateChange) : bool :=
  match c with DBlockDirection c => inbound (bdc_new_direction c) | _ => false end.

Lemma never_inbound_apply s c :
  never_inbound s -> sets_inbound c = false -> never_inbound (StateApplier s c).
Proof.
  intros Hs Hc u bs. pose proof (Hs u) as Hu. revert Hc.
  destruct c as [[? ? ? []]|[]|[]|[]|[? ? ? []]|[]|[]|[]|[? []]|[? []]|[? []]| |[]| | |[]| |[]|[]];
    unfold_change; split_change; intros Hc Hbs; subst; try (by eapply Hu);
    apply fmap_Some in Hbs as (bs0 & Hbs0 & ->); cbn in *; try done; by apply (Hu bs0).
Qed.

Lemma sets_inbound_bind {A} (f : A -> list DeviceStateChange) l :
  (forall x, Forall (fun c => sets_inbound c = false) (f x)) ->
  Forall (fun c => sets_inbound c = false) (l ≫= f).
Proof.
  intros Hf. apply Forall_forall. intros c (x & Hc & _)%list_elem_of_bind.
  by apply (proj1 (Forall_forall _ _) (Hf x)).
Qed.

Lemma sets_inbound_fmap {A} (f : A -> DeviceStateChange) l :
  (forall x, sets_inbound (f x) = false) -> Forall (fun c => sets_inbound c = false) (f <$> l).
Proof. intros Hf. apply Forall_fmap, Forall_true, Hf. Qed.

Ltac no_inbound :=
  repeat (first [ apply sets_inbound_bind; intros ? | apply sets_inbound_fmap; intros ?
                | apply Forall_app; split | apply Forall_cons; split | apply Forall_nil; exact I
                | done | case_match ]).

Section NeverInbound.
Context {MO : MapOrder}.

Lemma confirm_direction_outbound (s : EngineState.t) u :
  never_inbound s -> Forall (fun c => sets_inbound c = false) (confirm_direction s u).
Proof.
  intros Hs. unfold confirm_direction. cbn. unfold EngineState.find_block_section.
  destruct (block_sections s !! u) as [bs|] eqn:Hbs; [|constructor].
  rewrite decide_False; [by repeat constructor|].
  intros E. specialize (Hs _ _ Hbs). by rewrite E in Hs.
Qed.

Lemma execute_direction_outbound (s : EngineState.t) cmd :
  never_inbound s -> check_set_block_direction s cmd = None ->
  Forall (fun c => sets_inbound c = false) (execute_set_block_direction s cmd).
Proof.
  intros Hs Hc. destruct (decide (is_shl12_op (sbd_operation cmd))) as [Hop|Hop].
  2: { unfold execute_set_block_direction. destruct (find_block_section s _) as [bs|]; [|constructor].
       unfold is_shl12_op, Shl12Op.named in Hop. destruct (sbd_operation cmd); try constructor; set_solver. }
  apply check_direction_spec in Hc as (bs & d' & b & Hbs & Hstep); [|done].
  unfold execute_set_block_direction. rewrite Hbs. specialize (Hs _ _ Hbs).
  inv Hstep; try match goal with H : _ = bs_direction bs |- _ => rewrite <-H in * end; try done; no_inbound.
Qed.

Lemma operator_command_outbound (s : EngineState.t) cmd n :
  never_inbound s -> Forall (fun c => sets_inbound c = false) (execute_operator_command s cmd n).
Proof.
  intros Hs. pose proof (confirm_direction_outbound s (oc_target_uid cmd) Hs).
  unfold execute_operator_command, throw_switch_or_derailer, stop_signal,
    execute_set_switch_position, execute_set_derailer_position.
  constructor; [done|]. destruct (oc_code cmd); no_inbound.
Qed.

Lemma request_route_outbound (s : EngineState.t) cmd t ps :
  Forall (fun c => sets_inbound c = false) (execute_request_route s cmd t ps).
Proof. unfold execute_request_route, set_and_lock, unlock_derailer. case_match; no_inbound. Qed.

Lemma cancel_route_outbound (s : EngineState.t) cmd :
  Forall (fun c => sets_inbound c = false) (execute_cancel_route s cmd).
Proof. unfold execute_cancel_route. case_match; no_inbound. Qed.

Lemma ebilock_outbound self (s : EngineState.t) cmd :
  never_inbound s -> check_command self s cmd = None ->
  Forall (fun c => sets_inbound c = false) (EbiLockSystem.execute_command self s cmd).1.
Proof.
  intros Hs. destruct cmd; cbn; intros Hc;
    unfold execute_set_switch_position;
    eauto using request_route_outbound, cancel_route_outbound, operator_command_outbound,
      execute_direction_outbound; try (case_match; by repeat constructor); by repeat constructor.
Qed.

Lemma tick_outbound (s : EngineState.t) pending t :
  Forall (fun c => sets_inbound c = false)
    ((tick_switch_machines s pending).1 ++ tick_route_auto_release s t).
Proof.
  apply Forall_app. split.
  - unfold tick_switch_machines. generalize (for_each_switch s). intros sws.
    assert (forall cs p, Forall (fun c => sets_inbound c = false) cs ->
      Forall (fun c => sets_inbound c = false)
        (foldl (fun '(changes, pending) sw =>
           let '(more, pending) := tick_switch_machine pending sw in (changes ++ more, pending))
           (cs, p) sws).1) as H; [|by apply H].
    induction sws as [|sw sws IH]; intros cs p Hcs; [done|]. cbn.
    destruct (tick_switch_machine p sw) as [more p'] eqn:E. apply IH, Forall_app. split; [done|].
    assert (more = (tick_switch_machine p sw).1) as -> by (by rewrite E).
    unfold tick_switch_machine. repeat case_match; by repeat constructor.
  - unfold tick_route_auto_release, tick_route. no_inbound.
Qed.

(** Nothing the control system does ever asks for, or confirms, the inbound
    direction of a block: from a station where no block section is inbound,
    every reachable station has none.  [INBOUND_PENDING] and [INBOUND] are dead
    states of the program. *)
Theorem inbound_unreachable (c c' : EbiLockSystem.t * EngineState.t) :
  rtc sys_step c c' -> never_inbound c.2 -> never_inbound c'.2.
Proof.
  apply sys_invariant.
  - intros self s cmd ch Hs Hc Hin s' Hs'. apply never_inbound_apply; [done|].
    by apply (proj1 (Forall_forall _ _) (ebilock_outbound self s cmd Hs Hc)).
  - intros self s ch Hs Hin s' Hs'. apply never_inbound_apply; [done|].
    apply (proj1 (Forall_forall _ _) (tick_outbound s (EbiLockSystem.pending_targets_ self)
             (u64 (current_tick s + 1)))).
    revert Hin. cbn -[tick_route_auto_release tick_switch_machines]. unfold EbiLockSystem.on_tick. destruct (tick_switch_machines s _). exact id.
  - done.
  - done.
Qed.
End NeverInbound.

Lemma demo_never_inbound : never_inbound demo.
Proof.
  change (map_Forall (fun _ bs => inbound (bs_direction bs) = false) (block_sections demo)).
  refine (bool_decide_unpack _ _). by vm_compute.
Qed.

Example inbound_unreachable_witness :
  let c := (EbiLockSystem.create 90, demo) in
  never_inbound (run_command c (CSetBlockDirection (mkSetBlockDirectionCmd BlkE Shl12Op.BLW))).2.
Proof.
  intros c. apply (inbound_unreachable c); [|apply demo_never_inbound].
  apply rtc_once. constructor. by vm_compute.
Defined.
