(* ===== verification/Routes.v ===== *)
(** * Routes: setting and cancelling a route

    Rule R5 of [DeviceRules] run through [StateApplier]: what an accepted
    request guarantees and establishes, what a cancellation leaves behind, and
    which part of the route life cycle no run of the engine reaches. *)
From S2P Require Import Prelude Float32 Types Commands Track World Demo Changes RouteGraph DeviceRules Interlocking.
Local Open Scope Z_scope.
Local Notation switches := EngineState.switches.
Local Notation signals := EngineState.signals.
Local Notation routes := EngineState.routes.
Local Notation kPolicies := [FlankProtectionPolicy].

(** ** The path of an accepted request *)

Section Path.
Context {V : Type} {SV : StateView V}.
Implicit Types state : V.

Lemma first_violation_none cs : first_violation cs = None <-> Forall (fun c => c = None) cs.
Proof.
  induction cs as [|[v|] cs IH]; cbn; [by split| |].
  - split; [done|]. by intros [? _]%Forall_cons.
  - rewrite IH, Forall_cons. tauto.
Qed.

Lemma check_path_node_none state node :
  check_path_node state node = None -> rpn_kind node = RoutePathNodeKind.SWITCH ->
  forall sw, find_switch state (rpn_uid node) = Some sw ->
  sw_occupancy sw = TrackOccupancy.FREE /\ sw_locked_by_route_uid sw = None /\
  sw_position sw <> SwitchPosition.MOVING.
Proof.
  unfold check_path_node. intros H Hk sw Hsw. rewrite decide_False, Hsw in H by (intros Hn; by apply Hn).
  repeat case_match; try done. split_and!; [by destruct (sw_occupancy sw)|by apply eq_None_not_Some|done].
Qed.

Lemma check_path_section_none state u ts :
  check_path_section state u = None -> find_track_section state u = Some ts ->
  ts_occupancy ts = TrackOccupancy.FREE.
Proof.
  unfold check_path_section. intros H Hts. rewrite Hts in H. case_match; [done|]. by destruct (ts_occupancy ts).
Qed.

(** What acceptance of a request means. *)
Lemma check_request_route_none state cmd ps :
  check_request_route state cmd ps = None <->
  exists entry exit rp,
    find_signal state (rr_from_signal_uid cmd) = Some entry /\
    find_signal state (rr_to_signal_uid cmd) = Some exit /\
    sig_locked_by_route_uid entry = None /\
    find_route_path state (rr_from_signal_uid cmd) (rr_to_signal_uid cmd) ps = Some rp /\
    Forall (fun n => check_path_node state n = None) (rp_nodes rp) /\
    Forall (fun u => check_path_section state u = None) (rp_section_uids rp).
Proof.
  unfold check_request_route. split.
  - intros H. destruct (find_signal state (rr_from_signal_uid cmd)) as [entry|]; [|done].
    destruct (find_signal state (rr_to_signal_uid cmd)) as [exit|]; [|done].
    case_decide as Hl; [done|]. destruct (find_route_path _ _ _ _) as [rp|]; [|done].
    destruct (first_violation (check_path_node state <$> rp_nodes rp)) eqn:E1; [done|].
    exists entry, exit, rp. apply first_violation_none, Forall_fmap in E1.
    apply first_violation_none, Forall_fmap in H. split_and!; try done. by apply eq_None_not_Some.
  - intros (entry & exit & rp & -> & -> & Hl & -> & H1 & H2). rewrite Hl.
    rewrite decide_False by (by intros []).
    rewrite (proj2 (first_violation_none _)) by (by apply Forall_fmap).
    by apply first_violation_none, Forall_fmap.
Qed.

(** The nodes a path is turned into: a sublist of it, so without repetitions. *)
Lemma collect_path_nodes state from path rp :
  exists l, rpn_uid <$> rp_nodes (collect_path state from path rp) = (rpn_uid <$> rp_nodes rp) ++ l /\
            l `sublist_of` path.
Proof.
  revert from rp. induction path as [|u path IH]; intros from rp; cbn.
  { exists []. by rewrite app_nil_r. }
  match goal with |- context [collect_path state u path ?r] => destruct (IH u r) as (l & -> & Hl) end.
  destruct (find_track_section state u); [|destruct (find_switch state u)]; cbn;
    rewrite ?fmap_app, <-?app_assoc; cbn; [exists (u :: l)|exists (u :: l)|exists l]; split; try done;
    by constructor.
Qed.

Lemma flank_policy_nodes state rp rp' :
  apply_policies state kPolicies rp = Some rp' -> rp_nodes rp' = rp_nodes rp /\
  rp_section_uids rp' = rp_section_uids rp.
Proof. by intros [= <-]. Qed.

(** The signals of a loaded station govern sections of their own. *)
Definition signals_placed state : Prop :=
  is_traversable_node state UID_zero = false /\
  forall u sig, find_signal state u = Some sig -> sig_governs_section_uid sig <> UID_zero.

Lemma find_route_path_nodup {SVL : StateViewLaws V} state from to rp :
  signals_placed state -> find_route_path state from to kPolicies = Some rp ->
  NoDup (rpn_uid <$> rp_nodes rp).
Proof.
  intros [Hz Hp]. unfold find_route_path.
  destruct (find_signal state from) as [entry|] eqn:He; [|done].
  destruct (find_signal state to) as [exit|]; [|done]. cbn [mbind option_bind].
  case_decide as Heq.
  - intros [H _]%flank_policy_nodes. rewrite H. apply NoDup_singleton.
  - destruct (bfs_result state _ (sig_governs_section_uid exit) (Hp _ _ He) Hz)
      as [->|(path & -> & _ & Hn & _)]; [done|].
    intros [H _]%flank_policy_nodes. rewrite H. cbn.
    match goal with |- context [collect_path state ?f path ?r] =>
      destruct (collect_path_nodes state f path r) as (l & -> & Hl) end.
    cbn. by eapply sublist_NoDup.
Qed.
End Path.

(** ** Effects *)

Section Effects.
Context {MO : MapOrder}.
Implicit Types s : EngineState.t.

Lemma set_and_lock_footprint s r n sl :
  sl <> SlSwitch (rpn_uid n) -> Forall (fun c => sl ∉ footprint c) (set_and_lock s r n).
Proof.
  intros H. unfold set_and_lock. repeat case_match; repeat constructor; by intros ?%list_elem_of_singleton.
Qed.

Lemma unlock_derailer_footprint s r u sl :
  sl <> SlDerailer u -> Forall (fun c => sl ∉ footprint c) (unlock_derailer s r u).
Proof.
  intros H. unfold unlock_derailer. repeat case_match; repeat constructor; by intros ?%list_elem_of_singleton.
Qed.

(** The position and the lock of a switch, while a list of nodes is set and locked: a
    node moves the switch exactly when it does not stand as the node requires before
    the first of them, so the last node that moves it decides. *)
Lemma set_and_lock_other s r s1 u n :
  rpn_uid n <> u -> switches (apply_all s1 (set_and_lock s r n)) !! u = switches s1 !! u.
Proof.
  intros Hn. apply (inj (fmap OSwitch)).
  apply (apply_all_frame s1 _ (SlSwitch u)), set_and_lock_footprint. congruence.
Qed.

Lemma set_and_lock_effect s r s1 n sw sw1 :
  switches s !! rpn_uid n = Some sw -> switches s1 !! rpn_uid n = Some sw1 ->
  exists sw', switches (apply_all s1 (set_and_lock s r n)) !! rpn_uid n = Some sw' /\
    sw_position sw' = (if decide (sw_position sw = rpn_required_position n) then sw_position sw1
                       else rpn_required_position n) /\
    sw_locked_by_route_uid sw' = Some r /\ sw_occupancy sw' = sw_occupancy sw1.
Proof.
  intros Hs Hs1. unfold set_and_lock. cbn [find_switch EngineState.view].
  unfold EngineState.find_switch. rewrite Hs. destruct (decide (sw_position sw = _)) as [E|E].
  - rewrite decide_False by (intros Hn; by apply Hn). cbn. rewrite ?lookup_alter_eq, Hs1; cbn.
    by eexists.
  - rewrite decide_True by done. cbn. rewrite ?lookup_alter_eq, Hs1; cbn. by eexists.
Qed.

Lemma lock_nodes_effect s r l s1 u sw sw1 :
  switches s !! u = Some sw -> switches s1 !! u = Some sw1 ->
  exists sw', switches (apply_all s1 (l ≫= set_and_lock s r)) !! u = Some sw' /\
    sw_occupancy sw' = sw_occupancy sw1 /\
    (u ∈ rpn_uid <$> l \/ sw_locked_by_route_uid sw1 = Some r -> sw_locked_by_route_uid sw' = Some r) /\
    (sw_position sw' = sw_position sw1 /\
       (forall n, n ∈ l -> rpn_uid n = u -> rpn_required_position n = sw_position sw) \/
     exists n, n ∈ l /\ rpn_uid n = u /\ sw_position sw' = rpn_required_position n).
Proof.
  intros Hs. revert s1 sw1. induction l as [|n l IH]; intros s1 sw1 Hs1.
  { exists sw1. split_and!; try done; [by intros [?%not_elem_of_nil|]|].
    left. split; [done|]. by intros n ?%not_elem_of_nil. }
  rewrite bind_cons, apply_all_app, fmap_cons. destruct (decide (rpn_uid n = u)) as [<-|Hn].
  - destruct (set_and_lock_effect s r s1 n sw sw1 Hs Hs1) as (sw2 & Hs2 & Hp2 & Hl2 & Ho2).
    destruct (IH _ _ Hs2) as (sw' & Hs' & Ho & Hl & Hp). exists sw'.
    split_and!; [done|congruence|intros _; apply Hl; by right|].
    destruct Hp as [[Hp Hall]|(m & Hm & Hu & Hp)]; [|right; exists m; split_and!; [by right|done..]].
    rewrite Hp2 in Hp. case_decide as E.
    + left. split; [done|]. intros m [->|Hm]%elem_of_cons Hu; [done|by apply Hall].
    + right. exists n. split_and!; [by left|done..].
  - rewrite <-(set_and_lock_other s r s1 u n Hn) in Hs1.
    destruct (IH _ _ Hs1) as (sw' & Hs' & Ho & Hl & Hp). exists sw'. split_and!; [done..| |].
    + intros [[E|E]%elem_of_cons|E]; [by destruct Hn|apply Hl; by left|apply Hl; by right].
    + destruct Hp as [[Hp Hall]|(m & Hm & Hu & Hp)]; [left|right; exists m; split_and!; [by right|done..]].
      split; [done|]. intros m [->|Hm]%elem_of_cons Hu; [by destruct Hn|by apply Hall].
Qed.

(** Whatever the order of the derailers, and however often one is named, every one of
    them ends up unlocked. *)
Lemma unlock_derailer_other s r s1 u v :
  v <> u -> EngineState.derailers (apply_all s1 (unlock_derailer s r v)) !! u
            = EngineState.derailers s1 !! u.
Proof.
  intros Hv. apply (inj (fmap ODerailer)).
  apply (apply_all_frame s1 _ (SlDerailer u)), unlock_derailer_footprint. congruence.
Qed.

Lemma unlock_derailers_effect s r l s1 u d d1 :
  EngineState.derailers s !! u = Some d -> EngineState.derailers s1 !! u = Some d1 ->
  der_state d1 = der_state d \/ der_state d1 = DerailerState.UNLOCKED ->
  exists d', EngineState.derailers (apply_all s1 (l ≫= unlock_derailer s r)) !! u = Some d' /\
    (u ∈ l \/ der_state d1 = DerailerState.UNLOCKED -> der_state d' = DerailerState.UNLOCKED).
Proof.
  intros Hd. revert s1 d1. induction l as [|v l IH]; intros s1 d1 Hd1 Hst.
  { exists d1. split; [done|]. by intros [?%not_elem_of_nil|]. }
  rewrite bind_cons, apply_all_app.
  destruct (decide (v = u)) as [->|Hv].
  - assert (exists d2, EngineState.derailers (apply_all s1 (unlock_derailer s r u)) !! u = Some d2 /\
              der_state d2 = DerailerState.UNLOCKED) as (d2 & Hd2 & Hs2).
    { unfold unlock_derailer. cbn [find_derailer EngineState.view]. unfold EngineState.find_derailer.
      rewrite Hd. case_decide as Hl; cbn.
      - rewrite ?lookup_alter_eq, Hd1. by eexists.
      - exists d1. split; [done|]. destruct Hst as [Hst|Hst]; [|done]. rewrite Hst.
        by destruct (der_state d). }
    destruct (IH _ _ Hd2) as (d' & Hd' & Hs'); [by right|]. exists d'. split; [done|]. intros _.
    apply Hs'. by right.
  - destruct (IH (apply_all s1 (unlock_derailer s r v)) d1) as (d' & Hd' & Hs');
      [by rewrite unlock_derailer_other|done|].
    exists d'. split; [done|]. intros [[|]%elem_of_cons|]; apply Hs'; [congruence|by left|by right].
Qed.

(** The four groups of changes of an accepted request. *)
Definition path_switches (rp : RoutePath) : list RoutePathNode :=
  filter (fun n => rpn_kind n = RoutePathNodeKind.SWITCH) (rp_nodes rp).

(** The nodes set and locked, in the order of the changes: a switch can be among the path
    and among the flank. *)
Definition locked_nodes (rp : RoutePath) : list RoutePathNode := path_switches rp ++ rp_flank_switches rp.

(** The state after the switches of the path and its flank, and after its derailers. *)
Definition after_switches s r rp := apply_all s (locked_nodes rp ≫= set_and_lock s r).
Definition after_derailers s r rp :=
  apply_all (after_switches s r rp) (rp_derailer_uids rp ≫= unlock_derailer s r).

Lemma locked_node_effect s r rp n sw :
  n ∈ locked_nodes rp -> switches s !! rpn_uid n = Some sw ->
  exists sw', switches (after_switches s r rp) !! rpn_uid n = Some sw' /\
    sw_occupancy sw' = sw_occupancy sw /\ sw_locked_by_route_uid sw' = Some r /\
    exists m, m ∈ locked_nodes rp /\ rpn_uid m = rpn_uid n /\ sw_position sw' = rpn_required_position m /\
      (m = n \/ rpn_required_position m <> rpn_required_position n).
Proof.
  intros Hn Hs. destruct (lock_nodes_effect s r (locked_nodes rp) s _ sw sw Hs Hs) as (sw' & Hs' & Ho & Hl & Hp).
  exists sw'. split_and!; [done..|apply Hl; left; by apply list_elem_of_fmap_2|].
  destruct Hp as [[Hp Hall]|(m & Hm & Hu & Hp)].
  - exists n. split_and!; [done..| |by left]. rewrite Hp. symmetry. by apply Hall.
  - destruct (decide (rpn_required_position m = rpn_required_position n)) as [E|E].
    + exists n. split_and!; [done..|congruence|by left].
    + exists m. split_and!; [done..|by right].
Qed.

Lemma after_switches_frame s r rp sl :
  (forall u, sl <> SlSwitch u) -> read (after_switches s r rp) sl = read s sl.
Proof. intros H. apply apply_bind_frame. intros n _. by apply set_and_lock_footprint. Qed.

Lemma after_derailers_frame s r rp sl :
  (forall u, sl <> SlDerailer u) -> read (after_derailers s r rp) sl = read (after_switches s r rp) sl.
Proof. intros H. apply apply_bind_frame. intros u _. by apply unlock_derailer_footprint. Qed.

Lemma execute_request_route_stages s cmd rp t :
  find_route_path s (rr_from_signal_uid cmd) (rr_to_signal_uid cmd) kPolicies = Some rp ->
  let r := make_route_uid (rr_from_signal_uid cmd) (rr_to_signal_uid cmd) t in
  exists switch_uids,
    apply_all s (execute_request_route s cmd t kPolicies)
    = apply_all (after_derailers s r rp)
        [DSignalAspect (mkSignalAspectChange (rr_from_signal_uid cmd) SignalAspect.S2_PROCEED
                          ChangeCause.AUTO (Some r));
         DRouteAdded (mkRouteState r (rr_from_signal_uid cmd) (rr_to_signal_uid cmd)
                        (rp_section_uids rp) switch_uids (rp_derailer_uids rp) t false None)].
Proof.
  intros Hrp r. unfold execute_request_route. rewrite Hrp. eexists.
  unfold after_derailers, after_switches, locked_nodes. by rewrite bind_app, !apply_all_app.
Qed.

Lemma fmap_lookup_inj {A} (f : A -> Obj) `{!Inj eq eq f} (o1 o2 : option A) : f <$> o1 = f <$> o2 -> o1 = o2.
Proof. apply (inj (fmap f)). Qed.

Definition is_free s (u : UID) : Prop :=
  forall ts, EngineState.track_sections s !! u = Some ts -> ts_occupancy ts = TrackOccupancy.FREE.

(** A node's switch once the request is executed. *)
Lemma final_switch s r rp n sw a route :
  n ∈ path_switches rp \/ n ∈ rp_flank_switches rp -> switches s !! rpn_uid n = Some sw ->
  exists sw',
    switches (apply_all (after_derailers s r rp) [DSignalAspect a; DRouteAdded route]) !! rpn_uid n = Some sw' /\
    sw_occupancy sw' = sw_occupancy sw /\ sw_locked_by_route_uid sw' = Some r /\
    exists m, (m ∈ path_switches rp \/ m ∈ rp_flank_switches rp) /\ rpn_uid m = rpn_uid n /\
      sw_position sw' = rpn_required_position m /\
      (m = n \/ rpn_required_position m <> rpn_required_position n).
Proof.
  intros Hn%elem_of_app Hs. destruct (locked_node_effect s r rp n sw Hn Hs) as (sw' & Hs' & Ho & Hl & m & Hm & Hr).
  exists sw'. split_and!; [|done..|exists m; by rewrite <-elem_of_app].
  apply (fmap_lookup_inj OSwitch). rewrite <-Hs'.
  etrans; [apply (apply_all_frame _ _ (SlSwitch (rpn_uid n)));
           repeat constructor; by intros ?%list_elem_of_singleton|].
  by apply (after_derailers_frame s r rp (SlSwitch (rpn_uid n))).
Qed.

(** A path names a switch once. *)
Lemma path_switches_uid rp m n :
  NoDup (rpn_uid <$> rp_nodes rp) -> m ∈ path_switches rp -> n ∈ path_switches rp ->
  rpn_uid m = rpn_uid n -> m = n.
Proof.
  intros Hnd [_ Hm]%list_elem_of_filter [_ Hn]%list_elem_of_filter Hu.
  apply list_elem_of_lookup in Hm as [i Hi], Hn as [j Hj].
  assert (i = j) as ->; [|congruence].
  apply (NoDup_lookup _ _ _ (rpn_uid m) Hnd); rewrite list_lookup_fmap; [by rewrite Hi|by rewrite Hj, Hu].
Qed.

End Effects.

Lemma demo_signals_placed : signals_placed demo.
Proof.
  split; [by vm_compute|]. intros u sig H.
  assert (map_Forall (fun _ sig => sig_governs_section_uid sig <> UID_zero) (signals demo)) as Hall.
  { refine (bool_decide_unpack _ _). by vm_compute. }
  exact (Hall u sig H).
Qed.


(** A path can have a switch of its own in its flank: from B to C the path needs W2
    DIVERGENT, and protecting the straight W1 demands W2 STRAIGHT.  Starting from STRAIGHT it ends
    DIVERGENT; starting from DIVERGENT the path does not move it, the flank does, and the
    route is announced with proceed over a switch set against it. *)
Definition demo_w2_divergent : EngineState.t :=
  with_switch (fun w => w <| sw_position := SwitchPosition.DIVERGENT |>) W2 demo.

Theorem path_switch_set_against_route :
  let cmd := mkRequestRouteCmd SigB SigC in
  let s' := apply_all demo_w2_divergent (execute_request_route demo_w2_divergent cmd 1000 kPolicies) in
  check_request_route demo_w2_divergent cmd kPolicies = None /\
  (fun rp => (fun n => (rpn_uid n, rpn_required_position n)) <$> path_switches rp) <$>
     find_route_path demo_w2_divergent SigB SigC kPolicies
    = Some [(W1, SwitchPosition.STRAIGHT); (W2, SwitchPosition.DIVERGENT)] /\
  sw_position <$> switches s' !! W2 = Some SwitchPosition.STRAIGHT /\
  sig_current_aspect <$> signals s' !! SigB = Some SignalAspect.S2_PROCEED.
Proof. by vm_compute. Qed.

(** A request checks the switches of the path, not those of its flank: with W2 set and
    locked for route 7, the route from A to B is accepted, and moves W2 and
    takes over its lock. *)
Definition demo_flank_locked : EngineState.t :=
  with_switch (fun w => w <| sw_position := SwitchPosition.DIVERGENT |>
                          <| sw_locked_by_route_uid := Some (mkUID 7) |>) W2 demo.

(** The flank of a route is not checked: there is a state in which a request is
    accepted although a flank switch is locked by another route, and executing
    it moves that switch and replaces its lock. *)
Theorem flank_switch_taken_over :
  let cmd := mkRequestRouteCmd SigA SigB in
  let s' := apply_all demo_flank_locked (execute_request_route demo_flank_locked cmd 1000 kPolicies) in
  check_request_route demo_flank_locked cmd kPolicies = None /\
  (fun w => (sw_position w, sw_locked_by_route_uid w)) <$> switches demo_flank_locked !! W2
    = Some (SwitchPosition.DIVERGENT, Some (mkUID 7)) /\
  (fun w => (sw_position w, sw_locked_by_route_uid w)) <$> switches s' !! W2
    = Some (SwitchPosition.STRAIGHT, Some (make_route_uid SigA SigB 1000)).
Proof. by vm_compute. Qed.

(** ** Cancelling *)

Section Cancel.
Context {MO : MapOrder}.
Implicit Types s : EngineState.t.

Lemma unlock_switches_effect s r l u sw :
  switches s !! u = Some sw ->
  exists sw', switches (apply_all s ((fun x => DSwitchUnlocked (mkSwitchUnlocked x r)) <$> l)) !! u = Some sw' /\
    (u ∈ l \/ sw_locked_by_route_uid sw = None -> sw_locked_by_route_uid sw' = None) /\
    sw_position sw' = sw_position sw.
Proof.
  revert s sw. induction l as [|v l IH]; intros s sw Hsw.
  { exists sw. split_and!; try done. by intros [?%not_elem_of_nil|]. }
  rewrite fmap_cons, apply_all_cons.
  destruct (decide (v = u)) as [->|Hv].
  - destruct (IH (StateApplier s (DSwitchUnlocked (mkSwitchUnlocked u r))) (sw <| sw_locked_by_route_uid := None |>))
      as (sw' & Hs' & Hl & Hp); [cbn; by rewrite lookup_alter_eq, Hsw|].
    exists sw'. split_and!; [done| |done]. intros _. apply Hl. by right.
  - destruct (IH (StateApplier s (DSwitchUnlocked (mkSwitchUnlocked v r))) sw)
      as (sw' & Hs' & Hl & Hp); [cbn; by rewrite lookup_alter_ne|].
    exists sw'. split_and!; [done| |done]. intros [[|]%elem_of_cons|]; apply Hl; [congruence|by left|by right].
Qed.

Definition stop_entry (u : UID) (route : RouteState) : DeviceStateChange :=
  DSignalAspect (mkSignalAspectChange (rt_from_signal_uid route) SignalAspect.S1_STOP
                   ChangeCause.COMMAND (Some u)).
Definition unlock_switches (u : UID) (route : RouteState) : list DeviceStateChange :=
  (fun x => DSwitchUnlocked (mkSwitchUnlocked x u)) <$> rt_switch_uids route.

(** The changes of a cancellation: stop, unlocks, then derailers and the removal. *)
Lemma execute_cancel_route_split s cmd route :
  find_route s (cr_route_uid cmd) = Some route ->
  exists rest reason,
    execute_cancel_route s cmd
    = (stop_entry (cr_route_uid cmd) route :: unlock_switches (cr_route_uid cmd) route) ++ rest ++
      [DRouteRemoved (mkRouteRemoved (cr_route_uid cmd) reason)] /\
    forall sl, (forall u, sl <> SlDerailer u) -> Forall (fun c => sl ∉ footprint c) rest.
Proof.
  intros Hr. unfold execute_cancel_route. rewrite Hr.
  rewrite (app_assoc (rt_derailer_uids route ≫= _)). eexists (_ ++ _), _. split; [reflexivity|].
  intros sl Hsl. apply Forall_app. split.
  - apply Forall_forall. intros c (u & Hc & _)%list_elem_of_bind. revert Hc. repeat case_match;
      try (by intros ?%not_elem_of_nil).
    intros ->%list_elem_of_singleton ->%list_elem_of_singleton. by apply (Hsl u).
  - case_match; repeat constructor. by intros ?%not_elem_of_nil.
Qed.

(** An accepted cancellation removes the route, unlocks its switches without moving
    them and puts the entry signal to stop; but it leaves the entry signal locked
    by the removed route, so that any further route from it is refused. *)
Theorem cancel_route_leaves_entry_locked s cmd route sig to ps :
  check_cancel_route s cmd = None ->
  find_route s (cr_route_uid cmd) = Some route ->
  find_signal s (rt_from_signal_uid route) = Some sig -> is_Some (find_signal s to) ->
  let s' := apply_all s (execute_cancel_route s cmd) in
  find_route s' (cr_route_uid cmd) = None /\
  Forall (fun u => forall sw, switches s !! u = Some sw -> exists sw', switches s' !! u = Some sw' /\
     sw_locked_by_route_uid sw' = None /\ sw_position sw' = sw_position sw) (rt_switch_uids route) /\
  (exists sig', find_signal s' (rt_from_signal_uid route) = Some sig' /\
     sig_current_aspect sig' = SignalAspect.S1_STOP /\
     sig_locked_by_route_uid sig' = Some (cr_route_uid cmd)) /\
  exists v, check_request_route s' (mkRequestRouteCmd (rt_from_signal_uid route) to) ps = Some v /\
            iv_reason_code v = NAK_ROUTE_LOCKED.
Proof.
  intros Hc Hr Hs Hto s'. destruct (execute_cancel_route_split s cmd route Hr) as (rest & reason & He & Hf).
  subst s'. rewrite He, !apply_all_app. clear He.
  set (s1 := apply_all s _). set (s2 := apply_all s1 rest).
  set (u := cr_route_uid cmd) in *. set (s' := apply_all s2 _).
  assert (forall x, signals s' !! x = signals (StateApplier s (stop_entry u route)) !! x) as Hsig.
  { intros x. apply (fmap_lookup_inj OSignal).
    etrans; [by apply (apply_all_frame s1 _ (SlSignal x)), Hf|]. subst s1. rewrite apply_all_cons.
    apply (apply_all_frame _ _ (SlSignal x)), Forall_fmap, Forall_true.
    by intros y ?%list_elem_of_singleton. }
  assert (find_signal s' (rt_from_signal_uid route)
          = Some (sig <| sig_current_aspect := SignalAspect.S1_STOP |>
                      <| sig_locked_by_route_uid := Some u |>)) as Hentry.
  { change (signals s !! rt_from_signal_uid route = Some sig) in Hs.
    cbn. unfold EngineState.find_signal. rewrite Hsig. cbn. by rewrite !lookup_alter_eq, Hs. }
  split_and!.
  - change (delete u (routes s2) !! u = None). apply lookup_delete_eq.
  - apply Forall_forall. intros x Hx sw Hsw.
    assert (switches (StateApplier s (stop_entry u route)) !! x = Some sw) as Hsw1 by done.
    destruct (unlock_switches_effect _ u (rt_switch_uids route) x sw Hsw1) as (sw' & Hsw' & Hl & Hp).
    exists sw'. split_and!; [|by apply Hl; left|done]. rewrite <-Hsw'.
    apply (fmap_lookup_inj OSwitch). by apply (apply_all_frame s1 _ (SlSwitch x)), Hf.
  - by eexists.
  - assert (is_Some (find_signal s' to)) as [exit Hexit].
    { cbn. unfold EngineState.find_signal. rewrite Hsig. cbn.
      change (is_Some (signals s !! to)) in Hto.
      rewrite !lookup_alter_if. repeat case_decide; by rewrite ?fmap_is_Some. }
    unfold check_request_route. cbn [rr_from_signal_uid rr_to_signal_uid].
    rewrite Hentry, Hexit. rewrite decide_True by done. by eexists.
Qed.
End Cancel.

Definition demo_routed : EngineState.t :=
  apply_all demo (execute_request_route demo (mkRequestRouteCmd SigA SigB) 1000 kPolicies).

Example cancel_route_leaves_entry_locked_witness :
  let cmd := mkCancelRouteCmd (make_route_uid SigA SigB 1000) false in
  exists v, check_request_route (apply_all demo_routed (execute_cancel_route demo_routed cmd))
              (mkRequestRouteCmd SigA SigB) kPolicies = Some v /\ iv_reason_code v = NAK_ROUTE_LOCKED.
Proof.
  intros cmd. destruct (find_route demo_routed (cr_route_uid cmd)) as [route|] eqn:Hr;
    [|by vm_compute in Hr].
  assert (rt_from_signal_uid route = SigA) as Hf by (vm_compute in Hr; by injection Hr as <-).
  destruct (find_signal demo_routed SigA) as [sig|] eqn:Hs; [|by vm_compute in Hs].
  pose proof (cancel_route_leaves_entry_locked demo_routed cmd route sig SigB kPolicies) as H.
  rewrite Hf in H. apply H; [by vm_compute|exact Hr|exact Hs|refine (bool_decide_unpack _ _); by vm_compute].
Defined.

(** ** Automatic release *)

(** No route is marked as entered by a train. *)
Definition never_entered (s : EngineState.t) : Prop :=
  forall u route, routes s !! u = Some route -> rt_train_entered route = false.

Definition adds_entered (c : DeviceStateChange) : bool :=
  match c with DRouteAdded route => rt_train_entered route | _ => false end.

Lemma never_entered_apply s c :
  never_entered s -> adds_entered c = false -> never_entered (StateApplier s c).
Proof.
  intros Hs Hc u route. pose proof (Hs u) as Hu. revert Hc.
  destruct c as [[? ? ? []]|[]|[]|[]|[? ? ? []]|[]|[]|[]|[? []]|[? []]|[? []]|added|[]| | |[]| |[]|[]];
    unfold_change; split_change; intros Hc Hbs; subst; try (by eapply Hu); try done.
  - injection Hbs as <-. destruct (routes s !! rt_uid added) eqn:E; [by apply Hu|done].
  - apply fmap_Some in Hbs as (r0 & Hr0 & ->). by apply (Hu r0).
Qed.

Lemma adds_entered_bind {A} (f : A -> list DeviceStateChange) l :
  (forall x, Forall (fun c => adds_entered c = false) (f x)) ->
  Forall (fun c => adds_entered c = false) (l ≫= f).
Proof.
  intros Hf. apply Forall_forall. intros c (x & Hc & _)%list_elem_of_bind.
  by apply (proj1 (Forall_forall _ _) (Hf x)).
Qed.

Lemma adds_entered_fmap {A} (f : A -> DeviceStateChange) l :
  (forall x, adds_entered (f x) = false) -> Forall (fun c => adds_entered c = false) (f <$> l).
Proof. intros Hf. apply Forall_fmap, Forall_true, Hf. Qed.

Ltac no_entered :=
  repeat (first [ apply adds_entered_bind; intros ? | apply adds_entered_fmap; intros ?
                | apply Forall_app; split | apply Forall_cons; split | apply Forall_nil; exact I
                | done | case_match ]).

Section AutoRelease.
Context {MO : MapOrder}.

Lemma ebilock_adds_entered self (s : EngineState.t) cmd :
  Forall (fun c => adds_entered c = false) (EbiLockSystem.execute_command self s cmd).1.
Proof.
  destruct cmd; cbn [EbiLockSystem.execute_command fst];
    unfold execute_set_switch_position, execute_set_signal_aspect, execute_set_derailer_position,
      execute_set_block_section, execute_request_route, execute_cancel_route, execute_acknowledge_alarm,
      execute_set_block_direction, execute_init_axle_counter_reset, execute_reset_axle_counter,
      execute_operator_command, set_and_lock, unlock_derailer, throw_switch_or_derailer, stop_signal,
      confirm_direction, execute_set_switch_position, execute_set_derailer_position; no_entered.
Qed.

Lemma tick_machines_adds_entered (s : EngineState.t) pending :
  Forall (fun c => adds_entered c = false) (tick_switch_machines s pending).1.
Proof.
  unfold tick_switch_machines. generalize (for_each_switch s). intros sws.
  assert (forall cs p, Forall (fun c => adds_entered c = false) cs ->
    Forall (fun c => adds_entered c = false)
      (foldl (fun '(changes, pending) sw =>
         let '(more, pending) := tick_switch_machine pending sw in (changes ++ more, pending))
         (cs, p) sws).1) as H; [|by apply H].
  induction sws as [|sw sws IH]; intros cs p Hcs; [done|]. cbn.
  destruct (tick_switch_machine p sw) as [more p'] eqn:E. apply IH, Forall_app. split; [done|].
  assert (more = (tick_switch_machine p sw).1) as -> by (by rewrite E).
  unfold tick_switch_machine. no_entered.
Qed.

Lemma never_entered_reachable (c c' : EbiLockSystem.t * EngineState.t) :
  rtc sys_step c c' -> never_entered c.2 -> never_entered c'.2.
Proof.
  apply sys_invariant.
  - intros self s cmd ch _ _ Hin s' Hs'. apply never_entered_apply; [done|].
    by apply (proj1 (Forall_forall _ _) (ebilock_adds_entered self s cmd)).
  - intros self s ch _ Hin s' Hs'. apply never_entered_apply; [done|].
    revert Hin. cbn -[tick_route_auto_release tick_switch_machines]. unfold EbiLockSystem.on_tick.
    pose proof (tick_machines_adds_entered s (EbiLockSystem.pending_targets_ self)) as Hm.
    destruct (tick_switch_machines s _) as [cs p]. cbn [fst] in *. intros [Hin|Hin]%elem_of_app.
    + by apply (proj1 (Forall_forall _ _) Hm).
    + revert Hin. apply (proj1 (Forall_forall (fun c => adds_entered c = false) _)).
      unfold tick_route_auto_release, tick_route. no_entered.
  - done.
  - done.
Qed.

(** Routes are never released automatically: nothing in the engine marks a route
    as entered by its train, so in every state reachable from one without such a
    route [tick_route_auto_release] does nothing. *)
Theorem auto_release_unreachable (c c' : EbiLockSystem.t * EngineState.t) (tick : Z) :
  rtc sys_step c c' -> never_entered c.2 -> tick_route_auto_release c'.2 tick = [].
Proof.
  intros Hr Hc. pose proof (never_entered_reachable _ _ Hr Hc) as Hn.
  unfold tick_route_auto_release.
  assert (forall l, (forall route, route ∈ l -> rt_train_entered route = false) ->
                    l ≫= tick_route c'.2 tick = []) as H.
  { induction l as [|route l IH]; intros Hl; [done|]. rewrite bind_cons. unfold tick_route at 1.
    rewrite (Hl route) by (by left). apply IH. intros r Hin. apply Hl. by right. }
  apply H. intros route [u Hu]%(backed_elem (route_backed c'.2)). exact (Hn u route Hu).
Qed.
End AutoRelease.

Example auto_release_unreachable_witness :
  let c := (EbiLockSystem.create 90, demo) in
  tick_route_auto_release (run_command c (CRequestRoute (mkRequestRouteCmd SigA SigB))).2 5000 = [].
Proof.
  intros c. apply (auto_release_unreachable c).
  - apply rtc_once. constructor. by vm_compute.
  - intros u route H. change (EngineState.routes demo !! u = Some route) in H.
    assert (EngineState.routes demo = ∅) as E by reflexivity. by rewrite E, lookup_empty in H.
Defined.
