(* ===== verification/Switches.v ===== *)
(** * Switches: commands to and timing of the switch machines

    Theorems about rule R1 and [tick_switch_machines] of [DeviceRules], run
    through the control systems of [Interlocking] and [StateApplier]: which
    commands are accepted, that an accepted throw lands in its target after
    exactly the throw time, and that every switch machine evolves on its own,
    whatever the order the switches are visited in. *)
From S2P Require Import Prelude Float32 Types Commands Track World Demo Changes RouteGraph DeviceRules Interlocking Routes.
Local Notation switches := EngineState.switches.
Local Open Scope Z_scope.

Lemma check_set_switch_position_accepts {V} {SV : StateView V} (state : V) cmd :
  check_set_switch_position state cmd = None ->
  exists sw, find_switch state (ssp_uid cmd) = Some sw /\
    sw_position sw <> SwitchPosition.MOVING /\ sw_occupancy sw = TrackOccupancy.FREE /\
    sw_locked_by_route_uid sw = None /\ sw_position sw <> ssp_position cmd.
Proof.
  unfold check_set_switch_position. destruct (find_switch state (ssp_uid cmd)) as [sw|]; [|done].
  intros H. exists sw. repeat case_match; try done. split_and!; try done. by destruct (sw_occupancy sw).
Qed.

(** A direct switch command is accepted exactly when the switch exists, stands
    still, is free and not locked by a route, and is not yet in the position
    asked for; a rejection names the switch and its code tells which of these
    failed first. *)
Theorem check_set_switch_position_spec {V} {SV : StateView V} (state : V) (cmd : SetSwitchPositionCmd) :
  let u := ssp_uid cmd in
  match check_set_switch_position state cmd, find_switch state u with
  | None, Some sw =>
      sw_position sw <> SwitchPosition.MOVING /\ sw_occupancy sw = TrackOccupancy.FREE /\
      sw_locked_by_route_uid sw = None /\ sw_position sw <> ssp_position cmd
  | None, None => False
  | Some v, None => iv_reason_code v = NAK_NOT_FOUND /\ iv_offending_uid v = u
  | Some v, Some sw =>
      iv_offending_uid v = u /\
      (iv_reason_code v = NAK_SWITCH_MOVING /\ sw_position sw = SwitchPosition.MOVING \/
       iv_reason_code v = NAK_SAFETY_BLOCK /\ sw_position sw <> SwitchPosition.MOVING /\
         sw_occupancy sw = TrackOccupancy.OCCUPIED \/
       iv_reason_code v = NAK_ROUTE_LOCKED /\ sw_position sw <> SwitchPosition.MOVING /\
         sw_occupancy sw = TrackOccupancy.FREE /\ is_Some (sw_locked_by_route_uid sw) \/
       iv_reason_code v = NAK_INVALID_STATE /\ sw_position sw = ssp_position cmd /\
         sw_occupancy sw = TrackOccupancy.FREE /\ sw_locked_by_route_uid sw = None)
  end.
Proof.
  cbn zeta. unfold check_set_switch_position.
  destruct (find_switch state (ssp_uid cmd)) as [sw|]; [|done].
  assert (sw_occupancy sw = TrackOccupancy.FREE \/ sw_occupancy sw = TrackOccupancy.OCCUPIED) as Ho
    by (destruct (sw_occupancy sw); auto).
  destruct (decide (sw_position sw = _)); cbn; [split; [done|by left]|].
  destruct (decide (sw_occupancy sw = _)) as [E|E]; cbn; [split; [done|by right; left]|].
  destruct Ho as [Ho|Ho]; [|done].
  destruct (sw_locked_by_route_uid sw) eqn:El; cbn; [split; [done|]; right; right; left; by eauto|].
  destruct (decide (sw_position sw = ssp_position cmd)); cbn; [|done].
  split; [done|]. right; right; right. done.
Qed.

(** ** One switch machine *)

(** The state of a machine and of its pending target after one tick. *)
Definition machine (pending : option SwitchPosition.t) (sw : Switch) : Switch * option SwitchPosition.t :=
  if decide (sw_position sw <> SwitchPosition.MOVING) then (sw, None)
  else if sw_moving_ticks_remaining sw <=? 1 then
    (sw <| sw_position := default SwitchPosition.STRAIGHT pending |>
        <| sw_moving_ticks_remaining := 0 |>, None)
  else (sw <| sw_position := SwitchPosition.MOVING |>
           <| sw_moving_ticks_remaining := sw_moving_ticks_remaining sw - 1 |>, pending).

Lemma tick_switch_machine_pending pending sw u :
  (tick_switch_machine pending sw).2 !! u =
  if decide (u = sw_uid sw) then (machine (pending !! u) sw).2 else pending !! u.
Proof.
  unfold tick_switch_machine, machine.
  destruct (decide (sw_position sw <> _)); cbn [snd].
  { rewrite lookup_delete_if. repeat case_decide; congruence. }
  destruct (Z.leb_spec (sw_moving_ticks_remaining sw) 0) as [H0|H0];
    [rewrite (proj2 (Z.leb_le _ 1)) by lia|destruct (Z.eqb_spec (sw_moving_ticks_remaining sw - 1) 0) as [H1|H1];
      [rewrite (proj2 (Z.leb_le _ 1)) by lia|rewrite (proj2 (Z.leb_gt _ 1)) by lia]]; cbn [snd];
    rewrite ?lookup_delete_if; repeat case_decide; congruence.
Qed.

Lemma tick_switch_machine_changes pending pending' sw :
  pending !! sw_uid sw = pending' !! sw_uid sw ->
  (tick_switch_machine pending sw).1 = (tick_switch_machine pending' sw).1.
Proof. intros H. unfold tick_switch_machine. rewrite H. by repeat case_match. Qed.

Lemma tick_switch_machine_footprint pending sw sl :
  sl <> SlSwitch (sw_uid sw) ->
  Forall (fun c => sl ∉ footprint c) (tick_switch_machine pending sw).1.
Proof.
  intros H. unfold tick_switch_machine. repeat case_match; repeat constructor; by intros ?%list_elem_of_singleton.
Qed.

Lemma tick_switch_machine_apply s pending sw :
  switches s !! sw_uid sw = Some sw ->
  switches (apply_all s (tick_switch_machine pending sw).1) !! sw_uid sw
  = Some (machine (pending !! sw_uid sw) sw).1.
Proof.
  intros H. unfold tick_switch_machine, machine.
  destruct (decide (sw_position sw <> _)); cbn [fst]; [done|].
  destruct (Z.leb_spec (sw_moving_ticks_remaining sw) 0) as [H0|H0];
    [rewrite (proj2 (Z.leb_le _ 1)) by lia|destruct (Z.eqb_spec (sw_moving_ticks_remaining sw - 1) 0) as [H1|H1];
      [rewrite (proj2 (Z.leb_le _ 1)) by lia|rewrite (proj2 (Z.leb_gt _ 1)) by lia]]; cbn;
    by rewrite lookup_alter_eq, H.
Qed.

(** ** All machines of a tick *)

Lemma tick_fold pending sws changes :
  NoDup (sw_uid <$> sws) ->
  exists pending',
    foldl (fun '(changes, pending) sw =>
      let '(more, pending) := tick_switch_machine pending sw in (changes ++ more, pending))
      (changes, pending) sws
    = (changes ++ (sws ≫= fun sw => (tick_switch_machine pending sw).1), pending') /\
    (forall sw, sw ∈ sws -> pending' !! sw_uid sw = (machine (pending !! sw_uid sw) sw).2) /\
    (forall u, u ∉ sw_uid <$> sws -> pending' !! u = pending !! u).
Proof.
  revert pending changes. induction sws as [|sw sws IH]; intros pending changes Hn.
  { exists pending. split_and!; [by rewrite app_nil_r| |done]. by intros sw ?%not_elem_of_nil. }
  rewrite fmap_cons in *. apply NoDup_cons in Hn as [Hsw Hn].
  pose proof (tick_switch_machine_pending pending sw) as Hp.
  destruct (tick_switch_machine pending sw) as [more pending1] eqn:E. cbn [snd] in Hp.
  destruct (IH pending1 (changes ++ more) Hn) as (pending' & Hf & Hin & Hout).
  assert (forall sw', sw' ∈ sws -> pending1 !! sw_uid sw' = pending !! sw_uid sw') as Hsame.
  { intros sw' Hsw'. rewrite Hp, decide_False; [done|]. intros He. apply Hsw. rewrite <-He.
    by apply list_elem_of_fmap_2. }
  exists pending'. split_and!.
  - cbn [foldl]. rewrite E, Hf, bind_cons, E, <-app_assoc. cbn [fst]. f_equal. do 2 f_equal.
    apply Forall_bind_ext, Forall_forall. intros sw' Hsw'.
    apply tick_switch_machine_changes. by apply Hsame.
  - intros sw' [->|Hsw']%elem_of_cons; [|by rewrite Hin, Hsame].
    rewrite Hout by done. by rewrite Hp, decide_True.
  - intros u [Hu Hu']%not_elem_of_cons. by rewrite Hout, Hp, decide_False.
Qed.

Lemma bind_frame s pending sws sl :
  Forall (fun sw => sl <> SlSwitch (sw_uid sw)) sws ->
  read (apply_all s (sws ≫= fun sw => (tick_switch_machine pending sw).1)) sl = read s sl.
Proof.
  intros H. apply apply_all_frame. induction H as [|sw sws Hsw _ IH]; [constructor|].
  rewrite bind_cons. apply Forall_app. split; [by apply tick_switch_machine_footprint|done].
Qed.

Lemma read_switch s s' u : read s (SlSwitch u) = read s' (SlSwitch u) -> switches s !! u = switches s' !! u.
Proof. intros H. by apply (inj (fmap OSwitch)). Qed.

Section Ticks.
Context {MO : MapOrder}.

(** The keys of the visited switches are the identifiers of the switches. *)
Lemma visited_switches s :
  keyed s -> NoDup (sw_uid <$> for_each_switch s) /\
  forall sw, sw ∈ for_each_switch s <-> switches s !! sw_uid sw = Some sw.
Proof.
  intros Hk. cbn. unfold EngineState.for_each_switch.
  assert (forall u sw, (u, sw) ∈ visit (switches s) -> sw_uid sw = u) as Hu.
  { intros u sw H%elem_of_visit. apply (Hk (SlSwitch u) (OSwitch sw)). cbn. by rewrite H. }
  split.
  - assert (sw_uid <$> (visit (switches s)).*2 = (visit (switches s)).*1) as ->.
    { rewrite <-list_fmap_compose. apply list_fmap_ext. intros i [u sw] Hi%list_elem_of_lookup_2. by apply Hu. }
    rewrite visit_perm. apply NoDup_fst_map_to_list.
  - intros sw. rewrite elem_of_visit_values. split; [|by eauto].
    intros [k Hk']. pose proof Hk' as ->%elem_of_visit%Hu. done.
Qed.

(** A tick of the machines, as seen at one switch: order and neighbours do not
    matter. *)
Lemma tick_switch_machines_effect s pending :
  keyed s ->
  let '(changes, pending') := tick_switch_machines s pending in
  forall u,
    switches (apply_all s changes) !! u
    = (fun sw => (machine (pending !! u) sw).1) <$> switches s !! u /\
    pending' !! u = match switches s !! u with
                    | Some sw => (machine (pending !! u) sw).2
                    | None => pending !! u
                    end.
Proof.
  intros Hk. destruct (visited_switches s Hk) as [Hn Hv].
  unfold tick_switch_machines.
  destruct (tick_fold pending _ [] Hn) as (pending' & -> & Hin & Hout). cbn [app]. intros u.
  destruct (switches s !! u) as [sw|] eqn:Hu.
  - assert (sw_uid sw = u) as <-.
    { apply (Hk (SlSwitch u) (OSwitch sw)). cbn. by rewrite Hu. }
    apply Hv in Hu as Hin'. split; [|by apply Hin].
    destruct (list_elem_of_split _ _ Hin') as (l1 & l2 & Hl). rewrite Hl in *.
    rewrite fmap_app, fmap_cons in Hn. apply NoDup_app in Hn as (_ & Hn1 & [Hn2 _]%NoDup_cons).
    rewrite bind_app, bind_cons, !apply_all_app.
    erewrite read_switch; [|apply bind_frame, Forall_forall; intros sw' Hsw' [= He]; apply Hn2;
                             rewrite He; by apply list_elem_of_fmap_2].
    apply tick_switch_machine_apply.
    erewrite read_switch; [by apply Hu|apply bind_frame, Forall_forall; intros sw' Hsw' [= He]].
    apply (Hn1 (sw_uid sw')); [by apply list_elem_of_fmap_2|rewrite <-He; by left].
  - assert (u ∉ sw_uid <$> for_each_switch s) as Hu'.
    { intros (sw & -> & Hsw)%list_elem_of_fmap. apply Hv in Hsw. congruence. }
    split; [|by apply Hout]. erewrite read_switch; [by rewrite Hu|].
    apply bind_frame, Forall_forall. intros sw Hsw [= ->]. apply Hu'. by apply list_elem_of_fmap_2.
Qed.
End Ticks.

(** ** Through the control system *)

(** What the machine of a switch shows: its position and its timer. *)
Definition machine_state (s : EngineState.t) (u : UID) : option (SwitchPosition.t * Z) :=
  (fun sw => (sw_position sw, sw_moving_ticks_remaining sw)) <$> switches s !! u.

(** A change that moves the switch [u]. *)
Definition moves (u : UID) (c : DeviceStateChange) : bool :=
  match c with DSwitchPosition c => bool_decide (spc_uid c = u) | _ => false end.

Lemma keeps_machine_state s c u :
  moves u c = false -> machine_state (StateApplier s c) u = machine_state s u.
Proof.
  intros Hc. unfold machine_state.
  destruct c as [[? ? ? []]|[]|[]|[]|[? ? ? []]|[]|[]|[]|[? []]|[? []]|[? []]| |[]| | |[]| |[]|[]];
    cbn in Hc; try apply bool_decide_eq_false in Hc;
    unfold_change; split_change; subst; try done; rewrite <-?option_fmap_compose; by apply option_fmap_ext.
Qed.

Lemma keep_machine_states s cs u :
  Forall (fun c => moves u c = false) cs -> machine_state (apply_all s cs) u = machine_state s u.
Proof.
  intros H. revert s. induction H as [|c cs Hc _ IH]; intros s; [done|].
  by rewrite apply_all_cons, IH, keeps_machine_state.
Qed.

Lemma keep_bind {A} u (f : A -> list DeviceStateChange) l :
  (forall x, x ∈ l -> Forall (fun c => moves u c = false) (f x)) ->
  Forall (fun c => moves u c = false) (l ≫= f).
Proof.
  intros Hf. apply Forall_forall. intros c (x & Hc & Hx)%list_elem_of_bind.
  by apply (proj1 (Forall_forall _ _) (Hf x Hx)).
Qed.

Lemma keep_fmap {A} u (f : A -> DeviceStateChange) l :
  (forall x, moves u (f x) = false) -> Forall (fun c => moves u c = false) (f <$> l).
Proof. intros Hf. apply Forall_fmap, Forall_true, Hf. Qed.

Ltac moves_nothing :=
  repeat (first [ apply keep_bind; intros ? ? | apply keep_fmap; intros ?
                | apply Forall_app; split | apply Forall_cons; split | apply Forall_nil; exact I
                | done | case_match ]).

Lemma auto_release_keeps {V} {SV : StateView V} (state : V) tick u :
  Forall (fun c => moves u c = false) (tick_route_auto_release state tick).
Proof. unfold tick_route_auto_release, tick_route. moves_nothing. Qed.

(** ** What the accepted commands do to a machine that runs *)

(** The command requests a route in whose flank the switch lies. *)
Definition takes_flank {V} {SV : StateView V} (state : V) (cmd : Command) (u : UID) : Prop :=
  match cmd with
  | CRequestRoute c => exists rp,
      find_route_path state (rr_from_signal_uid c) (rr_to_signal_uid c) EbiLockSystem.kPolicies = Some rp /\
      u ∈ rpn_uid <$> rp_flank_switches rp
  | _ => False
  end.

Section Running.
Context {MO : MapOrder} (s : EngineState.t) (u : UID) (sw : Switch).
Hypothesis Hu : switches s !! u = Some sw.
Hypothesis Hmoving : sw_position sw = SwitchPosition.MOVING.

Lemma set_and_lock_keeps r n :
  rpn_uid n <> u -> Forall (fun c => moves u c = false) (set_and_lock s r n).
Proof.
  intros Hn. unfold set_and_lock. repeat case_match; repeat constructor; by apply bool_decide_eq_false.
Qed.

Lemma request_route_keeps cmd :
  check_request_route s cmd EbiLockSystem.kPolicies = None -> ~ takes_flank s (CRequestRoute cmd) u ->
  Forall (fun c => moves u c = false) (execute_request_route s cmd (current_tick s) EbiLockSystem.kPolicies).
Proof.
  intros (_ & _ & rp & _ & _ & _ & Hrp & Hnodes & _)%check_request_route_none Hflank.
  unfold execute_request_route. rewrite Hrp. repeat (apply Forall_app; split).
  - apply keep_bind. intros n [Hk Hn]%list_elem_of_filter. apply set_and_lock_keeps. intros E.
    assert (find_switch s (rpn_uid n) = Some sw) as Hs by by rewrite E.
    by apply (check_path_node_none s n (proj1 (Forall_forall _ _) Hnodes n Hn) Hk sw Hs).
  - apply keep_bind. intros n Hn. apply set_and_lock_keeps. intros <-. apply Hflank. exists rp.
    split; [done|]. by apply list_elem_of_fmap_2.
  - unfold unlock_derailer. moves_nothing.
  - moves_nothing.
Qed.

Lemma operator_command_keeps cmd n :
  check_operator_command s cmd = None ->
  Forall (fun c => moves u c = false) (execute_operator_command s cmd n).
Proof.
  intros Hc.
  assert (forall p d, oc_code cmd ∈ [OperatorCommandCode.ZWP; OperatorCommandCode.ZWM; OperatorCommandCode.ZBP;
                        OperatorCommandCode.ZBM] ->
    Forall (fun c => moves u c = false) (throw_switch_or_derailer s (oc_target_uid cmd) p d n)) as Hthrow.
  { intros p d Hcode. unfold throw_switch_or_derailer.
    destruct (decide (oc_target_uid cmd = u)) as [E|E].
    - exfalso. unfold check_operator_command in Hc. rewrite E in Hc.
      change (find_switch s u) with (switches s !! u) in Hc. rewrite Hu in Hc.
      repeat (apply elem_of_cons in Hcode as [Hcode|Hcode]; [rewrite Hcode in Hc; by repeat case_match|]).
      by apply not_elem_of_nil in Hcode.
    - unfold execute_set_switch_position, execute_set_derailer_position.
      repeat case_match; repeat constructor; by apply bool_decide_eq_false. }
  unfold execute_operator_command, stop_signal, confirm_direction.
  constructor; [done|].
  destruct (oc_code cmd) eqn:E; try (apply Hthrow; rewrite <-?E; set_solver); moves_nothing.
Qed.

Lemma command_keeps self cmd :
  EbiLockSystem.check_command self s cmd = None -> ~ takes_flank s cmd u ->
  Forall (fun c => moves u c = false) (EbiLockSystem.execute_command self s cmd).1 /\
  EbiLockSystem.pending_targets_ (EbiLockSystem.execute_command self s cmd).2 !! u
    = EbiLockSystem.pending_targets_ self !! u.
Proof.
  destruct cmd as [c|c|c|c|c|c|c|c|c|c|c|c];
    cbn [EbiLockSystem.check_command EbiLockSystem.execute_command fst snd]; intros Hc Hf.
  - apply check_set_switch_position_accepts in Hc as (sw' & Hs' & Hm & _).
    assert (ssp_uid c <> u) as Hn.
    { intros E. rewrite E in Hs'. change (switches s !! u = Some sw') in Hs'. congruence. }
    split; [|case_match; [by apply lookup_insert_ne|done]].
    unfold execute_set_switch_position. repeat case_match; repeat constructor; by apply bool_decide_eq_false.
  - split; [|done]. unfold execute_set_signal_aspect. moves_nothing.
  - split; [|done]. unfold execute_set_derailer_position. moves_nothing.
  - split; [|done]. unfold execute_set_block_section. moves_nothing.
  - split; [|done]. by apply request_route_keeps.
  - split; [|done]. unfold execute_cancel_route. moves_nothing.
  - split; [|done]. unfold execute_acknowledge_alarm. moves_nothing.
  - split; [|done]. unfold execute_set_block_direction. moves_nothing.
  - split; [|done]. unfold execute_init_axle_counter_reset. moves_nothing.
  - split; [|done]. unfold execute_reset_axle_counter. moves_nothing.
  - split; [|done]. by apply operator_command_keeps.
  - done.
Qed.
End Running.

Section Timing.
Context {MO : MapOrder}.

(** A run of the control system and the trains with [k] ticks in it: accepted commands,
    ticks and occupancies reported by trains in any order, but no route that has [u] in
    its flank. *)
Inductive run_leaving (u : UID) : nat -> EbiLockSystem.t * EngineState.t ->
                                  EbiLockSystem.t * EngineState.t -> Prop :=
| run_start c : run_leaving u 0 c c
| run_accepted k c self s cmd :
    run_leaving u k c (self, s) -> check_command self s cmd = None -> ~ takes_flank s cmd u ->
    run_leaving u k c (run_command (self, s) cmd)
| run_tick k c c' : run_leaving u k c c' -> run_leaving u (S k) c (quiet_tick c')
| run_train k c self s v occ n :
    run_leaving u k c (self, s) ->
    run_leaving u k c (self, EngineState.apply_track_section_occupancy s v occ n).

Definition throwing (u : UID) (target : SwitchPosition.t) (n : Z) (c : EbiLockSystem.t * EngineState.t) : Prop :=
  keyed c.2 /\ machine_state c.2 u = Some (SwitchPosition.MOVING, n) /\
  EbiLockSystem.pending_targets_ c.1 !! u = Some target.

Lemma quiet_tick_machine self s u sw :
  keyed s -> switches s !! u = Some sw ->
  let '(sw', pending') := machine (EbiLockSystem.pending_targets_ self !! u) sw in
  let '(self', s') := quiet_tick (self, s) in
  keyed s' /\ machine_state s' u = Some (sw_position sw', sw_moving_ticks_remaining sw') /\
  EbiLockSystem.pending_targets_ self' !! u = pending'.
Proof.
  intros Hk Hu. destruct (machine _ sw) as [sw' pending'] eqn:Hm.
  pose proof (tick_switch_machines_effect s (EbiLockSystem.pending_targets_ self) Hk) as He.
  unfold quiet_tick, on_tick; cbn -[tick_route_auto_release]. unfold EbiLockSystem.on_tick.
  destruct (tick_switch_machines s _) as [changes pending1]. destruct (He u) as [H1 H2].
  rewrite Hu in H1, H2. cbn [fmap option_fmap option_map] in H1. rewrite Hm in H1, H2.
  cbn -[tick_route_auto_release apply_all machine_state keyed EngineState.set_current_tick] in *.
  split_and!; [| |done].
  - intros sl o Hr. apply (keyed_apply_all s (changes ++ tick_route_auto_release s
      (u64 (EngineState.current_tick_ s + 1))) Hk). by destruct sl.
  - change (machine_state (apply_all s (changes ++ tick_route_auto_release s
      (u64 (EngineState.current_tick_ s + 1)))) u = Some (sw_position sw', sw_moving_ticks_remaining sw')).
    rewrite apply_all_app, keep_machine_states by apply auto_release_keeps.
    unfold machine_state. by rewrite H1.
Qed.

Lemma quiet_tick_throwing u target n c :
  throwing u target n c ->
  (1 < n -> throwing u target (n - 1) (quiet_tick c)) /\
  (n <= 1 -> machine_state (quiet_tick c).2 u = Some (target, 0)).
Proof.
  destruct c as [self s]. intros (Hk & Hm & Hp). cbn [fst snd] in *. unfold machine_state in Hm.
  destruct (switches s !! u) as [sw|] eqn:Hu; [|done]. injection Hm as Hpos Hrem.
  pose proof (quiet_tick_machine self s u sw Hk Hu) as H. unfold machine in H.
  rewrite Hp, Hrem, decide_False in H by (intros []; done).
  split; intros Hn; [rewrite (proj2 (Z.leb_gt _ _)) in H by done|rewrite (proj2 (Z.leb_le _ _)) in H by done];
    destruct (quiet_tick (self, s)) as [self' s']; cbn [fst snd] in *; destruct H as (Hk' & Hm' & Hp');
    [|exact Hm'].
  exact (conj Hk' (conj Hm' Hp')).
Qed.

Lemma command_throwing u target n self s cmd :
  throwing u target n (self, s) -> check_command self s cmd = None -> ~ takes_flank s cmd u ->
  throwing u target n (run_command (self, s) cmd).
Proof.
  intros (Hk & Hm & Hp) Hc Hf. cbn [fst snd] in *. pose proof Hm as Hm0. unfold machine_state in Hm.
  destruct (switches s !! u) as [sw|] eqn:Hu; [|done]. injection Hm as Hpos Hrem.
  destruct (command_keeps s u sw Hu Hpos self cmd Hc Hf) as [Hcs Hpend]. unfold run_command.
  change (execute_command self s cmd) with (EbiLockSystem.execute_command self s cmd).
  destruct (EbiLockSystem.execute_command self s cmd) as [cs self']. cbn [fst snd] in *.
  split_and!; cbn [fst snd]; [by apply keyed_apply_all|by rewrite keep_machine_states|by rewrite Hpend].
Qed.

Lemma run_throwing u target n k c c' :
  throwing u target n c -> run_leaving u k c c' -> Z.of_nat k < n -> throwing u target (n - Z.of_nat k) c'.
Proof.
  intros Hc Hr. induction Hr as [|k c self s cmd _ IH|k c c' _ IH|k c self s v occ m _ IH]; intros Hk.
  - by rewrite Z.sub_0_r.
  - by apply command_throwing; [apply IH|..].
  - destruct (quiet_tick_throwing _ _ _ _ (IH Hc ltac:(lia))) as [H _].
    replace (n - Z.of_nat (S k)) with (n - Z.of_nat k - 1) by lia. apply H. lia.
  - destruct (IH Hc Hk) as (Hkeyed & Hm & Hp). split_and!; [|done..].
    exact (StateApplier_keyed s (DTrackSectionOccupancy (mkTrackSectionOccupancyChange v occ m UID_zero)) Hkeyed).
Qed.

End Timing.


(** The exception is real: throwing W2, then requesting the route from A to B, which W2
    protects, puts the moving machine in its flank position at once. *)
Theorem flank_stops_throw :
  let self := EbiLockSystem.create 90 in
  let c := run_command (self, demo) (CSetSwitchPosition (mkSetSwitchPositionCmd W2 SwitchPosition.DIVERGENT)) in
  let route := CRequestRoute (mkRequestRouteCmd SigA SigB) in
  machine_state c.2 W2 = Some (SwitchPosition.MOVING, 90) /\
  check_command self c.2 route = None /\
  machine_state (run_command c route).2 W2 = Some (SwitchPosition.STRAIGHT, 0).
Proof. by vm_compute. Qed.
