(* ===== verification/Physics.v ===== *)
(** * Physics: longitudinal motion and the driver automaton

    [engine/include/engine/physics/physics_model.hpp] and [driver_ai.hpp].  All
    arithmetic is the binary32 arithmetic of the source, operation by
    operation; forces are in kN, speeds in m/s, distances in m.  Theorems: the
    integrator never leaves the speed range of the consist, the driver never
    drives and brakes at once, and it brakes for a STOP aspect as soon as the
    stopping distance reaches the signal. *)
From S2P Require Import Prelude Float32 Types.
From Stdlib Require Import SpecFloat.
Local Open Scope Z_scope.

(** ** The physics model *)

(** The floating-point literals of the two headers. *)
Definition f_0_5 : float := f32_lit 5 1.
Definition f_1 : float := f32_of_Z 1.
Definition f_2 : float := f32_of_Z 2.
Definition f_3_6 : float := f32_lit 36 1.
Definition f_100 : float := f32_of_Z 100.
Definition f_999 : float := f32_of_Z 999.
Definition f_1000 : float := f32_of_Z 1000.
Definition f_1e9 : float := f32_of_Z 1000000000.

(* SRC engine/include/engine/physics/physics_model.hpp 26-31 DavisCoeff *)
Record DavisCoeff := mkDavisCoeff { dc_a : float; dc_b : float; dc_c : float }.

(* SRC engine/include/engine/physics/physics_model.hpp 35-50 TrainPhysicsParams *)
Record TrainPhysicsParams := mkTrainPhysicsParams {
  total_mass_t : float;
  max_traction_kn : float;
  max_speed_ms : float;
  davis_A : float;
  davis_B : float;
  davis_C : float }.
#[global] Instance eta_params : Eta TrainPhysicsParams := fun p =>
  mkTrainPhysicsParams (total_mass_t p) (max_traction_kn p) (max_speed_ms p) (davis_A p)
    (davis_B p) (davis_C p).
Definition TrainPhysicsParams_default : TrainPhysicsParams :=
  mkTrainPhysicsParams f32_zero f32_zero f_999 f32_zero f32_zero f32_zero.

(* SRC engine/include/engine/physics/physics_model.hpp 54-61 TrainPhysicsState *)
Record TrainPhysicsState := mkTrainPhysicsState {
  position_m : float;
  velocity_ms : float;
  accel_ms2 : float;
  traction_kn : float;
  brake_kn : float }.
#[global] Instance eta_phys : Eta TrainPhysicsState := fun s =>
  mkTrainPhysicsState (position_m s) (velocity_ms s) (accel_ms2 s) (traction_kn s) (brake_kn s).
Definition TrainPhysicsState_default : TrainPhysicsState :=
  mkTrainPhysicsState f32_zero f32_zero f32_zero f32_zero f32_zero.

Module PhysicsModel.
(* SRC engine/include/engine/physics/physics_model.hpp 73-77 PhysicsModel::davis_resistance *)
Definition davis_resistance (p : TrainPhysicsParams) (v_ms : float) : float :=
  let v_kmh := (v_ms * f_3_6)%f32 in
  (davis_A p + davis_B p * v_kmh + davis_C p * v_kmh * v_kmh)%f32.

(* SRC engine/include/engine/physics/physics_model.hpp 87-96 PhysicsModel::braking_distance *)
Definition braking_distance (p : TrainPhysicsParams) (s : TrainPhysicsState) : float :=
  let mass_kg := (total_mass_t p * f_1000)%f32 in
  let brake_n := (brake_kn s * f_1000)%f32 in
  if (brake_n <=? f32_zero)%f32 || (mass_kg <=? f32_zero)%f32 then f_1e9
  else
    let a_brake_ms2 := (brake_n / mass_kg)%f32 in
    ((velocity_ms s * velocity_ms s) / (f_2 * a_brake_ms2))%f32.

(* SRC engine/include/engine/physics/physics_model.hpp 106-134 PhysicsModel::integrate *)
Definition integrate (p : TrainPhysicsParams) (s : TrainPhysicsState) (dt_s : float) :
    TrainPhysicsState :=
  let mass_kg := (total_mass_t p * f_1000)%f32 in
  let f_traction := (f32_min (traction_kn s) (max_traction_kn p) * f_1000)%f32 in
  let f_brake := (brake_kn s * f_1000)%f32 in
  let f_resist := davis_resistance p (velocity_ms s) in
  let f_net := (f_traction - f_resist - f_brake)%f32 in
  let f_net :=
    if (velocity_ms s <=? f32_zero)%f32 && (f_net <? f32_zero)%f32 then f32_zero else f_net in
  let accel := (f_net / mass_kg)%f32 in
  let v_new := (velocity_ms s + accel * dt_s)%f32 in
  let v_new := f32_clamp v_new f32_zero (max_speed_ms p) in
  let v_avg := (f_0_5 * (velocity_ms s + v_new))%f32 in
  s <| position_m := (position_m s + v_avg * dt_s)%f32 |>
    <| velocity_ms := v_new |>
    <| accel_ms2 := accel |>.

(* SRC engine/include/engine/physics/physics_model.hpp 142-148 PhysicsModel::brake_decel_from_lambda *)
Definition brake_decel_from_lambda (lambda_pct : float) : float :=
  let g := f32_lit 981 2 in
  f32_clamp (lambda_pct / f_100 * g * f32_lit 85 2)%f32 (f32_lit 3 1) (f32_of_Z 8).

(* SRC engine/include/engine/physics/physics_model.hpp 151-154 PhysicsModel::max_brake_kn *)
Definition max_brake_kn (p : TrainPhysicsParams) (lambda_pct : float) : float :=
  (brake_decel_from_lambda lambda_pct * total_mass_t p)%f32.
End PhysicsModel.

(* SRC engine/include/engine/physics/physics_model.hpp 161-169 VehiclePhysicsContrib *)
Record VehiclePhysicsContrib := mkVehiclePhysicsContrib {
  vc_mass_t : float;
  vc_traction_kn : float;
  vc_max_speed_ms : float;
  vc_davis_a : float;
  vc_davis_b : float;
  vc_davis_c : float }.
#[global] Instance eta_contrib : Eta VehiclePhysicsContrib := fun v =>
  mkVehiclePhysicsContrib (vc_mass_t v) (vc_traction_kn v) (vc_max_speed_ms v) (vc_davis_a v)
    (vc_davis_b v) (vc_davis_c v).

(** One turn of the loop of [build_train_params]. *)
(* SRC engine/include/engine/physics/physics_model.hpp 175-185 build_train_params *)
Definition add_vehicle (p : TrainPhysicsParams) (v : VehiclePhysicsContrib) : TrainPhysicsParams :=
  mkTrainPhysicsParams
    (total_mass_t p + vc_mass_t v)%f32
    (max_traction_kn p + vc_traction_kn v)%f32
    (f32_min (max_speed_ms p) (vc_max_speed_ms v))
    (davis_A p + vc_davis_a v * vc_mass_t v)%f32
    (davis_B p + vc_davis_b v * vc_mass_t v)%f32
    (davis_C p + vc_davis_c v * vc_mass_t v)%f32.

(* SRC engine/include/engine/physics/physics_model.hpp 171-189 build_train_params *)
Definition build_train_params (vehicles : list VehiclePhysicsContrib) : TrainPhysicsParams :=
  let p := fold_left add_vehicle vehicles TrainPhysicsParams_default in
  if (max_speed_ms p >=? f_999)%f32 then p <| max_speed_ms := f32_zero |> else p.

(** ** The driver automaton *)

(* SRC engine/include/engine/physics/driver_ai.hpp 43-49 DriverState *)
Module DriverState.
Inductive t : Set := | STOPPED | ACCELERATING | CRUISING | BRAKING.
Definition to_code (x : t) : BinNums.Z :=
  match x with | STOPPED => 0 | ACCELERATING => 1 | CRUISING => 2 | BRAKING => 3 end%Z.
Definition all : list t := [STOPPED; ACCELERATING; CRUISING; BRAKING].
#[global] Instance enum : Enum t.
Proof. refine {| code := to_code; enumerators := all |}. by intros []. Defined.
#[global] Instance eq_dec : EqDecision t := enum_eq_decision.
End DriverState.


(* SRC engine/include/engine/physics/driver_ai.hpp 53-62 DriverInput *)
Record DriverInput := mkDriverInput {
  di_aspect : SignalAspect.t;
  di_distance_to_signal_m : float;
  di_target_speed_ms : float;
  di_max_brake_kn : float;
  di_next_aspect : SignalAspect.t;
  di_distance_to_next_signal_m : float }.
#[global] Instance eta_input : Eta DriverInput := fun i =>
  mkDriverInput (di_aspect i) (di_distance_to_signal_m i) (di_target_speed_ms i)
    (di_max_brake_kn i) (di_next_aspect i) (di_distance_to_next_signal_m i).

(* SRC engine/include/engine/physics/driver_ai.hpp 66-71 DriverOutput *)
Record DriverOutput := mkDriverOutput {
  do_traction_kn : float;
  do_brake_kn : float;
  do_state : DriverState.t }.

(* SRC engine/include/engine/physics/driver_ai.hpp 77-113 aspect_speed_ms *)
Definition aspect_speed_ms (asp : SignalAspect.t) : float :=
  let kmh n := (f32_of_Z n / f_3_6)%f32 in
  match asp with
  | SignalAspect.S1_STOP => f32_zero
  | SignalAspect.S2_PROCEED => f_999
  | SignalAspect.S3_PROCEED_40 => kmh 40
  | SignalAspect.S4_PROCEED_40_EXPECT_STOP => kmh 40
  | SignalAspect.S5_EXPECT_STOP => f_999
  | SignalAspect.S6_PROCEED_100 => kmh 100
  | SignalAspect.S7_PROCEED_100_EXPECT_STOP => kmh 100
  | SignalAspect.S8_PROCEED_100_EXPECT_40 => kmh 100
  | SignalAspect.S9_PROCEED_100_EXPECT_60 => kmh 100
  | SignalAspect.S10_PROCEED_40 => kmh 40
  | SignalAspect.S11_PROCEED_40_EXPECT_40 => kmh 40
  | SignalAspect.S12_PROCEED_60 => kmh 60
  | SignalAspect.S13_PROCEED_60_EXPECT_60 => kmh 60
  | SignalAspect.MS2_SHUNTING_ALLOWED => kmh 40
  | _ => f32_zero
  end.

(* SRC engine/include/engine/physics/driver_ai.hpp 116-119 is_stop_aspect *)
Definition is_stop_aspect (asp : SignalAspect.t) : bool :=
  bool_decide (asp = SignalAspect.S1_STOP).

(* SRC engine/include/engine/physics/driver_ai.hpp 124-142 expected_next_speed_ms *)
Definition expected_next_speed_ms (asp : SignalAspect.t) : float :=
  let kmh n := (f32_of_Z n / f_3_6)%f32 in
  match asp with
  | SignalAspect.S4_PROCEED_40_EXPECT_STOP | SignalAspect.S5_EXPECT_STOP
  | SignalAspect.S7_PROCEED_100_EXPECT_STOP => f32_zero
  | SignalAspect.S8_PROCEED_100_EXPECT_40 | SignalAspect.S11_PROCEED_40_EXPECT_40 => kmh 40
  | SignalAspect.S9_PROCEED_100_EXPECT_60 | SignalAspect.S13_PROCEED_60_EXPECT_60 => kmh 60
  | _ => f_999
  end.

Module DriverAI.
(* SRC engine/include/engine/physics/driver_ai.hpp 152-152 DriverAI::kBrakingMargin *)
Definition kBrakingMargin : float := f32_lit 11 1.
(* SRC engine/include/engine/physics/driver_ai.hpp 156-156 DriverAI::kSpeedBandMs *)
Definition kSpeedBandMs : float := f32_lit 5 1.
(* SRC engine/include/engine/physics/driver_ai.hpp 159-159 DriverAI::kStoppedThresholdMs *)
Definition kStoppedThresholdMs : float := f32_lit 5 2.

(* SRC engine/include/engine/physics/driver_ai.hpp 162-182 DriverAI::braking_distance_to_speed *)
Definition braking_distance_to_speed (p : TrainPhysicsParams) (s : TrainPhysicsState)
    (brake_kn target_speed_ms : float) : float :=
  let mass_kg := (total_mass_t p * f_1000)%f32 in
  let brake_n := (brake_kn * f_1000)%f32 in
  if (mass_kg <=? f32_zero)%f32 || (brake_n <=? f32_zero)%f32 then f_1e9
  else
    let v := f32_max f32_zero (velocity_ms s) in
    let v_target := f32_max f32_zero target_speed_ms in
    if (v <=? v_target)%f32 then f32_zero
    else
      let a_brake := (brake_n / mass_kg)%f32 in
      ((v * v - v_target * v_target) / (f_2 * a_brake))%f32.

(** The speed up to which the train may run. *)
(* SRC engine/include/engine/physics/driver_ai.hpp 196-204 DriverAI::tick *)
Definition movement_vmax_ms (inp : DriverInput) : float :=
  let signal_vmax := aspect_speed_ms (di_aspect inp) in
  let eff_vmax_ms := f32_min signal_vmax (di_target_speed_ms inp) in
  if is_stop_aspect (di_aspect inp) then di_target_speed_ms inp else eff_vmax_ms.

(** The stopping distance under full service brake, with its margin. *)
(* SRC engine/include/engine/physics/driver_ai.hpp 206-210 DriverAI::tick *)
Definition d_stop (p : TrainPhysicsParams) (s : TrainPhysicsState) (inp : DriverInput) : float :=
  (PhysicsModel.braking_distance p (s <| brake_kn := di_max_brake_kn inp |>) * kBrakingMargin)%f32.

(** The next signal announces a limit, and the train is above it. *)
(* SRC engine/include/engine/physics/driver_ai.hpp 212-220 DriverAI::tick *)
Definition above_advisory (s : TrainPhysicsState) (inp : DriverInput) : bool :=
  let expected_next_vmax_ms := expected_next_speed_ms (di_next_aspect inp) in
  (expected_next_vmax_ms <? f32_of_Z 998)%f32 &&
  (velocity_ms s >? expected_next_vmax_ms + kSpeedBandMs)%f32.

(* SRC engine/include/engine/physics/driver_ai.hpp 212-220 DriverAI::tick *)
Definition advisory_brake_now (p : TrainPhysicsParams) (s : TrainPhysicsState) (inp : DriverInput) : bool :=
  let expected_next_vmax_ms := expected_next_speed_ms (di_next_aspect inp) in
  let d_to_advisory_speed :=
    (braking_distance_to_speed p s (di_max_brake_kn inp) expected_next_vmax_ms * kBrakingMargin)%f32 in
  above_advisory s inp && (d_to_advisory_speed >=? di_distance_to_next_signal_m inp)%f32.

(** State transitions. *)
(* SRC engine/include/engine/physics/driver_ai.hpp 222-290 DriverAI::tick *)
Definition next_state (prev_state : DriverState.t) (p : TrainPhysicsParams) (s : TrainPhysicsState)
    (inp : DriverInput) : DriverState.t :=
  let v := velocity_ms s in
  let must_stop := is_stop_aspect (di_aspect inp) in
  let vmax := movement_vmax_ms inp in
  if must_stop then
    if (v <=? kStoppedThresholdMs)%f32 then DriverState.STOPPED
    else if (d_stop p s inp >=? di_distance_to_signal_m inp)%f32 then DriverState.BRAKING
    else if (v >=? vmax - kSpeedBandMs)%f32 then DriverState.CRUISING
    else DriverState.ACCELERATING
  else if advisory_brake_now p s inp then DriverState.BRAKING
  else if (v <=? kStoppedThresholdMs)%f32 && bool_decide (prev_state = DriverState.STOPPED) then
    if (vmax >? kStoppedThresholdMs)%f32 then DriverState.ACCELERATING else prev_state
  else if bool_decide (prev_state = DriverState.STOPPED) && (vmax >? kStoppedThresholdMs)%f32 then
    DriverState.ACCELERATING
  else
    match prev_state with
    | DriverState.ACCELERATING =>
        if (v >=? vmax - kSpeedBandMs)%f32 then DriverState.CRUISING else prev_state
    | DriverState.CRUISING =>
        if (v >? vmax + kSpeedBandMs)%f32 then DriverState.BRAKING
        else if (v <? vmax - kSpeedBandMs * f_2)%f32 then DriverState.ACCELERATING
        else prev_state
    | DriverState.BRAKING =>
        if (v <=? kStoppedThresholdMs)%f32 && must_stop then DriverState.STOPPED
        else if negb must_stop then
          if above_advisory s inp then DriverState.BRAKING
          else if (v <=? vmax - kSpeedBandMs)%f32 then DriverState.CRUISING
          else prev_state
        else prev_state
    | DriverState.STOPPED => prev_state
    end.

(** Force commands per state. *)
(* SRC engine/include/engine/physics/driver_ai.hpp 292-319 DriverAI::tick *)
Definition forces (st : DriverState.t) (p : TrainPhysicsParams) (s : TrainPhysicsState)
    (inp : DriverInput) : float * float :=
  match st with
  | DriverState.STOPPED => (f32_zero, di_max_brake_kn inp)
  | DriverState.ACCELERATING => (max_traction_kn p, f32_zero)
  | DriverState.CRUISING =>
      let f_res := PhysicsModel.davis_resistance p (velocity_ms s) in
      (f32_min (f_res / f_1000)%f32 (max_traction_kn p), f32_zero)
  | DriverState.BRAKING => (f32_zero, di_max_brake_kn inp)
  end.

(* SRC engine/include/engine/physics/driver_ai.hpp 191-323 DriverAI::tick *)
Definition tick (prev_state : DriverState.t) (p : TrainPhysicsParams) (s : TrainPhysicsState)
    (inp : DriverInput) : DriverOutput :=
  let new_state := next_state prev_state p s inp in
  let '(traction, brake) := forces new_state p s inp in
  mkDriverOutput traction brake new_state.
End DriverAI.

(** ** Properties *)

(** The speed [integrate] returns is the clamped one. *)
Lemma integrate_velocity p s dt :
  exists raw, velocity_ms (PhysicsModel.integrate p s dt) = f32_clamp raw f32_zero (max_speed_ms p).
Proof. by eexists. Qed.

Definition speed_in_range (p : TrainPhysicsParams) (s : TrainPhysicsState) : Prop :=
  f32_ltb (velocity_ms s) f32_zero = false /\ f32_ltb (max_speed_ms p) (velocity_ms s) = false.

Lemma integrate_in_range p s dt :
  f32_ltb (max_speed_ms p) f32_zero = false -> speed_in_range p (PhysicsModel.integrate p s dt).
Proof.
  intros Hp. destruct (integrate_velocity p s dt) as [raw Hv]. unfold speed_in_range. rewrite Hv.
  split; [by apply f32_clamp_lo|by apply f32_clamp_hi].
Qed.

Lemma f32_add_zero x : x <> S754_zero true -> (x + f32_zero)%f32 = x.
Proof. by destruct x as [[]|[]| |]. Qed.

(** The integrator keeps the speed within the range of the consist whatever the forces and
    the tick length, leaves the forces alone, and a train at rest whose traction does not
    overcome its resistance and brakes stays where it is. *)
Theorem integrate_speed_range p s dt :
  f32_ltb (max_speed_ms p) f32_zero = false ->
  let s' := PhysicsModel.integrate p s dt in
  speed_in_range p s' /\
  (f32_is_nan (velocity_ms s') = false -> f32_is_nan (max_speed_ms p) = false ->
   (f32_zero <=? velocity_ms s')%f32 = true /\ (velocity_ms s' <=? max_speed_ms p)%f32 = true) /\
  traction_kn s' = traction_kn s /\ brake_kn s' = brake_kn s /\
  (forall m e md ed,
     velocity_ms s = f32_zero -> position_m s <> S754_zero true ->
     (total_mass_t p * f_1000)%f32 = S754_finite false m e -> dt = S754_finite false md ed ->
     (f32_min (traction_kn s) (max_traction_kn p) * f_1000
      - PhysicsModel.davis_resistance p f32_zero - brake_kn s * f_1000 <? f32_zero)%f32 = true ->
     velocity_ms s' = f32_zero /\ position_m s' = position_m s).
Proof.
  intros Hp s'. pose proof (integrate_in_range p s dt Hp) as [Hlo Hhi]. split_and!; [done| |done..|].
  - intros Hn Hm. split; (rewrite f32_leb_ltb; [|done..]); subst s'; [by rewrite Hlo|by rewrite Hhi].
  - intros m e md ed Hv Hpos Hmass -> Hnet. subst s'. unfold PhysicsModel.integrate.
    cbn [velocity_ms position_m field_set]. rewrite Hv, Hmass, Hnet.
    change (f32_zero <=? f32_zero)%f32 with true. cbn [andb].
    change (f32_zero / S754_finite false m e)%f32 with f32_zero.
    change (f32_zero * S754_finite false md ed)%f32 with f32_zero.
    change (f32_zero + f32_zero)%f32 with f32_zero.
    assert (f32_clamp f32_zero f32_zero (max_speed_ms p) = f32_zero) as ->.
    { unfold f32_clamp. change (f32_ltb f32_zero f32_zero) with false. cbn iota. by rewrite Hp. }
    split; [done|]. change (f_0_5 * (f32_zero + f32_zero))%f32 with f32_zero.
    change (f32_zero * S754_finite false md ed)%f32 with f32_zero. by apply f32_add_zero.
Qed.

(** A 120 t locomotive with 280 kN of traction and a limit of 125 km/h. *)
Definition demo_params : TrainPhysicsParams :=
  build_train_params
    [mkVehiclePhysicsContrib (f32_of_Z 120) (f32_of_Z 280) (f32_of_Z 125 / f_3_6)%f32
       (f32_lit 3924 2) (f32_lit 1962 4) (f32_lit 17658 7)].
(** At rest, 40 m into its section, brakes applied. *)
Definition demo_state : TrainPhysicsState :=
  mkTrainPhysicsState (f32_of_Z 40) f32_zero f32_zero f32_zero (f32_of_Z 100).

Example integrate_speed_range_witness :
  let s' := PhysicsModel.integrate demo_params demo_state (f32_lit 5 2) in
  velocity_ms s' = f32_zero /\ position_m s' = f32_of_Z 40.
Proof.
  destruct (integrate_speed_range demo_params demo_state (f32_lit 5 2)) as (_ & _ & _ & _ & Hrest);
    [by vm_compute|].
  eapply Hrest; [reflexivity|done|vm_compute; reflexivity|vm_compute; reflexivity|].
  vm_compute. reflexivity.
Defined.

Section Driver.
Variables (p : TrainPhysicsParams) (s : TrainPhysicsState) (inp : DriverInput).

Lemma tick_forces prev :
  DriverAI.tick prev p s inp =
  let st := DriverAI.next_state prev p s inp in
  mkDriverOutput (DriverAI.forces st p s inp).1 (DriverAI.forces st p s inp).2 st.
Proof. unfold DriverAI.tick. by destruct (DriverAI.forces _ _ _ _). Qed.

(** C39: the driver never drives against the brakes and never asks for more than the consist's
    traction; a STOP aspect is obeyed from every driver state: at rest the train is held, and
    a running train gets full brakes and no traction from the moment its stopping distance,
    with the 10 % margin, reaches the signal. *)
Theorem driver_obeys_stop prev :
  f32_ltb (max_traction_kn p) f32_zero = false ->
  let out := DriverAI.tick prev p s inp in
  (do_traction_kn out = f32_zero \/ do_brake_kn out = f32_zero) /\
  f32_ltb (max_traction_kn p) (do_traction_kn out) = false /\
  (di_aspect inp = SignalAspect.S1_STOP ->
   (velocity_ms s <=? DriverAI.kStoppedThresholdMs)%f32 = true \/
   (DriverAI.d_stop p s inp >=? di_distance_to_signal_m inp)%f32 = true ->
   do_traction_kn out = f32_zero /\ do_brake_kn out = di_max_brake_kn inp /\
   do_state out = if (velocity_ms s <=? DriverAI.kStoppedThresholdMs)%f32
                  then DriverState.STOPPED else DriverState.BRAKING).
Proof.
  intros Hp out. subst out. rewrite tick_forces. cbn zeta.
  cbn [do_traction_kn do_brake_kn do_state]. split_and!.
  - destruct (DriverAI.next_state prev p s inp); cbn; auto.
  - destruct (DriverAI.next_state prev p s inp); cbn [DriverAI.forces fst]; [done|apply f32_ltb_irrefl| |done].
    unfold f32_min. case_match; [apply f32_ltb_irrefl|done].
  - intros Ha Hor. unfold DriverAI.next_state, is_stop_aspect. rewrite Ha, bool_decide_true by done.
    destruct (velocity_ms s <=? DriverAI.kStoppedThresholdMs)%f32; [done|].
    destruct Hor as [|Hd]; [done|]. by rewrite Hd.
Qed.

(** The decisions of [n] ticks on the same readings. *)
Fixpoint decide_again (n : nat) (prev : DriverState.t) : DriverState.t :=
  match n with
  | O => prev
  | S n => decide_again n (DriverAI.next_state prev p s inp)
  end.

(** Above the speed the signal ahead permits, by more than the band on either side. *)
Definition overspeed : Prop :=
  let vmax := DriverAI.movement_vmax_ms inp in
  (velocity_ms s >? vmax + DriverAI.kSpeedBandMs)%f32 = true /\
  (velocity_ms s >=? vmax - DriverAI.kSpeedBandMs)%f32 = true /\
  (velocity_ms s <=? vmax - DriverAI.kSpeedBandMs)%f32 = false.

Lemma braking_is_stable :
  is_stop_aspect (di_aspect inp) = false -> overspeed ->
  DriverAI.next_state DriverState.BRAKING p s inp = DriverState.BRAKING.
Proof.
  intros Ha (_ & _ & Hle). unfold DriverAI.next_state. rewrite Ha.
  rewrite !bool_decide_false by done. rewrite !andb_false_r, ?andb_false_l. cbn [negb].
  rewrite Hle. by repeat case_match.
Qed.

Lemma decide_again_S n prev :
  decide_again (S n) prev = DriverAI.next_state (decide_again n prev) p s inp.
Proof. revert prev. induction n as [|n IH]; intros prev; [done|]. apply (IH (DriverAI.next_state prev p s inp)). Qed.
End Driver.

Lemma braking_within_three p s inp prev :
  is_stop_aspect (di_aspect inp) = false -> overspeed s inp ->
  (DriverAI.movement_vmax_ms inp >? DriverAI.kStoppedThresholdMs)%f32 = true ->
  decide_again p s inp 3 prev = DriverState.BRAKING.
Proof.
  intros Ha Ho Hv. pose proof (braking_is_stable p s inp Ha Ho) as Hb.
  destruct Ho as (Hgt & Hge & Hle).
  assert (DriverAI.next_state DriverState.CRUISING p s inp = DriverState.BRAKING) as Hc.
  { unfold DriverAI.next_state. rewrite Ha, Hgt. rewrite !bool_decide_false by done.
    rewrite andb_false_r, andb_false_l. by case_match. }
  assert (DriverAI.next_state DriverState.ACCELERATING p s inp = DriverState.CRUISING \/
          DriverAI.next_state DriverState.ACCELERATING p s inp = DriverState.BRAKING) as Hacc.
  { unfold DriverAI.next_state. rewrite Ha, Hge. rewrite !bool_decide_false by done.
    rewrite andb_false_r, andb_false_l. case_match; auto. }
  assert (DriverAI.next_state DriverState.STOPPED p s inp = DriverState.ACCELERATING \/
          DriverAI.next_state DriverState.STOPPED p s inp = DriverState.BRAKING) as Hs.
  { unfold DriverAI.next_state. rewrite Ha, Hv. rewrite !bool_decide_true by done.
    case_match; [auto|]. case_match; auto. }
  cbn [decide_again].
  destruct prev; rewrite ?Hc, ?Hb, ?Hb; [| | done..].
  - destruct Hs as [->| ->]; [|by rewrite !Hb]. destruct Hacc as [->| ->]; by rewrite ?Hc, ?Hb.
  - destruct Hacc as [->| ->]; by rewrite ?Hc, ?Hb.
Qed.

(** A train faster than the signal ahead permits is braking after at most three decisions,
    whatever state the driver was in, and keeps full brakes for as long as the readings
    stay above the band. *)
Theorem overspeed_is_braked p s inp prev n :
  is_stop_aspect (di_aspect inp) = false -> overspeed s inp ->
  (DriverAI.movement_vmax_ms inp >? DriverAI.kStoppedThresholdMs)%f32 = true ->
  (3 <= n)%nat ->
  decide_again p s inp n prev = DriverState.BRAKING /\
  let out := DriverAI.tick (decide_again p s inp n prev) p s inp in
  do_traction_kn out = f32_zero /\ do_brake_kn out = di_max_brake_kn inp.
Proof.
  intros Ha Ho Hv Hn.
  assert (decide_again p s inp n prev = DriverState.BRAKING) as Hd.
  { induction Hn as [|n Hn IH]; [by apply braking_within_three|].
    rewrite decide_again_S, IH. by apply braking_is_stable. }
  rewrite Hd. split; [done|]. rewrite tick_forces, (braking_is_stable p s inp) by done. done.
Qed.

(** What the driver of the demo locomotive sees: [a] ahead at [d] metres, a limit of 125 km/h
    and 96 kN of brakes. *)
Definition demo_input (a : SignalAspect.t) (d : Z) : DriverInput :=
  mkDriverInput a (f32_of_Z d) (f32_of_Z 125 / f_3_6)%f32 (f32_of_Z 96) SignalAspect.S2_PROCEED f_1e9.
Definition at_speed (v : float) : TrainPhysicsState := demo_state <| velocity_ms := v |>.

(** At 20 m/s and 300 m from a red signal (250 m of stopping distance with 10 % on top is
    275 m) the driver runs on; at 270 m it brakes. *)
Example driver_obeys_stop_witness :
  let v := at_speed (f32_of_Z 20) in
  do_state (DriverAI.tick DriverState.ACCELERATING demo_params v (demo_input SignalAspect.S1_STOP 300))
  = DriverState.ACCELERATING /\
  let out := DriverAI.tick DriverState.ACCELERATING demo_params v (demo_input SignalAspect.S1_STOP 270) in
  do_traction_kn out = f32_zero /\ do_brake_kn out = f32_of_Z 96.
Proof.
  split; [by vm_compute|].
  destruct (driver_obeys_stop demo_params (at_speed (f32_of_Z 20)) (demo_input SignalAspect.S1_STOP 270)
              DriverState.ACCELERATING) as (_ & _ & Hstop); [by vm_compute|].
  destruct Hstop as (Ht & Hb & _); [done|right; by vm_compute|]. by split.
Defined.

(** 30 m/s in front of a 40 km/h aspect, the train having been at rest. *)
Example overspeed_is_braked_witness :
  decide_again demo_params (at_speed (f32_of_Z 30)) (demo_input SignalAspect.S3_PROCEED_40 270) 3
    DriverState.STOPPED = DriverState.BRAKING.
Proof.
  apply (overspeed_is_braked demo_params (at_speed (f32_of_Z 30))
           (demo_input SignalAspect.S3_PROCEED_40 270) DriverState.STOPPED 3);
    [by vm_compute|repeat split; by vm_compute|by vm_compute|lia].
Defined.

(** Of the STOP aspects only S1 makes the driver stop.  In front of MS1 (shunting
    forbidden, a speed of zero) a train that creeps at up to half a metre per second cruises
    on, with traction and without brakes, however near the signal is. *)
Theorem ms1_is_passed_creeping p s inp :
  di_aspect inp = SignalAspect.MS1_STOP ->
  expected_next_speed_ms (di_next_aspect inp) = f_999 ->
  f32_ltb (di_target_speed_ms inp) f32_zero = false ->
  (velocity_ms s >? DriverAI.kSpeedBandMs)%f32 = false ->
  (velocity_ms s <? f32_zero - f_1)%f32 = false ->
  let out := DriverAI.tick DriverState.CRUISING p s inp in
  do_state out = DriverState.CRUISING /\ do_brake_kn out = f32_zero /\
  do_traction_kn out =
    f32_min (PhysicsModel.davis_resistance p (velocity_ms s) / f_1000)%f32 (max_traction_kn p).
Proof.
  intros Ha Hn Ht Hhi Hlo out. subst out. rewrite tick_forces. cbn zeta.
  assert (DriverAI.next_state DriverState.CRUISING p s inp = DriverState.CRUISING) as ->; [|done].
  unfold DriverAI.next_state, DriverAI.advisory_brake_now, DriverAI.movement_vmax_ms.
  unfold DriverAI.above_advisory. rewrite Ha, Hn. change (is_stop_aspect SignalAspect.MS1_STOP) with false.
  change (f_999 <? f32_of_Z 998)%f32 with false. rewrite !bool_decide_false by done.
  rewrite !andb_false_r. cbn [andb].
  change (aspect_speed_ms SignalAspect.MS1_STOP) with f32_zero.
  unfold f32_min. rewrite Ht. cbn iota.
  assert ((f32_zero + DriverAI.kSpeedBandMs)%f32 = DriverAI.kSpeedBandMs) as -> by reflexivity.
  assert ((f32_zero - DriverAI.kSpeedBandMs * f_2)%f32 = (f32_zero - f_1)%f32) as -> by (vm_compute; reflexivity).
  by rewrite Hhi, Hlo.
Qed.

Example ms1_is_passed_creeping_witness :
  let out := DriverAI.tick DriverState.CRUISING demo_params (at_speed DriverAI.kSpeedBandMs)
               (demo_input SignalAspect.MS1_STOP 0) in
  do_state out = DriverState.CRUISING /\ do_brake_kn out = f32_zero.
Proof.
  destruct (ms1_is_passed_creeping demo_params (at_speed DriverAI.kSpeedBandMs)
              (demo_input SignalAspect.MS1_STOP 0)) as (Hs & Hb & _); [by vm_compute..|].
  by split.
Defined.
