(* ===== verification/TrainSim.v ===== *)
(** * TrainSim: one simulated train

    [engine/include/engine/sim/train_sim.hpp], [engine/src/train_sim.cpp] and
    the vehicle data of [engine/core/fleet_registry.hpp].  A train is its
    state plus three collaborators, the virtual interfaces of the source,
    which are the three classes below; the default ones are the driver
    automaton, the physics model and a sink that ignores crossings. *)
From S2P Require Import Prelude Float32 Types Physics.
From Stdlib Require Import Ascii.
Local Open Scope Z_scope.

(** ** Data *)

(* SRC engine/include/engine/core/fleet_registry.hpp 43-48 DavisCoefficients *)
Record DavisCoefficients := mkDavisCoefficients { dv_a : float; dv_b : float; dv_c : float }.

(* SRC engine/include/engine/core/fleet_registry.hpp 87-111 Vehicle *)
Record Vehicle := mkVehicle {
  veh_uid : UID;
  veh_pid : string;
  veh_type_uid : UID;
  veh_display_name : string;
  veh_vehicle_type : string;
  veh_vehicle_subtype : string;
  veh_length_m : float;
  veh_axle_count : Z;
  veh_mass_empty_t : float;
  veh_effective_mass_t : float;
  veh_max_speed_kmh : Z;
  veh_braking_lambda_pct : Z;
  veh_power_kw : option float;
  veh_traction_force_kn : option float;
  veh_traction_capable : bool;
  veh_traction_status : option TractionStatus.t;
  veh_multiple_coupling_capable : option bool;
  veh_davis : DavisCoefficients }.

(* SRC engine/include/engine/core/fleet_registry.hpp 125-142 TrainConsist *)
Record TrainConsist := mkTrainConsist {
  con_uid : UID;
  con_pid : string;
  con_display_name : string;
  con_train_category : TrainCategory.t;
  con_carrier_id : option UID;
  con_vehicle_uids : list UID;
  con_total_length_m : float;
  con_total_axles : Z;
  con_total_mass_t : float;
  con_consist_lambda_pct : float;
  con_max_speed_kmh : float;
  con_total_traction_kn : float;
  con_total_power_kw : float }.

(* SRC engine/include/engine/sim/train_sim.hpp 14-19 SectionCrossing *)
Record SectionCrossing := mkSectionCrossing {
  sx_from_section_uid : UID; sx_to_section_uid : UID; sx_overshoot_m : float }.

(* SRC engine/include/engine/sim/train_sim.hpp 21-38 TrainSimState *)
Record TrainSimState := mkTrainSimState {
  train_uid : UID;
  current_section_uid : UID;
  physics_params : TrainPhysicsParams;
  physics_state : TrainPhysicsState;
  driver_state : DriverState.t;
  max_brake_kn : float;
  total_axles : Z;
  total_length_m : float;
  vehicle_uids : list UID }.
#[global] Instance eta_train : Eta TrainSimState := fun s =>
  mkTrainSimState (train_uid s) (current_section_uid s) (physics_params s) (physics_state s)
    (driver_state s) (max_brake_kn s) (total_axles s) (total_length_m s) (vehicle_uids s).

(* SRC engine/include/engine/sim/train_sim.hpp 40-45 TrainSimTickInput *)
Record TrainSimTickInput := mkTrainSimTickInput {
  ti_driver_input : DriverInput; ti_section_length_m : float; ti_next_section_uid : option UID }.

(* SRC engine/include/engine/sim/train_sim.hpp 47-51 TrainSimOutput *)
Record TrainSimOutput := mkTrainSimOutput {
  to_state : TrainSimState; to_crossing : option SectionCrossing }.

(** ** The collaborators *)

(* SRC engine/include/engine/sim/train_sim.hpp 53-62 ITrainControlPolicy *)
Class ITrainControlPolicy (P : Type) := compute :
  P -> DriverState.t -> TrainPhysicsParams -> TrainPhysicsState -> DriverInput -> DriverOutput.
(* SRC engine/include/engine/sim/train_sim.hpp 64-72 IPhysicsIntegrator *)
Class IPhysicsIntegrator (I : Type) := step :
  I -> TrainPhysicsParams -> TrainPhysicsState -> float -> TrainPhysicsState.
(* SRC engine/include/engine/sim/train_sim.hpp 74-80 ITrainEventSink *)
Class ITrainEventSink (K : Type) := on_section_crossing : K -> UID -> SectionCrossing -> K.

Inductive DriverAIPolicy := mkDriverAIPolicy.
(* SRC engine/src/train_sim.cpp 41-47 DriverAIPolicy::compute *)
#[global] Instance DriverAIPolicy_compute : ITrainControlPolicy DriverAIPolicy :=
  fun _ prev_state params state input => DriverAI.tick prev_state params state input.

Inductive PhysicsModelIntegrator := mkPhysicsModelIntegrator.
(* SRC engine/src/train_sim.cpp 49-54 PhysicsModelIntegrator::step *)
#[global] Instance PhysicsModelIntegrator_step : IPhysicsIntegrator PhysicsModelIntegrator :=
  fun _ params state dt_s => PhysicsModel.integrate params state dt_s.

Inductive NullTrainEventSink := mkNullTrainEventSink.
(* SRC engine/src/train_sim.cpp 56-60 NullTrainEventSink::on_section_crossing *)
#[global] Instance NullTrainEventSink_on_section_crossing : ITrainEventSink NullTrainEventSink :=
  fun self _ _ => self.

(** ** [TrainSim] *)

Module TrainSim.
Section Ops.
Context {P I K : Type} {HP : ITrainControlPolicy P} {HI : IPhysicsIntegrator I} {HK : ITrainEventSink K}.

(* SRC engine/include/engine/sim/train_sim.hpp 105-122 TrainSim *)
Record t := mk { state_ : TrainSimState; control_policy_ : P; integrator_ : I; event_sink_ : K }.

(** Where the movement of the tick takes the train: over the end of its section, to the
    dead end, or nowhere. *)
(* SRC engine/src/train_sim.cpp 88-112 TrainSim::tick *)
Definition cross (self : t) (input : TrainSimTickInput) : t * option SectionCrossing :=
  let st := state_ self in
  let ph := physics_state st in
  let length := ti_section_length_m input in
  if (f32_zero <? length)%f32 && (position_m ph >=? length)%f32 then
    let overshoot := (position_m ph - length)%f32 in
    match ti_next_section_uid input with
    | Some next =>
        let crossing := mkSectionCrossing (current_section_uid st) next overshoot in
        let st := st <| current_section_uid := next |>
                     <| physics_state := ph <| position_m := overshoot |> |> in
        (mk st (control_policy_ self) (integrator_ self)
           (on_section_crossing (event_sink_ self) (train_uid st) crossing), Some crossing)
    | None =>
        let st := st <| physics_state := ph <| position_m := length |> <| velocity_ms := f32_zero |>
                          <| accel_ms2 := f32_zero |> <| traction_kn := f32_zero |>
                          <| brake_kn := max_brake_kn st |> |>
                     <| driver_state := DriverState.STOPPED |> in
        (mk st (control_policy_ self) (integrator_ self) (event_sink_ self), None)
    end
  else (self, None).

(** The driver decides, the physics moves the train. *)
(* SRC engine/src/train_sim.cpp 75-87 TrainSim::tick *)
Definition drive (self : t) (dt_s : float) (input : TrainSimTickInput) : t :=
  let st := state_ self in
  let driver_input := ti_driver_input input in
  let driver_input :=
    if (di_max_brake_kn driver_input <=? f32_zero)%f32
    then driver_input <| di_max_brake_kn := max_brake_kn st |> else driver_input in
  let control := compute (control_policy_ self) (driver_state st) (physics_params st)
                   (physics_state st) driver_input in
  let ph := physics_state st <| traction_kn := do_traction_kn control |>
                             <| brake_kn := do_brake_kn control |> in
  let ph := step (integrator_ self) (physics_params st) ph dt_s in
  mk (st <| physics_state := ph |> <| driver_state := do_state control |>)
    (control_policy_ self) (integrator_ self) (event_sink_ self).

(* SRC engine/src/train_sim.cpp 73-115 TrainSim::tick *)
Definition tick (self : t) (dt_s : float) (input : TrainSimTickInput) : TrainSimOutput * t :=
  let '(self, crossing) := cross (drive self dt_s input) input in
  (mkTrainSimOutput (state_ self) crossing, self).
End Ops.
Arguments t : clear implicits.

(** The train [TrainSim{initial}] builds: the default collaborators. *)
(* SRC engine/src/train_sim.cpp 62-71 TrainSim *)
Definition create (initial_state : TrainSimState) :
    t DriverAIPolicy PhysicsModelIntegrator NullTrainEventSink :=
  mk initial_state mkDriverAIPolicy mkPhysicsModelIntegrator mkNullTrainEventSink.
End TrainSim.

(** ** Forming a train *)

(** [std::toupper] in the "C" locale. *)
Definition toupper (c : ascii) : ascii :=
  let n := nat_of_ascii c in
  if (97 <=? n)%nat && (n <=? 122)%nat then ascii_of_nat (n - 32) else c.
(* SRC engine/src/train_sim.cpp 13-18 to_upper *)
Fixpoint to_upper (s : string) : string :=
  match s with
  | EmptyString => EmptyString
  | String c s => String (toupper c) (to_upper s)
  end.

(* SRC engine/src/train_sim.cpp 20-23 is_locomotive *)
Definition is_locomotive (vehicle : Vehicle) : bool :=
  bool_decide (to_upper (veh_vehicle_type vehicle) = "LOCOMOTIVE"%string).

(* SRC engine/src/train_sim.cpp 25-37 is_operational_traction_unit *)
Definition is_operational_traction_unit (vehicle : Vehicle) : bool :=
  let traction_capable :=
    veh_traction_capable vehicle || bool_decide (is_Some (veh_traction_force_kn vehicle)) ||
    bool_decide (is_Some (veh_power_kw vehicle)) in
  if negb traction_capable then false
  else match veh_traction_status vehicle with
       | None => true
       | Some status => bool_decide (status = TractionStatus.OPERATIONAL)
       end.

Definition traction_force (v : Vehicle) : float := default f32_zero (veh_traction_force_kn v).

(* SRC engine/src/train_sim.cpp 148-155 make_train_sim_state *)
Definition contribution (vehicle : Vehicle) (traction_kn : float) : VehiclePhysicsContrib :=
  mkVehiclePhysicsContrib (veh_effective_mass_t vehicle) traction_kn
    (f32_of_Z (veh_max_speed_kmh vehicle) / f_3_6)%f32
    (dv_a (veh_davis vehicle)) (dv_b (veh_davis vehicle)) (dv_c (veh_davis vehicle)).

(** One turn of the loop over the vehicles: the contributions so far and the indices of the
    operational locomotives among them. *)
(* SRC engine/src/train_sim.cpp 135-156 make_train_sim_state *)
Definition collect (acc : list VehiclePhysicsContrib * list nat) (vehicle : Vehicle) :
    list VehiclePhysicsContrib * list nat :=
  let '(contrib, locos) := acc in
  let traction_kn :=
    if is_operational_traction_unit vehicle && negb (is_locomotive vehicle)
    then traction_force vehicle else f32_zero in
  let locos :=
    if is_operational_traction_unit vehicle && is_locomotive vehicle
    then locos ++ [length contrib] else locos in
  (contrib ++ [contribution vehicle traction_kn], locos).

(** [contrib[idx].traction_kn = vehicles[idx].traction_force_kn.value_or(0)]; the indices
    come from the loop above, so none is out of range. *)
Definition set_traction (vehicles : list Vehicle) (contrib : list VehiclePhysicsContrib) (idx : nat) :
    list VehiclePhysicsContrib :=
  match vehicles !! idx with
  | Some v => alter (fun c => c <| vc_traction_kn := traction_force v |>) idx contrib
  | None => contrib
  end.

(* SRC engine/src/train_sim.cpp 158-191 make_train_sim_state *)
Definition couple (vehicles : list Vehicle) (contrib : list VehiclePhysicsContrib) (locos : list nat) :
    list VehiclePhysicsContrib :=
  match locos with
  | [] => contrib
  | [idx] => set_traction vehicles contrib idx
  | first_idx :: _ =>
      match vehicles !! first_idx with
      | Some first_locomotive =>
          let same_type := forallb (fun idx =>
            match vehicles !! idx with
            | Some v => bool_decide (veh_type_uid v = veh_type_uid first_locomotive)
            | None => false
            end) locos in
          let coupling_allowed :=
            same_type && default false (veh_multiple_coupling_capable first_locomotive) in
          if coupling_allowed then fold_left (set_traction vehicles) locos contrib
          else set_traction vehicles contrib first_idx
      | None => contrib
      end
  end.

(** [inl] is the [std::invalid_argument]. *)
(* SRC engine/src/train_sim.cpp 117-209 make_train_sim_state *)
Definition make_train_sim_state (consist : TrainConsist) (vehicles : list Vehicle)
    (initial_section_uid : UID) : string + TrainSimState :=
  if bool_decide (vehicles = [] :> list Vehicle) then
    inl "make_train_sim_state requires at least one vehicle"%string
  else if negb (length vehicles =? length (con_vehicle_uids consist))%nat then
    inl "Vehicle list size must match consist.vehicle_uids size"%string
  else
    let '(contrib, locos) := fold_left collect vehicles ([], []) in
    let params := build_train_params (couple vehicles contrib locos) in
    inr (mkTrainSimState (con_uid consist) initial_section_uid params TrainPhysicsState_default
           DriverState.STOPPED (PhysicsModel.max_brake_kn params (con_consist_lambda_pct consist))
           (con_total_axles consist) (con_total_length_m consist) (con_vehicle_uids consist)).

(** ** Runs of one train *)

(** The crossings lead from section [u] to section [v], each starting where the last ended. *)
Fixpoint chain (u : UID) (xs : list SectionCrossing) (v : UID) : Prop :=
  match xs with
  | [] => u = v
  | x :: xs => sx_from_section_uid x = u /\ chain (sx_to_section_uid x) xs v
  end.

(** What no tick changes about a train. *)
Definition identity (s : TrainSimState) :=
  (train_uid s, physics_params s, max_brake_kn s, total_axles s, total_length_m s, vehicle_uids s).

Definition moving_legally (s : TrainSimState) : Prop := speed_in_range (physics_params s) (physics_state s).

Section Runs.
Context {P K : Type} {HP : ITrainControlPolicy P} {HK : ITrainEventSink K}.
Local Notation train := (TrainSim.t P PhysicsModelIntegrator K).

Fixpoint run (self : train) (inputs : list (float * TrainSimTickInput)) : list SectionCrossing * train :=
  match inputs with
  | [] => ([], self)
  | (dt, input) :: inputs =>
      let '(out, self) := TrainSim.tick self dt input in
      let '(xs, self) := run self inputs in
      (option_list (to_crossing out) ++ xs, self)
  end.

Lemma cross_spec (self : train) input :
  let '(self', crossing) := TrainSim.cross self input in
  let st := TrainSim.state_ self in let st' := TrainSim.state_ self' in
  identity st' = identity st /\
  (f32_ltb (max_speed_ms (physics_params st)) f32_zero = false ->
   moving_legally st -> moving_legally st') /\
  match crossing with
  | Some x => sx_from_section_uid x = current_section_uid st /\
              sx_to_section_uid x = current_section_uid st' /\
              ti_next_section_uid input = Some (current_section_uid st') /\
              TrainSim.event_sink_ self' = on_section_crossing (TrainSim.event_sink_ self) (train_uid st) x
  | None => current_section_uid st' = current_section_uid st /\
            TrainSim.event_sink_ self' = TrainSim.event_sink_ self
  end.
Proof.
  unfold TrainSim.cross. destruct self as [st pol int sink]. cbn [TrainSim.state_].
  destruct (_ && _); [|done]. destruct (ti_next_section_uid input) as [next|]; [done|].
  split; [done|]. split; [|done]. intros Hp _. split; [done|exact Hp].
Qed.

Lemma drive_spec (self : train) dt input :
  let st := TrainSim.state_ self in let st' := TrainSim.state_ (TrainSim.drive self dt input) in
  identity st' = identity st /\ current_section_uid st' = current_section_uid st /\
  TrainSim.event_sink_ (TrainSim.drive self dt input) = TrainSim.event_sink_ self /\
  (f32_ltb (max_speed_ms (physics_params st)) f32_zero = false -> moving_legally st').
Proof. split_and!; try done. intros Hp. by apply integrate_in_range. Qed.

Lemma tick_spec (self : train) dt input :
  let '(out, self') := TrainSim.tick self dt input in
  let st := TrainSim.state_ self in let st' := TrainSim.state_ self' in
  to_state out = st' /\ identity st' = identity st /\
  (f32_ltb (max_speed_ms (physics_params st)) f32_zero = false -> moving_legally st') /\
  match to_crossing out with
  | Some x => sx_from_section_uid x = current_section_uid st /\
              sx_to_section_uid x = current_section_uid st' /\
              ti_next_section_uid input = Some (current_section_uid st') /\
              TrainSim.event_sink_ self' = on_section_crossing (TrainSim.event_sink_ self) (train_uid st) x
  | None => current_section_uid st' = current_section_uid st /\
            TrainSim.event_sink_ self' = TrainSim.event_sink_ self
  end.
Proof.
  unfold TrainSim.tick. pose proof (cross_spec (TrainSim.drive self dt input) input) as Hc.
  pose proof (drive_spec self dt input) as (Hid & Hcur & Hsink & Hv).
  destruct (TrainSim.cross _ input) as [self' crossing]. cbn zeta in *. cbn [to_state to_crossing].
  destruct Hc as (Hid' & Hv' & Hx). rewrite Hid in Hid'.
  assert (physics_params (TrainSim.state_ (TrainSim.drive self dt input)) =
          physics_params (TrainSim.state_ self)) as Hpp by done.
  assert (train_uid (TrainSim.state_ (TrainSim.drive self dt input)) =
          train_uid (TrainSim.state_ self)) as Hu by done.
  rewrite Hcur, Hsink, Hu in Hx. split_and!; [done..| |done].
  intros Hp. apply Hv'; [by rewrite Hpp|by apply Hv].
Qed.

(** C38: along any run of a train, whatever its driver and the inputs, its identity, mass and
    axle count never change, its speed stays within the range of the consist, every section it
    enters was the next section of some tick, the crossings form one unbroken path from its
    first section to its last, and its event sink has seen exactly these crossings, in order. *)
Theorem train_run_invariant (self : train) inputs :
  f32_ltb (max_speed_ms (physics_params (TrainSim.state_ self))) f32_zero = false ->
  moving_legally (TrainSim.state_ self) ->
  let '(xs, self') := run self inputs in
  let st := TrainSim.state_ self in let st' := TrainSim.state_ self' in
  identity st' = identity st /\ moving_legally st' /\
  chain (current_section_uid st) xs (current_section_uid st') /\
  Forall (fun x => Some (sx_to_section_uid x) ∈ ((fun i => ti_next_section_uid i.2) <$> inputs)) xs /\
  TrainSim.event_sink_ self' =
    fold_left (fun k x => on_section_crossing k (train_uid st) x) xs (TrainSim.event_sink_ self).
Proof.
  revert self. induction inputs as [|[dt input] inputs IH]; intros self Hp Hv.
  { cbn [run]. by split_and!. }
  cbn [run]. pose proof (tick_spec self dt input) as Ht.
  destruct (TrainSim.tick self dt input) as [out self1]. destruct Ht as (_ & Hid & Hv1 & Hx).
  assert (physics_params (TrainSim.state_ self1) = physics_params (TrainSim.state_ self)) as Hpp
    by (by injection Hid).
  assert (train_uid (TrainSim.state_ self1) = train_uid (TrainSim.state_ self)) as Hu by (by injection Hid).
  specialize (IH self1). rewrite Hpp in IH. specialize (IH Hp (Hv1 Hp)).
  destruct (run self1 inputs) as [xs self2]. destruct IH as (Hid2 & Hv2 & Hch & Hall & Hk).
  rewrite Hu in Hk. split_and!; [congruence|done|..].
  - destruct (to_crossing out) as [x|]; [|by destruct Hx as [<- _]].
    destruct Hx as (Hf & Ht & _). split; [done|]. by rewrite Ht.
  - apply Forall_app. split.
    + destruct (to_crossing out) as [x|]; [|constructor]. destruct Hx as (_ & Ht & Hn & _).
      apply Forall_singleton. rewrite Ht, <- Hn. by left.
    + eapply Forall_impl; [exact Hall|]. intros x. cbn. by right.
  - destruct (to_crossing out) as [x|]; cbn; [|by destruct Hx as [_ <-]].
    destruct Hx as (_ & _ & _ & <-). done.
Qed.
End Runs.

(** A train 10 m short of the end of a 50 m section, at 20 m/s and with the road clear. *)
Definition demo_train : TrainSimState :=
  mkTrainSimState (mkUID 9001) (mkUID 101) demo_params (at_speed (f32_of_Z 20)) DriverState.CRUISING
    (f32_of_Z 96) 4 (f32_of_Z 19) [mkUID 9101].
Definition demo_tick_input (length : Z) (next : option UID) : TrainSimTickInput :=
  mkTrainSimTickInput (demo_input SignalAspect.S2_PROCEED 1000) (f32_of_Z length) next.

(** A sink that records what it is told. *)
Definition recorder : ITrainEventSink (list (UID * SectionCrossing)) := fun k u x => k ++ [(u, x)].

(** Eleven ticks: the train crosses into section 102 on the tenth or eleventh, and no other
    section is entered. *)
Example train_run_invariant_witness :
  let self := @TrainSim.mk DriverAIPolicy PhysicsModelIntegrator (list (UID * SectionCrossing))
                demo_train mkDriverAIPolicy mkPhysicsModelIntegrator [] in
  let inputs := replicate 11 (f32_lit 5 2, demo_tick_input 50 (Some (mkUID 102))) in
  let r := run (HK := recorder) self inputs in
  length r.1 = 1%nat /\ chain (mkUID 101) r.1 (mkUID 102) /\
  (fun k => (k.1, sx_to_section_uid k.2)) <$> TrainSim.event_sink_ r.2 = [(mkUID 9001, mkUID 102)].
Proof.
  intros self inputs r.
  assert (length r.1 = 1%nat) as Hl by (vm_compute; reflexivity).
  assert ((fun k => (k.1, sx_to_section_uid k.2)) <$> TrainSim.event_sink_ r.2
          = [(mkUID 9001, mkUID 102)]) as Hk by (vm_compute; reflexivity).
  assert (current_section_uid (TrainSim.state_ r.2) = mkUID 102) as Hc by (vm_compute; reflexivity).
  pose proof (train_run_invariant (HK := recorder) self inputs) as H.
  split; [done|]. split; [|done]. revert Hc. change (run (HK := recorder) self inputs) with r in H.
  destruct r as [xs self']. intros <-. apply H; [by vm_compute|split; by vm_compute].
Defined.

(** ** Which vehicles drive

    The rule the coupling code implements: a powered wagon always pulls; of the
    operational locomotives the first pulls, and the others only when all are of
    its type and that type runs in multiple. *)
Definition powered (v : Vehicle) : bool := is_operational_traction_unit v && is_locomotive v.
Definition leader (vs : list Vehicle) : option (nat * Vehicle) := list_find powered vs.
Definition in_multiple (vs : list Vehicle) : bool :=
  match leader vs with
  | Some (_, l) =>
      forallb (fun v => negb (powered v) || bool_decide (veh_type_uid v = veh_type_uid l)) vs &&
      default false (veh_multiple_coupling_capable l)
  | None => false
  end.
Definition tractive (vs : list Vehicle) (i : nat) (v : Vehicle) : float :=
  if is_operational_traction_unit v && negb (is_locomotive v) then traction_force v
  else if powered v && (in_multiple vs || bool_decide (fst <$> leader vs = Some i))
  then traction_force v else f32_zero.

(** The positions of the operational locomotives, counted from [n]. *)
Fixpoint positions (n : nat) (vs : list Vehicle) : list nat :=
  match vs with
  | [] => []
  | v :: vs => (if powered v then [n] else []) ++ positions (S n) vs
  end.

Definition base_contribution (v : Vehicle) : VehiclePhysicsContrib :=
  contribution v (if is_operational_traction_unit v && negb (is_locomotive v)
                  then traction_force v else f32_zero).

Lemma collect_spec vs c0 l0 :
  fold_left collect vs (c0, l0) = (c0 ++ (base_contribution <$> vs), l0 ++ positions (length c0) vs).
Proof.
  revert c0 l0. induction vs as [|v vs IH]; intros c0 l0; cbn [fold_left fmap list_fmap positions].
  - by rewrite !app_nil_r.
  - unfold collect at 2. rewrite IH, length_app, Nat.add_1_r, <-!app_assoc. f_equal.
    unfold powered. case_match; by rewrite <- ?app_assoc.
Qed.

Lemma positions_elem n vs i :
  i ∈ positions n vs <-> exists v, (n <= i)%nat /\ vs !! (i - n)%nat = Some v /\ powered v = true.
Proof.
  revert n. induction vs as [|v vs IH]; intros n; cbn [positions].
  { rewrite elem_of_nil. split; [done|]. intros (v & _ & H & _). by rewrite lookup_nil in H. }
  rewrite elem_of_app, IH. destruct (decide (i = n)) as [->|Hi].
  - rewrite Nat.sub_diag. split.
    + intros [H|(w & Hle & _)]; [|lia]. exists v. destruct (powered v) eqn:E; [done|by apply not_elem_of_nil in H].
    + intros (w & _ & [= <-] & ->). left. by apply list_elem_of_singleton.
  - split.
    + intros [H|(w & Hle & Hw & Hp)].
      * destruct (powered v); [by apply list_elem_of_singleton in H|by apply not_elem_of_nil in H].
      * exists w. split; [lia|]. by replace (i - n)%nat with (S (i - S n))%nat by lia.
    + intros (w & Hle & Hw & Hp). right. exists w. split; [lia|].
      by replace (i - n)%nat with (S (i - S n))%nat in Hw by lia.
Qed.

Lemma positions_head n vs :
  head (positions n vs) = (fun p => (n + p.1)%nat) <$> leader vs.
Proof.
  unfold leader. revert n. induction vs as [|v vs IH]; intros n; [done|]. cbn [positions list_find].
  destruct (decide (powered v)) as [E|E].
  - apply Is_true_true in E. rewrite E. cbn. f_equal. lia.
  - apply Is_true_false in E. rewrite E. cbn [app]. rewrite IH.
    destruct (list_find _ vs) as [[j w]|]; cbn; [f_equal; lia|done].
Qed.

(** Setting tractions at a list of positions, seen at one position. *)
Lemma set_tractions_lookup vs idxs c i v x :
  vs !! i = Some v -> c !! i = Some x -> Forall (fun j => is_Some (vs !! j)) idxs ->
  fold_left (set_traction vs) idxs c !! i =
  Some (if bool_decide (i ∈ idxs) then x <| vc_traction_kn := traction_force v |> else x).
Proof.
  intros Hv Hx Hall. revert c x Hx. induction Hall as [|j idxs [w Hw] _ IH]; intros c x Hx; cbn [fold_left].
  { by rewrite Hx. }
  unfold set_traction at 2. rewrite Hw. destruct (decide (i = j)) as [->|Hij].
  - simplify_eq. rewrite (IH _ (x <| vc_traction_kn := traction_force v |>)).
    + rewrite (bool_decide_true (j ∈ j :: idxs)) by (by left). by case_bool_decide.
    + by rewrite list_lookup_alter_eq, Hx.
  - rewrite (IH _ x) by (by rewrite list_lookup_alter_ne). f_equal.
    rewrite (bool_decide_ext (i ∈ j :: idxs) (i ∈ idxs)); [done|]. rewrite elem_of_cons. tauto.
Qed.

(** The locomotives that [couple] gives their traction to. *)
Definition pulling (vs : list Vehicle) : list nat :=
  if in_multiple vs then positions 0 vs else option_list (head (positions 0 vs)).

Lemma same_type_spec vs l :
  forallb (fun idx => match vs !! idx with
                      | Some v => bool_decide (veh_type_uid v = veh_type_uid l)
                      | None => false
                      end) (positions 0 vs) =
  forallb (fun v => negb (powered v) || bool_decide (veh_type_uid v = veh_type_uid l)) vs.
Proof.
  apply eq_bool_prop_intro. rewrite !forallb_True, !Forall_forall. split.
  - intros H v [i Hi]%list_elem_of_lookup. destruct (powered v) eqn:E; [|done].
    specialize (H i). rewrite Hi in H. apply H, positions_elem. exists v.
    rewrite Nat.sub_0_r. split_and!; [lia|done..].
  - intros H i (v & _ & Hv & Hp)%positions_elem. rewrite Nat.sub_0_r in Hv. rewrite Hv.
    specialize (H v (list_elem_of_lookup_2 _ _ _ Hv)). by rewrite Hp in H.
Qed.

Lemma couple_pulling vs c : couple vs c (positions 0 vs) = fold_left (set_traction vs) (pulling vs) c.
Proof.
  unfold pulling, in_multiple, couple. pose proof (positions_head 0 vs) as Hh.
  destruct (leader vs) as [[idx l]|] eqn:El; cbn in Hh.
  2:{ destruct (positions 0 vs); done. }
  apply list_find_Some in El as (Hidx & _ & _).
  rewrite <- same_type_spec. destruct (positions 0 vs) as [|i [|j js]] eqn:Ep; [done|..].
  - injection Hh as ->. by case_match.
  - injection Hh as ->. rewrite Hidx. by case_match.
Qed.

Lemma pulling_elem vs i v :
  vs !! i = Some v ->
  bool_decide (i ∈ pulling vs) = powered v && (in_multiple vs || bool_decide (fst <$> leader vs = Some i)).
Proof.
  intros Hv. apply eq_bool_prop_intro. rewrite bool_decide_spec, andb_True, orb_True, bool_decide_spec.
  assert (i ∈ positions 0 vs <-> powered v) as Hpos.
  { rewrite positions_elem, Nat.sub_0_r. split.
    - intros (w & _ & Hw & Hp). simplify_eq. by apply Is_true_true.
    - intros Hp%Is_true_true. exists v. split_and!; [lia|done..]. }
  unfold pulling. destruct (in_multiple vs); [cbn; tauto|].
  rewrite positions_head. destruct (leader vs) as [[j w]|] eqn:El; cbn.
  - rewrite list_elem_of_singleton. apply list_find_Some in El as (Hj & Hp & _). split.
    + intros ->. simplify_eq. auto.
    + by intros [_ [[]|[= ->]]].
  - split; [by intros ?%not_elem_of_nil|by intros [_ [[]|]]].
Qed.

Lemma couple_spec vs :
  couple vs (base_contribution <$> vs) (positions 0 vs) =
  imap (fun i v => contribution v (tractive vs i v)) vs.
Proof.
  rewrite couple_pulling. apply list_eq. intros i. rewrite list_lookup_imap.
  destruct (vs !! i) as [v|] eqn:Hv; cbn.
  - rewrite (set_tractions_lookup vs _ _ i v (base_contribution v)); [|done|by rewrite list_lookup_fmap, Hv|].
    + f_equal. rewrite (pulling_elem vs i v Hv). unfold tractive, base_contribution, powered.
      by destruct (is_operational_traction_unit v), (is_locomotive v), (in_multiple vs), (bool_decide _).
    + apply Forall_forall. intros j Hj. assert (j ∈ positions 0 vs) as Hj'.
      { revert Hj. unfold pulling. case_match; [done|]. destruct (positions 0 vs); cbn; [done|].
        intros ->%list_elem_of_singleton. by left. }
      apply positions_elem in Hj' as (w & _ & Hw & _). rewrite Nat.sub_0_r in Hw. by exists w.
  - assert (forall c, length c = length vs ->
              length (fold_left (set_traction vs) (pulling vs) c) = length vs) as Hlen.
    { induction (pulling vs) as [|j js IH]; intros c Hc; [done|]. cbn [fold_left]. apply IH.
      unfold set_traction. case_match; [by rewrite length_alter|done]. }
    apply lookup_ge_None. rewrite Hlen by (by rewrite length_fmap). by apply lookup_ge_None.
Qed.

(** Forming a train succeeds exactly on a non-empty vehicle list of the length the consist
    declares.  The train stands still with zero forces; its mass, resistance and speed limit
    add up over the vehicles, and its traction is what the coupling rule allows: powered
    wagons pull, the first operational locomotive pulls, the other operational locomotives
    pull only in multiple, and nothing else does. *)
Theorem make_train_sim_state_spec consist vs u :
  match make_train_sim_state consist vs u with
  | inr st =>
      vs <> [] /\ length vs = length (con_vehicle_uids consist) /\
      current_section_uid st = u /\ physics_state st = TrainPhysicsState_default /\
      driver_state st = DriverState.STOPPED /\ train_uid st = con_uid consist /\
      vehicle_uids st = con_vehicle_uids consist /\ total_axles st = con_total_axles consist /\
      physics_params st = build_train_params (imap (fun i v => contribution v (tractive vs i v)) vs) /\
      max_brake_kn st = PhysicsModel.max_brake_kn (physics_params st) (con_consist_lambda_pct consist)
  | inl _ => vs = [] \/ length vs <> length (con_vehicle_uids consist)
  end.
Proof.
  unfold make_train_sim_state. case_bool_decide as Hnil; [by left|].
  destruct (Nat.eqb_spec (length vs) (length (con_vehicle_uids consist))) as [Hl|Hl]; cbn [negb]; [|by right].
  pose proof (collect_spec vs [] []) as Hc. cbn [app length] in Hc. rewrite Hc.
  pose proof (couple_spec vs) as Hs. cbn zeta. split_and!; try done. cbn [physics_params].
  by rewrite Hs.
Qed.

Definition demo_vehicle (u type : Z) (kind : string) (coupling : bool) (status : TractionStatus.t) : Vehicle :=
  mkVehicle (mkUID u) "" (mkUID type) "" kind "ELECTRIC" (f32_of_Z 19) 4 (f32_of_Z 120) (f32_of_Z 120) 125 80
    None (Some (f32_of_Z 280)) true (Some status) (Some coupling)
    (mkDavisCoefficients f32_zero f32_zero f32_zero).

(** Two locomotives of a type that does not run in multiple, a defective one in front. *)
Example tractive_demo :
  let vs := [demo_vehicle 1 7 "Locomotive" false TractionStatus.DEFECTIVE;
             demo_vehicle 2 7 "locomotive" false TractionStatus.OPERATIONAL;
             demo_vehicle 3 7 "LOCOMOTIVE" false TractionStatus.OPERATIONAL] in
  imap (tractive vs) vs = [f32_zero; f32_of_Z 280; f32_zero].
Proof. vm_compute. reflexivity. Qed.
