(* ===== verification/Fleet.v ===== *)
(** * Fleet: the trains of a session

    [engine/include/engine/core/train_fleet.hpp], [fleet_command.hpp] and
    [engine/src/train_fleet.cpp].  The fleet is a list of trains; an operation
    threads the world it mutates and the vectors it appends to, which is the
    record [Effects]. *)
From S2P Require Import Prelude Float32 Types Commands Track World Demo Changes Physics TrainSim.
Local Open Scope Z_scope.

(** The train as [TrainSim{initial}] builds it. *)
Notation Train := (TrainSim.t DriverAIPolicy PhysicsModelIntegrator NullTrainEventSink).

(* SRC engine/include/engine/core/train_fleet.hpp 31-40 TrainEntry *)
Record TrainEntry := mkTrainEntry {
  te_sim : Train; te_from_uid : UID; te_pending_boundary_removal : bool }.
#[global] Instance eta_entry : Eta TrainEntry := fun e =>
  mkTrainEntry (te_sim e) (te_from_uid e) (te_pending_boundary_removal e).

(* SRC engine/include/engine/core/train_fleet.hpp 45-56 NextSectionInfo *)
Record NextSectionInfo := mkNextSectionInfo {
  nsi_section_uid : option UID;
  nsi_from_uid : UID;
  nsi_is_boundary_crossing : bool;
  nsi_trailed_switch_uid : option UID }.
Definition NextSectionInfo_default : NextSectionInfo := mkNextSectionInfo None UID_zero false None.

(* SRC engine/include/engine/core/fleet_command.hpp 20-31 FleetCommand *)
Inductive FleetCommand : Type :=
| SpawnRequest (initial : TrainSimState) (from_uid : UID)
| DespawnRequest (train_uid : UID).

(** What an operation writes: the world, and the change and PIP event vectors. *)
Record Effects := mkEffects {
  fx_state : EngineState.t; fx_changes : list DeviceStateChange; fx_pips : list PipEvent }.
#[global] Instance eta_fx : Eta Effects := fun f =>
  mkEffects (fx_state f) (fx_changes f) (fx_pips f).

Definition te_state (e : TrainEntry) : TrainSimState := TrainSim.state_ (te_sim e).

(* SRC engine/src/train_fleet.cpp 19-22 ahead_port *)
Definition ahead_port (section : TrackSection) (from_uid : UID) : TrackPort :=
  if decide (tp_neighbor_uid (ts_side_a section) = from_uid) then ts_side_b section
  else ts_side_a section.

(* SRC engine/src/train_fleet.cpp 38-45 make_train_slot *)
Definition make_train_slot (train_uid : UID) : TrainSlot :=
  mkTrainSlot (pretty (uid_instance train_uid)) false false EntrySide.LEFT.

(** The leg of [sw] by which a train coming from [current_uid] leaves, and whether it trails
    the switch open. *)
(* SRC engine/src/train_fleet.cpp 156-176 TrainFleet::resolve_next_section *)
Definition switch_exit (sw : Switch) (current_uid : UID) : UID * option UID :=
  if decide (leg_neighbor_uid (sw_trunk sw) = current_uid) then
    (if decide (sw_position sw = SwitchPosition.STRAIGHT) then leg_neighbor_uid (sw_straight sw)
     else leg_neighbor_uid (sw_divergent sw), None)
  else
    let trailed :=
      bool_decide (leg_neighbor_uid (sw_straight sw) = current_uid) &&
      negb (bool_decide (sw_position sw = SwitchPosition.STRAIGHT)) ||
      bool_decide (leg_neighbor_uid (sw_divergent sw) = current_uid) &&
      negb (bool_decide (sw_position sw = SwitchPosition.DIVERGENT)) in
    (leg_neighbor_uid (sw_trunk sw), if trailed then Some (sw_uid sw) else None).

Section View.
Context {V : Type} {SV : StateView V}.

(* SRC engine/src/train_fleet.cpp 134-190 TrainFleet::resolve_next_section *)
Definition resolve_next_section (state : V) (current_uid from_uid : UID) : NextSectionInfo :=
  match find_track_section state current_uid with
  | None => NextSectionInfo_default
  | Some current =>
      let next_uid := tp_neighbor_uid (ahead_port current from_uid) in
      if value next_uid =? 0 then NextSectionInfo_default
      else
        match find_track_section state next_uid with
        | Some _ => mkNextSectionInfo (Some next_uid) current_uid false None
        | None =>
            match find_switch state next_uid with
            | Some sw =>
                if decide (sw_position sw = SwitchPosition.MOVING) then NextSectionInfo_default
                else
                  let '(exit_uid, trailed_uid) := switch_exit sw current_uid in
                  if value exit_uid =? 0 then NextSectionInfo_default
                  else mkNextSectionInfo (Some exit_uid) next_uid false trailed_uid
            | None => mkNextSectionInfo None UID_zero true None
            end
        end
  end.

(** The aspect of the first known signal. *)
Fixpoint first_signal_aspect (state : V) (uids : list UID) : SignalAspect.t :=
  match uids with
  | [] => SignalAspect.S2_PROCEED
  | u :: uids =>
      match find_signal state u with
      | Some sig => sig_current_aspect sig
      | None => first_signal_aspect state uids
      end
  end.

(* SRC engine/src/train_fleet.cpp 192-202 TrainFleet::ahead_signal_aspect *)
Definition ahead_signal_aspect (state : V) (section : TrackSection) (from_uid : UID) : SignalAspect.t :=
  first_signal_aspect state (tp_signal_uids (ahead_port section from_uid)).
End View.

Definition occupancy_change (u : UID) (occ : TrackOccupancy.t) (axles : Z) (train : UID) : DeviceStateChange :=
  DTrackSectionOccupancy (mkTrackSectionOccupancyChange u occ axles train).

Module TrainFleet.
(* SRC engine/include/engine/core/train_fleet.hpp 60-138 TrainFleet *)
Definition t : Type := list TrainEntry.

(* SRC engine/include/engine/core/train_fleet.hpp 67-67 TrainFleet::TICK_DT_S *)
Definition TICK_DT_S : float := f32_lit 5 2.

(* SRC engine/src/train_fleet.cpp 28-31 TrainFleet::add_train *)
Definition add_train (self : t) (initial : TrainSimState) (from_uid : UID) : t :=
  self ++ [mkTrainEntry (TrainSim.create initial) from_uid false].

(** The first component is the reason of a refusal. *)
(* SRC engine/src/train_fleet.cpp 49-79 TrainFleet::spawn *)
Definition spawn (self : t) (fx : Effects) (initial : TrainSimState) (from_uid : UID) :
    option string * t * Effects :=
  let section_uid := current_section_uid initial in
  match EngineState.find_track_section (fx_state fx) section_uid with
  | None =>
      (Some ("initial section " +:+ pretty (value section_uid) +:+ " not found")%string, self, fx)
  | Some section =>
      if decide (ts_occupancy section = TrackOccupancy.FREE) then
        let train := train_uid initial in
        let axles := total_axles initial in
        (None, self ++ [mkTrainEntry (TrainSim.create initial) from_uid false],
         mkEffects
           (EngineState.apply_track_section_occupancy (fx_state fx) section_uid
              TrackOccupancy.OCCUPIED axles)
           (fx_changes fx ++ [occupancy_change section_uid TrackOccupancy.OCCUPIED axles train])
           (fx_pips fx ++ [mkPipEvent section_uid (ts_station_uid section) TrackOccupancy.OCCUPIED
                             (Some (make_train_slot train)) false]))
      else (Some ("initial section " +:+ ts_pid section +:+ " is not free")%string, self, fx)
  end.

(** Free section [u]: the world, the change and the PIP event. *)
Definition release (fx : Effects) (u : UID) (section : TrackSection) (boundary : bool) : Effects :=
  mkEffects
    (EngineState.apply_track_section_occupancy (fx_state fx) u TrackOccupancy.FREE 0)
    (fx_changes fx ++ [occupancy_change u TrackOccupancy.FREE 0 UID_zero])
    (fx_pips fx ++ [mkPipEvent u (ts_station_uid section) TrackOccupancy.FREE None boundary]).

(* SRC engine/src/train_fleet.cpp 81-111 TrainFleet::despawn *)
Definition despawn (self : t) (fx : Effects) (u : UID) : option string * t * Effects :=
  match list_find (fun e => train_uid (te_state e) = u) self with
  | None => (Some ("train " +:+ pretty (value u) +:+ " not found")%string, self, fx)
  | Some (i, e) =>
      let section_uid := current_section_uid (te_state e) in
      let fx :=
        match EngineState.find_track_section (fx_state fx) section_uid with
        | Some section => release fx section_uid section false
        | None => fx
        end in
      (None, delete i self, fx)
  end.

(* SRC engine/src/train_fleet.cpp 113-130 TrainFleet::snapshot_trains *)
Definition snapshot_trains (self : t) : list TrainSnapshot :=
  (fun e =>
     let s := te_state e in
     mkTrainSnapshot (train_uid s) (current_section_uid s)
       (velocity_ms (physics_state s) * f_3_6)%f32 (total_length_m s) (total_axles s)
       (vehicle_uids s)) <$> self.

(* SRC engine/src/train_fleet.cpp 222-236 TrainFleet::tick_all *)
Definition tick_input {MO : MapOrder} (state : EngineState.t) (section : TrackSection) (e : TrainEntry)
    (info : NextSectionInfo) : TrainSimTickInput :=
  let st := te_state e in
  let speed_limit_ms := (f32_of_Z (ts_max_speed_kmh section) / f_3_6)%f32 in
  let distance_to_signal_m :=
    f32_max f32_zero (ts_length_m section - position_m (physics_state st))%f32 in
  mkTrainSimTickInput
    (mkDriverInput (ahead_signal_aspect state section (te_from_uid e)) distance_to_signal_m
       (f32_min speed_limit_ms (max_speed_ms (physics_params st))) (max_brake_kn st)
       SignalAspect.S2_PROCEED f_1e9)
    (ts_length_m section) (nsi_section_uid info).

(** A train at the end of a section that leads out of the world frees it and is marked for
    removal. *)
(* SRC engine/src/train_fleet.cpp 241-264 TrainFleet::tick_all *)
Definition leave_world (info : NextSectionInfo) (section : TrackSection) (e : TrainEntry) (fx : Effects) :
    TrainEntry * Effects :=
  if nsi_is_boundary_crossing info && negb (te_pending_boundary_removal e) &&
     (position_m (physics_state (te_state e)) >=? ts_length_m section - f32_lit 1 3)%f32 then
    (e <| te_pending_boundary_removal := true |>,
     release fx (current_section_uid (te_state e)) section true)
  else (e, fx).

(* SRC engine/src/train_fleet.cpp 271-281 TrainFleet::tick_all *)
Definition trail_changes (info : NextSectionInfo) : list DeviceStateChange :=
  match nsi_trailed_switch_uid info with
  | Some u =>
      [DSwitchControlState (mkSwitchControlStateChange u true);
       DSwitchPosition (mkSwitchPositionChange u SwitchPosition.TRAILED_DAMAGED ChangeCause.AUTO 0)]
  | None => []
  end.

(* SRC engine/src/train_fleet.cpp 266-335 TrainFleet::tick_all *)
Definition enter_section (info : NextSectionInfo) (x : SectionCrossing) (e : TrainEntry) (fx : Effects) :
    TrainEntry * Effects :=
  let axles := total_axles (te_state e) in
  let train := train_uid (te_state e) in
  let from := sx_from_section_uid x in
  let to := sx_to_section_uid x in
  let state := EngineState.apply_track_section_occupancy (fx_state fx) from TrackOccupancy.FREE 0 in
  let state := EngineState.apply_track_section_occupancy state to TrackOccupancy.OCCUPIED axles in
  let pip u occ slot :=
    match EngineState.find_track_section state u with
    | Some sec => [mkPipEvent u (ts_station_uid sec) occ slot false]
    | None => []
    end in
  (e <| te_from_uid := nsi_from_uid info |>,
   mkEffects state
     (fx_changes fx ++ trail_changes info ++
      [occupancy_change from TrackOccupancy.FREE 0 UID_zero;
       occupancy_change to TrackOccupancy.OCCUPIED axles train])
     (fx_pips fx ++ pip from TrackOccupancy.FREE None ++
      pip to TrackOccupancy.OCCUPIED (Some (make_train_slot train)))).

(** One turn of the loop over the trains. *)
(* SRC engine/src/train_fleet.cpp 214-336 TrainFleet::tick_all *)
Definition tick_entry {MO : MapOrder} (e : TrainEntry) (fx : Effects) : TrainEntry * Effects :=
  match EngineState.find_track_section (fx_state fx) (current_section_uid (te_state e)) with
  | None => (e, fx)
  | Some section =>
      let info := resolve_next_section (fx_state fx) (current_section_uid (te_state e)) (te_from_uid e) in
      let '(output, sim) := TrainSim.tick (te_sim e) TICK_DT_S (tick_input (fx_state fx) section e info) in
      let '(e, fx) := leave_world info section (e <| te_sim := sim |>) fx in
      match to_crossing output with
      | Some x => enter_section info x e fx
      | None => (e, fx)
      end
  end.

Fixpoint tick_entries {MO : MapOrder} (self : t) (fx : Effects) : t * Effects :=
  match self with
  | [] => ([], fx)
  | e :: self =>
      let '(e, fx) := tick_entry e fx in
      let '(self, fx) := tick_entries self fx in
      (e :: self, fx)
  end.

(** The result also carries the PIP events, which the source hands to the callback if there
    are any. *)
(* SRC engine/src/train_fleet.cpp 206-347 TrainFleet::tick_all *)
Definition tick_all {MO : MapOrder} (self : t) (state : EngineState.t) : t * Effects :=
  let '(self, fx) := tick_entries self (mkEffects state [] []) in
  (filter (fun e => te_pending_boundary_removal e = false) self, fx).
End TrainFleet.

(** ** The layout: the world up to section occupancy

    Trains read the topology, the signals and the switches, and write only the
    occupancy of sections; so they do not see each other within a tick. *)
Definition bare (x : TrackSection) : TrackSection :=
  x <| ts_occupancy := TrackOccupancy.FREE |> <| ts_axle_count := 0 |>.
Definition layout (s : EngineState.t) : EngineState.t :=
  s <| EngineState.track_sections ::= fmap bare |>.

Lemma layout_occupancy s u occ n :
  layout (EngineState.apply_track_section_occupancy s u occ n) = layout s.
Proof.
  unfold layout, EngineState.apply_track_section_occupancy. destruct s. unfold field_set. cbn. f_equal.
  apply map_eq. intros k. rewrite !lookup_fmap. destruct (decide (u = k)) as [->|Hk].
  - rewrite lookup_alter_eq. by destruct (_ !! k).
  - by rewrite lookup_alter_ne.
Qed.

Section Layout.
Context {MO : MapOrder}.

Lemma find_section_layout s u :
  EngineState.find_track_section (layout s) u = bare <$> EngineState.find_track_section s u.
Proof. unfold EngineState.find_track_section, layout. cbn. by rewrite lookup_fmap. Qed.

Lemma ahead_port_bare x from : ahead_port (bare x) from = ahead_port x from.
Proof. done. Qed.

Lemma resolve_layout s c from :
  resolve_next_section (layout s) c from = resolve_next_section s c from.
Proof.
  unfold resolve_next_section.
  change (find_track_section (layout s)) with (EngineState.find_track_section (layout s)).
  change (find_track_section s) with (EngineState.find_track_section s).
  rewrite !find_section_layout. destruct (EngineState.find_track_section s c) as [x|]; [|done].
  cbn [fmap option_fmap option_map]. rewrite ahead_port_bare, find_section_layout.
  by destruct (EngineState.find_track_section s (tp_neighbor_uid (ahead_port x from))).
Qed.

Lemma first_signal_layout s us : first_signal_aspect (layout s) us = first_signal_aspect s us.
Proof. induction us as [|u us IH]; [done|]. cbn. by rewrite IH. Qed.

(** A crossing out of the world is never a crossing into a section. *)
Lemma resolve_boundary s c from :
  nsi_is_boundary_crossing (resolve_next_section (V := EngineState.t) s c from) = true ->
  nsi_section_uid (resolve_next_section s c from) = None.
Proof. unfold resolve_next_section. by repeat (case_match; simplify_eq/=). Qed.

(** ** The movement of one train

    What a train does in a tick, as a function of the layout: where it ends up
    and the occupancy writes it makes. *)
Definition write : Type := UID * (TrackOccupancy.t * Z).
Definition apply_writes (s : EngineState.t) (ws : list write) : EngineState.t :=
  fold_left (fun s w => EngineState.apply_track_section_occupancy s w.1 w.2.1 w.2.2) ws s.

Definition movement (s : EngineState.t) (e : TrainEntry) : TrainEntry * list write :=
  let here := current_section_uid (te_state e) in
  match EngineState.find_track_section s here with
  | None => (e, [])
  | Some section =>
      let info := resolve_next_section s here (te_from_uid e) in
      let '(output, sim) := TrainSim.tick (te_sim e) TrainFleet.TICK_DT_S (TrainFleet.tick_input s section e info) in
      match to_crossing output with
      | Some x =>
          (mkTrainEntry sim (nsi_from_uid info) false,
           [(sx_from_section_uid x, (TrackOccupancy.FREE, 0));
            (sx_to_section_uid x, (TrackOccupancy.OCCUPIED, total_axles (te_state e)))])
      | None =>
          let out := nsi_is_boundary_crossing info &&
                     (position_m (physics_state (TrainSim.state_ sim)) >=? ts_length_m section - f32_lit 1 3)%f32 in
          (mkTrainEntry sim (te_from_uid e) out, if out then [(here, (TrackOccupancy.FREE, 0))] else [])
      end
  end.
Definition moved (s : EngineState.t) (e : TrainEntry) : TrainEntry := (movement s e).1.
Definition writes (s : EngineState.t) (e : TrainEntry) : list write := (movement s e).2.

Lemma movement_layout s e : movement (layout s) e = movement s e.
Proof.
  unfold movement. rewrite find_section_layout.
  destruct (EngineState.find_track_section s _) as [x|]; [|done]. cbn [fmap option_fmap option_map].
  unfold TrainFleet.tick_input, ahead_signal_aspect.
  rewrite resolve_layout, first_signal_layout, ahead_port_bare. done.
Qed.

Lemma movement_same s s' e : layout s = layout s' -> movement s e = movement s' e.
Proof. intros H. by rewrite <-(movement_layout s), H, movement_layout. Qed.

Lemma layout_writes s ws : layout (apply_writes s ws) = layout s.
Proof.
  revert s. induction ws as [|w ws IH]; intros s; [done|].
  unfold apply_writes in *. cbn [fold_left]. by rewrite IH, layout_occupancy.
Qed.

Lemma tick_entry_movement e fx :
  te_pending_boundary_removal e = false ->
  (TrainFleet.tick_entry e fx).1 = moved (fx_state fx) e /\
  fx_state (TrainFleet.tick_entry e fx).2 = apply_writes (fx_state fx) (writes (fx_state fx) e).
Proof.
  intros He. unfold TrainFleet.tick_entry, moved, writes, movement.
  destruct (EngineState.find_track_section _ _) as [section|]; [|done].
  pose proof (resolve_boundary (fx_state fx) (current_section_uid (te_state e)) (te_from_uid e)) as Hb.
  set (info := resolve_next_section (fx_state fx) (current_section_uid (te_state e)) (te_from_uid e)) in *.
  set (input := TrainFleet.tick_input (fx_state fx) section e info).
  pose proof (tick_spec (te_sim e) TrainFleet.TICK_DT_S input) as Ht.
  destruct (TrainSim.tick (te_sim e) TrainFleet.TICK_DT_S input) as [out sim].
  destruct Ht as (_ & Hid & _ & Hx). unfold TrainFleet.leave_world.
  cbn [field_set te_pending_boundary_removal te_state te_sim te_from_uid]. rewrite He. cbn [negb].
  rewrite andb_true_r. destruct (to_crossing out) as [x|].
  - destruct Hx as (_ & _ & Hn & _). cbn [ti_next_section_uid input TrainFleet.tick_input] in Hn.
    destruct (nsi_is_boundary_crossing info); [by rewrite Hb in Hn|]. cbn [andb].
    unfold TrainFleet.enter_section, te_state. cbn. rewrite ?He. split; [done|].
    by injection Hid as _ _ _ -> _ _.
  - unfold te_state. cbn. destruct (nsi_is_boundary_crossing info && _); cbn; [|by rewrite ?He].
    destruct Hx as [-> _]. done.
Qed.
End Layout.

(** ** A tick of the fleet *)

(** Between ticks no train waits for its removal. *)
Definition settled (self : TrainFleet.t) : Prop :=
  Forall (fun e => te_pending_boundary_removal e = false) self.

Section Tick.
Context {MO : MapOrder}.

Lemma tick_entries_movement self fx s :
  settled self -> layout (fx_state fx) = layout s ->
  (TrainFleet.tick_entries self fx).1 = moved s <$> self /\
  fx_state (TrainFleet.tick_entries self fx).2 = apply_writes (fx_state fx) (self ≫= writes s).
Proof.
  intros Hp. revert fx. induction Hp as [|e self He Hp IH]; intros fx Hs; [done|].
  cbn [TrainFleet.tick_entries]. destruct (tick_entry_movement e fx He) as [He1 Hfx].
  destruct (TrainFleet.tick_entry e fx) as [e' fx1]. cbn [fst snd] in He1, Hfx.
  unfold moved, writes in He1, Hfx. rewrite (movement_same _ s e Hs) in He1, Hfx.
  specialize (IH fx1). destruct IH as [IH1 IH2]; [by rewrite Hfx, layout_writes|].
  destruct (TrainFleet.tick_entries self fx1) as [self' fx2]. cbn [fst snd] in *. split.
  - cbn. by rewrite IH1, He1.
  - rewrite IH2, Hfx. cbn [mbind list_bind]. unfold apply_writes, writes. by rewrite fold_left_app.
Qed.

Lemma tick_all_movement self s :
  settled self ->
  (TrainFleet.tick_all self s).1 =
    filter (fun e => te_pending_boundary_removal e = false) (moved s <$> self) /\
  fx_state (TrainFleet.tick_all self s).2 = apply_writes s (self ≫= writes s).
Proof.
  intros Hp. unfold TrainFleet.tick_all.
  pose proof (tick_entries_movement self (mkEffects s [] []) s Hp eq_refl) as [H1 H2].
  destruct (TrainFleet.tick_entries _ _) as [self' fx]. cbn [fst snd fx_state] in *.
  by rewrite H1, H2.
Qed.

Lemma writes_frame s ws :
  (apply_writes s ws) = s <| EngineState.track_sections := EngineState.track_sections (apply_writes s ws) |>.
Proof.
  revert s. induction ws as [|w ws IH]; intros s; [by destruct s|].
  unfold apply_writes in *. cbn [fold_left]. by rewrite IH at 1.
Qed.

(** The trains of a fleet move as if all at once: where each train is after a tick depends
    only on the train and the topology, signals and switches at the start of the tick, not on
    the trains before it in the fleet nor on any occupancy.  Reordering the fleet reorders the
    result, and the tick changes nothing of the world but the occupancy of sections. *)
Theorem tick_all_parallel self self' s s' :
  settled self -> self ≡ₚ self' -> layout s = layout s' ->
  let '(after, fx) := TrainFleet.tick_all self s in
  let '(after', _) := TrainFleet.tick_all self' s' in
  after ≡ₚ after' /\ settled after /\
  (forall e, e ∈ self -> te_pending_boundary_removal (moved s e) = false -> moved s e ∈ after) /\
  layout (fx_state fx) = layout s /\
  fx_state fx = s <| EngineState.track_sections := EngineState.track_sections (fx_state fx) |>.
Proof.
  intros Hp Hperm Hs.
  assert (settled self') as Hp' by (unfold settled; by rewrite <-Hperm).
  destruct (tick_all_movement self s Hp) as [H1 H2], (tick_all_movement self' s' Hp') as [H1' _].
  destruct (TrainFleet.tick_all self s) as [after fx], (TrainFleet.tick_all self' s') as [after' fx'].
  cbn [fst snd] in *. subst after after'.
  assert (moved s' <$> self' ≡ₚ moved s <$> self) as Hm.
  { rewrite Hperm. apply reflexive_eq, list_fmap_ext. intros i e _. unfold moved.
    by rewrite (movement_same s' s). }
  split_and!.
  - by rewrite Hm.
  - apply Forall_forall. intros e [He _]%list_elem_of_filter. done.
  - intros e He Hpend. apply list_elem_of_filter. split; [done|]. by apply list_elem_of_fmap_2.
  - by rewrite H2, layout_writes.
  - rewrite H2. apply writes_frame.
Qed.
End Tick.

(** ** Occupancy *)

Definition spot (e : TrainEntry) : UID := current_section_uid (te_state e).

(** The sections no train is in after an operation: those a train was in before are counted
    out, FREE with zero axles, the others are as they were. *)
Definition vacated (self : TrainFleet.t) (s : EngineState.t) (self' : TrainFleet.t) (s' : EngineState.t) : Prop :=
  forall u sec, (forall e, e ∈ self' -> spot e <> u) -> EngineState.find_track_section s u = Some sec ->
    EngineState.find_track_section s' u = Some (if decide (u ∈ spot <$> self) then bare sec else sec).

(** Trains are settled, in different sections, and each section holding a train counts
    exactly its axles. *)
Record fleet_ok (self : TrainFleet.t) (s : EngineState.t) : Prop := {
  ok_settled : settled self;
  ok_apart : NoDup (spot <$> self);
  ok_counted : forall e sec, e ∈ self -> EngineState.find_track_section s (spot e) = Some sec ->
    ts_occupancy sec = TrackOccupancy.OCCUPIED /\ ts_axle_count sec = total_axles (te_state e) }.

Section Occupancy.
Context {MO : MapOrder}.

(** The last of the writes to section [u]. *)
Fixpoint last_write (u : UID) (ws : list write) : option (TrackOccupancy.t * Z) :=
  match ws with
  | [] => None
  | (u', w) :: ws =>
      match last_write u ws with
      | Some w => Some w
      | None => if decide (u' = u) then Some w else None
      end
  end.
Definition written (w : option (TrackOccupancy.t * Z)) (x : TrackSection) : TrackSection :=
  match w with
  | Some (occ, n) => x <| ts_occupancy := occ |> <| ts_axle_count := n |>
  | None => x
  end.

Lemma apply_writes_lookup s ws u :
  EngineState.find_track_section (apply_writes s ws) u =
  written (last_write u ws) <$> EngineState.find_track_section s u.
Proof.
  revert s. induction ws as [|[u' [occ n]] ws IH]; intros s.
  { unfold written. cbn. by destruct (EngineState.find_track_section s u). }
  unfold apply_writes in *. cbn [fold_left]. rewrite IH. cbn [last_write fst snd].
  unfold EngineState.find_track_section, EngineState.apply_track_section_occupancy. cbn.
  destruct (decide (u' = u)) as [->|Hu]; [|rewrite lookup_alter_ne by done; by destruct (last_write u ws)].
  rewrite lookup_alter_eq. destruct (EngineState.track_sections s !! u), (last_write u ws) as [[? ?]|]; done.
Qed.

Lemma last_write_none u ws : Forall (fun w => w.1 <> u) ws -> last_write u ws = None.
Proof. induction 1 as [|[u' w] ws Hu _ IH]; [done|]. cbn in *. by rewrite IH, decide_False. Qed.

Lemma last_write_app u ws1 ws2 :
  last_write u (ws1 ++ ws2) = match last_write u ws2 with Some w => Some w | None => last_write u ws1 end.
Proof.
  induction ws1 as [|[u' w] ws1 IH]; [cbn; by destruct (last_write u ws2)|].
  cbn [app last_write]. rewrite IH. by destruct (last_write u ws2).
Qed.

(** A train writes at most to the section it leaves and to the one it is in afterwards; the
    latter counts its axles unless it left the world. *)
Lemma writes_spec s e :
  te_pending_boundary_removal e = false ->
  Forall (fun w => w.1 = spot e \/ w.1 = spot (moved s e)) (writes s e) /\
  identity (te_state (moved s e)) = identity (te_state e) /\
  if te_pending_boundary_removal (moved s e)
  then spot (moved s e) = spot e /\ writes s e = [(spot e, (TrackOccupancy.FREE, 0))]
  else (spot (moved s e) = spot e /\ writes s e = []) \/
       writes s e = [(spot e, (TrackOccupancy.FREE, 0));
                     (spot (moved s e), (TrackOccupancy.OCCUPIED, total_axles (te_state e)))].
Proof.
  intros He. unfold moved, writes, movement, spot.
  destruct (EngineState.find_track_section s _) as [section|]; [|cbn; rewrite He; by split_and!; auto].
  set (info := resolve_next_section s (current_section_uid (te_state e)) (te_from_uid e)) in *.
  set (input := TrainFleet.tick_input s section e info).
  pose proof (tick_spec (te_sim e) TrainFleet.TICK_DT_S input) as Ht.
  destruct (TrainSim.tick (te_sim e) TrainFleet.TICK_DT_S input) as [out sim].
  destruct Ht as (_ & Hid & _ & Hx). destruct (to_crossing out) as [x|]; cbn.
  - destruct Hx as (Hf & Ht & _). rewrite Hf, Ht. split_and!; [|done|by right].
    unfold te_state in *. constructor; [by left|]. constructor; [by right|constructor].
  - destruct Hx as [Hsame _]. unfold te_state in *. cbn. rewrite Hsame.
    destruct (nsi_is_boundary_crossing info && _); split_and!; auto.
Qed.

(** No train catches up: none ends the tick where another one was or is. *)
Definition no_catching_up (s : EngineState.t) (self : list TrainEntry) : Prop :=
  forall i j ei ej, i <> j -> self !! i = Some ei -> self !! j = Some ej ->
    spot (moved s ei) <> spot ej /\ spot (moved s ei) <> spot (moved s ej).

Lemma no_catching_up_spots s (self : list TrainEntry) :
  (forall i j a b c, i <> j -> ((fun e => spot (moved s e)) <$> self) !! i = Some a ->
     (spot <$> self) !! j = Some b -> ((fun e => spot (moved s e)) <$> self) !! j = Some c ->
     a <> b /\ a <> c) ->
  no_catching_up s self.
Proof.
  intros H i j ei ej Hij Hi Hj. apply (H i j (spot (moved s ei)) (spot ej) (spot (moved s ej)) Hij).
  - by rewrite list_lookup_fmap, Hi.
  - by rewrite list_lookup_fmap, Hj.
  - by rewrite list_lookup_fmap, Hj.
Qed.

Lemma no_catching_up_tail s e self : no_catching_up s (e :: self) -> no_catching_up s self.
Proof. intros H i j ei ej Hij Hi Hj. apply (H (S i) (S j)); [lia|done..]. Qed.

Lemma no_catching_up_head s e self e' :
  no_catching_up s (e :: self) -> e' ∈ self ->
  (spot (moved s e) <> spot e' /\ spot (moved s e) <> spot (moved s e')) /\
  (spot (moved s e') <> spot e /\ spot (moved s e') <> spot (moved s e)).
Proof.
  intros H [i Hi]%list_elem_of_lookup. split.
  - by apply (H 0%nat (S i)).
  - by apply (H (S i) 0%nat).
Qed.

(** The writes of the whole tick to the section a train is in are its own. *)
Lemma fleet_last_write s self e :
  settled self -> no_catching_up s self -> e ∈ self ->
  last_write (spot (moved s e)) (self ≫= writes s) = last_write (spot (moved s e)) (writes s e).
Proof.
  intros Hp. induction Hp as [|e0 self He0 Hp IH]; intros Hn He; [by apply not_elem_of_nil in He|].
  cbn [mbind list_bind]. rewrite last_write_app. apply elem_of_cons in He as [->|He].
  - rewrite last_write_none; [done|].
    apply Forall_forall. intros w (e' & Hw & He')%list_elem_of_bind.
    destruct (writes_spec s e') as [Hall _]; [by apply (proj1 (Forall_forall _ _) Hp)|].
    destruct (no_catching_up_head s e0 self e' Hn He') as [[H1 H2] _].
    pose proof (proj1 (Forall_forall _ _) Hall w Hw) as [->| ->]; congruence.
  - rewrite IH; [|by eapply no_catching_up_tail|done].
    destruct (last_write _ (writes s e)) eqn:E; [done|]. apply last_write_none.
    destruct (writes_spec s e0 He0) as [Hall _]. eapply Forall_impl; [exact Hall|].
    destruct (no_catching_up_head s e0 self e Hn He) as [_ [H1 H2]].
    intros w [Hw|Hw]; cbn in *; congruence.
Qed.
End Occupancy.

Section Invariant.
Context {MO : MapOrder}.

Lemma occupancy_lookup s u occ n u' :
  EngineState.find_track_section (EngineState.apply_track_section_occupancy s u occ n) u' =
  written (if decide (u = u') then Some (occ, n) else None) <$> EngineState.find_track_section s u'.
Proof. exact (apply_writes_lookup s [(u, (occ, n))] u'). Qed.

Lemma spawn_result self fx initial from :
  let '(r, self', fx') := TrainFleet.spawn self fx initial from in
  let u := current_section_uid initial in
  match r with
  | None => self' = self ++ [mkTrainEntry (TrainSim.create initial) from false] /\
      (exists sec, EngineState.find_track_section (fx_state fx) u = Some sec /\ ts_occupancy sec = TrackOccupancy.FREE) /\
      fx_state fx' = EngineState.apply_track_section_occupancy (fx_state fx) u TrackOccupancy.OCCUPIED
                       (total_axles initial)
  | Some _ => self' = self /\ fx' = fx /\ forall sec,
      EngineState.find_track_section (fx_state fx) u = Some sec -> ts_occupancy sec <> TrackOccupancy.FREE
  end.
Proof.
  unfold TrainFleet.spawn. destruct (EngineState.find_track_section _ _) as [sec|] eqn:Hsec; [|done].
  case_decide as Hf; cbn; split_and!; eauto. congruence.
Qed.

Lemma spawn_ok self fx initial from self' fx' :
  fleet_ok self (fx_state fx) -> TrainFleet.spawn self fx initial from = (None, self', fx') ->
  fleet_ok self' (fx_state fx') /\ vacated self (fx_state fx) self' (fx_state fx').
Proof.
  intros [Hs Ha Hc] E. pose proof (spawn_result self fx initial from) as Hr. rewrite E in Hr.
  cbn zeta in Hr. set (u := current_section_uid initial) in *.
  destruct Hr as (-> & (sec & Esec & Hfree) & ->).
  assert (forall e, e ∈ self -> spot e <> u) as Hnew.
  { intros e He Hu. destruct (Hc e sec He) as [Hocc _]; [by rewrite Hu|]. by rewrite Hocc in Hfree. }
  split; [split|].
  - apply Forall_app. split; [done|]. by apply Forall_singleton.
  - rewrite fmap_app. apply NoDup_app. split_and!; [done| |apply NoDup_singleton].
    intros v (e & -> & He)%list_elem_of_fmap. cbn. rewrite list_elem_of_singleton. by apply Hnew.
  - intros e x [He| ->%list_elem_of_singleton]%elem_of_app; rewrite occupancy_lookup.
    + rewrite decide_False by (by apply not_eq_sym, Hnew). rewrite fmap_Some.
      intros (y & Hy & ->). cbn. by apply Hc.
    + unfold spot, te_state. cbn. rewrite decide_True by done. fold u. rewrite Esec. by intros [= <-].
  - intros v x Hv Hx. rewrite occupancy_lookup, Hx. cbn.
    rewrite (decide_False (P := u = v)) by (apply (Hv (mkTrainEntry (TrainSim.create initial) from false)), elem_of_app; right; by left).
    rewrite decide_False; [done|]. intros (e & -> & He)%list_elem_of_fmap. apply (Hv e); [|done].
    apply elem_of_app. by left.
Qed.

Lemma despawn_result self fx u :
  let '(r, self', fx') := TrainFleet.despawn self fx u in
  match r with
  | None => exists e, self ≡ₚ e :: self' /\ train_uid (te_state e) = u /\
      forall v, EngineState.find_track_section (fx_state fx') v =
        written (if decide (spot e = v) then Some (TrackOccupancy.FREE, 0) else None) <$>
          EngineState.find_track_section (fx_state fx) v
  | Some _ => self' = self /\ fx' = fx /\ forall e, e ∈ self -> train_uid (te_state e) <> u
  end.
Proof.
  unfold TrainFleet.despawn. destruct (list_find _ self) as [[i e]|] eqn:Ei.
  - apply list_find_Some in Ei as (Hi & Hu & _). exists e.
    split_and!; [by apply delete_Permutation|done|]. intros v. fold (spot e).
    destruct (EngineState.find_track_section (fx_state fx) (spot e)) as [sec|] eqn:Hsec.
    + unfold TrainFleet.release. cbn [fx_state]. apply occupancy_lookup.
    + case_decide as E; [by rewrite <-E, Hsec|]. by destruct (EngineState.find_track_section _ v).
  - split_and!; [done..|]. apply list_find_None in Ei. intros e He.
    by apply (proj1 (Forall_forall _ _) Ei).
Qed.

Lemma despawn_ok self fx u self' fx' :
  fleet_ok self (fx_state fx) -> TrainFleet.despawn self fx u = (None, self', fx') ->
  fleet_ok self' (fx_state fx') /\ vacated self (fx_state fx) self' (fx_state fx').
Proof.
  intros [Hs Ha Hc] E. pose proof (despawn_result self fx u) as Hr. rewrite E in Hr.
  destruct Hr as (e & Hperm & _ & Hl). pose proof Ha as Hapart. rewrite Hperm in Hapart. cbn in Hapart.
  apply NoDup_cons in Hapart as [Hn Ha'].
  assert (forall e', e' ∈ self' -> e' ∈ self /\ spot e <> spot e') as Hrest.
  { intros e' He'. split; [rewrite Hperm; by right|]. intros Heq. apply Hn. rewrite Heq.
    by apply list_elem_of_fmap_2. }
  split; [split|].
  - unfold settled in *. rewrite Hperm in Hs. by apply Forall_cons in Hs as [_ Hs].
  - done.
  - intros e' x He'. destruct (Hrest e' He') as [Hin Hne]. rewrite Hl, decide_False by done.
    rewrite fmap_Some. intros (y & Hy & ->). by apply Hc.
  - intros v x Hv Hx. rewrite Hl, Hx. cbn.
    assert (v ∈ spot <$> self <-> spot e = v) as Hiff.
    { rewrite Hperm. cbn. rewrite elem_of_cons. split; [|by left].
      intros [->|(e' & -> & He')%list_elem_of_fmap]; [done|]. by destruct (Hv e' He'). }
    destruct (decide (spot e = v)) as [Hd|Hd]; [rewrite decide_True by by apply Hiff|rewrite decide_False by by rewrite Hiff];
      done.
Qed.

Lemma elem_of_after self s e' :
  settled self -> e' ∈ (TrainFleet.tick_all self s).1 ->
  exists e, e ∈ self /\ e' = moved s e /\ te_pending_boundary_removal (moved s e) = false.
Proof.
  intros Hs. destruct (tick_all_movement self s Hs) as [-> _].
  intros [Hp (e & -> & He)%list_elem_of_fmap]%list_elem_of_filter. by exists e.
Qed.

Lemma tick_counted self s e sec :
  fleet_ok self s -> no_catching_up s self -> e ∈ self -> te_pending_boundary_removal (moved s e) = false ->
  EngineState.find_track_section (fx_state (TrainFleet.tick_all self s).2) (spot (moved s e)) = Some sec ->
  ts_occupancy sec = TrackOccupancy.OCCUPIED /\ ts_axle_count sec = total_axles (te_state (moved s e)).
Proof.
  intros [Hs Ha Hc] Hn He Hp. destruct (tick_all_movement self s Hs) as [_ ->].
  rewrite apply_writes_lookup, fleet_last_write by done.
  destruct (writes_spec s e) as (_ & Hid & Hw); [by apply (proj1 (Forall_forall _ _) Hs)|].
  rewrite Hp in Hw. assert (total_axles (te_state (moved s e)) = total_axles (te_state e)) as -> by (by injection Hid).
  rewrite fmap_Some. intros (x & Hx & ->). destruct Hw as [[Hsame ->]| ->].
  - cbn. apply Hc; [done|]. by rewrite <-Hsame.
  - cbn [last_write]. rewrite decide_True by done. done.
Qed.

Lemma last_write_const u w ws :
  Forall (fun x => x.1 = u -> x.2 = w) ws -> Exists (fun x => x.1 = u) ws -> last_write u ws = Some w.
Proof.
  induction 1 as [|[u' w'] ws Hw Hall IH]; [by inversion 1|]. cbn in *. intros Hex.
  destruct (last_write u ws) as [w1|] eqn:E.
  - destruct (decide (Exists (fun x => x.1 = u) ws)) as [Hex'|Hno]; [specialize (IH Hex'); congruence|].
    exfalso. rewrite last_write_none in E; [done|]. apply Forall_forall. intros x Hx Hu.
    apply Hno, Exists_exists. by exists x.
  - apply Exists_cons in Hex as [Hu|Hex]; [|specialize (IH Hex); congruence].
    rewrite decide_True by done. f_equal. by apply Hw.
Qed.

(** What a train writes to a section it is not in afterwards is FREE. *)
Lemma vacating_writes s e u w :
  te_pending_boundary_removal e = false ->
  (te_pending_boundary_removal (moved s e) = false -> spot (moved s e) <> u) ->
  w ∈ writes s e -> w.1 = u -> w.2 = (TrackOccupancy.FREE, 0).
Proof.
  intros He Hno Hw Hu. destruct (writes_spec s e He) as (_ & _ & Hsp).
  destruct (te_pending_boundary_removal (moved s e)).
  - destruct Hsp as [_ Hws]. rewrite Hws in Hw. by apply list_elem_of_singleton in Hw as ->.
  - destruct Hsp as [[_ Hws]|Hws]; rewrite Hws in Hw; [by apply not_elem_of_nil in Hw|].
    apply elem_of_cons in Hw as [->|Hw]; [done|]. apply list_elem_of_singleton in Hw as ->.
    by destruct (Hno eq_refl).
Qed.

Lemma tick_vacated self s :
  settled self -> vacated self s (TrainFleet.tick_all self s).1 (fx_state (TrainFleet.tick_all self s).2).
Proof.
  intros Hs u sec Hgone Hsec. destruct (tick_all_movement self s Hs) as [Hafter ->].
  assert (forall e', e' ∈ self -> te_pending_boundary_removal (moved s e') = false -> spot (moved s e') <> u) as Hno.
  { intros e' He' Hp'. apply Hgone. rewrite Hafter. apply list_elem_of_filter.
    split; [done|by apply list_elem_of_fmap_2]. }
  pose proof (fun e He => writes_spec s e (proj1 (Forall_forall _ _) Hs e He)) as Hw. clear Hgone Hafter.
  rewrite apply_writes_lookup, Hsec. cbn. case_decide as Hu.
  - rewrite (last_write_const u (TrackOccupancy.FREE, 0)); [done| |].
    + apply Forall_forall. intros w (e' & Hin & He')%list_elem_of_bind.
      apply (vacating_writes s e' u); [by apply (proj1 (Forall_forall _ _) Hs)|by apply Hno|done].
    + apply list_elem_of_fmap in Hu as (e & -> & He). apply Exists_exists.
      exists (spot e, (TrackOccupancy.FREE, 0)). split; [|done]. apply list_elem_of_bind. exists e.
      split; [|done]. destruct (Hw e He) as (_ & _ & Hsp). specialize (Hno e He).
      destruct (te_pending_boundary_removal (moved s e)); [destruct Hsp as [_ ->]; by left|].
      destruct Hsp as [[Hsame _]| ->]; [|by left]. rewrite Hsame in Hno. by destruct (Hno eq_refl).
  - rewrite last_write_none; [done|]. apply Forall_forall. intros w (e' & Hin & He')%list_elem_of_bind.
    destruct (Hw e' He') as (Hall & _ & Hsp).
    assert (spot e' <> u) as Hspot by (intros <-; apply Hu; by apply list_elem_of_fmap_2).
    pose proof (proj1 (Forall_forall _ _) Hall w Hin) as [->| ->]; [done|].
    specialize (Hno e' He'). destruct (te_pending_boundary_removal (moved s e')); [|by apply Hno].
    by destruct Hsp as [-> _].
Qed.

Lemma tick_ok self s :
  fleet_ok self s -> no_catching_up s self ->
  fleet_ok (TrainFleet.tick_all self s).1 (fx_state (TrainFleet.tick_all self s).2).
Proof.
  intros Hok Hn. pose proof (ok_settled _ _ Hok) as Hs. split.
  - apply Forall_forall. intros e' He'. by destruct (elem_of_after self s e' Hs He') as (e & _ & -> & Hp).
  - destruct (tick_all_movement self s Hs) as [-> _]. clear -Hn. induction self as [|e self IH]; [constructor|].
    specialize (IH (no_catching_up_tail _ _ _ Hn)). cbn [fmap list_fmap]. rewrite filter_cons.
    case_decide; [|done]. cbn. constructor; [|done].
    intros (e' & Heq & [_ (e2 & -> & He2)%list_elem_of_fmap]%list_elem_of_filter)%list_elem_of_fmap.
    by destruct (no_catching_up_head _ _ _ e2 Hn He2) as [[_ Hne] _].
  - intros e' sec He' Hsec. destruct (elem_of_after self s e' Hs He') as (e & He & -> & Hp).
    by apply (tick_counted self s e sec).
Qed.
End Invariant.


(** The demo trains: [u] in section [here] at [pos] metres and 20 m/s, four axles. *)
Definition demo_spawn (u : Z) (here : UID) (pos : float) : TrainSimState :=
  demo_train <| train_uid := mkUID u |> <| current_section_uid := here |>
             <| physics_state ::= fun ph => ph <| position_m := pos |> |>.
(** A spawn that is known to succeed. *)
Definition spawned (fx : TrainFleet.t * Effects) (initial : TrainSimState) (from : UID) : TrainFleet.t * Effects :=
  let '(_, self, fx) := TrainFleet.spawn fx.1 fx.2 initial from in (self, fx).

Lemma spawned_ok f initial from :
  fleet_ok f.1 (fx_state f.2) ->
  fleet_ok (spawned f initial from).1 (fx_state (spawned f initial from).2).
Proof.
  intros Hok. unfold spawned. pose proof (spawn_result f.1 f.2 initial from) as Hr.
  destruct (TrainFleet.spawn f.1 f.2 initial from) as [[[r|] self'] fx'] eqn:E.
  - by destruct Hr as (-> & -> & _).
  - by apply (spawn_ok f.1 f.2 initial from).
Qed.

Lemma fleet_ok_nil s : fleet_ok [] s.
Proof. split; [constructor|constructor|by intros e sec ?%not_elem_of_nil]. Qed.

(** One train half a metre before the end of T1, one in the middle of T4. *)
Definition demo_fleet : TrainFleet.t * Effects :=
  let f := spawned ([], mkEffects demo [] []) (demo_spawn 9001 T1 (f32_lit 4995 1)) (mkUID 1001) in
  spawned f (demo_spawn 9002 T4 (f32_of_Z 250)) (mkUID 1003).

Lemma demo_fleet_ok : fleet_ok demo_fleet.1 (fx_state demo_fleet.2).
Proof.
  apply spawned_ok, spawned_ok, fleet_ok_nil.
Qed.


(** ** What the broadcast says and the world does

    The changes an operation appends, replayed on the world it started from. *)
Definition is_occupancy (c : DeviceStateChange) : Prop :=
  match c with DTrackSectionOccupancy _ => True | _ => False end.
#[global] Instance is_occupancy_dec c : Decision (is_occupancy c).
Proof. destruct c; cbn; solve [left; done|right; intros []]. Defined.

(** The two changes that report a trailed switch. *)
Definition is_trail (c : DeviceStateChange) : Prop :=
  match c with
  | DSwitchControlState c => scsc_control_lost c = true
  | DSwitchPosition c => spc_new_position c = SwitchPosition.TRAILED_DAMAGED
  | _ => False
  end.

(** [fx'] extends [fx] with occupancies, which the world has taken, and with reports of trailed
    switches, which it has not. *)
Definition replays (fx fx' : Effects) : Prop :=
  exists cs, fx_changes fx' = fx_changes fx ++ cs /\
             fx_state fx' = apply_all (fx_state fx) (filter is_occupancy cs) /\
             Forall (fun c => is_occupancy c \/ is_trail c) cs.

Lemma replays_refl fx : replays fx fx.
Proof. exists []. by rewrite app_nil_r. Qed.

Lemma replays_trans fx1 fx2 fx3 : replays fx1 fx2 -> replays fx2 fx3 -> replays fx1 fx3.
Proof.
  intros (c1 & Hc1 & Hs1 & Hf1) (c2 & Hc2 & Hs2 & Hf2). exists (c1 ++ c2). split_and!.
  - by rewrite Hc2, Hc1, app_assoc.
  - by rewrite filter_app, apply_all_app, Hs2, Hs1.
  - by apply Forall_app.
Qed.

Lemma spawn_replays self fx initial from : replays fx (TrainFleet.spawn self fx initial from).2.
Proof.
  unfold TrainFleet.spawn. destruct (EngineState.find_track_section _ _); [|apply replays_refl].
  case_decide; [|apply replays_refl]. eexists. split_and!; [done..|]. by repeat constructor.
Qed.

Lemma release_replays fx u sec b : replays fx (TrainFleet.release fx u sec b).
Proof. eexists. split_and!; [done..|]. by repeat constructor. Qed.

Lemma despawn_replays self fx u : replays fx (TrainFleet.despawn self fx u).2.
Proof.
  unfold TrainFleet.despawn. destruct (list_find _ _) as [[i e]|]; [|apply replays_refl]. cbn.
  destruct (EngineState.find_track_section _ _); [apply release_replays|apply replays_refl].
Qed.

Section Replay.
Context {MO : MapOrder}.

Lemma tick_entry_replays e fx : replays fx (TrainFleet.tick_entry e fx).2.
Proof.
  unfold TrainFleet.tick_entry. destruct (EngineState.find_track_section _ _) as [sec|]; [|apply replays_refl].
  destruct (TrainSim.tick _ _ _) as [out sim]. unfold TrainFleet.leave_world.
  set (info := resolve_next_section _ _ _). clearbody info.
  assert (forall e fx x, replays fx (TrainFleet.enter_section info x e fx).2) as Henter.
  { intros e' fx' x. eexists. split; [done|]. cbn [fx_state TrainFleet.enter_section snd].
    rewrite filter_app. unfold TrainFleet.trail_changes. destruct (nsi_trailed_switch_uid info).
    - split; [done|]. cbn [app]. rewrite !Forall_cons, Forall_nil. cbn. tauto.
    - split; [done|]. cbn [app]. rewrite !Forall_cons, Forall_nil. cbn. tauto. }
  destruct (_ && _ && _); destruct (to_crossing out) as [x|]; cbn [snd];
    try apply Henter; try apply release_replays; [|apply replays_refl].
  eapply replays_trans; [apply release_replays|apply Henter].
Qed.

Lemma tick_entries_replays self fx : replays fx (TrainFleet.tick_entries self fx).2.
Proof.
  revert fx. induction self as [|e self IH]; intros fx; [apply replays_refl|].
  cbn. pose proof (tick_entry_replays e fx) as H. destruct (TrainFleet.tick_entry e fx) as [e' fx1].
  specialize (IH fx1). destruct (TrainFleet.tick_entries self fx1) as [self' fx2].
  by eapply replays_trans.
Qed.

Lemma tick_all_replays self s : replays (mkEffects s [] []) (TrainFleet.tick_all self s).2.
Proof.
  unfold TrainFleet.tick_all. pose proof (tick_entries_replays self (mkEffects s [] [])) as H.
  by destruct (TrainFleet.tick_entries _ _).
Qed.
End Replay.

(** ** Where the fleet and the world part *)

Section Divergence.
Context {MO : MapOrder}.

(** The stable switch that the train has ahead, if it has one. *)
Definition switch_ahead (s : EngineState.t) (e : TrainEntry) : option Switch :=
  match EngineState.find_track_section s (spot e) with
  | Some x =>
      let n := tp_neighbor_uid (ahead_port x (te_from_uid e)) in
      match EngineState.find_track_section s n, EngineState.find_switch s n with
      | None, Some sw =>
          if (value n =? 0) || bool_decide (sw_position sw = SwitchPosition.MOVING) then None else Some sw
      | _, _ => None
      end
  | None => None
  end.

Lemma switch_ahead_section s e sw :
  switch_ahead s e = Some sw -> exists x, EngineState.find_track_section s (spot e) = Some x.
Proof. unfold switch_ahead. destruct (EngineState.find_track_section s (spot e)); [by eexists|done]. Qed.

Lemma switch_ahead_resolve s e sw :
  switch_ahead s e = Some sw -> value (switch_exit sw (spot e)).1 <> 0 ->
  exists n, resolve_next_section (V := EngineState.t) s (spot e) (te_from_uid e) =
    mkNextSectionInfo (Some (switch_exit sw (spot e)).1) n false (switch_exit sw (spot e)).2.
Proof.
  intros Hsw Hexit. unfold switch_ahead in Hsw. unfold resolve_next_section.
  change (find_track_section s) with (EngineState.find_track_section s).
  change (find_switch s) with (EngineState.find_switch s).
  destruct (EngineState.find_track_section s (spot e)) as [x|]; [|done].
  destruct (EngineState.find_track_section s _); [done|].
  destruct (EngineState.find_switch s _) as [w|]; [|done].
  destruct (value _ =? 0); [done|]. case_bool_decide as Hpos; [done|]. injection Hsw as ->.
  rewrite decide_False by done. destruct (switch_exit sw (spot e)) as [u tr]. cbn in *.
  rewrite (proj2 (Z.eqb_neq _ _) Hexit). by eexists.
Qed.

(** Leaving the section over a switch, the train is at the end of the leg. *)
Lemma moved_over_switch s e sw :
  switch_ahead s e = Some sw -> value (switch_exit sw (spot e)).1 <> 0 ->
  spot (moved s e) <> spot e -> spot (moved s e) = (switch_exit sw (spot e)).1.
Proof.
  intros Hh Hexit. destruct (switch_ahead_resolve s e sw Hh Hexit) as [n Hres].
  destruct (switch_ahead_section _ _ _ Hh) as [x Hx]. unfold moved, movement. fold (spot e). rewrite Hx, Hres.
  pose proof (tick_spec (te_sim e) TrainFleet.TICK_DT_S
    (TrainFleet.tick_input s x e (mkNextSectionInfo (Some (switch_exit sw (spot e)).1) n false
       (switch_exit sw (spot e)).2))) as Ht.
  destruct (TrainSim.tick _ _ _) as [out sim]. destruct Ht as (_ & _ & _ & Ht).
  destruct (to_crossing out) as [y|]; unfold spot, te_state in *; cbn in *.
  - destruct Ht as (_ & _ & Hnext & _). by injection Hnext as ->.
  - by destruct Ht as [-> _].
Qed.

(** What a train broadcasts is in the broadcast of the tick. *)
Lemma tick_entries_changes self fx e c :
  settled self -> e ∈ self ->
  (forall fx', layout (fx_state fx') = layout (fx_state fx) -> c ∈ fx_changes (TrainFleet.tick_entry e fx').2) ->
  c ∈ fx_changes (TrainFleet.tick_entries self fx).2.
Proof.
  intros Hs. revert fx. induction Hs as [|e0 self He0 Hs IH]; intros fx He Hc; [by apply not_elem_of_nil in He|].
  cbn [TrainFleet.tick_entries]. pose proof (tick_entry_movement e0 fx He0) as [_ Hl].
  apply elem_of_cons in He as [->|He].
  - specialize (Hc fx eq_refl). destruct (TrainFleet.tick_entry e0 fx) as [e0' fx1].
    pose proof (tick_entries_replays self fx1) as (cs & Hcs & _ & _).
    destruct (TrainFleet.tick_entries self fx1) as [self' fx2]. cbn [snd fst] in *. rewrite Hcs.
    apply elem_of_app. by left.
  - destruct (TrainFleet.tick_entry e0 fx) as [e0' fx1]. cbn [snd fst] in *.
    specialize (IH fx1 He). destruct (TrainFleet.tick_entries self fx1) as [self' fx2]. cbn [snd fst] in *.
    apply IH. intros fx' Hfx'. apply Hc. by rewrite Hfx', Hl, layout_writes.
Qed.

(** A train that trails a switch open is reported to every subscriber as having damaged
    it, but the engine's own switch keeps its control and its position: the interlocking
    goes on as if nothing had happened. *)
Theorem trailed_switch_not_applied self s e sw :
  settled self -> e ∈ self -> switch_ahead s e = Some sw -> value (switch_exit sw (spot e)).1 <> 0 ->
  (switch_exit sw (spot e)).2 = Some (sw_uid sw) -> spot (moved s e) <> spot e ->
  let '(_, fx) := TrainFleet.tick_all self s in
  DSwitchControlState (mkSwitchControlStateChange (sw_uid sw) true) ∈ fx_changes fx /\
  DSwitchPosition (mkSwitchPositionChange (sw_uid sw) SwitchPosition.TRAILED_DAMAGED ChangeCause.AUTO 0)
    ∈ fx_changes fx /\
  EngineState.switches (fx_state fx) = EngineState.switches s.
Proof.
  intros Hs He Hh Hexit Htr Hmove.
  assert (forall c, c ∈ TrainFleet.trail_changes (mkNextSectionInfo None UID_zero false (Some (sw_uid sw))) ->
    forall fx', layout (fx_state fx') = layout s -> c ∈ fx_changes (TrainFleet.tick_entry e fx').2) as Hentry.
  { intros c Hc fx' Hl.
    assert (moved (fx_state fx') e = moved s e) as Hm by (unfold moved; by rewrite (movement_same _ s e Hl)).
    rewrite <-Hm in Hmove. clear Hm. destruct (switch_ahead_resolve s e sw Hh Hexit) as [n Hres].
    destruct (switch_ahead_section _ _ _ Hh) as [x Hx].
    assert (EngineState.find_track_section (layout (fx_state fx')) (spot e) =
            EngineState.find_track_section (layout s) (spot e)) as Hsec by (by rewrite Hl).
    rewrite !find_section_layout, Hx in Hsec. rewrite <-resolve_layout, <-Hl, resolve_layout in Hres.
    unfold TrainFleet.tick_entry. unfold moved, movement in Hmove. fold (spot e) in *.
    destruct (EngineState.find_track_section (fx_state fx') (spot e)) as [y|]; [|done].
    rewrite Hres in *. set (input := TrainFleet.tick_input _ _ _ _) in *.
    pose proof (tick_spec (te_sim e) TrainFleet.TICK_DT_S input) as Ht.
    destruct (TrainSim.tick (te_sim e) TrainFleet.TICK_DT_S input) as [out sim].
    destruct Ht as (_ & _ & _ & Ht). cbn [nsi_is_boundary_crossing andb TrainFleet.leave_world].
    destruct (to_crossing out) as [z|].
    - cbn [TrainFleet.leave_world nsi_is_boundary_crossing andb TrainFleet.enter_section snd fx_changes].
      rewrite !elem_of_app. right; left. unfold TrainFleet.trail_changes in *. cbn in *. by rewrite Htr.
    - destruct Ht as [Hsame _]. unfold spot, te_state in *. cbn in Hmove. by rewrite Hsame in Hmove. }
  pose proof (tick_all_movement self s Hs) as [_ Hst]. unfold TrainFleet.tick_all in *.
  pose proof (fun c => tick_entries_changes self (mkEffects s [] []) e c Hs He) as Hin.
  destruct (TrainFleet.tick_entries self _) as [self' fx]. cbn [snd fx_state] in *. split_and!.
  - apply Hin, Hentry. by left.
  - apply Hin, Hentry. right. by left.
  - rewrite Hst, writes_frame. done.
Qed.

(** [n] ticks of the fleet. *)
Fixpoint ticks (n : nat) (self : TrainFleet.t) (s : EngineState.t) : TrainFleet.t * EngineState.t :=
  match n with
  | O => (self, s)
  | S n => let '(self, fx) := TrainFleet.tick_all self s in ticks n self (fx_state fx)
  end.

Lemma ghost_stays n self s e :
  settled self -> e ∈ self -> EngineState.find_track_section s (spot e) = None ->
  e ∈ (ticks n self s).1 /\ layout (ticks n self s).2 = layout s.
Proof.
  revert self s. induction n as [|n IH]; intros self s Hs He Hnone; [done|]. cbn.
  destruct (tick_all_movement self s Hs) as [H1 H2].
  destruct (TrainFleet.tick_all self s) as [self' fx]. cbn [fst snd] in *.
  assert (moved s e = e) as Hsame by (unfold moved, movement; fold (spot e); by rewrite Hnone).
  destruct (IH self' (fx_state fx)) as [Hin Hl].
  - rewrite H1. apply Forall_forall. by intros y [Hy _]%list_elem_of_filter.
  - rewrite H1. apply list_elem_of_filter. split; [by apply (proj1 (Forall_forall _ _) Hs)|].
    apply list_elem_of_fmap. by exists e.
  - rewrite H2, apply_writes_lookup, Hnone. done.
  - split; [done|]. by rewrite Hl, H2, layout_writes.
Qed.

(** A switch leg that leads to another switch (a crossover) swallows trains.  A train that
    leaves its section over it frees that section and stands on an identifier that is no
    section; no later tick moves, reports or removes it. *)
Theorem crossover_swallows_train self s e sw n :
  settled self -> e ∈ self -> switch_ahead s e = Some sw -> value (switch_exit sw (spot e)).1 <> 0 ->
  EngineState.find_track_section s (switch_exit sw (spot e)).1 = None ->
  spot (moved s e) <> spot e ->
  let ghost := moved s e in
  spot ghost = (switch_exit sw (spot e)).1 /\ ghost ∈ (ticks (S n) self s).1 /\
  EngineState.find_track_section (ticks (S n) self s).2 (spot ghost) = None.
Proof.
  intros Hs He Hh Hexit Hnone Hmove ghost. subst ghost.
  pose proof (moved_over_switch s e sw Hh Hexit Hmove) as Hspot.
  destruct (writes_spec s e) as (_ & _ & Hw); [by apply (proj1 (Forall_forall _ _) Hs)|].
  assert (te_pending_boundary_removal (moved s e) = false) as Hp.
  { destruct (te_pending_boundary_removal (moved s e)); [|done]. by destruct Hw as [Hsame _]. }
  cbn [ticks]. destruct (tick_all_movement self s Hs) as [H1 H2].
  destruct (TrainFleet.tick_all self s) as [self' fx]. cbn [fst snd] in *.
  assert (EngineState.find_track_section (fx_state fx) (spot (moved s e)) = None) as Hnone'
    by (by rewrite H2, apply_writes_lookup, Hspot, Hnone).
  destruct (ghost_stays n self' (fx_state fx) (moved s e)) as [Hin Hl]; [| |done|].
  - rewrite H1. apply Forall_forall. by intros y [Hy _]%list_elem_of_filter.
  - rewrite H1. apply list_elem_of_filter. split; [done|]. by apply list_elem_of_fmap_2.
  - split_and!; [done..|]. apply (fmap_None bare). rewrite <-find_section_layout, Hl, find_section_layout.
    by rewrite Hnone'.
Qed.
End Divergence.

(** The demo station with W1 set to the crossover, and one train before the switch. *)
Definition diverging : EngineState.t := with_switch (fun sw => sw <| sw_position := SwitchPosition.DIVERGENT |>) W1 demo.
Definition entry_at (u : Z) (here from : UID) : TrainEntry :=
  mkTrainEntry (TrainSim.create (demo_spawn u here (f32_lit 4995 1))) from false.

(** Trailing W1 from T2 while it lies DIVERGENT: in the world it still lies DIVERGENT. *)
Example trailed_switch_not_applied_witness :
  let '(_, fx) := TrainFleet.tick_all [entry_at 9001 T2 (mkUID 1002)] diverging in
  DSwitchControlState (mkSwitchControlStateChange W1 true) ∈ fx_changes fx /\
  (fun sw => (sw_position sw, sw_control_lost sw)) <$> EngineState.find_switch (fx_state fx) W1
  = Some (SwitchPosition.DIVERGENT, false).
Proof.
  assert ((fun sw => (sw_uid sw, switch_exit sw T2)) <$> switch_ahead diverging (entry_at 9001 T2 (mkUID 1002))
          = Some (W1, (T1, Some W1))) as Hsw by (vm_compute; reflexivity).
  assert ((fun sw => (sw_position sw, sw_control_lost sw)) <$> EngineState.find_switch diverging W1
          = Some (SwitchPosition.DIVERGENT, false)) as Hlies by (vm_compute; reflexivity).
  assert (spot (moved diverging (entry_at 9001 T2 (mkUID 1002))) <> T2) as Hmove by (vm_compute; discriminate).
  destruct (switch_ahead diverging (entry_at 9001 T2 (mkUID 1002))) as [sw|] eqn:E; [|discriminate Hsw].
  pose proof (trailed_switch_not_applied [entry_at 9001 T2 (mkUID 1002)] diverging (entry_at 9001 T2 (mkUID 1002)) sw) as H.
  injection Hsw as Hu Hex. change (spot (entry_at 9001 T2 (mkUID 1002))) with T2 in H. rewrite Hex, Hu in H.
  specialize (H ltac:(by repeat constructor) ltac:(by left) E ltac:(done) eq_refl Hmove). revert H.
  destruct (TrainFleet.tick_all [entry_at 9001 T2 (mkUID 1002)] diverging) as [self' fx].
  intros (H1 & _ & H3). split; [exact H1|]. unfold EngineState.find_switch. rewrite H3. exact Hlies.
Defined.

(** From T1 over W1 towards W2: a minute later the train still stands on W2. *)
Example crossover_swallows_train_witness :
  let e := entry_at 9001 T1 (mkUID 1001) in
  spot (moved diverging e) = W2 /\ moved diverging e ∈ (ticks 1200 [e] diverging).1.
Proof.
  intros e.
  assert ((fun sw => switch_exit sw T1) <$> switch_ahead diverging e = Some (W2, None)) as Hsw
    by (vm_compute; reflexivity).
  assert (spot (moved diverging e) <> T1) as Hmove by (vm_compute; discriminate).
  assert (EngineState.find_track_section diverging W2 = None) as Hnone by (vm_compute; reflexivity).
  destruct (switch_ahead diverging e) as [sw|] eqn:E; [|discriminate Hsw].
  pose proof (crossover_swallows_train [e] diverging e sw 1199) as H. injection Hsw as Hex.
  change (spot e) with T1 in H. rewrite Hex in H.
  destruct (H ltac:(by repeat constructor) ltac:(by left) E ltac:(done) Hnone Hmove) as (H1 & H2 & _).
  exact (conj H1 H2).
Defined.

(** The premise that no train catches up is needed.  The train behind enters T2 in the tick
    in which the train ahead leaves it; ticked in this order, the section that holds the first
    train reads FREE with no axles, and a further train may be spawned onto it.  In the other
    order T2 is occupied: the outcome depends on the order of spawning. *)
Theorem section_reads_free_under_train :
  let behind := entry_at 9001 T1 (mkUID 1001) in let ahead := entry_at 9002 T2 W1 in
  let occupied s := EngineState.apply_track_section_occupancy
    (EngineState.apply_track_section_occupancy s T1 TrackOccupancy.OCCUPIED 4) T2 TrackOccupancy.OCCUPIED 4 in
  let look (r : TrainFleet.t * Effects) :=
    (spot <$> r.1,
     (fun x => (ts_occupancy x, ts_axle_count x)) <$> EngineState.find_track_section (fx_state r.2) T2,
     bool_decide ((TrainFleet.spawn r.1 r.2 (demo_spawn 9003 T2 (f32_of_Z 250)) W1).1.1 = None)) in
  look (TrainFleet.tick_all [behind; ahead] (occupied demo)) = ([T2], Some (TrackOccupancy.FREE, 0), true) /\
  look (TrainFleet.tick_all [ahead; behind] (occupied demo)) = ([T2], Some (TrackOccupancy.OCCUPIED, 4), false).
Proof. vm_compute. by split. Qed.

(** Occupying a free section and freeing it again leaves the world as it was. *)
Lemma occupy_release s u x occ n :
  EngineState.find_track_section s u = Some x ->
  ts_occupancy x = TrackOccupancy.FREE -> ts_axle_count x = 0 ->
  EngineState.apply_track_section_occupancy (EngineState.apply_track_section_occupancy s u occ n)
    u TrackOccupancy.FREE 0 = s.
Proof.
  intros Hx Hf Ha. unfold EngineState.apply_track_section_occupancy, EngineState.find_track_section in *.
  destruct s as [si ti bn ts sw sg de bl rt al lc]. unfold field_set. cbn in *. f_equal.
  apply map_eq. intros k. destruct (decide (k = u)) as [->|Hk].
  - rewrite !lookup_alter_eq, Hx. cbn. destruct x. cbn in *. by subst.
  - by rewrite !lookup_alter_ne.
Qed.

(** A spawn succeeds exactly on a known, free section; it then adds the train, standing where
    the request says, to the fleet and to the next snapshot, and reports exactly one occupancy.
    Despawning the train again restores the fleet, and the world too if no axles had been left
    behind on the section. *)
Theorem spawn_despawn_roundtrip self fx initial from :
  let u := current_section_uid initial in
  let '(r, self', fx') := TrainFleet.spawn self fx initial from in
  (r = None <-> exists x, EngineState.find_track_section (fx_state fx) u = Some x /\
                         ts_occupancy x = TrackOccupancy.FREE) /\
  (r = None ->
   TrainFleet.snapshot_trains self' = TrainFleet.snapshot_trains self ++
     [mkTrainSnapshot (train_uid initial) u (velocity_ms (physics_state initial) * f_3_6)%f32
        (total_length_m initial) (total_axles initial) (vehicle_uids initial)] /\
   fx_changes fx' = fx_changes fx ++
     [occupancy_change u TrackOccupancy.OCCUPIED (total_axles initial) (train_uid initial)] /\
   (Forall (fun e => train_uid (te_state e) <> train_uid initial) self ->
    let '(r2, self2, fx2) := TrainFleet.despawn self' fx' (train_uid initial) in
    r2 = None /\ self2 = self /\
    forall x, EngineState.find_track_section (fx_state fx) u = Some x -> ts_axle_count x = 0 ->
              fx_state fx2 = fx_state fx)).
Proof.
  intros u. unfold TrainFleet.spawn. fold u.
  destruct (EngineState.find_track_section (fx_state fx) u) as [x|] eqn:Hx.
  2:{ split; [|done]. split; [done|]. intros (y & Hy & _). done. }
  destruct (decide (ts_occupancy x = TrackOccupancy.FREE)) as [Hf|Hf].
  2:{ split; [|done]. split; [done|]. intros (y & Hy & Hfy). simplify_eq. }
  split; [split; [by exists x|done]|]. intros _. split_and!; [|done|].
  - unfold TrainFleet.snapshot_trains. by rewrite fmap_app.
  - intros Hfresh. unfold TrainFleet.despawn.
    assert (list_find (fun e => train_uid (te_state e) = train_uid initial)
              (self ++ [mkTrainEntry (TrainSim.create initial) from false])
            = Some (length self, mkTrainEntry (TrainSim.create initial) from false)) as ->.
    { apply list_find_Some. split_and!; [by rewrite list_lookup_middle|done|].
      intros j y Hj Hlt. rewrite lookup_app_l in Hj by done.
      by apply (proj1 (Forall_lookup _ _) Hfresh j y Hj). }
    change (current_section_uid (te_state (mkTrainEntry (TrainSim.create initial) from false))) with u.
    cbn [fx_state]. assert (EngineState.find_track_section (EngineState.apply_track_section_occupancy (fx_state fx) u
              TrackOccupancy.OCCUPIED (total_axles initial)) u <> None) as Hsome.
    { unfold EngineState.find_track_section, EngineState.apply_track_section_occupancy in *. cbn.
      by rewrite lookup_alter_eq, Hx. }
    destruct (EngineState.find_track_section (EngineState.apply_track_section_occupancy _ _ _ _) u)
      as [y|]; [|done].
    split_and!; [done|exact (eq_trans (delete_middle self [] _) (app_nil_r self))|].
    intros x' [= <-] Ha. cbn. by apply (occupy_release _ _ x).
Qed.

Example spawn_despawn_roundtrip_witness :
  let initial := demo_spawn 9003 T3 (f32_of_Z 10) in
  let r := TrainFleet.spawn demo_fleet.1 demo_fleet.2 initial W2 in
  let r2 := TrainFleet.despawn r.1.2 r.2 (mkUID 9003) in
  r.1.1 = None /\ r2.1.2 = demo_fleet.1 /\ fx_state r2.2 = fx_state demo_fleet.2.
Proof.
  intros initial r r2.
  assert (r.1.1 = None) as Hr by (vm_compute; reflexivity).
  assert (Forall (fun e => train_uid (te_state e) <> train_uid initial) demo_fleet.1) as Hf.
  { refine (bool_decide_unpack _ _). vm_compute. exact I. }
  assert ((fun x => ts_axle_count x) <$> EngineState.find_track_section (fx_state demo_fleet.2) T3 = Some 0) as Hx
    by (vm_compute; reflexivity).
  pose proof (spawn_despawn_roundtrip demo_fleet.1 demo_fleet.2 initial W2) as H. subst r2. revert Hr H.
  fold r. destruct r as [[r1 self'] fx']. intros Hr [_ H]. cbn [fst snd] in *.
  destruct (H Hr) as (_ & _ & Hd). specialize (Hd Hf). change (train_uid initial) with (mkUID 9003) in Hd.
  destruct (TrainFleet.despawn self' fx' (mkUID 9003)) as [[r2 self2] fx2].
  destruct Hd as (_ & Hself & Hst). cbn [fst snd]. split_and!; [exact Hr|exact Hself|].
  destruct (EngineState.find_track_section (fx_state demo_fleet.2) T3) as [x|] eqn:E; [|discriminate Hx].
  injection Hx as Hx. exact (Hst x E Hx).
Defined.

Lemma spawned_layout f initial from : layout (fx_state (spawned f initial from).2) = layout (fx_state f.2).
Proof.
  unfold spawned, TrainFleet.spawn. destruct (EngineState.find_track_section _ _); [|done].
  case_decide; [|done]. apply layout_occupancy.
Qed.

(** The two demo trains in either order, the second time with the sections they stand on
    reported free: the same movement. *)
Example tick_all_parallel_witness :
  let fleet := demo_fleet.1 in let s := fx_state demo_fleet.2 in
  (TrainFleet.tick_all fleet s).1 ≡ₚ (TrainFleet.tick_all (reverse fleet) demo).1 /\
  layout (fx_state (TrainFleet.tick_all fleet s).2) = layout demo.
Proof.
  intros fleet s.
  assert (layout s = layout demo) as Hl.
  { apply (eq_trans (spawned_layout _ _ _)), spawned_layout. }
  pose proof (tick_all_parallel fleet (reverse fleet) s demo (ok_settled _ _ demo_fleet_ok)
                (symmetry (reverse_Permutation fleet)) Hl) as H.
  destruct (TrainFleet.tick_all fleet s) as [after fx], (TrainFleet.tick_all (reverse fleet) demo) as [after' fx'].
  destruct H as (Hp & _ & _ & Hlay & _). cbn [fst snd]. split; [exact Hp|]. by rewrite Hlay.
Defined.
