(* ===== verification/Loop.v ===== *)
(** * Loop: the 20 Hz tick of the engine

    [engine/include/engine/core/engine_loop.hpp] and [engine/src/engine_loop.cpp],
    with the snapshot publication of [engine_snapshot.hpp].  One tick drains
    commands through the control system, runs its per-tick logic, applies fleet
    requests, ticks the trains, advances the tick counter, publishes a snapshot
    and notifies.  What the callbacks receive is the list of [Notice]s. *)
From S2P Require Import Prelude Float32 Types Commands Track World Demo Changes Queues DeviceRules Interlocking Physics TrainSim Fleet.
Local Open Scope Z_scope.

(** ** [AtomicSnapshot]: a cell, written by the engine thread, read by the others *)
Module AtomicSnapshot.
(* SRC engine/include/engine/core/engine_snapshot.hpp 68-87 AtomicSnapshot *)
Record t := mk { current_ : option EngineSnapshot.t }.
Definition create : t := mk None.
(* SRC engine/include/engine/core/engine_snapshot.hpp 74-77 AtomicSnapshot::publish *)
Definition publish (self : t) (snap : EngineSnapshot.t) : t := mk (Some snap).
(* SRC engine/include/engine/core/engine_snapshot.hpp 80-83 AtomicSnapshot::load *)
Definition load (self : t) : option EngineSnapshot.t := current_ self.
End AtomicSnapshot.

(** The calls of the callbacks, and the lines on [std::cerr]. *)
Inductive Notice : Type :=
| NNak (cmd : EnvelopedCommand) (violation : InterlockingViolation)
| NChanges (changes : list DeviceStateChange)
| NPips (events : list PipEvent)
| NLog (line : string).

Module EngineLoop.
Section Loop.
Context {MO : MapOrder} {C : Type} {CS : ControlSystem C EngineState.t}.

(** Which callbacks are set. *)
Record Callbacks := mkCallbacks { nak_cb_ : bool; changes_cb_ : bool; pip_cb_ : bool }.

(* SRC engine/include/engine/core/engine_loop.hpp 98-112 EngineLoop *)
Record t := mk {
  state_ : EngineState.t;
  control_ : C;
  queue_ : PriorityCommandQueue.t (T := EnvelopedCommand);
  snapshot_ : AtomicSnapshot.t;
  callbacks_ : Callbacks;
  train_fleet_ : TrainFleet.t;
  fleet_commands_ : EventQueue.t (T := FleetCommand);
  running_ : bool }.
#[global] Instance eta : Eta t := fun l =>
  mk (state_ l) (control_ l) (queue_ l) (snapshot_ l) (callbacks_ l) (train_fleet_ l)
    (fleet_commands_ l) (running_ l).

(* SRC engine/src/engine_loop.cpp 14-25 EngineLoop *)
Definition create (state : EngineState.t) (control : C) (queue : PriorityCommandQueue.t)
    (callbacks : Callbacks) : t :=
  mk state control queue AtomicSnapshot.create callbacks [] EventQueue.create false.

(* SRC engine/src/engine_loop.cpp 27-30 EngineLoop::add_train *)
Definition add_train (self : t) (initial : TrainSimState) (from_uid : UID) : t :=
  self <| train_fleet_ ::= fun f => TrainFleet.add_train f initial from_uid |>.

(** [None] when the queue is closed, which nothing in the engine does. *)
(* SRC engine/src/engine_loop.cpp 32-35 EngineLoop::enqueue_fleet_command *)
Definition enqueue_fleet_command (self : t) (cmd : FleetCommand) : option t :=
  q ← EventQueue.push (fleet_commands_ self) cmd; Some (self <| fleet_commands_ := q |>).

(** The flag says whether a thread is created. *)
(* SRC engine/src/engine_loop.cpp 42-48 EngineLoop::start *)
Definition start (self : t) : bool * t :=
  if running_ self then (false, self) else (true, self <| running_ := true |>).

(** The flag says whether the thread is stopped and joined. *)
(* SRC engine/src/engine_loop.cpp 50-59 EngineLoop::stop *)
Definition stop (self : t) : bool * t :=
  if running_ self then (true, self <| running_ := false |>) else (false, self).

(* SRC engine/include/engine/core/engine_loop.hpp 89-89 EngineLoop::MAX_CMDS_PER_TICK *)
Definition MAX_CMDS_PER_TICK : nat := 64.

(** What a tick accumulates beside the loop's own members. *)
Record Acc := mkAcc { acc_changes : list DeviceStateChange; acc_notices : list Notice }.
#[global] Instance eta_acc : Eta Acc := fun a => mkAcc (acc_changes a) (acc_notices a).

(** One command: refused with a NAK, or executed. *)
(* SRC engine/src/engine_loop.cpp 95-109 EngineLoop::do_tick *)
Definition handle_command (self : t) (acc : Acc) (cmd : EnvelopedCommand) : t * Acc :=
  match check_command (control_ self) (state_ self) (env_payload cmd) with
  | Some violation =>
      (self, if nak_cb_ (callbacks_ self) then acc <| acc_notices ::= fun n => n ++ [NNak cmd violation] |> else acc)
  | None =>
      let '(changes, control) := execute_command (control_ self) (state_ self) (env_payload cmd) in
      (self <| control_ := control |> <| state_ ::= fun s => apply_all s changes |>,
       if changes_cb_ (callbacks_ self) then acc <| acc_changes ::= fun c => c ++ changes |> else acc)
  end.

(** [budget] is what is left of [MAX_CMDS_PER_TICK]. *)
(* SRC engine/src/engine_loop.cpp 87-110 EngineLoop::do_tick *)
Fixpoint drain_commands (budget : nat) (self : t) (acc : Acc) : t * Acc :=
  match budget with
  | O => (self, acc)
  | S budget =>
      match PriorityCommandQueue.try_pop (queue_ self) with
      | (None, q) => (self <| queue_ := q |>, acc)
      | (Some cmd, q) =>
          let '(self, acc) := handle_command (self <| queue_ := q |>) acc cmd in
          drain_commands budget self acc
      end
  end.

(* SRC engine/src/engine_loop.cpp 112-119 EngineLoop::do_tick *)
Definition control_tick (self : t) (acc : Acc) : t * Acc :=
  let next_tick_num := u64 (current_tick (state_ self) + 1) in
  let '(tick_changes, control) := on_tick (control_ self) (state_ self) next_tick_num in
  (self <| control_ := control |> <| state_ ::= fun s => apply_all s tick_changes |>,
   if changes_cb_ (callbacks_ self) then acc <| acc_changes ::= fun c => c ++ tick_changes |> else acc).

(* SRC engine/src/engine_loop.cpp 127-140 EngineLoop::do_tick *)
Definition fleet_command (self : t) (acc : Acc) (pips : list PipEvent) (cmd : FleetCommand) :
    t * Acc * list PipEvent :=
  let fx := mkEffects (state_ self) (acc_changes acc) pips in
  let '(error, fleet, fx) :=
    match cmd with
    | SpawnRequest initial from_uid => TrainFleet.spawn (train_fleet_ self) fx initial from_uid
    | DespawnRequest train_uid => TrainFleet.despawn (train_fleet_ self) fx train_uid
    end in
  let acc := acc <| acc_changes := fx_changes fx |> in
  let acc :=
    match error with
    | Some e => acc <| acc_notices ::= fun n =>
        n ++ [NLog ("[engine] fleet command rejected: " +:+ e)%string] |>
    | None => acc
    end in
  (self <| train_fleet_ := fleet |> <| state_ := fx_state fx |>, acc, fx_pips fx).

(** The loop runs until the queue is empty; [fuel] is its length. *)
(* SRC engine/src/engine_loop.cpp 121-141 EngineLoop::do_tick *)
Fixpoint drain_fleet_commands (fuel : nat) (self : t) (acc : Acc) (pips : list PipEvent) :
    t * Acc * list PipEvent :=
  match fuel with
  | O => (self, acc, pips)
  | S fuel =>
      match EventQueue.try_pop (fleet_commands_ self) with
      | (None, q) => (self <| fleet_commands_ := q |>, acc, pips)
      | (Some cmd, q) =>
          let '(self, acc, pips) := fleet_command (self <| fleet_commands_ := q |>) acc pips cmd in
          drain_fleet_commands fuel self acc pips
      end
  end.

(** A PIP notification, unless there is nothing to say or nobody to say it to. *)
Definition notify_pips (self : t) (pips : list PipEvent) (acc : Acc) : Acc :=
  if pip_cb_ (callbacks_ self) && negb (bool_decide (pips = [] :> list PipEvent))
  then acc <| acc_notices ::= fun n => n ++ [NPips pips] |> else acc.

(* SRC engine/src/engine_loop.cpp 145-152 EngineLoop::do_tick *)
Definition tick_trains (self : t) (acc : Acc) : t * Acc :=
  match train_fleet_ self with
  | [] => (self, acc)
  | _ =>
      let '(fleet, fx) := TrainFleet.tick_all (train_fleet_ self) (state_ self) in
      (self <| train_fleet_ := fleet |> <| state_ := fx_state fx |>,
       notify_pips self (fx_pips fx) acc <| acc_changes ::= fun c => c ++ fx_changes fx |>)
  end.

(* SRC engine/src/engine_loop.cpp 158-170 EngineLoop::do_tick *)
Definition make_snapshot (s : EngineState.t) (fleet : TrainFleet.t) : EngineSnapshot.t :=
  EngineSnapshot.mk (EngineState.session_id_ s) (EngineState.current_tick_ s)
    (EngineState.boundary_nodes s) (EngineState.track_sections s) (EngineState.switches s)
    (EngineState.signals s) (EngineState.derailers s) (EngineState.block_sections s)
    (EngineState.routes s) (EngineState.alarms s) (EngineState.level_crossings s)
    (TrainFleet.snapshot_trains fleet).

(* SRC engine/src/engine_loop.cpp 154-175 EngineLoop::do_tick *)
Definition finish_tick (next_tick_num : Z) (self : t) (acc : Acc) : t * list Notice :=
  let self := self <| state_ ::= fun s => EngineState.set_current_tick s next_tick_num |> in
  (self <| snapshot_ ::= fun a => AtomicSnapshot.publish a (make_snapshot (state_ self) (train_fleet_ self)) |>,
   if changes_cb_ (callbacks_ self) && negb (bool_decide (length (acc_changes acc) = 0%nat))
   then acc_notices acc ++ [NChanges (acc_changes acc)] else acc_notices acc).

(* SRC engine/src/engine_loop.cpp 83-176 EngineLoop::do_tick *)
Definition do_tick (self : t) : t * list Notice :=
  let '(self, acc) := drain_commands MAX_CMDS_PER_TICK self (mkAcc [] []) in
  let next_tick_num := u64 (current_tick (state_ self) + 1) in
  let '(self, acc) := control_tick self acc in
  let '(self, acc, pips) :=
    drain_fleet_commands (EventQueue.size (fleet_commands_ self)) self acc [] in
  let acc := notify_pips self pips acc in
  let '(self, acc) := tick_trains self acc in
  finish_tick next_tick_num self acc.
End Loop.
Arguments t : clear implicits.
End EngineLoop.

(** ** The order of commands *)

Section Commands.
Context {MO : MapOrder} {C : Type} {CS : ControlSystem C EngineState.t}.
Local Notation loop := (EngineLoop.t C).
Implicit Types (self : loop) (acc : EngineLoop.Acc).

(** The loop body of the drain over a given list of commands. *)
Definition handle_all self acc (cmds : list EnvelopedCommand) : loop * EngineLoop.Acc :=
  fold_left (fun r cmd => EngineLoop.handle_command r.1 r.2 cmd) cmds (self, acc).

(** The rest of the tick, once the commands are handled. *)
Definition after_commands (r : loop * EngineLoop.Acc) : loop * list Notice :=
  let next_tick_num := u64 (current_tick (EngineLoop.state_ r.1) + 1) in
  let '(self, acc) := EngineLoop.control_tick r.1 r.2 in
  let '(self, acc, pips) :=
    EngineLoop.drain_fleet_commands (EventQueue.size (EngineLoop.fleet_commands_ self)) self acc [] in
  let acc := EngineLoop.notify_pips self pips acc in
  let '(self, acc) := EngineLoop.tick_trains self acc in
  EngineLoop.finish_tick next_tick_num self acc.

Lemma do_tick_split self :
  EngineLoop.do_tick self =
  after_commands (EngineLoop.drain_commands EngineLoop.MAX_CMDS_PER_TICK self (EngineLoop.mkAcc [] [])).
Proof. unfold EngineLoop.do_tick, after_commands. by destruct (EngineLoop.drain_commands _ _ _). Qed.

Definition with_queue (r : loop * EngineLoop.Acc) (q : PriorityCommandQueue.t) : loop * EngineLoop.Acc :=
  (r.1 <| EngineLoop.queue_ := q |>, r.2).

Lemma handle_command_queue self acc cmd q :
  EngineLoop.handle_command (self <| EngineLoop.queue_ := q |>) acc cmd =
  with_queue (EngineLoop.handle_command self acc cmd) q.
Proof.
  unfold EngineLoop.handle_command, with_queue. cbn. destruct (check_command _ _ _); [done|].
  by destruct (execute_command _ _ _).
Qed.

Lemma handle_all_queue cmds : forall self acc q,
  handle_all (self <| EngineLoop.queue_ := q |>) acc cmds = with_queue (handle_all self acc cmds) q.
Proof.
  unfold handle_all. induction cmds as [|cmd cmds IH]; intros self acc q; [done|]. cbn [fold_left fst snd].
  rewrite handle_command_queue. destruct (EngineLoop.handle_command self acc cmd) as [self' acc']. apply IH.
Qed.

(** Everything pending, in the order in which pops return it. *)
Definition pop_order (pending : list (CommandPriority.t * EnvelopedCommand)) : list EnvelopedCommand :=
  CommandPriority.all ≫= fun p => PriorityCommandQueue.of_priority p pending.

Lemma drain_commands_spec n : forall self acc,
  let order := concat (PriorityCommandQueue.buckets_ (EngineLoop.queue_ self)) in
  exists q, EngineLoop.drain_commands n self acc = with_queue (handle_all self acc (take n order)) q /\
            concat (PriorityCommandQueue.buckets_ q) = drop n order.
Proof.
  assert (forall bs : list (list EnvelopedCommand),
    match PriorityCommandQueue.pop_highest bs with
    | Some (x, bs') => concat bs = x :: concat bs'
    | None => concat bs = []
    end) as Hpop.
  { induction bs as [|[|x b] bs IH]; cbn; [done| |done].
    by destruct (PriorityCommandQueue.pop_highest bs) as [[x bs']|]. }
  induction n as [|n IH]; intros self acc order.
  - exists (EngineLoop.queue_ self). split; [by destruct self|done].
  - cbn [EngineLoop.drain_commands]. unfold PriorityCommandQueue.try_pop.
    specialize (Hpop (PriorityCommandQueue.buckets_ (EngineLoop.queue_ self))).
    destruct (PriorityCommandQueue.pop_highest _) as [[x bs']|]; subst order.
    + rewrite Hpop. cbn [take drop]. rewrite handle_command_queue. unfold handle_all. cbn [fold_left fst snd].
      destruct (EngineLoop.handle_command self acc x) as [self' acc']. unfold with_queue at 1.
      set (q := PriorityCommandQueue.mk bs' _). cbn [fst snd].
      destruct (IH (self' <| EngineLoop.queue_ := q |>) acc') as (q' & Hd & Hq).
      cbn [EngineLoop.queue_] in *. exists q'. split; [|exact Hq]. rewrite Hd, handle_all_queue. done.
    + rewrite Hpop, take_nil, drop_nil. eexists. split; [|exact Hpop]. done.
Qed.

Lemma pop_order_buckets q spec :
  PriorityCommandQueue.refines q spec ->
  concat (PriorityCommandQueue.buckets_ q) = pop_order (PriorityCommandQueue.pending spec).
Proof. intros [-> _]. unfold pop_order. cbn. by rewrite ?app_nil_r. Qed.

(** C8: a tick handles the first 64 pending commands in the order the abstract queue prescribes,
    the more urgent first and the older first among equals, each against the world its
    predecessors left, and then does the rest of its work; the others wait, in the same
    order. *)
Theorem do_tick_commands self spec :
  PriorityCommandQueue.refines (EngineLoop.queue_ self) spec ->
  let order := pop_order (PriorityCommandQueue.pending spec) in
  exists q, EngineLoop.do_tick self =
      after_commands (with_queue (handle_all self (EngineLoop.mkAcc [] []) (take 64 order)) q) /\
    concat (PriorityCommandQueue.buckets_ q) = drop 64 order.
Proof.
  intros Hq order. rewrite do_tick_split.
  destruct (drain_commands_spec 64 self (EngineLoop.mkAcc [] [])) as (q & Hd & Hrest).
  rewrite (pop_order_buckets _ _ Hq) in Hd, Hrest. exists q. split; [by f_equal|done].
Qed.

(** A command the interlocking refuses leaves no trace.  If the commands of a tick are all
    refused, the tick is the tick without them, preceded by one NAK for each, in order. *)
Theorem refused_commands_inert self acc cmds (viol : EnvelopedCommand -> InterlockingViolation) :
  (forall cmd, cmd ∈ cmds ->
     check_command (EngineLoop.control_ self) (EngineLoop.state_ self) (env_payload cmd) = Some (viol cmd)) ->
  handle_all self acc cmds =
  (self, if EngineLoop.nak_cb_ (EngineLoop.callbacks_ self)
         then acc <| EngineLoop.acc_notices ::= fun n => n ++ ((fun cmd => NNak cmd (viol cmd)) <$> cmds) |>
         else acc).
Proof.
  revert acc. induction cmds as [|cmd cmds IH]; intros acc H.
  - cbn. case_match; [|done]. unfold field_set. destruct acc. cbn. by rewrite app_nil_r.
  - unfold handle_all in *. cbn [fold_left fst snd]. unfold EngineLoop.handle_command at 2.
    rewrite (H cmd) by (by left). rewrite IH by (intros c Hc; apply H; by right).
    f_equal. case_match; [|done]. unfold field_set. cbn. by rewrite <-app_assoc.
Qed.
End Commands.

(** ** What a tick does to the world

    The phases of a tick: the control system's, whose changes are all applied,
    and the trains', whose reports of trailed switches are not. *)
Definition not_broadcast (n : Notice) : Prop := match n with NChanges _ => False | _ => True end.

Section Phases.
Context {MO : MapOrder} {C : Type} {CS : ControlSystem C EngineState.t}.
Local Notation loop := (EngineLoop.t C).
Implicit Types (self : loop) (acc : EngineLoop.Acc).

Local Notation world self := (EngineLoop.control_ self, EngineLoop.state_ self).

Record control_phase self acc self' acc' (cs : list DeviceStateChange) : Prop := {
  cp_state : EngineLoop.state_ self' = apply_all (EngineLoop.state_ self) cs;
  cp_changes : EngineLoop.changes_cb_ (EngineLoop.callbacks_ self) = true ->
    EngineLoop.acc_changes acc' = EngineLoop.acc_changes acc ++ cs;
  cp_callbacks : EngineLoop.callbacks_ self' = EngineLoop.callbacks_ self;
  cp_notices : Forall not_broadcast (EngineLoop.acc_notices acc) ->
    Forall not_broadcast (EngineLoop.acc_notices acc') }.

Record train_phase self acc self' acc' (ds : list DeviceStateChange) : Prop := {
  tp_kinds : Forall (fun c => is_occupancy c \/ is_trail c) ds;
  tp_state : EngineLoop.state_ self' = apply_all (EngineLoop.state_ self) (filter is_occupancy ds);
  tp_changes : EngineLoop.acc_changes acc' = EngineLoop.acc_changes acc ++ ds;
  tp_callbacks : EngineLoop.callbacks_ self' = EngineLoop.callbacks_ self;
  tp_control : EngineLoop.control_ self' = EngineLoop.control_ self;
  tp_notices : Forall not_broadcast (EngineLoop.acc_notices acc) ->
    Forall not_broadcast (EngineLoop.acc_notices acc') }.

Lemma handle_command_phase self acc cmd :
  let r := EngineLoop.handle_command self acc cmd in
  exists cs, control_phase self acc r.1 r.2 cs /\ rtc sys_step (world self) (world r.1).
Proof.
  unfold EngineLoop.handle_command. destruct (check_command _ _ _) as [v|] eqn:Echeck; cbn zeta.
  - exists []. split; [|reflexivity]. split; try done.
    + intros _. cbn. case_match; by rewrite app_nil_r.
    + intros H. cbn. case_match; [|done]. cbn. apply Forall_app. by repeat constructor.
  - pose proof (step_command (EngineLoop.control_ self) (EngineLoop.state_ self) (env_payload cmd) Echeck) as Hstep.
    unfold run_command in Hstep. destruct (execute_command _ _ _) as [cs control]. exists cs. split.
    + split; try done; cbn; [by intros ->|by case_match].
    + by apply rtc_once.
Qed.

Lemma handle_all_phase cmds : forall self acc,
  let r := handle_all self acc cmds in
  exists cs, control_phase self acc r.1 r.2 cs /\ rtc sys_step (world self) (world r.1).
Proof.
  induction cmds as [|cmd cmds IH]; intros self acc.
  - exists []. split; [|reflexivity]. split; try done. intros _. by rewrite app_nil_r.
  - unfold handle_all in *. cbn [fold_left fst snd].
    destruct (handle_command_phase self acc cmd) as (cs & [Hs Hc Hb Hn] & Hr).
    destruct (EngineLoop.handle_command self acc cmd) as [self1 acc1]. cbn [fst snd] in *.
    destruct (IH self1 acc1) as (cs' & [Hs' Hc' Hb' Hn'] & Hr').
    exists (cs ++ cs'). split; [|by etrans]. split.
    + by rewrite Hs', Hs, apply_all_app.
    + intros H. rewrite Hc', Hc by (by rewrite ?Hb). by rewrite app_assoc.
    + congruence.
    + auto.
Qed.

Lemma control_tick_phase self acc :
  let r := EngineLoop.control_tick self acc in
  exists cs, control_phase self acc r.1 r.2 cs /\
    quiet_tick (world self) =
      (EngineLoop.control_ r.1, EngineState.set_current_tick (EngineLoop.state_ r.1)
                                  (u64 (current_tick (EngineLoop.state_ self) + 1))).
Proof.
  unfold EngineLoop.control_tick, quiet_tick. destruct (on_tick _ _ _) as [cs control]. exists cs.
  split; [|done]. split; try done; cbn; [by intros ->|by case_match].
Qed.

Lemma train_phase_refl self acc : train_phase self acc self acc [].
Proof. split; try done. by rewrite app_nil_r. Qed.

Lemma train_phase_trans self1 acc1 self2 acc2 self3 acc3 ds ds' :
  train_phase self1 acc1 self2 acc2 ds -> train_phase self2 acc2 self3 acc3 ds' ->
  train_phase self1 acc1 self3 acc3 (ds ++ ds').
Proof.
  intros [Hk Hs Hc Hb Hx Hn] [Hk' Hs' Hc' Hb' Hx' Hn']. split.
  - by apply Forall_app.
  - by rewrite filter_app, apply_all_app, <-Hs.
  - by rewrite Hc', Hc, app_assoc.
  - congruence.
  - congruence.
  - auto.
Qed.

Lemma fleet_command_phase self acc pips cmd :
  let r := EngineLoop.fleet_command self acc pips cmd in
  exists ds, train_phase self acc r.1.1 r.1.2 ds.
Proof.
  unfold EngineLoop.fleet_command. set (fx := mkEffects _ _ _).
  assert (forall r : option string * TrainFleet.t * Effects, replays fx r.2 ->
    let '(error, fleet, fx') := r in
    exists ds, train_phase self acc
      (self <| EngineLoop.train_fleet_ := fleet |> <| EngineLoop.state_ := fx_state fx' |>)
      (let acc := acc <| EngineLoop.acc_changes := fx_changes fx' |> in
       match error with
       | Some e => acc <| EngineLoop.acc_notices ::= fun n =>
           n ++ [NLog ("[engine] fleet command rejected: " +:+ e)%string] |>
       | None => acc
       end) ds) as H.
  { intros [[error fleet] fx'] (ds & Hc & Hs & Hk). exists ds. split; try done.
    - by destruct error.
    - intros Hn. destruct error; [|done]. cbn. apply Forall_app. by repeat constructor. }
  destruct cmd as [initial from|u].
  - specialize (H _ (spawn_replays (EngineLoop.train_fleet_ self) fx initial from)).
    by destruct (TrainFleet.spawn _ _ _ _) as [[? ?] ?].
  - specialize (H _ (despawn_replays (EngineLoop.train_fleet_ self) fx u)).
    by destruct (TrainFleet.despawn _ _ _) as [[? ?] ?].
Qed.

(** The drain ends with an empty queue: its fuel is enough. *)
Lemma drain_fleet_phase fuel : forall self acc pips,
  let r := EngineLoop.drain_fleet_commands fuel self acc pips in
  exists ds, train_phase self acc r.1.1 r.1.2 ds /\
    (fuel = EventQueue.size (EngineLoop.fleet_commands_ self) ->
     EventQueue.size (EngineLoop.fleet_commands_ r.1.1) = 0%nat).
Proof.
  induction fuel as [|fuel IH]; intros self acc pips.
  - exists []. split; [apply train_phase_refl|done].
  - cbn [EngineLoop.drain_fleet_commands]. unfold EventQueue.try_pop, EventQueue.size.
    destruct (EngineLoop.fleet_commands_ self) as [[|cmd rest] closed] eqn:Eq; cbn [EventQueue.queue_].
    + exists []. split; [|done]. split; try done. by rewrite app_nil_r.
    + set (self1 := self <| EngineLoop.fleet_commands_ := EventQueue.mk rest _ |>).
      destruct (fleet_command_phase self1 acc pips cmd) as (ds & Hp).
      assert (EngineLoop.fleet_commands_ (EngineLoop.fleet_command self1 acc pips cmd).1.1
              = EventQueue.mk rest (EventQueue.closed_ (EventQueue.mk (cmd :: rest) closed))) as Hq.
      { unfold EngineLoop.fleet_command. destruct cmd; by destruct (_ : option string * TrainFleet.t * Effects) as [[? ?] ?]. }
      destruct (EngineLoop.fleet_command self1 acc pips cmd) as [[self2 acc2] pips2]. cbn [fst snd] in *.
      destruct (IH self2 acc2 pips2) as (ds' & Hp' & Hsize). exists (ds ++ ds'). split.
      * eapply (train_phase_trans self); [|exact Hp']. destruct Hp. by split.
      * intros [= Hf]. apply Hsize. by rewrite Hq.
Qed.

Lemma notify_pips_phase self pips acc : train_phase self acc self (EngineLoop.notify_pips self pips acc) [].
Proof.
  unfold EngineLoop.notify_pips. case_match; [|apply train_phase_refl].
  split; try done; cbn; [by rewrite app_nil_r|]. intros Hn. apply Forall_app. by repeat constructor.
Qed.

Lemma tick_trains_phase self acc :
  let r := EngineLoop.tick_trains self acc in exists ds, train_phase self acc r.1 r.2 ds.
Proof.
  unfold EngineLoop.tick_trains. destruct (EngineLoop.train_fleet_ self) as [|e fleet].
  { exists []. apply train_phase_refl. }
  pose proof (tick_all_replays (e :: fleet) (EngineLoop.state_ self)) as (ds & Hc & Hs & Hk).
  destruct (TrainFleet.tick_all _ _) as [fleet' fx]. cbn [fst snd fx_changes fx_state] in *. exists ds.
  pose proof (notify_pips_phase self (fx_pips fx) acc) as [_ _ Hc' _ _ Hn'].
  split; try done. cbn. by rewrite Hc', Hc, app_nil_r.
Qed.
End Phases.

Section Tick.
Context {MO : MapOrder} {C : Type} {CS : ControlSystem C EngineState.t}.
Implicit Types (self : EngineLoop.t C).
Local Notation world self := (EngineLoop.control_ self, EngineLoop.state_ self).

Lemma occupancies_filter ds : Forall is_occupancy (filter is_occupancy ds).
Proof. apply Forall_forall. by intros c [Hc _]%list_elem_of_filter. Qed.

Lemma occupancies_set_tick s ds tick :
  Forall is_occupancy ds ->
  apply_all (EngineState.set_current_tick s tick) ds = EngineState.set_current_tick (apply_all s ds) tick.
Proof.
  intros H. revert s. induction H as [|c ds Hc _ IH]; intros s; [done|].
  rewrite !apply_all_cons, <-IH. by destruct c.
Qed.

Lemma occupancies_steps (c : C) s ds : Forall is_occupancy ds -> rtc sys_step (c, s) (c, apply_all s ds).
Proof.
  intros H. revert s. induction H as [|d ds Hd _ IH]; intros s; [reflexivity|].
  rewrite apply_all_cons. eapply rtc_l; [|apply IH]. destruct d; try done. apply step_train.
Qed.

(** Everything the theorems need of one tick. *)
Lemma do_tick_phases self :
  let '(self', notices) := EngineLoop.do_tick self in
  let next := u64 (EngineState.current_tick_ (EngineLoop.state_ self) + 1) in
  exists cs ds quiet,
    Forall (fun c => is_occupancy c \/ is_trail c) ds /\
    EngineLoop.state_ self' =
      EngineState.set_current_tick
        (apply_all (EngineLoop.state_ self) (cs ++ filter is_occupancy ds)) next /\
    (EngineLoop.changes_cb_ (EngineLoop.callbacks_ self) = true ->
     notices = quiet ++ (if decide (cs ++ ds = []) then [] else [NChanges (cs ++ ds)])) /\
    Forall not_broadcast quiet /\
    AtomicSnapshot.load (EngineLoop.snapshot_ self') =
      Some (EngineLoop.make_snapshot (EngineLoop.state_ self') (EngineLoop.train_fleet_ self')) /\
    EventQueue.size (EngineLoop.fleet_commands_ self') = 0%nat /\
    rtc sys_step (world self) (world self').
Proof.
  rewrite do_tick_split.
  destruct (drain_commands_spec EngineLoop.MAX_CMDS_PER_TICK self (EngineLoop.mkAcc [] [])) as (q & -> & _).
  set (cmds := take _ _). destruct (handle_all_phase cmds self (EngineLoop.mkAcc [] [])) as (cs & [Hs Hc Hb Hn] & Hr).
  destruct (handle_all self _ cmds) as [self0 acc0]. cbn [fst snd] in *. unfold after_commands, with_queue.
  cbn [fst snd]. set (self1 := self0 <| EngineLoop.queue_ := q |>).
  change (EngineLoop.state_ self0) with (EngineLoop.state_ self1) in *.
  change (EngineLoop.control_ self0) with (EngineLoop.control_ self1) in *.
  change (EngineLoop.callbacks_ self0) with (EngineLoop.callbacks_ self1) in *. clearbody self1. clear self0.
  destruct (control_tick_phase self1 acc0) as (cs2 & [Hs2 Hc2 Hb2 Hn2] & Hq2).
  destruct (EngineLoop.control_tick self1 acc0) as [self2 acc2]. cbn [fst snd] in *.
  destruct (drain_fleet_phase (EventQueue.size (EngineLoop.fleet_commands_ self2)) self2 acc2 [])
    as (ds3 & Hp3 & Hsize). specialize (Hsize eq_refl).
  destruct (EngineLoop.drain_fleet_commands _ self2 acc2 []) as [[self3 acc3] pips]. cbn [fst snd] in *.
  pose proof (train_phase_trans _ _ _ _ _ _ _ _ Hp3 (notify_pips_phase self3 pips acc3)) as Hp3'.
  destruct (tick_trains_phase self3 (EngineLoop.notify_pips self3 pips acc3)) as (ds4 & Hp4).
  assert (EngineLoop.fleet_commands_ (EngineLoop.tick_trains self3 (EngineLoop.notify_pips self3 pips acc3)).1
          = EngineLoop.fleet_commands_ self3) as Hfc.
  { unfold EngineLoop.tick_trains. destruct (EngineLoop.train_fleet_ self3); [done|].
    by destruct (TrainFleet.tick_all _ _). }
  destruct (EngineLoop.tick_trains self3 _) as [self4 acc4]. cbn [fst snd] in *.
  destruct (train_phase_trans _ _ _ _ _ _ _ _ Hp3' Hp4) as [Hk4 Hs4 Hc4 Hb4 Hx4 Hn4].
  set (ds := (ds3 ++ []) ++ ds4) in *. unfold EngineLoop.finish_tick.
  assert (current_tick (EngineLoop.state_ self1) = EngineState.current_tick_ (EngineLoop.state_ self)) as Htick.
  { rewrite Hs. apply apply_all_meta. }
  rewrite Htick in *. exists (cs ++ cs2), ds, (EngineLoop.acc_notices acc4). split_and!; [done|..].
  - cbn. by rewrite Hs4, Hs2, Hs, <-!apply_all_app, !app_assoc.
  - intros Hcb. cbn [field_set EngineLoop.callbacks_]. rewrite Hb4, Hb2, Hb, Hcb. cbn [andb].
    assert (EngineLoop.acc_changes acc4 = (cs ++ cs2) ++ ds) as ->.
    { rewrite Hc4, Hc2 by (by rewrite Hb). by rewrite Hc. }
    destruct ((cs ++ cs2) ++ ds) as [|x l]; [by rewrite app_nil_r|]. done.
  - apply Hn4, Hn2, Hn. constructor.
  - done.
  - cbn. by rewrite Hfc.
  - etrans; [exact Hr|]. eapply rtc_l; [apply step_tick|]. rewrite Hq2. cbn [EngineLoop.control_ EngineLoop.state_].
    cbn. rewrite Hs4, <-occupancies_set_tick by apply occupancies_filter.
    rewrite Hx4. apply occupancies_steps, occupancies_filter.
Qed.
End Tick.

(** ** Properties *)

Section Properties.
Context {MO : MapOrder} {C : Type} {CS : ControlSystem C EngineState.t}.
Implicit Types (self : EngineLoop.t C).
Local Notation world self := (EngineLoop.control_ self, EngineLoop.state_ self).

(** C9: with a change subscriber, a tick notifies it once, with all changes of the tick in order,
    or not at all if there were none.  Replaying the notification on the world before the tick
    gives the world after it, up to the tick counter: the only changes of the notification that
    the world has not taken are the reports of trailed switches. *)
Theorem do_tick_broadcast self :
  EngineLoop.changes_cb_ (EngineLoop.callbacks_ self) = true ->
  let '(self', notices) := EngineLoop.do_tick self in
  exists cs ds quiet,
    notices = quiet ++ (if decide (cs ++ ds = []) then [] else [NChanges (cs ++ ds)]) /\
    Forall not_broadcast quiet /\
    Forall (fun c => is_occupancy c \/ is_trail c) ds /\
    EngineLoop.state_ self' =
      EngineState.set_current_tick (apply_all (EngineLoop.state_ self) (cs ++ filter is_occupancy ds))
        (u64 (EngineState.current_tick_ (EngineLoop.state_ self) + 1)).
Proof.
  intros Hcb. pose proof (do_tick_phases self) as H. destruct (EngineLoop.do_tick self) as [self' notices].
  destruct H as (cs & ds & quiet & Hk & Hs & Hn & Hq & _). exists cs, ds, quiet. split_and!; auto.
Qed.

(** After a tick the published snapshot is the world: it answers every question of the view
    interface as the engine's state does, at the next tick number, and lists the trains of the
    fleet; and no fleet request is left waiting. *)
Theorem do_tick_publishes self :
  let '(self', _) := EngineLoop.do_tick self in
  let s := EngineLoop.state_ self' in
  exists snap, AtomicSnapshot.load (EngineLoop.snapshot_ self') = Some snap /\
    (forall u, find_boundary_node snap u = find_boundary_node s u /\
               find_track_section snap u = find_track_section s u /\
               find_switch snap u = find_switch s u /\ find_signal snap u = find_signal s u /\
               find_derailer snap u = find_derailer s u /\
               find_block_section snap u = find_block_section s u /\
               find_route snap u = find_route s u /\ find_alarm snap u = find_alarm s u /\
               find_level_crossing snap u = find_level_crossing s u) /\
    (for_each_track_section snap = for_each_track_section s /\
     for_each_switch snap = for_each_switch s /\ for_each_signal snap = for_each_signal s /\
     for_each_route snap = for_each_route s) /\
    session_id snap = EngineState.session_id_ (EngineLoop.state_ self) /\
    current_tick snap = u64 (EngineState.current_tick_ (EngineLoop.state_ self) + 1) /\
    current_tick s = current_tick snap /\
    EngineSnapshot.trains snap = TrainFleet.snapshot_trains (EngineLoop.train_fleet_ self') /\
    EventQueue.size (EngineLoop.fleet_commands_ self') = 0%nat.
Proof.
  pose proof (do_tick_phases self) as H. destruct (EngineLoop.do_tick self) as [self' notices].
  destruct H as (cs & ds & quiet & _ & Hs & _ & _ & Hl & Hsize & _). intros s.
  exists (EngineLoop.make_snapshot s (EngineLoop.train_fleet_ self')). split_and!; try done.
  - cbn. subst s. rewrite Hs. cbn. apply apply_all_meta.
  - cbn. subst s. by rewrite Hs.
Qed.

(** What the rest of the server does to the loop: another thread queues a command or a fleet
    request, and the engine thread ticks. *)
Inductive loop_step : EngineLoop.t C -> EngineLoop.t C -> Prop :=
| loop_push self q cmd priority :
    PriorityCommandQueue.push (EngineLoop.queue_ self) cmd priority = Some q ->
    loop_step self (self <| EngineLoop.queue_ := q |>)
| loop_enqueue self self' cmd :
    EngineLoop.enqueue_fleet_command self cmd = Some self' -> loop_step self self'
| loop_tick self : loop_step self (EngineLoop.do_tick self).1.

Lemma loop_steps_world self self' :
  rtc loop_step self self' -> rtc sys_step (world self) (world self').
Proof.
  induction 1 as [self|self self1 self' Hstep _ IH]; [reflexivity|]. etrans; [|exact IH]. clear IH.
  destruct Hstep as [self q cmd p _|self self1 cmd H|self]; [reflexivity| |].
  - unfold EngineLoop.enqueue_fleet_command in H. destruct (EventQueue.push _ _); [|done].
    by injection H as <-.
  - pose proof (do_tick_phases self) as H. destruct (EngineLoop.do_tick self) as [self1 notices].
    by destruct H as (cs & ds & quiet & _ & _ & _ & _ & _ & _ & H).
Qed.

(** C5: the engine refines the abstract system of accepted commands, quiet ticks and occupancy
    reports: whatever is queued and however often it ticks, its control system and world are
    reachable there.  So every invariant of that system holds of the engine. *)
Theorem engine_refines_system self self' :
  rtc loop_step self self' -> rtc sys_step (world self) (world self').
Proof. apply loop_steps_world. Qed.
End Properties.

(** ** The demo station under the engine *)

Definition demo_command (seq : Z) (p : CommandPriority.t) (c : Command) : EnvelopedCommand :=
  mkEnvelopedCommand (mkCommandMeta seq p (mkPlayerID "") UID_zero 0) c.
Definition throw_W1 : EnvelopedCommand :=
  demo_command 1 CommandPriority.NORMAL (CSetSwitchPosition (mkSetSwitchPositionCmd W1 SwitchPosition.DIVERGENT)).
(** The station has no such switch. *)
Definition throw_unknown : EnvelopedCommand :=
  demo_command 2 CommandPriority.EMERGENCY
    (CSetSwitchPosition (mkSetSwitchPositionCmd (mkUID 999) SwitchPosition.DIVERGENT)).

Definition demo_loop (cmds : list EnvelopedCommand) : EngineLoop.t EbiLockSystem.t :=
  let q := fold_left (fun q c => default q (PriorityCommandQueue.push q c (meta_priority (env_meta c)))) cmds
             PriorityCommandQueue.create in
  EngineLoop.create demo (EbiLockSystem.create 120) q (EngineLoop.mkCallbacks true true true).

(** The emergency command overtakes, is refused, and leaves one NAK. *)
Example do_tick_commands_witness :
  pop_order [(CommandPriority.NORMAL, throw_W1); (CommandPriority.EMERGENCY, throw_unknown)]
    = [throw_unknown; throw_W1] /\
  exists q, EngineLoop.do_tick (demo_loop [throw_W1; throw_unknown]) =
    after_commands (with_queue (handle_all (demo_loop [throw_W1; throw_unknown])
      (EngineLoop.mkAcc [] []) [throw_unknown; throw_W1]) q) /\
    concat (PriorityCommandQueue.buckets_ q) = [].
Proof.
  split; [reflexivity|].
  refine (do_tick_commands (demo_loop [throw_W1; throw_unknown])
    (PriorityCommandQueue.mkSpec [(CommandPriority.NORMAL, throw_W1); (CommandPriority.EMERGENCY, throw_unknown)]
       false) _).
  split; reflexivity.
Defined.

Example refused_commands_inert_witness :
  exists v, handle_all (demo_loop []) (EngineLoop.mkAcc [] []) [throw_unknown] =
    (demo_loop [], EngineLoop.mkAcc [] [NNak throw_unknown v]).
Proof.
  exists (mkInterlockingViolation NAK_NOT_FOUND "Switch not found: 999" (mkUID 999)).
  refine (refused_commands_inert (demo_loop []) (EngineLoop.mkAcc [] []) [throw_unknown] (fun _ => _) _).
  intros cmd ->%list_elem_of_singleton. vm_compute. reflexivity.
Defined.

Example do_tick_broadcast_witness :
  let '(self', notices) := EngineLoop.do_tick (demo_loop [throw_W1]) in
  exists cs, notices = [NChanges cs] /\
    EngineLoop.state_ self' = EngineState.set_current_tick (apply_all demo cs) 1001.
Proof.
  assert ((EngineLoop.do_tick (demo_loop [throw_W1])).2 =
    [NChanges [DSwitchPosition (mkSwitchPositionChange W1 SwitchPosition.MOVING ChangeCause.COMMAND 120);
               DSwitchPosition (mkSwitchPositionChange W1 SwitchPosition.MOVING ChangeCause.AUTO 119)]]) as Hn
    by (vm_compute; reflexivity).
  pose proof (do_tick_broadcast (demo_loop [throw_W1]) eq_refl) as H. revert H Hn.
  change (EngineLoop.state_ (demo_loop [throw_W1])) with demo.
  destruct (EngineLoop.do_tick (demo_loop [throw_W1])) as [self' notices]. cbn [snd].
  intros (cs & ds & quiet & Hl & Hq & Hk & Hs) Hn. exists (cs ++ ds).
  destruct (decide (cs ++ ds = [])) as [He|He].
  - rewrite app_nil_r in Hl. subst quiet. rewrite Hn in Hq. by apply Forall_cons in Hq as [[] _].
  - rewrite Hl in Hn. destruct quiet as [|x [|y quiet]]; [|done|by destruct quiet].
    cbn in Hn. injection Hn as Hn. cbn in Hl. rewrite Hl. split; [done|].
    assert (ds = []) as ->; [|exact Hs].
    destruct ds as [|d ds]; [done|]. apply Forall_cons in Hk as [Hd _].
    assert (d ∈ cs ++ d :: ds) as Hin by (apply elem_of_app; right; by left).
    rewrite Hn in Hin.
    apply elem_of_cons in Hin as [-> | Hin]; [by destruct Hd|].
    apply list_elem_of_singleton in Hin as ->. by destruct Hd.
Defined.

(** Queue the throw, tick, and the abstract system has made the same steps. *)
Example engine_refines_system_witness :
  let l' := (EngineLoop.do_tick (demo_loop [throw_W1])).1 in
  rtc sys_step (EbiLockSystem.create 120, demo) (EngineLoop.control_ l', EngineLoop.state_ l') /\ (fun sw => sw_position sw) <$> EngineState.find_switch (EngineLoop.state_ l') W1 = Some SwitchPosition.MOVING.
Proof.
  intros l'. split; [|vm_compute; reflexivity].
  assert (rtc loop_step (demo_loop []) l') as Hl.
  { eapply rtc_l; [by apply (loop_push _ (EngineLoop.queue_ (demo_loop [throw_W1])) throw_W1 CommandPriority.NORMAL)|].
    apply rtc_once. exact (loop_tick (demo_loop [throw_W1])). }
  exact (engine_refines_system (demo_loop []) l' Hl).
Defined.
