(* ===== verification/EngineThread.v ===== *)
(** * EngineThread: the tick, step by step, among the other threads

    [EngineLoop::run] of [engine/src/engine_loop.cpp] with its 50 ms pacing, and
    [do_tick] broken up where other threads can interfere: every access to the
    command queue and to the fleet queue is a step of its own, so commands and
    fleet requests arrive in the middle of a tick.

    Theorems: the world is always what a sequence of whole ticks makes of the
    popped commands ([thread_refines_ticks]); no tick begins before its time,
    and after a stop at most the running tick is completed ([ticks_paced],
    [stop_ends_thread]). *)
From S2P Require Import Prelude Float32 Types Commands Track World Demo Changes Queues DeviceRules Interlocking Physics TrainSim Fleet Loop.
Local Open Scope Z_scope.

Module EngineRun.
Section Thread.
Context {MO : MapOrder} {C : Type} {CS : ControlSystem C EngineState.t}.
Local Notation loop := (EngineLoop.t C).

(** Nanoseconds of the steady clock. *)
(* SRC engine/include/engine/core/engine_loop.hpp 92-92 EngineLoop::TICK_PERIOD *)
Definition TICK_PERIOD : Z := 50 * 1000000.

(** Where the engine thread stands: at the head of its loop, draining commands
    with [processed] behind it, draining fleet requests, waiting, gone. *)
Inductive Pc : Type :=
| Top
| Draining (processed : nat) (acc : EngineLoop.Acc)
| FleetPhase (next_tick_num : Z) (acc : EngineLoop.Acc) (pips : list PipEvent)
| Sleeping
| Done.

(* SRC engine/src/engine_loop.cpp 61-81 EngineLoop::run *)
Record t := mk { loop_ : loop; pc : Pc; clock : Z; next_tick : Z; stop_requested : bool }.
#[global] Instance eta : Eta t := fun s => mk (loop_ s) (pc s) (clock s) (next_tick s) (stop_requested s).

(** The thread that [start] creates. *)
(* SRC engine/src/engine_loop.cpp 61-69 EngineLoop::run *)
Definition create (self : loop) (now : Z) : t := mk self Top now (now + TICK_PERIOD) false.

(** What is left of a tick once the fleet requests are drained. *)
(* SRC engine/src/engine_loop.cpp 142-175 EngineLoop::do_tick *)
Definition end_tick (next_tick_num : Z) (self : loop) (acc : EngineLoop.Acc) (pips : list PipEvent) : loop * list Notice :=
  let acc := EngineLoop.notify_pips self pips acc in
  let '(self, acc) := EngineLoop.tick_trains self acc in
  EngineLoop.finish_tick next_tick_num self acc.

(** What the threads do: another thread queues a command or a fleet request,
    asks the engine to stop, or time passes; the engine thread begins a tick, pops
    a command or finds none (any more), pops a fleet request, ends the tick, wakes
    up, or leaves. *)
Inductive Label : Type :=
| LPush (priority : CommandPriority.t) (cmd : EnvelopedCommand)
| LEnqueue (cmd : FleetCommand)
| LStop
| LClock
| LBegin (now : Z)
| LPop (cmd : EnvelopedCommand)
| LDrained (empty : bool)
| LFleetPop (cmd : FleetCommand)
| LEnd (notices : list Notice)
| LWake
| LExit.

(* SRC engine/src/engine_loop.cpp 61-142 EngineLoop::run *)
Inductive step : t -> Label -> t -> Prop :=
| step_push st p cmd q :
    PriorityCommandQueue.push (EngineLoop.queue_ (loop_ st)) cmd p = Some q ->
    step st (LPush p cmd) (st <| loop_ ::= fun self => self <| EngineLoop.queue_ := q |> |>)
| step_enqueue st cmd self :
    EngineLoop.enqueue_fleet_command (loop_ st) cmd = Some self -> step st (LEnqueue cmd) (st <| loop_ := self |>)
| step_stop st self :
    EngineLoop.stop (loop_ st) = (true, self) -> step st LStop (st <| loop_ := self |> <| stop_requested := true |>)
| step_clock st now : clock st <= now -> step st LClock (st <| clock := now |>)
| step_begin st :
    pc st = Top -> stop_requested st = false -> step st (LBegin (clock st)) (st <| pc := Draining 0 (EngineLoop.mkAcc [] []) |>)
| step_exit st : pc st = Top -> stop_requested st = true -> step st LExit (st <| pc := Done |>)
| step_pop st n acc cmd q self' acc' :
    pc st = Draining n acc -> (n < EngineLoop.MAX_CMDS_PER_TICK)%nat ->
    PriorityCommandQueue.try_pop (EngineLoop.queue_ (loop_ st)) = (Some cmd, q) ->
    EngineLoop.handle_command (loop_ st <| EngineLoop.queue_ := q |>) acc cmd = (self', acc') ->
    step st (LPop cmd) (st <| loop_ := self' |> <| pc := Draining (S n) acc' |>)
| step_drained st n acc self' acc' (empty : bool) :
    pc st = Draining n acc ->
    (if empty then (n < EngineLoop.MAX_CMDS_PER_TICK)%nat /\
       PriorityCommandQueue.try_pop (EngineLoop.queue_ (loop_ st)) = (None, EngineLoop.queue_ (loop_ st))
     else (EngineLoop.MAX_CMDS_PER_TICK <= n)%nat) ->
    EngineLoop.control_tick (loop_ st) acc = (self', acc') ->
    step st (LDrained empty) (st <| loop_ := self' |>
      <| pc := FleetPhase (u64 (current_tick (EngineLoop.state_ (loop_ st)) + 1)) acc' [] |>)
| step_fleet_pop st next acc pips cmd q self' acc' pips' :
    pc st = FleetPhase next acc pips ->
    EventQueue.try_pop (EngineLoop.fleet_commands_ (loop_ st)) = (Some cmd, q) ->
    EngineLoop.fleet_command (loop_ st <| EngineLoop.fleet_commands_ := q |>) acc pips cmd = (self', acc', pips') ->
    step st (LFleetPop cmd) (st <| loop_ := self' |> <| pc := FleetPhase next acc' pips' |>)
| step_end st next acc pips self' notices :
    pc st = FleetPhase next acc pips ->
    EventQueue.try_pop (EngineLoop.fleet_commands_ (loop_ st)) = (None, EngineLoop.fleet_commands_ (loop_ st)) ->
    end_tick next (loop_ st) acc pips = (self', notices) ->
    step st (LEnd notices) (st <| loop_ := self' |> <| pc := Sleeping |>)
| step_wake st :
    pc st = Sleeping -> next_tick st <= clock st \/ stop_requested st = true ->
    step st LWake (st <| pc := Top |> <| next_tick ::= fun x => x + TICK_PERIOD |>).

(** The step of the engine thread, computed; [None] while it waits and when it
    is gone. *)
(* SRC engine/src/engine_loop.cpp 61-176 EngineLoop::run *)
Definition engine_next (st : t) : option (Label * t) :=
  let self := loop_ st in
  match pc st with
  | Top =>
      if stop_requested st then Some (LExit, st <| pc := Done |>)
      else Some (LBegin (clock st), st <| pc := Draining 0 (EngineLoop.mkAcc [] []) |>)
  | Draining processed acc =>
      let next_tick_num := u64 (current_tick (EngineLoop.state_ self) + 1) in
      let drained empty :=
        let '(self, acc) := EngineLoop.control_tick self acc in
        Some (LDrained empty, st <| loop_ := self |> <| pc := FleetPhase next_tick_num acc [] |>) in
      if (processed <? EngineLoop.MAX_CMDS_PER_TICK)%nat then
        match PriorityCommandQueue.try_pop (EngineLoop.queue_ self) with
        | (Some cmd, q) =>
            let '(self, acc) := EngineLoop.handle_command (self <| EngineLoop.queue_ := q |>) acc cmd in
            Some (LPop cmd, st <| loop_ := self |> <| pc := Draining (S processed) acc |>)
        | (None, _) => drained true
        end
      else drained false
  | FleetPhase next_tick_num acc pips =>
      match EventQueue.try_pop (EngineLoop.fleet_commands_ self) with
      | (Some cmd, q) =>
          let '(self, acc, pips) := EngineLoop.fleet_command (self <| EngineLoop.fleet_commands_ := q |>) acc pips cmd in
          Some (LFleetPop cmd, st <| loop_ := self |> <| pc := FleetPhase next_tick_num acc pips |>)
      | (None, _) =>
          let '(self, notices) := end_tick next_tick_num self acc pips in
          Some (LEnd notices, st <| loop_ := self |> <| pc := Sleeping |>)
      end
  | Sleeping =>
      if (next_tick st <=? clock st) || stop_requested st
      then Some (LWake, st <| pc := Top |> <| next_tick ::= fun x => x + TICK_PERIOD |>) else None
  | Done => None
  end.

Definition engine_label (l : Label) : bool :=
  match l with LPush _ _ | LEnqueue _ | LStop | LClock => false | _ => true end.

Lemma queue_unchanged (q q' : PriorityCommandQueue.t (T := EnvelopedCommand)) :
  PriorityCommandQueue.try_pop q = (None, q') -> q' = q.
Proof. unfold PriorityCommandQueue.try_pop. destruct (PriorityCommandQueue.pop_highest _) as [[? ?]|]; congruence. Qed.
Lemma fleet_queue_unchanged (q q' : EventQueue.t (T := FleetCommand)) : EventQueue.try_pop q = (None, q') -> q' = q.
Proof. unfold EventQueue.try_pop. destruct (EventQueue.queue_ _); congruence. Qed.

Lemma engine_next_step st l st' : engine_next st = Some (l, st') -> step st l st' /\ engine_label l = true.
Proof.
  unfold engine_next. destruct (pc st) as [|n acc|next acc pips| |] eqn:Hpc; [..|done].
  - destruct (stop_requested st) eqn:Hs; intros [= <- <-]; split; try done; by constructor.
  - destruct (EngineLoop.control_tick (loop_ st) acc) as [self1 acc1] eqn:Ec.
    destruct (Nat.ltb_spec n EngineLoop.MAX_CMDS_PER_TICK) as [Hn|Hn].
    + destruct (PriorityCommandQueue.try_pop (EngineLoop.queue_ (loop_ st))) as [[cmd|] q] eqn:Eq.
      * destruct (EngineLoop.handle_command _ acc cmd) as [self2 acc2] eqn:Eh. intros [= <- <-].
        split; [by eapply step_pop|done].
      * intros [= <- <-]. rewrite (queue_unchanged _ _ Eq) in Eq. split; [by eapply step_drained|done].
    + intros [= <- <-]. split; [by eapply step_drained|done].
  - destruct (EventQueue.try_pop (EngineLoop.fleet_commands_ (loop_ st))) as [[cmd|] q] eqn:Eq.
    + destruct (EngineLoop.fleet_command _ acc pips cmd) as [[self2 acc2] pips2] eqn:Eh. intros [= <- <-].
      split; [by eapply step_fleet_pop|done].
    + rewrite (fleet_queue_unchanged _ _ Eq) in Eq. destruct (end_tick next (loop_ st) acc pips) as [self2 notices] eqn:Eh.
      intros [= <- <-]. split; [by eapply step_end|done].
  - destruct (Z.leb_spec (next_tick st) (clock st)); cbn [orb]; [|destruct (stop_requested st) eqn:Hs; [|done]];
      intros [= <- <-]; (split; [|done]); apply step_wake; auto.
Qed.

(** A schedule: what the other threads and the clock do, and when the engine
    thread has its turn. *)
Inductive Action : Type := APush (p : CommandPriority.t) (cmd : EnvelopedCommand) | AStop | AClock (now : Z) | AEngine.
Definition act (a : Action) (st : t) : option (Label * t) :=
  match a with
  | APush p cmd =>
      q ← PriorityCommandQueue.push (EngineLoop.queue_ (loop_ st)) cmd p;
      Some (LPush p cmd, st <| loop_ ::= fun self => self <| EngineLoop.queue_ := q |> |>)
  | AStop =>
      match EngineLoop.stop (loop_ st) with
      | (true, self) => Some (LStop, st <| loop_ := self |> <| stop_requested := true |>)
      | (false, _) => None
      end
  | AClock now => if clock st <=? now then Some (LClock, st <| clock := now |>) else None
  | AEngine => engine_next st
  end.
Fixpoint schedule (l : list Action) (st : t) : option (list Label * t) :=
  match l with
  | [] => Some ([], st)
  | a :: l => '(lbl, st) ← act a st; '(tr, st) ← schedule l st; Some (lbl :: tr, st)
  end.
Lemma schedule_steps l : forall st tr st', schedule l st = Some (tr, st') -> steps step st tr st'.
Proof.
  induction l as [|a l IH]; intros st tr st'; cbn.
  { intros [= <- <-]. constructor. }
  destruct (act a st) as [[lbl st1]|] eqn:Ea; [|done]. cbn.
  destruct (schedule l st1) as [[tr1 st2]|] eqn:Es; [|done]. cbn. intros [= <- <-].
  econstructor; [|by apply IH]. destruct a as [p cmd| |now|]; cbn in Ea.
  - destruct (PriorityCommandQueue.push _ _ _) as [q|] eqn:Eq; [|done]. injection Ea as <- <-. by constructor.
  - destruct (EngineLoop.stop _) as [[] self] eqn:Eq; [|done]. injection Ea as <- <-. by constructor.
  - destruct (Z.leb_spec (clock st) now); [|done]. injection Ea as <- <-. by constructor.
  - by apply engine_next_step.
Qed.
Lemma schedule_run l st : steps step st (from_option fst [] (schedule l st)) (from_option snd st (schedule l st)).
Proof. destruct (schedule l st) as [[tr st']|] eqn:E; [by apply (schedule_steps l)|constructor]. Qed.
End Thread.
Arguments t : clear implicits.

(** ** Whole ticks *)

Section Ticks.
Context {MO : MapOrder} {C : Type} {CS : ControlSystem C EngineState.t}.
Local Notation loop := (EngineLoop.t C).
Local Notation acc_0 := (EngineLoop.mkAcc [] []).
Implicit Types (self : loop) (acc : EngineLoop.Acc).

Definition fleet_all self acc (fcs : list FleetCommand) : loop * EngineLoop.Acc * list PipEvent :=
  fold_left (fun r cmd => EngineLoop.fleet_command r.1.1 r.1.2 r.2 cmd) fcs (self, acc, []).

(** A tick that finds these commands and these fleet requests. *)
Definition tick_of self (cmds : list EnvelopedCommand) (fcs : list FleetCommand) : loop * list Notice :=
  let '(self, acc) := handle_all self acc_0 cmds in
  let next_tick_num := u64 (current_tick (EngineLoop.state_ self) + 1) in
  let '(self, acc) := EngineLoop.control_tick self acc in
  let '(self, acc, pips) := fleet_all self acc fcs in
  end_tick next_tick_num self acc pips.

(** The loop without what the other threads touch. *)
Definition core self : loop :=
  self <| EngineLoop.queue_ := PriorityCommandQueue.create |> <| EngineLoop.fleet_commands_ := EventQueue.create |>
       <| EngineLoop.running_ := false |>.

Lemma handle_command_core self acc cmd :
  EngineLoop.handle_command (core self) acc cmd =
  (core (EngineLoop.handle_command self acc cmd).1, (EngineLoop.handle_command self acc cmd).2).
Proof.
  unfold EngineLoop.handle_command. cbn. destruct (check_command _ _ _); [done|]. by destruct (execute_command _ _ _).
Qed.
Lemma control_tick_core self acc :
  EngineLoop.control_tick (core self) acc =
  (core (EngineLoop.control_tick self acc).1, (EngineLoop.control_tick self acc).2).
Proof. unfold EngineLoop.control_tick. cbn. by destruct (on_tick _ _ _). Qed.
Lemma fleet_command_core self acc pips cmd :
  EngineLoop.fleet_command (core self) acc pips cmd =
  let r := EngineLoop.fleet_command self acc pips cmd in (core r.1.1, r.1.2, r.2).
Proof.
  unfold EngineLoop.fleet_command. cbn.
  by destruct cmd; destruct (_ : option string * TrainFleet.t * Effects) as [[? ?] ?].
Qed.
Lemma end_tick_core next self acc pips :
  end_tick next (core self) acc pips =
  (core (end_tick next self acc pips).1, (end_tick next self acc pips).2).
Proof.
  unfold end_tick, EngineLoop.tick_trains, EngineLoop.notify_pips. cbn.
  destruct (EngineLoop.train_fleet_ self); [done|]. by destruct (TrainFleet.tick_all _ _).
Qed.

Lemma handle_all_snoc self acc cmds cmd :
  handle_all self acc (cmds ++ [cmd]) =
  EngineLoop.handle_command (handle_all self acc cmds).1 (handle_all self acc cmds).2 cmd.
Proof. unfold handle_all. by rewrite fold_left_app. Qed.
Lemma fleet_all_snoc self acc fcs cmd :
  fleet_all self acc (fcs ++ [cmd]) =
  let r := fleet_all self acc fcs in EngineLoop.fleet_command r.1.1 r.1.2 r.2 cmd.
Proof. unfold fleet_all. by rewrite fold_left_app. Qed.

(** *** A tick in progress *)

(** [self] is the loop before the tick that has popped [cmds] and [fcs] so far. *)
Definition in_tick self (cmds : list EnvelopedCommand) (fcs : list FleetCommand) (st : t C) : Prop :=
  match pc st with
  | Draining n acc =>
      fcs = [] /\ length cmds = n /\ (n <= EngineLoop.MAX_CMDS_PER_TICK)%nat /\
      handle_all self acc_0 cmds = (core (loop_ st), acc)
  | FleetPhase next acc pips =>
      (length cmds <= EngineLoop.MAX_CMDS_PER_TICK)%nat /\
      next = u64 (current_tick (EngineLoop.state_ (handle_all self acc_0 cmds).1) + 1) /\
      let r := EngineLoop.control_tick (handle_all self acc_0 cmds).1 (handle_all self acc_0 cmds).2 in
      fleet_all r.1 r.2 fcs = (core (loop_ st), acc, pips)
  | _ => cmds = [] /\ fcs = [] /\ self = core (loop_ st)
  end.

Lemma step_in_tick self cmds fcs st l st' :
  in_tick self cmds fcs st -> step st l st' ->
  match l with
  | LPop cmd => in_tick self (cmds ++ [cmd]) fcs st'
  | LFleetPop cmd => in_tick self cmds (fcs ++ [cmd]) st'
  | LEnd notices =>
      (length cmds <= EngineLoop.MAX_CMDS_PER_TICK)%nat /\
      tick_of self cmds fcs = (core (loop_ st'), notices) /\ in_tick (core (loop_ st')) [] [] st'
  | _ => in_tick self cmds fcs st'
  end.
Proof.
  intros Hin Hstep. unfold in_tick in Hin. destruct Hstep as
    [st p cmd q Hq|st cmd self1 He|st self1 Hs|st now Hc|st Hpc Hs|st Hpc Hs|st n acc cmd q self1 acc1 Hpc Hn Hq Hh
    |st n acc self1 acc1 empty Hpc He Hh|st next acc pips cmd q self1 acc1 pips1 Hpc Hq Hh
    |st next acc pips self1 notices Hpc Hq Hh|st Hpc Hw].
  - exact Hin.
  - unfold EngineLoop.enqueue_fleet_command in He. destruct (EventQueue.push _ _); [|done].
    injection He as <-. exact Hin.
  - unfold EngineLoop.stop in Hs. destruct (EngineLoop.running_ _); [|done]. injection Hs as <-. exact Hin.
  - exact Hin.
  - rewrite Hpc in Hin. destruct Hin as (-> & -> & ->). unfold in_tick. cbn. split_and!; [done|done|lia|done].
  - rewrite Hpc in Hin. exact Hin.
  - rewrite Hpc in Hin. destruct Hin as (-> & <- & Hle & Hall). unfold in_tick. cbn.
    split_and!; [done|rewrite length_app; cbn; lia|lia|]. rewrite handle_all_snoc, Hall. cbn [fst snd].
    change (core (loop_ st)) with (core (loop_ st <| EngineLoop.queue_ := q |>)).
    by rewrite handle_command_core, Hh.
  - rewrite Hpc in Hin. destruct Hin as (-> & <- & Hle & Hall). unfold in_tick. cbn.
    split_and!; [done|by rewrite Hall|]. rewrite Hall. cbn [fst snd]. by rewrite control_tick_core, Hh.
  - rewrite Hpc in Hin. destruct Hin as (Hle & Hnext & Hall). unfold in_tick. cbn [pc loop_ field_set].
    cbn zeta in Hall |- *. split_and!; [done|done|]. rewrite fleet_all_snoc. cbn zeta. rewrite Hall. cbn [fst snd].
    change (core (loop_ st)) with (core (loop_ st <| EngineLoop.fleet_commands_ := q |>)).
    by rewrite fleet_command_core, Hh.
  - rewrite Hpc in Hin. destruct Hin as (Hle & -> & Hall). cbn zeta in Hall. split; [done|]. split; [|done].
    unfold tick_of. destruct (handle_all self acc_0 cmds) as [self2 acc2]. cbn [fst snd] in *.
    destruct (EngineLoop.control_tick self2 acc2) as [self3 acc3]. cbn [fst snd] in *. rewrite Hall.
    by rewrite end_tick_core, Hh.
  - rewrite Hpc in Hin. exact Hin.
Qed.

(** *** A run as a sequence of ticks *)

Record Tick := mkTick { tk_cmds : list EnvelopedCommand; tk_fleet : list FleetCommand; tk_notices : list Notice }.

(** The completed ticks of a run, and what the tick in progress has popped. *)
Fixpoint ticks_from (cmds : list EnvelopedCommand) (fcs : list FleetCommand) (tr : list Label) :
    list Tick * (list EnvelopedCommand * list FleetCommand) :=
  match tr with
  | [] => ([], (cmds, fcs))
  | LPop cmd :: tr => ticks_from (cmds ++ [cmd]) fcs tr
  | LFleetPop cmd :: tr => ticks_from cmds (fcs ++ [cmd]) tr
  | LEnd notices :: tr =>
      let '(ticks, rest) := ticks_from [] [] tr in (mkTick cmds fcs notices :: ticks, rest)
  | _ :: tr => ticks_from cmds fcs tr
  end.
Definition ticks (tr : list Label) : list Tick := (ticks_from [] [] tr).1.

(** [self'] is what whole ticks make of [self]; none handles more than 64 commands. *)
Fixpoint ticked self (l : list Tick) (self' : loop) : Prop :=
  match l with
  | [] => self = self'
  | tk :: l =>
      (length (tk_cmds tk) <= EngineLoop.MAX_CMDS_PER_TICK)%nat /\
      (tick_of self (tk_cmds tk) (tk_fleet tk)).2 = tk_notices tk /\
      ticked (tick_of self (tk_cmds tk) (tk_fleet tk)).1 l self'
  end.

Lemma run_ticked self cmds fcs st tr st' :
  in_tick self cmds fcs st -> steps step st tr st' ->
  exists self', ticked self (ticks_from cmds fcs tr).1 self' /\
    in_tick self' (ticks_from cmds fcs tr).2.1 (ticks_from cmds fcs tr).2.2 st'.
Proof.
  intros Hin Hrun. revert self cmds fcs Hin.
  induction Hrun as [st|st st1 st2 l tr Hstep _ IH]; intros self cmds fcs Hin; [by exists self|].
  pose proof (step_in_tick _ _ _ _ _ _ Hin Hstep) as Hnext. destruct l; cbn [ticks_from]; try by apply IH.
  destruct Hnext as (Hle & Hof & Hnext). destruct (IH _ _ _ Hnext) as (self' & Ht & Hi).
  destruct (ticks_from [] [] tr) as [l rest]. exists self'. split; [|exact Hi].
  cbn [fst ticked tk_cmds tk_fleet tk_notices] in *. by rewrite Hof.
Qed.

(** The part of a run that each queue sees. *)
Definition queue_labels (tr : list Label) : list (QueueLabel (CommandPriority.t * EnvelopedCommand) EnvelopedCommand) :=
  omap (fun l => match l with
    | LPush p cmd => Some (Queues.LPush (p, cmd)) | LPop cmd => Some (LTryPop (Some cmd))
    | LDrained true => Some (LTryPop None) | _ => None end) tr.
Definition fleet_labels (tr : list Label) : list (QueueLabel FleetCommand FleetCommand) :=
  omap (fun l => match l with
    | LEnqueue cmd => Some (Queues.LPush cmd) | LFleetPop cmd => Some (LTryPop (Some cmd))
    | LEnd _ => Some (LTryPop None) | _ => None end) tr.

Lemma handle_command_queues self acc cmd :
  let self' := (EngineLoop.handle_command self acc cmd).1 in
  EngineLoop.queue_ self' = EngineLoop.queue_ self /\ EngineLoop.fleet_commands_ self' = EngineLoop.fleet_commands_ self.
Proof. unfold EngineLoop.handle_command. destruct (check_command _ _ _); [done|]. by destruct (execute_command _ _ _). Qed.
Lemma control_tick_queues self acc :
  let self' := (EngineLoop.control_tick self acc).1 in
  EngineLoop.queue_ self' = EngineLoop.queue_ self /\ EngineLoop.fleet_commands_ self' = EngineLoop.fleet_commands_ self.
Proof. unfold EngineLoop.control_tick. by destruct (on_tick _ _ _). Qed.
Lemma fleet_command_queues self acc pips cmd :
  let self' := (EngineLoop.fleet_command self acc pips cmd).1.1 in
  EngineLoop.queue_ self' = EngineLoop.queue_ self /\ EngineLoop.fleet_commands_ self' = EngineLoop.fleet_commands_ self.
Proof.
  unfold EngineLoop.fleet_command.
  by destruct cmd; destruct (_ : option string * TrainFleet.t * Effects) as [[? ?] ?].
Qed.
Lemma end_tick_queues next self acc pips :
  let self' := (end_tick next self acc pips).1 in
  EngineLoop.queue_ self' = EngineLoop.queue_ self /\ EngineLoop.fleet_commands_ self' = EngineLoop.fleet_commands_ self.
Proof.
  unfold end_tick, EngineLoop.tick_trains. destruct (EngineLoop.train_fleet_ self); [done|].
  by destruct (TrainFleet.tick_all _ _).
Qed.

Lemma run_queues st tr st' : steps step st tr st' ->
  steps PriorityCommandQueue.step (EngineLoop.queue_ (loop_ st)) (queue_labels tr) (EngineLoop.queue_ (loop_ st')) /\
  steps EventQueue.step (EngineLoop.fleet_commands_ (loop_ st)) (fleet_labels tr) (EngineLoop.fleet_commands_ (loop_ st')).
Proof.
  induction 1 as [st|st st1 st2 l tr Hstep _ [IHq IHf]]; [by split; constructor|].
  destruct Hstep as
    [st p cmd q Hq|st cmd self1 He|st self1 Hs|st now Hc|st Hpc Hs|st Hpc Hs|st n acc cmd q self1 acc1 Hpc Hn Hq Hh
    |st n acc self1 acc1 empty Hpc He Hh|st next acc pips cmd q self1 acc1 pips1 Hpc Hq Hh
    |st next acc pips self1 notices Hpc Hq Hh|st Hpc Hw]; cbn [queue_labels fleet_labels omap list_omap];
    try (by split).
  - split; [|exact IHf]. econstructor; [by constructor|exact IHq].
  - unfold EngineLoop.enqueue_fleet_command in He. destruct (EventQueue.push _ _) as [q|] eqn:Hq; [|done].
    injection He as <-. split; [exact IHq|]. econstructor; [by constructor|exact IHf].
  - unfold EngineLoop.stop in Hs. destruct (EngineLoop.running_ _); [|done]. injection Hs as <-. by split.
  - destruct (handle_command_queues (loop_ st <| EngineLoop.queue_ := q |>) acc cmd) as [Eq Ef]. rewrite Hh in Eq, Ef.
    cbn in *. rewrite Eq in IHq. rewrite Ef in IHf. split; [|exact IHf]. econstructor; [by constructor|exact IHq].
  - destruct (control_tick_queues (loop_ st) acc) as [Eq Ef]. rewrite Hh in Eq, Ef. cbn in *.
    rewrite Eq in IHq. rewrite Ef in IHf. destruct empty; [|by split]. destruct He as [_ He].
    split; [|exact IHf]. econstructor; [by constructor|exact IHq].
  - destruct (fleet_command_queues (loop_ st <| EngineLoop.fleet_commands_ := q |>) acc pips cmd) as [Eq Ef].
    rewrite Hh in Eq, Ef. cbn in *. rewrite Eq in IHq. rewrite Ef in IHf. split; [exact IHq|].
    econstructor; [by constructor|exact IHf].
  - destruct (end_tick_queues next (loop_ st) acc pips) as [Eq Ef]. rewrite Hh in Eq, Ef. cbn in *.
    rewrite Eq in IHq. rewrite Ef in IHf. split; [exact IHq|]. econstructor; [by constructor|exact IHf].
Qed.

(** Each whole tick refines the abstract system. *)
Local Notation world self := (EngineLoop.control_ self, EngineLoop.state_ self).

Lemma fleet_all_phase fcs self acc :
  let r := fleet_all self acc fcs in exists ds, train_phase self acc r.1.1 r.1.2 ds.
Proof.
  unfold fleet_all. generalize (@nil PipEvent). revert self acc.
  induction fcs as [|fc fcs IH]; intros self acc pips; [exists []; apply train_phase_refl|]. cbn [fold_left fst snd].
  destruct (fleet_command_phase self acc pips fc) as (ds & Hp).
  destruct (EngineLoop.fleet_command self acc pips fc) as [[self1 acc1] pips1]. cbn [fst snd] in *.
  destruct (IH self1 acc1 pips1) as (ds' & Hp'). exists (ds ++ ds'). by eapply train_phase_trans.
Qed.

Lemma tick_of_world self cmds fcs : rtc sys_step (world self) (world (tick_of self cmds fcs).1).
Proof.
  unfold tick_of. destruct (handle_all_phase cmds self acc_0) as (cs & _ & Hr).
  destruct (handle_all self acc_0 cmds) as [self1 acc1]. cbn [fst snd] in *. etrans; [exact Hr|].
  destruct (control_tick_phase self1 acc1) as (cs2 & _ & Hq2).
  destruct (EngineLoop.control_tick self1 acc1) as [self2 acc2]. cbn [fst snd] in *.
  destruct (fleet_all_phase fcs self2 acc2) as (ds3 & Hp3).
  destruct (fleet_all self2 acc2 fcs) as [[self3 acc3] pips]. cbn [fst snd] in *.
  pose proof (train_phase_trans _ _ _ _ _ _ _ _ Hp3 (notify_pips_phase self3 pips acc3)) as Hp3'.
  unfold end_tick. destruct (tick_trains_phase self3 (EngineLoop.notify_pips self3 pips acc3)) as (ds4 & Hp4).
  destruct (EngineLoop.tick_trains self3 _) as [self4 acc4]. cbn [fst snd] in *.
  destruct (train_phase_trans _ _ _ _ _ _ _ _ Hp3' Hp4) as [_ Hs4 _ _ Hx4 _].
  set (ds := (ds3 ++ []) ++ ds4) in *. eapply rtc_l; [apply step_tick|]. rewrite Hq2. cbn.
  rewrite Hs4, <-occupancies_set_tick by apply occupancies_filter.
  rewrite Hx4. apply occupancies_steps, occupancies_filter.
Qed.

Lemma ticked_world l : forall self self', ticked self l self' -> rtc sys_step (world self) (world self').
Proof.
  induction l as [|tk l IH]; intros self self'; [by intros ->|]. intros (_ & _ & Ht).
  etrans; [apply tick_of_world|]. by apply IH.
Qed.

(** Without interference a tick is [do_tick]. *)
Lemma handle_all_core cmds : forall self acc,
  handle_all (core self) acc cmds = (core (handle_all self acc cmds).1, (handle_all self acc cmds).2).
Proof.
  unfold handle_all. induction cmds as [|cmd cmds IH]; intros self acc; [done|]. cbn [fold_left fst snd].
  rewrite handle_command_core. destruct (EngineLoop.handle_command self acc cmd). apply IH.
Qed.
Lemma handle_all_fleet_queue cmds : forall self acc,
  EngineLoop.fleet_commands_ (handle_all self acc cmds).1 = EngineLoop.fleet_commands_ self.
Proof.
  unfold handle_all. induction cmds as [|cmd cmds IH]; intros self acc; [done|]. cbn [fold_left fst snd].
  destruct (handle_command_queues self acc cmd) as [_ <-]. destruct (EngineLoop.handle_command self acc cmd). apply IH.
Qed.
Lemma drain_fleet_core l : forall self acc pips,
  EventQueue.queue_ (EngineLoop.fleet_commands_ self) = l ->
  let r := EngineLoop.drain_fleet_commands (length l) self acc pips in
  fold_left (fun r cmd => EngineLoop.fleet_command r.1.1 r.1.2 r.2 cmd) l (core self, acc, pips) =
  (core r.1.1, r.1.2, r.2).
Proof.
  induction l as [|fc l IH]; intros self acc pips Hq; [done|].
  cbn [fold_left fst snd length EngineLoop.drain_fleet_commands].
  unfold EventQueue.try_pop. rewrite Hq. set (self1 := self <| EngineLoop.fleet_commands_ := _ |>).
  change (core self) with (core self1). rewrite fleet_command_core. cbn zeta.
  destruct (fleet_command_queues self1 acc pips fc) as [_ Ef].
  destruct (EngineLoop.fleet_command self1 acc pips fc) as [[self2 acc2] pips2]. cbn [fst snd] in *.
  apply IH. by rewrite Ef.
Qed.

Lemma do_tick_of self :
  let cmds := take EngineLoop.MAX_CMDS_PER_TICK (concat (PriorityCommandQueue.buckets_ (EngineLoop.queue_ self))) in
  let fcs := EventQueue.queue_ (EngineLoop.fleet_commands_ self) in
  tick_of (core self) cmds fcs = (core (EngineLoop.do_tick self).1, (EngineLoop.do_tick self).2).
Proof.
  intros cmds fcs. rewrite do_tick_split.
  destruct (drain_commands_spec EngineLoop.MAX_CMDS_PER_TICK self acc_0) as (q & -> & _).
  change (core self) with (core (self <| EngineLoop.queue_ := q |>)). unfold tick_of. rewrite handle_all_core, handle_all_queue. fold cmds.
  pose proof (handle_all_fleet_queue cmds self acc_0) as Hfc. unfold with_queue, after_commands.
  destruct (handle_all self acc_0 cmds) as [self1 acc1]. cbn [fst snd] in *.
  set (self1' := self1 <| EngineLoop.queue_ := q |>) in *.
  change (EngineLoop.fleet_commands_ self1) with (EngineLoop.fleet_commands_ self1') in Hfc. clearbody self1'.
  rewrite control_tick_core. destruct (control_tick_queues self1' acc1) as [_ Ef].
  change (EngineLoop.state_ (core self1')) with (EngineLoop.state_ self1').
  destruct (EngineLoop.control_tick self1' acc1) as [self2 acc2]. cbn [fst snd] in *.
  unfold fleet_all. rewrite (drain_fleet_core fcs self2 acc2 []) by (by rewrite Ef, Hfc). cbn zeta.
  unfold EventQueue.size. rewrite Ef, Hfc. fold fcs.
  destruct (EngineLoop.drain_fleet_commands _ self2 acc2 []) as [[self3 acc3] pips]. cbn [fst snd].
  rewrite end_tick_core. done.
Qed.

(** C10: the ticks are atomic for the world, whatever the other threads do
    meanwhile.  However pushes, fleet requests, stops and the steps of the engine
    thread interleave, between two ticks the world is what whole ticks, one
    after the other, make of the commands and requests each has popped, at most
    64 commands a tick, with the notices each has sent; the pops are those of
    the two queues under the same interleaving, so that none is lost or handled
    twice; and the world is reachable in the abstract system. *)
Theorem thread_refines_ticks self now tr st :
  steps step (create self now) tr st ->
  steps PriorityCommandQueue.step (EngineLoop.queue_ self) (queue_labels tr) (EngineLoop.queue_ (loop_ st)) /\
  steps EventQueue.step (EngineLoop.fleet_commands_ self) (fleet_labels tr) (EngineLoop.fleet_commands_ (loop_ st)) /\
  (match pc st with Top | Sleeping | Done => True | _ => False end ->
   ticked (core self) (ticks tr) (core (loop_ st)) /\ rtc sys_step (world self) (world (loop_ st))).
Proof.
  intros Hrun. destruct (run_queues _ _ _ Hrun) as [Hq Hf]. split_and!; [exact Hq|exact Hf|]. intros Hpc.
  destruct (run_ticked (core self) [] [] (create self now) tr st) as (self' & Ht & Hi); [done|exact Hrun|].
  assert (self' = core (loop_ st)) as -> by (unfold in_tick in Hi; destruct (pc st); naive_solver).
  split; [exact Ht|]. by apply ticked_world in Ht.
Qed.
End Ticks.

(** ** Pacing and stopping *)

Section Pacing.
Context {MO : MapOrder} {C : Type} {CS : ControlSystem C EngineState.t}.

(** When the ticks of a run began. *)
Definition begins (tr : list Label) : list Z := omap (fun l => match l with LBegin now => Some now | _ => None end) tr.

(** After [n] ticks begun, the thread waits for the time of the next one. *)
Definition paced (t0 : Z) (n : nat) (st : t C) : Prop :=
  t0 + TICK_PERIOD * (Z.of_nat n - 1) <= clock st /\
  match pc st with
  | Top => next_tick st = t0 + TICK_PERIOD * (Z.of_nat n + 1) /\
      (stop_requested st = true \/ t0 + TICK_PERIOD * Z.of_nat n <= clock st)
  | Done => stop_requested st = true
  | _ => next_tick st = t0 + TICK_PERIOD * Z.of_nat n
  end.

Lemma step_paced t0 n st l st' : paced t0 n st -> step st l st' ->
  match l with
  | LBegin now => t0 + TICK_PERIOD * Z.of_nat n <= now /\ paced t0 (S n) st'
  | _ => paced t0 n st'
  end.
Proof.
  intros [Hc Hp] Hstep. unfold paced in *. destruct Hstep as
    [st p cmd q Hq|st cmd self1 He|st self1 Hs|st now Hn|st Hpc Hs|st Hpc Hs|st k acc cmd q self1 acc1 Hpc Hn Hq Hh
    |st k acc self1 acc1 empty Hpc He Hh|st next acc pips cmd q self1 acc1 pips1 Hpc Hq Hh
    |st next acc pips self1 notices Hpc Hq Hh|st Hpc Hw]; cbn in *; try done.
  - destruct (pc st); naive_solver.
  - split; [lia|]. destruct (pc st); naive_solver lia.
  - rewrite Hpc in Hp. destruct Hp as [Hx [Hr|Ht]]; [congruence|]. split_and!; lia.
  - by rewrite Hpc in Hp.
  - by rewrite Hpc in Hp.
  - by rewrite Hpc in Hp.
  - by rewrite Hpc in Hp.
  - rewrite Hpc in Hp. unfold TICK_PERIOD in *. split; [lia|]. destruct Hw; [|naive_solver lia]. split; [lia|]. right. lia.
Qed.

Lemma run_paced t0 st tr st' n : paced t0 n st -> steps step st tr st' ->
  paced t0 (n + length (begins tr)) st' /\
  (forall k now, begins tr !! k = Some now -> t0 + TICK_PERIOD * Z.of_nat (n + k) <= now).
Proof.
  intros Hp Hrun. revert n Hp. induction Hrun as [st|st st1 st2 l tr Hstep _ IH]; intros n Hp.
  - split; [by rewrite Nat.add_0_r|done].
  - pose proof (step_paced _ _ _ _ _ Hp Hstep) as Hnext.
    destruct l; try (by apply (IH n)). destruct Hnext as [Hnow Hp']. destruct (IH _ Hp') as [IHp IHk].
    cbn [begins omap list_omap length]. rewrite Nat.add_succ_r. split; [exact IHp|].
    intros [|k] x Hk; cbn in Hk; [injection Hk as <-; by rewrite Nat.add_0_r|].
    rewrite Nat.add_succ_r. by apply IHk.
Qed.

(** C11: the simulation never runs ahead of the clock.  In every run of the
    engine thread the tick number [k], counted from 0, begins no earlier than
    [k] periods of 50 ms after the thread has started, however late or slow the
    ticks before it were; so at any time at most one tick more has begun than
    whole periods have passed, and ticks that are late are caught up without
    being lost: the next one is always due one period after the last. *)
Theorem ticks_paced self now tr st :
  steps step (create self now) tr st ->
  (forall k t, begins tr !! k = Some t -> now + TICK_PERIOD * Z.of_nat k <= t) /\
  Z.of_nat (length (begins tr)) <= (clock st - now) / TICK_PERIOD + 1 /\
  (pc st = Sleeping -> next_tick st = now + TICK_PERIOD * Z.of_nat (length (begins tr))).
Proof.
  intros Hrun. destruct (run_paced now (create self now) tr st 0) as [[Hc Hp] Hk].
  - unfold paced, create, TICK_PERIOD. cbn. split; [lia|]. split; [lia|]. right. lia.
  - exact Hrun.
  - cbn [Nat.add] in *. split_and!; [exact Hk| |].
    + assert (Z.of_nat (length (begins tr)) - 1 <= (clock st - now) / TICK_PERIOD); [|lia].
      apply Z.div_le_lower_bound; unfold TICK_PERIOD in *; lia.
    + intros Hpc. by rewrite Hpc in Hp.
Qed.

(** What is left for the engine thread to do until it stands at the head of its
    loop, as long as no fleet request is added. *)
Definition enqueued (l : Label) : bool := match l with LEnqueue _ => true | _ => false end.
Definition work (st : t C) : nat :=
  match pc st with
  | Done => 0
  | Top => 1
  | Sleeping => 2
  | FleetPhase _ _ _ => EventQueue.size (EngineLoop.fleet_commands_ (loop_ st)) + 3
  | Draining n _ => (EngineLoop.MAX_CMDS_PER_TICK - n) + EventQueue.size (EngineLoop.fleet_commands_ (loop_ st)) + 4
  end.

Lemma step_work st l st' : step st l st' -> stop_requested st = true ->
  stop_requested st' = true /\ begins [l] = [] /\
  (work st' + (if engine_label l then 1 else 0) <= work st + (if enqueued l then 1 else 0))%nat.
Proof.
  intros Hstep Hstop. unfold work. destruct Hstep as
    [st p cmd q Hq|st cmd self1 He|st self1 Hs|st now Hn|st Hpc Hs|st Hpc Hs|st k acc cmd q self1 acc1 Hpc Hn Hq Hh
    |st k acc self1 acc1 empty Hpc He Hh|st next acc pips cmd q self1 acc1 pips1 Hpc Hq Hh
    |st next acc pips self1 notices Hpc Hq Hh|st Hpc Hw]; cbn [stop_requested pc loop_ field_set engine_label enqueued begins omap list_omap].
  - split_and!; [done..|]. cbn. destruct (pc st); lia.
  - unfold EngineLoop.enqueue_fleet_command in He. destruct (EventQueue.push _ _) as [q|] eqn:Hq; [|done].
    injection He as <-. unfold EventQueue.push in Hq. destruct (EventQueue.closed_ _); [done|]. injection Hq as <-.
    split_and!; [done..|]. unfold EventQueue.size. cbn. rewrite length_app. cbn. destruct (pc st); lia.
  - unfold EngineLoop.stop in Hs. destruct (EngineLoop.running_ _); [|done]. injection Hs as <-.
    split_and!; [done..|]. cbn. destruct (pc st); lia.
  - split_and!; [done..|]. destruct (pc st); lia.
  - congruence.
  - rewrite Hpc. split_and!; [done..|lia].
  - destruct (handle_command_queues (loop_ st <| EngineLoop.queue_ := q |>) acc cmd) as [_ Ef]. rewrite Hh in Ef.
    cbn in Ef. rewrite Hpc, Ef. split_and!; [done..|lia].
  - destruct (control_tick_queues (loop_ st) acc) as [_ Ef]. rewrite Hh in Ef. cbn in Ef. rewrite Hpc, Ef.
    split_and!; [done..|lia].
  - destruct (fleet_command_queues (loop_ st <| EngineLoop.fleet_commands_ := q |>) acc pips cmd) as [_ Ef].
    rewrite Hh in Ef. cbn in Ef. rewrite Hpc, Ef. unfold EventQueue.try_pop in Hq.
    unfold EventQueue.size. destruct (EventQueue.queue_ (EngineLoop.fleet_commands_ (loop_ st))); [done|].
    injection Hq as <- <-. cbn. split_and!; [done..|lia].
  - rewrite Hpc. split_and!; [done..|lia].
  - rewrite Hpc. split_and!; [done..|lia].
Qed.

(** C12: the engine thread ends when it is asked to.  From the moment of the
    request no tick begins any more; the thread is gone after at most the rest of
    the running tick, 64 commands and the fleet requests that are waiting or
    still come in, and four steps; and until it is gone it never waits. *)
Theorem stop_ends_thread (st : t C) tr st' :
  stop_requested st = true -> steps step st tr st' ->
  begins tr = [] /\
  (length (List.filter engine_label tr) <=
     EngineLoop.MAX_CMDS_PER_TICK + EventQueue.size (EngineLoop.fleet_commands_ (loop_ st)) + 4 +
     length (List.filter enqueued tr))%nat /\
  (pc st' <> Done -> exists l st'', engine_next st' = Some (l, st'')).
Proof.
  intros Hstop Hrun.
  assert (stop_requested st' = true /\ begins tr = [] /\
    (work st' + length (List.filter engine_label tr) <= work st + length (List.filter enqueued tr))%nat) as (Hs' & Hb & Hw).
  { induction Hrun as [st|st st1 st2 l tr Hstep _ IH]; [split_and!; [done..|cbn; lia]|].
    destruct (step_work _ _ _ Hstep Hstop) as (Hs1 & Hb1 & Hw1). destruct (IH Hs1) as (Hs2 & Hb2 & Hw2).
    split_and!; [done| |].
    - unfold begins in *. cbn in *. by destruct l.
    - cbn [List.filter]. destruct (engine_label l), (enqueued l); cbn [length] in *; lia. }
  split_and!; [done| |].
  - assert (work st <= EngineLoop.MAX_CMDS_PER_TICK + EventQueue.size (EngineLoop.fleet_commands_ (loop_ st)) + 4)%nat
      by (unfold work; destruct (pc st); cbn; lia). lia.
  - intros Hpc. unfold engine_next. rewrite Hs'. destruct (pc st') as [|n acc|next acc pips| |]; [by do 2 eexists|..|done].
    + destruct (EngineLoop.control_tick _ _), (PriorityCommandQueue.try_pop _) as [[cmd|] q];
        [destruct (EngineLoop.handle_command _ _ _)|]; destruct (n <? _)%nat; by do 2 eexists.
    + destruct (EventQueue.try_pop _) as [[cmd|] q];
        [destruct (EngineLoop.fleet_command _ _ _ _) as [[? ?] ?]|destruct (end_tick _ _ _ _)]; by do 2 eexists.
    + rewrite orb_true_r. by do 2 eexists.
Qed.
End Pacing.
End EngineRun.

(** ** A run of the demo station *)

Module EngineRunDemo.
Import EngineRun.
(** A command arrives while the first one is handled, and is handled in the same
    tick; the second tick comes 90 ms late, the engine is stopped during it. *)
Definition start : EngineLoop.t EbiLockSystem.t := (EngineLoop.start (demo_loop [throw_W1])).2.
Definition actions : list Action :=
  [AEngine; AEngine; APush CommandPriority.EMERGENCY throw_unknown; AEngine; AEngine; AEngine; AClock 140000000; AEngine;
   AEngine; AEngine; AStop; AEngine].
Definition trace : list Label := from_option fst [] (schedule actions (create start 0)).
Definition final : t EbiLockSystem.t := from_option snd (create start 0) (schedule actions (create start 0)).
Lemma run_steps : steps step (create start 0) trace final.
Proof. exact (schedule_run actions (create start 0)). Qed.
End EngineRunDemo.

Lemma thread_refines_ticks_witness :
  (length <$> (EngineRun.tk_cmds <$> EngineRun.ticks EngineRunDemo.trace)) = [2%nat; 0%nat] /\
  EngineRun.ticked (EngineRun.core EngineRunDemo.start) (EngineRun.ticks EngineRunDemo.trace)
    (EngineRun.core (EngineRun.loop_ EngineRunDemo.final)).
Proof.
  split; [by vm_compute|].
  destruct (EngineRun.thread_refines_ticks EngineRunDemo.start 0 EngineRunDemo.trace EngineRunDemo.final
    EngineRunDemo.run_steps) as (_ & _ & H).
  apply H. by vm_compute.
Defined.

Lemma ticks_paced_witness :
  EngineRun.begins EngineRunDemo.trace = [0; 140000000] /\
  EngineRun.next_tick EngineRunDemo.final = 0 + EngineRun.TICK_PERIOD * 2.
Proof.
  split; [by vm_compute|].
  destruct (EngineRun.ticks_paced EngineRunDemo.start 0 EngineRunDemo.trace EngineRunDemo.final
    EngineRunDemo.run_steps) as (_ & _ & H).
  apply H. by vm_compute.
Defined.

Lemma stop_ends_thread_witness : exists l st, EngineRun.engine_next EngineRunDemo.final = Some (l, st).
Proof.
  destruct (EngineRun.stop_ends_thread EngineRunDemo.final [] EngineRunDemo.final) as (_ & _ & H).
  - by vm_compute.
  - constructor.
  - apply H. by vm_compute.
Defined.
