(* ===== verification/Frame.v ===== *)
(** * Frame: the wire format

    [server/include/server/frame.hpp], [server/src/frame.cpp] and the chunking
    of [engine/src/snapshot_service.cpp].  A byte is a [Z] in [0 .. 255].
    Theorems: decoding inverts encoding, a frame with one corrupted byte is
    refused, a strict prefix of a frame asks for more data. *)
From S2P Require Import Prelude.
Local Open Scope Z_scope.

Definition byte : Type := Z.
Definition is_byte (b : byte) : Prop := fits 8 b.

(* SRC server/include/server/frame.hpp 30-33 kMagicByte0 *)
Definition kMagicByte0 : byte := 0x53.
(* SRC server/include/server/frame.hpp 30-30 kMagicByte1 *)
Definition kMagicByte1 : byte := 0x52.
(* SRC server/include/server/frame.hpp 31-31 kHeaderSize *)
Definition kHeaderSize : Z := 16.
(* SRC server/include/server/frame.hpp 32-32 kMaxPayloadLen *)
Definition kMaxPayloadLen : Z := 65535.
(* SRC server/include/server/frame.hpp 36-36 kFlagIsLastChunk *)
Definition kFlagIsLastChunk : byte := 0x01.

Module msg_type.
(* SRC server/include/server/frame.hpp 38-58 msg_type *)
Definition kHandshake : byte := 0x01.
(* SRC server/include/server/frame.hpp 41-41 kHandshakeAck *)
Definition kHandshakeAck : byte := 0x02.
(* SRC server/include/server/frame.hpp 42-42 kHeartbeat *)
Definition kHeartbeat : byte := 0x03.
(* SRC server/include/server/frame.hpp 43-43 kHeartbeatAck *)
Definition kHeartbeatAck : byte := 0x04.
(* SRC server/include/server/frame.hpp 44-44 kCommand *)
Definition kCommand : byte := 0x10.
(* SRC server/include/server/frame.hpp 45-45 kCommandAck *)
Definition kCommandAck : byte := 0x11.
(* SRC server/include/server/frame.hpp 46-46 kCommandNak *)
Definition kCommandNak : byte := 0x12.
(* SRC server/include/server/frame.hpp 47-47 kDomainEvent *)
Definition kDomainEvent : byte := 0x20.
(* SRC server/include/server/frame.hpp 48-48 kSnapshotRequest *)
Definition kSnapshotRequest : byte := 0x30.
(* SRC server/include/server/frame.hpp 49-49 kSnapshotChunk *)
Definition kSnapshotChunk : byte := 0x31.
(* SRC server/include/server/frame.hpp 50-50 kSessionNotice *)
Definition kSessionNotice : byte := 0x40.
(* SRC server/include/server/frame.hpp 51-51 kTakeoverRequest *)
Definition kTakeoverRequest : byte := 0x50.
(* SRC server/include/server/frame.hpp 52-52 kTakeoverResponse *)
Definition kTakeoverResponse : byte := 0x51.
(* SRC server/include/server/frame.hpp 53-53 kChatMessage *)
Definition kChatMessage : byte := 0x60.
(* SRC server/include/server/frame.hpp 54-54 kDispatchChannel *)
Definition kDispatchChannel : byte := 0x61.
(* SRC server/include/server/frame.hpp 55-55 kVoiceChanJoin *)
Definition kVoiceChanJoin : byte := 0x70.
(* SRC server/include/server/frame.hpp 56-56 kVoiceChanLeave *)
Definition kVoiceChanLeave : byte := 0x71.
(* SRC server/include/server/frame.hpp 57-57 kVoiceChanState *)
Definition kVoiceChanState : byte := 0x72.
End msg_type.

(** ** CRC-32/ISO-HDLC *)

(* SRC server/src/frame.cpp 30-31 crc32_update *)
Definition crc_bit (c : Z) : Z :=
  if Z.testbit c 0 then Z.lxor 0xEDB88320 (Z.shiftr c 1) else Z.shiftr c 1.
(* SRC server/src/frame.cpp 23-35 crc32_update *)
Definition crc_table : list Z := (fun i => Nat.iter 8 crc_bit i) <$> seqZ 0 256.

(** [table[i]]; the index is masked to 8 bits, so it is never out of range. *)
Definition crc_entry (i : Z) : Z := default 0 (crc_table !! Z.to_nat i).
(* SRC server/src/frame.cpp 36-37 crc32_update *)
Definition crc_step (crc : Z) (b : byte) : Z :=
  Z.lxor (crc_entry (Z.land (Z.lxor crc b) 0xFF)) (Z.shiftr crc 8).
(* SRC server/src/frame.cpp 21-39 crc32_update *)
Definition crc32_update (crc : Z) (data : list byte) : Z := fold_left crc_step data crc.
(* SRC server/src/frame.cpp 43-46 crc32_iso_hdlc *)
Definition crc32_iso_hdlc (data : list byte) : Z := Z.lxor (crc32_update 0xFFFFFFFF data) 0xFFFFFFFF.

(** ** Little-endian 32-bit fields *)

(* SRC server/src/frame.cpp 62-65 encode_frame *)
Definition le32 (x : Z) : list byte :=
  [u8 (Z.land x 0xFF); u8 (Z.land (Z.shiftr x 8) 0xFF);
   u8 (Z.land (Z.shiftr x 16) 0xFF); u8 (Z.land (Z.shiftr x 24) 0xFF)].
(* SRC server/src/frame.cpp 148-150 decode_frame *)
Definition un_le32 (b0 b1 b2 b3 : byte) : Z :=
  Z.lor (Z.lor (Z.lor b0 (Z.shiftl b1 8)) (Z.shiftl b2 16)) (Z.shiftl b3 24).

(** ** Encoding *)

(** The header up to the CRC. *)
(* SRC server/src/frame.cpp 56-70 encode_frame *)
Definition header (msg_type flags : byte) (seq_id payload_len : Z) : list byte :=
  [kMagicByte0; kMagicByte1; msg_type; flags] ++ le32 seq_id ++ le32 payload_len.

(* SRC server/src/frame.cpp 51-89 encode_frame *)
Definition encode_frame (msg_type flags : byte) (seq_id : Z) (payload : list byte) : list byte :=
  let payload_len := u32 (Z.of_nat (length payload)) in
  let h := header msg_type flags seq_id payload_len in
  let body := take (Z.to_nat payload_len) payload in
  let crc := crc32_update 0xFFFFFFFF h in
  let crc := if 0 <? payload_len then crc32_update crc body else crc in
  let crc := Z.lxor crc 0xFFFFFFFF in
  h ++ le32 crc ++ body.

(** ** Decoding *)

(* SRC server/include/server/frame.hpp 86-93 FrameDecodeStatus *)
Inductive FrameDecodeStatus : Set := kOk | kNeedMoreData | kBadMagic | kBadLength | kBadCrc.
#[export] Instance FrameDecodeStatus_eq_dec : EqDecision FrameDecodeStatus.
Proof. solve_decision. Defined.

(* SRC server/include/server/frame.hpp 95-101 DecodedFrame *)
Record DecodedFrame := mkDecodedFrame {
  fr_msg_type : byte; fr_flags : byte; fr_seq_id : Z; fr_payload : list byte }.
Definition DecodedFrame_default : DecodedFrame := mkDecodedFrame 0 0 0 [].

(* SRC server/include/server/frame.hpp 103-108 FrameDecodeResult *)
Record FrameDecodeResult := mkFrameDecodeResult {
  fd_status : FrameDecodeStatus; fd_frame : DecodedFrame; fd_bytes_consumed : Z }.
Definition no_frame (status : FrameDecodeStatus) : FrameDecodeResult :=
  mkFrameDecodeResult status DecodedFrame_default 0.

(** [data[k]], for a [k] within [available]. *)
Definition byte_at (data : list byte) (k : nat) : byte := default 0 (data !! k).
Definition u32_at (data : list byte) (k : nat) : Z :=
  un_le32 (byte_at data k) (byte_at data (k + 1)) (byte_at data (k + 2)) (byte_at data (k + 3)).

(* SRC server/src/frame.cpp 93-159 decode_frame *)
Definition decode_frame (data : list byte) : FrameDecodeResult :=
  let available := Z.of_nat (length data) in
  if available <? kHeaderSize then no_frame kNeedMoreData
  else if negb (byte_at data 0 =? kMagicByte0) || negb (byte_at data 1 =? kMagicByte1) then
    no_frame kBadMagic
  else
    let payload_len := u32_at data 8 in
    if kMaxPayloadLen <? payload_len then no_frame kBadLength
    else
      let total := kHeaderSize + payload_len in
      if available <? total then no_frame kNeedMoreData
      else
        let expected_crc := u32_at data 12 in
        let payload := take (Z.to_nat payload_len) (drop 16 data) in
        let actual_crc := crc32_update 0xFFFFFFFF (take 12 data) in
        let actual_crc := if 0 <? payload_len then crc32_update actual_crc payload else actual_crc in
        let actual_crc := Z.lxor actual_crc 0xFFFFFFFF in
        if negb (actual_crc =? expected_crc) then no_frame kBadCrc
        else
          mkFrameDecodeResult kOk
            (mkDecodedFrame (byte_at data 2) (byte_at data 3) (u32_at data 4) payload) total.

(** ** Snapshot chunks *)

Module SnapshotService.
(* SRC engine/include/engine/core/snapshot_service.hpp 22-22 SnapshotService::DEFAULT_CHUNK_SIZE *)
Definition DEFAULT_CHUNK_SIZE : nat := 64 * 1024.

(** The rest of the buffer from [offset] on; [fuel] bounds the number of chunks. *)
(* SRC engine/src/snapshot_service.cpp 243-249 SnapshotService::chunk *)
Fixpoint chunk_from (fuel : nat) (binary : list byte) (chunk_size : nat) : list (list byte) :=
  match fuel, binary with
  | O, _ | _, [] => []
  | S fuel, _ => take chunk_size binary :: chunk_from fuel (drop chunk_size binary) chunk_size
  end.

(* SRC engine/src/snapshot_service.cpp 234-251 SnapshotService::chunk *)
Definition chunk (binary : list byte) (chunk_size : nat) : list (list byte) :=
  if bool_decide (binary = []) || (chunk_size =? 0)%nat then [[]]
  else chunk_from (length binary) binary chunk_size.
End SnapshotService.

(** The check value of CRC-32/ISO-HDLC: the CRC of the bytes "123456789". *)
Example crc_check_value : crc32_iso_hdlc [49; 50; 51; 52; 53; 54; 55; 56; 57] = 0xCBF43926.
Proof. vm_compute. reflexivity. Qed.

(** ** Little-endian round trip *)

Lemma land_ff x : Z.land x 0xFF = x mod 2 ^ 8.
Proof. apply (Z.land_ones x 8). lia. Qed.

Lemma le32_digits x :
  le32 x = [x mod 2 ^ 8; x / 2 ^ 8 mod 2 ^ 8; x / 2 ^ 16 mod 2 ^ 8; x / 2 ^ 24 mod 2 ^ 8].
Proof.
  unfold le32. rewrite !land_ff, !Z.shiftr_div_pow2 by lia. unfold wrap. by rewrite !Zmod_mod.
Qed.

Lemma un_le32_digits b0 b1 b2 b3 :
  is_byte b0 -> is_byte b1 -> is_byte b2 -> is_byte b3 ->
  un_le32 b0 b1 b2 b3 = b0 + b1 * 2 ^ 8 + b2 * 2 ^ 16 + b3 * 2 ^ 24.
Proof.
  unfold is_byte, fits, un_le32. intros H0 H1 H2 H3.
  rewrite (Z.lor_comm b0), (lor_shiftl b1 b0 8) by lia.
  rewrite (Z.lor_comm _ (Z.shiftl b2 16)), lor_shiftl by lia.
  rewrite (Z.lor_comm _ (Z.shiftl b3 24)), lor_shiftl by lia. lia.
Qed.

Lemma le32_bytes x : Forall is_byte (le32 x).
Proof. rewrite le32_digits. unfold is_byte, fits. repeat constructor; apply Z.mod_pos_bound; lia. Qed.

Lemma un_le32_le32 x b0 b1 b2 b3 : fits 32 x -> le32 x = [b0; b1; b2; b3] -> un_le32 b0 b1 b2 b3 = x.
Proof.
  intros Hx Hl. pose proof (le32_bytes x) as Hb. rewrite Hl in Hb. rewrite !Forall_cons in Hb.
  destruct Hb as (H0 & H1 & H2 & H3 & _). rewrite un_le32_digits by done.
  rewrite le32_digits in Hl. injection Hl as <- <- <- <-. unfold fits in Hx.
  Z.div_mod_to_equations. lia.
Qed.

Lemma le32_inj b0 b1 b2 b3 c0 c1 c2 c3 :
  Forall is_byte [b0; b1; b2; b3] -> Forall is_byte [c0; c1; c2; c3] ->
  un_le32 b0 b1 b2 b3 = un_le32 c0 c1 c2 c3 -> [b0; b1; b2; b3] = [c0; c1; c2; c3].
Proof.
  rewrite !Forall_cons. intros (H0 & H1 & H2 & H3 & _) (J0 & J1 & J2 & J3 & _).
  rewrite !un_le32_digits by done. unfold is_byte, fits in *. intros H. repeat f_equal; lia.
Qed.

(** ** The CRC sees every single byte *)

Definition crc_high (i : Z) : Z := Z.shiftr (crc_entry i) 24.

(** The high bytes of the table are a permutation of the bytes, and its entries have 32 bits. *)
Lemma crc_table_facts :
  bool_decide (NoDup (crc_high <$> seqZ 0 256)) = true /\
  forallb (fun i => (0 <=? crc_entry i) && (crc_entry i <? 2 ^ 32)) (seqZ 0 256) = true.
Proof. vm_compute. by split. Qed.

Lemma crc_entry_fits i : is_byte i -> fits 32 (crc_entry i).
Proof.
  intros Hi. destruct crc_table_facts as [_ H]. rewrite forallb_forall in H.
  assert (In i (seqZ 0 256)) as Hin by (apply list_elem_of_In, elem_of_seqZ; unfold is_byte, fits in Hi; lia).
  specialize (H i Hin). apply andb_true_iff in H as [H1%Z.leb_le H2%Z.ltb_lt]. by split.
Qed.

Lemma crc_high_inj i j : is_byte i -> is_byte j -> crc_high i = crc_high j -> i = j.
Proof.
  unfold is_byte, fits. intros Hi Hj Heq. destruct crc_table_facts as [H _].
  apply bool_decide_eq_true in H. rewrite NoDup_alt in H.
  assert (forall k, 0 <= k < 256 -> (crc_high <$> seqZ 0 256) !! Z.to_nat k = Some (crc_high k)) as Hl.
  { intros k Hk. rewrite list_lookup_fmap, lookup_seqZ_lt by lia. cbn. do 2 f_equal. lia. }
  specialize (H (Z.to_nat i) (Z.to_nat j) (crc_high i)). rewrite Hl in H by lia.
  rewrite Hl, Heq in H by lia. specialize (H eq_refl eq_refl). lia.
Qed.

Lemma lxor_cancel_r a b c : Z.lxor a c = Z.lxor b c -> a = b.
Proof.
  intros H. rewrite <-(Z.lxor_0_r a), <-(Z.lxor_0_r b), <-(Z.lxor_nilpotent c).
  by rewrite <-!Z.lxor_assoc, H.
Qed.
Lemma lxor_cancel_l a b c : Z.lxor c a = Z.lxor c b -> a = b.
Proof. rewrite !(Z.lxor_comm c). apply lxor_cancel_r. Qed.

Lemma crc_index_byte crc b : is_byte (Z.land (Z.lxor crc b) 0xFF).
Proof. rewrite land_ff. apply Z.mod_pos_bound. lia. Qed.

Lemma crc_index_split crc b :
  is_byte b -> Z.land (Z.lxor crc b) 0xFF = Z.lxor (Z.land crc 0xFF) b.
Proof.
  intros Hb. apply Z.bits_inj'. intros n Hn. rewrite Z.land_spec, !Z.lxor_spec, Z.land_spec.
  change 0xFF with (Z.ones 8). destruct (Z.ltb_spec n 8).
  - rewrite Z.ones_spec_low by lia. by rewrite !andb_true_r.
  - rewrite Z.ones_spec_high by lia. rewrite !andb_false_r. cbn.
    unfold is_byte, fits in Hb. rewrite <-(Z.mod_small b (2 ^ 8)) by lia.
    by rewrite Z.mod_pow2_bits_high by lia.
Qed.

Lemma crc_step_byte_inj crc b c : is_byte b -> is_byte c -> crc_step crc b = crc_step crc c -> b = c.
Proof.
  intros Hb Hc H. apply lxor_cancel_r in H.
  apply (f_equal (fun x => Z.shiftr x 24)), crc_high_inj in H; [|apply crc_index_byte..].
  rewrite !crc_index_split in H by done. by apply lxor_cancel_l in H.
Qed.

(** The index of the table can be read off the high byte of the new state. *)
Lemma crc_step_high crc b : fits 32 crc -> Z.shiftr (crc_step crc b) 24 = crc_high (Z.land (Z.lxor crc b) 0xFF).
Proof.
  intros Hc. unfold crc_step, crc_high. rewrite Z.shiftr_lxor, Z.shiftr_shiftr by lia.
  rewrite (Z.shiftr_div_pow2 crc) by lia. unfold fits in Hc. rewrite Z.div_small by lia. apply Z.lxor_0_r.
Qed.

Lemma crc_step_state_inj c1 c2 b :
  is_byte b -> fits 32 c1 -> fits 32 c2 -> crc_step c1 b = crc_step c2 b -> c1 = c2.
Proof.
  intros Hb H1 H2 H.
  assert (Z.land (Z.lxor c1 b) 0xFF = Z.land (Z.lxor c2 b) 0xFF) as Hi.
  { apply crc_high_inj; [apply crc_index_byte..|]. by rewrite <-!crc_step_high, H. }
  unfold crc_step in H. rewrite Hi in H. apply lxor_cancel_l in H.
  rewrite !crc_index_split in Hi by done. apply lxor_cancel_r in Hi.
  rewrite !land_ff in Hi. rewrite !Z.shiftr_div_pow2 in H by lia.
  rewrite (Z.div_mod c1 (2 ^ 8)), (Z.div_mod c2 (2 ^ 8)) by lia. congruence.
Qed.

Lemma crc_step_fits crc b : fits 32 crc -> fits 32 (crc_step crc b).
Proof.
  intros Hc. apply lxor_fits; [lia|apply crc_entry_fits, crc_index_byte|].
  unfold fits in *. rewrite Z.shiftr_div_pow2 by lia. split; [apply Z.div_pos; lia|].
  apply Z.div_lt_upper_bound; lia.
Qed.

Lemma crc_update_fits data crc : fits 32 crc -> fits 32 (crc32_update crc data).
Proof.
  revert crc. unfold crc32_update. induction data as [|b data IH]; intros crc H; [done|].
  cbn. by apply IH, crc_step_fits.
Qed.

Lemma crc_update_state_inj data c1 c2 :
  Forall is_byte data -> fits 32 c1 -> fits 32 c2 -> crc32_update c1 data = crc32_update c2 data -> c1 = c2.
Proof.
  intros Hd. revert c1 c2. unfold crc32_update. induction Hd as [|b data Hb _ IH]; intros c1 c2 H1 H2 H; [done|].
  cbn in H. apply IH in H; [|by apply crc_step_fits..]. by apply crc_step_state_inj in H.
Qed.

(** Replacing one byte always changes the CRC. *)
Lemma crc_detects_byte data k b old crc :
  fits 32 crc -> Forall is_byte data -> is_byte b -> data !! k = Some old -> b <> old ->
  crc32_update crc (<[k := b]> data) <> crc32_update crc data.
Proof.
  intros Hc Hd Hb Hk Hne. revert k crc Hc Hk. induction Hd as [|x data Hx Hd IH]; intros k crc Hc Hk; [done|].
  destruct k as [|k]; cbn in Hk; unfold crc32_update; cbn [fold_left insert list_insert].
  - injection Hk as ->. intros H. apply Hne.
    apply (crc_update_state_inj data) in H; [|done|by apply crc_step_fits..].
    by apply crc_step_byte_inj in H.
  - apply IH; [by apply crc_step_fits|done].
Qed.

(** ** Encoding and decoding *)

Definition frame_crc (h body : list byte) : Z := Z.lxor (crc32_update 0xFFFFFFFF (h ++ body)) 0xFFFFFFFF.

Lemma crc_update_app c a b : crc32_update c (a ++ b) = crc32_update (crc32_update c a) b.
Proof. apply fold_left_app. Qed.

Lemma frame_crc_split h body :
  Z.lxor (let crc := crc32_update 0xFFFFFFFF h in
          if 0 <? Z.of_nat (length body) then crc32_update crc body else crc) 0xFFFFFFFF = frame_crc h body.
Proof.
  unfold frame_crc. rewrite crc_update_app. f_equal. destruct body as [|b body]; [done|].
  by rewrite (proj2 (Z.ltb_lt 0 _)) by (cbn [length]; lia).
Qed.

Definition short (payload : list byte) : Prop := Z.of_nat (length payload) <= kMaxPayloadLen.

Lemma encode_short mt fl seq payload :
  short payload ->
  encode_frame mt fl seq payload =
  let h := header mt fl seq (Z.of_nat (length payload)) in h ++ le32 (frame_crc h payload) ++ payload.
Proof.
  intros Hs. unfold encode_frame, short, kMaxPayloadLen in *.
  rewrite wrap_small by (unfold fits; lia). rewrite Nat2Z.id, take_ge by done. cbn zeta.
  by rewrite <-frame_crc_split.
Qed.

(** Decoding, once the header bytes and a body of the announced length are there. *)
Lemma decode_raw mt fl s0 s1 s2 s3 l0 l1 l2 l3 c0 c1 c2 c3 body rest :
  un_le32 l0 l1 l2 l3 = Z.of_nat (length body) -> short body ->
  let h := [kMagicByte0; kMagicByte1; mt; fl; s0; s1; s2; s3; l0; l1; l2; l3] in
  decode_frame (h ++ [c0; c1; c2; c3] ++ body ++ rest) =
  if frame_crc h body =? un_le32 c0 c1 c2 c3
  then mkFrameDecodeResult kOk (mkDecodedFrame mt fl (un_le32 s0 s1 s2 s3) body)
         (kHeaderSize + Z.of_nat (length body))
  else no_frame kBadCrc.
Proof.
  intros Hl Hs h. unfold decode_frame, short in *. subst h.
  set (data := _ ++ _). assert (length data = (16 + (length body + length rest))%nat) as Hlen.
  { subst data. by rewrite !length_app. }
  rewrite Hlen, (proj2 (Z.ltb_ge _ kHeaderSize)) by (unfold kHeaderSize; lia).
  change (byte_at data 0) with kMagicByte0. change (byte_at data 1) with kMagicByte1.
  change (u32_at data 8) with (un_le32 l0 l1 l2 l3). change (u32_at data 12) with (un_le32 c0 c1 c2 c3).
  change (u32_at data 4) with (un_le32 s0 s1 s2 s3). change (byte_at data 2) with mt. change (byte_at data 3) with fl.
  change (drop 16 data) with (body ++ rest).
  change (take 12 data) with [kMagicByte0; kMagicByte1; mt; fl; s0; s1; s2; s3; l0; l1; l2; l3].
  rewrite !Z.eqb_refl. cbn [negb orb]. rewrite Hl. rewrite (proj2 (Z.ltb_ge _ _)) by done.
  rewrite (proj2 (Z.ltb_ge _ _)) by (unfold kHeaderSize; lia).
  rewrite Nat2Z.id, take_app_length. pose proof (frame_crc_split
    [kMagicByte0; kMagicByte1; mt; fl; s0; s1; s2; s3; l0; l1; l2; l3] body) as Hcrc.
  cbn zeta in Hcrc. rewrite Hcrc. by destruct (_ =? _).
Qed.

(** A field of four bytes, as a list. *)
Lemma le32_list x : exists b0 b1 b2 b3, le32 x = [b0; b1; b2; b3].
Proof. by eexists _, _, _, _. Qed.

Lemma frame_crc_fits h body : fits 32 (frame_crc h body).
Proof.
  apply lxor_fits; [lia| |by split]. by apply crc_update_fits.
Qed.

Lemma length_fits payload : short payload -> fits 32 (Z.of_nat (length payload)).
Proof. unfold short, fits, kMaxPayloadLen. lia. Qed.

Lemma decode_encode mt fl seq payload rest :
  fits 32 seq -> short payload ->
  decode_frame (encode_frame mt fl seq payload ++ rest) =
  mkFrameDecodeResult kOk (mkDecodedFrame mt fl seq payload) (kHeaderSize + Z.of_nat (length payload)).
Proof.
  intros Hseq Hs. rewrite encode_short by done. cbn zeta.
  pose proof (fun b0 b1 b2 b3 => un_le32_le32 seq b0 b1 b2 b3 Hseq) as Us.
  pose proof (fun b0 b1 b2 b3 => un_le32_le32 _ b0 b1 b2 b3 (length_fits payload Hs)) as Ul.
  unfold header.
  destruct (le32_list seq) as (s0 & s1 & s2 & s3 & Es), (le32_list (Z.of_nat (length payload))) as (l0 & l1 & l2 & l3 & El).
  specialize (Us _ _ _ _ Es). specialize (Ul _ _ _ _ El). rewrite Es, El.
  set (h := [kMagicByte0; kMagicByte1; mt; fl] ++ [s0; s1; s2; s3] ++ [l0; l1; l2; l3]) in *.
  destruct (le32_list (frame_crc h payload)) as (c0 & c1 & c2 & c3 & Ec).
  pose proof (un_le32_le32 _ _ _ _ _ (frame_crc_fits h payload) Ec) as Uc. rewrite Ec, <-!app_assoc.
  pose proof (decode_raw mt fl s0 s1 s2 s3 l0 l1 l2 l3 c0 c1 c2 c3 payload rest Ul Hs) as H. cbn zeta in H.
  change ([kMagicByte0; kMagicByte1; mt; fl; s0; s1; s2; s3; l0; l1; l2; l3]) with h in H.
  by rewrite H, Uc, Us, Z.eqb_refl.
Qed.

(** ** Corruption *)

Definition un_le32_list (l : list byte) : Z :=
  match l with [b0; b1; b2; b3] => un_le32 b0 b1 b2 b3 | _ => 0 end.
Definition magic : list byte := [kMagicByte0; kMagicByte1].

(** [decode_raw] by fields: the type, flags and sequence number in [mid]. *)
Lemma decode_status mid len crc body rest :
  length mid = 6%nat -> length len = 4%nat -> length crc = 4%nat ->
  un_le32_list len = Z.of_nat (length body) -> short body ->
  fd_status (decode_frame ((magic ++ mid ++ len) ++ crc ++ body ++ rest)) =
  if frame_crc (magic ++ mid ++ len) body =? un_le32_list crc then kOk else kBadCrc.
Proof.
  intros Hm Hl Hc Hlen Hs.
  destruct mid as [|mt [|fl [|s0 [|s1 [|s2 [|s3 [|]]]]]]]; try discriminate Hm.
  destruct len as [|l0 [|l1 [|l2 [|l3 [|]]]]]; try discriminate Hl.
  destruct crc as [|c0 [|c1 [|c2 [|c3 [|]]]]]; try discriminate Hc.
  pose proof (decode_raw mt fl s0 s1 s2 s3 l0 l1 l2 l3 c0 c1 c2 c3 body rest Hlen Hs) as H.
  cbn zeta in H. cbn [app magic un_le32_list] in *. rewrite H. by destruct (_ =? _).
Qed.

Lemma un_le32_list_inj l l' :
  length l = 4%nat -> length l' = 4%nat -> Forall is_byte l -> Forall is_byte l' ->
  un_le32_list l = un_le32_list l' -> l = l'.
Proof.
  intros H H'. destruct l as [|? [|? [|? [|? [|]]]]]; try discriminate H.
  destruct l' as [|? [|? [|? [|? [|]]]]]; try discriminate H'. apply le32_inj.
Qed.

Lemma un_le32_list_le32 x : fits 32 x -> un_le32_list (le32 x) = x.
Proof. intros Hx. destruct (le32_list x) as (b0 & b1 & b2 & b3 & E). rewrite E. by apply un_le32_le32. Qed.

Lemma frame_crc_detects h body k b old :
  Forall is_byte (h ++ body) -> is_byte b -> (h ++ body) !! k = Some old -> b <> old ->
  frame_crc h body <> Z.lxor (crc32_update 0xFFFFFFFF (<[k := b]> (h ++ body))) 0xFFFFFFFF.
Proof.
  intros Hall Hb Hk Hne Heq. apply lxor_cancel_r in Heq. symmetry in Heq.
  by apply (crc_detects_byte (h ++ body) k b old 0xFFFFFFFF) in Heq.
Qed.

Lemma frame_crc_insert_l h body k b old :
  Forall is_byte (h ++ body) -> is_byte b -> h !! k = Some old -> b <> old ->
  frame_crc h body <> frame_crc (<[k := b]> h) body.
Proof.
  intros Hall Hb Hk Hne. unfold frame_crc at 2. rewrite <-insert_app_l by (by eapply lookup_lt_Some).
  apply (frame_crc_detects _ _ _ _ old); [done..| |done]. by apply lookup_app_l_Some.
Qed.

Lemma frame_crc_insert_r h body k b old :
  Forall is_byte (h ++ body) -> is_byte b -> body !! k = Some old -> b <> old ->
  frame_crc h body <> frame_crc h (<[k := b]> body).
Proof.
  intros Hall Hb Hk Hne. unfold frame_crc at 2. rewrite <-insert_app_r.
  apply (frame_crc_detects _ _ _ _ old); [done..| |done]. rewrite lookup_app_r by lia.
  by replace (length h + k - length h)%nat with k by lia.
Qed.

Lemma header_magic mt fl seq n : header mt fl seq n = magic ++ ([mt; fl] ++ le32 seq) ++ le32 n.
Proof. done. Qed.

Lemma frame_bytes mt fl seq n payload :
  is_byte mt -> is_byte fl -> Forall is_byte payload -> Forall is_byte (header mt fl seq n ++ payload).
Proof.
  intros Hmt Hfl Hp. unfold header. rewrite !Forall_app, !Forall_cons. split_and!; try done; try apply le32_bytes.
Qed.

(** One corrupted byte never passes for a good frame.  In a frame on the wire, replacing a
    byte of the magic is reported as [kBadMagic], and replacing a byte of the type, the flags,
    the sequence number, the CRC or the payload, by whatever other byte, as [kBadCrc]. *)
Theorem corrupted_byte_refused mt fl seq payload rest k b old :
  is_byte mt -> is_byte fl -> Forall is_byte payload -> short payload -> is_byte b ->
  encode_frame mt fl seq payload !! k = Some old -> b <> old -> ~ (8 <= k < 12)%nat ->
  fd_status (decode_frame (<[k := b]> (encode_frame mt fl seq payload) ++ rest)) =
  if (k <? 2)%nat then kBadMagic else kBadCrc.
Proof.
  intros Hmt Hfl Hp Hs Hb Hk Hne Hlen. rewrite encode_short in * by done. cbn zeta in *.
  set (n := Z.of_nat (length payload)) in *. pose proof (frame_bytes mt fl seq n payload Hmt Hfl Hp) as Hall.
  set (crc := frame_crc (header mt fl seq n) payload) in *.
  pose proof (un_le32_list_le32 n (length_fits payload Hs)) as Un.
  pose proof (un_le32_list_le32 crc (frame_crc_fits _ _)) as Uc.
  rewrite header_magic in *. set (mid := [mt; fl] ++ le32 seq) in *.
  assert (length mid = 6%nat) as Hmid by done. assert (length (le32 n) = 4%nat) as Hln by done.
  assert (length (le32 crc) = 4%nat) as Hlc by done. destruct (Nat.ltb_spec k 2) as [Hk2|Hk2].
  - assert (exists a c, (a <> kMagicByte0 \/ c <> kMagicByte1) /\
      <[k := b]> ((magic ++ mid ++ le32 n) ++ le32 crc ++ payload) ++ rest =
      [a; c] ++ (mid ++ le32 n) ++ le32 crc ++ payload ++ rest) as (a & c & Hac & ->).
    { destruct k as [|[|k]]; [..|lia]; injection Hk as <-; eexists _, _; (split; [by (left + right)|]);
        cbn [insert list_insert app magic]; by rewrite <-?app_assoc. }
    unfold decode_frame. rewrite (proj2 (Z.ltb_ge _ _)) by (rewrite !length_app; unfold kHeaderSize; cbn [length]; lia).
    change (byte_at ([a; c] ++ _) 0) with a. change (byte_at ([a; c] ++ _) 1) with c.
    destruct Hac as [Ha|Hc]; [rewrite (proj2 (Z.eqb_neq _ _) Ha)|rewrite (proj2 (Z.eqb_neq c _) Hc), orb_true_r]; done.
  - set (hdr := magic ++ mid ++ le32 n) in *.
    assert (length hdr = 12%nat) as Hhdr by done.
    destruct (decide (k < 12)%nat) as [Hk12|Hk12]; [|destruct (decide (k < 16)%nat) as [Hk16|Hk16]].
    + rewrite lookup_app_l in Hk by lia. rewrite insert_app_l, <-!app_assoc by lia.
      assert (<[k := b]> hdr = magic ++ <[(k - 2)%nat := b]> mid ++ le32 n) as Hins.
      { unfold hdr. rewrite insert_app_r_alt by (cbn; lia). f_equal. apply insert_app_l. cbn [length magic]. lia. }
      rewrite Hins, decode_status; [|by rewrite length_insert|done..].
      rewrite <-Hins, Uc. rewrite (proj2 (Z.eqb_neq _ _)); [done|].
      apply not_eq_sym, (frame_crc_insert_l _ _ _ _ old); done.
    + rewrite lookup_app_r, Hhdr, lookup_app_l in Hk by (rewrite ?Hlc; lia).
      rewrite insert_app_r_alt, Hhdr, insert_app_l, <-!app_assoc by (rewrite ?Hlc; lia).
      unfold hdr at 1. rewrite decode_status; [|done|done|by rewrite length_insert|done..].
      rewrite (proj2 (Z.eqb_neq _ _)); [done|]. intros Heq.
      apply (eq_trans Uc) in Heq.
      apply un_le32_list_inj in Heq; [|done|by rewrite length_insert|apply le32_bytes|by apply Forall_insert, Hb; apply le32_bytes].
      apply Hne. rewrite Heq, list_lookup_insert_eq in Hk by (rewrite Hlc; lia). by injection Hk.
    + rewrite lookup_app_r, Hhdr, lookup_app_r, Hlc in Hk by (rewrite ?Hlc; lia).
      rewrite insert_app_r_alt, Hhdr, insert_app_r_alt, Hlc, <-!app_assoc by (rewrite ?Hlc; lia).
      unfold hdr at 1. rewrite decode_status; [|done..|by rewrite length_insert|by unfold short; rewrite length_insert].
      rewrite Uc, (proj2 (Z.eqb_neq _ _)); [done|].
      apply not_eq_sym, (frame_crc_insert_r _ _ _ _ old); done.
Qed.

(** ** Streams and chunks *)

(** A header with less of the body than it announces. *)
Lemma decode_partial mid len crc body :
  length mid = 6%nat -> length len = 4%nat -> length crc = 4%nat ->
  Z.of_nat (length body) < un_le32_list len <= kMaxPayloadLen ->
  fd_status (decode_frame ((magic ++ mid ++ len) ++ crc ++ body)) = kNeedMoreData.
Proof.
  intros Hm Hl Hc Hlen.
  destruct mid as [|mt [|fl [|s0 [|s1 [|s2 [|s3 [|]]]]]]]; try discriminate Hm.
  destruct len as [|l0 [|l1 [|l2 [|l3 [|]]]]]; try discriminate Hl.
  destruct crc as [|c0 [|c1 [|c2 [|c3 [|]]]]]; try discriminate Hc.
  cbn [app magic un_le32_list] in *. unfold decode_frame. set (data := kMagicByte0 :: _).
  assert (length data = (16 + length body)%nat) as Hdata by done. rewrite Hdata.
  rewrite (proj2 (Z.ltb_ge _ kHeaderSize)) by (unfold kHeaderSize; lia).
  change (byte_at data 0) with kMagicByte0. change (byte_at data 1) with kMagicByte1.
  change (u32_at data 8) with (un_le32 l0 l1 l2 l3). rewrite !Z.eqb_refl. cbn [negb orb].
  rewrite (proj2 (Z.ltb_ge _ _)) by lia.
  by rewrite (proj2 (Z.ltb_lt (Z.of_nat (16 + length body)) _)) by (unfold kHeaderSize; lia).
Qed.

(** C14: a frame survives the wire.  Decoding the bytes of an encoded frame, whatever follows
    them, returns its type, flags, sequence number and payload and consumes exactly its bytes;
    and any strict prefix of them, as a TCP read may deliver it, just asks for more data. *)
Theorem frame_roundtrip mt fl seq payload rest :
  fits 32 seq -> short payload ->
  decode_frame (encode_frame mt fl seq payload ++ rest) =
    mkFrameDecodeResult kOk (mkDecodedFrame mt fl seq payload)
      (Z.of_nat (length (encode_frame mt fl seq payload))) /\
  forall n, (n < length (encode_frame mt fl seq payload))%nat ->
    fd_status (decode_frame (take n (encode_frame mt fl seq payload))) = kNeedMoreData.
Proof.
  intros Hseq Hs.
  assert (length (encode_frame mt fl seq payload) = (16 + length payload)%nat) as Hlen
    by (rewrite encode_short by done; done).
  split.
  - rewrite decode_encode by done. f_equal. rewrite Hlen. unfold kHeaderSize. lia.
  - intros n Hn. rewrite Hlen in Hn. destruct (decide (n < 16)%nat) as [Hn16|Hn16].
    + unfold decode_frame. rewrite length_take, Hlen.
      by rewrite (proj2 (Z.ltb_lt _ kHeaderSize)) by (unfold kHeaderSize; lia).
    + rewrite encode_short by done. cbn zeta. rewrite header_magic.
      set (crc := frame_crc _ _). rewrite take_app_ge by (cbn; lia).
      rewrite take_app_ge by (cbn; lia). apply decode_partial; try done.
      rewrite un_le32_list_le32 by (by apply length_fits). rewrite length_take. cbn. unfold short in Hs. lia.
Qed.

Example frame_roundtrip_witness :
  let w := encode_frame msg_type.kCommand 0 258 [1; 2; 3] in
  w = [83; 82; 16; 0; 2; 1; 0; 0; 3; 0; 0; 0; 43; 181; 238; 22; 1; 2; 3] /\
  fd_frame (decode_frame (w ++ [83; 82])) = mkDecodedFrame msg_type.kCommand 0 258 [1; 2; 3] /\
  fd_status (decode_frame (take 18 w)) = kNeedMoreData.
Proof.
  destruct (frame_roundtrip msg_type.kCommand 0 258 [1; 2; 3] [83; 82]) as [Hd Hp];
    [by split|by vm_compute|].
  split_and!; [vm_compute; reflexivity|by rewrite Hd|]. apply Hp. vm_compute. lia.
Defined.

Example corrupted_byte_refused_witness :
  fd_status (decode_frame (<[17%nat := 7]> (encode_frame msg_type.kCommand 0 258 [1; 2; 3]))) = kBadCrc.
Proof.
  pose proof (corrupted_byte_refused msg_type.kCommand 0 258 [1; 2; 3] [] 17 7 2) as H.
  rewrite app_nil_r in H. apply H; [by split|by split|by repeat constructor|by vm_compute|by split|..];
    [vm_compute; reflexivity|done|lia].
Defined.

Section Chunks.
Import SnapshotService.

Lemma chunk_from_concat fuel : forall binary n,
  (0 < n)%nat -> (length binary <= fuel)%nat ->
  concat (chunk_from fuel binary n) = binary /\
  Forall (fun c => c <> [] /\ (length c <= n)%nat) (chunk_from fuel binary n).
Proof.
  induction fuel as [|fuel IH]; intros binary n Hn Hf.
  - destruct binary; [|cbn in Hf; lia]. by split.
  - destruct binary as [|b binary]; [by split|]. cbn [chunk_from concat].
    destruct (IH (drop n (b :: binary)) n Hn) as [H1 H2]; [rewrite length_drop; cbn in *; lia|].
    rewrite H1, take_drop. split; [done|]. constructor; [|done]. split.
    + destruct n; [lia|done].
    + rewrite length_take. lia.
Qed.

Lemma first_chunk binary n :
  (0 < n)%nat -> (n <= length binary)%nat ->
  exists c cs, chunk binary n = c :: cs /\ length c = n.
Proof.
  intros Hn Hlen. destruct binary as [|b binary]; [cbn in Hlen; lia|]. unfold chunk.
  rewrite bool_decide_false by done. rewrite (proj2 (Nat.eqb_neq _ _)) by lia. cbn [orb length chunk_from].
  eexists _, _. split; [done|]. rewrite length_take. cbn [length] in *. lia.
Qed.

(** The chunks of a snapshot are non-empty unless the snapshot is, have at most the chunk
    size, and concatenate to the snapshot.  But the default size is one more than the largest
    payload the decoder accepts: as soon as a snapshot has 65536 bytes its first chunk, framed,
    is refused as [kBadLength], and the receiver drops the connection. *)
Theorem snapshot_chunks_undecodable binary n :
  (0 < n)%nat ->
  (concat (chunk binary n) = binary /\ Forall (fun c => (length c <= n)%nat) (chunk binary n)) /\
  ((DEFAULT_CHUNK_SIZE <= length binary)%nat ->
   exists c cs, chunk binary DEFAULT_CHUNK_SIZE = c :: cs /\
     forall mt fl seq rest, decode_frame (encode_frame mt fl seq c ++ rest) = no_frame kBadLength).
Proof.
  intros Hn. split.
  - unfold chunk. case_bool_decide as Hb; cbn [orb].
    + subst. split; [done|]. repeat constructor. cbn. lia.
    + rewrite (proj2 (Nat.eqb_neq _ _)) by lia.
      destruct (chunk_from_concat (length binary) binary n Hn (le_n _)) as [H1 H2]. split; [done|].
      eapply Forall_impl; [exact H2|]. by intros c [_ H].
  - intros Hlen. destruct (first_chunk binary DEFAULT_CHUNK_SIZE) as (c & cs & Hch & Hlc);
      [apply Nat2Z.inj_lt; by vm_compute|done|].
    exists c, cs. split; [done|]. intros mt fl seq rest.
    assert (Z.of_nat (length c) = 65536) as Hc by (rewrite Hlc; by vm_compute). clear Hlc Hch Hlen.
    unfold encode_frame. rewrite Hc. change (u32 65536) with 65536. set (body := take (Z.to_nat 65536) _).
    set (crc := Z.lxor _ _). unfold decode_frame.
    rewrite (proj2 (Z.ltb_ge _ _)) by (rewrite !length_app; unfold kHeaderSize; cbn [length header le32 app]; lia).
    set (data := (header mt fl seq 65536 ++ _) ++ rest).
    change (byte_at data 0) with kMagicByte0. change (byte_at data 1) with kMagicByte1.
    change (u32_at data 8) with 65536. by rewrite !Z.eqb_refl.
Qed.
End Chunks.

Example snapshot_chunks_undecodable_witness :
  let binary := replicate SnapshotService.DEFAULT_CHUNK_SIZE 0 in
  exists c cs, SnapshotService.chunk binary SnapshotService.DEFAULT_CHUNK_SIZE = c :: cs /\
    decode_frame (encode_frame msg_type.kSnapshotChunk 0 0 c ++ []) = no_frame kBadLength.
Proof.
  intros binary.
  destruct (snapshot_chunks_undecodable binary SnapshotService.DEFAULT_CHUNK_SIZE) as [_ H].
  - apply Nat2Z.inj_lt. vm_compute. reflexivity.
  - destruct H as (c & cs & Hc & Hd); [unfold binary; rewrite length_replicate; apply le_n|].
    exists c, cs. split; [exact Hc|apply Hd].
Defined.
