(* ===== verification/Text.v ===== *)
(** * Text: the string conversions of the C++ standard library

    [std::to_string] and [std::stoull] on 64-bit unsigned integers and the
    zero-padded [std::format] field, with their round trips.  Strings are
    sequences of 8-bit characters, as [std::string] is. *)
From Stdlib Require Import Ascii String.
From S2P Require Import Prelude.
Local Open Scope Z_scope.

(** [isspace] and [isdigit] in the C locale. *)
Definition is_space (c : ascii) : bool :=
  let n := Z.of_N (N_of_ascii c) in ((9 <=? n) && (n <=? 13)) || (n =? 32).
Definition digit_value (c : ascii) : Z := Z.of_N (N_of_ascii c) - 48.
Definition is_digit (c : ascii) : bool := (0 <=? digit_value c) && (digit_value c <=? 9).

Fixpoint skip_spaces (s : string) : string :=
  match s with String c s' => if is_space c then skip_spaces s' else s | EmptyString => s end.

(** The value of the digits [s] starts with, continuing from [acc]. *)
Fixpoint digits (acc : Z) (s : string) : Z :=
  match s with
  | String c s' => if is_digit c then digits (acc * 10 + digit_value c) s' else acc
  | EmptyString => acc
  end.

(** [std::stoull] in base 10: leading blanks, an optional sign, a non-empty run
    of digits; what follows is ignored.  [None] is a thrown exception,
    [std::invalid_argument] or [std::out_of_range]. *)
Definition stoull (s : string) : option Z :=
  let s := skip_spaces s in
  let '(neg, s) :=
    match s with
    | String c s' =>
        if Ascii.eqb c "-" then (true, s') else if Ascii.eqb c "+" then (false, s') else (false, s)
    | EmptyString => (false, s)
    end in
  match s with
  | String c _ =>
      if is_digit c then
        let v := digits 0 s in
        if v <? 2 ^ 64 then Some (if neg : bool then u64 (- v) else v) else None
      else None
  | EmptyString => None
  end.

(** [std::stoi] in base 10, into an [int] of 32 bits; [None] as above. *)
Definition stoi (s : string) : option Z :=
  let s := skip_spaces s in
  let '(neg, s) :=
    match s with
    | String c s' =>
        if Ascii.eqb c "-" then (true, s') else if Ascii.eqb c "+" then (false, s') else (false, s)
    | EmptyString => (false, s)
    end in
  match s with
  | String c _ =>
      if is_digit c then
        let v := if neg : bool then - digits 0 s else digits 0 s in
        if (- 2 ^ 31 <=? v) && (v <? 2 ^ 31) then Some v else None
      else None
  | EmptyString => None
  end.

(** [std::to_string] of an unsigned integer. *)
Definition to_string (n : Z) : string := pretty (Z.to_N n).

(** [std::to_string] of an [int]. *)
Definition int_to_string (n : Z) : string := if n <? 0 then ("-" +:+ to_string (- n))%string else to_string n.

Fixpoint zeros (k : nat) : string := match k with O => "" | S k => String "0" (zeros k) end.
(** [std::format("{:0w}", n)] of an unsigned integer. *)
Definition format_padded (w : nat) (n : Z) : string :=
  (zeros (w - String.length (to_string n)) +:+ to_string n)%string.

Lemma append_assoc (s1 s2 s3 : string) : s1 +:+ (s2 +:+ s3) = (s1 +:+ s2) +:+ s3.
Proof. induction s1 as [|c s1 IH]; [done|]. change (String c (s1 +:+ (s2 +:+ s3)) = String c ((s1 +:+ s2) +:+ s3)). by rewrite IH. Qed.

(** ** Round trips *)

Lemma digit_char (x : N) :
  (x < 10)%N -> digit_value (pretty_N_char x) = Z.of_N x /\ is_digit (pretty_N_char x) = true /\
  is_space (pretty_N_char x) = false /\ pretty_N_char x <> "-"%char /\ pretty_N_char x <> "+"%char.
Proof.
  intros Hx.
  assert (x ∈ [0; 1; 2; 3; 4; 5; 6; 7; 8; 9]%N) as Hin by (set_unfold; lia).
  set_unfold in Hin. by destruct_or? Hin; subst x.
Qed.

(** Decimal printing, read back by [digits]. *)
Lemma digits_pretty_go (x : N) (s : string) :
  digits 0 (pretty_N_go x s) = digits (Z.of_N x) s.
Proof.
  revert s. induction (N.lt_wf_0 x) as [x _ IH]. intros s.
  destruct (decide (0 < x)%N) as [Hx|Hx].
  - rewrite pretty_N_go_step by done.
    assert (x `mod` 10 < 10)%N as Hm by (apply N.mod_lt; lia).
    rewrite IH by (apply N.div_lt; lia). destruct (digit_char _ Hm) as (Hv & Hd & _).
    cbn [digits]. rewrite Hd, Hv. f_equal.
    rewrite (N.div_mod x 10) at 3 by lia. lia.
  - replace x with 0%N by lia. by rewrite pretty_N_go_0.
Qed.

Lemma pretty_N_unfold (x : N) :
  pretty x = if decide (x = 0%N) then "0"%string else pretty_N_go x "".
Proof. done. Qed.

Lemma digits_to_string (n : Z) : 0 <= n -> digits 0 (to_string n) = n.
Proof.
  intros Hn. unfold to_string. rewrite pretty_N_unfold. case_decide as E.
  - assert (n = 0) as -> by lia. done.
  - rewrite digits_pretty_go. cbn. lia.
Qed.

Lemma to_string_inj (n m : Z) : 0 <= n -> 0 <= m -> to_string n = to_string m -> n = m.
Proof. intros Hn Hm E. by rewrite <- (digits_to_string n), <- (digits_to_string m), E. Qed.

(** A printed number starts with a digit. *)
Lemma pretty_go_head (x : N) (s : string) :
  (0 < x)%N -> exists k r, (k < 10)%N /\ pretty_N_go x s = String (pretty_N_char k) r.
Proof.
  revert s. induction (N.lt_wf_0 x) as [x _ IH]. intros s Hx.
  rewrite pretty_N_go_step by done.
  destruct (decide (0 < x `div` 10)%N) as [Hd|Hd].
  - apply IH; [apply N.div_lt; lia|done].
  - apply N.nlt_ge, N.le_0_r in Hd. rewrite Hd. rewrite pretty_N_go_0.
    eexists _, s. split; [|done]. apply N.mod_lt; lia.
Qed.

Lemma to_string_head (n : Z) :
  exists k r, (k < 10)%N /\ to_string n = String (pretty_N_char k) r.
Proof.
  unfold to_string. rewrite pretty_N_unfold. case_decide as E.
  - by exists 0%N, ""%string.
  - apply pretty_go_head. lia.
Qed.

Lemma to_string_not_empty (n : Z) : to_string n <> ""%string.
Proof. destruct (to_string_head n) as (k & r & _ & ->). done. Qed.

Lemma stoull_to_string (n : Z) : fits 64 n -> stoull (to_string n) = Some n.
Proof.
  intros [Hn Hb]. pose proof (digits_to_string n Hn) as Hv.
  destruct (to_string_head n) as (k & r & Hk & E). rewrite E in *.
  destruct (digit_char k Hk) as (_ & Hd & Hs & Hm%Ascii.eqb_neq & Hp%Ascii.eqb_neq).
  unfold stoull. cbn [skip_spaces]. rewrite Hs, Hm, Hp, Hd, Hv.
  by destruct (Z.ltb_spec n (2 ^ 64)); [|lia].
Qed.

Lemma stoi_to_string (n : Z) : 0 <= n < 2 ^ 31 -> stoi (to_string n) = Some n.
Proof.
  intros [Hn Hb]. pose proof (digits_to_string n Hn) as Hv.
  destruct (to_string_head n) as (k & r & Hk & E). rewrite E in *.
  destruct (digit_char k Hk) as (_ & Hd & Hs & Hm%Ascii.eqb_neq & Hp%Ascii.eqb_neq).
  unfold stoi. cbn [skip_spaces]. rewrite Hs, Hm, Hp, Hd, Hv.
  rewrite (proj2 (Z.leb_le _ _)), (proj2 (Z.ltb_lt _ _)) by lia. done.
Qed.

Lemma digits_zeros (k : nat) (s : string) : digits 0 (zeros k +:+ s)%string = digits 0 s.
Proof. induction k as [|k IH]; [done|]. by cbn. Qed.

Lemma format_padded_inj (w : nat) (n m : Z) :
  0 <= n -> 0 <= m -> format_padded w n = format_padded w m -> n = m.
Proof.
  intros Hn Hm E. apply (f_equal (digits 0)) in E. unfold format_padded in E.
  by rewrite !digits_zeros, !digits_to_string in E.
Qed.

Example stoull_examples :
  stoull " 42 km" = Some 42 /\ stoull "-1" = Some (2 ^ 64 - 1) /\ stoull "exch-0000001" = None /\
  stoull "18446744073709551616" = None /\ format_padded 7 42 = "0000042"%string.
Proof. by vm_compute. Qed.
