(* ===== verification/Json.v ===== *)
(** * Json: the JSON library, and loaders that may throw

    The loaders read their files with [nlohmann::json], a library outside the
    repository: [JsonLib] lists the members they use, with their documented
    behaviour as laws.  [JsonDemo] is a value type with these members, on which
    the concrete instances of the theorems compute.

    A loader returns a value or throws; [result] is the monad of such code. *)
From S2P Require Import Prelude Float32.
Local Open Scope Z_scope.

(** ** Exceptions *)

(** The exceptions of the program: its own, those of the standard library, and those
    of the JSON library and of the database client, whose text is not modelled. *)
Inductive exception : Type :=
| FleetLoadError (what : string)
| runtime_error (what : string)
| invalid_argument (what : string)
| logic_error (what : string)
| out_of_range (what : string)
| UidExhausted (what : string)
| JsonLoadError (what : string)
| DataSourceError (what : string)
| filesystem_error (what : string)
| sql_exception
| json_exception.

Inductive result (A : Type) : Type :=
| Ok (a : A)
| Throw (e : exception).
Arguments Ok {A} a.
Arguments Throw {A} e.

#[global] Instance result_ret : MRet result := @Ok.
#[global] Instance result_bind : MBind result := fun A B f r =>
  match r with Ok a => f a | Throw e => Throw e end.
#[global] Instance result_fmap : FMap result := fun A B f r =>
  match r with Ok a => Ok (f a) | Throw e => Throw e end.

Definition is_ok {A} (r : result A) : bool := match r with Ok _ => true | Throw _ => false end.

(** A loop that stops at the first exception. *)
Fixpoint for_each {A B : Type} (f : A -> B -> result A) (l : list B) (a : A) : result A :=
  match l with
  | [] => Ok a
  | x :: l => a ← f a x; for_each f l a
  end.

(** The same for the values of a list. *)
Fixpoint traverse {A B : Type} (f : A -> result B) (l : list A) : result (list B) :=
  match l with
  | [] => Ok []
  | x :: l => y ← f x; ys ← traverse f l; Ok (y :: ys)
  end.

(** [o] or an exception. *)
Definition get {A} (e : exception) (o : option A) : result A :=
  match o with Some a => Ok a | None => Throw e end.
(** [if (b) throw e;] *)
Definition throw_if (b : bool) (e : exception) : result unit := if b then Throw e else Ok tt.

Lemma bind_ok {A B} (f : A -> result B) (r : result A) b :
  r ≫= f = Ok b <-> exists a, r = Ok a /\ f a = Ok b.
Proof.
  split; [destruct r as [a|e]; [by exists a|done]|]. by intros (a & -> & Hf).
Qed.

Lemma ok_bind {A B} (f : A -> result B) a : Ok a ≫= f = f a.
Proof. done. Qed.

Lemma throw_if_ok b e u : throw_if b e = Ok u <-> b = false.
Proof. destruct b, u; split; done. Qed.

Lemma get_ok {A} e (o : option A) a : get e o = Ok a <-> o = Some a.
Proof. destruct o; split; try done; by intros [= ->]. Qed.

(** Splits a hypothesis [_ ≫= _ = Ok _] into its steps. *)
Ltac split_ok H :=
  repeat match type of H with
  | mbind _ _ = Ok _ => let a := fresh "x" in let E := fresh "E" in
      apply bind_ok in H as (a & E & H); cbv beta zeta in H;
      try (apply throw_if_ok in E)
  | (throw_if _ _) = Ok _ => apply throw_if_ok in H
  | (if ?b then _ else _) = Ok _ => let E := fresh "E" in destruct b eqn:E; [try discriminate H|try discriminate H]
  end.

Lemma for_each_cons {A B} (f : A -> B -> result A) x l a :
  for_each f (x :: l) a = (a ← f a x; for_each f l a).
Proof. done. Qed.

Lemma for_each_app {A B} (f : A -> B -> result A) l1 l2 a :
  for_each f (l1 ++ l2) a = (a ← for_each f l1 a; for_each f l2 a).
Proof.
  revert a. induction l1 as [|x l1 IH]; intros a; [done|]. cbn.
  destruct (f a x) as [a'|e]; cbn; [apply IH|done].
Qed.

(** An invariant of the body is an invariant of the loop. *)
Lemma for_each_ind {A B} (P : A -> Prop) (f : A -> B -> result A) l a a' :
  (forall a x a', x ∈ l -> P a -> f a x = Ok a' -> P a') -> P a -> for_each f l a = Ok a' -> P a'.
Proof.
  revert a. induction l as [|x l IH]; intros a Hf Ha E; [by injection E as <-|].
  cbn in E. apply bind_ok in E as (a1 & E1 & E). eapply IH; [| |exact E].
  - intros b y b' Hy. apply Hf. by right.
  - eapply Hf; [by left|exact Ha|exact E1].
Qed.

Lemma traverse_Forall2 {A B} (f : A -> result B) l ys :
  traverse f l = Ok ys <-> Forall2 (fun x y => f x = Ok y) l ys.
Proof.
  revert ys. induction l as [|x l IH]; intros ys.
  - split; [intros [= <-]; constructor|by intros ->%Forall2_nil_inv_l].
  - cbn. rewrite bind_ok. split.
    + intros (y & Hy & H). apply bind_ok in H as (ys' & Hys & [= <-]). constructor; [done|by apply IH].
    + intros (y & ys' & Hy & Hys & ->)%Forall2_cons_inv_l. exists y. split; [done|].
      apply bind_ok. exists ys'. split; [by apply IH|done].
Qed.

(** ** The library *)

(** [j_find j key] is [j.at(key)] if [j.contains(key)]; [contains] is false on a
    value that is no object.  [get_*] is [get<T>()], [None] a type error.
    [j_items] is what a range-based [for] visits, [j_members] the keys and values an
    iterator shows, [None] if asking for the key throws. *)
Class JsonLib := {
  json : Type;
  j_find : json -> string -> option json;
  is_null : json -> bool; is_string : json -> bool; is_boolean : json -> bool;
  is_number : json -> bool; is_number_integer : json -> bool; is_number_unsigned : json -> bool;
  is_array : json -> bool; is_object : json -> bool;
  get_string : json -> option string; get_bool : json -> option bool;
  get_int : json -> option Z; get_i64 : json -> option Z; get_u64 : json -> option Z; get_float : json -> option float;
  get_double : json -> option float;
  j_items : json -> list json;
  j_members : json -> option (list (string * json));
  string_gettable : forall j, is_string j = true -> is_Some (get_string j);
  bool_gettable : forall j, is_boolean j = true -> is_Some (get_bool j);
  number_gettable : forall j, is_number j = true ->
    is_Some (get_int j) /\ is_Some (get_float j) /\ is_Some (get_double j);
  integer_gettable : forall j, is_number_integer j = true -> is_Some (get_i64 j);
  unsigned_gettable : forall j, is_number_unsigned j = true -> exists n, get_u64 j = Some n /\ fits 64 n;
  object_findable : forall j key, is_Some (j_find j key) -> is_object j = true }.

Section Members.
Context {JL : JsonLib}.

(** [j.at(key)]: throws if [j] is no object or has no such key. *)
Definition j_at (j : json) (key : string) : result json := get json_exception (j_find j key).
Definition contains (j : json) (key : string) : bool := bool_decide (is_Some (j_find j key)).
(** [j.value(key, default)]: throws on a value that is no object, and on a type error. *)
Definition j_value {A} (getter : json -> option A) (j : json) (key : string) (default : A) : result A :=
  if negb (is_object j) then Throw json_exception
  else match j_find j key with
       | Some v => get json_exception (getter v)
       | None => Ok default
       end.
(** [!j.contains(key) || !test(j.at(key))]. *)
Definition lacks (test : json -> bool) (j : json) (key : string) : bool :=
  match j_find j key with Some v => negb (test v) | None => true end.
(** [!j.contains(key) || j.at(key).is_null()]. *)
Definition absent (j : json) (key : string) : bool :=
  match j_find j key with Some v => is_null v | None => true end.
End Members.

(** ** Writing documents *)

(** [j_set] is [j[key] = v], [j_erase] is [j.erase(key)], both on objects; [j_text] is
    the content of a file, [j_parse] [json::parse] ([inl] its message) and [j_dump]
    what [dump(2)] and a newline write, [None] if [dump] throws.  [j_plain] are the
    values parsing gives and those built from them, without a NaN: they are read
    back as they were. *)
Class JsonText {JL : JsonLib} := {
  j_empty : json; j_of_string : string -> json; j_of_u64 : Z -> json; j_of_list : list json -> json;
  j_set : json -> string -> json -> json; j_erase : json -> string -> json;
  j_text : Type; no_text : j_text;
  j_parse : j_text -> string + json; j_dump : json -> option j_text;
  j_plain : json -> Prop;
  empty_object : is_object j_empty = true /\ forall key, j_find j_empty key = None;
  set_object : forall j key v, is_object j = true -> is_object (j_set j key v) = true;
  erase_object : forall j key, is_object j = true -> is_object (j_erase j key) = true;
  find_set : forall j key v key', is_object j = true ->
    j_find (j_set j key v) key' = if decide (key' = key) then Some v else j_find j key';
  find_erase : forall j key key', is_object j = true ->
    j_find (j_erase j key) key' = if decide (key' = key) then None else j_find j key';
  of_string_get : forall s, is_string (j_of_string s) = true /\ is_null (j_of_string s) = false /\
    get_string (j_of_string s) = Some s;
  of_u64_get : forall n, fits 64 n ->
    is_number_unsigned (j_of_u64 n) = true /\ is_null (j_of_u64 n) = false /\ get_u64 (j_of_u64 n) = Some n;
  of_list_items : forall l, is_array (j_of_list l) = true /\ j_items (j_of_list l) = l;
  parse_no_text : exists what, j_parse no_text = inl what;
  parse_plain : forall t j, j_parse t = inr j -> j_plain j;
  empty_plain : j_plain j_empty;
  scalar_plain : (forall s, j_plain (j_of_string s)) /\ (forall n, j_plain (j_of_u64 n));
  list_plain : forall l, Forall j_plain l -> j_plain (j_of_list l);
  set_plain : forall j key v, j_plain j -> j_plain v -> j_plain (j_set j key v);
  erase_plain : forall j key, j_plain j -> j_plain (j_erase j key);
  parse_dump : forall j t, j_plain j -> j_dump j = Some t -> j_parse t = inr j }.

(** ** A value type for examples *)

Module JsonDemo.
Inductive value : Type :=
| JNull | JBool (b : bool) | JUnsigned (n : N) | JNegative (n : positive) | JString (s : string)
| JArray (l : list value) | JObject (l : list (string * value)).

Definition number (v : value) : option Z :=
  match v with JUnsigned n => Some (Z.of_N n) | JNegative n => Some (Z.neg n) | _ => None end.
Definition find (v : value) (key : string) : option value :=
  match v with JObject l => snd <$> List.find (fun e => bool_decide (e.1 = key)) l | _ => None end.

#[global, refine] Instance lib : JsonLib := {|
  json := value; j_find := find;
  is_null v := match v with JNull => true | _ => false end;
  is_string v := match v with JString _ => true | _ => false end;
  is_boolean v := match v with JBool _ => true | _ => false end;
  is_number v := match number v with Some _ => true | None => false end;
  is_number_integer v := match number v with Some _ => true | None => false end;
  is_number_unsigned v := match v with JUnsigned n => (n <? 2 ^ 64)%N | _ => false end;
  is_array v := match v with JArray _ => true | _ => false end;
  is_object v := match v with JObject _ => true | _ => false end;
  get_string v := match v with JString s => Some s | _ => None end;
  get_bool v := match v with JBool b => Some b | _ => None end;
  get_int v := number v; get_i64 v := (fun n => wrap 64 (n + 2 ^ 63) - 2 ^ 63) <$> number v;
  get_u64 v := (fun n => u64 n) <$> number v;
  get_float v := f32_of_Z <$> number v; get_double v := f64_of_Z <$> number v;
  j_items v := match v with JArray l => l | JObject l => snd <$> l | JNull => [] | _ => [v] end;
  j_members v := match v with JObject l => Some l | JNull | JArray [] => Some [] | _ => None end |}.
Proof.
  - intros [] H; try discriminate H. by eexists.
  - intros [] H; try discriminate H. by eexists.
  - intros j Hj. destruct (number j); [|done]. repeat split; by eexists.
  - intros j Hj. destruct (number j); [|done]. by eexists.
  - intros []; try done. intros Hn%N.ltb_lt. exists (Z.of_N n). cbn.
    assert (fits 64 (Z.of_N n)) by (unfold fits; lia). by rewrite wrap_small.
  - intros [] key [x Hx]; done.
Defined.

(** The text of a document is the document; a string may be no text. *)
Definition set (v : value) (key : string) (x : value) : value :=
  match v with
  | JObject l => JObject ((key, x) :: List.filter (fun e => negb (bool_decide (e.1 = key))) l)
  | _ => v
  end.
Definition erase (v : value) (key : string) : value :=
  match v with JObject l => JObject (List.filter (fun e => negb (bool_decide (e.1 = key))) l) | _ => v end.

Lemma find_filter l key key' :
  List.find (fun e : string * value => bool_decide (e.1 = key'))
    (List.filter (fun e => negb (bool_decide (e.1 = key))) l) =
  if decide (key' = key) then None else List.find (fun e => bool_decide (e.1 = key')) l.
Proof.
  induction l as [|[k x] l IH]; [by case_decide|]. cbn [List.filter List.find fst].
  destruct (decide (k = key)) as [->|Hne].
  - rewrite bool_decide_true by done. cbn [negb]. rewrite IH. case_decide; [done|].
    by rewrite bool_decide_false by congruence.
  - rewrite bool_decide_false by done. cbn [negb List.find fst]. rewrite IH.
    case_bool_decide; [|done]. subst. by rewrite decide_False.
Qed.

#[global, refine] Instance text : JsonText := {|
  j_empty := JObject [] : @json lib; j_of_string s := JString s : @json lib;
  j_of_u64 n := JUnsigned (Z.to_N n) : @json lib;
  j_of_list l := JArray l : @json lib; j_set := set; j_erase := erase;
  j_text := option value; no_text := None;
  j_parse t := match t with Some v => inr (v : @json lib) | None => inl "unexpected end of input"%string end;
  j_dump v := Some (Some v); j_plain _ := True |}.
Proof.
  - done.
  - by intros [].
  - by intros [].
  - intros [] key v key'; try done. intros _. cbn [j_find lib find set List.find fst].
    destruct (decide (key' = key)) as [->|Hne]; [by rewrite bool_decide_true by done|].
    rewrite bool_decide_false by congruence. rewrite find_filter. by rewrite decide_False.
  - intros [] key key'; try done. intros _. cbn [j_find lib find erase].
    rewrite find_filter. by case_decide.
  - done.
  - intros n Hn. cbn. unfold fits in Hn. rewrite Z2N.id by lia. repeat split.
    + apply N.ltb_lt. lia.
    + by rewrite wrap_small.
  - done.
  - by eexists.
  - done.
  - done.
  - done.
  - done.
  - done.
  - done.
  - by intros j t _ [= <-].
Defined.
End JsonDemo.
