(* ===== verification/DbWriter.v ===== *)
(** * DbWriter: the database interface of the server

    [server/include/server/db_writer.hpp]: the rows, the interface
    [IDbWriter] as a class of state transformers over the state of the
    database, and [NullDbWriter], the implementation that records its calls.
    The two calls of the start of the server may throw; the calls that return a row
    number give it beside the new state.  A write during the session that throws (a lost
    connection, a value the database refuses) leaves the thread that made it without a
    handler and ends the process, so the clients of this interface are modelled up to
    that point; [PgWriter] has the exceptions of every call. *)
From S2P Require Import Prelude Float32 Types Json.
Local Open Scope Z_scope.

(* SRC server/include/server/db_writer.hpp 23-36 TelegramRow *)
Record TelegramRow := mkTelegramRow {
  tr_form_type : string; tr_exchange_id : string; tr_train_number : string;
  tr_from_uid : Z; tr_to_uid : Z; tr_direction : string; tr_status : string;
  tr_track_number : option string; tr_km_markers : list string; tr_body : string;
  tr_timestamp_us : Z }.

(* SRC server/include/server/db_writer.hpp 39-46 DomainEventRow *)
Record DomainEventRow := mkDomainEventRow {
  ev_event_type : Z; ev_event_id : Z; ev_timestamp_us : Z; ev_object_uid : option Z;
  ev_payload : list Z }.

(* SRC server/include/server/db_writer.hpp 49-65 EdrJournalEntryRow *)
Record EdrJournalEntryRow := mkEdrJournalEntryRow {
  ej_operating_point_id : string; ej_station_uid : Z; ej_journal_page : string;
  ej_entry_type : string; ej_train_number : option string; ej_direction : option string;
  ej_track_number : option string; ej_scheduled_arrival_secs : option string;
  ej_scheduled_departure_secs : option string; ej_actual_arrival_secs : option string;
  ej_actual_departure_secs : option string; ej_body : string; ej_notes : option string;
  ej_timestamp_us : Z }.

(** Every call carries the session identifier first, where the source does. *)
(* SRC server/include/server/db_writer.hpp 67-128 IDbWriter *)
Class IDbWriter (DB : Type) := {
  init_session : string -> Z -> DB -> DB * result string;
  seed_edr_entries_for_operating_day : string -> Z -> DB -> DB * result Z;
  write_domain_event : string -> DomainEventRow -> DB -> DB;
  write_dispatch_telegram : string -> TelegramRow -> DB -> DB;
  update_edr_track_clear_time : string -> string -> Z -> Z -> DB -> DB;
  update_edr_departure : string -> string -> Z -> Z -> DB -> DB;
  update_edr_arrival : string -> string -> Z -> Z -> DB -> DB;
  append_edr_journal_entry : string -> EdrJournalEntryRow -> DB -> DB * Z;
  update_edr_journal_entry_status : string -> Z -> string -> option string -> DB -> DB;
  upsert_pip_track_state : string -> Z -> string -> DB -> DB;
  save_snapshot : string -> Z -> Z -> list Z -> DB -> DB;
  append_chat_message : string -> string -> string -> option string -> string -> Z -> DB -> DB;
  assign_operating_point : string -> string -> string -> string -> DB -> DB * Z;
  release_operating_point : string -> string -> string -> DB -> DB;
  upsert_timetable_template : string -> Z -> option string -> option string -> string ->
    option string -> string -> list Z -> DB -> DB
}.

(** ** The recording implementation *)

(* SRC server/include/server/db_writer.hpp 238-242 NullDbWriter::PipUpsert *)
Record PipUpsert := mkPipUpsert { pu_section_uid : Z; pu_trains_json : string }.
(* SRC server/include/server/db_writer.hpp 244-249 NullDbWriter::EdrUpdate *)
Record EdrUpdate := mkEdrUpdate {
  eu_train_number : string; eu_station_uid : Z; eu_timestamp_us : Z }.
(* SRC server/include/server/db_writer.hpp 251-256 NullDbWriter::SnapshotSave *)
Record SnapshotSave := mkSnapshotSave {
  ss_seq_cursor : Z; ss_timestamp_us : Z; ss_payload : list Z }.
(* SRC server/include/server/db_writer.hpp 258-265 NullDbWriter::ChatMessage *)
Record ChatMessage := mkChatMessage {
  cm_sender_id : string; cm_target_type : string; cm_target_id : option string;
  cm_body : string; cm_timestamp_us : Z }.
(* SRC server/include/server/db_writer.hpp 267-272 NullDbWriter::OpAssignment *)
Record OpAssignment := mkOpAssignment {
  oa_operating_point_id : string; oa_station_sid : string; oa_client_id : string }.
(* SRC server/include/server/db_writer.hpp 274-278 NullDbWriter::OpRelease *)
Record OpRelease := mkOpRelease { or_operating_point_id : string; or_client_id : string }.
(* SRC server/include/server/db_writer.hpp 280-290 NullDbWriter::TimetableUpsert *)
Record TimetableUpsert := mkTimetableUpsert {
  tu_train_number : string; tu_station_uid : Z; tu_operating_point_id : option string;
  tu_scheduled_arrival_secs : option string; tu_scheduled_departure_secs : string;
  tu_track_number : option string; tu_stop_type : string; tu_operating_days : list Z }.
(* SRC server/include/server/db_writer.hpp 292-297 NullDbWriter::EdrJournalStatusUpdate *)
Record EdrJournalStatusUpdate := mkEdrJournalStatusUpdate {
  js_entry_id : Z; js_status : string; js_notes : option string }.

(* SRC server/include/server/db_writer.hpp 299-312 NullDbWriter *)
Record NullDbWriter := mkNullDbWriter {
  seeded_operating_days : list Z; written_telegrams : list TelegramRow;
  written_events : list DomainEventRow; edr_updates : list EdrUpdate;
  edr_departures : list EdrUpdate; edr_arrivals : list EdrUpdate;
  pip_upserts : list PipUpsert; saved_snapshots : list SnapshotSave;
  chat_messages : list ChatMessage; op_assignments : list OpAssignment;
  op_releases : list OpRelease; timetable_upserts : list TimetableUpsert;
  edr_journal_entries : list EdrJournalEntryRow;
  edr_journal_status_updates : list EdrJournalStatusUpdate }.
#[export] Instance NullDbWriter_eta : Eta NullDbWriter := fun r =>
  mkNullDbWriter (seeded_operating_days r) (written_telegrams r) (written_events r)
    (edr_updates r) (edr_departures r) (edr_arrivals r) (pip_upserts r) (saved_snapshots r)
    (chat_messages r) (op_assignments r) (op_releases r) (timetable_upserts r)
    (edr_journal_entries r) (edr_journal_status_updates r).
Definition NullDbWriter_empty : NullDbWriter :=
  mkNullDbWriter [] [] [] [] [] [] [] [] [] [] [] [] [] [].

(** [v.push_back(x)] on a recorded list. *)
Notation push_back x := (fun v => v ++ [x]).

(* SRC server/include/server/db_writer.hpp 131-236 NullDbWriter *)
#[export] Instance NullDbWriter_db : IDbWriter NullDbWriter := {|
  init_session _ _ db := (db, Ok "00000000-0000-0000-0000-000000000001"%string);
  seed_edr_entries_for_operating_day _ iso_weekday db :=
    (db <| seeded_operating_days ::= push_back iso_weekday |>, Ok 0);
  write_domain_event _ row db := db <| written_events ::= push_back row |>;
  write_dispatch_telegram _ row db := db <| written_telegrams ::= push_back row |>;
  update_edr_track_clear_time _ train uid ts db :=
    db <| edr_updates ::= push_back (mkEdrUpdate train uid ts) |>;
  update_edr_departure _ train uid ts db :=
    db <| edr_departures ::= push_back (mkEdrUpdate train uid ts) |>;
  update_edr_arrival _ train uid ts db :=
    db <| edr_arrivals ::= push_back (mkEdrUpdate train uid ts) |>;
  append_edr_journal_entry _ row db :=
    let db := db <| edr_journal_entries ::= push_back row |> in
    (db, Z.of_nat (length (edr_journal_entries db)));
  update_edr_journal_entry_status _ entry_id status notes db :=
    db <| edr_journal_status_updates ::= push_back (mkEdrJournalStatusUpdate entry_id status notes) |>;
  upsert_pip_track_state _ uid json db := db <| pip_upserts ::= push_back (mkPipUpsert uid json) |>;
  save_snapshot _ seq_cursor ts payload db :=
    db <| saved_snapshots ::= push_back (mkSnapshotSave seq_cursor ts payload) |>;
  append_chat_message _ sender target_type target_id body ts db :=
    db <| chat_messages ::= push_back (mkChatMessage sender target_type target_id body ts) |>;
  assign_operating_point _ op station client db :=
    let db := db <| op_assignments ::= push_back (mkOpAssignment op station client) |> in
    (db, Z.of_nat (length (op_assignments db)));
  release_operating_point _ op client db :=
    db <| op_releases ::= push_back (mkOpRelease op client) |>;
  upsert_timetable_template train uid op arrival departure track stop_type days db :=
    db <| timetable_upserts ::= push_back (mkTimetableUpsert train uid op arrival departure track
      stop_type days) |>
|}.
