(* ===== verification/Dispatch.v ===== *)
(** * Dispatch: telegram exchanges between neighbouring areas

    - Module [DispatchExchangeManager]: [server/src/dispatch_exchange_manager.cpp];
    - [EdrCoordinator], [DispatchCoordinator]: [server/src/edr_coordinator.cpp]
      and [server/src/dispatch_coordinator.cpp];
    - [DispatchChannel]: [server/src/dispatch_channel.cpp], with the FlatBuffers
      verifier, reader and builder as parameters.

    A call that may throw ([std::stoull]) is a computation of the monad [M]
    below: the state is what it is when the exception leaves the function.
    [exch_step] and [documented_note] are the exchange protocol of [docs/ARCHITECTURE.md] and
    of the comments; where the manager departs from it the theorems say so. *)
From S2P Require Import Prelude Types Frame Text DbWriter.
Local Open Scope Z_scope.

(** ** Exchanges *)

(* SRC server/include/server/dispatch_exchange_manager.hpp 28-33 TelegramResult *)
Inductive TelegramResult : Set := ACCEPTED | REJECTED_WRONG_STATE | REJECTED_DUPLICATE.
#[export] Instance TelegramResult_eq_dec : EqDecision TelegramResult.
Proof. solve_decision. Defined.

(* SRC server/include/server/dispatch_exchange_manager.hpp 35-41 TelegramOutcome *)
Record TelegramOutcome := mkTelegramOutcome {
  to_result : TelegramResult; to_new_status : ExchangeStatus.t;
  to_telegram_status_ : TelegramStatus.t; to_exchange_id : string }.

(* SRC server/src/dispatch_exchange_manager.cpp 12-21 to_telegram_status *)
Definition to_telegram_status (r : TelegramResult) : TelegramStatus.t :=
  match r with
  | ACCEPTED => TelegramStatus.CONFIRMED
  | REJECTED_WRONG_STATE | REJECTED_DUPLICATE => TelegramStatus.REJECTED
  end.

Module DispatchExchangeManager.
Import DispatchFormType TelegramDirection ExchangeStatus.

(* SRC server/include/server/dispatch_exchange_manager.hpp 67-72 ExchangeState *)
Record ExchangeState := mkExchangeState {
  exchange_id : string; ex_status : ExchangeStatus.t; ex_train_number : string }.
#[export] Instance ExchangeState_eta : Eta ExchangeState := fun e =>
  mkExchangeState (exchange_id e) (ex_status e) (ex_train_number e).
Definition ExchangeState_default : ExchangeState := mkExchangeState "" IDLE "".

(** The pair of the initiating and the receiving area. *)
Notation Key := (string * string)%type (only parsing).

(* SRC server/include/server/dispatch_exchange_manager.hpp 79-80 DispatchExchangeManager *)
Record t := mk { exchanges_ : gmap Key ExchangeState; next_id_ : Z }.
#[export] Instance eta : Eta t := fun m => mk (exchanges_ m) (next_id_ m).
Definition create : t := mk ∅ 1.

(* SRC server/src/dispatch_exchange_manager.cpp 25-28 generate_exchange_id *)
Definition generate_exchange_id (m : t) : t * string :=
  (m <| next_id_ ::= fun n => u64 (n + 1) |>, ("exch-" +:+ format_padded 7 (next_id_ m))%string).

(** [exchanges_[key]]: a missing entry is created. *)
(* SRC server/src/dispatch_exchange_manager.cpp 30-34 get_or_create *)
Definition get_or_create (key : Key) (m : t) : t * ExchangeState :=
  match exchanges_ m !! key with
  | Some ex => (m, ex)
  | None => (m <| exchanges_ ::= <[key := ExchangeState_default]> |>, ExchangeState_default)
  end.

(** Writing through the reference [ex] to the map entry. *)
Definition write_exchange (key : Key) (ex : ExchangeState) (m : t) : t :=
  m <| exchanges_ ::= <[key := ex]> |>.

(* SRC server/src/dispatch_exchange_manager.cpp 46-48 submit_telegram *)
Definition reject (ex : ExchangeState) (m : t) (reason : TelegramResult) : t * TelegramOutcome :=
  (m, mkTelegramOutcome reason (ex_status ex) (to_telegram_status reason) "").

(* SRC server/src/dispatch_exchange_manager.cpp 50-54 submit_telegram *)
Definition accept (key : Key) (train_number : string) (ex : ExchangeState) (m : t)
    (new_status : ExchangeStatus.t) : t * TelegramOutcome :=
  let ex := ex <| ex_status := new_status |> <| ex_train_number := train_number |> in
  (write_exchange key ex m,
   mkTelegramOutcome ACCEPTED new_status TelegramStatus.CONFIRMED (exchange_id ex)).

(** Accepted without a transition: the answer quotes the exchange as it is. *)
Definition record (ex : ExchangeState) (m : t) : t * TelegramOutcome :=
  (m, mkTelegramOutcome ACCEPTED (ex_status ex) TelegramStatus.CONFIRMED (exchange_id ex)).

(* SRC server/src/dispatch_exchange_manager.cpp 36-138 submit_telegram *)
Definition submit_telegram (src_area dst_area : string) (form : DispatchFormType.t)
    (direction : TelegramDirection.t) (train_number : string) (m : t) : t * TelegramOutcome :=
  let key := (src_area, dst_area) in
  let '(m, ex) := get_or_create key m in
  if (bool_decide (form = S2) || bool_decide (form = S55)) && bool_decide (direction = SENT) then
    match ex_status ex with
    | IDLE | CLOSED | CANCELLED =>
        let '(m, id) := generate_exchange_id m in
        accept key train_number (ex <| exchange_id := id |>) m S2_SENT
    | S2_SENT => reject ex m REJECTED_DUPLICATE
    | _ => reject ex m REJECTED_WRONG_STATE
    end
  else if (bool_decide (form = S24) || bool_decide (form = S56))
          && bool_decide (direction = RECEIVED) then
    match ex_status ex with
    | S2_SENT => accept key train_number ex m S24_RECEIVED
    | S24_RECEIVED => reject ex m REJECTED_DUPLICATE
    | _ => reject ex m REJECTED_WRONG_STATE
    end
  else if bool_decide (form = S25) && bool_decide (direction = SENT) then
    if bool_decide (ex_status ex = S24_RECEIVED) then accept key train_number ex m S25_SENT
    else reject ex m REJECTED_WRONG_STATE
  else if bool_decide (form = S26) && bool_decide (direction = RECEIVED) then
    if bool_decide (ex_status ex = S25_SENT) then accept key train_number ex m S26_RECEIVED
    else reject ex m REJECTED_WRONG_STATE
  else if bool_decide (form = S35) && bool_decide (direction = SENT) then
    if bool_decide (ex_status ex = S2_SENT) then accept key train_number ex m CANCELLED
    else reject ex m REJECTED_WRONG_STATE
  else if bool_decide (form = S51) || bool_decide (form = S52) then
    let active := negb (bool_decide (ex_status ex = IDLE)) && negb (bool_decide (ex_status ex = CLOSED))
                  && negb (bool_decide (ex_status ex = CANCELLED)) in
    if negb active then reject ex m REJECTED_WRONG_STATE else record ex m
  else if bool_decide (form = S76) then
    let active := negb (bool_decide (ex_status ex = CLOSED))
                  && negb (bool_decide (ex_status ex = CANCELLED)) in
    if negb active && negb (bool_decide (ex_status ex = IDLE)) then reject ex m REJECTED_WRONG_STATE
    else record ex m
  else reject ex m REJECTED_WRONG_STATE.

(* SRC server/src/dispatch_exchange_manager.cpp 140-149 status *)
Definition status (src_area dst_area : string) (m : t) : ExchangeStatus.t :=
  match exchanges_ m !! (src_area, dst_area) with
  | None => IDLE
  | Some ex => ex_status ex
  end.

(* SRC server/src/dispatch_exchange_manager.cpp 151-161 close *)
Definition close (src_area dst_area : string) (m : t) : t :=
  match exchanges_ m !! (src_area, dst_area) with
  | None => m
  | Some ex =>
      if bool_decide (ex_status ex = S26_RECEIVED) then
        write_exchange (src_area, dst_area) (ex <| ex_status := CLOSED |>) m
      else m
  end.

(** ** The protocol *)

(** The transitions of an exchange. *)
Inductive exch_step : ExchangeStatus.t -> DispatchFormType.t -> TelegramDirection.t ->
    ExchangeStatus.t -> Prop :=
  | step_request s f :
      (s = IDLE \/ s = CLOSED \/ s = CANCELLED) -> (f = S2 \/ f = S55) ->
      exch_step s f SENT S2_SENT
  | step_clear f : f = S24 \/ f = S56 -> exch_step S2_SENT f RECEIVED S24_RECEIVED
  | step_departure : exch_step S24_RECEIVED S25 SENT S25_SENT
  | step_arrival : exch_step S25_SENT S26 RECEIVED S26_RECEIVED
  | step_cancel : exch_step S2_SENT S35 SENT CANCELLED.

(** Telegrams recorded without a transition. *)
Inductive exch_note : ExchangeStatus.t -> DispatchFormType.t -> Prop :=
  | note_crossing s f : s <> IDLE -> s <> CLOSED -> s <> CANCELLED -> f = S51 \/ f = S52 ->
      exch_note s f
  | note_message s : s <> CLOSED -> s <> CANCELLED -> exch_note s S76.

(** Repetitions of the telegram that led to the present state. *)
Inductive exch_repeat : ExchangeStatus.t -> DispatchFormType.t -> TelegramDirection.t -> Prop :=
  | repeat_request f : f = S2 \/ f = S55 -> exch_repeat S2_SENT f SENT
  | repeat_clear f : f = S24 \/ f = S56 -> exch_repeat S24_RECEIVED f RECEIVED.

(** ** What a telegram does *)

Definition exchange (src_area dst_area : string) (m : t) : ExchangeState :=
  default ExchangeState_default (exchanges_ m !! (src_area, dst_area)).

Lemma status_exchange src dst m : status src dst m = ex_status (exchange src dst m).
Proof. unfold status, exchange. by destruct (exchanges_ m !! _). Qed.

(** The manager a telegram leaves, in terms of the exchange it leaves. *)
Definition after (src dst : string) (ex : ExchangeState) (fresh : bool) (m m' : t) : Prop :=
  exchange src dst m' = ex /\
  (forall s d, (s, d) <> (src, dst) -> exchange s d m' = exchange s d m) /\
  next_id_ m' = (if fresh then u64 (next_id_ m + 1) else next_id_ m).

Lemma after_get_or_create src dst m :
  after src dst (exchange src dst m) false m (get_or_create (src, dst) m).1 /\
  (get_or_create (src, dst) m).2 = exchange src dst m.
Proof.
  unfold get_or_create, after, exchange.
  destruct (exchanges_ m !! (src, dst)) as [ex|] eqn:E; cbn; [by rewrite E|].
  split_and!; [by rewrite lookup_insert_eq| |done..].
  intros s d Hne. by rewrite lookup_insert_ne by done.
Qed.

Lemma after_write src dst ex ex' fresh m m' :
  after src dst ex fresh m m' -> after src dst ex' fresh m (write_exchange (src, dst) ex' m').
Proof.
  intros (_ & Ho & Hn). unfold after, exchange in *. cbn. split_and!; [by rewrite lookup_insert_eq| |done].
  intros s d Hne. rewrite lookup_insert_ne by done. by apply Ho.
Qed.

Lemma after_generate src dst ex m m' :
  after src dst ex false m m' ->
  after src dst ex true m (generate_exchange_id m').1 /\
  (generate_exchange_id m').2 = ("exch-" +:+ format_padded 7 (next_id_ m))%string.
Proof. intros (He & Ho & Hn). unfold after, exchange in *. cbn in *. by rewrite Hn. Qed.

(** The answer to a telegram, computed from the exchange and the counter. *)
Definition answer (ex : ExchangeState) (fresh : bool) (m : t) : string :=
  if fresh then ("exch-" +:+ format_padded 7 (next_id_ m))%string else exchange_id ex.

Definition is_request (f : DispatchFormType.t) (d : TelegramDirection.t) : bool :=
  (bool_decide (f = S2) || bool_decide (f = S55)) && bool_decide (d = SENT).

(** Every telegram ends in one of three ways. *)
Inductive handled (src dst : string) (f : DispatchFormType.t) (d : TelegramDirection.t)
    (train : string) (m : t) : t -> TelegramOutcome -> Prop :=
  | handled_step st' m' :
      exch_step (status src dst m) f d st' ->
      let id := answer (exchange src dst m) (is_request f d) m in
      after src dst (mkExchangeState id st' train) (is_request f d) m m' ->
      handled src dst f d train m m' (mkTelegramOutcome ACCEPTED st' TelegramStatus.CONFIRMED id)
  | handled_note m' :
      exch_note (status src dst m) f ->
      after src dst (exchange src dst m) false m m' ->
      handled src dst f d train m m'
        (mkTelegramOutcome ACCEPTED (status src dst m) TelegramStatus.CONFIRMED
           (exchange_id (exchange src dst m)))
  | handled_reject m' r :
      (forall st', ~ exch_step (status src dst m) f d st') -> ~ exch_note (status src dst m) f ->
      r <> ACCEPTED -> (r = REJECTED_DUPLICATE <-> exch_repeat (status src dst m) f d) ->
      after src dst (exchange src dst m) false m m' ->
      handled src dst f d train m m' (mkTelegramOutcome r (status src dst m) TelegramStatus.REJECTED "").

Ltac no_protocol :=
  match goal with
  | |- _ <> _ => discriminate
  | |- ~ _ => intros H; inversion H; intuition discriminate
  | |- forall _, ~ _ => intros ? H; inversion H; intuition discriminate
  | |- _ <-> _ => first
      [ split; [discriminate|intros H; inversion H; intuition discriminate]
      | split; [intros _; constructor; auto|reflexivity] ]
  end.

Lemma submit_telegram_handled src dst f d train m :
  handled src dst f d train m (submit_telegram src dst f d train m).1
    (submit_telegram src dst f d train m).2.
Proof.
  unfold submit_telegram. pose proof (after_get_or_create src dst m) as [Ha He].
  destruct (get_or_create (src, dst) m) as [m1 ex]. cbn [fst snd] in Ha, He. subst ex.
  pose proof (after_generate _ _ _ _ _ Ha) as [Hg Hid].
  destruct (generate_exchange_id m1) as [m2 id2]. cbn [fst snd] in Hg, Hid. subst id2.
  pose proof (status_exchange src dst m) as Hst.
  destruct (ex_status (exchange src dst m)) eqn:Est, f, d; eval_decides; cbn; rewrite ?Est; eval_decides; cbn.
  all: try (rewrite <- Hst; apply handled_reject; rewrite ?Hst; [no_protocol..|done]).
  all: try (rewrite <- Hst; apply handled_note; [rewrite Hst; constructor; set_solver|done]).
  all: try (refine (handled_step _ _ _ _ _ _ _ _ _ _);
            [rewrite Hst; constructor; set_solver|by eapply after_write]).
Qed.

(** ** Histories

    A run of the manager: telegrams and closures in any order, on any pairs,
    with the log of the telegrams and their answers. *)
Record Telegram := mkTelegram {
  tg_src : string; tg_dst : string; tg_form : DispatchFormType.t;
  tg_direction : TelegramDirection.t; tg_train : string }.
Definition submit (tg : Telegram) (m : t) : t * TelegramOutcome :=
  submit_telegram (tg_src tg) (tg_dst tg) (tg_form tg) (tg_direction tg) (tg_train tg) m.

Inductive runs : t -> list (Telegram * TelegramOutcome) -> Prop :=
  | runs_create : runs create []
  | runs_submit m log tg : runs m log -> runs (submit tg m).1 (log ++ [(tg, (submit tg m).2)])
  | runs_close m log src dst : runs m log -> runs (close src dst m) log.

(** A telegram that moved an exchange: accepted, and not merely recorded. *)
Definition supplementary (f : DispatchFormType.t) : bool :=
  bool_decide (f = S51) || bool_decide (f = S52) || bool_decide (f = S76).
Definition advances (e : Telegram * TelegramOutcome) : bool :=
  bool_decide (to_result e.2 = ACCEPTED) && negb (supplementary (tg_form e.1)).

Lemma step_supplementary s f d s' : exch_step s f d s' -> supplementary f = false.
Proof. by intros []; destruct_or?; subst. Qed.
Lemma note_supplementary s f : exch_note s f -> supplementary f = true.
Proof. by intros []; destruct_or?; subst. Qed.
Lemma note_is_request s f d : exch_note s f -> is_request f d = false.
Proof. by intros []; destruct_or?; subst. Qed.

(** The forms that moved the exchange of a pair, with the identifiers they were given. *)
Definition progress_entry (src dst : string) (e : Telegram * TelegramOutcome) : list (DispatchFormType.t * string) :=
  if bool_decide ((tg_src e.1, tg_dst e.1) = (src, dst)) && advances e
  then [(tg_form e.1, to_exchange_id e.2)] else [].
Definition progress (src dst : string) (log : list (Telegram * TelegramOutcome)) :
    list (DispatchFormType.t * string) := log ≫= progress_entry src dst.

(** The identifiers given to accepted requests, over all pairs. *)
Definition request_id (e : Telegram * TelegramOutcome) : list string :=
  if is_request (tg_form e.1) (tg_direction e.1) && bool_decide (to_result e.2 = ACCEPTED)
  then [to_exchange_id e.2] else [].
Definition request_ids (log : list (Telegram * TelegramOutcome)) : list string := log ≫= request_id.

(** What the history of an exchange looks like in each state. *)
Inductive stage : ExchangeStatus.t -> string -> list (DispatchFormType.t * string) -> Prop :=
  | stage_idle : stage IDLE "" []
  | stage_sent h f id : f = S2 \/ f = S55 -> stage S2_SENT id (h ++ [(f, id)])
  | stage_clear h f id : stage S2_SENT id h -> f = S24 \/ f = S56 ->
      stage S24_RECEIVED id (h ++ [(f, id)])
  | stage_departed h id : stage S24_RECEIVED id h -> stage S25_SENT id (h ++ [(S25, id)])
  | stage_arrived h id : stage S25_SENT id h -> stage S26_RECEIVED id (h ++ [(S26, id)])
  | stage_closed h id : stage S26_RECEIVED id h -> stage CLOSED id h
  | stage_cancelled h id : stage S2_SENT id h -> stage CANCELLED id (h ++ [(S35, id)]).

(** One step of the protocol prolongs the history. *)
Lemma stage_step s id h f d s' id' :
  stage s id h -> exch_step s f d s' -> (is_request f d = false -> id' = id) ->
  stage s' id' (h ++ [(f, id')]).
Proof.
  intros Hst Hs Hid.
  inversion Hs; subst; try (rewrite Hid by (destruct_or?; by subst)); by constructor.
Qed.

Lemma exchange_close src dst m s d :
  exchange s d (close src dst m) = exchange s d m \/
  (s, d) = (src, dst) /\ status s d m = S26_RECEIVED /\
  exchange s d (close src dst m) = exchange s d m <| ex_status := CLOSED |>.
Proof.
  unfold close, status, exchange. destruct (exchanges_ m !! (src, dst)) as [ex|] eqn:E; [|by left].
  case_bool_decide as Est; [|by left]. cbn.
  destruct (decide ((s, d) = (src, dst))) as [[= -> ->]|Hne].
  - right. by rewrite E, lookup_insert_eq.
  - left. by rewrite lookup_insert_ne by done.
Qed.

Lemma next_id_close src dst m : next_id_ (close src dst m) = next_id_ m.
Proof. unfold close. by repeat case_match. Qed.

Lemma progress_snoc src dst log e : progress src dst (log ++ [e]) = progress src dst log ++ progress_entry src dst e.
Proof. unfold progress. by rewrite bind_app, bind_singleton. Qed.

(** The history of each pair matches its exchange. *)
Lemma runs_stage m log src dst :
  runs m log -> stage (status src dst m) (exchange_id (exchange src dst m)) (progress src dst log).
Proof.
  induction 1 as [|m log tg _ IH|m log s d _ IH]; [constructor| |].
  - rewrite progress_snoc. unfold submit, progress_entry.
    pose proof (submit_telegram_handled (tg_src tg) (tg_dst tg) (tg_form tg) (tg_direction tg)
      (tg_train tg) m) as H.
    destruct (submit_telegram _ _ _ _ _ m) as [m' o]. cbn [fst snd] in *.
    destruct (decide ((tg_src tg, tg_dst tg) = (src, dst))) as [Heq|Hne].
    + rewrite bool_decide_true by done. injection Heq as Hsrc Hdst. rewrite Hsrc, Hdst in H.
      rewrite status_exchange.
      destruct H as [st' m' Hs id (Ha & _)|m' Hs (Ha & _)|m' r Hs _ Hr _ (Ha & _)]; rewrite Ha.
      * unfold advances. cbn [to_result fst snd]. rewrite (step_supplementary _ _ _ _ Hs). cbn.
        apply (stage_step _ _ _ _ _ _ _ IH Hs). unfold id, answer. by intros ->.
      * unfold advances. cbn [to_result fst snd]. rewrite (note_supplementary _ _ Hs).
        by rewrite app_nil_r, <- status_exchange.
      * unfold advances. cbn [to_result fst snd]. rewrite bool_decide_false by done.
        by rewrite app_nil_r, <- status_exchange.
    + rewrite bool_decide_false by done. rewrite app_nil_r, status_exchange.
      assert (exchange src dst m' = exchange src dst m) as ->; [|by rewrite <- status_exchange].
      destruct H as [?? _ _ (_ & Ho & _)|? _ (_ & Ho & _)|?? _ _ _ _ (_ & Ho & _)]; by apply Ho.
  - rewrite status_exchange. destruct (exchange_close s d m src dst) as [->|(_ & Hst & ->)].
    + by rewrite <- status_exchange.
    + cbn. constructor. by rewrite <- Hst.
Qed.

(** ** Identifiers *)

Definition id_of (n : Z) : string := ("exch-" +:+ format_padded 7 n)%string.
Lemma id_of_inj n k : 0 <= n -> 0 <= k -> id_of n = id_of k -> n = k.
Proof. intros Hn Hk [= E]. by apply (format_padded_inj 7). Qed.

Lemma request_ids_snoc log e : request_ids (log ++ [e]) = request_ids log ++ request_id e.
Proof. unfold request_ids. by rewrite bind_app, bind_singleton. Qed.

(** The identifiers given so far are those below the counter. *)
Lemma runs_request_ids m log :
  runs m log -> Z.of_nat (length log) < 2 ^ 64 - 1 ->
  next_id_ m = 1 + Z.of_nat (length (request_ids log)) /\
  (length (request_ids log) <= length log)%nat /\
  request_ids log = id_of <$> seqZ 1 (Z.of_nat (length (request_ids log))).
Proof.
  induction 1 as [|m log tg _ IH|m log s d _ IH]; intros Hlen; [done| |].
  - rewrite length_app in Hlen. cbn in Hlen. destruct IH as (Hn & Hle & Hids); [lia|].
    rewrite request_ids_snoc. unfold submit, request_id.
    pose proof (submit_telegram_handled (tg_src tg) (tg_dst tg) (tg_form tg) (tg_direction tg)
      (tg_train tg) m) as H.
    destruct (submit_telegram _ _ _ _ _ m) as [m' o]. cbn [fst snd] in *.
    destruct H as [st' m' Hs id (_ & _ & Ha)|m' Hs (_ & _ & Ha)|m' r Hs _ Hr _ (_ & _ & Ha)];
      cbn [to_result to_exchange_id]; rewrite Ha.
    + rewrite bool_decide_true by done. unfold id, answer. destruct (is_request _ _); cbn.
      * rewrite !length_app. cbn. rewrite wrap_small by (unfold fits; lia).
        split_and!; [lia|lia|].
        rewrite Nat2Z.inj_add, seqZ_app, fmap_app by lia. cbn.
        rewrite <- Hids, Hn. done.
      * rewrite app_nil_r, length_app. split_and!; [done|lia|done].
    + rewrite (note_is_request _ _ _ Hs). rewrite app_nil_r, length_app. split_and!; [done|lia|done].
    + rewrite bool_decide_false by done. rewrite andb_false_r, app_nil_r, length_app.
      split_and!; [done|lia|done].
  - destruct (IH Hlen) as (Hn & ?). by rewrite next_id_close.
Qed.

(** An identifier of an exchange does not read as a number. *)
Lemma runs_exchange_id m log src dst :
  runs m log -> stoull (exchange_id (exchange src dst m)) = None.
Proof.
  intros Hr. revert src dst. induction Hr as [|m log tg _ IH|m log s e _ IH]; intros src dst; [done| |].
  - unfold submit.
    pose proof (submit_telegram_handled (tg_src tg) (tg_dst tg) (tg_form tg) (tg_direction tg)
      (tg_train tg) m) as H.
    destruct (decide ((src, dst) = (tg_src tg, tg_dst tg))) as [[= -> ->]|Hne].
    + destruct H as [st' m' Hs id (-> & _)|m' Hs (-> & _)|m' r Hs _ Hr _ (-> & _)]; [|apply IH..].
      cbn. unfold id, answer. by destruct (is_request _ _).
    + destruct H as [?? _ _ (_ & Ho & _)|? _ (_ & Ho & _)|?? _ _ _ _ (_ & Ho & _)];
        rewrite Ho by done; apply IH.
  - destruct (exchange_close s e m src dst) as [->|(_ & _ & ->)]; apply IH.
Qed.

Lemma answered_id src dst f d train m :
  to_result (submit_telegram src dst f d train m).2 = ACCEPTED ->
  to_exchange_id (submit_telegram src dst f d train m).2 =
  exchange_id (exchange src dst (submit_telegram src dst f d train m).1).
Proof.
  intros Ho. by destruct (submit_telegram_handled src dst f d train m)
    as [st' m' _ id (-> & _)|m' _ (-> & _)|m' r _ _ Hr].
Qed.

(** An arrival ends the exchange for telegrams: only [close] leads on. *)
Lemma arrival_absorbing src dst m s e f d train :
  status src dst m = S26_RECEIVED ->
  status src dst (submit_telegram s e f d train m).1 = S26_RECEIVED.
Proof.
  intros Hst. pose proof (submit_telegram_handled s e f d train m) as H.
  rewrite status_exchange in *.
  destruct (decide ((src, dst) = (s, e))) as [[= -> ->]|Hne].
  - destruct H as [st' m' Hs id (-> & _)|m' Hs (-> & _)|m' r Hs _ Hr _ (-> & _)]; [|done..].
    rewrite status_exchange, Hst in Hs. inversion Hs; intuition discriminate.
  - by destruct H as [?? _ _ (_ & Ho & _)|? _ (_ & Ho & _)|?? _ _ _ _ (_ & Ho & _)]; rewrite Ho.
Qed.

Lemma request_after_arrival src dst m f train :
  status src dst m = S26_RECEIVED -> f = S2 \/ f = S55 ->
  to_result (submit_telegram src dst f SENT train m).2 = REJECTED_WRONG_STATE.
Proof.
  intros Hst Hf. pose proof (submit_telegram_handled src dst f SENT train m) as H.
  destruct H as [st' m' Hs|m' Hs|m' r Hs _ Hr Hd _]; rewrite ?Hst in *.
  - inversion Hs; intuition discriminate.
  - apply note_supplementary in Hs. by destruct Hf as [-> | ->].
  - destruct r; [done..|]. destruct Hd as [Hd _]. specialize (Hd eq_refl). inversion Hd.
Qed.

Lemma stage_S25 id h :
  stage S25_SENT id h -> exists h0 f g, (f = S2 \/ f = S55) /\ (g = S24 \/ g = S56) /\
    h = h0 ++ [(f, id); (g, id); (S25, id)].
Proof.
  inversion 1 as [| | |h1 id1 Hc| | |]; subst.
  inversion Hc as [| |h2 g id2 Hs Hg| | | |]; subst. inversion Hs as [|h3 f id3 Hf| | | | |]; subst.
  exists h3, f, g. by rewrite <- !app_assoc.
Qed.

(** The telegrams recorded without a transition, as the comments of [submit_telegram] have
    them: a level-crossing notification while an exchange is active, from the request to the
    departure, S51 even from IDLE, and a message in any state that is not terminal. *)
Inductive documented_note : ExchangeStatus.t -> DispatchFormType.t -> Prop :=
  | doc_crossing s f : s = S2_SENT \/ s = S24_RECEIVED \/ s = S25_SENT -> f = S51 \/ f = S52 ->
      documented_note s f
  | doc_early : documented_note IDLE S51
  | doc_message s : s <> CLOSED -> s <> CANCELLED -> documented_note s S76.

(** Where the code does something else. *)
Definition crossing_contested (s : ExchangeStatus.t) (f : DispatchFormType.t) : Prop :=
  s = IDLE /\ f = S51 \/ s = S26_RECEIVED /\ (f = S51 \/ f = S52).

Lemma exch_note_documented s f : ~ crossing_contested s f -> exch_note s f <-> documented_note s f.
Proof.
  unfold crossing_contested. intros Hc. split.
  - intros Hn. revert Hc. destruct Hn as [s' f' H1 H2 H3 Hf|s' H1 H2]; intros Hc; [|by constructor].
    destruct s'; try done; try (apply doc_crossing; [by auto|done]). destruct Hc. by right.
  - intros Hn. revert Hc. destruct Hn as [s' f' Hs Hf| |s' H1 H2]; intros Hc;
      [|destruct Hc; by left|by constructor].
    destruct_or! Hs; subst; by constructor.
Qed.


(** The exceptions: in IDLE a crossing notification S51 is refused, and after the arrival
    both notifications are still recorded. *)
Theorem crossing_notes_contested src dst f d train m :
  (status src dst m = IDLE -> to_result (submit_telegram src dst S51 d train m).2 = REJECTED_WRONG_STATE) /\
  (status src dst m = S26_RECEIVED -> f = S51 \/ f = S52 ->
   to_result (submit_telegram src dst f d train m).2 = ACCEPTED).
Proof.
  split.
  - intros Hst. pose proof (submit_telegram_handled src dst S51 d train m) as H.
    destruct H as [st' m' Hs id _|m' Hs _|m' r Hs Hn Hr Hd _]; cbn.
    + apply step_supplementary in Hs. discriminate.
    + rewrite Hst in Hs. inversion Hs; congruence.
    + destruct r; [done..|]. destruct Hd as [Hd _]. specialize (Hd eq_refl). inversion Hd; intuition congruence.
  - intros Hst Hf. pose proof (submit_telegram_handled src dst f d train m) as H.
    destruct H as [st' m' Hs id _|m' Hs _|m' r Hs Hn Hr Hd _]; cbn; [done..|].
    destruct Hn. rewrite Hst. by constructor.
Qed.

(** C27: in every run of fewer than [2^64 - 1] telegrams and closures, each
    pair's accepted telegrams follow the protocol in order - an arrival S26
    closes a request, a line-clear and a departure of the same exchange
    identifier - and no two accepted requests share an identifier. *)
Theorem exchange_order m log :
  runs m log -> Z.of_nat (length log) < 2 ^ 64 - 1 ->
  NoDup (request_ids log) /\
  forall src dst,
    let id := exchange_id (exchange src dst m) in
    stage (status src dst m) id (progress src dst log) /\
    (status src dst m = S25_SENT -> exists h f g, (f = S2 \/ f = S55) /\ (g = S24 \/ g = S56) /\
       progress src dst log = h ++ [(f, id); (g, id); (S25, id)]) /\
    (status src dst m = S26_RECEIVED -> exists h f g, (f = S2 \/ f = S55) /\ (g = S24 \/ g = S56) /\
       progress src dst log = h ++ [(f, id); (g, id); (S25, id); (S26, id)]).
Proof.
  intros Hr Hlen. split.
  - destruct (runs_request_ids m log Hr Hlen) as (_ & _ & ->).
    apply NoDup_fmap_2_strong; [|apply NoDup_seqZ].
    intros x y Hx Hy. rewrite !elem_of_seqZ in *. apply id_of_inj; lia.
  - intros src dst id. pose proof (runs_stage m log src dst Hr) as Hst. fold id in Hst.
    split_and!; [done| |]; intros E; rewrite E in Hst.
    + by apply stage_S25 in Hst.
    + inversion Hst as [| | | |h id' Hd| |]; subst.
      apply stage_S25 in Hd as (h0 & f & g & Hf & Hg & ->).
      exists h0, f, g. by rewrite <- app_assoc.
Qed.

End DispatchExchangeManager.

(** ** Computations that may throw *)

(** A computation on the state [S]: the state it leaves, and its result unless
    an exception escapes it. *)
Definition M (S A : Type) : Type := S -> S * option A.
Definition ret {S A} (a : A) : M S A := fun s => (s, Some a).
Definition bind {S A B} (m : M S A) (k : A -> M S B) : M S B := fun s =>
  match m s with
  | (s, Some a) => k a s
  | (s, None) => (s, None)
  end.
(** A call of the standard library that throws on [None]. *)
Definition throwing {S A} (o : option A) : M S A := fun s => (s, o).
Notation "'let!' x := m 'in' k" := (bind m (fun x => k))
  (at level 10, x binder, k at level 200).

(** ** The coordinators *)

Section Coordinators.
Context {DB : Type} `{IDbWriter DB}.
Variable session_id : string.

(** The exchange manager and the database the coordinator drives. *)
Record Backend := mkBackend { be_exchanges : DispatchExchangeManager.t; be_db : DB }.

Definition on_db (f : DB -> DB) : M Backend unit := fun s =>
  (mkBackend (be_exchanges s) (f (be_db s)), Some tt).
Definition on_exchanges {A} (f : DispatchExchangeManager.t -> DispatchExchangeManager.t * A) :
    M Backend A := fun s =>
  let '(m, a) := f (be_exchanges s) in (mkBackend m (be_db s), Some a).

(* SRC server/src/edr_coordinator.cpp 13-40 EdrCoordinator::on_telegram_accepted *)
Definition on_telegram_accepted (form : DispatchFormType.t) (direction : TelegramDirection.t)
    (src_area dst_area train_number : string) (timestamp_us : Z) : M Backend unit :=
  let station_str := if bool_decide (direction = TelegramDirection.SENT) then src_area else dst_area in
  let! station_uid := throwing (stoull station_str) in
  match form with
  | DispatchFormType.S25 =>
      on_db (update_edr_departure session_id train_number station_uid timestamp_us)
  | DispatchFormType.S26 =>
      on_db (update_edr_arrival session_id train_number station_uid timestamp_us)
  | _ => ret tt
  end.

(* SRC server/src/dispatch_coordinator.cpp 12-38 form_type_str *)
Definition form_type_str (ft : DispatchFormType.t) : string :=
  match ft with
  | DispatchFormType.S2 => "S2" | DispatchFormType.S24 => "S24"
  | DispatchFormType.S25 => "S25" | DispatchFormType.S26 => "S26"
  | DispatchFormType.S35 => "S35" | DispatchFormType.S51 => "S51"
  | DispatchFormType.S52 => "S52" | DispatchFormType.S55 => "S55"
  | DispatchFormType.S56 => "S56" | DispatchFormType.S76 => "S76"
  end.

(* SRC server/include/server/dispatch_coordinator.hpp 39-43 DispatchCoordinator::DispatchOutcome *)
Record DispatchOutcome := mkDispatchOutcome {
  do_exchange_id : string; do_new_status : ExchangeStatus.t }.

(* SRC server/src/dispatch_coordinator.cpp 48-87 DispatchCoordinator::handle_dispatch_form *)
Definition handle_dispatch_form (form : DispatchFormType.t) (direction : TelegramDirection.t)
    (src_area dst_area train_number : string) (track_number : option string)
    (km_markers : list string) (timestamp_us : Z) : M Backend (option DispatchOutcome) :=
  let! outcome := on_exchanges
    (DispatchExchangeManager.submit_telegram src_area dst_area form direction train_number) in
  let! from_uid := throwing (stoull src_area) in
  let! to_uid := throwing (stoull dst_area) in
  let row := {|
    tr_form_type := form_type_str form;
    tr_exchange_id := to_exchange_id outcome;
    tr_train_number := train_number;
    tr_from_uid := from_uid;
    tr_to_uid := to_uid;
    tr_direction := if bool_decide (direction = TelegramDirection.SENT) then "SENT" else "RECEIVED";
    tr_status := if negb (bool_decide (to_result outcome = ACCEPTED))
                 then "REJECTED_STRICT_POLICY" else "ACCEPTED";
    tr_track_number := track_number;
    tr_km_markers := km_markers;
    tr_body := "";
    tr_timestamp_us := timestamp_us |} in
  let! _ := on_db (write_dispatch_telegram session_id row) in
  if negb (bool_decide (to_result outcome = ACCEPTED)) then ret None
  else
    let! _ :=
      if bool_decide (form = DispatchFormType.S24) || bool_decide (form = DispatchFormType.S56) then
        let! uid := throwing (stoull dst_area) in
        on_db (update_edr_track_clear_time session_id train_number uid timestamp_us)
      else ret tt in
    let! _ := on_telegram_accepted form direction src_area dst_area train_number timestamp_us in
    ret (Some (mkDispatchOutcome (to_exchange_id outcome) (to_new_status outcome))).

(* SRC server/src/dispatch_coordinator.cpp 89-104 DispatchCoordinator::handle_free_text *)
Definition handle_free_text (src_area dst_area body : string) (timestamp_us : Z) : M Backend unit :=
  let! from_uid := throwing (stoull src_area) in
  let! to_uid := throwing (stoull dst_area) in
  on_db (write_dispatch_telegram session_id {|
    tr_form_type := "FREE_TEXT"; tr_exchange_id := ""; tr_train_number := "";
    tr_from_uid := from_uid; tr_to_uid := to_uid;
    tr_direction := "SENT"; tr_status := "ACCEPTED";
    tr_track_number := None; tr_km_markers := []; tr_body := body;
    tr_timestamp_us := timestamp_us |}).
End Coordinators.
Arguments Backend : clear implicits.

(** ** The channel *)

(** A message of the dispatch channel as the FlatBuffers reader shows it: an
    absent string or vector is [None], and an enumeration field is the integer
    on the wire, whatever it is. *)
(* SRC proto/dispatch_channel.fbs 17-24 DispatchFormPayload *)
Record DispatchFormPayload := mkDispatchFormPayload {
  df_form_type : Z; df_train_number : option string;
  df_km_markers : option (list (option string)); df_track_number : option string }.
(* SRC proto/dispatch_channel.fbs 26-28 FreeTextPayload *)
Record FreeTextPayload := mkFreeTextPayload { ft_body : option string }.
(* SRC proto/dispatch_channel.fbs 30-33 DispatchChannelMessageBody *)
Inductive DispatchChannelMessageBody :=
  | body_NONE | body_DispatchFormPayload (p : DispatchFormPayload)
  | body_FreeTextPayload (p : FreeTextPayload).
(* SRC proto/dispatch_channel.fbs 35-50 DispatchChannelMessage *)
Record DispatchChannelMessage := mkDispatchChannelMessage {
  dm_src_area_uid : Z; dm_dst_area_uid : Z; dm_direction : Z; dm_kind : Z;
  dm_body : DispatchChannelMessageBody; dm_exchange_uid : Z; dm_exchange_status : Z;
  dm_timestamp_us : Z; dm_sender_id : option string }.

Definition kind_FREE_TEXT : Z := 1.
Definition direction_SENT : Z := 0.

(* SRC server/src/dispatch_channel.cpp 28-46 to_engine_form *)
Definition to_engine_form (ft : Z) : DispatchFormType.t :=
  if ft =? 0 then DispatchFormType.S2 else if ft =? 1 then DispatchFormType.S24
  else if ft =? 2 then DispatchFormType.S25 else if ft =? 3 then DispatchFormType.S26
  else if ft =? 4 then DispatchFormType.S55 else if ft =? 5 then DispatchFormType.S56
  else DispatchFormType.S2.

(** [proto::ExchangeStatus]: PENDING 0, ACCEPTED 1, REJECTED 2, CLOSED 3. *)
(* SRC server/src/dispatch_channel.cpp 48-65 to_proto_status *)
Definition to_proto_status (s : ExchangeStatus.t) : Z :=
  match s with
  | ExchangeStatus.IDLE | ExchangeStatus.S2_SENT | ExchangeStatus.S25_SENT => 0
  | ExchangeStatus.S24_RECEIVED | ExchangeStatus.S26_RECEIVED => 1
  | ExchangeStatus.CANCELLED => 2
  | ExchangeStatus.CLOSED => 3
  end.

(** A call of [broadcast_to_pair]. *)
Record PairBroadcast := mkPairBroadcast { pb_src : string; pb_dst : string; pb_frame : list byte }.

Section Channel.
Context {DB : Type} `{IDbWriter DB}.
Variable session_id : string.
(** The FlatBuffers verifier and reader ([None]: the buffer is refused), and the
    builder. *)
Variable parse : list byte -> option DispatchChannelMessage.
Variable build : DispatchChannelMessage -> list byte.

(** The coordinator's objects and the broadcasts handed to the gateway. *)
Record Channel := mkChannel { ch_backend : Backend DB; ch_posted : list PairBroadcast }.

Definition coordinate {A} (c : M (Backend DB) A) : M Channel A := fun s =>
  let '(b, r) := c (ch_backend s) in (mkChannel b (ch_posted s), r).
Definition broadcast_to_pair (src_area dst_area : string) (wire : list byte) : M Channel unit :=
  fun s => (mkChannel (ch_backend s) (ch_posted s ++ [mkPairBroadcast src_area dst_area wire]), Some tt).

(** The strings of a vector that are not null. *)
Definition km_strings (km : option (list (option string))) : list string :=
  match km with Some km => omap id km | None => [] end.

(** [ts] is the reading of the clock. *)
(* SRC server/src/dispatch_channel.cpp 98-122 DispatchChannel::on_inbound *)
Definition on_free_text (msg : DispatchChannelMessage) (src_area dst_area sender_client_id : string)
    (ts : Z) : M Channel unit :=
  match dm_body msg with
  | body_FreeTextPayload {| ft_body := Some body |} =>
      let! _ := coordinate (handle_free_text session_id src_area dst_area body ts) in
      let root := {|
        dm_src_area_uid := dm_src_area_uid msg; dm_dst_area_uid := dm_dst_area_uid msg;
        dm_direction := direction_SENT; dm_kind := kind_FREE_TEXT;
        dm_body := body_FreeTextPayload (mkFreeTextPayload (Some body));
        dm_exchange_uid := 0; dm_exchange_status := 1;
        dm_timestamp_us := ts; dm_sender_id := Some sender_client_id |} in
      broadcast_to_pair src_area dst_area (encode_frame msg_type.kDispatchChannel 0 0 (build root))
  | _ => ret tt
  end.

(* SRC server/src/dispatch_channel.cpp 124-188 DispatchChannel::on_inbound *)
Definition on_dispatch_form (msg : DispatchChannelMessage) (src_area dst_area sender_client_id : string)
    (ts : Z) : M Channel unit :=
  match dm_body msg with
  | body_DispatchFormPayload
      {| df_form_type := form_type; df_train_number := Some train_number;
         df_km_markers := km; df_track_number := track_number |} =>
      let engine_form := to_engine_form form_type in
      let direction := if dm_direction msg =? direction_SENT then TelegramDirection.SENT
                       else TelegramDirection.RECEIVED in
      let km_markers := km_strings km in
      let! outcome := coordinate (handle_dispatch_form session_id engine_form direction src_area
        dst_area train_number track_number km_markers ts) in
      match outcome with
      | None => ret tt
      | Some outcome =>
          let exchange_uid := default 0 (stoull (do_exchange_id outcome)) in
          let root := {|
            dm_src_area_uid := dm_src_area_uid msg; dm_dst_area_uid := dm_dst_area_uid msg;
            dm_direction := dm_direction msg; dm_kind := 0;
            dm_body := body_DispatchFormPayload
              (mkDispatchFormPayload form_type (Some train_number) (Some (Some <$> km_markers)) track_number);
            dm_exchange_uid := exchange_uid;
            dm_exchange_status := to_proto_status (do_new_status outcome);
            dm_timestamp_us := ts; dm_sender_id := Some sender_client_id |} in
          broadcast_to_pair src_area dst_area (encode_frame msg_type.kDispatchChannel 0 0 (build root))
      end
  | _ => ret tt
  end.

(* SRC server/src/dispatch_channel.cpp 74-188 DispatchChannel::on_inbound *)
Definition on_inbound (payload : list byte) (sender_client_id sender_area_id : string) (ts : Z) :
    M Channel unit :=
  match parse payload with
  | None => ret tt
  | Some msg =>
      let src_uid := dm_src_area_uid msg in
      let dst_uid := dm_dst_area_uid msg in
      if (src_uid =? 0) || (dst_uid =? 0) then ret tt
      else
        let src_area := to_string src_uid in
        let dst_area := to_string dst_uid in
        if negb (bool_decide (src_area = sender_area_id)) then ret tt
        else if dm_kind msg =? kind_FREE_TEXT then
          on_free_text msg src_area dst_area sender_client_id ts
        else on_dispatch_form msg src_area dst_area sender_client_id ts
  end.
End Channel.

(** ** What the channel does *)

Section ChannelFacts.
Context {DB : Type} `{IDbWriter DB}.
Variable session_id : string.
Import DispatchFormType.

(** The row written for a telegram. *)
Definition telegram_row (f : DispatchFormType.t) (d : TelegramDirection.t) (o : TelegramOutcome)
    (src_uid dst_uid : Z) (train : string) (track : option string) (km : list string) (ts : Z) : TelegramRow :=
  mkTelegramRow (form_type_str f) (to_exchange_id o) train src_uid dst_uid
    (if bool_decide (d = TelegramDirection.SENT) then "SENT" else "RECEIVED")
    (if bool_decide (to_result o = ACCEPTED) then "ACCEPTED" else "REJECTED_STRICT_POLICY")
    track km "" ts.

(** The EDR entry an accepted telegram completes. *)
Definition edr_effect (f : DispatchFormType.t) (src_uid dst_uid : Z) (train : string) (ts : Z) : DB -> DB :=
  match f with
  | S24 | S56 => update_edr_track_clear_time session_id train dst_uid ts
  | S25 => update_edr_departure session_id train src_uid ts
  | S26 => update_edr_arrival session_id train dst_uid ts
  | _ => id
  end.

Lemma handle_dispatch_form_spec f d src dst src_uid dst_uid train track km ts (b : Backend DB) :
  stoull src = Some src_uid -> stoull dst = Some dst_uid ->
  let m' := (DispatchExchangeManager.submit_telegram src dst f d train (be_exchanges b)).1 in
  let o := (DispatchExchangeManager.submit_telegram src dst f d train (be_exchanges b)).2 in
  let db := write_dispatch_telegram session_id (telegram_row f d o src_uid dst_uid train track km ts) (be_db b) in
  handle_dispatch_form session_id f d src dst train track km ts b =
  if bool_decide (to_result o = ACCEPTED)
  then (mkBackend m' (edr_effect f src_uid dst_uid train ts db),
        Some (Some (mkDispatchOutcome (to_exchange_id o) (to_new_status o))))
  else (mkBackend m' db, Some None).
Proof.
  intros Hs Hd. pose proof (DispatchExchangeManager.submit_telegram_handled src dst f d train (be_exchanges b)) as Hh.
  unfold handle_dispatch_form, bind, on_exchanges, throwing, on_db, telegram_row.
  destruct (DispatchExchangeManager.submit_telegram _ _ _ _ _ _) as [m' o]. cbn [fst snd] in *.
  rewrite Hs, Hd. cbn [be_exchanges be_db].
  case_bool_decide as Ho; cbn [negb]; [|done].
  unfold on_telegram_accepted, bind, throwing, on_db, ret, edr_effect.
  destruct Hh as [st' m' Hst id _|m' Hst _|]; [| |done].
  - inversion Hst; destruct_or?; subst; eval_decides; cbn; by rewrite ?Hs, ?Hd.
  - inversion Hst; destruct_or?; subst; eval_decides; cbn; destruct d; eval_decides; by rewrite ?Hs, ?Hd.
Qed.

Variable parse : list byte -> option DispatchChannelMessage.
Variable build : DispatchChannelMessage -> list byte.
(** The reader yields 64-bit area identifiers. *)
Hypothesis parse_uids : forall p msg, parse p = Some msg ->
  fits 64 (dm_src_area_uid msg) /\ fits 64 (dm_dst_area_uid msg).

Lemma handle_free_text_spec src dst src_uid dst_uid body ts (b : Backend DB) :
  stoull src = Some src_uid -> stoull dst = Some dst_uid ->
  handle_free_text session_id src dst body ts b =
  (mkBackend (be_exchanges b) (write_dispatch_telegram session_id
     (mkTelegramRow "FREE_TEXT" "" "" src_uid dst_uid "SENT" "ACCEPTED" None [] body ts) (be_db b)), Some tt).
Proof. intros Hs Hd. unfold handle_free_text, bind, throwing. by rewrite Hs, Hd. Qed.

(** One inbound message: the payload, the sender's identity and area, the clock. *)
Record Inbound := mkInbound {
  in_payload : list byte; in_client : string; in_area : string; in_ts : Z }.
Definition receive (i : Inbound) (s : Channel (DB := DB)) : Channel (DB := DB) * option unit :=
  on_inbound session_id parse build (in_payload i) (in_client i) (in_area i) (in_ts i) s.
Definition receive_all (l : list Inbound) (s : Channel (DB := DB)) : Channel (DB := DB) :=
  fold_left (fun s i => (receive i s).1) l s.

(** The exchanges change by at most one telegram, sent in the sender's name. *)
Lemma receive_exchanges i (s : Channel (DB := DB)) :
  (receive i s).2 = Some tt /\
  (be_exchanges (ch_backend (receive i s).1) = be_exchanges (ch_backend s) \/
   exists dst f d train, be_exchanges (ch_backend (receive i s).1) =
     (DispatchExchangeManager.submit_telegram (in_area i) dst f d train (be_exchanges (ch_backend s))).1).
Proof.
  unfold receive, on_inbound. destruct (parse (in_payload i)) as [msg|] eqn:Hp; [|by split; [|left]].
  destruct (parse_uids _ _ Hp) as [Hs%stoull_to_string Hd%stoull_to_string].
  case_match; [by split; [|left]|]. case_bool_decide as Ha; cbn [negb]; [|by split; [|left]].
  rewrite <- Ha. case_match.
  - unfold on_free_text. destruct (dm_body msg) as [|p|[[body|]]]; [by split; [|left]..| |by split; [|left]].
    unfold bind, coordinate. rewrite (handle_free_text_spec _ _ _ _ _ _ _ Hs Hd). by split; [|left].
  - unfold on_dispatch_form.
    destruct (dm_body msg) as [|[ft [train|] km track]|p]; [by split; [|left]| |by split; [|left]..].
    unfold bind, coordinate. rewrite (handle_dispatch_form_spec _ _ _ _ _ _ _ _ _ _ _ Hs Hd).
    cbn zeta. case_bool_decide; (split; [done|]); right; by eexists _, _, _, _.
Qed.

(** A verified form message that names the sender's own area as its
    source never throws.  The state machine decides; the telegram is written to
    the database with the decision; on acceptance the EDR entry it completes is
    updated - a departure at the sending area, an arrival or line-clear at the
    other - and the message is broadcast to the two areas, with the exchange
    number 0, because no exchange identifier of the manager reads as a number. *)
Theorem inbound_form_effect i (s : Channel (DB := DB)) log msg ft train km track :
  DispatchExchangeManager.runs (be_exchanges (ch_backend s)) log ->
  parse (in_payload i) = Some msg ->
  dm_src_area_uid msg <> 0 -> dm_dst_area_uid msg <> 0 ->
  in_area i = to_string (dm_src_area_uid msg) -> dm_kind msg <> kind_FREE_TEXT ->
  dm_body msg = body_DispatchFormPayload (mkDispatchFormPayload ft (Some train) km track) ->
  let src := dm_src_area_uid msg in
  let dst := dm_dst_area_uid msg in
  let f := to_engine_form ft in
  let d := if dm_direction msg =? direction_SENT then TelegramDirection.SENT else TelegramDirection.RECEIVED in
  let m' := (DispatchExchangeManager.submit_telegram (to_string src) (to_string dst) f d train
               (be_exchanges (ch_backend s))).1 in
  let o := (DispatchExchangeManager.submit_telegram (to_string src) (to_string dst) f d train
              (be_exchanges (ch_backend s))).2 in
  let db := write_dispatch_telegram session_id
              (telegram_row f d o src dst train track (km_strings km) (in_ts i)) (be_db (ch_backend s)) in
  let answer := mkDispatchChannelMessage src dst (dm_direction msg) 0
    (body_DispatchFormPayload (mkDispatchFormPayload ft (Some train) (Some (Some <$> km_strings km)) track))
    0 (to_proto_status (to_new_status o)) (in_ts i) (Some (in_client i)) in
  receive i s =
  if bool_decide (to_result o = ACCEPTED) then
    (mkChannel (mkBackend m' (edr_effect f src dst train (in_ts i) db))
       (ch_posted s ++ [mkPairBroadcast (to_string src) (to_string dst)
          (encode_frame msg_type.kDispatchChannel 0 0 (build answer))]), Some tt)
  else (mkChannel (mkBackend m' db) (ch_posted s), Some tt).
Proof.
  intros Hr Hp Hsrc Hdst Ha Hk Hb. cbn zeta.
  destruct (parse_uids _ _ Hp) as [Hs%stoull_to_string Hd%stoull_to_string].
  pose proof (DispatchExchangeManager.runs_exchange_id _ _ (to_string (dm_src_area_uid msg))
    (to_string (dm_dst_area_uid msg)) (DispatchExchangeManager.runs_submit _ _
      (DispatchExchangeManager.mkTelegram (to_string (dm_src_area_uid msg)) (to_string (dm_dst_area_uid msg))
        (to_engine_form ft) (if dm_direction msg =? direction_SENT then TelegramDirection.SENT
           else TelegramDirection.RECEIVED) train) Hr)) as Hid.
  unfold DispatchExchangeManager.submit in Hid. cbn in Hid.
  unfold receive, on_inbound. rewrite Hp.
  rewrite (proj2 (Z.eqb_neq _ _) Hsrc), (proj2 (Z.eqb_neq _ _) Hdst), Ha, bool_decide_true by done.
  cbn [orb negb]. rewrite (proj2 (Z.eqb_neq _ _) Hk). unfold on_dispatch_form. rewrite Hb.
  unfold bind, coordinate. rewrite (handle_dispatch_form_spec _ _ _ _ _ _ _ _ _ _ _ Hs Hd). cbn zeta.
  pose proof (DispatchExchangeManager.answered_id (to_string (dm_src_area_uid msg))
    (to_string (dm_dst_area_uid msg)) (to_engine_form ft) (if dm_direction msg =? direction_SENT then TelegramDirection.SENT
           else TelegramDirection.RECEIVED) train (be_exchanges (ch_backend s))) as Hans.
  case_bool_decide as Ho; [|done]. cbn [do_exchange_id do_new_status].
  by rewrite Hans, Hid by done.
Qed.

(** No inbound message makes the channel throw or closes an exchange:
    once the arrival of a train has been confirmed between two areas, the
    exchange stays in that state whatever messages follow, and every further
    dispatch request between them is refused. *)
Theorem arrival_locks_pair l (s : Channel (DB := DB)) src dst :
  DispatchExchangeManager.status src dst (be_exchanges (ch_backend s)) = ExchangeStatus.S26_RECEIVED ->
  let m := be_exchanges (ch_backend (receive_all l s)) in
  DispatchExchangeManager.status src dst m = ExchangeStatus.S26_RECEIVED /\
  (forall f train, f = S2 \/ f = S55 ->
     to_result (DispatchExchangeManager.submit_telegram src dst f TelegramDirection.SENT train m).2
     = REJECTED_WRONG_STATE) /\
  (forall i, (receive i (receive_all l s)).2 = Some tt).
Proof.
  intros Hst. cbn zeta. assert (DispatchExchangeManager.status src dst
    (be_exchanges (ch_backend (receive_all l s))) = ExchangeStatus.S26_RECEIVED) as Hl.
  { unfold receive_all. revert s Hst. induction l as [|i l IH]; intros s Hst; [done|]. cbn. apply IH.
    destruct (receive_exchanges i s) as [_ [-> |(d & f & dir & train & ->)]]; [done|].
    by apply DispatchExchangeManager.arrival_absorbing. }
  split_and!; [done| |intros i; apply receive_exchanges].
  intros f train. by apply DispatchExchangeManager.request_after_arrival.
Qed.

End ChannelFacts.

(** ** Concrete exchanges *)

Module DispatchDemo.
Import DispatchExchangeManager.

(** Two areas, 7 and 9; the exchange of train "12345" from 7 to 9. *)
Definition telegram (f : DispatchFormType.t) (d : TelegramDirection.t) : Telegram :=
  mkTelegram "7" "9" f d "12345".
Definition journey : list Telegram :=
  [telegram DispatchFormType.S2 TelegramDirection.SENT; telegram DispatchFormType.S24 TelegramDirection.RECEIVED;
   telegram DispatchFormType.S25 TelegramDirection.SENT; telegram DispatchFormType.S26 TelegramDirection.RECEIVED].
Fixpoint submit_all (tgs : list Telegram) (m : t) (log : list (Telegram * TelegramOutcome)) :
    t * list (Telegram * TelegramOutcome) :=
  match tgs with
  | [] => (m, log)
  | tg :: tgs => submit_all tgs (submit tg m).1 (log ++ [(tg, (submit tg m).2)])
  end.
Lemma runs_submit_all tgs m log :
  runs m log -> runs (submit_all tgs m log).1 (submit_all tgs m log).2.
Proof. revert m log. induction tgs as [|tg tgs IH]; intros m log Hr; [done|]. by apply IH, runs_submit. Qed.

Definition ended : t * list (Telegram * TelegramOutcome) := submit_all journey create [].

(** A reader of one-train messages: the payload holds form and direction. *)
Definition read (p : list byte) : option DispatchChannelMessage :=
  match p with
  | [f; d] => Some (mkDispatchChannelMessage 7 9 d 0
      (body_DispatchFormPayload (mkDispatchFormPayload f (Some "12345"%string) None None)) 0 0 0 None)
  | _ => None
  end.
Definition print (m : DispatchChannelMessage) : list byte := [u8 (dm_exchange_uid m); u8 (dm_exchange_status m)].
Lemma read_uids p msg : read p = Some msg -> fits 64 (dm_src_area_uid msg) /\ fits 64 (dm_dst_area_uid msg).
Proof. intros E. destruct p as [|f [|d []]]; simplify_eq/=. unfold fits. cbn. lia. Qed.

Definition idle : Channel (DB := NullDbWriter) := mkChannel (mkBackend create NullDbWriter_empty) [].
Definition from_client (p : list byte) : Inbound := mkInbound p "alice" "7" 1000.
End DispatchDemo.

Lemma exchange_order_witness :
  let m := DispatchDemo.ended.1 in
  let log := DispatchDemo.ended.2 in
  DispatchExchangeManager.status "7" "9" m = ExchangeStatus.S26_RECEIVED /\
  NoDup (DispatchExchangeManager.request_ids log) /\
  exists h f g id, DispatchExchangeManager.progress "7" "9" log =
    h ++ [(f, id); (g, id); (DispatchFormType.S25, id); (DispatchFormType.S26, id)].
Proof.
  intros m log. split; [by vm_compute|].
  destruct (DispatchExchangeManager.exchange_order m log) as [Hn Hp].
  - apply DispatchDemo.runs_submit_all, DispatchExchangeManager.runs_create.
  - by vm_compute.
  - split; [exact Hn|]. destruct (Hp "7"%string "9"%string) as (_ & _ & H).
    destruct H as (h & f & g & _ & _ & E); [by vm_compute|]. eexists h, f, g, _. exact E.
Defined.

Lemma inbound_form_effect_witness :
  let r := DispatchExchangeManager.submit_telegram "7" "9" DispatchFormType.S2
             TelegramDirection.SENT "12345" DispatchExchangeManager.create in
  to_result r.2 = ACCEPTED /\
  receive "session" DispatchDemo.read DispatchDemo.print (DispatchDemo.from_client [0; 0]) DispatchDemo.idle
  = (mkChannel (mkBackend r.1 (NullDbWriter_empty <| written_telegrams :=
        [telegram_row DispatchFormType.S2 TelegramDirection.SENT r.2 7 9 "12345" None [] 1000] |>))
       [mkPairBroadcast "7" "9" (encode_frame 0x61 0 0 [0; 0])], Some tt).
Proof.
  split; [by vm_compute|].
  rewrite (inbound_form_effect "session" DispatchDemo.read DispatchDemo.print DispatchDemo.read_uids
    (DispatchDemo.from_client [0; 0]) DispatchDemo.idle [] _ 0 "12345" None None
    DispatchExchangeManager.runs_create eq_refl); [|done..].
  vm_compute. reflexivity.
Defined.

Lemma arrival_locks_pair_witness :
  let s := receive_all "session" DispatchDemo.read DispatchDemo.print
             (DispatchDemo.from_client <$> [[0; 0]; [1; 1]; [2; 0]; [3; 1]]) DispatchDemo.idle in
  let m := be_exchanges (ch_backend (receive_all "session" DispatchDemo.read DispatchDemo.print
             (DispatchDemo.from_client <$> [[0; 0]; [4; 0]]) s)) in
  to_result (DispatchExchangeManager.submit_telegram "7" "9" DispatchFormType.S2
               TelegramDirection.SENT "67890" m).2 = REJECTED_WRONG_STATE.
Proof.
  intros s m.
  assert (DispatchExchangeManager.status "7" "9" (be_exchanges (ch_backend s)) = ExchangeStatus.S26_RECEIVED)
    as Hs by (vm_compute; reflexivity).
  destruct (arrival_locks_pair "session" DispatchDemo.read DispatchDemo.print DispatchDemo.read_uids
    (DispatchDemo.from_client <$> [[0; 0]; [4; 0]]) s "7" "9" Hs) as (_ & H & _).
  apply H. by left.
Defined.
