(* ===== verification/Ingress.v ===== *)
(** * Ingress: operator commands from the wire

    [server/src/command_ingress.cpp].  The FlatBuffers verifier and the field
    accessors of the twelve command tables are the reader [read_table]: it
    refuses a buffer, or gives the object identifiers and enumeration integers
    of the table.  Five of the engine's enumerations take any byte by
    [static_cast]; a byte that names no enumerator is an [Unnamed] value of them. *)
From S2P Require Import Prelude Types Commands Frame.
Local Open Scope Z_scope.

(** The FlatBuffers tables a command body may hold. *)
Inductive CmdTable : Set :=
  | T_SetSwitchPosition | T_SetSignalAspect | T_SetDerailerPosition | T_SetBlockSection
  | T_RequestRoute | T_CancelRoute | T_AcknowledgeAlarm | T_SetBlockDirection
  | T_InitAxleCounterReset | T_ResetAxleCounter | T_OperatorCommand | T_Ml8Command.

(** The fields of a verified table: its [uint64] identifier, its second
    identifier ([RequestRoute] only), and its [int8] enumerations. *)
Record CmdFields := mkCmdFields { fl_uid : Z; fl_uid2 : Z; fl_enum : Z; fl_enum2 : Z }.

Class CommandReader := read_table : CmdTable -> list byte -> option CmdFields.

Module CommandIngress.

(** [static_cast] of a wire [int8] to an 8-bit enumeration. *)
Definition cast_enum {T} `{ByteEnum T} (z : Z) : T := of_byte (u8 z).

(* SRC server/src/command_ingress.cpp 34-46 from_proto *)
Definition switch_position_from_proto (p : Z) : SwitchPosition.t :=
  if p =? 0 then SwitchPosition.STRAIGHT
  else if p =? 1 then SwitchPosition.DIVERGENT else SwitchPosition.STRAIGHT.
(* SRC server/src/command_ingress.cpp 48-51 from_proto *)
Definition signal_aspect_from_proto (a : Z) : SignalAspect.t := cast_enum a.
(* SRC server/src/command_ingress.cpp 53-57 from_proto *)
Definition derailer_state_from_proto (p : Z) : DerailerState.t :=
  if p =? 1 then DerailerState.UNLOCKED else DerailerState.LOCKED.
(* SRC server/src/command_ingress.cpp 59-63 from_proto *)
Definition block_section_state_from_proto (s : Z) : BlockSectionState.t :=
  if s =? 0 then BlockSectionState.OPEN else BlockSectionState.CLOSED.
(* SRC server/src/command_ingress.cpp 65-68 from_proto *)
Definition shl12_op_from_proto (op : Z) : Shl12Op.t := cast_enum op.
(* SRC server/src/command_ingress.cpp 70-73 from_proto *)
Definition target_kind_from_proto (kind : Z) : OperatorTargetKind.t := cast_enum kind.
(* SRC server/src/command_ingress.cpp 75-78 from_proto *)
Definition operator_code_from_proto (code : Z) : OperatorCommandCode.t := cast_enum code.
(* SRC server/src/command_ingress.cpp 80-83 from_proto *)
Definition ml8_code_from_proto (code : Z) : Ml8CommandCode.t := cast_enum code.

(* SRC server/src/command_ingress.cpp 15-30 cmd *)
Definition table_of (cmd_type : byte) : option CmdTable :=
  if cmd_type =? 0x01 then Some T_SetSwitchPosition
  else if cmd_type =? 0x02 then Some T_SetSignalAspect
  else if cmd_type =? 0x03 then Some T_SetDerailerPosition
  else if cmd_type =? 0x04 then Some T_SetBlockSection
  else if cmd_type =? 0x05 then Some T_RequestRoute
  else if cmd_type =? 0x06 then Some T_CancelRoute
  else if cmd_type =? 0x07 then Some T_AcknowledgeAlarm
  else if cmd_type =? 0x08 then Some T_SetBlockDirection
  else if cmd_type =? 0x09 then Some T_InitAxleCounterReset
  else if cmd_type =? 0x0A then Some T_ResetAxleCounter
  else if cmd_type =? 0x20 then Some T_OperatorCommand
  else if cmd_type =? 0x21 then Some T_Ml8Command
  else None.

Section Parse.
Context {R : CommandReader}.

(** The command a verified table stands for, its identifiers being non-zero. *)
(* SRC server/src/command_ingress.cpp 95-222 parse_command *)
Definition command_of (k : CmdTable) (f : CmdFields) : Command :=
  let uid := mkUID (fl_uid f) in
  match k with
  | T_SetSwitchPosition =>
      CSetSwitchPosition (mkSetSwitchPositionCmd uid (switch_position_from_proto (fl_enum f)))
  | T_SetSignalAspect => CSetSignalAspect (mkSetSignalAspectCmd uid (signal_aspect_from_proto (fl_enum f)))
  | T_SetDerailerPosition =>
      CSetDerailerPosition (mkSetDerailerPositionCmd uid (derailer_state_from_proto (fl_enum f)))
  | T_SetBlockSection => CSetBlockSection (mkSetBlockSectionCmd uid (block_section_state_from_proto (fl_enum f)))
  | T_RequestRoute => CRequestRoute (mkRequestRouteCmd uid (mkUID (fl_uid2 f)))
  | T_CancelRoute => CCancelRoute (mkCancelRouteCmd uid false)
  | T_AcknowledgeAlarm => CAcknowledgeAlarm (mkAcknowledgeAlarmCmd uid)
  | T_SetBlockDirection => CSetBlockDirection (mkSetBlockDirectionCmd uid (shl12_op_from_proto (fl_enum f)))
  | T_InitAxleCounterReset => CInitAxleCounterReset (mkInitAxleCounterResetCmd uid)
  | T_ResetAxleCounter => CResetAxleCounter (mkResetAxleCounterCmd uid)
  | T_OperatorCommand =>
      COperatorCommand (mkOperatorCommandCmd uid (target_kind_from_proto (fl_enum f))
                          (operator_code_from_proto (fl_enum2 f)))
  | T_Ml8Command =>
      CMl8Command (mkMl8CommandCmd uid (target_kind_from_proto (fl_enum f)) (ml8_code_from_proto (fl_enum2 f)))
  end.

(** [uid() == 0], on both signals of a route. *)
Definition uid_missing (k : CmdTable) (f : CmdFields) : bool :=
  (fl_uid f =? 0) || match k with T_RequestRoute => fl_uid2 f =? 0 | _ => false end.

(* SRC server/src/command_ingress.cpp 87-223 parse_command *)
Definition parse_command (cmd_type : byte) (fb_data : list byte) : option Command :=
  k ← table_of cmd_type;
  msg ← read_table k fb_data;
  if uid_missing k msg then None else Some (command_of k msg).

(* SRC server/src/command_ingress.cpp 225-232 parse_payload *)
Definition parse_payload (payload : list byte) : option Command :=
  match payload with
  | [] => None
  | cmd_type :: body => parse_command cmd_type body
  end.
End Parse.

(** ** Encoding of a command, as a client would send it *)

Definition cmd_type_of (k : CmdTable) : byte :=
  match k with
  | T_SetSwitchPosition => 0x01 | T_SetSignalAspect => 0x02 | T_SetDerailerPosition => 0x03
  | T_SetBlockSection => 0x04 | T_RequestRoute => 0x05 | T_CancelRoute => 0x06
  | T_AcknowledgeAlarm => 0x07 | T_SetBlockDirection => 0x08 | T_InitAxleCounterReset => 0x09
  | T_ResetAxleCounter => 0x0A | T_OperatorCommand => 0x20 | T_Ml8Command => 0x21
  end.

(** The table of a command; [None] for the two commands the wire cannot
    express, a switch position that is not an end position and a forced
    cancellation. *)
Definition table_for (c : Command) : option (CmdTable * CmdFields) :=
  match c with
  | CSetSwitchPosition c =>
      match ssp_position c with
      | SwitchPosition.STRAIGHT => Some (T_SetSwitchPosition, mkCmdFields (value (ssp_uid c)) 0 0 0)
      | SwitchPosition.DIVERGENT => Some (T_SetSwitchPosition, mkCmdFields (value (ssp_uid c)) 0 1 0)
      | _ => None
      end
  | CSetSignalAspect c =>
      Some (T_SetSignalAspect, mkCmdFields (value (ssa_uid c)) 0 (i8 (code (ssa_aspect c))) 0)
  | CSetDerailerPosition c =>
      Some (T_SetDerailerPosition, mkCmdFields (value (sdp_uid c)) 0
        (if bool_decide (sdp_position c = DerailerState.UNLOCKED) then 1 else 0) 0)
  | CSetBlockSection c =>
      Some (T_SetBlockSection, mkCmdFields (value (sbs_uid c)) 0
        (if bool_decide (sbs_state c = BlockSectionState.OPEN) then 0 else 1) 0)
  | CRequestRoute c =>
      Some (T_RequestRoute, mkCmdFields (value (rr_from_signal_uid c)) (value (rr_to_signal_uid c)) 0 0)
  | CCancelRoute c =>
      if cr_force c then None else Some (T_CancelRoute, mkCmdFields (value (cr_route_uid c)) 0 0 0)
  | CAcknowledgeAlarm c => Some (T_AcknowledgeAlarm, mkCmdFields (value (aa_alarm_uid c)) 0 0 0)
  | CSetBlockDirection c =>
      Some (T_SetBlockDirection, mkCmdFields (value (sbd_block_section_uid c)) 0 (i8 (code (sbd_operation c))) 0)
  | CInitAxleCounterReset c =>
      Some (T_InitAxleCounterReset, mkCmdFields (value (iac_block_section_uid c)) 0 0 0)
  | CResetAxleCounter c =>
      Some (T_ResetAxleCounter, mkCmdFields (value (rac_block_section_uid c)) 0 0 0)
  | COperatorCommand c =>
      Some (T_OperatorCommand, mkCmdFields (value (oc_target_uid c)) 0
        (i8 (code (oc_target_kind c))) (i8 (code (oc_code c))))
  | CMl8Command c =>
      Some (T_Ml8Command, mkCmdFields (value (mc_target_uid c)) 0
        (i8 (code (mc_target_kind c))) (i8 (code (mc_code c))))
  end.

Lemma table_of_cmd_type k : table_of (cmd_type_of k) = Some k.
Proof. by destruct k. Qed.

(** A value of an 8-bit enumeration survives the signed byte of the wire. *)
Lemma cast_enum_code {T} `{ByteEnum T} (x : T) : cast_enum (i8 (code x)) = x.
Proof. apply of_byte_i8. Qed.

Lemma command_of_table c k f : table_for c = Some (k, f) -> command_of k f = c.
Proof.
  intros E. destruct c as [[[u] p]|[[u] a]|[[u] p]|[[u] st]|[[u] [v]]|[[u] fo]|[[u]]|[[u] op]|[[u]]|[[u]]
                          |[[u] kind co]|[[u] kind co]]; unfold table_for in E; cbn [ssp_position cr_force] in E.
  all: repeat case_match; simplify_eq; unfold command_of, signal_aspect_from_proto, shl12_op_from_proto,
    target_kind_from_proto, operator_code_from_proto, ml8_code_from_proto; cbn [fl_uid fl_uid2 fl_enum fl_enum2].
  all: cbn [ssa_aspect sbd_operation oc_target_kind oc_code mc_target_kind mc_code]; rewrite ?cast_enum_code.
  all: try done.
  all: match goal with x : DerailerState.t |- _ => by destruct x | x : BlockSectionState.t |- _ => by destruct x end.
Qed.

(** The commands the wire can express are those the ingress produces. *)
Lemma command_of_expressible k f : exists f', table_for (command_of k f) = Some (k, f').
Proof.
  destruct k; try (by eexists). cbn [command_of table_for ssp_position]. unfold switch_position_from_proto.
  destruct (fl_enum f =? 0), (fl_enum f =? 1); eexists; reflexivity.
Qed.

Lemma parse_payload_inv {R : CommandReader} payload w :
  parse_payload payload = Some w ->
  exists k f body, payload = cmd_type_of k :: body /\ read_table k body = Some f /\
    uid_missing k f = false /\ command_of k f = w.
Proof.
  destruct payload as [|b body]; [done|]. cbn. unfold parse_command. intros E.
  apply bind_Some in E as (k & Hk & E). apply bind_Some in E as (f & Hf & E).
  case_match; simplify_eq. exists k, f, body. split_and!; try done. f_equal.
  unfold table_of in Hk. repeat case_match; simplify_eq; cbn; lia.
Qed.

(** A client's command arrives as it was sent.  A payload made of the
    type byte of a command and a body the reader verifies as its table, with
    non-zero identifiers, parses to that command; and every command that
    parses is one of those, so no client can force a route cancellation or
    command a switch into anything but an end position. *)
Theorem parse_payload_roundtrip {R : CommandReader} c :
  (forall k f body, table_for c = Some (k, f) -> read_table k body = Some f -> uid_missing k f = false ->
     parse_payload (cmd_type_of k :: body) = Some c) /\
  (forall payload, parse_payload payload = Some c ->
     exists t, table_for c = Some t) /\
  (forall payload, parse_payload payload = Some c ->
     exists k f body, payload = cmd_type_of k :: body /\ read_table k body = Some f /\
       uid_missing k f = false /\ command_of k f = c).
Proof.
  split_and!.
  - intros k f body Ht Hr Hu. unfold parse_payload, parse_command. rewrite table_of_cmd_type. cbn.
    rewrite Hr. cbn. rewrite Hu. f_equal. by apply command_of_table.
  - intros payload Hp. destruct (parse_payload_inv payload _ Hp) as (k & f & body & _ & _ & _ & Hc).
    rewrite <-Hc. destruct (command_of_expressible k f) as [f' ->]. by eexists.
  - intros payload. apply parse_payload_inv.
Qed.
End CommandIngress.

(** ** A concrete reader: four bytes per table *)
Definition bytes_reader : CommandReader := fun _ body =>
  match body with [a; b; c; d] => Some (mkCmdFields a b c d) | _ => None end.

Lemma parse_payload_roundtrip_witness :
  CommandIngress.parse_payload (R := bytes_reader) [0x05; 17; 18; 0; 0] =
  Some (CRequestRoute (mkRequestRouteCmd (mkUID 17) (mkUID 18))).
Proof.
  apply (CommandIngress.parse_payload_roundtrip (R := bytes_reader)
    (CRequestRoute (mkRequestRouteCmd (mkUID 17) (mkUID 18)))) with (f := mkCmdFields 17 18 0 0) (k := T_RequestRoute);
    reflexivity.
Defined.

(** An aspect byte that names no aspect passes the ingress, a zero identifier
    and a truncated body do not. *)
Example unnamed_aspect :
  CommandIngress.parse_payload (R := bytes_reader) [0x02; 17; 0; 100; 0]
    = Some (CSetSignalAspect (mkSetSignalAspectCmd (mkUID 17) (SignalAspect.cast 100))) /\
  bool_decide (SignalAspect.cast 100 ∈ SignalAspect.named) = false /\
  CommandIngress.parse_payload (R := bytes_reader) [0x02; 0; 0; 1; 0] = None /\
  CommandIngress.parse_payload (R := bytes_reader) [0x02; 17] = None.
Proof. by vm_compute. Qed.
