(* ===== verification/Schema.v ===== *)
(** * Schema: what the numbers on the wire mean

    The enumerations of [proto/common.fbs], [proto/commands.fbs] and
    [proto/events.fbs], as a client reads them: the name of each number, in the words of
    the engine.  They are written down from the schema files, not from the conversions of
    the server, and are what the theorems on messages and events measure those by. *)
From S2P Require Import Prelude Types Commands.
Local Open Scope Z_scope.

(** The name of a number among names numbered from zero. *)
Definition numbered {T} (names : list T) (z : Z) : option T :=
  if 0 <=? z then names !! Z.to_nat z else None.

(* SRC proto/common.fbs 11-29 Aspect *)
Definition Aspect_names : list SignalAspect.t :=
  [SignalAspect.S1_STOP; SignalAspect.S2_PROCEED; SignalAspect.S3_PROCEED_40;
   SignalAspect.S4_PROCEED_40_EXPECT_STOP; SignalAspect.S5_EXPECT_STOP; SignalAspect.S6_PROCEED_100;
   SignalAspect.S7_PROCEED_100_EXPECT_STOP; SignalAspect.S8_PROCEED_100_EXPECT_40;
   SignalAspect.S9_PROCEED_100_EXPECT_60; SignalAspect.S10_PROCEED_40;
   SignalAspect.S11_PROCEED_40_EXPECT_40; SignalAspect.S12_PROCEED_60;
   SignalAspect.S13_PROCEED_60_EXPECT_60; SignalAspect.SZ_PROCEED; SignalAspect.SZN_PROCEED_W24;
   SignalAspect.MS1_STOP; SignalAspect.MS2_SHUNTING_ALLOWED].
Definition schema_Aspect : Z -> option SignalAspect.t := numbered Aspect_names.

(* SRC proto/common.fbs 33-37 SwitchPosition *)
Definition SwitchPosition_names : list SwitchPosition.t :=
  [SwitchPosition.STRAIGHT; SwitchPosition.DIVERGENT; SwitchPosition.MOVING].
Definition schema_SwitchPosition : Z -> option SwitchPosition.t := numbered SwitchPosition_names.

(* SRC proto/common.fbs 40-43 DerailerPosition *)
Definition DerailerPosition_names : list DerailerState.t :=
  [DerailerState.LOCKED; DerailerState.UNLOCKED].
Definition schema_DerailerPosition : Z -> option DerailerState.t := numbered DerailerPosition_names.

(* SRC proto/common.fbs 46-49 BlockSectionState *)
Definition BlockSectionState_names : list BlockSectionState.t :=
  [BlockSectionState.OPEN; BlockSectionState.CLOSED].
Definition schema_BlockSectionState : Z -> option BlockSectionState.t := numbered BlockSectionState_names.

(* SRC proto/common.fbs 53-61 BlockDirectionState *)
Definition BlockDirectionState_names : list BlockDirectionState.t :=
  [BlockDirectionState.NEUTRAL; BlockDirectionState.OUTBOUND_PENDING; BlockDirectionState.OUTBOUND;
   BlockDirectionState.INBOUND_PENDING; BlockDirectionState.INBOUND; BlockDirectionState.EMERGENCY;
   BlockDirectionState.RESET_PENDING].
Definition schema_BlockDirectionState : Z -> option BlockDirectionState.t := numbered BlockDirectionState_names.

(* SRC proto/common.fbs 64-68 ChangeCause *)
Definition ChangeCause_names : list ChangeCause.t :=
  [ChangeCause.COMMAND; ChangeCause.AUTO; ChangeCause.TIMEOUT].
Definition schema_ChangeCause : Z -> option ChangeCause.t := numbered ChangeCause_names.

(* SRC proto/commands.fbs 91-103 OperatorTargetKind *)
Definition OperatorTargetKind_names : list OperatorTargetKind.t :=
  [OperatorTargetKind.SIGNAL; OperatorTargetKind.SWITCH; OperatorTargetKind.DERAILER;
   OperatorTargetKind.TRACK_SECTION; OperatorTargetKind.BLOCK_SECTION;
   OperatorTargetKind.AXLE_COUNTER_SYSTEM; OperatorTargetKind.STATION; OperatorTargetKind.ROUTE;
   OperatorTargetKind.LEVEL_CROSSING; OperatorTargetKind.INTERLOCKING_COMPUTER;
   OperatorTargetKind.POWER_SUPPLY].
Definition schema_OperatorTargetKind : Z -> option OperatorTargetKind.t := numbered OperatorTargetKind_names.

(* SRC proto/commands.fbs 105-180 OperatorCommandCode *)
Definition OperatorCommandCode_names : list OperatorCommandCode.t :=
  [OperatorCommandCode.SES; OperatorCommandCode.SEO; OperatorCommandCode.SZI;
   OperatorCommandCode.SZW; OperatorCommandCode.SZN; OperatorCommandCode.SZO;
   OperatorCommandCode.SAM; OperatorCommandCode.SAW; OperatorCommandCode.ZWP;
   OperatorCommandCode.ZWM; OperatorCommandCode.ZWS; OperatorCommandCode.ZWO;
   OperatorCommandCode.ITS; OperatorCommandCode.ITO; OperatorCommandCode.ZWB;
   OperatorCommandCode.ZBP; OperatorCommandCode.ZBM; OperatorCommandCode.ZRI;
   OperatorCommandCode.ZRK; OperatorCommandCode.OPS; OperatorCommandCode.SLI;
   OperatorCommandCode.SLK; OperatorCommandCode.BLW; OperatorCommandCode.BLP;
   OperatorCommandCode.BLO; OperatorCommandCode.BLZ; OperatorCommandCode.BLAI;
   OperatorCommandCode.BLA; OperatorCommandCode.BLS; OperatorCommandCode.OST;
   OperatorCommandCode.ZKB; OperatorCommandCode.PZM; OperatorCommandCode.OZK;
   OperatorCommandCode.ZESI; OperatorCommandCode.ZES; OperatorCommandCode.PZZI;
   OperatorCommandCode.PZZ; OperatorCommandCode.POZ; OperatorCommandCode.DPOI;
   OperatorCommandCode.DPO; OperatorCommandCode.DKOI; OperatorCommandCode.DKO;
   OperatorCommandCode.DKPI; OperatorCommandCode.DKP; OperatorCommandCode.BPZ;
   OperatorCommandCode.DPWI; OperatorCommandCode.DPW; OperatorCommandCode.BTW;
   OperatorCommandCode.BTO; OperatorCommandCode.BPO; OperatorCommandCode.BKO;
   OperatorCommandCode.PDZ; OperatorCommandCode.PDO; OperatorCommandCode.PZT;
   OperatorCommandCode.PAZ; OperatorCommandCode.PZO; OperatorCommandCode.PDII;
   OperatorCommandCode.PDI; OperatorCommandCode.MRS; OperatorCommandCode.ODS;
   OperatorCommandCode.ZAL; OperatorCommandCode.POC; OperatorCommandCode.PZA;
   OperatorCommandCode.PZAI; OperatorCommandCode.PZW; OperatorCommandCode.SSO;
   OperatorCommandCode.SSS; OperatorCommandCode.UPAI; OperatorCommandCode.UPA;
   OperatorCommandCode.UPAO; OperatorCommandCode.UPN; OperatorCommandCode.UPO;
   OperatorCommandCode.ZSO; OperatorCommandCode.ZSS].
Definition schema_OperatorCommandCode : Z -> option OperatorCommandCode.t := numbered OperatorCommandCode_names.

(* SRC proto/commands.fbs 189-261 Ml8CommandCode *)
Definition Ml8CommandCode_names : list Ml8CommandCode.t :=
  [Ml8CommandCode.AK; Ml8CommandCode.AZK; Ml8CommandCode.BLZ; Ml8CommandCode.BLZC;
   Ml8CommandCode.DOP; Ml8CommandCode.DOPS; Ml8CommandCode.DPZ; Ml8CommandCode.HMI;
   Ml8CommandCode.KRA; Ml8CommandCode.KSR; Ml8CommandCode.LKA; Ml8CommandCode.LOFF;
   Ml8CommandCode.MAN; Ml8CommandCode.NPU; Ml8CommandCode.NPW; Ml8CommandCode.NPZ;
   Ml8CommandCode.OGI; Ml8CommandCode.OP; Ml8CommandCode.OPO; Ml8CommandCode.OSTOP;
   Ml8CommandCode.OTB; Ml8CommandCode.OTE; Ml8CommandCode.OTEYYY; Ml8CommandCode.OTP;
   Ml8CommandCode.OTPON; Ml8CommandCode.OT; Ml8CommandCode.OTZ; Ml8CommandCode.OUZ;
   Ml8CommandCode.OUZ_DR; Ml8CommandCode.OUZ_DZ; Ml8CommandCode.OUZ_JN; Ml8CommandCode.OUZ_PJ;
   Ml8CommandCode.OUZ_X; Ml8CommandCode.OUZ_ZN; Ml8CommandCode.OWBL; Ml8CommandCode.OZCZ;
   Ml8CommandCode.P; Ml8CommandCode.POC; Ml8CommandCode.POT; Ml8CommandCode.PZK; Ml8CommandCode.PPN;
   Ml8CommandCode.PPZ; Ml8CommandCode.PZ; Ml8CommandCode.PZB; Ml8CommandCode.PZS;
   Ml8CommandCode.SPEC; Ml8CommandCode.STJ; Ml8CommandCode.STOJ; Ml8CommandCode.STOP;
   Ml8CommandCode.SZ; Ml8CommandCode.NSZ; Ml8CommandCode.WBL; Ml8CommandCode.WPN;
   Ml8CommandCode.WPZ; Ml8CommandCode.WZ; Ml8CommandCode.ZCZ; Ml8CommandCode.ZDM;
   Ml8CommandCode.ZDP; Ml8CommandCode.ZEROLO; Ml8CommandCode.ZI; Ml8CommandCode.ZO;
   Ml8CommandCode.ZPO; Ml8CommandCode.ZW; Ml8CommandCode.ZWBL; Ml8CommandCode.Z;
   Ml8CommandCode.Z_DR; Ml8CommandCode.Z_DZ; Ml8CommandCode.Z_JN; Ml8CommandCode.Z_PJ;
   Ml8CommandCode.Z_X; Ml8CommandCode.Z_ZN].
Definition schema_Ml8CommandCode : Z -> option Ml8CommandCode.t := numbered Ml8CommandCode_names.

(* SRC proto/events.fbs 65-70 RouteReleaseReason *)
Definition RouteReleaseReason_names : list string :=
  ["TRAIN_CLEARED"; "OPERATOR_CANCEL"; "TIMEOUT"; "CONFLICT"].
Definition schema_RouteReleaseReason : Z -> option string := numbered RouteReleaseReason_names.

(* SRC proto/events.fbs 91-98 AlarmType *)
Definition AlarmType_names : list string :=
  ["TRACK_OCCUPIED_UNEXPECTEDLY"; "SWITCH_POSITION_MISMATCH"; "SIGNAL_OVERRUN"; "DERAILER_CONFLICT";
   "COMMS_FAILURE"; "ENGINE_FAULT"].
Definition schema_AlarmType : Z -> option string := numbered AlarmType_names.

(** A flag, as an occupancy. *)
Definition schema_occupied (b : bool) : TrackOccupancy.t :=
  if b then TrackOccupancy.OCCUPIED else TrackOccupancy.FREE.

(** ** Numbers sent as codes

    A client shows a value that the schema names, and has no name for another. *)
Definition shown {T} `{EqDecision T} (names : list T) (x : T) : option T :=
  if bool_decide (x ∈ names) then Some x else None.

(** [sent names f]: the numbering [f] of all values sends each to its name. *)
Definition sends {T} `{Enum T, EqDecision T} (names : list T) (f : T -> Z) : bool :=
  forallb (fun x => bool_decide (numbered names (f x) = shown names x)) enumerators.

Lemma sends_shown {T} `{Enum T, EqDecision T} (names : list T) (f : T -> Z) x :
  sends names f = true -> numbered names (f x) = shown names x.
Proof.
  unfold sends. rewrite forallb_forall. intros Hall. apply (bool_decide_unpack _), Is_true_true, Hall.
  pose proof (decode_code x) as Hd. by apply find_some in Hd as [? _].
Qed.

Lemma shown_named {T} `{EqDecision T} (names : list T) x : x ∈ names -> shown names x = Some x.
Proof. intros Hx. unfold shown. by rewrite bool_decide_true. Qed.

Lemma shown_all {T} `{Enum T, EqDecision T} (names : list T) x :
  forallb (fun x => bool_decide (x ∈ names)) enumerators = true -> shown names x = Some x.
Proof.
  rewrite forallb_forall. intros Hall. apply shown_named, (bool_decide_unpack _), Is_true_true, Hall.
  pose proof (decode_code x) as Hd. by apply find_some in Hd as [? _].
Qed.

(** The enumerations that travel as the code of the engine. *)
Lemma aspect_sent a : schema_Aspect (i8 (code a)) = shown Aspect_names a.
Proof. apply (sends_shown Aspect_names (fun a => i8 (code a))). by vm_compute. Qed.
Lemma position_sent p : schema_SwitchPosition (code p) = shown SwitchPosition_names p.
Proof. by destruct p. Qed.
Lemma direction_sent d : schema_BlockDirectionState (code d) = Some d.
Proof. by destruct d. Qed.
Lemma cause_sent c : schema_ChangeCause (code c) = Some c.
Proof. by destruct c. Qed.
Lemma target_kind_sent k : schema_OperatorTargetKind (i8 (code k)) = shown OperatorTargetKind_names k.
Proof. apply (sends_shown OperatorTargetKind_names (fun a => i8 (code a))). by vm_compute. Qed.
Lemma operator_code_sent c : schema_OperatorCommandCode (i8 (code c)) = shown OperatorCommandCode_names c.
Proof. apply (sends_shown OperatorCommandCode_names (fun a => i8 (code a))). by vm_compute. Qed.
Lemma ml8_code_sent c : schema_Ml8CommandCode (i8 (code c)) = shown Ml8CommandCode_names c.
Proof. apply (sends_shown Ml8CommandCode_names (fun a => i8 (code a))). by vm_compute. Qed.
