(* ===== verification/Snapshot.v ===== *)
(** * Snapshot: the snapshot message

    [engine/src/snapshot_service.cpp]: the FlatBuffers tables the service
    fills from an [EngineSnapshot] ([proto/snapshot.fbs]).  The builder that
    lays the tables out in bytes is the parameter [build]; fields the service
    does not set keep their default and are left out of the records. *)
From S2P Require Import Prelude Float32 Types Commands Track World Schema.
Local Open Scope Z_scope.

(* SRC proto/snapshot.fbs 33-41 SwitchState *)
Record SwitchMsg := mkSwitchMsg {
  swm_uid : Z; swm_position : Z; swm_occupied : bool; swm_axle_count : Z;
  swm_locked_by_route : bool }.
(* SRC proto/snapshot.fbs 43-49 TrackSectionState *)
Record TrackSectionMsg := mkTrackSectionMsg {
  tsm_uid : Z; tsm_occupied : bool; tsm_axle_count : Z; tsm_train_uid : Z }.
(* SRC proto/snapshot.fbs 51-55 SignalState *)
Record SignalMsg := mkSignalMsg { sgm_uid : Z; sgm_aspect : Z }.
(* SRC proto/snapshot.fbs 57-61 DerailerState *)
Record DerailerMsg := mkDerailerMsg { drm_uid : Z; drm_position : Z }.
(* SRC proto/snapshot.fbs 63-68 BlockSectionSnapshotState *)
Record BlockSectionMsg := mkBlockSectionMsg {
  bsm_uid : Z; bsm_state : Z; bsm_block_direction : Z }.
(* SRC proto/snapshot.fbs 70-75 RouteState *)
Record RouteMsg := mkRouteMsg {
  rtm_uid : Z; rtm_from_signal_uid : Z; rtm_to_signal_uid : Z; rtm_section_uids : list Z }.
(* SRC proto/snapshot.fbs 77-82 AlarmState *)
Record AlarmMsg := mkAlarmMsg {
  alm_uid : Z; alm_alarm_type : Z; alm_object_uid : Z; alm_message : string }.
(* SRC proto/snapshot.fbs 90-98 TrainState *)
Record TrainMsg := mkTrainMsg {
  trm_uid : Z; trm_vehicle_uids : list Z; trm_section_uid : Z; trm_speed_kmh : float;
  trm_total_length_m : float; trm_total_axles : Z }.
(* SRC proto/snapshot.fbs 102-124 Snapshot *)
Record SnapshotMsg := mkSnapshotMsg {
  snm_schema_version : Z; snm_session_id : string; snm_seq_cursor : Z;
  snm_switches : list SwitchMsg; snm_track_sections : list TrackSectionMsg;
  snm_signals : list SignalMsg; snm_derailers : list DerailerMsg;
  snm_block_sections : list BlockSectionMsg; snm_active_routes : list RouteMsg;
  snm_active_alarms : list AlarmMsg; snm_trains : list TrainMsg }.

(** ** Filling the tables *)

(* SRC engine/src/snapshot_service.cpp 26-29 to_proto_aspect *)
Definition to_proto_aspect (a : SignalAspect.t) : Z := i8 (code a).
(* SRC engine/src/snapshot_service.cpp 31-34 to_proto_switch_pos *)
Definition to_proto_switch_pos (p : SwitchPosition.t) : Z := code p.
(* SRC engine/src/snapshot_service.cpp 36-39 to_proto_derailer_pos *)
Definition to_proto_derailer_pos (d : DerailerState.t) : Z := code d.
(** [proto::BlockSectionState]: OPEN 0, CLOSED 1. *)
(* SRC engine/src/snapshot_service.cpp 41-45 to_proto_block_state *)
Definition to_proto_block_state (b : BlockSectionState.t) : Z :=
  if bool_decide (b = BlockSectionState.CLOSED) then 1 else 0.
(* SRC engine/src/snapshot_service.cpp 47-50 to_proto_block_dir *)
Definition to_proto_block_dir (d : BlockDirectionState.t) : Z := code d.

(* SRC engine/src/snapshot_service.cpp 52-67 alarm_kind_byte *)
Definition alarm_kind_byte (kind : string) : Z :=
  if bool_decide (kind = "TRACK_OCCUPIED_UNEXPECTEDLY"%string) then 0
  else if bool_decide (kind = "SWITCH_POSITION_MISMATCH"%string) then 1
  else if bool_decide (kind = "SIGNAL_OVERRUN"%string) then 2
  else if bool_decide (kind = "DERAILER_CONFLICT"%string) then 3
  else if bool_decide (kind = "COMMS_FAILURE"%string) then 4
  else if bool_decide (kind = "ENGINE_FAULT"%string) then 5
  else 0.

Definition is_occupied (o : TrackOccupancy.t) : bool := bool_decide (o = TrackOccupancy.OCCUPIED).

(* SRC engine/src/snapshot_service.cpp 80-89 SnapshotService::serialize *)
Definition switch_message (e : UID * Switch) : SwitchMsg :=
  mkSwitchMsg (value e.1) (to_proto_switch_pos (sw_position e.2)) (is_occupied (sw_occupancy e.2))
    (sw_axle_count e.2) (bool_decide (is_Some (sw_locked_by_route_uid e.2))).

(** [emplace] keeps the first train of a section. *)
Definition emplace_train (m : gmap Z Z) (tr : TrainSnapshot) : gmap Z Z :=
  let k := value (tsn_section_uid tr) in
  match m !! k with Some _ => m | None => <[k := value (tsn_uid tr)]> m end.
(* SRC engine/src/snapshot_service.cpp 95-98 SnapshotService::serialize *)
Definition train_by_section (trains : list TrainSnapshot) : gmap Z Z :=
  fold_left emplace_train trains ∅.

(* SRC engine/src/snapshot_service.cpp 102-111 SnapshotService::serialize *)
Definition track_section_message (by_section : gmap Z Z) (e : UID * TrackSection) : TrackSectionMsg :=
  mkTrackSectionMsg (value e.1) (is_occupied (ts_occupancy e.2)) (ts_axle_count e.2)
    (default 0 (by_section !! value e.1)).

(* SRC engine/src/snapshot_service.cpp 117-123 SnapshotService::serialize *)
Definition signal_message (e : UID * Signal) : SignalMsg :=
  mkSignalMsg (value e.1) (to_proto_aspect (sig_current_aspect e.2)).
(* SRC engine/src/snapshot_service.cpp 129-135 SnapshotService::serialize *)
Definition derailer_message (e : UID * Derailer) : DerailerMsg :=
  mkDerailerMsg (value e.1) (to_proto_derailer_pos (der_state e.2)).
(* SRC engine/src/snapshot_service.cpp 141-148 SnapshotService::serialize *)
Definition block_section_message (e : UID * BlockSection) : BlockSectionMsg :=
  mkBlockSectionMsg (value e.1) (to_proto_block_state (bs_state e.2)) (to_proto_block_dir (bs_direction e.2)).
(* SRC engine/src/snapshot_service.cpp 154-168 SnapshotService::serialize *)
Definition route_message (e : UID * RouteState) : RouteMsg :=
  mkRouteMsg (value (rt_uid e.2)) (value (rt_from_signal_uid e.2)) (value (rt_to_signal_uid e.2))
    (value <$> rt_section_uids e.2).
(* SRC engine/src/snapshot_service.cpp 174-183 SnapshotService::serialize *)
Definition alarm_message (e : UID * AlarmState) : AlarmMsg :=
  mkAlarmMsg (value (al_uid e.2)) (alarm_kind_byte (al_kind e.2)) (value (al_object_uid e.2)) (al_message e.2).
(* SRC engine/src/snapshot_service.cpp 189-205 SnapshotService::serialize *)
Definition train_message (tr : TrainSnapshot) : TrainMsg :=
  mkTrainMsg (value (tsn_uid tr)) (value <$> tsn_vehicle_uids tr) (value (tsn_section_uid tr))
    (tsn_speed_kmh tr) (tsn_total_length_m tr) (tsn_total_axles tr).

Section Serialize.
Context {MO : MapOrder}.

(* SRC engine/src/snapshot_service.cpp 73-230 SnapshotService::serialize *)
Definition snapshot_message (snap : EngineSnapshot.t) : SnapshotMsg := {|
  snm_schema_version := 1;
  snm_session_id := EngineSnapshot.session snap;
  snm_seq_cursor := u32 (EngineSnapshot.tick snap);
  snm_switches := switch_message <$> visit (EngineSnapshot.switches snap);
  snm_track_sections :=
    track_section_message (train_by_section (EngineSnapshot.trains snap)) <$>
      visit (EngineSnapshot.track_sections snap);
  snm_signals := signal_message <$> visit (EngineSnapshot.signals snap);
  snm_derailers := derailer_message <$> visit (EngineSnapshot.derailers snap);
  snm_block_sections := block_section_message <$> visit (EngineSnapshot.block_sections snap);
  snm_active_routes := route_message <$> visit (EngineSnapshot.routes snap);
  snm_active_alarms := alarm_message <$> visit (EngineSnapshot.alarms snap);
  snm_trains := train_message <$> EngineSnapshot.trains snap |}.

(** [SnapshotService::serialize], with the builder that lays out the tables. *)
Definition serialize (build : SnapshotMsg -> list Z) (snap : EngineSnapshot.t) : list Z :=
  build (snapshot_message snap).

(** ** Reading a snapshot back *)

(** What a client finds for an object: the first table with its identifier. *)
Definition find_msg {T} (uid_of : T -> Z) (uid : UID) (l : list T) : option T :=
  List.find (fun e => uid_of e =? value uid) l.

Lemma value_inj (a b : UID) : value a = value b -> a = b.
Proof. destruct a, b. cbn. by intros ->. Qed.

(** Tables filled from a map under its keys are found under their keys. *)
Lemma find_visited {A T} (uid_of : T -> Z) (f : UID * A -> T) (m : gmap UID A) uid :
  (forall e, m !! e.1 = Some e.2 -> uid_of (f e) = value e.1) ->
  find_msg uid_of uid (f <$> visit m) = (fun x => f (uid, x)) <$> m !! uid.
Proof.
  intros Hf. unfold find_msg.
  assert (forall l, (forall e, e ∈ l -> m !! e.1 = Some e.2) ->
    List.find (fun e => uid_of e =? value uid) (f <$> l) =
    match List.find (fun e => value e.1 =? value uid) l with Some e => Some (f e) | None => None end) as Hl.
  { induction l as [|e l IH]; intros Hm; [done|]. cbn. rewrite Hf by (apply Hm; set_solver).
    destruct (value e.1 =? value uid); [done|]. apply IH. intros x Hx. apply Hm. set_solver. }
  rewrite Hl by (intros [k x]; by rewrite elem_of_visit). clear Hl.
  destruct (List.find _ (visit m)) as [[k x]|] eqn:E.
  - apply find_some in E as [Hin%list_elem_of_In%elem_of_visit Hk%Z.eqb_eq%value_inj]. cbn in Hk.
    subst. by rewrite Hin.
  - destruct (m !! uid) as [x|] eqn:Hx; [|done].
    apply elem_of_visit, list_elem_of_In in Hx. by apply (find_none _ _ E) in Hx as ?%Z.eqb_neq.
Qed.

Lemma visited_once {A T} (uid_of : T -> Z) (f : UID * A -> T) (m : gmap UID A) :
  (forall e, m !! e.1 = Some e.2 -> uid_of (f e) = value e.1) -> NoDup (uid_of <$> (f <$> visit m)).
Proof.
  intros Hf. rewrite <- list_fmap_compose.
  assert (uid_of ∘ f <$> visit m = value <$> (visit m).*1) as ->.
  { rewrite <- list_fmap_compose. apply list_fmap_ext. intros i [k x] Hi. cbn. apply Hf.
    by apply elem_of_visit, (list_elem_of_lookup_2 _ i). }
  apply NoDup_fmap_2_strong; [intros ?? _ _; apply value_inj|].
  rewrite visit_perm. apply NoDup_fst_map_to_list.
Qed.

Lemma train_by_section_lookup trains k :
  train_by_section trains !! k =
  (fun tr => value (tsn_uid tr)) <$> List.find (fun tr => value (tsn_section_uid tr) =? k) trains.
Proof.
  unfold train_by_section.
  assert (forall m, fold_left emplace_train trains m !! k =
    match m !! k with
    | Some t => Some t
    | None => (fun tr => value (tsn_uid tr)) <$> List.find (fun tr => value (tsn_section_uid tr) =? k) trains
    end) as Hm; [|by rewrite Hm, lookup_empty].
  induction trains as [|tr trains IH]; intros m; cbn; [by destruct (m !! k)|]. rewrite IH.
  unfold emplace_train.
  destruct (Z.eqb_spec (value (tsn_section_uid tr)) k) as [->|Hne].
  - destruct (m !! k) eqn:E; [by rewrite E|by rewrite lookup_insert_eq].
  - destruct (m !! value (tsn_section_uid tr)); [done|]. by rewrite lookup_insert_ne.
Qed.

(** ** What a message has to say

    The numbers are read by the schema, the rest is compared with the world. *)

(** Each object is described by exactly one table, found under its identifier, and nothing
    else is described. *)
Definition lists {A T} (describes : A -> T -> Prop) (uid_of : T -> Z) (objects : gmap UID A) (l : list T) : Prop :=
  NoDup (uid_of <$> l) /\ forall u, option_Forall2 describes (objects !! u) (find_msg uid_of u l).

Definition describes_switch (s : Switch) (m : SwitchMsg) : Prop :=
  schema_SwitchPosition (swm_position m) = shown SwitchPosition_names (sw_position s) /\
  schema_occupied (swm_occupied m) = sw_occupancy s /\ swm_axle_count m = sw_axle_count s /\
  (swm_locked_by_route m = true <-> sw_locked_by_route_uid s <> None).
(** A section names the first of the trains that stand on it, and no train by zero. *)
Definition names_train (trains : list TrainSnapshot) (u : UID) (train : Z) : Prop :=
  (exists before tr after, trains = before ++ tr :: after /\ tsn_section_uid tr = u /\
     Forall (fun tr => tsn_section_uid tr <> u) before /\ train = value (tsn_uid tr)) \/
  Forall (fun tr => tsn_section_uid tr <> u) trains /\ train = 0.
Definition describes_section (trains : list TrainSnapshot) (s : TrackSection) (m : TrackSectionMsg) : Prop :=
  schema_occupied (tsm_occupied m) = ts_occupancy s /\ tsm_axle_count m = ts_axle_count s /\
  names_train trains (mkUID (tsm_uid m)) (tsm_train_uid m).
Definition describes_signal (s : Signal) (m : SignalMsg) : Prop :=
  schema_Aspect (sgm_aspect m) = shown Aspect_names (sig_current_aspect s).
Definition describes_derailer (d : Derailer) (m : DerailerMsg) : Prop :=
  schema_DerailerPosition (drm_position m) = Some (der_state d).
Definition describes_block (b : BlockSection) (m : BlockSectionMsg) : Prop :=
  schema_BlockSectionState (bsm_state m) = Some (bs_state b) /\
  schema_BlockDirectionState (bsm_block_direction m) = Some (bs_direction b).
Definition describes_route (r : RouteState) (m : RouteMsg) : Prop :=
  rtm_from_signal_uid m = value (rt_from_signal_uid r) /\ rtm_to_signal_uid m = value (rt_to_signal_uid r) /\
  rtm_section_uids m = value <$> rt_section_uids r.
(** An alarm of a kind that the schema names has that name. *)
Definition describes_alarm (a : AlarmState) (m : AlarmMsg) : Prop :=
  (al_kind a ∈ AlarmType_names -> schema_AlarmType (alm_alarm_type m) = Some (al_kind a)) /\
  alm_object_uid m = value (al_object_uid a) /\ alm_message m = al_message a.
Definition describes_train (tr : TrainSnapshot) (m : TrainMsg) : Prop :=
  trm_uid m = value (tsn_uid tr) /\ trm_vehicle_uids m = value <$> tsn_vehicle_uids tr /\
  trm_section_uid m = value (tsn_section_uid tr) /\ trm_speed_kmh m = tsn_speed_kmh tr /\
  trm_total_length_m m = tsn_total_length_m tr /\ trm_total_axles m = tsn_total_axles tr.

Record describes (snap : EngineSnapshot.t) (m : SnapshotMsg) : Prop := {
  d_version : snm_schema_version m = 1;
  d_session : snm_session_id m = EngineSnapshot.session snap;
  d_switches : lists describes_switch swm_uid (EngineSnapshot.switches snap) (snm_switches m);
  d_sections : lists (describes_section (EngineSnapshot.trains snap)) tsm_uid
                 (EngineSnapshot.track_sections snap) (snm_track_sections m);
  d_signals : lists describes_signal sgm_uid (EngineSnapshot.signals snap) (snm_signals m);
  d_derailers : lists describes_derailer drm_uid (EngineSnapshot.derailers snap) (snm_derailers m);
  d_blocks : lists describes_block bsm_uid (EngineSnapshot.block_sections snap) (snm_block_sections m);
  d_routes : lists describes_route rtm_uid (EngineSnapshot.routes snap) (snm_active_routes m);
  d_alarms : lists describes_alarm alm_uid (EngineSnapshot.alarms snap) (snm_active_alarms m);
  d_trains : Forall2 describes_train (EngineSnapshot.trains snap) (snm_trains m) }.

(** Routes and alarms are kept under their own identifiers. *)
Definition snapshot_keyed (snap : EngineSnapshot.t) : Prop :=
  (forall u r, EngineSnapshot.routes snap !! u = Some r -> rt_uid r = u) /\
  (forall u a, EngineSnapshot.alarms snap !! u = Some a -> al_uid a = u).

Lemma lists_visited {A T} (describes : A -> T -> Prop) (uid_of : T -> Z) (f : UID * A -> T) (m : gmap UID A) :
  (forall e, m !! e.1 = Some e.2 -> uid_of (f e) = value e.1) ->
  (forall u x, m !! u = Some x -> describes x (f (u, x))) -> lists describes uid_of m (f <$> visit m).
Proof.
  intros Hu Hd. split; [by apply visited_once|]. intros u. rewrite find_visited by done.
  destruct (m !! u) as [x|] eqn:Hx; constructor. by apply Hd.
Qed.

Lemma occupied_sent o : schema_occupied (is_occupied o) = o.
Proof. by destruct o. Qed.

Lemma train_named trains u : names_train trains u (default 0 (train_by_section trains !! value u)).
Proof.
  rewrite train_by_section_lookup. unfold names_train. induction trains as [|tr trains IH]; [by right|]. cbn.
  destruct (Z.eqb_spec (value (tsn_section_uid tr)) (value u)) as [E%value_inj|E].
  - left. by exists [], tr, trains.
  - assert (tsn_section_uid tr <> u) as Hne by (by intros <-). destruct IH as [IH|[Hall Hz]].
    + left. destruct IH as (before & tr' & after & -> & ? & ? & ?). exists (tr :: before), tr', after.
      split_and!; [done|done|by constructor|done].
    + right. split; [by constructor|done].
Qed.

Lemma alarm_kind_sent kind : kind ∈ AlarmType_names -> schema_AlarmType (alarm_kind_byte kind) = Some kind.
Proof.
  intros Hk. repeat (apply elem_of_cons in Hk as [->|Hk]; [by vm_compute|]). by apply not_elem_of_nil in Hk.
Qed.

Lemma snapshot_described (snap : EngineSnapshot.t) :
  snapshot_keyed snap -> describes snap (snapshot_message snap).
Proof.
  intros [Hr Ha]. split; cbn [snapshot_message snm_schema_version snm_session_id snm_switches snm_track_sections
    snm_signals snm_derailers snm_block_sections snm_active_routes snm_active_alarms snm_trains]; [done|done|..].
  - apply lists_visited; [done|]. intros u s _. repeat split; cbn;
      [apply position_sent|apply occupied_sent|by rewrite bool_decide_eq_true, not_eq_None_Some..].
  - apply lists_visited; [done|]. intros [u] s _. repeat split; cbn; [apply occupied_sent|].
    apply (train_named _ (mkUID u)).
  - apply lists_visited; [done|]. intros u s _. apply aspect_sent.
  - apply lists_visited; [done|]. intros u s _. unfold describes_derailer. cbn. by destruct (der_state s).
  - apply lists_visited; [done|]. intros u s _. split; cbn; [by destruct (bs_state s)|apply direction_sent].
  - apply lists_visited; [|done]. intros [k r] Hk. cbn in *. by rewrite (Hr k).
  - apply lists_visited; [intros [k a] Hk; cbn in *; by rewrite (Ha k)|]. intros u a _. split_and!; try done.
    apply alarm_kind_sent.
  - apply Forall2_fmap_r, Forall_Forall2_diag, Forall_true. done.
Qed.


(** The cursor of the message is the tick in 32 bits; the schema says the number of the last
    event.  The time stamp of the schema is not set at all. *)
Theorem cursor_is_the_tick (snap : EngineSnapshot.t) :
  snm_seq_cursor (snapshot_message snap) = u32 (EngineSnapshot.tick snap).
Proof. done. Qed.
End Serialize.

(** A snapshot with one free and one occupied section, a moving switch and a
    train standing on the second section. *)
Module SnapshotDemo.
Definition port : TrackPort := mkTrackPort UID_zero UID_zero CounterKind.IT [].
Definition section (uid : UID) (o : TrackOccupancy.t) (axles : Z) : TrackSection :=
  mkTrackSection uid "" UID_zero port port (f32_of_Z 100) false 40 true o axles None OperatorCommandRuntimeState_default.
Definition demo : EngineSnapshot.t :=
  EngineSnapshot.mk "s" (2 ^ 32 + 7) ∅
    {[mkUID 1 := section (mkUID 1) TrackOccupancy.FREE 0; mkUID 2 := section (mkUID 2) TrackOccupancy.OCCUPIED 8]}
    ∅ ∅ ∅ ∅ ∅ ∅ ∅ [mkTrainSnapshot (mkUID 9) (mkUID 2) (f32_of_Z 0) (f32_of_Z 100) 8 []].
End SnapshotDemo.

Lemma snapshot_demo_keyed : snapshot_keyed SnapshotDemo.demo.
Proof. split; intros u r H; discriminate H. Qed.

