(* ===== verification/Session.v ===== *)
(** * Session: client connections

    [server/src/transport_gateway.cpp] and [server/src/ownership_guard.cpp]:
    the reassembly of frames from the byte stream, the handling of each frame,
    the broadcasts, and the shutdown.

    The gateway's objects are in one record.  A handler posted to the IO thread
    is a [Task]; the IO thread runs them in order.  A function that takes
    [sessions_mutex_] is partial: [None] is a thread waiting for a mutex it
    holds itself.  FlatBuffers tables are read and built by the parameters
    of [SessionWire]; the clock is a sequence of readings. *)
From S2P Require Import Prelude Types Commands Track World Queues Loop Frame Text Snapshot Ingress DbWriter Dispatch.
Local Open Scope Z_scope.

(** ** Ownership of dispatch areas *)

Module OwnershipGuard.
(* SRC server/include/server/ownership_guard.hpp 39-42 OwnershipGuard *)
Definition t : Type := gmap UID PlayerID.
(* SRC server/src/ownership_guard.cpp 8-13 OwnershipGuard::set_owner *)
Definition set_owner (dispatch_area : UID) (player : PlayerID) (g : t) : t := <[dispatch_area := player]> g.
(* SRC server/src/ownership_guard.cpp 15-19 OwnershipGuard::release *)
Definition release (dispatch_area : UID) (g : t) : t := delete dispatch_area g.
(* SRC server/src/ownership_guard.cpp 21-31 OwnershipGuard::release_all *)
Definition release_all (player : PlayerID) (g : t) : t := filter (fun e => e.2 <> player) g.
(* SRC server/src/ownership_guard.cpp 33-39 OwnershipGuard::check *)
Definition check (dispatch_area : UID) (player : PlayerID) (g : t) : bool :=
  match g !! dispatch_area with Some p => bool_decide (p = player) | None => false end.
(* SRC server/src/ownership_guard.cpp 41-49 OwnershipGuard::get_owner *)
Definition get_owner (dispatch_area : UID) (g : t) : option PlayerID := g !! dispatch_area.
End OwnershipGuard.

(** ** The objects of the gateway *)

Module SessionState.
(* SRC server/include/server/transport_gateway.hpp 42-47 SessionState *)
Inductive t : Set := kHandshake | kActive | kClosing.
#[global] Instance eq_dec : EqDecision t.
Proof. solve_decision. Defined.
End SessionState.

(* SRC server/include/server/transport_gateway.hpp 49-55 ClientInfo *)
Record ClientInfo := mkClientInfo {
  ci_player_id : string; ci_session_id : string; ci_dispatch_area_id : string;
  ci_state : SessionState.t }.
#[export] Instance ClientInfo_eta : Eta ClientInfo := fun i =>
  mkClientInfo (ci_player_id i) (ci_session_id i) (ci_dispatch_area_id i) (ci_state i).
Definition ClientInfo_default : ClientInfo := mkClientInfo "" "" "" SessionState.kHandshake.

(** A session without its read buffer, which only [on_read] touches and
    [Server] holds; the socket is open or closed, with what was written to it. *)
(* SRC server/include/server/transport_gateway.hpp 83-88 ClientSession *)
Record ClientSession := mkClientSession {
  cs_info : ClientInfo; cs_tx_seq : Z; cs_open : bool; cs_written : list (list byte) }.
#[export] Instance ClientSession_eta : Eta ClientSession := fun s =>
  mkClientSession (cs_info s) (cs_tx_seq s) (cs_open s) (cs_written s).

(* SRC server/src/transport_gateway.cpp 35-39 ClientSession::ClientSession *)
Definition ClientSession_create : ClientSession := mkClientSession ClientInfo_default 0 true [].

Definition cs_state (s : ClientSession) : SessionState.t := ci_state (cs_info s).
(* SRC server/include/server/transport_gateway.hpp 69-69 ClientSession::is_active *)
Definition is_active (s : ClientSession) : bool := bool_decide (cs_state s = SessionState.kActive).

(* SRC server/include/server/transport_gateway.hpp 91-91 ClientSession::kReadBufSize *)
Definition kReadBufSize : Z := 65536 + kHeaderSize.

(** The address of a session object. *)
Notation Ptr := nat (only parsing).

(** A handler posted to the IO thread. *)
Inductive Task : Type :=
  | TWrite (session : Ptr) (data : list byte)
  | TBroadcast (data : list byte)
  | TBroadcastPair (src dst : string) (data : list byte).

(** The tables of [proto/session.fbs] and [proto/commands.fbs] the sessions use. *)
Class SessionWire := {
  read_Handshake : list byte -> option (option string * option string);
  build_HandshakeAck : string -> Z -> Z -> list byte;
  build_CommandAck : Z -> list byte;
  build_CommandNak : Z -> Z -> string -> list byte;
  build_HeartbeatAck : Z -> Z -> list byte;
  build_Snapshot : SnapshotMsg -> list byte
}.

(** [proto::NakReason_UNSUPPORTED]. *)
Definition NakReason_UNSUPPORTED : Z := 7.

(** Decoding a growing buffer. *)

Lemma byte_at_app a b k : (k < length a)%nat -> byte_at (a ++ b) k = byte_at a k.
Proof. intros Hk. unfold byte_at. by rewrite lookup_app_l. Qed.
Lemma u32_at_app a b k : (k + 3 < length a)%nat -> u32_at (a ++ b) k = u32_at a k.
Proof. intros Hk. unfold u32_at. by rewrite !byte_at_app by lia. Qed.

(** What is decoded, or refused, does not depend on the bytes that follow. *)
Lemma decode_frame_app a b :
  fd_status (decode_frame a) <> kNeedMoreData -> decode_frame (a ++ b) = decode_frame a.
Proof.
  unfold decode_frame. rewrite length_app. unfold kHeaderSize.
  destruct (Z.ltb_spec (Z.of_nat (length a)) 16) as [|Hl]; [done|].
  rewrite (proj2 (Z.ltb_ge _ 16)) by lia. rewrite !byte_at_app, !u32_at_app by lia.
  case_match; [done|]. destruct (kMaxPayloadLen <? u32_at a 8); [done|].
  destruct (Z.ltb_spec (Z.of_nat (length a)) (16 + u32_at a 8)) as [|Ht]; [done|]. intros _.
  rewrite (proj2 (Z.ltb_ge _ (16 + u32_at a 8))) by lia.
  rewrite (take_app_le a b 12) by lia. rewrite (drop_app_le a b 16) by lia.
  rewrite take_app_le; [done|]. rewrite length_drop. lia.
Qed.

Lemma byte_at_byte a k : Forall is_byte a -> is_byte (byte_at a k).
Proof.
  intros Ha. unfold byte_at. destruct (a !! k) eqn:E; [|by split]. cbn.
  by eapply Forall_lookup_1 in E.
Qed.

(** A decoded frame consumes at least its header, and no more than there is. *)
Lemma decode_ok_consumed a :
  Forall is_byte a -> fd_status (decode_frame a) = kOk ->
  16 <= fd_bytes_consumed (decode_frame a) <= Z.of_nat (length a).
Proof.
  intros Ha. assert (0 <= u32_at a 8) as Hu.
  { unfold u32_at, un_le32. pose proof (fun k => proj1 (byte_at_byte a k Ha)) as Hb.
    repeat (apply Z.lor_nonneg; split); rewrite ?Z.shiftl_nonneg; apply Hb. }
  unfold decode_frame, kHeaderSize.
  destruct (Z.ltb_spec (Z.of_nat (length a)) 16) as [|Hl]; [done|].
  case_match; [done|]. destruct (Z.ltb_spec kMaxPayloadLen (u32_at a 8)); [done|].
  destruct (Z.ltb_spec (Z.of_nat (length a)) (16 + u32_at a 8)); [done|].
  case_match; [done|]. cbn. lia.
Qed.

(** A buffer that lacks a complete frame is shorter than the longest one. *)
Lemma need_more_length a :
  fd_status (decode_frame a) = kNeedMoreData -> Z.of_nat (length a) < kHeaderSize + kMaxPayloadLen.
Proof.
  unfold decode_frame, kHeaderSize.
  destruct (Z.ltb_spec (Z.of_nat (length a)) 16) as [|Hl]; [unfold kMaxPayloadLen; lia|].
  case_match; [done|]. destruct (Z.ltb_spec kMaxPayloadLen (u32_at a 8)); [done|].
  destruct (Z.ltb_spec (Z.of_nat (length a)) (16 + u32_at a 8)); [lia|]. by case_match.
Qed.

Section Gateway.
Context {D : Type} {MO : MapOrder} {W : SessionWire} {R : CommandReader}.
(** The dispatch-channel handler, if one was set: it acts on the objects [D] it
    captures and hands its broadcasts to the gateway. *)
Variable handler : option (list byte -> string -> string -> D -> D * list PairBroadcast).
(** The successive readings of [now_us]. *)
Variable clock : nat -> Z.

(** The heap of session objects beside the gateway's members. *)
(* SRC server/include/server/transport_gateway.hpp 154-167 TransportGateway *)
Record Gateway := mkGateway {
  gw_objects : gmap nat ClientSession;
  gw_sessions : gset nat;
  gw_locked : bool;
  gw_queue : PriorityCommandQueue.t (T := EnvelopedCommand);
  gw_snapshot : AtomicSnapshot.t;
  gw_posted : list Task;
  gw_channel : D;
  gw_running : bool;
  gw_reads : nat }.
#[global] Instance Gateway_eta : Eta Gateway := fun g =>
  mkGateway (gw_objects g) (gw_sessions g) (gw_locked g) (gw_queue g) (gw_snapshot g)
    (gw_posted g) (gw_channel g) (gw_running g) (gw_reads g).

Definition now_us (g : Gateway) : Gateway * Z := (g <| gw_reads ::= S |>, clock (gw_reads g)).
Definition on_session (p : Ptr) (f : ClientSession -> ClientSession) (g : Gateway) : Gateway :=
  g <| gw_objects ::= alter f p |>.
Definition session (p : Ptr) (g : Gateway) : ClientSession :=
  default ClientSession_create (gw_objects g !! p).

(* SRC server/src/transport_gateway.cpp 235-246 ClientSession::send *)
Definition send (p : Ptr) (frame : list byte) (g : Gateway) : Gateway :=
  g <| gw_posted ::= fun ts => ts ++ [TWrite p frame] |>.

(* SRC server/src/transport_gateway.cpp 229-233 ClientSession::send_frame *)
Definition send_frame (p : Ptr) (mt flags : byte) (payload : list byte) (g : Gateway) : Gateway :=
  let seq := cs_tx_seq (session p g) in
  let g := on_session p (fun s => s <| cs_tx_seq ::= fun n => u32 (n + 1) |>) g in
  send p (encode_frame mt flags seq payload) g.

(* SRC server/src/transport_gateway.cpp 364-368 TransportGateway::register_session *)
Definition register_session (p : Ptr) (g : Gateway) : option Gateway :=
  if gw_locked g then None else Some (g <| gw_sessions ::= union {[p]} |>).
(* SRC server/src/transport_gateway.cpp 370-374 TransportGateway::unregister_session *)
Definition unregister_session (p : Ptr) (g : Gateway) : option Gateway :=
  if gw_locked g then None else Some (g <| gw_sessions ::= fun s => s ∖ {[p]} |>).

(* SRC server/src/transport_gateway.cpp 250-253 ClientSession::close *)
Definition shut (s : ClientSession) : ClientSession :=
  s <| cs_info := (cs_info s) <| ci_state := SessionState.kClosing |> |> <| cs_open := false |>.
(* SRC server/src/transport_gateway.cpp 248-255 ClientSession::close *)
Definition close (p : Ptr) (g : Gateway) : option Gateway :=
  unregister_session p (on_session p shut g).

(** ** Frames *)

(* SRC server/src/transport_gateway.cpp 118-153 ClientSession::handle_handshake *)
Definition handle_handshake (p : Ptr) (frame : DecodedFrame) (g : Gateway) : option Gateway :=
  if bool_decide (fr_payload frame = []) then close p g
  else
    match read_Handshake (fr_payload frame) with
    | Some (Some player_id, Some auth_token) =>
        let '(g, t1) := now_us g in
        let session_id := ("SID-" +:+ player_id +:+ "-" +:+ to_string t1)%string in
        let g := on_session p (fun s => s <| cs_info := (cs_info s)
          <| ci_player_id := player_id |> <| ci_session_id := session_id |>
          <| ci_state := SessionState.kActive |> |>) g in
        let '(g, t2) := now_us g in
        Some (send_frame p msg_type.kHandshakeAck 0 (build_HandshakeAck session_id 20 t2) g)
    | _ => close p g
    end.

(* SRC server/src/transport_gateway.cpp 164-169 ClientSession::handle_snapshot_request *)
Fixpoint send_chunks (p : Ptr) (chunks : list (list byte)) (g : Gateway) : Gateway :=
  match chunks with
  | [] => g
  | [chunk] => send_frame p msg_type.kSnapshotChunk kFlagIsLastChunk chunk g
  | chunk :: chunks => send_chunks p chunks (send_frame p msg_type.kSnapshotChunk 0 chunk g)
  end.

(* SRC server/src/transport_gateway.cpp 155-170 ClientSession::handle_snapshot_request *)
Definition handle_snapshot_request (p : Ptr) (g : Gateway) : Gateway :=
  match AtomicSnapshot.load (gw_snapshot g) with
  | None => g
  | Some snap =>
      let serialised := serialize build_Snapshot snap in
      send_chunks p (SnapshotService.chunk serialised SnapshotService.DEFAULT_CHUNK_SIZE) g
  end.

(* SRC server/src/transport_gateway.cpp 172-212 ClientSession::handle_command *)
Definition handle_command (p : Ptr) (frame : DecodedFrame) (g : Gateway) : Gateway :=
  if bool_decide (fr_payload frame = []) then g
  else
    match CommandIngress.parse_payload (fr_payload frame) with
    | None =>
        send_frame p msg_type.kCommandNak 0
          (build_CommandNak (fr_seq_id frame) NakReason_UNSUPPORTED "Unsupported command type") g
    | Some cmd =>
        let '(g, t) := now_us g in
        let meta := mkCommandMeta (fr_seq_id frame) CommandPriority.NORMAL
                      (mkPlayerID (ci_player_id (cs_info (session p g)))) UID_zero t in
        match PriorityCommandQueue.push (gw_queue g) (mkEnvelopedCommand meta cmd) CommandPriority.NORMAL with
        | None => g
        | Some q =>
            send_frame p msg_type.kCommandAck 0 (build_CommandAck (fr_seq_id frame)) (g <| gw_queue := q |>)
        end
    end.

(* SRC server/src/transport_gateway.cpp 214-220 ClientSession::handle_heartbeat *)
Definition handle_heartbeat (p : Ptr) (frame : DecodedFrame) (g : Gateway) : Gateway :=
  let '(g, t) := now_us g in
  send_frame p msg_type.kHeartbeatAck 0 (build_HeartbeatAck (fr_seq_id frame) t) g.

(* SRC server/src/transport_gateway.cpp 222-227 ClientSession::handle_dispatch_channel *)
Definition handle_dispatch_channel (p : Ptr) (frame : DecodedFrame) (g : Gateway) : Gateway :=
  match handler with
  | None => g
  | Some h =>
      let info := cs_info (session p g) in
      let '(d, casts) := h (fr_payload frame) (ci_player_id info) (ci_dispatch_area_id info) (gw_channel g) in
      g <| gw_channel := d |>
        <| gw_posted ::= fun ts => ts ++ ((fun c => TBroadcastPair (pb_src c) (pb_dst c) (pb_frame c)) <$> casts) |>
  end.

(* SRC server/src/transport_gateway.cpp 91-116 ClientSession::handle_frame *)
Definition handle_frame (p : Ptr) (frame : DecodedFrame) (g : Gateway) : option Gateway :=
  let mt := fr_msg_type frame in
  let active := is_active (session p g) in
  if mt =? msg_type.kHandshake then handle_handshake p frame g
  else if mt =? msg_type.kSnapshotRequest then
    Some (if active then handle_snapshot_request p g else g)
  else if mt =? msg_type.kCommand then
    Some (if active then handle_command p frame g else g)
  else if mt =? msg_type.kHeartbeat then Some (handle_heartbeat p frame g)
  else if mt =? msg_type.kDispatchChannel then
    Some (if active then handle_dispatch_channel p frame g else g)
  else Some g.

(** Every turn of the loop consumes a header, so as many turns as there are
    bytes are enough ([process_buffer_drained]). *)
(* SRC server/src/transport_gateway.cpp 67-89 ClientSession::process_buffer *)
Fixpoint process_buffer (fuel : nat) (p : Ptr) (buf : list byte) (g : Gateway) :
    option (list byte * Gateway) :=
  match fuel with
  | O => Some (buf, g)
  | S fuel =>
      if bool_decide (buf = []) then Some (buf, g)
      else
        let result := decode_frame buf in
        match fd_status result with
        | kNeedMoreData => Some (buf, g)
        | kOk =>
            g ← handle_frame p (fd_frame result) g;
            process_buffer fuel p (drop (Z.to_nat (fd_bytes_consumed result)) buf) g
        | _ => g ← close p g; Some (buf, g)
        end
  end.

(** ** The IO thread *)

(** The gateway with the read buffers of its sessions; [sv_alive] is false once
    an exception has left the IO thread. *)
Record Server := mkServer {
  sv_gateway : Gateway; sv_bufs : gmap nat (list byte); sv_alive : bool }.
Definition buffer (p : Ptr) (s : Server) : list byte := default [] (sv_bufs s !! p).

(* SRC server/src/transport_gateway.cpp 54-65 ClientSession::on_read *)
Definition on_read (p : Ptr) (bytes : list byte) (s : Server) : option Server :=
  let buf := buffer p s ++ bytes in
  '(buf, g) ← process_buffer (length buf) p buf (sv_gateway s);
  Some (mkServer g (<[p := buf]> (sv_bufs s)) (sv_alive s)).
(** [on_read] with an error code. *)
(* SRC server/src/transport_gateway.cpp 56-60 ClientSession::on_read *)
Definition on_read_error (p : Ptr) (s : Server) : option Server :=
  g ← unregister_session p (sv_gateway s); Some (mkServer g (sv_bufs s) (sv_alive s)).
(** Whether the session asks for more bytes after a read. *)
(* SRC server/src/transport_gateway.cpp 63-64 ClientSession::on_read *)
Definition reads_again (p : Ptr) (g : Gateway) : bool :=
  negb (bool_decide (cs_state (session p g) = SessionState.kClosing)).

(* SRC server/src/transport_gateway.cpp 304-318 TransportGateway::do_accept *)
Definition accept (p : Ptr) (g : Gateway) : option Gateway :=
  register_session p (g <| gw_objects ::= <[p := ClientSession_create]> |>).

(* SRC server/src/transport_gateway.cpp 320-335 TransportGateway::broadcast *)
Definition broadcast (frame : list byte) (g : Gateway) : Gateway :=
  g <| gw_posted ::= fun ts => ts ++ [TBroadcast frame] |>.

(** The registered sessions a broadcast visits, in the order of the map. *)
Definition send_to (test : ClientSession -> bool) (data : list byte) (g : Gateway) : Gateway :=
  fold_left (fun g p => if test (session p g) then send p data g else g) (elements (gw_sessions g)) g.

(* SRC server/src/transport_gateway.cpp 325-334 TransportGateway::broadcast *)
Definition run_broadcast (data : list byte) (g : Gateway) : Gateway := send_to is_active data g.
(* SRC server/src/transport_gateway.cpp 344-356 TransportGateway::broadcast_to_pair *)
Definition run_broadcast_to_pair (src dst : string) (data : list byte) (g : Gateway) : Gateway :=
  send_to (fun c => is_active c && (bool_decide (ci_dispatch_area_id (cs_info c) = src)
                                    || bool_decide (ci_dispatch_area_id (cs_info c) = dst))) data g.

(** One posted handler.  [asio::write] throws on a closed socket, and on an open one whose
    connection is lost ([delivered] is false); nothing in the IO thread catches it. *)
(* SRC server/src/transport_gateway.cpp 240-245 ClientSession::send *)
Definition run_task (delivered : bool) (s : Server) : Server :=
  let g := sv_gateway s in
  match gw_posted g with
  | [] => s
  | t :: ts =>
      let g := g <| gw_posted := ts |> in
      match t with
      | TWrite p data =>
          if cs_open (session p g) && delivered
          then mkServer (on_session p (fun c => c <| cs_written ::= fun w => w ++ [data] |>) g) (sv_bufs s) (sv_alive s)
          else mkServer g (sv_bufs s) false
      | TBroadcast data => mkServer (run_broadcast data g) (sv_bufs s) (sv_alive s)
      | TBroadcastPair src dst data => mkServer (run_broadcast_to_pair src dst data g) (sv_bufs s) (sv_alive s)
      end
  end.

(* SRC server/src/transport_gateway.cpp 271-285 TransportGateway::start *)
Definition start (g : Gateway) : Gateway :=
  if gw_running g then g else g <| gw_running := true |>.

Fixpoint close_all (ps : list nat) (g : Gateway) : option Gateway :=
  match ps with
  | [] => Some g
  | p :: ps => g ← close p g; close_all ps g
  end.

(* SRC server/src/transport_gateway.cpp 287-302 TransportGateway::stop *)
Definition stop (g : Gateway) : option Gateway :=
  if negb (gw_running g) then Some g
  else
    let g := g <| gw_running := false |> in
    if gw_locked g then None
    else
      g ← close_all (elements (gw_sessions g)) (g <| gw_locked := true |>);
      Some (g <| gw_sessions := ∅ |> <| gw_locked := false |>).

(** ** What the operations leave alone *)

Lemma bad_magic garbage :
  (16 <= length garbage)%nat -> head garbage <> Some kMagicByte0 ->
  fd_status (decode_frame garbage) = kBadMagic.
Proof.
  intros Hl Hh. unfold decode_frame, kHeaderSize.
  rewrite (proj2 (Z.ltb_ge _ 16)) by lia.
  destruct garbage as [|b garbage]; [cbn in Hl; lia|]. cbn [head] in Hh.
  change (byte_at (b :: garbage) 0) with b. by rewrite (proj2 (Z.eqb_neq b kMagicByte0)) by congruence.
Qed.

#[local] Opaque encode_frame decode_frame SnapshotService.chunk serialize.

(** The gateway's parts a frame of session [p] may change without closing it. *)
Definition same_core (g g' : Gateway) : Prop :=
  gw_sessions g' = gw_sessions g /\ gw_locked g' = gw_locked g /\ gw_snapshot g' = gw_snapshot g /\
  gw_running g' = gw_running g.

Lemma session_on_session p f g :
  is_Some (gw_objects g !! p) -> session p (on_session p f g) = f (session p g).
Proof. intros [s Hs]. unfold session, on_session. cbn. by rewrite lookup_alter_eq, Hs. Qed.

Lemma session_alter p q f g :
  session q (on_session p f g) =
  if decide (q = p) then match gw_objects g !! q with Some s => f s | None => ClientSession_create end
  else session q g.
Proof.
  unfold session, on_session. cbn. destruct (decide (q = p)) as [->|]; [|by rewrite lookup_alter_ne].
  rewrite lookup_alter_eq. by destruct (gw_objects g !! p).
Qed.

Lemma session_objects g g' q : gw_objects g = gw_objects g' -> session q g = session q g'.
Proof. unfold session. by intros ->. Qed.

Lemma session_exists_on_session p q f g :
  is_Some (gw_objects g !! q) -> is_Some (gw_objects (on_session p f g) !! q).
Proof. intros Hs. cbn. destruct (decide (p = q)) as [->|]; [by rewrite lookup_alter_eq; apply fmap_is_Some|by rewrite lookup_alter_ne]. Qed.

(** Sending a frame: one posted write, and the next sequence number. *)
Lemma send_frame_spec p mt fl payload g :
  let g' := send_frame p mt fl payload g in
  same_core g g' /\ gw_queue g' = gw_queue g /\ gw_channel g' = gw_channel g /\ gw_reads g' = gw_reads g /\
  gw_posted g' = gw_posted g ++ [TWrite p (encode_frame mt fl (cs_tx_seq (session p g)) payload)] /\
  (forall q, is_Some (gw_objects g !! q) -> is_Some (gw_objects g' !! q)) /\
  (forall q, cs_info (session q g') = cs_info (session q g)).
Proof.
  cbn. unfold same_core. split_and!; try done.
  - intros q Hq. by apply session_exists_on_session.
  - intros q. unfold session, send_frame, send, on_session. cbn.
    destruct (decide (p = q)) as [->|]; [|by rewrite lookup_alter_ne].
    rewrite lookup_alter_eq. by destruct (gw_objects g !! q).
Qed.

(** Only posted writes of the session [p], whatever their number. *)
Definition posts_writes (p : Ptr) (g g' : Gateway) : Prop :=
  exists frames, gw_posted g' = gw_posted g ++ (TWrite p <$> frames).

Lemma posts_writes_refl p g g' : gw_posted g' = gw_posted g -> posts_writes p g g'.
Proof. intros E. exists []. by rewrite E, app_nil_r. Qed.
Lemma posts_writes_trans p g1 g2 g3 : posts_writes p g1 g2 -> posts_writes p g2 g3 -> posts_writes p g1 g3.
Proof.
  intros [l1 E1] [l2 E2]. exists (l1 ++ l2). by rewrite E2, E1, fmap_app, <- app_assoc.
Qed.

Lemma send_chunks_spec p chunks g :
  let g' := send_chunks p chunks g in
  same_core g g' /\ gw_queue g' = gw_queue g /\ gw_channel g' = gw_channel g /\
  posts_writes p g g' /\ (forall q, is_Some (gw_objects g !! q) -> is_Some (gw_objects g' !! q)) /\
  (forall q, cs_info (session q g') = cs_info (session q g)).
Proof.
  cbn zeta. revert g. induction chunks as [|c chunks IH]; intros g.
  { cbn. split_and!; try done. by apply posts_writes_refl. }
  assert (forall fl, posts_writes p g (send_frame p msg_type.kSnapshotChunk fl c g)) as Hp
    by (intros fl; by eexists [_]).
  destruct chunks as [|c2 chunks].
  { cbn [send_chunks]. destruct (send_frame_spec p msg_type.kSnapshotChunk kFlagIsLastChunk c g)
      as (? & ? & ? & ? & ? & ? & ?). by split_and!. }
  change (send_chunks p (c :: c2 :: chunks) g)
    with (send_chunks p (c2 :: chunks) (send_frame p msg_type.kSnapshotChunk 0 c g)).
  destruct (send_frame_spec p msg_type.kSnapshotChunk 0 c g) as (Hc & Hq & Hd & _ & _ & He & Hi).
  destruct (IH (send_frame p msg_type.kSnapshotChunk 0 c g)) as (Hc' & Hq' & Hd' & Hp' & He' & Hi').
  unfold same_core in *. split_and!; try (by intuition congruence).
  - by eapply posts_writes_trans; [apply Hp|].
  - auto.
Qed.

(** What one frame may do, whatever it is. *)
Record frame_effect (p : Ptr) (g g' : Gateway) : Prop := {
  fe_locked : gw_locked g' = gw_locked g;
  fe_sessions : gw_sessions g' ⊆ gw_sessions g;
  fe_exists : forall q, is_Some (gw_objects g !! q) -> is_Some (gw_objects g' !! q);
  fe_areas : forall q, ci_dispatch_area_id (cs_info (session q g')) = ci_dispatch_area_id (cs_info (session q g));
  fe_others : forall q, q <> p -> cs_info (session q g') = cs_info (session q g) }.

Lemma frame_effect_refl p g : frame_effect p g g.
Proof. by split. Qed.

Lemma close_effect p g g' : close p g = Some g' ->
  frame_effect p g g' /\ gw_queue g' = gw_queue g /\ gw_channel g' = gw_channel g /\ gw_posted g' = gw_posted g /\
  (is_Some (gw_objects g !! p) -> cs_state (session p g') = SessionState.kClosing /\ cs_open (session p g') = false).
Proof.
  unfold close, unregister_session. destruct (gw_locked (on_session _ _ _)); [done|]. intros [= <-].
  split; [split|split_and!]; try done.
  - intros x. cbn. rewrite elem_of_difference. tauto.
  - intros q Hq. by apply session_exists_on_session.
  - intros q. rewrite (session_objects _ (on_session p shut g)), session_alter by done.
    unfold session. case_decide; [|done]. by case_match.
  - intros q Hq. rewrite (session_objects _ (on_session p shut g)), session_alter by done.
    by rewrite decide_False.
  - intros Hs. by rewrite (session_objects _ (on_session p shut g)), session_on_session by done.
Qed.

Lemma frame_effect_trans p g1 g2 g3 : frame_effect p g1 g2 -> frame_effect p g2 g3 -> frame_effect p g1 g3.
Proof.
  intros [L1 S1 E1 A1 O1] [L2 S2 E2 A2 O2]. split; [congruence|set_solver|auto| |].
  - intros q. by rewrite A2.
  - intros q Hq. by rewrite O2, O1.
Qed.

Lemma send_frame_effect p mt fl payload g : frame_effect p g (send_frame p mt fl payload g).
Proof.
  destruct (send_frame_spec p mt fl payload g) as ((Hs & Hl & _) & _ & _ & _ & _ & He & Hi). split.
  - done.
  - by rewrite Hs.
  - done.
  - intros q. by rewrite Hi.
  - intros q _. apply Hi.
Qed.

Lemma send_chunks_effect p chunks g : frame_effect p g (send_chunks p chunks g).
Proof.
  destruct (send_chunks_spec p chunks g) as ((Hs & Hl & _) & _ & _ & _ & He & Hi). split.
  - done.
  - by rewrite Hs.
  - done.
  - intros q. by rewrite Hi.
  - intros q _. apply Hi.
Qed.

(** Changes of the gateway beside the session objects and their registration. *)
Lemma objects_effect p g g' :
  gw_objects g' = gw_objects g -> gw_locked g' = gw_locked g -> gw_sessions g' = gw_sessions g ->
  frame_effect p g g'.
Proof.
  intros Ho Hl Hs. split.
  - done.
  - by rewrite Hs.
  - by rewrite Ho.
  - intros q. by rewrite (session_objects g' g).
  - intros q _. by rewrite (session_objects g' g).
Qed.

Lemma on_session_effect p f g :
  (forall s, ci_dispatch_area_id (cs_info (f s)) = ci_dispatch_area_id (cs_info s)) ->
  frame_effect p g (on_session p f g).
Proof.
  intros Hf. split; try done.
  - intros q Hq. by apply session_exists_on_session.
  - intros q. rewrite session_alter. unfold session. case_decide; [|done]. by case_match.
  - intros q Hq. by rewrite session_alter, decide_False.
Qed.

Lemma handle_frame_effect p frame g g' : handle_frame p frame g = Some g' -> frame_effect p g g'.
Proof.
  unfold handle_frame, handle_handshake, handle_snapshot_request, handle_command, handle_heartbeat,
    handle_dispatch_channel, now_us. intros Hh.
  repeat (case_match; simplify_eq; try apply frame_effect_refl; try (by apply close_effect in Hh as [? _])).
  all: try (eapply frame_effect_trans; [|apply send_frame_effect]).
  all: try (by apply objects_effect).
  all: try apply send_chunks_effect.
  all: try (eapply frame_effect_trans; [by apply objects_effect|]).
  all: try (eapply frame_effect_trans; [|by apply objects_effect]).
  all: try (by apply on_session_effect).
  all: try apply frame_effect_refl.
  match goal with
  | |- frame_effect ?p ?g (field_set _ _ (on_session _ ?f ?g1)) =>
      apply (frame_effect_trans p g g1); [by apply objects_effect|];
      apply (frame_effect_trans p g1 (on_session p f g1)); [by apply on_session_effect|by apply objects_effect]
  end.
Qed.

Lemma handle_frame_total p frame g : gw_locked g = false -> is_Some (handle_frame p frame g).
Proof.
  intros Hl. assert (is_Some (close p g)) as Hc by (unfold close, unregister_session; cbn; by rewrite Hl).
  unfold handle_frame, handle_handshake, now_us. by repeat case_match.
Qed.

(** ** Reassembly of the byte stream *)

Definition closing (p : Ptr) (g : Gateway) : Prop := cs_state (session p g) = SessionState.kClosing.

(** One turn of the loop. *)
Lemma process_buffer_unfold fuel p buf g :
  process_buffer (S fuel) p buf g =
  if bool_decide (buf = []) then Some (buf, g)
  else match fd_status (decode_frame buf) with
       | kNeedMoreData => Some (buf, g)
       | kOk => g ← handle_frame p (fd_frame (decode_frame buf)) g;
                process_buffer fuel p (drop (Z.to_nat (fd_bytes_consumed (decode_frame buf))) buf) g
       | _ => g ← close p g; Some (buf, g)
       end.
Proof. done. Qed.

Lemma consumed_shorter buf :
  Forall is_byte buf -> fd_status (decode_frame buf) = kOk ->
  (length (drop (Z.to_nat (fd_bytes_consumed (decode_frame buf))) buf) < length buf)%nat.
Proof. intros Hb Hs. pose proof (decode_ok_consumed buf Hb Hs). rewrite length_drop. lia. Qed.

Lemma process_buffer_fuel n m p buf g :
  Forall is_byte buf -> (length buf <= n)%nat -> (length buf <= m)%nat ->
  process_buffer n p buf g = process_buffer m p buf g.
Proof.
  intros Hb. revert m buf Hb g. induction n as [|n IH]; intros m buf Hb g Hn Hm.
  { destruct buf; [|cbn in Hn; lia]. by destruct m. }
  destruct m as [|m]; [destruct buf; [done|cbn in Hm; lia]|].
  rewrite !process_buffer_unfold. case_bool_decide; [done|].
  destruct (fd_status (decode_frame buf)) eqn:Hs; try done.
  destruct (handle_frame p _ g) as [g'|]; [|done]. cbn.
  pose proof (consumed_shorter buf Hb Hs). apply IH; [by apply Forall_drop|lia..].
Qed.

(** Running the loop to its end. *)
Definition run_buffer (p : Ptr) (buf : list byte) (g : Gateway) : option (list byte * Gateway) :=
  process_buffer (length buf) p buf g.

Lemma run_buffer_ok p buf g :
  Forall is_byte buf -> fd_status (decode_frame buf) = kOk ->
  run_buffer p buf g =
  (g ← handle_frame p (fd_frame (decode_frame buf)) g;
   run_buffer p (drop (Z.to_nat (fd_bytes_consumed (decode_frame buf))) buf) g).
Proof.
  intros Hb Hs. unfold run_buffer at 1. destruct buf as [|b buf]; [done|].
  change (length (b :: buf)) with (S (length buf)). rewrite process_buffer_unfold.
  rewrite bool_decide_false by done. rewrite Hs.
  pose proof (consumed_shorter (b :: buf) Hb Hs) as Hc. cbn [length] in Hc.
  destruct (handle_frame p _ g) as [g'|]; [|done]. cbn [mbind option_bind].
  apply process_buffer_fuel; [by apply Forall_drop|lia|lia].
Qed.

(** What is left in the buffer: nothing to decode, unless the connection was closed. *)
Lemma process_buffer_drained n p buf g r g' :
  Forall is_byte buf -> is_Some (gw_objects g !! p) -> (length buf <= n)%nat ->
  process_buffer n p buf g = Some (r, g') ->
  Forall is_byte r /\ frame_effect p g g' /\
  (closing p g' \/ r = [] \/ fd_status (decode_frame r) = kNeedMoreData).
Proof.
  revert buf g. induction n as [|n IH]; intros buf g Hb Hp Hn E.
  { injection E as <- <-. destruct buf; [|cbn in Hn; lia].
    split_and!; [done|apply frame_effect_refl|auto]. }
  rewrite process_buffer_unfold in E. case_bool_decide as Hne.
  { injection E as <- <-. split_and!; [done|apply frame_effect_refl|auto]. }
  destruct (fd_status (decode_frame buf)) eqn:Hs.
  - apply bind_Some in E as (g1 & Hh & E). pose proof (consumed_shorter buf Hb Hs).
    pose proof (handle_frame_effect _ _ _ _ Hh) as Hf.
    apply IH in E as (Hr & Hf' & ?); [|by apply Forall_drop|by apply (fe_exists _ _ _ Hf)|lia].
    split_and!; [done|by eapply frame_effect_trans|done].
  - injection E as <- <-. split_and!; [done|apply frame_effect_refl|auto].
  - apply bind_Some in E as (g1 & Hc & [= <- <-]). apply close_effect in Hc as (Hf & _ & _ & _ & Hcl).
    split_and!; [done|done|left; by apply Hcl].
  - apply bind_Some in E as (g1 & Hc & [= <- <-]). apply close_effect in Hc as (Hf & _ & _ & _ & Hcl).
    split_and!; [done|done|left; by apply Hcl].
  - apply bind_Some in E as (g1 & Hc & [= <- <-]). apply close_effect in Hc as (Hf & _ & _ & _ & Hcl).
    split_and!; [done|done|left; by apply Hcl].
Qed.

(** Bytes that arrive later continue the loop where it stopped. *)
Lemma run_buffer_app p a b g r g' :
  Forall is_byte (a ++ b) -> is_Some (gw_objects g !! p) ->
  run_buffer p a g = Some (r, g') -> ~ closing p g' ->
  run_buffer p (a ++ b) g = run_buffer p (r ++ b) g'.
Proof.
  remember (length a) as n eqn:Hn. revert a Hn g.
  induction (lt_wf n) as [n _ IH]. intros a -> g Hb Hp E Hcl.
  pose proof Hb as [Ha _]%Forall_app.
  destruct (decide (fd_status (decode_frame a) = kOk)) as [Hs|Hs].
  - rewrite run_buffer_ok in E by done. apply bind_Some in E as (g1 & Hh & E).
    rewrite run_buffer_ok; [|done|rewrite decode_frame_app; [done|congruence]].
    rewrite decode_frame_app by congruence. rewrite Hh. cbn [mbind option_bind].
    pose proof (decode_ok_consumed a Ha Hs). rewrite drop_app_le by lia.
    eapply IH; [by apply consumed_shorter|done| |by eapply fe_exists; [eapply handle_frame_effect|]|done|done].
    apply Forall_app in Hb as [_ Hb']. apply Forall_app. split; [by apply Forall_drop|done].
  - destruct (process_buffer_drained (length a) p a g r g' Ha Hp (le_n _) E) as (_ & _ & [?|Hd]); [done|].
    unfold run_buffer in E. destruct (length a) as [|m] eqn:Hl.
    { destruct a; [|done]. by injection E as <- <-. }
    rewrite process_buffer_unfold in E. case_bool_decide; [by injection E as <- <-|].
    destruct (fd_status (decode_frame a)); try done; [by injection E as <- <-|..].
    all: apply bind_Some in E as (g1 & Hc & [= <- <-]); apply close_effect in Hc as (_ & _ & _ & _ & Hcl').
    all: by destruct Hcl; apply Hcl'.
Qed.

(** The reads of a session, which stop once it is closing. *)
Fixpoint feed (p : Ptr) (chunks : list (list byte)) (s : Server) : option Server :=
  match chunks with
  | [] => Some s
  | c :: cs => s ← on_read p c s; if reads_again p (sv_gateway s) then feed p cs s else Some s
  end.
Fixpoint handle_all (p : Ptr) (frames : list DecodedFrame) (g : Gateway) : option Gateway :=
  match frames with
  | [] => Some g
  | f :: fs => g ← handle_frame p f g; handle_all p fs g
  end.

Lemma handle_all_effect p fs g g' : handle_all p fs g = Some g' -> frame_effect p g g'.
Proof.
  revert g. induction fs as [|f fs IH]; intros g E; [injection E as <-; apply frame_effect_refl|].
  cbn in E. apply bind_Some in E as (g1 & Hf & E).
  eapply frame_effect_trans; [by eapply handle_frame_effect|by apply IH].
Qed.

(** A frame as a client may send it, and its bytes. *)
Definition sendable (f : DecodedFrame) : Prop :=
  is_byte (fr_msg_type f) /\ is_byte (fr_flags f) /\ fits 32 (fr_seq_id f) /\
  Forall is_byte (fr_payload f) /\ short (fr_payload f).
Definition wire (f : DecodedFrame) : list byte :=
  encode_frame (fr_msg_type f) (fr_flags f) (fr_seq_id f) (fr_payload f).

Lemma wire_bytes f : sendable f -> Forall is_byte (wire f).
Proof.
  intros (Hm & Hf & _ & Hp & Hs). unfold wire. rewrite encode_short by done. cbn zeta. unfold header.
  assert (Forall is_byte [kMagicByte0; kMagicByte1; fr_msg_type f; fr_flags f]) as Hh
    by (do 2 (constructor; [by split|]); by do 2 (constructor; [done|])).
  rewrite !Forall_app. by split_and!; try apply le32_bytes.
Qed.

Lemma wires_bytes fs : Forall sendable fs -> Forall is_byte (concat (wire <$> fs)).
Proof. intros H. apply Forall_concat, Forall_fmap. eapply Forall_impl; [done|]. apply wire_bytes. Qed.

Lemma run_buffer_wires p fs g :
  Forall sendable fs -> run_buffer p (concat (wire <$> fs)) g = (g ← handle_all p fs g; Some ([], g)).
Proof.
  intros Hfs. revert g. induction Hfs as [|f fs Hf Hfs IH]; intros g; [done|].
  cbn [fmap list_fmap concat].
  pose proof Hf as (_ & _ & Hseq & _ & Hs).
  assert (decode_frame (wire f ++ concat (wire <$> fs)) =
    mkFrameDecodeResult kOk f (kHeaderSize + Z.of_nat (length (fr_payload f)))) as Hd.
  { unfold wire at 1. rewrite decode_encode by done. by destruct f. }
  assert (length (wire f) = (16 + length (fr_payload f))%nat) as Hlen.
  { unfold wire. by rewrite encode_short by done. }
  rewrite run_buffer_ok; [|by apply Forall_app; split; [apply wire_bytes|apply wires_bytes]|by rewrite Hd].
  rewrite Hd. cbn [fd_frame fd_bytes_consumed handle_all]. unfold kHeaderSize.
  replace (Z.to_nat (16 + Z.of_nat (length (fr_payload f)))) with (length (wire f)) by lia.
  rewrite drop_app_length. destruct (handle_frame p f g) as [g'|]; [|done]. cbn. apply IH.
Qed.

(** Reading in pieces is reading at once, as long as the connection stays open. *)
Lemma feed_run_buffer p cs s s' :
  Forall is_byte (buffer p s ++ concat cs) -> is_Some (gw_objects (sv_gateway s) !! p) ->
  (buffer p s = [] \/ fd_status (decode_frame (buffer p s)) = kNeedMoreData) ->
  feed p cs s = Some s' -> ~ closing p (sv_gateway s') ->
  run_buffer p (buffer p s ++ concat cs) (sv_gateway s) = Some (buffer p s', sv_gateway s').
Proof.
  revert s. induction cs as [|c cs IH]; intros s Hb Hp Hd E Hcl.
  - injection E as <-. cbn. rewrite app_nil_r. unfold run_buffer.
    destruct (length (buffer p s)) as [|n] eqn:Hl; [done|]. rewrite process_buffer_unfold.
    case_bool_decide; [done|]. destruct Hd as [Hd|Hd]; [done|]. by rewrite Hd.
  - cbn [feed concat] in *. apply bind_Some in E as (s1 & Hr & E).
    unfold on_read in Hr. apply bind_Some in Hr as ([r g1] & Hrun & [= <-]).
    rewrite app_assoc in *. pose proof Hb as [Hb1 Hb2]%Forall_app.
    assert (buffer p (mkServer g1 (<[p:=r]> (sv_bufs s)) (sv_alive s)) = r) as Hbuf
      by (unfold buffer; cbn; by rewrite lookup_insert_eq).
    destruct (process_buffer_drained _ _ _ _ _ _ Hb1 Hp (le_n _) Hrun) as (Hbr & Hf & Hdone).
    unfold reads_again in E. cbn [sv_gateway] in E. case_bool_decide as Hc1; cbn [negb] in E.
    + injection E as <-. by destruct Hcl.
    + rewrite (run_buffer_app p _ _ _ r g1 Hb Hp Hrun Hc1).
      rewrite <- Hbuf at 1. apply IH; rewrite ?Hbuf; try done.
      * by apply Forall_app.
      * by apply (fe_exists _ _ _ Hf).
      * destruct Hdone as [?|[?|?]]; [done|auto..].
Qed.

(** C17: frames arrive as they were sent, however the network cuts the stream
    into reads.  Whatever the pieces, a session that is still open after them
    has handled exactly the frames sent, one by one and in order, and keeps an
    empty buffer; and after any read of an open session the buffer has room
    left, so that the next read can make progress. *)
Theorem stream_reassembly p fs cs s s' :
  is_Some (gw_objects (sv_gateway s) !! p) -> buffer p s = [] -> Forall sendable fs ->
  concat cs = concat (wire <$> fs) -> feed p cs s = Some s' -> ~ closing p (sv_gateway s') ->
  handle_all p fs (sv_gateway s) = Some (sv_gateway s') /\ buffer p s' = [] /\
  (forall bytes s'', Forall is_byte bytes -> on_read p bytes s' = Some s'' -> ~ closing p (sv_gateway s'') ->
     Z.of_nat (length (buffer p s'')) < kReadBufSize).
Proof.
  intros Hp Hb Hfs Hcs E Hcl.
  pose proof (feed_run_buffer p cs s s') as Hrun. rewrite Hb, Hcs in Hrun. cbn [app] in Hrun.
  specialize (Hrun (wires_bytes _ Hfs) Hp (or_introl eq_refl) E Hcl).
  rewrite run_buffer_wires in Hrun by done. apply bind_Some in Hrun as (g & Hg & [= Hbuf ->]).
  split_and!; [done|done|]. intros bytes s'' Hbytes Hr Hcl''.
  unfold on_read in Hr. apply bind_Some in Hr as ([r g2] & Hrun & [= <-]).
  rewrite <- Hbuf in Hrun. cbn [app] in Hrun.
  assert (is_Some (gw_objects (sv_gateway s') !! p)) as Hp'.
  { by apply (fe_exists _ _ _ (handle_all_effect _ _ _ _ Hg)). }
  destruct (process_buffer_drained _ _ _ _ _ _ Hbytes Hp' (le_n _) Hrun) as (_ & _ & [?|Hd]); [done|].
  unfold buffer. cbn. rewrite lookup_insert_eq. cbn. unfold kReadBufSize, kHeaderSize.
  destruct Hd as [->|Hd%need_more_length]; [cbn; lia|]. unfold kHeaderSize, kMaxPayloadLen in Hd. lia.
Qed.

(** ** Sessions and the engine's command queue *)

Lemma heartbeat_only p f g :
  is_active (session p g) = false -> fr_msg_type f <> msg_type.kHandshake ->
  exists g', handle_frame p f g = Some g' /\ frame_effect p g g' /\
    gw_queue g' = gw_queue g /\ gw_channel g' = gw_channel g /\ posts_writes p g g' /\
    cs_state (session p g') = cs_state (session p g).
Proof.
  intros Ha Hm. unfold handle_frame. rewrite Ha, (proj2 (Z.eqb_neq _ _) Hm).
  assert (exists g', Some g = Some g' /\ frame_effect p g g' /\ gw_queue g' = gw_queue g /\
    gw_channel g' = gw_channel g /\ posts_writes p g g' /\
    cs_state (session p g') = cs_state (session p g)) as Hg.
  { exists g. split_and!; try done. by apply posts_writes_refl. }
  destruct (_ =? msg_type.kSnapshotRequest); [done|]. destruct (_ =? msg_type.kCommand); [done|].
  destruct (_ =? msg_type.kHeartbeat); [clear Hg|by destruct (_ =? msg_type.kDispatchChannel)].
  unfold handle_heartbeat, now_us.
  destruct (send_frame_spec p msg_type.kHeartbeatAck 0 (build_HeartbeatAck (fr_seq_id f) (clock (gw_reads g)))
    (g <| gw_reads ::= S |>)) as (_ & Hq & Hd & _ & Hp & _ & Hi).
  eexists. split_and!; [done| |done|done| |].
  - eapply frame_effect_trans; [|apply send_frame_effect]. by apply objects_effect.
  - by eexists [_].
  - unfold cs_state. by rewrite Hi.
Qed.

(** Nothing happens before the handshake.  Whatever frames a connection
    sends that is not active, as long as none of them is a handshake, the
    command queue and the dispatch channel stay as they are, the connection
    stays inactive, and all it is sent are answers to itself. *)
Theorem silent_before_handshake p fs g :
  is_active (session p g) = false -> Forall (fun f => fr_msg_type f <> msg_type.kHandshake) fs ->
  exists g', handle_all p fs g = Some g' /\ gw_queue g' = gw_queue g /\ gw_channel g' = gw_channel g /\
    cs_state (session p g') = cs_state (session p g) /\ posts_writes p g g' /\
    gw_sessions g' ⊆ gw_sessions g /\
    (forall q, q <> p -> cs_info (session q g') = cs_info (session q g)).
Proof.
  intros Ha Hfs. revert g Ha. induction Hfs as [|f fs Hf Hfs IH]; intros g Ha.
  { exists g. split_and!; try done. by apply posts_writes_refl. }
  destruct (heartbeat_only p f g Ha Hf) as (g1 & Hh & He & Hq & Hc & Hp & Hs).
  destruct (IH g1) as (g2 & Hall & Hq2 & Hc2 & Hs2 & Hp2 & Hsub & Ho).
  { unfold is_active in *. by rewrite Hs. }
  exists g2. cbn. rewrite Hh. split_and!; try done; try congruence.
  - by eapply posts_writes_trans.
  - etrans; [done|]. by apply fe_sessions in He.
  - intros q Hq'. by rewrite Ho, (fe_others _ _ _ He).
Qed.

(** The commands in the frames of a client, with their frame numbers. *)
Definition commands (fs : list DecodedFrame) : list (Z * Command) :=
  omap (fun f => pair (fr_seq_id f) <$> CommandIngress.parse_payload (fr_payload f)) fs.

(** The answer to a command frame: ACK when its command is queued, NAK when it does not
    parse; an empty frame and a command for a closed queue are not answered. *)
Inductive answers (closed : bool) (f : DecodedFrame) : list (list byte) -> Prop :=
| answers_empty : fr_payload f = [] -> answers closed f []
| answers_nak seq : fr_payload f <> [] -> CommandIngress.parse_payload (fr_payload f) = None ->
    answers closed f [encode_frame msg_type.kCommandNak 0 seq
      (build_CommandNak (fr_seq_id f) NakReason_UNSUPPORTED "Unsupported command type")]
| answers_ack seq : is_Some (CommandIngress.parse_payload (fr_payload f)) -> closed = false ->
    answers closed f [encode_frame msg_type.kCommandAck 0 seq (build_CommandAck (fr_seq_id f))]
| answers_dropped : is_Some (CommandIngress.parse_payload (fr_payload f)) -> closed = true ->
    answers closed f [].

Definition push_all (q : PriorityCommandQueue.t) (es : list EnvelopedCommand) : PriorityCommandQueue.t :=
  PriorityCommandQueue.mk
    (alter (fun b => b ++ es) (Z.to_nat (code CommandPriority.NORMAL)) (PriorityCommandQueue.buckets_ q))
    (PriorityCommandQueue.closed_ q).

Lemma push_all_nil q : push_all q [] = q.
Proof.
  destruct q as [bs c]. unfold push_all. cbn. f_equal. apply list_alter_id. intros b. apply app_nil_r.
Qed.
Lemma push_all_app q l1 l2 : push_all (push_all q l1) l2 = push_all q (l1 ++ l2).
Proof.
  unfold push_all. cbn. f_equal. rewrite list_alter_alter_eq. apply list_alter_ext; [|done].
  intros b _. cbn. by rewrite app_assoc.
Qed.

(** How a command enters the queue. *)
Definition enveloped (player : string) (e : EnvelopedCommand) : Prop :=
  meta_priority (env_meta e) = CommandPriority.NORMAL /\ meta_player_id (env_meta e) = mkPlayerID player.

Lemma handle_command_spec p f g :
  is_active (session p g) = true -> fr_msg_type f = msg_type.kCommand ->
  let closed := PriorityCommandQueue.closed_ (gw_queue g) in
  exists g' es frames, handle_frame p f g = Some g' /\
    gw_queue g' = push_all (gw_queue g) es /\
    (fun e => (meta_seq_id (env_meta e), env_payload e)) <$> es = (if closed then [] else commands [f]) /\
    Forall (enveloped (ci_player_id (cs_info (session p g)))) es /\
    gw_posted g' = gw_posted g ++ (TWrite p <$> frames) /\ answers closed f frames /\
    cs_info (session p g') = cs_info (session p g).
Proof.
  intros Ha Hm closed. unfold handle_frame. rewrite Hm, Ha.
  change (msg_type.kCommand =? msg_type.kHandshake) with false.
  change (msg_type.kCommand =? msg_type.kSnapshotRequest) with false. rewrite Z.eqb_refl. cbn iota.
  unfold handle_command, commands. cbn [omap list_omap]. case_bool_decide as Hne.
  { exists g, [], []. rewrite push_all_nil, app_nil_r, Hne. cbn. split_and!; try done; [by destruct closed|by constructor]. }
  destruct (CommandIngress.parse_payload (fr_payload f)) as [cmd|] eqn:Hp; cbn.
  - unfold now_us, PriorityCommandQueue.push.
    change (gw_queue (g <| gw_reads ::= S |>)) with (gw_queue g). fold closed. destruct closed eqn:Hq.
    { eexists _, [], []. rewrite push_all_nil, app_nil_r. split_and!; try done. apply answers_dropped; [by rewrite Hp|done]. }
    match goal with |- context [send_frame p _ 0 _ ?g1] =>
      destruct (send_frame_spec p msg_type.kCommandAck 0 (build_CommandAck (fr_seq_id f)) g1)
        as (_ & Hq' & _ & _ & Hpo & _ & Hi) end.
    eexists _, [_], [_]. split_and!; [done|rewrite Hq'; unfold push_all; fold closed; by rewrite Hq|done|by repeat constructor|
      by rewrite Hpo|apply answers_ack; [by rewrite Hp|done]|by rewrite Hi].
  - destruct (send_frame_spec p msg_type.kCommandNak 0
      (build_CommandNak (fr_seq_id f) NakReason_UNSUPPORTED "Unsupported command type") g)
      as (_ & Hq' & _ & _ & Hpo & _ & Hi).
    eexists _, [], [_]. rewrite push_all_nil. split_and!; try done; [by destruct closed|by apply answers_nak].
Qed.


(** ** A closed connection, and the shutdown *)

(** A client can stop the server.  When a connection sends a heartbeat
    and then bytes that are no frame, in one piece, the connection is closed
    with the answer to the heartbeat still posted; running it writes to the
    closed socket, and the exception ends the IO thread. *)
Theorem write_after_close_kills_server p seq garbage s c :
  gw_objects (sv_gateway s) !! p = Some c -> gw_locked (sv_gateway s) = false ->
  gw_posted (sv_gateway s) = [] -> buffer p s = [] -> sv_alive s = true ->
  fits 32 seq -> Forall is_byte garbage -> (16 <= length garbage)%nat -> head garbage <> Some kMagicByte0 ->
  exists s', on_read p (encode_frame msg_type.kHeartbeat 0 seq [] ++ garbage) s = Some s' /\
    sv_alive s' = true /\ forall delivered, sv_alive (run_task delivered s') = false.
Proof.
  intros Hp Hl Hpo Hb Hal Hseq Hg Hlen Hmagic. unfold on_read. rewrite Hb. cbn [app].
  assert (sendable (mkDecodedFrame msg_type.kHeartbeat 0 seq [])) as Hsend
    by (split_and!; [by split|by split|done|constructor|by vm_compute]).
  assert (Forall is_byte (encode_frame msg_type.kHeartbeat 0 seq [] ++ garbage)) as Hbytes
    by (apply Forall_app; split; [apply (wire_bytes _ Hsend)|done]).
  assert (decode_frame (encode_frame msg_type.kHeartbeat 0 seq [] ++ garbage) =
    mkFrameDecodeResult kOk (mkDecodedFrame msg_type.kHeartbeat 0 seq []) kHeaderSize) as Hd
    by (by rewrite decode_encode).
  change (process_buffer _ p ?b ?g) with (run_buffer p b g).
  rewrite run_buffer_ok by (done || by rewrite Hd). rewrite Hd. cbn [fd_frame fd_bytes_consumed].
  assert (length (encode_frame msg_type.kHeartbeat 0 seq []) = 16%nat) as He16
    by (by rewrite encode_short).
  replace (Z.to_nat kHeaderSize) with (length (encode_frame msg_type.kHeartbeat 0 seq [])) by done.
  rewrite drop_app_length.
  change (handle_frame p (mkDecodedFrame msg_type.kHeartbeat 0 seq []) (sv_gateway s))
    with (Some (handle_heartbeat p (mkDecodedFrame msg_type.kHeartbeat 0 seq []) (sv_gateway s))).
  cbn [mbind option_bind]. set (g1 := handle_heartbeat _ _ _).
  assert (gw_locked g1 = false /\ is_Some (gw_objects g1 !! p) /\
    exists data, gw_posted g1 = [TWrite p data]) as (Hl1 & Hp1 & data & Hpo1).
  { unfold g1, handle_heartbeat, now_us.
    match goal with |- context [send_frame p ?mt ?fl ?pl ?g] =>
      destruct (send_frame_spec p mt fl pl g) as ((_ & HL & _) & _ & _ & _ & HP & HE & _) end.
    split_and!; [by rewrite HL|apply HE; by eexists|]. rewrite HP. cbn. rewrite Hpo. by eexists. }
  unfold run_buffer. destruct (length garbage) as [|n] eqn:Hlg; [lia|].
  rewrite process_buffer_unfold, bool_decide_false by (by intros ->).
  rewrite bad_magic by (done || lia). unfold close, unregister_session. cbn [gw_locked on_session].
  change (gw_locked (on_session p shut g1)) with (gw_locked g1). rewrite Hl1. cbn [mbind option_bind].
  eexists. split; [done|]. split; [done|]. intros delivered. unfold run_task. cbn [sv_gateway].
  change (gw_posted (on_session p shut g1 <| gw_sessions ::= _ |>)) with (gw_posted g1). rewrite Hpo1.
  match goal with |- context [cs_open (session p ?g)] =>
    rewrite (session_objects g (on_session p shut g1)) by done end.
  by rewrite session_on_session.
Qed.

Lemma close_all_locked ps g : gw_locked g = true -> ps <> [] -> close_all ps g = None.
Proof.
  intros Hl. destruct ps as [|p ps]; [done|]. intros _. cbn. unfold close, unregister_session.
  change (gw_locked (on_session p shut g)) with (gw_locked g). by rewrite Hl.
Qed.

(** C40: stopping a running gateway deadlocks exactly when a client is
    connected: [stop] holds the session mutex while it closes the sessions, and
    closing a session locks it again.  Without clients it stops. *)
Theorem stop_deadlocks g :
  gw_running g = true -> gw_locked g = false ->
  (stop g = None <-> gw_sessions g <> ∅) /\
  (gw_sessions g = ∅ -> stop g = Some (g <| gw_running := false |>)).
Proof.
  intros Hr Hl. unfold stop. rewrite Hr. cbn [negb].
  change (gw_locked (g <| gw_running := false |>)) with (gw_locked g). rewrite Hl.
  change (gw_sessions (g <| gw_running := false |>)) with (gw_sessions g).
  destruct (decide (gw_sessions g = ∅)) as [He|Hne].
  - rewrite He, elements_empty. cbn. split; [by split|]. intros _. destruct g. cbn in *. by subst.
  - rewrite close_all_locked; [by split|done|].
    intros Hel. apply Hne. apply leibniz_equiv. by apply elements_empty_iff.
Qed.
(** ** Every behaviour of the server, and the dispatch channel *)

(** The steps of the IO thread and of the threads that use the gateway: a
    connection, bytes or an error from a client, the next posted handler, a
    broadcast, the snapshot the engine publishes, its work on the queue. *)
Inductive server_step : Server -> Server -> Prop :=
  | step_accept p s g : gw_objects (sv_gateway s) !! p = None -> accept p (sv_gateway s) = Some g ->
      server_step s (mkServer g (sv_bufs s) (sv_alive s))
  | step_read p bytes s s' : on_read p bytes s = Some s' -> server_step s s'
  | step_read_error p s s' : on_read_error p s = Some s' -> server_step s s'
  | step_task delivered s : gw_posted (sv_gateway s) <> [] -> server_step s (run_task delivered s)
  | step_broadcast data s : server_step s (mkServer (broadcast data (sv_gateway s)) (sv_bufs s) (sv_alive s))
  | step_publish snap s :
      server_step s (mkServer (sv_gateway s <| gw_snapshot := snap |>) (sv_bufs s) (sv_alive s))
  | step_queue q s : server_step s (mkServer (sv_gateway s <| gw_queue := q |>) (sv_bufs s) (sv_alive s))
  | step_start s : server_step s (mkServer (start (sv_gateway s)) (sv_bufs s) (sv_alive s))
  | step_stop s g : stop (sv_gateway s) = Some g -> server_step s (mkServer g (sv_bufs s) (sv_alive s)).

Definition no_pair (t : Task) : bool := match t with TBroadcastPair _ _ _ => false | _ => true end.

(** No session has an area, the channel was not touched, and no telegram is on
    its way to a pair of areas. *)
Record quiet (d : D) (g : Gateway) : Prop := {
  q_channel : gw_channel g = d;
  q_areas : forall q, ci_dispatch_area_id (cs_info (session q g)) = ""%string;
  q_posted : Forall no_pair (gw_posted g) }.

(** A change that keeps the channel and posts no telegram. *)
Definition posts_quietly (g g' : Gateway) : Prop :=
  gw_channel g' = gw_channel g /\ exists ts, gw_posted g' = gw_posted g ++ ts /\ Forall no_pair ts.

Lemma posts_quietly_none g g' :
  gw_channel g' = gw_channel g -> gw_posted g' = gw_posted g -> posts_quietly g g'.
Proof. intros Hc Hp. split; [done|]. exists []. by rewrite Hp, app_nil_r. Qed.

Lemma posts_quietly_writes p g g' :
  gw_channel g' = gw_channel g -> posts_writes p g g' -> posts_quietly g g'.
Proof.
  intros Hc [frames Hp]. split; [done|]. exists (TWrite p <$> frames). split; [done|].
  apply Forall_fmap. by apply Forall_true.
Qed.

Lemma posts_quietly_trans g1 g2 g3 : posts_quietly g1 g2 -> posts_quietly g2 g3 -> posts_quietly g1 g3.
Proof.
  intros [C1 (t1 & E1 & F1)] [C2 (t2 & E2 & F2)]. split; [congruence|]. exists (t1 ++ t2).
  split; [by rewrite E2, E1, app_assoc|]. by apply Forall_app.
Qed.

Lemma posts_quietly_send p mt fl payload g : posts_quietly g (send_frame p mt fl payload g).
Proof.
  destruct (send_frame_spec p mt fl payload g) as (_ & _ & Hc & _ & Hp & _).
  apply (posts_quietly_writes p); [done|]. by eexists [_].
Qed.

Lemma quiet_step p d g g' : quiet d g -> posts_quietly g g' -> frame_effect p g g' -> quiet d g'.
Proof.
  intros [Hc Ha Hp] [Hc' (ts & Hp' & Hts)] Hf. split; [congruence| |].
  - intros q. by rewrite (fe_areas _ _ _ Hf).
  - rewrite Hp'. by apply Forall_app.
Qed.

Lemma close_quiet p d g g' : quiet d g -> close p g = Some g' -> quiet d g'.
Proof.
  intros Hq (Hf & _ & Hc & Hp & _)%close_effect.
  eapply quiet_step; [done|by apply posts_quietly_none|done].
Qed.

(** A handler that drops what a sender without an area sends. *)
Definition drops_unknown (d : D) : Prop :=
  forall h payload player, handler = Some h -> h payload player ""%string d = (d, []).

Lemma handle_frame_quiet p d frame g g' :
  drops_unknown d -> quiet d g -> handle_frame p frame g = Some g' -> quiet d g'.
Proof.
  intros Hd Hq Hh. pose proof (handle_frame_effect _ _ _ _ Hh) as Hf.
  eapply quiet_step; [done| |exact Hf]. destruct Hq as [Hqc Hqa Hqp].
  assert (forall g1, close p g = Some g1 -> posts_quietly g g1) as Hclose.
  { intros g1 (_ & _ & Hc & Hp & _)%close_effect. by apply posts_quietly_none. }
  unfold handle_frame, handle_handshake, handle_snapshot_request, handle_command, handle_heartbeat,
    now_us in Hh.
  repeat (case_match; simplify_eq); try (by apply Hclose); try (by apply posts_quietly_none).
  all: try (eapply posts_quietly_trans; [|by apply posts_quietly_send]; by apply posts_quietly_none).
  - match goal with |- posts_quietly _ (send_chunks _ ?cs _) =>
      destruct (send_chunks_spec p cs g) as (_ & _ & Hc & Hp & _) end.
    by apply (posts_quietly_writes p).
  - unfold handle_dispatch_channel. destruct handler as [h|] eqn:Eh; [|by apply posts_quietly_none].
    rewrite Hqa, (Hd h) by done. apply posts_quietly_none; [done|]. cbn. by rewrite app_nil_r.
Qed.

Lemma process_buffer_quiet n p d buf g r g' :
  drops_unknown d -> quiet d g -> process_buffer n p buf g = Some (r, g') -> quiet d g'.
Proof.
  intros Hd. revert buf g. induction n as [|n IH]; intros buf g Hq E; [by injection E as <- <-|].
  rewrite process_buffer_unfold in E. case_bool_decide; [by injection E as <- <-|].
  destruct (fd_status (decode_frame buf)); [|by injection E as <- <-|..].
  - apply bind_Some in E as (g1 & Hh & E). eapply IH; [|done]. by eapply handle_frame_quiet.
  - apply bind_Some in E as (g1 & Hc & [= <- <-]). by eapply close_quiet.
  - apply bind_Some in E as (g1 & Hc & [= <- <-]). by eapply close_quiet.
  - apply bind_Some in E as (g1 & Hc & [= <- <-]). by eapply close_quiet.
Qed.

Lemma send_to_quiet test data d g : quiet d g -> quiet d (send_to test data g).
Proof.
  unfold send_to. generalize (elements (gw_sessions g)) as ps. intros ps. revert g.
  induction ps as [|p ps IH]; intros g Hq; [done|]. cbn. apply IH.
  destruct (test (session p g)); [|done]. destruct Hq as [Hc Ha Hp]. split; [done|done|].
  cbn. apply Forall_app. by repeat constructor.
Qed.

Lemma close_all_quiet ps d g g' : quiet d g -> close_all ps g = Some g' -> quiet d g'.
Proof.
  revert g. induction ps as [|p ps IH]; intros g Hq E; [by injection E as <-|].
  cbn in E. apply bind_Some in E as (g1 & Hc & E). eapply IH; [|done]. by eapply close_quiet.
Qed.

(** Fields the invariant does not read. *)
Lemma quiet_ext d g g' :
  gw_channel g' = gw_channel g -> gw_objects g' = gw_objects g -> gw_posted g' = gw_posted g ->
  quiet d g -> quiet d g'.
Proof.
  intros Hc Ho Hp [Qc Qa Qp]. split; [congruence| |congruence].
  intros q. by rewrite (session_objects g' g).
Qed.

Lemma run_task_quiet d delivered s : quiet d (sv_gateway s) -> quiet d (sv_gateway (run_task delivered s)).
Proof.
  intros Hq. unfold run_task. destruct (gw_posted (sv_gateway s)) as [|t ts] eqn:Ep; [done|].
  assert (quiet d (sv_gateway s <| gw_posted := ts |>)) as Hq'.
  { destruct Hq as [Hc Ha Hp]. split; [done|done|]. rewrite Ep in Hp. by inversion Hp. }
  destruct t; [destruct (cs_open _ && delivered)| |]; cbn [sv_gateway]; try (by apply send_to_quiet); try done.
  destruct Hq' as [Hc Ha Hp]. split; [done| |done]. intros q. rewrite session_alter.
  specialize (Ha q). unfold session in *. case_decide; [|done]. case_match; [|done]. exact Ha.
Qed.

Lemma server_step_quiet d s s' :
  drops_unknown d -> quiet d (sv_gateway s) -> server_step s s' -> quiet d (sv_gateway s').
Proof.
  intros Hd Hq Hs. destruct Hs as [p s g Hp Ha|p bytes s s' Hr|p s s' Hr|dl s Ht|data s|snap s|q s|s|s g Hst]; cbn [sv_gateway].
  - unfold accept, register_session in Ha. case_match; [done|]. injection Ha as <-.
    destruct Hq as [Hc Ha Hpo]. split; [done| |done]. intros q. specialize (Ha q).
    unfold session in *. cbn. destruct (decide (p = q)) as [->|]; [by rewrite lookup_insert_eq|].
    by rewrite lookup_insert_ne.
  - unfold on_read in Hr. apply bind_Some in Hr as ([buf g] & Hb & [= <-]). by eapply process_buffer_quiet.
  - unfold on_read_error, unregister_session in Hr. apply bind_Some in Hr as (g & Hg & [= <-]).
    case_match; [done|]. injection Hg as <-. by apply (quiet_ext d (sv_gateway s)).
  - by apply run_task_quiet.
  - destruct Hq as [Hc Ha Hpo]. split; [done|done|]. cbn. apply Forall_app. by repeat constructor.
  - by apply (quiet_ext d (sv_gateway s)).
  - by apply (quiet_ext d (sv_gateway s)).
  - unfold start. case_match; [done|]. by apply (quiet_ext d (sv_gateway s)).
  - unfold stop in Hst. repeat case_match; simplify_eq; try done.
    apply bind_Some in Hst as (g1 & Hc & [= <-]). apply (quiet_ext d g1); [done..|].
    eapply close_all_quiet, Hc. by apply (quiet_ext d (sv_gateway s)).
Qed.

(* SRC server/src/transport_gateway.cpp 259-264 TransportGateway::TransportGateway *)
Definition Gateway_create (q : PriorityCommandQueue.t) (snap : AtomicSnapshot.t) (d : D) : Gateway :=
  mkGateway ∅ ∅ false q snap [] d false 0.
Definition Server_create (q : PriorityCommandQueue.t) (snap : AtomicSnapshot.t) (d : D) : Server :=
  mkServer (Gateway_create q snap d) ∅ true.

Lemma Server_create_quiet q snap d : quiet d (sv_gateway (Server_create q snap d)).
Proof. by repeat constructor. Qed.

Lemma server_steps_quiet d s s' :
  drops_unknown d -> quiet d (sv_gateway s) -> rtc server_step s s' -> quiet d (sv_gateway s').
Proof. intros Hd Hq Hs. induction Hs; [done|]. eauto using server_step_quiet. Qed.
End Gateway.

(** ** The gateway and the dispatch channel together *)

(** The handler [SessionServer] sets: [DispatchChannel::on_inbound] on the
    channel's objects, at the time [ts] its clock shows. *)
(* SRC server/src/session_server.cpp 199-202 SessionServer::start *)
Definition channel_handler {DB} `{IDbWriter DB} (session_id : string)
    (parse : list byte -> option DispatchChannelMessage) (build : DispatchChannelMessage -> list byte)
    (ts : Z) (payload : list byte) (client_id area_id : string) (b : Backend DB) :
    Backend DB * list PairBroadcast :=
  let '(ch, _) := on_inbound session_id parse build payload client_id area_id ts (mkChannel b []) in
  (ch_backend ch, ch_posted ch).

(** A sender without an area is refused before anything is written. *)
Lemma channel_handler_unknown {DB} `{IDbWriter DB} session_id parse build ts payload client (b : Backend DB) :
  channel_handler session_id parse build ts payload client "" b = (b, []).
Proof.
  unfold channel_handler, on_inbound. destruct (parse payload) as [msg|]; [|done].
  destruct ((dm_src_area_uid msg =? 0) || (dm_dst_area_uid msg =? 0)); [done|].
  by rewrite bool_decide_false by apply to_string_not_empty.
Qed.

(** A handler that reads the clock at every call. *)
Definition acts_as_channel {DB} `{IDbWriter DB} session_id parse build
    (h : list byte -> string -> string -> Backend DB -> Backend DB * list PairBroadcast) : Prop :=
  forall payload client area b, exists ts,
    h payload client area b = channel_handler session_id parse build ts payload client area b.

(** The dispatch channel of the server does nothing.  No client ever
    gets a dispatch area, so whatever the clients send and however the threads
    interleave, from the start of the server on the exchanges and the database
    of the channel stay as they are, and no telegram is posted to an area. *)
Theorem dispatch_channel_dead {DB} `{IDbWriter DB} {MO : MapOrder} {W : SessionWire} {R : CommandReader}
    session_id parse build h clock q snap (b : Backend DB) s :
  acts_as_channel session_id parse build h ->
  rtc (server_step (Some h) clock) (Server_create q snap b) s ->
  gw_channel (sv_gateway s) = b /\ Forall no_pair (gw_posted (sv_gateway s)) /\
  (forall p, ci_dispatch_area_id (cs_info (session p (sv_gateway s))) = ""%string).
Proof.
  intros Hh Hs. destruct (server_steps_quiet (Some h) clock b (Server_create q snap b) s) as [Hc Ha Hp].
  - intros h' payload player [= <-]. destruct (Hh payload player ""%string b) as [ts ->].
    apply channel_handler_unknown.
  - apply Server_create_quiet.
  - done.
  - done.
Qed.

(** ** Concrete sessions *)

Module SessionDemo.
(** A handshake names its player in no byte: any payload is alice's. *)
#[global] Instance wire_format : SessionWire := {|
  read_Handshake _ := Some (Some "alice"%string, Some "token"%string);
  build_HandshakeAck _ hz _ := [hz];
  build_CommandAck seq := [u8 seq];
  build_CommandNak seq reason _ := [u8 seq; reason];
  build_HeartbeatAck seq _ := [u8 seq];
  build_Snapshot _ := [] |}.
#[global] Instance reader : CommandReader := bytes_reader.
#[global] Instance order : MapOrder := canonical_order.

Definition frame (mt seq : Z) (payload : list byte) : DecodedFrame := mkDecodedFrame mt 0 seq payload.
Definition hello : DecodedFrame := frame msg_type.kHandshake 1 [0].
Definition beat : DecodedFrame := frame msg_type.kHeartbeat 2 [].
Definition request : DecodedFrame := frame msg_type.kCommand 3 [0x05; 17; 18; 0; 0].
Definition nonsense : DecodedFrame := frame msg_type.kCommand 4 [0xFF].

Definition clock (n : nat) : Z := 1000 * Z.of_nat n.
Definition fresh : Server (D := unit) := Server_create PriorityCommandQueue.create AtomicSnapshot.create tt.
(** A server with one connection, and the same after its handshake. *)
Definition connected : Server :=
  mkServer (default (sv_gateway fresh) (accept 1 (sv_gateway fresh))) ∅ true.
Definition active : Gateway :=
  default (sv_gateway connected) (handle_all None clock 1 [hello] (sv_gateway connected)).

(** Four frames, cut after ten bytes and in the middle of the command. *)
Definition frames : list DecodedFrame := [hello; beat; request; nonsense].
Definition stream : list byte := concat (wire <$> frames).
Definition pieces : list (list byte) := [take 10 stream; take 30 (drop 10 stream); drop 40 stream].
Definition after : Server := default connected (feed None clock 1 pieces connected).
End SessionDemo.

Lemma stream_reassembly_witness :
  handle_all None SessionDemo.clock 1 SessionDemo.frames (sv_gateway SessionDemo.connected)
    = Some (sv_gateway SessionDemo.after) /\ buffer 1 SessionDemo.after = [].
Proof.
  destruct (stream_reassembly None SessionDemo.clock 1 SessionDemo.frames SessionDemo.pieces
    SessionDemo.connected SessionDemo.after) as (H1 & H2 & _).
  - by eexists.
  - by vm_compute.
  - repeat (constructor; [split_and!; [by split|by split|by split|by repeat constructor|by vm_compute]|]).
    constructor.
  - by vm_compute.
  - by vm_compute.
  - by vm_compute.
  - by split.
Defined.

Lemma silent_before_handshake_witness :
  exists g', handle_all None SessionDemo.clock 1 [SessionDemo.request; SessionDemo.beat]
    (sv_gateway SessionDemo.connected) = Some g' /\
  gw_queue g' = PriorityCommandQueue.create.
Proof.
  destruct (silent_before_handshake None SessionDemo.clock 1 [SessionDemo.request; SessionDemo.beat]
    (sv_gateway SessionDemo.connected)) as (g' & H1 & H2 & _).
  - by vm_compute.
  - by repeat constructor.
  - exists g'. split; [exact H1|]. by rewrite H2.
Defined.


Lemma write_after_close_kills_server_witness :
  exists s', on_read None SessionDemo.clock 1
    (encode_frame msg_type.kHeartbeat 0 7 [] ++ replicate 16 0) SessionDemo.connected = Some s' /\
  sv_alive s' = true /\ sv_alive (run_task true s') = false.
Proof.
  destruct (write_after_close_kills_server None SessionDemo.clock 1 7 (replicate 16 0) SessionDemo.connected
    ClientSession_create) as (s' & H1 & H2 & H3);
    [by vm_compute|by vm_compute|by vm_compute|by vm_compute|by vm_compute|by split|by repeat constructor|by vm_compute|
     by vm_compute|].
  exists s'. split_and!; [exact H1|exact H2|apply H3].
Defined.

Lemma stop_deadlocks_witness :
  stop (start (sv_gateway SessionDemo.connected)) = None /\
  stop (start (sv_gateway SessionDemo.fresh)) <> None.
Proof.
  split.
  - apply stop_deadlocks; [by vm_compute|by vm_compute|]. by vm_compute.
  - intros H. apply stop_deadlocks in H; [|by vm_compute|by vm_compute]. by apply H.
Defined.

Lemma dispatch_channel_dead_witness :
  let h := channel_handler "session" DispatchDemo.read DispatchDemo.print 5 in
  let s0 := Server_create PriorityCommandQueue.create AtomicSnapshot.create (ch_backend DispatchDemo.idle) in
  let s := mkServer (start (sv_gateway s0)) (sv_bufs s0) (sv_alive s0) in
  gw_channel (sv_gateway s) = ch_backend DispatchDemo.idle.
Proof.
  intros h s0 s.
  refine (proj1 (dispatch_channel_dead "session" DispatchDemo.read DispatchDemo.print h SessionDemo.clock
    PriorityCommandQueue.create AtomicSnapshot.create (ch_backend DispatchDemo.idle) s _ _)).
  - intros payload client area b. by exists 5.
  - eapply rtc_l; [apply step_start|apply rtc_refl].
Defined.
