(* ===== verification/Bus.v ===== *)
(** * Bus: state changes on their way to the clients

    [server/src/dispatch_bus.cpp], [server/src/pip_writer.cpp] and the engine
    callbacks of [server/src/session_server.cpp]: the domain events, their
    frames and their rows in the database.

    The FlatBuffers builder of [proto/events.fbs] is a parameter, as is the
    JSON text of a slot list.  Theorems: what is broadcast and what is recorded
    for a list of changes, which state the clients can reconstruct from it, and
    which they cannot. *)
From S2P Require Import Prelude Float32 Types Commands Track World Demo Changes Queues RouteGraph DeviceRules Interlocking Routes Fleet Loop Frame Schema DbWriter.
Local Open Scope Z_scope.

(** ** Domain events *)

Module event_type.
(* SRC server/src/dispatch_bus.cpp 17-33 event_type *)
Definition kSwitchPositionChanged : byte := 0x01.
(* SRC server/src/dispatch_bus.cpp 21-21 kSignalAspectChanged *)
Definition kSignalAspectChanged : byte := 0x03.
(* SRC server/src/dispatch_bus.cpp 22-22 kTrackSectionOccupancyChanged *)
Definition kTrackSectionOccupancyChanged : byte := 0x04.
(* SRC server/src/dispatch_bus.cpp 23-23 kDerailerPositionChanged *)
Definition kDerailerPositionChanged : byte := 0x05.
(* SRC server/src/dispatch_bus.cpp 24-24 kBlockSectionStateChanged *)
Definition kBlockSectionStateChanged : byte := 0x06.
(* SRC server/src/dispatch_bus.cpp 25-25 kRouteSet *)
Definition kRouteSet : byte := 0x07.
(* SRC server/src/dispatch_bus.cpp 26-26 kRouteReleased *)
Definition kRouteReleased : byte := 0x08.
(* SRC server/src/dispatch_bus.cpp 28-28 kAlarmRaised *)
Definition kAlarmRaised : byte := 0x0A.
(* SRC server/src/dispatch_bus.cpp 29-29 kAlarmCleared *)
Definition kAlarmCleared : byte := 0x0B.
(* SRC server/src/dispatch_bus.cpp 30-30 kBlockDirectionStateChanged *)
Definition kBlockDirectionStateChanged : byte := 0x10.
(* SRC server/src/dispatch_bus.cpp 31-31 kOperatorCommandStateChanged *)
Definition kOperatorCommandStateChanged : byte := 0x11.
(* SRC server/src/dispatch_bus.cpp 32-32 kMl8CommandStateChanged *)
Definition kMl8CommandStateChanged : byte := 0x12.
End event_type.

(** The tables of [proto/events.fbs]; an enumeration travels as its number. *)
Inductive EventBody : Type :=
| SignalAspectChanged (uid new_aspect cause : Z)
| SwitchPositionChanged (uid new_position cause : Z)
| DerailerPositionChanged (uid new_position cause : Z)
| TrackSectionOccupancyChanged (uid : Z) (occupied : bool) (axle_count train_uid : Z)
| BlockSectionStateChanged (uid new_state : Z)
| BlockDirectionStateChanged (uid new_direction cause : Z)
| OperatorCommandStateChanged (uid target_kind command_code : Z) (active : bool)
| Ml8CommandStateChanged (uid target_kind command_code : Z) (active : bool)
| RouteSet (uid from_signal_uid to_signal_uid : Z) (section_uids : list Z)
| RouteReleased (route_uid reason : Z)
| AlarmRaised (alarm_uid alarm_type object_uid : Z) (message : string)
| AlarmCleared (alarm_uid : Z).

(* SRC server/src/dispatch_bus.cpp 58-62 to_proto_derailer *)
Definition to_proto_derailer (s : DerailerState.t) : Z :=
  if bool_decide (s = DerailerState.LOCKED) then 0 else 1.
(* SRC server/src/dispatch_bus.cpp 64-68 to_proto_block_section *)
Definition to_proto_block_section (s : BlockSectionState.t) : Z :=
  if bool_decide (s = BlockSectionState.CLOSED) then 1 else 0.
(* SRC server/src/dispatch_bus.cpp 70-73 to_proto_direction *)
Definition to_proto_direction (s : BlockDirectionState.t) : Z := code s.
(* SRC server/src/dispatch_bus.cpp 75-78 to_proto_cause *)
Definition to_proto_cause (c : ChangeCause.t) : Z := code c.
(* SRC server/src/dispatch_bus.cpp 80-89 to_proto_release_reason *)
Definition to_proto_release_reason (reason : string) : Z :=
  if bool_decide (reason = "OPERATOR_CANCEL"%string) then 1
  else if bool_decide (reason = "TIMEOUT"%string) then 2
  else if bool_decide (reason = "CONFLICT"%string) then 3 else 0.
(* SRC server/src/dispatch_bus.cpp 234-244 DispatchBus::make_event_frame *)
Definition alarm_type (kind : string) : Z :=
  if bool_decide (kind = "SWITCH_FAILURE"%string) then 1
  else if bool_decide (kind = "SIGNAL_FAILURE"%string) then 2
  else if bool_decide (kind = "DERAILER_CONFLICT"%string) then 3
  else if bool_decide (kind = "COMMS_FAILURE"%string) then 4
  else if bool_decide (kind = "ENGINE_FAULT"%string) then 5 else 0.

(** [proto::SwitchPosition_STRAIGHT], [proto::ChangeCause_AUTO] and
    [proto::ChangeCause_COMMAND]. *)
Definition SwitchPosition_STRAIGHT : Z := 0.
Definition ChangeCause_COMMAND : Z := 0.
Definition ChangeCause_AUTO : Z := 1.

(** The type byte and the table of a change, for the kinds that have one. *)
(* SRC server/src/dispatch_bus.cpp 120-268 DispatchBus::make_event_frame *)
Definition event_of (change : DeviceStateChange) : option (byte * EventBody) :=
  match change with
  | DSignalAspect ev => Some (event_type.kSignalAspectChanged,
      SignalAspectChanged (value (sac_uid ev)) (i8 (code (sac_new_aspect ev))) (to_proto_cause (sac_cause ev)))
  | DSwitchPosition ev => Some (event_type.kSwitchPositionChanged,
      SwitchPositionChanged (value (spc_uid ev)) (code (spc_new_position ev)) (to_proto_cause (spc_cause ev)))
  | DSwitchLocked ev => Some (event_type.kSwitchPositionChanged,
      SwitchPositionChanged (value (sl_switch_uid ev)) SwitchPosition_STRAIGHT ChangeCause_AUTO)
  | DSwitchUnlocked ev => Some (event_type.kSwitchPositionChanged,
      SwitchPositionChanged (value (su_switch_uid ev)) SwitchPosition_STRAIGHT ChangeCause_AUTO)
  | DDerailerState ev => Some (event_type.kDerailerPositionChanged,
      DerailerPositionChanged (value (dsc_uid ev)) (to_proto_derailer (dsc_new_state ev))
        (to_proto_cause (dsc_cause ev)))
  | DTrackSectionOccupancy ev => Some (event_type.kTrackSectionOccupancyChanged,
      TrackSectionOccupancyChanged (value (tsoc_uid ev)) (bool_decide (tsoc_occupancy ev = TrackOccupancy.OCCUPIED))
        (tsoc_axle_count ev) (value (tsoc_train_uid ev)))
  | DBlockSectionState ev => Some (event_type.kBlockSectionStateChanged,
      BlockSectionStateChanged (value (bssc_uid ev)) (to_proto_block_section (bssc_new_state ev)))
  | DBlockDirection ev => Some (event_type.kBlockDirectionStateChanged,
      BlockDirectionStateChanged (value (bdc_uid ev)) (to_proto_direction (bdc_new_direction ev)) ChangeCause_COMMAND)
  | DOperatorCommandState ev => Some (event_type.kOperatorCommandStateChanged,
      OperatorCommandStateChanged (value (ocsc_uid ev)) (i8 (code (ocsc_target_kind ev))) (i8 (code (ocsc_code ev)))
        (ocsc_active ev))
  | DMl8CommandState ev => Some (event_type.kMl8CommandStateChanged,
      Ml8CommandStateChanged (value (mcsc_uid ev)) (i8 (code (mcsc_target_kind ev))) (i8 (code (mcsc_code ev)))
        (mcsc_active ev))
  | DRouteAdded r => Some (event_type.kRouteSet,
      RouteSet (value (rt_uid r)) (value (rt_from_signal_uid r)) (value (rt_to_signal_uid r))
        (value <$> rt_section_uids r))
  | DRouteRemoved ev => Some (event_type.kRouteReleased,
      RouteReleased (value (rrm_route_uid ev)) (to_proto_release_reason (rrm_reason ev)))
  | DAlarmRaised a => Some (event_type.kAlarmRaised,
      AlarmRaised (value (al_uid a)) (alarm_type (al_kind a)) (value (al_object_uid a)) (al_message a))
  | DAlarmCleared u => Some (event_type.kAlarmCleared, AlarmCleared (value u))
  | DAxleCounterReset _ | DRouteOverlapTimerStarted _ | DEmergencyRouteReleaseExecuted _
  | DLevelCrossingState _ | DSwitchControlState _ => None
  end.

(* SRC server/src/dispatch_bus.cpp 309-334 DispatchBus::object_uid_from_change *)
Definition object_uid_from_change (change : DeviceStateChange) : option Z :=
  match change with
  | DSignalAspect ev => Some (value (sac_uid ev))
  | DSwitchPosition ev => Some (value (spc_uid ev))
  | DDerailerState ev => Some (value (dsc_uid ev))
  | DBlockSectionState ev => Some (value (bssc_uid ev))
  | DTrackSectionOccupancy ev => Some (value (tsoc_uid ev))
  | DBlockDirection ev => Some (value (bdc_uid ev))
  | DAxleCounterReset ev => Some (value (acrc_uid ev))
  | DOperatorCommandState ev => Some (value (ocsc_uid ev))
  | DMl8CommandState ev => Some (value (mcsc_uid ev))
  | DSwitchLocked ev => Some (value (sl_switch_uid ev))
  | DSwitchUnlocked ev => Some (value (su_switch_uid ev))
  | DSwitchControlState ev => Some (value (scsc_switch_uid ev))
  | DRouteAdded r => Some (value (rt_uid r))
  | DRouteRemoved ev => Some (value (rrm_route_uid ev))
  | DAlarmRaised a => Some (value (al_object_uid a))
  | DAlarmCleared u => Some (value u)
  | DRouteOverlapTimerStarted _ | DEmergencyRouteReleaseExecuted _ | DLevelCrossingState _ => None
  end.

(** ** The bus *)

(** [write_u64_le]; [le32] of the frames is [write_u32_le]. *)
(* SRC server/src/dispatch_bus.cpp 52-56 write_u64_le *)
Definition le64 (x : Z) : list byte := (fun i => u8 (Z.land (Z.shiftr x (8 * i)) 0xFF)) <$> [0; 1; 2; 3; 4; 5; 6; 7].

(** The two atomic counters of [DispatchBus]. *)
(* SRC server/include/server/dispatch_bus.hpp 65-66 DispatchBus *)
Record DispatchBus := mkDispatchBus { next_event_id_ : Z; tx_seq_ : Z }.
Definition DispatchBus_create : DispatchBus := mkDispatchBus 1 0.

(* SRC server/src/dispatch_bus.cpp 104-113 DispatchBus::build_event_prefix *)
Definition build_event_prefix (event_type : byte) (event_id timestamp_us : Z) : list byte :=
  [event_type] ++ le32 event_id ++ le64 timestamp_us.

(** The text of a JSON array of slots, [nlohmann::json::dump]. *)
Class SlotJson := { dump_slots : list (string * bool * bool * string) -> string }.

Section Bus.
Context {DB : Type} `{IDbWriter DB} `{SlotJson}.
Variable session_id : string.
Variable build_Event : EventBody -> list byte.
Variable build_CommandNak : Z -> Z -> string -> list byte.

(** An event identifier is taken for every change, a sequence number for every frame. *)
(* SRC server/src/dispatch_bus.cpp 115-279 DispatchBus::make_event_frame *)
Definition make_event_frame (change : DeviceStateChange) (timestamp_us : Z) (bus : DispatchBus) :
    DispatchBus * option (list byte) :=
  let eid := next_event_id_ bus in
  let bus := mkDispatchBus (u32 (eid + 1)) (tx_seq_ bus) in
  match event_of change with
  | None => (bus, None)
  | Some (et, body) =>
      let payload := build_event_prefix et eid timestamp_us ++ build_Event body in
      let seq := tx_seq_ bus in
      (mkDispatchBus (next_event_id_ bus) (u32 (seq + 1)),
       Some (encode_frame msg_type.kDomainEvent 0 seq payload))
  end.

(** The row read back from the bytes of a frame. *)
(* SRC server/src/dispatch_bus.cpp 292-303 DispatchBus::on_state_changes *)
Definition event_row (change : DeviceStateChange) (frame : list byte) : DomainEventRow :=
  let at_ k := byte_at frame k in
  mkDomainEventRow (at_ 16%nat)
    (Z.lor (Z.lor (Z.lor (at_ 17%nat) (Z.shiftl (at_ 18%nat) 8)) (Z.shiftl (at_ 19%nat) 16)) (Z.shiftl (at_ 20%nat) 24))
    (fold_left (fun ts i => Z.lor ts (Z.shiftl (at_ (21 + i)%nat) (8 * Z.of_nat i))) (seq 0 8) 0)
    (object_uid_from_change change) (drop 29 frame).

(** What the bus acts on: its counters, the frames handed to the gateway, the database. *)
Record Outlet := mkOutlet { ot_bus : DispatchBus; ot_frames : list (list byte); ot_db : DB }.

(** The visit of one change; [ts] is the time read once for the whole list. *)
(* SRC server/src/dispatch_bus.cpp 284-305 DispatchBus::on_state_changes *)
Definition emit (ts : Z) (o : Outlet) (change : DeviceStateChange) : Outlet :=
  match make_event_frame change ts (ot_bus o) with
  | (bus, None) => mkOutlet bus (ot_frames o) (ot_db o)
  | (bus, Some frame) =>
      mkOutlet bus (ot_frames o ++ [frame])
        (if 29 <? Z.of_nat (length frame)
         then write_domain_event session_id (event_row change frame) (ot_db o) else ot_db o)
  end.
(* SRC server/src/dispatch_bus.cpp 281-307 DispatchBus::on_state_changes *)
Definition on_state_changes (changes : list DeviceStateChange) (ts : Z) (o : Outlet) : Outlet :=
  fold_left (emit ts) changes o.

(** ** Passenger information *)

(* SRC server/src/pip_writer.cpp 23-45 PipWriter::on_pip_events *)
Definition trains_json (ev : PipEvent) : string :=
  match pip_occupancy ev, pip_slot ev with
  | TrackOccupancy.OCCUPIED, Some slot =>
      dump_slots [(slot_number slot, slot_has_extra_info slot, slot_manually_placed slot,
        if bool_decide (slot_entry_side slot = EntrySide.LEFT) then "LEFT" else "RIGHT")%string]
  | _, _ => "[]"%string
  end.
(* SRC server/src/pip_writer.cpp 21-46 PipWriter::on_pip_events *)
Definition on_pip_events (events : list PipEvent) (db : DB) : DB :=
  fold_left (fun db ev => upsert_pip_track_state session_id (value (pip_section_uid ev)) (trains_json ev) db)
    events db.

(** ** The engine's callbacks *)

(* SRC server/src/session_server.cpp 292-302 SessionServer::make_nak_frame *)
Definition make_nak_frame (seq_id : Z) (v : InterlockingViolation) : list byte :=
  encode_frame msg_type.kCommandNak 0 0 (build_CommandNak seq_id (iv_reason_code v) (iv_reason_text v)).

(** One call of a callback; a log line reaches neither clients nor database. *)
(* SRC server/src/session_server.cpp 208-220 SessionServer::start *)
Definition serve (ts : Z) (o : Outlet) (n : Notice) : Outlet :=
  match n with
  | NNak cmd v =>
      mkOutlet (ot_bus o) (ot_frames o ++ [make_nak_frame (meta_seq_id (env_meta cmd)) v]) (ot_db o)
  | NChanges changes => on_state_changes changes ts o
  | NPips events => mkOutlet (ot_bus o) (ot_frames o) (on_pip_events events (ot_db o))
  | NLog _ => o
  end.
End Bus.
Arguments Outlet : clear implicits.

(** ** The bytes of an event *)

Lemma lor_digit ts k :
  0 <= k ->
  Z.lor (ts mod 2 ^ (8 * k)) (Z.shiftl (ts / 2 ^ (8 * k) mod 2 ^ 8) (8 * k)) = ts mod 2 ^ (8 * (k + 1)).
Proof.
  intros Hk. rewrite Z.lor_comm, lor_shiftl by (try apply Z.mod_pos_bound; lia).
  replace (8 * (k + 1)) with (8 * k + 8) by lia. rewrite Z.pow_add_r by lia.
  rewrite Z.mul_comm. rewrite Z.add_comm. rewrite Z.rem_mul_r by lia. done.
Qed.

Lemma le64_byte ts i :
  (i < 8)%nat -> le64 ts !! i = Some (ts / 2 ^ (8 * Z.of_nat i) mod 2 ^ 8).
Proof.
  intros Hi. unfold le64.
  assert (forall k, 0 <= k -> u8 (Z.land (Z.shiftr ts (8 * k)) 0xFF) = ts / 2 ^ (8 * k) mod 2 ^ 8) as E.
  { intros k Hk. rewrite land_ff, Z.shiftr_div_pow2 by lia. unfold wrap. by rewrite Zmod_mod. }
  do 8 (destruct i as [|i]; [cbn [fmap list_fmap lookup list_lookup]; by rewrite E by lia|]). lia.
Qed.

Lemma le64_fold ts n :
  (n <= 8)%nat ->
  fold_left (fun acc i => Z.lor acc (Z.shiftl (default 0 (le64 ts !! i)) (8 * Z.of_nat i))) (seq 0 n) 0
  = ts mod 2 ^ (8 * Z.of_nat n).
Proof.
  induction n as [|n IH]; intros Hn; [cbn; by rewrite Z.mod_1_r|].
  rewrite seq_S, fold_left_app, IH by lia. cbn [fold_left Nat.add]. rewrite le64_byte by lia. cbn [default].
  rewrite lor_digit by lia. do 2 f_equal. lia.
Qed.

Lemma le64_length ts : length (le64 ts) = 8%nat.
Proof. done. Qed.

Lemma prefix_length et eid ts : length (build_event_prefix et eid ts) = 13%nat.
Proof. unfold build_event_prefix. by destruct (le32_list eid) as (? & ? & ? & ? & ->). Qed.

Lemma le64_bytes ts : Forall is_byte (le64 ts).
Proof. unfold le64. rewrite Forall_fmap. apply Forall_true. intros i. apply wrap_fits. lia. Qed.

Lemma prefix_bytes et eid ts : is_byte et -> Forall is_byte (build_event_prefix et eid ts).
Proof.
  intros He. unfold build_event_prefix. rewrite !Forall_app. split_and!; [by constructor|apply le32_bytes|apply le64_bytes].
Qed.

(** The length of the payload has its 32-bit field. *)
Definition framed (payload : list byte) : Prop := Z.of_nat (length payload) < 2 ^ 32.

(** The payload of a frame starts at its sixteenth byte. *)
Lemma frame_payload mt fl seq payload :
  framed payload -> drop 16 (encode_frame mt fl seq payload) = payload /\
  length (encode_frame mt fl seq payload) = (16 + length payload)%nat.
Proof.
  intros Hs. unfold encode_frame. rewrite wrap_small by (unfold fits, framed in *; lia).
  rewrite Nat2Z.id, take_ge by done. cbn zeta. unfold header.
  match goal with |- context [le32 (Z.lxor ?c 0xFFFFFFFF)] =>
    destruct (le32_list (Z.lxor c 0xFFFFFFFF)) as (? & ? & ? & ? & ->) end.
  destruct (le32_list seq) as (? & ? & ? & ? & ->).
  by destruct (le32_list (Z.of_nat (length payload))) as (? & ? & ? & ? & ->).
Qed.

Lemma byte_at_drop data n k : byte_at data (n + k) = byte_at (drop n data) k.
Proof. unfold byte_at. by rewrite lookup_drop. Qed.

Lemma fold_left_ext {A B} (f g : A -> B -> A) l a :
  (forall a b, b ∈ l -> f a b = g a b) -> fold_left f l a = fold_left g l a.
Proof.
  revert a. induction l as [|b l IH]; intros a H; [done|]. cbn. rewrite H by by left.
  apply IH. intros a' b' Hb. apply H. by right.
Qed.

(** Reading a row back from the bytes of its frame loses nothing. *)
Lemma event_row_frame change sq et eid ts body :
  fits 32 eid -> fits 64 ts -> framed (build_event_prefix et eid ts ++ body) ->
  event_row change (encode_frame msg_type.kDomainEvent 0 sq (build_event_prefix et eid ts ++ body))
  = mkDomainEventRow et eid ts (object_uid_from_change change) body.
Proof.
  intros He Ht Hs. destruct (frame_payload msg_type.kDomainEvent 0 sq _ Hs) as [Hd _].
  set (frame := encode_frame _ _ _ _) in *. unfold event_row.
  assert (forall k, byte_at frame (16 + k) = byte_at (build_event_prefix et eid ts ++ body) k) as Hat
    by (intros k; by rewrite byte_at_drop, Hd).
  assert (drop 29 frame = body) as ->.
  { change 29%nat with (16 + 13)%nat. rewrite <- drop_drop, Hd. rewrite <- (prefix_length et eid ts) at 1.
    by rewrite drop_app_length. }
  pose proof (Hat 0%nat) as H0. pose proof (Hat 1%nat) as H1. pose proof (Hat 2%nat) as H2.
  pose proof (Hat 3%nat) as H3. pose proof (Hat 4%nat) as H4. cbn [Nat.add] in H0, H1, H2, H3, H4.
  rewrite H0, H1, H2, H3, H4. f_equal.
  - unfold build_event_prefix. destruct (le32_list eid) as (? & ? & ? & ? & E). rewrite E. cbn.
    by apply (un_le32_le32 eid).
  - transitivity (fold_left (fun acc i => Z.lor acc (Z.shiftl (default 0 (le64 ts !! i)) (8 * Z.of_nat i))) (seq 0 8) 0).
    + apply fold_left_ext. intros acc i Hi%elem_of_seq. do 2 f_equal.
      change (21 + i)%nat with (16 + (5 + i))%nat. rewrite Hat. unfold build_event_prefix.
      destruct (le32_list eid) as (? & ? & ? & ? & ->). unfold byte_at. f_equal.
      rewrite <- !app_assoc. rewrite (lookup_app_r [et]) by (cbn; lia).
      rewrite lookup_app_r by (cbn; lia). rewrite lookup_app_l by (rewrite le64_length; cbn; lia).
      f_equal. cbn. lia.
    + rewrite le64_fold by lia. apply Z.mod_small. exact Ht.
Qed.

(** ** What a list of changes becomes *)

(** The changes that have an event, with their position in the list. *)
Fixpoint emitting (i : nat) (changes : list DeviceStateChange) : list (nat * DeviceStateChange * (byte * EventBody)) :=
  match changes with
  | [] => []
  | c :: cs => match event_of c with Some e => [(i, c, e)] | None => [] end ++ emitting (S i) cs
  end.

Lemma event_type_byte c e : event_of c = Some e -> is_byte e.1.
Proof. destruct c; intros [= <-]; by split. Qed.

(** The event types of [proto/events.fbs], by the kind of change. *)
Definition documented_type (c : DeviceStateChange) : option byte :=
  match c with
  | DSwitchPosition _ => Some 0x01 | DSignalAspect _ => Some 0x03 | DTrackSectionOccupancy _ => Some 0x04
  | DDerailerState _ => Some 0x05 | DBlockSectionState _ => Some 0x06 | DRouteAdded _ => Some 0x07
  | DRouteRemoved _ => Some 0x08 | DAlarmRaised _ => Some 0x0A | DAlarmCleared _ => Some 0x0B
  | DBlockDirection _ => Some 0x10 | DOperatorCommandState _ => Some 0x11 | DMl8CommandState _ => Some 0x12
  | _ => None
  end.
Definition switch_lock (c : DeviceStateChange) : Prop :=
  match c with DSwitchLocked _ | DSwitchUnlocked _ => True | _ => False end.

Lemma documented_event c : ~ switch_lock c -> fst <$> event_of c = documented_type c.
Proof. intros H. by destruct c; try destruct (H I). Qed.

(** The comment says that the lock of a switch has no event; it has the one of a position. *)
Lemma switch_lock_event c : switch_lock c -> fst <$> event_of c = Some event_type.kSwitchPositionChanged.
Proof. by destruct c. Qed.

Section Broadcast.
Context {DB : Type} `{IDbWriter DB} `{SlotJson}.
Variable session_id : string.
Variable build_Event : EventBody -> list byte.
Variable build_CommandNak : Z -> Z -> string -> list byte.
(** A buffer FlatBuffers can build is not empty and smaller than 2 GB. *)
Definition buildable (c : DeviceStateChange) : Prop :=
  forall et e, event_of c = Some (et, e) ->
    build_Event e <> [] /\ Z.of_nat (length (build_Event e)) < 2 ^ 31.

(** The frame of the [k]-th event, and its row. *)
Definition event_frame (bus : DispatchBus) (ts : Z) (k : nat)
    (e : nat * DeviceStateChange * (byte * EventBody)) : list byte :=
  encode_frame msg_type.kDomainEvent 0 (u32 (tx_seq_ bus + Z.of_nat k))
    (build_event_prefix e.2.1 (u32 (next_event_id_ bus + Z.of_nat e.1.1)) ts ++ build_Event e.2.2).
Definition event_record (bus : DispatchBus) (ts : Z) (e : nat * DeviceStateChange * (byte * EventBody)) : DomainEventRow :=
  mkDomainEventRow e.2.1 (u32 (next_event_id_ bus + Z.of_nat e.1.1)) ts (object_uid_from_change e.1.2) (build_Event e.2.2).

Lemma event_payload_framed et eid ts body :
  Z.of_nat (length body) < 2 ^ 31 -> framed (build_event_prefix et eid ts ++ body).
Proof. unfold framed. rewrite length_app, prefix_length. lia. Qed.

(** One change, seen from a bus that has [n] changes and [k] frames behind it. *)
Lemma emit_step bus ts n k fs db c :
  fits 64 ts -> buildable c ->
  let o := mkOutlet (mkDispatchBus (u32 (next_event_id_ bus + Z.of_nat n)) (u32 (tx_seq_ bus + Z.of_nat k))) fs db in
  emit session_id build_Event ts o c =
  match event_of c with
  | None => mkOutlet (mkDispatchBus (u32 (next_event_id_ bus + Z.of_nat (S n))) (u32 (tx_seq_ bus + Z.of_nat k))) fs db
  | Some e =>
      mkOutlet (mkDispatchBus (u32 (next_event_id_ bus + Z.of_nat (S n))) (u32 (tx_seq_ bus + Z.of_nat (S k))))
        (fs ++ [event_frame bus ts k (n, c, e)])
        (write_domain_event session_id (event_record bus ts (n, c, e)) db)
  end.
Proof.
  intros Ht Hb o.
  assert (forall a m, u32 (u32 (a + Z.of_nat m) + 1) = u32 (a + Z.of_nat (S m))) as Hnext.
  { intros a m. unfold wrap. rewrite Zplus_mod_idemp_l. f_equal. lia. }
  unfold emit, make_event_frame, o. cbn [ot_bus next_event_id_ tx_seq_ ot_frames ot_db]. rewrite Hnext.
  destruct (event_of c) as [[et e]|] eqn:He; [|done]. rewrite Hnext.
  destruct (Hb et e He) as [Hne Hlen].
  pose proof (event_payload_framed et (u32 (next_event_id_ bus + Z.of_nat n)) ts (build_Event e) Hlen) as Hs.
  unfold event_frame, event_record. cbn [fst snd]. f_equal.
  rewrite event_row_frame; [|by apply wrap_fits|done|done].
  rewrite (proj2 (Z.ltb_lt _ _)); [done|]. rewrite (proj2 (frame_payload _ _ _ _ Hs)), length_app, prefix_length.
  destruct (build_Event e); [done|]. cbn [length]. lia.
Qed.

Lemma on_state_changes_emits changes ts (o : Outlet DB) :
  fits 64 ts -> fits 32 (next_event_id_ (ot_bus o)) -> fits 32 (tx_seq_ (ot_bus o)) -> Forall buildable changes ->
  let es := emitting 0 changes in
  on_state_changes session_id build_Event changes ts o =
  mkOutlet
    (mkDispatchBus (u32 (next_event_id_ (ot_bus o) + Z.of_nat (length changes)))
                   (u32 (tx_seq_ (ot_bus o) + Z.of_nat (length es))))
    (ot_frames o ++ imap (event_frame (ot_bus o) ts) es)
    (fold_left (fun db e => write_domain_event session_id (event_record (ot_bus o) ts e) db) es (ot_db o)).
Proof.
  intros Ht Hid Hseq Hb. destruct o as [bus fs db]. cbn [ot_bus ot_frames ot_db] in *.
  assert (forall n k fs db,
    on_state_changes session_id build_Event changes ts
      (mkOutlet (mkDispatchBus (u32 (next_event_id_ bus + Z.of_nat n)) (u32 (tx_seq_ bus + Z.of_nat k))) fs db) =
    mkOutlet
      (mkDispatchBus (u32 (next_event_id_ bus + Z.of_nat (n + length changes)))
                     (u32 (tx_seq_ bus + Z.of_nat (k + length (emitting n changes)))))
      (fs ++ imap (fun j => event_frame bus ts (k + j)) (emitting n changes))
      (fold_left (fun db e => write_domain_event session_id (event_record bus ts e) db) (emitting n changes) db)) as Hgen.
  { clear fs db. unfold on_state_changes. induction Hb as [|c changes Hc _ IH]; intros n k fs db.
    { cbn. by rewrite !Nat.add_0_r, app_nil_r. }
    cbn [fold_left emitting length]. rewrite emit_step by done. destruct (event_of c) as [e|].
    - rewrite IH. cbn [app length imap fold_left]. rewrite Nat.add_0_r, <- app_assoc. f_equal.
      + by rewrite !Nat.add_succ_r.
      + do 2 f_equal. apply imap_ext. intros j x _. cbn. by rewrite Nat.add_succ_r.
    - rewrite IH. cbn [app]. by rewrite !Nat.add_succ_r. }
  specialize (Hgen 0%nat 0%nat fs db). cbn [Nat.add Z.of_nat] in Hgen.
  rewrite !Z.add_0_r, !wrap_small in Hgen by done. destruct bus. exact Hgen.
Qed.

Lemma emitting_spec n changes :
  (fst <$> emitting n changes) `sublist_of` imap (fun i c => ((n + i)%nat, c)) changes /\
  (forall i c e, (i, c, e) ∈ emitting n changes <-> (n <= i)%nat /\ changes !! (i - n)%nat = Some c /\ event_of c = Some e).
Proof.
  revert n. induction changes as [|c changes IH]; intros n.
  { split; [constructor|]. intros i c e. cbn. by rewrite elem_of_nil; split; [|intros (_ & ? & _)]. }
  destruct (IH (S n)) as [Hs He]. cbn [emitting imap]. rewrite Nat.add_0_r. split.
  - assert (imap ((fun i c => ((n + i)%nat, c)) ∘ S) changes = imap (fun i c => ((S n + i)%nat, c)) changes) as ->
      by (apply imap_ext; intros i x _; cbn; by rewrite Nat.add_succ_r).
    rewrite fmap_app. destruct (event_of c); cbn; by constructor.
  - intros i c' e. rewrite elem_of_app, He. split.
    + intros [Hin|(Hi & Hl & E)].
      * destruct (event_of c) as [e'|] eqn:Ec; [|by apply not_elem_of_nil in Hin].
        apply list_elem_of_singleton in Hin as [= -> -> ->]. by rewrite Nat.sub_diag.
      * split; [lia|]. split; [|done]. by replace (i - n)%nat with (S (i - S n)) by lia.
    + intros (Hi & Hl & E). destruct (decide (i = n)) as [->|].
      * left. rewrite Nat.sub_diag in Hl. injection Hl as ->. rewrite E. by left.
      * right. replace (i - n)%nat with (S (i - S n)) in Hl by lia. split_and!; [lia|done..].
Qed.

(** C24: the clients and the database are told the same.  For any list of changes whose
    events FlatBuffers can build there is a selection of the changes, in order, such that
    one frame is broadcast and one row is written for each of them and nothing else; the row
    has the type, number, time and body of its frame, read back from the frame's bytes.
    The event number is the position of the change in all that was ever reported, so
    numbers grow and a missing one is a change without an event; the frames are numbered
    without gaps.  Selected are the changes of the documented kinds with the documented type
    byte, and none of the others; the lock of a switch, for which the code has an event
    against the comment of [make_event_frame], is left open. *)
Theorem domain_events_broadcast changes ts (o : Outlet DB) :
  fits 64 ts -> fits 32 (next_event_id_ (ot_bus o)) -> fits 32 (tx_seq_ (ot_bus o)) -> Forall buildable changes ->
  exists es,
    (fst <$> es) `sublist_of` imap pair changes /\
    (forall i c, changes !! i = Some c -> ~ switch_lock c ->
       forall et, documented_type c = Some et <-> exists body, (i, c, (et, body)) ∈ es) /\
    on_state_changes session_id build_Event changes ts o =
    mkOutlet
      (mkDispatchBus (u32 (next_event_id_ (ot_bus o) + Z.of_nat (length changes)))
                     (u32 (tx_seq_ (ot_bus o) + Z.of_nat (length es))))
      (ot_frames o ++ imap (event_frame (ot_bus o) ts) es)
      (fold_left (fun db e => write_domain_event session_id (event_record (ot_bus o) ts e) db) es (ot_db o)).
Proof.
  intros Ht Hid Hseq Hb. destruct (emitting_spec 0 changes) as [Hsub Hin]. exists (emitting 0 changes).
  split_and!; [exact Hsub| |by apply on_state_changes_emits].
  intros i c Hi Hlock et. pose proof (documented_event c Hlock) as Hd. split.
  - intros He. rewrite He in Hd. destruct (event_of c) as [[et' body]|] eqn:E; [|done].
    injection Hd as ->. exists body. apply Hin. rewrite Nat.sub_0_r. split_and!; [lia|done..].
  - intros [body (_ & _ & E)%Hin]. rewrite E in Hd. by rewrite <-Hd.
Qed.
End Broadcast.

(** ** What the clients know *)

(** What an event can tell about a device. *)
Inductive Attr : Type :=
| AAspect (u : UID) | APosition (u : UID) | ADerailer (u : UID) | AOccupied (u : UID) | AAxles (u : UID)
| ABlockState (u : UID) | ABlockDirection (u : UID).
#[global] Instance Attr_eq_dec : EqDecision Attr.
Proof. solve_decision. Defined.

Inductive Value : Type :=
| VAspect (a : SignalAspect.t) | VPosition (p : SwitchPosition.t) | VDerailer (d : DerailerState.t)
| VOccupancy (o : TrackOccupancy.t) | VAxles (n : Z)
| VBlock (b : BlockSectionState.t) | VDirection (d : BlockDirectionState.t).

(** Its value in the engine. *)
Definition attr (s : EngineState.t) (a : Attr) : option Value :=
  match a with
  | AAspect u => (fun x => VAspect (sig_current_aspect x)) <$> EngineState.signals s !! u
  | APosition u => (fun x => VPosition (sw_position x)) <$> EngineState.switches s !! u
  | ADerailer u => (fun x => VDerailer (der_state x)) <$> EngineState.derailers s !! u
  | AOccupied u => (fun x => VOccupancy (ts_occupancy x)) <$> EngineState.track_sections s !! u
  | AAxles u => (fun x => VAxles (ts_axle_count x)) <$> EngineState.track_sections s !! u
  | ABlockState u => (fun x => VBlock (bs_state x)) <$> EngineState.block_sections s !! u
  | ABlockDirection u => (fun x => VDirection (bs_direction x)) <$> EngineState.block_sections s !! u
  end.

(** What an event says to a client that reads its numbers by the schema: nothing about an
    attribute, its new value, or a number that has no name. *)
Definition says (e : EventBody) (a : Attr) : option (option Value) :=
  match e, a with
  | SignalAspectChanged uid v _, AAspect u =>
      if uid =? value u then Some (VAspect <$> schema_Aspect v) else None
  | SwitchPositionChanged uid v _, APosition u =>
      if uid =? value u then Some (VPosition <$> schema_SwitchPosition v) else None
  | DerailerPositionChanged uid v _, ADerailer u =>
      if uid =? value u then Some (VDerailer <$> schema_DerailerPosition v) else None
  | TrackSectionOccupancyChanged uid b _ _, AOccupied u =>
      if uid =? value u then Some (Some (VOccupancy (schema_occupied b))) else None
  | TrackSectionOccupancyChanged uid _ n _, AAxles u => if uid =? value u then Some (Some (VAxles n)) else None
  | BlockSectionStateChanged uid v, ABlockState u =>
      if uid =? value u then Some (VBlock <$> schema_BlockSectionState v) else None
  | BlockDirectionStateChanged uid v _, ABlockDirection u =>
      if uid =? value u then Some (VDirection <$> schema_BlockDirectionState v) else None
  | _, _ => None
  end.

(** What the events of a list of changes leave a listener with, who knew [v] before. *)
Definition hears (a : Attr) (v : option Value) (c : DeviceStateChange) : option Value :=
  match event_of c with Some (_, e) => default v (says e a) | None => v end.
Definition told (a : Attr) (v : option Value) (changes : list DeviceStateChange) : option Value :=
  fold_left (hears a) changes v.

(** The changes whose events misstate an attribute, that have none though they change it,
    or that set a value the schema has no name for. *)
Definition misleads (a : Attr) (c : DeviceStateChange) : Prop :=
  match c, a with
  | DSwitchLocked ev, APosition u => sl_switch_uid ev = u
  | DSwitchUnlocked ev, APosition u => su_switch_uid ev = u
  | DAxleCounterReset ev, (AOccupied u | AAxles u) =>
      acrc_target_kind ev = OperatorTargetKind.TRACK_SECTION /\ acrc_uid ev = u
  | DSwitchPosition ev, APosition u => spc_uid ev = u /\ spc_new_position ev = SwitchPosition.TRAILED_DAMAGED
  | DSignalAspect ev, AAspect u => sac_uid ev = u /\ sac_new_aspect ev ∉ Aspect_names
  | _, _ => False
  end.

Lemma value_eqb (u v : UID) : (value u =? value v) = bool_decide (u = v).
Proof.
  destruct u as [x], v as [y]. cbn. destruct (Z.eqb_spec x y) as [->|Hne].
  - by rewrite bool_decide_true.
  - rewrite bool_decide_false; [done|]. by intros [= ?].
Qed.

(** The numbers sent are those of the values. *)
Lemma derailer_sent d : schema_DerailerPosition (to_proto_derailer d) = Some d.
Proof. by destruct d. Qed.
Lemma block_sent b : schema_BlockSectionState (to_proto_block_section b) = Some b.
Proof. by destruct b. Qed.
Lemma occupancy_sent o : schema_occupied (bool_decide (o = TrackOccupancy.OCCUPIED)) = o.
Proof. by destruct o. Qed.
Lemma position_heard p :
  p <> SwitchPosition.TRAILED_DAMAGED -> Some (VPosition p) = VPosition <$> schema_SwitchPosition (code p).
Proof. by destruct p. Qed.
Lemma aspect_heard a : a ∈ Aspect_names -> Some (VAspect a) = VAspect <$> schema_Aspect (i8 (code a)).
Proof. intros Ha. by rewrite aspect_sent, shown_named. Qed.

(** A device does not disappear. *)
Lemma attr_kept s cs a : is_Some (attr s a) -> is_Some (attr (apply_all s cs) a).
Proof.
  revert s. induction cs as [|c cs IH]; intros s Ha; [done|]. rewrite apply_all_cons. apply IH.
  destruct a as [u|u|u|u|u|u|u]; cbn [attr] in *; rewrite fmap_is_Some in *;
    destruct c as [[? ? ? []]|[]|[]|[]|[? ? ? []]|[]|[]|[]|[? []]|[? []]|[? []]| |[]| | |[]| |[]|[]];
    unfold_change; split_change; subst; rewrite ?fmap_is_Some; done.
Qed.

(** The map of [s] that holds the device of an attribute is changed at most at
    the device of the change. *)
Lemma hears_step s c a v :
  ~ misleads a c -> attr s a = Some v -> attr (StateApplier s c) a = hears a (Some v) c.
Proof.
  intros Hm Ha. unfold hears.
  destruct a as [u|u|u|u|u|u|u]; cbn [attr] in *; apply fmap_Some in Ha as (x & Hx & ->);
    destruct c as [[]|[]|[]|[]|[]|[]|[]|[]|[? []]|[? []]|[? []]| |[]| | |[]| |[]|[]];
    cbn -[StateApplier schema_Aspect schema_SwitchPosition schema_DerailerPosition schema_BlockSectionState
          schema_BlockDirectionState i8 code] in *; rewrite ?value_eqb; unfold_change; split_change; subst;
    rewrite ?Hx; repeat case_bool_decide; simplify_eq; try done; try (by destruct Hm);
    cbn -[schema_Aspect schema_SwitchPosition schema_DerailerPosition schema_BlockSectionState
          schema_BlockDirectionState i8 code];
    rewrite ?direction_sent, ?derailer_sent, ?block_sent, ?occupancy_sent; try done.
  all: first [apply aspect_heard, dec_stable; tauto|apply position_heard; tauto|by destruct tsoc_occupancy].
Qed.


(** ** A switch that is locked *)

Lemma told_app a v cs ds : told a v (cs ++ ds) = told a (told a v cs) ds.
Proof. apply fold_left_app. Qed.

Definition believed_straight : option Value := Some (VPosition SwitchPosition.STRAIGHT).

(** Once a listener believes STRAIGHT, or hears it of a lock, the routes leave it at that. *)
Section Announced.
Context {MO : MapOrder}.
Lemma told_set_and_lock (s : EngineState.t) r n u v sw :
  EngineState.switches s !! rpn_uid n = Some sw ->
  told (APosition u) v (set_and_lock s r n) = if decide (rpn_uid n = u) then believed_straight else v.
Proof.
  intros Hs. unfold set_and_lock. change (find_switch s (rpn_uid n)) with (EngineState.switches s !! rpn_uid n).
  rewrite Hs. unfold told, hears. destruct (decide (sw_position sw <> rpn_required_position n)); cbn; rewrite !value_eqb.
  all: case_decide; [rewrite !bool_decide_true by done|rewrite !bool_decide_false by done]; done.
Qed.

Lemma told_other a v cs :
  Forall (fun c => forall e, event_of c = Some e -> says e.2 a = None) cs -> told a v cs = v.
Proof.
  intros H. revert v. induction H as [|c cs Hc _ IH]; intros v; [done|].
  change (told a v (c :: cs)) with (told a (hears a v c) cs). rewrite IH. unfold hears.
  destruct (event_of c) as [[et e]|]; [|done]. specialize (Hc (et, e) eq_refl). cbn in Hc. by rewrite Hc.
Qed.

Lemma told_straight (s : EngineState.t) r ns u :
  told (APosition u) believed_straight (ns ≫= set_and_lock s r) = believed_straight.
Proof.
  induction ns as [|n ns IH]; [done|]. cbn [mbind list_bind]. rewrite told_app.
  destruct (EngineState.switches s !! rpn_uid n) as [sw|] eqn:Hs.
  - rewrite (told_set_and_lock s r n u _ sw) by done. by case_decide.
  - unfold set_and_lock. change (find_switch s (rpn_uid n)) with (EngineState.switches s !! rpn_uid n).
    rewrite Hs. exact IH.
Qed.

Lemma told_locked (s : EngineState.t) r ns n v sw :
  n ∈ ns -> EngineState.switches s !! rpn_uid n = Some sw ->
  told (APosition (rpn_uid n)) v (ns ≫= set_and_lock s r) = believed_straight.
Proof.
  intros (l1 & l2 & ->)%list_elem_of_split Hs. rewrite bind_app, told_app. cbn [mbind list_bind].
  rewrite told_app, (told_set_and_lock s r n _ _ sw), decide_True by done. apply told_straight.
Qed.

End Announced.

(** A route shows its switches wrongly.  Whatever was known before, and
    whatever position the route requires and sets, after the events of a route
    being established every switch on its path is announced as STRAIGHT: the
    lock of the switch is broadcast as a position. *)
Theorem route_switch_shown_straight {MO : MapOrder} (s : EngineState.t) cmd tick policies rp n sw v :
  find_route_path s (rr_from_signal_uid cmd) (rr_to_signal_uid cmd) policies = Some rp ->
  n ∈ rp_nodes rp -> rpn_kind n = RoutePathNodeKind.SWITCH ->
  EngineState.switches s !! rpn_uid n = Some sw ->
  told (APosition (rpn_uid n)) v (execute_request_route s cmd tick policies) = believed_straight.
Proof.
  intros Hrp Hn Hk Hs. unfold execute_request_route. rewrite Hrp, !told_app.
  rewrite (told_locked s _ _ n v sw); [|by apply list_elem_of_filter|done]. rewrite told_straight.
  rewrite !told_other; [done| |].
  - apply Forall_forall. intros c (d & Hc & _)%list_elem_of_bind e He. unfold unlock_derailer in Hc.
    repeat case_match; try (by apply not_elem_of_nil in Hc).
    all: apply list_elem_of_singleton in Hc as ->; by injection He as <-.
  - by repeat constructor; intros e [= <-].
Qed.

(** ** Concrete notifications *)

Module BusDemo.
(** A builder of four bytes: the first tells the kind. *)
Definition build (e : EventBody) : list byte :=
  match e with
  | SignalAspectChanged u a _ => [1; u8 u; u8 a; 0]
  | SwitchPositionChanged u p _ => [2; u8 u; u8 p; 0]
  | _ => [3; 0; 0; 0]
  end.
Lemma build_ok c : buildable build c.
Proof. intros et e _. by destruct e. Qed.
#[global] Instance slots : SlotJson := {| dump_slots _ := "[...]"%string |}.

Definition outlet : Outlet NullDbWriter := mkOutlet DispatchBus_create [] NullDbWriter_empty.
(** Axle counter reset, then a signal: one event, numbered 2. *)
Definition changes : list DeviceStateChange :=
  [DAxleCounterReset (mkAxleCounterResetChange T2 OperatorTargetKind.TRACK_SECTION);
   DSignalAspect (mkSignalAspectChange SigA SignalAspect.S2_PROCEED ChangeCause.COMMAND None)].
(** From T1 over both switches to T3. *)
Definition crossing : RequestRouteCmd := mkRequestRouteCmd SigA SigC.
End BusDemo.

Lemma domain_events_broadcast_witness :
  let o := on_state_changes "session" BusDemo.build BusDemo.changes 7 BusDemo.outlet in
  (exists es : list (nat * DeviceStateChange * (byte * EventBody)),
     length (ot_frames o) = length es /\ exists body,
     (1%nat, DSignalAspect (mkSignalAspectChange SigA SignalAspect.S2_PROCEED ChangeCause.COMMAND None),
      (3, body)) ∈ es) /\
  ot_bus o = mkDispatchBus 3 1 /\ length (ot_frames o) = 1%nat /\
  written_events (ot_db o) = [mkDomainEventRow 3 2 7 (Some (value SigA)) [1; u8 (value SigA); 1; 0]].
Proof.
  intros o. split; [|split_and!; by vm_compute].
  destruct (domain_events_broadcast "session" BusDemo.build BusDemo.changes 7 BusDemo.outlet) as (es & _ & Hs & E);
    [by split|by split|by split|apply Forall_true, BusDemo.build_ok|].
  exists es. split; [|by apply (Hs 1%nat _ eq_refl (fun H => H) 3)].
  unfold o. rewrite E. cbn [ot_frames]. by rewrite length_app, length_imap.
Defined.


Lemma route_switch_shown_straight_witness :
  told (APosition W1) None (execute_request_route demo BusDemo.crossing 1000 [FlankProtectionPolicy]) = believed_straight /\
  attr (apply_all demo (execute_request_route demo BusDemo.crossing 1000 [FlankProtectionPolicy])) (APosition W1)
  = Some (VPosition SwitchPosition.DIVERGENT).
Proof.
  split; [|by vm_compute].
  destruct (find_route_path demo SigA SigC [FlankProtectionPolicy]) as [rp|] eqn:Hrp; [|by vm_compute in Hrp].
  destruct (rp_nodes rp !! 1%nat) as [n|] eqn:Hn.
  - assert (rpn_uid n = W1 /\ rpn_kind n = RoutePathNodeKind.SWITCH) as [Hu Hk].
    { revert Hn. vm_compute in Hrp. injection Hrp as <-. intros [= <-]. by split. }
    rewrite <- Hu. destruct (EngineState.switches demo !! W1) as [sw|] eqn:Hs; [|by vm_compute in Hs].
    apply (route_switch_shown_straight demo BusDemo.crossing 1000 [FlankProtectionPolicy] rp n sw None);
      [exact Hrp|by apply list_elem_of_lookup_2 in Hn|exact Hk|by rewrite Hu].
  - vm_compute in Hrp. injection Hrp as <-. by vm_compute in Hn.
Defined.
