(* ===== verification/FleetRegistry.v ===== *)
(** * FleetRegistry: vehicle types, vehicles, carriers and consists

    [engine/src/fleet_registry.cpp]: the four loaders, their checks in the order
    of the source, and the values a consist derives from its vehicles.  A
    directory is the list of the files a loader collects from it, in the order it
    sorts them; [FleetDisk] computes the lists from a disk. *)
From S2P Require Import Prelude Float32 Types Physics TrainSim Text Json.
From Stdlib Require Import SpecFloat.
Local Open Scope Z_scope.

(** ** Constants *)

(** [std::numeric_limits<float>::max()]. *)
Definition f32_max_value : float := S754_finite false 16777215 104.

#[export] Instance TrainConsist_eta : Eta TrainConsist := fun c =>
  mkTrainConsist (con_uid c) (con_pid c) (con_display_name c) (con_train_category c) (con_carrier_id c)
    (con_vehicle_uids c) (con_total_length_m c) (con_total_axles c) (con_total_mass_t c)
    (con_consist_lambda_pct c) (con_max_speed_kmh c) (con_total_traction_kn c) (con_total_power_kw c).

(** ** Files *)

Section Registry.
Context {JL : JsonLib}.

(** A file as [parse_json_file] finds it; [fl_folder] is the first folder between
    the directory that was scanned and the file. *)
Inductive FileContent : Type := Unreadable | Unparsable (what : string) | Parsed (j : json).
Record File := mkFile { fl_path : string; fl_folder : option string; fl_content : FileContent }.
(** [None]: the directory does not exist. *)
Definition Directory : Type := option (list File).

(* SRC engine/src/fleet_registry.cpp 30-49 collect_json_files *)
Definition collect_json_files (root : string) (d : Directory) : result (list File) :=
  get (FleetLoadError ("Missing directory: " +:+ root)) d.

(** The list of [d] is that of the files named vehicle.json. *)
(* SRC engine/src/fleet_registry.cpp 51-71 collect_vehicle_files *)
Definition collect_vehicle_files (root : string) (d : Directory) : result (list File) :=
  get (FleetLoadError ("Missing directory: " +:+ root)) d.

(* SRC engine/src/fleet_registry.cpp 73-89 parse_json_file *)
Definition parse_json_file (f : File) : result json :=
  match fl_content f with
  | Unreadable => Throw (FleetLoadError ("Cannot open file: " +:+ fl_path f))
  | Unparsable what => Throw (FleetLoadError ("JSON parse error in " +:+ fl_path f +:+ ": " +:+ what))
  | Parsed j => Ok j
  end.

(** ** Fields *)

Definition field_error (before key path : string) : exception :=
  FleetLoadError (before +:+ " '" +:+ key +:+ "' in " +:+ path).

(* SRC engine/src/fleet_registry.cpp 91-100 require_string *)
Definition require_string (j : json) (key path : string) : result string :=
  _ ← throw_if (lacks is_string j key) (field_error "Missing or invalid string field" key path);
  v ← j_at j key; get json_exception (get_string v).

(* SRC engine/src/fleet_registry.cpp 102-113 optional_string *)
Definition optional_string (j : json) (key : string) : result string :=
  if absent j key then Ok ""%string
  else if lacks is_string j key then Ok ""%string
  else v ← j_at j key; get json_exception (get_string v).

(* SRC engine/src/fleet_registry.cpp 115-123 require_int *)
Definition require_int (j : json) (key path : string) : result Z :=
  _ ← throw_if (lacks is_number j key) (field_error "Missing or invalid numeric field" key path);
  v ← j_at j key; get json_exception (get_int v).

(* SRC engine/src/fleet_registry.cpp 125-140 require_uid *)
Definition require_uid (j : json) (key path : string) : result UID :=
  _ ← throw_if (lacks is_number_unsigned j key) (field_error "Missing or invalid UID field" key path);
  v ← j_at j key; n ← get json_exception (get_u64 v);
  _ ← throw_if (negb (uid_is_safe_json_integer (mkUID n)))
    (FleetLoadError ("UID field '" +:+ key +:+ "' exceeds the JSON-safe integer range in " +:+ path));
  Ok (mkUID n).

(* SRC engine/src/fleet_registry.cpp 142-150 require_float *)
Definition require_float (j : json) (key path : string) : result float :=
  _ ← throw_if (lacks is_number j key) (field_error "Missing or invalid numeric field" key path);
  v ← j_at j key; get json_exception (get_float v).

(* SRC engine/src/fleet_registry.cpp 152-165 optional_float *)
Definition optional_float (j : json) (key path : string) : result (option float) :=
  if absent j key then Ok None
  else _ ← throw_if (lacks is_number j key) (field_error "Invalid numeric field" key path);
       v ← j_at j key; x ← get json_exception (get_float v); Ok (Some x).

(* SRC engine/src/fleet_registry.cpp 167-180 optional_bool *)
Definition optional_bool (j : json) (key path : string) : result (option bool) :=
  if absent j key then Ok None
  else _ ← throw_if (lacks is_boolean j key) (field_error "Invalid boolean field" key path);
       v ← j_at j key; b ← get json_exception (get_bool v); Ok (Some b).

(* SRC engine/src/fleet_registry.cpp 182-185 is_locomotive_type *)
Definition is_locomotive_type (vehicle_type : string) : bool :=
  bool_decide (to_upper vehicle_type = "LOCOMOTIVE"%string).

(* SRC engine/src/fleet_registry.cpp 187-204 is_traction_capable *)
Definition is_traction_capable (vehicle_type vehicle_subtype : string) : bool :=
  let type := to_upper vehicle_type in
  let subtype := to_upper vehicle_subtype in
  if bool_decide (type = "LOCOMOTIVE"%string) then true
  else (bool_decide (type = "EMU_UNIT"%string) || bool_decide (type = "DMU_UNIT"%string))
       && bool_decide (subtype = "MOTOR"%string).

(* SRC engine/src/fleet_registry.cpp 206-220 parse_traction_status *)
Definition parse_traction_status (value path : string) : result TractionStatus.t :=
  let upper := to_upper value in
  if bool_decide (upper = "OPERATIONAL"%string) then Ok TractionStatus.OPERATIONAL
  else if bool_decide (upper = "DEFECTIVE"%string) then Ok TractionStatus.DEFECTIVE
  else Throw (field_error "Invalid tractionStatus value" value path).

(* SRC engine/src/fleet_registry.cpp 222-235 optional_traction_status *)
Definition optional_traction_status (j : json) (key path : string) : result (option TractionStatus.t) :=
  if absent j key then Ok None
  else _ ← throw_if (lacks is_string j key) (field_error "Invalid string field" key path);
       v ← j_at j key; s ← get json_exception (get_string v);
       t ← parse_traction_status s path; Ok (Some t).

(* SRC engine/src/fleet_registry.cpp 237-255 parse_train_category *)
Definition parse_train_category (value path : string) : result TrainCategory.t :=
  let upper := to_upper value in
  if bool_decide (upper = "PASSENGER"%string) then Ok TrainCategory.PASSENGER
  else if bool_decide (upper = "FREIGHT"%string) then Ok TrainCategory.FREIGHT
  else if bool_decide (upper = "MAINTENANCE"%string) then Ok TrainCategory.MAINTENANCE
  else Throw (field_error "Invalid trainCategory value" value path).

(* SRC engine/src/fleet_registry.cpp 257-283 category_from_folder *)
Definition category_from_folder (f : File) : option TrainCategory.t :=
  let lower := to_upper (default "." (fl_folder f))%string in
  if bool_decide (lower = "PASSENGER"%string) || bool_decide (lower = "LOCAL"%string)
  then Some TrainCategory.PASSENGER
  else if bool_decide (lower = "FREIGHT"%string) then Some TrainCategory.FREIGHT
  else if bool_decide (lower = "SHUNTING"%string) then Some TrainCategory.MAINTENANCE
  else None.

(* SRC engine/src/fleet_registry.cpp 285-298 resolve_float_override *)
Definition resolve_float_override (j : json) (key : string) (fallback : float) (path : string) : result float :=
  if absent j key then Ok fallback
  else _ ← throw_if (lacks is_number j key) (field_error "Invalid numeric override" key path);
       v ← j_at j key; get json_exception (get_float v).

(* SRC engine/src/fleet_registry.cpp 300-313 resolve_int_override *)
Definition resolve_int_override (j : json) (key : string) (fallback : Z) (path : string) : result Z :=
  if absent j key then Ok fallback
  else _ ← throw_if (lacks is_number j key) (field_error "Invalid integer override" key path);
       v ← j_at j key; get json_exception (get_int v).

(** An explicit null removes the value of the type. *)
(* SRC engine/src/fleet_registry.cpp 315-333 resolve_optional_float_override *)
Definition resolve_optional_float_override (j : json) (key : string) (fallback : option float) (path : string) :
    result (option float) :=
  if negb (contains j key) then Ok fallback
  else if absent j key then Ok None
  else _ ← throw_if (lacks is_number j key) (field_error "Invalid numeric override" key path);
       v ← j_at j key; x ← get json_exception (get_float v); Ok (Some x).

(** ** The registry *)

(* SRC engine/include/engine/core/fleet_registry.hpp 56-80 VehicleType *)
Record VehicleType := mkVehicleType {
  vt_uid : UID; vt_type_name : string; vt_pkp_series : string; vt_family : string;
  vt_vehicle_type : string; vt_vehicle_subtype : string; vt_length_m : float; vt_axle_count : Z;
  vt_mass_empty_t : float; vt_mass_gross_t : option float; vt_max_speed_kmh : Z;
  vt_braking_lambda_pct : Z; vt_power_kw : option float; vt_traction_force_kn : option float;
  vt_multiple_coupling_capable : option bool; vt_davis : DavisCoefficients }.

(* SRC engine/include/engine/core/fleet_registry.hpp 113-119 Carrier *)
Record Carrier := mkCarrier {
  car_id : UID; car_name : string; car_service_types : list string; car_logo : option string }.

(* SRC engine/include/engine/core/fleet_registry.hpp 158-161 FleetRegistry *)
Record FleetRegistry := mkFleetRegistry {
  types_ : gmap UID VehicleType; vehicles_ : gmap UID Vehicle;
  consists_ : gmap UID TrainConsist; carriers_ : gmap UID Carrier }.

(** [emplace], then an exception if the identifier was there before. *)
(* SRC engine/src/fleet_registry.cpp 433-438 FleetRegistry::load_types_ *)
Definition emplace_new {A} (what : string) (uid : UID) (x : A) (path : string) (m : gmap UID A) :
    result (gmap UID A) :=
  match m !! uid with
  | Some _ => Throw (FleetLoadError (what +:+ to_string (value uid) +:+ " in " +:+ path))
  | None => Ok (<[uid := x]> m)
  end.

(** A literal of [fleet_registry.cpp]: [m / 10^k]. *)
Definition davis (a b c : Z * Z) : DavisCoefficients :=
  mkDavisCoefficients (f32_lit a.1 a.2) (f32_lit b.1 b.2) (f32_lit c.1 c.2).

(* SRC engine/src/fleet_registry.cpp 784-842 FleetRegistry::davis_defaults_ *)
Definition davis_defaults (vehicle_type vehicle_subtype : string) (max_speed_kmh : Z) : DavisCoefficients :=
  let type := to_upper vehicle_type in
  let subtype := to_upper vehicle_subtype in
  let eqs s t := bool_decide (s = t) in
  if eqs type "LOCOMOTIVE" && eqs subtype "ELECTRIC" then
    if 130 <? max_speed_kmh then davis (34335, 3) (17658, 5) (24525, 7)
    else davis (3924, 2) (1962, 4) (17658, 7)
  else if eqs type "LOCOMOTIVE" && eqs subtype "DIESEL" then davis (44145, 3) (21582, 5) (19620, 7)
  else if eqs type "LOCOMOTIVE" && eqs subtype "STEAM" then davis (44145, 3) (21582, 5) (19620, 7)
  else if eqs type "EMU_UNIT" && eqs subtype "MOTOR" then davis (34335, 3) (17658, 5) (14715, 7)
  else if (eqs type "EMU_UNIT" || eqs type "DMU_UNIT") && (eqs subtype "TRAILER" || eqs subtype "CONTROL") then
    davis (2943, 2) (14715, 5) (13734, 7)
  else if eqs type "DMU_UNIT" && eqs subtype "MOTOR" then davis (3924, 2) (1962, 4) (17658, 7)
  else if eqs type "PASSENGER_WAGON" then davis (2943, 2) (14715, 5) (13734, 7)
  else if eqs type "FREIGHT_WAGON" then davis (14715, 3) (7848, 5) (7848, 7)
  else if eqs type "SERVICE_WAGON" then davis (24525, 3) (12753, 5) (11772, 7)
  else davis (3924, 2) (1962, 4) (17658, 7).

(** The three coefficients of a document. *)
Definition require_davis (j : json) (path : string) : result DavisCoefficients :=
  a ← require_float j "davisA" path; b ← require_float j "davisB" path; c ← require_float j "davisC" path;
  Ok (mkDavisCoefficients a b c).

(* SRC engine/src/fleet_registry.cpp 387-431 FleetRegistry::load_types_ *)
Definition parse_type (j : json) (path : string) : result VehicleType :=
  uid ← require_uid j "uid" path;
  type_name ← require_string j "typeName" path;
  pkp_series ← optional_string j "pkpSeries";
  family ← optional_string j "family";
  vehicle_type ← require_string j "vehicleType" path;
  vehicle_subtype ← optional_string j "vehicleSubtype";
  length_m ← require_float j "lengthM" path;
  axle_count ← require_int j "axleCount" path;
  mass_empty_t ← require_float j "massEmptyT" path;
  mass_gross_t ← optional_float j "massGrossT" path;
  max_speed_kmh ← require_int j "maxSpeedKmh" path;
  braking_lambda_pct ← require_int j "brakingLambdaPct" path;
  power_kw ← optional_float j "powerKW" path;
  traction_force_kn ← optional_float j "tractionForceKN" path;
  multiple_coupling_capable ← optional_bool j "multipleCouplingCapable" path;
  _ ← throw_if (negb (is_traction_capable vehicle_type vehicle_subtype) &&
                bool_decide (is_Some multiple_coupling_capable))
    (FleetLoadError ("multipleCouplingCapable is only valid for traction-capable type categories in " +:+ path));
  let has_davis_a := negb (absent j "davisA") in
  let has_davis_b := negb (absent j "davisB") in
  let has_davis_c := negb (absent j "davisC") in
  dv ← (if has_davis_a || has_davis_b || has_davis_c then
          _ ← throw_if (negb (has_davis_a && has_davis_b && has_davis_c))
            (FleetLoadError ("Incomplete Davis coefficients in " +:+ path));
          require_davis j path
        else Ok (davis_defaults vehicle_type vehicle_subtype max_speed_kmh));
  Ok (mkVehicleType uid type_name pkp_series family vehicle_type vehicle_subtype length_m axle_count
        mass_empty_t mass_gross_t max_speed_kmh braking_lambda_pct power_kw traction_force_kn
        multiple_coupling_capable dv).

(* SRC engine/src/fleet_registry.cpp 380-440 FleetRegistry::load_types_ *)
Definition load_types (root : string) (d : Directory) (types : gmap UID VehicleType) :
    result (gmap UID VehicleType) :=
  files ← collect_json_files root d;
  for_each (fun types f =>
    j ← parse_json_file f; type ← parse_type j (fl_path f);
    emplace_new "Duplicate type uid: " (vt_uid type) type (fl_path f) types) files types.

(** [value_or] of a field of the instance and one of the type. *)
(* SRC engine/src/fleet_registry.cpp 449-525 FleetRegistry::load_vehicles_ *)
Definition parse_vehicle (types : gmap UID VehicleType) (j : json) (path : string) : result Vehicle :=
  uid ← require_uid j "uid" path;
  pid ← require_string j "pID" path;
  type_uid ← require_uid j "type_uid" path;
  display_name ← require_string j "displayName" path;
  type ← get (FleetLoadError ("Vehicle references unknown type_uid '" +:+ to_string (value type_uid) +:+ "' in " +:+ path))
    (types !! type_uid);
  vehicle_type_override ← optional_string j "vehicleType";
  _ ← throw_if (negb (bool_decide (vehicle_type_override = ""%string)) &&
                negb (bool_decide (vehicle_type_override = vt_vehicle_type type)))
    (FleetLoadError ("VehicleType override mismatch in " +:+ path));
  vehicle_subtype_override ← optional_string j "vehicleSubtype";
  _ ← throw_if (negb (bool_decide (vehicle_subtype_override = ""%string)) &&
                negb (bool_decide (vehicle_subtype_override = vt_vehicle_subtype type)))
    (FleetLoadError ("VehicleSubtype override mismatch in " +:+ path));
  length_m ← resolve_float_override j "lengthM" (vt_length_m type) path;
  axle_count ← resolve_int_override j "axleCount" (vt_axle_count type) path;
  mass_empty_t ← resolve_float_override j "massEmptyT" (vt_mass_empty_t type) path;
  mass_gross_override ← optional_float j "massGrossT" path;
  let effective_mass_t := default (default mass_empty_t (vt_mass_gross_t type)) mass_gross_override in
  max_speed_kmh ← resolve_int_override j "maxSpeedKmh" (vt_max_speed_kmh type) path;
  braking_lambda_pct ← resolve_int_override j "brakingLambdaPct" (vt_braking_lambda_pct type) path;
  power_kw ← resolve_optional_float_override j "powerKW" (vt_power_kw type) path;
  traction_force_kn ← resolve_optional_float_override j "tractionForceKN" (vt_traction_force_kn type) path;
  let traction_capable := is_traction_capable (vt_vehicle_type type) (vt_vehicle_subtype type) in
  traction_status_override ← optional_traction_status j "tractionStatus" path;
  traction_status ←
    (if traction_capable then Ok (Some (default TractionStatus.OPERATIONAL traction_status_override))
     else _ ← throw_if (bool_decide (is_Some traction_status_override))
            (FleetLoadError ("tractionStatus is only valid for traction-capable vehicles in " +:+ path));
          Ok None);
  dv ← (if contains j "davisA" || contains j "davisB" || contains j "davisC"
        then require_davis j path else Ok (vt_davis type));
  Ok (mkVehicle uid pid type_uid display_name (vt_vehicle_type type) (vt_vehicle_subtype type) length_m
        axle_count mass_empty_t effective_mass_t max_speed_kmh braking_lambda_pct power_kw traction_force_kn
        traction_capable traction_status (vt_multiple_coupling_capable type) dv).

(* SRC engine/src/fleet_registry.cpp 442-534 FleetRegistry::load_vehicles_ *)
Definition load_vehicles (types : gmap UID VehicleType) (root : string) (d : Directory)
    (vehicles : gmap UID Vehicle) : result (gmap UID Vehicle) :=
  files ← collect_vehicle_files root d;
  for_each (fun vehicles f =>
    j ← parse_json_file f; vehicle ← parse_vehicle types j (fl_path f);
    emplace_new "Duplicate vehicle uid: " (veh_uid vehicle) vehicle (fl_path f) vehicles) files vehicles.

(** What the loop over the vehicles of a consist accumulates: the consist, the
    weighted braking sum and the operational locomotives so far. *)
Record ConsistSum := mkConsistSum {
  cs_consist : TrainConsist; cs_lambda_mass_sum : float; cs_operational_locomotives : list Vehicle }.

(* SRC engine/src/fleet_registry.cpp 639-643 FleetRegistry::load_consists_ *)
Definition add_traction (vehicle : Vehicle) (c : TrainConsist) : TrainConsist :=
  c <| con_total_traction_kn ::= fun x => (x + default f32_zero (veh_traction_force_kn vehicle))%f32 |>
    <| con_total_power_kw ::= fun x => (x + default f32_zero (veh_power_kw vehicle))%f32 |>.

(* SRC engine/src/fleet_registry.cpp 618-619 FleetRegistry::load_consists_ *)
Definition operational (vehicle : Vehicle) : bool :=
  match veh_traction_status vehicle with
  | None => true
  | Some status => bool_decide (status = TractionStatus.OPERATIONAL)
  end.

(** One vehicle of the consist. *)
(* SRC engine/src/fleet_registry.cpp 611-634 FleetRegistry::load_consists_ *)
Definition add_vehicle (vehicle : Vehicle) (s : ConsistSum) : ConsistSum :=
  let consist := cs_consist s
    <| con_total_length_m ::= fun x => (x + veh_length_m vehicle)%f32 |>
    <| con_total_axles ::= fun x => x + veh_axle_count vehicle |>
    <| con_total_mass_t ::= fun x => (x + veh_effective_mass_t vehicle)%f32 |>
    <| con_max_speed_kmh ::= fun x => f32_min x (f32_of_Z (veh_max_speed_kmh vehicle)) |> in
  let powered := veh_traction_capable vehicle && operational vehicle in
  let locomotive := is_locomotive_type (veh_vehicle_type vehicle) in
  mkConsistSum
    (if powered && negb locomotive then add_traction vehicle consist else consist)
    (f64_add (cs_lambda_mass_sum s)
       (f64_mul (f64_of_Z (veh_braking_lambda_pct vehicle)) (f64_of_f32 (veh_effective_mass_t vehicle))))
    (if powered && locomotive then cs_operational_locomotives s ++ [vehicle] else cs_operational_locomotives s).

(** One entry of [vehicle_uids]. *)
(* SRC engine/src/fleet_registry.cpp 594-635 FleetRegistry::load_consists_ *)
Definition consist_entry (vehicles : gmap UID Vehicle) (path : string) (s : ConsistSum) (item : json) :
    result ConsistSum :=
  _ ← throw_if (negb (is_number_unsigned item)) (FleetLoadError ("Invalid vehicle uid entry in " +:+ path));
  n ← get json_exception (get_u64 item);
  let vehicle_uid := mkUID n in
  vehicle ← get (FleetLoadError ("Consist references unknown vehicle uid '" +:+ to_string n +:+ "' in " +:+ path))
    (vehicles !! vehicle_uid);
  Ok (add_vehicle vehicle (mkConsistSum
        (cs_consist s <| con_vehicle_uids ::= fun l => l ++ [vehicle_uid] |>)
        (cs_lambda_mass_sum s) (cs_operational_locomotives s))).

(** The traction of the locomotives: of all if they may run in multiple, else of the first. *)
(* SRC engine/src/fleet_registry.cpp 637-672 FleetRegistry::load_consists_ *)
Definition add_locomotives (locos : list Vehicle) (consist : TrainConsist) : TrainConsist :=
  match locos with
  | [] => consist
  | [v] => add_traction v consist
  | first :: _ =>
      let same_type := forallb (fun v => bool_decide (veh_type_uid v = veh_type_uid first)) locos in
      let coupling_allowed := same_type && default false (veh_multiple_coupling_capable first) in
      if coupling_allowed then fold_left (fun c v => add_traction v c) locos consist
      else add_traction first consist
  end.

(* SRC engine/src/fleet_registry.cpp 679-691 FleetRegistry::load_consists_ *)
Definition finish_consist (s : ConsistSum) : TrainConsist :=
  let c := cs_consist s in
  let c := if SFeqb (con_max_speed_kmh c) f32_max_value then c <| con_max_speed_kmh := f32_zero |> else c in
  c <| con_consist_lambda_pct :=
    if (f32_zero <? con_total_mass_t c)%f32
    then f32_of_f64 (f64_div (cs_lambda_mass_sum s) (f64_of_f32 (con_total_mass_t c))) else f32_zero |>.

(** [carrierId], checked. *)
(* SRC engine/src/fleet_registry.cpp 556-570 FleetRegistry::load_consists_ *)
Definition parse_carrier_id (carriers : gmap UID Carrier) (j : json) (path : string) : result (option UID) :=
  if absent j "carrierId" then Ok None
  else
    carrier_id ← require_uid j "carrierId" path;
    _ ← throw_if (negb (uid_has_kind carrier_id UIDDomain.ROLLING_STOCK UIDKind.CARRIER))
      (FleetLoadError ("carrierId has an invalid UID domain/kind in " +:+ path));
    _ ← throw_if (bool_decide (carriers !! carrier_id = None))
      (FleetLoadError ("Unknown carrierId '" +:+ to_string (value carrier_id) +:+ "' in " +:+ path));
    Ok (Some carrier_id).

(* SRC engine/src/fleet_registry.cpp 543-691 FleetRegistry::load_consists_ *)
Definition parse_consist (vehicles : gmap UID Vehicle) (carriers : gmap UID Carrier) (f : File) (j : json) :
    result TrainConsist :=
  let path := fl_path f in
  uid ← require_uid j "uid" path;
  pid ← require_string j "pID" path;
  display_name ← require_string j "displayName" path;
  category_name ← require_string j "trainCategory" path;
  train_category ← parse_train_category category_name path;
  _ ← throw_if (negb (absent j "carrier"))
    (FleetLoadError ("Field 'carrier' is deprecated; use numeric 'carrierId' in " +:+ path));
  carrier_id ← parse_carrier_id carriers j path;
  _ ← throw_if (lacks is_array j "vehicle_uids") (field_error "Missing or invalid array field" "vehicle_uids" path);
  _ ← throw_if (match category_from_folder f with
                | Some c => negb (bool_decide (c = train_category)) | None => false end)
    (FleetLoadError ("trainCategory does not match folder in " +:+ path));
  items ← j_at j "vehicle_uids";
  s ← for_each (consist_entry vehicles path) (j_items items)
        (mkConsistSum (mkTrainConsist uid pid display_name train_category carrier_id []
           f32_zero 0 f32_zero f32_zero f32_max_value f32_zero f32_zero) f32_zero []);
  let consist := add_locomotives (cs_operational_locomotives s) (cs_consist s) in
  _ ← throw_if (bool_decide (con_vehicle_uids consist = []))
    (FleetLoadError ("Train consist has no vehicles in " +:+ path));
  Ok (finish_consist (mkConsistSum consist (cs_lambda_mass_sum s) (cs_operational_locomotives s))).

(* SRC engine/src/fleet_registry.cpp 536-700 FleetRegistry::load_consists_ *)
Definition load_consists (vehicles : gmap UID Vehicle) (carriers : gmap UID Carrier) (root : string)
    (d : Directory) (consists : gmap UID TrainConsist) : result (gmap UID TrainConsist) :=
  files ← collect_json_files root d;
  for_each (fun consists f =>
    j ← parse_json_file f; consist ← parse_consist vehicles carriers f j;
    emplace_new "Duplicate consist uid: " (con_uid consist) consist (fl_path f) consists) files consists.

(** ** Carriers *)

(* SRC engine/src/fleet_registry.cpp 745-763 FleetRegistry::load_carriers_ *)
Definition parse_service_type (path : string) (types : list string) (item : json) : result (list string) :=
  _ ← throw_if (negb (is_string item)) (FleetLoadError ("Carrier type entries must be strings in " +:+ path));
  s ← get json_exception (get_string item);
  _ ← throw_if (negb (bool_decide (s = "passenger"%string)) && negb (bool_decide (s = "freight"%string)))
    (field_error "Invalid carrier type" s path);
  Ok (if bool_decide (s ∈ types) then types else types ++ [s]).

(** One entry of the array; [names] are the names so far. *)
(* SRC engine/src/fleet_registry.cpp 715-781 FleetRegistry::load_carriers_ *)
Definition carrier_entry (path : string) (s : gmap UID Carrier * list string) (item : json) :
    result (gmap UID Carrier * list string) :=
  let '(carriers, names) := s in
  _ ← throw_if (negb (is_object item)) (FleetLoadError ("Carrier entries must be objects in " +:+ path));
  id ← require_uid item "id" path;
  _ ← throw_if (negb (uid_has_kind id UIDDomain.ROLLING_STOCK UIDKind.CARRIER))
    (FleetLoadError ("Carrier id has an invalid UID domain/kind in " +:+ path));
  name ← require_string item "name" path;
  _ ← throw_if (bool_decide (name ∈ names)) (field_error "Duplicate carrier name" name path);
  _ ← throw_if (match j_find item "type" with
                | Some t => negb (is_array t) || bool_decide (j_items t = [])
                | None => true end)
    (FleetLoadError ("Carrier entries must contain a non-empty 'type' array in " +:+ path));
  type ← j_at item "type";
  service_types ← for_each (parse_service_type path) (j_items type) [];
  logo ← (if absent item "logo" then Ok None
          else _ ← throw_if (lacks is_string item "logo")
                 (FleetLoadError ("Carrier logo must be a string or null in " +:+ path));
               l ← j_at item "logo"; s ← get json_exception (get_string l); Ok (Some s));
  carriers ← emplace_new "Duplicate carrier id: " id (mkCarrier id name service_types logo) path carriers;
  Ok (carriers, names ++ [name]).

(** [None]: there is no such file. *)
(* SRC engine/src/fleet_registry.cpp 702-782 FleetRegistry::load_carriers_ *)
Definition load_carriers (file : option File) (carriers : gmap UID Carrier) : result (gmap UID Carrier) :=
  match file with
  | None => Ok carriers
  | Some f =>
      j ← parse_json_file f;
      _ ← throw_if (negb (is_object j) || lacks is_array j "carriers")
        (FleetLoadError "carriers.json must contain a 'carriers' array");
      items ← j_at j "carriers";
      r ← for_each (carrier_entry (fl_path f)) (j_items items) (carriers, []);
      Ok r.1
  end.

(** ** Loading *)

(** The tree below [data_root]. *)
Record DataRoot := mkDataRoot {
  dr_path : string; dr_types : Directory; dr_vehicles : Directory; dr_carriers : option File;
  dr_trains : Directory }.

(** The maps are cleared before the first loader runs. *)
(* SRC engine/src/fleet_registry.cpp 337-348 FleetRegistry::load *)
Definition load (d : DataRoot) : result FleetRegistry :=
  types ← load_types (dr_path d +:+ "/vehicle-types") (dr_types d) ∅;
  vehicles ← load_vehicles types (dr_path d +:+ "/vehicles") (dr_vehicles d) ∅;
  carriers ← load_carriers (dr_carriers d) ∅;
  consists ← load_consists vehicles carriers (dr_path d +:+ "/trains") (dr_trains d) ∅;
  Ok (mkFleetRegistry types vehicles consists carriers).

(* SRC engine/src/fleet_registry.cpp 350-358 FleetRegistry::get_type *)
Definition get_type (uid : UID) (r : FleetRegistry) : result VehicleType :=
  get (FleetLoadError ("VehicleType not found: " +:+ to_string (value uid))) (types_ r !! uid).
(* SRC engine/src/fleet_registry.cpp 360-368 FleetRegistry::get_vehicle *)
Definition get_vehicle (uid : UID) (r : FleetRegistry) : result Vehicle :=
  get (FleetLoadError ("Vehicle not found: " +:+ to_string (value uid))) (vehicles_ r !! uid).
(* SRC engine/src/fleet_registry.cpp 370-378 FleetRegistry::get_consist *)
Definition get_consist (uid : UID) (r : FleetRegistry) : result TrainConsist :=
  get (FleetLoadError ("TrainConsist not found: " +:+ to_string (value uid))) (consists_ r !! uid).

(** ** A directory of files *)

(** What the loop over the files of a directory computes: it parses each, and
    collects them under their identifiers, which must differ. *)
Lemma for_each_emplace {A} (parse : File -> result A) (key : A -> UID) (what : string) files (m0 m : gmap UID A) :
  for_each (fun m f => x ← parse f; emplace_new what (key x) x (fl_path f) m) files m0 = Ok m <->
  exists xs, Forall2 (fun f x => parse f = Ok x) files xs /\
    NoDup (key <$> xs) /\ Forall (fun x => m0 !! key x = None) xs /\
    m = list_to_map ((fun x => (key x, x)) <$> xs) ∪ m0.
Proof.
  revert m0. induction files as [|f files IH]; intros m0; cbn [for_each].
  { split.
    - intros [= <-]. exists []. split_and!; [constructor|constructor|constructor|]. cbn. by rewrite (left_id_L ∅ (∪)).
    - intros (xs & ->%Forall2_nil_inv_l & _ & _ & ->). cbn. by rewrite (left_id_L ∅ (∪)). }
  rewrite bind_ok. split.
  - intros (m1 & H1 & H). apply bind_ok in H1 as (x & Hx & H1). unfold emplace_new in H1.
    destruct (m0 !! key x) eqn:E; [done|]. injection H1 as <-.
    apply IH in H as (xs & Hp & Hnd & Hnew & ->). exists (x :: xs).
    assert (key x ∉ key <$> xs) as Hkey.
    { intros (y & Hy & Hin)%list_elem_of_fmap. rewrite Forall_forall in Hnew. specialize (Hnew y Hin).
      rewrite <- Hy, lookup_insert_eq in Hnew. done. }
    split_and!; [by constructor|by constructor| |].
    + constructor; [done|]. eapply Forall_impl; [exact Hnew|]. intros y Hy. cbn in Hy.
      by apply lookup_insert_None in Hy as [? _].
    + cbn. rewrite <- insert_union_l. symmetry. apply insert_union_r. apply not_elem_of_list_to_map_1.
      rewrite <- list_fmap_compose. exact Hkey.
  - intros (xs & Hp & Hnd & Hnew & ->). apply Forall2_cons_inv_l in Hp as (x & xs' & Hx & Hp & ->).
    apply Forall_cons in Hnew as [Hx0 Hnew]. apply NoDup_cons in Hnd as [Hkey Hnd].
    exists (<[key x := x]> m0). split.
    { apply bind_ok. exists x. split; [done|]. unfold emplace_new. by rewrite Hx0. }
    apply IH. exists xs'. split_and!; [done|done| |].
    + apply Forall_forall. intros y Hy. apply lookup_insert_None. split; [by eapply Forall_forall in Hnew|].
      intros Heq. apply Hkey. rewrite Heq. by apply list_elem_of_fmap_2.
    + cbn. rewrite <- insert_union_l. apply insert_union_r. apply not_elem_of_list_to_map_1.
      rewrite <- list_fmap_compose. exact Hkey.
Qed.

(** ** What a loaded registry satisfies *)

Definition valid_type (t : VehicleType) : Prop :=
  is_Some (vt_multiple_coupling_capable t) -> is_traction_capable (vt_vehicle_type t) (vt_vehicle_subtype t) = true.

(** The rule of the data model: what an instance may not override is its type's. *)
Definition valid_vehicle (types : gmap UID VehicleType) (v : Vehicle) : Prop :=
  exists t, types !! veh_type_uid v = Some t /\
    veh_vehicle_type v = vt_vehicle_type t /\ veh_vehicle_subtype v = vt_vehicle_subtype t /\
    veh_multiple_coupling_capable v = vt_multiple_coupling_capable t /\
    veh_traction_capable v = is_traction_capable (vt_vehicle_type t) (vt_vehicle_subtype t) /\
    (is_Some (veh_traction_status v) <-> veh_traction_capable v = true).

Definition valid_carrier (c : Carrier) : Prop :=
  uid_has_kind (car_id c) UIDDomain.ROLLING_STOCK UIDKind.CARRIER = true /\
  car_service_types c <> [] /\ NoDup (car_service_types c) /\
  Forall (fun s => s = "passenger" \/ s = "freight")%string (car_service_types c).

Definition axles_of (vehicles : gmap UID Vehicle) (u : UID) : Z :=
  match vehicles !! u with Some v => veh_axle_count v | None => 0 end.
Definition total_axles_of (vehicles : gmap UID Vehicle) (us : list UID) : Z :=
  fold_right Z.add 0 (axles_of vehicles <$> us).

Definition valid_consist (vehicles : gmap UID Vehicle) (carriers : gmap UID Carrier) (c : TrainConsist) : Prop :=
  con_vehicle_uids c <> [] /\ Forall (fun u => is_Some (vehicles !! u)) (con_vehicle_uids c) /\
  con_total_axles c = total_axles_of vehicles (con_vehicle_uids c) /\
  (forall u, con_carrier_id c = Some u ->
    uid_has_kind u UIDDomain.ROLLING_STOCK UIDKind.CARRIER = true /\ is_Some (carriers !! u)).

Lemma parse_type_ok j path t : parse_type j path = Ok t -> valid_type t.
Proof.
  unfold parse_type. intros H. split_ok H. injection H as <-. intros Hm. cbn in *.
  rewrite (bool_decide_true (is_Some _)) in * by done.
  by destruct (is_traction_capable _ _).
Qed.

Lemma parse_vehicle_ok types j path v : parse_vehicle types j path = Ok v -> valid_vehicle types v.
Proof.
  unfold parse_vehicle. intros H. split_ok H. injection H as <-.
  match goal with E : get _ (types !! _) = Ok ?t |- _ => apply get_ok in E; exists t end.
  split_and!; try done. cbn.
  match goal with E : (if is_traction_capable ?a ?b then _ else _) = _ |- _ =>
    destruct (is_traction_capable a b); [injection E as <-; by split|] end.
  match goal with E : mbind _ _ = Ok ?s |- is_Some ?s <-> _ => split_ok E; injection E as <- end.
  split; [by intros []|done].
Qed.

Lemma total_axles_snoc vehicles us u v :
  vehicles !! u = Some v ->
  total_axles_of vehicles (us ++ [u]) = total_axles_of vehicles us + veh_axle_count v.
Proof.
  intros Hu. unfold total_axles_of. induction us as [|u' us IH]; cbn.
  - unfold axles_of. rewrite Hu. lia.
  - rewrite IH. lia.
Qed.

Lemma add_traction_fields v c :
  con_vehicle_uids (add_traction v c) = con_vehicle_uids c /\ con_total_axles (add_traction v c) = con_total_axles c /\
  con_carrier_id (add_traction v c) = con_carrier_id c /\ con_uid (add_traction v c) = con_uid c.
Proof. by split_and!. Qed.

Lemma add_tractions_fields vs c :
  let c' := fold_left (fun c v => add_traction v c) vs c in
  con_vehicle_uids c' = con_vehicle_uids c /\ con_total_axles c' = con_total_axles c /\
  con_carrier_id c' = con_carrier_id c /\ con_uid c' = con_uid c.
Proof.
  revert c. induction vs as [|v vs IH]; intros c; [by split_and!|]. cbn [fold_left].
  destruct (IH (add_traction v c)) as (-> & -> & -> & ->). by split_and!.
Qed.

Lemma add_locomotives_fields vs c :
  con_vehicle_uids (add_locomotives vs c) = con_vehicle_uids c /\ con_total_axles (add_locomotives vs c) = con_total_axles c /\
  con_carrier_id (add_locomotives vs c) = con_carrier_id c /\ con_uid (add_locomotives vs c) = con_uid c.
Proof.
  unfold add_locomotives. destruct vs as [|v [|w vs]]; [by split_and!|by split_and!|].
  case_match; [apply add_tractions_fields|by split_and!].
Qed.

(** What the loop over the vehicles keeps true. *)
Lemma consist_entry_ok vehicles path s item s' :
  consist_entry vehicles path s item = Ok s' ->
  exists u v, vehicles !! u = Some v /\
    con_vehicle_uids (cs_consist s') = con_vehicle_uids (cs_consist s) ++ [u] /\
    con_total_axles (cs_consist s') = con_total_axles (cs_consist s) + veh_axle_count v /\
    con_carrier_id (cs_consist s') = con_carrier_id (cs_consist s) /\ con_uid (cs_consist s') = con_uid (cs_consist s).
Proof.
  unfold consist_entry. intros H. split_ok H.
  match goal with E : get _ (vehicles !! ?u) = Ok ?v |- _ => apply get_ok in E; exists u, v end.
  injection H as <-. split; [done|]. unfold add_vehicle. cbn [cs_consist]. by case_match.
Qed.

Lemma finish_consist_fields s :
  con_vehicle_uids (finish_consist s) = con_vehicle_uids (cs_consist s) /\
  con_total_axles (finish_consist s) = con_total_axles (cs_consist s) /\
  con_carrier_id (finish_consist s) = con_carrier_id (cs_consist s) /\ con_uid (finish_consist s) = con_uid (cs_consist s).
Proof. unfold finish_consist. cbn zeta. by destruct (SFeqb _ _). Qed.

Lemma parse_carrier_id_ok carriers j path o u :
  parse_carrier_id carriers j path = Ok o -> o = Some u ->
  uid_has_kind u UIDDomain.ROLLING_STOCK UIDKind.CARRIER = true /\ is_Some (carriers !! u).
Proof.
  unfold parse_carrier_id. intros H ->. case_match; [done|]. split_ok H. injection H as ->.
  split; [by apply negb_false_iff|]. rewrite bool_decide_eq_false in *. by apply not_eq_None_Some.
Qed.

Lemma parse_consist_ok vehicles carriers f j c :
  parse_consist vehicles carriers f j = Ok c -> valid_consist vehicles carriers c.
Proof.
  unfold parse_consist. intros H. split_ok H. injection H as <-.
  match goal with E : parse_carrier_id _ _ _ = Ok ?o |- _ => rename o into carrier, E into Hcar end.
  match goal with E : for_each _ _ _ = Ok ?o |- _ => rename o into s, E into Hloop end.
  set (P := fun s => Forall (fun u => is_Some (vehicles !! u)) (con_vehicle_uids (cs_consist s)) /\
    con_total_axles (cs_consist s) = total_axles_of vehicles (con_vehicle_uids (cs_consist s)) /\
    con_carrier_id (cs_consist s) = carrier).
  assert (P s) as (Hin & Hax & Hid).
  { refine (for_each_ind P _ _ _ _ _ _ Hloop); [|by split_and!; [constructor|..]].
    intros a item a' _ (Ha1 & Ha2 & Ha3) Hstep. apply consist_entry_ok in Hstep as (u & v & Hu & Hs1 & Hs2 & Hs3 & _).
    unfold P. rewrite Hs1, Hs2, Hs3. split_and!; [|by rewrite (total_axles_snoc _ _ _ v), Ha2|done].
    apply Forall_app. split; [done|]. by repeat constructor; eexists. }
  match goal with E : bool_decide (con_vehicle_uids _ = []) = false |- _ => apply bool_decide_eq_false in E; rename E into Hne end.
  set (c := add_locomotives _ _) in *.
  destruct (add_locomotives_fields (cs_operational_locomotives s) (cs_consist s)) as (L1 & L2 & L3 & L4). fold c in L1, L2, L3, L4.
  set (fin := mkConsistSum _ _ _). destruct (finish_consist_fields fin) as (F1 & F2 & F3 & F4). cbn [fin cs_consist] in F1, F2, F3, F4.
  unfold valid_consist. rewrite F1, F2, F3, L1, L2, L3. rewrite L1 in Hne.
  split_and!; [done|done|done|]. intros u Hu. eapply parse_carrier_id_ok; [done|]. by rewrite <- Hid.
Qed.

(** ** The carriers *)

Lemma parse_service_types_ok path items types types' :
  NoDup types -> Forall (fun s => s = "passenger" \/ s = "freight")%string types ->
  for_each (parse_service_type path) items types = Ok types' ->
  NoDup types' /\ Forall (fun s => s = "passenger" \/ s = "freight")%string types' /\
  (items <> [] \/ types <> [] -> types' <> []).
Proof.
  intros Hn Hf. revert types Hn Hf. induction items as [|i items IH]; intros types Hn Hf E.
  { injection E as <-. split_and!; [done|done|tauto]. }
  cbn [for_each] in E. apply bind_ok in E as (ts & Hi & E). unfold parse_service_type in Hi. split_ok Hi. injection Hi as <-.
  match type of E with for_each _ _ (if bool_decide (?s ∈ _) then _ else _) = _ =>
    assert (s = "passenger" \/ s = "freight")%string as Hs by
      (repeat match goal with H : _ && _ = false |- _ => apply andb_false_iff in H end;
       rewrite !negb_false_iff, !bool_decide_eq_true in *; tauto);
    destruct (bool_decide_reflect (s ∈ types)) as [Hin|Hin] end.
  - destruct (IH _ Hn Hf E) as (? & ? & Hne). split_and!; [done|done|]. intros _. apply Hne. right.
    intros ->. by apply not_elem_of_nil in Hin.
  - match type of E with for_each _ _ (types ++ [?s]) = _ => destruct (IH (types ++ [s])) as (? & ? & Hne) end.
    + apply NoDup_app. split_and!; [done| |apply NoDup_singleton]. by intros y Hy ->%list_elem_of_singleton.
    + apply Forall_app. split; [done|]. by apply Forall_singleton.
    + exact E.
    + split_and!; [done|done|]. intros _. apply Hne. right. by destruct types.
Qed.

(** Valid carriers, each under its own identifier, with different names. *)
Definition valid_carriers (m : gmap UID Carrier) : Prop :=
  (forall u c, m !! u = Some c -> car_id c = u /\ valid_carrier c) /\
  (forall u1 u2 c1 c2, m !! u1 = Some c1 -> m !! u2 = Some c2 -> car_name c1 = car_name c2 -> u1 = u2).

Definition names_ok (s : gmap UID Carrier * list string) : Prop :=
  valid_carriers s.1 /\ forall u c, s.1 !! u = Some c -> car_name c ∈ s.2.

Lemma carrier_entry_ok path s item s' :
  names_ok s -> carrier_entry path s item = Ok s' -> names_ok s'.
Proof.
  destruct s as [m names]. intros [[Hv Hd] Hn] H. unfold carrier_entry in H. split_ok H.
  match type of H with Ok (?m1, _ ++ [?n]) = _ => rename m1 into m', n into name end. injection H as <-.
  match goal with E : emplace_new _ _ (mkCarrier ?i name ?ts ?l) _ _ = _ |- _ =>
    rename i into id, E into He; set (c := mkCarrier id name ts l) in *; rename ts into types end.
  match goal with E : for_each (parse_service_type _) _ _ = _ |- _ =>
    apply parse_service_types_ok in E as (Hn1 & Hn2 & Hn3); [|by constructor|by constructor] end.
  match goal with E : negb (uid_has_kind _ _ _) = false |- _ => apply negb_false_iff in E; rename E into Hk end.
  match goal with E : bool_decide (name ∈ _) = false |- _ => apply bool_decide_eq_false in E; rename E into Hnew end.
  unfold emplace_new in He. destruct (m !! id) eqn:Eid; [done|]. injection He as <-. cbn [fst snd] in *.
  assert (valid_carrier c) as Hc.
  { unfold valid_carrier. cbn. split_and!; [done| |done|done]. apply Hn3. left.
    match goal with E : (match j_find item "type" with _ => _ end) = false, E2 : j_at item "type" = Ok ?t |- _ =>
      unfold j_at in E2; apply get_ok in E2; rewrite E2 in E; apply orb_false_iff in E as [_ E];
      by apply bool_decide_eq_false in E end. }
  unfold names_ok, valid_carriers. cbn [fst snd]. split; [split|].
  - intros u c' [[<- <-]|[_ Hu]]%lookup_insert_Some; [done|by apply Hv].
  - intros u1 u2 c1 c2 [[<- <-]|[Hne1 H1]]%lookup_insert_Some [[<- <-]|[Hne2 H2]]%lookup_insert_Some Heq; [done| | |by eapply Hd].
    + destruct Hnew. cbn in Heq. rewrite Heq. by eapply Hn.
    + destruct Hnew. cbn in Heq. rewrite <- Heq. by eapply Hn.
  - intros u c' [[<- <-]|[_ Hu]]%lookup_insert_Some; apply elem_of_app; [right; by left|left; by eapply Hn].
Qed.

Lemma load_carriers_ok file m : load_carriers file ∅ = Ok m -> valid_carriers m.
Proof.
  assert (names_ok (∅, [])) as H0 by (unfold names_ok, valid_carriers; cbn [fst snd]; split; [split|]; intros *; by rewrite lookup_empty).
  unfold load_carriers. destruct file as [f|]; intros H; [|injection H as <-; apply H0].
  split_ok H. injection H as <-.
  match goal with E : for_each _ _ _ = Ok _ |- _ => refine (proj1 (for_each_ind names_ok _ _ _ _ _ H0 E)) end.
  intros s item s' _ Hs. by apply carrier_entry_ok.
Qed.

(** ** Whole directories *)

Lemma Forall2_in {A B} (P : A -> B -> Prop) l k y : Forall2 P l k -> y ∈ k -> exists x, x ∈ l /\ P x y.
Proof. intros H. induction H as [|x y' l k Hp _ IH]; intros Hy; [by apply not_elem_of_nil in Hy|].
  apply elem_of_cons in Hy as [->|Hy]; [exists x; split; [by left|done]|].
  destruct (IH Hy) as (x' & ? & ?). exists x'. split; [by right|done]. Qed.

(** What is loaded from a directory is what its files parse to. *)
Lemma directory_entries {A} (parse : File -> result A) (key : A -> UID) (what : string) files (m : gmap UID A) u x :
  for_each (fun m f => x ← parse f; emplace_new what (key x) x (fl_path f) m) files ∅ = Ok m ->
  m !! u = Some x -> key x = u /\ exists f, f ∈ files /\ parse f = Ok x.
Proof.
  intros (xs & Hp & Hnd & _ & ->)%for_each_emplace. rewrite (right_id_L ∅ (∪)). intros Hu.
  apply elem_of_list_to_map_2 in Hu as Hin.
  apply list_elem_of_fmap in Hin as (y & [= -> ->] & Hy). split; [done|]. destruct (Forall2_in _ _ _ _ Hp Hy) as (f & ? & ?). by exists f.
Qed.

(** The loaders as loops of this shape. *)
Definition parse_type_file (f : File) : result VehicleType := j ← parse_json_file f; parse_type j (fl_path f).
Definition parse_vehicle_file types (f : File) : result Vehicle := j ← parse_json_file f; parse_vehicle types j (fl_path f).
Definition parse_consist_file vehicles carriers (f : File) : result TrainConsist :=
  j ← parse_json_file f; parse_consist vehicles carriers f j.

Lemma bind_assoc {A B C} (r : result A) (f : A -> result B) (g : B -> result C) :
  (r ≫= f) ≫= g = r ≫= (fun a => f a ≫= g).
Proof. by destruct r. Qed.

Lemma for_each_ext {A B} (f g : A -> B -> result A) l a :
  (forall a x, f a x = g a x) -> for_each f l a = for_each g l a.
Proof. intros H. revert a. induction l as [|x l IH]; intros a; [done|]. cbn. rewrite H. destruct (g a x); [apply IH|done]. Qed.

Lemma load_types_loop root d m0 m :
  load_types root d m0 = Ok m <-> exists files, d = Some files /\
    for_each (fun m f => x ← parse_type_file f; emplace_new "Duplicate type uid: " (vt_uid x) x (fl_path f) m) files m0 = Ok m.
Proof.
  unfold load_types. rewrite bind_ok. unfold collect_json_files. setoid_rewrite get_ok.
  assert (forall files, for_each (fun types f => j ← parse_json_file f; type ← parse_type j (fl_path f);
    emplace_new "Duplicate type uid: " (vt_uid type) type (fl_path f) types) files m0 =
    for_each (fun m f => x ← parse_type_file f; emplace_new "Duplicate type uid: " (vt_uid x) x (fl_path f) m) files m0) as E.
  { intros files. apply for_each_ext. intros a f. unfold parse_type_file. by rewrite bind_assoc. }
  by setoid_rewrite E.
Qed.
Lemma load_vehicles_loop types root d m0 m :
  load_vehicles types root d m0 = Ok m <-> exists files, d = Some files /\
    for_each (fun m f => x ← parse_vehicle_file types f; emplace_new "Duplicate vehicle uid: " (veh_uid x) x (fl_path f) m) files m0 = Ok m.
Proof.
  unfold load_vehicles. rewrite bind_ok. unfold collect_vehicle_files. setoid_rewrite get_ok.
  assert (forall files, for_each (fun vehicles f => j ← parse_json_file f; vehicle ← parse_vehicle types j (fl_path f);
    emplace_new "Duplicate vehicle uid: " (veh_uid vehicle) vehicle (fl_path f) vehicles) files m0 =
    for_each (fun m f => x ← parse_vehicle_file types f; emplace_new "Duplicate vehicle uid: " (veh_uid x) x (fl_path f) m) files m0) as E.
  { intros files. apply for_each_ext. intros a f. unfold parse_vehicle_file. by rewrite bind_assoc. }
  by setoid_rewrite E.
Qed.
Lemma load_consists_loop vehicles carriers root d m0 m :
  load_consists vehicles carriers root d m0 = Ok m <-> exists files, d = Some files /\
    for_each (fun m f => x ← parse_consist_file vehicles carriers f;
      emplace_new "Duplicate consist uid: " (con_uid x) x (fl_path f) m) files m0 = Ok m.
Proof.
  unfold load_consists. rewrite bind_ok. unfold collect_json_files. setoid_rewrite get_ok.
  assert (forall files, for_each (fun consists f => j ← parse_json_file f; consist ← parse_consist vehicles carriers f j;
    emplace_new "Duplicate consist uid: " (con_uid consist) consist (fl_path f) consists) files m0 =
    for_each (fun m f => x ← parse_consist_file vehicles carriers f;
      emplace_new "Duplicate consist uid: " (con_uid x) x (fl_path f) m) files m0) as E.
  { intros files. apply for_each_ext. intros a f. unfold parse_consist_file. by rewrite bind_assoc. }
  by setoid_rewrite E.
Qed.

Lemma load_ok d r :
  load d = Ok r <->
  load_types (dr_path d +:+ "/vehicle-types") (dr_types d) ∅ = Ok (types_ r) /\
  load_vehicles (types_ r) (dr_path d +:+ "/vehicles") (dr_vehicles d) ∅ = Ok (vehicles_ r) /\
  load_carriers (dr_carriers d) ∅ = Ok (carriers_ r) /\
  load_consists (vehicles_ r) (carriers_ r) (dr_path d +:+ "/trains") (dr_trains d) ∅ = Ok (consists_ r).
Proof.
  unfold load. split.
  - intros H. split_ok H. by injection H as <-.
  - destruct r as [t v c k]. cbn. intros (-> & E2 & E3 & E4). cbn. rewrite E2. cbn. rewrite E3. cbn. by rewrite E4.
Qed.

Lemma load_facts d r :
  load d = Ok r ->
  (forall u t, types_ r !! u = Some t -> vt_uid t = u /\ valid_type t) /\
  (forall u v, vehicles_ r !! u = Some v -> veh_uid v = u /\ valid_vehicle (types_ r) v) /\
  valid_carriers (carriers_ r) /\
  (forall u c, consists_ r !! u = Some c -> con_uid c = u /\ valid_consist (vehicles_ r) (carriers_ r) c).
Proof.
  intros (Ht & Hv & Hc & Hk)%load_ok.
  apply load_types_loop in Ht as (ft & _ & Ht). apply load_vehicles_loop in Hv as (fv & _ & Hv).
  apply load_consists_loop in Hk as (fk & _ & Hk). split_and!; [| |by eapply load_carriers_ok|].
  - intros u t Hu. destruct (directory_entries _ _ _ _ _ _ _ Ht Hu) as (? & f & _ & Hf). split; [done|].
    unfold parse_type_file in Hf. split_ok Hf. by eapply parse_type_ok.
  - intros u v Hu. destruct (directory_entries _ _ _ _ _ _ _ Hv Hu) as (? & f & _ & Hf). split; [done|].
    unfold parse_vehicle_file in Hf. split_ok Hf. by eapply parse_vehicle_ok.
  - intros u c Hu. destruct (directory_entries _ _ _ _ _ _ _ Hk Hu) as (? & f & _ & Hf). split; [done|].
    unfold parse_consist_file in Hf. split_ok Hf. by eapply parse_consist_ok.
Qed.

(** C30: a registry that was loaded is well formed.  Every entry is stored
    under its own identifier; every vehicle has a loaded type, whose kind,
    subtype and coupling ability it has, and a traction status exactly when its
    type can pull; carriers have identifiers of their kind, different names and
    at least one service; every consist is a non-empty list of loaded vehicles,
    whose axles it counts, and its carrier is loaded. *)
Theorem load_well_formed d r :
  load d = Ok r ->
  (forall u t, types_ r !! u = Some t -> vt_uid t = u /\ valid_type t) /\
  (forall u v, vehicles_ r !! u = Some v -> veh_uid v = u /\ valid_vehicle (types_ r) v) /\
  valid_carriers (carriers_ r) /\
  (forall u c, consists_ r !! u = Some c -> con_uid c = u /\ valid_consist (vehicles_ r) (carriers_ r) c).
Proof. apply load_facts. Qed.

(** ** The order of the files *)

(** The same files, listed in another order. *)
Inductive same_files : Directory -> Directory -> Prop :=
| same_none : same_files None None
| same_some l l' : l ≡ₚ l' -> same_files (Some l) (Some l').

Lemma directory_perm {A} (parse : File -> result A) (key : A -> UID) (what : string) files files' (m : gmap UID A) :
  files ≡ₚ files' ->
  for_each (fun m f => x ← parse f; emplace_new what (key x) x (fl_path f) m) files ∅ = Ok m ->
  for_each (fun m f => x ← parse f; emplace_new what (key x) x (fl_path f) m) files' ∅ = Ok m /\
  size m = length files /\ forall f, f ∈ files -> exists x, parse f = Ok x /\ m !! key x = Some x.
Proof.
  intros Hperm (xs & Hp & Hnd & Hnew & Hm)%for_each_emplace. rewrite (right_id_L ∅ (∪)) in Hm.
  assert (NoDup ((fun x => (key x, x)) <$> xs).*1) as Hnd' by (by rewrite <- list_fmap_compose).
  split_and!.
  - destruct (Permutation_Forall2 Hperm Hp) as (xs' & Hp' & Hx).
    apply for_each_emplace. exists xs'. rewrite (right_id_L ∅ (∪)). split_and!.
    + exact Hx.
    + by rewrite <- Hp'.
    + apply Forall_forall. intros x _. apply lookup_empty.
    + subst m. apply list_to_map_proper; [done|]. by rewrite Hp'.
  - subst m. rewrite map_size_list_to_map, length_fmap by done. symmetry. by eapply Forall2_length.
  - intros f Hf. apply list_elem_of_lookup in Hf as [i Hi].
    destruct (Forall2_lookup_l _ _ _ _ _ Hp Hi) as (x & Hxi & Hx). exists x. split; [done|].
    subst m. apply elem_of_list_to_map_1; [done|]. apply list_elem_of_fmap. exists x. split; [done|].
    by eapply list_elem_of_lookup_2.
Qed.

(** Loading does not depend on the order in which the file system lists
    the files, and loses none.  If a data directory loads, the same files in any
    other order load to the same registry; it has exactly one type, vehicle and
    consist for each file, stored under the identifier in it. *)
Theorem load_order_irrelevant d d' r :
  load d = Ok r ->
  dr_path d' = dr_path d -> dr_carriers d' = dr_carriers d -> same_files (dr_types d) (dr_types d') ->
  same_files (dr_vehicles d) (dr_vehicles d') -> same_files (dr_trains d) (dr_trains d') ->
  load d' = Ok r /\
  (forall l, dr_types d = Some l -> size (types_ r) = length l) /\
  (forall l, dr_vehicles d = Some l -> size (vehicles_ r) = length l) /\
  (forall l, dr_trains d = Some l -> size (consists_ r) = length l /\
    forall f, f ∈ l -> exists c, parse_consist_file (vehicles_ r) (carriers_ r) f = Ok c /\
      consists_ r !! con_uid c = Some c).
Proof.
  intros (Ht & Hv & Hc & Hk)%load_ok Hpath Hcar St Sv Sk.
  apply load_types_loop in Ht as (ft & Eft & Ht). apply load_vehicles_loop in Hv as (fv & Efv & Hv).
  apply load_consists_loop in Hk as (fk & Efk & Hk). rewrite Eft in St. rewrite Efv in Sv. rewrite Efk in Sk.
  inversion St as [|? lt Pt E1 E2]; subst. inversion Sv as [|? lv Pv E3 E4]; subst.
  inversion Sk as [|? lk Pk E5 E6]; subst.
  destruct (directory_perm _ _ _ _ _ _ Pt Ht) as (Ht' & St' & _).
  destruct (directory_perm _ _ _ _ _ _ Pv Hv) as (Hv' & Sv' & _).
  destruct (directory_perm _ _ _ _ _ _ Pk Hk) as (Hk' & Sk' & Ak').
  split_and!.
  - apply load_ok. rewrite Hpath, Hcar. split_and!; [| |done|].
    + apply load_types_loop. by exists lt.
    + apply load_vehicles_loop. by exists lv.
    + apply load_consists_loop. by exists lk.
  - intros l Hl. rewrite Eft in Hl. by injection Hl as <-.
  - intros l Hl. rewrite Efv in Hl. by injection Hl as <-.
  - intros l Hl. rewrite Efk in Hl. by injection Hl as <-.
Qed.

(** ** Two coupling rules *)

(** The registry's sum of the traction of a list of vehicles. *)
Definition registry_sum (vs : list Vehicle) (s : ConsistSum) : ConsistSum := fold_left (fun s v => add_vehicle v s) vs s.
Definition registry_traction (vs : list Vehicle) (s : ConsistSum) : float :=
  let s := registry_sum vs s in con_total_traction_kn (add_locomotives (cs_operational_locomotives s) (cs_consist s)).
End Registry.

(** The vehicles at whose position [g] holds. *)
Definition select (g : nat -> Vehicle -> bool) (vs : list Vehicle) : list Vehicle :=
  omap id (imap (fun i v => if g i v then Some v else None) vs).
(** A powered wagon, and which vehicles pull in the train simulation ([tractive]). *)
Definition wagon (v : Vehicle) : bool := is_operational_traction_unit v && negb (is_locomotive v).
Definition pulls (vs : list Vehicle) (i : nat) (v : Vehicle) : bool :=
  wagon v || (powered v && (in_multiple vs || bool_decide (fst <$> leader vs = Some i))).

(** The registry's flag tells the truth: what cannot pull has no traction data. *)
Definition consistent (v : Vehicle) : Prop :=
  veh_traction_capable v = false -> veh_traction_force_kn v = None /\ veh_power_kw v = None.

Lemma consistent_operational v :
  consistent v -> is_operational_traction_unit v = veh_traction_capable v && operational v.
Proof.
  unfold consistent, is_operational_traction_unit, operational. intros Hc.
  destruct (veh_traction_capable v); cbn; [by destruct (veh_traction_status v)|].
  by destruct (Hc eq_refl) as [-> ->].
Qed.

Lemma select_app g vs ws : select g (vs ++ ws) = select g vs ++ select (fun i => g (length vs + i)%nat) ws.
Proof. unfold select. rewrite imap_app, omap_app. done. Qed.

Lemma select_filter g h vs :
  (forall i v, vs !! i = Some v -> g i v = h v) -> select g vs = filter (fun v => h v) vs.
Proof.
  revert g. induction vs as [|v vs IH]; intros g Hg; [done|]. unfold select in *. cbn [imap omap list_omap].
  rewrite (Hg 0%nat v eq_refl). specialize (IH (fun i => g (S i)) (fun i w Hw => Hg (S i) w Hw)).
  destruct (h v) eqn:E; cbn [id].
  - rewrite filter_cons_True by (rewrite E; done). f_equal. exact IH.
  - rewrite filter_cons_False by (rewrite E; by intros []). exact IH.
Qed.

Lemma filter_or_perm (p q : Vehicle -> bool) vs :
  (forall v, p v && q v = false) ->
  filter (fun v => p v || q v) vs ≡ₚ filter (fun v => p v) vs ++ filter (fun v => q v) vs.
Proof.
  intros Hd. induction vs as [|v vs IH]; [done|]. specialize (Hd v).
  destruct (p v) eqn:Ep, (q v) eqn:Eq; try done.
  - rewrite filter_cons_True, (filter_cons_True (fun v => p v)), (filter_cons_False (fun v => q v))
      by (rewrite ?Ep, ?Eq; (done || by intros [])). by rewrite IH.
  - rewrite filter_cons_True, (filter_cons_False (fun v => p v)), (filter_cons_True (fun v => q v))
      by (rewrite ?Ep, ?Eq; (done || by intros [])). rewrite IH. apply Permutation_middle.
  - by rewrite !filter_cons_False by (rewrite ?Ep, ?Eq; (done || by intros [])).
Qed.

Lemma wagon_powered v : wagon v && powered v = false.
Proof. unfold wagon, powered. by destruct (is_operational_traction_unit v), (is_locomotive v). Qed.

Lemma filter_none (p : Vehicle -> bool) vs : (forall v, v ∈ vs -> p v = false) -> filter (fun v => p v) vs = [].
Proof.
  induction vs as [|v vs IH]; intros H; [done|].
  rewrite filter_cons_False by (rewrite (H v) by (by left); by intros []). apply IH. intros w Hw. apply H. by right.
Qed.

(** The first powered locomotive splits the list. *)
Lemma leader_split vs i l :
  leader vs = Some (i, l) -> exists a b, vs = a ++ l :: b /\ i = length a /\ powered l = true /\
    (forall v, v ∈ a -> powered v = false) /\
    filter (fun v => powered v) vs = l :: filter (fun v => powered v) b.
Proof.
  intros (Hi & Hl & Hbefore)%list_find_Some.
  exists (take i vs), (drop (S i) vs). pose proof (take_drop_middle vs i l Hi) as Hvs.
  assert (forall v, v ∈ take i vs -> powered v = false) as Ha.
  { intros v (j & Hj)%list_elem_of_lookup. apply lookup_take_Some in Hj as [Hj Hlt].
    apply not_true_is_false. intros Hp. by eapply Hbefore; [exact Hj|exact Hlt|rewrite Hp]. }
  split_and!; [done| |by apply Is_true_true|exact Ha|].
  - rewrite length_take_le; [done|]. apply lookup_lt_Some in Hi. lia.
  - rewrite <- Hvs at 1. rewrite filter_app, filter_cons_True by done.
    by rewrite (filter_none powered).
Qed.

Lemma leader_none vs : leader vs = None -> filter (fun v => powered v) vs = [].
Proof.
  intros H%list_find_None. apply filter_none. intros v Hv. rewrite Forall_forall in H.
  apply not_true_is_false. intros Hp. apply (H v Hv). by rewrite Hp.
Qed.

(** The loop over the vehicles: it adds the wagons and collects the locomotives. *)
Lemma registry_sum_spec vs s :
  Forall consistent vs ->
  con_total_traction_kn (cs_consist (registry_sum vs s))
    = fold_left f32_add (traction_force <$> filter (fun v => wagon v) vs) (con_total_traction_kn (cs_consist s)) /\
  cs_operational_locomotives (registry_sum vs s) = cs_operational_locomotives s ++ filter (fun v => powered v) vs.
Proof.
  unfold registry_sum. intros Hc. revert s. induction Hc as [|v vs Hv _ IH]; intros s.
  { cbn. by rewrite app_nil_r. }
  cbn [fold_left]. destruct (IH (add_vehicle v s)) as [IH1 IH2]. rewrite IH1, IH2. clear IH IH1 IH2.
  assert (wagon v = veh_traction_capable v && operational v && negb (is_locomotive_type (veh_vehicle_type v))) as Hw
    by (unfold wagon; by rewrite consistent_operational).
  assert (powered v = veh_traction_capable v && operational v && is_locomotive_type (veh_vehicle_type v)) as Hp
    by (unfold powered; by rewrite consistent_operational).
  unfold add_vehicle. cbn [cs_consist cs_operational_locomotives]. rewrite <- Hw, <- Hp. split.
  - destruct (wagon v) eqn:E.
    + rewrite filter_cons_True by (rewrite E; done). done.
    + rewrite filter_cons_False by (rewrite E; by intros []). done.
  - destruct (powered v) eqn:E.
    + rewrite filter_cons_True by (rewrite E; done). by rewrite <- app_assoc.
    + rewrite filter_cons_False by (rewrite E; by intros []). done.
Qed.

(** The locomotives the registry lets pull. *)
Definition coupled (locos : list Vehicle) : list Vehicle :=
  match locos with
  | [] => []
  | first :: rest =>
      if bool_decide (rest = []) then [first]
      else if forallb (fun v => bool_decide (veh_type_uid v = veh_type_uid first)) locos &&
              default false (veh_multiple_coupling_capable first) then locos else [first]
  end.

Lemma add_tractions_sum vs c :
  con_total_traction_kn (fold_left (fun c v => add_traction v c) vs c)
  = fold_left f32_add (traction_force <$> vs) (con_total_traction_kn c).
Proof. revert c. induction vs as [|v vs IH]; intros c; [done|]. cbn [fold_left fmap list_fmap]. by rewrite IH. Qed.

Lemma add_locomotives_sum locos c :
  con_total_traction_kn (add_locomotives locos c) = fold_left f32_add (traction_force <$> coupled locos) (con_total_traction_kn c).
Proof.
  unfold add_locomotives, coupled. destruct locos as [|v [|w locos]]; [done|done|].
  rewrite bool_decide_false by done. case_match; [apply add_tractions_sum|done].
Qed.

Lemma forallb_powered (p : Vehicle -> bool) vs :
  forallb (fun v => negb (powered v) || p v) vs = forallb p (filter (fun v => powered v) vs).
Proof.
  induction vs as [|v vs IH]; [done|]. cbn [forallb]. destruct (powered v) eqn:E.
  - rewrite filter_cons_True by (rewrite E; done). cbn. by rewrite IH.
  - rewrite filter_cons_False by (rewrite E; by intros []). exact IH.
Qed.

(** Either all powered locomotives pull, or the first one. *)
Lemma pulls_perm vs :
  select (pulls vs) vs ≡ₚ filter (fun v => wagon v) vs ++ coupled (filter (fun v => powered v) vs).
Proof.
  destruct (in_multiple vs) eqn:Hm.
  - rewrite (select_filter _ (fun v => wagon v || powered v)).
    2: { intros i v _. unfold pulls. by rewrite Hm, andb_true_r. }
    rewrite (filter_or_perm wagon powered) by apply wagon_powered. apply Permutation_app_head.
    unfold in_multiple in Hm. destruct (leader vs) as [[i l]|] eqn:Hl; [|done].
    destruct (leader_split vs i l Hl) as (a & b & -> & _ & _ & _ & Hf). rewrite Hf.
    rewrite forallb_powered, Hf in Hm. unfold coupled. rewrite Hm. by case_bool_decide as Hb; [rewrite Hb|].
  - destruct (leader vs) as [[i l]|] eqn:Hl.
    + destruct (leader_split vs i l Hl) as (a & b & Hvs & Hi & Hp & Ha & Hf).
      assert (coupled (filter (fun v => powered v) vs) = [l]) as ->.
      { rewrite Hf. unfold in_multiple in Hm. rewrite Hl, forallb_powered, Hf in Hm.
        unfold coupled. case_bool_decide; [done|]. by rewrite Hm. }
      assert (wagon l = false) as Hwl.
      { pose proof (wagon_powered l) as H. rewrite Hp, andb_true_r in H. exact H. }
      rewrite Hvs at 2 3. rewrite select_app, filter_app.
      rewrite (select_filter _ (fun v => wagon v) a).
      2: { intros j v Hj. unfold pulls. rewrite (Ha v) by (by eapply list_elem_of_lookup_2). apply orb_false_r. }
      rewrite filter_cons_False by (rewrite Hwl; by intros []). rewrite <- app_assoc. apply Permutation_app_head.
      assert (select (fun j => pulls vs (length a + j)) (l :: b) = l :: filter (fun v => wagon v) b) as ->.
      { unfold select. cbn [imap omap list_omap].
        assert (pulls vs (length a + 0) l = true) as ->.
        { unfold pulls. rewrite Hp, Hl, Nat.add_0_r, Hi. cbn. rewrite bool_decide_true by done. by rewrite !orb_true_r. }
        cbn [id]. f_equal. apply (select_filter (fun j => pulls vs (length a + S j))). intros j v _.
        unfold pulls. rewrite Hm, Hl, Hi. cbn. rewrite bool_decide_false by (intros [= ?]; lia).
        by rewrite andb_false_r, orb_false_r. }
      apply Permutation_cons_append.
    + rewrite leader_none by done. cbn [coupled]. rewrite app_nil_r.
      rewrite (select_filter _ (fun v => wagon v)); [done|]. intros i v _. unfold pulls. rewrite Hm, Hl. cbn.
      by rewrite andb_false_r, orb_false_r.
Qed.

(** The traction of a sum and its locomotives depend on nothing else of it. *)
Definition traction_part (s : ConsistSum) : float * list Vehicle :=
  (con_total_traction_kn (cs_consist s), cs_operational_locomotives s).

Lemma traction_part_add v s s' :
  traction_part s = traction_part s' -> traction_part (add_vehicle v s) = traction_part (add_vehicle v s').
Proof.
  unfold traction_part, add_vehicle. cbn [cs_consist cs_operational_locomotives]. intros [= H1 H2].
  rewrite H2. f_equal. by destruct (veh_traction_capable v && operational v && negb (is_locomotive_type _)); cbn; rewrite H1.
Qed.

Lemma registry_traction_part vs s s' :
  traction_part s = traction_part s' -> registry_traction vs s = registry_traction vs s'.
Proof.
  intros H. assert (traction_part (registry_sum vs s) = traction_part (registry_sum vs s')) as [= H1 H2].
  { unfold registry_sum. revert s s' H. induction vs as [|v vs IH]; intros s s' H; [done|]. by apply IH, traction_part_add. }
  unfold registry_traction. by rewrite !add_locomotives_sum, H1, H2.
Qed.

(** The empty sum. *)
Definition no_sum : ConsistSum :=
  mkConsistSum (mkTrainConsist UID_zero "" "" TrainCategory.FREIGHT None [] f32_zero 0 f32_zero f32_zero f32_max_value
    f32_zero f32_zero) f32_zero [].

(** The loop over [vehicle_uids] runs over the vehicles named there. *)
Lemma consist_entries_sum `{JsonLib} vehicles path items s s' :
  for_each (consist_entry vehicles path) items s = Ok s' ->
  exists us vs, con_vehicle_uids (cs_consist s') = con_vehicle_uids (cs_consist s) ++ us /\
    Forall2 (fun u v => vehicles !! u = Some v) us vs /\ traction_part s' = traction_part (registry_sum vs s).
Proof.
  revert s. induction items as [|item items IH]; intros s E.
  { injection E as <-. exists [], []. rewrite app_nil_r. by split_and!. }
  cbn [for_each] in E. apply bind_ok in E as (s1 & Hs1 & E). apply IH in E as (us & vs & Hus & Hvs & Hp).
  unfold consist_entry in Hs1. split_ok Hs1.
  match goal with E : get _ (vehicles !! ?u) = Ok ?v |- _ =>
    apply get_ok in E; exists (u :: us), (v :: vs) end. injection Hs1 as <-. split_and!.
  - rewrite Hus. unfold add_vehicle. cbn [cs_consist]. case_match; cbn; by rewrite <- app_assoc.
  - by constructor.
  - rewrite Hp. unfold registry_sum. cbn [fold_left]. clear.
    match goal with |- traction_part (fold_left _ _ ?a) = traction_part (fold_left _ _ ?b) =>
      assert (traction_part a = traction_part b) as H by (by apply traction_part_add); revert H;
      generalize a b; clear end.
    induction vs as [|v vs IH]; intros a b H; [done|]. by apply IH, traction_part_add.
Qed.

Lemma parse_consist_traction `{JsonLib} vehicles carriers f j c :
  parse_consist vehicles carriers f j = Ok c ->
  exists vs, Forall2 (fun u v => vehicles !! u = Some v) (con_vehicle_uids c) vs /\
    con_total_traction_kn c = registry_traction vs no_sum.
Proof.
  unfold parse_consist. intros Hc. split_ok Hc. injection Hc as <-.
  match goal with E : for_each _ _ _ = Ok ?o |- _ => apply consist_entries_sum in E as (us & vs & Hus & Hvs & Hp) end.
  exists vs. cbn [con_vehicle_uids cs_consist app] in Hus. split.
  - rewrite (proj1 (finish_consist_fields _)). cbn [cs_consist]. rewrite (proj1 (add_locomotives_fields _ _)), Hus. exact Hvs.
  - transitivity (registry_traction vs (mkConsistSum (mkTrainConsist UID_zero "" "" TrainCategory.FREIGHT None [] f32_zero 0
      f32_zero f32_zero f32_max_value f32_zero f32_zero) f32_zero [])); [|done].
    match type of Hp with _ = traction_part (registry_sum _ ?s0) => rewrite (registry_traction_part vs _ s0) by done end.
    injection Hp as Hp1 Hp2. unfold registry_traction. rewrite add_locomotives_sum, <- Hp1, <- Hp2, <- add_locomotives_sum.
    unfold finish_consist. cbn zeta. by destruct (SFeqb _ _).
Qed.

(** The registry and the train simulation agree on what pulls.  They
    compute the traction of a consist independently; for a loaded consist whose
    vehicles' flags tell the truth (what cannot pull has no traction data) the
    registry's total is the sum over the vehicles that pull in the simulation,
    once each, and there every vehicle has its own force if it pulls and none
    otherwise. *)
Theorem consist_traction_agrees `{JsonLib} d r u c :
  load d = Ok r -> consists_ r !! u = Some c ->
  exists vs, Forall2 (fun u v => vehicles_ r !! u = Some v) (con_vehicle_uids c) vs /\
    (Forall consistent vs ->
      (exists pulling, pulling ≡ₚ select (pulls vs) vs /\
        con_total_traction_kn c = fold_left f32_add (traction_force <$> pulling) f32_zero) /\
      imap (tractive vs) vs = imap (fun i v => if pulls vs i v then traction_force v else f32_zero) vs).
Proof.
  intros (_ & _ & _ & Hk)%load_ok Hu. apply load_consists_loop in Hk as (fk & _ & Hk).
  destruct (directory_entries _ _ _ _ _ _ _ Hk Hu) as (_ & f & _ & Hf).
  unfold parse_consist_file in Hf. split_ok Hf. apply parse_consist_traction in Hf as (vs & Hvs & Htr).
  exists vs. split; [done|]. intros Hc. split.
  - destruct (registry_sum_spec vs no_sum Hc) as [H1 H2]. cbn [app no_sum cs_operational_locomotives] in H2.
    exists (filter (fun v => wagon v) vs ++ coupled (filter (fun v => powered v) vs)). split; [by rewrite pulls_perm|].
    rewrite Htr. unfold registry_traction. by rewrite add_locomotives_sum, H1, H2, fmap_app, fold_left_app.
  - apply imap_ext. intros i v _. unfold tractive, pulls, wagon.
    by destruct (is_operational_traction_unit v && negb (is_locomotive v)).
Qed.

(** ** A concrete data directory *)

Module RegistryDemo.
Import JsonDemo.

Definition vehicle_type : value := JObject
  [("uid", JUnsigned 101); ("typeName", JString "ET22"); ("vehicleType", JString "Locomotive");
   ("vehicleSubtype", JString "Electric"); ("lengthM", JUnsigned 19); ("axleCount", JUnsigned 6);
   ("massEmptyT", JUnsigned 120); ("maxSpeedKmh", JUnsigned 125); ("brakingLambdaPct", JUnsigned 80);
   ("tractionForceKN", JUnsigned 412); ("multipleCouplingCapable", JBool true)]%string.
Definition vehicle (n : N) : value := JObject
  [("uid", JUnsigned n); ("pID", JString "ET22-001"); ("type_uid", JUnsigned 101); ("displayName", JString "ET22")]%string.
Definition consist (n : N) (vs : list N) : value := JObject
  [("uid", JUnsigned n); ("pID", JString "T1"); ("displayName", JString "Train"); ("trainCategory", JString "freight");
   ("vehicle_uids", JArray (JUnsigned <$> vs))]%string.
Definition file (path : string) (folder : option string) (j : value) : File := mkFile path folder (Parsed j).

Definition vehicle_files : list File :=
  [file "vehicles/1/vehicle.json" (Some "1"%string) (vehicle 1);
   file "vehicles/2/vehicle.json" (Some "2"%string) (vehicle 2)].
Definition data (vehicles : list File) : DataRoot := mkDataRoot "data"
  (Some [file "vehicle-types/et22.json" None vehicle_type]) (Some vehicles) None
  (Some [file "trains/freight/t1.json" (Some "freight"%string) (consist 7 [1; 2]%N)]).
Definition loaded : FleetRegistry :=
  match load (data vehicle_files) with Ok r => r | Throw _ => mkFleetRegistry ∅ ∅ ∅ ∅ end.
Lemma registry_loads : load (data vehicle_files) = Ok loaded.
Proof. by vm_compute. Qed.

End RegistryDemo.

Lemma load_well_formed_witness :
  exists c, consists_ RegistryDemo.loaded !! mkUID 7 = Some c /\ con_vehicle_uids c <> [].
Proof.
  destruct (load_well_formed (JL := JsonDemo.lib) (RegistryDemo.data RegistryDemo.vehicle_files) RegistryDemo.loaded
    RegistryDemo.registry_loads) as (_ & _ & _ & Hk).
  destruct (consists_ RegistryDemo.loaded !! mkUID 7) as [c|] eqn:E; [|by vm_compute in E].
  exists c. split; [reflexivity|]. destruct (Hk (mkUID 7) c E) as [_ [Hne _]]. exact Hne.
Defined.

Lemma load_order_irrelevant_witness :
  load (RegistryDemo.data (reverse RegistryDemo.vehicle_files)) = Ok RegistryDemo.loaded.
Proof.
  refine (proj1 (load_order_irrelevant (JL := JsonDemo.lib) (RegistryDemo.data RegistryDemo.vehicle_files)
    (RegistryDemo.data (reverse RegistryDemo.vehicle_files)) RegistryDemo.loaded RegistryDemo.registry_loads eq_refl eq_refl _ _ _)).
  - by constructor.
  - constructor. by rewrite reverse_Permutation.
  - by constructor.
Defined.

(** Both locomotives pull: 824 kN. *)
Lemma consist_traction_agrees_witness :
  exists vs pulling, pulling ≡ₚ select (pulls vs) vs /\
    fold_left f32_add (traction_force <$> pulling) f32_zero = f32_of_Z 824.
Proof.
  assert (exists c, consists_ RegistryDemo.loaded !! mkUID 7 = Some c /\ con_total_traction_kn c = f32_of_Z 824 /\
    Forall (fun u => forall v, vehicles_ RegistryDemo.loaded !! u = Some v -> veh_traction_capable v = true)
      (con_vehicle_uids c)) as (c & Hc & Ht & Hv).
  { destruct (consists_ RegistryDemo.loaded !! mkUID 7) as [c|] eqn:E; [|by vm_compute in E].
    exists c. split; [done|]. vm_compute in E. injection E as <-. split; [by vm_compute|].
    cbn [con_vehicle_uids]. repeat constructor; intros v Hv; vm_compute in Hv; by injection Hv as <-. }
  destruct (consist_traction_agrees (H := JsonDemo.lib) (RegistryDemo.data RegistryDemo.vehicle_files)
    RegistryDemo.loaded (mkUID 7) c RegistryDemo.registry_loads Hc) as (vs & Hvs & Hall).
  destruct Hall as [(pulling & Hp & Hsum) _].
  - revert Hv. clear -Hvs. induction Hvs as [|u v us vs Hu _ IH]; intros Hv; [constructor|].
    apply Forall_cons in Hv as [Hv1 Hv]. constructor; [|by apply IH]. intros Hf. by rewrite (Hv1 v Hu) in Hf.
  - exists vs, pulling. split; [exact Hp|]. by rewrite <- Hsum.
Defined.
