(* ===== verification/Topology.v ===== *)
(** * Topology: loading the world of a scenario

    [engine/src/topology_loader.cpp].  A scenario directory is given by its
    parsed documents; the engine state is threaded through the loaders.  The
    theorems say what a loaded world satisfies, and what several scenarios
    loaded into one world amount to. *)
From S2P Require Import Prelude Float32 Types Commands Track World Changes Interlocking Queues Loop Text Json.
Local Open Scope Z_scope.

Section Loader.
Context {JL : JsonLib}.

(** A document as [read_json] finds it. *)
Inductive Document : Type := CannotOpen | ParseError (what : string) | Parsed (j : json).

(* SRC engine/src/topology_loader.cpp 25-41 read_json *)
Definition read_json (path : string) (d : Document) : result json :=
  match d with
  | CannotOpen => Throw (runtime_error ("topology_loader: cannot open '" +:+ path +:+ "'"))
  | ParseError what =>
      Throw (runtime_error ("topology_loader: JSON parse error in '" +:+ path +:+ "': " +:+ what))
  | Parsed j => Ok j
  end.

(* SRC engine/src/topology_loader.cpp 43-49 require_uid_field *)
Definition require_uid_field (j : json) (key path : string) : result UID :=
  match j_find j key with
  | Some v =>
      if is_number_unsigned v then n ← get json_exception (get_u64 v); Ok (mkUID n)
      else Throw (runtime_error ("topology_loader: missing or invalid UID field '" +:+ key +:+ "' in " +:+ path))
  | None => Throw (runtime_error ("topology_loader: missing or invalid UID field '" +:+ key +:+ "' in " +:+ path))
  end.

(* SRC engine/src/topology_loader.cpp 53-56 station_uid_from_object_uid *)
Definition station_uid_from_object_uid (obj_uid : UID) : UID :=
  make_uid UIDDomain.INFRASTRUCTURE UIDKind.STATION (uid_scope obj_uid) 1.

(** [j.at(key).get<std::string>()]. *)
Definition string_at (j : json) (key : string) : result string :=
  v ← j_at j key; get json_exception (get_string v).
(** The loop over an array of identifiers. *)
Definition uid_items (v : json) : result (list UID) :=
  traverse (fun s => n ← get json_exception (get_u64 s); Ok (mkUID n)) (j_items v).
(** [if (j.contains("signalUIDs")) ...]. *)
Definition signal_uids_of (j : json) : result (list UID) :=
  match j_find j "signalUIDs" with Some v => uid_items v | None => Ok [] end.

(* SRC engine/src/topology_loader.cpp 58-80 parse_track_port *)
Definition parse_track_port (j : json) (path : string) : result TrackPort :=
  neighbor ← require_uid_field j "neighborUID" path;
  counter ← (if contains j "itUID" then u ← require_uid_field j "itUID" path; Ok (u, CounterKind.IT)
             else if contains j "izUID" then u ← require_uid_field j "izUID" path; Ok (u, CounterKind.IZ)
             else Ok (UID_zero, CounterKind.IT));
  signals ← signal_uids_of j;
  Ok (mkTrackPort neighbor counter.1 counter.2 signals).

(* SRC engine/src/topology_loader.cpp 82-94 parse_switch_leg *)
Definition parse_switch_leg (j : json) (path : string) : result SwitchLeg :=
  neighbor ← require_uid_field j "neighborUID" path;
  iz ← (if contains j "izUID" then require_uid_field j "izUID" path else Ok UID_zero);
  signals ← signal_uids_of j;
  Ok (mkSwitchLeg neighbor iz signals).

(* SRC engine/src/topology_loader.cpp 96-107 parse_signal_type *)
Definition parse_signal_type (s : string) : result SignalType.t :=
  if bool_decide (s = "ENTRY"%string) then Ok SignalType.ENTRY
  else if bool_decide (s = "DEPARTURE"%string) then Ok SignalType.DEPARTURE
  else if bool_decide (s = "BLOCK"%string) then Ok SignalType.BLOCK
  else if bool_decide (s = "SHUNTING"%string) then Ok SignalType.SHUNTING
  else Throw (runtime_error ("topology_loader: unknown signal type '" +:+ s +:+ "'")).

(* SRC engine/src/topology_loader.cpp 109-122 parse_initial_aspect *)
Definition parse_initial_aspect (s : string) : result SignalAspect.t :=
  if bool_decide (s = "STOP"%string) || bool_decide (s = "S1_STOP"%string) then Ok SignalAspect.S1_STOP
  else if bool_decide (s = "S2_PROCEED"%string) then Ok SignalAspect.S2_PROCEED
  else if bool_decide (s = "S3_PROCEED_40"%string) then Ok SignalAspect.S3_PROCEED_40
  else if bool_decide (s = "MS1_STOP"%string) then Ok SignalAspect.MS1_STOP
  else if bool_decide (s = "MS2_SHUNTING_ALLOWED"%string) then Ok SignalAspect.MS2_SHUNTING_ALLOWED
  else Throw (runtime_error ("topology_loader: unknown initial_aspect '" +:+ s +:+ "'")).

(* SRC engine/src/topology_loader.cpp 124-131 parse_block_state *)
Definition parse_block_state (s : string) : result BlockSectionState.t :=
  if bool_decide (s = "CLOSED"%string) then Ok BlockSectionState.CLOSED
  else if bool_decide (s = "OPEN"%string) then Ok BlockSectionState.OPEN
  else Throw (runtime_error ("topology_loader: unknown initialState '" +:+ s +:+ "'")).

(* SRC engine/src/topology_loader.cpp 133-142 parse_block_direction *)
Definition parse_block_direction (s : string) : result BlockDirectionState.t :=
  if bool_decide (s = "NEUTRAL"%string) then Ok BlockDirectionState.NEUTRAL
  else if bool_decide (s = "OUTBOUND"%string) then Ok BlockDirectionState.OUTBOUND
  else if bool_decide (s = "INBOUND"%string) then Ok BlockDirectionState.INBOUND
  else Throw (runtime_error ("topology_loader: unknown initialDirection '" +:+ s +:+ "'")).

(** ** The objects *)

(* SRC engine/src/topology_loader.cpp 150-154 load_boundary_node *)
Definition parse_boundary_node (j : json) (path : string) : result BoundaryNode :=
  uid ← require_uid_field j "uid" path;
  pid ← string_at j "pID";
  description ← j_value get_string j "description" ""%string;
  Ok (mkBoundaryNode uid pid (station_uid_from_object_uid uid) description).
(* SRC engine/src/topology_loader.cpp 160-170 load_track_section *)
Definition parse_track_section (j : json) (path : string) : result TrackSection :=
  uid ← require_uid_field j "uid" path;
  pid ← string_at j "pID";
  a ← j_at j "sideA"; side_a ← parse_track_port a path;
  b ← j_at j "sideB"; side_b ← parse_track_port b path;
  length_m ← j_value get_float j "lengthM" f32_zero;
  electrified ← j_value get_bool j "electrified" false;
  max_speed_kmh ← j_value get_int j "maxSpeedKmh" 0;
  occupied ← j_value get_bool j "occupied" false;
  station_section ← j_value get_bool j "station_section" true;
  Ok (mkTrackSection uid pid (station_uid_from_object_uid uid) side_a side_b length_m electrified max_speed_kmh
        station_section (if occupied : bool then TrackOccupancy.OCCUPIED else TrackOccupancy.FREE) 0 None
        OperatorCommandRuntimeState_default).
(* SRC engine/src/topology_loader.cpp 176-186 load_switch *)
Definition parse_switch (j : json) (path : string) : result Switch :=
  uid ← require_uid_field j "uid" path;
  pid ← string_at j "pID";
  type_id ← j_value get_string j "typeID" ""%string;
  t ← j_at j "trunk"; trunk ← parse_switch_leg t path;
  s ← j_at j "straight"; straight ← parse_switch_leg s path;
  d ← j_at j "divergent"; divergent ← parse_switch_leg d path;
  length_m ← j_value get_float j "lengthM" f32_zero;
  max_speed_straight_kmh ← j_value get_int j "maxSpeedStraightKmh" 0;
  max_speed_divergent_kmh ← j_value get_int j "maxSpeedDivergentKmh" 0;
  Ok (mkSwitch uid pid (station_uid_from_object_uid uid) type_id trunk straight divergent length_m
        max_speed_straight_kmh max_speed_divergent_kmh SwitchPosition.STRAIGHT false TrackOccupancy.FREE 0 None 0
        OperatorCommandRuntimeState_default).
(* SRC engine/src/topology_loader.cpp 192-206 load_block_section *)
Definition parse_block_section (j : json) (path : string) : result BlockSection :=
  uid ← require_uid_field j "uid" path;
  pid ← string_at j "pID";
  type_id ← j_value get_string j "type_id" "SHL-12"%string;
  neighbor_station_uid ← require_uid_field j "neighborStationUID" path;
  line_number ← j_value get_int j "lineNumber" 0;
  departure_signal_uid ← require_uid_field j "departureSignalUID" path;
  entry_signal_uid ← require_uid_field j "entrySignalUID" path;
  szlak ← (if negb (is_object j) then Throw json_exception
           else match j_find j "szlakSectionUIDs" with Some v => uid_items v | None => Ok [] end);
  state_name ← j_value get_string j "initialState" "CLOSED"%string;
  state ← parse_block_state state_name;
  direction_name ← j_value get_string j "initialDirection" "NEUTRAL"%string;
  direction ← parse_block_direction direction_name;
  Ok (mkBlockSection uid pid type_id (station_uid_from_object_uid uid) neighbor_station_uid line_number
        departure_signal_uid entry_signal_uid szlak state direction 0 OperatorCommandRuntimeState_default None).
(* SRC engine/src/topology_loader.cpp 212-219 load_signal *)
Definition parse_signal (j : json) (path : string) : result Signal :=
  uid ← require_uid_field j "uid" path;
  pid ← string_at j "pID";
  type_id ← j_value get_string j "typeID" ""%string;
  type_name ← string_at j "type"; type ← parse_signal_type type_name;
  governs ← require_uid_field j "governs_section" path;
  aspect_name ← j_value get_string j "initial_aspect" "STOP"%string;
  aspect ← parse_initial_aspect aspect_name;
  Ok (mkSignal uid pid (station_uid_from_object_uid uid) type_id type governs aspect None
        OperatorCommandRuntimeState_default).
(* SRC engine/src/topology_loader.cpp 225-231 load_derailer *)
Definition parse_derailer (j : json) (path : string) : result Derailer :=
  uid ← require_uid_field j "uid" path;
  pid ← string_at j "pID";
  type_id ← j_value get_string j "typeID" ""%string;
  guards ← require_uid_field j "guards_section" path;
  Ok (mkDerailer uid pid (station_uid_from_object_uid uid) type_id guards DerailerState.LOCKED None
        OperatorCommandRuntimeState_default).

(** A loader of the tables. *)
(* SRC engine/src/topology_loader.cpp 237-243 ObjectKind *)
Definition ObjectLoader : Type := EngineState.t -> json -> string -> result EngineState.t.

(* SRC engine/src/topology_loader.cpp 148-156 load_boundary_node *)
Definition load_boundary_node : ObjectLoader := fun state j path =>
  bn ← parse_boundary_node j path; Ok (EngineState.insert_boundary_node state bn).
(* SRC engine/src/topology_loader.cpp 158-172 load_track_section *)
Definition load_track_section : ObjectLoader := fun state j path =>
  ts ← parse_track_section j path; Ok (EngineState.insert_track_section state ts).
(* SRC engine/src/topology_loader.cpp 174-188 load_switch *)
Definition load_switch : ObjectLoader := fun state j path =>
  sw ← parse_switch j path; Ok (EngineState.insert_switch state sw).
(* SRC engine/src/topology_loader.cpp 190-208 load_block_section *)
Definition load_block_section : ObjectLoader := fun state j path =>
  bs ← parse_block_section j path; Ok (EngineState.insert_block_section state bs).
(* SRC engine/src/topology_loader.cpp 210-221 load_signal *)
Definition load_signal : ObjectLoader := fun state j path =>
  sig ← parse_signal j path; Ok (EngineState.insert_signal state sig).
(* SRC engine/src/topology_loader.cpp 223-233 load_derailer *)
Definition load_derailer : ObjectLoader := fun state j path =>
  der ← parse_derailer j path; Ok (EngineState.insert_derailer state der).

(* SRC engine/src/topology_loader.cpp 245-250 kTopologyKinds *)
Definition kTopologyKinds : list (string * ObjectLoader) :=
  [("boundary_nodes", load_boundary_node); ("track_sections", load_track_section);
   ("switches", load_switch); ("block_sections", load_block_section)]%string.
(* SRC engine/src/topology_loader.cpp 252-255 kObjectsKinds *)
Definition kObjectsKinds : list (string * ObjectLoader) :=
  [("signals", load_signal); ("derailers", load_derailer)]%string.

(* SRC engine/src/topology_loader.cpp 257-263 load_object_arrays *)
Definition load_object_arrays (state : EngineState.t) (doc : json) (path : string)
    (kinds : list (string * ObjectLoader)) : result EngineState.t :=
  for_each (fun state kind =>
    items ← j_value (fun v => Some (j_items v)) doc kind.1 [];
    for_each (fun state j => kind.2 state j path) items state) kinds state.

(** ** Scenarios *)

(* SRC engine/include/engine/core/topology_loader.hpp 18-23 ScenarioMeta *)
Record ScenarioMeta := mkScenarioMeta {
  sm_station_sid : string; sm_control_system_id : string; sm_schema_version : Z }.

(** A scenario directory; [objects.json] may be missing. *)
Record Scenario := mkScenario {
  sc_dir : string; sc_meta : Document; sc_topology : Document; sc_objects : option Document }.

(* SRC engine/src/topology_loader.cpp 269-290 load_scenario *)
Definition load_scenario (state : EngineState.t) (dir : Scenario) : result (EngineState.t * ScenarioMeta) :=
  meta ← read_json (sc_dir dir +:+ "/meta.json") (sc_meta dir);
  station_sid ← string_at meta "station_sid";
  control_system_id ← string_at meta "control_system";
  schema_version ← j_value get_int meta "schema_version" 1;
  let state := EngineState.set_session_id state station_sid in
  let topo_path := (sc_dir dir +:+ "/topology.json")%string in
  topology ← read_json topo_path (sc_topology dir);
  state ← load_object_arrays state topology topo_path kTopologyKinds;
  let objects_path := (sc_dir dir +:+ "/objects.json")%string in
  state ← match sc_objects dir with
          | Some d => objects ← read_json objects_path d; load_object_arrays state objects objects_path kObjectsKinds
          | None => Ok state
          end;
  Ok (state, mkScenarioMeta station_sid control_system_id schema_version).

(** The body of the loop over the scenarios. *)
(* SRC engine/src/topology_loader.cpp 302-305 load_world *)
Definition load_one (acc : EngineState.t * list ScenarioMeta) (dir : Scenario) :
    result (EngineState.t * list ScenarioMeta) :=
  let '(state, results) := acc in
  '(state, meta) ← load_scenario state dir; Ok (state, results ++ [meta]).

(* SRC engine/src/topology_loader.cpp 292-312 load_world *)
Definition load_world (state : EngineState.t) (scenario_dirs : list Scenario) :
    result (EngineState.t * list ScenarioMeta) :=
  _ ← throw_if (bool_decide (scenario_dirs = [])) (runtime_error "load_world: scenario_dirs must not be empty");
  r ← for_each load_one scenario_dirs (state, []);
  let '(state, results) := r in
  match results with
  | front :: _ => Ok (EngineState.set_session_id state (sm_station_sid front), results)
  | [] => Ok (state, results)
  end.

(** ** A scenario as a list of objects *)

(** [insert_*] of any object; routes and alarms are not loaded. *)
Definition insert_obj (s : EngineState.t) (o : Obj) : EngineState.t :=
  match o with
  | OBoundaryNode x => EngineState.insert_boundary_node s x
  | OTrackSection x => EngineState.insert_track_section s x
  | OSwitch x => EngineState.insert_switch s x
  | OSignal x => EngineState.insert_signal s x
  | ODerailer x => EngineState.insert_derailer s x
  | OBlockSection x => EngineState.insert_block_section s x
  | OLevelCrossing x => EngineState.insert_level_crossing s x
  | ORoute _ | OAlarm _ => s
  end.
Definition insert_all (s : EngineState.t) (os : list Obj) : EngineState.t := fold_left insert_obj os s.

Definition slot_of (o : Obj) : Slot :=
  match o with
  | OBoundaryNode x => SlBoundaryNode (bn_uid x) | OTrackSection x => SlTrackSection (ts_uid x)
  | OSwitch x => SlSwitch (sw_uid x) | OSignal x => SlSignal (sig_uid x) | ODerailer x => SlDerailer (der_uid x)
  | OBlockSection x => SlBlockSection (bs_uid x) | ORoute x => SlRoute (rt_uid x) | OAlarm x => SlAlarm (al_uid x)
  | OLevelCrossing x => SlLevelCrossing (lx_uid x)
  end.

(** An object as it is before anything happened to it. *)
Definition at_rest (o : Obj) : Prop :=
  match o with
  | OBoundaryNode _ => True
  | OTrackSection x => ts_axle_count x = 0 /\ ts_operator_state x = OperatorCommandRuntimeState_default
  | OSwitch x => sw_position x = SwitchPosition.STRAIGHT /\ sw_locked_by_route_uid x = None /\
      sw_control_lost x = false /\ sw_occupancy x = TrackOccupancy.FREE /\ sw_moving_ticks_remaining x = 0
  | OSignal x => sig_locked_by_route_uid x = None /\
      sig_current_aspect x ∈ [SignalAspect.S1_STOP; SignalAspect.S2_PROCEED; SignalAspect.S3_PROCEED_40;
        SignalAspect.MS1_STOP; SignalAspect.MS2_SHUNTING_ALLOWED]
  | ODerailer x => der_state x = DerailerState.LOCKED /\ der_locked_by_route_uid x = None
  | OBlockSection x => bs_axle_count x = 0 /\
      bs_direction x ∈ [BlockDirectionState.NEUTRAL; BlockDirectionState.OUTBOUND; BlockDirectionState.INBOUND]
  | ORoute _ | OAlarm _ | OLevelCrossing _ => False
  end.

(** The first object of the list for a slot. *)
Definition first_for (sl : Slot) (os : list Obj) : option Obj :=
  List.find (fun o => bool_decide (slot_of o = sl)) os.

Lemma read_insert_obj s o sl :
  at_rest o ->
  read (insert_obj s o) sl = if decide (slot_of o = sl) then Some (default o (read s sl)) else read s sl.
Proof.
  intros Hr. destruct o, sl; try done; cbn [insert_obj slot_of]; unfold EngineState.insert_boundary_node,
    EngineState.insert_track_section, EngineState.insert_switch, EngineState.insert_signal, EngineState.insert_derailer,
    EngineState.insert_block_section; cbn; rewrite ?lookup_emplace; repeat case_decide; try congruence.
  all: simplify_eq; match goal with |- context [?m !! ?k] => by destruct (m !! k) end.
Qed.

Lemma read_insert_all s os sl :
  Forall at_rest os ->
  read (insert_all s os) sl = match read s sl with Some o => Some o | None => first_for sl os end.
Proof.
  intros Hr. revert s. induction Hr as [|o os Ho _ IH]; intros s; [cbn; by destruct (read s sl)|].
  change (insert_all s (o :: os)) with (insert_all (insert_obj s o) os). rewrite IH, read_insert_obj by done.
  unfold first_for. cbn [List.find]. destruct (decide (slot_of o = sl)) as [E|E].
  - rewrite bool_decide_true by done. by destruct (read s sl).
  - by rewrite bool_decide_false.
Qed.

Lemma insert_all_app s os ps : insert_all s (os ++ ps) = insert_all (insert_all s os) ps.
Proof. apply fold_left_app. Qed.

Lemma insert_all_meta s os :
  EngineState.session_id_ (insert_all s os) = EngineState.session_id_ s /\
  EngineState.current_tick_ (insert_all s os) = EngineState.current_tick_ s.
Proof.
  revert s. induction os as [|o os IH]; intros s; [done|]. destruct (IH (insert_obj s o)) as [H1 H2].
  change (insert_all s (o :: os)) with (insert_all (insert_obj s o) os). rewrite H1, H2. by destruct o.
Qed.

(** What the loaders read, without the state: the objects of the arrays, in order. *)
Definition objects_in (doc : json) (path : string) (kinds : list (string * (json -> string -> result Obj))) :
    result (list Obj) :=
  oss ← traverse (fun kind => items ← j_value (fun v => Some (j_items v)) doc kind.1 [];
                    traverse (fun j => kind.2 j path) items) kinds;
  Ok (concat oss).

Definition topology_objects : list (string * (json -> string -> result Obj)) :=
  [("boundary_nodes", fun j path => OBoundaryNode <$> parse_boundary_node j path);
   ("track_sections", fun j path => OTrackSection <$> parse_track_section j path);
   ("switches", fun j path => OSwitch <$> parse_switch j path);
   ("block_sections", fun j path => OBlockSection <$> parse_block_section j path)]%string.
Definition movable_objects : list (string * (json -> string -> result Obj)) :=
  [("signals", fun j path => OSignal <$> parse_signal j path);
   ("derailers", fun j path => ODerailer <$> parse_derailer j path)]%string.

Definition objects_of (dir : Scenario) : result (list Obj * ScenarioMeta) :=
  meta ← read_json (sc_dir dir +:+ "/meta.json") (sc_meta dir);
  station_sid ← string_at meta "station_sid";
  control_system_id ← string_at meta "control_system";
  schema_version ← j_value get_int meta "schema_version" 1;
  topology ← read_json (sc_dir dir +:+ "/topology.json") (sc_topology dir);
  os ← objects_in topology (sc_dir dir +:+ "/topology.json") topology_objects;
  ps ← match sc_objects dir with
       | Some d => objects ← read_json (sc_dir dir +:+ "/objects.json") d;
                   objects_in objects (sc_dir dir +:+ "/objects.json") movable_objects
       | None => Ok []
       end;
  Ok (os ++ ps, mkScenarioMeta station_sid control_system_id schema_version).

(** A loader that inserts what [parse] reads. *)
Definition inserts (load : ObjectLoader) (parse : json -> string -> result Obj) : Prop :=
  forall s j path, load s j path = insert_obj s <$> parse j path.

Lemma for_each_inserts load parse path items s :
  inserts load parse ->
  for_each (fun s j => load s j path) items s = insert_all s <$> traverse (fun j => parse j path) items.
Proof.
  intros Hl. revert s. induction items as [|j items IH]; intros s; [done|]. cbn. rewrite Hl.
  destruct (parse j path) as [o|e]; [|done]. cbn. rewrite IH. by destruct (traverse _ items).
Qed.

Lemma load_object_arrays_eq doc path kinds parsers s :
  Forall2 (fun k p => k.1 = p.1 /\ inserts k.2 p.2) kinds parsers ->
  load_object_arrays s doc path kinds = insert_all s <$> objects_in doc path parsers.
Proof.
  intros H. revert s. unfold load_object_arrays, objects_in.
  induction H as [|k p kinds parsers [Hk Hl] _ IH]; intros s; [done|]. destruct k as [key load], p as [key' parse].
  cbn [fst snd] in Hk, Hl. subst key'. cbn [for_each traverse fst snd].
  destruct (j_value _ doc key []) as [items|e]; [|done]. cbn [mbind result_bind].
  rewrite (for_each_inserts load parse path items s Hl).
  destruct (traverse _ items) as [os|e]; [|done]. cbn [mbind result_bind fmap result_fmap]. rewrite IH.
  destruct (traverse _ parsers) as [oss|e]; [|done]. cbn -[insert_all]. by rewrite insert_all_app.
Qed.

Lemma topology_inserts : Forall2 (fun k p => k.1 = p.1 /\ inserts k.2 p.2) kTopologyKinds topology_objects.
Proof.
  repeat constructor; intros s j path; cbn [snd];
    unfold load_boundary_node, load_track_section, load_switch, load_block_section.
  - by destruct (parse_boundary_node j path).
  - by destruct (parse_track_section j path).
  - by destruct (parse_switch j path).
  - by destruct (parse_block_section j path).
Qed.

Lemma movable_inserts : Forall2 (fun k p => k.1 = p.1 /\ inserts k.2 p.2) kObjectsKinds movable_objects.
Proof.
  repeat constructor; intros s j path; cbn [snd]; unfold load_signal, load_derailer.
  - by destruct (parse_signal j path).
  - by destruct (parse_derailer j path).
Qed.

(** A scenario loads in the same way into any state. *)
Lemma load_scenario_eq s dir :
  load_scenario s dir =
    (fun '(os, m) => (insert_all (EngineState.set_session_id s (sm_station_sid m)) os, m)) <$> objects_of dir.
Proof.
  unfold load_scenario, objects_of.
  destruct (read_json _ (sc_meta dir)) as [meta|e]; [cbn [mbind result_bind]|done].
  destruct (string_at meta "station_sid") as [sid|e]; [cbn [mbind result_bind]|done].
  destruct (string_at meta "control_system") as [cid|e]; [cbn [mbind result_bind]|done].
  destruct (j_value get_int meta "schema_version" 1) as [v|e]; [cbn [mbind result_bind]|done].
  destruct (read_json _ (sc_topology dir)) as [t|e]; [cbn [mbind result_bind]|done].
  rewrite (load_object_arrays_eq _ _ _ _ _ topology_inserts).
  destruct (objects_in t _ topology_objects) as [os|e]; [cbn [mbind result_bind fmap result_fmap]|done].
  destruct (sc_objects dir) as [d|]; [|cbn; by rewrite app_nil_r].
  destruct (read_json _ d) as [o|e]; [cbn [mbind result_bind]|done].
  rewrite (load_object_arrays_eq _ _ _ _ _ movable_inserts).
  destruct (objects_in o _ movable_objects) as [ps|e]; [|done]. cbn -[insert_all]. by rewrite insert_all_app.
Qed.

(** The entries of the arrays and the objects read, one for one. *)
Lemma objects_in_elem doc path kinds os o :
  objects_in doc path kinds = Ok os ->
  o ∈ os <-> exists kind items j, kind ∈ kinds /\ j_value (fun v => Some (j_items v)) doc kind.1 [] = Ok items /\
    j ∈ items /\ kind.2 j path = Ok o.
Proof.
  unfold objects_in. intros H. split_ok H. injection H as <-. revert x E.
  induction kinds as [|k kinds IH]; intros oss E.
  - injection E as <-. cbn. split; [by intros ?%not_elem_of_nil|]. by intros (? & ? & ? & ?%not_elem_of_nil & _).
  - cbn in E. split_ok E. injection E as <-. cbn [concat]. rewrite elem_of_app, (IH _ E1). clear IH E1.
    split_ok E0. apply traverse_Forall2 in E0. split.
    + intros [Ho|(k' & items & j & Hk & H)]; [|exists k', items, j; split; [by right|done]].
      apply list_elem_of_lookup in Ho as [n Hn]. destruct (Forall2_lookup_r _ _ _ _ _ E0 Hn) as (j & Hj & Hp).
      exists k, x1, j. split_and!; try done; [by left|]. by eapply list_elem_of_lookup_2.
    + intros (k' & items & j & Hk & Hi & Hj & Hp). apply elem_of_cons in Hk as [->|Hk]; [left|right; by exists k', items, j].
      rewrite Hi in E. injection E as <-. apply list_elem_of_lookup in Hj as [n Hn].
      destruct (Forall2_lookup_l _ _ _ _ _ E0 Hn) as (o' & Ho & Hp'). cbv beta in Hp'. rewrite Hp in Hp'.
      injection Hp' as <-. by eapply list_elem_of_lookup_2.
Qed.

(** Of an array that was read, every entry was parsed. *)
Lemma objects_in_parsed doc path kinds os kind items j :
  objects_in doc path kinds = Ok os -> kind ∈ kinds ->
  j_value (fun v => Some (j_items v)) doc kind.1 [] = Ok items -> j ∈ items ->
  exists o, kind.2 j path = Ok o /\ o ∈ os.
Proof.
  unfold objects_in. intros H Hk Hi Hj. split_ok H. injection H as <-. apply traverse_Forall2 in E.
  apply list_elem_of_lookup in Hk as [n Hn]. destruct (Forall2_lookup_l _ _ _ _ _ E Hn) as (os & Hos & Hp).
  cbv beta in Hp. rewrite Hi in Hp. cbn in Hp. apply traverse_Forall2 in Hp.
  apply list_elem_of_lookup in Hj as [k Hj]. destruct (Forall2_lookup_l _ _ _ _ _ Hp Hj) as (o & Ho & Hpo).
  exists o. split; [done|]. apply list_elem_of_In, in_concat. exists os.
  split; apply list_elem_of_In; by eapply list_elem_of_lookup_2.
Qed.

Lemma parse_initial_aspect_at_rest name a :
  parse_initial_aspect name = Ok a ->
  a ∈ [SignalAspect.S1_STOP; SignalAspect.S2_PROCEED; SignalAspect.S3_PROCEED_40;
        SignalAspect.MS1_STOP; SignalAspect.MS2_SHUNTING_ALLOWED].
Proof. unfold parse_initial_aspect. intros H. repeat case_match; simplify_eq; set_solver. Qed.

Lemma parse_block_direction_at_rest name d :
  parse_block_direction name = Ok d ->
  d ∈ [BlockDirectionState.NEUTRAL; BlockDirectionState.OUTBOUND; BlockDirectionState.INBOUND].
Proof. unfold parse_block_direction. intros H. repeat case_match; simplify_eq; set_solver. Qed.

Lemma fmap_ok {A B} (f : A -> B) (r : result A) b : f <$> r = Ok b <-> exists a, r = Ok a /\ b = f a.
Proof. destruct r; cbn; split; [intros [= <-]; eauto|by intros (? & [= ->] & ->)|done|by intros (? & ? & _)]. Qed.

Lemma parsed_at_rest kind j path o :
  kind ∈ topology_objects ++ movable_objects -> kind.2 j path = Ok o -> at_rest o.
Proof.
  intros Hk. cbn in Hk. repeat (apply elem_of_cons in Hk as [->|Hk]; [cbn [snd]; intros (x & H & ->)%fmap_ok|]);
    [..|by apply not_elem_of_nil in Hk]; [done|..];
    unfold parse_track_section, parse_switch, parse_block_section, parse_signal, parse_derailer in H;
    split_ok H; injection H as <-; cbn; eauto using parse_initial_aspect_at_rest, parse_block_direction_at_rest.
Qed.

Lemma objects_of_at_rest dir os m : objects_of dir = Ok (os, m) -> Forall at_rest os.
Proof.
  unfold objects_of. intros H. split_ok H. injection H as <- _. apply Forall_app. split.
  - apply Forall_forall. intros o Ho. apply (objects_in_elem _ _ _ _ o E4) in Ho as (k & items & j & Hk & _ & _ & Hp).
    eapply parsed_at_rest; [|exact Hp]. apply elem_of_app. by left.
  - apply Forall_forall. intros o Ho. destruct (sc_objects dir) as [d|]; [|injection E5 as <-; by apply not_elem_of_nil in Ho].
    split_ok E5. apply (objects_in_elem _ _ _ _ o E5) in Ho as (k & items & j & Hk & _ & _ & Hp).
    eapply parsed_at_rest; [|exact Hp]. apply elem_of_app. by right.
Qed.

(** ** Several scenarios in one world *)

(** The world a scenario makes on its own. *)
Definition alone (dir : Scenario) : result (EngineState.t * ScenarioMeta) := load_scenario EngineState.empty dir.

Lemma alone_spec dir :
  (exists e, alone dir = Throw e /\ forall s, load_scenario s dir = Throw e) \/
  (exists os m, Forall at_rest os /\
    alone dir = Ok (insert_all (EngineState.set_session_id EngineState.empty (sm_station_sid m)) os, m) /\
    forall s, load_scenario s dir = Ok (insert_all (EngineState.set_session_id s (sm_station_sid m)) os, m)).
Proof.
  destruct (objects_of dir) as [[os m]|e] eqn:E; [right|left].
  - exists os, m. unfold alone. split_and!; [by eapply objects_of_at_rest| |intros s]; by rewrite load_scenario_eq, E.
  - exists e. unfold alone. split; [|intros s]; by rewrite load_scenario_eq, E.
Qed.

Lemma read_set_session_id s id sl : read (EngineState.set_session_id s id) sl = read s sl.
Proof. by destruct sl. Qed.

Lemma read_empty sl : read EngineState.empty sl = None.
Proof. destruct sl; cbn; by rewrite lookup_empty. Qed.

(** The loop of [load_world], from any state. *)
Lemma load_loop dirs s metas :
  match traverse alone dirs with
  | Throw e => for_each load_one dirs (s, metas) = Throw e
  | Ok worlds => exists s', for_each load_one dirs (s, metas) = Ok (s', metas ++ worlds.*2) /\
      EngineState.current_tick_ s' = EngineState.current_tick_ s /\
      (exists os, Forall at_rest os /\ forall sl, read s' sl = read (insert_all s os) sl) /\
      forall sl, read s' sl = head (option_list (read s sl) ++ omap (fun w => read w.1 sl) worlds)
  end.
Proof.
  revert s metas. induction dirs as [|dir dirs IH]; intros s metas.
  - exists s. split_and!; [by rewrite app_nil_r|done|by exists []|]. intros sl. cbn. by destruct (read s sl).
  - cbn [traverse for_each]. destruct (alone_spec dir) as [(e & -> & Hl)|(os & m & Hos & -> & Hl)].
    { cbn. by rewrite Hl. }
    cbn [mbind result_bind load_one]. rewrite Hl. cbn [mbind result_bind].
    specialize (IH (insert_all (EngineState.set_session_id s (sm_station_sid m)) os) (metas ++ [m])).
    destruct (traverse alone dirs) as [worlds|e]; cbn [mbind result_bind]; [|done].
    destruct IH as (s' & E & Ht & (ps & Hps & Hread) & Hw). exists s'. split_and!.
    + rewrite E. cbn. by rewrite <-app_assoc.
    + by rewrite Ht, (proj2 (insert_all_meta _ _)).
    + exists (os ++ ps). split; [by apply Forall_app|]. intros sl. rewrite Hread, insert_all_app, !read_insert_all by done.
      by rewrite read_set_session_id.
    + intros sl. rewrite Hw. cbn [omap list_omap fst]. rewrite !read_insert_all, !read_set_session_id, read_empty by done.
      by destruct (read s sl), (first_for sl os).
Qed.

(** Loading several scenarios into one world is loading each on its own and keeping, for every
    identifier and kind, the object of the first scenario that has it.  The world fails exactly when
    a scenario fails, with the exception of the first that does; its session is that of the first
    scenario, the primary one, and every scenario has its entry in the result, in order. *)
Theorem load_world_merges dir dirs :
  match traverse alone (dir :: dirs) with
  | Throw e => load_world EngineState.empty (dir :: dirs) = Throw e
  | Ok worlds => exists s, load_world EngineState.empty (dir :: dirs) = Ok (s, worlds.*2) /\
      (forall sl, read s sl = head (omap (fun w => read w.1 sl) worlds)) /\
      Some (EngineState.session_id_ s) = sm_station_sid <$> head worlds.*2 /\
      EngineState.current_tick_ s = 0
  end.
Proof.
  pose proof (load_loop (dir :: dirs) EngineState.empty []) as H. unfold load_world. rewrite bool_decide_false by done. cbn [throw_if mbind result_bind].
  destruct (traverse alone (dir :: dirs)) as [worlds|e] eqn:E; [|by rewrite H].
  destruct H as (s' & Hl & Ht & _ & Hr). apply traverse_Forall2 in E.
  apply Forall2_cons_inv_l in E as (w & ws & _ & _ & ->). rewrite Hl. cbn [mbind result_bind fmap list_fmap app].
  eexists. split; [reflexivity|]. split_and!; [|done|done]. intros sl. rewrite read_set_session_id, Hr, read_empty. done.
Qed.

(** The world of one scenario. *)
Lemma load_single sc s metas :
  load_world EngineState.empty [sc] = Ok (s, metas) ->
  exists os m, objects_of sc = Ok (os, m) /\ metas = [m] /\ forall sl, read s sl = first_for sl os.
Proof.
  unfold load_world. intros H. split_ok H. cbn [for_each] in E0. split_ok E0. injection E0 as <-.
  unfold load_one in E1. rewrite load_scenario_eq in E1. destruct (objects_of sc) as [[os m]|e] eqn:Eo; [|done].
  cbn in E1. injection E1 as <-. cbn in H. injection H as <- <-. exists os, m. split_and!; [done..|]. intros sl.
  rewrite read_set_session_id, read_insert_all, read_set_session_id, read_empty; [done|]. by eapply objects_of_at_rest.
Qed.

Lemma load_world_objects dirs s metas :
  load_world EngineState.empty dirs = Ok (s, metas) ->
  (exists os, Forall at_rest os /\ forall sl, read s sl = first_for sl os) /\
  length metas = length dirs /\ Some (EngineState.session_id_ s) = sm_station_sid <$> head metas.
Proof.
  intros H. pose proof (load_loop dirs EngineState.empty []) as Hloop. unfold load_world in H. split_ok H.
  apply bool_decide_eq_false in E.
  destruct (traverse alone dirs) as [worlds|e] eqn:Ew; [|congruence].
  destruct Hloop as (s' & El & _ & (os & Hos & Hread) & _). rewrite El in E0. injection E0 as <-. cbn in H.
  apply traverse_Forall2 in Ew. pose proof (Forall2_length _ _ _ Ew) as Hlen.
  destruct worlds as [|w ws]; [by destruct dirs|]. cbn in H. injection H as <- <-. split_and!.
  - exists os. split; [done|]. intros sl. rewrite read_set_session_id, Hread, read_insert_all, read_empty by done. done.
  - rewrite Hlen. cbn. f_equal. apply (length_fmap snd).
  - done.
Qed.

Lemma first_for_elem sl os o : first_for sl os = Some o -> o ∈ os /\ slot_of o = sl.
Proof.
  intros [Hin Hb]%find_some. apply list_elem_of_In in Hin. by apply bool_decide_eq_true in Hb.
Qed.

Lemma slot_of_uid o : obj_uid o = slot_uid (slot_of o).
Proof. by destruct o. Qed.

(** A loaded world is well formed and at rest.  Every object stands under its own identifier;
    there are no routes, alarms or level crossings; switches are straight, unlocked, controlled and
    not moving, derailers are locked and belong to no route, axle counters are at zero, signals
    show one of the five initial aspects and are not held by a route. *)
Theorem loaded_world_at_rest dirs s metas :
  load_world EngineState.empty dirs = Ok (s, metas) ->
  keyed s /\ (forall sl o, read s sl = Some o -> at_rest o) /\
  EngineState.routes s = ∅ /\ EngineState.alarms s = ∅ /\ EngineState.level_crossings s = ∅ /\
  length metas = length dirs /\ Some (EngineState.session_id_ s) = sm_station_sid <$> head metas.
Proof.
  intros H. destruct (load_world_objects _ _ _ H) as ((os & Hos & Hr) & Hl & Hs).
  assert (forall sl o, read s sl = Some o -> at_rest o) as Hrest.
  { intros sl o. rewrite Hr. intros [Hin _]%first_for_elem. by apply (proj1 (Forall_forall _ _) Hos). }
  split_and!; try done.
  - intros sl o. rewrite Hr. intros [_ <-]%first_for_elem. apply slot_of_uid.
  - apply map_empty. intros u. destruct (EngineState.routes s !! u) eqn:E; [|done].
    destruct (Hrest (SlRoute u) (ORoute r)). cbn. by rewrite E.
  - apply map_empty. intros u. destruct (EngineState.alarms s !! u) eqn:E; [|done].
    destruct (Hrest (SlAlarm u) (OAlarm a)). cbn. by rewrite E.
  - apply map_empty. intros u. destruct (EngineState.level_crossings s !! u) eqn:E; [|done].
    destruct (Hrest (SlLevelCrossing u) (OLevelCrossing l)). cbn. by rewrite E.
Qed.

(** ** The loaded world under the engine *)

Section Engine.
Context {MO : MapOrder} {C : Type} {CS : ControlSystem C EngineState.t}.

(** What a run keeps of the world it starts from: the topology, and the keys. *)
Definition same_topology (s s' : EngineState.t) : Prop :=
  keyed s' /\ forall sl, is_topology sl = true -> static_part <$> read s' sl = static_part <$> read s sl.

Lemma same_topology_apply s s' c : same_topology s s' -> same_topology s (StateApplier s' c).
Proof.
  intros [Hk Ht]. split; [by apply StateApplier_keyed|]. intros sl Hsl. rewrite StateApplier_topology by done. auto.
Qed.

Lemma same_topology_steps s (c c' : C * EngineState.t) :
  rtc sys_step c c' -> same_topology s c.2 -> same_topology s c'.2.
Proof.
  apply sys_invariant.
  - intros. by apply same_topology_apply.
  - intros. by apply same_topology_apply.
  - intros s' u occ n H. exact (same_topology_apply s s' (DTrackSectionOccupancy (mkTrackSectionOccupancyChange u occ n UID_zero)) H).
  - intros s' t [Hk Ht]. split; [intros sl o Ho; apply Hk; by destruct sl|].
    intros sl Hsl. rewrite <-Ht by done. by destruct sl.
Qed.

(** The topology of the scenarios is never lost.  Whatever commands and fleet requests are
    queued and however often the engine ticks after the world was loaded, every object still stands
    under its own identifier, no object has appeared or disappeared but routes and alarms, and all
    of its fields that describe the layout are those the loader read from the files. *)
Theorem loaded_world_topology_kept dirs s metas control queue callbacks (self' : EngineLoop.t C) :
  load_world EngineState.empty dirs = Ok (s, metas) ->
  rtc loop_step (EngineLoop.create s control queue callbacks) self' ->
  keyed (EngineLoop.state_ self') /\
  forall sl, is_topology sl = true ->
    static_part <$> read (EngineLoop.state_ self') sl = static_part <$> read s sl.
Proof.
  intros H Hr. apply loop_steps_world in Hr. apply (same_topology_steps s _ _ Hr). split; [|done].
  destruct (load_world_objects _ _ _ H) as ((os & _ & Hread) & _). intros sl o. cbn [snd].
  change (EngineLoop.state_ _) with s. rewrite Hread. intros [_ <-]%first_for_elem. apply slot_of_uid.
Qed.
End Engine.
End Loader.

(** ** Two scenarios *)

Module TopologyDemo.
Import JsonDemo.

Definition meta (sid : string) : Document :=
  Parsed (JObject [("station_sid", JString sid); ("control_system", JString "ebilock")])%string.
Definition port (n : N) : value := JObject [("neighborUID", JUnsigned n); ("itUID", JUnsigned 900)]%string.
Definition section (u : N) (pid : string) (a b : N) : value := JObject
  [("uid", JUnsigned u); ("pID", JString pid); ("sideA", port a); ("sideB", port b); ("occupied", JBool true)]%string.
Definition signal (u : N) (aspect : string) : value := JObject
  [("uid", JUnsigned u); ("pID", JString "A"); ("type", JString "ENTRY"); ("governs_section", JUnsigned 11);
   ("initial_aspect", JString aspect)]%string.
Definition scenario (sid : string) (topology : list (string * value)) (objects : option Document) : Scenario :=
  mkScenario sid (meta sid) (Parsed (JObject topology)) objects.

(** Both scenarios bring section 11, under different names. *)
Definition west : Scenario := scenario "West"
  [("track_sections", JArray [section 11 "it11" 1 12])]%string
  (Some (Parsed (JObject [("signals", JArray [signal 21 "STOP"])])))%string.
Definition east : Scenario := scenario "East"
  [("track_sections", JArray [section 11 "szl11" 1 12; section 12 "it12" 11 2])]%string None.
Definition loaded : EngineState.t :=
  match load_world EngineState.empty [west; east] with Ok (s, _) => s | Throw _ => EngineState.empty end.
Definition metas : list ScenarioMeta := [mkScenarioMeta "West" "ebilock" 1; mkScenarioMeta "East" "ebilock" 1].
Lemma world_loads : load_world EngineState.empty [west; east] = Ok (loaded, metas).
Proof. by vm_compute. Qed.

(** The first scenario's section stays, the second's is added. *)
Example first_name :
  ts_pid <$> EngineState.find_track_section loaded (mkUID 11) = Some "it11"%string /\
  ts_pid <$> EngineState.find_track_section loaded (mkUID 12) = Some "it12"%string /\
  EngineState.session_id_ loaded = "West"%string.
Proof. split_and!; by vm_compute. Qed.

(** A misspelt signal aspect stops the load. *)
Example unknown_aspect :
  load_world EngineState.empty
    [scenario "West" [] (Some (Parsed (JObject [("signals", JArray [signal 21 "S9"])])))%string]
  = Throw (runtime_error "topology_loader: unknown initial_aspect 'S9'").
Proof. by vm_compute. Qed.
(** A signal without a type is an exception of the library, which is no [std::runtime_error]. *)
Example missing_key :
  load_world EngineState.empty
    [scenario "West" [] (Some (Parsed (JObject [("signals", JArray [JObject
       [("uid", JUnsigned 21); ("pID", JString "A")]])])))%string]
  = Throw json_exception.
Proof. by vm_compute. Qed.
End TopologyDemo.

Lemma loaded_world_at_rest_witness :
  keyed TopologyDemo.loaded /\
  forall x, EngineState.find_track_section TopologyDemo.loaded (mkUID 11) = Some x -> ts_axle_count x = 0.
Proof.
  destruct (loaded_world_at_rest (JL := JsonDemo.lib) _ _ _ TopologyDemo.world_loads) as (Hk & Hr & _).
  split; [exact Hk|]. intros x Hx. apply (Hr (SlTrackSection (mkUID 11)) (OTrackSection x)). cbn.
  change (EngineState.track_sections TopologyDemo.loaded !! mkUID 11 = Some x) in Hx. rewrite Hx. reflexivity.
Defined.

#[local] Instance demo_order : MapOrder := canonical_order.

(** One tick over the loaded world. *)
Lemma loaded_world_topology_kept_witness :
  let start := EngineLoop.create TopologyDemo.loaded (EbiLockSystem.create 120) PriorityCommandQueue.create
                 (EngineLoop.mkCallbacks true true true) in
  static_part <$> read (EngineLoop.state_ (EngineLoop.do_tick start).1) (SlTrackSection (mkUID 12)) =
  static_part <$> read TopologyDemo.loaded (SlTrackSection (mkUID 12)).
Proof.
  refine (proj2 (loaded_world_topology_kept (JL := JsonDemo.lib) _ _ _ _ _ _ _ TopologyDemo.world_loads _) _ _).
  - eapply rtc_l; [apply loop_tick|reflexivity].
  - reflexivity.
Defined.
