(* ===== verification/Validation.v ===== *)
(** * Validation: the checks of scenario files

    [libscenario_validation].  Layer 1 checks the two documents of a scenario
    one by one, layer 2 their references and the station of their identifiers;
    layer 3 is a stub.  What the layers accept is stated without the code, and
    a scenario they accept is followed into the world the topology loader makes
    of it. *)
From S2P Require Import Prelude Float32 Types Track World Changes Text Json Topology.
Local Open Scope Z_scope.

(** ** Results *)

Module Severity.
(* SRC libscenario_validation/include/scenario_validation/validation_result.hpp 16-20 ValidationIssue::Severity *)
Inductive t := WARNING | ERROR.
#[global] Instance eq_dec : EqDecision t. Proof. solve_decision. Defined.
End Severity.

(* SRC libscenario_validation/include/scenario_validation/validation_result.hpp 14-26 ValidationIssue *)
Record ValidationIssue := mkValidationIssue {
  vi_severity : Severity.t; vi_code : string; vi_message : string; vi_gid : option string }.

Module ValidationResult.
(** The issues, in the order they are found. *)
Notation t := (list ValidationIssue).
(* SRC libscenario_validation/src/validation_result.cpp 10-14 ValidationResult::ok *)
Definition ok (issues : t) : bool :=
  forallb (fun i => negb (bool_decide (vi_severity i = Severity.ERROR))) issues.
(* SRC libscenario_validation/src/validation_result.cpp 16-21 ValidationResult::error_count *)
Definition error_count (issues : t) : Z :=
  Z.of_nat (length (filter (fun i => vi_severity i = Severity.ERROR) issues)).
(* SRC libscenario_validation/src/validation_result.cpp 23-27 ValidationResult::merge *)
Definition merge (issues other : t) : t := issues ++ other.
End ValidationResult.

Definition error (code message : string) : ValidationIssue := mkValidationIssue Severity.ERROR code message None.
(** [if (b) issues.push_back(error)]. *)
Definition error_if (b : bool) (code message : string) : ValidationResult.t := if b then [error code message] else [].

Section Layers.
Context {JL : JsonLib}.

(** [doc.value(key, json::array())], as a loop visits it. *)
Definition items_of (doc : json) (key : string) : result (list json) := j_value (fun v => Some (j_items v)) doc key [].
(** [obj[key]] if it is there and unsigned; [get] does not throw then. *)
Definition unsigned_at (obj : json) (key : string) : option Z :=
  match j_find obj key with Some v => if is_number_unsigned v then get_u64 v else None | None => None end.
Definition string_here (obj : json) (key : string) : option string :=
  match j_find obj key with Some v => if is_string v then get_string v else None | None => None end.
Definition uids_in (objs : list json) : list Z := omap (fun o => unsigned_at o "uid") objs.
(** [obj.contains("uid") && obj["uid"].is_number_unsigned() ? obj["uid"] : 0]. *)
Definition uid_or_zero (obj : json) : Z := default 0 (unsigned_at obj "uid").

(** ** Layer 1 *)

(* SRC libscenario_validation/src/layer1_validator.cpp 18-18 MAX_SAFE_JSON_INT *)
Definition MAX_SAFE_JSON_INT : Z := Z.shiftl 1 53 - 1.

(* SRC libscenario_validation/src/layer1_validator.cpp 23-39 check_required_fields *)
Definition check_required_fields (context : string) (obj : json) : ValidationResult.t :=
  error_if (match unsigned_at obj "uid" with Some n => (n =? 0) || (MAX_SAFE_JSON_INT <? n) | None => true end)
    "L1-001" (context +:+ ": required field 'uid' is missing, zero, or exceeds 2^53-1") ++
  error_if (match string_here obj "pID" with Some s => bool_decide (s = ""%string) | None => true end)
    "L1-001" (context +:+ ": required field 'pID' is missing or empty").

(** The loop from the identifiers seen so far. *)
(* SRC libscenario_validation/src/layer1_validator.cpp 44-53 check_duplicate_uids *)
Fixpoint check_duplicates (seen : gset Z) (uids : list Z) : ValidationResult.t :=
  match uids with
  | [] => []
  | uid :: uids =>
      if uid =? 0 then check_duplicates seen uids
      else if bool_decide (uid ∈ seen) then error "L1-002" ("Duplicate UID: " +:+ to_string uid) :: check_duplicates seen uids
      else check_duplicates ({[uid]} ∪ seen) uids
  end.
(* SRC libscenario_validation/src/layer1_validator.cpp 41-54 check_duplicate_uids *)
Definition check_duplicate_uids (uids : list Z) : ValidationResult.t := check_duplicates ∅ uids.

(** One leg of one switch. *)
(* SRC libscenario_validation/src/layer1_validator.cpp 62-71 collect_switch_iz_uids *)
Definition collect_leg (sw : json) (iz_uids : gset Z) (leg : string) : result (gset Z) :=
  match j_find sw leg with
  | Some l =>
      match j_find l "izUID" with
      | Some v => iz ← get json_exception (get_u64 v);
                  Ok (if iz =? 0 then iz_uids else {[iz]} ∪ iz_uids)
      | None => Ok iz_uids
      end
  | None => Ok iz_uids
  end.
(* SRC libscenario_validation/src/layer1_validator.cpp 57-73 collect_switch_iz_uids *)
Definition collect_switch_iz_uids (topology : json) : result (gset Z) :=
  switches ← items_of topology "switches";
  for_each (fun iz_uids sw => for_each (collect_leg sw) ["trunk"; "straight"; "divergent"]%string iz_uids) switches ∅.

(* SRC libscenario_validation/src/layer1_validator.cpp 76-85 collect_section_uids *)
Definition collect_section_uids (topology : json) : result (gset Z) :=
  sections ← items_of topology "track_sections"; Ok (list_to_set (uids_in sections)).
(* SRC libscenario_validation/src/layer1_validator.cpp 88-97 collect_signal_uids *)
Definition collect_signal_uids (objects : json) : result (gset Z) :=
  signals ← items_of objects "signals"; Ok (list_to_set (uids_in signals)).

(* SRC libscenario_validation/src/layer1_validator.cpp 99-101 kValidAspects *)
Definition kValidAspects : list string :=
  ["STOP"; "S1_STOP"; "CAUTION"; "PROCEED"; "CLEAR"; "CAUTION_THEN_STOP";
   "SHUNTING"; "REPEAT"; "S2_PROCEED"; "S3_PROCEED_40"; "MS1_STOP"; "MS2_SHUNTING_ALLOWED"]%string.

(** One side of a track section. *)
(* SRC libscenario_validation/src/layer1_validator.cpp 134-173 Layer1Validator::validate *)
Definition check_track_port (switch_iz_uids sig_uids : gset Z) (uid : Z) (ot : json) (side : string) :
    ValidationResult.t :=
  match j_find ot side with
  | None => []
  | Some s =>
      match unsigned_at s "izUID" with
      | Some iz => error_if (negb (iz =? 0) && negb (bool_decide (iz ∈ switch_iz_uids))) "L1-003"
                     ("TrackSection uid=" +:+ to_string uid +:+ " " +:+ side +:+ ".izUID=" +:+ to_string iz +:+
                      " does not match any switch leg Iz counter")
      | None => []
      end ++
      match j_find s "signalUIDs" with
      | Some v =>
          concat (map (fun sig_uid_json =>
            if is_number_unsigned sig_uid_json then
              match get_u64 sig_uid_json with
              | Some sig_uid => error_if (negb (sig_uid =? 0) && negb (bool_decide (sig_uid ∈ sig_uids))) "L1-004"
                  ("TrackSection uid=" +:+ to_string uid +:+ " " +:+ side +:+
                   ".signalUIDs[] references unknown signal uid=" +:+ to_string sig_uid)
              | None => []
              end
            else []) (j_items v))
      | None => []
      end
  end.

(** One signal. *)
(* SRC libscenario_validation/src/layer1_validator.cpp 187-219 Layer1Validator::validate *)
Definition check_signal (section_uids : gset Z) (sig : json) : result ValidationResult.t :=
  let uid := uid_or_zero sig in
  let required := check_required_fields "signal" sig in
  governs ← match j_find sig "governs_section" with
            | Some v =>
                ot_uid ← get json_exception (get_u64 v);
                Ok (error_if (negb (ot_uid =? 0) && negb (bool_decide (ot_uid ∈ section_uids))) "L1-005"
                      ("Signal uid=" +:+ to_string uid +:+ " governs_section=" +:+ to_string ot_uid +:+
                       " does not reference a known track_section"))
            | None => Ok []
            end;
  aspect ← match j_find sig "initial_aspect" with
           | Some v =>
               aspect ← get json_exception (get_string v);
               Ok (error_if (negb (bool_decide (aspect ∈ kValidAspects))) "L1-006"
                     ("Signal uid=" +:+ to_string uid +:+ " has invalid initial_aspect '" +:+ aspect +:+ "'"))
           | None => Ok []
           end;
  Ok (required ++ governs ++ aspect).

(* SRC libscenario_validation/src/layer1_validator.cpp 107-225 Layer1Validator::validate *)
Definition layer1_validate (topology objects : json) : result ValidationResult.t :=
  nodes ← items_of topology "boundary_nodes";
  switch_iz_uids ← collect_switch_iz_uids topology;
  sig_uids ← collect_signal_uids objects;
  sections ← items_of topology "track_sections";
  switches ← items_of topology "switches";
  section_uids ← collect_section_uids topology;
  signals ← items_of objects "signals";
  signal_issues ← traverse (check_signal section_uids) signals;
  let section_issues ot :=
    check_required_fields "track_section" ot ++
    concat (map (check_track_port switch_iz_uids sig_uids (uid_or_zero ot) ot) ["sideA"; "sideB"]%string) in
  let all_uids :=
    uids_in nodes ++ map uid_or_zero sections ++ uids_in switches ++ map uid_or_zero signals in
  Ok (concat (map (check_required_fields "boundary_node") nodes) ++ concat (map section_issues sections) ++
      concat (map (check_required_fields "switch") switches) ++ concat signal_issues ++
      check_duplicate_uids all_uids).

(** ** Layer 2 *)

(** [static_cast<uint16_t>((uid >> 16) & 0xFFFF)]. *)
(* SRC libscenario_validation/src/layer2_validator.cpp 17-20 uid_scope *)
Definition scope_of (uid : Z) : Z := u16 (Z.land (Z.shiftr uid 16) 65535).
(* SRC libscenario_validation/src/layer2_validator.cpp 22-29 collect_uids *)
Definition collect_uids (arr : list json) : gset Z := list_to_set (uids_in arr).

(* SRC libscenario_validation/src/layer2_validator.cpp 51-68 Layer2Validator::validate *)
Definition check_scope (station_instance : Z) (arr : list json) (kind : string) : ValidationResult.t :=
  concat (map (fun uid =>
    error_if (negb (scope_of uid =? station_instance)) "L2-001"
      (kind +:+ " uid=" +:+ to_string uid +:+ " has SCOPE=" +:+ to_string (scope_of uid) +:+
       " but expected station_instance=" +:+ int_to_string station_instance)) (uids_in arr)).

(** [obj.contains("uid") ? obj["uid"].get<uint64_t>() : 0]. *)
Definition uid_at (obj : json) : result Z :=
  match j_find obj "uid" with Some v => get json_exception (get_u64 v) | None => Ok 0 end.

(** A neighbour by the kind in its identifier. *)
(* SRC libscenario_validation/src/layer2_validator.cpp 80-112 Layer2Validator::validate *)
Definition check_section_neighbor (zwr_uids bnd_uids : gset Z) (uid : Z) (ot : json) (side : string) :
    ValidationResult.t :=
  match j_find ot side ≫= (fun s => unsigned_at s "neighborUID") with
  | None => []
  | Some neighbor =>
      let kind := u8 (Z.land (Z.shiftr neighbor 32) 255) in
      let name := "track_section uid=" +:+ to_string uid +:+ " " +:+ side +:+ ".neighborUID=" +:+ to_string neighbor in
      if neighbor =? 0 then []
      else if kind =? 20 then
        error_if (negb (bool_decide (neighbor ∈ zwr_uids))) "L2-002" (name +:+ " references unknown switch")
      else if kind =? 24 then
        error_if (negb (bool_decide (neighbor ∈ bnd_uids))) "L2-003" (name +:+ " references unknown boundary_node")
      else []
  end.

(* SRC libscenario_validation/src/layer2_validator.cpp 80-112 Layer2Validator::validate *)
Definition section_neighbors (zwr_uids bnd_uids : gset Z) (uid : Z) (ot : json) : ValidationResult.t :=
  concat (map (check_section_neighbor zwr_uids bnd_uids uid ot) ["sideA"; "sideB"]%string).

(* SRC libscenario_validation/src/layer2_validator.cpp 120-141 Layer2Validator::validate *)
Definition check_leg_neighbor (ot_uids bnd_uids : gset Z) (uid : Z) (sw : json) (leg : string) :
    ValidationResult.t :=
  match j_find sw leg ≫= (fun l => unsigned_at l "neighborUID") with
  | None => []
  | Some neighbor =>
      error_if (negb (neighbor =? 0) && negb (bool_decide (neighbor ∈ ot_uids)) && negb (bool_decide (neighbor ∈ bnd_uids)))
        "L2-004" ("switch uid=" +:+ to_string uid +:+ " " +:+ leg +:+ ".neighborUID=" +:+ to_string neighbor +:+
                  " references unknown track_section or boundary_node")
  end.

(* SRC libscenario_validation/src/layer2_validator.cpp 120-141 Layer2Validator::validate *)
Definition leg_neighbors (ot_uids bnd_uids : gset Z) (uid : Z) (sw : json) : ValidationResult.t :=
  concat (map (check_leg_neighbor ot_uids bnd_uids uid sw) ["trunk"; "straight"; "divergent"]%string).

(* SRC libscenario_validation/src/layer2_validator.cpp 147-159 Layer2Validator::validate *)
Definition check_governs (ot_uids : gset Z) (uid : Z) (sig : json) : ValidationResult.t :=
  match unsigned_at sig "governs_section" with
  | None => []
  | Some ot_uid =>
      error_if (negb (ot_uid =? 0) && negb (bool_decide (ot_uid ∈ ot_uids))) "L2-005"
        ("signal uid=" +:+ to_string uid +:+ " governs_section=" +:+ to_string ot_uid +:+
         " references unknown track_section")
  end.

(* SRC libscenario_validation/src/layer2_validator.cpp 35-163 Layer2Validator::validate *)
Definition layer2_validate (station_instance : Z) (topology objects : json) : result ValidationResult.t :=
  sections ← items_of topology "track_sections";
  nodes ← items_of topology "boundary_nodes";
  switches ← items_of topology "switches";
  signals ← items_of objects "signals";
  let ot_uids := collect_uids sections in
  let bnd_uids := collect_uids nodes in
  let zwr_uids := collect_uids switches in
  section_issues ← traverse (fun ot => uid ← uid_at ot;
    Ok (section_neighbors zwr_uids bnd_uids uid ot)) sections;
  leg_issues ← traverse (fun sw => uid ← uid_at sw;
    Ok (leg_neighbors ot_uids bnd_uids uid sw)) switches;
  governs_issues ← traverse (fun sig => uid ← uid_at sig; Ok (check_governs ot_uids uid sig)) signals;
  Ok (check_scope station_instance nodes "boundary_node" ++ check_scope station_instance sections "track_section" ++
      check_scope station_instance switches "switch" ++ check_scope station_instance signals "signal" ++
      concat section_issues ++ concat leg_issues ++ concat governs_issues).

(** ** Layer 3 *)

(* SRC libscenario_validation/src/layer3_validator.cpp 8-17 Layer3Validator::validate *)
Definition layer3_validate (topology objects : json) : ValidationResult.t :=
  [mkValidationIssue Severity.WARNING "L3-000"
     "Layer 3 (route completeness + signal coverage) is not yet implemented" None].

(** ** What the layers accept *)

Lemma ok_app xs ys : ValidationResult.ok (xs ++ ys) = ValidationResult.ok xs && ValidationResult.ok ys.
Proof. apply forallb_app. Qed.

Lemma ok_error_if b code message : ValidationResult.ok (error_if b code message) = true <-> b = false.
Proof. by destruct b. Qed.

Lemma ok_concat (xss : list ValidationResult.t) :
  ValidationResult.ok (concat xss) = true <-> Forall (fun xs => ValidationResult.ok xs = true) xss.
Proof.
  induction xss as [|xs xss IH]; [by split|]. cbn [concat]. by rewrite ok_app, andb_true_iff, IH, Forall_cons.
Qed.

Lemma ok_concat_map {A} (f : A -> ValidationResult.t) l :
  ValidationResult.ok (concat (map f l)) = true <-> forall x, x ∈ l -> ValidationResult.ok (f x) = true.
Proof. rewrite ok_concat, <-Forall_forall. apply Forall_map. Qed.

Lemma ok_concat_traverse {A} (f : A -> result ValidationResult.t) l issues :
  traverse f l = Ok issues ->
  ValidationResult.ok (concat issues) = true <->
  forall x, x ∈ l -> exists i, f x = Ok i /\ ValidationResult.ok i = true.
Proof.
  intros H%traverse_Forall2. rewrite ok_concat. induction H as [|x i l issues Hi _ IH].
  - split; [by intros _ x ?%not_elem_of_nil|constructor].
  - rewrite Forall_cons, IH. split.
    + intros [H1 H2] y [->|Hy]%elem_of_cons; [by exists i|by apply H2].
    + intros H. split; [|intros y Hy; apply H; by right].
      destruct (H x) as (i' & E & Hi'); [by left|]. congruence.
Qed.

(** An entry with a usable identifier and a name. *)
Definition identified (obj : json) : Prop :=
  (exists n, unsigned_at obj "uid" = Some n /\ 0 < n < 2 ^ 53) /\
  (exists s, string_here obj "pID" = Some s /\ s <> ""%string).

Lemma unsigned_at_fits obj key n : unsigned_at obj key = Some n -> fits 64 n.
Proof.
  unfold unsigned_at. destruct (j_find obj key) as [v|]; [|done]. destruct (is_number_unsigned v) eqn:E; [|done].
  apply unsigned_gettable in E as (m & -> & Hm). by intros [= <-].
Qed.

Lemma ok_required context obj : ValidationResult.ok (check_required_fields context obj) = true <-> identified obj.
Proof.
  unfold check_required_fields, identified. rewrite ok_app, andb_true_iff, !ok_error_if. f_equiv.
  - destruct (unsigned_at obj "uid") as [n|] eqn:E; [|by split; [|intros (? & ? & _)]].
    apply unsigned_at_fits in E. unfold fits in E. change MAX_SAFE_JSON_INT with (2 ^ 53 - 1).
    rewrite orb_false_iff, Z.eqb_neq, Z.ltb_ge. split; [intros; exists n; split; [done|lia]|].
    intros (m & [= <-] & Hm). lia.
  - destruct (string_here obj "pID") as [s|]; [|by split; [|intros (? & ? & _)]].
    rewrite bool_decide_eq_false. split; [by exists s|]. by intros (s' & [= <-] & Hs).
Qed.

Lemma ok_duplicates seen uids :
  ValidationResult.ok (check_duplicates seen uids) = true <->
  NoDup (filter (fun u => u <> 0) uids) /\ forall u, u ∈ uids -> u <> 0 -> u ∉ seen.
Proof.
  revert seen. induction uids as [|u uids IH]; intros seen; cbn [check_duplicates].
  - split; [|done]. intros _. split; [constructor|]. by intros u ?%not_elem_of_nil.
  - destruct (Z.eqb_spec u 0) as [->|Hu].
    + rewrite IH, filter_cons_False by lia. clear IH. split; intros [H1 H2]; (split; [exact H1|]).
      * intros u [->|Hu]%elem_of_cons ?; [done|by apply H2].
      * intros u Hu. apply H2. by right.
    + rewrite filter_cons_True by done. case_bool_decide as Hs.
      * split; [done|]. intros [_ H]. exfalso. apply (H u); [by left|done..].
      * rewrite IH, NoDup_cons, list_elem_of_filter. clear IH. split.
        -- intros [H1 H2]. split_and!; [intros [_ Hin]; apply (H2 u); [done..|set_solver]|done|].
           intros v [->|Hv]%elem_of_cons Hv0; [done|]. specialize (H2 v Hv Hv0). set_solver.
        -- intros [[H1 H2] H3]. split; [done|]. intros v Hv Hv0. specialize (H3 v (list_elem_of_further _ _ _ Hv) Hv0).
           apply not_elem_of_union. split; [|done]. intros ->%elem_of_singleton. by apply H1.
Qed.

(** [iz] is the counter of a leg of the switch. *)
Definition leg_counter (sw : json) (iz : Z) : Prop :=
  exists leg l v, leg ∈ ["trunk"; "straight"; "divergent"]%string /\ j_find sw leg = Some l /\
    j_find l "izUID" = Some v /\ get_u64 v = Some iz.

Lemma collect_leg_spec sw legs ids ids' :
  for_each (collect_leg sw) legs ids = Ok ids' ->
  forall iz, iz ∈ ids' <-> iz ∈ ids \/ iz <> 0 /\ exists leg l v, leg ∈ legs /\ j_find sw leg = Some l /\
    j_find l "izUID" = Some v /\ get_u64 v = Some iz.
Proof.
  revert ids. induction legs as [|leg legs IH]; intros ids H iz.
  - injection H as <-. split; [by left|]. intros [?|(_ & ? & ? & ? & ?%not_elem_of_nil & _)]; done.
  - cbn [for_each] in H. apply bind_ok in H as (ids1 & H1 & H). rewrite (IH _ H iz). clear IH H.
    assert (iz ∈ ids1 <-> iz ∈ ids \/ iz <> 0 /\ exists l v, j_find sw leg = Some l /\ j_find l "izUID" = Some v /\
      get_u64 v = Some iz) as ->.
    { unfold collect_leg in H1. destruct (j_find sw leg) as [l|]; [|injection H1 as <-; naive_solver].
      destruct (j_find l "izUID") as [v|] eqn:Ev; [|injection H1 as <-; naive_solver].
      apply bind_ok in H1 as (n & Hn%get_ok & [= <-]).
      destruct (Z.eqb_spec n 0) as [->|Hz]; [|rewrite elem_of_union, elem_of_singleton]; naive_solver. }
    setoid_rewrite elem_of_cons. naive_solver.
Qed.

Lemma collect_switch_iz_spec topology switches ids :
  items_of topology "switches" = Ok switches -> collect_switch_iz_uids topology = Ok ids ->
  forall iz, iz ∈ ids <-> iz <> 0 /\ exists sw, sw ∈ switches /\ leg_counter sw iz.
Proof.
  intros Hs H iz. unfold collect_switch_iz_uids in H. rewrite Hs in H. cbn [mbind result_bind] in H.
  assert (iz ∈ ids <-> iz ∈ (∅ : gset Z) \/ iz <> 0 /\ exists sw, sw ∈ switches /\ leg_counter sw iz) as ->;
    [|set_solver].
  revert H. generalize (∅ : gset Z). clear Hs. induction switches as [|sw switches IH]; intros ids0 H.
  - injection H as <-. split; [by left|]. intros [?|(_ & ? & ?%not_elem_of_nil & _)]; done.
  - rewrite for_each_cons in H. apply bind_ok in H as (ids1 & H1 & H). rewrite (IH _ H), (collect_leg_spec _ _ _ _ H1).
    fold (leg_counter sw iz). clear. split.
    + intros [[H|[H0 H]]|[H0 (sw' & Hin & H)]]; [by left|right..]; split; try done.
      * exists sw. split; [by left|done].
      * exists sw'. split; [by right|done].
    + intros [H|[H0 (sw' & [->|Hin]%elem_of_cons & H)]]; [by left; left|left; right; by split|].
      right. split; [done|]. by exists sw'.
Qed.

(** What layer 1 asks of the four arrays. *)
Record Layer1Spec (nodes sections switches signals : list json) : Prop := {
  l1_identified : forall obj, obj ∈ nodes ++ sections ++ switches ++ signals -> identified obj;
  l1_distinct : NoDup (uids_in (nodes ++ sections ++ switches ++ signals));
  l1_counters : forall ot side s iz, ot ∈ sections -> side ∈ ["sideA"; "sideB"]%string -> j_find ot side = Some s ->
    unsigned_at s "izUID" = Some iz -> iz <> 0 -> exists sw, sw ∈ switches /\ leg_counter sw iz;
  l1_signals : forall ot side s v x u, ot ∈ sections -> side ∈ ["sideA"; "sideB"]%string -> j_find ot side = Some s ->
    j_find s "signalUIDs" = Some v -> x ∈ j_items v -> is_number_unsigned x = true -> get_u64 x = Some u -> u <> 0 ->
    u ∈ uids_in signals;
  l1_governs : forall sig v n, sig ∈ signals -> j_find sig "governs_section" = Some v -> get_u64 v = Some n -> n <> 0 ->
    n ∈ uids_in sections;
  l1_aspects : forall sig v a, sig ∈ signals -> j_find sig "initial_aspect" = Some v -> get_string v = Some a ->
    a ∈ kValidAspects }.

Lemma unsigned_known (n : Z) (ids : gset Z) :
  negb (n =? 0) && negb (bool_decide (n ∈ ids)) = false <-> (n <> 0 -> n ∈ ids).
Proof.
  destruct (Z.eqb_spec n 0) as [->|Hn]; cbn; [by split|].
  rewrite negb_false_iff, bool_decide_eq_true. naive_solver.
Qed.

Lemma ok_track_port iz_uids sig_uids uid ot side :
  ValidationResult.ok (check_track_port iz_uids sig_uids uid ot side) = true <->
  forall s, j_find ot side = Some s ->
    (forall iz, unsigned_at s "izUID" = Some iz -> iz <> 0 -> iz ∈ iz_uids) /\
    (forall v x u, j_find s "signalUIDs" = Some v -> x ∈ j_items v -> is_number_unsigned x = true ->
       get_u64 x = Some u -> u <> 0 -> u ∈ sig_uids).
Proof.
  unfold check_track_port. destruct (j_find ot side) as [s|]; [|by split]. rewrite ok_app, andb_true_iff.
  etrans; [|symmetry; split; [intros H; exact (H s eq_refl)|intros H s' [= <-]; exact H]]. f_equiv.
  - destruct (unsigned_at s "izUID") as [iz|]; [|by split]. rewrite ok_error_if, unsigned_known. naive_solver.
  - destruct (j_find s "signalUIDs") as [v|]; [|by split]. rewrite ok_concat_map. split.
    + intros H v' x u [= <-] Hx Hu Eu. specialize (H x Hx). cbv beta in H.
      rewrite Hu, Eu, ok_error_if, unsigned_known in H. done.
    + intros H x Hx. destruct (is_number_unsigned x) eqn:Hu; [|done]. destruct (get_u64 x) as [u|] eqn:Eu; [|done].
      rewrite ok_error_if, unsigned_known. eauto.
Qed.

Lemma ok_signal section_uids sig issues :
  check_signal section_uids sig = Ok issues ->
  ValidationResult.ok issues = true <-> identified sig /\
    (forall v n, j_find sig "governs_section" = Some v -> get_u64 v = Some n -> n <> 0 -> n ∈ section_uids) /\
    (forall v a, j_find sig "initial_aspect" = Some v -> get_string v = Some a -> a ∈ kValidAspects).
Proof.
  unfold check_signal. intros H. split_ok H. injection H as <-. rewrite !ok_app, !andb_true_iff, ok_required. f_equiv.
  f_equiv.
  - destruct (j_find sig "governs_section") as [v|]; [|injection E as <-; by split]. split_ok E. injection E as <-.
    apply get_ok in E1. rewrite ok_error_if, unsigned_known. naive_solver.
  - destruct (j_find sig "initial_aspect") as [v|]; [|injection E0 as <-; by split]. split_ok E0. injection E0 as <-.
    apply get_ok in E1. rewrite ok_error_if, negb_false_iff, bool_decide_eq_true. naive_solver.
Qed.

Lemma uids_in_app xs ys : uids_in (xs ++ ys) = uids_in xs ++ uids_in ys.
Proof. unfold uids_in. induction xs as [|x xs IH]; [done|]. cbn. rewrite IH. by destruct (unsigned_at x "uid"). Qed.

Lemma elem_of_uids_in n objs : n ∈ uids_in objs <-> exists obj, obj ∈ objs /\ unsigned_at obj "uid" = Some n.
Proof. unfold uids_in. rewrite list_elem_of_omap. naive_solver. Qed.

(** Of identified entries the identifiers read as they stand, and none is zero. *)
Lemma identified_uids objs :
  (forall obj, obj ∈ objs -> identified obj) ->
  map uid_or_zero objs = uids_in objs /\ filter (fun u => u <> 0) (uids_in objs) = uids_in objs.
Proof.
  induction objs as [|obj objs IH]; intros H; [done|].
  destruct IH as [IH1 IH2]; [intros o Ho; apply H; by right|].
  destruct (H obj) as [(n & Hn & Hpos) _]; [by left|]. cbn [map].
  assert (uids_in (obj :: objs) = n :: uids_in objs) as -> by (unfold uids_in; cbn; by rewrite Hn).
  rewrite filter_cons_True, IH1, IH2 by lia. unfold uid_or_zero. by rewrite Hn.
Qed.

Lemma identified_or_zero objs :
  (forall obj, obj ∈ objs -> identified obj) -> map uid_or_zero objs = uids_in objs.
Proof. apply identified_uids. Qed.

(** What a run of layer 1 has read. *)
Definition arrays (topology objects : json) (nodes sections switches signals : list json) : Prop :=
  items_of topology "boundary_nodes" = Ok nodes /\ items_of topology "track_sections" = Ok sections /\
  items_of topology "switches" = Ok switches /\ items_of objects "signals" = Ok signals.

Lemma ok_section iz_uids sig_uids ot :
  ValidationResult.ok (check_required_fields "track_section" ot ++
    concat (map (check_track_port iz_uids sig_uids (uid_or_zero ot) ot) ["sideA"; "sideB"]%string)) = true <->
  identified ot /\ forall side s, side ∈ ["sideA"; "sideB"]%string -> j_find ot side = Some s ->
    (forall iz, unsigned_at s "izUID" = Some iz -> iz <> 0 -> iz ∈ iz_uids) /\
    (forall v x u, j_find s "signalUIDs" = Some v -> x ∈ j_items v -> is_number_unsigned x = true ->
       get_u64 x = Some u -> u <> 0 -> u ∈ sig_uids).
Proof.
  rewrite ok_app, andb_true_iff, ok_required, ok_concat_map. f_equiv. split.
  - intros H side s Hside. by apply (ok_track_port iz_uids sig_uids (uid_or_zero ot)), H.
  - intros H side Hside. apply ok_track_port. intros s. by apply H.
Qed.

Lemma layer1_arrays topology objects issues :
  layer1_validate topology objects = Ok issues ->
  exists nodes sections switches signals, arrays topology objects nodes sections switches signals /\
    (ValidationResult.ok issues = true <-> Layer1Spec nodes sections switches signals).
Proof.
  unfold layer1_validate. intros H. split_ok H. injection H as <-.
  rename x into nodes, x0 into iz_uids, x1 into sig_uids, x2 into sections, x3 into switches, x4 into section_uids,
    x5 into signals, x6 into sig_issues.
  exists nodes, sections, switches, signals. split; [done|].
  unfold collect_signal_uids in E1. rewrite E5 in E1. injection E1 as <-.
  unfold collect_section_uids in E4. rewrite E2 in E4. injection E4 as <-.
  pose proof (collect_switch_iz_spec _ _ _ E3 E0) as Hiz.
  rewrite !ok_app, !andb_true_iff, !ok_concat_map, (ok_concat_traverse _ _ _ E6). unfold check_duplicate_uids.
  rewrite ok_duplicates. split.
  - intros (Hn & Hsec & Hsw & Hs & Hd & _).
    assert (forall sig, sig ∈ signals -> identified sig /\
      (forall v n, j_find sig "governs_section" = Some v -> get_u64 v = Some n -> n <> 0 -> n ∈ uids_in sections) /\
      (forall v a, j_find sig "initial_aspect" = Some v -> get_string v = Some a -> a ∈ kValidAspects)) as Hs'.
    { intros sig Hin. destruct (Hs sig Hin) as (i & Ei & Hi). rewrite (ok_signal _ _ _ Ei) in Hi.
      by setoid_rewrite elem_of_list_to_set in Hi. }
    assert (forall obj, obj ∈ nodes ++ sections ++ switches ++ signals -> identified obj) as Hall.
    { intros obj. rewrite !elem_of_app. intros [Hin|[Hin|[Hin|Hin]]].
      - by apply (ok_required "boundary_node"), Hn.
      - by apply Hsec, ok_section in Hin as [Hin _].
      - by apply (ok_required "switch"), Hsw.
      - by apply Hs'. }
    constructor; try done.
    + revert Hd. rewrite !identified_or_zero by (intros; apply Hall; rewrite !elem_of_app; auto).
      rewrite <-!uids_in_app. by rewrite (proj2 (identified_uids _ Hall)).
    + intros ot side s iz Hot Hside Hf Eiz H0. apply Hsec, ok_section in Hot as [_ Hp].
      apply (proj1 (Hp side s Hside Hf)), Hiz in Eiz; [by apply Eiz|done].
    + intros ot side s v y u Hot Hside Hf Ev Hy Hu Eu H0. apply Hsec, ok_section in Hot as [_ Hp].
      apply (elem_of_list_to_set (C := gset Z)). eapply (proj2 (Hp side s Hside Hf)); eauto.
    + intros sig v n Hin. apply (Hs' sig Hin).
    + intros sig v a Hin. apply (Hs' sig Hin).
  - intros [Hid Hd Hc Hsg Hg Ha]. split_and!.
    + intros obj Ho. apply ok_required, Hid. rewrite !elem_of_app. auto.
    + intros ot Hot. apply ok_section. split; [apply Hid; rewrite !elem_of_app; auto|].
      intros side s Hside Hf. split; [intros iz Eiz H0; apply Hiz; split; [done|]; eauto|].
      intros. apply elem_of_list_to_set. eauto.
    + intros obj Ho. apply ok_required, Hid. rewrite !elem_of_app. auto.
    + intros sig Hin. pose proof E6 as E6'. apply traverse_Forall2 in E6'. apply list_elem_of_lookup in Hin as Hk.
      destruct Hk as [k Hk]. destruct (Forall2_lookup_l _ _ _ _ _ E6' Hk) as (i & _ & Hi). exists i. split; [done|].
      apply (ok_signal _ _ _ Hi). split_and!; [apply Hid; rewrite !elem_of_app; auto| |eauto].
      intros. apply elem_of_list_to_set. eauto.
    + rewrite !identified_or_zero by (intros; apply Hid; rewrite !elem_of_app; auto). rewrite <-!uids_in_app.
      by rewrite (proj2 (identified_uids _ Hid)).
    + set_solver.
Qed.

(** Layer 1 accepts exactly the documents with the stated properties.  When it does not throw,
    it reports no error if and only if every entry has a non-zero 53-bit identifier and a name,
    no two entries share an identifier, every counter a section names is that of a switch leg,
    every signal a section names is in the objects, every signal governs a known section or none,
    and every initial aspect is one of the twelve names. *)
Theorem layer1_accepts topology objects issues :
  layer1_validate topology objects = Ok issues ->
  exists nodes sections switches signals, arrays topology objects nodes sections switches signals /\
    (ValidationResult.ok issues = true <-> Layer1Spec nodes sections switches signals).
Proof. apply layer1_arrays. Qed.

(** What layer 2 asks: identifiers of this station, and neighbours that exist. *)
Definition kind_of (uid : Z) : Z := u8 (Z.land (Z.shiftr uid 32) 255).
Record Layer2Spec (station_instance : Z) (nodes sections switches signals : list json) : Prop := {
  l2_scope : forall u, u ∈ uids_in (nodes ++ sections ++ switches ++ signals) -> scope_of u = station_instance;
  l2_sections : forall ot side s n, ot ∈ sections -> side ∈ ["sideA"; "sideB"]%string -> j_find ot side = Some s ->
    unsigned_at s "neighborUID" = Some n -> n <> 0 ->
    (kind_of n = 20 -> n ∈ uids_in switches) /\ (kind_of n = 24 -> n ∈ uids_in nodes);
  l2_legs : forall sw leg l n, sw ∈ switches -> leg ∈ ["trunk"; "straight"; "divergent"]%string ->
    j_find sw leg = Some l -> unsigned_at l "neighborUID" = Some n -> n <> 0 ->
    n ∈ uids_in sections \/ n ∈ uids_in nodes;
  l2_governs : forall sig n, sig ∈ signals -> unsigned_at sig "governs_section" = Some n -> n <> 0 ->
    n ∈ uids_in sections }.

Lemma ok_scope station_instance arr kind :
  ValidationResult.ok (check_scope station_instance arr kind) = true <->
  forall u, u ∈ uids_in arr -> scope_of u = station_instance.
Proof.
  unfold check_scope. rewrite ok_concat_map. split; intros H u Hu; specialize (H u Hu).
  - by apply ok_error_if, negb_false_iff, Z.eqb_eq in H.
  - by apply ok_error_if, negb_false_iff, Z.eqb_eq.
Qed.

Lemma ok_section_neighbor zwr_uids bnd_uids uid ot side :
  ValidationResult.ok (check_section_neighbor zwr_uids bnd_uids uid ot side) = true <->
  forall s n, j_find ot side = Some s -> unsigned_at s "neighborUID" = Some n -> n <> 0 ->
    (kind_of n = 20 -> n ∈ zwr_uids) /\ (kind_of n = 24 -> n ∈ bnd_uids).
Proof.
  unfold check_section_neighbor. destruct (j_find ot side) as [s|]; cbn; [|by split].
  destruct (unsigned_at s "neighborUID") as [n|] eqn:En; [|naive_solver].
  transitivity (n <> 0 -> (kind_of n = 20 -> n ∈ zwr_uids) /\ (kind_of n = 24 -> n ∈ bnd_uids)); [|naive_solver].
  fold (kind_of n). destruct (Z.eqb_spec n 0) as [->|H0]; [by split|].
  destruct (Z.eqb_spec (kind_of n) 20) as [->|H20]; [|destruct (Z.eqb_spec (kind_of n) 24) as [->|H24]; [|by split]];
    rewrite ok_error_if, negb_false_iff, bool_decide_eq_true.
  - split; [by split|]. intros H. by apply H.
  - split; [by split|]. intros H. by apply H.
Qed.

Lemma ok_leg_neighbor ot_uids bnd_uids uid sw leg :
  ValidationResult.ok (check_leg_neighbor ot_uids bnd_uids uid sw leg) = true <->
  forall l n, j_find sw leg = Some l -> unsigned_at l "neighborUID" = Some n -> n <> 0 -> n ∈ ot_uids \/ n ∈ bnd_uids.
Proof.
  unfold check_leg_neighbor. destruct (j_find sw leg) as [l|]; cbn; [|by split].
  destruct (unsigned_at l "neighborUID") as [n|] eqn:En; [|naive_solver].
  transitivity (n <> 0 -> n ∈ ot_uids \/ n ∈ bnd_uids); [|naive_solver].
  rewrite ok_error_if, !andb_false_iff, !negb_false_iff, !bool_decide_eq_true, Z.eqb_eq.
  destruct (decide (n = 0)); naive_solver.
Qed.

Lemma ok_governs ot_uids uid sig :
  ValidationResult.ok (check_governs ot_uids uid sig) = true <->
  forall n, unsigned_at sig "governs_section" = Some n -> n <> 0 -> n ∈ ot_uids.
Proof.
  unfold check_governs. destruct (unsigned_at sig "governs_section") as [n|]; [|by split].
  rewrite ok_error_if, unsigned_known. naive_solver.
Qed.

(** On identified entries the loops of layer 2 do not throw. *)
Lemma traverse_identified (f : Z -> json -> ValidationResult.t) objs :
  (forall obj, obj ∈ objs -> identified obj) ->
  exists issues, traverse (fun obj => uid ← uid_at obj; Ok (f uid obj)) objs = Ok issues /\
    (ValidationResult.ok (concat issues) = true <->
     forall obj, obj ∈ objs -> ValidationResult.ok (f (uid_or_zero obj) obj) = true).
Proof.
  intros H. exists (map (fun obj => f (uid_or_zero obj) obj) objs). split; [|apply ok_concat_map].
  apply traverse_Forall2, Forall2_fmap_r, Forall_Forall2_diag, Forall_forall. intros obj Ho.
  destruct (H obj Ho) as [(n & Hn & _) _]. cbn. unfold uid_or_zero, uid_at. rewrite Hn. unfold unsigned_at in Hn.
  destruct (j_find obj "uid") as [v|]; [|done]. destruct (is_number_unsigned v); [|done]. by rewrite Hn.
Qed.

Lemma layer2_arrays station_instance topology objects issues :
  layer1_validate topology objects = Ok issues -> ValidationResult.ok issues = true ->
  exists issues2 nodes sections switches signals,
    layer2_validate station_instance topology objects = Ok issues2 /\
    arrays topology objects nodes sections switches signals /\
    (ValidationResult.ok issues2 = true <-> Layer2Spec station_instance nodes sections switches signals).
Proof.
  intros H Hok. apply layer1_arrays in H as (nodes & sections & switches & signals & Ha & Hspec).
  apply Hspec in Hok. pose proof (l1_identified _ _ _ _ Hok) as Hobj. clear Hspec Hok. destruct Ha as (En & Es & Ew & Eg).
  assert (forall objs, objs ⊆ nodes ++ sections ++ switches ++ signals -> forall obj, obj ∈ objs -> identified obj) as Hid.
  { intros objs Hsub obj Ho. by apply Hobj, Hsub. } clear Hobj.
  unfold layer2_validate. rewrite Es, En, Ew, Eg, !ok_bind. cbv zeta.
  destruct (traverse_identified (section_neighbors (collect_uids switches) (collect_uids nodes)) sections)
    as (i1 & E1 & H1); [apply (Hid sections); set_solver|]. rewrite E1, ok_bind.
  destruct (traverse_identified (leg_neighbors (collect_uids sections) (collect_uids nodes)) switches)
    as (i2 & E2 & H2); [apply (Hid switches); set_solver|]. rewrite E2, ok_bind.
  destruct (traverse_identified (check_governs (collect_uids sections)) signals)
    as (i3 & E3 & H3); [apply (Hid signals); set_solver|]. rewrite E3, ok_bind.
  eexists _, nodes, sections, switches, signals. split_and!; [reflexivity|done..|].
  rewrite !ok_app, !andb_true_iff, !ok_scope, H1, H2, H3. clear H1 H2 H3. unfold section_neighbors, leg_neighbors.
  setoid_rewrite ok_concat_map.
  setoid_rewrite ok_section_neighbor. setoid_rewrite ok_leg_neighbor. setoid_rewrite ok_governs.
  unfold collect_uids. setoid_rewrite elem_of_list_to_set. split.
  - intros (S1 & S2 & S3 & S4 & Hs & Hl & Hg). constructor; [|eauto..].
    intros u. rewrite !uids_in_app, !elem_of_app. naive_solver.
  - intros [Hsc Hs Hl Hg]. split_and!; [..|eauto|eauto|eauto]; intros u Hu; apply Hsc;
      rewrite !uids_in_app, !elem_of_app; auto.
Qed.

(** Layer 2 on documents layer 1 has accepted.  It does not throw, and it reports no error if and
    only if every identifier belongs to the station, every switch and boundary node a section names
    as a neighbour is in the topology, every neighbour of a switch leg is a section or a boundary
    node of it, and every signal governs a known section or none. *)
Theorem layer2_accepts station_instance topology objects issues :
  layer1_validate topology objects = Ok issues -> ValidationResult.ok issues = true ->
  exists issues2 nodes sections switches signals,
    layer2_validate station_instance topology objects = Ok issues2 /\
    arrays topology objects nodes sections switches signals /\
    (ValidationResult.ok issues2 = true <-> Layer2Spec station_instance nodes sections switches signals).
Proof. apply layer2_arrays. Qed.

(** ** The world of an accepted scenario *)

Lemma require_uid_ok j key path u :
  require_uid_field j key path = Ok u -> unsigned_at j key = Some (value u).
Proof.
  unfold require_uid_field, unsigned_at. intros H. destruct (j_find j key) as [v|]; [|done]. split_ok H.
  injection H as <-. by apply get_ok in E0.
Qed.

Lemma parse_track_port_ok j path p :
  parse_track_port j path = Ok p -> unsigned_at j "neighborUID" = Some (value (tp_neighbor_uid p)).
Proof. unfold parse_track_port. intros H. split_ok H. injection H as <-. by apply require_uid_ok in E. Qed.

Lemma parse_switch_leg_ok j path l :
  parse_switch_leg j path = Ok l -> unsigned_at j "neighborUID" = Some (value (leg_neighbor_uid l)).
Proof. unfold parse_switch_leg. intros H. split_ok H. injection H as <-. by apply require_uid_ok in E. Qed.

(** The neighbour named at one side or leg of an entry. *)
Definition neighbor_at (j : json) (key : string) (u : UID) : Prop :=
  exists p, j_find j key = Some p /\ unsigned_at p "neighborUID" = Some (value u).

Lemma parse_boundary_node_ok j path x :
  parse_boundary_node j path = Ok x -> unsigned_at j "uid" = Some (value (bn_uid x)).
Proof. unfold parse_boundary_node. intros H. split_ok H. injection H as <-. by apply require_uid_ok in E. Qed.

Lemma parse_track_section_ok j path x :
  parse_track_section j path = Ok x ->
  unsigned_at j "uid" = Some (value (ts_uid x)) /\
  neighbor_at j "sideA" (tp_neighbor_uid (ts_side_a x)) /\ neighbor_at j "sideB" (tp_neighbor_uid (ts_side_b x)).
Proof.
  unfold parse_track_section, j_at. intros H. split_ok H. injection H as <-. apply require_uid_ok in E.
  apply get_ok in E1, E3. apply parse_track_port_ok in E2, E4. cbn. split_and!; [done|by eexists..].
Qed.

Lemma parse_switch_ok j path x :
  parse_switch j path = Ok x ->
  unsigned_at j "uid" = Some (value (sw_uid x)) /\
  neighbor_at j "trunk" (leg_neighbor_uid (sw_trunk x)) /\
  neighbor_at j "straight" (leg_neighbor_uid (sw_straight x)) /\
  neighbor_at j "divergent" (leg_neighbor_uid (sw_divergent x)).
Proof.
  unfold parse_switch, j_at. intros H. split_ok H. injection H as <-. apply require_uid_ok in E.
  apply get_ok in E2, E4, E6. apply parse_switch_leg_ok in E3, E5, E7. cbn. split_and!; [done|by eexists..].
Qed.

Lemma parse_signal_ok j path x :
  parse_signal j path = Ok x ->
  unsigned_at j "uid" = Some (value (sig_uid x)) /\
  unsigned_at j "governs_section" = Some (value (sig_governs_section_uid x)).
Proof.
  unfold parse_signal. intros H. split_ok H. injection H as <-. apply require_uid_ok in E, E4. done.
Qed.

(** The kinds of objects the layers look at. *)
Definition checked (sl : Slot) : bool :=
  match sl with SlBoundaryNode _ | SlTrackSection _ | SlSwitch _ | SlSignal _ => true | _ => false end.

Lemma uids_in_inj objs j j' n :
  NoDup (uids_in objs) -> j ∈ objs -> j' ∈ objs ->
  unsigned_at j "uid" = Some n -> unsigned_at j' "uid" = Some n -> j = j'.
Proof.
  induction objs as [|x objs IH]; intros Hd Hj Hj' E E'; [by apply not_elem_of_nil in Hj|].
  change (x :: objs) with ([x] ++ objs) in Hd. rewrite uids_in_app, NoDup_app in Hd. destruct Hd as (_ & Hx & Hd).
  assert (forall y, y ∈ objs -> unsigned_at x "uid" = Some n -> unsigned_at y "uid" = Some n -> False) as Hno.
  { intros y Hy Ex Ey. apply (Hx n); apply elem_of_uids_in; [exists x|exists y]; split; [by left|done..]. }
  apply elem_of_cons in Hj as [->|Hj], Hj' as [->|Hj']; [done|..|by apply IH]; exfalso; by eapply Hno.
Qed.

(** A world without loose ends: every reference of a checked object leads to an object. *)
Record closed_world (station_instance : Z) (s : EngineState.t) : Prop := {
  cw_unique : forall sl sl', checked sl = true -> checked sl' = true -> slot_uid sl = slot_uid sl' ->
    is_Some (read s sl) -> is_Some (read s sl') -> sl = sl';
  cw_station : forall sl, checked sl = true -> is_Some (read s sl) ->
    scope_of (value (slot_uid sl)) = station_instance /\ 0 < value (slot_uid sl) < 2 ^ 53;
  cw_sections : forall u x p, EngineState.find_track_section s u = Some x -> p ∈ [ts_side_a x; ts_side_b x] ->
    tp_neighbor_uid p <> UID_zero ->
    (uid_kind (tp_neighbor_uid p) = code UIDKind.SWITCH ->
       is_Some (EngineState.find_switch s (tp_neighbor_uid p))) /\
    (uid_kind (tp_neighbor_uid p) = code UIDKind.BOUNDARY_NODE ->
       is_Some (EngineState.find_boundary_node s (tp_neighbor_uid p)));
  cw_legs : forall u x l, EngineState.find_switch s u = Some x -> l ∈ [sw_trunk x; sw_straight x; sw_divergent x] ->
    leg_neighbor_uid l <> UID_zero ->
    is_Some (EngineState.find_track_section s (leg_neighbor_uid l)) \/
    is_Some (EngineState.find_boundary_node s (leg_neighbor_uid l));
  cw_signals : forall u x, EngineState.find_signal s u = Some x -> sig_governs_section_uid x <> UID_zero ->
    is_Some (EngineState.find_track_section s (sig_governs_section_uid x)) }.

Lemma kind_of_uid u : kind_of (value u) = uid_kind u.
Proof.
  unfold kind_of, uid_kind. change 255 with (Z.ones 8). rewrite Z.land_ones by lia.
  unfold wrap. by rewrite Z.mod_mod by lia.
Qed.

Lemma value_zero u : u <> UID_zero <-> value u <> 0.
Proof. destruct u. cbn. unfold UID_zero. split; [intros H ->; by apply H|by intros H [= ->]]. Qed.

Section World.
Context (sc : Scenario) (topology objects : json) (os : list Obj) (m : ScenarioMeta).
Context (nodes sections switches signals : list json).
Hypothesis Htopology : sc_topology sc = Parsed topology.
Hypothesis Hobjects : sc_objects sc = Some (Parsed objects).
Hypothesis Hload : objects_of sc = Ok (os, m).
Hypothesis Harrays : arrays topology objects nodes sections switches signals.
Hypothesis Hunique : NoDup (uids_in (nodes ++ sections ++ switches ++ signals)).

Definition topo_path : string := sc_dir sc +:+ "/topology.json".
Definition objects_path : string := sc_dir sc +:+ "/objects.json".

(** An entry of an array and the object read from it. *)
Inductive entry : json -> Obj -> Prop :=
| entry_node j x : j ∈ nodes -> parse_boundary_node j topo_path = Ok x -> entry j (OBoundaryNode x)
| entry_section j x : j ∈ sections -> parse_track_section j topo_path = Ok x -> entry j (OTrackSection x)
| entry_switch j x : j ∈ switches -> parse_switch j topo_path = Ok x -> entry j (OSwitch x)
| entry_signal j x : j ∈ signals -> parse_signal j objects_path = Ok x -> entry j (OSignal x).

Lemma arrays_read : exists ts ps,
  objects_in topology topo_path topology_objects = Ok ts /\
  objects_in objects objects_path movable_objects = Ok ps /\ os = ts ++ ps.
Proof.
  unfold objects_of in Hload. rewrite Htopology, Hobjects in Hload. split_ok Hload. injection Hload as <- _.
  cbn in E3. injection E3 as <-. split_ok E5. cbn in E3. injection E3 as <-. by eexists _, _.
Qed.

Lemma entry_uid j o : entry j o -> unsigned_at j "uid" = Some (value (obj_uid o)).
Proof.
  destruct 1 as [j x _ H|j x _ H|j x _ H|j x _ H];
    [by apply parse_boundary_node_ok in H|by apply parse_track_section_ok in H as [H _]|by apply parse_switch_ok in H as [H _]|
     by apply parse_signal_ok in H as [H _]].
Qed.

Lemma entry_in j o : entry j o -> j ∈ nodes ++ sections ++ switches ++ signals.
Proof. rewrite !elem_of_app. destruct 1; auto. Qed.

(** Every entry has its object, and every object of a checked kind its entry. *)
Lemma entries_parsed j : j ∈ nodes ++ sections ++ switches ++ signals -> exists o, entry j o /\ o ∈ os.
Proof.
  destruct arrays_read as (ts & ps & Ht & Hp & ->), Harrays as (En & Es & Ew & Eg).
  rewrite !elem_of_app. setoid_rewrite elem_of_app. intros [Hj|[Hj|[Hj|Hj]]].
  - destruct (objects_in_parsed _ _ _ _ ("boundary_nodes", _)%string _ j Ht (list_elem_of_here _ _) En Hj)
      as (o & Hpo & Ho). apply fmap_ok in Hpo as (x & Hx & ->). exists (OBoundaryNode x). split; [by eapply entry_node|by left].
  - destruct (objects_in_parsed _ _ _ _ ("track_sections", _)%string _ j Ht
      (list_elem_of_further _ _ _ (list_elem_of_here _ _)) Es Hj)
      as (o & Hpo & Ho). apply fmap_ok in Hpo as (x & Hx & ->). exists (OTrackSection x). split; [by eapply entry_section|by left].
  - destruct (objects_in_parsed _ _ _ _ ("switches", _)%string _ j Ht
      (list_elem_of_further _ _ _ (list_elem_of_further _ _ _ (list_elem_of_here _ _))) Ew Hj)
      as (o & Hpo & Ho). apply fmap_ok in Hpo as (x & Hx & ->). exists (OSwitch x). split; [by eapply entry_switch|by left].
  - destruct (objects_in_parsed _ _ _ _ ("signals", _)%string _ j Hp (list_elem_of_here _ _) Eg Hj)
      as (o & Hpo & Ho). apply fmap_ok in Hpo as (x & Hx & ->). exists (OSignal x). split; [by eapply entry_signal|by right].
Qed.

Lemma objects_entered o : o ∈ os -> checked (slot_of o) = true -> exists j, entry j o.
Proof.
  destruct arrays_read as (ts & ps & Ht & Hp & ->), Harrays as (En & Es & Ew & Eg).
  rewrite elem_of_app. intros [Ho|Ho] Hc.
  - apply (objects_in_elem _ _ _ _ o Ht) in Ho as (k & items & j & Hk & Hi & Hj & Hpo). exists j.
    unfold topology_objects in Hk. rewrite !elem_of_cons in Hk.
    destruct Hk as [->|[->|[->|[->|Hk%not_elem_of_nil]]]]; [..|done]; apply fmap_ok in Hpo as (x & Hx & ->); cbn [fst] in Hi.
    + unfold items_of in En. rewrite En in Hi. injection Hi as <-. by eapply entry_node.
    + unfold items_of in Es. rewrite Es in Hi. injection Hi as <-. by eapply entry_section.
    + unfold items_of in Ew. rewrite Ew in Hi. injection Hi as <-. by eapply entry_switch.
    + done.
  - apply (objects_in_elem _ _ _ _ o Hp) in Ho as (k & items & j & Hk & Hi & Hj & Hpo). exists j.
    unfold movable_objects in Hk. rewrite !elem_of_cons in Hk.
    destruct Hk as [->|[->|Hk%not_elem_of_nil]]; [..|done]; apply fmap_ok in Hpo as (x & Hx & ->); cbn [fst] in Hi.
    + unfold items_of in Eg. rewrite Eg in Hi. injection Hi as <-. by eapply entry_signal.
    + done.
Qed.

(** With unique identifiers, an identifier has one object. *)
Lemma entry_unique j j' o o' : entry j o -> entry j' o' -> obj_uid o = obj_uid o' -> o = o'.
Proof.
  intros He He' Heq. pose proof (entry_uid _ _ He) as Hu. pose proof (entry_uid _ _ He') as Hu'. rewrite <-Heq in Hu'.
  assert (j = j') as <-.
  { eapply uids_in_inj; [exact Hunique|by eapply entry_in|by eapply entry_in|exact Hu|exact Hu']. }
  revert Hunique. rewrite !uids_in_app, !NoDup_app.
  assert (forall objs, j ∈ objs -> value (obj_uid o) ∈ uids_in objs) as Hin.
  { intros objs Hj. apply elem_of_uids_in. by exists j. }
  intros (_ & Hn & _ & Hs & _ & Hw & _). specialize (Hn (value (obj_uid o))). specialize (Hs (value (obj_uid o))).
  specialize (Hw (value (obj_uid o))). rewrite !elem_of_app in Hn. rewrite !elem_of_app in Hs.
  destruct He, He'; cbn in Heq |- *; try congruence; exfalso; clear - Hn Hs Hw Hin H H1; naive_solver.
Qed.

Lemma first_for_some o : o ∈ os -> exists o', first_for (slot_of o) os = Some o' /\ o' ∈ os /\ slot_of o' = slot_of o.
Proof.
  intros Ho. destruct (first_for (slot_of o) os) as [o'|] eqn:E.
  - exists o'. by apply first_for_elem in E.
  - exfalso. unfold first_for in E. apply list_elem_of_In in Ho. eapply find_none in E; [|exact Ho].
    by rewrite bool_decide_eq_false in E.
Qed.

(** No entry is shadowed. *)
Lemma entry_present j o : entry j o -> o ∈ os -> first_for (slot_of o) os = Some o.
Proof.
  intros He Ho. destruct (first_for_some o Ho) as (o' & E & Ho' & Hs). rewrite E. f_equal.
  destruct (objects_entered o' Ho') as [j' He']; [rewrite Hs; by destruct He|].
  eapply entry_unique; [exact He'|exact He|]. by rewrite !slot_of_uid, Hs.
Qed.

(** Whatever an identifier of an array names is in the world. *)
Lemma named_present n objs :
  objs ⊆ nodes ++ sections ++ switches ++ signals -> n ∈ uids_in objs ->
  exists j o, j ∈ objs /\ entry j o /\ value (obj_uid o) = n /\ first_for (slot_of o) os = Some o.
Proof.
  intros Hsub (j & Hj & Hn)%elem_of_uids_in. destruct (entries_parsed j (Hsub j Hj)) as (o & He & Ho).
  exists j, o. pose proof (entry_uid _ _ He) as Hu. rewrite Hn in Hu. injection Hu as Hu.
  split_and!; [done..|by eapply entry_present].
Qed.

(** The same for each array, whose entries are pairwise different. *)
Lemma entry_kind j o : entry j o ->
  (j ∈ nodes -> exists x, o = OBoundaryNode x) /\ (j ∈ sections -> exists x, o = OTrackSection x) /\
  (j ∈ switches -> exists x, o = OSwitch x) /\ (j ∈ signals -> exists x, o = OSignal x).
Proof.
  intros He. pose proof (entry_uid _ _ He) as Hu. revert Hunique. rewrite !uids_in_app, !NoDup_app.
  assert (forall objs, j ∈ objs -> value (obj_uid o) ∈ uids_in objs) as Hin.
  { intros objs Hj. apply elem_of_uids_in. by exists j. }
  intros (_ & Hn & _ & Hs & _ & Hw & _). specialize (Hn (value (obj_uid o))). specialize (Hs (value (obj_uid o))).
  specialize (Hw (value (obj_uid o))). rewrite !elem_of_app in Hn. rewrite !elem_of_app in Hs.
  destruct He; split_and!; intros Hj; try (by eexists); exfalso; clear - Hn Hs Hw Hin H Hj; naive_solver.
Qed.


(** An identifier of an array names an object of the array's kind. *)
Lemma named_slot n objs (mk : UID -> Slot) :
  objs ⊆ nodes ++ sections ++ switches ++ signals ->
  (forall j o, entry j o -> j ∈ objs -> slot_of o = mk (obj_uid o)) ->
  n ∈ uids_in objs -> is_Some (first_for (mk (mkUID n)) os).
Proof.
  intros Hsub Hmk Hn. destruct (named_present n objs Hsub Hn) as (j & o & Hj & He & Hv & Hf).
  rewrite (Hmk j o He Hj) in Hf. exists o. rewrite <-Hf, <-Hv. by destruct (obj_uid o).
Qed.

Lemma array_slots n :
  (n ∈ uids_in nodes -> is_Some (first_for (SlBoundaryNode (mkUID n)) os)) /\
  (n ∈ uids_in sections -> is_Some (first_for (SlTrackSection (mkUID n)) os)) /\
  (n ∈ uids_in switches -> is_Some (first_for (SlSwitch (mkUID n)) os)) /\
  (n ∈ uids_in signals -> is_Some (first_for (SlSignal (mkUID n)) os)).
Proof.
  split_and!; apply named_slot; try (intros j Hj; rewrite !elem_of_app; auto; fail);
    intros j o He Hj; destruct (entry_kind j o He) as (Hn & Hs & Hw & Hg).
  - by destruct (Hn Hj) as [x ->].
  - by destruct (Hs Hj) as [x ->].
  - by destruct (Hw Hj) as [x ->].
  - by destruct (Hg Hj) as [x ->].
Qed.

(** A checked object of the world is the one read from its entry. *)
Lemma world_entry sl o : first_for sl os = Some o -> checked sl = true -> slot_of o = sl /\ exists j, entry j o.
Proof. intros [Ho <-]%first_for_elem Hc. split; [done|]. by apply objects_entered. Qed.

Section Closed.
Context (station_instance : Z) (s : EngineState.t).
Hypothesis Hfirst : Layer1Spec nodes sections switches signals.
Hypothesis Hsecond : Layer2Spec station_instance nodes sections switches signals.
Hypothesis Hread : forall sl, read s sl = first_for sl os.

Lemma array_found n :
  (n ∈ uids_in nodes -> is_Some (EngineState.find_boundary_node s (mkUID n))) /\
  (n ∈ uids_in sections -> is_Some (EngineState.find_track_section s (mkUID n))) /\
  (n ∈ uids_in switches -> is_Some (EngineState.find_switch s (mkUID n))) /\
  (n ∈ uids_in signals -> is_Some (EngineState.find_signal s (mkUID n))).
Proof.
  destruct (array_slots n) as (Hn & Hs & Hw & Hg). rewrite <-!Hread in Hn, Hs, Hw, Hg.
  split_and!; intros H.
  - apply Hn in H. by apply fmap_is_Some in H.
  - apply Hs in H. by apply fmap_is_Some in H.
  - apply Hw in H. by apply fmap_is_Some in H.
  - apply Hg in H. by apply fmap_is_Some in H.
Qed.

(** A reference that the layers found in an array leads to an object. *)
Lemma found_at u :
  (value u ∈ uids_in nodes -> is_Some (EngineState.find_boundary_node s u)) /\
  (value u ∈ uids_in sections -> is_Some (EngineState.find_track_section s u)) /\
  (value u ∈ uids_in switches -> is_Some (EngineState.find_switch s u)).
Proof. destruct u as [n]. destruct (array_found n) as (Hn & Hs & Hw & _). done. Qed.

Lemma read_entry sl o : read s sl = Some o -> checked sl = true ->
  obj_uid o = slot_uid sl /\ exists j, entry j o /\ unsigned_at j "uid" = Some (value (slot_uid sl)).
Proof.
  rewrite Hread. intros Hr Hc. destruct (world_entry sl o Hr Hc) as (<- & j & He).
  rewrite slot_of_uid. split; [done|]. exists j. split; [done|]. rewrite <-slot_of_uid. by apply entry_uid.
Qed.

Lemma closed_unique sl sl' : checked sl = true -> checked sl' = true -> slot_uid sl = slot_uid sl' ->
  is_Some (read s sl) -> is_Some (read s sl') -> sl = sl'.
Proof.
  intros Hc Hc' Hu [o Ho] [o' Ho']. rewrite Hread in Ho, Ho'.
  destruct (world_entry _ _ Ho Hc) as (<- & j & He), (world_entry _ _ Ho' Hc') as (<- & j' & He').
  f_equal. eapply entry_unique; [exact He|exact He'|]. by rewrite !slot_of_uid.
Qed.

Lemma closed_station sl : checked sl = true -> is_Some (read s sl) ->
  scope_of (value (slot_uid sl)) = station_instance /\ 0 < value (slot_uid sl) < 2 ^ 53.
Proof.
  intros Hc [o Ho]. destruct (read_entry _ _ Ho Hc) as (_ & j & He & Hu). split.
  - apply (l2_scope _ _ _ _ _ Hsecond). apply elem_of_uids_in. exists j. split; [by eapply entry_in|done].
  - destruct (l1_identified _ _ _ _ Hfirst j) as [(n & Hn & Hb) _]; [by eapply entry_in|]. congruence.
Qed.

Lemma closed_sections u x p : EngineState.find_track_section s u = Some x -> p ∈ [ts_side_a x; ts_side_b x] ->
  tp_neighbor_uid p <> UID_zero ->
  (uid_kind (tp_neighbor_uid p) = code UIDKind.SWITCH -> is_Some (EngineState.find_switch s (tp_neighbor_uid p))) /\
  (uid_kind (tp_neighbor_uid p) = code UIDKind.BOUNDARY_NODE ->
     is_Some (EngineState.find_boundary_node s (tp_neighbor_uid p))).
Proof.
  intros Hx Hp H0%value_zero.
  assert (read s (SlTrackSection u) = Some (OTrackSection x)) as Hr
    by (change (OTrackSection <$> EngineState.find_track_section s u = Some (OTrackSection x)); by rewrite Hx).
  destruct (read_entry _ _ Hr eq_refl) as (_ & j & He & _). inversion He as [|? ? Hj Hparse| |]; subst.
  apply parse_track_section_ok in Hparse as (_ & Ha & Hb).
  assert (exists side, side ∈ ["sideA"; "sideB"]%string /\ neighbor_at j side (tp_neighbor_uid p)) as (side & Hside & q & Hq & Hn).
  { rewrite !elem_of_cons in Hp. destruct Hp as [->|[->|Hp%not_elem_of_nil]]; [exists "sideA"%string|exists "sideB"%string|done];
      (split; [|done]); rewrite !elem_of_cons; auto. }
  destruct (l2_sections _ _ _ _ _ Hsecond j side q _ Hj Hside Hq Hn H0) as [Hw Hb'].
  rewrite kind_of_uid in Hw, Hb'. split; intros Hk; apply found_at; auto.
Qed.

Lemma closed_legs u x l : EngineState.find_switch s u = Some x -> l ∈ [sw_trunk x; sw_straight x; sw_divergent x] ->
  leg_neighbor_uid l <> UID_zero ->
  is_Some (EngineState.find_track_section s (leg_neighbor_uid l)) \/
  is_Some (EngineState.find_boundary_node s (leg_neighbor_uid l)).
Proof.
  intros Hx Hl H0%value_zero.
  assert (read s (SlSwitch u) = Some (OSwitch x)) as Hr
    by (change (OSwitch <$> EngineState.find_switch s u = Some (OSwitch x)); by rewrite Hx).
  destruct (read_entry _ _ Hr eq_refl) as (_ & j & He & _). inversion He as [| |? ? Hj Hparse|]; subst.
  apply parse_switch_ok in Hparse as (_ & Ht & Hs & Hd).
  assert (exists leg, leg ∈ ["trunk"; "straight"; "divergent"]%string /\ neighbor_at j leg (leg_neighbor_uid l))
    as (leg & Hleg & q & Hq & Hn).
  { rewrite !elem_of_cons in Hl.
    destruct Hl as [->|[->|[->|Hl%not_elem_of_nil]]];
      [exists "trunk"%string|exists "straight"%string|exists "divergent"%string|done];
      (split; [|done]); rewrite !elem_of_cons; auto. }
  destruct (l2_legs _ _ _ _ _ Hsecond j leg q _ Hj Hleg Hq Hn H0) as [H|H]; apply found_at in H; auto.
Qed.

Lemma closed_signals u x : EngineState.find_signal s u = Some x -> sig_governs_section_uid x <> UID_zero ->
  is_Some (EngineState.find_track_section s (sig_governs_section_uid x)).
Proof.
  intros Hx H0%value_zero.
  assert (read s (SlSignal u) = Some (OSignal x)) as Hr
    by (change (OSignal <$> EngineState.find_signal s u = Some (OSignal x)); by rewrite Hx).
  destruct (read_entry _ _ Hr eq_refl) as (_ & j & He & _). inversion He as [| | |? ? Hj Hparse]; subst.
  apply parse_signal_ok in Hparse as (_ & Hg). apply found_at.
  by apply (l2_governs _ _ _ _ _ Hsecond j).
Qed.

Lemma closed : closed_world station_instance s.
Proof. constructor; [apply closed_unique|apply closed_station|apply closed_sections|apply closed_legs|apply closed_signals]. Qed.
End Closed.
End World.

(** A scenario that both layers accept and the loader loads makes a world without loose ends.
    Nothing of its arrays is lost: every identifier listed there names an object of its kind, and
    no other object of a checked kind has that identifier.  All belong to the station; the
    switches and boundary nodes behind the sections, the sections or boundary nodes behind the
    switch legs, and the sections the signals govern, are all there. *)
Theorem accepted_world_closed sc topology objects station_instance issues1 issues2 s metas :
  sc_topology sc = Parsed topology -> sc_objects sc = Some (Parsed objects) ->
  layer1_validate topology objects = Ok issues1 -> ValidationResult.ok issues1 = true ->
  layer2_validate station_instance topology objects = Ok issues2 -> ValidationResult.ok issues2 = true ->
  load_world EngineState.empty [sc] = Ok (s, metas) ->
  closed_world station_instance s /\
  exists nodes sections switches signals, arrays topology objects nodes sections switches signals /\ forall n,
    (n ∈ uids_in nodes -> is_Some (EngineState.find_boundary_node s (mkUID n))) /\
    (n ∈ uids_in sections -> is_Some (EngineState.find_track_section s (mkUID n))) /\
    (n ∈ uids_in switches -> is_Some (EngineState.find_switch s (mkUID n))) /\
    (n ∈ uids_in signals -> is_Some (EngineState.find_signal s (mkUID n))).
Proof.
  intros Ht Ho E1 Hok1 E2 Hok2 Hl.
  destruct (layer2_arrays station_instance _ _ _ E1 Hok1) as (issues2' & ns & ss & ws & gs & E2' & Ha & Hspec2).
  rewrite E2 in E2'. injection E2' as <-. apply Hspec2 in Hok2. clear Hspec2.
  destruct (layer1_arrays _ _ _ E1) as (ns' & ss' & ws' & gs' & Ha' & Hspec1). apply Hspec1 in Hok1. clear Hspec1.
  assert (ns' = ns /\ ss' = ss /\ ws' = ws /\ gs' = gs) as (-> & -> & -> & ->).
  { destruct Ha as (? & ? & ? & ?), Ha' as (? & ? & ? & ?). split_and!; congruence. }
  destruct (load_single _ _ _ Hl) as (os & m & Hos & _ & Hread). split.
  - eapply closed; [exact Ht|exact Ho|exact Hos|exact Ha| |done..]. by apply l1_distinct.
  - exists ns, ss, ws, gs. split; [done|]. intros n.
    eapply array_found; [exact Ht|exact Ho|exact Hos|exact Ha| |done..]. by apply l1_distinct.
Qed.
End Layers.

(** ** A scenario that passes, and one that passes and does not load *)

Module ValidationDemo.
Import JsonDemo.

Definition id (k : UIDKind.t) (n : Z) : value :=
  JUnsigned (Z.to_N (Types.value (make_uid UIDDomain.INFRASTRUCTURE k 1 n))).
Definition port (neighbor : value) : value := JObject [("neighborUID", neighbor)]%string.
Definition leg (neighbor counter : value) : value :=
  JObject [("neighborUID", neighbor); ("izUID", counter)]%string.

(** A node, a section and a switch that leads back to the section. *)
Definition node : value := JObject [("uid", id UIDKind.BOUNDARY_NODE 1); ("pID", JString "bnd")]%string.
Definition section : value := JObject
  [("uid", id UIDKind.TRACK_SECTION 1); ("pID", JString "it1"); ("sideA", port (id UIDKind.BOUNDARY_NODE 1));
   ("sideB", JObject [("neighborUID", id UIDKind.SWITCH 1); ("izUID", JUnsigned 77);
                      ("signalUIDs", JArray [id UIDKind.SIGNAL 1])])]%string.
Definition switch : value := JObject
  [("uid", id UIDKind.SWITCH 1); ("pID", JString "w1"); ("trunk", leg (id UIDKind.TRACK_SECTION 1) (JUnsigned 77));
   ("straight", leg (id UIDKind.BOUNDARY_NODE 1) (JUnsigned 78)); ("divergent", leg (JUnsigned 0) (JUnsigned 79))]%string.
Definition signal (aspect : string) : value := JObject
  [("uid", id UIDKind.SIGNAL 1); ("pID", JString "A"); ("type", JString "ENTRY");
   ("governs_section", id UIDKind.TRACK_SECTION 1); ("initial_aspect", JString aspect)]%string.

Definition topology : value := JObject
  [("boundary_nodes", JArray [node]); ("track_sections", JArray [section]); ("switches", JArray [switch])]%string.
Definition objects (aspect : string) : value := JObject [("signals", JArray [signal aspect])]%string.
Definition scenario (aspect : string) : Scenario :=
  mkScenario "st" (TopologyDemo.meta "st") (Parsed topology) (Some (Parsed (objects aspect))).
Definition loaded : EngineState.t :=
  match load_world EngineState.empty [scenario "STOP"] with Ok (s, _) => s | Throw _ => EngineState.empty end.
Lemma accepted_loads : load_world EngineState.empty [scenario "STOP"] = Ok (loaded, [mkScenarioMeta "st" "ebilock" 1]).
Proof. by vm_compute. Qed.

Lemma accepted1 aspect : aspect ∈ kValidAspects -> layer1_validate topology (objects aspect) = Ok [].
Proof.
  intros H. unfold kValidAspects in H. rewrite !elem_of_cons in H.
  repeat destruct H as [->|H]; [by vm_compute..|by apply not_elem_of_nil in H].
Qed.
Lemma accepted2 aspect : layer2_validate 1 topology (objects aspect) = Ok [].
Proof. by vm_compute. Qed.

(** Six of the twelve aspects pass both layers and stop the loader. *)
Example accepted_not_loadable aspect :
  aspect ∈ ["CAUTION"; "PROCEED"; "CLEAR"; "CAUTION_THEN_STOP"; "SHUNTING"; "REPEAT"]%string ->
  layer1_validate topology (objects aspect) = Ok [] /\ layer2_validate 1 topology (objects aspect) = Ok [] /\
  load_world EngineState.empty [scenario aspect] =
    Throw (runtime_error ("topology_loader: unknown initial_aspect '" +:+ aspect +:+ "'")).
Proof.
  intros H. rewrite !elem_of_cons in H.
  repeat destruct H as [->|H]; [..|by apply not_elem_of_nil in H];
    (split_and!; [apply accepted1; unfold kValidAspects; rewrite !elem_of_cons; tauto|apply accepted2|by vm_compute]).
Qed.

(** A name that is a number: layer 1 reports it, layer 2 alone would throw. *)
Example layer2_alone :
  let bad := JObject [("track_sections", JArray [JObject [("uid", JString "x")]])]%string in
  ValidationResult.error_count (default [] (match layer1_validate bad (JObject []) with Ok i => Some i | Throw _ => None end)) = 2 /\
  layer2_validate 1 bad (JObject []) = Throw json_exception.
Proof. split; by vm_compute. Qed.
End ValidationDemo.

Lemma layer1_accepts_witness :
  exists nodes sections switches signals, Layer1Spec nodes sections switches signals /\ length signals = 1%nat.
Proof.
  destruct (layer1_accepts (JL := JsonDemo.lib) ValidationDemo.topology (ValidationDemo.objects "STOP") []) as (ns & ss & ws & gs & Ha & Hs);
    [by vm_compute|].
  exists ns, ss, ws, gs. split; [by apply Hs|]. destruct Ha as (_ & _ & _ & Hg). vm_compute in Hg. injection Hg as <-. done.
Defined.

Lemma layer2_accepts_witness :
  exists issues, layer2_validate 1 ValidationDemo.topology (ValidationDemo.objects "STOP") = Ok issues.
Proof.
  destruct (layer2_accepts (JL := JsonDemo.lib) 1 ValidationDemo.topology (ValidationDemo.objects "STOP") []) as (i & ns & ss & ws & gs & Hi & _);
    [by vm_compute|done|].
  exists i. exact Hi.
Defined.

Lemma accepted_world_closed_witness : closed_world 1 ValidationDemo.loaded.
Proof.
  refine (proj1 (accepted_world_closed (JL := JsonDemo.lib) (ValidationDemo.scenario "STOP") ValidationDemo.topology (ValidationDemo.objects "STOP")
    1 [] [] _ _ eq_refl eq_refl _ eq_refl _ eq_refl ValidationDemo.accepted_loads)).
  - by vm_compute.
  - by vm_compute.
Defined.
