(* ===== verification/SpawnResolver.v ===== *)
(** * SpawnResolver: where a train enters the world

    [engine/include/engine/core/spawn_resolver.hpp] and [engine/src/spawn_resolver.cpp]:
    a boundary node has no reference to the section behind it, so the resolver
    looks for the only section that names the node as a neighbour.  It reads the
    world through the view interface, and the theorem holds of every view that
    keeps the laws of the interface. *)
From S2P Require Import Prelude Types Track World.
Local Open Scope Z_scope.

Module SpawnError.
(* SRC engine/include/engine/core/spawn_resolver.hpp 25-31 SpawnError *)
Inductive t := UNKNOWN_BOUNDARY | NO_ADJACENT_SECTION | AMBIGUOUS | SECTION_OCCUPIED.
#[global] Instance eq_dec : EqDecision t. Proof. solve_decision. Defined.

(* SRC engine/src/spawn_resolver.cpp 10-24 to_string *)
Definition to_string (e : t) : string :=
  match e with
  | UNKNOWN_BOUNDARY => "boundary node not found"
  | NO_ADJACENT_SECTION => "no track section adjacent to the boundary node"
  | AMBIGUOUS => "more than one track section references the boundary node"
  | SECTION_OCCUPIED => "the section adjacent to the boundary node is not free"
  end.
End SpawnError.

(* SRC engine/include/engine/core/spawn_resolver.hpp 19-23 SpawnPoint *)
Record SpawnPoint := mkSpawnPoint { sp_section_uid : UID; sp_from_uid : UID }.

Section Resolver.
Context {V : Type} {SV : StateView V}.

(* SRC engine/src/spawn_resolver.cpp 37-37 resolve_spawn_at_boundary *)
Definition touches (boundary_uid : UID) (ts : TrackSection) : bool :=
  bool_decide (tp_neighbor_uid (ts_side_a ts) = boundary_uid) || bool_decide (tp_neighbor_uid (ts_side_b ts) = boundary_uid).

(** The callback of the loop: the last match, and how many there were. *)
(* SRC engine/src/spawn_resolver.cpp 32-42 resolve_spawn_at_boundary *)
Definition count_adjacent (boundary_uid : UID) (sections : list TrackSection) : option TrackSection * Z :=
  fold_left (fun '(adjacent, matches) ts =>
    if touches boundary_uid ts then (Some ts, matches + 1) else (adjacent, matches)) sections (None, 0).

(** With one match the pointer is not null. *)
(* SRC engine/src/spawn_resolver.cpp 26-52 resolve_spawn_at_boundary *)
Definition resolve_spawn_at_boundary (state : V) (boundary_uid : UID) : SpawnPoint + SpawnError.t :=
  match find_boundary_node state boundary_uid with
  | None => inr SpawnError.UNKNOWN_BOUNDARY
  | Some _ =>
      let '(adjacent, matches) := count_adjacent boundary_uid (for_each_track_section state) in
      if matches =? 0 then inr SpawnError.NO_ADJACENT_SECTION
      else if 1 <? matches then inr SpawnError.AMBIGUOUS
      else match adjacent with
           | Some ts =>
               if bool_decide (ts_occupancy ts = TrackOccupancy.FREE)
               then inl (mkSpawnPoint (ts_uid ts) boundary_uid)
               else inr SpawnError.SECTION_OCCUPIED
           | None => inr SpawnError.NO_ADJACENT_SECTION
           end
  end.

Lemma count_adjacent_eq b sections :
  count_adjacent b sections =
    (last (filter (fun ts => touches b ts = true) sections),
     Z.of_nat (length (filter (fun ts => touches b ts = true) sections))).
Proof.
  unfold count_adjacent. induction sections as [|ts sections IH] using rev_ind; [done|].
  rewrite fold_left_app, IH, filter_app. cbn [fold_left].
  destruct (touches b ts) eqn:E.
  - rewrite filter_cons_True, filter_nil, last_snoc, length_app by done. cbn [length]. f_equal. lia.
  - rewrite filter_cons_False, filter_nil, app_nil_r by congruence. done.
Qed.

(** The sections at a node, by identifier. *)
Definition at_node (state : V) (b u : UID) (ts : TrackSection) : Prop :=
  find_track_section state u = Some ts /\ touches b ts = true.

Lemma sections_at {L : StateViewLaws V} state b :
  exists found : list (UID * TrackSection),
    NoDup found.*1 /\ (forall u ts, (u, ts) ∈ found <-> at_node state b u ts) /\
    filter (fun ts => touches b ts = true) (for_each_track_section state) ≡ₚ found.*2.
Proof.
  destruct (track_section_backed state) as (m & Hf & Hp).
  exists (filter (fun p => touches b p.2 = true) (map_to_list m)). split_and!.
  - eapply sublist_NoDup; [apply (NoDup_fst_map_to_list m)|]. apply fmap_sublist, sublist_filter.
  - intros u ts. rewrite list_elem_of_filter, elem_of_map_to_list. unfold at_node. rewrite Hf. cbn. clear. split; by intros [].
  - rewrite Hp. clear. induction (map_to_list m) as [|[u ts] l IH]; [done|]. cbn [fmap list_fmap].
    destruct (touches b ts) eqn:E.
    + rewrite !filter_cons_True by done. cbn [fmap list_fmap]. by rewrite IH.
    + rewrite !filter_cons_False by (cbn; congruence). done.
Qed.

Lemma resolve_spawn_cases {L : StateViewLaws V} state b :
  match resolve_spawn_at_boundary state b with
  | inl p => is_Some (find_boundary_node state b) /\ sp_from_uid p = b /\
      exists u ts, at_node state b u ts /\ (forall u' ts', at_node state b u' ts' -> u' = u) /\
        ts_occupancy ts = TrackOccupancy.FREE /\ sp_section_uid p = ts_uid ts
  | inr SpawnError.UNKNOWN_BOUNDARY => find_boundary_node state b = None
  | inr SpawnError.NO_ADJACENT_SECTION => is_Some (find_boundary_node state b) /\ forall u ts, ~ at_node state b u ts
  | inr SpawnError.AMBIGUOUS => is_Some (find_boundary_node state b) /\
      exists u u' ts ts', at_node state b u ts /\ at_node state b u' ts' /\ u <> u'
  | inr SpawnError.SECTION_OCCUPIED => is_Some (find_boundary_node state b) /\
      exists u ts, at_node state b u ts /\ (forall u' ts', at_node state b u' ts' -> u' = u) /\
        ts_occupancy ts <> TrackOccupancy.FREE
  end.
Proof.
  unfold resolve_spawn_at_boundary. destruct (find_boundary_node state b) as [n|] eqn:En; [|done].
  rewrite count_adjacent_eq. destruct (sections_at state b) as (found & Hd & Hat & Hp).
  pose proof (Permutation_length Hp) as Hlen. rewrite length_fmap in Hlen. rewrite Hlen.
  destruct found as [|[u ts] [|[u' ts'] found]].
  - cbn. split; [by exists n|]. intros u ts H%Hat. by apply not_elem_of_nil in H.
  - cbn in Hp. apply Permutation_singleton_r in Hp. rewrite Hp. cbn.
    assert (at_node state b u ts) as Hu by (apply Hat; by left).
    assert (forall u' ts', at_node state b u' ts' -> u' = u) as Huniq.
    { intros u' ts' H%Hat. apply list_elem_of_singleton in H. congruence. }
    case_bool_decide as Ho; (split; [by exists n|]); [split; [done|]|]; by exists u, ts.
  - cbn [length]. destruct (Z.eqb_spec (Z.of_nat (S (S (length found)))) 0) as [?|_]; [lia|].
    destruct (Z.ltb_spec 1 (Z.of_nat (S (S (length found))))) as [_|?]; [|lia].
    split; [by exists n|]. exists u, u', ts, ts'. split_and!; [apply Hat; by left|apply Hat; right; by left|].
    cbn in Hd. apply NoDup_cons in Hd as [Hd _]. intros ->. apply Hd. by left.
Qed.

(** The resolver answers with the section behind the node exactly when the node is known, one
    section and no other names it, and that section is free; each error says which of these
    fails first.  The order in which the view visits its sections does not matter. *)
Theorem resolve_spawn_spec {L : StateViewLaws V} state b :
  match resolve_spawn_at_boundary state b with
  | inl p => is_Some (find_boundary_node state b) /\ sp_from_uid p = b /\
      exists u ts, at_node state b u ts /\ (forall u' ts', at_node state b u' ts' -> u' = u) /\
        ts_occupancy ts = TrackOccupancy.FREE /\ sp_section_uid p = ts_uid ts
  | inr SpawnError.UNKNOWN_BOUNDARY => find_boundary_node state b = None
  | inr SpawnError.NO_ADJACENT_SECTION => is_Some (find_boundary_node state b) /\ forall u ts, ~ at_node state b u ts
  | inr SpawnError.AMBIGUOUS => is_Some (find_boundary_node state b) /\
      exists u u' ts ts', at_node state b u ts /\ at_node state b u' ts' /\ u <> u'
  | inr SpawnError.SECTION_OCCUPIED => is_Some (find_boundary_node state b) /\
      exists u ts, at_node state b u ts /\ (forall u' ts', at_node state b u' ts' -> u' = u) /\
        ts_occupancy ts <> TrackOccupancy.FREE
  end.
Proof. apply resolve_spawn_cases. Qed.
End Resolver.
