(* ===== verification/Terminal.v ===== *)
(** * Terminal: the operator's terminal of the server

    [server/src/terminal]: user accounts and permissions, the commands and
    their registry, the session that checks a line before it runs a command,
    and the loop over the input.  A command answers with a text and queues
    requests for the engine; the last section follows a spawned train into the
    engine's fleet. *)
From Stdlib Require Import Ascii String.
From S2P Require Import Prelude Float32 Types Track World Demo Changes Physics TrainSim Fleet Loop Text Json FleetRegistry SpawnResolver.
Local Open Scope Z_scope.

(** ** Permissions and accounts *)

Module Permission.
(* SRC server/include/server/terminal/terminal_command.hpp 23-32 Permission *)
Inductive t := SPAWN | DESPAWN | KICK | BAN | RESET | SETTINGS | LOGS.
#[global] Instance eq_dec : EqDecision t. Proof. solve_decision. Defined.

(* SRC server/src/terminal/terminal_command.cpp 8-28 to_string *)
Definition to_string (p : t) : string :=
  match p with
  | SPAWN => "SPAWN" | DESPAWN => "DESPAWN" | KICK => "KICK" | BAN => "BAN"
  | RESET => "RESET" | SETTINGS => "SETTINGS" | LOGS => "LOGS"
  end.
End Permission.

(** [std::set<Permission>], used through [contains]. *)
(* SRC server/src/terminal/terminal_command.cpp 30-34 all_permissions *)
Definition all_permissions : list Permission.t :=
  [Permission.SPAWN; Permission.DESPAWN; Permission.KICK; Permission.BAN;
   Permission.RESET; Permission.SETTINGS; Permission.LOGS].

(* SRC server/include/server/terminal/user_store.hpp 22-27 UserAccount *)
Record UserAccount := mkUserAccount {
  ua_login : string; ua_password : string; ua_permissions : list Permission.t }.

Module InMemoryUserStore.
(* SRC server/src/terminal/user_store.cpp 11-14 InMemoryUserStore *)
Record t := mk { accounts_ : list UserAccount }.
(* SRC server/src/terminal/user_store.cpp 16-23 InMemoryUserStore::with_default_admin *)
Definition with_default_admin : t := mk [mkUserAccount "admin" "admin123" all_permissions].
(* SRC server/src/terminal/user_store.cpp 25-33 InMemoryUserStore::authenticate *)
Definition authenticate (self : t) (login password : string) : option UserAccount :=
  List.find (fun a => bool_decide (ua_login a = login) && bool_decide (ua_password a = password)) (accounts_ self).
End InMemoryUserStore.

(** ** Arguments *)

Fixpoint all_digits (s : string) : bool :=
  match s with EmptyString => true | String c s => is_digit c && all_digits s end.

(** [std::from_chars] must consume the whole text, and reports an overflow. *)
(* SRC server/src/terminal/lookup.cpp 10-18 parse_uint *)
Definition parse_uint (text : string) : option Z :=
  if bool_decide (text = ""%string) || negb (all_digits text) then None
  else let value := digits 0 text in if value <? 2 ^ 64 then Some value else None.

Section Lookup.
Context {MO : MapOrder}.

(** The loops stop at the first match, in the order of the map. *)
(* SRC server/src/terminal/lookup.cpp 20-37 resolve_consist_uid *)
Definition resolve_consist_uid (fleet : FleetRegistry) (arg : string) : option UID :=
  match parse_uint arg with
  | Some value => if bool_decide (is_Some (consists_ fleet !! mkUID value)) then Some (mkUID value) else None
  | None => fst <$> List.find (fun e => bool_decide (con_pid e.2 = arg)) (visit (consists_ fleet))
  end.

(* SRC server/src/terminal/lookup.cpp 39-56 resolve_boundary_uid *)
Definition resolve_boundary_uid (snap : EngineSnapshot.t) (arg : string) : option UID :=
  match parse_uint arg with
  | Some value =>
      if bool_decide (is_Some (EngineSnapshot.boundary_nodes snap !! mkUID value)) then Some (mkUID value) else None
  | None => fst <$> List.find (fun e => bool_decide (bn_pid e.2 = arg)) (visit (EngineSnapshot.boundary_nodes snap))
  end.
End Lookup.

(** ** Commands *)

(** What a command reads: the fleet registry, and the snapshot published last. *)
Record Env := mkEnv { env_fleet : FleetRegistry; env_snapshot : option EngineSnapshot.t }.

(** [execute] gives the text and the requests it queues, or throws. *)
(* SRC server/include/server/terminal/terminal_command.hpp 39-56 ITerminalCommand *)
Record ITerminalCommand := mkITerminalCommand {
  cmd_name : string; cmd_help : string; cmd_required_permission : Permission.t;
  cmd_execute : Env -> list string -> result (string * list FleetCommand) }.

Section Commands.
Context {MO : MapOrder}.
(** A number in fixed notation with one digit after the point. *)
Variable fixed1 : float -> string.

Definition train_active (snap : EngineSnapshot.t) (uid : UID) : bool :=
  existsb (fun train => bool_decide (tsn_uid train = uid)) (EngineSnapshot.trains snap).

(* SRC server/src/terminal/spawn_command.cpp 23-70 SpawnCommand::execute *)
Definition spawn_execute (env : Env) (args : list string) : result (string * list FleetCommand) :=
  match args with
  | [consist_arg; boundary_arg] =>
      match env_snapshot env with
      | None => Ok ("world snapshot not available yet"%string, [])
      | Some snap =>
          match resolve_consist_uid (env_fleet env) consist_arg with
          | None => Ok ("unknown consist: " +:+ consist_arg, [])
          | Some consist_uid =>
              consist ← get_consist consist_uid (env_fleet env);
              if train_active snap consist_uid then Ok ("train already active: " +:+ con_pid consist, [])
              else match resolve_boundary_uid snap boundary_arg with
                   | None => Ok ("unknown boundary node: " +:+ boundary_arg, [])
                   | Some boundary_uid =>
                       match resolve_spawn_at_boundary snap boundary_uid with
                       | inr error => Ok ("spawn rejected: " +:+ SpawnError.to_string error, [])
                       | inl point =>
                           vehicles ← traverse (fun vehicle_uid => get_vehicle vehicle_uid (env_fleet env))
                                        (con_vehicle_uids consist);
                           match make_train_sim_state consist vehicles (sp_section_uid point) with
                           | inl what => Ok ("spawn rejected: " +:+ what, [])
                           | inr initial =>
                               Ok ("spawn queued: " +:+ con_pid consist +:+ " (uid " +:+ to_string (value consist_uid) +:+
                                   ") at section uid " +:+ to_string (value (sp_section_uid point)),
                                   [SpawnRequest initial (sp_from_uid point)])
                           end
                       end
                   end
          end
      end
  | _ => Ok ("usage: spawn <consist uid|pID> <boundary uid|pID>"%string, [])
  end.

(* SRC server/src/terminal/despawn_command.cpp 18-45 DespawnCommand::execute *)
Definition despawn_execute (env : Env) (args : list string) : result (string * list FleetCommand) :=
  match args with
  | [arg] =>
      match env_snapshot env with
      | None => Ok ("world snapshot not available yet"%string, [])
      | Some snap =>
          match (match resolve_consist_uid (env_fleet env) arg with
                 | Some uid => Some uid
                 | None => mkUID <$> parse_uint arg
                 end) with
          | None => Ok ("unknown train: " +:+ arg, [])
          | Some train_uid =>
              if negb (train_active snap train_uid) then Ok ("no active train: " +:+ arg, [])
              else Ok ("despawn queued: uid " +:+ to_string (value train_uid), [DespawnRequest train_uid])
          end
      end
  | _ => Ok ("usage: despawn <train uid|consist pID>"%string, [])
  end.

Definition newline : string := String "010" "".

(* SRC server/src/terminal/trains_command.cpp 13-32 TrainsCommand::execute *)
Definition trains_execute (env : Env) (args : list string) : result (string * list FleetCommand) :=
  match env_snapshot env with
  | None => Ok ("world snapshot not available yet"%string, [])
  | Some snap =>
      let trains := EngineSnapshot.trains snap in
      if bool_decide (trains = []) then Ok ("no active trains"%string, [])
      else Ok (fold_left (fun out train =>
                 out +:+ newline +:+ "  uid " +:+ to_string (value (tsn_uid train)) +:+ "  section " +:+
                 to_string (value (tsn_section_uid train)) +:+ "  " +:+ fixed1 (tsn_speed_kmh train) +:+ " km/h  " +:+
                 int_to_string (tsn_total_axles train) +:+ " axles") trains
                 ("active trains (" +:+ to_string (Z.of_nat (length trains)) +:+ "):"), [])
  end%string.

(* SRC server/include/server/terminal/spawn_command.hpp 22-43 SpawnCommand *)
Definition SpawnCommand : ITerminalCommand := mkITerminalCommand "spawn"
  "spawn <consist uid|pID> <boundary uid|pID> — spawn a train at a boundary node" Permission.SPAWN spawn_execute.
(* SRC server/include/server/terminal/despawn_command.hpp 20-41 DespawnCommand *)
Definition DespawnCommand : ITerminalCommand := mkITerminalCommand "despawn"
  "despawn <train uid|consist pID> — remove an active train from the world" Permission.DESPAWN despawn_execute.
(* SRC server/include/server/terminal/trains_command.hpp 15-28 TrainsCommand *)
Definition TrainsCommand : ITerminalCommand := mkITerminalCommand "trains"
  "trains — list active trains" Permission.LOGS trains_execute.
End Commands.

(** ** The registry: a [std::map], so in the order of the names *)

Module CommandRegistry.
(* SRC server/include/server/terminal/command_registry.hpp 32-34 CommandRegistry *)
Record t := mk { commands_ : list (string * ITerminalCommand) }.
Definition create : t := mk [].

Fixpoint insert_command (name : string) (cmd : ITerminalCommand) (l : list (string * ITerminalCommand)) :
    list (string * ITerminalCommand) :=
  match l with
  | [] => [(name, cmd)]
  | e :: l' => match String.compare name e.1 with Gt => e :: insert_command name cmd l' | _ => (name, cmd) :: l end
  end.

(* SRC server/src/terminal/command_registry.cpp 19-23 CommandRegistry::find *)
Definition find (self : t) (name : string) : option ITerminalCommand :=
  snd <$> List.find (fun e => bool_decide (e.1 = name)) (commands_ self).
(* SRC server/src/terminal/command_registry.cpp 11-17 CommandRegistry::add *)
Definition add (self : t) (cmd : ITerminalCommand) : result t :=
  match find self (cmd_name cmd) with
  | Some _ => Throw (invalid_argument ("CommandRegistry: duplicate command name '" +:+ cmd_name cmd +:+ "'"))
  | None => Ok (mk (insert_command (cmd_name cmd) cmd (commands_ self)))
  end.
(* SRC server/src/terminal/command_registry.cpp 25-29 CommandRegistry::for_each *)
Definition for_each (self : t) : list ITerminalCommand := (commands_ self).*2.
End CommandRegistry.

(** The registry the server builds. *)
(* SRC server/src/session_server.cpp 230-237 SessionServer::start *)
Definition server_registry {MO : MapOrder} (fixed1 : float -> string) : result CommandRegistry.t :=
  r ← CommandRegistry.add CommandRegistry.create SpawnCommand;
  r ← CommandRegistry.add r DespawnCommand;
  CommandRegistry.add r (TrainsCommand fixed1).

(** ** Sessions *)

(** [stream >> token] until it fails: maximal runs without white space. *)
Fixpoint tokens_from (current s : string) : list string :=
  match s with
  | EmptyString => if bool_decide (current = ""%string) then [] else [current]
  | String c s =>
      if is_space c
      then (if bool_decide (current = ""%string) then tokens_from "" s else current :: tokens_from "" s)
      else tokens_from (current +:+ String c "") s
  end.
(* SRC server/src/terminal/terminal_session.cpp 14-22 tokenize *)
Definition tokenize (line : string) : list string := tokens_from "" line.

Module TerminalSession.
(* SRC server/include/server/terminal/terminal_session.hpp 27-44 TerminalSession *)
Record t := mk { registry_ : CommandRegistry.t; users_ : InMemoryUserStore.t; user_ : option UserAccount }.
#[global] Instance eta : Eta t := fun s => mk (registry_ s) (users_ s) (user_ s).
(* SRC server/src/terminal/terminal_session.cpp 26-29 TerminalSession *)
Definition create (registry : CommandRegistry.t) (users : InMemoryUserStore.t) : t := mk registry users None.

(* SRC server/src/terminal/terminal_session.cpp 69-80 TerminalSession::handle_login *)
Definition handle_login (self : t) (args : list string) : string * t :=
  match args with
  | [login; password] =>
      match InMemoryUserStore.authenticate (users_ self) login password with
      | None => ("invalid credentials"%string, self)
      | Some account => ("logged in as " +:+ ua_login account, self <| user_ := Some account |>)
      end
  | _ => ("usage: login <user> <password>"%string, self)
  end.

Definition permitted (user : UserAccount) (p : Permission.t) : bool := bool_decide (p ∈ ua_permissions user).

(* SRC server/src/terminal/terminal_session.cpp 82-103 TerminalSession::build_help *)
Definition build_help (self : t) : string :=
  let out := ("built-in commands:" +:+ newline +:+ "  login <user> <password>" +:+ newline +:+ "  logout" +:+ newline +:+
              "  help")%string in
  match user_ self with
  | None => out +:+ newline +:+ "log in to see available commands"
  | Some user =>
      fold_left (fun out cmd =>
        if permitted user (cmd_required_permission cmd) then out +:+ newline +:+ "  " +:+ cmd_help cmd else out)
        (CommandRegistry.for_each (registry_ self)) out
  end.

(* SRC server/src/terminal/terminal_session.cpp 31-67 TerminalSession::process_line *)
Definition process_line (env : Env) (self : t) (line : string) : result (string * list FleetCommand * t) :=
  match tokenize line with
  | [] => Ok (""%string, [], self)
  | verb :: args =>
      if bool_decide (verb = "login"%string) then
        let '(text, self) := handle_login self args in Ok (text, [], self)
      else if bool_decide (verb = "logout"%string) then
        match user_ self with
        | None => Ok ("not logged in"%string, [], self)
        | Some user => Ok ("logged out: " +:+ ua_login user, [], self <| user_ := None |>)
        end
      else if bool_decide (verb = "help"%string) then Ok (build_help self, [], self)
      else
        match user_ self with
        | None => Ok ("not logged in — use: login <user> <password>"%string, [], self)
        | Some user =>
            match CommandRegistry.find (registry_ self) verb with
            | None => Ok ("unknown command: " +:+ verb +:+ " (try `help`)", [], self)
            | Some cmd =>
                let required := cmd_required_permission cmd in
                if negb (permitted user required)
                then Ok ("permission denied: `" +:+ verb +:+ "` requires " +:+ Permission.to_string required, [], self)
                else r ← cmd_execute cmd env args; Ok (r.1, r.2, self)
            end
        end
  end.

(** The loop over the lines of the input, each with what the commands read at that time:
    the texts printed and the requests queued.  An exception leaves the thread. *)
(* SRC server/src/terminal/stdin_terminal.cpp 72-84 StdinTerminal::run *)
Fixpoint run_lines (self : t) (lines : list (Env * string)) : result (list string * list FleetCommand * t) :=
  match lines with
  | [] => Ok ([], [], self)
  | (env, line) :: lines =>
      r ← process_line env self line;
      let '(output, queued, self) := r in
      r ← run_lines self lines;
      let '(texts, more, self) := r in
      Ok ((if bool_decide (output = ""%string) then "> "%string else output +:+ newline +:+ "> ") :: texts,
          queued ++ more, self)
  end.
(* SRC server/src/terminal/stdin_terminal.cpp 67-85 StdinTerminal::run *)
Definition run (self : t) (lines : list (Env * string)) : result (list string * list FleetCommand * t) :=
  r ← run_lines self lines;
  let '(texts, queued, self) := r in
  Ok (("[terminal] built-in terminal ready — type `help`" +:+ newline +:+ "> ") :: texts, queued, self).
End TerminalSession.

(** ** Who may queue what *)

Section Authorisation.
Context (registry : CommandRegistry.t) (users : InMemoryUserStore.t).

(** The line logs the user in: it names the login and the password of the account, the
    first with these two. *)
Definition is_login (line : string) (user : UserAccount) : Prop :=
  tokenize line = ["login"%string; ua_login user; ua_password user] /\
  exists before after, InMemoryUserStore.accounts_ users = before ++ user :: after /\
    Forall (fun a => ua_login a = ua_login user -> ua_password a <> ua_password user) before.

Lemma authenticate_spec login password user :
  InMemoryUserStore.authenticate users login password = Some user <->
  ua_login user = login /\ ua_password user = password /\
  exists before after, InMemoryUserStore.accounts_ users = before ++ user :: after /\
    Forall (fun a => ua_login a = login -> ua_password a <> password) before.
Proof.
  unfold InMemoryUserStore.authenticate. generalize (InMemoryUserStore.accounts_ users). intros l.
  induction l as [|a l IH]; cbn.
  { split; [done|]. by intros (_ & _ & [|? ?] & ? & ? & _). }
  destruct (bool_decide_reflect (ua_login a = login)) as [Hl|Hl],
    (bool_decide_reflect (ua_password a = password)) as [Hp|Hp]; cbn.
  { split; [intros [= <-]; split_and!; [done..|]; by exists [], l|].
    intros (_ & _ & [|b before] & after & [= <- E] & Hb); [done|].
    apply Forall_cons in Hb as [Hb _]. by destruct (Hb Hl). }
  all: rewrite IH; split.
  all: try (intros (? & ? & before & after & -> & Hb); split_and!; [done..|]; exists (a :: before), after;
            split; [done|]; constructor; [congruence|done]).
  all: intros (? & ? & [|b before] & after & [= <- E] & Hb); [congruence|]; split_and!; [done..|];
    exists before, after; split; [done|]; by apply Forall_cons in Hb as [_ Hb].
Qed.

Lemma login_line line login password user :
  tokenize line = ["login"%string; login; password] ->
  is_login line user <-> InMemoryUserStore.authenticate users login password = Some user.
Proof.
  intros Ht. rewrite authenticate_spec. unfold is_login. rewrite Ht. split.
  - intros [[= <- <-] H]. done.
  - intros (<- & <- & H). done.
Qed.

(** The line does not change who is logged in. *)
Definition keeps_user (line : string) : Prop :=
  (forall args, tokenize line <> "logout"%string :: args) /\ forall user, ~ is_login line user.
(** After the lines [past] the user is logged in. *)
Definition logged_in (past : list string) (user : UserAccount) : Prop :=
  exists before line after, past = before ++ line :: after /\ is_login line user /\ Forall keeps_user after.

Definition session_of (past : list string) (self : TerminalSession.t) : Prop :=
  TerminalSession.registry_ self = registry /\ TerminalSession.users_ self = users /\
  match TerminalSession.user_ self with
  | Some user => logged_in past user
  | None => forall user, ~ logged_in past user
  end.

Lemma logged_in_login past line user : is_login line user -> logged_in (past ++ [line]) user.
Proof. intros H. exists past, line, []. by split_and!. Qed.

Lemma logged_in_keeps past line user :
  keeps_user line -> logged_in (past ++ [line]) user <-> logged_in past user.
Proof.
  intros Hk. split.
  - intros (before & l & after & E & Hl & Ha). destruct after as [|a after _] using rev_ind.
    + apply app_inj_tail in E as [_ <-]. by destruct Hk as [_ []%(fun f => f user)].
    + rewrite app_comm_cons, app_assoc in E. apply app_inj_tail in E as [-> <-].
      apply Forall_app in Ha as [Ha _]. by exists before, l, after.
  - intros (before & l & after & -> & Hl & Ha). exists before, l, (after ++ [line]).
    rewrite <-app_assoc. split_and!; [done..|]. apply Forall_app. by split; [|constructor].
Qed.

Lemma logged_in_logout past line args user :
  tokenize line = "logout"%string :: args -> ~ logged_in (past ++ [line]) user.
Proof.
  intros Ht (before & l & after & E & (? & ? & Hl & _) & Ha). destruct after as [|a after _] using rev_ind.
  - apply app_inj_tail in E as [_ <-]. congruence.
  - rewrite app_comm_cons, app_assoc in E. apply app_inj_tail in E as [_ <-].
    apply Forall_app in Ha as [_ Ha]. apply Forall_cons in Ha as [[Hn _] _]. by eapply Hn.
Qed.

(** What one line does to the session, and what it takes to queue anything. *)
Lemma process_line_step env past self line output queued self' :
  session_of past self -> TerminalSession.process_line env self line = Ok (output, queued, self') ->
  session_of (past ++ [line]) self' /\
  (queued = [] \/ exists user verb args cmd, tokenize line = verb :: args /\ logged_in past user /\
     CommandRegistry.find registry verb = Some cmd /\ cmd_required_permission cmd ∈ ua_permissions user /\
     cmd_execute cmd env args = Ok (output, queued)).
Proof.
  intros (Hr & Hu & Hs). unfold TerminalSession.process_line.
  assert (keeps_user line -> session_of (past ++ [line]) self) as Hkeep.
  { intros Hk. split_and!; [done..|]. destruct (TerminalSession.user_ self) as [user|].
    - by apply logged_in_keeps.
    - intros user. rewrite logged_in_keeps by done. apply Hs. }
  destruct (tokenize line) as [|verb args] eqn:Et.
  { intros [= <- <- <-]. split; [|by left]. apply Hkeep. split; [congruence|]. intros u [Hx _]. congruence. }
  case_bool_decide as Hlogin; [|case_bool_decide as Hlogout; [|case_bool_decide as Hhelp]].
  - subst verb. unfold TerminalSession.handle_login. rewrite Hu.
    destruct args as [|l [|p [|? ?]]]; try (intros [= <- <- <-]; split; [|by left]; apply Hkeep; split;
      [congruence|intros u [Hx _]; congruence]).
    destruct (InMemoryUserStore.authenticate users l p) as [account|] eqn:Ea; intros [= <- <- <-]; (split; [|by left]).
    + split_and!; [done..|]. apply logged_in_login. by apply (login_line line l p).
    + apply Hkeep. split; [congruence|]. intros u Hu'. apply (login_line line l p) in Hu'; congruence.
  - subst verb. destruct (TerminalSession.user_ self) as [user|] eqn:Eu; intros [= <- <- <-]; (split; [|by left]);
      (split_and!; [done..|]); cbn; rewrite ?Eu; intros u; by eapply logged_in_logout.
  - intros [= <- <- <-]. split; [|by left]. apply Hkeep. split; [congruence|]. intros u [Hx _]. congruence.
  - assert (keeps_user line) as Hk by (split; [congruence|intros u [Hx _]; congruence]).
    rewrite Hr. destruct (TerminalSession.user_ self) as [user|] eqn:Eu; [|intros [= <- <- <-]; auto].
    destruct (CommandRegistry.find registry verb) as [cmd|] eqn:Ef; [|intros [= <- <- <-]; auto].
    destruct (TerminalSession.permitted user _) eqn:Ep; cbn [negb]; [|intros [= <- <- <-]; auto].
    intros H. apply bind_ok in H as ([o q] & He & [= <- <- <-]). split; [auto|]. right.
    exists user, verb, args, cmd. unfold TerminalSession.permitted in Ep. apply bool_decide_eq_true in Ep. done.
Qed.

Lemma run_lines_authorised past self lines texts queued self' request :
  session_of past self -> TerminalSession.run_lines self lines = Ok (texts, queued, self') -> request ∈ queued ->
  exists before env line after user verb args cmd output requests,
    lines = before ++ (env, line) :: after /\ tokenize line = verb :: args /\ logged_in (past ++ before.*2) user /\
    CommandRegistry.find registry verb = Some cmd /\ cmd_required_permission cmd ∈ ua_permissions user /\
    cmd_execute cmd env args = Ok (output, requests) /\ request ∈ requests.
Proof.
  revert past self texts queued. induction lines as [|[env line] lines IH]; intros past self texts queued Hs H Hin.
  { injection H as <- <- <-. by apply not_elem_of_nil in Hin. }
  cbn [TerminalSession.run_lines] in H. apply bind_ok in H as ([[o q] self1] & H1 & H).
  apply bind_ok in H as ([[ts qs] self2] & H2 & [= <- <- <-]).
  destruct (process_line_step _ _ _ _ _ _ _ Hs H1) as [Hs1 Hq]. apply elem_of_app in Hin as [Hin|Hin].
  - destruct Hq as [->|(user & verb & args & cmd & Ht & Hl & Hf & Hp & He)]; [by apply not_elem_of_nil in Hin|].
    exists [], env, line, lines, user, verb, args, cmd, o, q. cbn. by rewrite app_nil_r.
  - destruct (IH _ _ _ _ Hs1 H2 Hin) as (before & env' & line' & after & user & verb & args & cmd & o' & q' & -> & Ht & Hl & H').
    exists ((env, line) :: before), env', line', after, user, verb, args, cmd, o', q'.
    rewrite <-app_assoc in Hl. destruct H' as (? & ? & ? & ?). by split_and!.
Qed.

(** C20: nothing reaches the engine from the terminal without a login and the permission.  Whatever is
    typed, and whatever the world is meanwhile: if the lines queue any request, then one of them
    names a registered command that queues it, the user logged in by an earlier line with the
    password of the account holds the permission the command requires, and no line in between
    logged out or logged anyone else in. *)
Theorem terminal_authorised lines texts queued self' request :
  TerminalSession.run (TerminalSession.create registry users) lines = Ok (texts, queued, self') ->
  request ∈ queued ->
  exists before env line after user verb args cmd output requests,
    lines = before ++ (env, line) :: after /\ tokenize line = verb :: args /\ logged_in before.*2 user /\
    CommandRegistry.find registry verb = Some cmd /\ cmd_required_permission cmd ∈ ua_permissions user /\
    cmd_execute cmd env args = Ok (output, requests) /\ request ∈ requests.
Proof.
  unfold TerminalSession.run. intros H Hin. apply bind_ok in H as ([[ts qs] self1] & H & [= <- <- <-]).
  refine (run_lines_authorised [] _ _ _ _ _ _ _ H Hin). split_and!; [done..|].
  intros user (before & ? & ? & E & _). by destruct before.
Qed.
End Authorisation.

(** ** What the commands do *)

Section Effects.
Context {MO : MapOrder} {JL : JsonLib}.

Lemma resolve_consist_known fleet arg u :
  resolve_consist_uid fleet arg = Some u ->
  exists c, consists_ fleet !! u = Some c /\ (parse_uint arg = Some (value u) \/ con_pid c = arg).
Proof.
  unfold resolve_consist_uid. destruct (parse_uint arg) as [n|].
  - case_bool_decide as H; [|done]. intros [= <-]. destruct H as [c Hc]. exists c. by split; [|left].
  - intros (e & He & ->)%fmap_Some. apply find_some in He as [Hin Hp].
    apply list_elem_of_In in Hin. destruct e as [u c]. apply elem_of_visit in Hin.
    apply bool_decide_eq_true in Hp. exists c. by split; [|right].
Qed.

Lemma resolve_boundary_known snap arg u :
  resolve_boundary_uid snap arg = Some u -> is_Some (EngineSnapshot.boundary_nodes snap !! u).
Proof.
  unfold resolve_boundary_uid. destruct (parse_uint arg) as [n|].
  - case_bool_decide as H; [|done]. by intros [= <-].
  - intros ([v x] & He & ->)%fmap_Some. apply find_some in He as [Hin _].
    apply list_elem_of_In, elem_of_visit in Hin. by exists x.
Qed.

Lemma train_active_spec s fl u :
  train_active (EngineLoop.make_snapshot s fl) u = true <-> exists e, e ∈ fl /\ train_uid (te_state e) = u.
Proof.
  unfold train_active. rewrite existsb_exists. cbn. unfold TrainFleet.snapshot_trains. split.
  - intros (x & Hin & Hu). apply list_elem_of_In, list_elem_of_fmap in Hin as (e & -> & He).
    apply bool_decide_eq_true in Hu. by exists e.
  - intros (e & He & Hu). eexists. split; [apply list_elem_of_In, list_elem_of_fmap; exists e; done|].
    by apply bool_decide_eq_true.
Qed.

Lemma make_train_uids c vs u st :
  make_train_sim_state c vs u = inr st -> train_uid st = con_uid c /\ current_section_uid st = u.
Proof.
  unfold make_train_sim_state. case_bool_decide; [done|]. destruct (negb _); [done|].
  destruct (fold_left collect vs _) as [contrib locos]. by intros [= <-].
Qed.

(** Everything that was checked when [spawn] queues a request. *)
Lemma spawn_queued env args output queued request :
  spawn_execute env args = Ok (output, queued) -> request ∈ queued ->
  exists consist_arg boundary_arg snap consist_uid consist boundary_uid point vehicles initial,
    args = [consist_arg; boundary_arg] /\ resolve_consist_uid (env_fleet env) consist_arg = Some consist_uid /\
    env_snapshot env = Some snap /\ consists_ (env_fleet env) !! consist_uid = Some consist /\
    train_active snap consist_uid = false /\ resolve_spawn_at_boundary snap boundary_uid = inl point /\
    Forall2 (fun u v => vehicles_ (env_fleet env) !! u = Some v) (con_vehicle_uids consist) vehicles /\
    make_train_sim_state consist vehicles (sp_section_uid point) = inr initial /\
    request = SpawnRequest initial (sp_from_uid point) /\ queued = [request].
Proof.
  unfold spawn_execute.
  assert (forall text, Ok (text, []) = Ok (output, queued) -> request ∈ queued -> False) as Hnone.
  { intros text [= <- <-]. by intros ?%not_elem_of_nil. }
  destruct args as [|a1 [|a2 [|? ?]]]; try (intros H Hin; by destruct (Hnone _ H Hin)).
  destruct (env_snapshot env) as [snap|]; [|intros H Hin; by destruct (Hnone _ H Hin)].
  destruct (resolve_consist_uid (env_fleet env) a1) as [cu|] eqn:Ec; [|intros H Hin; by destruct (Hnone _ H Hin)].
  intros H Hin. apply bind_ok in H as (consist & Hc & H). apply get_ok in Hc.
  destruct (train_active snap cu) eqn:Ea; [by destruct (Hnone _ H Hin)|].
  destruct (resolve_boundary_uid snap a2) as [bu|]; [|by destruct (Hnone _ H Hin)].
  destruct (resolve_spawn_at_boundary snap bu) as [point|e] eqn:Ep; [|by destruct (Hnone _ H Hin)].
  apply bind_ok in H as (vs & Hvs & H). apply traverse_Forall2 in Hvs.
  destruct (make_train_sim_state consist vs _) as [what|initial] eqn:Ei; [by destruct (Hnone _ H Hin)|].
  injection H as <- <-. apply list_elem_of_singleton in Hin as ->.
  exists a1, a2, snap, cu, consist, bu, point, vs, initial. split_and!; try done.
  eapply Forall2_impl; [exact Hvs|]. intros u v Hv. by apply get_ok in Hv.
Qed.

Lemma spawn_effect registry_files fleet s fl args output queued request fx :
  load registry_files = Ok fleet -> keyed s -> fx_state fx = s ->
  spawn_execute (mkEnv fleet (Some (EngineLoop.make_snapshot s fl))) args = Ok (output, queued) ->
  request ∈ queued ->
  exists consist initial from section,
    request = SpawnRequest initial from /\ consists_ fleet !! train_uid initial = Some consist /\
    (forall e, e ∈ fl -> train_uid (te_state e) <> train_uid initial) /\
    is_Some (EngineState.find_boundary_node s from) /\
    at_node s from (current_section_uid initial) section /\ ts_occupancy section = TrackOccupancy.FREE /\
    (forall u ts, at_node s from u ts -> u = current_section_uid initial) /\
    TrainFleet.spawn fl fx initial from =
      (None, fl ++ [mkTrainEntry (TrainSim.create initial) from false],
       mkEffects (EngineState.apply_track_section_occupancy s (current_section_uid initial)
                    TrackOccupancy.OCCUPIED (total_axles initial))
         (fx_changes fx ++ [occupancy_change (current_section_uid initial) TrackOccupancy.OCCUPIED
                              (total_axles initial) (train_uid initial)])
         (fx_pips fx ++ [mkPipEvent (current_section_uid initial) (ts_station_uid section) TrackOccupancy.OCCUPIED
                           (Some (make_train_slot (train_uid initial))) false])).
Proof.
  intros Hload Hk Hfx H Hin.
  destruct (spawn_queued _ _ _ _ _ H Hin) as (? & ? & snap & cu & consist & bu & point & vs & initial & _ & _ & Es & Hc & Ha & Hp & Hvs & Hi & -> & _).
  cbn in Es, Hc. injection Es as <-. apply load_facts in Hload as (_ & _ & _ & Hcons).
  destruct (Hcons _ _ Hc) as [Hcu _]. apply make_train_uids in Hi as [Hu Hsec].
  pose proof (resolve_spawn_cases (EngineLoop.make_snapshot s fl) bu) as Hcases. rewrite Hp in Hcases.
  destruct Hcases as (Hb & Hfrom & u & ts & Hat & Huniq & Hfree & Hts).
  assert (ts_uid ts = u) as Htu.
  { destruct Hat as [Hf _]. apply (Hk (SlTrackSection u) (OTrackSection ts)). cbn.
    change (EngineState.track_sections s !! u = Some ts) in Hf. by rewrite Hf. }
  assert (current_section_uid initial = u) as Hcur by congruence. rewrite Hfrom.
  exists consist, initial, bu, ts. rewrite Hcur. split_and!; try done.
  - congruence.
  - intros e He Heq. apply not_true_iff_false in Ha. apply Ha, train_active_spec. exists e. split; [done|congruence].
  - unfold TrainFleet.spawn. rewrite Hfx. destruct Hat as [Hf _].
    rewrite Hcur. change (EngineState.find_track_section s u = Some ts) in Hf. rewrite Hf. rewrite decide_True by done. done.
Qed.

(** C21: a train the terminal accepts enters the world.  If [spawn] queues a request against the
    snapshot the engine published last, the engine's fleet accepts it as long as the world is the
    published one: one train is added, standing alone in the only section behind the boundary node
    and facing away from it, with the identifier of a loaded consist that no train carries yet;
    the section is reported occupied with its axles. *)
Theorem spawn_enters_world registry_files fleet s fl args output queued request fx :
  load registry_files = Ok fleet -> keyed s -> fx_state fx = s ->
  spawn_execute (mkEnv fleet (Some (EngineLoop.make_snapshot s fl))) args = Ok (output, queued) ->
  request ∈ queued ->
  exists consist initial from section,
    request = SpawnRequest initial from /\ consists_ fleet !! train_uid initial = Some consist /\
    (forall e, e ∈ fl -> train_uid (te_state e) <> train_uid initial) /\
    is_Some (EngineState.find_boundary_node s from) /\
    at_node s from (current_section_uid initial) section /\ ts_occupancy section = TrackOccupancy.FREE /\
    (forall u ts, at_node s from u ts -> u = current_section_uid initial) /\
    TrainFleet.spawn fl fx initial from =
      (None, fl ++ [mkTrainEntry (TrainSim.create initial) from false],
       mkEffects (EngineState.apply_track_section_occupancy s (current_section_uid initial)
                    TrackOccupancy.OCCUPIED (total_axles initial))
         (fx_changes fx ++ [occupancy_change (current_section_uid initial) TrackOccupancy.OCCUPIED
                              (total_axles initial) (train_uid initial)])
         (fx_pips fx ++ [mkPipEvent (current_section_uid initial) (ts_station_uid section) TrackOccupancy.OCCUPIED
                           (Some (make_train_slot (train_uid initial))) false])).
Proof. apply spawn_effect. Qed.

(** A train can be spawned twice.  The test whether a train is active reads the snapshot, and the
    engine does not repeat it: two accepted [spawn] lines for one consist, at nodes with different
    sections and before the engine has ticked, put two trains with one identifier into the fleet. *)
Theorem spawn_twice registry_files fleet s fl args1 args2 output1 output2 initial1 initial2 from1 from2 fx :
  load registry_files = Ok fleet -> keyed s -> fx_state fx = s ->
  let env := mkEnv fleet (Some (EngineLoop.make_snapshot s fl)) in
  spawn_execute env args1 = Ok (output1, [SpawnRequest initial1 from1]) ->
  spawn_execute env args2 = Ok (output2, [SpawnRequest initial2 from2]) ->
  train_uid initial1 = train_uid initial2 -> current_section_uid initial1 <> current_section_uid initial2 ->
  let '(refused1, fl1, fx1) := TrainFleet.spawn fl fx initial1 from1 in
  let '(refused2, fl2, fx2) := TrainFleet.spawn fl1 fx1 initial2 from2 in
  refused1 = None /\ refused2 = None /\ exists e1 e2, fl2 = fl ++ [e1; e2] /\
    train_uid (te_state e1) = train_uid initial1 /\ train_uid (te_state e2) = train_uid initial1.
Proof.
  intros Hload Hk Hfx env H1 H2 Hu Hsec.
  destruct (spawn_effect _ _ _ _ _ _ _ _ fx Hload Hk Hfx H1 (list_elem_of_here _ _))
    as (? & i1 & f1 & t1 & [= <- <-] & _ & _ & _ & _ & _ & _ & ->).
  destruct (spawn_effect _ _ _ _ _ _ _ _ fx Hload Hk Hfx H2 (list_elem_of_here _ _))
    as (? & i2 & f2 & t2 & [= <- <-] & _ & _ & _ & [Hf2 _] & Hfree2 & _ & _).
  unfold TrainFleet.spawn. cbn [fx_state]. unfold EngineState.find_track_section, EngineState.apply_track_section_occupancy.
  cbn. rewrite lookup_alter_ne by done.
  change (EngineState.track_sections s !! current_section_uid initial2 = Some t2) in Hf2. rewrite Hf2, decide_True by done.
  split_and!; [done..|]. rewrite <-app_assoc. by eexists _, _.
Qed.

(** The commands of the server never throw on a loaded registry. *)
Lemma get_vehicles fleet uids :
  Forall (fun u => is_Some (vehicles_ fleet !! u)) uids ->
  exists vs, traverse (fun u => get_vehicle u fleet) uids = Ok vs.
Proof.
  induction 1 as [|u uids [v Hv] _ [vs IH]]; [by exists []|]. exists (v :: vs). cbn [traverse].
  assert (get_vehicle u fleet = Ok v) as -> by (unfold get_vehicle; by rewrite Hv). by rewrite ok_bind, IH.
Qed.

Lemma spawn_total registry_files fleet env args :
  load registry_files = Ok fleet -> env_fleet env = fleet -> exists r, spawn_execute env args = Ok r.
Proof.
  intros (_ & _ & _ & Hcons)%load_facts <-. unfold spawn_execute.
  destruct args as [|a1 [|a2 [|? ?]]]; try by eexists.
  destruct (env_snapshot env) as [snap|]; [|by eexists].
  destruct (resolve_consist_uid (env_fleet env) a1) as [cu|] eqn:Ec; [|by eexists].
  destruct (resolve_consist_known _ _ _ Ec) as (c & Hc & _). unfold get_consist. rewrite Hc. cbn [get mbind result_bind].
  destruct (train_active snap cu); [by eexists|]. destruct (resolve_boundary_uid snap a2) as [bu|]; [|by eexists].
  destruct (resolve_spawn_at_boundary snap bu) as [point|e]; [|by eexists].
  destruct (Hcons _ _ Hc) as (_ & _ & Hv & _). destruct (get_vehicles _ _ Hv) as [vs ->]. cbn [mbind result_bind].
  destruct (make_train_sim_state c vs _); by eexists.
Qed.

Lemma despawn_total env args : exists r, despawn_execute env args = Ok r.
Proof.
  unfold despawn_execute. destruct args as [|a [|? ?]]; try by eexists.
  destruct (env_snapshot env) as [snap|]; [|by eexists].
  destruct (match resolve_consist_uid _ _ with Some _ => _ | None => _ end); [|by eexists].
  destruct (negb _); by eexists.
Qed.

Lemma trains_total fixed1 env args : exists r, trains_execute fixed1 env args = Ok r.
Proof. unfold trains_execute. destruct (env_snapshot env); [|by eexists]. case_bool_decide; by eexists. Qed.

Lemma server_registry_ok fixed1 :
  server_registry fixed1 = Ok (CommandRegistry.mk
    [("despawn", DespawnCommand); ("spawn", SpawnCommand); ("trains", TrainsCommand fixed1)]%string).
Proof. reflexivity. Qed.

Lemma process_total registry_files fleet fixed1 env self line :
  load registry_files = Ok fleet -> env_fleet env = fleet ->
  TerminalSession.registry_ self = CommandRegistry.mk
    [("despawn", DespawnCommand); ("spawn", SpawnCommand); ("trains", TrainsCommand fixed1)]%string ->
  exists output queued self', TerminalSession.process_line env self line = Ok (output, queued, self') /\
    TerminalSession.registry_ self' = TerminalSession.registry_ self.
Proof.
  intros Hload Henv Hr. unfold TerminalSession.process_line. destruct (tokenize line) as [|verb args]; [by eexists _, _, _|].
  case_bool_decide; [|case_bool_decide; [|case_bool_decide; [by eexists _, _, _|]]].
  - unfold TerminalSession.handle_login.
    destruct args as [|? [|? [|? ?]]]; try destruct (InMemoryUserStore.authenticate _ _ _); by eexists _, _, _.
  - destruct (TerminalSession.user_ self); by eexists _, _, _.
  - destruct (TerminalSession.user_ self) as [user|]; [|by eexists _, _, _]. rewrite Hr.
    destruct (CommandRegistry.find _ verb) as [cmd|] eqn:Ef; [|by eexists _, _, _].
    destruct (negb _); [by eexists _, _, _|].
    assert (exists r, cmd_execute cmd env args = Ok r) as [[o q] ->]; [|by eexists _, _, _].
    apply fmap_Some in Ef as ([n c] & [Hin _]%find_some & ->). cbn in Hin.
    destruct Hin as [[= <- <-]|[[= <- <-]|[[= <- <-]|[]]]]; cbn;
      [apply despawn_total|by eapply spawn_total|apply trains_total].
Qed.

(** The terminal never throws: with the registry the server builds and a fleet that was loaded,
    every input is answered line by line, one text for each line after the greeting. *)
Theorem terminal_total registry_files fleet fixed1 users lines :
  load registry_files = Ok fleet -> Forall (fun l => env_fleet l.1 = fleet) lines ->
  exists registry texts queued self', server_registry fixed1 = Ok registry /\
    TerminalSession.run (TerminalSession.create registry users) lines = Ok (texts, queued, self') /\
    length texts = S (length lines).
Proof.
  intros Hload Hl. set (registry := CommandRegistry.mk
    [("despawn", DespawnCommand); ("spawn", SpawnCommand); ("trains", TrainsCommand fixed1)]%string).
  exists registry.
  assert (forall self, TerminalSession.registry_ self = registry -> exists texts queued self',
    TerminalSession.run_lines self lines = Ok (texts, queued, self') /\ length texts = length lines) as H.
  { induction Hl as [|[env line] lines Henv _ IH]; intros self Hs; [by eexists [], [], self|].
    destruct (process_total registry_files fleet fixed1 env self line Hload Henv Hs) as (o & q & self1 & Hp & Hs1).
    destruct (IH self1 (eq_trans Hs1 Hs)) as (texts & queued & self' & Hr & Hlen).
    cbn [TerminalSession.run_lines]. rewrite Hp, ok_bind, Hr, ok_bind. eexists _, _, _. split; [done|].
    cbn. by rewrite Hlen. }
  destruct (H (TerminalSession.create registry users)) as (texts & queued & self' & Hr & Hlen); [done|].
  eexists _, queued, self'. split; [done|]. unfold TerminalSession.run. rewrite Hr, ok_bind.
  split; [reflexivity|]. cbn. by rewrite Hlen.
Qed.
End Effects.

(** ** Two nodes of the demo station, and one train *)

Module TerminalDemo.
Definition node (u : Z) (pid : string) : BoundaryNode := mkBoundaryNode (mkUID u) pid Station1 "".
(** Nodes b1 and b3, behind the sections T1 and T4. *)
Definition world : EngineState.t :=
  EngineState.insert_boundary_node (EngineState.insert_boundary_node demo (node 1001 "b1")) (node 1003 "b3").
Definition env : Env := mkEnv RegistryDemo.loaded (Some (EngineLoop.make_snapshot world [])).
(** Numbers do not matter here. *)
Definition fixed1 (x : float) : string := "0.0".
Definition registry : CommandRegistry.t := CommandRegistry.mk
  [("despawn", DespawnCommand); ("spawn", SpawnCommand); ("trains", TrainsCommand fixed1)]%string.
Definition start : TerminalSession.t := TerminalSession.create registry InMemoryUserStore.with_default_admin.
Definition texts_of (lines : list string) : list string :=
  match TerminalSession.run start (map (pair env) lines) with Ok (texts, _, _) => texts | Throw _ => [] end.
Definition queued_by (lines : list string) : list FleetCommand :=
  match TerminalSession.run start (map (pair env) lines) with Ok (_, queued, _) => queued | Throw _ => [] end.

Example refusals :
  texts_of ["spawn T1 b1"; "login admin wrong"; " login   admin admin123"; "spawn T9 b1"; "spawn T1 b9"; "despawn 7"; "reset"]%string
  = (map (fun t => t +:+ newline +:+ "> ")
      ["[terminal] built-in terminal ready — type `help`"; "not logged in — use: login <user> <password>"; "invalid credentials";
       "logged in as admin"; "unknown consist: T9"; "unknown boundary node: b9"; "no active train: 7";
       "unknown command: reset (try `help`)"])%string.
Proof. by vm_compute. Qed.

(** By name and by number. *)
Example spawned : map (fun c => match c with SpawnRequest t from => (train_uid t, current_section_uid t, from)
                                        | DespawnRequest u => (u, u, u) end)
    (queued_by ["login admin admin123"; "spawn T1 b1"; "spawn 7 1003"]%string)
  = [(mkUID 7, T1, mkUID 1001); (mkUID 7, T4, mkUID 1003)].
Proof. by vm_compute. Qed.

Definition ran (lines : list string) : list string * list FleetCommand * TerminalSession.t :=
  match TerminalSession.run start (map (pair env) lines) with Ok r => r | Throw _ => ([], [], start) end.
Definition one_spawn : list string := ["login admin admin123"; "spawn T1 b1"]%string.
Lemma one_spawn_runs : TerminalSession.run start (map (pair env) one_spawn) = Ok (ran one_spawn).
Proof.
  assert (is_ok (TerminalSession.run start (map (pair env) one_spawn)) = true) as H by (by vm_compute).
  unfold ran. revert H. by destruct (TerminalSession.run start (map (pair env) one_spawn)).
Qed.
Definition request : FleetCommand := default (DespawnRequest UID_zero) (head (ran one_spawn).1.2).
Lemma request_queued : (ran one_spawn).1.2 = [request].
Proof. by vm_compute. Qed.

Definition initial (node : string) : option TrainSimState :=
  match spawn_execute env ["T1"%string; node] with Ok (_, [SpawnRequest t _]) => Some t | _ => None end.
End TerminalDemo.

Lemma terminal_keyed : keyed TerminalDemo.world.
Proof. apply keyed_of_maps. unfold keyed_maps, keyed_map. split_and!; by apply (bool_decide_unpack _); vm_compute. Qed.

Lemma resolve_spawn_spec_witness :
  is_Some (EngineState.find_boundary_node TerminalDemo.world (mkUID 1003)).
Proof.
  pose proof (resolve_spawn_spec TerminalDemo.world (mkUID 1003)) as H. revert H.
  replace (resolve_spawn_at_boundary TerminalDemo.world (mkUID 1003)) with (inl (mkSpawnPoint T4 (mkUID 1003)) : SpawnPoint + SpawnError.t)
    by (by vm_compute).
  intros [H _]. exact H.
Defined.

Lemma terminal_authorised_witness :
  exists before user, logged_in InMemoryUserStore.with_default_admin before user /\
    Permission.SPAWN ∈ ua_permissions user.
Proof.
  pose proof TerminalDemo.one_spawn_runs as E. pose proof TerminalDemo.request_queued as Hq.
  destruct (TerminalDemo.ran TerminalDemo.one_spawn) as [[texts queued] self']. cbn [fst snd] in Hq. subst queued.
  destruct (terminal_authorised TerminalDemo.registry InMemoryUserStore.with_default_admin _ texts [TerminalDemo.request]
    self' TerminalDemo.request E (list_elem_of_here _ _))
    as (before & env & line & after & user & verb & args & cmd & output & requests & _ & _ & Hl & _).
  exists before.*2, user. split; [exact Hl|]. destruct Hl as (_ & l & _ & _ & (_ & b & a & Ha & _) & _).
  destruct b as [|? [|]]; [|discriminate Ha|discriminate Ha]. injection Ha as <- _. left.
Defined.

Lemma terminal_total_witness :
  length (TerminalDemo.texts_of ["login admin admin123"; "trains"]%string) = 3%nat.
Proof.
  destruct (terminal_total (JL := JsonDemo.lib) (RegistryDemo.data RegistryDemo.vehicle_files) RegistryDemo.loaded
    TerminalDemo.fixed1 InMemoryUserStore.with_default_admin
    (map (pair TerminalDemo.env) ["login admin admin123"; "trains"]%string) RegistryDemo.registry_loads)
    as (r & texts & queued & self' & Hr & Hrun & Hlen).
  - repeat constructor.
  - unfold TerminalDemo.texts_of, TerminalDemo.start. injection Hr as <-. 
    change (CommandRegistry.mk _) with TerminalDemo.registry in Hrun. rewrite Hrun. exact Hlen.
Defined.

(** The train the terminal forms for the consist "T1" at a node. *)
Lemma spawn_enters_world_witness :
  exists initial from, TerminalDemo.request = SpawnRequest initial from /\ train_uid initial = mkUID 7 /\
    (TrainFleet.spawn [] (mkEffects TerminalDemo.world [] []) initial from).1.1 = None.
Proof.
  destruct (spawn_enters_world (JL := JsonDemo.lib) (RegistryDemo.data RegistryDemo.vehicle_files) RegistryDemo.loaded
    TerminalDemo.world [] ["T1"; "b1"]%string
    "spawn queued: T1 (uid 7) at section uid 101" [TerminalDemo.request] TerminalDemo.request
    (mkEffects TerminalDemo.world [] []) RegistryDemo.registry_loads terminal_keyed eq_refl)
    as (consist & initial & from & section & Hr & Hc & _ & _ & _ & _ & _ & Hs).
  - by vm_compute.
  - left.
  - exists initial, from. split; [exact Hr|]. rewrite Hs. split; [|reflexivity].
    assert (match TerminalDemo.request with SpawnRequest t _ => train_uid t | DespawnRequest u => u end = mkUID 7) as Hu
      by (by vm_compute).
    rewrite Hr in Hu. exact Hu.
Defined.

Definition spawn_at (node : string) : TrainSimState * UID :=
  match spawn_execute TerminalDemo.env ["T1"%string; node] with
  | Ok (_, [SpawnRequest t from]) => (t, from)
  | _ => (demo_train, UID_zero)
  end.

Lemma spawn_twice_witness :
  let '(_, fl1, fx1) := TrainFleet.spawn [] (mkEffects TerminalDemo.world [] []) (spawn_at "b1").1 (mkUID 1001) in
  let '(_, fl2, _) := TrainFleet.spawn fl1 fx1 (spawn_at "b3").1 (mkUID 1003) in
  map (fun e => train_uid (te_state e)) fl2 = [mkUID 7; mkUID 7].
Proof.
  pose proof (spawn_twice (JL := JsonDemo.lib) (RegistryDemo.data RegistryDemo.vehicle_files) RegistryDemo.loaded
    TerminalDemo.world [] ["T1"; "b1"]%string ["T1"; "b3"]%string
    "spawn queued: T1 (uid 7) at section uid 101" "spawn queued: T1 (uid 7) at section uid 104"
    (spawn_at "b1").1 (spawn_at "b3").1 (mkUID 1001) (mkUID 1003)
    (mkEffects TerminalDemo.world [] []) RegistryDemo.registry_loads terminal_keyed eq_refl) as H.
  cbv zeta in H. revert H. destruct (TrainFleet.spawn [] _ _ _) as [[r1 fl1] fx1].
  destruct (TrainFleet.spawn fl1 fx1 _ _) as [[r2 fl2] fx2]. intros H.
  destruct H as (_ & _ & e1 & e2 & -> & H1 & H2); [by vm_compute|by vm_compute|by vm_compute|by vm_compute|].
  cbn. rewrite H1, H2. by vm_compute.
Defined.
