(* ===== verification/Timetable.v ===== *)
(** * Timetable: the catalogue of timetable points, and schedules over it

    [engine/timetable]: points and connections, the catalogue that holds them,
    its loader, which skips the files it cannot read, and the check of a
    schedule's route in [engine/core/train_scheduler.hpp].  The theorem says
    which schedules are valid in terms of the files. *)
From S2P Require Import Prelude Float32 Types World Json Topology.
Local Open Scope Z_scope.

Module TimetablePointType.
(* SRC engine/include/engine/timetable/timetable_point.hpp 11-21 TimetablePointType *)
Inductive t := STATION | PASSENGER_STOP | JUNCTION_POST | SIDING_POST | LOADING_POINT | PASSING_LOOP
  | BORDER_POINT | TECHNICAL_POINT | OTHER.
#[global] Instance eq_dec : EqDecision t. Proof. solve_decision. Defined.
End TimetablePointType.

(* SRC engine/include/engine/timetable/timetable_point.hpp 23-34 TimetablePoint *)
Record TimetablePoint := mkTimetablePoint {
  ttp_uid : UID; ttp_name : string; ttp_point_type : TimetablePointType.t;
  ttp_short_name : option string; ttp_abbreviation : option string; ttp_aliases : list string;
  ttp_external_ids : gmap string string; ttp_railway_lines : list string; ttp_kilometer : option float }.
(* SRC engine/include/engine/timetable/timetable_connection.hpp 9-14 TimetableConnection *)
Record TimetableConnection := mkTimetableConnection {
  ttc_uid : UID; ttc_from_uid : UID; ttc_to_uid : UID; ttc_lines : list string }.

(** ** The catalogue *)

Module TimetableCatalog.
(* SRC engine/include/engine/timetable/timetable_catalog.hpp 64-67 TimetableCatalog *)
Record t := mk {
  points_ : gmap UID TimetablePoint; connections_ : gmap UID TimetableConnection;
  adjacency_list_ : gmap UID (list UID) }.
#[global] Instance eta : Eta t := fun c => mk (points_ c) (connections_ c) (adjacency_list_ c).
Definition empty : t := mk ∅ ∅ ∅.

(* SRC engine/include/engine/timetable/timetable_catalog.hpp 15-17 TimetableCatalog::add_point *)
Definition add_point (self : t) (point : TimetablePoint) : t := self <| points_ ::= <[ttp_uid point := point]> |>.
(** The list of a point is created on the first use. *)
(* SRC engine/include/engine/timetable/timetable_catalog.hpp 19-22 TimetableCatalog::add_connection *)
Definition add_connection (self : t) (conn : TimetableConnection) : t :=
  self <| connections_ ::= <[ttc_uid conn := conn]> |>
       <| adjacency_list_ ::= fun m =>
            <[ttc_from_uid conn := default [] (m !! ttc_from_uid conn) ++ [ttc_to_uid conn]]> m |>.
(* SRC engine/include/engine/timetable/timetable_catalog.hpp 24-26 TimetableCatalog::contains_point *)
Definition contains_point (self : t) (uid : UID) : bool := bool_decide (is_Some (points_ self !! uid)).
(* SRC engine/include/engine/timetable/timetable_catalog.hpp 28-33 TimetableCatalog::find_point *)
Definition find_point (self : t) (uid : UID) : option TimetablePoint := points_ self !! uid.
(* SRC engine/include/engine/timetable/timetable_catalog.hpp 36-43 TimetableCatalog::find_point_by_name *)
Definition find_point_by_name {MO : MapOrder} (self : t) (name : string) : option TimetablePoint :=
  List.find (fun pt => bool_decide (ttp_name pt = name)) (visit (points_ self)).*2.
(* SRC engine/include/engine/timetable/timetable_catalog.hpp 45-54 TimetableCatalog::are_connected *)
Definition are_connected (self : t) (from_uid to_uid : UID) : bool :=
  match adjacency_list_ self !! from_uid with
  | Some neighbors => existsb (fun neighbor => bool_decide (neighbor = to_uid)) neighbors
  | None => false
  end.
(* SRC engine/include/engine/timetable/timetable_catalog.hpp 56-58 TimetableCatalog::has_connections *)
Definition has_connections (self : t) : bool := negb (bool_decide (connections_ self = ∅)).
(* SRC engine/include/engine/timetable/timetable_catalog.hpp 60-62 TimetableCatalog::get_all_points *)
Definition get_all_points (self : t) : gmap UID TimetablePoint := points_ self.
End TimetableCatalog.

(** ** The loader *)

(* SRC engine/src/timetable/timetable_catalog_loader.cpp 8-18 parse_point_type *)
Definition parse_point_type (s : string) : TimetablePointType.t :=
  if bool_decide (s = "STATION"%string) then TimetablePointType.STATION
  else if bool_decide (s = "PASSENGER_STOP"%string) then TimetablePointType.PASSENGER_STOP
  else if bool_decide (s = "JUNCTION_POST"%string) then TimetablePointType.JUNCTION_POST
  else if bool_decide (s = "SIDING_POST"%string) then TimetablePointType.SIDING_POST
  else if bool_decide (s = "LOADING_POINT"%string) then TimetablePointType.LOADING_POINT
  else if bool_decide (s = "PASSING_LOOP"%string) then TimetablePointType.PASSING_LOOP
  else if bool_decide (s = "BORDER_POINT"%string) then TimetablePointType.BORDER_POINT
  else if bool_decide (s = "TECHNICAL_POINT"%string) then TimetablePointType.TECHNICAL_POINT
  else TimetablePointType.OTHER.

(** An entry of a directory, and a directory: missing, unreadable with an error code that
    is not zero, or its entries in the order of the iteration. *)
Record DirEntry {JL : JsonLib} := mkDirEntry {
  de_path : string; de_regular : bool; de_extension : string; de_content : Document }.
Inductive Listing {JL : JsonLib} : Type := NoDirectory | Unreadable (ec : Z) | Entries (l : list DirEntry).
Arguments DirEntry JL : clear implicits.
Arguments Listing JL : clear implicits.
Arguments mkDirEntry {JL}.

Section Loader.
Context {JL : JsonLib}.

(** [for (const auto& x : v) out.push_back(x.get<std::string>())]. *)
Definition strings_of (v : json) : result (list string) :=
  traverse (fun x => get json_exception (get_string x)) (j_items v).
(** The same behind [if (j.contains(key))]. *)
Definition strings_at (j : json) (key : string) : result (list string) :=
  match j_find j key with Some v => strings_of v | None => Ok [] end.
Definition string_opt (j : json) (key : string) : result (option string) :=
  match j_find j key with Some v => s ← get json_exception (get_string v); Ok (Some s) | None => Ok None end.

(* SRC engine/src/timetable/timetable_catalog_loader.cpp 48-52 TimetableCatalogLoader::load *)
Definition external_ids_of (j : json) : result (gmap string string) :=
  match j_find j "external_ids" with
  | None => Ok ∅
  | Some v =>
      members ← get json_exception (j_members v);
      for_each (fun ids kv => s ← get json_exception (get_string kv.2); Ok (<[kv.1 := s]> ids)) members ∅
  end.

(* SRC engine/src/timetable/timetable_catalog_loader.cpp 35-58 TimetableCatalogLoader::load *)
Definition parse_point (j : json) : result TimetablePoint :=
  uid ← j_value get_u64 j "uid" 0;
  name ← j_value get_string j "name" ""%string;
  pt_type ← j_value get_string j "point_type" "OTHER"%string;
  short_name ← string_opt j "short_name";
  abbreviation ← string_opt j "abbreviation";
  aliases ← strings_at j "aliases";
  external_ids ← external_ids_of j;
  railway_lines ← strings_at j "railway_lines";
  kilometer ← match j_find j "kilometer" with
              | Some v => x ← get json_exception (get_float v); Ok (Some x)
              | None => Ok None
              end;
  Ok (mkTimetablePoint (mkUID uid) name (parse_point_type pt_type) short_name abbreviation aliases external_ids
        railway_lines kilometer).
(* SRC engine/src/timetable/timetable_catalog_loader.cpp 79-86 TimetableCatalogLoader::load *)
Definition parse_connection (j : json) : result TimetableConnection :=
  uid ← j_value get_u64 j "uid" 0;
  from_uid ← j_value get_u64 j "from_uid" 0;
  to_uid ← j_value get_u64 j "to_uid" 0;
  lines ← strings_at j "lines";
  Ok (mkTimetableConnection (mkUID uid) (mkUID from_uid) (mkUID to_uid) lines).

(** The files whose failure was reported, and the catalogue. *)
Definition Loading : Type := TimetableCatalog.t * list string.

(** One entry of a directory: other files and files that do not open are passed over, and
    any exception is caught and reported. *)
(* SRC engine/src/timetable/timetable_catalog_loader.cpp 26-65 TimetableCatalogLoader::load *)
Definition load_entry {A} (parse : json -> result A) (add : TimetableCatalog.t -> A -> TimetableCatalog.t)
    (acc : Loading) (entry : DirEntry JL) : Loading :=
  let '(catalog, failed) := acc in
  if de_regular entry && bool_decide (de_extension entry = ".json"%string) then
    match de_content entry with
    | CannotOpen => (catalog, failed)
    | ParseError _ => (catalog, failed ++ [de_path entry])
    | Parsed j =>
        match parse j with
        | Ok x => (add catalog x, failed)
        | Throw _ => (catalog, failed ++ [de_path entry])
        end
    end
  else (catalog, failed).

(** The constructor of the iterator sets the error code or clears it; after an error there is
    nothing to iterate over, so the test inside the loop never succeeds. *)
(* SRC engine/src/timetable/timetable_catalog_loader.cpp 25-66 TimetableCatalogLoader::load *)
Definition load_directory {A} (parse : json -> result A) (add : TimetableCatalog.t -> A -> TimetableCatalog.t)
    (dir : Listing JL) (acc : Loading) (ec : Z) : Loading * Z :=
  match dir with
  | NoDirectory => (acc, ec)
  | Unreadable e => (acc, e)
  | Entries l => (fold_left (load_entry parse add) l acc, 0)
  end.

(* SRC engine/src/timetable/timetable_catalog_loader.cpp 20-97 TimetableCatalogLoader::load *)
Definition load (points connections : Listing JL) : TimetableCatalog.t * list string * Z :=
  let '(acc, ec) := load_directory parse_point TimetableCatalog.add_point points (TimetableCatalog.empty, []) 0 in
  load_directory parse_connection TimetableCatalog.add_connection connections acc ec.
End Loader.

(** ** Schedules *)

(* SRC engine/include/engine/core/train_scheduler.hpp 20-23 ScheduleStop *)
Record ScheduleStop := mkScheduleStop { ss_point_uid : UID }.
(* SRC engine/include/engine/core/train_scheduler.hpp 25-28 Schedule *)
Record Schedule := mkSchedule { sched_uid : UID; sched_route : list ScheduleStop }.

Module TrainScheduler.
(** The test of the stops [i] and [i + 1]. *)
(* SRC engine/include/engine/core/train_scheduler.hpp 41-49 TrainScheduler::validate_schedule_route *)
Definition valid_leg (catalog : TimetableCatalog.t) (route : list ScheduleStop) (i : nat) : bool :=
  match route !! i, route !! S i with
  | Some current, Some next =>
      TimetableCatalog.contains_point catalog (ss_point_uid current) &&
      TimetableCatalog.contains_point catalog (ss_point_uid next) &&
      (negb (TimetableCatalog.has_connections catalog) ||
       TimetableCatalog.are_connected catalog (ss_point_uid current) (ss_point_uid next))
  | _, _ => false
  end.
(* SRC engine/include/engine/core/train_scheduler.hpp 37-52 TrainScheduler::validate_schedule_route *)
Definition validate_schedule_route (catalog : TimetableCatalog.t) (schedule : Schedule) : bool :=
  let route := sched_route schedule in
  negb (bool_decide (length route = 0%nat)) && forallb (valid_leg catalog route) (seq 0 (length route - 1)).
End TrainScheduler.

(** ** What was loaded *)

Section Loaded.
Context {JL : JsonLib}.

(** The values of the files of a directory that parse. *)
Definition parsed {A} (parse : json -> result A) (entry : DirEntry JL) : option A :=
  if de_regular entry && bool_decide (de_extension entry = ".json"%string) then
    match de_content entry with
    | Parsed j => match parse j with Ok x => Some x | Throw _ => None end
    | _ => None
    end
  else None.
Definition values_of {A} (parse : json -> result A) (dir : Listing JL) : list A :=
  match dir with Entries l => omap (parsed parse) l | _ => [] end.

Lemma load_directory_spec {A} (parse : json -> result A) add dir catalog failed ec :
  (load_directory parse add dir (catalog, failed) ec).1.1 = fold_left add (values_of parse dir) catalog.
Proof.
  destruct dir as [| |l]; [done..|]. cbn. revert catalog failed. induction l as [|e l IH]; intros catalog failed; [done|].
  cbn [fold_left omap list_omap]. unfold load_entry at 2, parsed. destruct (_ && _); [|apply IH].
  destruct (de_content e) as [|?|j]; [apply IH..|]. destruct (parse j); cbn; apply IH.
Qed.

Lemma add_points_spec points catalog :
  let c := fold_left TimetableCatalog.add_point points catalog in
  TimetableCatalog.connections_ c = TimetableCatalog.connections_ catalog /\
  TimetableCatalog.adjacency_list_ c = TimetableCatalog.adjacency_list_ catalog /\
  forall u, is_Some (TimetableCatalog.points_ c !! u) <->
    is_Some (TimetableCatalog.points_ catalog !! u) \/ exists p, p ∈ points /\ ttp_uid p = u.
Proof.
  revert catalog. induction points as [|p points IH]; intros catalog; cbn.
  - split_and!; [done..|]. intros u. split; [by left|]. intros [?|(? & ?%not_elem_of_nil & _)]; done.
  - destruct (IH (TimetableCatalog.add_point catalog p)) as (H1 & H2 & H3). split_and!; [by rewrite H1|by rewrite H2|].
    intros u. rewrite H3. cbn. rewrite lookup_insert_is_Some'. setoid_rewrite elem_of_cons.
    split.
    + intros [[H|H]|(y & Hy & H)]; [right; exists p; auto|by left|right; exists y; auto].
    + intros [H|(y & [->|Hy] & H)]; [left; by right|left; by left|right; by exists y].
Qed.

Lemma are_connected_spec c a b :
  TimetableCatalog.are_connected c a b = true <->
  exists l, TimetableCatalog.adjacency_list_ c !! a = Some l /\ b ∈ l.
Proof.
  unfold TimetableCatalog.are_connected. destruct (TimetableCatalog.adjacency_list_ c !! a) as [l|]; [|naive_solver].
  rewrite existsb_exists. setoid_rewrite bool_decide_eq_true. setoid_rewrite <-list_elem_of_In. naive_solver.
Qed.

Lemma add_connection_connected c x a b :
  TimetableCatalog.are_connected (TimetableCatalog.add_connection c x) a b = true <->
  TimetableCatalog.are_connected c a b = true \/ (ttc_from_uid x = a /\ ttc_to_uid x = b).
Proof.
  rewrite !are_connected_spec. cbn. destruct (decide (ttc_from_uid x = a)) as [<-|Ha].
  - rewrite lookup_insert_eq. split.
    + intros (l & [= <-] & [Hb|Hb%list_elem_of_singleton]%elem_of_app); [left|by right].
      destruct (TimetableCatalog.adjacency_list_ c !! ttc_from_uid x) as [l|]; [by exists l|by apply not_elem_of_nil in Hb].
    + intros H. eexists. split; [done|]. apply elem_of_app. destruct H as [(l & -> & Hb)|[_ <-]]; [by left|right; by left].
  - rewrite lookup_insert_ne by done. split; [by left|]. intros [H|[H _]]; done.
Qed.

Lemma add_connections_spec conns catalog :
  let c := fold_left TimetableCatalog.add_connection conns catalog in
  TimetableCatalog.points_ c = TimetableCatalog.points_ catalog /\
  (TimetableCatalog.connections_ c = ∅ <-> TimetableCatalog.connections_ catalog = ∅ /\ conns = []) /\
  forall a b, TimetableCatalog.are_connected c a b = true <->
    TimetableCatalog.are_connected catalog a b = true \/
    exists x, x ∈ conns /\ ttc_from_uid x = a /\ ttc_to_uid x = b.
Proof.
  revert catalog. induction conns as [|x conns IH]; intros catalog; cbn.
  - split_and!; [done|naive_solver|]. intros a b. split; [by left|]. intros [?|(? & ?%not_elem_of_nil & _)]; done.
  - destruct (IH (TimetableCatalog.add_connection catalog x)) as (H1 & H2 & H3). split_and!; [by rewrite H1| |].
    + rewrite H2. cbn. split; [intros [?%insert_non_empty _]|intros [_ ?]]; done.
    + intros a b. rewrite H3, add_connection_connected. setoid_rewrite elem_of_cons. split.
      * intros [[H|H]|(y & Hy & H)]; [by left|right; exists x; auto|right; exists y; auto].
      * intros [H|(y & [->|Hy] & H)]; [by left; left|left; by right|right; by exists y].
Qed.

Lemma valid_route_spec catalog schedule :
  TrainScheduler.validate_schedule_route catalog schedule = true <->
  sched_route schedule <> [] /\ forall i a b, sched_route schedule !! i = Some a -> sched_route schedule !! S i = Some b ->
    is_Some (TimetableCatalog.points_ catalog !! ss_point_uid a) /\
    is_Some (TimetableCatalog.points_ catalog !! ss_point_uid b) /\
    (TimetableCatalog.connections_ catalog = ∅ \/
     TimetableCatalog.are_connected catalog (ss_point_uid a) (ss_point_uid b) = true).
Proof.
  unfold TrainScheduler.validate_schedule_route. set (route := sched_route schedule).
  rewrite andb_true_iff, negb_true_iff, bool_decide_eq_false, length_zero_iff_nil, forallb_forall. f_equiv.
  assert (forall i a b, route !! i = Some a -> route !! S i = Some b ->
    TrainScheduler.valid_leg catalog route i = true <->
    is_Some (TimetableCatalog.points_ catalog !! ss_point_uid a) /\
    is_Some (TimetableCatalog.points_ catalog !! ss_point_uid b) /\
    (TimetableCatalog.connections_ catalog = ∅ \/
     TimetableCatalog.are_connected catalog (ss_point_uid a) (ss_point_uid b) = true)) as Hleg.
  { intros i a b Ha Hb. unfold TrainScheduler.valid_leg. rewrite Ha, Hb. unfold TimetableCatalog.contains_point,
      TimetableCatalog.has_connections.
    rewrite !andb_true_iff, orb_true_iff, negb_involutive, !bool_decide_eq_true. tauto. }
  split.
  - intros H i a b Ha Hb. apply (Hleg i a b Ha Hb), H, in_seq. apply lookup_lt_Some in Hb. lia.
  - intros H i Hi%in_seq. destruct (route !! i) as [a|] eqn:Ha; [|apply lookup_ge_None in Ha; lia].
    destruct (route !! S i) as [b|] eqn:Hb; [|apply lookup_ge_None in Hb; lia].
    apply (Hleg i a b Ha Hb). by eapply H.
Qed.

(** Which schedules are valid, in terms of the files.  After the catalogue was loaded, a route is
    valid exactly when it has a stop and every two consecutive stops are points of files that
    parse and, if any connection file parses, one of them leads from the first to the second.  A
    route of a single stop is valid whatever the stop is. *)
Theorem loaded_schedule_valid points connections schedule :
  let '(catalog, _, _) := load points connections in
  let stops := ss_point_uid <$> sched_route schedule in
  let known u := exists p, p ∈ values_of parse_point points /\ ttp_uid p = u in
  let connected a b := exists c, c ∈ values_of parse_connection connections /\ ttc_from_uid c = a /\ ttc_to_uid c = b in
  TrainScheduler.validate_schedule_route catalog schedule = true <->
  stops <> [] /\ forall i a b, stops !! i = Some a -> stops !! S i = Some b ->
    known a /\ known b /\ (values_of parse_connection connections = [] \/ connected a b).
Proof.
  unfold load. pose proof (load_directory_spec parse_point TimetableCatalog.add_point points TimetableCatalog.empty [] 0) as Hp.
  destruct (load_directory _ _ points _ _) as [[c1 failed] ec]. cbn [fst] in Hp.
  pose proof (load_directory_spec parse_connection TimetableCatalog.add_connection connections c1 failed ec) as Hc.
  destruct (load_directory _ _ connections _ _) as [[c2 failed2] ec2]. cbn [fst] in Hc.
  destruct (add_points_spec (values_of parse_point points) TimetableCatalog.empty) as (P1 & P2 & P3).
  destruct (add_connections_spec (values_of parse_connection connections) c1) as (C1 & C2 & C3).
  rewrite <-Hp in P1, P2, P3. rewrite <-Hc in C1, C2, C3. cbv zeta.
  assert (forall a b, TimetableCatalog.are_connected c1 a b = true -> False) as Hnone.
  { intros a b (l & Hl & _)%are_connected_spec. rewrite P2 in Hl. cbn in Hl. by rewrite lookup_empty in Hl. }
  rewrite valid_route_spec, C1. setoid_rewrite P3. setoid_rewrite C2. setoid_rewrite C3. rewrite P1.
  cbn [TimetableCatalog.empty TimetableCatalog.connections_ TimetableCatalog.points_].
  setoid_rewrite list_lookup_fmap. setoid_rewrite fmap_Some. split.
  - intros [Hne H]. split; [by destruct (sched_route schedule)|].
    intros i a b (sa & Ha & ->) (sb & Hb & ->). destruct (H i sa sb Ha Hb) as (Ka & Kb & K). split_and!.
    + destruct Ka as [[? Ka]|Ka]; [by rewrite lookup_empty in Ka|done].
    + destruct Kb as [[? Kb]|Kb]; [by rewrite lookup_empty in Kb|done].
    + destruct K as [[_ K]|[K|K]]; [by left|by destruct (Hnone _ _ K)|by right].
  - intros [Hne H]. split; [by destruct (sched_route schedule)|].
    intros i a b Ha Hb. destruct (H i (ss_point_uid a) (ss_point_uid b)) as (Ka & Kb & K); [eauto..|].
    split_and!; [by right|by right|]. destruct K as [K|K]; [by left|by right; right].
Qed.
End Loaded.

(** ** Two files of one connection, and directories that cannot be read *)

Module TimetableDemo.
Import JsonDemo.
Definition entry (path : string) (j : value) : DirEntry JsonDemo.lib := mkDirEntry path true ".json" (Parsed j).
Definition point (n : N) : value := JObject [("uid", JUnsigned n); ("name", JString "P")]%string.
Definition connection (n a b : N) : value :=
  JObject [("uid", JUnsigned n); ("from_uid", JUnsigned a); ("to_uid", JUnsigned b)]%string.
Definition points : Listing JsonDemo.lib := Entries
  [entry "1.json" (point 1); entry "2.json" (point 2); entry "3.json" (point 3);
   mkDirEntry "4.json" true ".json" (ParseError ""); entry "5.json" (JObject [("name", JUnsigned 5)])]%string.
Definition route (l : list Z) : Schedule := mkSchedule UID_zero (map (fun n => mkScheduleStop (mkUID n)) l).

(** The files that fail are reported and skipped; a connection that a later file redefines
    stays in the adjacency list. *)
Example redefined :
  let '(catalog, failed, ec) := load points (Entries [entry "a.json" (connection 7 1 2); entry "b.json" (connection 7 1 3)]%string) in
  failed = ["4.json"; "5.json"]%string /\ ec = 0 /\
  ttc_to_uid <$> TimetableCatalog.connections_ catalog !! mkUID 7 = Some (mkUID 3) /\
  TrainScheduler.validate_schedule_route catalog (route [1; 2]) = true /\
  TrainScheduler.validate_schedule_route catalog (route [1; 3]) = true /\
  TrainScheduler.validate_schedule_route catalog (route [2; 3]) = false /\
  TrainScheduler.validate_schedule_route catalog (route [99]) = true.
Proof. vm_compute. split_and!; reflexivity. Qed.

(** The error of the first directory is forgotten when the second can be read. *)
Example unreadable_points_forgotten :
  (load (Unreadable 13) (Entries []) : _ * Z).2 = 0 /\ (load (Unreadable 13) NoDirectory : _ * Z).2 = 13.
Proof. by vm_compute. Qed.
End TimetableDemo.
