(* ===== verification/Server.v ===== *)
(** * Server: the composition root

    [server/src/session_server.cpp] and [session_server.hpp]: the command line,
    the start of the server from its scenario and data files, and the process
    that runs afterwards.  The engine thread, the IO thread and the terminal
    thread share the command queue, the published snapshot, the requests for
    the fleet and the database; a run of the process is a sequence of their
    steps, in any order.

    Theorems: what the command line means, when and into which state the server
    starts, what holds of every run. *)
From Stdlib Require Import Ascii String.
From S2P Require Import Prelude Float32 Types Commands Track World Demo Changes Queues DeviceRules Interlocking Physics TrainSim Fleet Loop Frame Text DbWriter Dispatch Ingress Snapshot Session Bus Json FleetRegistry Topology SpawnResolver Terminal.
Local Open Scope Z_scope.

(** ** The command line *)

(* SRC server/include/server/session_server.hpp 49-59 SessionConfig *)
Record SessionConfig := mkSessionConfig {
  scenario_dirs : list string; data_dir : string; port : Z; db_connection_string : string }.
#[export] Instance SessionConfig_eta : Eta SessionConfig := fun c =>
  mkSessionConfig (scenario_dirs c) (data_dir c) (port c) (db_connection_string c).

(** How [from_args] ends: with a server to run, by [std::exit], or by an
    exception that nothing catches. *)
Inductive Outcome : Type :=
| Configured (cfg : SessionConfig)
| Exited (status : Z)
| Uncaught.

Module SessionServer.

Definition is_option (arg long short : string) : bool := bool_decide (arg = long) || bool_decide (arg = short).

(** The loop over [argv] from the second argument on.  An option without its
    argument is skipped, as is anything else that is not known. *)
(* SRC server/src/session_server.cpp 66-84 SessionServer::from_args *)
Fixpoint parse_args (args : list string) (cfg : SessionConfig) : Outcome :=
  match args with
  | [] => Configured cfg
  | arg :: args =>
      let flag := if is_option arg "--help" "-h" then Exited 0 else parse_args args cfg in
      match args with
      | [] => flag
      | next :: rest =>
          if is_option arg "--scenario" "-s" then
            parse_args rest (cfg <| scenario_dirs ::= fun v => v ++ [next] |>)
          else if is_option arg "--data" "-d" then parse_args rest (cfg <| data_dir := next |>)
          else if is_option arg "--port" "-p" then
            match stoi next with
            | Some n => parse_args rest (cfg <| port := u16 n |>)
            | None => Uncaught
            end
          else if bool_decide (arg = "--db"%string) then
            parse_args rest (cfg <| db_connection_string := next |>)
          else flag
      end
  end.

(** The connection string of the environment, if it names host, user, password and database. *)
(* SRC server/src/session_server.cpp 95-106 SessionServer::from_args *)
Definition connection_from_env (getenv : string -> option string) : option string :=
  host ← getenv "DB_HOST"%string; user ← getenv "DB_USER"%string;
  pass ← getenv "DB_PASSWORD"%string; name ← getenv "DB_NAME"%string;
  Some ("host=" +:+ host +:+ " port=" +:+ default "5432" (getenv "DB_PORT") +:+ " dbname=" +:+ name +:+
        " user=" +:+ user +:+ " password=" +:+ pass)%string.

(* SRC server/src/session_server.cpp 61-109 SessionServer::from_args *)
Definition from_args (current_path : string) (getenv : string -> option string) (args : list string) : Outcome :=
  match parse_args args (mkSessionConfig [] (current_path +:+ "/data") 9420 "") with
  | Configured cfg =>
      if bool_decide (scenario_dirs cfg = []) then Exited 1
      else if bool_decide (db_connection_string cfg = ""%string) then
        match connection_from_env getenv with
        | Some s => Configured (cfg <| db_connection_string := s |>)
        | None => Configured cfg
        end
      else Configured cfg
  | outcome => outcome
  end.

(** ** The server and what it runs on *)

Section Server.
Context {JL : JsonLib} {MO : MapOrder} {W : SessionWire} {R : CommandReader} {SJ : SlotJson}.
Context {C : Type} {CS : ControlSystem C EngineState.t} {DB : Type} {DBW : IDbWriter DB}.

(** What the process finds around it: the databases ([PgDbWriter] connects and
    may throw), the file system, the port it opens, the calendar, and the
    control systems its libraries registered before [main]. *)
Record Host := mkHost {
  h_PgDbWriter : string -> result DB;
  h_NullDbWriter : DB;
  h_scenario : string -> Scenario;
  h_data : string -> DataRoot;
  h_listen : Z -> result unit;
  h_iso_weekday : Z;
  h_control_systems : ControlSystemRegistry.t (System := C);
  h_fixed1 : float -> string }.

(** The command queue is the gateway's, and so is the database, through the
    backend of the dispatch channel. *)
(* SRC server/include/server/session_server.hpp 90-138 SessionServer *)
Record t := mk {
  config_ : SessionConfig;
  fleet_ : FleetRegistry;
  session_uuid : string;
  gateway_ : Server (D := Backend DB);
  dispatch_bus_ : DispatchBus;
  engine_loop_ : EngineLoop.t C;
  terminal_session_ : TerminalSession.t }.
#[global] Instance eta : Eta t := fun s =>
  mk (config_ s) (fleet_ s) (session_uuid s) (gateway_ s) (dispatch_bus_ s) (engine_loop_ s) (terminal_session_ s).

Definition db_writer_ (self : t) : DB := be_db (gw_channel (sv_gateway (gateway_ self))).
Definition state_ (self : t) : EngineState.t := EngineLoop.state_ (engine_loop_ self).

(* SRC server/src/session_server.cpp 147-157 SessionServer::start *)
Definition make_db_writer (h : Host) (cfg : SessionConfig) : result DB :=
  if bool_decide (db_connection_string cfg = ""%string) then Ok (h_NullDbWriter h)
  else h_PgDbWriter h (db_connection_string cfg).

(** The world, and what the first scenario says about it. *)
(* SRC server/src/session_server.cpp 159-165 SessionServer::start *)
Definition load_state (h : Host) (cfg : SessionConfig) : result (EngineState.t * ScenarioMeta) :=
  r ← load_world EngineState.empty (h_scenario h <$> scenario_dirs cfg);
  let '(state, metas) := r in
  meta ← get (runtime_error "front of an empty vector") (head metas);
  Ok (EngineState.set_session_id state (sm_station_sid meta), meta).

(* SRC server/src/session_server.cpp 183-187 SessionServer::start *)
Definition resolve_control (h : Host) (id : string) : result C :=
  _ ← throw_if (negb (ControlSystemRegistry.has (h_control_systems h) id))
        (runtime_error ("[server] Unknown control_system: " +:+ id));
  get (out_of_range ("ControlSystemRegistry: unknown system ID '" +:+ id +:+ "'"))
    (ControlSystemRegistry.create (h_control_systems h) id).

(** The exceptions leave [run] and end the process.  [front of an empty vector]
    and [out_of_range] cannot occur ([start_spec]).  What a call that throws has left in the
    database is not part of the result. *)
(* SRC server/src/session_server.cpp 142-244 SessionServer::start *)
Definition start (h : Host) (cfg : SessionConfig) : result t :=
  db ← make_db_writer h cfg;
  r ← load_state h cfg;
  let '(state, meta) := r in
  let '(db, uuid) := init_session (sm_station_sid meta) 1 db in
  uuid ← uuid;
  let '(db, seeded_rows) := seed_edr_entries_for_operating_day uuid (h_iso_weekday h) db in
  _ ← seeded_rows;
  fleet ← FleetRegistry.load (h_data h (data_dir cfg));
  control ← resolve_control h (sm_control_system_id meta);
  let gateway := Server_create PriorityCommandQueue.create AtomicSnapshot.create
                   (mkBackend DispatchExchangeManager.create db) in
  let loop := EngineLoop.create state control PriorityCommandQueue.create (EngineLoop.mkCallbacks true true true) in
  _ ← h_listen h (port cfg);
  let gateway := mkServer (Session.start (sv_gateway gateway)) (sv_bufs gateway) (sv_alive gateway) in
  let '(_, loop) := EngineLoop.start loop in
  registry ← server_registry (h_fixed1 h);
  Ok (mk cfg fleet uuid gateway DispatchBus_create loop
        (TerminalSession.create registry InMemoryUserStore.with_default_admin)).

(** ** The three threads *)

(** The encodings of [proto/events.fbs] and [proto/dispatch_channel.fbs], and the clock. *)
Variable build_Event : EventBody -> list byte.
Variable parse_message : list byte -> option DispatchChannelMessage.
Variable build_message : DispatchChannelMessage -> list byte.
Variable clock : nat -> Z.

(** What the gateway shares with the engine thread after a tick: the queue, the
    snapshot, the database, and the frames the callbacks posted. *)
Definition after_tick (loop : EngineLoop.t C) (o : Outlet DB) (g : Gateway (D := Backend DB)) :
    Gateway (D := Backend DB) :=
  let b := gw_channel g in
  fold_left (fun g frame => broadcast frame g) (ot_frames o)
    (g <| gw_queue := EngineLoop.queue_ loop |> <| gw_snapshot := EngineLoop.snapshot_ loop |>
       <| gw_channel := mkBackend (be_exchanges b) (ot_db o) |>).

(** The engine thread: one tick, whose callbacks run at the time [ts].  It drains the queue
    that the gateway fills. *)
(* SRC server/src/session_server.cpp 204-224 SessionServer::start *)
Definition tick (ts : Z) (self : t) : t :=
  let g := sv_gateway (gateway_ self) in
  let '(loop, notices) := EngineLoop.do_tick ((engine_loop_ self) <| EngineLoop.queue_ := gw_queue g |>) in
  let o := fold_left (serve (session_uuid self) build_Event build_CommandNak ts) notices
             (mkOutlet (dispatch_bus_ self) [] (db_writer_ self)) in
  self <| engine_loop_ := loop |> <| dispatch_bus_ := ot_bus o |>
       <| gateway_ ::= fun s => mkServer (after_tick loop o (sv_gateway s)) (sv_bufs s) (sv_alive s) |>.

(** The terminal thread: the commands of the line read the fleet and the
    snapshot, and enqueue into the engine. *)
Definition enqueue_all (cmds : list FleetCommand) (loop : EngineLoop.t C) : result (EngineLoop.t C) :=
  for_each (fun loop cmd => get (runtime_error "EventQueue::push: queue is closed")
              (EngineLoop.enqueue_fleet_command loop cmd)) cmds loop.
(* SRC server/src/session_server.cpp 226-241 SessionServer::start *)
Definition type_line (line : string) (self : t) : result (string * t) :=
  let env := mkEnv (fleet_ self) (AtomicSnapshot.load (EngineLoop.snapshot_ (engine_loop_ self))) in
  r ← TerminalSession.process_line env (terminal_session_ self) line;
  let '(output, queued, session) := r in
  loop ← enqueue_all queued (engine_loop_ self);
  Ok (output, self <| terminal_session_ := session |> <| engine_loop_ := loop |>).

(** The IO thread: connections, reads and posted handlers; the handler of the
    dispatch channel reads the clock when it is called. *)
Inductive io_step (uuid : string) : Server (D := Backend DB) -> Server (D := Backend DB) -> Prop :=
| io_accept p s g : gw_objects (sv_gateway s) !! p = None -> accept p (sv_gateway s) = Some g ->
    io_step uuid s (mkServer g (sv_bufs s) (sv_alive s))
| io_read h p bytes s s' : acts_as_channel uuid parse_message build_message h ->
    on_read (Some h) clock p bytes s = Some s' -> io_step uuid s s'
| io_read_error p s s' : on_read_error p s = Some s' -> io_step uuid s s'
| io_task delivered s : gw_posted (sv_gateway s) <> [] -> io_step uuid s (run_task delivered s).

(** A run of the process after its start, with the lines typed so far.  An exception in a thread
    ends the process; the steps that a run takes after that are more than the process does. *)
Inductive run (self0 : t) : list string -> t -> Prop :=
| run_start : run self0 [] self0
| run_io typed self s : run self0 typed self -> io_step (session_uuid self) (gateway_ self) s ->
    run self0 typed (self <| gateway_ := s |>)
| run_tick typed self ts : run self0 typed self -> run self0 typed (tick ts self)
| run_line typed self line output self' : run self0 typed self -> type_line line self = Ok (output, self') ->
    run self0 (typed ++ [line]) self'.

(** [None] when the calling thread waits for ever. *)
(* SRC server/src/session_server.cpp 248-288 SessionServer::stop *)
Definition stop (self : t) : option t :=
  let '(_, loop) := EngineLoop.stop (engine_loop_ self) in
  g ← Session.stop (sv_gateway (gateway_ self));
  let g := g <| gw_queue ::= PriorityCommandQueue.close |> in
  Some (self <| engine_loop_ := loop |> <| gateway_ ::= fun s => mkServer g (sv_bufs s) (sv_alive s) |>).
End Server.
Arguments t C DB : clear implicits.
Arguments Host {JL} C DB.
End SessionServer.
Import SessionServer.

(** ** Whose trains run *)

Section Fleet.
Context {MO : MapOrder} {C : Type} {CS : ControlSystem C EngineState.t}.
Variable known : UID -> Prop.

Definition entry_known (e : TrainEntry) : Prop := known (train_uid (te_state e)).
Definition request_known (cmd : FleetCommand) : Prop :=
  match cmd with SpawnRequest initial _ => known (train_uid initial) | DespawnRequest _ => True end.
(** Every train of the fleet, and every train that waits to be spawned, is known. *)
Definition fleet_known (loop : EngineLoop.t C) : Prop :=
  Forall entry_known (EngineLoop.train_fleet_ loop) /\
  Forall request_known (EventQueue.queue_ (EngineLoop.fleet_commands_ loop)).

Lemma handle_all_fleet cmds : forall (self : EngineLoop.t C) acc,
  let r := Loop.handle_all self acc cmds in
  EngineLoop.train_fleet_ r.1 = EngineLoop.train_fleet_ self /\
  EngineLoop.fleet_commands_ r.1 = EngineLoop.fleet_commands_ self.
Proof.
  unfold Loop.handle_all. induction cmds as [|cmd cmds IH]; intros self acc; [done|]. cbn [fold_left fst snd].
  destruct (EngineLoop.handle_command self acc cmd) as [self1 acc1] eqn:E.
  destruct (IH self1 acc1) as [-> ->]. unfold EngineLoop.handle_command in E.
  repeat case_match; by simplify_eq/=.
Qed.

Lemma control_tick_fleet (self : EngineLoop.t C) acc :
  let r := EngineLoop.control_tick self acc in
  EngineLoop.train_fleet_ r.1 = EngineLoop.train_fleet_ self /\
  EngineLoop.fleet_commands_ r.1 = EngineLoop.fleet_commands_ self.
Proof. unfold EngineLoop.control_tick. by destruct (on_tick _ _ _). Qed.

Lemma fleet_command_known (self : EngineLoop.t C) acc pips cmd :
  Forall entry_known (EngineLoop.train_fleet_ self) -> request_known cmd ->
  let r := EngineLoop.fleet_command self acc pips cmd in
  Forall entry_known (EngineLoop.train_fleet_ r.1.1) /\
  EngineLoop.fleet_commands_ r.1.1 = EngineLoop.fleet_commands_ self.
Proof.
  intros Hf Hc. unfold EngineLoop.fleet_command. destruct cmd as [initial from|u].
  - unfold TrainFleet.spawn. repeat case_match; simplify_eq/=; (split; [|done]); try done.
    apply Forall_app. split; [done|]. by repeat constructor.
  - unfold TrainFleet.despawn. repeat case_match; simplify_eq/=; (split; [|done]); try done;
      by apply Forall_delete.
Qed.

Lemma drain_fleet_known fuel : forall (self : EngineLoop.t C) acc pips,
  fleet_known self -> fleet_known (EngineLoop.drain_fleet_commands fuel self acc pips).1.1.
Proof.
  induction fuel as [|fuel IH]; intros self acc pips [Hf Hq]; [done|]. cbn [EngineLoop.drain_fleet_commands].
  unfold EventQueue.try_pop. destruct (EventQueue.queue_ (EngineLoop.fleet_commands_ self)) as [|cmd rest] eqn:E.
  - split; cbn; [done|]. by rewrite E.
  - apply Forall_cons in Hq as [Hc Hq].
    set (self1 := self <| EngineLoop.fleet_commands_ := _ |>).
    destruct (fleet_command_known self1 acc pips cmd Hf Hc) as [Hf2 Hq2].
    destruct (EngineLoop.fleet_command self1 acc pips cmd) as [[self2 acc2] pips2]. cbn [fst] in *.
    apply IH. split; [done|]. by rewrite Hq2.
Qed.

Lemma tick_entry_uid e fx : train_uid (te_state (TrainFleet.tick_entry e fx).1) = train_uid (te_state e).
Proof.
  unfold TrainFleet.tick_entry. destruct (EngineState.find_track_section _ _) as [section|]; [|done].
  set (input := TrainFleet.tick_input _ _ _ _). pose proof (tick_spec (te_sim e) TrainFleet.TICK_DT_S input) as H.
  destruct (TrainSim.tick _ _ input) as [output sim]. destruct H as (_ & Hid & _).
  assert (train_uid (TrainSim.state_ sim) = train_uid (te_state e)) as Hu by (by injection Hid). clear Hid.
  unfold TrainFleet.leave_world, TrainFleet.enter_section. repeat case_match; by simplify_eq/=.
Qed.

Lemma tick_all_known (fleet : TrainFleet.t) s :
  Forall entry_known fleet -> Forall entry_known (TrainFleet.tick_all fleet s).1.
Proof.
  intros H. unfold TrainFleet.tick_all. set (fx := mkEffects s [] []).
  assert (Forall entry_known (TrainFleet.tick_entries fleet fx).1) as Hk.
  { generalize fx. induction H as [|e fleet He _ IH]; intros fx0; [constructor|]. cbn [TrainFleet.tick_entries].
    pose proof (tick_entry_uid e fx0) as Hu. destruct (TrainFleet.tick_entry e fx0) as [e' fx1].
    specialize (IH fx1). destruct (TrainFleet.tick_entries fleet fx1) as [fleet' fx2]. constructor; [|done].
    unfold entry_known. cbn [fst] in Hu. by rewrite Hu. }
  destruct (TrainFleet.tick_entries fleet fx) as [fleet' fx']. apply Forall_forall.
  intros e [_ He]%list_elem_of_filter. revert e He. by apply Forall_forall.
Qed.

Lemma do_tick_known (self : EngineLoop.t C) : fleet_known self -> fleet_known (EngineLoop.do_tick self).1.
Proof.
  rewrite do_tick_split. unfold fleet_known at 1.
  destruct (drain_commands_spec EngineLoop.MAX_CMDS_PER_TICK self (EngineLoop.mkAcc [] [])) as (q & -> & _).
  destruct (handle_all_fleet (take EngineLoop.MAX_CMDS_PER_TICK
    (concat (PriorityCommandQueue.buckets_ (EngineLoop.queue_ self)))) self (EngineLoop.mkAcc [] [])) as [<- <-].
  destruct (Loop.handle_all self _ _) as [self0 acc0]. unfold after_commands, with_queue. cbn [fst snd].
  set (self1 := self0 <| EngineLoop.queue_ := q |>). change (fleet_known self1 -> fleet_known
    (let '(self, acc) := EngineLoop.control_tick self1 acc0 in
     let '(self, acc, pips) := EngineLoop.drain_fleet_commands (EventQueue.size (EngineLoop.fleet_commands_ self)) self acc [] in
     let acc := EngineLoop.notify_pips self pips acc in
     let '(self, acc) := EngineLoop.tick_trains self acc in
     EngineLoop.finish_tick (u64 (current_tick (EngineLoop.state_ self1) + 1)) self acc).1).
  unfold fleet_known at 1. destruct (control_tick_fleet self1 acc0) as [<- <-].
  destruct (EngineLoop.control_tick self1 acc0) as [self2 acc2]. cbn [fst]. intros H.
  pose proof (drain_fleet_known (EventQueue.size (EngineLoop.fleet_commands_ self2)) self2 acc2 [] H) as [Hf Hq].
  destruct (EngineLoop.drain_fleet_commands _ self2 acc2 []) as [[self3 acc3] pips]. cbn [fst] in *.
  unfold EngineLoop.tick_trains. destruct (EngineLoop.train_fleet_ self3) as [|e fleet] eqn:Ef.
  - split; cbn; [by rewrite Ef|done].
  - pose proof (tick_all_known (e :: fleet) (EngineLoop.state_ self3) Hf) as Ht.
    destruct (TrainFleet.tick_all _ _) as [fleet' fx]. by split.
Qed.
End Fleet.

(** ** The command line *)

Lemma parse_args_config args cfg cfg' :
  parse_args args cfg = Configured cfg' -> fits 16 (port cfg) -> fits 16 (port cfg').
Proof.
  remember (length args) as n eqn:Hn. revert args cfg Hn.
  induction (Nat.lt_wf_0 n) as [n _ IH]. intros args cfg -> H Hp.
  destruct args as [|arg [|next rest]]; cbn [parse_args] in H; [by injection H as <-|..].
  - case_match; [done|]. by injection H as <-.
  - repeat (case_match; try done); (eapply IH; [|reflexivity|exact H|]); cbn; try lia; try done;
      apply wrap_fits; lia.
Qed.

(** What the server is configured with.  Whatever the command line and the environment, the
    server only starts with at least one scenario and a port of 16 bits; but a port that does not
    fit is not refused: "-p n" opens port n modulo 65536. *)
Theorem from_args_config cwd getenv :
  (forall args cfg, from_args cwd getenv args = Configured cfg ->
     scenario_dirs cfg <> [] /\ fits 16 (port cfg)) /\
  (forall dir n, 0 <= n < 2 ^ 31 -> exists db,
     from_args cwd getenv ["-s"; dir; "-p"; to_string n]%string =
       Configured (mkSessionConfig [dir] (cwd +:+ "/data") (n mod 2 ^ 16) db)).
Proof.
  split.
  - intros args cfg. unfold from_args. destruct (parse_args args _) as [c| |] eqn:E; [|done|done].
    apply parse_args_config in E; [|by split]. case_bool_decide; [done|].
    repeat case_match; intros [= <-]; by split.
  - intros dir n Hn. unfold from_args. cbn -[stoi to_string]. rewrite stoi_to_string by done.
    cbn -[connection_from_env wrap]. destruct (connection_from_env getenv); by eexists.
Qed.

(** ** The start *)

Section Start.
Context {JL : JsonLib} {MO : MapOrder} {W : SessionWire} {R : CommandReader} {SJ : SlotJson}.
Context {C : Type} {CS : ControlSystem C EngineState.t} {DB : Type} {DBW : IDbWriter DB}.
Implicit Types (h : Host C DB) (cfg : SessionConfig) (self : SessionServer.t C DB).

(** The commands of the terminal as the server registers them. *)
Definition terminal_commands h : CommandRegistry.t := CommandRegistry.mk
  [("despawn", DespawnCommand); ("spawn", SpawnCommand); ("trains", TrainsCommand (h_fixed1 h))]%string.

(** The steps of the start that have succeeded: the database is open and the world loaded; the
    session is registered in the database, which then is [db]; its timetable is seeded. *)
Definition world_loaded h cfg (db : DB) state meta : Prop :=
  make_db_writer h cfg = Ok db /\
  exists metas, load_world EngineState.empty (h_scenario h <$> scenario_dirs cfg) = Ok (state, meta :: metas).
Definition session_registered h cfg state meta (db : DB) uuid : Prop :=
  exists db0, world_loaded h cfg db0 state meta /\ init_session (sm_station_sid meta) 1 db0 = (db, Ok uuid).
Definition timetable_seeded h cfg state meta (db : DB) uuid : Prop :=
  exists db0 rows, session_registered h cfg state meta db0 uuid /\
    seed_edr_entries_for_operating_day uuid (h_iso_weekday h) db0 = (db, Ok rows).

(** What the server is when [start] returns. *)
Record started h cfg (state : EngineState.t) (meta : ScenarioMeta) (control : C) (db : DB) uuid self : Prop := {
  st_config : config_ self = cfg;
  st_uuid : session_uuid self = uuid;
  st_fleet : FleetRegistry.load (h_data h (data_dir cfg)) = Ok (fleet_ self);
  st_rest : forall sl o, read state sl = Some o -> at_rest o;
  st_session : EngineState.session_id_ state = sm_station_sid meta;
  st_loop : engine_loop_ self =
    (EngineLoop.create state control PriorityCommandQueue.create (EngineLoop.mkCallbacks true true true))
      <| EngineLoop.running_ := true |>;
  st_bus : dispatch_bus_ self = DispatchBus_create;
  st_terminal : terminal_session_ self =
    TerminalSession.create (terminal_commands h) InMemoryUserStore.with_default_admin;
  st_gateway : gateway_ self = mkServer (mkGateway ∅ ∅ false PriorityCommandQueue.create AtomicSnapshot.create []
    (mkBackend DispatchExchangeManager.create db) true 0) ∅ true }.

(** How a start can end: the steps in their order, each of which may be the first to fail. *)
Inductive start_ends h cfg : result (SessionServer.t C DB) -> Prop :=
| no_database e : make_db_writer h cfg = Throw e -> start_ends h cfg (Throw e)
| no_world db e : make_db_writer h cfg = Ok db ->
    load_world EngineState.empty (h_scenario h <$> scenario_dirs cfg) = Throw e -> start_ends h cfg (Throw e)
| no_session db state meta db' e : world_loaded h cfg db state meta ->
    init_session (sm_station_sid meta) 1 db = (db', Throw e) -> start_ends h cfg (Throw e)
| no_timetable db state meta uuid db' e : session_registered h cfg state meta db uuid ->
    seed_edr_entries_for_operating_day uuid (h_iso_weekday h) db = (db', Throw e) -> start_ends h cfg (Throw e)
| no_fleet db state meta uuid e : timetable_seeded h cfg state meta db uuid ->
    FleetRegistry.load (h_data h (data_dir cfg)) = Throw e -> start_ends h cfg (Throw e)
| no_control db state meta uuid fleet : timetable_seeded h cfg state meta db uuid ->
    FleetRegistry.load (h_data h (data_dir cfg)) = Ok fleet ->
    h_control_systems h !! sm_control_system_id meta = None ->
    start_ends h cfg (Throw (runtime_error ("[server] Unknown control_system: " +:+ sm_control_system_id meta)))
| no_port db state meta uuid fleet factory e : timetable_seeded h cfg state meta db uuid ->
    FleetRegistry.load (h_data h (data_dir cfg)) = Ok fleet ->
    h_control_systems h !! sm_control_system_id meta = Some factory ->
    h_listen h (port cfg) = Throw e -> start_ends h cfg (Throw e)
| up db state meta uuid factory self : timetable_seeded h cfg state meta db uuid ->
    h_control_systems h !! sm_control_system_id meta = Some factory -> h_listen h (port cfg) = Ok tt ->
    started h cfg state meta (factory tt) db uuid self -> start_ends h cfg (Ok self).

Lemma load_state_cases h cfg :
  let world := load_world EngineState.empty (h_scenario h <$> scenario_dirs cfg) in
  match load_state h cfg with
  | Ok (state, meta) => exists metas, world = Ok (state, meta :: metas)
  | Throw e => world = Throw e
  end.
Proof.
  intros world. unfold load_state. fold world. destruct world as [[state metas]|e] eqn:E; [|done].
  rewrite ok_bind. destruct (loaded_world_at_rest _ _ _ E) as (_ & _ & _ & _ & _ & _ & Hs).
  destruct metas as [|meta metas]; [done|]. cbn in *. exists metas. injection Hs as <-. by destruct state.
Qed.

Lemma resolve_control_cases h id :
  resolve_control h id =
  match h_control_systems h !! id with
  | Some factory => Ok (factory tt)
  | None => Throw (runtime_error ("[server] Unknown control_system: " +:+ id))
  end.
Proof.
  unfold resolve_control, ControlSystemRegistry.has, ControlSystemRegistry.create.
  by destruct (h_control_systems h !! id).
Qed.

Lemma start_facts h cfg : start_ends h cfg (start h cfg).
Proof.
  unfold start. destruct (make_db_writer h cfg) as [db|e] eqn:Edb; [rewrite ok_bind|by apply no_database].
  pose proof (load_state_cases h cfg) as Hw. cbv zeta in Hw.
  destruct (load_state h cfg) as [[state meta]|e]; [rewrite ok_bind; cbv beta iota zeta|by eapply no_world].
  destruct Hw as [metas Hw]. assert (world_loaded h cfg db state meta) as Hl by (split; [done|by exists metas]).
  destruct (init_session (sm_station_sid meta) 1 db) as [db1 [uuid|e]] eqn:Ei; [rewrite ok_bind|by eapply no_session].
  assert (session_registered h cfg state meta db1 uuid) as Hreg by (by exists db).
  destruct (seed_edr_entries_for_operating_day uuid (h_iso_weekday h) db1) as [db2 [rows|e]] eqn:Es;
    [rewrite ok_bind|by eapply no_timetable].
  assert (timetable_seeded h cfg state meta db2 uuid) as Hs by (by exists db1, rows).
  destruct (FleetRegistry.load (h_data h (data_dir cfg))) as [fleet|e] eqn:Ef; [rewrite ok_bind|by eapply no_fleet].
  rewrite resolve_control_cases.
  destruct (h_control_systems h !! sm_control_system_id meta) as [factory|] eqn:Ec; [rewrite ok_bind|by eapply no_control].
  destruct (h_listen h (port cfg)) as [[]|e] eqn:El; [rewrite ok_bind|by eapply no_port].
  destruct (loaded_world_at_rest _ _ _ Hw) as (_ & Hr & _ & _ & _ & _ & [= Hid]).
  eapply up; [done..|]. by split.
Qed.

Lemma load_state_loaded h cfg db state meta :
  world_loaded h cfg db state meta -> make_db_writer h cfg = Ok db /\ load_state h cfg = Ok (state, meta).
Proof.
  intros [Hdb [metas Hw]]. split; [done|]. pose proof (load_state_cases h cfg) as H. cbv zeta in H.
  rewrite Hw in H. destruct (load_state h cfg) as [[? ?]|]; [|done]. by destruct H as [? [= <- <- _]].
Qed.

Lemma start_seeded h cfg state meta db uuid :
  timetable_seeded h cfg state meta db uuid ->
  exists db0 db1 rows, make_db_writer h cfg = Ok db0 /\ load_state h cfg = Ok (state, meta) /\
    init_session (sm_station_sid meta) 1 db0 = (db1, Ok uuid) /\
    seed_edr_entries_for_operating_day uuid (h_iso_weekday h) db1 = (db, Ok rows).
Proof.
  intros (db1 & rows & (db0 & Hw & Hi) & Hs). apply load_state_loaded in Hw as [Hdb Hl].
  by exists db0, db1, rows.
Qed.

Lemma start_ends_start h cfg r : start_ends h cfg r -> start h cfg = r.
Proof.
  destruct 1 as [e Hdb|db e Hdb Hw|db state meta db' e Hl Hi|db state meta uuid db' e (db0 & Hl & Hi) Hs
    |db state meta uuid e Hse Hf|db state meta uuid fleet Hse Hf Hc|db state meta uuid fleet factory e Hse Hf Hc Hp
    |db state meta uuid factory self Hse Hc Hp Hst]; unfold start.
  - by rewrite Hdb.
  - rewrite Hdb, ok_bind. unfold load_state. by rewrite Hw.
  - apply load_state_loaded in Hl as [-> ->]. rewrite !ok_bind. cbv beta iota zeta. by rewrite Hi.
  - apply load_state_loaded in Hl as [-> ->]. rewrite !ok_bind. cbv beta iota zeta. rewrite Hi, ok_bind. by rewrite Hs.
  - apply start_seeded in Hse as (db0 & db1 & rows & -> & -> & Hi & Hs).
    rewrite !ok_bind. cbv beta iota zeta. rewrite Hi, ok_bind, Hs, ok_bind. by rewrite Hf.
  - apply start_seeded in Hse as (db0 & db1 & rows & -> & -> & Hi & Hs).
    rewrite !ok_bind. cbv beta iota zeta. by rewrite Hi, ok_bind, Hs, ok_bind, Hf, ok_bind, resolve_control_cases, Hc.
  - apply start_seeded in Hse as (db0 & db1 & rows & -> & -> & Hi & Hs). rewrite !ok_bind. cbv beta iota zeta.
    by rewrite Hi, ok_bind, Hs, ok_bind, Hf, ok_bind, resolve_control_cases, Hc, ok_bind, Hp.
  - apply start_seeded in Hse as (db0 & db1 & rows & -> & -> & Hi & Hs). rewrite !ok_bind. cbv beta iota zeta.
    destruct Hst as [E1 E2 Hf _ _ E3 E4 E5 E6].
    rewrite Hi, ok_bind, Hs, ok_bind, Hf, ok_bind, resolve_control_cases, Hc, ok_bind, Hp.
    destruct self. cbn in *. by rewrite <-E1, <-E2, E3, E4, E5, E6.
Qed.

End Start.

(** ** Runs of the process *)

Section Runs.
Context {JL : JsonLib} {MO : MapOrder} {W : SessionWire} {R : CommandReader} {SJ : SlotJson}.
Context {C : Type} {CS : ControlSystem C EngineState.t} {DB : Type} {DBW : IDbWriter DB}.
Variable build_Event : EventBody -> list byte.
Variable parse_message : list byte -> option DispatchChannelMessage.
Variable build_message : DispatchChannelMessage -> list byte.
Variable clock : nat -> Z.
Implicit Types (self : SessionServer.t C DB).

(** The consist was ordered: a line "spawn" that names it was typed while a
    user was logged in who may spawn trains. *)
Definition ordered (fleet : FleetRegistry) (typed : list string) (u : UID) : Prop :=
  exists before line after consist node user,
    typed = before ++ line :: after /\ tokenize line = ["spawn"; consist; node]%string /\
    resolve_consist_uid fleet consist = Some u /\
    logged_in InMemoryUserStore.with_default_admin before user /\ Permission.SPAWN ∈ ua_permissions user.

Lemma ordered_later fleet typed line u : ordered fleet typed u -> ordered fleet (typed ++ [line]) u.
Proof.
  intros (before & l & after & consist & node & user & -> & H). exists before, l, (after ++ [line]), consist, node, user.
  by rewrite <-app_assoc.
Qed.

Lemma fleet_known_mono (P Q : UID -> Prop) (loop : EngineLoop.t C) :
  (forall u, P u -> Q u) -> fleet_known P loop -> fleet_known Q loop.
Proof.
  intros H [Hf Hq]. split; (eapply Forall_impl; [done|]); [intros e; apply H|intros [initial from|u]; cbn; auto].
Qed.

(** What holds of every run that started as [self0]. *)
Record run_invariant h self0 typed self : Prop := {
  ri_fleet : fleet_ self = fleet_ self0;
  ri_uuid : session_uuid self = session_uuid self0;
  ri_world : same_topology (state_ self0) (state_ self);
  ri_trains : fleet_known (ordered (fleet_ self0) typed) (engine_loop_ self);
  ri_terminal : session_of (terminal_commands (C := C) (DB := DB) h) InMemoryUserStore.with_default_admin typed (terminal_session_ self);
  ri_gateway : exists db, quiet (mkBackend DispatchExchangeManager.create db) (sv_gateway (gateway_ self)) }.

Lemma io_step_server uuid (s s' : Server (D := Backend DB)) :
  io_step parse_message build_message clock uuid s s' ->
  exists h, acts_as_channel uuid parse_message build_message h /\ server_step (Some h) clock s s'.
Proof.
  assert (acts_as_channel uuid parse_message build_message (channel_handler uuid parse_message build_message 0))
    as H0 by (intros payload client area b; by exists 0).
  destruct 1 as [p s g Hn Ha|h p bytes s s' Hh Hr|p s s' Hr|s Hp];
    [eexists; split; [exact H0|by econstructor]|exists h; split; [done|by econstructor]|
     eexists; split; [exact H0|by econstructor]..].
Qed.

Lemma drops_channel uuid h (b : Backend DB) :
  acts_as_channel uuid parse_message build_message h -> drops_unknown (Some h) b.
Proof.
  intros Hh h' payload player [= <-]. destruct (Hh payload player ""%string b) as [ts ->].
  apply channel_handler_unknown.
Qed.

Lemma broadcasts_quiet frames : forall (d : Backend DB) (g : Gateway),
  quiet d g -> quiet d (fold_left (fun g frame => broadcast frame g) frames g).
Proof.
  induction frames as [|frame frames IH]; intros d g Hq; [done|]. cbn [fold_left]. apply IH.
  destruct Hq as [Hc Ha Hp]. split; [done|done|]. apply Forall_app. by repeat constructor.
Qed.

Lemma enqueue_all_spec cmds : forall (loop loop' : EngineLoop.t C),
  enqueue_all cmds loop = Ok loop' ->
  EngineLoop.state_ loop' = EngineLoop.state_ loop /\ EngineLoop.train_fleet_ loop' = EngineLoop.train_fleet_ loop /\
  EventQueue.queue_ (EngineLoop.fleet_commands_ loop') = EventQueue.queue_ (EngineLoop.fleet_commands_ loop) ++ cmds.
Proof.
  unfold enqueue_all. induction cmds as [|cmd cmds IH]; intros loop loop' H; [injection H as <-; by rewrite app_nil_r|].
  cbn [for_each] in H. apply bind_ok in H as (loop1 & H1 & H2). apply get_ok in H1.
  destruct (IH _ _ H2) as (-> & -> & ->). unfold EngineLoop.enqueue_fleet_command, EventQueue.push in H1.
  destruct (EventQueue.closed_ _); [done|]. cbn in H1. injection H1 as <-. cbn. by rewrite <-app_assoc.
Qed.

(** What a line of the terminal can request. *)
Lemma requested_ordered h registry_files fleet snap typed session line output queued session' :
  load registry_files = Ok fleet ->
  session_of (terminal_commands (C := C) (DB := DB) h) InMemoryUserStore.with_default_admin typed session ->
  TerminalSession.process_line (mkEnv fleet snap) session line = Ok (output, queued, session') ->
  session_of (terminal_commands (C := C) (DB := DB) h) InMemoryUserStore.with_default_admin (typed ++ [line]) session' /\
  Forall (request_known (ordered fleet (typed ++ [line]))) queued.
Proof.
  intros Hload Hs H. destruct (process_line_step _ _ _ _ _ _ _ _ _ Hs H) as [Hs' Hq]. split; [done|].
  destruct Hq as [->|(user & verb & args & cmd & Ht & Hl & Hf & Hp & He)]; [constructor|].
  unfold CommandRegistry.find in Hf. apply fmap_Some in Hf as ([n c] & [Hin Hn]%find_some & ->). cbn in *.
  destruct Hin as [[= <- <-]|[[= <- <-]|[[= <- <-]|[]]]]; cbn [cmd_execute DespawnCommand SpawnCommand TrainsCommand] in He.
  - unfold despawn_execute in He. repeat case_match; simplify_eq; by repeat constructor.
  - apply Forall_forall. intros request Hr.
    destruct (spawn_queued _ _ _ _ _ He Hr) as (a1 & a2 & sn & cu & consist & bu & point & vs & initial & -> & Ha & _ & Hc & _ & _ & _ & Hi & -> & _).
    cbn in Ha, Hc |- *. apply load_facts in Hload as (_ & _ & _ & Hcons). destruct (Hcons _ _ Hc) as [Hcu _].
    apply make_train_uids in Hi as [Hu _]. exists typed, line, [], a1, a2, user.
    apply bool_decide_eq_true in Hn as <-. split_and!; try done. congruence.
  - unfold trains_execute in He. repeat case_match; simplify_eq; by constructor.
Qed.

Lemma tick_invariant h self0 typed self ts :
  run_invariant h self0 typed self -> run_invariant h self0 typed (tick build_Event ts self).
Proof.
  intros [Hf Hu Hw Ht Hs [db Hg]]. unfold tick.
  set (loop0 := (engine_loop_ self) <| EngineLoop.queue_ := gw_queue (sv_gateway (gateway_ self)) |>).
  pose proof (do_tick_known _ loop0 Ht) as Ht'. pose proof (do_tick_phases loop0) as Hp.
  destruct (EngineLoop.do_tick loop0) as [loop notices]. destruct Hp as (? & ? & ? & _ & _ & _ & _ & _ & _ & Hr).
  split; try done.
  - exact (same_topology_steps _ _ _ Hr Hw).
  - eexists. cbn -[after_tick]. apply broadcasts_quiet. destruct Hg as [Hc Ha Hp]. split; [|done|done].
    cbn. rewrite Hc. done.
Qed.

Lemma line_invariant h registry_files self0 typed self line output self' :
  load registry_files = Ok (fleet_ self0) -> run_invariant h self0 typed self ->
  type_line line self = Ok (output, self') -> run_invariant h self0 (typed ++ [line]) self'.
Proof.
  intros Hload [Hf Hu Hw Ht Hs Hg] H. unfold type_line in H. apply bind_ok in H as ([[o queued] session] & H1 & H).
  apply bind_ok in H as (loop & H2 & [= -> <-]). rewrite Hf in H1.
  destruct (requested_ordered _ _ _ _ _ _ _ _ _ _ Hload Hs H1) as [Hs' Hq].
  apply enqueue_all_spec in H2 as (E1 & E2 & E3). split; try done; cbn.
  - unfold state_ in *. cbn. by rewrite E1.
  - apply (fleet_known_mono _ (ordered (fleet_ self0) (typed ++ [line]))) in Ht as [Hfl Hqu]; [|apply ordered_later].
    split; [by rewrite E2|]. rewrite E3. by apply Forall_app.
Qed.

Lemma io_invariant h self0 typed self s :
  run_invariant h self0 typed self ->
  io_step parse_message build_message clock (session_uuid self) (gateway_ self) s ->
  run_invariant h self0 typed (self <| gateway_ := s |>).
Proof.
  intros [Hf Hu Hw Ht Hs [db Hg]] H. split; try done. exists db. cbn.
  destruct (io_step_server _ _ _ H) as (ch & Hch & Hst). by eapply server_step_quiet; [eapply drops_channel| |].
Qed.

Lemma start_invariant h cfg self :
  start h cfg = Ok self -> load (h_data h (data_dir cfg)) = Ok (fleet_ self) /\ run_invariant h self [] self.
Proof.
  intros H. pose proof (start_facts h cfg) as Hs. rewrite H in Hs. inversion Hs as [| | | | | | |db state meta uuid factory self1 Hse _ _ Hst]; subst.
  destruct Hst as [_ _ Hfl _ _ Hl _ Hterm Hg]. destruct Hse as (db1 & rows & (db0 & (_ & metas & Hw) & _) & _).
  split; [done|]. split; try done.
  - unfold state_. rewrite Hl. destruct (loaded_world_at_rest _ _ _ Hw) as [Hk _]. by split.
  - rewrite Hl. by repeat constructor.
  - rewrite Hterm. split_and!; [done..|]. intros user (before & ? & ? & E & _). by destruct before.
  - eexists. rewrite Hg. split; [reflexivity| |constructor].
    intros p. unfold session. cbn. by rewrite lookup_empty.
Qed.

Lemma run_keeps h cfg self0 typed self :
  start h cfg = Ok self0 -> run build_Event parse_message build_message clock self0 typed self ->
  run_invariant h self0 typed self.
Proof.
  intros H Hr. destruct (start_invariant _ _ _ H) as [Hload H0].
  induction Hr; eauto using io_invariant, tick_invariant, line_invariant.
Qed.


(** No client is ever assigned to a dispatch area, so nothing the clients send changes the
    exchanges between the areas, although [dispatch_area_id] is to be set at the handshake. *)
Theorem server_areas_empty h cfg self0 typed self :
  start h cfg = Ok self0 -> run build_Event parse_message build_message clock self0 typed self ->
  be_exchanges (gw_channel (sv_gateway (gateway_ self))) = DispatchExchangeManager.create /\
  (forall p, ci_dispatch_area_id (cs_info (session p (sv_gateway (gateway_ self)))) = ""%string).
Proof.
  intros H Hr. destruct (run_keeps _ _ _ _ _ H Hr) as [_ _ _ _ _ [db [Hc Ha _]]]. by rewrite Hc.
Qed.
End Runs.

(** ** A server with one scenario *)

Module ServerDemo.
Import JsonDemo.

(** One section between a boundary node and another station. *)
Definition scenario (dir : string) : Scenario := mkScenario dir (TopologyDemo.meta "West")
  (Parsed (JObject [("boundary_nodes", JArray [JObject [("uid", JUnsigned 1); ("pID", JString "b1")]]);
                    ("track_sections", JArray [JObject
                       [("uid", JUnsigned 11); ("pID", JString "it11"); ("sideA", TopologyDemo.port 1);
                        ("sideB", TopologyDemo.port 12); ("lengthM", JUnsigned 800)]])]))%string None.
Definition host : SessionServer.Host EbiLockSystem.t NullDbWriter := SessionServer.mkHost
  (fun _ => Throw (runtime_error "no connection")) NullDbWriter_empty scenario
  (fun _ => RegistryDemo.data RegistryDemo.vehicle_files) (fun _ => Ok tt) 3
  {[ "ebilock"%string := fun _ => EbiLockSystem.create 120 ]} TerminalDemo.fixed1.
Definition config : SessionConfig := mkSessionConfig ["west"%string] "data" 9420 "".

(** The server starts, ticks, and spawns the train "T1" in the next tick. *)
Definition script : result (SessionServer.t EbiLockSystem.t NullDbWriter) :=
  s ← SessionServer.start host config;
  r ← SessionServer.type_line "login admin admin123" (SessionServer.tick BusDemo.build 0 s);
  r ← SessionServer.type_line "spawn T1 b1" r.2;
  Ok (SessionServer.tick BusDemo.build 1 r.2).
Definition trains (r : result (SessionServer.t EbiLockSystem.t NullDbWriter)) : list UID :=
  match r with
  | Ok s => map (fun e => train_uid (te_state e)) (EngineLoop.train_fleet_ (SessionServer.engine_loop_ s))
  | Throw _ => []
  end.
Example one_train : trains script = [mkUID 7].
Proof. by vm_compute. Qed.

Definition outcome (cfg : SessionConfig) : option exception :=
  match SessionServer.start host cfg with Ok _ => None | Throw e => Some e end.
(** A scenario directory twice is one world; a database that does not answer stops the start. *)
Example starts :
  outcome (mkSessionConfig ["west"; "west"]%string "data" 9420 "") = None /\
  outcome (mkSessionConfig ["west"%string] "data" 9420 "host=db") = Some (runtime_error "no connection") /\
  outcome (mkSessionConfig [] "data" 9420 "") = Some (runtime_error "load_world: scenario_dirs must not be empty").
Proof. split_and!; by vm_compute. Qed.

(** A repeated scenario option adds, a repeated port replaces; a trailing option is ignored. *)
Example command_line :
  let parse := SessionServer.from_args "/srv" (fun _ => None) in
  parse ["-s"; "a"; "-p"; "1"; "what"; "-s"; "b"; "-p"; "70000"; "--data"]%string
    = Configured (mkSessionConfig ["a"; "b"]%string "/srv/data" 4464 "") /\
  parse ["-p"; "80"]%string = Exited 1 /\ parse ["-s"; "a"; "-p"; "http"; "-h"]%string = Uncaught /\
  parse ["-s"; "a"; "-h"]%string = Exited 0.
Proof. split_and!; by vm_compute. Qed.
End ServerDemo.

