(* ===== verification/TrackView.v ===== *)
(** * TrackView: the track schematic

    [libtrackview]: the layout of a schematic and its reader, the validation of
    a layout against the infrastructure, the position of an attached signal and
    the render model of a layout in a given state of the world.  The world is
    seen through two small interfaces, which the adapters implement over any
    implementation of the engine's view interface.

    Coordinates are binary64.  [std::hypot] is a parameter: how it rounds is not
    specified.

    Theorems: what the validator accepts, that what it accepts can be rendered
    and how it looks, and that a layout needs to be validated only once. *)
From Stdlib Require Import SpecFloat.
From S2P Require Import Prelude Float32 Types Track World Changes Queues Interlocking Fleet Loop Demo Text Json Topology.
Local Open Scope Z_scope.

(** ** The layout *)

(* SRC libtrackview/include/trackview/core/layout.hpp 13-17 InfrastructureId *)
Record InfrastructureId := mkInfrastructureId { id_value : Z }.
#[export] Instance InfrastructureId_eq_dec : EqDecision InfrastructureId. Proof. solve_decision. Defined.
#[export] Instance InfrastructureId_countable : Countable InfrastructureId.
Proof. refine (inj_countable' id_value mkInfrastructureId _). by intros []. Defined.

(* SRC libtrackview/include/trackview/core/layout.hpp 19-24 Point *)
Record Point := mkPoint { pt_x : float; pt_y : float }.
Notation Path := (list Point).
(* SRC libtrackview/include/trackview/core/layout.hpp 28-32 Canvas *)
Record Canvas := mkCanvas { cv_width : float; cv_height : float }.
(* SRC libtrackview/include/trackview/core/layout.hpp 34-38 TrackSectionGeometry *)
Record TrackSectionGeometry := mkTrackSectionGeometry { tg_topology_id : InfrastructureId; tg_path : Path }.
(* SRC libtrackview/include/trackview/core/layout.hpp 40-45 SwitchPorts *)
Record SwitchPorts := mkSwitchPorts { sp_trunk : Point; sp_straight : Point; sp_divergent : Point }.
(* SRC libtrackview/include/trackview/core/layout.hpp 47-51 SwitchGeometry *)
Record SwitchGeometry := mkSwitchGeometry { sg_topology_id : InfrastructureId; sg_ports : SwitchPorts }.
(* SRC libtrackview/include/trackview/core/layout.hpp 53-57 TrackSide *)
Inductive TrackSide := SideA | SideB.
(* SRC libtrackview/include/trackview/core/layout.hpp 59-63 FacingDirection *)
Inductive FacingDirection := TowardsA | TowardsB.
(* SRC libtrackview/include/trackview/core/layout.hpp 65-71 TrackAttachment *)
Record TrackAttachment := mkTrackAttachment {
  ta_track_id : InfrastructureId; ta_reference_side : TrackSide; ta_offset : float; ta_lateral : float }.
(* SRC libtrackview/include/trackview/core/layout.hpp 73-78 SignalGeometry *)
Record SignalGeometry := mkSignalGeometry {
  sig_object_id : InfrastructureId; sig_attachment : TrackAttachment; sig_facing : FacingDirection }.
(* SRC libtrackview/include/trackview/core/layout.hpp 80-84 LabelGeometry *)
Record LabelGeometry := mkLabelGeometry { lb_text : string; lb_anchor : Point }.
(* SRC libtrackview/include/trackview/core/layout.hpp 88-89 TrackLayoutElement *)
Inductive TrackLayoutElement :=
| ETrack (item : TrackSectionGeometry)
| ESwitch (item : SwitchGeometry)
| ESignal (item : SignalGeometry).
(* SRC libtrackview/include/trackview/core/layout.hpp 91-100 TrackLayout *)
Record TrackLayout := mkTrackLayout {
  ly_schema_version : Z; ly_layout_id : string; ly_station_sid : string; ly_style_hint : string;
  ly_canvas : Canvas; ly_elements : list TrackLayoutElement; ly_labels : list LabelGeometry }.
#[export] Instance TrackLayout_eta : Eta TrackLayout := fun l =>
  mkTrackLayout (ly_schema_version l) (ly_layout_id l) (ly_station_sid l) (ly_style_hint l)
    (ly_canvas l) (ly_elements l) (ly_labels l).

(** The tracks of a layout, in order. *)
Definition tracks_of (elements : list TrackLayoutElement) : list TrackSectionGeometry :=
  omap (fun e => match e with ETrack item => Some item | _ => None end) elements.

(** ** Reading a layout *)

Module JsonLayoutReader.
Section Reader.
Context {JL : JsonLib}.

(* SRC libtrackview/src/json_layout_reader.cpp 15-18 read_point *)
Definition read_point (value : json) : result Point :=
  x ← j_at value "x"; x ← get json_exception (get_double x);
  y ← j_at value "y"; y ← get json_exception (get_double y);
  Ok (mkPoint x y).
(* SRC libtrackview/src/json_layout_reader.cpp 20-23 read_id *)
Definition read_id (value : json) (field : string) : result InfrastructureId :=
  v ← j_at value field; n ← get json_exception (get_u64 v); Ok (mkInfrastructureId n).
(* SRC libtrackview/src/json_layout_reader.cpp 25-32 read_side *)
Definition read_side (side : string) : result TrackSide :=
  if bool_decide (side = "A"%string) then Ok SideA
  else if bool_decide (side = "B"%string) then Ok SideB
  else Throw (runtime_error "layout_reader: signal side must be A or B").
(* SRC libtrackview/src/json_layout_reader.cpp 34-42 read_facing *)
Definition read_facing (facing : string) : result FacingDirection :=
  if bool_decide (facing = "towards_A"%string) then Ok TowardsA
  else if bool_decide (facing = "towards_B"%string) then Ok TowardsB
  else Throw (runtime_error "layout_reader: signal facing must be towards_A or towards_B").

(** The type conversions of the library, as exceptions. *)
Definition string_field (j : json) (key : string) : result string :=
  v ← j_at j key; get json_exception (get_string v).
Definition double_field (j : json) (key : string) : result float :=
  v ← j_at j key; get json_exception (get_double v).
Definition point_field (j : json) (key : string) : result Point := v ← j_at j key; read_point v.

(* SRC libtrackview/src/json_layout_reader.cpp 71-105 JsonLayoutReader::read *)
Definition read_element (element : json) : result TrackLayoutElement :=
  kind ← string_field element "kind";
  if bool_decide (kind = "track_section"%string) then
    id ← read_id element "topology_uid";
    points ← j_at element "path";
    path ← traverse read_point (j_items points);
    Ok (ETrack (mkTrackSectionGeometry id path))
  else if bool_decide (kind = "switch"%string) then
    ports ← j_at element "ports";
    id ← read_id element "topology_uid";
    trunk ← point_field ports "trunk"; straight ← point_field ports "straight";
    divergent ← point_field ports "divergent";
    Ok (ESwitch (mkSwitchGeometry id (mkSwitchPorts trunk straight divergent)))
  else if bool_decide (kind = "signal"%string) then
    attachment ← j_at element "attachment";
    id ← read_id element "object_uid";
    track ← read_id attachment "topology_uid";
    side ← string_field attachment "side"; side ← read_side side;
    offset ← double_field attachment "offset";
    lateral ← j_value get_double attachment "lateral" f64_zero;
    facing ← string_field element "facing"; facing ← read_facing facing;
    Ok (ESignal (mkSignalGeometry id (mkTrackAttachment track side offset lateral) facing))
  else Throw (runtime_error ("layout_reader: unsupported element kind '" +:+ kind +:+ "'")).

(* SRC libtrackview/src/json_layout_reader.cpp 107-109 JsonLayoutReader::read *)
Definition read_label (label : json) : result LabelGeometry :=
  text ← string_field label "text"; anchor ← point_field label "anchor"; Ok (mkLabelGeometry text anchor).

(* SRC libtrackview/src/json_layout_reader.cpp 56-110 JsonLayoutReader::read *)
Definition read_root (root : json) : result TrackLayout :=
  v ← j_at root "schema_version"; version ← get json_exception (get_int v);
  _ ← throw_if (negb (version =? 1)) (runtime_error ("layout_reader: unsupported schema_version " +:+ int_to_string version));
  kind ← string_field root "kind";
  _ ← throw_if (negb (bool_decide (kind = "track_schematic"%string)))
        (runtime_error "layout_reader: kind must be track_schematic");
  layout_id ← string_field root "layout_id";
  station_sid ← string_field root "station_sid";
  style_hint ← j_value get_string root "style_hint" "ebiscreen"%string;
  canvas ← j_at root "canvas";
  width ← double_field canvas "width"; height ← double_field canvas "height";
  elements ← j_at root "elements"; elements ← traverse read_element (j_items elements);
  labels ← j_value (fun v => Some (j_items v)) root "labels" []; labels ← traverse read_label labels;
  Ok (mkTrackLayout version layout_id station_sid style_hint (mkCanvas width height) elements labels).

(** [what] is the text of the exception of the library. *)
(* SRC libtrackview/src/json_layout_reader.cpp 46-117 JsonLayoutReader::read *)
Definition read (path what : string) (d : Document) : result TrackLayout :=
  let invalid := runtime_error ("layout_reader: invalid layout in '" +:+ path +:+ "': " +:+ what) in
  match d with
  | CannotOpen => Throw (runtime_error ("layout_reader: cannot open '" +:+ path +:+ "'"))
  | ParseError _ => Throw invalid
  | Parsed root =>
      match read_root root with
      | Throw json_exception => Throw invalid
      | r => r
      end
  end.
End Reader.
End JsonLayoutReader.

(** ** The infrastructure and its state *)

(* SRC libtrackview/include/trackview/core/infrastructure_catalog.hpp 10-19 IInfrastructureCatalog *)
Class IInfrastructureCatalog (K : Type) := {
  contains_track : K -> InfrastructureId -> bool;
  contains_switch : K -> InfrastructureId -> bool;
  contains_signal : K -> InfrastructureId -> bool;
  signal_governs_track : K -> InfrastructureId -> InfrastructureId -> bool }.

(* SRC libtrackview/include/trackview/core/runtime_state.hpp 10-14 OccupancyState *)
Inductive OccupancyState := Free | Occupied.
(* SRC libtrackview/include/trackview/core/runtime_state.hpp 16-21 SwitchPositionState *)
Inductive SwitchPositionState := Straight | Divergent | Moving.
(* SRC libtrackview/include/trackview/core/runtime_state.hpp 23-27 SignalIndicationState *)
Inductive SignalIndicationState := Stop | Proceed.
(* SRC libtrackview/include/trackview/core/runtime_state.hpp 29-32 TrackRuntimeState *)
Record TrackRuntimeState := mkTrackRuntimeState { tr_occupancy : OccupancyState }.
(* SRC libtrackview/include/trackview/core/runtime_state.hpp 34-38 SwitchRuntimeState *)
Record SwitchRuntimeState := mkSwitchRuntimeState { sr_occupancy : OccupancyState; sr_position : SwitchPositionState }.
(* SRC libtrackview/include/trackview/core/runtime_state.hpp 40-43 SignalRuntimeState *)
Record SignalRuntimeState := mkSignalRuntimeState { sgr_indication : SignalIndicationState }.

(* SRC libtrackview/include/trackview/core/runtime_state.hpp 47-57 ITrackRuntimeState *)
Class ITrackRuntimeState (S : Type) := {
  track_state : S -> InfrastructureId -> option TrackRuntimeState;
  switch_state : S -> InfrastructureId -> option SwitchRuntimeState;
  signal_state : S -> InfrastructureId -> option SignalRuntimeState }.

(* SRC libtrackview/src/engine_track_state_adapter.cpp 8-11 to_engine_uid *)
Definition to_engine_uid (id : InfrastructureId) : UID := mkUID (id_value id).
(* SRC libtrackview/src/engine_track_state_adapter.cpp 13-17 map_occupancy *)
Definition map_occupancy (state : TrackOccupancy.t) : OccupancyState :=
  if bool_decide (state = TrackOccupancy.OCCUPIED) then Occupied else Free.
(* SRC libtrackview/src/engine_track_state_adapter.cpp 19-31 map_position *)
Definition map_position (state : SwitchPosition.t) : SwitchPositionState :=
  match state with
  | SwitchPosition.STRAIGHT => Straight
  | SwitchPosition.DIVERGENT => Divergent
  | SwitchPosition.MOVING => Moving
  | SwitchPosition.TRAILED_DAMAGED => Moving
  end.
(* SRC libtrackview/src/engine_track_state_adapter.cpp 33-39 map_indication *)
Definition map_indication (aspect : SignalAspect.t) : SignalIndicationState :=
  if bool_decide (aspect = SignalAspect.S1_STOP) || bool_decide (aspect = SignalAspect.MS1_STOP)
  then Stop else Proceed.

Section Adapters.
Context {V : Type} {SV : StateView V}.

(* SRC libtrackview/src/engine_track_state_adapter.cpp 43-63 EngineInfrastructureCatalogAdapter *)
#[export] Instance EngineInfrastructureCatalogAdapter : IInfrastructureCatalog V := {|
  contains_track source id := bool_decide (is_Some (find_track_section source (to_engine_uid id)));
  contains_switch source id := bool_decide (is_Some (find_switch source (to_engine_uid id)));
  contains_signal source id := bool_decide (is_Some (find_signal source (to_engine_uid id)));
  signal_governs_track source signal_id track_id :=
    match find_signal source (to_engine_uid signal_id) with
    | Some s => bool_decide (sig_governs_section_uid s = to_engine_uid track_id)
    | None => false
    end |}.

(* SRC libtrackview/src/engine_track_state_adapter.cpp 65-90 EngineTrackRuntimeAdapter *)
#[export] Instance EngineTrackRuntimeAdapter : ITrackRuntimeState V := {|
  track_state source id :=
    state ← find_track_section source (to_engine_uid id);
    Some (mkTrackRuntimeState (map_occupancy (ts_occupancy state)));
  switch_state source id :=
    state ← find_switch source (to_engine_uid id);
    Some (mkSwitchRuntimeState (map_occupancy (sw_occupancy state)) (map_position (sw_position state)));
  signal_state source id :=
    state ← find_signal source (to_engine_uid id);
    Some (mkSignalRuntimeState (map_indication (sig_current_aspect state))) |}.
End Adapters.

(** ** Validation *)

(* SRC libtrackview/include/trackview/core/layout_validator.hpp 12-16 DiagnosticSeverity *)
Inductive DiagnosticSeverity := Error | Warning.
(* SRC libtrackview/include/trackview/core/layout_validator.hpp 18-24 LayoutDiagnostic *)
Record LayoutDiagnostic := mkLayoutDiagnostic {
  ld_severity : DiagnosticSeverity; ld_rule_id : string;
  ld_infrastructure_id : option InfrastructureId; ld_message : string }.

Module LayoutValidator.
(* SRC libtrackview/src/layout_validator.cpp 12-15 is_finite *)
Definition is_finite (point : Point) : bool := Float32.is_finite (pt_x point) && Float32.is_finite (pt_y point).
(** The diagnostics [add] appends, if [b]. *)
(* SRC libtrackview/src/layout_validator.cpp 17-22 add *)
Definition add_if (b : bool) (rule : string) (id : option InfrastructureId) (message : string) : list LayoutDiagnostic :=
  if b then [mkLayoutDiagnostic Error rule id message] else [].

Section Validator.
Context {K : Type} {IC : IInfrastructureCatalog K}.
Variables (catalog : K) (track_geometries : list InfrastructureId).

(** The geometries seen so far, and the diagnostics. *)
Record Progress := mkProgress {
  topology_geometries : gset InfrastructureId; object_geometries : gset InfrastructureId;
  diagnostics : list LayoutDiagnostic }.

(* SRC libtrackview/src/layout_validator.cpp 56-68 LayoutValidator::validate *)
Definition check_track (item : TrackSectionGeometry) (p : Progress) : Progress :=
  let id := tg_topology_id item in
  mkProgress ({[id]} ∪ topology_geometries p) (object_geometries p) (diagnostics p ++
    add_if (negb (contains_track catalog id)) "LAY-101" (Some id) "Unknown track section identifier" ++
    add_if (bool_decide (length (tg_path item) < 2)%nat) "LAY-102" (Some id) "Track path requires at least two points" ++
    (tg_path item ≫= fun point => add_if (negb (is_finite point)) "LAY-103" (Some id)
                                    "Track path contains a non-finite coordinate") ++
    add_if (bool_decide (id ∈ topology_geometries p)) "LAY-104" (Some id) "Duplicate topology geometry").

(* SRC libtrackview/src/layout_validator.cpp 72-81 LayoutValidator::validate *)
Definition check_switch (item : SwitchGeometry) (p : Progress) : Progress :=
  let id := sg_topology_id item in
  let ports := sg_ports item in
  mkProgress ({[id]} ∪ topology_geometries p) (object_geometries p) (diagnostics p ++
    add_if (negb (contains_switch catalog id)) "LAY-201" (Some id) "Unknown switch identifier" ++
    add_if (negb (is_finite (sp_trunk ports)) || negb (is_finite (sp_straight ports)) || negb (is_finite (sp_divergent ports)))
      "LAY-202" (Some id) "Switch contains a non-finite port coordinate" ++
    add_if (bool_decide (id ∈ topology_geometries p)) "LAY-104" (Some id) "Duplicate topology geometry").

Definition bad_offset (x : float) : bool :=
  negb (Float32.is_finite x) || SFltb x f64_zero || SFltb f64_one x.

(* SRC libtrackview/src/layout_validator.cpp 85-108 LayoutValidator::validate *)
Definition check_signal (item : SignalGeometry) (p : Progress) : Progress :=
  let id := sig_object_id item in
  let track := ta_track_id (sig_attachment item) in
  mkProgress (topology_geometries p) ({[id]} ∪ object_geometries p) (diagnostics p ++
    add_if (negb (contains_signal catalog id)) "LAY-301" (Some id) "Unknown signal identifier" ++
    (if negb (contains_track catalog track)
     then add_if true "LAY-302" (Some track) "Signal is attached to an unknown track section"
     else add_if (contains_signal catalog id && negb (signal_governs_track catalog id track)) "LAY-303" (Some id)
            "Signal is attached to a track it does not govern") ++
    add_if (bad_offset (ta_offset (sig_attachment item))) "LAY-304" (Some id)
      "Signal attachment offset must be in range 0..1" ++
    add_if (negb (Float32.is_finite (ta_lateral (sig_attachment item)))) "LAY-305" (Some id)
      "Signal lateral offset must be finite" ++
    add_if (bool_decide (id ∈ object_geometries p)) "LAY-306" (Some id) "Duplicate signal geometry" ++
    add_if (negb (bool_decide (track ∈ track_geometries))) "LAY-307" (Some id)
      "Signal attachment requires track geometry in this layout").

(* SRC libtrackview/src/layout_validator.cpp 49-112 LayoutValidator::validate *)
Definition check_element (p : Progress) (element : TrackLayoutElement) : Progress :=
  match element with
  | ETrack item => check_track item p
  | ESwitch item => check_switch item p
  | ESignal item => check_signal item p
  end.
End Validator.

Definition not_positive (x : float) : bool := negb (SFltb f64_zero x).

(* SRC libtrackview/src/layout_validator.cpp 39-47 LayoutValidator::validate *)
Definition check_header (layout : TrackLayout) : list LayoutDiagnostic :=
  let canvas := ly_canvas layout in
  add_if (negb (ly_schema_version layout =? 1)) "LAY-001" None "Unsupported layout schema version" ++
  add_if (bool_decide (ly_layout_id layout = ""%string) || bool_decide (ly_station_sid layout = ""%string))
    "LAY-002" None "Layout and station identifiers must not be empty" ++
  add_if (not_positive (cv_width canvas) || not_positive (cv_height canvas) ||
          negb (Float32.is_finite (cv_width canvas)) || negb (Float32.is_finite (cv_height canvas)))
    "LAY-003" None "Canvas dimensions must be finite and positive".

(* SRC libtrackview/src/layout_validator.cpp 113-116 LayoutValidator::validate *)
Definition check_label (label : LabelGeometry) : list LayoutDiagnostic :=
  add_if (bool_decide (lb_text label = ""%string) || negb (is_finite (lb_anchor label))) "LAY-401" None
    "Labels require non-empty text and finite coordinates".

(* SRC libtrackview/src/layout_validator.cpp 26-118 LayoutValidator::validate *)
Definition validate {K} `{IInfrastructureCatalog K} (catalog : K) (layout : TrackLayout) : list LayoutDiagnostic :=
  let track_geometries := tg_topology_id <$> tracks_of (ly_elements layout) in
  let p := fold_left (check_element catalog track_geometries) (ly_elements layout)
             (mkProgress ∅ ∅ (check_header layout)) in
  diagnostics p ++ (ly_labels layout ≫= check_label).
End LayoutValidator.

(** ** Attachments *)

(* SRC libtrackview/include/trackview/core/attachment_resolver.hpp 8-14 IAttachmentResolver *)
Class IAttachmentResolver := resolve : Path -> TrackAttachment -> result Point.

Module PathAttachmentResolver.
Section Resolver.
(** [std::hypot]. *)
Variable hypot : float -> float -> float.

Fixpoint segments (path : Path) : list (Point * Point) :=
  match path with
  | a :: (b :: _) as rest => (a, b) :: segments rest
  | _ => []
  end.
Definition segment_length (s : Point * Point) : float :=
  hypot (f64_sub (pt_x s.2) (pt_x s.1)) (f64_sub (pt_y s.2) (pt_y s.1)).
(* SRC libtrackview/src/path_attachment_resolver.cpp 20-29 PathAttachmentResolver::resolve *)
Definition total_length (path : Path) : float :=
  fold_left (fun total s => f64_add total (segment_length s)) (segments path) f64_zero.

(* SRC libtrackview/src/path_attachment_resolver.cpp 44-50 PathAttachmentResolver::resolve *)
Definition place (s : Point * Point) (remaining lateral : float) : Point :=
  let length := segment_length s in
  let from := s.1 in
  let ratio := f32_clamp (f64_div remaining length) f64_zero f64_one in
  let dx := f64_sub (pt_x s.2) (pt_x from) in
  let dy := f64_sub (pt_y s.2) (pt_y from) in
  mkPoint (f64_sub (f64_add (pt_x from) (f64_mul ratio dx)) (f64_div (f64_mul lateral dy) length))
          (f64_add (f64_add (pt_y from) (f64_mul ratio dy)) (f64_div (f64_mul lateral dx) length)).

(* SRC libtrackview/src/path_attachment_resolver.cpp 37-54 PathAttachmentResolver::resolve *)
Fixpoint walk (ss : list (Point * Point)) (remaining lateral : float) : result Point :=
  match ss with
  | [] => Throw (logic_error "attachment_resolver: could not resolve path position")
  | s :: ss =>
      let length := segment_length s in
      if SFleb remaining length || match ss with [] => true | _ => false end then
        if SFleb length f64_zero then walk ss remaining lateral else Ok (place s remaining lateral)
      else walk ss (f64_sub remaining length) lateral
  end.

(* SRC libtrackview/src/path_attachment_resolver.cpp 11-55 PathAttachmentResolver::resolve *)
Definition resolve (path : Path) (attachment : TrackAttachment) : result Point :=
  let offset := ta_offset attachment in
  _ ← throw_if (bool_decide (length path < 2)%nat)
        (invalid_argument "attachment_resolver: path needs at least two points");
  _ ← throw_if (LayoutValidator.bad_offset offset || negb (is_finite (ta_lateral attachment)))
        (invalid_argument "attachment_resolver: invalid attachment values");
  let total := total_length path in
  _ ← throw_if (SFleb total f64_zero) (invalid_argument "attachment_resolver: path has zero length");
  let fraction := match ta_reference_side attachment with SideA => offset | SideB => f64_sub f64_one offset end in
  walk (segments path) (f64_mul fraction total) (ta_lateral attachment).
End Resolver.
End PathAttachmentResolver.

(** ** The render model *)

(* SRC libtrackview/include/trackview/core/render_model.hpp 10-15 RenderTrack *)
Record RenderTrack := mkRenderTrack { rk_id : InfrastructureId; rk_path : Path; rk_state : TrackRuntimeState }.
(* SRC libtrackview/include/trackview/core/render_model.hpp 17-22 RenderSwitch *)
Record RenderSwitch := mkRenderSwitch { rw_id : InfrastructureId; rw_ports : SwitchPorts; rw_state : SwitchRuntimeState }.
(* SRC libtrackview/include/trackview/core/render_model.hpp 24-30 RenderSignal *)
Record RenderSignal := mkRenderSignal {
  rs_id : InfrastructureId; rs_position : Point; rs_facing : FacingDirection; rs_state : SignalRuntimeState }.
(* SRC libtrackview/include/trackview/core/render_model.hpp 32-39 RenderModel *)
Record RenderModel := mkRenderModel {
  rm_canvas : Canvas; rm_tracks : list RenderTrack; rm_switches : list RenderSwitch;
  rm_signal_items : list RenderSignal; rm_labels : list LabelGeometry }.
#[export] Instance RenderModel_eta : Eta RenderModel := fun m =>
  mkRenderModel (rm_canvas m) (rm_tracks m) (rm_switches m) (rm_signal_items m) (rm_labels m).

Module RenderModelBuilder.
Section Builder.
Context {S : Type} {RS : ITrackRuntimeState S} {AR : IAttachmentResolver}.

(** The first geometry of a track is the one that counts. *)
(* SRC libtrackview/src/render_model_builder.cpp 17-20 RenderModelBuilder::build *)
Definition track_path (layout : TrackLayout) (id : InfrastructureId) : option Path :=
  tg_path <$> List.find (fun g => bool_decide (tg_topology_id g = id)) (tracks_of (ly_elements layout)).

Definition missing {A} (what : string) (id : InfrastructureId) (o : option A) : result A :=
  get (runtime_error ("render_model_builder: missing " +:+ what +:+ " state " +:+ to_string (id_value id))) o.

(* SRC libtrackview/src/render_model_builder.cpp 22-60 RenderModelBuilder::build *)
Definition add_element (state : S) (layout : TrackLayout) (model : RenderModel) (element : TrackLayoutElement) :
    result RenderModel :=
  match element with
  | ETrack item =>
      let id := tg_topology_id item in
      runtime ← missing "track" id (track_state state id);
      Ok (model <| rm_tracks ::= fun v => v ++ [mkRenderTrack id (tg_path item) runtime] |>)
  | ESwitch item =>
      let id := sg_topology_id item in
      runtime ← missing "switch" id (switch_state state id);
      Ok (model <| rm_switches ::= fun v => v ++ [mkRenderSwitch id (sg_ports item) runtime] |>)
  | ESignal item =>
      let id := sig_object_id item in
      runtime ← missing "signal" id (signal_state state id);
      path ← get (runtime_error "render_model_builder: signal track geometry is missing")
               (track_path layout (ta_track_id (sig_attachment item)));
      position ← resolve path (sig_attachment item);
      Ok (model <| rm_signal_items ::= fun v => v ++ [mkRenderSignal id position (sig_facing item) runtime] |>)
  end.

(* SRC libtrackview/src/render_model_builder.cpp 10-62 RenderModelBuilder::build *)
Definition build (state : S) (layout : TrackLayout) : result RenderModel :=
  for_each (add_element state layout) (ly_elements layout)
    (mkRenderModel (ly_canvas layout) [] [] [] (ly_labels layout)).
End Builder.
End RenderModelBuilder.

(** ** What the validator accepts *)

Definition switches_of (elements : list TrackLayoutElement) : list SwitchGeometry :=
  omap (fun e => match e with ESwitch item => Some item | _ => None end) elements.
Definition signals_of (elements : list TrackLayoutElement) : list SignalGeometry :=
  omap (fun e => match e with ESignal item => Some item | _ => None end) elements.
(** The tracks and switches of a layout, in order. *)
Definition topology_ids (elements : list TrackLayoutElement) : list InfrastructureId :=
  omap (fun e => match e with
    | ETrack item => Some (tg_topology_id item) | ESwitch item => Some (sg_topology_id item) | ESignal _ => None end)
    elements.
Definition signal_ids (elements : list TrackLayoutElement) : list InfrastructureId :=
  sig_object_id <$> signals_of elements.

Definition finite_point (p : Point) : Prop := is_finite (pt_x p) = true /\ is_finite (pt_y p) = true.
(** An offset between the two ends of a track. *)
Definition unit_interval (x : float) : Prop :=
  is_finite x = true /\ SFleb f64_zero x = true /\ SFleb x f64_one = true.

Section Accepted.
Context {K : Type} {IC : IInfrastructureCatalog K}.

Definition element_ok (catalog : K) (tracks : list InfrastructureId) (e : TrackLayoutElement) : Prop :=
  match e with
  | ETrack g => contains_track catalog (tg_topology_id g) = true /\
      (2 <= length (tg_path g))%nat /\ Forall finite_point (tg_path g)
  | ESwitch g => contains_switch catalog (sg_topology_id g) = true /\
      finite_point (sp_trunk (sg_ports g)) /\ finite_point (sp_straight (sg_ports g)) /\
      finite_point (sp_divergent (sg_ports g))
  | ESignal g => let a := sig_attachment g in
      contains_signal catalog (sig_object_id g) = true /\ contains_track catalog (ta_track_id a) = true /\
      signal_governs_track catalog (sig_object_id g) (ta_track_id a) = true /\
      unit_interval (ta_offset a) /\ is_finite (ta_lateral a) = true /\ ta_track_id a ∈ tracks
  end.

(** A layout that can be shown: the identifiers it draws exist, each once, and the numbers are numbers. *)
Record layout_ok (catalog : K) (layout : TrackLayout) : Prop := {
  lo_version : ly_schema_version layout = 1;
  lo_named : ly_layout_id layout <> ""%string /\ ly_station_sid layout <> ""%string;
  lo_canvas : forall x, x ∈ [cv_width (ly_canvas layout); cv_height (ly_canvas layout)] ->
    is_finite x = true /\ SFltb f64_zero x = true;
  lo_elements : Forall (element_ok catalog (tg_topology_id <$> tracks_of (ly_elements layout))) (ly_elements layout);
  lo_topology : NoDup (topology_ids (ly_elements layout));
  lo_signals : NoDup (signal_ids (ly_elements layout));
  lo_labels : Forall (fun l => lb_text l <> ""%string /\ finite_point (lb_anchor l)) (ly_labels layout) }.
End Accepted.

Lemma add_if_nil b rule id message : LayoutValidator.add_if b rule id message = [] <-> b = false.
Proof. by destruct b. Qed.

Lemma finite_point_iff p : LayoutValidator.is_finite p = true <-> finite_point p.
Proof. apply andb_true_iff. Qed.

Lemma bad_offset_iff x : LayoutValidator.bad_offset x = false <-> unit_interval x.
Proof.
  unfold LayoutValidator.bad_offset, unit_interval. rewrite !orb_false_iff, negb_false_iff.
  destruct (is_finite x) eqn:E; [|intuition congruence].
  assert (f32_is_nan x = false) as Hn by (by destruct x).
  change SFltb with f32_ltb. change SFleb with f32_leb.
  rewrite (f32_leb_ltb f64_zero x), (f32_leb_ltb x f64_one), !negb_true_iff by done. tauto.
Qed.

Lemma bind_nil {A B} (f : A -> list B) l : (l ≫= f) = [] <-> Forall (fun x => f x = []) l.
Proof.
  induction l as [|x l IH]; [by split|]. cbn. rewrite Forall_cons, <-IH. split; [apply app_eq_nil|by intros [-> ->]].
Qed.

Lemma app_nil_iff {A} (l k : list A) : l ++ k = [] <-> l = [] /\ k = [].
Proof. split; [apply app_eq_nil|by intros [-> ->]]. Qed.

Section Validator.
Context {K : Type} {IC : IInfrastructureCatalog K}.
Import LayoutValidator.

Lemma check_elements catalog tracks elements : forall p,
  diagnostics (fold_left (check_element catalog tracks) elements p) = [] <->
  diagnostics p = [] /\ Forall (element_ok catalog tracks) elements /\
  NoDup (topology_ids elements) /\ (forall id, id ∈ topology_ids elements -> id ∉ topology_geometries p) /\
  NoDup (signal_ids elements) /\ (forall id, id ∈ signal_ids elements -> id ∉ object_geometries p).
Proof.
  induction elements as [|e elements IH]; intros p; cbn [fold_left].
  - split; [|by intros (? & _)]. intros H. split_and!; [done|constructor| | | |]; try constructor; by intros ? ?%not_elem_of_nil.
  - rewrite IH. destruct e as [g|g|g]; cbn [check_element check_track check_switch check_signal diagnostics topology_geometries object_geometries].
    + rewrite Forall_cons, !app_nil_iff, !add_if_nil, bind_nil, negb_false_iff, !bool_decide_eq_false. cbn.
      rewrite NoDup_cons. setoid_rewrite add_if_nil. setoid_rewrite negb_false_iff. setoid_rewrite finite_point_iff.
      unfold signal_ids. cbn. setoid_rewrite elem_of_cons. setoid_rewrite elem_of_union.
      setoid_rewrite elem_of_singleton. split.
      * intros ((? & ? & ? & ? & Hn) & ? & ? & Hd & ? & ?). split_and!; try done; [lia|by intros ?%Hd; auto|].
        intros id [->|Hid] Hp; [by apply Hn|]. by apply (Hd _ Hid); right.
      * intros (? & ((? & ? & ?) & ?) & (Hn & ?) & Hd & ? & ?). split_and!; try done; [lia|by apply Hd; left|].
        intros id Hid [->|Hp]; [done|]. eapply Hd; eauto.
    + rewrite Forall_cons, !app_nil_iff, !add_if_nil, !orb_false_iff, !negb_false_iff, !bool_decide_eq_false, !finite_point_iff.
      cbn. rewrite NoDup_cons. unfold signal_ids. cbn. setoid_rewrite elem_of_cons. setoid_rewrite elem_of_union.
      setoid_rewrite elem_of_singleton. split.
      * intros ((? & ? & ((? & ?) & ?) & Hn) & ? & ? & Hd & ? & ?). split_and!; try done; [by intros ?%Hd; auto|].
        intros id [->|Hid] Hp; [by apply Hn|]. by apply (Hd _ Hid); right.
      * intros (? & ((? & ? & ? & ?) & ?) & (Hn & ?) & Hd & ? & ?). split_and!; try done; [by apply Hd; left|].
        intros id Hid [->|Hp]; [done|]. eapply Hd; eauto.
    + rewrite Forall_cons, !app_nil_iff, !add_if_nil, !negb_false_iff, bool_decide_eq_false, bool_decide_eq_true,
        bad_offset_iff. cbn. unfold signal_ids. cbn. rewrite NoDup_cons. setoid_rewrite elem_of_cons.
      setoid_rewrite elem_of_union. setoid_rewrite elem_of_singleton.
      set (id0 := sig_object_id g). set (track := ta_track_id (sig_attachment g)).
      assert (contains_signal catalog id0 = true ->
        (if negb (contains_track catalog track)
         then add_if true "LAY-302" (Some track) "Signal is attached to an unknown track section"
         else add_if (contains_signal catalog id0 && negb (signal_governs_track catalog id0 track)) "LAY-303" (Some id0)
                "Signal is attached to a track it does not govern") = [] <->
        contains_track catalog track = true /\ signal_governs_track catalog id0 track = true) as Hg.
      { intros ->. destruct (contains_track catalog track); cbn [negb andb]; [|by split; [|intros [? _]]].
        rewrite add_if_nil, negb_false_iff. tauto. }
      split.
      * intros ((? & Hs & Ht & ? & ? & Hn & ?) & ? & ? & ? & ? & Hd). apply Hg in Ht as [? ?]; [|done].
        split_and!; try done; [by intros ?%Hd; auto|].
        intros id [->|Hid] Hp; [by apply Hn|]. by apply (Hd _ Hid); right.
      * intros (? & ((Hs & ? & ? & ? & ? & ?) & ?) & ? & ? & (Hn & ?) & Hd). split_and!; try done;
          [by apply Hg|by apply Hd; left|].
        intros id Hid [->|Hp]; [done|]. eapply Hd; eauto.
Qed.

Lemma check_header_ok (catalog : K) layout :
  check_header layout = [] <->
  ly_schema_version layout = 1 /\ (ly_layout_id layout <> ""%string /\ ly_station_sid layout <> ""%string) /\
  forall x, x ∈ [cv_width (ly_canvas layout); cv_height (ly_canvas layout)] ->
    Float32.is_finite x = true /\ SFltb f64_zero x = true.
Proof.
  unfold check_header, not_positive. rewrite !app_nil_iff, !add_if_nil, !orb_false_iff, !negb_false_iff, !bool_decide_eq_false, Z.eqb_eq.
  setoid_rewrite elem_of_cons. setoid_rewrite elem_of_cons.
  split.
  - intros (? & ? & ((? & ?) & ?) & ?). split_and!; try tauto. intros x [->|[->|?%not_elem_of_nil]]; done.
  - intros (? & ? & H). split_and!; try tauto; apply H; auto.
Qed.

Lemma validate_nil (catalog : K) layout : validate catalog layout = [] <-> layout_ok catalog layout.
Proof.
  unfold validate. rewrite app_nil_iff, check_elements, bind_nil. cbn [diagnostics topology_geometries object_geometries].
  rewrite (check_header_ok catalog). unfold check_label.
  setoid_rewrite add_if_nil. setoid_rewrite orb_false_iff. setoid_rewrite bool_decide_eq_false.
  setoid_rewrite negb_false_iff. setoid_rewrite finite_point_iff. split.
  - intros (((? & ? & ?) & ? & ? & _ & ? & _) & ?). by split.
  - intros [? ? ? ? ? ? ?]. split_and!; try done; set_solver.
Qed.

(** What the validator accepts.  It reports nothing exactly for the layouts of version 1 with
    names and a canvas of finite positive size, in which every track, switch and signal drawn
    exists and is drawn once, every path has two points or more, every coordinate is finite, every
    signal stands on a track of the layout that it governs, at an offset between 0 and 1, and every
    label has a text and a place. *)
Theorem validate_accepts (catalog : K) layout :
  LayoutValidator.validate catalog layout = [] <-> layout_ok catalog layout.
Proof. apply validate_nil. Qed.
End Validator.

(** ** What is shown *)

Section Rendered.
Context {S : Type} {RS : ITrackRuntimeState S} {AR : IAttachmentResolver}.
Import RenderModelBuilder.

(** The track, the switch, the signal as shown in a state. *)
Definition shown_track (src : S) (g : TrackSectionGeometry) (k : RenderTrack) : Prop :=
  rk_id k = tg_topology_id g /\ rk_path k = tg_path g /\ track_state src (tg_topology_id g) = Some (rk_state k).
Definition shown_switch (src : S) (g : SwitchGeometry) (k : RenderSwitch) : Prop :=
  rw_id k = sg_topology_id g /\ rw_ports k = sg_ports g /\ switch_state src (sg_topology_id g) = Some (rw_state k).
Definition shown_signal (src : S) (layout : TrackLayout) (g : SignalGeometry) (k : RenderSignal) : Prop :=
  rs_id k = sig_object_id g /\ rs_facing k = sig_facing g /\ signal_state src (sig_object_id g) = Some (rs_state k) /\
  exists path, ETrack (mkTrackSectionGeometry (ta_track_id (sig_attachment g)) path) ∈ ly_elements layout /\
    resolve path (sig_attachment g) = Ok (rs_position k).

(** Everything on the layout is shown, in its order, in the state of the source. *)
Record rendered (src : S) (layout : TrackLayout) (m : RenderModel) : Prop := {
  rd_canvas : rm_canvas m = ly_canvas layout;
  rd_labels : rm_labels m = ly_labels layout;
  rd_tracks : Forall2 (shown_track src) (tracks_of (ly_elements layout)) (rm_tracks m);
  rd_switches : Forall2 (shown_switch src) (switches_of (ly_elements layout)) (rm_switches m);
  rd_signals : Forall2 (shown_signal src layout) (signals_of (ly_elements layout)) (rm_signal_items m) }.

Lemma track_path_elem layout id path :
  track_path layout id = Some path -> ETrack (mkTrackSectionGeometry id path) ∈ ly_elements layout.
Proof.
  unfold track_path. intros ([i p] & [Hin Hi%bool_decide_eq_true]%find_some & ->)%fmap_Some. cbn in *. subst i.
  apply list_elem_of_In in Hin. unfold tracks_of in Hin. apply list_elem_of_omap in Hin as (e & He & Hs).
  destruct e; simplify_eq. done.
Qed.

Lemma add_elements_ok src layout elements : forall m m',
  for_each (add_element src layout) elements m = Ok m' ->
  rm_canvas m' = rm_canvas m /\ rm_labels m' = rm_labels m /\
  exists ts ws ss, rm_tracks m' = rm_tracks m ++ ts /\ rm_switches m' = rm_switches m ++ ws /\
    rm_signal_items m' = rm_signal_items m ++ ss /\ Forall2 (shown_track src) (tracks_of elements) ts /\
    Forall2 (shown_switch src) (switches_of elements) ws /\ Forall2 (shown_signal src layout) (signals_of elements) ss.
Proof.
  induction elements as [|e elements IH]; intros m m' H.
  { injection H as <-. split_and!; [done..|]. exists [], [], []. rewrite !app_nil_r. by split_and!; try constructor. }
  cbn [for_each] in H. apply bind_ok in H as (m1 & H1 & H). destruct (IH _ _ H) as (-> & -> & ts & ws & ss & -> & -> & -> & Ht & Hw & Hs).
  destruct e as [g|g|g]; cbn [add_element] in H1; unfold missing in H1.
  - apply bind_ok in H1 as (r & Hr%get_ok & [= <-]). split_and!; [done..|]. eexists (_ :: ts), ws, ss. cbn.
    rewrite <-app_assoc. split_and!; [done..|constructor; [|exact Ht]|done|done]. by split_and!.
  - apply bind_ok in H1 as (r & Hr%get_ok & [= <-]). split_and!; [done..|]. eexists ts, (_ :: ws), ss. cbn.
    rewrite <-app_assoc. split_and!; [done..|constructor; [|exact Hw]|done]. by split_and!.
  - apply bind_ok in H1 as (r & Hr%get_ok & H1). apply bind_ok in H1 as (path & Hp%get_ok%track_path_elem & H1).
    apply bind_ok in H1 as (pos & Hpos & [= <-]). split_and!; [done..|]. eexists ts, ws, (_ :: ss). cbn.
    rewrite <-app_assoc. split_and!; [done..|constructor; [|exact Hs]]. by split_and!; [..|exists path].
Qed.

Lemma render_ok src layout m : build src layout = Ok m -> rendered src layout m.
Proof.
  intros (? & ? & ts & ws & ss & ? & ? & ? & ? & ? & ?)%add_elements_ok. cbn in *. split; congruence.
Qed.

Lemma build_throw src layout e :
  build src layout = Throw e -> exists element m, element ∈ ly_elements layout /\ add_element src layout m element = Throw e.
Proof.
  unfold build. generalize (mkRenderModel (ly_canvas layout) [] [] [] (ly_labels layout)).
  assert (forall elements m, for_each (add_element src layout) elements m = Throw e ->
    exists element m, element ∈ elements /\ add_element src layout m element = Throw e) as H; [|by apply H].
  induction elements as [|el elements IH]; intros m H; [done|]. cbn [for_each] in H.
  destruct (add_element src layout m el) as [m1|e1] eqn:E.
  - rewrite ok_bind in H. destruct (IH _ H) as (el' & m' & Hin & Hm). exists el', m'. by split; [right|].
  - injection H as ->. exists el, m. by split; [left|].
Qed.
End Rendered.

(** The infrastructure a view shows, and the state it has, go together. *)
Section View.
Context {V : Type} {SV : StateView V} {AR : IAttachmentResolver}.
Implicit Types (src : V).

Lemma build_validated src layout :
  LayoutValidator.validate src layout = [] ->
  match RenderModelBuilder.build src layout with
  | Ok model => rendered src layout model
  | Throw e => exists g path, ESignal g ∈ ly_elements layout /\
      ETrack (mkTrackSectionGeometry (ta_track_id (sig_attachment g)) path) ∈ ly_elements layout /\
      resolve path (sig_attachment g) = Throw e
  end.
Proof.
  intros [_ _ _ Hok _ _ _]%validate_nil. destruct (RenderModelBuilder.build src layout) as [m|e] eqn:E.
  { by apply render_ok. }
  apply build_throw in E as (el & m & Hin & He). pose proof (proj1 (Forall_forall _ _) Hok el Hin) as Hel.
  destruct el as [g|g|g]; cbn [element_ok RenderModelBuilder.add_element] in *; unfold RenderModelBuilder.missing in He; cbn in Hel, He.
  - destruct Hel as ([x Hx]%bool_decide_eq_true & _). rewrite Hx in He. done.
  - destruct Hel as ([x Hx]%bool_decide_eq_true & _). rewrite Hx in He. done.
  - destruct Hel as ([x Hx]%bool_decide_eq_true & _ & _ & _ & _ & Htr). rewrite Hx in He. cbn [mbind option_bind get] in He.
    rewrite ok_bind in He. apply list_elem_of_fmap in Htr as (t & Ht & Htin).
    destruct (RenderModelBuilder.track_path layout (ta_track_id (sig_attachment g))) as [path|] eqn:Ep.
    + exists g, path. split; [done|]. split; [by apply track_path_elem|]. cbn [get] in He. rewrite ok_bind in He.
      destruct (resolve path (sig_attachment g)); [discriminate He|by injection He as ->].
    + unfold RenderModelBuilder.track_path in Ep. apply fmap_None in Ep.
      apply list_elem_of_In in Htin. eapply find_none in Ep; [|exact Htin]. apply bool_decide_eq_false in Ep. by symmetry in Ht.
Qed.
End View.

(** ** Validated once *)

Section Stable.
Context {MO : MapOrder} {C : Type} {CS : ControlSystem C EngineState.t}.

Lemma validate_ext {K K'} {IC : IInfrastructureCatalog K} {IC' : IInfrastructureCatalog K'} (c : K) (c' : K') layout :
  (forall id, contains_track c id = contains_track c' id) -> (forall id, contains_switch c id = contains_switch c' id) ->
  (forall id, contains_signal c id = contains_signal c' id) ->
  (forall id id', signal_governs_track c id id' = signal_governs_track c' id id') ->
  LayoutValidator.validate c layout = LayoutValidator.validate c' layout.
Proof.
  intros Ht Hw Hs Hg. unfold LayoutValidator.validate. f_equal. f_equal.
  generalize (LayoutValidator.mkProgress ∅ ∅ (LayoutValidator.check_header layout)).
  generalize (tg_topology_id <$> tracks_of (ly_elements layout)). intros tracks.
  induction (ly_elements layout) as [|e elements IH]; intros p; [done|]. cbn [fold_left]. rewrite IH. f_equal.
  destruct e; cbn [LayoutValidator.check_element]; unfold LayoutValidator.check_track, LayoutValidator.check_switch,
    LayoutValidator.check_signal; by rewrite ?Ht, ?Hw, ?Hs, ?Hg.
Qed.

Lemma same_topology_queries s s' layout :
  same_topology s s' -> LayoutValidator.validate s' layout = LayoutValidator.validate s layout.
Proof.
  intros [_ H].
  assert (forall u, is_Some (EngineState.track_sections s' !! u) <-> is_Some (EngineState.track_sections s !! u)) as Ht.
  { intros u. specialize (H (SlTrackSection u) eq_refl). cbn in H. by destruct (_ !! u), (_ !! u). }
  assert (forall u, is_Some (EngineState.switches s' !! u) <-> is_Some (EngineState.switches s !! u)) as Hw.
  { intros u. specialize (H (SlSwitch u) eq_refl). cbn in H. by destruct (_ !! u), (_ !! u). }
  assert (forall u, sig_governs_section_uid <$> EngineState.signals s' !! u = sig_governs_section_uid <$> EngineState.signals s !! u) as Hg.
  { intros u. specialize (H (SlSignal u) eq_refl). cbn in H. destruct (_ !! u) as [x|], (_ !! u) as [y|]; try done.
    cbn in H. injection H. intros. cbn. congruence. }
  apply validate_ext; intros id; cbn -[to_engine_uid]; unfold EngineState.find_track_section, EngineState.find_switch, EngineState.find_signal.
  - by apply bool_decide_ext.
  - by apply bool_decide_ext.
  - apply bool_decide_ext. specialize (Hg (to_engine_uid id)).
    destruct (EngineState.signals s' !! to_engine_uid id), (EngineState.signals s !! to_engine_uid id); try discriminate Hg; [|reflexivity].
    split; by eexists.
  - intros id'. specialize (Hg (to_engine_uid id)).
    destruct (EngineState.signals s' !! to_engine_uid id), (EngineState.signals s !! to_engine_uid id); try done.
    cbn in Hg. by injection Hg as ->.
Qed.

(** A layout the validator accepts is shown for ever.  If a layout is validated against the world
    once, then whatever is queued and however often the engine has ticked since, the snapshot of
    the next tick has a render model with every track, switch and signal of the layout in the
    layout's order and in the state the snapshot has, at any resolver of attachments that succeeds
    on the attached signals; and if building the model throws, then the resolver does, on one of
    them. *)
Theorem validated_layout_renders {AR : IAttachmentResolver} (loop loop' : EngineLoop.t C) layout :
  keyed (EngineLoop.state_ loop) -> LayoutValidator.validate (EngineLoop.state_ loop) layout = [] ->
  rtc loop_step loop loop' ->
  exists snap, AtomicSnapshot.load (EngineLoop.snapshot_ (EngineLoop.do_tick loop').1) = Some snap /\
  match RenderModelBuilder.build snap layout with
  | Ok model => rendered snap layout model
  | Throw e => exists g path, ESignal g ∈ ly_elements layout /\
      ETrack (mkTrackSectionGeometry (ta_track_id (sig_attachment g)) path) ∈ ly_elements layout /\
      resolve path (sig_attachment g) = Throw e
  end.
Proof.
  intros Hk Hv Hr. assert (rtc loop_step loop (EngineLoop.do_tick loop').1) as Hr' by (eapply rtc_r; [done|apply loop_tick]).
  apply loop_steps_world in Hr'. pose proof (same_topology_steps (EngineLoop.state_ loop) _ _ Hr' (conj Hk (fun _ _ => eq_refl))) as Hs.
  pose proof (do_tick_phases loop') as Hp. destruct (EngineLoop.do_tick loop') as [self notices]. cbn [fst snd] in *.
  destruct Hp as (? & ? & ? & _ & _ & _ & _ & Hl & _). eexists. split; [exact Hl|]. apply build_validated.
  rewrite <-Hv, <-(same_topology_queries _ _ layout Hs). by apply validate_ext.
Qed.
End Stable.

(** ** Where an attached signal stands *)

Section Attached.
Variable hypot : float -> float -> float.
Import PathAttachmentResolver.

Definition has_length (s : Point * Point) : Prop := SFleb (segment_length hypot s) f64_zero = false.

Lemma walk_cases ss lateral : forall remaining,
  match walk hypot ss remaining lateral with
  | Ok p => exists s r, s ∈ ss /\ has_length s /\ p = place hypot s r lateral
  | Throw e => e = logic_error "attachment_resolver: could not resolve path position" /\
      forall s, last ss = Some s -> ~ has_length s
  end.
Proof.
  induction ss as [|s ss IH]; intros remaining; [done|]. cbn [walk].
  assert (forall r, match walk hypot ss r lateral with
    | Ok p => exists s' r', s' ∈ s :: ss /\ has_length s' /\ p = place hypot s' r' lateral
    | Throw e => e = logic_error "attachment_resolver: could not resolve path position" /\
        (ss <> [] -> forall s', last (s :: ss) = Some s' -> ~ has_length s')
    end) as Hrest.
  { intros r. specialize (IH r). destruct (walk hypot ss r lateral) as [p|e].
    - destruct IH as (s' & r' & Hin & H). exists s', r'. split; [by right|done].
    - destruct IH as [-> H]. split; [done|]. intros Hss s' Hl. apply H. by destruct ss. }
  destruct (SFleb remaining _ || _) eqn:Ef; [destruct (SFleb (segment_length hypot s) f64_zero) eqn:El|].
  - specialize (Hrest remaining). destruct (walk hypot ss remaining lateral) as [p|e]; [done|].
    destruct Hrest as [-> H]. split; [done|]. intros s' Hl. destruct ss as [|s2 ss]; [|by apply H].
    injection Hl as <-. intros Hp. unfold has_length in Hp. congruence.
  - exists s, remaining. split; [by left|]. by split.
  - specialize (Hrest (f64_sub remaining (segment_length hypot s))).
    destruct (walk hypot ss _ lateral) as [p|e]; [done|]. destruct Hrest as [-> H]. split; [done|].
    intros s' Hl. destruct ss as [|s2 ss]; [by rewrite orb_true_r in Ef|by apply H].
Qed.

(** Where a signal stands: on one of the segments of the path that have a length, aside of it by the
    lateral offset.  On a path of two points and an attachment the validator accepts, there are two
    ways to fail: the path has no length, or its last segment has none. *)
Theorem signal_placed path attachment :
  (2 <= length path)%nat -> unit_interval (ta_offset attachment) -> is_finite (ta_lateral attachment) = true ->
  match PathAttachmentResolver.resolve hypot path attachment with
  | Ok p => exists s r, s ∈ segments path /\ has_length s /\ p = place hypot s r (ta_lateral attachment)
  | Throw e =>
      SFleb (total_length hypot path) f64_zero = true /\ e = invalid_argument "attachment_resolver: path has zero length" \/
      e = logic_error "attachment_resolver: could not resolve path position" /\
      forall s, last (segments path) = Some s -> ~ has_length s
  end.
Proof.
  intros Hl Hu Hf. unfold PathAttachmentResolver.resolve.
  rewrite (bool_decide_false _ (proj1 (Nat.le_ngt _ _) Hl)), (proj2 (bad_offset_iff _) Hu), Hf. cbn [negb orb throw_if].
  rewrite !ok_bind. destruct (SFleb (total_length hypot path) f64_zero); [by left|]. cbn [throw_if]. rewrite ok_bind.
  pose proof (walk_cases (segments path) (ta_lateral attachment)) as H.
  match goal with |- context [walk hypot _ ?r _] => specialize (H r) end.
  destruct (walk hypot _ _ _); [done|by right].
Qed.
End Attached.

(** ** What the reader throws *)

Section Reading.
Context {JL : JsonLib}.
Import JsonLayoutReader.

(** An exception of the library or a [std::runtime_error]. *)
Definition tame {A} (r : result A) : Prop :=
  match r with Ok _ => True | Throw e => e = json_exception \/ exists what, e = runtime_error what end.

Lemma tame_bind {A B} (r : result A) (f : A -> result B) : tame r -> (forall a, tame (f a)) -> tame (r ≫= f).
Proof. destruct r; cbn; auto. Qed.
Lemma tame_get {A} (o : option A) : tame (get json_exception o).
Proof. destruct o; [done|by left]. Qed.
Lemma tame_throw_if b what : tame (throw_if b (runtime_error what)).
Proof. destruct b; [right; by eexists|done]. Qed.
Lemma tame_j_at j key : tame (j_at j key).
Proof. apply tame_get. Qed.
Lemma tame_j_value {A} (getter : json -> option A) j key d : tame (j_value getter j key d).
Proof. unfold j_value. case_match; [by left|]. case_match; [apply tame_get|done]. Qed.
Lemma tame_traverse {A B} (f : A -> result B) l : (forall a, tame (f a)) -> tame (traverse f l).
Proof. intros H. induction l; [done|]. cbn. apply tame_bind; [done|]. intros b. by apply tame_bind. Qed.
Lemma tame_read_side s : tame (read_side s).
Proof. unfold read_side. repeat case_match; try done. right. by eexists. Qed.
Lemma tame_read_facing s : tame (read_facing s).
Proof. unfold read_facing. repeat case_match; try done. right. by eexists. Qed.

Create HintDb tame.
#[local] Hint Resolve tame_get tame_throw_if tame_j_at tame_j_value tame_read_side tame_read_facing : tame.
Ltac tame := repeat (apply tame_bind; [|intros ?]); auto with tame; try exact I.

Lemma tame_read_point v : tame (read_point v).
Proof. unfold read_point. tame. Qed.
#[local] Hint Resolve tame_read_point : tame.
Lemma tame_read_id v field : tame (read_id v field).
Proof. unfold read_id. tame. Qed.
Lemma tame_string_field j key : tame (string_field j key).
Proof. unfold string_field. tame. Qed.
Lemma tame_double_field j key : tame (double_field j key).
Proof. unfold double_field. tame. Qed.
Lemma tame_point_field j key : tame (point_field j key).
Proof. unfold point_field. tame. Qed.
#[local] Hint Resolve tame_read_id tame_string_field tame_double_field tame_point_field tame_traverse : tame.

Lemma tame_read_element element : tame (read_element element).
Proof.
  unfold read_element. apply tame_bind; [auto with tame|intros kind].
  repeat case_bool_decide; [tame..|right; by eexists].
Qed.
Lemma tame_read_label label : tame (read_label label).
Proof. unfold read_label. tame. Qed.
#[local] Hint Resolve tame_read_element tame_read_label : tame.

(** Whatever the file holds, reading it gives a layout of version 1 or throws a [std::runtime_error]. *)
Theorem layout_read_errors path what d :
  match JsonLayoutReader.read path what d with
  | Ok layout => ly_schema_version layout = 1
  | Throw e => exists text, e = runtime_error text
  end.
Proof.
  unfold JsonLayoutReader.read. destruct d as [|text|root]; [by eexists..|].
  assert (tame (read_root root)) as Ht by (unfold read_root; tame).
  destruct (read_root root) as [layout|e] eqn:E.
  - unfold read_root in E. apply bind_ok in E as (v & _ & E). apply bind_ok in E as (n & _ & E).
    apply bind_ok in E as (u & Hn%throw_if_ok & E). apply negb_false_iff, Z.eqb_eq in Hn. subst n.
    split_ok E. by injection E as <-.
  - destruct Ht as [->|[w ->]]; by eexists.
Qed.
End Reading.

(** ** A schematic of the demo station *)

Module TrackViewDemo.
#[local] Existing Instance canonical_order.
(** Exact along the axes. *)
Definition hypot (x y : float) : float :=
  if SFeqb y f64_zero then SFabs x else if SFeqb x f64_zero then SFabs y
  else SFsqrt 53 1024 (f64_add (f64_mul x x) (f64_mul y y)).
#[global] Instance resolver : IAttachmentResolver := PathAttachmentResolver.resolve hypot.

Definition at_xy (x y : Z) : Point := mkPoint (f64_of_Z x) (f64_of_Z y).
Definition id (u : UID) : InfrastructureId := mkInfrastructureId (value u).
Definition half : float := f64_div f64_one (f64_of_Z 2).
Definition signal (side : TrackSide) (offset lateral : float) : TrackLayoutElement :=
  ESignal (mkSignalGeometry (id SigA) (mkTrackAttachment (id T1) side offset lateral) TowardsB).
Definition layout (path : Path) (s : TrackLayoutElement) : TrackLayout :=
  mkTrackLayout 1 "demo" "Demo" "ebiscreen" (mkCanvas (f64_of_Z 800) (f64_of_Z 600))
    [ETrack (mkTrackSectionGeometry (id T1) path); s;
     ESwitch (mkSwitchGeometry (id W1) (mkSwitchPorts (at_xy 120 0) (at_xy 140 0) (at_xy 140 20)))]
    [mkLabelGeometry "T1" (at_xy 50 (-20))].
(** Two segments of 100 each; the signal in the middle of the second one, 10 aside. *)
Definition bent : TrackLayout :=
  layout [at_xy 0 0; at_xy 100 0; at_xy 100 100]
    (signal SideB (f64_div f64_one (f64_of_Z 4)) (f64_of_Z 10)).
Definition positions (l : TrackLayout) : result (list Point) :=
  (fun m => rs_position <$> rm_signal_items m) <$> RenderModelBuilder.build demo l.

Example bent_valid : LayoutValidator.validate demo bent = [] /\ positions bent = Ok [at_xy 90 50].
Proof. split; by vm_compute. Qed.

(** The validator accepts a track without length, which has no place for a signal. *)
Definition no_length : TrackLayout := layout [at_xy 5 5; at_xy 5 5] (signal SideA f64_zero f64_zero).
Example no_length_not_shown :
  LayoutValidator.validate demo no_length = [] /\
  positions no_length = Throw (invalid_argument "attachment_resolver: path has zero length").
Proof. split; by vm_compute. Qed.

(** The sum of the lengths is rounded; at the far end of a path whose last segment has no length,
    more than the lengths may remain, and the signal is nowhere. *)
Definition sliver : float := binary_normalize 53 1024 3 (-54) false.
Definition rounded : TrackLayout :=
  layout [at_xy 0 0; at_xy 1 0; mkPoint (f64_of_Z 1) sliver; mkPoint (f64_of_Z 1) sliver] (signal SideA f64_one f64_zero).
Example rounded_not_shown :
  LayoutValidator.validate demo rounded = [] /\
  positions rounded = Throw (logic_error "attachment_resolver: could not resolve path position").
Proof. split; by vm_compute. Qed.

(** Everything the validator can object to in one layout. *)
Example diagnostics_listed :
  ld_rule_id <$> LayoutValidator.validate demo
    (mkTrackLayout 2 "" "Demo" "" (mkCanvas S754_nan (f64_of_Z 1))
       [ETrack (mkTrackSectionGeometry (id W1) [mkPoint S754_nan f64_zero]); signal SideA (f64_of_Z 2) S754_nan;
        ETrack (mkTrackSectionGeometry (id W1) [])] [mkLabelGeometry "" (at_xy 0 0)])
  = ["LAY-001"; "LAY-002"; "LAY-003"; "LAY-101"; "LAY-102"; "LAY-103"; "LAY-304"; "LAY-305"; "LAY-307";
     "LAY-101"; "LAY-102"; "LAY-104"; "LAY-401"]%string.
Proof. by vm_compute. Qed.
End TrackViewDemo.

#[local] Existing Instance canonical_order.

Lemma validated_layout_renders_witness :
  exists snap model, RenderModelBuilder.build (S := EngineSnapshot.t) snap TrackViewDemo.bent = Ok model /\
    map rs_position (rm_signal_items model) = [TrackViewDemo.at_xy 90 50] /\ rendered snap TrackViewDemo.bent model.
Proof.
  destruct (validated_layout_renders (AR := TrackViewDemo.resolver) (demo_loop [throw_W1])
    (EngineLoop.do_tick (demo_loop [throw_W1])).1 TrackViewDemo.bent) as (snap & Hl & H).
  - exact demo_keyed.
  - exact (proj1 TrackViewDemo.bent_valid).
  - apply rtc_once, loop_tick.
  - assert (option_map (fun s => (fun m => map rs_position (rm_signal_items m)) <$>
        RenderModelBuilder.build s TrackViewDemo.bent)
      (AtomicSnapshot.load (EngineLoop.snapshot_ (EngineLoop.do_tick (EngineLoop.do_tick (demo_loop [throw_W1])).1).1))
      = Some (Ok [TrackViewDemo.at_xy 90 50])) as Hp by (by vm_compute).
    rewrite Hl in Hp. cbn [option_map] in Hp. exists snap.
    destruct (RenderModelBuilder.build snap TrackViewDemo.bent) as [m|e]; [|discriminate Hp].
    exists m. split; [done|]. split; [by injection Hp|exact H].
Defined.

Lemma signal_placed_witness :
  exists s r, s ∈ PathAttachmentResolver.segments [TrackViewDemo.at_xy 0 0; TrackViewDemo.at_xy 100 0] /\
    TrackViewDemo.at_xy 50 7 = PathAttachmentResolver.place TrackViewDemo.hypot s r (f64_of_Z 7).
Proof.
  pose proof (signal_placed TrackViewDemo.hypot [TrackViewDemo.at_xy 0 0; TrackViewDemo.at_xy 100 0]
    (mkTrackAttachment (TrackViewDemo.id T1) SideA TrackViewDemo.half (f64_of_Z 7))) as H.
  replace (PathAttachmentResolver.resolve _ _ _) with (Ok (TrackViewDemo.at_xy 50 7)) in H by (by vm_compute).
  destruct H as (s & r & Hin & _ & Hp); [cbn; lia|by vm_compute|by vm_compute|]. exists s, r. split; [exact Hin|exact Hp].
Defined.
