(* ===== verification/Paths.v ===== *)
(** * Paths: file paths and the disk the tools work on

    [std::filesystem::path] as far as the tools use it: a path is the list of its
    elements, an absolute one starting with the empty element, and paths are ordered
    element by element.  [Disk] is the part of the file system below which the tools
    look: its regular files with their bytes, and its directories. *)
From S2P Require Import Prelude Json.
From Stdlib Require Import String Ascii.
From stdpp Require Import sorting.
Local Open Scope Z_scope.

Definition Path : Type := list string.

(** [path.string()]. *)
Definition path_string (p : Path) : string :=
  if bool_decide (p = [""%string]) then "/"%string else String.concat "/" p.

(** [path / name] for a name without separators. *)
Definition path_div (p : Path) (name : string) : Path :=
  if bool_decide (name = ""%string) then p else p ++ [name].

(** [path.parent_path()]: the root is its own parent. *)
Definition parent_path (p : Path) : Path :=
  if bool_decide (p = [""%string]) then p else take (length p - 1) p.

(** [path.filename()]. *)
Definition filename (p : Path) : string := default ""%string (last p).

(** What follows the last dot of [s], with the dot; [None] without a dot. *)
Fixpoint from_last_dot (s : string) : option string :=
  match s with
  | EmptyString => None
  | String c s' =>
      match from_last_dot s' with
      | Some e => Some e
      | None => if Ascii.eqb c "." then Some s else None
      end
  end.

(** [path.extension()]: a leading dot starts no extension. *)
Definition extension (p : Path) : string :=
  match filename p with
  | String _ s => if bool_decide (filename p = ".."%string) then "" else default "" (from_last_dot s)
  | EmptyString => ""
  end%string.

(** ** The order of paths *)

Fixpoint path_compare (p q : Path) : comparison :=
  match p, q with
  | [], [] => Eq
  | [], _ => Lt
  | _, [] => Gt
  | a :: p, b :: q => match String.compare a b with Eq => path_compare p q | c => c end
  end.
Definition path_le (p q : Path) : Prop := path_compare p q <> Gt.
#[global] Instance path_le_dec : RelDecision path_le.
Proof.
  intros p q. unfold path_le. destruct (path_compare p q).
  - by left.
  - by left.
  - right. intros H. by apply H.
Defined.

Lemma path_compare_antisym p q : path_compare p q = CompOpp (path_compare q p).
Proof.
  revert q. induction p as [|a p IH]; intros [|b q]; try done. cbn.
  rewrite (String.compare_antisym a b). destruct (String.compare b a); cbn; [apply IH|done|done].
Qed.

#[global] Instance path_le_total : Total path_le.
Proof.
  intros p q. unfold path_le. rewrite (path_compare_antisym q p).
  destruct (path_compare p q); [left|left|right]; done.
Qed.

(** ** The disk *)

Section Disk.
(** The bytes of a file. *)
Context {T : Type}.

(** What reading a regular file gives. *)
Inductive FileBody : Type := Unreadable | Bytes (text : T).

Record Disk := mkDisk { dk_files : gmap Path FileBody; dk_dirs : gset Path }.
#[global] Instance Disk_eta : Eta Disk := fun d => mkDisk (dk_files d) (dk_dirs d).

Definition is_directory (d : Disk) (p : Path) : bool := bool_decide (p ∈ dk_dirs d).
Definition is_file (d : Disk) (p : Path) : bool := bool_decide (is_Some (dk_files d !! p)).
Definition exists_path (d : Disk) (p : Path) : bool := is_directory d p || is_file d p.

(** [q] lies below [root]. *)
Definition below (root q : Path) : bool :=
  bool_decide (take (length root) q = root /\ (length root < length q)%nat).

(** The regular files a [recursive_directory_iterator] on [root] visits. *)
Definition files_below (d : Disk) (root : Path) : list Path :=
  filter (fun p => below root p) (elements (dom (dk_files d))).

Lemma elem_of_files_below d root p :
  p ∈ files_below d root <-> is_Some (dk_files d !! p) /\ below root p = true.
Proof.
  unfold files_below. rewrite list_elem_of_filter, elem_of_elements, elem_of_dom, Is_true_true. tauto.
Qed.

Lemma files_below_nodup d root : NoDup (files_below d root).
Proof. apply NoDup_filter, NoDup_elements. Qed.
End Disk.
Arguments FileBody T : clear implicits.
Arguments Disk T : clear implicits.

(** [std::sort(files.begin(), files.end())]. *)
Definition sorted_paths (l : list Path) : list Path := merge_sort path_le l.

Lemma sorted_paths_perm l : sorted_paths l ≡ₚ l.
Proof. apply merge_sort_Permutation. Qed.

Lemma elem_of_sorted_paths p l : p ∈ sorted_paths l <-> p ∈ l.
Proof. by rewrite sorted_paths_perm. Qed.

Lemma sorted_paths_sorted l : Sorted path_le (sorted_paths l).
Proof. apply (Sorted_merge_sort path_le). Qed.

(** ** What the operating system decides *)

(** [create_directories] may fail, and whether a path can be opened for writing
    depends on permissions; creating directories keeps the files and the directories
    there are, and makes only prefixes of the path directories. *)
Class FileSystem (T : Type) := {
  create_directories : Path -> Disk T -> Disk T * result unit;
  can_open : Path -> Disk T -> bool;
  create_directories_files : forall p d, dk_files (create_directories p d).1 = dk_files d;
  create_directories_dirs : forall p d, dk_dirs d ⊆ dk_dirs (create_directories p d).1;
  create_directories_new : forall p d q, q ∈ dk_dirs (create_directories p d).1 ->
    q ∈ dk_dirs d \/ exists n, q = take n p }.

(** A file system without failures: every prefix becomes a directory. *)
Module DiskDemo.
Definition prefixes (p : Path) : list Path := (fun n => take (S n) p) <$> seq 0 (length p).

#[global, refine] Instance permissive {T : Type} : FileSystem T := {|
  create_directories p d := (d <| dk_dirs ::= fun s => s ∪ list_to_set (prefixes p) |>, Ok tt);
  can_open p d := is_directory d (parent_path p) || bool_decide (parent_path p = []) |}.
Proof.
  - done.
  - intros p d. cbn. apply union_subseteq_l.
  - intros p d q. cbn. rewrite elem_of_union, elem_of_list_to_set. intros [?|Hq]; [by left|right].
    apply list_elem_of_fmap in Hq as (n & -> & _). by exists (S n).
Defined.

Example extensions :
  extension ["data"; "a.json"] = ".json"%string /\ extension [".json"] = ""%string /\
  extension ["a.b.json"] = ".json"%string /\ extension [".."] = ""%string /\ extension ["vehicles"] = ""%string.
Proof. done. Qed.

Example paths :
  path_string [""; "data"; "x.json"] = "/data/x.json"%string /\ parent_path ["data"; "x.json"] = ["data"] /\
  sorted_paths [["b"]; ["a"; "z"]; ["a"]] = [["a"]; ["a"; "z"]; ["b"]].
Proof. by vm_compute. Qed.
End DiskDemo.
