(* ===== verification/UidTools.v ===== *)
(** * UidTools: the registry of identifiers and the generator of fresh ones

    [tools/shared]: [UidRegistry], [UidValidator], [UidGeneratorService] and the
    legend of domains and kinds, shared by the identifier generator and the fleet
    editor.  The registry is an ordered map, its listing is in ascending order. *)
From S2P Require Import Prelude Types Json Paths.
From stdpp Require Import sorting.
Local Open Scope Z_scope.

(** ** The registry *)

Module UidRegistry.
(* SRC tools/shared/registry/uid_registry.hpp 13-17 UidRegistryEntry *)
Record Entry := mkEntry { uid : UID; source_file : Path }.

(* SRC tools/shared/registry/uid_registry.hpp 19-33 UidRegistry *)
Definition t : Type := gmap UID Path.

(* SRC tools/shared/registry/uid_registry.cpp 8-11 UidRegistry::insert *)
Definition insert (u : UID) (file : Path) (r : t) : t * bool :=
  match r !! u with
  | Some _ => (r, false)
  | None => (<[u := file]> r, true)
  end.

(* SRC tools/shared/registry/uid_registry.cpp 13-16 UidRegistry::contains *)
Definition contains (r : t) (u : UID) : bool := bool_decide (is_Some (r !! u)).

(* SRC tools/shared/registry/uid_registry.cpp 18-26 UidRegistry::sourceFile *)
Definition sourceFile (r : t) (u : UID) : option Path := r !! u.

Definition uid_le (a b : Entry) : Prop := value (uid a) <= value (uid b).
#[global] Instance uid_le_dec : RelDecision uid_le.
Proof. intros a b. unfold uid_le. apply _. Defined.
#[global] Instance uid_le_total : Total uid_le.
Proof. intros a b. unfold uid_le. lia. Qed.
#[global] Instance uid_le_trans : Transitive uid_le.
Proof. intros a b c. unfold uid_le. lia. Qed.

(* SRC tools/shared/registry/uid_registry.cpp 28-37 UidRegistry::entries *)
Definition entries (r : t) : list Entry :=
  merge_sort uid_le ((fun kv => mkEntry kv.1 kv.2) <$> map_to_list r).

(* SRC tools/shared/registry/uid_registry.cpp 39-42 UidRegistry::size *)
Definition size (r : t) : nat := base.size r.

(* SRC tools/shared/registry/uid_registry.cpp 44-47 UidRegistry::empty *)
Definition empty (r : t) : bool := bool_decide (r = ∅).

(* SRC tools/shared/registry/uid_registry.cpp 49-52 UidRegistry::clear *)
Definition clear (r : t) : t := ∅.

(** ** What it keeps *)

Lemma contains_spec r u : contains r u = true <-> is_Some (r !! u).
Proof. apply bool_decide_eq_true. Qed.

Lemma not_contained r u : contains r u = false <-> r !! u = None.
Proof. unfold contains. rewrite bool_decide_eq_false. symmetry. apply eq_None_not_Some. Qed.

(** An identifier keeps the file it was first seen in. *)
Lemma insert_lookup u file r v :
  (insert u file r).1 !! v = match r !! v with Some f => Some f | None => if decide (v = u) then Some file else None end.
Proof.
  unfold insert, t in *. destruct (r !! u) as [f|] eqn:E; cbn [fst].
  - destruct (r !! v) eqn:Ev; [done|]. case_decide; [by simplify_eq|done].
  - destruct (decide (v = u)) as [->|Hne].
    + by rewrite E, lookup_insert_eq.
    + rewrite lookup_insert_ne by done. by destruct (r !! v).
Qed.

Lemma insert_contains u file r v :
  contains (insert u file r).1 v = contains r v || bool_decide (v = u).
Proof.
  unfold contains. rewrite insert_lookup. destruct (r !! v) eqn:E.
  - by rewrite (bool_decide_true _ (mk_is_Some _ _ eq_refl)).
  - rewrite (bool_decide_false (is_Some None)) by by intros [].
    case_decide; [|by rewrite !bool_decide_false by (done || by intros [])].
    by rewrite !bool_decide_true by (done || by eexists).
Qed.

Lemma elem_of_entries r e : e ∈ entries r <-> r !! uid e = Some (source_file e).
Proof.
  unfold entries. rewrite merge_sort_Permutation, list_elem_of_fmap. split.
  - by intros ([u f] & -> & H%elem_of_map_to_list).
  - intros H. exists (uid e, source_file e). split; [by destruct e|by apply elem_of_map_to_list].
Qed.

Lemma entries_sorted r : StronglySorted uid_le (entries r).
Proof. apply (StronglySorted_merge_sort uid_le). Qed.

Lemma entries_length r : length (entries r) = size r.
Proof.
  unfold entries, size, t in *. rewrite (Permutation_length (merge_sort_Permutation _ _)), length_fmap.
  by rewrite length_map_to_list.
Qed.
End UidRegistry.

(** ** The generator *)

(* SRC tools/shared/registry/uid_validator.cpp 13-16 UidValidator::isAvailable *)
Definition isAvailable (registry : UidRegistry.t) (uid : UID) : bool := negb (UidRegistry.contains registry uid).

Module UidGenerator.
Section Generate.
Context (registry : UidRegistry.t).

(** [std::numeric_limits<std::uint16_t>::max()]. *)
Definition instance_count : Z := 65535.

(** The instance of the candidate at [offset]: the instances from [start] on,
    going back to 1 after 65535. *)
Definition instance_at (start offset : Z) : Z := u16 ((start - 1 + offset) mod instance_count + 1).

Definition acceptable (candidate : UID) : bool :=
  uid_is_safe_json_integer candidate && isAvailable registry candidate.

(** The loop, with as many rounds left as [fuel]. *)
Fixpoint search (candidate_at : Z -> UID) (fuel : nat) (offset : Z) : option UID :=
  match fuel with
  | O => None
  | S fuel =>
      let candidate := candidate_at offset in
      if acceptable candidate then Some candidate else search candidate_at fuel (offset + 1)
  end.

(* SRC tools/shared/services/uid_generator_service.cpp 10-13 UidExhaustedException::UidExhaustedException *)
Definition UidExhaustedException : exception :=
  UidExhausted "No available INSTANCE in this SCOPE - all 65534 slots are taken".

(* SRC tools/shared/services/uid_generator_service.cpp 20-43 UidGeneratorService::generate *)
Definition generate (domain : UIDDomain.t) (kind : UIDKind.t) (scope first_instance : Z) : result UID :=
  if first_instance =? 0 then Throw (invalid_argument "INSTANCE must be in range 0x0001-0xFFFF")
  else
    get UidExhaustedException
      (search (fun offset => make_uid domain kind scope (instance_at first_instance offset))
              (Z.to_nat instance_count) 0).

(** ** What it finds *)

Lemma search_some f n o u :
  search f n o = Some u <->
  exists i, o <= i < o + Z.of_nat n /\ u = f i /\ acceptable (f i) = true /\
            forall j, o <= j < i -> acceptable (f j) = false.
Proof.
  revert o. induction n as [|n IH]; intros o; cbn [search].
  - split; [done|]. intros (i & ? & _). lia.
  - destruct (acceptable (f o)) eqn:Ha.
    + split.
      * intros [= <-]. exists o. repeat split; try lia; done.
      * intros (i & Hi & -> & Hai & Hj). destruct (decide (i = o)) as [->|Hne]; [done|].
        rewrite Hj in Ha by lia. done.
    + rewrite IH. split; intros (i & Hi & -> & Hai & Hj).
      * exists i. repeat split; [lia|lia|done|]. intros j Hjr.
        destruct (decide (j = o)) as [->|Hne]; [done|]. apply Hj. lia.
      * exists i. repeat split; [|lia|done|].
        -- destruct (decide (i = o)) as [->|Hne]; [congruence|lia].
        -- intros j Hjr. apply Hj. lia.
Qed.

Lemma search_none f n o :
  search f n o = None <-> forall i, o <= i < o + Z.of_nat n -> acceptable (f i) = false.
Proof.
  revert o. induction n as [|n IH]; intros o; cbn [search].
  - split; [intros _ i ?; lia|done].
  - destruct (acceptable (f o)) eqn:Ha.
    + split; [done|]. intros H. rewrite H in Ha by lia. done.
    + rewrite IH. split; intros H i Hi.
      * destruct (decide (i = o)) as [->|Hne]; [done|]. apply H. lia.
      * apply H. lia.
Qed.

(** The candidates run through the instances 1 to 65535, each once. *)
Lemma instance_at_range start offset : 1 <= instance_at start offset <= 65535.
Proof.
  unfold instance_at. pose proof (Z.mod_pos_bound (start - 1 + offset) instance_count eq_refl).
  unfold instance_count in *. rewrite wrap_small by (unfold fits; lia). lia.
Qed.

Lemma instance_at_onto start i :
  1 <= i <= 65535 -> exists o, 0 <= o < 65535 /\ instance_at start o = i.
Proof.
  intros Hi. exists ((i - start) mod instance_count).
  pose proof (Z.mod_pos_bound (i - start) instance_count eq_refl) as Hb.
  split; [exact Hb|]. unfold instance_at. rewrite Z.add_mod_idemp_r by done.
  replace (start - 1 + (i - start)) with (i - 1) by lia.
  unfold instance_count. rewrite Z.mod_small by lia. rewrite wrap_small by (unfold fits; lia). lia.
Qed.

(** A structured identifier is JSON-safe, so only the registry decides. *)
Lemma acceptable_make_uid d k s i :
  fits 16 s -> 1 <= i <= 65535 ->
  acceptable (make_uid d k s i) = negb (UidRegistry.contains registry (make_uid d k s i)).
Proof.
  intros Hs Hi. unfold acceptable, isAvailable, uid_is_safe_json_integer.
  destruct (enum_byte d k) as [Hd Hk].
  rewrite make_uid_value by (unfold fits in *; lia). unfold fits in *.
  change UID_MAX_SAFE_JSON_INTEGER with 9007199254740991.
  by rewrite (proj2 (Z.leb_le _ _)) by lia.
Qed.

(** [generate] throws exactly on instance 0 and when all 65535 instances of the scope
    are registered; otherwise it returns the first free instance from
    [first_instance] on, continuing at 1 after 65535. *)
Lemma generate_cases d k s first :
  fits 16 s ->
  match generate d k s first with
  | Ok u =>
      first <> 0 /\ exists o, 0 <= o < 65535 /\ u = make_uid d k s (instance_at first o) /\
        registry !! u = None /\
        forall j, 0 <= j < o -> is_Some (registry !! make_uid d k s (instance_at first j))
  | Throw e =>
      (first = 0 /\ e = invalid_argument "INSTANCE must be in range 0x0001-0xFFFF") \/
      (first <> 0 /\ e = UidExhaustedException /\
       forall i, 1 <= i <= 65535 -> is_Some (registry !! make_uid d k s i))
  end.
Proof.
  intros Hs. unfold generate. destruct (Z.eqb_spec first 0) as [->|Hf]; [by left|].
  assert (forall o, acceptable (make_uid d k s (instance_at first o)) = false ->
                    is_Some (registry !! make_uid d k s (instance_at first o))) as Htaken.
  { intros o Ho. rewrite acceptable_make_uid in Ho by (done || apply instance_at_range).
    by apply negb_false_iff, UidRegistry.contains_spec in Ho. }
  destruct (search _ _ _) as [u|] eqn:E; cbn [get].
  - apply search_some in E as (o & Ho & -> & Ha & Hj). split; [done|]. exists o.
    rewrite acceptable_make_uid in Ha by (done || apply instance_at_range).
    apply negb_true_iff, UidRegistry.not_contained in Ha.
    repeat split; [lia|unfold instance_count in Ho; lia|done|]. intros j Hjr. by apply Htaken, Hj.
  - right. split; [done|]. split; [done|]. intros i Hi.
    destruct (instance_at_onto first i Hi) as (o & Ho & <-).
    apply Htaken, (proj1 (search_none _ _ _) E). unfold instance_count. lia.
Qed.

(** What [generate] returns is free, structured, and of the requested kind. *)
Lemma generate_free d k s first u :
  fits 16 s -> generate d k s first = Ok u ->
  registry !! u = None /\ uid_has_kind u d k = true /\ uid_scope u = s /\ uid_structured u /\
  1 <= uid_instance u <= 65535.
Proof.
  intros Hs E. pose proof (generate_cases d k s first Hs) as H. rewrite E in H.
  destruct H as (_ & o & _ & -> & Hfree & _). pose proof (instance_at_range first o) as Hi.
  assert (fits 16 (instance_at first o)) as Hfi by (unfold fits; lia).
  pose proof (make_uid_value d k s _ Hs Hfi) as Hv.
  destruct (enum_byte d k) as [Hd Hk].
  destruct (uid_fields_of_value _ _ _ _ _ Hd Hk Hs Hfi Hv) as (Ed & Ek & Es & Ei).
  repeat split; try done; try lia.
  - unfold uid_has_kind, uid_is_safe_json_integer. rewrite Ed, Ek, !Z.eqb_refl, Hv, !andb_true_r.
    unfold fits in *. change UID_MAX_SAFE_JSON_INTEGER with 9007199254740991. apply Z.leb_le. lia.
  - unfold uid_structured, fits in *. rewrite Hv. lia.
  - unfold uid_structured, fits in *. rewrite Hv. lia.
Qed.
End Generate.
End UidGenerator.

(** ** The legend *)

Module UidLegend.
(* SRC tools/shared/domain/uid_legend_table.hpp 13-20 UidLegendEntry *)
Record UidLegendEntry := mkEntry {
  domain : UIDDomain.t; domain_name : string; kind : UIDKind.t; kind_name : string;
  scope_semantics : string }.

(* SRC tools/shared/domain/uid_legend_table.hpp 22-26 kKnownUidDomains *)
Definition kKnownUidDomains : list UIDDomain.t :=
  [UIDDomain.ROLLING_STOCK; UIDDomain.INFRASTRUCTURE; UIDDomain.OPERATIONS].

(* SRC tools/shared/domain/uid_legend_table.hpp 28-36 kKnownUidKinds *)
Definition kKnownUidKinds : list UIDKind.t :=
  [UIDKind.VEHICLE_TYPE; UIDKind.VEHICLE; UIDKind.TRAIN_CONSIST; UIDKind.CARRIER; UIDKind.STATION;
   UIDKind.DISPATCH_AREA; UIDKind.TRACK_SECTION; UIDKind.SWITCH; UIDKind.SIGNAL; UIDKind.DERAILER;
   UIDKind.BLOCK_SECTION; UIDKind.BOUNDARY_NODE; UIDKind.LEVEL_CROSSING; UIDKind.AXLE_COUNTER;
   UIDKind.INTERLOCKING; UIDKind.POWER_SUPPLY; UIDKind.ROUTE; UIDKind.ALARM; UIDKind.DISPATCH_EXCHANGE].

Definition rolling (k : UIDKind.t) (name semantics : string) : UidLegendEntry :=
  mkEntry UIDDomain.ROLLING_STOCK "ROLLING_STOCK" k name semantics.
Definition infra (k : UIDKind.t) (name : string) : UidLegendEntry :=
  mkEntry UIDDomain.INFRASTRUCTURE "INFRASTRUCTURE" k name "Numer instancji stacji".
Definition oper (k : UIDKind.t) (name : string) : UidLegendEntry :=
  mkEntry UIDDomain.OPERATIONS "OPERATIONS" k name "Numer instancji stacji albo 0 dla całej sesji".

(* SRC tools/shared/domain/uid_legend_table.hpp 38-77 kUidLegendEntries *)
Definition kUidLegendEntries : list UidLegendEntry :=
  [rolling UIDKind.VEHICLE_TYPE "VEHICLE_TYPE" "Kod serii/rodziny pojazdu albo 0";
   rolling UIDKind.VEHICLE "VEHICLE" "Kod serii/rodziny pojazdu albo 0";
   rolling UIDKind.TRAIN_CONSIST "TRAIN_CONSIST" "Kod serii/rodziny pojazdu albo 0";
   rolling UIDKind.CARRIER "CARRIER" "Zawsze 0";
   infra UIDKind.STATION "STATION"; infra UIDKind.DISPATCH_AREA "DISPATCH_AREA";
   infra UIDKind.TRACK_SECTION "TRACK_SECTION"; infra UIDKind.SWITCH "SWITCH";
   infra UIDKind.SIGNAL "SIGNAL"; infra UIDKind.DERAILER "DERAILER";
   infra UIDKind.BLOCK_SECTION "BLOCK_SECTION"; infra UIDKind.BOUNDARY_NODE "BOUNDARY_NODE";
   infra UIDKind.LEVEL_CROSSING "LEVEL_CROSSING"; infra UIDKind.AXLE_COUNTER "AXLE_COUNTER";
   infra UIDKind.INTERLOCKING "INTERLOCKING"; infra UIDKind.POWER_SUPPLY "POWER_SUPPLY";
   oper UIDKind.ROUTE "ROUTE"; oper UIDKind.ALARM "ALARM";
   oper UIDKind.DISPATCH_EXCHANGE "DISPATCH_EXCHANGE"].

(* SRC tools/shared/domain/uid_legend_table.hpp 79-116 uidLegendIsComplete *)
Definition uidLegendIsComplete : bool :=
  if negb (length kUidLegendEntries =? length kKnownUidKinds)%nat then false
  else if negb (forallb (fun d => existsb (fun e => bool_decide (domain e = d)) kUidLegendEntries)
                        kKnownUidDomains) then false
  else forallb (fun k => (length (List.filter (fun e => bool_decide (kind e = k)) kUidLegendEntries) =? 1)%nat)
               kKnownUidKinds.

(* SRC tools/shared/domain/uid_legend_table.hpp 121-124 uidDomainValue *)
Definition uidDomainValue (e : UidLegendEntry) : Z := u8 (code (domain e)).

(* SRC tools/shared/domain/uid_legend_table.hpp 126-129 uidKindValue *)
Definition uidKindValue (e : UidLegendEntry) : Z := u8 (code (kind e)).

(** [static_assert(uidLegendIsComplete())]. *)
Example legend_is_complete : uidLegendIsComplete = true.
Proof. by vm_compute. Qed.

(** The known kinds are not all kinds: the two of the timetable are missing. *)
Example legend_misses_timetable :
  List.filter (fun k => negb (existsb (fun e => bool_decide (kind e = k)) kUidLegendEntries)) UIDKind.all =
  [UIDKind.TIMETABLE_POINT; UIDKind.TIMETABLE_CONNECTION].
Proof. by vm_compute. Qed.

(** An entry shows the bytes its identifiers carry. *)
Lemma legend_bytes e s i :
  fits 16 s -> fits 16 i ->
  uid_domain (make_uid (domain e) (kind e) s i) = uidDomainValue e /\
  uid_kind (make_uid (domain e) (kind e) s i) = uidKindValue e.
Proof.
  intros Hs Hi. destruct (enum_byte (domain e) (kind e)) as [Hd Hk].
  destruct (uid_fields_of_value _ _ _ _ _ Hd Hk Hs Hi (make_uid_value _ _ _ _ Hs Hi)) as (Ed & Ek & _).
  unfold uidDomainValue, uidKindValue. by rewrite !wrap_small.
Qed.
End UidLegend.
