(* ===== verification/FleetFiles.v ===== *)
(** * FleetFiles: the fleet as the tools read it from files

    [tools/shared/data] and [tools/shared/domain/fleet_types.hpp]: the records of
    the tools, [JsonLoader], the two data sources and the load of a whole data set
    with its registry ([vehicle-browser/application/browser_data_controller.cpp]).
    The file system is a [Disk], its texts those of the JSON library. *)
From S2P Require Import Prelude Float32 Types Text Json Paths UidTools.
From stdpp Require Import sorting.
Local Open Scope Z_scope.

(** ** Records *)

Module FleetData.
(* SRC tools/shared/domain/fleet_types.hpp 12-33 VehicleType *)
Record VehicleType := mkVehicleType {
  vt_uid : UID; vt_type_name : string; vt_pkp_series : option string; vt_family : option string;
  vt_vehicle_type : string; vt_vehicle_subtype : option string; vt_length_m : float; vt_axle_count : Z;
  vt_mass_empty_t : float; vt_mass_gross_t : option float; vt_max_speed_kmh : Z;
  vt_braking_lambda_pct : Z; vt_power_kw : option float; vt_traction_force_kn : option float;
  vt_multiple_coupling_capable : option bool; vt_davis_a : option float; vt_davis_b : option float;
  vt_davis_c : option float; vt_source_file : Path }.

(* SRC tools/shared/domain/fleet_types.hpp 35-59 Vehicle *)
Record Vehicle := mkVehicle {
  v_uid : UID; v_type_uid : UID; v_pid : string; v_display_name : string;
  v_vehicle_type : option string; v_vehicle_subtype : option string; v_length_m : option float;
  v_axle_count : option Z; v_mass_empty_t : option float; v_mass_gross_t : option float;
  v_max_speed_kmh : option Z; v_braking_lambda_pct : option Z; v_power_kw : option float;
  v_traction_force_kn : option float; v_davis_a : option float; v_davis_b : option float;
  v_davis_c : option float; v_traction_status : option string; v_carrier_id : option UID;
  v_inventory_number : option string; v_notes : option string; v_source_file : Path }.
#[export] Instance Vehicle_eta : Eta Vehicle := fun v =>
  mkVehicle (v_uid v) (v_type_uid v) (v_pid v) (v_display_name v) (v_vehicle_type v) (v_vehicle_subtype v)
    (v_length_m v) (v_axle_count v) (v_mass_empty_t v) (v_mass_gross_t v) (v_max_speed_kmh v)
    (v_braking_lambda_pct v) (v_power_kw v) (v_traction_force_kn v) (v_davis_a v) (v_davis_b v)
    (v_davis_c v) (v_traction_status v) (v_carrier_id v) (v_inventory_number v) (v_notes v) (v_source_file v).

(* SRC tools/shared/domain/fleet_types.hpp 61-70 Train *)
Record Train := mkTrain {
  t_uid : UID; t_pid : string; t_display_name : string; t_train_category : string;
  t_carrier_id : option UID; t_vehicle_uids : list UID; t_source_file : Path }.
#[export] Instance Train_eta : Eta Train := fun t =>
  mkTrain (t_uid t) (t_pid t) (t_display_name t) (t_train_category t) (t_carrier_id t) (t_vehicle_uids t)
    (t_source_file t).
End FleetData.
Import FleetData.

(** ** The loader *)

Module JsonLoader.
(* SRC tools/shared/data/json_loader.hpp 11-17 JsonDocumentType *)
Inductive JsonDocumentType : Set := | UNKNOWN | VEHICLE_TYPE | VEHICLE | TRAIN.
#[global] Instance JsonDocumentType_eq_dec : EqDecision JsonDocumentType.
Proof. solve_decision. Defined.

Section Loader.
Context {JL : JsonLib} {JT : JsonText}.

(** [std::ifstream]: the characters of the file at [path], [None] if it does not
    open; a directory opens and has none. *)
Definition input (d : Disk j_text) (path : Path) : option j_text :=
  match dk_files d !! path with
  | Some (Bytes t) => Some t
  | Some Unreadable => None
  | None => if is_directory d path then Some no_text else None
  end.

(* SRC tools/shared/data/json_loader.cpp 19-45 parseJsonFile *)
Definition parseJsonFile (d : Disk j_text) (path : Path) : result json :=
  t ← get (JsonLoadError ("Cannot open JSON file: " +:+ path_string path)) (input d path);
  match j_parse t with
  | inl what => Throw (JsonLoadError ("Cannot parse JSON file " +:+ path_string path +:+ ": " +:+ what))
  | inr document =>
      _ ← throw_if (negb (is_object document))
            (JsonLoadError ("JSON root must be an object: " +:+ path_string path));
      Ok document
  end.

Section Fields.
Context (document : json) (path : Path).

Definition load_error (before key after : string) : exception :=
  JsonLoadError (before +:+ " '" +:+ key +:+ "'" +:+ after +:+ path_string path).

(* SRC tools/shared/data/json_loader.cpp 47-56 requireString *)
Definition requireString (key : string) : result string :=
  _ ← throw_if (lacks is_string document key) (load_error "Missing or invalid string field" key " in ");
  v ← j_at document key; get json_exception (get_string v).

(* SRC tools/shared/data/json_loader.cpp 58-71 optionalString *)
Definition optionalString (key : string) : result (option string) :=
  if absent document key then Ok None
  else _ ← throw_if (lacks is_string document key) (load_error "Invalid string field" key " in ");
       v ← j_at document key; s ← get json_exception (get_string v); Ok (Some s).

(* SRC tools/shared/data/json_loader.cpp 73-82 requireDouble *)
Definition requireDouble (key : string) : result float :=
  _ ← throw_if (lacks is_number document key) (load_error "Missing or invalid numeric field" key " in ");
  v ← j_at document key; get json_exception (get_double v).

(* SRC tools/shared/data/json_loader.cpp 84-97 optionalDouble *)
Definition optionalDouble (key : string) : result (option float) :=
  if absent document key then Ok None
  else _ ← throw_if (lacks is_number document key) (load_error "Invalid numeric field" key " in ");
       v ← j_at document key; x ← get json_exception (get_double v); Ok (Some x).

(* SRC tools/shared/data/json_loader.cpp 99-115 requireInt *)
Definition requireInt (key : string) : result Z :=
  _ ← throw_if (lacks is_number_integer document key)
        (load_error "Missing or invalid integer field" key " in ");
  v ← j_at document key; value ← get json_exception (get_i64 v);
  _ ← throw_if ((value <? - 2 ^ 31) || (2 ^ 31 - 1 <? value))
        (load_error "Integer field" key " is out of range in ");
  Ok value.

(* SRC tools/shared/data/json_loader.cpp 117-125 optionalInt *)
Definition optionalInt (key : string) : result (option Z) :=
  if absent document key then Ok None else value ← requireInt key; Ok (Some value).

(* SRC tools/shared/data/json_loader.cpp 127-140 optionalBool *)
Definition optionalBool (key : string) : result (option bool) :=
  if absent document key then Ok None
  else _ ← throw_if (lacks is_boolean document key) (load_error "Invalid boolean field" key " in ");
       v ← j_at document key; b ← get json_exception (get_bool v); Ok (Some b).

(** [uid.value == 0 || !uid_is_safe_json_integer(uid)]. *)
Definition not_persistable (uid : UID) : bool := (value uid =? 0) || negb (uid_is_safe_json_integer uid).

(* SRC tools/shared/data/json_loader.cpp 142-158 requireUid *)
Definition requireUid (key : string) : result UID :=
  _ ← throw_if (lacks is_number_unsigned document key) (load_error "Missing or invalid UID field" key " in ");
  v ← j_at document key; n ← get json_exception (get_u64 v);
  _ ← throw_if (not_persistable (mkUID n))
        (load_error "UID field" key " is outside the supported JSON-safe range in ");
  Ok (mkUID n).

(* SRC tools/shared/data/json_loader.cpp 160-168 optionalUid *)
Definition optionalUid (key : string) : result (option UID) :=
  if absent document key then Ok None else uid ← requireUid key; Ok (Some uid).

(* SRC tools/shared/data/json_loader.cpp 170-195 parseVehicleType *)
Definition parseVehicleType : result VehicleType :=
  uid ← requireUid "uid"; type_name ← requireString "typeName"; pkp_series ← optionalString "pkpSeries";
  family ← optionalString "family"; vehicle_type ← requireString "vehicleType";
  vehicle_subtype ← optionalString "vehicleSubtype"; length_m ← requireDouble "lengthM";
  axle_count ← requireInt "axleCount"; mass_empty_t ← requireDouble "massEmptyT";
  mass_gross_t ← optionalDouble "massGrossT"; max_speed_kmh ← requireInt "maxSpeedKmh";
  braking_lambda_pct ← requireInt "brakingLambdaPct"; power_kw ← optionalDouble "powerKW";
  traction_force_kn ← optionalDouble "tractionForceKN";
  coupling ← optionalBool "multipleCouplingCapable";
  davis_a ← optionalDouble "davisA"; davis_b ← optionalDouble "davisB"; davis_c ← optionalDouble "davisC";
  Ok (mkVehicleType uid type_name pkp_series family vehicle_type vehicle_subtype length_m axle_count
        mass_empty_t mass_gross_t max_speed_kmh braking_lambda_pct power_kw traction_force_kn coupling
        davis_a davis_b davis_c path).

(* SRC tools/shared/data/json_loader.cpp 197-223 parseVehicle *)
Definition parseVehicle : result Vehicle :=
  uid ← requireUid "uid"; type_uid ← requireUid "type_uid"; pid ← requireString "pID";
  display_name ← requireString "displayName"; vehicle_type ← optionalString "vehicleType";
  vehicle_subtype ← optionalString "vehicleSubtype"; length_m ← optionalDouble "lengthM";
  axle_count ← optionalInt "axleCount"; mass_empty_t ← optionalDouble "massEmptyT";
  mass_gross_t ← optionalDouble "massGrossT"; max_speed_kmh ← optionalInt "maxSpeedKmh";
  braking_lambda_pct ← optionalInt "brakingLambdaPct"; power_kw ← optionalDouble "powerKW";
  traction_force_kn ← optionalDouble "tractionForceKN";
  davis_a ← optionalDouble "davisA"; davis_b ← optionalDouble "davisB"; davis_c ← optionalDouble "davisC";
  traction_status ← optionalString "tractionStatus"; carrier_id ← optionalUid "carrierId";
  inventory_number ← optionalString "inventoryNumber"; notes ← optionalString "notes";
  Ok (mkVehicle uid type_uid pid display_name vehicle_type vehicle_subtype length_m axle_count mass_empty_t
        mass_gross_t max_speed_kmh braking_lambda_pct power_kw traction_force_kn davis_a davis_b davis_c
        traction_status carrier_id inventory_number notes path).

(** The body of the loop over [vehicle_uids]. *)
(* SRC tools/shared/data/json_loader.cpp 244-257 parseTrain *)
Definition vehicle_uid_at (index : nat) (v : json) : result UID :=
  _ ← throw_if (negb (is_number_unsigned v))
        (JsonLoadError ("Invalid vehicle UID at index " +:+ to_string (Z.of_nat index) +:+ " in " +:+
                        path_string path));
  n ← get json_exception (get_u64 v);
  _ ← throw_if (not_persistable (mkUID n))
        (JsonLoadError ("Vehicle UID at index " +:+ to_string (Z.of_nat index) +:+
                        " is outside the supported JSON-safe range in " +:+ path_string path));
  Ok (mkUID n).

(* SRC tools/shared/data/json_loader.cpp 242-258 parseTrain *)
Fixpoint vehicle_uids_from (index : nat) (l : list json) : result (list UID) :=
  match l with
  | [] => Ok []
  | v :: l => uid ← vehicle_uid_at index v; uids ← vehicle_uids_from (S index) l; Ok (uid :: uids)
  end.

(* SRC tools/shared/data/json_loader.cpp 225-262 parseTrain *)
Definition parseTrain : result Train :=
  uid ← requireUid "uid"; pid ← requireString "pID"; display_name ← requireString "displayName";
  train_category ← requireString "trainCategory"; carrier_id ← optionalUid "carrierId";
  _ ← throw_if (lacks is_array document "vehicle_uids")
        (load_error "Missing or invalid UID array field" "vehicle_uids" " in ");
  v ← j_at document "vehicle_uids";
  vehicle_uids ← vehicle_uids_from 0 (j_items v);
  Ok (mkTrain uid pid display_name train_category carrier_id vehicle_uids path).
End Fields.

(* SRC tools/shared/data/json_loader.cpp 266-282 JsonLoader::detectDocumentType *)
Definition detectDocumentType (d : Disk j_text) (path : Path) : result JsonDocumentType :=
  document ← parseJsonFile d path;
  Ok (if contains document "vehicle_uids" && contains document "trainCategory" then TRAIN
      else if contains document "type_uid" && contains document "pID" then VEHICLE
      else if contains document "typeName" && contains document "vehicleType" then VEHICLE_TYPE
      else UNKNOWN).

(* SRC tools/shared/data/json_loader.cpp 284-287 JsonLoader::loadVehicleType *)
Definition loadVehicleType (d : Disk j_text) (path : Path) : result VehicleType :=
  document ← parseJsonFile d path; parseVehicleType document path.
(* SRC tools/shared/data/json_loader.cpp 289-292 JsonLoader::loadVehicle *)
Definition loadVehicle (d : Disk j_text) (path : Path) : result Vehicle :=
  document ← parseJsonFile d path; parseVehicle document path.
(* SRC tools/shared/data/json_loader.cpp 294-297 JsonLoader::loadTrain *)
Definition loadTrain (d : Disk j_text) (path : Path) : result Train :=
  document ← parseJsonFile d path; parseTrain document path.
End Loader.
End JsonLoader.

(** ** The data sources *)

(* SRC tools/shared/data/i_data_source.hpp 17-28 IDataSource *)
Record IDataSource (T : Type) := mkDataSource {
  validate : Disk T -> result unit;
  loadVehicleTypes : Disk T -> result (list VehicleType);
  loadVehicles : Disk T -> result (list Vehicle);
  loadTrains : Disk T -> result (list Train) }.
Arguments mkDataSource {T}. Arguments validate {T}. Arguments loadVehicleTypes {T}.
Arguments loadVehicles {T}. Arguments loadTrains {T}.

(** [catch (const JsonLoadError&) {}] around the body of a loop that collects
    records: a file that does not load is left out. *)
(* SRC tools/shared/data/packages_data_source.cpp 82-92 loadFiles *)
Fixpoint load_each {A : Type} (loader : Path -> result (option A)) (files : list Path) : result (list A) :=
  match files with
  | [] => Ok []
  | p :: files =>
      match loader p with
      | Ok o => records ← load_each loader files; Ok (option_list o ++ records)
      | Throw (JsonLoadError _) => load_each loader files
      | Throw e => Throw e
      end
  end.

Module DirectoryDataSource.
Section Source.
Context {JL : JsonLib} {JT : JsonText}.

(* SRC tools/shared/data/directory_data_source.cpp 16-31 ensureDirectory *)
Definition ensureDirectory (d : Disk j_text) (root : Path) : result unit :=
  _ ← throw_if (negb (exists_path d root))
        (DataSourceError ("Data source directory does not exist: " +:+ path_string root));
  throw_if (negb (is_directory d root))
    (DataSourceError ("Data source path is not a directory: " +:+ path_string root)).

(* SRC tools/shared/data/directory_data_source.cpp 33-58 collectJsonFiles *)
Definition collectJsonFiles (d : Disk j_text) (root : Path) : result (list Path) :=
  _ ← ensureDirectory d root;
  Ok (sorted_paths (filter (fun p => extension p = ".json"%string) (files_below d root))).

(** The body of the loop: [None] for a document of another type. *)
(* SRC tools/shared/data/directory_data_source.cpp 70-73 loadRecognizedFiles *)
Definition recognized {A : Type} (loader : Disk j_text -> Path -> result A)
    (expected_type : JsonLoader.JsonDocumentType) (d : Disk j_text) (path : Path) : result (option A) :=
  type ← JsonLoader.detectDocumentType d path;
  if bool_decide (type = expected_type) then Some <$> loader d path else Ok None.

(* SRC tools/shared/data/directory_data_source.cpp 60-81 loadRecognizedFiles *)
Definition loadRecognizedFiles {A : Type} (root : Path) (expected_type : JsonLoader.JsonDocumentType)
    (loader : Disk j_text -> Path -> result A) (d : Disk j_text) : result (list A) :=
  files ← collectJsonFiles d root;
  load_each (recognized loader expected_type d) files.

(* SRC tools/shared/data/directory_data_source.cpp 85-110 DirectoryDataSource *)
Definition make (root : Path) : IDataSource j_text := {|
  validate d := ensureDirectory d root;
  loadVehicleTypes := loadRecognizedFiles root JsonLoader.VEHICLE_TYPE JsonLoader.loadVehicleType;
  loadVehicles := loadRecognizedFiles root JsonLoader.VEHICLE JsonLoader.loadVehicle;
  loadTrains := loadRecognizedFiles root JsonLoader.TRAIN JsonLoader.loadTrain |}.
End Source.
End DirectoryDataSource.

Module PackagesDataSource.
Section Source.
Context {JL : JsonLib} {JT : JsonText}.

(* SRC tools/shared/data/packages_data_source.cpp 18-33 ensureDirectory *)
Definition ensureDirectory (d : Disk j_text) (path : Path) (label : string) : result unit :=
  _ ← throw_if (negb (exists_path d path))
        (DataSourceError (label +:+ " does not exist: " +:+ path_string path));
  throw_if (negb (is_directory d path))
    (DataSourceError (label +:+ " is not a directory: " +:+ path_string path)).

(* SRC tools/shared/data/packages_data_source.cpp 35-42 ensurePackageStructure *)
Definition ensurePackageStructure (d : Disk j_text) (root : Path) : result unit :=
  _ ← ensureDirectory d root "Packages directory";
  for_each (fun _ directory => ensureDirectory d (path_div root directory) "Required packages subdirectory")
    ["vehicle-types"; "vehicles"; "trains"]%string tt.

(* SRC tools/shared/data/packages_data_source.cpp 44-74 collectFiles *)
Definition collectFiles (d : Disk j_text) (root : Path) (vehicle_files_only : bool) : result (list Path) :=
  _ ← ensureDirectory d root "Packages data directory";
  let matches p := if vehicle_files_only then bool_decide (filename p = "vehicle.json"%string)
                   else bool_decide (extension p = ".json"%string) in
  Ok (sorted_paths (filter (fun p => matches p) (files_below d root))).

(* SRC tools/shared/data/packages_data_source.cpp 76-94 loadFiles *)
Definition loadFiles {A : Type} (files : list Path) (loader : Path -> result A) : result (list A) :=
  load_each (fun p => Some <$> loader p) files.

Definition load {A : Type} (root : Path) (directory : string) (vehicle_files_only : bool)
    (loader : Disk j_text -> Path -> result A) (d : Disk j_text) : result (list A) :=
  _ ← ensurePackageStructure d root;
  files ← collectFiles d (path_div root directory) vehicle_files_only;
  loadFiles files (loader d).

(* SRC tools/shared/data/packages_data_source.cpp 98-125 PackagesDataSource *)
Definition make (packages_root : Path) : IDataSource j_text := {|
  validate d := ensurePackageStructure d packages_root;
  loadVehicleTypes := load packages_root "vehicle-types" false JsonLoader.loadVehicleType;
  loadVehicles := load packages_root "vehicles" true JsonLoader.loadVehicle;
  loadTrains := load packages_root "trains" false JsonLoader.loadTrain |}.
End Source.
End PackagesDataSource.

(** ** A whole data set *)

Module BrowserDataController.
(* SRC tools/vehicle-browser/application/browser_data_controller.hpp 17-22 BrowserDataSet *)
Record BrowserDataSet := mkDataSet {
  vehicle_types : list VehicleType; vehicles : list Vehicle; trains : list Train }.

(** [static_cast<void>(replacement.insert(uid, source_file))] for each of [uids]. *)
Definition insert_uids (source_file : Path) (uids : list UID) (r : UidRegistry.t) : UidRegistry.t :=
  fold_left (fun r u => (UidRegistry.insert u source_file r).1) uids r.

(** The identifiers a record mentions. *)
Definition uids_of_type (type : VehicleType) : list UID := [vt_uid type].
Definition uids_of_vehicle (vehicle : Vehicle) : list UID :=
  [v_uid vehicle; v_type_uid vehicle] ++ option_list (v_carrier_id vehicle).
Definition uids_of_train (train : Train) : list UID :=
  [t_uid train] ++ option_list (t_carrier_id train) ++ t_vehicle_uids train.

(* SRC tools/vehicle-browser/application/browser_data_controller.cpp 33-36 BrowserDataController::loadSource *)
Definition insert_type (r : UidRegistry.t) (type : VehicleType) : UidRegistry.t :=
  insert_uids (vt_source_file type) (uids_of_type type) r.
(* SRC tools/vehicle-browser/application/browser_data_controller.cpp 37-45 BrowserDataController::loadSource *)
Definition insert_vehicle (r : UidRegistry.t) (vehicle : Vehicle) : UidRegistry.t :=
  insert_uids (v_source_file vehicle) (uids_of_vehicle vehicle) r.
(* SRC tools/vehicle-browser/application/browser_data_controller.cpp 46-57 BrowserDataController::loadSource *)
Definition insert_train (r : UidRegistry.t) (train : Train) : UidRegistry.t :=
  insert_uids (t_source_file train) (uids_of_train train) r.

(** The registry of a data set. *)
(* SRC tools/vehicle-browser/application/browser_data_controller.cpp 32-58 BrowserDataController::loadSource *)
Definition registry_of (data : BrowserDataSet) : UidRegistry.t :=
  let replacement := fold_left insert_type (vehicle_types data) ∅ in
  let replacement := fold_left insert_vehicle (vehicles data) replacement in
  fold_left insert_train (trains data) replacement.

Section Load.
Context {JL : JsonLib} {JT : JsonText}.

(* SRC tools/vehicle-browser/application/browser_data_controller.cpp 23-60 BrowserDataController::loadSource *)
Definition loadSource (source : IDataSource j_text) (d : Disk j_text) (registry : UidRegistry.t)
    : UidRegistry.t * result BrowserDataSet :=
  let loaded :=
    _ ← validate source d;
    types ← loadVehicleTypes source d;
    vehicles ← loadVehicles source d;
    trains ← loadTrains source d;
    Ok (mkDataSet types vehicles trains) in
  match loaded with
  | Throw e => (registry, Throw e)
  | Ok data => (registry_of data, Ok data)
  end.

(* SRC tools/vehicle-browser/application/browser_data_controller.cpp 11-15 BrowserDataController::loadPackages *)
Definition loadPackages (packages_root : Path) : Disk j_text -> UidRegistry.t -> UidRegistry.t * result BrowserDataSet :=
  loadSource (PackagesDataSource.make packages_root).

(* SRC tools/vehicle-browser/application/browser_data_controller.cpp 17-21 BrowserDataController::loadDirectory *)
Definition loadDirectory (directory : Path) : Disk j_text -> UidRegistry.t -> UidRegistry.t * result BrowserDataSet :=
  loadSource (DirectoryDataSource.make directory).
End Load.
End BrowserDataController.

(** ** Errors of the loader *)

Create HintDb throws.

Definition load_failed (e : exception) : Prop := exists what, e = JsonLoadError what.

(** [r] throws only what satisfies [P]. *)
Definition throws_only {A : Type} (P : exception -> Prop) (r : result A) : Prop :=
  match r with Ok _ => True | Throw e => P e end.

Section Throws.
Context (P : exception -> Prop).

Lemma throws_bind {A B} (f : A -> result B) (r : result A) :
  throws_only P r -> (forall a, r = Ok a -> throws_only P (f a)) -> throws_only P (r ≫= f).
Proof. destruct r as [a|e]; cbn; [by intros _ H; apply H|done]. Qed.

Lemma throws_if b e : (b = true -> P e) -> throws_only P (throw_if b e).
Proof. destruct b; cbn; [by intros H; apply H|done]. Qed.
End Throws.

Section LoaderErrors.
Context {JL : JsonLib} {JT : JsonText}.

Lemma lacks_false test (j : json) key :
  lacks test j key = false <-> exists v, j_find j key = Some v /\ test v = true.
Proof.
  unfold lacks. destruct (j_find j key) as [v|].
  - rewrite negb_false_iff. split; [by exists v|]. by intros (? & [= ->] & ?).
  - split; [done|]. by intros (? & ? & _).
Qed.

(** A field that passed its test can be read. *)
Lemma read_field {A} test (getter : json -> option A) j key :
  (forall v, test v = true -> is_Some (getter v)) -> lacks test j key = false ->
  exists v a, j_find j key = Some v /\ test v = true /\ getter v = Some a.
Proof. intros Hg (v & Hv & Ht)%lacks_false. destruct (Hg v Ht) as [a Ha]. by exists v, a. Qed.

Lemma throws_get_field {A B} test (getter : json -> option A) (f : A -> result B) P j key e :
  (forall v, test v = true -> is_Some (getter v)) -> P e ->
  (forall a, throws_only P (f a)) ->
  throws_only P (_ ← throw_if (lacks test j key) e; v ← j_at j key; x ← get json_exception (getter v); f x).
Proof.
  intros Hg He Hf. apply throws_bind; [by apply throws_if|]. intros [] E. apply throw_if_ok in E.
  destruct (read_field test getter j key Hg E) as (v & a & Hv & _ & Ha).
  unfold j_at. rewrite Hv. cbn. rewrite Ha. cbn. apply Hf.
Qed.

Lemma unsigned_some (v : json) : is_number_unsigned v = true -> is_Some (get_u64 v).
Proof. intros (n & Hn & _)%unsigned_gettable. by eexists. Qed.
Lemma number_double (v : json) : is_number v = true -> is_Some (get_double v).
Proof. by intros (_ & _ & H)%number_gettable. Qed.


Lemma throws_value {A} test (getter : json -> option A) P j key e :
  (forall v, test v = true -> is_Some (getter v)) -> P e ->
  throws_only P (_ ← throw_if (lacks test j key) e; v ← j_at j key; get json_exception (getter v)).
Proof.
  intros Hg He. apply throws_bind; [by apply throws_if|]. intros [] E. apply throw_if_ok in E.
  destruct (read_field test getter j key Hg E) as (v & a & Hv & _ & Ha).
  unfold j_at. rewrite Hv. cbn. by rewrite Ha.
Qed.

Lemma throws_optional {A B} (b : bool) (r : result A) (f : A -> option B) P :
  throws_only P r -> throws_only P (if b then Ok None else x ← r; Ok (f x)).
Proof. intros Hr. destruct b; [done|]. by apply throws_bind. Qed.

Lemma throws_test {A} (b : bool) (a : A) P e : P e -> throws_only P (_ ← throw_if b e; Ok a).
Proof. intros He. apply throws_bind; [by apply throws_if|done]. Qed.

Section Fields.
Context (document : json) (path : Path) (key : string).

Ltac field_throws :=
  intros; first [eapply throws_value|eapply throws_get_field|apply throws_bind];
  eauto using string_gettable, bool_gettable, integer_gettable, unsigned_some, number_double;
  try (by eexists); intros; try (apply throws_test; by eexists).

Lemma requireString_throws : throws_only load_failed (JsonLoader.requireString document path key).
Proof. unfold JsonLoader.requireString. field_throws. Qed.
Lemma optionalString_throws : throws_only load_failed (JsonLoader.optionalString document path key).
Proof. unfold JsonLoader.optionalString. case_match; [done|]. field_throws. Qed.
Lemma requireDouble_throws : throws_only load_failed (JsonLoader.requireDouble document path key).
Proof. unfold JsonLoader.requireDouble. field_throws. Qed.
Lemma optionalDouble_throws : throws_only load_failed (JsonLoader.optionalDouble document path key).
Proof. unfold JsonLoader.optionalDouble. case_match; [done|]. field_throws. Qed.
Lemma requireInt_throws : throws_only load_failed (JsonLoader.requireInt document path key).
Proof. unfold JsonLoader.requireInt. field_throws. Qed.
Lemma optionalInt_throws : throws_only load_failed (JsonLoader.optionalInt document path key).
Proof. apply throws_optional, requireInt_throws. Qed.
Lemma optionalBool_throws : throws_only load_failed (JsonLoader.optionalBool document path key).
Proof. unfold JsonLoader.optionalBool. case_match; [done|]. field_throws. Qed.
Lemma requireUid_throws : throws_only load_failed (JsonLoader.requireUid document path key).
Proof. unfold JsonLoader.requireUid. field_throws. Qed.
Lemma optionalUid_throws : throws_only load_failed (JsonLoader.optionalUid document path key).
Proof. apply throws_optional, requireUid_throws. Qed.

Lemma vehicle_uids_throws i l : throws_only load_failed (JsonLoader.vehicle_uids_from path i l).
Proof.
  revert i. induction l as [|v l IH]; intros i; [done|]. cbn [JsonLoader.vehicle_uids_from].
  apply throws_bind; [|intros; by apply throws_bind].
  unfold JsonLoader.vehicle_uid_at. apply throws_bind; [apply throws_if; by eexists|].
  intros [] E%throw_if_ok%negb_false_iff. destruct (unsigned_some v E) as [n ->].
  apply throws_test. by eexists.
Qed.
End Fields.
Hint Resolve requireString_throws optionalString_throws requireDouble_throws optionalDouble_throws
  requireInt_throws optionalInt_throws optionalBool_throws requireUid_throws optionalUid_throws
  vehicle_uids_throws : throws.

(** Steps through a sequence of fields. *)
Ltac throws_fields :=
  repeat first [solve [eauto with throws]|apply throws_bind; [solve [eauto with throws]|intros ? _]]; try done.

Lemma parseJsonFile_throws d path : throws_only load_failed (JsonLoader.parseJsonFile d path).
Proof.
  unfold JsonLoader.parseJsonFile. apply throws_bind.
  - destruct (JsonLoader.input d path); [done|by eexists].
  - intros t _. destruct (j_parse t); [by eexists|]. apply throws_test. by eexists.
Qed.
Hint Resolve parseJsonFile_throws : throws.

Lemma parseVehicleType_throws document path : throws_only load_failed (JsonLoader.parseVehicleType document path).
Proof. unfold JsonLoader.parseVehicleType. throws_fields. Qed.
Lemma parseVehicle_throws document path : throws_only load_failed (JsonLoader.parseVehicle document path).
Proof. unfold JsonLoader.parseVehicle. throws_fields. Qed.
Lemma parseTrain_throws document path : throws_only load_failed (JsonLoader.parseTrain document path).
Proof.
  unfold JsonLoader.parseTrain. do 5 (apply throws_bind; [eauto with throws|intros ? _]).
  apply throws_bind; [apply throws_if; by eexists|]. intros [] E%throw_if_ok.
  apply lacks_false in E as (v & Hv & _). unfold j_at. rewrite Hv. cbn. throws_fields.
Qed.
Hint Resolve parseVehicleType_throws parseVehicle_throws parseTrain_throws : throws.

Lemma detectDocumentType_throws d path : throws_only load_failed (JsonLoader.detectDocumentType d path).
Proof. unfold JsonLoader.detectDocumentType. throws_fields. Qed.
Lemma loadVehicleType_throws d path : throws_only load_failed (JsonLoader.loadVehicleType d path).
Proof. unfold JsonLoader.loadVehicleType. throws_fields. Qed.
Lemma loadVehicle_throws d path : throws_only load_failed (JsonLoader.loadVehicle d path).
Proof. unfold JsonLoader.loadVehicle. throws_fields. Qed.
Lemma loadTrain_throws d path : throws_only load_failed (JsonLoader.loadTrain d path).
Proof. unfold JsonLoader.loadTrain. throws_fields. Qed.
End LoaderErrors.
#[export] Hint Resolve detectDocumentType_throws loadVehicleType_throws loadVehicle_throws loadTrain_throws : throws.

(** ** What a source finds *)

(** The record of a file, if it has one. *)
Definition found {A : Type} (loader : Path -> result (option A)) (p : Path) : option A :=
  match loader p with Ok o => o | Throw _ => None end.

(** A file that does not load hides no other. *)
Lemma load_each_found {A} (loader : Path -> result (option A)) files :
  (forall p, throws_only load_failed (loader p)) -> load_each loader files = Ok (omap (found loader) files).
Proof.
  intros Hl. induction files as [|p files IH]; [done|]. cbn [load_each omap list_omap].
  unfold found at 1. specialize (Hl p). destruct (loader p) as [o|e].
  - rewrite IH. by destruct o.
  - destruct Hl as [what ->]. done.
Qed.

Section Sources.
Context {JL : JsonLib} {JT : JsonText}.

(** The files of a directory source with documents of type [type] that [loader] reads
    as [a]. *)
Definition directory_has {A : Type} (type : JsonLoader.JsonDocumentType)
    (loader : Disk j_text -> Path -> result A) (d : Disk j_text) (root : Path) (a : A) : Prop :=
  exists p, is_file d p = true /\ below root p = true /\ extension p = ".json"%string /\
    JsonLoader.detectDocumentType d p = Ok type /\ loader d p = Ok a.

Lemma recognized_found {A} (loader : Disk j_text -> Path -> result A) type d p a :
  found (DirectoryDataSource.recognized loader type d) p = Some a <->
  JsonLoader.detectDocumentType d p = Ok type /\ loader d p = Ok a.
Proof.
  unfold found, DirectoryDataSource.recognized.
  destruct (JsonLoader.detectDocumentType d p) as [ty|]; cbn; [|naive_solver].
  case_bool_decide as E; [|naive_solver].
  destruct (loader d p); cbn; naive_solver.
Qed.

Lemma directory_load {A} root type (loader : Disk j_text -> Path -> result A) d :
  (forall d p, throws_only load_failed (loader d p)) -> is_directory d root = true ->
  exists records, DirectoryDataSource.loadRecognizedFiles root type loader d = Ok records /\
    forall a, a ∈ records <-> directory_has type loader d root a.
Proof.
  intros Hl Hd. unfold DirectoryDataSource.loadRecognizedFiles, DirectoryDataSource.collectJsonFiles,
    DirectoryDataSource.ensureDirectory, exists_path. rewrite Hd. cbn.
  rewrite load_each_found; [|intros p; unfold DirectoryDataSource.recognized].
  - eexists. split; [done|]. intros a. rewrite list_elem_of_omap. unfold directory_has. split.
    + intros (p & Hp & (Ht & Ha)%recognized_found).
      apply elem_of_sorted_paths, list_elem_of_filter in Hp as (He & (Hf & Hb)%elem_of_files_below).
      exists p. repeat split; try done. by apply bool_decide_eq_true.
    + intros (p & Hf & Hb & He & Ht & Ha). exists p. split; [|by apply recognized_found].
      apply elem_of_sorted_paths, list_elem_of_filter. split; [done|]. apply elem_of_files_below.
      split; [by apply bool_decide_eq_true in Hf|done].
  - apply throws_bind; [by eauto with throws|]. intros ty _. case_bool_decide; [|done].
    specialize (Hl d p). by destruct (loader d p).
Qed.

(** The identifiers of a data set are those of its registry, under the file of the
    first record that mentions them. *)
Lemma insert_uids_contains file us r u :
  UidRegistry.contains (BrowserDataController.insert_uids file us r) u =
  UidRegistry.contains r u || bool_decide (u ∈ us).
Proof.
  unfold BrowserDataController.insert_uids. revert r. induction us as [|v us IH]; intros r; cbn [fold_left].
  - rewrite bool_decide_false by apply not_elem_of_nil. by rewrite orb_false_r.
  - rewrite IH, UidRegistry.insert_contains, <- orb_assoc. f_equal.
    rewrite <- bool_decide_or. apply bool_decide_ext. by rewrite elem_of_cons.
Qed.

Lemma fold_contains {A} (ins : UidRegistry.t -> A -> UidRegistry.t) (uids : A -> list UID) l r u :
  (forall r a, UidRegistry.contains (ins r a) u = UidRegistry.contains r u || bool_decide (u ∈ uids a)) ->
  UidRegistry.contains (fold_left ins l r) u = UidRegistry.contains r u || bool_decide (u ∈ l ≫= uids).
Proof.
  intros Hi. revert r. induction l as [|a l IH]; intros r; cbn [fold_left].
  - rewrite bool_decide_false by apply not_elem_of_nil. by rewrite orb_false_r.
  - rewrite IH, Hi, <- orb_assoc. f_equal. rewrite <- bool_decide_or. apply bool_decide_ext.
    cbn. by rewrite elem_of_app.
Qed.

(** Every identifier some record of the data set mentions. *)
Definition data_uids (data : BrowserDataController.BrowserDataSet) : list UID :=
  (BrowserDataController.vehicle_types data ≫= BrowserDataController.uids_of_type) ++
  (BrowserDataController.vehicles data ≫= BrowserDataController.uids_of_vehicle) ++
  (BrowserDataController.trains data ≫= BrowserDataController.uids_of_train).

Lemma registry_of_contains data u :
  UidRegistry.contains (BrowserDataController.registry_of data) u = bool_decide (u ∈ data_uids data).
Proof.
  unfold BrowserDataController.registry_of.
  rewrite (fold_contains _ BrowserDataController.uids_of_train) by (intros; apply insert_uids_contains).
  rewrite (fold_contains _ BrowserDataController.uids_of_vehicle) by (intros; apply insert_uids_contains).
  rewrite (fold_contains _ BrowserDataController.uids_of_type) by (intros; apply insert_uids_contains).
  rewrite (proj2 (UidRegistry.not_contained ∅ u)) by apply lookup_empty. cbn [orb].
  rewrite <- !bool_decide_or. apply bool_decide_ext. unfold data_uids. rewrite !elem_of_app. tauto.
Qed.

(** What the data set of a directory is to hold. *)
Definition directory_holds (d : Disk j_text) (root : Path) (data : BrowserDataController.BrowserDataSet) : Prop :=
  (forall t, t ∈ BrowserDataController.vehicle_types data <->
             directory_has JsonLoader.VEHICLE_TYPE JsonLoader.loadVehicleType d root t) /\
  (forall v, v ∈ BrowserDataController.vehicles data <->
             directory_has JsonLoader.VEHICLE JsonLoader.loadVehicle d root v) /\
  (forall t, t ∈ BrowserDataController.trains data <->
             directory_has JsonLoader.TRAIN JsonLoader.loadTrain d root t).

Lemma load_directory_cases root d registry :
  match BrowserDataController.loadDirectory root d registry with
  | (registry', Ok data) =>
      is_directory d root = true /\ directory_holds d root data /\
      registry' = BrowserDataController.registry_of data
  | (registry', Throw e) =>
      is_directory d root = false /\ registry' = registry /\ exists what, e = DataSourceError what
  end.
Proof.
  unfold BrowserDataController.loadDirectory, BrowserDataController.loadSource.
  destruct (is_directory d root) eqn:Hd.
  - destruct (directory_load root JsonLoader.VEHICLE_TYPE JsonLoader.loadVehicleType d) as (types & Et & Ht);
      [eauto with throws|done|].
    destruct (directory_load root JsonLoader.VEHICLE JsonLoader.loadVehicle d) as (vs & Ev & Hv);
      [eauto with throws|done|].
    destruct (directory_load root JsonLoader.TRAIN JsonLoader.loadTrain d) as (ts & Er & Hr);
      [eauto with throws|done|].
    cbn. rewrite Et, Ev, Er. unfold DirectoryDataSource.ensureDirectory, exists_path. rewrite Hd. done.
  - cbn. unfold DirectoryDataSource.ensureDirectory, exists_path. rewrite Hd.
    destruct (is_file d root); cbn; split_and!; try done; by eexists.
Qed.

(** Loading a directory. If the directory exists the load succeeds, whatever its files
    hold: the data set has exactly the records of the JSON files below the directory
    that are recognised and load, a malformed file hiding no other, and the registry is
    replaced by one that contains exactly the identifiers the records mention. If it
    does not exist a [DataSourceError] is thrown and the registry is kept. *)
Theorem directory_data_spec root d registry :
  match BrowserDataController.loadDirectory root d registry with
  | (registry', Ok data) =>
      is_directory d root = true /\ directory_holds d root data /\
      forall u, UidRegistry.contains registry' u = true <-> u ∈ data_uids data
  | (registry', Throw e) =>
      is_directory d root = false /\ registry' = registry /\ exists what, e = DataSourceError what
  end.
Proof.
  pose proof (load_directory_cases root d registry) as H.
  destruct (BrowserDataController.loadDirectory root d registry) as [registry' [data|e]]; [|done].
  destruct H as (Hd & Hh & ->). split; [done|]. split; [done|]. intros u.
  rewrite registry_of_contains. apply bool_decide_eq_true.
Qed.

(** An identifier the generator returns after a directory was loaded is mentioned by no
    vehicle type, vehicle or train of the directory, neither as its own identifier nor
    as that of a type, carrier or vehicle it refers to. *)
Theorem generated_uid_unused root d registry registry' data domain kind scope first u :
  BrowserDataController.loadDirectory root d registry = (registry', Ok data) -> fits 16 scope ->
  UidGenerator.generate registry' domain kind scope first = Ok u ->
  (u ∉ data_uids data) /\ uid_has_kind u domain kind = true /\
  (forall v, directory_has JsonLoader.VEHICLE JsonLoader.loadVehicle d root v ->
             u ∉ BrowserDataController.uids_of_vehicle v) /\
  (forall t, directory_has JsonLoader.TRAIN JsonLoader.loadTrain d root t ->
             u ∉ BrowserDataController.uids_of_train t).
Proof.
  intros E Hs Hg. pose proof (load_directory_cases root d registry) as H. rewrite E in H.
  destruct H as (_ & (_ & Hv & Ht) & ->).
  destruct (UidGenerator.generate_free _ _ _ _ _ _ Hs Hg) as (Hf & Hk & _).
  apply UidRegistry.not_contained in Hf. rewrite registry_of_contains in Hf.
  apply bool_decide_eq_false in Hf. split; [done|]. split; [done|].
  unfold data_uids in Hf. rewrite !elem_of_app, !list_elem_of_bind in Hf. split.
  - intros v Hin%Hv Hu. apply Hf. right. left. by exists v.
  - intros t Hin%Ht Hu. apply Hf. right. right. by exists t.
Qed.
End Sources.

(** ** A concrete directory *)

Module FleetFilesDemo.
Import JsonDemo.
Local Open Scope string_scope.

Definition uid_number (u : UID) : value := JUnsigned (Z.to_N (Types.value u)).
Definition vehicle_uid (i : Z) : UID := make_uid UIDDomain.ROLLING_STOCK UIDKind.VEHICLE 7 i.
Definition type_uid : UID := make_uid UIDDomain.ROLLING_STOCK UIDKind.VEHICLE_TYPE 7 1.
Definition vehicle_doc (i : Z) : value :=
  JObject [("uid", uid_number (vehicle_uid i)); ("type_uid", uid_number type_uid); ("pID", JString "V");
           ("displayName", JString "V")].
(** A train that refers to a vehicle without a file. *)
Definition train_doc : value :=
  JObject [("uid", JUnsigned 5); ("pID", JString "T"); ("displayName", JString "T");
           ("trainCategory", JString "FREIGHT");
           ("vehicle_uids", JArray [uid_number (vehicle_uid 1); uid_number (vehicle_uid 2)])].
Definition disk : Disk j_text :=
  mkDisk (list_to_map [(["data"; "v.json"], Bytes (Some (vehicle_doc 1))); (["data"; "t.json"], Bytes (Some train_doc));
                       (["data"; "broken.json"], Bytes None); (["data"; "closed.json"], Unreadable)])
         {[ ["data"] ]}.
Definition loaded := BrowserDataController.loadDirectory ["data"] disk ∅.
Definition data : BrowserDataController.BrowserDataSet :=
  match loaded.2 with Ok data => data | Throw _ => BrowserDataController.mkDataSet [] [] [] end.

Example broken_files_skipped :
  v_uid <$> BrowserDataController.vehicles data = [vehicle_uid 1] /\
  t_uid <$> BrowserDataController.trains data = [mkUID 5] /\ is_ok loaded.2 = true.
Proof. by vm_compute. Qed.

Lemma generated_uid_unused_witness :
  UidGenerator.generate loaded.1 UIDDomain.ROLLING_STOCK UIDKind.VEHICLE 7 1 = Ok (vehicle_uid 3) /\
  vehicle_uid 3 ∉ data_uids data.
Proof.
  assert (UidGenerator.generate loaded.1 UIDDomain.ROLLING_STOCK UIDKind.VEHICLE 7 1 = Ok (vehicle_uid 3)) as E
    by by vm_compute.
  split; [exact E|].
  apply (generated_uid_unused ["data"] disk ∅ loaded.1 data UIDDomain.ROLLING_STOCK UIDKind.VEHICLE 7 1 (vehicle_uid 3)).
  - by vm_compute.
  - unfold fits. lia.
  - exact E.
Defined.
End FleetFilesDemo.
