(* ===== verification/Persistence.v ===== *)
(** * Persistence: what the fleet editor writes

    [vehicle-browser/application/editor_persistence_service.cpp]: a save checks the
    request, reads the document it replaces if that is to be kept, sets its fields
    and writes it.  A write first empties the file: it is a step on the [Disk] that
    may leave a changed disk behind an exception. *)
From S2P Require Import Prelude Float32 Types Text Json Paths UidTools FleetFiles.
Import FleetData.
Local Open Scope Z_scope.

Module EditorPersistenceService.
(* SRC tools/vehicle-browser/application/editor_persistence_service.hpp 13-24 VehicleSaveRequest *)
Record VehicleSaveRequest := mkVehicleRequest {
  vr_file : Path; vr_preserve_existing_fields : bool; vr_uid : UID; vr_type_uid : UID; vr_pid : string;
  vr_display_name : string; vr_carrier_id : option UID; vr_inventory_number : option string;
  vr_notes : option string }.

(* SRC tools/vehicle-browser/application/editor_persistence_service.hpp 26-36 TrainSaveRequest *)
Record TrainSaveRequest := mkTrainRequest {
  tr_file : Path; tr_preserve_existing_fields : bool; tr_uid : UID; tr_pid : string;
  tr_display_name : string; tr_train_category : string; tr_carrier_id : option UID;
  tr_vehicle_uids : list UID }.

Section Service.
Context {JL : JsonLib} {JT : JsonText} {FS : FileSystem j_text}.

(* SRC tools/vehicle-browser/application/editor_persistence_service.cpp 16-47 loadBaseDocument *)
Definition loadBaseDocument (d : Disk j_text) (file : Path) (preserve_existing : bool) : result json :=
  if negb preserve_existing || negb (exists_path d file) then Ok j_empty
  else
    t ← get (runtime_error ("Cannot open existing JSON file: " +:+ path_string file)) (JsonLoader.input d file);
    match j_parse t with
    | inl what =>
        Throw (runtime_error ("Cannot parse existing JSON file " +:+ path_string file +:+ ": " +:+ what))
    | inr document =>
        _ ← throw_if (negb (is_object document))
              (runtime_error ("Existing JSON root must be an object: " +:+ path_string file));
        Ok document
    end.

(* SRC tools/vehicle-browser/application/editor_persistence_service.cpp 49-55 ensureParentDirectory *)
Definition ensureParentDirectory (file : Path) (d : Disk j_text) : Disk j_text * result unit :=
  if bool_decide (parent_path file = []) then (d, Ok tt) else create_directories (parent_path file) d.

Definition write_file (file : Path) (t : j_text) (d : Disk j_text) : Disk j_text :=
  d <| dk_files ::= <[file := Bytes t]> |>.

(* SRC tools/vehicle-browser/application/editor_persistence_service.cpp 57-67 writeDocument *)
Definition writeDocument (file : Path) (document : json) (label : string) (d : Disk j_text)
    : Disk j_text * result unit :=
  let '(d, made) := ensureParentDirectory file d in
  match made with
  | Throw e => (d, Throw e)
  | Ok _ =>
      if negb (can_open file d) then
        (d, Throw (runtime_error ("Cannot create " +:+ label +:+ " JSON file: " +:+ path_string file)))
      else
        let d := write_file file no_text d in
        match j_dump document with
        | None => (d, Throw json_exception)
        | Some t => (write_file file t d, Ok tt)
        end
  end.

(* SRC tools/vehicle-browser/application/editor_persistence_service.cpp 69-75 ensureNonEmpty *)
Definition ensureNonEmpty (s label : string) : result unit :=
  throw_if (bool_decide (s = ""%string)) (invalid_argument (label +:+ " is required")).

(* SRC tools/vehicle-browser/application/editor_persistence_service.cpp 77-84 ensurePersistableUid *)
Definition ensurePersistableUid (uid : UID) (label : string) : result unit :=
  throw_if ((value uid =? 0) || negb (uid_is_safe_json_integer uid))
    (invalid_argument (label +:+ " must be a non-zero JSON-safe UID")).

(* SRC tools/vehicle-browser/application/editor_persistence_service.cpp 86-97 setOptionalString *)
Definition setOptionalString (document : json) (key : string) (v : option string) : json :=
  match v with
  | Some s => if bool_decide (s = ""%string) then j_erase document key
              else j_set document key (j_of_string s)
  | None => j_erase document key
  end.

(* SRC tools/vehicle-browser/application/editor_persistence_service.cpp 99-110 setOptionalUid *)
Definition setOptionalUid (document : json) (key : string) (v : option UID) : result json :=
  match v with
  | Some uid => _ ← ensurePersistableUid uid key; Ok (j_set document key (j_of_u64 (value uid)))
  | None => Ok (j_erase document key)
  end.

(** [display_name.empty() ? pid : display_name]. *)
(* SRC tools/vehicle-browser/application/editor_persistence_service.cpp 125-126 EditorPersistenceService::saveVehicle *)
Definition shown_name (display_name pid : string) : string :=
  if bool_decide (display_name = ""%string) then pid else display_name.

(** The document a request writes. *)
(* SRC tools/vehicle-browser/application/editor_persistence_service.cpp 117-129 EditorPersistenceService::saveVehicle *)
Definition vehicle_document (request : VehicleSaveRequest) (d : Disk j_text) : result json :=
  _ ← ensurePersistableUid (vr_uid request) "Vehicle UID";
  _ ← ensurePersistableUid (vr_type_uid request) "Vehicle type UID";
  _ ← ensureNonEmpty (vr_pid request) "Vehicle pID";
  document ← loadBaseDocument d (vr_file request) (vr_preserve_existing_fields request);
  let document := j_set document "uid" (j_of_u64 (value (vr_uid request))) in
  let document := j_set document "type_uid" (j_of_u64 (value (vr_type_uid request))) in
  let document := j_set document "pID" (j_of_string (vr_pid request)) in
  let document := j_set document "displayName"
    (j_of_string (shown_name (vr_display_name request) (vr_pid request))) in
  document ← setOptionalUid document "carrierId" (vr_carrier_id request);
  let document := setOptionalString document "inventoryNumber" (vr_inventory_number request) in
  Ok (setOptionalString document "notes" (vr_notes request)).

(* SRC tools/vehicle-browser/application/editor_persistence_service.cpp 114-133 EditorPersistenceService::saveVehicle *)
Definition saveVehicle (request : VehicleSaveRequest) (d : Disk j_text) : Disk j_text * result Path :=
  match vehicle_document request d with
  | Throw e => (d, Throw e)
  | Ok document =>
      let '(d, written) := writeDocument (vr_file request) document "vehicle" d in
      (d, _ ← written; Ok (vr_file request))
  end.

(** [document["vehicle_uids"].push_back(uid.value)] in the loop of [saveTrain]. *)
(* SRC tools/vehicle-browser/application/editor_persistence_service.cpp 153-157 EditorPersistenceService::saveTrain *)
Definition uid_values (uids : list UID) : result (list json) :=
  traverse (fun uid => _ ← ensurePersistableUid uid "Train vehicle UID"; Ok (j_of_u64 (value uid))) uids.

(* SRC tools/vehicle-browser/application/editor_persistence_service.cpp 137-157 EditorPersistenceService::saveTrain *)
Definition train_document (request : TrainSaveRequest) (d : Disk j_text) : result json :=
  _ ← ensurePersistableUid (tr_uid request) "Train UID";
  _ ← ensureNonEmpty (tr_pid request) "Train pID";
  _ ← ensureNonEmpty (tr_train_category request) "Train category";
  _ ← throw_if (bool_decide (tr_vehicle_uids request = []))
        (runtime_error "Cannot save an empty train consist");
  document ← loadBaseDocument d (tr_file request) (tr_preserve_existing_fields request);
  let document := j_set document "uid" (j_of_u64 (value (tr_uid request))) in
  let document := j_set document "pID" (j_of_string (tr_pid request)) in
  let document := j_set document "displayName"
    (j_of_string (shown_name (tr_display_name request) (tr_pid request))) in
  let document := j_set document "trainCategory" (j_of_string (tr_train_category request)) in
  document ← setOptionalUid document "carrierId" (tr_carrier_id request);
  uids ← uid_values (tr_vehicle_uids request);
  Ok (j_set document "vehicle_uids" (j_of_list uids)).

(* SRC tools/vehicle-browser/application/editor_persistence_service.cpp 135-162 EditorPersistenceService::saveTrain *)
Definition saveTrain (request : TrainSaveRequest) (d : Disk j_text) : Disk j_text * result UID :=
  match train_document request d with
  | Throw e => (d, Throw e)
  | Ok document =>
      let '(d, written) := writeDocument (tr_file request) document "train" d in
      (d, _ ← written; Ok (tr_uid request))
  end.
End Service.
End EditorPersistenceService.

(** ** Reading back *)

Import EditorPersistenceService.

Section ReadBack.
Context {JL : JsonLib} {JT : JsonText}.

(** A reader looks at its key only. *)
Section Ext.
Context (j j' : json) (path : Path) (key : string) (E : j_find j' key = j_find j key).

Ltac ext := unfold lacks, absent, j_at; rewrite ?E; reflexivity.

Lemma requireString_ext : JsonLoader.requireString j' path key = JsonLoader.requireString j path key.
Proof. unfold JsonLoader.requireString. ext. Qed.
Lemma optionalString_ext : JsonLoader.optionalString j' path key = JsonLoader.optionalString j path key.
Proof. unfold JsonLoader.optionalString. ext. Qed.
Lemma optionalDouble_ext : JsonLoader.optionalDouble j' path key = JsonLoader.optionalDouble j path key.
Proof. unfold JsonLoader.optionalDouble. ext. Qed.
Lemma requireUid_ext : JsonLoader.requireUid j' path key = JsonLoader.requireUid j path key.
Proof. unfold JsonLoader.requireUid. ext. Qed.
Lemma optionalInt_ext : JsonLoader.optionalInt j' path key = JsonLoader.optionalInt j path key.
Proof. unfold JsonLoader.optionalInt, JsonLoader.requireInt. ext. Qed.
End Ext.

(** What was written under a key is read. *)
Section At.
Context (j : json) (path : Path) (key : string).

Lemma requireString_at s :
  j_find j key = Some (j_of_string s) -> JsonLoader.requireString j path key = Ok s.
Proof.
  intros E. destruct (of_string_get s) as (Ht & _ & Hg).
  unfold JsonLoader.requireString, lacks, j_at. rewrite E, Ht. cbn. by rewrite Hg.
Qed.

Lemma optionalString_at s :
  j_find j key = Some (j_of_string s) -> JsonLoader.optionalString j path key = Ok (Some s).
Proof.
  intros E. destruct (of_string_get s) as (Ht & Hn & Hg).
  unfold JsonLoader.optionalString, absent, lacks, j_at. rewrite E, Hn, Ht. cbn. by rewrite Hg.
Qed.

Lemma requireUid_at uid :
  j_find j key = Some (j_of_u64 (value uid)) -> uid_u64 uid -> JsonLoader.not_persistable uid = false ->
  JsonLoader.requireUid j path key = Ok uid.
Proof.
  intros E Hu Hp. destruct (of_u64_get _ Hu) as (Ht & _ & Hg).
  unfold JsonLoader.requireUid, lacks, j_at. rewrite E, Ht. cbn. rewrite Hg. cbn.
  replace (mkUID (value uid)) with uid by by destruct uid. by rewrite Hp.
Qed.

Lemma optionalUid_at uid :
  j_find j key = Some (j_of_u64 (value uid)) -> uid_u64 uid -> JsonLoader.not_persistable uid = false ->
  JsonLoader.optionalUid j path key = Ok (Some uid).
Proof.
  intros E Hu Hp. unfold JsonLoader.optionalUid, absent. rewrite E.
  destruct (of_u64_get _ Hu) as (_ & -> & _). by rewrite (requireUid_at uid).
Qed.

(** A missing optional field. *)
Lemma optional_missing :
  j_find j key = None ->
  JsonLoader.optionalString j path key = Ok None /\ JsonLoader.optionalDouble j path key = Ok None /\
  JsonLoader.optionalInt j path key = Ok None /\ JsonLoader.optionalUid j path key = Ok None.
Proof.
  intros E. unfold JsonLoader.optionalString, JsonLoader.optionalDouble, JsonLoader.optionalInt,
    JsonLoader.optionalUid, absent. by rewrite E.
Qed.
End At.

(** Setting and erasing fields, in this order. *)
Definition write_field (document : json) (kv : string * option json) : json :=
  match kv.2 with Some v => j_set document kv.1 v | None => j_erase document kv.1 end.
Definition write_fields (document : json) (l : list (string * option json)) : json :=
  fold_left write_field l document.

Lemma write_fields_object document l :
  is_object document = true -> is_object (write_fields document l) = true.
Proof.
  revert document. induction l as [|[k [v|]] l IH]; intros document Ho; cbn; [done|apply IH..].
  - by apply set_object.
  - by apply erase_object.
Qed.

Lemma write_fields_plain document l :
  j_plain document -> Forall (fun kv => from_option j_plain True kv.2) l -> j_plain (write_fields document l).
Proof.
  intros Hp Hl. revert document Hp. induction Hl as [|[k [v|]] l Hv Hl IH]; intros document Hp; cbn; [done|apply IH..].
  - by apply set_plain.
  - by apply erase_plain.
Qed.

Lemma write_fields_find document l key :
  is_object document = true -> NoDup l.*1 ->
  j_find (write_fields document l) key =
  match List.find (fun kv => String.eqb kv.1 key) l with Some kv => kv.2 | None => j_find document key end.
Proof.
  revert document. induction l as [|[k o] l IH]; intros document Ho Hn; [done|].
  inversion Hn as [|? ? Hk Hn' E]; subst. cbn [write_fields fold_left List.find fst snd].
  change (fold_left write_field l (write_field document (k, o))) with (write_fields (write_field document (k, o)) l).
  assert (is_object (write_field document (k, o)) = true) as Ho'.
  { destruct o; cbn; [by apply set_object|by apply erase_object]. }
  rewrite IH by done.
  assert (j_find (write_field document (k, o)) key = if decide (key = k) then o else j_find document key) as ->.
  { destruct o; cbn; [by rewrite find_set|by rewrite find_erase]. }
  destruct (String.eqb_spec k key) as [->|Hne].
  - rewrite decide_True by done. destruct (List.find _ l) as [kv|] eqn:E; [|done]. exfalso.
    apply List.find_some in E as [Hin Heq%String.eqb_eq]. apply Hk. subst.
    apply list_elem_of_fmap. exists kv. split; [done|]. by apply list_elem_of_In.
  - by rewrite decide_False by congruence.
Qed.

(** ** Saves as field writes *)

Definition uid_field (o : option UID) : option json := (fun u => j_of_u64 (value u)) <$> o.
Definition string_field (o : option string) : option json :=
  s ← o; if bool_decide (s = ""%string) then None else Some (j_of_string s).

Lemma setOptionalString_write document key o :
  setOptionalString document key o = write_field document (key, string_field o).
Proof. destruct o as [s|]; cbn; [by case_bool_decide|done]. Qed.

Lemma persistable uid label : ensurePersistableUid uid label = Ok tt <-> JsonLoader.not_persistable uid = false.
Proof. unfold ensurePersistableUid. apply throw_if_ok. Qed.

Lemma setOptionalUid_write document key o document' :
  setOptionalUid document key o = Ok document' <->
  document' = write_field document (key, uid_field o) /\
  from_option (fun u => JsonLoader.not_persistable u = false) True o.
Proof.
  destruct o as [u|]; cbn; [|naive_solver]. rewrite bind_ok. split.
  - intros ([] & Hp%persistable & [= <-]). done.
  - intros [-> Hp]. exists tt. split; [by apply persistable|done].
Qed.

Definition vehicle_fields (request : VehicleSaveRequest) : list (string * option json) :=
  [("uid", Some (j_of_u64 (value (vr_uid request)))); ("type_uid", Some (j_of_u64 (value (vr_type_uid request))));
   ("pID", Some (j_of_string (vr_pid request)));
   ("displayName", Some (j_of_string (shown_name (vr_display_name request) (vr_pid request))));
   ("carrierId", uid_field (vr_carrier_id request));
   ("inventoryNumber", string_field (vr_inventory_number request)); ("notes", string_field (vr_notes request))]%string.

Lemma vehicle_document_write request d document :
  vehicle_document request d = Ok document ->
  exists base, loadBaseDocument d (vr_file request) (vr_preserve_existing_fields request) = Ok base /\
    document = write_fields base (vehicle_fields request) /\
    JsonLoader.not_persistable (vr_uid request) = false /\
    JsonLoader.not_persistable (vr_type_uid request) = false /\ vr_pid request <> ""%string /\
    from_option (fun u => JsonLoader.not_persistable u = false) True (vr_carrier_id request).
Proof.
  unfold vehicle_document. intros H.
  apply bind_ok in H as ([] & H1%persistable & H). apply bind_ok in H as ([] & H2%persistable & H).
  apply bind_ok in H as ([] & H3%throw_if_ok%bool_decide_eq_false & H).
  apply bind_ok in H as (base & Hb & H). apply bind_ok in H as (document' & [Hd Hc]%setOptionalUid_write & H).
  injection H as <-. exists base. split_and!; try done.
  by rewrite !setOptionalString_write, Hd.
Qed.

Lemma base_document_ok d file preserve base :
  loadBaseDocument d file preserve = Ok base ->
  is_object base = true /\ j_plain base /\
  if preserve && exists_path d file then JsonLoader.parseJsonFile d file = Ok base else base = j_empty.
Proof.
  unfold loadBaseDocument. destruct preserve; cbn [negb orb andb]; [destruct (exists_path d file); cbn [negb]|].
  - intros (t & Ht%get_ok & H)%bind_ok. destruct (j_parse t) as [what|document] eqn:Hp; [done|].
    apply bind_ok in H as ([] & Ho%throw_if_ok%negb_false_iff & [= <-]). split; [done|].
    split; [by eapply parse_plain|]. unfold JsonLoader.parseJsonFile. rewrite Ht. cbn. rewrite Hp, Ho. done.
  - intros [= <-]. split; [apply empty_object|]. split; [apply empty_plain|done].
  - intros [= <-]. split; [apply empty_object|]. split; [apply empty_plain|done].
Qed.
End ReadBack.

(** ** Round trips through the disk *)

Section RoundTrip.
Context {JL : JsonLib} {JT : JsonText} {FS : FileSystem j_text}.

(** What a write does to the disk, whatever its outcome: only the file written
    changes, and a write that throws leaves it as it was or empty. *)
Lemma writeDocument_files file document label d :
  match writeDocument file document label d with
  | (d', Ok _) => exists t, j_dump document = Some t /\ dk_files d' = <[file := Bytes t]> (dk_files d)
  | (d', Throw e) =>
      dk_files d' = dk_files d \/
      (j_dump document = None /\ e = json_exception /\ dk_files d' = <[file := Bytes no_text]> (dk_files d))
  end.
Proof.
  unfold writeDocument. destruct (ensureParentDirectory file d) as [d1 made] eqn:E.
  assert (dk_files d1 = dk_files d) as H1.
  { unfold ensureParentDirectory in E. case_bool_decide; [by injection E as <- _|].
    by rewrite <- (create_directories_files (parent_path file) d), E. }
  destruct made as [u|e]; [|by left].
  destruct (can_open file d1); cbn [negb]; [|by left].
  destruct (j_dump document) as [t|].
  - exists t. split; [done|]. cbn. by rewrite insert_insert_eq, H1.
  - right. split; [done|]. split; [done|]. cbn. by rewrite H1.
Qed.

(** Directories are only added. *)
Lemma writeDocument_dirs file document label d : dk_dirs d ⊆ dk_dirs (writeDocument file document label d).1.
Proof.
  unfold writeDocument. destruct (ensureParentDirectory file d) as [d1 made] eqn:E.
  assert (dk_dirs d ⊆ dk_dirs d1) as H1.
  { unfold ensureParentDirectory in E. case_bool_decide; [by injection E as <- _|].
    by rewrite (create_directories_dirs (parent_path file) d), E. }
  destruct made as [u|e]; [|done]. destruct (can_open file d1); [|done]. by destruct (j_dump document).
Qed.

Lemma writeDocument_dirs_new file document label d q :
  q ∈ dk_dirs (writeDocument file document label d).1 ->
  q ∈ dk_dirs d \/ exists n, q = take n (parent_path file).
Proof.
  unfold writeDocument. destruct (ensureParentDirectory file d) as [d1 made] eqn:E.
  assert (q ∈ dk_dirs d1 -> q ∈ dk_dirs d \/ exists n, q = take n (parent_path file)) as H1.
  { unfold ensureParentDirectory in E. case_bool_decide; [injection E as <- _; by left|].
    pose proof (create_directories_new (parent_path file) d q) as H1. by rewrite E in H1. }
  destruct made as [u|e]; [|done]. destruct (can_open file d1); [|done]. by destruct (j_dump document).
Qed.

(** The document just written is the one parsed. *)
Lemma parse_written d d' file t document :
  dk_files d' = <[file := Bytes t]> (dk_files d) -> j_dump document = Some t -> j_plain document ->
  is_object document = true -> JsonLoader.parseJsonFile d' file = Ok document.
Proof.
  intros Hf Ht Hp Ho. unfold JsonLoader.parseJsonFile, JsonLoader.input.
  rewrite Hf, lookup_insert_eq. cbn. rewrite (parse_dump document t Hp Ht), Ho. done.
Qed.

(** A parse depends on the file read only. *)
Lemma parse_frame d d' path :
  dk_files d' !! path = dk_files d !! path -> is_Some (dk_files d !! path) ->
  JsonLoader.parseJsonFile d' path = JsonLoader.parseJsonFile d path.
Proof.
  intros Hf [b Hb]. unfold JsonLoader.parseJsonFile, JsonLoader.input. by rewrite Hf, Hb.
Qed.

(** *** Vehicles *)

Definition non_empty (o : option string) : option string :=
  s ← o; if bool_decide (s = ""%string) then None else Some s.

(** A vehicle with the requested fields, the others as in [v]. *)
Definition edited_vehicle (request : VehicleSaveRequest) (v : Vehicle) : Vehicle :=
  v <| v_uid := vr_uid request |> <| v_type_uid := vr_type_uid request |> <| v_pid := vr_pid request |>
    <| v_display_name := shown_name (vr_display_name request) (vr_pid request) |>
    <| v_carrier_id := vr_carrier_id request |>
    <| v_inventory_number := non_empty (vr_inventory_number request) |>
    <| v_notes := non_empty (vr_notes request) |> <| v_source_file := vr_file request |>.

(** A vehicle without optional values. *)
Definition blank_vehicle (file : Path) : Vehicle :=
  mkVehicle UID_zero UID_zero "" "" None None None None None None None None None None None None None None
    None None None file.

(** What an edit starts from: the vehicle of the file, if its fields are preserved. *)
Definition base_vehicle (request : VehicleSaveRequest) (d : Disk j_text) (v : Vehicle) : Prop :=
  if vr_preserve_existing_fields request && exists_path d (vr_file request)
  then JsonLoader.loadVehicle d (vr_file request) = Ok v
  else v = blank_vehicle (vr_file request).

(** The fields an edit leaves alone, as read from [base]. *)
Definition kept_fields (base : json) (path : Path) (v : Vehicle) : Prop :=
  JsonLoader.optionalString base path "vehicleType" = Ok (v_vehicle_type v) /\
  JsonLoader.optionalString base path "vehicleSubtype" = Ok (v_vehicle_subtype v) /\
  JsonLoader.optionalDouble base path "lengthM" = Ok (v_length_m v) /\
  JsonLoader.optionalInt base path "axleCount" = Ok (v_axle_count v) /\
  JsonLoader.optionalDouble base path "massEmptyT" = Ok (v_mass_empty_t v) /\
  JsonLoader.optionalDouble base path "massGrossT" = Ok (v_mass_gross_t v) /\
  JsonLoader.optionalInt base path "maxSpeedKmh" = Ok (v_max_speed_kmh v) /\
  JsonLoader.optionalInt base path "brakingLambdaPct" = Ok (v_braking_lambda_pct v) /\
  JsonLoader.optionalDouble base path "powerKW" = Ok (v_power_kw v) /\
  JsonLoader.optionalDouble base path "tractionForceKN" = Ok (v_traction_force_kn v) /\
  JsonLoader.optionalDouble base path "davisA" = Ok (v_davis_a v) /\
  JsonLoader.optionalDouble base path "davisB" = Ok (v_davis_b v) /\
  JsonLoader.optionalDouble base path "davisC" = Ok (v_davis_c v) /\
  JsonLoader.optionalString base path "tractionStatus" = Ok (v_traction_status v).

Lemma parsed_kept base path v : JsonLoader.parseVehicle base path = Ok v -> kept_fields base path v.
Proof. intros H. unfold JsonLoader.parseVehicle in H. split_ok H. injection H as <-. by split_and!. Qed.

Lemma blank_kept path : kept_fields j_empty path (blank_vehicle path).
Proof.
  pose proof (fun key => optional_missing j_empty path key (proj2 empty_object key)) as H.
  unfold kept_fields. split_and!; apply H.
Qed.

Lemma base_kept request d base v :
  loadBaseDocument d (vr_file request) (vr_preserve_existing_fields request) = Ok base ->
  base_vehicle request d v -> kept_fields base (vr_file request) v.
Proof.
  intros (_ & _ & H)%base_document_ok. unfold base_vehicle.
  destruct (vr_preserve_existing_fields request && _).
  - intros E. unfold JsonLoader.loadVehicle in E. rewrite H in E. by apply parsed_kept.
  - intros ->. subst base. apply blank_kept.
Qed.

Lemma optionalString_written document path key o :
  j_find document key = string_field o -> JsonLoader.optionalString document path key = Ok (non_empty o).
Proof.
  intros E. destruct o as [s|]; cbn in *; [case_bool_decide|].
  - by apply (optional_missing document path key).
  - by apply optionalString_at.
  - by apply (optional_missing document path key).
Qed.

Lemma optionalUid_written document path key o :
  j_find document key = uid_field o -> from_option uid_u64 True o ->
  from_option (fun u => JsonLoader.not_persistable u = false) True o ->
  JsonLoader.optionalUid document path key = Ok o.
Proof.
  intros E. destruct o as [u|]; cbn in *; [by intros; apply optionalUid_at|].
  intros _ _. by apply (optional_missing document path key).
Qed.

(** The requested values are those of C++ types. *)
Definition vehicle_request_fits (request : VehicleSaveRequest) : Prop :=
  uid_u64 (vr_uid request) /\ uid_u64 (vr_type_uid request) /\ from_option uid_u64 True (vr_carrier_id request).

Lemma parse_vehicle_fields base path request v :
  is_object base = true -> kept_fields base path v -> vehicle_request_fits request ->
  JsonLoader.not_persistable (vr_uid request) = false ->
  JsonLoader.not_persistable (vr_type_uid request) = false ->
  from_option (fun u => JsonLoader.not_persistable u = false) True (vr_carrier_id request) ->
  path = vr_file request ->
  JsonLoader.parseVehicle (write_fields base (vehicle_fields request)) path = Ok (edited_vehicle request v).
Proof.
  intros Ho Hk (Hu & Ht & Hc) Hpu Hpt Hpc ->.
  assert (forall key, j_find (write_fields base (vehicle_fields request)) key =
    match List.find (fun kv => String.eqb kv.1 key) (vehicle_fields request) with
    | Some kv => kv.2 | None => j_find base key end) as F.
  { intros key. apply write_fields_find; [done|]. cbn. repeat constructor; set_solver. }
  generalize dependent (write_fields base (vehicle_fields request)). intros document F.
  destruct Hk as (? & ? & ? & ? & ? & ? & ? & ? & ? & ? & ? & ? & ? & ?).
  unfold JsonLoader.parseVehicle.
  rewrite (requireUid_at _ _ "uid" (vr_uid request)) by (done || by rewrite F). cbn.
  rewrite (requireUid_at _ _ "type_uid" (vr_type_uid request)) by (done || by rewrite F). cbn.
  rewrite (requireString_at _ _ "pID" (vr_pid request)) by by rewrite F. cbn.
  rewrite (requireString_at _ _ "displayName" (shown_name (vr_display_name request) (vr_pid request)))
    by by rewrite F. cbn.
  rewrite (optionalUid_written _ _ "carrierId" (vr_carrier_id request)) by (done || by rewrite F).
  rewrite (optionalString_written _ _ "inventoryNumber" (vr_inventory_number request)) by by rewrite F.
  rewrite (optionalString_written _ _ "notes" (vr_notes request)) by by rewrite F.
  repeat match goal with
  | H : JsonLoader.optionalString base ?p ?k = Ok _ |- _ =>
      rewrite (optionalString_ext base document p k), H by (by rewrite F); clear H
  | H : JsonLoader.optionalDouble base ?p ?k = Ok _ |- _ =>
      rewrite (optionalDouble_ext base document p k), H by (by rewrite F); clear H
  | H : JsonLoader.optionalInt base ?p ?k = Ok _ |- _ =>
      rewrite (optionalInt_ext base document p k), H by (by rewrite F); clear H
  end.
  done.
Qed.

Lemma vehicle_fields_plain request : Forall (fun kv => from_option j_plain True kv.2) (vehicle_fields request).
Proof.
  destruct scalar_plain as [Hs Hn].
  repeat constructor; cbn; auto.
  - destruct (vr_carrier_id request); cbn; auto.
  - destruct (vr_inventory_number request); cbn; [case_bool_decide; cbn; auto|done].
  - destruct (vr_notes request); cbn; [case_bool_decide; cbn; auto|done].
Qed.

(** C33: A vehicle that was saved is loaded again with exactly the requested values (an empty
    display name replaced by the number, empty optional texts dropped); in a save that
    preserves existing fields every other field of the vehicle stays as it was in the
    file, in any other save it is absent. No other file of the disk changes. *)
Theorem vehicle_save_load request d d' file v :
  vehicle_request_fits request -> base_vehicle request d v ->
  saveVehicle request d = (d', Ok file) ->
  file = vr_file request /\ JsonLoader.loadVehicle d' file = Ok (edited_vehicle request v) /\
  forall p, p <> file -> dk_files d' !! p = dk_files d !! p.
Proof.
  intros Hf Hb. unfold saveVehicle. destruct (vehicle_document request d) as [document|e] eqn:E; [|done].
  apply vehicle_document_write in E as (base & Hbase & -> & Hpu & Hpt & _ & Hpc).
  pose proof (writeDocument_files (vr_file request) (write_fields base (vehicle_fields request)) "vehicle" d) as Hw.
  destruct (writeDocument _ _ _ _) as [d1 [u|e]]; [|done]. cbn. intros [= <- <-].
  destruct Hw as (t & Ht & Hfiles). split; [done|]. split.
  - destruct (base_document_ok _ _ _ _ Hbase) as (Ho & Hp & _). unfold JsonLoader.loadVehicle.
    rewrite (parse_written _ _ _ _ _ Hfiles Ht).
    + cbn. apply parse_vehicle_fields; try done. by eapply base_kept.
    + apply write_fields_plain; [done|apply vehicle_fields_plain].
    + by apply write_fields_object.
  - intros p Hne. by rewrite Hfiles, lookup_insert_ne.
Qed.

(** *** Trains *)

(** The train a request describes; no field of the file replaced shows in it. *)
Definition requested_train (request : TrainSaveRequest) : Train :=
  mkTrain (tr_uid request) (tr_pid request) (shown_name (tr_display_name request) (tr_pid request))
    (tr_train_category request) (tr_carrier_id request) (tr_vehicle_uids request) (tr_file request).

Definition train_request_fits (request : TrainSaveRequest) : Prop :=
  uid_u64 (tr_uid request) /\ from_option uid_u64 True (tr_carrier_id request) /\
  Forall uid_u64 (tr_vehicle_uids request).

Definition uid_list (uids : list UID) : json := j_of_list ((fun u => j_of_u64 (value u)) <$> uids).

Definition train_fields (request : TrainSaveRequest) : list (string * option json) :=
  [("uid", Some (j_of_u64 (value (tr_uid request)))); ("pID", Some (j_of_string (tr_pid request)));
   ("displayName", Some (j_of_string (shown_name (tr_display_name request) (tr_pid request))));
   ("trainCategory", Some (j_of_string (tr_train_category request)));
   ("carrierId", uid_field (tr_carrier_id request)); ("vehicle_uids", Some (uid_list (tr_vehicle_uids request)))]%string.

Lemma uid_values_ok uids l :
  uid_values uids = Ok l <->
  l = ((fun u => j_of_u64 (value u)) <$> uids) /\ Forall (fun u => JsonLoader.not_persistable u = false) uids.
Proof.
  unfold uid_values. rewrite traverse_Forall2. split.
  - induction 1 as [|u x uids l Hu _ [-> IH]]; [done|].
    apply bind_ok in Hu as ([] & Hp%persistable & [= <-]). split; [done|by constructor].
  - intros [-> H]. induction H as [|u uids Hu _ IH]; [constructor|]. cbn. constructor; [|done].
    apply bind_ok. exists tt. split; [by apply persistable|done].
Qed.

Lemma train_document_write request d document :
  train_document request d = Ok document ->
  exists base, loadBaseDocument d (tr_file request) (tr_preserve_existing_fields request) = Ok base /\
    document = write_fields base (train_fields request) /\
    JsonLoader.not_persistable (tr_uid request) = false /\ tr_vehicle_uids request <> [] /\
    from_option (fun u => JsonLoader.not_persistable u = false) True (tr_carrier_id request) /\
    Forall (fun u => JsonLoader.not_persistable u = false) (tr_vehicle_uids request).
Proof.
  unfold train_document. intros H.
  apply bind_ok in H as ([] & H1%persistable & H). apply bind_ok in H as ([] & H2 & H).
  apply bind_ok in H as ([] & H3 & H). apply bind_ok in H as ([] & H4%throw_if_ok%bool_decide_eq_false & H).
  apply bind_ok in H as (base & Hb & H). apply bind_ok in H as (document' & [Hd Hc]%setOptionalUid_write & H).
  apply bind_ok in H as (l & [-> Hl]%uid_values_ok & [= <-]). exists base. split_and!; try done. by rewrite Hd.
Qed.

Lemma read_uid_list path uids i :
  Forall uid_u64 uids -> Forall (fun u => JsonLoader.not_persistable u = false) uids ->
  JsonLoader.vehicle_uids_from path i ((fun u => j_of_u64 (value u)) <$> uids) = Ok uids.
Proof.
  intros Hf Hp. revert i. induction uids as [|u uids IH]; intros i; [done|].
  apply Forall_cons in Hf as [Hu Hf]. apply Forall_cons in Hp as [Hup Hp]. cbn.
  unfold JsonLoader.vehicle_uid_at. destruct (of_u64_get _ Hu) as (-> & _ & Hg). cbn. rewrite Hg. cbn.
  replace (mkUID (value u)) with u by by destruct u. by rewrite Hup, IH.
Qed.

Lemma parse_train_fields base request :
  is_object base = true -> train_request_fits request -> JsonLoader.not_persistable (tr_uid request) = false ->
  from_option (fun u => JsonLoader.not_persistable u = false) True (tr_carrier_id request) ->
  Forall (fun u => JsonLoader.not_persistable u = false) (tr_vehicle_uids request) ->
  JsonLoader.parseTrain (write_fields base (train_fields request)) (tr_file request) = Ok (requested_train request).
Proof.
  intros Ho (Hu & Hc & Hl) Hpu Hpc Hpl.
  assert (forall key, j_find (write_fields base (train_fields request)) key =
    match List.find (fun kv => String.eqb kv.1 key) (train_fields request) with
    | Some kv => kv.2 | None => j_find base key end) as F.
  { intros key. apply write_fields_find; [done|]. cbn. repeat constructor; set_solver. }
  generalize dependent (write_fields base (train_fields request)). intros document F.
  unfold JsonLoader.parseTrain.
  rewrite (requireUid_at _ _ "uid" (tr_uid request)) by (done || by rewrite F). cbn.
  rewrite (requireString_at _ _ "pID" (tr_pid request)) by by rewrite F. cbn.
  rewrite (requireString_at _ _ "displayName" (shown_name (tr_display_name request) (tr_pid request)))
    by by rewrite F. cbn.
  rewrite (requireString_at _ _ "trainCategory" (tr_train_category request)) by by rewrite F. cbn.
  rewrite (optionalUid_written _ _ "carrierId" (tr_carrier_id request)) by (done || by rewrite F). cbn.
  destruct (of_list_items ((fun u => j_of_u64 (value u)) <$> tr_vehicle_uids request)) as [Ha Hi].
  assert (j_find document "vehicle_uids" = Some (uid_list (tr_vehicle_uids request))) as Hv by by rewrite F.
  unfold lacks, j_at. rewrite Hv. unfold uid_list. rewrite Ha. cbn. rewrite Hi.
  by rewrite read_uid_list.
Qed.

Lemma train_fields_plain request : Forall (fun kv => from_option j_plain True kv.2) (train_fields request).
Proof.
  destruct scalar_plain as [Hs Hn]. repeat constructor; cbn; auto.
  - destruct (tr_carrier_id request); cbn; auto.
  - apply list_plain, Forall_fmap, Forall_true. intros u. apply Hn.
Qed.

(** What a saved train leaves on the disk: the document with the requested fields, and
    directories only above the file. *)
Lemma train_written request d d' u :
  saveTrain request d = (d', Ok u) ->
  u = tr_uid request /\ JsonLoader.not_persistable (tr_uid request) = false /\ tr_vehicle_uids request <> [] /\
  from_option (fun u => JsonLoader.not_persistable u = false) True (tr_carrier_id request) /\
  Forall (fun u => JsonLoader.not_persistable u = false) (tr_vehicle_uids request) /\
  exists base, loadBaseDocument d (tr_file request) (tr_preserve_existing_fields request) = Ok base /\
    is_object base = true /\
    JsonLoader.parseJsonFile d' (tr_file request) = Ok (write_fields base (train_fields request)) /\
    (exists b, dk_files d' = <[tr_file request := b]> (dk_files d)) /\ dk_dirs d ⊆ dk_dirs d' /\
    (forall q, q ∈ dk_dirs d' -> q ∈ dk_dirs d \/ exists n, q = take n (parent_path (tr_file request))).
Proof.
  unfold saveTrain. destruct (train_document request d) as [document|e] eqn:E; [|done].
  apply train_document_write in E as (base & Hbase & -> & Hpu & Hne & Hpc & Hpl).
  pose proof (writeDocument_files (tr_file request) (write_fields base (train_fields request)) "train" d) as Hw.
  pose proof (writeDocument_dirs (tr_file request) (write_fields base (train_fields request)) "train" d) as Hdirs.
  pose proof (writeDocument_dirs_new (tr_file request) (write_fields base (train_fields request)) "train" d) as Hnew.
  destruct (writeDocument _ _ _ _) as [d1 [x|e]]; [|done]. cbn. intros [= <- <-].
  destruct Hw as (t & Ht & Hfiles). destruct (base_document_ok _ _ _ _ Hbase) as (Ho & Hp & _).
  do 5 (split; [done|]). exists base. split_and!; try done; [|by eexists].
  apply (parse_written _ _ _ _ _ Hfiles Ht).
  - apply write_fields_plain; [done|apply train_fields_plain].
  - by apply write_fields_object.
Qed.

Lemma train_fields_find base request key :
  is_object base = true ->
  j_find (write_fields base (train_fields request)) key =
  match List.find (fun kv => String.eqb kv.1 key) (train_fields request) with
  | Some kv => kv.2 | None => j_find base key end.
Proof. intros Ho. apply write_fields_find; [done|]. cbn. repeat constructor; set_solver. Qed.

(** A saved train is loaded again as requested; no other file changes. *)
Lemma train_saved request d d' u :
  train_request_fits request -> saveTrain request d = (d', Ok u) ->
  u = tr_uid request /\ tr_vehicle_uids request <> [] /\
  (exists document, JsonLoader.parseJsonFile d' (tr_file request) = Ok document /\
    contains document "vehicle_uids" = true /\ contains document "trainCategory" = true) /\
  JsonLoader.loadTrain d' (tr_file request) = Ok (requested_train request) /\
  (exists b, dk_files d' = <[tr_file request := b]> (dk_files d)) /\
  dk_dirs d ⊆ dk_dirs d'.
Proof.
  intros Hf (-> & Hpu & Hne & Hpc & Hpl & base & _ & Ho & Hparse & Hfiles & Hdirs & _)%train_written.
  split_and!; try done.
  - eexists. split; [exact Hparse|]. unfold contains.
    by split; apply bool_decide_eq_true; rewrite train_fields_find by done; eexists.
  - unfold JsonLoader.loadTrain. rewrite Hparse. cbn. by apply parse_train_fields.
Qed.

(** A save that throws changes no file, unless the document has no text: then the file it
    was to replace, opened before the text is computed, is left empty. *)
Theorem failed_save_files request request' d :
  match saveVehicle request d with
  | (d', Throw e) =>
      dk_files d' = dk_files d \/
      (e = json_exception /\ dk_files d' = <[vr_file request := Bytes no_text]> (dk_files d) /\
       exists what, JsonLoader.parseJsonFile d' (vr_file request) = Throw (JsonLoadError what))
  | (_, Ok _) => True
  end /\
  match saveTrain request' d with
  | (d', Throw e) =>
      dk_files d' = dk_files d \/
      (e = json_exception /\ dk_files d' = <[tr_file request' := Bytes no_text]> (dk_files d) /\
       exists what, JsonLoader.parseJsonFile d' (tr_file request') = Throw (JsonLoadError what))
  | (_, Ok _) => True
  end.
Proof.
  assert (forall d' file, dk_files d' = <[file := Bytes no_text]> (dk_files d) ->
    exists what, JsonLoader.parseJsonFile d' file = Throw (JsonLoadError what)) as Hempty.
  { intros d' file Hf. unfold JsonLoader.parseJsonFile, JsonLoader.input. rewrite Hf, lookup_insert_eq.
    destruct parse_no_text as [what Hw]. cbn. rewrite Hw. by eexists. }
  split.
  - unfold saveVehicle. destruct (vehicle_document request d) as [document|e]; [|by left].
    pose proof (writeDocument_files (vr_file request) document "vehicle" d) as Hw.
    destruct (writeDocument _ _ _ _) as [d1 [u|e]]; cbn; [done|].
    destruct Hw as [|(_ & -> & Hf)]; [by left|right]. by eauto.
  - unfold saveTrain. destruct (train_document request' d) as [document|e]; [|by left].
    pose proof (writeDocument_files (tr_file request') document "train" d) as Hw.
    destruct (writeDocument _ _ _ _) as [d1 [u|e]]; cbn; [done|].
    destruct Hw as [|(_ & -> & Hf)]; [by left|right]. by eauto.
Qed.
End RoundTrip.

(** ** A concrete disk *)

Module PersistenceDemo.
Import JsonDemo DiskDemo.
Local Open Scope string_scope.

Definition vehicle_uid (i : Z) : UID := make_uid UIDDomain.ROLLING_STOCK UIDKind.VEHICLE 7 i.
Definition type_uid : UID := make_uid UIDDomain.ROLLING_STOCK UIDKind.VEHICLE_TYPE 7 1.
Definition number_of (u : UID) : value := JUnsigned (Z.to_N (Types.value u)).
Definition file : Path := ["data"; "v1"; "vehicle.json"].

(** A vehicle with a field the tools do not know. *)
Definition document : value :=
  JObject [("uid", number_of (vehicle_uid 1)); ("type_uid", number_of type_uid); ("pID", JString "OLD");
           ("displayName", JString "Old name"); ("axleCount", JUnsigned 4); ("notes", JString "old notes");
           ("customField", JString "keep-me")].
Definition disk : Disk j_text :=
  mkDisk {[ file := Bytes (Some document) ]} {[ ["data"]; ["data"; "v1"] ]}.

Definition request (preserve : bool) : VehicleSaveRequest :=
  mkVehicleRequest file preserve (vehicle_uid 1) type_uid "NEW" "" (Some (mkUID 77)) None (Some "").
Definition old : Vehicle :=
  mkVehicle (vehicle_uid 1) type_uid "OLD" "Old name" None None None (Some 4) None None None None None None None
    None None None None None (Some "old notes") file.

Definition saved : Disk j_text := (saveVehicle (request true) disk).1.

Lemma vehicle_save_load_witness :
  JsonLoader.loadVehicle saved file = Ok (edited_vehicle (request true) old) /\
  v_axle_count (edited_vehicle (request true) old) = Some 4%Z /\
  v_display_name (edited_vehicle (request true) old) = "NEW" /\ v_notes (edited_vehicle (request true) old) = None.
Proof.
  split; [|by vm_compute].
  apply (vehicle_save_load (request true) disk saved file old).
  - by vm_compute.
  - by vm_compute.
  - by vm_compute.
Defined.

(** The unknown field is kept. *)
Example unknown_field_kept :
  match dk_files saved !! file with
  | Some (Bytes (Some j)) => find j "customField"
  | _ => None
  end = Some (JString "keep-me").
Proof. by vm_compute. Qed.

(** 2^64 - 1 passes the check of the range of [int] and is read as -1: the value is
    converted to 64 signed bits first. *)
Example huge_axle_count :
  JsonLoader.requireInt (JObject [("axleCount", JUnsigned 18446744073709551615)] : @json lib) file "axleCount" = Ok (-1)%Z.
Proof. by vm_compute. Qed.
End PersistenceDemo.
