(* ===== verification/FleetEditor.v ===== *)
(** * FleetEditor: the editor of vehicles and trains

    [tools/vehicle-browser]: the item models, the vehicle dialog, the train builder
    and the main window, over the registry and the disk they share.  Widgets are the
    values they hold; what the user picks in a file dialog is an argument.  The
    string members of Qt the editor uses are a parameter. *)
From Stdlib Require Import Ascii String.
From S2P Require Import Prelude Float32 Types Text Json Paths UidTools FleetFiles Persistence.
Import FleetData.
Local Open Scope Z_scope.

(** [QString::trimmed], [toLower], [toUpper] and [toULongLong], on UTF-8. *)
Class QtText := {
  trimmed : string -> string; toLower : string -> string; toUpper : string -> string;
  toULongLong : string -> option Z;
  ulonglong_fits : forall s n, toULongLong s = Some n -> fits 64 n }.

(** ** The item models *)

(** [QVariant]. *)
Inductive Variant : Type := Invalid | UInt (n : Z) | Str (s : string) | Real (x : float).
Inductive Role : Set := | UserRole | DisplayRole | EditRole | OtherRole.

(** [items[row]] with the bounds checked. *)
Definition item_at {A : Type} (l : list A) (row : Z) : option A :=
  if (row <? 0) || (Z.of_nat (length l) <=? row) then None else l !! Z.to_nat row.

Module TrainModel.
Definition t : Type := list Vehicle.

(* SRC tools/vehicle-browser/models/train_model.cpp 13-16 TrainModel::rowCount *)
Definition rowCount (parent_valid : bool) (vehicles : t) : Z :=
  if parent_valid then 0 else Z.of_nat (length vehicles).

(* SRC tools/vehicle-browser/models/train_model.cpp 56-80 TrainModel::moveRows *)
Definition moveRows (source_parent destination_parent : bool) (source_row count destination_child : Z)
    (vehicles : t) : t * bool :=
  let size := Z.of_nat (length vehicles) in
  if source_parent || destination_parent || negb (count =? 1) || (source_row <? 0) || (size <=? source_row) ||
     (destination_child <? 0) || (size <? destination_child) || (destination_child =? source_row) ||
     (destination_child =? source_row + 1)
  then (vehicles, false)
  else
    match vehicles !! Z.to_nat source_row with
    | None => (vehicles, false)
    | Some moved =>
        let rest := base.delete (Z.to_nat source_row) vehicles in
        let adjusted_destination := Z.to_nat (if source_row <? destination_child then destination_child - 1
                                              else destination_child) in
        (take adjusted_destination rest ++ moved :: drop adjusted_destination rest, true)
    end.

(* SRC tools/vehicle-browser/models/train_model.cpp 82-88 TrainModel::appendVehicle *)
Definition appendVehicle (vehicle : Vehicle) (vehicles : t) : t := vehicles ++ [vehicle].

(* SRC tools/vehicle-browser/models/train_model.cpp 90-95 TrainModel::setVehicles *)
Definition setVehicles (l : list Vehicle) (vehicles : t) : t := l.

(* SRC tools/vehicle-browser/models/train_model.cpp 97-107 TrainModel::removeVehicle *)
Definition removeVehicle (row : Z) (vehicles : t) : t * bool :=
  if (row <? 0) || (Z.of_nat (length vehicles) <=? row) then (vehicles, false)
  else (base.delete (Z.to_nat row) vehicles, true).

(* SRC tools/vehicle-browser/models/train_model.cpp 109-114 TrainModel::clear *)
Definition clear (vehicles : t) : t := [].

(** The reference: the vehicle at [source_row] goes before the one now at
    [destination_child]. *)
Definition moved_before (source destination : nat) (vehicles : t) : t :=
  match vehicles !! source with
  | Some moved =>
      if (source <? destination)%nat
      then take source vehicles ++ take (destination - S source) (drop (S source) vehicles) ++
           moved :: drop destination vehicles
      else take destination vehicles ++ moved :: take (source - destination) (drop destination vehicles) ++
           drop (S source) vehicles
  | None => vehicles
  end.
End TrainModel.

Module VehicleModel.
(* SRC tools/vehicle-browser/models/vehicle_model.hpp 12-45 VehicleModel *)
Record t := mk { vehicles : list Vehicle; visible_rows : list nat; filter_type_uid : option UID }.
#[global] Instance t_eta : Eta t := fun m => mk (vehicles m) (visible_rows m) (filter_type_uid m).

Definition shows (filter : option UID) (v : Vehicle) : bool :=
  match filter with Some uid => bool_decide (v_type_uid v = uid) | None => true end.

(** The loop of [rebuildVisibleRows] from [index] on. *)
Fixpoint matching_rows (filter : option UID) (index : nat) (l : list Vehicle) : list nat :=
  match l with
  | [] => []
  | v :: l => (if shows filter v then [index] else []) ++ matching_rows filter (S index) l
  end.

(* SRC tools/vehicle-browser/models/vehicle_model.cpp 106-116 VehicleModel::rebuildVisibleRows *)
Definition rebuildVisibleRows (m : t) : t :=
  m <| visible_rows := matching_rows (filter_type_uid m) 0 (vehicles m) |>.

(* SRC tools/vehicle-browser/models/vehicle_model.cpp 81-87 VehicleModel::setVehicles *)
Definition setVehicles (l : list Vehicle) (m : t) : t := rebuildVisibleRows (m <| vehicles := l |>).

(* SRC tools/vehicle-browser/models/vehicle_model.cpp 89-95 VehicleModel::setFilterVehicleType *)
Definition setFilterVehicleType (type_uid : option UID) (m : t) : t :=
  rebuildVisibleRows (m <| filter_type_uid := type_uid |>).

(* SRC tools/vehicle-browser/models/vehicle_model.cpp 97-104 VehicleModel::vehicleAt *)
Definition vehicleAt (row : Z) (m : t) : option Vehicle :=
  index ← item_at (visible_rows m) row; vehicles m !! index.

(* SRC tools/vehicle-browser/models/vehicle_model.cpp 11-14 VehicleModel::rowCount *)
Definition rowCount (parent_valid : bool) (m : t) : Z :=
  if parent_valid then 0 else Z.of_nat (length (visible_rows m)).

(* SRC tools/vehicle-browser/models/vehicle_model.hpp 17-25 VehicleModel::Column *)
Inductive Column : Set :=
| UID_COLUMN | TYPE_UID_COLUMN | SIDE_NUMBER_COLUMN | DISPLAY_NAME_COLUMN | CARRIER_COLUMN | COLUMN_COUNT.

(* SRC tools/vehicle-browser/models/vehicle_model.cpp 21-55 VehicleModel::data *)
Definition data (index_valid : bool) (row : Z) (column : Column) (role : Role) (m : t) : Variant :=
  match (if index_valid then vehicleAt row m else None) with
  | None => Invalid
  | Some vehicle =>
      match role with
      | UserRole => UInt (value (v_uid vehicle))
      | DisplayRole | EditRole =>
          match column with
          | UID_COLUMN => UInt (value (v_uid vehicle))
          | TYPE_UID_COLUMN => UInt (value (v_type_uid vehicle))
          | SIDE_NUMBER_COLUMN => Str (v_pid vehicle)
          | DISPLAY_NAME_COLUMN => Str (v_display_name vehicle)
          | CARRIER_COLUMN => match v_carrier_id vehicle with Some c => UInt (value c) | None => Invalid end
          | COLUMN_COUNT => Invalid
          end
      | OtherRole => Invalid
      end
  end.

(** [None]: the implementation of the base class. *)
(* SRC tools/vehicle-browser/models/vehicle_model.cpp 57-79 VehicleModel::headerData *)
Definition headerData (section : Column) (horizontal : bool) (role : Role) : option Variant :=
  match horizontal, role with
  | true, DisplayRole => Some
      match section with
      | UID_COLUMN => Str "UID"
      | TYPE_UID_COLUMN => Str "UID typu pojazdu"
      | SIDE_NUMBER_COLUMN => Str "Numer boczny"
      | DISPLAY_NAME_COLUMN => Str "Nazwa wyświetlana"
      | CARRIER_COLUMN => Str "UID przewoźnika"
      | COLUMN_COUNT => Invalid
      end
  | _, _ => None
  end.
End VehicleModel.

Module VehicleTypeModel.
(* SRC tools/vehicle-browser/models/vehicle_type_model.hpp 16-26 VehicleTypeModel::Column *)
Inductive Column : Set :=
| UID_COLUMN | NAME_COLUMN | FAMILY_COLUMN | TYPE_COLUMN | SUBTYPE_COLUMN | MASS_COLUMN | LENGTH_COLUMN
| COLUMN_COUNT.

(* SRC tools/vehicle-browser/models/vehicle_type_model.cpp 96-103 VehicleTypeModel::vehicleTypeAt *)
Definition vehicleTypeAt (row : Z) (types : list VehicleType) : option VehicleType := item_at types row.

(* SRC tools/vehicle-browser/models/vehicle_type_model.cpp 21-59 VehicleTypeModel::data *)
Definition data (index_valid : bool) (row : Z) (column : Column) (role : Role) (types : list VehicleType) : Variant :=
  match (if index_valid then item_at types row else None) with
  | None => Invalid
  | Some type =>
      match role with
      | UserRole => UInt (value (vt_uid type))
      | DisplayRole | EditRole =>
          match column with
          | UID_COLUMN => UInt (value (vt_uid type))
          | NAME_COLUMN => Str (vt_type_name type)
          | FAMILY_COLUMN => Str (default "" (vt_family type))%string
          | TYPE_COLUMN => Str (vt_vehicle_type type)
          | SUBTYPE_COLUMN => Str (default "" (vt_vehicle_subtype type))%string
          | MASS_COLUMN => Real (default (vt_mass_empty_t type) (vt_mass_gross_t type))
          | LENGTH_COLUMN => Real (vt_length_m type)
          | COLUMN_COUNT => Invalid
          end
      | OtherRole => Invalid
      end
  end.

(** [None]: the implementation of the base class. *)
(* SRC tools/vehicle-browser/models/vehicle_type_model.cpp 61-87 VehicleTypeModel::headerData *)
Definition headerData (section : Column) (horizontal : bool) (role : Role) : option Variant :=
  match horizontal, role with
  | true, DisplayRole => Some
      match section with
      | UID_COLUMN => Str "UID"
      | NAME_COLUMN => Str "Nazwa"
      | FAMILY_COLUMN => Str "Rodzina / producent"
      | TYPE_COLUMN => Str "Rodzaj pojazdu"
      | SUBTYPE_COLUMN => Str "Trakcja / podtyp"
      | MASS_COLUMN => Str "Masa [t]"
      | LENGTH_COLUMN => Str "Długość [m]"
      | COLUMN_COUNT => Invalid
      end
  | _, _ => None
  end.
End VehicleTypeModel.

(** ** The vehicle dialog *)

Module VehicleEditDialog.
(** [std::isalnum] in the C locale. *)
Definition isalnum (c : ascii) : bool :=
  let n := Z.of_N (N_of_ascii c) in
  ((48 <=? n) && (n <=? 57)) || ((65 <=? n) && (n <=? 90)) || ((97 <=? n) && (n <=? 122)).

(* SRC tools/vehicle-browser/ui/vehicle_edit_dialog.cpp 32-36 safeDirectoryName *)
Definition safe_char (c : ascii) : ascii :=
  if negb (isalnum c) && negb (Ascii.eqb c "-") && negb (Ascii.eqb c "_") then "_"%char else c.

Fixpoint map_string (f : ascii -> ascii) (s : string) : string :=
  match s with EmptyString => EmptyString | String c s => String (f c) (map_string f s) end.

(* SRC tools/vehicle-browser/ui/vehicle_edit_dialog.hpp 24-70 VehicleEditDialog *)
Record t := mk {
  type : VehicleType; original_vehicle : option Vehicle; default_output_directory : Path;
  proposed_uid : UID; uid_field : string; side_number_field : string; display_name_field : string;
  carrier_uid_field : string; inventory_number_field : string; notes_field : string;
  save_enabled : bool; saved_file : option Path }.
#[global] Instance t_eta : Eta t := fun x =>
  mk (type x) (original_vehicle x) (default_output_directory x) (proposed_uid x) (uid_field x)
    (side_number_field x) (display_name_field x) (carrier_uid_field x) (inventory_number_field x)
    (notes_field x) (save_enabled x) (saved_file x).

Section Dialog.
Context {JL : JsonLib} {JT : JsonText} {FS : FileSystem j_text} {QT : QtText}.

(* SRC tools/vehicle-browser/ui/vehicle_edit_dialog.cpp 27-39 safeDirectoryName *)
Definition safeDirectoryName (s : string) : string := map_string safe_char (toLower (trimmed s)).

(* SRC tools/vehicle-browser/ui/vehicle_edit_dialog.cpp 41-49 optionalString *)
Definition optionalString (s : string) : option string :=
  if bool_decide (trimmed s = ""%string) then None else Some (trimmed s).

(* SRC tools/vehicle-browser/ui/vehicle_edit_dialog.cpp 244-249 VehicleEditDialog::proposedUidIsAvailable *)
Definition proposedUidIsAvailable (registry : UidRegistry.t) (x : t) : bool :=
  match original_vehicle x with
  | Some v => if bool_decide (v_uid v = proposed_uid x) then true else isAvailable registry (proposed_uid x)
  | None => isAvailable registry (proposed_uid x)
  end.

(** [generator_.generate(ROLLING_STOCK, VEHICLE, uid_scope(type_.uid), ...)]. *)
(* SRC tools/vehicle-browser/ui/vehicle_edit_dialog.cpp 227-229 VehicleEditDialog::updateSaveState *)
Definition next_uid (registry : UidRegistry.t) (x : t) (first_instance : Z) : result UID :=
  UidGenerator.generate registry UIDDomain.ROLLING_STOCK UIDKind.VEHICLE (uid_scope (vt_uid (type x))) first_instance.

Definition propose (uid : UID) (x : t) : t :=
  x <| proposed_uid := uid |> <| uid_field := to_string (value uid) |>.

(* SRC tools/vehicle-browser/ui/vehicle_edit_dialog.cpp 221-242 VehicleEditDialog::updateSaveState *)
Definition updateSaveState (registry : UidRegistry.t) (x : t) : result t :=
  let finish x := x <| save_enabled := negb (bool_decide (trimmed (side_number_field x) = ""%string)) |> in
  if proposedUidIsAvailable registry x then Ok (finish x)
  else
    match next_uid registry x (uid_instance (proposed_uid x)) with
    | Ok uid => Ok (finish (propose uid x))
    | Throw (UidExhausted _) => Ok (x <| save_enabled := false |>)
    | Throw e => Throw e
    end.

(* SRC tools/vehicle-browser/ui/vehicle_edit_dialog.cpp 157-160 VehicleEditDialog::setSideNumber *)
Definition setSideNumber (registry : UidRegistry.t) (s : string) (x : t) : result t :=
  if bool_decide (s = side_number_field x) then Ok x
  else updateSaveState registry (x <| side_number_field := s |>).

(* SRC tools/vehicle-browser/ui/vehicle_edit_dialog.cpp 53-68 VehicleEditDialog::VehicleEditDialog *)
Definition create (registry : UidRegistry.t) (type : VehicleType) (directory : Path) : result t :=
  uid ← UidGenerator.generate registry UIDDomain.ROLLING_STOCK UIDKind.VEHICLE (uid_scope (vt_uid type)) 1;
  updateSaveState registry
    (mk type None directory uid (to_string (value uid)) "" "" "" "" "" true None).

(* SRC tools/vehicle-browser/ui/vehicle_edit_dialog.cpp 70-100 VehicleEditDialog::VehicleEditDialog *)
Definition edit (registry : UidRegistry.t) (vehicle : Vehicle) (type : VehicleType) : result t :=
  updateSaveState registry
    (mk type (Some vehicle) (parent_path (v_source_file vehicle)) (v_uid vehicle) (to_string (value (v_uid vehicle)))
      (v_pid vehicle) (v_display_name vehicle)
      (from_option (fun u => to_string (value u)) "" (v_carrier_id vehicle))
      (default "" (v_inventory_number vehicle)) (default "" (v_notes vehicle)) true None)%string.

(** The carrier the text of a field names. *)
(* SRC tools/vehicle-browser/ui/vehicle_edit_dialog.cpp 189-200 VehicleEditDialog::save *)
Definition carrier_uid (text : string) : result (option UID) :=
  if bool_decide (trimmed text = ""%string) then Ok None
  else
    match toULongLong text with
    | Some carrier =>
        if carrier =? 0 then Throw (invalid_argument "UID przewoźnika musi być dodatnią liczbą")
        else Ok (Some (mkUID carrier))
    | None => Throw (invalid_argument "UID przewoźnika musi być dodatnią liczbą")
    end.

(** The dialog, the registry and the disk after a save; an exception keeps the state
    reached. *)
(* SRC tools/vehicle-browser/ui/vehicle_edit_dialog.cpp 170-219 VehicleEditDialog::saveToFile *)
Definition saveToFile (file : Path) (s : t * UidRegistry.t * Disk j_text)
    : (t * UidRegistry.t * Disk j_text) * result Path :=
  let '(x, registry, d) := s in
  let side_number := trimmed (side_number_field x) in
  if bool_decide (side_number = ""%string) then (s, Throw (invalid_argument "Numer boczny jest wymagany"))
  else
    let proposed :=
      if proposedUidIsAvailable registry x then Ok x
      else uid ← next_uid registry x (uid_instance (proposed_uid x)); Ok (propose uid x) in
    match proposed with
    | Throw e => (s, Throw e)
    | Ok x =>
        let display_name := if bool_decide (trimmed (display_name_field x) = ""%string) then side_number
                            else trimmed (display_name_field x) in
        match carrier_uid (carrier_uid_field x) with
        | Throw e => ((x, registry, d), Throw e)
        | Ok carrier =>
            let '(d, saved) := EditorPersistenceService.saveVehicle
              (EditorPersistenceService.mkVehicleRequest file (bool_decide (is_Some (original_vehicle x)))
                 (proposed_uid x) (vt_uid (type x)) side_number display_name carrier
                 (optionalString (inventory_number_field x)) (optionalString (notes_field x))) d in
            match saved with
            | Throw e => ((x, registry, d), Throw e)
            | Ok written =>
                let registry := match original_vehicle x with
                                | Some _ => registry
                                | None => (UidRegistry.insert (proposed_uid x) written registry).1
                                end in
                ((x <| saved_file := Some written |>, registry, d), Ok written)
            end
        end
    end.

(* SRC tools/vehicle-browser/ui/vehicle_edit_dialog.cpp 162-168 VehicleEditDialog::saveToDirectory *)
Definition saveToDirectory (directory : Path) (s : t * UidRegistry.t * Disk j_text)
    : (t * UidRegistry.t * Disk j_text) * result Path :=
  let output_directory := path_div directory (safeDirectoryName (side_number_field s.1.1)) in
  saveToFile (path_div output_directory "vehicle.json") s.

(** [chosen] is the directory picked, [None] if the choice is cancelled. *)
(* SRC tools/vehicle-browser/ui/vehicle_edit_dialog.cpp 256-290 VehicleEditDialog::save *)
Definition save (chosen : option Path) (s : t * UidRegistry.t * Disk j_text)
    : (t * UidRegistry.t * Disk j_text) * option (result Path) :=
  match original_vehicle s.1.1 with
  | Some v => let '(s, r) := saveToFile (v_source_file v) s in (s, Some r)
  | None =>
      match chosen with
      | None => (s, None)
      | Some directory => let '(s, r) := saveToDirectory directory s in (s, Some r)
      end
  end.
End Dialog.
End VehicleEditDialog.

(** ** The train builder *)

Module TrainBuilderPanel.
(** The panel with the train model it shows; [category] is the text of the category
    box, [selector_index] the entry of the train box, 0 for a new train. *)
(* SRC tools/vehicle-browser/ui/train_builder_panel.hpp 29-83 TrainBuilderPanel *)
Record t := mk {
  model : TrainModel.t; trains : list Train; vehicles : list Vehicle; default_output_directory : Path;
  current_train_index : option nat; missing_vehicle_count : nat; selector_index : nat; uid_field : string;
  pid_field : string; display_name_field : string; category_field : string; carrier_uid_field : string;
  save_enabled : bool }.
#[global] Instance t_eta : Eta t := fun x =>
  mk (model x) (trains x) (vehicles x) (default_output_directory x) (current_train_index x)
    (missing_vehicle_count x) (selector_index x) (uid_field x) (pid_field x) (display_name_field x)
    (category_field x) (carrier_uid_field x) (save_enabled x).

(** The entries of the category box; [setCurrentText] selects an entry and does
    nothing for another text. *)
(* SRC tools/vehicle-browser/ui/train_builder_panel.cpp 52-54 TrainBuilderPanel::buildUi *)
Definition categories : list string := ["PASSENGER"; "FREIGHT"; "MAINTENANCE"]%string.
Definition set_category (text : string) (x : t) : t :=
  if bool_decide (text ∈ categories) then x <| category_field := text |> else x.

(* SRC tools/vehicle-browser/ui/train_builder_panel.cpp 334-344 TrainBuilderPanel::findVehicle *)
Definition findVehicle (uid : UID) (x : t) : option Vehicle :=
  List.find (fun v => bool_decide (v_uid v = uid)) (vehicles x).

Section Panel.
Context {JL : JsonLib} {JT : JsonText} {FS : FileSystem j_text} {QT : QtText}.

(* SRC tools/vehicle-browser/ui/train_builder_panel.cpp 346-354 TrainBuilderPanel::updateActionState *)
Definition updateActionState (x : t) : t :=
  let has_rows := negb (bool_decide (model x = [])) in
  let has_pid := negb (bool_decide (trimmed (pid_field x) = ""%string)) in
  let data_complete := (missing_vehicle_count x =? 0)%nat in
  x <| save_enabled := has_rows && has_pid && data_complete |>.

(* SRC tools/vehicle-browser/ui/train_builder_panel.cpp 187-241 TrainBuilderPanel::selectTrain *)
Definition selectTrain (index : nat) (x : t) : t :=
  let x := x <| model := [] |> <| current_train_index := None |> <| uid_field := ""%string |>
    <| pid_field := ""%string |> <| display_name_field := ""%string |> in
  let x := set_category "PASSENGER" x <| carrier_uid_field := ""%string |> <| missing_vehicle_count := O |> in
  match index with
  | O => updateActionState x
  | S i =>
      match trains x !! i with
      | None => updateActionState x
      | Some train =>
          let x := x <| current_train_index := Some i |> <| uid_field := to_string (value (t_uid train)) |>
            <| pid_field := t_pid train |> <| display_name_field := t_display_name train |> in
          let x := set_category (toUpper (t_train_category train)) x in
          let x := match t_carrier_id train with
                   | Some c => x <| carrier_uid_field := to_string (value c) |>
                   | None => x
                   end in
          let consist := omap (fun uid => findVehicle uid x) (t_vehicle_uids train) in
          let missing := length (List.filter (fun uid => negb (bool_decide (is_Some (findVehicle uid x))))
                                             (t_vehicle_uids train)) in
          updateActionState (x <| missing_vehicle_count := missing |> <| model := consist |>)
      end
  end.

(** The entry of the train box for the train selected before: the last with its
    identifier. *)
Fixpoint entry_of (selected : option UID) (index : nat) (l : list Train) (found : nat) : nat :=
  match l with
  | [] => found
  | train :: l => entry_of selected (S index) l
      (if bool_decide (selected = Some (t_uid train)) then S index else found)
  end.

(* SRC tools/vehicle-browser/ui/train_builder_panel.cpp 108-141 TrainBuilderPanel::setAvailableData *)
Definition setAvailableData (new_trains : list Train) (new_vehicles : list Vehicle) (directory : Path) (x : t) : t :=
  let selected_uid := i ← current_train_index x; t_uid <$> trains x !! i in
  let x := x <| trains := new_trains |> <| vehicles := new_vehicles |> <| default_output_directory := directory |> in
  let selected_index := entry_of selected_uid 0 new_trains 0 in
  selectTrain selected_index (x <| selector_index := selected_index |>).

(* SRC tools/vehicle-browser/ui/train_builder_panel.cpp 243-247 TrainBuilderPanel::newTrain *)
Definition newTrain (x : t) : t :=
  if (selector_index x =? 0)%nat then x else selectTrain 0 (x <| selector_index := O |>).

(* SRC tools/vehicle-browser/ui/train_builder_panel.cpp 249-252 TrainBuilderPanel::removeSelected *)
Definition removeSelected (row : Z) (x : t) : t :=
  let '(m, removed) := TrainModel.removeVehicle row (model x) in
  if removed then updateActionState (x <| model := m |>) else x.

(* SRC tools/vehicle-browser/ui/train_builder_panel.cpp 317-332 TrainBuilderPanel::parsedCarrierUid *)
Definition parsedCarrierUid (x : t) : result (option UID) :=
  let text := trimmed (carrier_uid_field x) in
  if bool_decide (text = ""%string) then Ok None
  else
    match toULongLong text with
    | Some carrier =>
        if carrier =? 0 then Throw (invalid_argument "UID przewoźnika musi być dodatnią liczbą")
        else Ok (Some (mkUID carrier))
    | None => Throw (invalid_argument "UID przewoźnika musi być dodatnią liczbą")
    end.

(* SRC tools/vehicle-browser/ui/train_builder_panel.cpp 143-185 TrainBuilderPanel::saveTrainTo *)
Definition saveTrainTo (x : t) (file : Path) (pid display_name category : string) (first_instance : Z)
    (existing_uid carrier_id : option UID) (registry : UidRegistry.t) (d : Disk j_text)
    : (UidRegistry.t * Disk j_text) * result UID :=
  let checked :=
    _ ← throw_if (bool_decide (model x = [])) (runtime_error "Nie można zapisać pustego składu pociągu");
    _ ← throw_if (bool_decide (trimmed pid = ""%string)) (runtime_error "Numer pociągu jest wymagany");
    match existing_uid with
    | Some uid => Ok uid
    | None => UidGenerator.generate registry UIDDomain.ROLLING_STOCK UIDKind.TRAIN_CONSIST 0 first_instance
    end in
  match checked with
  | Throw e => ((registry, d), Throw e)
  | Ok uid =>
      let '(d, saved) := EditorPersistenceService.saveTrain
        (EditorPersistenceService.mkTrainRequest file (bool_decide (is_Some existing_uid)) uid (trimmed pid)
           (trimmed display_name) (toUpper category) carrier_id (v_uid <$> model x)) d in
      match saved with
      | Throw e => ((registry, d), Throw e)
      | Ok _ =>
          ((match existing_uid with
            | Some _ => registry
            | None => (UidRegistry.insert uid file registry).1
            end, d), Ok uid)
      end
  end.

(** [chosen] is the file picked, [None] if the choice is cancelled. [Ok None] is a
    save that was cancelled, [Ok (Some uid)] one that emits [trainSaved]. *)
(* SRC tools/vehicle-browser/ui/train_builder_panel.cpp 264-315 TrainBuilderPanel::saveCurrent *)
Definition saveCurrent (x : t) (save_as : bool) (chosen : option Path) (registry : UidRegistry.t)
    (d : Disk j_text) : (UidRegistry.t * Disk j_text) * result (option UID) :=
  let prepared :=
    _ ← throw_if (0 <? missing_vehicle_count x)%nat
          (runtime_error "Nie można zapisać składu, dopóki nie zostaną wczytane wszystkie wskazane pojazdy");
    parsedCarrierUid x in
  match prepared with
  | Throw e => ((registry, d), Throw e)
  | Ok carrier_id =>
      let current := if save_as then None else i ← current_train_index x; trains x !! i in
      let target := match current with
                    | Some train => Some (t_source_file train, Some (t_uid train))
                    | None => (fun file => (file, None)) <$> chosen
                    end in
      match target with
      | None => ((registry, d), Ok None)
      | Some (file, existing_uid) =>
          let '(s, saved) := saveTrainTo x file (pid_field x) (display_name_field x) (category_field x) 1
                               existing_uid carrier_id registry d in
          (s, Some <$> saved)
      end
  end.
End Panel.
End TrainBuilderPanel.

(** ** The main window *)

Module MainWindow.
Import BrowserDataController.

(* SRC tools/vehicle-browser/ui/main_window.hpp 23-63 MainWindow *)
Record t (T : Type) := mk {
  registry : UidRegistry.t; disk : Disk T; data : BrowserDataSet; vehicle_type_model : list VehicleType;
  vehicle_model : VehicleModel.t; panel : TrainBuilderPanel.t; packages_mode : bool;
  active_source_root : Path; last_error : option exception }.
Arguments mk {T}. Arguments registry {T}. Arguments disk {T}. Arguments data {T}.
Arguments vehicle_type_model {T}. Arguments vehicle_model {T}. Arguments panel {T}.
Arguments packages_mode {T}. Arguments active_source_root {T}. Arguments last_error {T}.
#[global] Instance t_eta {T} : Eta (t T) := fun w =>
  mk (registry w) (disk w) (data w) (vehicle_type_model w) (vehicle_model w) (panel w) (packages_mode w)
    (active_source_root w) (last_error w).

Section Window.
Context {JL : JsonLib} {JT : JsonText} {FS : FileSystem j_text} {QT : QtText}.

(* SRC tools/vehicle-browser/ui/main_window.cpp 192-204 MainWindow::applyData *)
Definition applyData (data_set : BrowserDataSet) (w : t j_text) : t j_text :=
  w <| data := data_set |> <| vehicle_type_model := vehicle_types data_set |>
    <| vehicle_model ::= VehicleModel.setVehicles (vehicles data_set) |>
    <| panel ::= TrainBuilderPanel.setAvailableData (trains data_set) (vehicles data_set)
                   (path_div (active_source_root w) "trains") |>.

(** The result of a load: the data applied, or the error shown. *)
Definition loaded (r : UidRegistry.t * result BrowserDataSet) (w : t j_text) : t j_text :=
  let w := w <| registry := r.1 |> in
  match r.2 with
  | Ok data_set => applyData data_set w <| last_error := None |>
  | Throw e => w <| last_error := Some e |>
  end.

(* SRC tools/vehicle-browser/ui/main_window.cpp 206-219 MainWindow::loadPackages *)
Definition loadPackages (current_path : Path) (w : t j_text) : t j_text :=
  let w := w <| packages_mode := true |> <| active_source_root := path_div current_path "packages" |> in
  loaded (BrowserDataController.loadPackages (active_source_root w) (disk w) (registry w)) w.

(* SRC tools/vehicle-browser/ui/main_window.cpp 221-234 MainWindow::loadDirectory *)
Definition loadDirectory (directory : Path) (w : t j_text) : t j_text :=
  let w := w <| packages_mode := false |> <| active_source_root := directory |> in
  loaded (BrowserDataController.loadDirectory directory (disk w) (registry w)) w.

(* SRC tools/vehicle-browser/ui/main_window.cpp 236-246 MainWindow::reloadActiveSource *)
Definition reloadActiveSource (current_path : Path) (w : t j_text) : t j_text :=
  if packages_mode w then loadPackages current_path w else loadDirectory (active_source_root w) w.

(* SRC tools/vehicle-browser/ui/main_window.cpp 248-258 MainWindow::findVehicle *)
Definition findVehicle (uid : UID) (w : t j_text) : option Vehicle :=
  List.find (fun v => bool_decide (v_uid v = uid)) (vehicles (data w)).

(* SRC tools/vehicle-browser/ui/main_window.cpp 260-270 MainWindow::findVehicleType *)
Definition findVehicleType (uid : UID) (w : t j_text) : option VehicleType :=
  List.find (fun type => bool_decide (vt_uid type = uid)) (vehicle_types (data w)).

(* SRC tools/vehicle-browser/ui/main_window.cpp 83-90 MainWindow::addSelectedVehicleToTrain *)
Definition addSelectedVehicleToTrain (vehicle_uid : Z) (w : t j_text) : t j_text :=
  match findVehicle (mkUID (u64 vehicle_uid)) w with
  | Some vehicle =>
      w <| panel ::= fun x => TrainBuilderPanel.updateActionState
             (x <| TrainBuilderPanel.model ::= TrainModel.appendVehicle vehicle |>) |>
  | None => w
  end.

(** The window while a dialog over its registry and disk is open, and after it. *)
Definition dialog_state (x : VehicleEditDialog.t) (w : t j_text) := (x, registry w, disk w).
Definition after_dialog (current_path : Path)
    (s : (VehicleEditDialog.t * UidRegistry.t * Disk j_text) * option (result Path)) (w : t j_text) : t j_text :=
  let w := w <| registry := s.1.1.2 |> <| disk := s.1.2 |> in
  match s.2 with
  | Some (Ok _) => reloadActiveSource current_path w
  | Some (Throw e) => w <| last_error := Some e |>
  | None => w
  end.

(** [fill] is what the user types into the dialog, [chosen] the directory picked; after
    a failed save the dialog is closed.  No handler surrounds the construction of the
    dialog: its exception leaves the slot. *)
(* SRC tools/vehicle-browser/ui/main_window.cpp 92-111 MainWindow::createVehicle *)
Definition createVehicle (selected : option VehicleType) (fill : VehicleEditDialog.t -> VehicleEditDialog.t)
    (chosen : option Path) (current_path : Path) (w : t j_text) : result (t j_text) :=
  match selected with
  | None => Ok w
  | Some type =>
      match VehicleEditDialog.create (registry w) type (path_div (active_source_root w) "vehicles") with
      | Throw e => Throw e
      | Ok x => Ok (after_dialog current_path (VehicleEditDialog.save chosen (dialog_state (fill x) w)) w)
      end
  end.

(* SRC tools/vehicle-browser/ui/main_window.cpp 113-140 MainWindow::editVehicle *)
Definition editVehicle (vehicle_uid : Z) (fill : VehicleEditDialog.t -> VehicleEditDialog.t)
    (current_path : Path) (w : t j_text) : result (t j_text) :=
  match findVehicle (mkUID (u64 vehicle_uid)) w with
  | None => Ok w
  | Some vehicle =>
      match findVehicleType (v_type_uid vehicle) w with
      | None => Ok w
      | Some type =>
          match VehicleEditDialog.edit (registry w) vehicle type with
          | Throw e => Throw e
          | Ok x => Ok (after_dialog current_path (VehicleEditDialog.save None (dialog_state (fill x) w)) w)
          end
      end
  end.

(** [saveCurrent] of the panel, whose [trainSaved] reloads the source. *)
(* SRC tools/vehicle-browser/ui/main_window.cpp 188-189 MainWindow::buildUi *)
Definition saveTrain (save_as : bool) (chosen : option Path) (current_path : Path) (w : t j_text) : t j_text :=
  let '((registry', disk'), saved) := TrainBuilderPanel.saveCurrent (panel w) save_as chosen (registry w) (disk w) in
  let w := w <| registry := registry' |> <| disk := disk' |> in
  match saved with
  | Ok (Some _) => reloadActiveSource current_path w
  | Ok None => w
  | Throw e => w <| last_error := Some e |>
  end.
End Window.
End MainWindow.

(** ** What the models show *)

Lemma item_at_lookup {A} (l : list A) (i : nat) : item_at l (Z.of_nat i) = l !! i.
Proof.
  unfold item_at. rewrite Nat2Z.id, (proj2 (Z.ltb_ge _ _)) by lia. cbn [orb].
  case_match eqn:E; [|done]. symmetry. apply lookup_ge_None_2. apply Z.leb_le in E. lia.
Qed.

Lemma matching_rows_shift filter k l :
  VehicleModel.matching_rows filter (S k) l = S <$> VehicleModel.matching_rows filter k l.
Proof.
  revert k. induction l as [|v l IH]; intros k; [done|]. cbn [VehicleModel.matching_rows].
  rewrite IH, fmap_app. by destruct (VehicleModel.shows filter v).
Qed.

Lemma matching_rows_items filter l :
  (fun i => l !! i) <$> VehicleModel.matching_rows filter 0 l = Some <$> List.filter (VehicleModel.shows filter) l.
Proof.
  induction l as [|v l IH]; [done|]. cbn [VehicleModel.matching_rows List.filter].
  rewrite fmap_app, matching_rows_shift, <- list_fmap_compose. destruct (VehicleModel.shows filter v).
  - cbn. f_equal. exact IH.
  - exact IH.
Qed.

(** The model after any call that changes it. *)
Inductive model_reachable : VehicleModel.t -> Prop :=
| model_new : model_reachable (VehicleModel.mk [] [] None)
| model_set l m : model_reachable m -> model_reachable (VehicleModel.setVehicles l m)
| model_filter u m : model_reachable m -> model_reachable (VehicleModel.setFilterVehicleType u m).

(** The rows of the vehicle table are the vehicles of the selected type, in order. *)
Lemma model_rows m :
  model_reachable m ->
  (fun i => VehicleModel.vehicleAt (Z.of_nat i) m) <$> seq 0 (length (VehicleModel.visible_rows m)) =
  Some <$> List.filter (VehicleModel.shows (VehicleModel.filter_type_uid m)) (VehicleModel.vehicles m).
Proof.
  intros H. assert (VehicleModel.visible_rows m =
    VehicleModel.matching_rows (VehicleModel.filter_type_uid m) 0 (VehicleModel.vehicles m)) as E by by destruct H.
  rewrite <- matching_rows_items, <- E. apply list_eq. intros i. rewrite !list_lookup_fmap.
  destruct (decide (i < length (VehicleModel.visible_rows m))%nat) as [Hi|Hi].
  - rewrite lookup_seq_lt by done. destruct (lookup_lt_is_Some_2 _ _ Hi) as [r Hr].
    cbn. unfold VehicleModel.vehicleAt. rewrite item_at_lookup. cbn. by rewrite Hr.
  - rewrite lookup_seq_ge by lia. by rewrite (lookup_ge_None_2 (VehicleModel.visible_rows m)) by lia.
Qed.

(** A move takes the row out and puts it before the row it was dropped on. *)
Lemma delete_move (l : list Vehicle) source n :
  (source < length l)%nat ->
  take n (base.delete source l) = take n (take source l) ++ take (n - source) (drop (S source) l) /\
  drop n (base.delete source l) = drop n (take source l) ++ drop (n - source) (drop (S source) l).
Proof.
  intros Hs. rewrite delete_take_drop, take_app, drop_app, length_take_le by lia. done.
Qed.

Lemma moveRows_moved source destination vehicles :
  (source < length vehicles)%nat -> (destination <= length vehicles)%nat ->
  destination <> source -> destination <> S source ->
  TrainModel.moveRows false false (Z.of_nat source) 1 (Z.of_nat destination) vehicles =
  (TrainModel.moved_before source destination vehicles, true).
Proof.
  unfold TrainModel.t in *. intros Hs Hd Hn1 Hn2. unfold TrainModel.moveRows, TrainModel.moved_before, TrainModel.t. rewrite !Nat2Z.id.
  change (1 =? 1)%Z with true. cbn [negb orb].
  rewrite (proj2 (Z.ltb_ge (Z.of_nat source) 0)), (proj2 (Z.leb_gt (Z.of_nat (length vehicles)) _)),
    (proj2 (Z.ltb_ge (Z.of_nat destination) 0)), (proj2 (Z.ltb_ge (Z.of_nat (length vehicles)) _)),
    !(proj2 (Z.eqb_neq _ _)) by lia. cbn [orb].
  destruct (lookup_lt_is_Some_2 _ _ Hs) as [moved Hm]. rewrite Hm. f_equal.
  destruct (Nat.ltb_spec source destination) as [Hlt|Hge].
  - rewrite (proj2 (Z.ltb_lt _ _)) by lia. replace (Z.to_nat (Z.of_nat destination - 1)) with (destination - 1)%nat by lia.
    destruct (delete_move vehicles source (destination - 1) Hs) as [-> ->].
    rewrite take_take, Nat.min_r by lia. rewrite (drop_ge (take source vehicles)) by (rewrite length_take; lia). rewrite drop_drop.
    rewrite <- app_assoc. do 3 f_equal; [lia|]. cbn. do 2 f_equal. lia.
  - rewrite (proj2 (Z.ltb_ge _ _)) by lia. rewrite Nat2Z.id.
    destruct (delete_move vehicles source destination Hs) as [-> ->].
    rewrite take_take, Nat.min_l by lia. replace (destination - source)%nat with O by lia.
    rewrite take_0, drop_0, app_nil_r, take_drop_commute.
    by replace (destination + (source - destination))%nat with source by lia.
Qed.

Lemma moved_before_perm source destination vehicles :
  TrainModel.moved_before source destination vehicles ≡ₚ vehicles.
Proof.
  unfold TrainModel.moved_before, TrainModel.t in *. destruct (vehicles !! source) as [moved|] eqn:E; [|done].
  pose proof (take_drop_middle _ _ _ E) as Hl. destruct (Nat.ltb_spec source destination) as [Hlt|Hge].
  - rewrite <- Hl at 4. apply Permutation_app_head.
    rewrite <- Permutation_middle. apply Permutation_skip.
    rewrite <- (take_drop (destination - S source) (drop (S source) vehicles)) at 2.
    rewrite drop_drop. by replace (S source + (destination - S source))%nat with destination by lia.
  - rewrite <- Hl at 4. rewrite <- (take_drop destination (take source vehicles)), take_take, Nat.min_l by lia.
    rewrite <- app_assoc. apply Permutation_app_head. rewrite take_drop_commute.
    replace (destination + (source - destination))%nat with source by lia. apply Permutation_middle.
Qed.

(** Reordering a consist by drag and drop: [moveRows] accepts exactly the moves of one row
    to another place inside the list; the consist is then the old one with that
    vehicle put before the one it was dropped on, no vehicle lost or doubled, and a
    refused move changes nothing. *)
Theorem move_rows_spec sp dp source count destination vehicles :
  let size := Z.of_nat (length vehicles) in
  let accepted := sp = false /\ dp = false /\ count = 1 /\ 0 <= source < size /\ 0 <= destination <= size /\
                  destination <> source /\ destination <> source + 1 in
  (accepted -> TrainModel.moveRows sp dp source count destination vehicles =
               (TrainModel.moved_before (Z.to_nat source) (Z.to_nat destination) vehicles, true)) /\
  (~ accepted -> TrainModel.moveRows sp dp source count destination vehicles = (vehicles, false)) /\
  TrainModel.moved_before (Z.to_nat source) (Z.to_nat destination) vehicles ≡ₚ vehicles.
Proof.
  intros size accepted. split; [|split].
  - intros (-> & -> & -> & Hs & Hd & Hn1 & Hn2). subst size.
    rewrite <- (Z2Nat.id source), <- (Z2Nat.id destination) at 1 by lia.
    rewrite moveRows_moved by lia. done.
  - intros Hn. unfold TrainModel.moveRows. case_match eqn:E; [done|]. exfalso. apply Hn.
    rewrite !orb_false_iff, negb_false_iff in E.
    destruct E as [[[[[[[[? ?] ?] ?] ?] ?] ?] ?] ?]. subst accepted size. unfold TrainModel.t in *.
    repeat match goal with H : (_ <? _)%Z = false |- _ => apply Z.ltb_ge in H
    | H : (_ <=? _)%Z = false |- _ => apply Z.leb_gt in H | H : (_ =? _)%Z = false |- _ => apply Z.eqb_neq in H
    | H : (_ =? _)%Z = true |- _ => apply Z.eqb_eq in H end.
    repeat split; done || lia.
  - apply moved_before_perm.
Qed.

(** ** Saving into the source that is shown *)

Section Reload.
Context {JL : JsonLib} {JT : JsonText} {FS : FileSystem j_text} {QT : QtText}.

Lemma vehicle_source d p v : JsonLoader.loadVehicle d p = Ok v -> v_source_file v = p.
Proof.
  unfold JsonLoader.loadVehicle. intros (document & _ & H)%bind_ok. unfold JsonLoader.parseVehicle in H.
  split_ok H. by injection H as <-.
Qed.

Lemma train_source d p t : JsonLoader.loadTrain d p = Ok t -> t_source_file t = p.
Proof.
  unfold JsonLoader.loadTrain. intros (document & _ & H)%bind_ok. unfold JsonLoader.parseTrain in H.
  split_ok H. by injection H as <-.
Qed.

Lemma type_source d p t : JsonLoader.loadVehicleType d p = Ok t -> vt_source_file t = p.
Proof.
  unfold JsonLoader.loadVehicleType. intros (document & _ & H)%bind_ok. unfold JsonLoader.parseVehicleType in H.
  split_ok H. by injection H as <-.
Qed.

(** A record of another file is still found after [file] was written. *)
Lemma directory_has_frame {A} type (loader : Disk j_text -> Path -> result A) (parse : json -> Path -> result A)
    (source : A -> Path) d d' file b root a :
  (forall d p, loader d p = (document ← JsonLoader.parseJsonFile d p; parse document p)) ->
  (forall d p a, loader d p = Ok a -> source a = p) ->
  dk_files d' = <[file := b]> (dk_files d) -> source a <> file ->
  directory_has type loader d root a -> directory_has type loader d' root a.
Proof.
  intros Hl Hs Hf Hne (p & Hp & Hb & He & Ht & Ha). pose proof (Hs _ _ _ Ha) as Hsp. subst p. exists (source a).
  assert (JsonLoader.parseJsonFile d' (source a) = JsonLoader.parseJsonFile d (source a)) as Hparse.
  { apply parse_frame; [by rewrite Hf, lookup_insert_ne|by apply bool_decide_eq_true in Hp]. }
  repeat split; try done.
  - unfold is_file in *. by rewrite Hf, lookup_insert_ne.
  - rewrite <- Ht. unfold JsonLoader.detectDocumentType. by rewrite Hparse.
  - rewrite <- Ha, !Hl. by rewrite Hparse.
Qed.

Lemma saveTrain_uid request d d' u :
  EditorPersistenceService.saveTrain request d = (d', Ok u) -> u = EditorPersistenceService.tr_uid request.
Proof.
  unfold EditorPersistenceService.saveTrain. destruct (EditorPersistenceService.train_document _ _); [|done].
  destruct (EditorPersistenceService.writeDocument _ _ _ _) as [? [[]|]]; [|done]. by intros [= _ <-].
Qed.

(** What saving a new consist asks of the persistence service and of the generator. *)
Lemma saveTrainTo_new x file pid name category carrier registry d registry' d' u :
  TrainBuilderPanel.saveTrainTo x file pid name category 1 None carrier registry d = ((registry', d'), Ok u) ->
  UidGenerator.generate registry UIDDomain.ROLLING_STOCK UIDKind.TRAIN_CONSIST 0 1 = Ok u /\
  registry' = (UidRegistry.insert u file registry).1 /\
  exists request, EditorPersistenceService.saveTrain request d = (d', Ok u) /\
    request = EditorPersistenceService.mkTrainRequest file false u (trimmed pid) (trimmed name) (toUpper category)
      carrier (v_uid <$> TrainBuilderPanel.model x).
Proof.
  unfold TrainBuilderPanel.saveTrainTo. intros H.
  destruct (mbind _ _) as [u1|e] eqn:E; [|by injection H].
  apply bind_ok in E as ([] & _ & E). apply bind_ok in E as ([] & _ & E).
  destruct (EditorPersistenceService.saveTrain _ _) as [d1 [u2|e]] eqn:Es; [|by injection H].
  pose proof (saveTrain_uid _ _ _ _ Es) as ->. injection H as <- <- <-.
  split; [done|]. split; [done|]. by eexists.
Qed.

Lemma parsedCarrier_fits x carrier :
  TrainBuilderPanel.parsedCarrierUid x = Ok carrier -> from_option uid_u64 True carrier.
Proof.
  unfold TrainBuilderPanel.parsedCarrierUid. case_bool_decide; [by intros [= <-]|].
  destruct (toULongLong _) as [n|] eqn:E; [|done]. destruct (n =? 0); [done|]. intros [= <-].
  cbn. by apply ulonglong_fits in E.
Qed.

(** [u] is the identifier, [train] the record a new consist of the panel is saved as. *)
Definition new_train (x : TrainBuilderPanel.t) (file : Path) (u : UID) (carrier : option UID) : Train :=
  mkTrain u (trimmed (TrainBuilderPanel.pid_field x))
    (EditorPersistenceService.shown_name (trimmed (TrainBuilderPanel.display_name_field x))
       (trimmed (TrainBuilderPanel.pid_field x)))
    (toUpper (TrainBuilderPanel.category_field x)) carrier (v_uid <$> TrainBuilderPanel.model x) file.

(** The request a new consist of the panel is saved with. *)
Definition new_request (x : TrainBuilderPanel.t) (file : Path) (u : UID) (carrier : option UID)
    : EditorPersistenceService.TrainSaveRequest :=
  EditorPersistenceService.mkTrainRequest file false u (trimmed (TrainBuilderPanel.pid_field x))
    (trimmed (TrainBuilderPanel.display_name_field x)) (toUpper (TrainBuilderPanel.category_field x)) carrier
    (v_uid <$> TrainBuilderPanel.model x).

Lemma new_consist_request x file registry d registry' d' u :
  Forall (fun v => uid_u64 (v_uid v)) (TrainBuilderPanel.model x) ->
  TrainBuilderPanel.saveCurrent x true (Some file) registry d = ((registry', d'), Ok (Some u)) ->
  UidGenerator.generate registry UIDDomain.ROLLING_STOCK UIDKind.TRAIN_CONSIST 0 1 = Ok u /\
  registry' = (UidRegistry.insert u file registry).1 /\
  exists carrier, TrainBuilderPanel.parsedCarrierUid x = Ok carrier /\
    train_request_fits (new_request x file u carrier) /\
    EditorPersistenceService.saveTrain (new_request x file u carrier) d = (d', Ok u).
Proof.
  intros Huids Hs. unfold TrainBuilderPanel.saveCurrent in Hs.
  destruct (mbind _ _) as [carrier|e] eqn:Ep; [|by injection Hs]. cbn in Hs.
  apply bind_ok in Ep as ([] & _ & Hcarrier).
  destruct (TrainBuilderPanel.saveTrainTo _ _ _ _ _ _ _ _ _ _) as [[r1 d1] [u1|e]] eqn:Es; [|by injection Hs].
  injection Hs as -> -> ->. apply saveTrainTo_new in Es as (Hgen & -> & request & Hst & ->).
  destruct (UidGenerator.generate_free _ _ _ _ _ _ (conj (Z.le_refl 0) eq_refl : fits 16 0) Hgen)
    as (_ & _ & _ & Hstruct & _).
  split; [done|]. split; [done|]. exists carrier. split; [done|]. split; [|done]. split_and!; cbn.
  - unfold uid_structured, uid_u64, fits in *. lia.
  - by apply parsedCarrier_fits in Hcarrier.
  - by apply Forall_fmap.
Qed.

(** A new consist of the panel that was saved: its identifier comes from the
    generator, the file holds it, no other file changed. *)
Lemma new_consist_saved x file registry d registry' d' u :
  Forall (fun v => uid_u64 (v_uid v)) (TrainBuilderPanel.model x) ->
  TrainBuilderPanel.saveCurrent x true (Some file) registry d = ((registry', d'), Ok (Some u)) ->
  UidGenerator.generate registry UIDDomain.ROLLING_STOCK UIDKind.TRAIN_CONSIST 0 1 = Ok u /\
  registry' = (UidRegistry.insert u file registry).1 /\ dk_dirs d ⊆ dk_dirs d' /\
  (exists b, dk_files d' = <[file := b]> (dk_files d)) /\
  JsonLoader.detectDocumentType d' file = Ok JsonLoader.TRAIN /\
  exists carrier, JsonLoader.loadTrain d' file = Ok (new_train x file u carrier).
Proof.
  intros Huids (Hgen & Hreg & carrier & _ & Hfits & Hst)%new_consist_request; [|done].
  apply train_saved in Hst as (_ & _ & (document & Hparse & Hc1 & Hc2) & Hlt & Hfiles & Hdirs); [|done].
  split_and!; try done; [|by exists carrier].
  unfold JsonLoader.detectDocumentType. cbn in Hparse. rewrite Hparse. cbn. by rewrite Hc1, Hc2.
Qed.

(** A reload of a directory that is still there. *)
Lemma reload_directory w root disk' registry' saved file current_path :
  MainWindow.packages_mode w = false -> MainWindow.active_source_root w = root -> is_directory disk' root = true ->
  TrainBuilderPanel.saveCurrent (MainWindow.panel w) true (Some file) (MainWindow.registry w) (MainWindow.disk w) =
    ((registry', disk'), Ok (Some saved)) ->
  let w' := MainWindow.saveTrain true (Some file) current_path w in
  directory_holds disk' root (MainWindow.data w') /\
  MainWindow.registry w' = BrowserDataController.registry_of (MainWindow.data w').
Proof.
  intros Hmode <- Hdir Hsave. unfold MainWindow.saveTrain. rewrite Hsave. unfold MainWindow.reloadActiveSource. cbn.
  rewrite Hmode. unfold MainWindow.loadDirectory. cbn.
  pose proof (load_directory_cases (MainWindow.active_source_root w) disk' registry') as H.
  destruct (BrowserDataController.loadDirectory _ disk' _) as [registry1 [data1|e]]; [by destruct H as (_ & ? & ->)|].
  destruct H as [H _]. congruence.
Qed.

(** Saving a new consist to a file of the directory that is shown: its identifier is one
    that no record shown before mentioned; after the reload the trains shown contain it
    with the vehicles of the panel in their order, its identifier is registered, and
    every record of another file is shown as before. *)
Theorem new_train_reloaded (w : MainWindow.t j_text) file current_path registry' disk' u registry0 data0 :
  let root := MainWindow.active_source_root w in
  let w' := MainWindow.saveTrain true (Some file) current_path w in
  MainWindow.packages_mode w = false ->
  BrowserDataController.loadDirectory root (MainWindow.disk w) registry0 = (MainWindow.registry w, Ok data0) ->
  below root file = true -> extension file = ".json"%string ->
  Forall (fun v => uid_u64 (v_uid v)) (TrainBuilderPanel.model (MainWindow.panel w)) ->
  TrainBuilderPanel.saveCurrent (MainWindow.panel w) true (Some file) (MainWindow.registry w) (MainWindow.disk w) =
    ((registry', disk'), Ok (Some u)) ->
  (u ∉ data_uids data0) /\
  (exists carrier, new_train (MainWindow.panel w) file u carrier ∈ BrowserDataController.trains (MainWindow.data w')) /\
  UidRegistry.contains (MainWindow.registry w') u = true /\
  (forall v, v ∈ BrowserDataController.vehicles data0 -> v_source_file v <> file ->
             v ∈ BrowserDataController.vehicles (MainWindow.data w')) /\
  (forall t, t ∈ BrowserDataController.trains data0 -> t_source_file t <> file ->
             t ∈ BrowserDataController.trains (MainWindow.data w')) /\
  (forall t, t ∈ BrowserDataController.vehicle_types data0 -> vt_source_file t <> file ->
             t ∈ BrowserDataController.vehicle_types (MainWindow.data w')).
Proof.
  intros root w' Hmode Hload Hbelow Hext Huids Hsave.
  pose proof (load_directory_cases root (MainWindow.disk w) registry0) as Hd0. rewrite Hload in Hd0.
  destruct Hd0 as (Hdir & (Hty & Hv & Htr) & Hreg).
  destruct (new_consist_saved _ _ _ _ _ _ _ Huids Hsave) as (Hgen & -> & Hdirs & (b & Hfiles) & Hdetect & carrier & Hlt).
  assert (is_directory disk' root = true) as Hdir'.
  { apply bool_decide_eq_true, Hdirs. by apply bool_decide_eq_true in Hdir. }
  destruct (reload_directory w root _ _ _ _ current_path Hmode eq_refl Hdir' Hsave) as [(Hty1 & Hv1 & Htr1) Hreg1].
  fold w' in Hty1, Hv1, Htr1, Hreg1.
  assert (new_train (MainWindow.panel w) file u carrier ∈ BrowserDataController.trains (MainWindow.data w')) as Hin.
  { apply Htr1. exists file. split_and!; try done. unfold is_file.
    by rewrite Hfiles, lookup_insert_eq, bool_decide_true by (by eexists). }
  split_and!.
  - destruct (UidGenerator.generate_free _ _ _ _ _ _ (conj (Z.le_refl 0) eq_refl : fits 16 0) Hgen) as (Hfree & _).
    rewrite Hreg in Hfree. apply UidRegistry.not_contained in Hfree. rewrite registry_of_contains in Hfree.
    by apply bool_decide_eq_false in Hfree.
  - by exists carrier.
  - rewrite Hreg1, registry_of_contains. apply bool_decide_eq_true. unfold data_uids.
    rewrite !elem_of_app, !list_elem_of_bind. right. right. eexists. split; [|exact Hin]. cbn. by left.
  - intros v Hin0%Hv Hne. apply Hv1. eapply (directory_has_frame _ _ JsonLoader.parseVehicle v_source_file);
      [done|apply vehicle_source|exact Hfiles|done|done].
  - intros t Hin0%Htr Hne. apply Htr1. eapply (directory_has_frame _ _ JsonLoader.parseTrain t_source_file);
      [done|apply train_source|exact Hfiles|done|done].
  - intros t Hin0%Hty Hne. apply Hty1. eapply (directory_has_frame _ _ JsonLoader.parseVehicleType vt_source_file);
      [done|apply type_source|exact Hfiles|done|done].
Qed.

(** The panel after a train was selected. *)
Lemma selected_train x index train :
  TrainBuilderPanel.trains x !! index = Some train ->
  let x' := TrainBuilderPanel.selectTrain (S index) x in
  TrainBuilderPanel.model x' = omap (fun uid => TrainBuilderPanel.findVehicle uid x) (t_vehicle_uids train) /\
  TrainBuilderPanel.missing_vehicle_count x' =
    length (List.filter (fun uid => negb (bool_decide (is_Some (TrainBuilderPanel.findVehicle uid x))))
                        (t_vehicle_uids train)) /\
  TrainBuilderPanel.current_train_index x' = Some index /\
  TrainBuilderPanel.trains x' = TrainBuilderPanel.trains x /\
  TrainBuilderPanel.pid_field x' = t_pid train /\ TrainBuilderPanel.display_name_field x' = t_display_name train /\
  TrainBuilderPanel.category_field x' =
    (if bool_decide (toUpper (t_train_category train) ∈ TrainBuilderPanel.categories)
     then toUpper (t_train_category train) else "PASSENGER"%string) /\
  TrainBuilderPanel.carrier_uid_field x' = from_option (fun c => to_string (value c)) ""%string (t_carrier_id train).
Proof.
  intros Ht. cbn zeta. unfold TrainBuilderPanel.selectTrain, TrainBuilderPanel.set_category.
  rewrite (bool_decide_true ("PASSENGER"%string ∈ _)) by by left. cbn. rewrite Ht.
  case_bool_decide; destruct (t_carrier_id train); done.
Qed.

(** The save actions are enabled for a complete, named, non-empty consist. *)
Lemma selectTrain_enabled x index :
  let x' := TrainBuilderPanel.selectTrain index x in
  TrainBuilderPanel.save_enabled x' =
    negb (bool_decide (TrainBuilderPanel.model x' = [])) &&
    negb (bool_decide (trimmed (TrainBuilderPanel.pid_field x') = ""%string)) &&
    (TrainBuilderPanel.missing_vehicle_count x' =? 0)%nat.
Proof.
  assert (exists y, TrainBuilderPanel.selectTrain index x = TrainBuilderPanel.updateActionState y) as [y ->].
  { unfold TrainBuilderPanel.selectTrain. destruct index; [by eexists|]. case_match; by eexists. }
  by destruct y.
Qed.

(** A consist one of whose vehicles was not loaded cannot be saved: both save actions
    throw, and neither the registry nor the disk changes. *)
Theorem incomplete_train_not_saved x index train save_as chosen registry (d : Disk j_text) uid :
  TrainBuilderPanel.trains x !! index = Some train -> uid ∈ t_vehicle_uids train ->
  (forall v, v ∈ TrainBuilderPanel.vehicles x -> v_uid v <> uid) ->
  let x' := TrainBuilderPanel.selectTrain (S index) x in
  TrainBuilderPanel.save_enabled x' = false /\
  exists what, TrainBuilderPanel.saveCurrent x' save_as chosen registry d =
    ((registry, d), Throw (runtime_error what)).
Proof.
  intros Ht Hu Hno x'. destruct (selected_train x index train Ht) as (_ & Hm & _). fold x' in Hm.
  assert (TrainBuilderPanel.missing_vehicle_count x' <> O) as Hpos.
  { rewrite Hm. intros E%length_zero_iff_nil. apply (List.in_nil (a := uid)). rewrite <- E.
    apply List.filter_In. split; [by apply list_elem_of_In|].
    destruct (TrainBuilderPanel.findVehicle uid x) as [v|] eqn:Ef; [|done]. exfalso.
    apply List.find_some in Ef as [Hin Heq%bool_decide_eq_true]. apply (Hno v); [by apply list_elem_of_In|done]. }
  split.
  - unfold x'. rewrite selectTrain_enabled. fold x'. by rewrite (proj2 (Nat.eqb_neq _ _)), andb_false_r.
  - unfold TrainBuilderPanel.saveCurrent. rewrite (proj2 (Nat.ltb_lt _ _)) by lia. by eexists.
Qed.

(** In a full scope the exception of the generator leaves the slot that opens the
    dialog. *)
Lemma create_in_full_scope type fill chosen current_path (w : MainWindow.t j_text) :
  (forall i, 1 <= i <= 65535 ->
     is_Some (MainWindow.registry w !! make_uid UIDDomain.ROLLING_STOCK UIDKind.VEHICLE (uid_scope (vt_uid type)) i)) ->
  MainWindow.createVehicle (Some type) fill chosen current_path w = Throw UidGenerator.UidExhaustedException.
Proof.
  intros Hfull. unfold MainWindow.createVehicle, VehicleEditDialog.create.
  pose proof (UidGenerator.generate_cases (MainWindow.registry w) UIDDomain.ROLLING_STOCK UIDKind.VEHICLE
                (uid_scope (vt_uid type)) 1 (uid_scope_fits _)) as H.
  destruct (UidGenerator.generate _ _ _ _ _) as [u|e]; cbn.
  - destruct H as (_ & o & Ho & -> & Hfree & _). exfalso.
    destruct (Hfull (UidGenerator.instance_at 1 o) (UidGenerator.instance_at_range 1 o)) as [f Hf]. congruence.
  - destruct H as [[? _]|(_ & -> & _)]; done.
Qed.
End Reload.

(** ** A concrete window *)

Module EditorDemo.
Import JsonDemo DiskDemo BrowserDataController.
Local Open Scope string_scope.

(** The members of Qt on ASCII. *)
Fixpoint map_ascii (f : ascii -> ascii) (s : string) : string :=
  match s with EmptyString => EmptyString | String c s => String (f c) (map_ascii f s) end.
Definition shift_case (first last : Z) (by_ : Z) (c : ascii) : ascii :=
  let n := Z.of_N (N_of_ascii c) in
  if ((first <=? n) && (n <=? last))%Z then ascii_of_N (Z.to_N (n + by_)) else c.
Fixpoint trim_end (s : string) : string :=
  match s with
  | EmptyString => EmptyString
  | String c s => match trim_end s with
                  | EmptyString => if is_space c then EmptyString else String c EmptyString
                  | s => String c s
                  end
  end.

#[global, refine] Instance qt : QtText := {|
  trimmed s := trim_end (skip_spaces s);
  toLower := map_ascii (shift_case 65 90 32); toUpper := map_ascii (shift_case 97 122 (-32));
  toULongLong s := match stoull s with
                   | Some n => if ((0 <=? n) && (n <? 2 ^ 64))%Z then Some n else None
                   | None => None
                   end |}.
Proof.
  intros s n. case_match; [|done]. case_match eqn:E; [|done]. intros [= <-].
  apply andb_true_iff in E as [E1%Z.leb_le E2%Z.ltb_lt]. done.
Defined.

Definition number_of (u : UID) : value := JUnsigned (Z.to_N (Types.value u)).
Definition type_uid : UID := make_uid UIDDomain.ROLLING_STOCK UIDKind.VEHICLE_TYPE 7 1.
Definition vehicle_uid (i : Z) : UID := make_uid UIDDomain.ROLLING_STOCK UIDKind.VEHICLE 7 i.
Definition train_uid (i : Z) : UID := make_uid UIDDomain.ROLLING_STOCK UIDKind.TRAIN_CONSIST 0 i.

Definition type_doc : value :=
  JObject [("uid", number_of type_uid); ("typeName", JString "EU07"); ("vehicleType", JString "LOCOMOTIVE");
           ("lengthM", JUnsigned 16); ("axleCount", JUnsigned 4); ("massEmptyT", JUnsigned 80);
           ("maxSpeedKmh", JUnsigned 125); ("brakingLambdaPct", JUnsigned 90)].
Definition vehicle_doc (i : Z) (pid : string) : value :=
  JObject [("uid", number_of (vehicle_uid i)); ("type_uid", number_of type_uid); ("pID", JString pid);
           ("displayName", JString pid)].
Definition train_doc : value :=
  JObject [("uid", number_of (train_uid 1)); ("pID", JString "T1"); ("displayName", JString "T1");
           ("trainCategory", JString "EXPRESS"); ("vehicle_uids", JArray [number_of (vehicle_uid 1)])].

(** Three good files among a malformed and an empty one. *)
Definition disk : Disk j_text :=
  mkDisk (list_to_map [(["data"; "type.json"], Bytes (Some type_doc));
                       (["data"; "a"; "vehicle.json"], Bytes (Some (vehicle_doc 1 "A 1")));
                       (["data"; "b"; "vehicle.json"], Bytes (Some (vehicle_doc 2 "B 1")));
                       (["data"; "t1.json"], Bytes (Some train_doc)); (["data"; "bad.json"], Bytes None);
                       (["data"; "list.json"], Bytes (Some (JArray [])))])
         {[ ["data"]; ["data"; "a"]; ["data"; "b"] ]}.

Definition empty_panel : TrainBuilderPanel.t :=
  TrainBuilderPanel.mk [] [] [] [] None 0 0 "" "" "" "PASSENGER" "" false.
Definition started : MainWindow.t j_text :=
  MainWindow.mk ∅ disk (mkDataSet [] [] []) [] (VehicleModel.mk [] [] None) empty_panel true [] None.
Definition shown : MainWindow.t j_text := MainWindow.loadDirectory ["data"] started.

Example directory_shown :
  length (vehicle_types (MainWindow.data shown)) = 1%nat /\
  v_pid <$> vehicles (MainWindow.data shown) = ["A 1"; "B 1"] /\
  t_pid <$> trains (MainWindow.data shown) = ["T1"] /\ UidRegistry.size (MainWindow.registry shown) = 4%nat.
Proof. by vm_compute. Qed.

(** Both vehicles added to a new consist with a number. *)
Definition edited : MainWindow.t j_text :=
  let w := MainWindow.addSelectedVehicleToTrain (Types.value (vehicle_uid 2)) shown in
  let w := MainWindow.addSelectedVehicleToTrain (Types.value (vehicle_uid 1)) w in
  w <| MainWindow.panel ::= fun x => TrainBuilderPanel.updateActionState
         (x <| TrainBuilderPanel.pid_field := " T2 " |>) |>.
Definition target : Path := ["data"; "t2.json"].
Definition saving := TrainBuilderPanel.saveCurrent (MainWindow.panel edited) true (Some target)
  (MainWindow.registry edited) (MainWindow.disk edited).
Definition reloaded : MainWindow.t j_text := MainWindow.saveTrain true (Some target) [] edited.

Lemma new_train_reloaded_witness :
  UidRegistry.contains (MainWindow.registry reloaded) (train_uid 2) = true /\
  t_pid <$> trains (MainWindow.data reloaded) = ["T1"; "T2"] /\
  (forall t, t ∈ trains (MainWindow.data shown) -> t_source_file t <> target ->
             t ∈ trains (MainWindow.data reloaded)).
Proof.
  destruct (new_train_reloaded edited target [] saving.1.1 saving.1.2 (train_uid 2) ∅ (MainWindow.data shown))
    as (_ & _ & Hr & _ & Ht & _).
  - by vm_compute.
  - by vm_compute.
  - by vm_compute.
  - by vm_compute.
  - assert (v_uid <$> TrainBuilderPanel.model (MainWindow.panel edited) = [vehicle_uid 2; vehicle_uid 1]) as E
      by by vm_compute.
    apply (Forall_fmap v_uid uid_u64). rewrite E. by repeat constructor.
  - by vm_compute.
  - split; [exact Hr|]. split; [by vm_compute|exact Ht].
Defined.

(** A panel without the vehicle its train needs. *)
Definition lacking : TrainBuilderPanel.t := MainWindow.panel shown <| TrainBuilderPanel.vehicles := [] |>.

Lemma incomplete_train_not_saved_witness :
  TrainBuilderPanel.save_enabled (TrainBuilderPanel.selectTrain 1 lacking) = false /\
  exists what, TrainBuilderPanel.saveCurrent (TrainBuilderPanel.selectTrain 1 lacking) false None ∅ disk =
    ((∅, disk), Throw (runtime_error what)).
Proof.
  apply (incomplete_train_not_saved lacking 0
    (mkTrain (train_uid 1) "T1" "T1" "EXPRESS" None [vehicle_uid 1] ["data"; "t1.json"]) false None ∅ disk (vehicle_uid 1)).
  - by vm_compute.
  - by left.
  - by intros v H%elem_of_nil.
Defined.

(** ** Two numbers, one directory *)

(** The characters replaced make two side numbers one directory name ... *)
Example same_directory_name :
  VehicleEditDialog.safeDirectoryName "C 1" = "c_1" /\ VehicleEditDialog.safeDirectoryName "C_1" = "c_1".
Proof. done. Qed.

Definition create_numbered (number : string) (w : MainWindow.t j_text) : result (MainWindow.t j_text) :=
  MainWindow.createVehicle (MainWindow.findVehicleType type_uid w)
    (fun x => x <| VehicleEditDialog.side_number_field := number |>) (Some ["data"]) [] w.

(** ... and the second vehicle replaces the first. *)
Example second_vehicle_replaces_first :
  (w ← create_numbered "C 1" shown; Ok (v_pid <$> vehicles (MainWindow.data w))) = Ok ["A 1"; "B 1"; "C 1"] /\
  (w ← create_numbered "C 1" shown; w ← create_numbered "C_1" w; Ok (v_pid <$> vehicles (MainWindow.data w))) =
    Ok ["A 1"; "B 1"; "C_1"].
Proof. by vm_compute. Qed.

(** A train of a category the box does not offer is shown, and saved, as another. *)
Example category_replaced :
  let x := TrainBuilderPanel.selectTrain 1 (MainWindow.panel shown) in
  t_train_category <$> TrainBuilderPanel.trains x = ["EXPRESS"] /\ TrainBuilderPanel.category_field x = "PASSENGER".
Proof. by vm_compute. Qed.
End EditorDemo.
