(* ===== verification/UidWindow.v ===== *)
(** * UidWindow: the window of the identifier generator

    [tools/uid-generator/ui]: the form with its validation, the result view and the
    main window.  Widgets are the values they hold; a signal is the call of the slot
    connected to it, so replacing the entries of the kind box validates twice. *)
From Stdlib Require Import String.
From S2P Require Import Prelude Types Text Json Paths UidTools FleetFiles.
Import FleetData.
Local Open Scope Z_scope.

(** [error.what()]. *)
Definition what (e : exception) : string :=
  match e with
  | FleetLoadError s | runtime_error s | invalid_argument s | logic_error s | out_of_range s
  | UidExhausted s | JsonLoadError s | DataSourceError s | filesystem_error s => s
  | json_exception | sql_exception => ""
  end.

(** ** The form *)

Module UidForm.
(** [kind] is the entry selected in the kind box, [None] while it is empty. *)
(* SRC tools/uid-generator/ui/uid_form.hpp 15-45 UidForm *)
Record t := mk {
  domain : UIDDomain.t; kind : option UIDKind.t; scope : Z; instance_ : Z; advisory : string; error : string;
  generate_enabled : bool; generation_blocked : bool; blocked_domain : option Z; blocked_kind : option Z;
  blocked_scope : option Z }.
#[global] Instance t_eta : Eta t := fun f =>
  mk (domain f) (kind f) (scope f) (instance_ f) (advisory f) (error f) (generate_enabled f)
    (generation_blocked f) (blocked_domain f) (blocked_kind f) (blocked_scope f).

(** [currentData().toInt()]. *)
Definition domain_value (f : t) : Z := code (domain f).
Definition kind_value (f : t) : Z := from_option code 0 (kind f).

(* SRC tools/uid-generator/ui/uid_form.cpp 121-123 UidForm::updateValidation *)
Definition same_exhausted_bucket (f : t) : bool :=
  bool_decide (blocked_domain f = Some (domain_value f)) && bool_decide (blocked_kind f = Some (kind_value f)) &&
  bool_decide (blocked_scope f = Some (scope f)).

(* SRC tools/uid-generator/ui/uid_form.cpp 116-151 UidForm::updateValidation *)
Definition updateValidation (f : t) : t :=
  let same := same_exhausted_bucket f in
  let f := f <| generation_blocked := same |> in
  let f := if same then f
           else f <| error := ""%string |> <| blocked_domain := None |> <| blocked_kind := None |>
                  <| blocked_scope := None |> in
  let f := if instance_ f =? 0 then f <| error := "INSTANCE must be in range 0x0001-0xFFFF"%string |> else f in
  let f := f <| advisory := (if bool_decide (domain f = UIDDomain.ROLLING_STOCK) && (scope f =? 0)%Z
                             then "SCOPE=0 means global - ensure this is intentional" else "")%string |> in
  f <| generate_enabled := negb (instance_ f =? 0) && negb (generation_blocked f) |>.

(** The kinds offered for a domain. *)
(* SRC tools/uid-generator/ui/uid_form.cpp 105-113 UidForm::updateKinds *)
Definition kinds_of (d : UIDDomain.t) : list UIDKind.t :=
  UidLegend.kind <$> List.filter (fun e => bool_decide (UidLegend.domain e = d)) UidLegend.kUidLegendEntries.

(* SRC tools/uid-generator/ui/uid_form.cpp 101-114 UidForm::updateKinds *)
Definition updateKinds (f : t) : t :=
  let f := match kind f with
           | Some _ => updateValidation (f <| kind := None |>)
           | None => f
           end in
  match kinds_of (domain f) with
  | [] => f
  | first :: _ => updateValidation (f <| kind := Some first |>)
  end.

(* SRC tools/uid-generator/ui/uid_form.cpp 15-76 UidForm::UidForm *)
Definition create : t :=
  updateValidation (updateKinds
    (mk UIDDomain.ROLLING_STOCK None 0 1 "" "" true false None None None))%string.

(* SRC tools/uid-generator/ui/uid_form.cpp 78-89 UidForm::showError *)
Definition showError (message : string) (block_generation : bool) (f : t) : t :=
  let f := f <| error := message |> <| generation_blocked := block_generation |> in
  let f := if block_generation
           then f <| blocked_domain := Some (domain_value f) |> <| blocked_kind := Some (kind_value f) |>
                  <| blocked_scope := Some (scope f) |>
           else f in
  f <| generate_enabled := negb block_generation && negb (instance_ f =? 0) |>.

(* SRC tools/uid-generator/ui/uid_form.cpp 91-99 UidForm::clearError *)
Definition clearError (f : t) : t :=
  updateValidation (f <| error := ""%string |> <| generation_blocked := false |> <| blocked_domain := None |>
                      <| blocked_kind := None |> <| blocked_scope := None |>).

(** What the user can do to the form. *)
Definition choose_domain (d : UIDDomain.t) (f : t) : t :=
  if bool_decide (d = domain f) then f else updateValidation (updateKinds (f <| domain := d |>)).
Definition choose_kind (k : UIDKind.t) (f : t) : t :=
  if bool_decide (Some k = kind f) then f else updateValidation (f <| kind := Some k |>).
Definition set_scope (s : Z) (f : t) : t :=
  if s =? scope f then f else updateValidation (f <| scope := s |>).
Definition set_instance (i : Z) (f : t) : t :=
  if i =? instance_ f then f else updateValidation (f <| instance_ := i |>).
End UidForm.

(** ** The window *)

Module UidMainWindow.
(** [displayed] is [UidResultView::displayedUid], 0 before the first result; [status]
    the message of the status bar or of the dialog last shown. *)
(* SRC tools/uid-generator/ui/main_window.hpp 28-59 MainWindow *)
Record t := mk { registry : UidRegistry.t; form : UidForm.t; displayed : UID; rows : list UidRegistry.Entry;
                 status : string }.
#[global] Instance t_eta : Eta t := fun w => mk (registry w) (form w) (displayed w) (rows w) (status w).

(* SRC tools/uid-generator/ui/main_window.cpp 70-88 MainWindow::generateUid *)
Definition generateUid (domain : UIDDomain.t) (kind : UIDKind.t) (scope instance_ : Z) (w : t) : t :=
  match UidGenerator.generate (registry w) domain kind (u16 scope) (u16 instance_) with
  | Ok uid => w <| displayed := uid |> <| form ::= UidForm.clearError |>
  | Throw (UidExhausted message) => w <| form ::= UidForm.showError message true |>
  | Throw e => w <| form ::= UidForm.showError (what e) false |>
  end.

Section Load.
Context {JL : JsonLib} {JT : JsonText}.

(** The identifiers of the records, each under the file of the first that has it. *)
(* SRC tools/uid-generator/ui/main_window.cpp 160-191 MainWindow::populateRegistry *)
Definition populateRegistry (source : IDataSource j_text) (d : Disk j_text) (w : t) : t * result unit :=
  let loaded :=
    types ← loadVehicleTypes source d; vehicles ← loadVehicles source d; trains ← loadTrains source d;
    Ok (BrowserDataController.registry_of (BrowserDataController.mkDataSet types vehicles trains)) in
  match loaded with
  | Throw e => (w, Throw e)
  | Ok replacement => (w <| registry := replacement |> <| rows := UidRegistry.entries replacement |>, Ok tt)
  end.

Definition count_message (before after : string) (w : t) : string :=
  before +:+ to_string (Z.of_nat (UidRegistry.size (registry w))) +:+ after.

(* SRC tools/uid-generator/ui/main_window.cpp 128-141 MainWindow::loadDefaultPackages *)
Definition loadDefaultPackages (current_path : Path) (d : Disk j_text) (w : t) : t :=
  let '(w, r) := populateRegistry (PackagesDataSource.make (path_div current_path "packages")) d w in
  match r with
  | Ok _ => w <| status := count_message "Loaded " " UIDs from packages" w |>
  | Throw e => w <| status := ("No default data loaded: " +:+ what e)%string |>
  end.

(* SRC tools/uid-generator/ui/main_window.cpp 143-158 MainWindow::loadDirectory *)
Definition loadDirectory (directory : Path) (d : Disk j_text) (w : t) : t :=
  let '(w, r) := populateRegistry (DirectoryDataSource.make directory) d w in
  match r with
  | Ok _ => w <| status := count_message "Loaded " (" UIDs from " +:+ path_string directory) w |>
  | Throw e => w <| status := what e |>
  end.

(* SRC tools/uid-generator/ui/main_window.cpp 22-36 MainWindow::MainWindow *)
Definition create (data_directory : option Path) (current_path : Path) (d : Disk j_text) : t :=
  let w := mk ∅ UidForm.create UID_zero [] "" in
  match data_directory with
  | Some directory => loadDirectory directory d w
  | None => loadDefaultPackages current_path d w
  end.

(** ** The life of the window *)

Inductive step : t -> t -> Prop :=
| step_domain d w : step w (w <| form ::= UidForm.choose_domain d |>)
| step_kind k w : k ∈ UidForm.kinds_of (UidForm.domain (form w)) -> step w (w <| form ::= UidForm.choose_kind k |>)
| step_scope s w : 0 <= s <= 0xFFFF -> step w (w <| form ::= UidForm.set_scope s |>)
| step_instance i w : 0 <= i <= 0xFFFF -> step w (w <| form ::= UidForm.set_instance i |>)
| step_generate k w :
    UidForm.generate_enabled (form w) = true -> UidForm.kind (form w) = Some k ->
    step w (generateUid (UidForm.domain (form w)) k (UidForm.scope (form w)) (UidForm.instance_ (form w)) w)
| step_open directory d w : step w (loadDirectory directory d w).

Inductive reachable : t -> Prop :=
| reach_create data_directory current_path d : reachable (create data_directory current_path d)
| reach_step w w' : reachable w -> step w w' -> reachable w'.
End Load.
End UidMainWindow.

(** ** Correctness *)

Section Form.
Import UidForm.
#[local] Opaque kinds_of.

(** The kind is one of the domain's, the values fit their fields, and the button is
    enabled unless the instance is 0 or the bucket selected is known to be full. *)
Definition ranges (f : t) : Prop :=
  (exists k, kind f = Some k /\ k ∈ kinds_of (domain f)) /\ 0 <= scope f <= 0xFFFF /\ 0 <= instance_ f <= 0xFFFF.
Definition blocked_ok (f : t) : Prop :=
  generate_enabled f = negb (instance_ f =? 0) && negb (generation_blocked f) /\
  (if generation_blocked f then same_exhausted_bucket f = true
   else blocked_domain f = None /\ blocked_kind f = None /\ blocked_scope f = None).

(** Validation settles the block, whatever was there before. *)
Lemma validation_fields f :
  let f' := updateValidation f in
  domain f' = domain f /\ kind f' = kind f /\ scope f' = scope f /\ instance_ f' = instance_ f /\
  generation_blocked f' = same_exhausted_bucket f /\ blocked_ok f'.
Proof.
  cbn zeta. unfold updateValidation, blocked_ok. destruct (same_exhausted_bucket f) eqn:E; cbn;
    destruct (instance_ f =? 0) eqn:Ei; cbn; rewrite ?Ei; split_and!; try done; exact E.
Qed.

Lemma validation_wf f : ranges f -> ranges (updateValidation f) /\ blocked_ok (updateValidation f).
Proof.
  intros Hr. destruct (validation_fields f) as (Ed & Ek & Es & Ei & _ & Hb). split; [|exact Hb].
  unfold ranges. by rewrite Ed, Ek, Es, Ei.
Qed.

Lemma updateKinds_ranges f :
  0 <= scope f <= 0xFFFF -> 0 <= instance_ f <= 0xFFFF -> ranges (updateKinds f).
Proof.
  intros Hs Hi. unfold updateKinds.
  assert (exists f1, (match kind f with Some _ => updateValidation (f <| kind := None |>) | None => f end) = f1 /\
    domain f1 = domain f /\ scope f1 = scope f /\ instance_ f1 = instance_ f) as (f1 & -> & Ed & Es & Ei).
  { eexists. split; [done|]. destruct (kind f); [|done].
    destruct (validation_fields (f <| kind := None |>)) as (-> & _ & -> & -> & _). done. }
  assert (exists k l, kinds_of (domain f1) = k :: l) as (k & l & El).
  { destruct (kinds_of (domain f1)) as [|k l] eqn:E; [|by exists k, l]. exfalso.
    by destruct (domain f1); vm_compute in E. }
  rewrite El. apply validation_wf. unfold ranges. cbn. rewrite Es, Ei. split; [|done].
  exists k. split; [done|]. rewrite El. by left.
Qed.

Lemma create_wf : ranges create /\ blocked_ok create.
Proof. apply validation_wf, updateKinds_ranges; cbn; lia. Qed.

Lemma choose_domain_wf d f : ranges f -> blocked_ok f -> ranges (choose_domain d f) /\ blocked_ok (choose_domain d f).
Proof.
  intros (Hk & Hs & Hi) Hb. unfold choose_domain. case_bool_decide; [done|].
  by apply validation_wf, updateKinds_ranges.
Qed.

Lemma choose_kind_wf k f :
  k ∈ kinds_of (domain f) -> ranges f -> blocked_ok f -> ranges (choose_kind k f) /\ blocked_ok (choose_kind k f).
Proof.
  intros Hin (Hk & Hs & Hi) Hb. unfold choose_kind. case_bool_decide; [done|]. apply validation_wf.
  unfold ranges. cbn. split; [by exists k|done].
Qed.

Lemma set_scope_wf s f :
  0 <= s <= 0xFFFF -> ranges f -> blocked_ok f -> ranges (set_scope s f) /\ blocked_ok (set_scope s f).
Proof. intros Hr (Hk & Hs & Hi) Hb. unfold set_scope. case_match; [done|]. by apply validation_wf. Qed.

Lemma set_instance_wf i f :
  0 <= i <= 0xFFFF -> ranges f -> blocked_ok f -> ranges (set_instance i f) /\ blocked_ok (set_instance i f).
Proof. intros Hr (Hk & Hs & Hi) Hb. unfold set_instance. case_match; [done|]. by apply validation_wf. Qed.

Lemma clearError_wf f : ranges f -> ranges (clearError f) /\ blocked_ok (clearError f).
Proof. intros Hr. by apply validation_wf. Qed.

Lemma showError_wf message block f :
  ranges f -> blocked_ok f -> generation_blocked f = false ->
  ranges (showError message block f) /\ blocked_ok (showError message block f) /\
  generation_blocked (showError message block f) = block.
Proof.
  intros Hr (He & Hb) Hf. rewrite Hf in Hb. unfold showError, blocked_ok. destruct block; cbn.
  - split; [done|]. rewrite andb_false_r. split; [|done]. split; [done|].
    unfold same_exhausted_bucket. cbn. by rewrite !bool_decide_true.
  - rewrite andb_true_r. done.
Qed.

(** An enabled button means that the bucket is not known to be full. *)
Lemma enabled_spec f : blocked_ok f -> generate_enabled f = true -> instance_ f <> 0 /\ generation_blocked f = false.
Proof.
  intros [He _] E. rewrite He in E. apply andb_true_iff in E as [E1%negb_true_iff%Z.eqb_neq E2%negb_true_iff].
  done.
Qed.
End Form.

Section Window.
Context {JL : JsonLib} {JT : JsonText}.
Import UidMainWindow.

Definition window_ok (w : t) : Prop := ranges (form w) /\ blocked_ok (form w).

Lemma load_form source d w : form (populateRegistry source d w).1 = form w.
Proof. unfold populateRegistry. by destruct (mbind _ _). Qed.

Lemma loadDirectory_form directory d w : form (loadDirectory directory d w) = form w.
Proof.
  unfold loadDirectory. rewrite <- (load_form (DirectoryDataSource.make directory) d w).
  by destruct (populateRegistry _ d w) as [w1 [u|e]].
Qed.

(** What a click does: the next free identifier is shown, or the bucket is full and
    blocked. *)
Lemma generate_click w k :
  window_ok w -> UidForm.generate_enabled (form w) = true -> UidForm.kind (form w) = Some k ->
  let f := form w in
  let w' := generateUid (UidForm.domain f) k (UidForm.scope f) (UidForm.instance_ f) w in
  registry w' = registry w /\
  ((registry w !! displayed w' = None /\ uid_has_kind (displayed w') (UidForm.domain f) k = true /\
    uid_scope (displayed w') = UidForm.scope f /\ form w' = UidForm.clearError f) \/
   ((forall i, 1 <= i <= 65535 -> is_Some (registry w !! make_uid (UidForm.domain f) k (UidForm.scope f) i)) /\
    displayed w' = displayed w /\ exists message, form w' = UidForm.showError message true f)).
Proof.
  intros ((_ & Hs & Hi) & Hb) He Hk f w'. destruct (enabled_spec _ Hb He) as [Hne _].
  assert (fits 16 (UidForm.scope f)) as Hfs by (unfold fits, f; lia).
  assert (u16 (UidForm.scope f) = UidForm.scope f) as Es by by apply wrap_small.
  assert (u16 (UidForm.instance_ f) = UidForm.instance_ f) as Ei by (apply wrap_small; unfold fits, f; lia).
  subst w'. unfold generateUid. rewrite Es, Ei.
  pose proof (UidGenerator.generate_cases (registry w) (UidForm.domain f) k (UidForm.scope f) (UidForm.instance_ f) Hfs) as H.
  destruct (UidGenerator.generate _ _ _ _ _) as [u|e] eqn:E.
  - destruct (UidGenerator.generate_free _ _ _ _ _ _ Hfs E) as (Hfree & Hkind & Hscope & _).
    split; [done|]. by left.
  - destruct H as [[? _]|(_ & -> & Hfull)]; [done|]. split; [done|]. right. split; [done|].
    split; [done|]. by eexists.
Qed.

Lemma window_invariant w : reachable w -> window_ok w.
Proof.
  induction 1 as [dd cp d|w w' _ [Hr Hb] Hstep].
  - unfold window_ok, create. destruct dd as [dir|]; [rewrite loadDirectory_form; exact create_wf|].
    unfold loadDefaultPackages.
    pose proof (load_form (PackagesDataSource.make (path_div cp "packages")) d (mk ∅ UidForm.create UID_zero [] "")) as E.
    destruct (populateRegistry _ d _) as [w1 [u|e]]; cbn in *; rewrite E; exact create_wf.
  - unfold window_ok. inversion Hstep as [dm ?|k ? Hk|s ? Hs|i ? Hi|k ? He Hk|dir d ?]; subst; cbn [form].
    + by apply choose_domain_wf.
    + by apply choose_kind_wf.
    + by apply set_scope_wf.
    + by apply set_instance_wf.
    + destruct (generate_click w k (conj Hr Hb) He Hk) as [_ [(_ & _ & _ & ->)|(_ & _ & message & ->)]].
      * by apply clearError_wf.
      * destruct (showError_wf message true (form w) Hr Hb) as (? & ? & _); [by apply enabled_spec|done].
    + rewrite loadDirectory_form. done.
Qed.

(** The window of the generator, in every state it can reach: the kind selected belongs
    to the domain, the button is enabled exactly when the instance is not 0 and the
    bucket selected was not found full, and a click then never meets the invalid
    argument: it shows an identifier of the domain, kind and scope selected that no
    record uses, or every instance of the bucket is registered and the button stays
    disabled whatever instance is entered. *)
Theorem uid_window_safe w k :
  reachable w -> UidForm.kind (form w) = Some k ->
  let f := form w in
  let w' := generateUid (UidForm.domain f) k (UidForm.scope f) (UidForm.instance_ f) w in
  k ∈ UidForm.kinds_of (UidForm.domain f) /\
  (UidForm.generate_enabled f = true <-> UidForm.instance_ f <> 0 /\ UidForm.same_exhausted_bucket f = false) /\
  (UidForm.generate_enabled f = true ->
   (registry w !! displayed w' = None /\ uid_has_kind (displayed w') (UidForm.domain f) k = true /\
    uid_scope (displayed w') = UidForm.scope f) \/
   ((forall i, 1 <= i <= 65535 -> is_Some (registry w !! make_uid (UidForm.domain f) k (UidForm.scope f) i)) /\
    forall i, UidForm.generate_enabled (UidForm.set_instance i (form w')) = false)).
Proof.
  intros Hreach Hk f w'. destruct (window_invariant w Hreach) as [Hr Hb].
  destruct Hr as ((k' & Hk' & Hin) & Hs & Hi). assert (k' = k) as -> by congruence. split; [exact Hin|].
  split.
  - destruct Hb as [He Hb]. fold f in He, Hb. rewrite He, andb_true_iff, !negb_true_iff, Z.eqb_neq.
    destruct (UidForm.generation_blocked f); [rewrite Hb; naive_solver|].
    destruct Hb as (E & _). unfold UidForm.same_exhausted_bucket. rewrite E. naive_solver.
  - intros Hen. assert (window_ok w) as Hok by (split; [split; [by exists k|done]|done]).
    destruct (generate_click w k Hok Hen Hk) as [_ [(? & ? & ? & _)|(Hfull & _ & message & Ef)]]; [by left|right].
    split; [exact Hfull|]. intros i. subst w'. fold f in Ef. rewrite Ef.
    unfold UidForm.set_instance. case_match; [done|].
    destruct (validation_fields (UidForm.showError message true f <| UidForm.instance_ := i |>)) as (_ & _ & _ & _ & Eb & He & _).
    rewrite He, Eb. unfold UidForm.same_exhausted_bucket. cbn. rewrite !bool_decide_true by done.
    apply andb_false_r.
Qed.
End Window.

(** ** A concrete window *)

Module UidWindowDemo.
Import JsonDemo UidMainWindow.

(** A directory with one vehicle type. *)
Definition type_uid : UID := make_uid UIDDomain.ROLLING_STOCK UIDKind.VEHICLE_TYPE 0 1.
Definition type_doc : value :=
  JObject [("uid", JUnsigned (Z.to_N (Types.value type_uid))); ("typeName", JString "EU07");
           ("vehicleType", JString "LOCOMOTIVE"); ("lengthM", JUnsigned 16); ("axleCount", JUnsigned 4);
           ("massEmptyT", JUnsigned 80); ("maxSpeedKmh", JUnsigned 125); ("brakingLambdaPct", JUnsigned 90)]%string.
Definition disk : Disk j_text :=
  mkDisk {[ ["data"; "eu07.json"]%string := Bytes (Some type_doc) ]} {[ ["data"]%string ]}.
Definition opened : t := create (Some ["data"]%string) [] disk.
Definition clicked : t := generateUid UIDDomain.ROLLING_STOCK UIDKind.VEHICLE_TYPE 0 1 opened.

Example next_shown :
  displayed clicked = make_uid UIDDomain.ROLLING_STOCK UIDKind.VEHICLE_TYPE 0 2 /\
  status opened = "Loaded 1 UIDs from data"%string /\
  UidForm.generate_enabled (form clicked) = true.
Proof. by vm_compute. Qed.

Lemma uid_window_safe_witness :
  UidForm.generate_enabled (form opened) = true /\ registry opened !! displayed clicked = None.
Proof.
  assert (UidForm.generate_enabled (form opened) = true) as He by by vm_compute.
  split; [exact He|].
  destruct (uid_window_safe opened UIDKind.VEHICLE_TYPE (reach_create (Some ["data"]%string) [] disk) eq_refl)
    as (_ & _ & H).
  destruct (H He) as [(Hfree & _)|(Hfull & _)]; [exact Hfree|].
  exfalso. destruct (Hfull 2 ltac:(lia)) as [file Hfile]. by vm_compute in Hfile.
Defined.
End UidWindowDemo.
