(* ===== verification/PgWriter.v ===== *)
(** * PgWriter: the writer of the production database

    [server/src/pg_db_writer.cpp] with the schema of [docker/init.sql]: the tables as
    lists of rows, every statement as its effect on them, the checks and references of
    the schema as exceptions.  A statement runs in a transaction of its own under the
    mutex: it takes effect completely or, if it throws, not at all.  [now] is the time
    of the transaction.  What the server and OpenSSL compute is a parameter. *)
From Stdlib Require Import Ascii String.
From S2P Require Import Prelude Float32 Types Text Json DbWriter.
Local Open Scope Z_scope.

(** [Interval] with [make_interval(secs => x)] and the input of [double precision];
    [pg_text] is what a [TEXT] parameter may be, [pg_jsonb] what [jsonb] may; [sha256]
    is the digest. *)
Class PgServer := {
  Interval : Type;
  make_interval : float -> option Interval;
  double_of_text : string -> option float;
  pg_text : string -> bool; pg_jsonb : string -> bool;
  sha256 : list Z -> list Z }.

(** [static_cast<int64_t>] of an unsigned 64-bit integer. *)
Definition i64 (z : Z) : Z := wrap 64 (z + 2 ^ 63) - 2 ^ 63.

Section Tables.
Context {PS : PgServer}.

(** ** The schema *)

(* SRC docker/init.sql 95-104 session.sessions *)
Record Session := mkSession {
  se_id : string; se_display_name : string; se_status : string; se_schema_version : Z; se_started_at : option Z }.

(* SRC docker/init.sql 49-63 fleet.timetable_templates *)
Record Template := mkTemplate {
  tt_id : Z; tt_train_number : string; tt_station_uid : Z; tt_operating_point_id : option string;
  tt_scheduled_arrival : option Interval; tt_scheduled_departure : Interval; tt_track_number : option string;
  tt_stop_type : string; tt_operating_days : list Z }.

(* SRC docker/init.sql 136-153 session.edr_entries *)
Record EdrEntry := mkEdrEntry {
  ee_id : Z; ee_session_id : string; ee_train_number : string; ee_station_uid : Z;
  ee_operating_point_id : option string; ee_scheduled_arrival : option Interval;
  ee_actual_arrival : option Interval; ee_scheduled_departure : Interval; ee_actual_departure : option Interval;
  ee_track_number : option string; ee_track_clear_time : option Interval; ee_stop_type : string;
  ee_status : string; ee_updated_at : Z }.
#[global] Instance EdrEntry_eta : Eta EdrEntry := fun e =>
  mkEdrEntry (ee_id e) (ee_session_id e) (ee_train_number e) (ee_station_uid e) (ee_operating_point_id e)
    (ee_scheduled_arrival e) (ee_actual_arrival e) (ee_scheduled_departure e) (ee_actual_departure e)
    (ee_track_number e) (ee_track_clear_time e) (ee_stop_type e) (ee_status e) (ee_updated_at e).

(* SRC docker/init.sql 107-116 session.events *)
Record EventRow := mkEventRow {
  er_id : Z; er_session_id : string; er_event_type : Z; er_event_id : Z; er_timestamp_us : Z;
  er_object_uid : option Z; er_payload : list Z; er_audit_hash : string }.

(* SRC docker/init.sql 225-240 session.dispatch_telegrams *)
Record TelegramEntry := mkTelegramEntry {
  te_id : Z; te_session_id : string; te_form_type : string; te_exchange_uid : string; te_train_number : string;
  te_from_uid : Z; te_to_uid : Z; te_direction : string; te_status : string; te_track_number : option string;
  te_km_markers : string; te_body : string; te_timestamp_us : Z }.

(* SRC docker/init.sql 161-188 session.edr_journal_entries *)
Record JournalEntry := mkJournalEntry {
  je_id : Z; je_session_id : string; je_operating_point_id : string; je_station_uid : Z; je_journal_page : string;
  je_entry_type : string; je_train_number : option string; je_direction : option string;
  je_track_number : option string; je_scheduled_arrival : option Interval;
  je_scheduled_departure : option Interval; je_actual_arrival : option Interval;
  je_actual_departure : option Interval; je_body : string; je_notes : option string; je_status : string;
  je_timestamp_us : Z; je_updated_at : Z }.
#[global] Instance JournalEntry_eta : Eta JournalEntry := fun e =>
  mkJournalEntry (je_id e) (je_session_id e) (je_operating_point_id e) (je_station_uid e) (je_journal_page e)
    (je_entry_type e) (je_train_number e) (je_direction e) (je_track_number e) (je_scheduled_arrival e)
    (je_scheduled_departure e) (je_actual_arrival e) (je_actual_departure e) (je_body e) (je_notes e)
    (je_status e) (je_timestamp_us e) (je_updated_at e).

(* SRC docker/init.sql 124-130 session.snapshots *)
Record SnapshotRow := mkSnapshotRow {
  sr_id : Z; sr_session_id : string; sr_seq_cursor : Z; sr_timestamp_us : Z; sr_payload : list Z }.

(* SRC docker/init.sql 211-219 session.chat_log *)
Record ChatRow := mkChatRow {
  ch_id : Z; ch_session_id : string; ch_sender_id : string; ch_target_type : string; ch_target_id : option string;
  ch_body : string; ch_timestamp_us : Z }.

(* SRC docker/init.sql 196-204 session.operating_point_assignments *)
Record Assignment := mkAssignment {
  as_id : Z; as_session_id : string; as_operating_point_id : string; as_station_sid : string;
  as_client_id : string; as_assigned_at : Z; as_released_at : option Z }.
#[global] Instance Assignment_eta : Eta Assignment := fun a =>
  mkAssignment (as_id a) (as_session_id a) (as_operating_point_id a) (as_station_sid a) (as_client_id a)
    (as_assigned_at a) (as_released_at a).

(* SRC docker/init.sql 255-261 pip.track_state *)
Record TrackStateRow := mkTrackStateRow {
  ts_session_id : string; ts_section_uid : Z; ts_trains : string; ts_updated_at : Z }.

(** The database; a new row gets the next number of its table. *)
Record Database := mkDatabase {
  sessions : list Session; templates : list Template; edr_entries : list EdrEntry; events : list EventRow;
  telegrams : list TelegramEntry; journal : list JournalEntry; snapshots : list SnapshotRow;
  chat_log : list ChatRow; assignments : list Assignment; track_state : list TrackStateRow }.
#[global] Instance Database_eta : Eta Database := fun d =>
  mkDatabase (sessions d) (templates d) (edr_entries d) (events d) (telegrams d) (journal d) (snapshots d)
    (chat_log d) (assignments d) (track_state d).

Definition next_id {A : Type} (id : A -> Z) (rows : list A) : Z := 1 + fold_right Z.max 0 (id <$> rows).

(** The writer: the session it writes for and the database behind its connection;
    [up] is false once the connection is lost. *)
(* SRC server/include/server/pg_db_writer.hpp 15-78 PgDbWriter *)
Record PgDbWriter := mkPgDbWriter { session_uuid : string; up : bool; db : Database }.
#[global] Instance PgDbWriter_eta : Eta PgDbWriter := fun w => mkPgDbWriter (session_uuid w) (up w) (db w).
End Tables.

(** ** Texts the statements carry *)

Definition bytes_of (s : string) : list Z := (fun c => Z.of_N (N_of_ascii c)) <$> String.list_ascii_of_string s.

(** [std::hex << std::setw(2) << std::setfill('0')] of a byte. *)
Definition hex_digit (n : Z) : ascii := ascii_of_N (Z.to_N (if n <? 10 then 48 + n else 87 + n)).
Definition hex_byte (b : Z) : string := String (hex_digit (b / 16)) (String (hex_digit (b mod 16)) "").
Definition hex (l : list Z) : string := String.concat "" (hex_byte <$> l).

(** What the digest is taken of: the fields with a separator after each but the last. *)
Definition audit_input (session_id : string) (event_id timestamp_us : Z) (payload : list Z) : list Z :=
  bytes_of (session_id +:+ "|" +:+ int_to_string event_id +:+ "|" +:+ int_to_string timestamp_us +:+ "|") ++ payload.

(* SRC server/src/pg_db_writer.cpp 17-58 sha256_hex *)
Definition sha256_hex `{PgServer} (session_id : string) (event_id timestamp_us : Z) (payload : list Z) : string :=
  hex (sha256 (audit_input session_id event_id timestamp_us payload)).

(** The elements of a list with commas between them, in braces. *)
Fixpoint joined (l : list string) : string :=
  match l with
  | [] => ""
  | [s] => s
  | s :: l => s +:+ "," +:+ joined l
  end.
Definition braced (l : list string) : string := "{" +:+ joined l +:+ "}".

(* SRC server/src/pg_db_writer.cpp 60-71 pg_smallint_array_literal *)
Definition pg_smallint_array_literal (values : list Z) : string := braced (int_to_string <$> values).

Definition quote : ascii := ascii_of_nat 34.
Definition backslash : ascii := ascii_of_nat 92.
Fixpoint escaped (s : string) : string :=
  match s with
  | EmptyString => EmptyString
  | String c s => if Ascii.eqb c quote || Ascii.eqb c backslash then String backslash (String c (escaped s))
                  else String c (escaped s)
  end.
Definition quoted (s : string) : string := String quote (escaped s +:+ String quote "").

(** The array literal of [write_dispatch_telegram]. *)
Definition km_array (km_markers : list string) : string := braced (quoted <$> km_markers).

(** ** Statements *)

Module Pg.
Section Writer.
Context {PS : PgServer}.

(** A statement in its transaction: the connection and the parameters must do. *)
Definition transaction {A : Type} (texts : list string) (body : Database -> result (Database * A))
    (w : PgDbWriter) : PgDbWriter * result A :=
  if negb (up w && forallb pg_text texts) then (w, Throw sql_exception)
  else
    match body (db w) with
    | Ok (d, a) => (w <| db := d |>, Ok a)
    | Throw e => (w, Throw e)
    end.

(** [$1::uuid] of the session identifier: empty before [init_session]. *)
Definition uuid (sid : string) : result unit := throw_if (bool_decide (sid = ""%string)) sql_exception.
(** [REFERENCES session.sessions(id)]. *)
Definition references (sid : string) (d : Database) : result unit :=
  _ ← uuid sid; throw_if (negb (existsb (fun s => bool_decide (se_id s = sid)) (sessions d))) sql_exception.

(** [make_interval(secs => $n::double precision)] of an optional text. *)
Definition interval_of_text (s : string) : result Interval :=
  x ← get sql_exception (double_of_text s); get sql_exception (make_interval x).
Definition optional_interval (o : option string) : result (option Interval) :=
  match o with Some s => i ← interval_of_text s; Ok (Some i) | None => Ok None end.

Definition kUsPerDay : Z := 86400000000.
(** [make_interval(secs => ($4::bigint % $5::bigint)::double precision / 1000000.0)]. *)
Definition time_of_day (timestamp_us : Z) : result Interval :=
  get sql_exception (make_interval (f64_div (f64_of_Z (Z.rem (i64 timestamp_us) kUsPerDay)) (f64_of_Z 1000000))).

(** [UPDATE ... SET f WHERE p]. *)
Definition update {A : Type} (p : A -> bool) (f : A -> A) (rows : list A) : list A :=
  (fun r => if p r then f r else r) <$> rows.

(** [new_uuid] is [gen_random_uuid()]. *)
(* SRC server/src/pg_db_writer.cpp 75-88 PgDbWriter::init_session *)
Definition init_session (new_uuid : string) (now : Z) (display_name : string) (schema_version : Z) (w : PgDbWriter)
    : PgDbWriter * result string :=
  let '(w, r) := transaction [display_name] (fun d =>
    _ ← throw_if (existsb (fun s => bool_decide (se_id s = new_uuid)) (sessions d)) sql_exception;
    Ok (d <| sessions ::= fun rows => rows ++ [mkSession new_uuid display_name "STARTED" schema_version (Some now)] |>,
        new_uuid)) w in
  match r with
  | Ok id => (w <| session_uuid := id |>, Ok id)
  | Throw e => (w, Throw e)
  end.

(** The rows [seed_edr_entries_for_operating_day] inserts, numbered from [id] on. *)
Fixpoint seeded (sid : string) (now : Z) (id : Z) (rows : list Template) : list EdrEntry :=
  match rows with
  | [] => []
  | t :: rows =>
      mkEdrEntry id sid (tt_train_number t) (tt_station_uid t) (tt_operating_point_id t) (tt_scheduled_arrival t)
        None (tt_scheduled_departure t) None (tt_track_number t) None (tt_stop_type t) "PENDING" now
      :: seeded sid now (id + 1) rows
  end.
Definition on_day (iso_weekday : Z) (t : Template) : bool := bool_decide (iso_weekday ∈ tt_operating_days t).

(* SRC server/src/pg_db_writer.cpp 90-110 PgDbWriter::seed_edr_entries_for_operating_day *)
Definition seed_edr_entries_for_operating_day (now : Z) (iso_weekday : Z) (w : PgDbWriter) : PgDbWriter * result Z :=
  if (iso_weekday <? 1) || (7 <? iso_weekday)
  then (w, Throw (runtime_error "[PgDbWriter] invalid ISO weekday; expected 1..7"))
  else
    transaction [] (fun d =>
      let chosen := List.filter (on_day iso_weekday) (templates d) in
      _ ← uuid (session_uuid w);
      _ ← (if bool_decide (chosen = []) then Ok tt else references (session_uuid w) d);
      Ok (d <| edr_entries ::= fun rows => rows ++ seeded (session_uuid w) now (next_id ee_id rows) chosen |>,
          Z.of_nat (length chosen))) w.

(* SRC server/src/pg_db_writer.cpp 112-138 PgDbWriter::write_domain_event *)
Definition write_domain_event (row : DomainEventRow) (w : PgDbWriter) : PgDbWriter * result unit :=
  let event_id := i64 (ev_event_id row) in
  let timestamp_us := i64 (ev_timestamp_us row) in
  let audit_hash := sha256_hex (session_uuid w) event_id timestamp_us (ev_payload row) in
  transaction [] (fun d =>
    _ ← references (session_uuid w) d;
    Ok (d <| events ::= fun rows => rows ++
              [mkEventRow (next_id er_id rows) (session_uuid w) (ev_event_type row) event_id timestamp_us
                 (i64 <$> ev_object_uid row) (ev_payload row) audit_hash] |>, tt)) w.

(* SRC server/src/pg_db_writer.cpp 140-170 PgDbWriter::write_dispatch_telegram *)
Definition write_dispatch_telegram (row : TelegramRow) (w : PgDbWriter) : PgDbWriter * result unit :=
  transaction ([tr_form_type row; tr_exchange_id row; tr_train_number row; tr_direction row; tr_status row;
                tr_body row; km_array (tr_km_markers row)] ++ option_list (tr_track_number row)) (fun d =>
    _ ← references (session_uuid w) d;
    Ok (d <| telegrams ::= fun rows => rows ++
              [mkTelegramEntry (next_id te_id rows) (session_uuid w) (tr_form_type row) (tr_exchange_id row)
                 (tr_train_number row) (i64 (tr_from_uid row)) (i64 (tr_to_uid row)) (tr_direction row)
                 (tr_status row) (tr_track_number row) (km_array (tr_km_markers row)) (tr_body row)
                 (i64 (tr_timestamp_us row))] |>, tt)) w.

(** [WHERE session_id = $1 AND train_number = $2 AND station_uid = $3]. *)
Definition of_passage (sid train_number : string) (station_uid : Z) (e : EdrEntry) : bool :=
  bool_decide (ee_session_id e = sid) && bool_decide (ee_train_number e = train_number) &&
  (ee_station_uid e =? i64 station_uid).

(** An update of the entries of a passage at a time of day. *)
Definition update_passage (now : Z) (train_number : string) (station_uid timestamp_us : Z)
    (unless : list string) (set : Interval -> EdrEntry -> EdrEntry) (w : PgDbWriter) : PgDbWriter * result unit :=
  transaction [train_number] (fun d =>
    _ ← uuid (session_uuid w);
    let matches e := of_passage (session_uuid w) train_number station_uid e &&
                     negb (bool_decide (ee_status e ∈ unless)) in
    if negb (existsb matches (edr_entries d)) then Ok (d, tt)
    else
      time ← time_of_day timestamp_us;
      Ok (d <| edr_entries ::= update matches (fun e => set time e <| ee_updated_at := now |>) |>, tt)) w.

(* SRC server/src/pg_db_writer.cpp 172-190 PgDbWriter::update_edr_track_clear_time *)
Definition update_edr_track_clear_time (now : Z) (train_number : string) (station_uid timestamp_us : Z) :=
  update_passage now train_number station_uid timestamp_us []
    (fun time e => e <| ee_track_clear_time := Some time |>).

(* SRC server/src/pg_db_writer.cpp 192-212 PgDbWriter::update_edr_departure *)
Definition update_edr_departure (now : Z) (train_number : string) (station_uid timestamp_us : Z) :=
  update_passage now train_number station_uid timestamp_us ["DEPARTED"]%string
    (fun time e => e <| ee_actual_departure := Some time |> <| ee_status := "DEPARTED"%string |>).

(* SRC server/src/pg_db_writer.cpp 214-234 PgDbWriter::update_edr_arrival *)
Definition update_edr_arrival (now : Z) (train_number : string) (station_uid timestamp_us : Z) :=
  update_passage now train_number station_uid timestamp_us ["ARRIVED"; "DEPARTED"]%string
    (fun time e => e <| ee_actual_arrival := Some time |> <| ee_status := "ARRIVED"%string |>).

(** [ck_edr_journal_entry_type] and [ck_edr_journal_status]. *)
Definition entry_types : list string := ["TRAIN"; "TELEGRAM"; "NOTE"; "TRACK_OCCUPANCY"; "CROSSING_NOTICE"]%string.
Definition journal_statuses : list string := ["ACTIVE"; "CROSSED_OUT"; "CORRECTED"; "CANCELLED"]%string.

(* SRC server/src/pg_db_writer.cpp 236-265 PgDbWriter::append_edr_journal_entry *)
Definition append_edr_journal_entry (now : Z) (row : EdrJournalEntryRow) (w : PgDbWriter) : PgDbWriter * result Z :=
  transaction ([ej_operating_point_id row; ej_journal_page row; ej_entry_type row; ej_body row] ++
               option_list (ej_train_number row) ++ option_list (ej_direction row) ++
               option_list (ej_track_number row) ++ option_list (ej_notes row)) (fun d =>
    _ ← references (session_uuid w) d;
    scheduled_arrival ← optional_interval (ej_scheduled_arrival_secs row);
    scheduled_departure ← optional_interval (ej_scheduled_departure_secs row);
    actual_arrival ← optional_interval (ej_actual_arrival_secs row);
    actual_departure ← optional_interval (ej_actual_departure_secs row);
    _ ← throw_if (negb (bool_decide (ej_entry_type row ∈ entry_types))) sql_exception;
    let id := next_id je_id (journal d) in
    Ok (d <| journal ::= fun rows => rows ++
              [mkJournalEntry id (session_uuid w) (ej_operating_point_id row) (i64 (ej_station_uid row))
                 (ej_journal_page row) (ej_entry_type row) (ej_train_number row) (ej_direction row)
                 (ej_track_number row) scheduled_arrival scheduled_departure actual_arrival actual_departure
                 (ej_body row) (ej_notes row) "ACTIVE" (i64 (ej_timestamp_us row)) now] |>, id)) w.

(* SRC server/src/pg_db_writer.cpp 267-282 PgDbWriter::update_edr_journal_entry_status *)
Definition update_edr_journal_entry_status (now : Z) (entry_id : Z) (status : string) (notes : option string)
    (w : PgDbWriter) : PgDbWriter * result unit :=
  transaction (status :: option_list notes) (fun d =>
    _ ← uuid (session_uuid w);
    let matches e := bool_decide (je_session_id e = session_uuid w) && (je_id e =? entry_id) in
    _ ← throw_if (existsb matches (journal d) && negb (bool_decide (status ∈ journal_statuses))) sql_exception;
    Ok (d <| journal ::= update matches
              (fun e => e <| je_status := status |> <| je_notes := (match notes with Some n => Some n | None => je_notes e end) |>
                          <| je_updated_at := now |>) |>, tt)) w.

(* SRC server/src/pg_db_writer.cpp 284-297 PgDbWriter::upsert_pip_track_state *)
Definition upsert_pip_track_state (now : Z) (section_uid : Z) (trains_json : string) (w : PgDbWriter)
    : PgDbWriter * result unit :=
  transaction [trains_json] (fun d =>
    _ ← references (session_uuid w) d;
    _ ← throw_if (negb (pg_jsonb trains_json)) sql_exception;
    let row := mkTrackStateRow (session_uuid w) (i64 section_uid) trains_json now in
    let matches r := bool_decide (ts_session_id r = session_uuid w) && (ts_section_uid r =? i64 section_uid) in
    Ok (d <| track_state ::= fun rows => if existsb matches rows then update matches (fun _ => row) rows
                                         else rows ++ [row] |>, tt)) w.

(* SRC server/src/pg_db_writer.cpp 299-310 PgDbWriter::save_snapshot *)
Definition save_snapshot (seq_cursor timestamp_us : Z) (payload : list Z) (w : PgDbWriter) : PgDbWriter * result unit :=
  transaction [] (fun d =>
    _ ← references (session_uuid w) d;
    Ok (d <| snapshots ::= fun rows => rows ++
              [mkSnapshotRow (next_id sr_id rows) (session_uuid w) seq_cursor timestamp_us payload] |>, tt)) w.

(* SRC server/src/pg_db_writer.cpp 312-325 PgDbWriter::append_chat_message *)
Definition append_chat_message (sender_id target_type : string) (target_id : option string) (body : string)
    (timestamp_us : Z) (w : PgDbWriter) : PgDbWriter * result unit :=
  transaction ([sender_id; target_type; body] ++ option_list target_id) (fun d =>
    _ ← references (session_uuid w) d;
    Ok (d <| chat_log ::= fun rows => rows ++
              [mkChatRow (next_id ch_id rows) (session_uuid w) sender_id target_type target_id body timestamp_us] |>,
        tt)) w.

(* SRC server/src/pg_db_writer.cpp 327-342 PgDbWriter::assign_operating_point *)
Definition assign_operating_point (now : Z) (operating_point_id station_sid client_id : string) (w : PgDbWriter)
    : PgDbWriter * result Z :=
  transaction [operating_point_id; station_sid; client_id] (fun d =>
    _ ← references (session_uuid w) d;
    let id := next_id as_id (assignments d) in
    Ok (d <| assignments ::= fun rows => rows ++
              [mkAssignment id (session_uuid w) operating_point_id station_sid client_id now None] |>, id)) w.

(* SRC server/src/pg_db_writer.cpp 344-359 PgDbWriter::release_operating_point *)
Definition release_operating_point (now : Z) (operating_point_id client_id : string) (w : PgDbWriter)
    : PgDbWriter * result unit :=
  transaction [operating_point_id; client_id] (fun d =>
    _ ← uuid (session_uuid w);
    Ok (d <| assignments ::= update
              (fun a => bool_decide (as_session_id a = session_uuid w) &&
                        bool_decide (as_operating_point_id a = operating_point_id) &&
                        bool_decide (as_client_id a = client_id) && bool_decide (as_released_at a = None))
              (fun a => a <| as_released_at := Some now |>) |>, tt)) w.

(* SRC server/src/pg_db_writer.cpp 361-399 PgDbWriter::upsert_timetable_template *)
Definition upsert_timetable_template (train_number : string) (station_uid : Z) (operating_point_id : option string)
    (scheduled_arrival_secs : option string) (scheduled_departure_secs : string) (track_number : option string)
    (stop_type : string) (operating_days : list Z) (w : PgDbWriter) : PgDbWriter * result unit :=
  if bool_decide (operating_days = [])
  then (w, Throw (runtime_error "[PgDbWriter] operating_days must not be empty"))
  else if existsb (fun day => (day <? 1) || (7 <? day)) operating_days
  then (w, Throw (runtime_error "[PgDbWriter] operating_days values must be in range 1..7"))
  else
    transaction ([train_number; stop_type; pg_smallint_array_literal operating_days] ++
                 option_list operating_point_id ++ option_list track_number) (fun d =>
      arrival ← optional_interval scheduled_arrival_secs;
      departure ← interval_of_text scheduled_departure_secs;
      let row id := mkTemplate id train_number (i64 station_uid) operating_point_id arrival departure track_number
                      stop_type operating_days in
      let matches t := bool_decide (tt_train_number t = train_number) && (tt_station_uid t =? i64 station_uid) in
      Ok (d <| templates ::= fun rows => if existsb matches rows then update matches (fun t => row (tt_id t)) rows
                                         else rows ++ [row (next_id tt_id rows)] |>, tt)) w.
End Writer.
End Pg.

(** ** Sequences of calls *)

(** One call of the interface, with what the server adds to it. *)
Inductive Call : Type :=
| InitSession (new_uuid display_name : string) (schema_version : Z)
| SeedEdrEntries (iso_weekday : Z)
| WriteDomainEvent (row : DomainEventRow)
| WriteDispatchTelegram (row : TelegramRow)
| UpdateTrackClearTime (train_number : string) (station_uid timestamp_us : Z)
| UpdateDeparture (train_number : string) (station_uid timestamp_us : Z)
| UpdateArrival (train_number : string) (station_uid timestamp_us : Z)
| AppendJournalEntry (row : EdrJournalEntryRow)
| UpdateJournalStatus (entry_id : Z) (status : string) (notes : option string)
| UpsertTrackState (section_uid : Z) (trains_json : string)
| SaveSnapshot (seq_cursor timestamp_us : Z) (payload : list Z)
| AppendChatMessage (sender_id target_type : string) (target_id : option string) (body : string) (timestamp_us : Z)
| AssignOperatingPoint (operating_point_id station_sid client_id : string)
| ReleaseOperatingPoint (operating_point_id client_id : string)
| UpsertTimetable (train_number : string) (station_uid : Z) (operating_point_id arrival : option string)
    (departure : string) (track_number : option string) (stop_type : string) (operating_days : list Z).

Section Calls.
Context {PS : PgServer}.

Definition outcome {A : Type} (r : PgDbWriter * result A) : PgDbWriter * result unit := (r.1, _ ← r.2; Ok tt).

(** A call at the time [now]. *)
Definition call (now : Z) (c : Call) (w : PgDbWriter) : PgDbWriter * result unit :=
  match c with
  | InitSession id name version => outcome (Pg.init_session id now name version w)
  | SeedEdrEntries day => outcome (Pg.seed_edr_entries_for_operating_day now day w)
  | WriteDomainEvent row => Pg.write_domain_event row w
  | WriteDispatchTelegram row => Pg.write_dispatch_telegram row w
  | UpdateTrackClearTime train uid ts => Pg.update_edr_track_clear_time now train uid ts w
  | UpdateDeparture train uid ts => Pg.update_edr_departure now train uid ts w
  | UpdateArrival train uid ts => Pg.update_edr_arrival now train uid ts w
  | AppendJournalEntry row => outcome (Pg.append_edr_journal_entry now row w)
  | UpdateJournalStatus id status notes => Pg.update_edr_journal_entry_status now id status notes w
  | UpsertTrackState uid json => Pg.upsert_pip_track_state now uid json w
  | SaveSnapshot cursor ts payload => Pg.save_snapshot cursor ts payload w
  | AppendChatMessage sender type target body ts => Pg.append_chat_message sender type target body ts w
  | AssignOperatingPoint op station client => outcome (Pg.assign_operating_point now op station client w)
  | ReleaseOperatingPoint op client => Pg.release_operating_point now op client w
  | UpsertTimetable train uid op arrival departure track type days =>
      Pg.upsert_timetable_template train uid op arrival departure track type days w
  end.

(** The calls of a session in order, whatever their outcomes. *)
Fixpoint calls (cs : list (Z * Call)) (w : PgDbWriter) : PgDbWriter :=
  match cs with
  | [] => w
  | (now, c) :: cs => calls cs (call now c w).1
  end.

(** ** One table at a time *)

(** A transaction that succeeds replaces the database by what its body returns; one
    that throws changes nothing. *)
Lemma transaction_cases {A} texts (body : Database -> result (Database * A)) w :
  let '(w', r) := Pg.transaction texts body w in
  session_uuid w' = session_uuid w /\ up w' = up w /\
  match r with
  | Ok a => body (db w) = Ok (db w', a)
  | Throw _ => db w' = db w
  end.
Proof.
  unfold Pg.transaction. destruct (negb _); [done|]. destruct (body (db w)) as [[d a]|e] eqn:E; done.
Qed.

(** A table that no branch of the body changes is kept. *)
Lemma transaction_keeps {A B} (table : Database -> B) texts (body : Database -> result (Database * A)) w :
  (forall d d' a, body d = Ok (d', a) -> table d' = table d) ->
  table (db (Pg.transaction texts body w).1) = table (db w).
Proof.
  intros Hb. pose proof (transaction_cases texts body w) as H.
  destruct (Pg.transaction texts body w) as [w' [a|e]]; destruct H as (_ & _ & H); [by eapply Hb|].
  cbn in *. by rewrite H.
Qed.

(** ** Live entries only move on *)

(** The time of day of an arrival, or of a departure, that one of the calls reports for the
    passage. *)
Definition arrival_reported (cs : list (Z * Call)) (e : EdrEntry) (time : Interval) : Prop :=
  exists now uid ts, (now, UpdateArrival (ee_train_number e) uid ts) ∈ cs /\ i64 uid = ee_station_uid e /\
    Pg.time_of_day ts = Ok time.
Definition departure_reported (cs : list (Z * Call)) (e : EdrEntry) (time : Interval) : Prop :=
  exists now uid ts, (now, UpdateDeparture (ee_train_number e) uid ts) ∈ cs /\ i64 uid = ee_station_uid e /\
    Pg.time_of_day ts = Ok time.

(** What calls leave of an entry: its plan, and the progress it had made.  A passage can become
    arrived until it has departed, and departed at any time; with the step it gets the time that a
    report gives for it, and no step is made, and no time given, otherwise. *)
Record advances (cs : list (Z * Call)) (e e' : EdrEntry) : Prop := {
  av_id : ee_id e' = ee_id e;
  av_session : ee_session_id e' = ee_session_id e;
  av_train : ee_train_number e' = ee_train_number e;
  av_station : ee_station_uid e' = ee_station_uid e;
  av_point : ee_operating_point_id e' = ee_operating_point_id e;
  av_plan : (ee_scheduled_arrival e', ee_scheduled_departure e', ee_track_number e', ee_stop_type e') =
            (ee_scheduled_arrival e, ee_scheduled_departure e, ee_track_number e, ee_stop_type e);
  av_status : ee_status e' = ee_status e \/
    ee_status e' = "ARRIVED"%string /\ ee_status e <> "DEPARTED"%string \/ ee_status e' = "DEPARTED"%string;
  av_arrival : ee_actual_arrival e' = ee_actual_arrival e \/
    ee_status e <> "ARRIVED"%string /\ ee_status e <> "DEPARTED"%string /\ ee_status e' <> ee_status e /\
    exists time, arrival_reported cs e time /\ ee_actual_arrival e' = Some time;
  av_departure : ee_actual_departure e' = ee_actual_departure e \/
    ee_status e <> "DEPARTED"%string /\ ee_status e' = "DEPARTED"%string /\
    exists time, departure_reported cs e time /\ ee_actual_departure e' = Some time;
  av_arrived : ee_status e' = "ARRIVED"%string -> ee_status e = "ARRIVED"%string \/
    exists time, arrival_reported cs e time /\ ee_actual_arrival e' = Some time;
  av_departed : ee_status e' = "DEPARTED"%string -> ee_status e = "DEPARTED"%string \/
    exists time, departure_reported cs e time /\ ee_actual_departure e' = Some time }.

Lemma advances_refl cs e : advances cs e e.
Proof. split; by auto. Qed.

Lemma arrival_reported_mono cs1 cs2 e e' time :
  ee_train_number e' = ee_train_number e -> ee_station_uid e' = ee_station_uid e -> cs1 ⊆ cs2 ->
  arrival_reported cs1 e' time -> arrival_reported cs2 e time.
Proof. intros Et Es Hc (now & uid & ts & Hin & Hu & Ht). rewrite Et in Hin. exists now, uid, ts. split_and!; [set_solver|congruence|done]. Qed.
Lemma departure_reported_mono cs1 cs2 e e' time :
  ee_train_number e' = ee_train_number e -> ee_station_uid e' = ee_station_uid e -> cs1 ⊆ cs2 ->
  departure_reported cs1 e' time -> departure_reported cs2 e time.
Proof. intros Et Es Hc (now & uid & ts & Hin & Hu & Ht). rewrite Et in Hin. exists now, uid, ts. split_and!; [set_solver|congruence|done]. Qed.

Lemma advances_trans cs1 cs2 e1 e2 e3 : advances cs1 e1 e2 -> advances cs2 e2 e3 -> advances (cs1 ++ cs2) e1 e3.
Proof.
  intros [A1 A2 A3 A4 A5 A6 As Aa Ad Aa' Ad'] [B1 B2 B3 B4 B5 B6 Bs Ba Bd Ba' Bd'].
  assert (forall t, arrival_reported cs1 e1 t -> arrival_reported (cs1 ++ cs2) e1 t) as Ra1
    by (intros t; apply arrival_reported_mono; set_solver).
  assert (forall t, arrival_reported cs2 e2 t -> arrival_reported (cs1 ++ cs2) e1 t) as Ra2
    by (intros t; apply arrival_reported_mono; set_solver).
  assert (forall t, departure_reported cs1 e1 t -> departure_reported (cs1 ++ cs2) e1 t) as Rd1
    by (intros t; apply departure_reported_mono; set_solver).
  assert (forall t, departure_reported cs2 e2 t -> departure_reported (cs1 ++ cs2) e1 t) as Rd2
    by (intros t; apply departure_reported_mono; set_solver).
  split; try congruence.
  - destruct As as [E|[[E ?]|E]], Bs as [E'|[[E' ?]|E']];
      first [left; congruence|right; left; split; congruence|right; right; congruence].
  - destruct Ba as [Ea|(N1 & N2 & N3 & t & Ht & Ea)]; rewrite Ea.
    + destruct Aa as [Eb|(M1 & M2 & M3 & t & Ht & Eb)]; rewrite Eb; [by left|right].
      split_and!; [done..| |by exists t; auto]. destruct Bs as [|[[? ?]|?]]; congruence.
    + right. assert (ee_status e2 = ee_status e1) as E
        by (destruct As as [|[[? ?]|?]]; congruence). rewrite <-E. split_and!; [done..|]. exists t. auto.
  - destruct Bd as [Ea|(N1 & N2 & t & Ht & Ea)]; rewrite Ea.
    + destruct Ad as [Eb|(M1 & M2 & t & Ht & Eb)]; rewrite Eb; [by left|right].
      split_and!; [done| |by exists t; auto]. destruct Bs as [|[[? ?]|?]]; congruence.
    + right. split_and!; [|done|by exists t; auto]. destruct As as [E|[[? ?]|E]]; congruence.
  - intros E. destruct (Ba' E) as [E2|(t & Ht & Et)]; [|right; exists t; auto].
    destruct (Aa' E2) as [|(t & Ht & E3)]; [by left|right]. exists t. split; [auto|].
    destruct Ba as [Ea|(N1 & _)]; congruence.
  - intros E. destruct (Bd' E) as [E2|(t & Ht & Et)]; [|right; exists t; auto].
    destruct (Ad' E2) as [|(t & Ht & E3)]; [by left|right]. exists t. split; [auto|].
    destruct Bd as [Ea|(N1 & _)]; congruence.
Qed.

(** The rows of a table stay where they are, each advancing. *)
Definition extends (cs : list (Z * Call)) (l l' : list EdrEntry) : Prop :=
  forall i e, l !! i = Some e -> exists e', l' !! i = Some e' /\ advances cs e e'.

Lemma extends_refl cs l : extends cs l l.
Proof. intros i e He. exists e. split; [done|apply advances_refl]. Qed.
Lemma extends_trans cs1 cs2 l1 l2 l3 : extends cs1 l1 l2 -> extends cs2 l2 l3 -> extends (cs1 ++ cs2) l1 l3.
Proof.
  intros H1 H2 i e He. destruct (H1 i e He) as (e2 & He2 & Ha). destruct (H2 i e2 He2) as (e3 & He3 & Hb).
  exists e3. split; [done|by eapply advances_trans].
Qed.

Lemma extends_app cs l k : extends cs l (l ++ k).
Proof. intros i e He. exists e. split; [by apply lookup_app_l_Some|apply advances_refl]. Qed.

Lemma extends_update cs p f l : (forall e, p e = true -> advances cs e (f e)) -> extends cs l (Pg.update p f l).
Proof.
  intros Hf i e He. unfold Pg.update. rewrite list_lookup_fmap, He. cbn. eexists. split; [done|].
  destruct (p e) eqn:Hp; [by apply Hf|apply advances_refl].
Qed.

(** The three updates of a passage, on the entries they select. *)
Lemma update_passage_extends cs now train uid ts unless set w :
  (forall time e, ee_status e ∉ unless -> Pg.time_of_day ts = Ok time ->
     ee_train_number e = train -> ee_station_uid e = i64 uid -> advances cs e (set time e <| ee_updated_at := now |>)) ->
  extends cs (edr_entries (db w)) (edr_entries (db (Pg.update_passage now train uid ts unless set w).1)).
Proof.
  intros Hs. unfold Pg.update_passage.
  match goal with |- context [Pg.transaction ?t ?b w] => pose proof (transaction_cases t b w) as H;
    destruct (Pg.transaction t b w) as [w' [[]|e]] end; destruct H as (_ & _ & H); cbn.
  - apply bind_ok in H as ([] & _ & H). destruct (negb _) in H; [injection H as <-; apply extends_refl|].
    apply bind_ok in H as (time & Ht & H). injection H as <-. cbn. apply extends_update.
    intros e He. apply andb_true_iff in He as [Hp He]. unfold Pg.of_passage in Hp.
    apply andb_true_iff in Hp as [[_ Hn%bool_decide_eq_true]%andb_true_iff Hu%Z.eqb_eq].
    apply Hs; [|done..]. by apply negb_true_iff, bool_decide_eq_false in He.
  - rewrite H. apply extends_refl.
Qed.

(** Calls that leave a table alone. *)
Ltac keeps_table :=
  let H := fresh "Hbody" in intros ? ? ? H; cbv beta zeta in H; split_ok H;
  first [injection H as <- _; reflexivity|injection H as <-; reflexivity].

(** The calls that can change the live entries. *)
Definition edr_call (c : Call) : bool :=
  match c with
  | SeedEdrEntries _ | UpdateTrackClearTime _ _ _ | UpdateDeparture _ _ _ | UpdateArrival _ _ _ => true
  | _ => false
  end.

Lemma init_session_keeps {B} (table : Database -> B) new_uuid now name version w :
  (forall d, table d = table (d <| sessions := [] |>)) ->
  table (db (Pg.init_session new_uuid now name version w).1) = table (db w).
Proof.
  intros Ht. unfold Pg.init_session.
  match goal with |- context [Pg.transaction ?t ?b w] => pose proof (transaction_cases t b w) as H;
    destruct (Pg.transaction t b w) as [w' [id|e]] end; destruct H as (_ & _ & H); cbn.
  - apply bind_ok in H as ([] & _ & [= Hd _]). rewrite <- Hd, Ht, (Ht (db w)). done.
  - by rewrite H.
Qed.

Lemma call_keeps_edr now c w : edr_call c = false -> edr_entries (db (call now c w).1) = edr_entries (db w).
Proof.
  destruct c; try done; intros _; cbn [call outcome fst].
  - by apply (init_session_keeps edr_entries).
  - apply (transaction_keeps edr_entries). keeps_table.
  - apply (transaction_keeps edr_entries). keeps_table.
  - apply (transaction_keeps edr_entries). keeps_table.
  - apply (transaction_keeps edr_entries). keeps_table.
  - apply (transaction_keeps edr_entries). keeps_table.
  - apply (transaction_keeps edr_entries). keeps_table.
  - apply (transaction_keeps edr_entries). keeps_table.
  - apply (transaction_keeps edr_entries). keeps_table.
  - apply (transaction_keeps edr_entries). keeps_table.
  - unfold Pg.upsert_timetable_template. repeat case_match; try done.
    apply (transaction_keeps edr_entries). keeps_table.
Qed.

Lemma call_extends now c w : extends [(now, c)] (edr_entries (db w)) (edr_entries (db (call now c w).1)).
Proof.
  destruct (edr_call c) eqn:Hc; [|rewrite call_keeps_edr by done; apply extends_refl].
  destruct c; try done; cbn [call outcome fst].
  - unfold Pg.seed_edr_entries_for_operating_day. destruct (_ || _); [apply extends_refl|].
    match goal with |- context [Pg.transaction ?t ?b w] => pose proof (transaction_cases t b w) as H;
      destruct (Pg.transaction t b w) as [w' [n|e]] end; destruct H as (_ & _ & H); cbn; [|rewrite H; apply extends_refl].
    cbv beta zeta in H. split_ok H. injection H as <- _. cbn. apply extends_app.
  - apply update_passage_extends. intros time e _ _ _ _. split; by auto.
  - apply update_passage_extends. intros time e He Ht Hn Hu. assert (ee_status e <> "DEPARTED"%string) by set_solver.
    assert (departure_reported [(now, UpdateDeparture train_number station_uid timestamp_us)] e time)
      by (exists now, station_uid, timestamp_us; rewrite Hn; split_and!; [set_solver|done..]).
    split; cbn; try done; eauto 10.
  - apply update_passage_extends. intros time e He Ht Hn Hu.
    assert (ee_status e <> "DEPARTED"%string) by set_solver. assert (ee_status e <> "ARRIVED"%string) by set_solver.
    assert (arrival_reported [(now, UpdateArrival train_number station_uid timestamp_us)] e time)
      by (exists now, station_uid, timestamp_us; rewrite Hn; split_and!; [set_solver|done..]).
    split; cbn; try done; eauto 10.
Qed.

(** The entries of a passage of the session. *)
Definition concerns (w : PgDbWriter) (train_number : string) (station_uid : Z) (e : EdrEntry) : Prop :=
  ee_session_id e = session_uuid w /\ ee_train_number e = train_number /\ ee_station_uid e = i64 station_uid.

(** What a report that succeeds leaves of the entries it concerns. *)
Lemma update_passage_reached now train uid ts unless set w w' :
  Pg.update_passage now train uid ts unless set w = (w', Ok tt) ->
  (forall time e, ee_session_id (set time e) = ee_session_id e /\ ee_train_number (set time e) = ee_train_number e /\
     ee_station_uid (set time e) = ee_station_uid e /\ ee_status (set time e) ∈ unless) ->
  Forall (fun e => concerns w train uid e -> ee_status e ∈ unless) (edr_entries (db w')).
Proof.
  intros H Hset. unfold Pg.update_passage in H.
  match type of H with Pg.transaction ?t ?b w = _ => pose proof (transaction_cases t b w) as Hb end.
  rewrite H in Hb. destruct Hb as (_ & _ & Hb). apply bind_ok in Hb as ([] & _ & Hb).
  assert (forall e, concerns w train uid e -> Pg.of_passage (session_uuid w) train uid e = true) as Hof.
  { intros e (E1 & E2 & E3). unfold Pg.of_passage. by rewrite !bool_decide_true, E3, Z.eqb_refl by done. }
  destruct (existsb _ _) eqn:Hx; cbn [negb] in Hb.
  - apply bind_ok in Hb as (time & _ & [= Hd]). rewrite <-Hd. cbn. apply Forall_forall.
    intros e (e0 & -> & Hin)%list_elem_of_fmap. destruct (_ && _) eqn:Hm.
    + intros _. cbn. by destruct (Hset time e0) as (_ & _ & _ & ?).
    + intros Hc. rewrite (Hof _ Hc) in Hm. by apply negb_false_iff, bool_decide_eq_true in Hm.
  - injection Hb as Hd. rewrite <-Hd. apply Forall_forall. intros e Hin Hc. apply not_true_iff_false in Hx.
    destruct (decide (ee_status e ∈ unless)) as [|Hn]; [done|]. exfalso. apply Hx, existsb_exists. exists e.
    split; [by apply list_elem_of_In|]. by rewrite (Hof _ Hc), bool_decide_false.
Qed.

(** C31: how the live entries of the timetable progress.  Whatever calls a session makes, in any
    order and with any of them failing, no entry is lost and none goes back: its plan is kept, its
    status only moves on, to arrived unless it has departed, to departed; it does so, and gets an
    arrival or a departure time, only by a report of that passage, whose time of day it gets, and
    an arrival time is final once the train has arrived or departed, a departure time once it has
    departed.  And a report that succeeds has its effect: after an arrival every entry of the
    passage has arrived or departed, after a departure it has departed. *)
Theorem edr_entries_advance cs w :
  extends cs (edr_entries (db w)) (edr_entries (db (calls cs w))) /\
  (forall now train uid ts w', call now (UpdateArrival train uid ts) w = (w', Ok tt) ->
     Forall (fun e => concerns w train uid e -> ee_status e ∈ ["ARRIVED"; "DEPARTED"]%string) (edr_entries (db w'))) /\
  (forall now train uid ts w', call now (UpdateDeparture train uid ts) w = (w', Ok tt) ->
     Forall (fun e => concerns w train uid e -> ee_status e = "DEPARTED"%string) (edr_entries (db w'))).
Proof.
  split_and!.
  - revert w. induction cs as [|[now c] cs IH]; intros w; cbn [calls]; [apply extends_refl|].
    apply (extends_trans [(now, c)] cs _ (edr_entries (db (call now c w).1))); [apply call_extends|apply IH].
  - intros now train uid ts w' H. eapply update_passage_reached; [exact H|]. intros time e. cbn. set_solver.
  - intros now train uid ts w' H. eapply Forall_impl;
      [eapply update_passage_reached; [exact H|intros time e; cbn; set_solver]|]. cbn. set_solver.
Qed.

(** ** The recording writer as specification *)

(** The same call of [NullDbWriter], which ignores the session identifier. *)
Definition null_call (c : Call) (n : NullDbWriter) : NullDbWriter :=
  match c with
  | InitSession _ name version => (DbWriter.init_session name version n).1
  | SeedEdrEntries day => (DbWriter.seed_edr_entries_for_operating_day "" day n).1
  | WriteDomainEvent row => DbWriter.write_domain_event "" row n
  | WriteDispatchTelegram row => DbWriter.write_dispatch_telegram "" row n
  | UpdateTrackClearTime train uid ts => DbWriter.update_edr_track_clear_time "" train uid ts n
  | UpdateDeparture train uid ts => DbWriter.update_edr_departure "" train uid ts n
  | UpdateArrival train uid ts => DbWriter.update_edr_arrival "" train uid ts n
  | AppendJournalEntry row => (DbWriter.append_edr_journal_entry "" row n).1
  | UpdateJournalStatus id status notes => DbWriter.update_edr_journal_entry_status "" id status notes n
  | UpsertTrackState uid json => DbWriter.upsert_pip_track_state "" uid json n
  | SaveSnapshot cursor ts payload => DbWriter.save_snapshot "" cursor ts payload n
  | AppendChatMessage sender type target body ts => DbWriter.append_chat_message "" sender type target body ts n
  | AssignOperatingPoint op station client => (DbWriter.assign_operating_point "" op station client n).1
  | ReleaseOperatingPoint op client => DbWriter.release_operating_point "" op client n
  | UpsertTimetable train uid op arrival departure track type days =>
      DbWriter.upsert_timetable_template train uid op arrival departure track type days n
  end.

(** The calls of a session after its start; the server starts one session. *)
Definition in_session (c : Call) : Prop := match c with InitSession _ _ _ => False | _ => True end.

(** The rows of a session, and those of the others. *)
Definition mine {A} (session : A -> string) (sid : string) (rows : list A) : list A :=
  List.filter (fun r => bool_decide (session r = sid)) rows.
Definition theirs {A} (session : A -> string) (sid : string) (rows : list A) : list A :=
  List.filter (fun r => negb (bool_decide (session r = sid))) rows.

(** A row of the database against the record of the call that wrote it. *)
Definition stores_event (r : EventRow) (row : DomainEventRow) : Prop :=
  er_event_type r = ev_event_type row /\ er_event_id r = i64 (ev_event_id row) /\
  er_timestamp_us r = i64 (ev_timestamp_us row) /\ er_object_uid r = i64 <$> ev_object_uid row /\
  er_payload r = ev_payload row /\
  er_audit_hash r = sha256_hex (er_session_id r) (er_event_id r) (er_timestamp_us r) (er_payload r).
Definition stores_telegram (r : TelegramEntry) (row : TelegramRow) : Prop :=
  te_form_type r = tr_form_type row /\ te_exchange_uid r = tr_exchange_id row /\
  te_train_number r = tr_train_number row /\ te_from_uid r = i64 (tr_from_uid row) /\
  te_to_uid r = i64 (tr_to_uid row) /\ te_direction r = tr_direction row /\ te_status r = tr_status row /\
  te_track_number r = tr_track_number row /\ te_km_markers r = km_array (tr_km_markers row) /\
  te_body r = tr_body row /\ te_timestamp_us r = i64 (tr_timestamp_us row).
Definition stores_snapshot (r : SnapshotRow) (s : SnapshotSave) : Prop :=
  sr_seq_cursor r = ss_seq_cursor s /\ sr_timestamp_us r = ss_timestamp_us s /\ sr_payload r = ss_payload s.
Definition stores_chat (r : ChatRow) (m : ChatMessage) : Prop :=
  ch_sender_id r = cm_sender_id m /\ ch_target_type r = cm_target_type m /\ ch_target_id r = cm_target_id m /\
  ch_body r = cm_body m /\ ch_timestamp_us r = cm_timestamp_us m.

(** A journal entry as it was written is active, with its notes; every later update of the entry
    gives it another status, and other notes if the update has any. *)
Definition noted (updates : list EdrJournalStatusUpdate) (id : Z) (notes : option string) : string * option string :=
  fold_left (fun now u => if js_entry_id u =? id
                          then (js_status u, match js_notes u with Some n => Some n | None => now.2 end) else now)
    updates ("ACTIVE"%string, notes).
(** The updates recorded first are those made before the entry was there. *)
Definition stores_journal (updates : list EdrJournalStatusUpdate) (r : JournalEntry) (row : EdrJournalEntryRow) : Prop :=
  je_operating_point_id r = ej_operating_point_id row /\ je_station_uid r = i64 (ej_station_uid row) /\
  je_journal_page r = ej_journal_page row /\ je_entry_type r = ej_entry_type row /\
  je_train_number r = ej_train_number row /\ je_direction r = ej_direction row /\
  je_track_number r = ej_track_number row /\
  Pg.optional_interval (ej_scheduled_arrival_secs row) = Ok (je_scheduled_arrival r) /\
  Pg.optional_interval (ej_scheduled_departure_secs row) = Ok (je_scheduled_departure r) /\
  Pg.optional_interval (ej_actual_arrival_secs row) = Ok (je_actual_arrival r) /\
  Pg.optional_interval (ej_actual_departure_secs row) = Ok (je_actual_departure r) /\
  je_body r = ej_body row /\ je_timestamp_us r = i64 (ej_timestamp_us row) /\
  exists before, (before <= length updates)%nat /\
    (je_status r, je_notes r) = noted (drop before updates) (je_id r) (ej_notes row).

(** An assignment is released by the first release of its operating point and client after it. *)
Definition stores_assignment (releases : list OpRelease) (r : Assignment) (a : OpAssignment) : Prop :=
  as_operating_point_id r = oa_operating_point_id a /\ as_station_sid r = oa_station_sid a /\
  as_client_id r = oa_client_id a /\
  exists before, (before <= length releases)%nat /\
    (is_Some (as_released_at r) <->
     mkOpRelease (as_operating_point_id r) (as_client_id r) ∈ drop before releases).

(** The rows of the session are the records, one for one and in order. *)
Definition stores_all (sid : string) (d : Database) (n : NullDbWriter) : Prop :=
  Forall2 stores_event (mine er_session_id sid (events d)) (written_events n) /\
  Forall2 stores_telegram (mine te_session_id sid (telegrams d)) (written_telegrams n) /\
  Forall2 (stores_journal (edr_journal_status_updates n)) (mine je_session_id sid (journal d)) (edr_journal_entries n) /\
  Forall2 stores_snapshot (mine sr_session_id sid (snapshots d)) (saved_snapshots n) /\
  Forall2 stores_chat (mine ch_session_id sid (chat_log d)) (chat_messages n) /\
  Forall2 (stores_assignment (op_releases n)) (mine as_session_id sid (assignments d)) (op_assignments n).

(** The rows of other sessions are as before. *)
Definition others_kept (sid : string) (d d' : Database) : Prop :=
  theirs er_session_id sid (events d') = theirs er_session_id sid (events d) /\
  theirs te_session_id sid (telegrams d') = theirs te_session_id sid (telegrams d) /\
  theirs je_session_id sid (journal d') = theirs je_session_id sid (journal d) /\
  theirs sr_session_id sid (snapshots d') = theirs sr_session_id sid (snapshots d) /\
  theirs ch_session_id sid (chat_log d') = theirs ch_session_id sid (chat_log d) /\
  theirs as_session_id sid (assignments d') = theirs as_session_id sid (assignments d).

(** [REFERENCES session.sessions(id)], of the tables that [stores_all] speaks of. *)
Definition referenced (d : Database) : Prop :=
  let ids := se_id <$> sessions d in
  Forall (fun r => er_session_id r ∈ ids) (events d) /\ Forall (fun r => te_session_id r ∈ ids) (telegrams d) /\
  Forall (fun r => je_session_id r ∈ ids) (journal d) /\ Forall (fun r => sr_session_id r ∈ ids) (snapshots d) /\
  Forall (fun r => ch_session_id r ∈ ids) (chat_log d) /\ Forall (fun r => as_session_id r ∈ ids) (assignments d).

Section Rows.
Context {A : Type} (session : A -> string) (sid : string).
Lemma mine_app l r : session r = sid -> mine session sid (l ++ [r]) = mine session sid l ++ [r].
Proof. intros H. unfold mine. rewrite List.filter_app. cbn. by rewrite bool_decide_true. Qed.
Lemma theirs_app l r : session r = sid -> theirs session sid (l ++ [r]) = theirs session sid l.
Proof. intros H. unfold theirs. rewrite List.filter_app. cbn. rewrite bool_decide_true by done. by rewrite app_nil_r. Qed.

Lemma mine_update p f l :
  (forall r, session (f r) = session r) -> mine session sid (Pg.update p f l) = Pg.update p f (mine session sid l).
Proof.
  intros Hf. induction l as [|r l IH]; [done|]. cbn in *.
  assert (session (if p r then f r else r) = session r) as -> by (destruct (p r); [apply Hf|done]).
  destruct (bool_decide _); [cbn; f_equal|]; exact IH.
Qed.
Lemma theirs_update p f l :
  (forall r, p r = true -> session r = sid) -> (forall r, session (f r) = session r) ->
  theirs session sid (Pg.update p f l) = theirs session sid l.
Proof.
  intros Hp Hf. induction l as [|r l IH]; [done|]. cbn in *.
  assert (session (if p r then f r else r) = session r) as -> by (destruct (p r); [apply Hf|done]).
  case_bool_decide as Hs; cbn; [exact IH|]. f_equal; [|exact IH].
  destruct (p r) eqn:E; [by rewrite (Hp _ E) in Hs|done].
Qed.
Lemma mine_none l : Forall (fun r => session r <> sid) l -> mine session sid l = [].
Proof. induction 1 as [|r l Hr _ IH]; [done|]. cbn. by rewrite bool_decide_false. Qed.
End Rows.

Lemma mine_Forall {A} (session : A -> string) sid l : Forall (fun r => session r = sid) (mine session sid l).
Proof. apply Forall_forall. intros r Hr. apply list_elem_of_In, List.filter_In in Hr as [_ H]. by apply bool_decide_eq_true in H. Qed.

Lemma Forall2_update {A B} (Q : A -> Prop) (R R' : A -> B -> Prop) (p : A -> bool) (f : A -> A) l k :
  (forall a b, Q a -> R a b -> R' (if p a then f a else a) b) -> Forall Q l -> Forall2 R l k ->
  Forall2 R' (Pg.update p f l) k.
Proof.
  intros Hf HQ H. revert HQ. induction H as [|a b l k Hab _ IH]; intros HQ; [constructor|].
  apply Forall_cons in HQ as [Ha HQ]. constructor; [by apply Hf|by apply IH].
Qed.

(** A later update, or release, after the others. *)
Lemma stores_journal_update (sid : string) us row r id status notes (f : JournalEntry -> JournalEntry) :
  je_session_id r = sid -> stores_journal us r row ->
  f r = r <| je_status := status |> <| je_notes := match notes with Some n => Some n | None => je_notes r end |>
          <| je_updated_at := je_updated_at (f r) |> ->
  stores_journal (us ++ [mkEdrJournalStatusUpdate id status notes])
    (if bool_decide (je_session_id r = sid) && (je_id r =? id) then f r else r) row.
Proof.
  intros Hs (H1 & H2 & H3 & H4 & H5 & H6 & H7 & H8 & H9 & H10 & H11 & H12 & H13 & before & Hb & Hn) Hf.
  rewrite bool_decide_true by done. cbn [andb].
  assert (noted (drop before (us ++ [mkEdrJournalStatusUpdate id status notes])) (je_id r) (ej_notes row) =
    if id =? je_id r then (status, match notes with Some n => Some n | None => je_notes r end)
    else (je_status r, je_notes r)) as Hnew.
  { rewrite drop_app_le by done. unfold noted. rewrite fold_left_app. cbn.
    change (fold_left _ _ _) with (noted (drop before us) (je_id r) (ej_notes row)). by rewrite <-Hn. }
  rewrite Z.eqb_sym in Hnew. destruct (je_id r =? id) eqn:E.
  - rewrite Hf. split_and!; try done. exists before. rewrite length_app. cbn. split; [lia|]. by rewrite Hnew.
  - split_and!; try done. exists before. rewrite length_app. cbn. split; [lia|]. by rewrite Hnew.
Qed.

Lemma stores_assignment_release (sid : string) rs row r op client (f : Assignment -> Assignment) :
  as_session_id r = sid -> stores_assignment rs r row ->
  f r = r <| as_released_at := as_released_at (f r) |> -> is_Some (as_released_at (f r)) ->
  stores_assignment (rs ++ [mkOpRelease op client])
    (if bool_decide (as_session_id r = sid) && bool_decide (as_operating_point_id r = op) &&
        bool_decide (as_client_id r = client) && bool_decide (as_released_at r = None) then f r else r) row.
Proof.
  intros Hs (H1 & H2 & H3 & before & Hb & Hn) Hf Hr. rewrite bool_decide_true by done. cbn [andb].
  assert (mkOpRelease (as_operating_point_id r) (as_client_id r) ∈ drop before (rs ++ [mkOpRelease op client]) <->
    is_Some (as_released_at r) \/ as_operating_point_id r = op /\ as_client_id r = client) as Hnew.
  { rewrite drop_app_le, elem_of_app, <-Hn, list_elem_of_singleton by done. naive_solver. }
  destruct (_ && _) eqn:E.
  - apply andb_true_iff in E as [[E1%bool_decide_eq_true E2%bool_decide_eq_true]%andb_true_iff _].
    rewrite Hf. split_and!; try done. exists before. rewrite length_app. cbn. split; [lia|].
    rewrite Hnew. split; [by right|done].
  - split_and!; try done. exists before. rewrite length_app. cbn. split; [lia|]. rewrite Hnew.
    split; [by left|]. intros [|[E1 E2]]; [done|]. rewrite !bool_decide_true in E by done.
    apply bool_decide_eq_false in E. by destruct (as_released_at r).
Qed.

Lemma transaction_ok {A} texts (body : Database -> result (Database * A)) w w' a :
  Pg.transaction texts body w = (w', Ok a) -> session_uuid w' = session_uuid w /\ body (db w) = Ok (db w', a).
Proof. intros E. pose proof (transaction_cases texts body w) as H. rewrite E in H. by destruct H as (? & _ & ?). Qed.

Lemma outcome_ok {A} (r : PgDbWriter * result A) w' : outcome r = (w', Ok tt) -> exists a, r = (w', Ok a).
Proof. destruct r as [w [a|e]]; [|done]. intros [= <-]. by exists a. Qed.

#[local] Arguments mine : simpl never.
#[local] Arguments theirs : simpl never.

(** The new row of a session, or the same rows. *)
Ltac stores_step :=
  cbn;
  match goal with
  | |- Forall2 _ (mine _ _ (_ ++ [_])) (_ ++ [_]) =>
      rewrite mine_app by done; apply Forall2_app; [assumption|constructor; [|constructor]]; by split_and!
  | |- theirs _ _ (_ ++ [_]) = _ => by apply theirs_app
  | |- Forall2 _ _ _ => assumption
  | |- theirs _ _ _ = _ => reflexivity
  end.

(** From the equation of a successful body to the tables it leaves. *)
Ltac stores_body H Hs :=
  let Hid := fresh "Hid" in
  apply transaction_ok in H as [Hid H]; split; [exact Hid|]; cbv beta zeta in H; split_ok H;
  let Hd := fresh "Hd" in
  first [injection H as Hd _|injection H as Hd];
  unfold stores_all, others_kept; rewrite <- Hd;
  destruct Hs as (? & ? & ? & ? & ? & ?); split_and!; try stores_step.

Lemma call_stores now c w w' n :
  in_session c -> stores_all (session_uuid w) (db w) n -> call now c w = (w', Ok tt) ->
  session_uuid w' = session_uuid w /\
  stores_all (session_uuid w) (db w') (null_call c n) /\ others_kept (session_uuid w) (db w) (db w').
Proof.
  intros Hc Hs H. destruct c; cbn [call] in H; try done.
  - apply outcome_ok in H as [k H]. unfold Pg.seed_edr_entries_for_operating_day in H.
    destruct (_ || _) in H; [done|]. stores_body H Hs.
  - stores_body H Hs.
  - stores_body H Hs.
  - stores_body H Hs.
  - stores_body H Hs.
  - stores_body H Hs.
  - apply outcome_ok in H as [k H]. stores_body H Hs.
    cbn. rewrite mine_app by done. apply Forall2_app; [assumption|constructor; [|constructor]].
    cbn. split_and!; try done. exists (length (edr_journal_status_updates n)). split; [done|]. by rewrite drop_all.
  - stores_body H Hs.
    + cbn. rewrite mine_update by done. eapply Forall2_update; [|apply mine_Forall|eassumption].
      intros r row Hr Hrow.
      exact (stores_journal_update _ _ row r _ _ _ (fun e => e <| je_status := status |>
        <| je_notes := (match notes with Some n => Some n | None => je_notes e end) |> <| je_updated_at := now |>)
        Hr Hrow eq_refl).
    + cbn. apply theirs_update; [|done]. intros r [Hr%bool_decide_eq_true _]%andb_true_iff. done.
  - stores_body H Hs.
  - stores_body H Hs.
  - stores_body H Hs.
  - apply outcome_ok in H as [k H]. stores_body H Hs.
    cbn. rewrite mine_app by done. apply Forall2_app; [assumption|constructor; [|constructor]].
    cbn. split_and!; try done. exists (length (op_releases n)). split; [done|]. rewrite drop_all.
    split; [by intros []|by intros ?%not_elem_of_nil].
  - stores_body H Hs.
    + cbn. rewrite mine_update by done. eapply Forall2_update; [|apply mine_Forall|eassumption].
      intros r row Hr Hrow.
      exact (stores_assignment_release _ _ row r _ _ (fun a => a <| as_released_at := Some now |>)
        Hr Hrow eq_refl (mk_is_Some _ now eq_refl)).
    + cbn. apply theirs_update; [|done]. intros r Hr.
      by apply andb_true_iff in Hr as [[[Hr%bool_decide_eq_true _]%andb_true_iff _]%andb_true_iff _].
  - unfold Pg.upsert_timetable_template in H. repeat case_match; try done. stores_body H Hs.
Qed.

(** A session all of whose calls succeed. *)
Fixpoint all_ok (cs : list (Z * Call)) (w : PgDbWriter) : option PgDbWriter :=
  match cs with
  | [] => Some w
  | (now, c) :: cs => match call now c w with (w', Ok _) => all_ok cs w' | (_, Throw _) => None end
  end.

Lemma calls_store cs w w' n :
  Forall (fun c => in_session c.2) cs -> stores_all (session_uuid w) (db w) n -> all_ok cs w = Some w' ->
  session_uuid w' = session_uuid w /\
  stores_all (session_uuid w) (db w') (fold_left (fun n c => null_call c.2 n) cs n) /\
  others_kept (session_uuid w) (db w) (db w').
Proof.
  revert w n. induction cs as [|[now c] cs IH]; intros w n Hc Hs H; cbn [all_ok] in H.
  { injection H as <-. split_and!; try done. }
  apply Forall_cons in Hc as [Hc Hcs]. destruct (call now c w) as [w1 [[]|e]] eqn:E; [|done].
  destruct (call_stores _ _ _ _ _ Hc Hs E) as (E1 & Hs1 & K1 & K2 & K3 & K4 & K5 & K6). rewrite <-E1 in Hs1.
  destruct (IH w1 (null_call c n) Hcs Hs1 H) as (E2 & Hs2 & L1 & L2 & L3 & L4 & L5 & L6). rewrite E1 in *.
  split; [done|]. split; [done|]. unfold others_kept. by rewrite L1, L2, L3, L4, L5, L6.
Qed.

(** A fresh session has no rows yet. *)
Lemma started_session now id name version w w' :
  referenced (db w) -> call now (InitSession id name version) w = (w', Ok tt) ->
  session_uuid w' = id /\ stores_all id (db w') NullDbWriter_empty /\ others_kept id (db w) (db w').
Proof.
  intros Hr H. apply outcome_ok in H as [a H]. unfold Pg.init_session in H.
  match type of H with (let '(_, _) := Pg.transaction ?t ?b w in _) = _ =>
    destruct (Pg.transaction t b w) as [w1 [k|e]] eqn:E end; [|done].
  injection H as <- _. apply transaction_ok in E as [_ E]. split_ok E. injection E as Hd <-. split; [done|].
  assert (id ∉ se_id <$> sessions (db w)) as Hid.
  { intros (s & -> & Hin)%list_elem_of_fmap. match goal with H : existsb _ _ = false |- _ => rename H into Hx end.
    apply not_true_iff_false in Hx. apply Hx, existsb_exists. exists s.
    split; [by apply list_elem_of_In|by apply bool_decide_eq_true]. }
  cbn [db]. rewrite <-Hd. destruct Hr as (H1 & H2 & H3 & H4 & H5 & H6).
  unfold stores_all, others_kept. cbn.
  split; [|done]. split_and!; (rewrite mine_none; [exact (List.Forall2_nil _)|]);
    (eapply Forall_impl; [eassumption|]; cbn; intros r Hin <-; by apply Hid).
Qed.

(** C32: the production writer stores what the recording writer records.  For a session that is
    registered and then makes any calls that all succeed: the events, telegrams, journal entries,
    snapshots, chat messages and operating-point assignments that carry the session in the database
    are, one for one, in order and in every column, those the same calls leave in [NullDbWriter],
    the integers converted to 64 signed bits, the kilometre markers written as an array, the times
    of a journal entry read as seconds, and every event under the digest of its own columns; a
    journal entry is active, with its notes, until a recorded update says otherwise, an assignment
    is open until a recorded release of it; and the rows of other sessions are as before. *)
Theorem pg_refines_null now id name version cs w w' :
  referenced (db w) -> Forall (fun c => in_session c.2) cs ->
  all_ok ((now, InitSession id name version) :: cs) w = Some w' ->
  stores_all id (db w') (fold_left (fun n c => null_call c.2 n) cs NullDbWriter_empty) /\
  others_kept id (db w) (db w').
Proof.
  intros Hr Hc H. cbn [all_ok] in H.
  destruct (call now (InitSession id name version) w) as [w1 [[]|e]] eqn:E; [|done].
  destruct (started_session _ _ _ _ _ _ Hr E) as (<- & Hs & K1 & K2 & K3 & K4 & K5 & K6).
  destruct (calls_store _ _ _ _ Hc Hs H) as (_ & Hs' & L1 & L2 & L3 & L4 & L5 & L6). split; [done|].
  unfold others_kept. by rewrite L1, L2, L3, L4, L5, L6.
Qed.

(** ** Keys *)

Definition template_key (t : Template) : string * Z := (tt_train_number t, tt_station_uid t).
Definition track_key (r : TrackStateRow) : string * Z := (ts_session_id r, ts_section_uid r).

(** [uq_timetable_train_station], the primary key of the track states, and
    [ck_timetable_operating_days_valid]. *)
Definition tables_keyed (d : Database) : Prop :=
  NoDup (template_key <$> templates d) /\ NoDup (track_key <$> track_state d) /\
  Forall (fun t => tt_operating_days t <> [] /\ Forall (fun day => 1 <= day <= 7) (tt_operating_days t)) (templates d).

(** Replacing the rows of a key, or adding a row with a new key. *)
Lemma upsert_keys {A K} (key : A -> K) (p : A -> bool) (f : A -> A) (row : A) l :
  (forall a, p a = true -> key a = key row) -> (forall a, key a = key row -> p a = true) ->
  (forall a, key (f a) = key row) ->
  NoDup (key <$> l) ->
  NoDup (key <$> (if existsb p l then Pg.update p f l else l ++ [row])).
Proof.
  intros H1 H2 Hf Hn. destruct (existsb p l) eqn:E.
  - assert (key <$> Pg.update p f l = key <$> l) as ->; [|done].
    unfold Pg.update. rewrite <- list_fmap_compose. apply list_fmap_ext. intros i a _. cbn.
    destruct (p a) eqn:Hp; [|done]. by rewrite (Hf a), (H1 a Hp).
  - rewrite fmap_app. apply NoDup_app. split; [done|]. split; [|apply NoDup_singleton].
    intros k Hk Hr%list_elem_of_singleton. subst k. apply list_elem_of_fmap in Hk as (a & Ha & Hin).
    assert (existsb p l = true) as E'; [|congruence]. apply List.existsb_exists. exists a.
    split; [by apply list_elem_of_In|]. by apply H2.
Qed.

Lemma matches_key {A} (name : A -> string) (uid : A -> Z) s u a :
  bool_decide (name a = s) && (uid a =? u) = true <-> (name a, uid a) = (s, u).
Proof. rewrite andb_true_iff, bool_decide_eq_true, Z.eqb_eq. naive_solver. Qed.

Lemma call_keyed now c w : tables_keyed (db w) -> tables_keyed (db (call now c w).1).
Proof.
  intros Hk.
  assert (forall w', templates (db w') = templates (db w) -> track_state (db w') = track_state (db w) ->
    tables_keyed (db w')) as Hsame by (intros w' Et Es; unfold tables_keyed; by rewrite Et, Es).
  destruct c; cbn [call outcome fst];
    try (apply Hsame; [apply (transaction_keeps templates)|apply (transaction_keeps track_state)]; by keeps_table).
  - apply Hsame; by apply init_session_keeps.
  - unfold Pg.seed_edr_entries_for_operating_day. destruct (_ || _); [done|].
    apply Hsame; [apply (transaction_keeps templates)|apply (transaction_keeps track_state)]; by keeps_table.
  - match goal with |- context [Pg.upsert_pip_track_state ?a ?b ?c w] =>
      destruct (Pg.upsert_pip_track_state a b c w) as [w' [[]|e]] eqn:E end; cbn.
    + apply transaction_ok in E as [_ E]. cbv beta zeta in E. split_ok E. injection E as Hd. rewrite <- Hd.
      destruct Hk as (Ht & Hs & Hf). split_and!; try done. cbn. apply (upsert_keys track_key); try done.
      * intros a Ha. by apply matches_key in Ha.
      * intros a Ha. by apply matches_key.
    + apply Hsame; [|]; unfold Pg.upsert_pip_track_state in E;
        match type of E with Pg.transaction ?t ?b w = _ => pose proof (transaction_cases t b w) as H end;
        rewrite E in H; destruct H as (_ & _ & ->); done.
  - destruct (Pg.upsert_timetable_template _ _ _ _ _ _ _ _ w) as [w' [[]|e]] eqn:E; cbn.
    + unfold Pg.upsert_timetable_template in E. case_bool_decide as Hne; [done|].
      destruct (existsb _ operating_days) eqn:Hdays; [done|].
      apply transaction_ok in E as [_ E]. cbv beta zeta in E. split_ok E. injection E as Hd. rewrite <- Hd.
      destruct Hk as (Ht & Hs & Hf). split_and!; try done; cbn.
      * apply (upsert_keys template_key); try done; intros a Ha; by apply matches_key.
      * assert (Forall (fun day => 1 <= day <= 7) operating_days) as Hr.
        { apply Forall_forall. intros day Hin. rewrite <- not_true_iff_false, List.existsb_exists in Hdays.
          destruct (decide (1 <= day <= 7)) as [|Hout]; [done|]. exfalso. apply Hdays. exists day.
          split; [by apply list_elem_of_In|]. apply orb_true_iff. rewrite !Z.ltb_lt. lia. }
        destruct (existsb _ (templates (db w))); [|apply Forall_app; split; [done|by repeat constructor]].
        unfold Pg.update. apply Forall_fmap. eapply Forall_impl; [exact Hf|]. intros t Hok. cbn.
        by destruct (_ && _).
    + apply Hsame; unfold Pg.upsert_timetable_template in E; repeat case_match; try congruence;
        try (injection E as <- _; done);
        match type of E with Pg.transaction ?t ?b w = _ => pose proof (transaction_cases t b w) as Hc end;
        rewrite E in Hc; destruct Hc as (_ & _ & ->); done.
Qed.

(** The keys of the schema hold after every session. *)
Lemma calls_keyed cs w : tables_keyed (db w) -> tables_keyed (db (calls cs w)).
Proof.
  revert w. induction cs as [|[now c] cs IH]; intros w Hk; [done|]. cbn [calls]. by apply IH, call_keyed.
Qed.
End Calls.

(** ** Texts are unambiguous *)

(** A quoted element followed by anything can be split in one way only. *)
Lemma escaped_split s1 s2 r1 r2 :
  escaped s1 +:+ String quote r1 = escaped s2 +:+ String quote r2 -> s1 = s2 /\ r1 = r2.
Proof.
  revert s2. induction s1 as [|c1 s1 IH]; intros [|c2 s2]; cbn [escaped].
  - intros [= ->]. done.
  - destruct (_ || _) eqn:E; cbn; [by intros [= H]|]. intros [= H _]. subst c2. by vm_compute in E.
  - destruct (_ || _) eqn:E; cbn; [by intros [= H]|]. intros [= H _]. subst c1. by vm_compute in E.
  - destruct (Ascii.eqb c1 quote || Ascii.eqb c1 backslash) eqn:E1,
      (Ascii.eqb c2 quote || Ascii.eqb c2 backslash) eqn:E2; cbn.
    + intros [= -> H]. destruct (IH s2 H) as [-> ->]. done.
    + intros [= <- _]. by vm_compute in E2.
    + intros [= -> _]. by vm_compute in E1.
    + intros [= -> H]. destruct (IH s2 H) as [-> ->]. done.
Qed.

Lemma app_quote s r : (s +:+ String quote "") +:+ r = s +:+ String quote r.
Proof. by rewrite <- append_assoc. Qed.

Lemma quoted_split s1 s2 r1 r2 : quoted s1 +:+ r1 = quoted s2 +:+ r2 -> s1 = s2 /\ r1 = r2.
Proof.
  assert (forall s r, quoted s +:+ r = String quote (escaped s +:+ String quote r)) as E.
  { intros s r. unfold quoted. by rewrite <- (app_quote (escaped s) r). }
  rewrite !E. intros [= H]. by apply escaped_split.
Qed.

Lemma joined_split l1 l2 :
  joined (quoted <$> l1) +:+ "}" = joined (quoted <$> l2) +:+ "}" -> l1 = l2.
Proof.
  revert l2. induction l1 as [|s1 l1 IH]; intros [|s2 l2]; cbn [fmap list_fmap joined].
  - done.
  - destruct l2; cbn; by intros [=].
  - destruct l1; cbn; by intros [=].
  - intros H.
    assert (exists r1, joined (quoted <$> s1 :: l1) +:+ "}" = quoted s1 +:+ r1 /\
      match l1 with [] => r1 = "}"%string | _ => r1 = "," +:+ (joined (quoted <$> l1) +:+ "}") end) as (r1 & E1 & Hr1).
    { destruct l1; cbn [fmap list_fmap joined]; [by eexists|]. eexists. split; [|done]. by rewrite <- !append_assoc. }
    assert (exists r2, joined (quoted <$> s2 :: l2) +:+ "}" = quoted s2 +:+ r2 /\
      match l2 with [] => r2 = "}"%string | _ => r2 = "," +:+ (joined (quoted <$> l2) +:+ "}") end) as (r2 & E2 & Hr2).
    { destruct l2; cbn [fmap list_fmap joined]; [by eexists|]. eexists. split; [|done]. by rewrite <- !append_assoc. }
    cbn [fmap list_fmap joined] in E1, E2. rewrite E1, E2 in H. apply quoted_split in H as [-> ->].
    f_equal. destruct l1, l2; [done|by rewrite Hr1 in Hr2|by rewrite Hr1 in Hr2|].
    rewrite Hr1 in Hr2. injection Hr2 as Hr2. by apply IH.
Qed.

(** Two lists of kilometre markers never give one array literal, whatever quotes,
    backslashes and commas are in them. *)
Lemma km_array_inj l1 l2 : km_array l1 = km_array l2 -> l1 = l2.
Proof. unfold km_array, braced. cbn. intros [= H]. by apply joined_split. Qed.

(** ** The audit digest *)

Lemma no_bar_split a1 a2 r1 r2 (bar : Z) :
  bar ∉ a1 -> bar ∉ a2 -> a1 ++ bar :: r1 = a2 ++ bar :: r2 -> a1 = a2 /\ r1 = r2.
Proof.
  revert a2. induction a1 as [|x a1 IH]; intros [|y a2] H1 H2; cbn.
  - by intros [= ->].
  - intros [= <- _]. exfalso. apply H2. by left.
  - intros [= <- _]. exfalso. apply H1. by left.
  - intros [= -> H]. destruct (IH a2) as [-> ->]; [set_solver|set_solver|done|done].
Qed.

Lemma bytes_of_cons c s : bytes_of (String c s) = Z.of_N (N_of_ascii c) :: bytes_of s.
Proof. done. Qed.

Lemma bytes_of_app s1 s2 : bytes_of (s1 +:+ s2) = bytes_of s1 ++ bytes_of s2.
Proof.
  induction s1 as [|c s1 IH]; [done|].
  change (String c s1 +:+ s2) with (String c (s1 +:+ s2)). rewrite !bytes_of_cons, IH. done.
Qed.

Lemma bytes_of_inj s1 s2 : bytes_of s1 = bytes_of s2 -> s1 = s2.
Proof.
  revert s2. induction s1 as [|c1 s1 IH]; intros [|c2 s2]; rewrite ?bytes_of_cons; try done.
  intros [= Hc Hs]. rewrite (IH s2 Hs). f_equal.
  apply N2Z.inj, (f_equal ascii_of_N) in Hc. by rewrite !ascii_N_embedding in Hc.
Qed.

Definition bar : Z := 124.

(** A printed integer has no separator in it. *)
Lemma pretty_go_no_bar x s : bar ∉ bytes_of s -> bar ∉ bytes_of (pretty_N_go x s).
Proof.
  revert s. induction (N.lt_wf_0 x) as [x _ IH]. intros s Hs. destruct (decide (0 < x)%N) as [Hx|Hx].
  - rewrite pretty_N_go_step by done. apply IH; [apply N.div_lt; lia|]. rewrite bytes_of_cons.
    destruct (digit_char (x `mod` 10)) as (Hv & _); [apply N.mod_lt; lia|].
    pose proof (N.mod_lt x 10 ltac:(lia)). unfold digit_value, bar in *. apply not_elem_of_cons. split; [lia|done].
  - replace x with 0%N by lia. by rewrite pretty_N_go_0.
Qed.

Lemma to_string_no_bar n : bar ∉ bytes_of (to_string n).
Proof.
  unfold to_string. rewrite pretty_N_unfold. case_decide; [by vm_compute; set_solver|].
  apply pretty_go_no_bar. by apply not_elem_of_nil.
Qed.

Lemma int_to_string_no_bar n : bar ∉ bytes_of (int_to_string n).
Proof.
  unfold int_to_string. destruct (n <? 0); [|apply to_string_no_bar].
  rewrite bytes_of_app, not_elem_of_app. split; [by vm_compute; set_solver|apply to_string_no_bar].
Qed.

Lemma minus_no_number n s : to_string n <> ("-" +:+ s)%string.
Proof.
  destruct (to_string_head n) as (k & r & Hk & ->). destruct (digit_char k Hk) as (_ & _ & _ & Hm & _).
  cbn. by intros [=].
Qed.

Lemma int_to_string_inj n m : int_to_string n = int_to_string m -> n = m.
Proof.
  unfold int_to_string. destruct (Z.ltb_spec n 0) as [Hn|Hn], (Z.ltb_spec m 0) as [Hm|Hm]; intros E.
  - cbn in E. injection E as E. apply to_string_inj in E; lia.
  - symmetry in E. by apply minus_no_number in E.
  - by apply minus_no_number in E.
  - by apply to_string_inj.
Qed.

(** The digest of an event is taken of a text that tells its fields apart: two events
    of sessions without a separator in their identifier have the same text only if
    they agree in everything. *)
Lemma audit_input_inj sid1 sid2 e1 e2 t1 t2 p1 p2 :
  bar ∉ bytes_of sid1 -> bar ∉ bytes_of sid2 ->
  audit_input sid1 e1 t1 p1 = audit_input sid2 e2 t2 p2 -> sid1 = sid2 /\ e1 = e2 /\ t1 = t2 /\ p1 = p2.
Proof.
  intros H1 H2. unfold audit_input. rewrite !bytes_of_app. change (bytes_of "|") with [bar].
  rewrite <- !app_assoc. cbn [app]. intros E.
  apply no_bar_split in E as [Es E]; [|done|done].
  apply no_bar_split in E as [Ee E]; [|apply int_to_string_no_bar|apply int_to_string_no_bar].
  apply no_bar_split in E as [Et E]; [|apply int_to_string_no_bar|apply int_to_string_no_bar].
  apply bytes_of_inj in Es, Ee, Et. split_and!; [done|by apply int_to_string_inj|by apply int_to_string_inj|done].
Qed.

Section Texts.
Context {PS : PgServer}.

(** What the writer makes out of lists and events is unambiguous: different lists of
    kilometre markers give different array literals whatever quotes, backslashes,
    commas and braces they contain, and different events of sessions without a bar in
    their identifier are digested from different texts. *)
Theorem written_texts_inj :
  (forall l1 l2, km_array l1 = km_array l2 -> l1 = l2) /\
  (forall sid1 sid2 e1 e2 t1 t2 p1 p2, bar ∉ bytes_of sid1 -> bar ∉ bytes_of sid2 ->
     audit_input sid1 e1 t1 p1 = audit_input sid2 e2 t2 p2 -> sid1 = sid2 /\ e1 = e2 /\ t1 = t2 /\ p1 = p2).
Proof. split; [exact km_array_inj|exact audit_input_inj]. Qed.

(** Seeding copies every template of the day, once each. *)
Lemma seeded_templates now day w w' n :
  Pg.seed_edr_entries_for_operating_day now day w = (w', Ok n) ->
  exists rows, edr_entries (db w') = edr_entries (db w) ++ rows /\ n = Z.of_nat (length rows) /\
    Forall2 (fun e t => ee_train_number e = tt_train_number t /\ ee_station_uid e = tt_station_uid t /\
                        ee_scheduled_departure e = tt_scheduled_departure t /\ ee_status e = "PENDING"%string /\
                        ee_session_id e = session_uuid w)
            rows (List.filter (Pg.on_day day) (templates (db w))).
Proof.
  unfold Pg.seed_edr_entries_for_operating_day. destruct (_ || _); [done|]. intros H.
  apply transaction_ok in H as [_ H]. cbv beta zeta in H. split_ok H.
  injection H as Hd <-. rewrite <- Hd. cbn. eexists. split; [done|].
  generalize (next_id ee_id (edr_entries (db w))). generalize (List.filter (Pg.on_day day) (templates (db w))).
  intros l id. split.
  - f_equal. revert id. induction l as [|t l IH]; intros id; [done|]. cbn. by f_equal.
  - revert id. induction l as [|t l IH]; intros id; constructor; [done|apply IH].
Qed.
End Texts.

(** ** A concrete session *)

Module PgDemo.
Local Open Scope string_scope.

#[global] Instance server : PgServer := {|
  Interval := float; make_interval x := Some x; double_of_text s := f64_of_Z <$> stoull s;
  pg_text s := true; pg_jsonb s := negb (bool_decide (s = "")); sha256 l := [fold_right Z.add 0 l mod 256]%Z |}.

Definition fresh : PgDbWriter :=
  mkPgDbWriter "" true (mkDatabase [] [] [] [] [] [] [] [] [] []).
Definition event : DomainEventRow := mkDomainEventRow 3 7 1000 (Some 18446744073709551615) [1; 2]%Z.
Definition telegram : TelegramRow :=
  mkTelegramRow "S24" "exch-0000001" "IC 1" 10 11 "SENT" "PENDING" None ["12,3"; "a,b"] "{}" 5.

(** A timetable is set up, a session started and seeded for Tuesday; a train arrives
    and departs, and a late arrival report follows. *)
Definition day : list (Z * Call) :=
  [(1, UpsertTimetable "IC 1" 900 None (Some "60") "120" None "COMMERCIAL" [1; 2]);
   (2, UpsertTimetable "IC 1" 900 None (Some "60") "180" None "COMMERCIAL" [2]);
   (3, InitSession "s-1" "West" 1); (4, SeedEdrEntries 2); (5, WriteDomainEvent event);
   (6, WriteDispatchTelegram telegram); (7, UpdateArrival "IC 1" 900 61000000);
   (8, UpdateDeparture "IC 1" 900 182000000); (9, UpdateArrival "IC 1" 900 999000000);
   (10, AssignOperatingPoint "op-1" "West" "client-a"); (11, ReleaseOperatingPoint "op-1" "client-a");
   (12, SaveSnapshot 7 1000 [9]); (13, AppendChatMessage "p1" "BROADCAST" None "hello" 1);
   (14, UpsertTrackState 5 "[]"); (15, UpsertTrackState 5 "[1]")]%Z.

Example day_runs :
  (fun e => (ee_status e, ee_actual_arrival e, ee_actual_departure e)) <$> edr_entries (db (calls day fresh)) =
    [("DEPARTED", Some (f64_of_Z 61), Some (f64_of_Z 182))] /\
  ts_trains <$> track_state (db (calls day fresh)) = ["[1]"] /\
  (fun t => (tt_id t, tt_operating_days t)) <$> templates (db (calls day fresh)) = [(1, [2])]%Z /\
  as_released_at <$> assignments (db (calls day fresh)) = [Some 11%Z].
Proof. by vm_compute. Qed.

(** Before [init_session] nothing can be written, and a journal entry of an unknown
    type is refused by the schema. *)
Example refused_statements :
  (call 1 (WriteDomainEvent event) fresh).2 = Throw sql_exception /\
  (call 1 (SeedEdrEntries 8) fresh).2 = Throw (runtime_error "[PgDbWriter] invalid ISO weekday; expected 1..7") /\
  let journal_row type := mkEdrJournalEntryRow "op-1" 900 "1" type None None None None None None None "" None 5 in
  (call 20 (AppendJournalEntry (journal_row "CHAT")) (calls day fresh)).2 = Throw sql_exception /\
  (call 20 (AppendJournalEntry (journal_row "NOTE")) (calls day fresh)).2 = Ok tt.
Proof. by vm_compute. Qed.

(** The digest has separators the schema does not speak of, and markers are escaped. *)
Example texts :
  audit_input "s-1" 7 1000 [1; 2]%Z = (bytes_of "s-1|7|1000|" ++ [1; 2]%Z)%list /\
  pg_smallint_array_literal [1; -2; 30]%Z = "{1,-2,30}" /\ hex [0; 171; 16]%Z = "00ab10".
Proof. by vm_compute. Qed.

(** The same session with an entry of the journal that is later corrected, after the timetable
    was set up. *)
Definition note : EdrJournalEntryRow :=
  mkEdrJournalEntryRow "op-1" 900 "1" "NOTE" None None None (Some "60") None None (Some "70") "text" (Some "why") 5.
Definition set_up : PgDbWriter := calls (take 2 day) fresh.
Definition session : list (Z * Call) :=
  (drop 3 day ++ [(16, AppendJournalEntry note); (17, UpdateJournalStatus 1 "CORRECTED" None)])%Z%list.
Definition finished : PgDbWriter := default fresh (all_ok ((3%Z, InitSession "s-1" "West" 1) :: session) set_up).
Definition recorded : NullDbWriter := fold_left (fun n c => null_call c.2 n) session NullDbWriter_empty.

Lemma pg_refines_null_witness :
  stores_all "s-1" (db finished) recorded /\ others_kept "s-1" (db set_up) (db finished) /\
  written_events recorded = [event] /\ length (events (db finished)) = 1%nat /\
  (fun e => (je_status e, je_notes e)) <$> journal (db finished) = [("CORRECTED", Some "why")].
Proof.
  cut (stores_all "s-1" (db finished) recorded /\ others_kept "s-1" (db set_up) (db finished));
    [intros [? ?]; split_and!; [done..|by vm_compute|by vm_compute|by vm_compute]|].
  apply (pg_refines_null 3 "s-1" "West" 1 session set_up finished).
  - by repeat constructor.
  - by repeat constructor.
  - assert (match all_ok ((3%Z, InitSession "s-1" "West" 1) :: session) set_up with
            | Some _ => true | None => false end = true) as E by by vm_compute.
    unfold finished. by destruct (all_ok _ set_up).
Defined.
End PgDemo.
