(* ===== verification/FleetDisk.v ===== *)
(** * FleetDisk: one data root, read by the engine and by the tools

    [engine/src/fleet_registry.cpp] on the disk the tools write: the files each loader
    of the registry collects, and the load of a whole data root.  The theorems are
    about both programs: what the engine loads is what the tools show, and a consist
    saved in the editor is one the engine loads. *)
From S2P Require Import Prelude Float32 Types TrainSim Text Json Paths UidTools FleetFiles Persistence FleetRegistry FleetEditor.
From stdpp Require Import sorting.
From Stdlib Require Import SpecFloat.
Local Open Scope Z_scope.

(** ** Collecting files *)

Module RegistryFiles.
Section Files.
Context {JL : JsonLib} {JT : JsonText}.

(* SRC engine/src/fleet_registry.cpp 25-28 is_json_file *)
Definition is_json_file (d : Disk j_text) (p : Path) : bool :=
  is_file d p && bool_decide (extension p = ".json"%string).

(** The condition of the loop of [collect_vehicle_files]. *)
(* SRC engine/src/fleet_registry.cpp 62-63 collect_vehicle_files *)
Definition is_vehicle_file (d : Disk j_text) (p : Path) : bool :=
  is_file d p && bool_decide (filename p = "vehicle.json"%string).

(** What [parse_json_file] finds at [p]. *)
(* SRC engine/src/fleet_registry.cpp 75-88 parse_json_file *)
Definition content (d : Disk j_text) (p : Path) : FileContent :=
  match JsonLoader.input d p with
  | None => FleetRegistry.Unreadable
  | Some t => match j_parse t with inl what => Unparsable what | inr j => Parsed j end
  end.

(** The first element of [relative(file.parent_path(), root)], [None] for the root itself. *)
(* SRC engine/src/fleet_registry.cpp 260-266 category_from_folder *)
Definition folder (root p : Path) : option string := parent_path p !! length root.

Definition file_of (d : Disk j_text) (root p : Path) : File :=
  mkFile (path_string p) (folder root p) (content d p).

(** The files below [root] that satisfy [test], sorted. *)
Definition listing (test : Disk j_text -> Path -> bool) (d : Disk j_text) (root : Path) : list File :=
  file_of d root <$> sorted_paths (filter (fun p => test d p) (files_below d root)).

(** [recursive_directory_iterator] throws on what is no directory. *)
Definition collected (test : Disk j_text -> Path -> bool) (d : Disk j_text) (root : Path) : result Directory :=
  if negb (exists_path d root) then Ok None
  else if is_directory d root then Ok (Some (listing test d root))
  else Throw (filesystem_error (path_string root)).

Definition carriers_path (data_root : Path) : Path := path_div (path_div data_root "carriers") "carriers.json".

(** [load_carriers_] on the disk: the file is optional. *)
(* SRC engine/src/fleet_registry.cpp 704-707 FleetRegistry::load_carriers_ *)
Definition carriers_file (d : Disk j_text) (data_root : Path) : option File :=
  if exists_path d (carriers_path data_root)
  then Some (file_of d (parent_path (carriers_path data_root)) (carriers_path data_root)) else None.

(* SRC engine/src/fleet_registry.cpp 337-348 FleetRegistry::load *)
Definition load (data_root : Path) (d : Disk j_text) : result FleetRegistry :=
  let types_dir := path_div data_root "vehicle-types" in
  let vehicles_dir := path_div data_root "vehicles" in
  let trains_dir := path_div data_root "trains" in
  files ← collected is_json_file d types_dir; types ← load_types (path_string types_dir) files ∅;
  files ← collected is_vehicle_file d vehicles_dir;
  vehicles ← load_vehicles types (path_string vehicles_dir) files ∅;
  carriers ← load_carriers (carriers_file d data_root) ∅;
  files ← collected is_json_file d trains_dir;
  consists ← load_consists vehicles carriers (path_string trains_dir) files ∅;
  Ok (mkFleetRegistry types vehicles consists carriers).
End Files.
End RegistryFiles.
Import RegistryFiles.

(** ** Directories of records *)

Section Keyed.
Context {JL : JsonLib} {A : Type} (parse : File -> result A) (key : A -> UID).

(** The files of a directory parse to records with different keys: [m]. *)
Definition keyed (files : list File) (m : gmap UID A) : Prop :=
  exists xs, Forall2 (fun f x => parse f = Ok x) files xs /\ NoDup (key <$> xs) /\
    m = list_to_map ((fun x => (key x, x)) <$> xs).

Lemma keyed_loop what files m :
  for_each (fun m f => x ← parse f; emplace_new what (key x) x (fl_path f) m) files ∅ = Ok m <->
  keyed files m.
Proof.
  rewrite for_each_emplace. split.
  - intros (xs & Hp & Hnd & _ & ->). exists xs. by rewrite (right_id_L ∅ (∪)).
  - intros (xs & Hp & Hnd & ->). exists xs. rewrite (right_id_L ∅ (∪)). split_and!; try done.
    apply Forall_forall. intros x _. apply lookup_empty.
Qed.

Lemma keyed_perm files files' m : files ≡ₚ files' -> keyed files m -> keyed files' m.
Proof.
  intros Hperm (xs & Hp & Hnd & ->). destruct (Permutation_Forall2 Hperm Hp) as (xs' & Hx & Hp').
  exists xs'. rewrite Hx in Hnd. split_and!; [done|done|]. apply list_to_map_proper.
  - rewrite <- list_fmap_compose. change (NoDup (key <$> xs)). by rewrite Hx.
  - by rewrite Hx.
Qed.

Lemma keyed_nodup (xs : list A) : NoDup (key <$> xs) -> NoDup ((fun x => (key x, x)) <$> xs).*1.
Proof. by rewrite <- list_fmap_compose. Qed.

Lemma keyed_in files m f : keyed files m -> f ∈ files -> exists x, parse f = Ok x /\ m !! key x = Some x.
Proof.
  intros (xs & Hp & Hnd & ->) Hf. apply list_elem_of_lookup in Hf as [i Hi].
  destruct (Forall2_lookup_l _ _ _ _ _ Hp Hi) as (x & Hxi & Hx). exists x. split; [done|].
  apply elem_of_list_to_map_1; [by apply keyed_nodup|]. apply list_elem_of_fmap. exists x. split; [done|].
  by eapply list_elem_of_lookup_2.
Qed.

Lemma keyed_lookup files m u x :
  keyed files m -> m !! u = Some x -> key x = u /\ exists f, f ∈ files /\ parse f = Ok x.
Proof.
  intros (xs & Hp & Hnd & ->) (y & [= -> ->] & Hy)%elem_of_list_to_map_2%list_elem_of_fmap. split; [done|].
  destruct (Forall2_in _ _ _ _ Hp Hy) as (f & ? & ?). by exists f.
Qed.

Lemma keyed_cons f x files m :
  parse f = Ok x -> m !! key x = None -> keyed files m -> keyed (f :: files) (<[key x := x]> m).
Proof.
  intros Hx Hm (xs & Hp & Hnd & ->). exists (x :: xs). split_and!; [by constructor| |done].
  cbn. constructor; [|done]. intros (y & Hy & Hin)%list_elem_of_fmap.
  apply not_elem_of_list_to_map_2 in Hm. apply Hm. rewrite <- list_fmap_compose. apply list_elem_of_fmap.
  by exists y.
Qed.
End Keyed.

(** ** What a load finds *)

Section LoadSpec.
Context {JL : JsonLib} {JT : JsonText}.

Definition types_at (root : Path) (d : Disk j_text) : list File :=
  listing is_json_file d (path_div root "vehicle-types").
Definition vehicles_at (root : Path) (d : Disk j_text) : list File :=
  listing is_vehicle_file d (path_div root "vehicles").
Definition trains_at (root : Path) (d : Disk j_text) : list File :=
  listing is_json_file d (path_div root "trains").

(** What a loaded registry is to hold. *)
Record root_holds (root : Path) (d : Disk j_text) (r : FleetRegistry) : Prop := {
  rh_types_dir : is_directory d (path_div root "vehicle-types") = true;
  rh_vehicles_dir : is_directory d (path_div root "vehicles") = true;
  rh_trains_dir : is_directory d (path_div root "trains") = true;
  rh_types : keyed parse_type_file vt_uid (types_at root d) (types_ r);
  rh_vehicles : keyed (parse_vehicle_file (types_ r)) veh_uid (vehicles_at root d) (vehicles_ r);
  rh_carriers : load_carriers (carriers_file d root) ∅ = Ok (carriers_ r);
  rh_trains : keyed (parse_consist_file (vehicles_ r) (carriers_ r)) con_uid (trains_at root d) (consists_ r) }.

Lemma collected_some test d root files :
  collected test d root = Ok (Some files) <-> is_directory d root = true /\ files = listing test d root.
Proof.
  unfold collected, exists_path. destruct (is_directory d root); cbn; [naive_solver|].
  destruct (is_file d root); cbn; naive_solver.
Qed.

Lemma load_holds root d r : RegistryFiles.load root d = Ok r <-> root_holds root d r.
Proof.
  unfold RegistryFiles.load. split.
  - intros H. split_ok H. injection H as <-.
    repeat match goal with
    | E : load_types _ _ _ = Ok _ |- _ => apply load_types_loop in E as (? & -> & E%keyed_loop)
    | E : load_vehicles _ _ _ _ = Ok _ |- _ => apply load_vehicles_loop in E as (? & -> & E%keyed_loop)
    | E : load_consists _ _ _ _ _ = Ok _ |- _ => apply load_consists_loop in E as (? & -> & E%keyed_loop)
    | E : collected _ _ _ = Ok (Some _) |- _ => apply collected_some in E as [E ->]
    end. done.
  - intros []. destruct r as [types vehicles consists carriers]. cbn [types_ vehicles_ consists_ carriers_] in *. cbv zeta.
    rewrite (proj2 (collected_some is_json_file d (path_div root "vehicle-types") (types_at root d))) by by split. cbn [mbind result_bind].
    rewrite (proj2 (load_types_loop _ _ _ types)) by (eexists; split; [done|]; by apply keyed_loop). cbn [mbind result_bind].
    rewrite (proj2 (collected_some is_vehicle_file d (path_div root "vehicles") (vehicles_at root d))) by by split. cbn [mbind result_bind].
    rewrite (proj2 (load_vehicles_loop types _ _ _ vehicles)) by (eexists; split; [done|]; by apply keyed_loop). cbn [mbind result_bind].
    rewrite rh_carriers0. cbn [mbind result_bind].
    rewrite (proj2 (collected_some is_json_file d (path_div root "trains") (trains_at root d))) by by split. cbn [mbind result_bind].
    by rewrite (proj2 (load_consists_loop vehicles carriers _ _ _ consists)) by (eexists; split; [done|]; by apply keyed_loop).
Qed.

(** The paths of a listing. *)
Definition listed (test : Disk j_text -> Path -> bool) (d : Disk j_text) (root p : Path) : Prop :=
  is_Some (dk_files d !! p) /\ below root p = true /\ test d p = true.

Lemma elem_of_listing test d root f :
  f ∈ listing test d root <-> exists p, f = file_of d root p /\ listed test d root p.
Proof.
  unfold listing, listed. rewrite list_elem_of_fmap. f_equiv. intros p.
  rewrite elem_of_sorted_paths, list_elem_of_filter, elem_of_files_below, Is_true_true. tauto.
Qed.
End LoadSpec.

(** ** Writing one file of a directory *)

Lemma path_div_name p name : name <> ""%string -> path_div p name = p ++ [name].
Proof. intros H. unfold path_div. by rewrite bool_decide_false. Qed.

Lemma below_div root name p :
  name <> ""%string -> below (path_div root name) p = true ->
  take (length root) p = root /\ p !! length root = Some name /\ (S (length root) < length p)%nat.
Proof.
  intros Hn (Ht & Hl)%bool_decide_eq_true. rewrite path_div_name in Ht, Hl by done.
  rewrite length_app in Ht, Hl. cbn in Ht, Hl. split_and!; [| |lia].
  - apply (f_equal (take (length root))) in Ht. rewrite take_take, take_app_length, Nat.min_l in Ht by lia. done.
  - rewrite <- (take_drop (length root + 1) p), Ht. rewrite <- app_assoc. by apply list_lookup_middle.
Qed.

(** A file of one directory of a root is not in another. *)
Lemma below_other root n1 n2 p :
  n1 <> ""%string -> n2 <> ""%string -> n1 <> n2 -> below (path_div root n1) p = true ->
  below (path_div root n2) p = false.
Proof.
  intros H1 H2 Hne Hb. destruct (below (path_div root n2) p) eqn:E; [|done].
  apply below_div in Hb as (_ & Hb & _); [|done]. apply below_div in E as (_ & E & _); [|done]. congruence.
Qed.

Section Writes.
Context {JL : JsonLib} {JT : JsonText} (d d' : Disk j_text) (file : Path) (b : FileBody j_text)
  (Hfiles : dk_files d' = <[file := b]> (dk_files d)) (Hdirs : dk_dirs d ⊆ dk_dirs d').

Lemma is_file_frame p : p <> file -> is_file d' p = is_file d p.
Proof. intros Hne. unfold is_file. by rewrite Hfiles, lookup_insert_ne. Qed.

Lemma content_frame p : p <> file -> is_Some (dk_files d !! p) -> content d' p = content d p.
Proof. intros Hne [x Hx]. unfold content, JsonLoader.input. by rewrite Hfiles, lookup_insert_ne, Hx. Qed.

Lemma is_directory_mono p : is_directory d p = true -> is_directory d' p = true.
Proof. unfold is_directory. rewrite !bool_decide_eq_true. apply Hdirs. Qed.

(** A test that looks at one file. *)
Definition local_test (test : Disk j_text -> Path -> bool) : Prop :=
  forall d1 d2 p, is_file d1 p = is_file d2 p -> test d1 p = test d2 p.

Lemma listed_frame test root p :
  local_test test -> p <> file -> listed test d' root p <-> listed test d root p.
Proof.
  intros Ht Hne. unfold listed. rewrite (Ht d' d) by by apply is_file_frame. by rewrite Hfiles, lookup_insert_ne.
Qed.

Lemma listing_of test root (l : list Path) :
  NoDup l -> (forall p, p ∈ l <-> listed test d' root p) -> listing test d' root ≡ₚ file_of d' root <$> l.
Proof.
  intros Hnd Hl. unfold listing. apply fmap_Permutation, NoDup_Permutation; [|done|].
  - rewrite sorted_paths_perm. apply NoDup_filter, files_below_nodup.
  - intros p. rewrite Hl, elem_of_sorted_paths, list_elem_of_filter, elem_of_files_below, Is_true_true.
    unfold listed. tauto.
Qed.

Definition paths (test : Disk j_text -> Path -> bool) root : list Path := sorted_paths (filter (fun p => test d p) (files_below d root)).

Lemma elem_of_paths test root p : p ∈ paths test root <-> listed test d root p.
Proof.
  unfold paths, listed. rewrite elem_of_sorted_paths, list_elem_of_filter, elem_of_files_below, Is_true_true. tauto.
Qed.

Lemma paths_nodup test root : NoDup (paths test root).
Proof. unfold paths. rewrite sorted_paths_perm. apply NoDup_filter, files_below_nodup. Qed.

Lemma files_of_paths test root :
  file ∉ paths test root -> file_of d' root <$> paths test root = listing test d root.
Proof.
  intros Hnot. apply list_fmap_ext. intros i p Hp%list_elem_of_lookup_2. unfold file_of. f_equal.
  apply content_frame; [by intros ->|]. by apply elem_of_paths in Hp as (? & _).
Qed.

(** Another directory is listed as before ... *)
Lemma listing_frame test root :
  local_test test -> below root file = false -> listing test d' root ≡ₚ listing test d root.
Proof.
  intros Ht Hb. rewrite <- (files_of_paths test root).
  - apply listing_of; [apply paths_nodup|]. intros p. rewrite elem_of_paths. split.
    + intros Hp. apply listed_frame; [done| |done]. intros ->. destruct Hp as (_ & Hp & _). congruence.
    + intros Hp. apply listed_frame; [done| |done]. intros ->. destruct Hp as (_ & Hp & _). congruence.
  - rewrite elem_of_paths. intros (_ & ? & _). congruence.
Qed.

(** ... and a new file adds itself to the directory it is in. *)
Lemma listing_new test root :
  local_test test -> dk_files d !! file = None -> below root file = true -> test d' file = true ->
  listing test d' root ≡ₚ file_of d' root file :: listing test d root.
Proof.
  intros Ht Hno Hb Htest.
  assert (file ∉ paths test root) as Hnot.
  { rewrite elem_of_paths. intros ([? ?] & _). congruence. }
  rewrite <- (files_of_paths test root) by done.
  apply (listing_of test root (file :: paths test root)); [by constructor; [|apply paths_nodup]|]. intros p. rewrite elem_of_cons, elem_of_paths. split.
  - intros [->|Hp].
    + unfold listed. rewrite Hfiles, lookup_insert_eq. by split; [eexists|].
    + apply listed_frame; [done| |done]. intros ->. by apply Hnot, elem_of_paths.
  - intros Hp. destruct (decide (p = file)) as [->|Hne]; [by left|right]. by apply listed_frame in Hp.
Qed.
End Writes.

Lemma is_json_file_local {JL : JsonLib} {JT : JsonText} : local_test is_json_file.
Proof. intros d1 d2 p H. unfold is_json_file. by rewrite H. Qed.
Lemma is_vehicle_file_local {JL : JsonLib} {JT : JsonText} : local_test is_vehicle_file.
Proof. intros d1 d2 p H. unfold is_vehicle_file. by rewrite H. Qed.

(** ** Two readers of one document *)

Section Agree.
Context {JL : JsonLib} {JT : JsonText}.

Lemma require_uid_reads j key p u :
  require_uid j key p = Ok u <->
  uid_is_safe_json_integer u = true /\
  exists v, j_find j key = Some v /\ is_number_unsigned v = true /\ get_u64 v = Some (value u).
Proof.
  unfold require_uid, j_at. rewrite bind_ok. setoid_rewrite throw_if_ok. setoid_rewrite lacks_false. split.
  - intros ([] & (v & Hv & Ht) & H). rewrite Hv in H. cbn in H. split_ok H. injection H as <-.
    split; [by apply negb_false_iff|]. exists v. split_and!; [done|done|]. by eapply get_ok.
  - intros (Hs & v & Hv & Ht & Hg). exists tt. split; [by exists v|]. rewrite Hv. cbn. rewrite Hg. cbn.
    replace (mkUID (value u)) with u by by destruct u. by rewrite Hs.
Qed.

Lemma requireUid_reads j key path u :
  JsonLoader.requireUid j path key = Ok u <->
  JsonLoader.not_persistable u = false /\
  exists v, j_find j key = Some v /\ is_number_unsigned v = true /\ get_u64 v = Some (value u).
Proof.
  unfold JsonLoader.requireUid, j_at. rewrite bind_ok. setoid_rewrite throw_if_ok. setoid_rewrite lacks_false. split.
  - intros ([] & (v & Hv & Ht) & H). rewrite Hv in H. cbn [get mbind result_bind] in H. split_ok H. injection H as <-.
    split; [done|]. exists v. split_and!; [done|done|]. by eapply get_ok.
  - intros (Hs & v & Hv & Ht & Hg). exists tt. split; [by exists v|]. rewrite Hv. cbn [get mbind result_bind]. rewrite Hg.
    cbn [get mbind result_bind]. replace (mkUID (value u)) with u by by destruct u. by rewrite Hs.
Qed.

(** The engine accepts the identifier 0, the tools do not; nothing else differs. *)
Lemma uid_readers_agree j key path p u :
  JsonLoader.requireUid j path key = Ok u <-> require_uid j key p = Ok u /\ value u <> 0.
Proof.
  rewrite requireUid_reads, require_uid_reads. unfold JsonLoader.not_persistable.
  rewrite orb_false_iff, negb_false_iff, Z.eqb_neq. tauto.
Qed.

Lemma string_readers_agree j key path p s :
  JsonLoader.requireString j path key = Ok s <-> require_string j key p = Ok s.
Proof.
  unfold JsonLoader.requireString, require_string. by destruct (lacks is_string j key).
Qed.

Lemma require_uid_fits j key p u : require_uid j key p = Ok u -> uid_u64 u.
Proof. intros (_ & v & _ & (n & Hg & Hn)%unsigned_gettable & Hu)%require_uid_reads. by simplify_eq. Qed.

Lemma content_parsed d root p j : parse_json_file (file_of d root p) = Ok j <-> content d p = Parsed j.
Proof. unfold parse_json_file, file_of. cbn. destruct (content d p); naive_solver. Qed.

Lemma tool_parsed d p j :
  JsonLoader.parseJsonFile d p = Ok j <-> content d p = Parsed j /\ is_object j = true.
Proof.
  unfold JsonLoader.parseJsonFile, content. destruct (JsonLoader.input d p) as [t|]; cbn; [|naive_solver].
  destruct (j_parse t) as [what|document]; [naive_solver|]. destruct (is_object document) eqn:E; cbn.
  - split; [by intros [= <-]|by intros [[= <-] _]].
  - split; [done|]. intros [[= <-] Ho]. congruence.
Qed.

(** *** Vehicles *)

Lemma parse_vehicle_reads types j path v :
  parse_vehicle types j path = Ok v ->
  require_uid j "uid" path = Ok (veh_uid v) /\ require_string j "pID" path = Ok (veh_pid v) /\
  require_uid j "type_uid" path = Ok (veh_type_uid v) /\
  require_string j "displayName" path = Ok (veh_display_name v).
Proof. unfold parse_vehicle. intros H. split_ok H. injection H as <-. done. Qed.

(** A vehicle both programs read is the same vehicle. *)
Lemma vehicle_readers_agree types d root p v w :
  JsonLoader.loadVehicle d p = Ok v -> parse_vehicle_file types (file_of d root p) = Ok w ->
  veh_uid w = FleetData.v_uid v /\ veh_type_uid w = FleetData.v_type_uid v /\ veh_pid w = FleetData.v_pid v /\
  veh_display_name w = FleetData.v_display_name v.
Proof.
  unfold JsonLoader.loadVehicle, parse_vehicle_file.
  intros (j & [Hj _]%tool_parsed & Hv)%bind_ok (j' & Hj'%content_parsed & Hw)%bind_ok.
  assert (j' = j) as -> by congruence. apply parse_vehicle_reads in Hw as (W1 & W2 & W3 & W4).
  unfold JsonLoader.parseVehicle in Hv. split_ok Hv. injection Hv as <-. cbn.
  repeat match goal with
  | E : JsonLoader.requireUid j p ?key = Ok _ |- _ => apply (uid_readers_agree j key p (fl_path (file_of d root p))) in E as [E _]
  | E : JsonLoader.requireString j p ?key = Ok _ |- _ => apply (string_readers_agree j key p (fl_path (file_of d root p))) in E
  end.
  split_and!; congruence.
Qed.

(** *** Consists *)

(** The part of a consist that its document states. *)
Definition head (c : TrainConsist) : UID * string * string * TrainCategory.t * option UID :=
  (con_uid c, con_pid c, con_display_name c, con_train_category c, con_carrier_id c).

Lemma add_locomotives_head locos c :
  head (add_locomotives locos c) = head c /\ con_vehicle_uids (add_locomotives locos c) = con_vehicle_uids c.
Proof.
  assert (forall vs c, head (fold_left (fun c v => add_traction v c) vs c) = head c /\
    con_vehicle_uids (fold_left (fun c v => add_traction v c) vs c) = con_vehicle_uids c) as H.
  { intros vs. induction vs as [|v vs IH]; intros c'; [done|]. cbn [fold_left].
    destruct (IH (add_traction v c')) as [-> ->]. done. }
  unfold add_locomotives. destruct locos as [|v [|w vs]]; [done|done|]. case_match; [apply H|done].
Qed.

Lemma finish_consist_head s :
  head (finish_consist s) = head (cs_consist s) /\
  con_vehicle_uids (finish_consist s) = con_vehicle_uids (cs_consist s).
Proof. unfold finish_consist. cbn zeta. by destruct (SpecFloat.SFeqb _ _). Qed.

(** An entry of [vehicle_uids] and the vehicle it names. *)
Definition names_vehicle (vehicles : gmap UID Vehicle) (item : json) (u : UID) : Prop :=
  is_number_unsigned item = true /\ get_u64 item = Some (value u) /\ is_Some (vehicles !! u).

Lemma consist_entry_reads vehicles path s item s' :
  consist_entry vehicles path s item = Ok s' ->
  exists u, names_vehicle vehicles item u /\ head (cs_consist s') = head (cs_consist s) /\
    con_vehicle_uids (cs_consist s') = con_vehicle_uids (cs_consist s) ++ [u].
Proof.
  unfold consist_entry. intros H. split_ok H. injection H as <-.
  match goal with E : get _ (get_u64 item) = Ok ?n |- _ => apply get_ok in E; exists (mkUID n) end.
  split; [split_and!; [by apply negb_false_iff|done|]|].
  - eexists. by eapply get_ok.
  - unfold add_vehicle. cbn [cs_consist]. by case_match.
Qed.

Lemma consist_entry_ok_iff vehicles path s item u :
  names_vehicle vehicles item u -> is_ok (consist_entry vehicles path s item) = true.
Proof.
  intros (Hn & Hg & v & Hv). unfold consist_entry. rewrite Hn, Hg. cbn.
  replace (mkUID (value u)) with u by by destruct u. by rewrite Hv.
Qed.

(** The loop over the entries succeeds exactly if each names a vehicle. *)
Lemma consist_entries_read vehicles path items s s' :
  for_each (consist_entry vehicles path) items s = Ok s' ->
  exists us, Forall2 (names_vehicle vehicles) items us /\ head (cs_consist s') = head (cs_consist s) /\
    con_vehicle_uids (cs_consist s') = con_vehicle_uids (cs_consist s) ++ us.
Proof.
  revert s. induction items as [|item items IH]; intros s; cbn [for_each].
  - intros [= ->]. exists []. by rewrite app_nil_r.
  - intros (s1 & (u & Hu & Hh & Hv)%consist_entry_reads & (us & Hus & Hh' & Hv')%IH)%bind_ok.
    exists (u :: us). rewrite Hh', Hv', Hh, Hv, <- app_assoc. split_and!; [by constructor|done|done].
Qed.

Lemma consist_entries_succeed vehicles path items us s :
  Forall2 (names_vehicle vehicles) items us ->
  exists s', for_each (consist_entry vehicles path) items s = Ok s'.
Proof.
  intros H. revert s. induction H as [|item u items us Hu _ IH]; intros s; [by exists s|]. cbn [for_each].
  pose proof (consist_entry_ok_iff vehicles path s item u Hu) as Hok.
  destruct (consist_entry vehicles path s item) as [s1|]; [apply IH|done].
Qed.

(** The carrier of a document: none, or one of the registry, of the right kind. *)
Definition carrier_ok (carriers : gmap UID Carrier) (u : UID) : Prop :=
  uid_has_kind u UIDDomain.ROLLING_STOCK UIDKind.CARRIER = true /\ is_Some (carriers !! u).

Lemma parse_carrier_id_reads carriers j path o :
  parse_carrier_id carriers j path = Ok o <->
  if absent j "carrierId" then o = None
  else exists u, o = Some u /\ require_uid j "carrierId" path = Ok u /\ carrier_ok carriers u.
Proof.
  unfold parse_carrier_id. destruct (absent j "carrierId"); [naive_solver|]. split.
  - intros H. split_ok H. injection H as <-. eexists. split_and!; [done|done|]. split; [by apply negb_false_iff|].
    rewrite bool_decide_eq_false in *. by apply not_eq_None_Some.
  - intros (u & -> & -> & Hk & Hs). cbn. rewrite Hk. cbn. rewrite bool_decide_false by by apply not_eq_None_Some. done.
Qed.

(** The category of a folder, if it has one, is that of its trains. *)
Definition folder_agrees (f : File) (c : TrainCategory.t) : Prop :=
  from_option (fun folder_category => folder_category = c) True (category_from_folder f).

(** What the engine demands of the document of a consist. *)
Record accepts (vehicles : gmap UID Vehicle) (carriers : gmap UID Carrier) (f : File) (j : json)
    (u : UID) (pid name : string) (category : TrainCategory.t) (carrier : option UID) (us : list UID) : Prop := {
  ac_uid : require_uid j "uid" (fl_path f) = Ok u;
  ac_pid : require_string j "pID" (fl_path f) = Ok pid;
  ac_name : require_string j "displayName" (fl_path f) = Ok name;
  ac_category : exists text, require_string j "trainCategory" (fl_path f) = Ok text /\
                  parse_train_category text (fl_path f) = Ok category;
  ac_deprecated : absent j "carrier" = true;
  ac_carrier : parse_carrier_id carriers j (fl_path f) = Ok carrier;
  ac_folder : folder_agrees f category;
  ac_vehicles : exists v, j_find j "vehicle_uids" = Some v /\ is_array v = true /\
                  Forall2 (names_vehicle vehicles) (j_items v) us;
  ac_some : us <> [] }.

Lemma folder_test f c :
  match category_from_folder f with Some c' => negb (bool_decide (c' = c)) | None => false end = false <->
  folder_agrees f c.
Proof.
  unfold folder_agrees. destruct (category_from_folder f) as [c'|]; cbn; [|done].
  by rewrite negb_false_iff, bool_decide_eq_true.
Qed.

Lemma parse_consist_accepts vehicles carriers f j c :
  parse_consist vehicles carriers f j = Ok c ->
  accepts vehicles carriers f j (con_uid c) (con_pid c) (con_display_name c) (con_train_category c)
    (con_carrier_id c) (con_vehicle_uids c).
Proof.
  unfold parse_consist. intros H. split_ok H. injection H as <-.
  match goal with E : for_each _ _ _ = Ok ?s |- _ => apply consist_entries_read in E as (us & Hall & Hh & Hus) end.
  match goal with |- context [finish_consist ?s] => destruct (finish_consist_head s) as (Fh & Fu);
    generalize dependent (finish_consist s) end.
  cbn [cs_consist]. intros c Fh Fu.
  match type of Fh with _ = head (add_locomotives ?l ?c) => destruct (add_locomotives_head l c) as (Lh & Lu) end.
  rewrite Lh, Hh in Fh. rewrite Fu, Lu. cbn in Hus.
  match goal with E : bool_decide (con_vehicle_uids _ = []) = false |- _ =>
    apply bool_decide_eq_false in E; rewrite Lu, Hus in E end.
  match goal with E : lacks is_array _ _ = false, E' : j_at _ "vehicle_uids" = Ok _ |- _ =>
    apply lacks_false in E as (v & Hv & Ha); apply get_ok in E'; rewrite Hv in E'; injection E' as <- end.
  rewrite Hus. injection Fh as -> -> -> -> ->.
  constructor; try done; [by eexists|by apply negb_false_iff|by apply folder_test|by exists v].
Qed.

Lemma accepts_parse_consist vehicles carriers f j u pid name category carrier us :
  accepts vehicles carriers f j u pid name category carrier us ->
  exists c, parse_consist vehicles carriers f j = Ok c /\ head c = (u, pid, name, category, carrier) /\
    con_vehicle_uids c = us.
Proof.
  intros [Hu Hp Hn (text & Ht & Hc) Hd Hcar Hf%folder_test (v & Hv & Ha & Hall) Hne].
  unfold parse_consist. rewrite Hu. cbn. rewrite Hp. cbn. rewrite Hn. cbn. rewrite Ht. cbn. rewrite Hc. cbn.
  rewrite Hd. cbn. rewrite Hcar. cbn. unfold lacks, j_at. rewrite Hv, Ha. cbn. rewrite Hf. cbn.
  match goal with |- context [for_each _ _ ?s] =>
    destruct (consist_entries_succeed vehicles (fl_path f) (j_items v) us s Hall) as [s' Hs] end.
  rewrite Hs. cbn. apply consist_entries_read in Hs as (us' & Hall' & Hh & Hus). cbn in Hus.
  destruct (add_locomotives_head (cs_operational_locomotives s') (cs_consist s')) as (Lh & Lu).
  assert (us' = us) as ->.
  { eapply Forall2_unique; [exact Hall'|exact Hall|]. intros item u1 u2 (_ & H1 & _) (_ & H2 & _).
    destruct u1, u2. cbn in *. congruence. }
  rewrite Lu, Hus, bool_decide_false by done. cbn. eexists. split; [done|].
  match goal with |- context [finish_consist ?s] => destruct (finish_consist_head s) as (-> & ->) end.
  cbn [cs_consist]. by rewrite Lh, Lu, Hh, Hus.
Qed.
End Agree.

(** ** What the engine loads and what the tools show *)

Section Shown.
Context {JL : JsonLib} {JT : JsonText}.

Lemma in_listing test d root p : listed test d root p -> file_of d root p ∈ listing test d root.
Proof. intros H. apply elem_of_listing. by exists p. Qed.

(** The identifiers of the vehicles loaded are those of documents. *)
Lemma loaded_vehicle_uid root d r u :
  root_holds root d r -> is_Some (vehicles_ r !! u) -> uid_is_safe_json_integer u = true /\ uid_u64 u.
Proof.
  intros Hr [v Hv]. destruct (keyed_lookup _ _ _ _ _ _ (rh_vehicles _ _ _ Hr) Hv) as (<- & f & _ & Hf).
  unfold parse_vehicle_file in Hf. apply bind_ok in Hf as (j & _ & (Hu & _)%parse_vehicle_reads). split.
  - by apply require_uid_reads in Hu as [? _].
  - by eapply require_uid_fits.
Qed.

(** A data source of packages has the records of the files that load. *)
Definition packages_have {A : Type} (test : Disk j_text -> Path -> bool) (loader : Disk j_text -> Path -> result A)
    (d : Disk j_text) (dir : Path) (a : A) : Prop :=
  exists p, listed test d dir p /\ loader d p = Ok a.

Lemma packages_load {A} root directory (vehicle_files : bool) (loader : Disk j_text -> Path -> result A) d records a :
  (forall d p, throws_only load_failed (loader d p)) ->
  PackagesDataSource.load root directory vehicle_files loader d = Ok records ->
  a ∈ records <->
  packages_have (if vehicle_files then is_vehicle_file else is_json_file) loader d (path_div root directory) a.
Proof.
  intros Hl. unfold PackagesDataSource.load. intros ([] & _ & (files & Hf & H)%bind_ok)%bind_ok.
  unfold PackagesDataSource.collectFiles in Hf. apply bind_ok in Hf as ([] & _ & [= <-]).
  unfold PackagesDataSource.loadFiles in H. rewrite load_each_found in H.
  - injection H as <-. rewrite list_elem_of_omap. unfold packages_have. f_equiv. intros p.
    rewrite elem_of_sorted_paths, list_elem_of_filter, elem_of_files_below. unfold listed, found.
    assert (is_Some (dk_files d !! p) -> (if vehicle_files then is_vehicle_file else is_json_file) d p =
      if vehicle_files then bool_decide (filename p = "vehicle.json"%string) else bool_decide (extension p = ".json"%string)) as E.
    { intros Hs. destruct vehicle_files; unfold is_vehicle_file, is_json_file, is_file; by rewrite (bool_decide_true (is_Some _)). }
    destruct (loader d p) as [a'|e]; cbn; rewrite Is_true_true; naive_solver.
  - intros p. specialize (Hl d p). by destruct (loader d p).
Qed.

Lemma packages_data root d registry0 registry data :
  BrowserDataController.loadPackages root d registry0 = (registry, Ok data) ->
  (forall v, v ∈ BrowserDataController.vehicles data <->
     packages_have is_vehicle_file JsonLoader.loadVehicle d (path_div root "vehicles") v) /\
  (forall t, t ∈ BrowserDataController.trains data <->
     packages_have is_json_file JsonLoader.loadTrain d (path_div root "trains") t) /\
  registry = BrowserDataController.registry_of data.
Proof.
  unfold BrowserDataController.loadPackages, BrowserDataController.loadSource. intros H.
  destruct (mbind _ _) as [data'|e] eqn:E; [|done]. injection H as <- ->. cbn [validate loadVehicleTypes loadVehicles loadTrains PackagesDataSource.make] in E.
  apply bind_ok in E as ([] & _ & E). apply bind_ok in E as (types & _ & E). apply bind_ok in E as (vs & Hv & E).
  apply bind_ok in E as (ts & Ht & [= <-]). cbn [BrowserDataController.vehicles BrowserDataController.trains]. split_and!; [| |done].
  - intros v. apply (packages_load _ _ true _ _ _ _ (fun d p => loadVehicle_throws d p) Hv).
  - intros t. apply (packages_load _ _ false _ _ _ _ (fun d p => loadTrain_throws d p) Ht).
Qed.

(** A train of the tools and a consist of the engine that say the same. *)
Definition same_train (t : FleetData.Train) (c : TrainConsist) : Prop :=
  FleetData.t_uid t = con_uid c /\ FleetData.t_pid t = con_pid c /\
  FleetData.t_display_name t = con_display_name c /\ FleetData.t_carrier_id t = con_carrier_id c /\
  FleetData.t_vehicle_uids t = con_vehicle_uids c.
Definition same_vehicle (v : FleetData.Vehicle) (w : Vehicle) : Prop :=
  veh_uid w = FleetData.v_uid v /\ veh_type_uid w = FleetData.v_type_uid v /\
  veh_pid w = FleetData.v_pid v /\ veh_display_name w = FleetData.v_display_name v.

Lemma vehicle_uids_read path i items us vehicles :
  Forall2 (names_vehicle vehicles) items us -> Forall (fun u => JsonLoader.not_persistable u = false) us ->
  JsonLoader.vehicle_uids_from path i items = Ok us.
Proof.
  intros H. revert i. induction H as [|item u items us (Hn & Hg & _) _ IH]; intros i Hp; [done|].
  apply Forall_cons in Hp as [Hu Hp]. cbn. unfold JsonLoader.vehicle_uid_at. rewrite Hn. cbn. rewrite Hg. cbn.
  replace (mkUID (value u)) with u by by destruct u. by rewrite Hu, IH.
Qed.

Lemma uids_of_items path i items us :
  JsonLoader.vehicle_uids_from path i items = Ok us ->
  Forall2 (fun item u => get_u64 item = Some (value u)) items us.
Proof.
  revert i us. induction items as [|item items IH]; intros i us; cbn [JsonLoader.vehicle_uids_from].
  - intros [= <-]. constructor.
  - intros (u & Hu & (us' & Hus & [= <-])%bind_ok)%bind_ok. constructor; [|by eapply IH].
    unfold JsonLoader.vehicle_uid_at in Hu. split_ok Hu. injection Hu as <-. by eapply get_ok.
Qed.

Lemma carrier_nonzero u : uid_has_kind u UIDDomain.ROLLING_STOCK UIDKind.CARRIER = true -> value u <> 0.
Proof. destruct u as [n]. intros H E. cbn in E. by subst n. Qed.

(** A document the engine accepts is one the tools load, if no identifier is 0. *)
Lemma accepted_train_loads vehicles carriers d root p j c :
  content d p = Parsed j -> parse_consist vehicles carriers (file_of d root p) j = Ok c -> value (con_uid c) <> 0 ->
  (forall u, is_Some (vehicles !! u) -> JsonLoader.not_persistable u = false) ->
  exists t, JsonLoader.loadTrain d p = Ok t /\ same_train t c.
Proof.
  intros Hj H Hnz Hsafe. apply parse_consist_accepts in H as
    [Hu Hp Hn (text & Ht & _) _ Hcar%parse_carrier_id_reads _ (v & Hv & Ha & Hall) _].
  eexists. split; [unfold JsonLoader.loadTrain|].
  - rewrite (proj2 (tool_parsed d p j)) by (split; [done|]; apply (object_findable j "vehicle_uids"); by eexists).
    cbn. unfold JsonLoader.parseTrain. rewrite (proj2 (uid_readers_agree _ _ _ _ _)) by by split. cbn.
    rewrite (proj2 (string_readers_agree j "pID" p _ _) Hp). cbn.
    rewrite (proj2 (string_readers_agree j "displayName" p _ _) Hn). cbn.
    rewrite (proj2 (string_readers_agree j "trainCategory" p _ _) Ht). cbn.
    assert (JsonLoader.optionalUid j p "carrierId" = Ok (con_carrier_id c)) as ->.
    { unfold JsonLoader.optionalUid. destruct (absent j "carrierId"); [by rewrite Hcar|].
      destruct Hcar as (k & -> & Hk & Hkind & _).
      rewrite (proj2 (uid_readers_agree j "carrierId" p (fl_path (file_of d root p)) k)); [done|].
      split; [done|by apply carrier_nonzero]. }
    cbn. unfold lacks, j_at. rewrite Hv, Ha. cbn. rewrite (vehicle_uids_read _ _ _ (con_vehicle_uids c) vehicles); [done|done|].
    clear -Hall Hsafe. induction Hall as [|item u items us (_ & _ & Hin) _ IH]; [constructor|]. constructor; [by apply Hsafe|done].
  - done.
Qed.

(** A train both programs read is the same train. *)
Lemma train_readers_agree vehicles carriers d root p t c :
  JsonLoader.loadTrain d p = Ok t -> parse_consist_file vehicles carriers (file_of d root p) = Ok c -> same_train t c.
Proof.
  unfold JsonLoader.loadTrain, parse_consist_file.
  intros (j & [Hj _]%tool_parsed & Ht)%bind_ok (j' & Hj'%content_parsed & Hc)%bind_ok.
  assert (j' = j) as -> by congruence.
  apply parse_consist_accepts in Hc as [Hu Hp Hn _ _ Hcar%parse_carrier_id_reads _ (v & Hv & _ & Hall) _].
  unfold JsonLoader.parseTrain in Ht. split_ok Ht. injection Ht as <-. unfold same_train. cbn.
  repeat match goal with
  | E : JsonLoader.requireUid j p ?key = Ok _ |- _ => apply (uid_readers_agree j key p (fl_path (file_of d root p))) in E as [E _]
  | E : JsonLoader.requireString j p ?key = Ok _ |- _ => apply (string_readers_agree j key p (fl_path (file_of d root p))) in E
  | E : j_at j _ = Ok _ |- _ => apply get_ok in E
  | E : JsonLoader.vehicle_uids_from _ _ _ = Ok _ |- _ => apply uids_of_items in E
  | E : JsonLoader.optionalUid j p _ = Ok _ |- _ => unfold JsonLoader.optionalUid in E
  end.
  split_and!; try congruence.
  - destruct (absent j "carrierId"); [congruence|]. destruct Hcar as (k & -> & Hk & _).
    match goal with E : mbind _ (JsonLoader.requireUid _ _ _) = Ok _ |- _ =>
      apply bind_ok in E as (k' & [Hk' _]%(uid_readers_agree j "carrierId" p (fl_path (file_of d root p))) & [= <-]) end.
    congruence.
  - match goal with E : j_find j "vehicle_uids" = Some ?w |- _ => assert (w = v) as -> by congruence end.
    eapply Forall2_unique; [eassumption|eapply Forall2_impl; [exact Hall|]; intros ? ? (_ & ? & _); exact H|].
    intros item [u1] [u2] H1 H2. cbn in *. congruence.
Qed.
End Shown.

(** ** One data root for both programs *)

Section OneRoot.
Context {JL : JsonLib} {JT : JsonText}.

Lemma vehicle_loaded root d r registry0 registry data v :
  root_holds root d r -> BrowserDataController.loadPackages root d registry0 = (registry, Ok data) ->
  v ∈ BrowserDataController.vehicles data ->
  exists w, vehicles_ r !! FleetData.v_uid v = Some w /\ same_vehicle v w.
Proof.
  intros Hr (Hv & _ & _)%packages_data (p & Hl & Hp)%Hv.
  destruct (keyed_in _ _ _ _ _ (rh_vehicles _ _ _ Hr) (in_listing _ _ _ _ Hl)) as (w & Hw & Hin).
  pose proof (vehicle_readers_agree _ _ _ _ _ _ Hp Hw) as Hs. exists w. split; [|done].
  destruct Hs as (<- & _). done.
Qed.

Lemma consist_shown root d r registry0 registry data u c :
  root_holds root d r -> BrowserDataController.loadPackages root d registry0 = (registry, Ok data) ->
  vehicles_ r !! UID_zero = None -> consists_ r !! u = Some c -> value u <> 0 ->
  exists t, t ∈ BrowserDataController.trains data /\ same_train t c.
Proof.
  intros Hr (_ & Ht & _)%packages_data Hz Hc Hnz.
  destruct (keyed_lookup _ _ _ _ _ _ (rh_trains _ _ _ Hr) Hc) as (<- & f & (p & -> & Hl)%elem_of_listing & Hf).
  unfold parse_consist_file in Hf. apply bind_ok in Hf as (j & Hj%content_parsed & Hf).
  destruct (accepted_train_loads _ _ _ _ _ _ _ Hj Hf Hnz) as (t & Hload & Hs).
  - intros v Hv. destruct (loaded_vehicle_uid _ _ _ _ Hr Hv) as (Hsafe & _).
    unfold JsonLoader.not_persistable. rewrite Hsafe, orb_false_r. apply Z.eqb_neq. intros E.
    destruct v as [n]. cbn in E. subst n. destruct Hv as [? Hv]. unfold UID_zero in Hz. congruence.
  - exists t. split; [|done]. apply Ht. by exists p.
Qed.

(** C35: The engine and the editor agree on a data root.  If the engine loads the root and
    no vehicle in it has the identifier 0, then the editor shows every consist of the
    engine with an identifier other than 0, and every train and every vehicle the editor
    shows is one the engine loaded; names, numbers, carrier and the vehicles in their
    order are the same in both. *)
Theorem engine_and_editor_agree root d r registry0 registry data :
  RegistryFiles.load root d = Ok r ->
  BrowserDataController.loadPackages root d registry0 = (registry, Ok data) ->
  vehicles_ r !! UID_zero = None ->
  (forall u c, consists_ r !! u = Some c -> value u <> 0 ->
     exists t, t ∈ BrowserDataController.trains data /\ same_train t c) /\
  (forall t, t ∈ BrowserDataController.trains data ->
     exists c, consists_ r !! FleetData.t_uid t = Some c /\ same_train t c) /\
  (forall v, v ∈ BrowserDataController.vehicles data ->
     exists w, vehicles_ r !! FleetData.v_uid v = Some w /\ same_vehicle v w).
Proof.
  intros Hr%load_holds Hp Hz. split_and!.
  - intros u c Hc Hnz. by eapply consist_shown.
  - intros t Hin. pose proof (packages_data _ _ _ _ _ Hp) as (_ & Ht & _). apply Ht in Hin as (p & Hl & Hload).
    destruct (keyed_in _ _ _ _ _ (rh_trains _ _ _ Hr) (in_listing _ _ _ _ Hl)) as (c & Hc & Hin).
    pose proof (train_readers_agree _ _ _ _ _ _ _ Hload Hc) as Hs. exists c. split; [|done].
    destruct Hs as (-> & _). done.
  - intros v Hin. by eapply vehicle_loaded.
Qed.
End OneRoot.

(** ** From the editor to the engine *)

Section Saved.
Context {JL : JsonLib} {JT : JsonText} {FS : FileSystem j_text} {QT : QtText}.

(** A root with a new file below its trains. *)
Section NewTrain.
Context (root : Path) (d d' : Disk j_text) (file : Path) (b : FileBody j_text) (r : FleetRegistry)
  (Hr : root_holds root d r) (Hfiles : dk_files d' = <[file := b]> (dk_files d)) (Hdirs : dk_dirs d ⊆ dk_dirs d')
  (Hnew : forall q, q ∈ dk_dirs d' -> q ∈ dk_dirs d \/ exists n, q = take n (parent_path file))
  (Hno : dk_files d !! file = None) (Hbelow : below (path_div root "trains") file = true)
  (Hext : extension file = ".json"%string).

Lemma trains_element : take (length root) file = root /\ file !! length root = Some "trains"%string.
Proof. apply below_div in Hbelow as (? & ? & _); done. Qed.

Lemma carriers_path_app : carriers_path root = root ++ ["carriers"; "carriers.json"]%string.
Proof. unfold carriers_path. rewrite !path_div_name by done. by rewrite <- app_assoc. Qed.

(** A prefix of the new file is not the file of the carriers. *)
Lemma carriers_apart n : carriers_path root <> take n file.
Proof.
  rewrite carriers_path_app. intros E. apply (f_equal (fun p : list string => p !! length root)) in E. cbv beta in E.
  assert ((root ++ ["carriers"; "carriers.json"]%string : list string) !! length root = Some "carriers"%string) as Hc
    by by apply list_lookup_middle.
  rewrite Hc in E. symmetry in E. apply lookup_take_Some in E as [E _].
  destruct trains_element as [_ Ht]. unfold Path in *. congruence.
Qed.

Lemma carriers_frame : carriers_file d' root = carriers_file d root.
Proof.
  assert (carriers_path root <> file) as Hne.
  { pose proof (carriers_apart (length file)) as H. by rewrite firstn_all in H. }
  unfold carriers_file, exists_path. rewrite (is_file_frame d d' file b Hfiles) by done.
  assert (is_directory d' (carriers_path root) = is_directory d (carriers_path root)) as ->.
  { apply eq_true_iff_eq. split; [|by apply is_directory_mono]. unfold is_directory.
    rewrite !bool_decide_eq_true. intros [H|(n & E)]%Hnew; [done|]. exfalso.
    unfold parent_path in E. case_bool_decide; [|rewrite take_take in E; by eapply carriers_apart].
    by eapply carriers_apart. }
  case_match eqn:E; [|done]. unfold file_of. do 2 f_equal. unfold content, JsonLoader.input.
  rewrite Hfiles, lookup_insert_ne by done.
  destruct (dk_files d !! carriers_path root) as [body|] eqn:Eb; [done|].
  unfold is_file in E. rewrite Eb in E. rewrite (bool_decide_false (is_Some None)) in E by apply is_Some_None.
  rewrite orb_false_r in E. rewrite E. by rewrite (is_directory_mono d d' Hdirs _ E).
Qed.

Lemma other_frame test name :
  local_test test -> name <> ""%string -> name <> "trains"%string ->
  listing test d (path_div root name) ≡ₚ listing test d' (path_div root name).
Proof. intros Ht H1 H2. symmetry. apply (listing_frame d d' file b Hfiles); [done|]. by apply (below_other root "trains"). Qed.

(** The root as loaded before, with the consist of the new file. *)
Lemma root_with_train c :
  parse_consist_file (vehicles_ r) (carriers_ r) (file_of d' (path_div root "trains") file) = Ok c ->
  consists_ r !! con_uid c = None ->
  root_holds root d' (mkFleetRegistry (types_ r) (vehicles_ r) (<[con_uid c := c]> (consists_ r)) (carriers_ r)).
Proof.
  intros Hc Hfree. destruct Hr. constructor; cbn [types_ vehicles_ carriers_ consists_].
  1-3: by apply (is_directory_mono d d' Hdirs).
  - eapply keyed_perm; [|done]. by apply other_frame; [apply is_json_file_local|..].
  - eapply keyed_perm; [|done]. by apply other_frame; [apply is_vehicle_file_local|..].
  - by rewrite carriers_frame.
  - eapply keyed_perm; [symmetry; apply (listing_new d d' file b Hfiles); try done; [apply is_json_file_local|]|].
    + unfold is_json_file, is_file. rewrite Hfiles, lookup_insert_eq, Hext. by rewrite !bool_decide_true.
    + by apply keyed_cons.
Qed.

(** A load of the root needs the new file. *)
Lemma root_needs_train r' :
  root_holds root d' r' ->
  exists c, parse_consist_file (vehicles_ r') (carriers_ r') (file_of d' (path_div root "trains") file) = Ok c.
Proof.
  intros [_ _ _ _ _ _ Ht]. destruct (keyed_in _ _ _ _ (file_of d' (path_div root "trains") file) Ht) as (c & Hc & _).
  - apply in_listing. unfold listed, is_json_file, is_file. rewrite Hfiles, lookup_insert_eq, Hext.
    split_and!; [by eexists|done|]. by rewrite !bool_decide_true.
  - by exists c.
Qed.
End NewTrain.
(** *** The document the editor writes *)

Lemma require_string_at j key path s :
  j_find j key = Some (j_of_string s) -> require_string j key path = Ok s.
Proof. intros H. apply (string_readers_agree j key []). by apply requireString_at. Qed.

Lemma require_uid_at j key path u :
  j_find j key = Some (j_of_u64 (value u)) -> uid_u64 u -> JsonLoader.not_persistable u = false ->
  require_uid j key path = Ok u.
Proof. intros H Hu Hp. apply (uid_readers_agree j key []). by apply requireUid_at. Qed.

(** What the engine reads in the document of a request. *)
Lemma request_accepted vehicles carriers f request category :
  train_request_fits request -> JsonLoader.not_persistable (EditorPersistenceService.tr_uid request) = false ->
  from_option (fun u => JsonLoader.not_persistable u = false) True (EditorPersistenceService.tr_carrier_id request) ->
  EditorPersistenceService.tr_vehicle_uids request <> [] ->
  Forall (fun u => is_Some (vehicles !! u)) (EditorPersistenceService.tr_vehicle_uids request) ->
  parse_train_category (EditorPersistenceService.tr_train_category request) (fl_path f) = Ok category ->
  from_option (carrier_ok carriers) True (EditorPersistenceService.tr_carrier_id request) -> folder_agrees f category ->
  accepts vehicles carriers f (write_fields j_empty (train_fields request)) (EditorPersistenceService.tr_uid request)
    (EditorPersistenceService.tr_pid request)
    (EditorPersistenceService.shown_name (EditorPersistenceService.tr_display_name request)
       (EditorPersistenceService.tr_pid request)) category
    (EditorPersistenceService.tr_carrier_id request) (EditorPersistenceService.tr_vehicle_uids request).
Proof.
  intros (Hu & Hc & Hl) Hpu Hpc Hne Hin Hcat Hcar Hfold.
  pose proof (fun key => train_fields_find j_empty request key (proj1 empty_object)) as F.
  generalize dependent (write_fields j_empty (train_fields request)). intros j F.
  assert (j_find j "carrierId" = uid_field (EditorPersistenceService.tr_carrier_id request)) as Fc by by rewrite F.
  constructor; try done.
  - apply require_uid_at; [by rewrite F|done|done].
  - apply require_string_at. by rewrite F.
  - apply require_string_at. by rewrite F.
  - eexists. split; [apply require_string_at; by rewrite F|done].
  - unfold absent. rewrite F. cbn. by rewrite (proj2 empty_object).
  - apply parse_carrier_id_reads. unfold absent. rewrite Fc.
    destruct (EditorPersistenceService.tr_carrier_id request) as [k|]; [|done]. cbn in *.
    destruct (of_u64_get _ Hc) as (_ & -> & _). exists k. split_and!; [done| |done].
    by apply require_uid_at.
  - destruct (of_list_items ((fun u => j_of_u64 (value u)) <$> EditorPersistenceService.tr_vehicle_uids request)) as [Ha Hi].
    eexists. split; [by rewrite F|]. split; [done|]. unfold uid_list. rewrite Hi.
    clear -Hl Hin. induction Hl as [|u us Hu _ IH]; [constructor|]. apply Forall_cons in Hin as [Hs Hin].
    destruct (of_u64_get _ Hu) as (Hn & _ & Hg). constructor; [done|by apply IH].
Qed.

(** What a save of a new consist leaves for the engine. *)
Lemma new_consist_document x file registry d registry' d' u carrier :
  Forall (fun v => uid_u64 (FleetData.v_uid v)) (TrainBuilderPanel.model x) ->
  TrainBuilderPanel.saveCurrent x true (Some file) registry d = ((registry', d'), Ok (Some u)) ->
  TrainBuilderPanel.parsedCarrierUid x = Ok carrier ->
  let request := new_request x file u carrier in
  content d' file = Parsed (write_fields j_empty (train_fields request)) /\ train_request_fits request /\
  JsonLoader.not_persistable u = false /\
  from_option (fun k => JsonLoader.not_persistable k = false) True carrier /\ TrainBuilderPanel.model x <> [] /\
  UidGenerator.generate registry UIDDomain.ROLLING_STOCK UIDKind.TRAIN_CONSIST 0 1 = Ok u /\
  (exists b, dk_files d' = <[file := b]> (dk_files d)) /\ dk_dirs d ⊆ dk_dirs d' /\
  (forall q, q ∈ dk_dirs d' -> q ∈ dk_dirs d \/ exists n, q = take n (parent_path file)).
Proof.
  intros Huids (Hgen & _ & carrier' & Hc & Hfits & Hst)%new_consist_request Hcar; [|done].
  assert (carrier' = carrier) as -> by congruence. intros request.
  apply train_written in Hst as (_ & Hpu & Hne & Hpc & _ & base & Hbase & _ & Hparse & Hfiles & Hdirs & Hnew).
  cbn in Hbase. injection Hbase as <-. apply tool_parsed in Hparse as [Hparse _].
  split_and!; try done. cbn in Hne. intros E. apply Hne. by rewrite E.
Qed.

(** The consist that is saved, as the engine has it. *)
Definition consist_of (x : TrainBuilderPanel.t) (u : UID) (category : TrainCategory.t) (carrier : option UID)
    (c : TrainConsist) : Prop :=
  let pid := trimmed (TrainBuilderPanel.pid_field x) in
  head c = (u, pid, EditorPersistenceService.shown_name (trimmed (TrainBuilderPanel.display_name_field x)) pid,
            category, carrier) /\
  con_vehicle_uids c = (FleetData.v_uid <$> TrainBuilderPanel.model x).

(** The vehicles of a data set have identifiers of 64 bits. *)
Lemma shown_uid_fits root d r registry0 registry data v :
  root_holds root d r -> BrowserDataController.loadPackages root d registry0 = (registry, Ok data) ->
  v ∈ BrowserDataController.vehicles data -> uid_u64 (FleetData.v_uid v).
Proof.
  intros Hr Hp Hv. destruct (vehicle_loaded _ _ _ _ _ _ _ Hr Hp Hv) as (w & Hw & _).
  by apply (loaded_vehicle_uid root d r _ Hr).
Qed.

(** A generated identifier is that of no consist of the engine. *)
Lemma generated_uid_free root d r registry0 registry data u :
  root_holds root d r -> BrowserDataController.loadPackages root d registry0 = (registry, Ok data) ->
  vehicles_ r !! UID_zero = None ->
  UidGenerator.generate registry UIDDomain.ROLLING_STOCK UIDKind.TRAIN_CONSIST 0 1 = Ok u ->
  JsonLoader.not_persistable u = false -> consists_ r !! u = None.
Proof.
  intros Hr Hp Hz Hgen (Hnz%Z.eqb_neq & _)%orb_false_iff.
  destruct (consists_ r !! u) as [c|] eqn:E; [|done]. exfalso.
  destruct (consist_shown _ _ _ _ _ _ _ _ Hr Hp Hz E Hnz) as (t & Hin & (Hu & _)).
  destruct (keyed_lookup _ _ _ _ _ _ (rh_trains _ _ _ Hr) E) as (Hk & _).
  destruct (UidGenerator.generate_free _ _ _ _ _ _ (conj (Z.le_refl 0) eq_refl : fits 16 0) Hgen) as (Hfree & _).
  destruct (packages_data _ _ _ _ _ Hp) as (_ & _ & ->).
  apply UidRegistry.not_contained in Hfree. rewrite registry_of_contains in Hfree.
  apply bool_decide_eq_false in Hfree. apply Hfree. unfold data_uids. rewrite !elem_of_app, !list_elem_of_bind.
  right. right. exists t. split; [|done]. unfold BrowserDataController.uids_of_train. rewrite Hu, Hk. by left.
Qed.


(** One wrong train stops the engine.  The editor checks neither the category against the
    folder a consist is saved to nor its carrier against the carriers of the root.  If
    either does not fit, the save succeeds and from then on the engine loads nothing of
    the root. *)
Theorem misfiled_consist_stops_engine x root d r registry file registry' d' u carrier category :
  RegistryFiles.load root d = Ok r ->
  Forall (fun v => uid_u64 (FleetData.v_uid v)) (TrainBuilderPanel.model x) ->
  dk_files d !! file = None -> below (path_div root "trains") file = true -> extension file = ".json"%string ->
  TrainBuilderPanel.saveCurrent x true (Some file) registry d = ((registry', d'), Ok (Some u)) ->
  TrainBuilderPanel.parsedCarrierUid x = Ok carrier ->
  parse_train_category (toUpper (TrainBuilderPanel.category_field x)) (path_string file) = Ok category ->
  ~ folder_agrees (file_of d' (path_div root "trains") file) category \/
  (exists k, carrier = Some k /\ ~ carrier_ok (carriers_ r) k) ->
  exists e, RegistryFiles.load root d' = Throw e.
Proof.
  intros Hr%load_holds Huids Hno Hbelow Hext Hsave Hcar Hcat Hbad.
  destruct (new_consist_document _ _ _ _ _ _ _ _ Huids Hsave Hcar)
    as (Hc & Hfits & Hpu & Hpc & Hne & Hgen & (b & Hfiles) & Hdirs & Hnew).
  destruct (RegistryFiles.load root d') as [r'|e] eqn:E; [exfalso|by exists e]. apply load_holds in E.
  assert (carriers_ r' = carriers_ r) as Hcr.
  { pose proof (rh_carriers _ _ _ E) as H1. rewrite (carriers_frame root d d' file b) in H1 by done.
    rewrite (rh_carriers _ _ _ Hr) in H1. by injection H1. }
  destruct (root_needs_train root d d' file b Hfiles Hbelow Hext r' E) as (c & Hparse).
  unfold parse_consist_file in Hparse. rewrite (proj2 (content_parsed _ _ _ _) Hc) in Hparse. cbn in Hparse.
  apply parse_consist_accepts in Hparse as [_ _ _ (text & Ht & Hpc') _ Hcar' Hfold _ _].
  pose proof (fun key => train_fields_find j_empty (new_request x file u carrier) key (proj1 empty_object)) as F.
  destruct Hbad as [Hbad|(k & -> & Hbad)].
  - apply Hbad. erewrite require_string_at in Ht by by rewrite F. injection Ht as <-. cbn in Hpc'. congruence.
  - apply parse_carrier_id_reads in Hcar'. unfold absent in Hcar'. rewrite F in Hcar'. cbn in Hcar'.
    destruct Hfits as (_ & Hk & _). destruct (of_u64_get _ Hk) as (_ & En & _). rewrite En in Hcar'.
    destruct Hcar' as (k' & _ & Hk' & Hok). rewrite (require_uid_at _ _ _ k) in Hk' by (done || by rewrite F).
    injection Hk' as <-. rewrite Hcr in Hok. done.
Qed.
End Saved.

(** ** A concrete root *)

Module FleetDiskDemo.
Import JsonDemo DiskDemo EditorDemo.
Local Open Scope string_scope.

Definition carrier_uid : UID := make_uid UIDDomain.ROLLING_STOCK UIDKind.CARRIER 0 1.
Definition consist_doc : value :=
  JObject [("uid", number_of (train_uid 1)); ("pID", JString "T1"); ("displayName", JString "T1");
           ("trainCategory", JString "FREIGHT"); ("vehicle_uids", JArray [number_of (vehicle_uid 1)])].
Definition carriers_doc : value :=
  JObject [("carriers", JArray [JObject [("id", number_of carrier_uid); ("name", JString "PKP");
                                         ("type", JArray [JString "freight"])]])].

Definition root : Path := ["packages"].
Definition at_root (l : list string) : Path := app root l.
Definition disk : Disk j_text :=
  mkDisk (list_to_map [(at_root ["vehicle-types"; "eu07.json"], Bytes (Some type_doc));
                       (at_root ["vehicles"; "a"; "vehicle.json"], Bytes (Some (vehicle_doc 1 "A 1")));
                       (at_root ["vehicles"; "a"; "notes.json"], Bytes None);
                       (at_root ["vehicles"; "b"; "vehicle.json"], Bytes (Some (vehicle_doc 2 "B 1")));
                       (at_root ["carriers"; "carriers.json"], Bytes (Some carriers_doc));
                       (at_root ["trains"; "freight"; "t1.json"], Bytes (Some consist_doc))])
         {[ root; at_root ["vehicle-types"]; at_root ["vehicles"]; at_root ["vehicles"; "a"];
            at_root ["vehicles"; "b"]; at_root ["carriers"]; at_root ["trains"];
            at_root ["trains"; "freight"]; at_root ["trains"; "passenger"] ]}.

Definition engine : result FleetRegistry := RegistryFiles.load root disk.
Definition registry : FleetRegistry :=
  match engine with Ok r => r | Throw _ => mkFleetRegistry ∅ ∅ ∅ ∅ end.
Definition shown := BrowserDataController.loadPackages root disk ∅.
Definition data : BrowserDataController.BrowserDataSet :=
  match shown.2 with Ok data => data | Throw _ => BrowserDataController.mkDataSet [] [] [] end.

Example root_loads :
  is_ok engine = true /\ is_ok shown.2 = true /\ size (types_ registry) = 1%nat /\
  size (vehicles_ registry) = 2%nat /\ size (consists_ registry) = 1%nat /\ size (carriers_ registry) = 1%nat /\
  length (BrowserDataController.trains data) = 1%nat.
Proof. by vm_compute. Qed.

Lemma engine_loads : RegistryFiles.load root disk = Ok registry.
Proof.
  assert (is_ok engine = true) as H by apply root_loads. unfold registry, engine in *.
  by destruct (RegistryFiles.load root disk).
Qed.
Lemma data_shown : BrowserDataController.loadPackages root disk ∅ = (shown.1, Ok data).
Proof.
  assert (is_ok shown.2 = true) as H by apply root_loads. unfold data, shown in *.
  by destruct (BrowserDataController.loadPackages root disk ∅) as [? []].
Qed.
Lemma no_vehicle_zero : vehicles_ registry !! UID_zero = None.
Proof. apply eq_None_not_Some, (bool_decide_eq_false (is_Some _)). by vm_compute. Qed.

Lemma engine_and_editor_agree_witness :
  exists t, t ∈ BrowserDataController.trains data /\ FleetData.t_uid t = train_uid 1.
Proof.
  assert (is_Some (consists_ registry !! train_uid 1)) as [c Hc] by (apply (bool_decide_eq_true (is_Some _)); by vm_compute).
  destruct (engine_and_editor_agree root disk registry ∅ shown.1 data engine_loads data_shown no_vehicle_zero)
    as (H & H' & _).
  destruct (H (train_uid 1) c Hc) as (t & Hin & Ht); [done|]. exists t. split; [done|].
  destruct (keyed_lookup _ _ _ _ _ _ (rh_trains _ _ _ (proj1 (load_holds _ _ _) engine_loads)) Hc) as (<- & _).
  apply Ht.
Defined.

(** Both vehicles in a new consist, numbered and given to the carrier. *)
Definition panel_for (category carrier : string) : TrainBuilderPanel.t :=
  empty_panel <| TrainBuilderPanel.model := reverse (BrowserDataController.vehicles data) |>
    <| TrainBuilderPanel.pid_field := " T2" |> <| TrainBuilderPanel.category_field := category |>
    <| TrainBuilderPanel.carrier_uid_field := carrier |>.
Definition target : Path := at_root ["trains"; "freight"; "t2.json"].
Definition saving (x : TrainBuilderPanel.t) := TrainBuilderPanel.saveCurrent x true (Some target) shown.1 disk.

Lemma saving_ok x : 
  (match (saving x).2 with Ok (Some u) => bool_decide (u = train_uid 2) | _ => false end) = true ->
  saving x = (((saving x).1.1, (saving x).1.2), Ok (Some (train_uid 2))).
Proof.
  destruct (saving x) as [[r d] [[u|]|]]; try done. cbn. intros ->%bool_decide_eq_true. done.
Qed.


(** The same consist as a passenger train, in the folder of the freight trains. *)
Lemma misfiled_consist_stops_engine_witness :
  exists e, RegistryFiles.load root (saving (panel_for "PASSENGER" "")).1.2 = Throw e.
Proof.
  set (x := panel_for "PASSENGER" "").
  apply (misfiled_consist_stops_engine x root disk registry shown.1 target (saving x).1.1 (saving x).1.2
           (train_uid 2) None TrainCategory.PASSENGER engine_loads).
  - apply Forall_forall. intros v Hv. eapply (shown_uid_fits root disk registry ∅ shown.1 data).
    + apply load_holds, engine_loads.
    + exact data_shown.
    + change (v ∈ reverse (BrowserDataController.vehicles data)) in Hv. by apply elem_of_reverse in Hv.
  - done.
  - done.
  - done.
  - change (saving x = (((saving x).1.1, (saving x).1.2), Ok (Some (train_uid 2)))). apply saving_ok. by vm_compute.
  - by vm_compute.
  - by vm_compute.
  - left. by vm_compute.
Defined.
End FleetDiskDemo.
