(* ===== verification/Flat.v ===== *)
(** * Flat: the interface of the FlatBuffers library

    The generated code of [autogens/proto] calls the FlatBuffers runtime, which
    is not part of the repository: [FlatBuffers] lists what it calls, and
    [FlatBuffersOk] states what the library's documentation says of it.  A
    builder's offset and the pointer a reader gets to the same finished object
    are one value [Obj], since finished objects never change; reading outside
    the buffer is [None].  A builder of a table is the list of its writes.
    What the compiler writes out for every field of a kind (the branches of
    [UnPackTo], [Pack] and [Create...Direct]) is a function here, and [Message]
    is the interface a generated table offers: its laws are proved for every
    table by one tactic. *)
From S2P Require Import Prelude Float32 Frame.
Local Open Scope Z_scope.

(** ** Scalars and writes *)

Inductive scalar : Set := U8 | I8 | U16 | U32 | I32 | U64.

#[global] Instance scalar_eq_dec : EqDecision scalar.
Proof. solve_decision. Defined.

Definition sizeof (s : scalar) : Z :=
  match s with U8 | I8 => 1 | U16 => 2 | U32 | I32 => 4 | U64 => 8 end.

(** The values of the C++ type. *)
Definition in_range (s : scalar) (x : Z) : bool :=
  match s with
  | U8 => (0 <=? x) && (x <? 2 ^ 8) | I8 => (- 2 ^ 7 <=? x) && (x <? 2 ^ 7)
  | U16 => (0 <=? x) && (x <? 2 ^ 16) | U32 => (0 <=? x) && (x <? 2 ^ 32)
  | I32 => (- 2 ^ 31 <=? x) && (x <? 2 ^ 31) | U64 => (0 <=? x) && (x <? 2 ^ 64)
  end.

(** A [float] that a field with default zero gives back: any but the negative
    zero, which equals the default and is not written. *)
Definition float_field (x : float) : bool :=
  SpecFloat.valid_binary f32_prec f32_emax x &&
  match x with SpecFloat.S754_zero s => negb s | _ => true end.

Section Writes.
Context {O : Type}.

(** A call of [AddElement] or [AddOffset] with the slot of the field; a null
    offset is [None]. *)
Inductive write : Type :=
  | Element (s : scalar) (vt x dflt : Z)
  | ElementF (vt : Z) (x dflt : float)
  | OffsetAt (vt : Z) (o : option O).

Definition slot (w : write) : Z :=
  match w with Element _ vt _ _ | ElementF vt _ _ | OffsetAt vt _ => vt end.

Definition written (vt : Z) (ws : list write) : option write :=
  List.find (fun w => slot w =? vt) ws.

(** Each field is written at most once, in a slot of the virtual table. *)
Definition slots_ok (ws : list write) : bool :=
  bool_decide (NoDup (slot <$> ws)) &&
  forallb (fun vt => (4 <=? vt) && (vt <? 2 ^ 16) && Z.even vt) (slot <$> ws).

(** What a read of the slot gives, [None] where its type is not the written
    one.  A value that equals the writer's default is left out. *)
Definition scalar_at (s : scalar) (dflt : Z) (w : option write) : option Z :=
  match w with
  | None => Some dflt
  | Some (Element s' _ x d) =>
      if bool_decide (s' = s) && in_range s x then Some (if x =? d then dflt else x) else None
  | Some _ => None
  end.
Definition float_at (dflt : float) (w : option write) : option float :=
  match w with
  | None => Some dflt
  | Some (ElementF _ x d) =>
      if SpecFloat.valid_binary f32_prec f32_emax x
      then Some (if SpecFloat.SFeqb x d then dflt else x) else None
  | Some _ => None
  end.
Definition pointer_at (w : option write) : option (option O) :=
  match w with
  | None => Some None
  | Some (OffsetAt _ o) => Some o
  | Some _ => None
  end.

Lemma element_at s vt x d : in_range s x = true -> scalar_at s d (Some (Element s vt x d)) = Some x.
Proof. intros Hx. cbn. rewrite bool_decide_true, Hx by done. cbn. by destruct (Z.eqb_spec x d) as [->|]. Qed.

Lemma element_some s vt x d d' : in_range s x = true -> is_Some (scalar_at s d' (Some (Element s vt x d))).
Proof. intros Hx. cbn. rewrite bool_decide_true, Hx by done. by eexists. Qed.

Lemma float_element_at vt x : float_field x = true -> float_at f32_zero (Some (ElementF vt x f32_zero)) = Some x.
Proof.
  unfold float_field. intros [Hv Hz]%andb_prop. cbn. rewrite Hv.
  destruct x as [[]|[]| |[] m e]; try done; cbn in Hz; by try discriminate Hz.
Qed.
End Writes.
Arguments write : clear implicits.

(** A field of a type narrower than the value is a type error of C++. *)
Lemma in_range_bool b : in_range U8 (Z.b2z b) = true.
Proof. by destruct b. Qed.
Lemma nonzero_bool b : negb (Z.b2z b =? 0) = b.
Proof. by destruct b. Qed.

(** The elements of a vector. *)
Inductive elements : Set := VectorOf (s : scalar) | VectorOfOffsets.

(** ** The library *)

(** Verification passes the verifier along, which counts the tables seen and
    how deep they nest; [None] is a read outside the buffer. *)
Definition verification_with (V : Type) : Type := V -> option (bool * V).

Class FlatBuffers := {
  Obj : Type;
  (* tables, strings and vectors of a buffer *)
  GetField : scalar -> Obj -> Z -> Z -> option Z;
  GetFieldF : Obj -> Z -> float -> option float;
  GetPointer : Obj -> Z -> option (option Obj);
  str : Obj -> option string;
  scalars : scalar -> Obj -> option (list Z);
  offsets : Obj -> option (list Obj);
  (* FlatBufferBuilder *)
  EndTable : list (write Obj) -> Obj;
  Required : Obj -> Z -> bool;
  CreateString : string -> Obj;
  CreateVector : scalar -> list Z -> Obj;
  CreateVectorOfOffsets : list Obj -> Obj;
  Finish : Obj -> list byte;
  GetRoot : list byte -> Obj;
  (* Verifier *)
  Verifier : Type;
  fresh : Verifier;
  depth : Verifier -> Z;
  num_tables : Verifier -> Z;
  VerifyTableStart : Obj -> Verifier -> bool * Verifier;
  VerifyTableEnd : Verifier -> bool * Verifier;
  VerifyField : scalar -> Obj -> Z -> Z -> option bool;
  VerifyFieldF : Obj -> Z -> Z -> option bool;
  VerifyOffset : Obj -> Z -> option bool;
  VerifyOffsetRequired : Obj -> Z -> option bool;
  VerifyString : option Obj -> bool;
  VerifyVector : elements -> option Obj -> bool;
  VerifyVectorOfStrings : option Obj -> option bool;
  VerifyVectorOfTables : (Obj -> verification_with Verifier) -> option Obj -> verification_with Verifier;
  VerifyTable : (Obj -> verification_with Verifier) -> option Obj -> verification_with Verifier;
  VerifyBuffer : (Obj -> verification_with Verifier) -> list byte -> option bool
}.
Notation verification := (verification_with Verifier).
Notation builder := (list (write Obj)).

(** The limits of a [Verifier] with default options. *)
Definition max_depth : Z := 64.
Definition max_tables : Z := 1000000.

(** Verifying the tables of a vector in turn, until one fails. *)
Fixpoint verify_each {V O} (f : O -> verification_with V) (l : list O) (v : V) : option (bool * V) :=
  match l with
  | [] => Some (true, v)
  | o :: l => '(b, v) ← f o v; if b : bool then verify_each f l v else Some (false, v)
  end.

Section Library.
Context {F : FlatBuffers}.

(** A table whose start the verifier has accepted. *)
Definition started (o : Obj) : Prop := exists v, (VerifyTableStart o v).1 = true.

Definition string_list (o : Obj) : option (list string) := l ← offsets o; mapM str l.

Class FlatBuffersOk : Prop := {
  (* reading what was built *)
  get_field_built s ws vt d x :
    slots_ok ws = true -> scalar_at s d (written vt ws) = Some x ->
    GetField s (EndTable ws) vt d = Some x;
  get_float_built ws vt d x :
    slots_ok ws = true -> float_at d (written vt ws) = Some x ->
    GetFieldF (EndTable ws) vt d = Some x;
  get_pointer_built ws vt p :
    slots_ok ws = true -> pointer_at (written vt ws) = Some p ->
    GetPointer (EndTable ws) vt = Some p;
  required_built ws vt o :
    slots_ok ws = true -> pointer_at (written vt ws) = Some (Some o) -> Required (EndTable ws) vt = true;
  required_missing ws vt :
    slots_ok ws = true -> pointer_at (written vt ws) = Some None -> Required (EndTable ws) vt = false;
  str_built x : str (CreateString x) = Some x;
  scalars_built s l :
    Forall (fun x => in_range s x = true) l -> scalars s (CreateVector s l) = Some l;
  offsets_built l : offsets (CreateVectorOfOffsets l) = Some l;
  root_built o : GetRoot (Finish o) = o;
  (* a read gives a value of the type *)
  get_field_range s o vt d x :
    in_range s d = true -> GetField s o vt d = Some x -> in_range s x = true;
  finish_bytes o : Forall is_byte (Finish o);
  (* what the verifier accepts may be read *)
  verify_field_defined s o vt a : started o -> is_Some (VerifyField s o vt a);
  verify_float_defined o vt a : started o -> is_Some (VerifyFieldF o vt a);
  verify_offset_defined o vt : started o -> is_Some (VerifyOffset o vt);
  verify_required_defined o vt : started o -> is_Some (VerifyOffsetRequired o vt);
  verified_field s o vt a d : VerifyField s o vt a = Some true -> is_Some (GetField s o vt d);
  verified_float o vt a d : VerifyFieldF o vt a = Some true -> is_Some (GetFieldF o vt d);
  verified_offset o vt : VerifyOffset o vt = Some true -> is_Some (GetPointer o vt);
  verified_required o vt :
    VerifyOffsetRequired o vt = Some true -> exists p, GetPointer o vt = Some (Some p);
  verified_string o : VerifyString (Some o) = true -> is_Some (str o);
  verified_scalars s o : VerifyVector (VectorOf s) (Some o) = true -> is_Some (scalars s o);
  verified_offsets o : VerifyVector VectorOfOffsets (Some o) = true -> is_Some (offsets o);
  verify_strings_defined o : is_Some (offsets o) -> is_Some (VerifyVectorOfStrings (Some o));
  verified_strings o : VerifyVectorOfStrings (Some o) = Some true -> is_Some (string_list o);
  (* null pointers, and the tables of vectors *)
  verify_no_string : VerifyString None = true;
  verify_no_vector e : VerifyVector e None = true;
  verify_no_strings : VerifyVectorOfStrings None = Some true;
  verify_no_tables f v : VerifyVectorOfTables f None v = Some (true, v);
  verify_tables f o l v : offsets o = Some l -> VerifyVectorOfTables f (Some o) v = verify_each f l v;
  verify_no_table f v : VerifyTable f None v = Some (true, v);
  verify_table f o v : VerifyTable f (Some o) v = f o v;
  verify_end v : VerifyTableEnd v = (true, (VerifyTableEnd v).2);
  verify_end_depth v : depth (VerifyTableEnd v).2 = depth v - 1;
  verify_end_tables v : num_tables (VerifyTableEnd v).2 = num_tables v;
  (* what was built is accepted within the limits *)
  fresh_depth : depth fresh = 0;
  fresh_tables : num_tables fresh = 0;
  verify_start_built ws v :
    slots_ok ws = true -> depth v < max_depth -> num_tables v < max_tables ->
    (VerifyTableStart (EndTable ws) v).1 = true /\
    depth (VerifyTableStart (EndTable ws) v).2 = depth v + 1 /\
    num_tables (VerifyTableStart (EndTable ws) v).2 = num_tables v + 1;
  verify_field_built s ws vt a :
    slots_ok ws = true -> is_Some (scalar_at s 0 (written vt ws)) -> a = sizeof s ->
    VerifyField s (EndTable ws) vt a = Some true;
  verify_float_built ws vt a :
    slots_ok ws = true -> is_Some (float_at f32_zero (written vt ws)) -> a = 4 ->
    VerifyFieldF (EndTable ws) vt a = Some true;
  verify_offset_built ws vt :
    slots_ok ws = true -> is_Some (pointer_at (written vt ws)) -> VerifyOffset (EndTable ws) vt = Some true;
  verify_required_built ws vt o :
    slots_ok ws = true -> pointer_at (written vt ws) = Some (Some o) ->
    VerifyOffsetRequired (EndTable ws) vt = Some true;
  verify_string_built x : VerifyString (Some (CreateString x)) = true;
  verify_scalars_built s l : VerifyVector (VectorOf s) (Some (CreateVector s l)) = true;
  verify_offsets_built l : VerifyVector VectorOfOffsets (Some (CreateVectorOfOffsets l)) = true;
  verify_strings_built l :
    VerifyVectorOfStrings (Some (CreateVectorOfOffsets (CreateString <$> l))) = Some true;
  (* a buffer is verified from a fresh verifier *)
  verify_buffer_defined f buf : (forall o v, is_Some (f o v)) -> is_Some (VerifyBuffer f buf);
  verified_buffer f buf :
    VerifyBuffer f buf = Some true -> exists v, f (GetRoot buf) fresh = Some (true, v);
  verify_buffer_built f o v : f o fresh = Some (true, v) -> VerifyBuffer f (Finish o) = Some true
}.

(** ** Verification as the generated code writes it *)

(** [&&]: the right operand runs only when the left one accepts. *)
Definition and_then (m n : verification) : verification := fun v =>
  '(b, v) ← m v; if b : bool then n v else Some (false, v).
Definition check (b : option bool) : verification := fun v => b ← b; Some (b, v).
(** A pointer field read and given to the verifier. *)
Definition on_pointer (p : option (option Obj)) (f : option Obj -> verification) : verification :=
  fun v => p ← p; f p v.
Definition TableStart (o : Obj) : verification := fun v => Some (VerifyTableStart o v).
Definition TableEnd : verification := fun v => Some (VerifyTableEnd v).
Definition check_string (p : option (option Obj)) : verification :=
  on_pointer p (fun p => check (Some (VerifyString p))).
Definition check_vector (e : elements) (p : option (option Obj)) : verification :=
  on_pointer p (fun p => check (Some (VerifyVector e p))).
Definition check_strings (p : option (option Obj)) : verification :=
  on_pointer p (fun p => check (VerifyVectorOfStrings p)).
Definition check_tables (f : Obj -> verification) (p : option (option Obj)) : verification :=
  on_pointer p (VerifyVectorOfTables f).
Definition check_table (f : Obj -> verification) (p : option (option Obj)) : verification :=
  on_pointer p (VerifyTable f).
End Library.
Arguments FlatBuffersOk : clear implicits.
Infix "&&>" := and_then (at level 41, right associativity).

(** ** The code the compiler writes for a field *)
Section Fields.
Context {F : FlatBuffers}.

(** In [UnPackTo], by the type of the field; [old] is its value before. *)
(* SRC autogens/proto/snapshot_generated.h 1963-1963 Snapshot::UnPackTo *)
Definition UnPackString (old : string) (p : option Obj) : option string :=
  match p with Some e => str e | None => Some old end.
(* SRC autogens/proto/snapshot_generated.h 1721-1721 RouteState::UnPackTo *)
Definition UnPackVector (s : scalar) (p : option Obj) : option (list Z) :=
  match p with Some e => scalars s e | None => Some [] end.
(* SRC autogens/proto/dispatch_channel_generated.h 553-553 DispatchFormPayload::UnPackTo *)
Definition UnPackStrings (p : option Obj) : option (list string) :=
  match p with Some e => string_list e | None => Some [] end.

Section Nested.
Context {T : Type} (UnPackTo : T -> Obj -> option T) (UnPack : Obj -> option T).
(* SRC autogens/proto/snapshot_generated.h 1489-1489 SwitchState::UnPackTo *)
Definition UnPackTable (old : option T) (p : option Obj) : option (option T) :=
  match p, old with
  | Some e, Some o => Some <$> UnPackTo o e
  | Some e, None => Some <$> UnPack e
  | None, _ => Some None
  end.
(** The elements the vector already has are filled in place. *)
Fixpoint UnPackElements (old : list T) (l : list Obj) : option (list T) :=
  match l, old with
  | [], _ => Some []
  | e :: l, o :: old => x ← UnPackTo o e; xs ← UnPackElements old l; Some (x :: xs)
  | e :: l, [] => x ← UnPack e; xs ← UnPackElements [] l; Some (x :: xs)
  end.
(* SRC autogens/proto/snapshot_generated.h 1966-1966 Snapshot::UnPackTo *)
Definition UnPackTables (old : list T) (p : option Obj) : option (list T) :=
  match p with Some e => l ← offsets e; UnPackElements old l | None => Some [] end.
End Nested.

(** In [Pack]: an empty optional string or vector is a null offset. *)
(* SRC autogens/proto/dispatch_channel_generated.h 569-569 DispatchFormPayload::Pack *)
Definition PackString (s : string) : option Obj :=
  match s with EmptyString => None | _ => Some (CreateString s) end.
(* SRC autogens/proto/snapshot_generated.h 1843-1843 TrainState::Pack *)
Definition PackVector (s : scalar) (l : list Z) : option Obj :=
  match l with [] => None | _ => Some (CreateVector s l) end.
(* SRC autogens/proto/dispatch_channel_generated.h 568-568 DispatchFormPayload::Pack *)
Definition PackStrings (l : list string) : option Obj :=
  match l with [] => None | _ => Some (CreateVectorOfOffsets (CreateString <$> l)) end.
(* SRC autogens/proto/snapshot_generated.h 1506-1506 SwitchState::Pack *)
Definition PackTable {T} (Pack : T -> option Obj) (x : option T) : option (option Obj) :=
  match x with Some x => Some <$> Pack x | None => Some None end.
(* SRC autogens/proto/snapshot_generated.h 1990-1990 Snapshot::Pack *)
Definition PackTables {T} (Pack : T -> option Obj) (l : list T) : option (option Obj) :=
  match l with [] => Some None | _ => os ← mapM Pack l; Some (Some (CreateVectorOfOffsets os)) end.

(** [Finish] of a builder whose table has required fields: [None] is the
    failed assertion of [Required]. *)
Definition EndTableRequired (required : list Z) (ws : list (write Obj)) : option Obj :=
  let o := EndTable ws in if forallb (Required o) required then Some o else None.
End Fields.

(** ** Messages *)

(** What the compiler generates for a table and its native struct [T].  The
    last three are the specification's: the values the C++ types of the fields
    can hold, the tables of a message, and how deep they nest at most. *)
Record Message {F : FlatBuffers} (T : Type) : Type := mkMessage {
  msg_Pack : T -> option Obj;
  msg_UnPackTo : T -> Obj -> option T;
  msg_UnPack : Obj -> option T;
  msg_Verify : Obj -> verification;
  msg_fits : T -> Prop;
  msg_tables : T -> Z;
  msg_height : Z
}.
Definition tables_of {T} (f : T -> Z) (x : option T) : Z := from_option f 0 x.
Fixpoint tables_in {T} (f : T -> Z) (l : list T) : Z :=
  match l with [] => 0 | x :: l => f x + tables_in f l end.
Arguments mkMessage {F T}.
Arguments msg_Pack {F T} !_ /.
Arguments msg_UnPackTo {F T} !_ /.
Arguments msg_UnPack {F T} !_ /.
Arguments msg_Verify {F T} !_ /.
Arguments msg_fits {F T} !_ /.
Arguments msg_tables {F T} !_ /.
Arguments msg_height {F T} !_ /.

Section Laws.
Context {F : FlatBuffers} {FO : FlatBuffersOk F}.

(** Accepts whatever the state of the verifier, as long as [n] more tables and
    [h] more levels are within its limits. *)
Definition passes (m : verification) (n h : Z) : Prop :=
  forall v, depth v + h <= max_depth -> num_tables v + n <= max_tables ->
  exists v', m v = Some (true, v') /\ depth v' = depth v /\ num_tables v' = num_tables v + n.
(** The same, up to the end of the table. *)
Definition passes_to_end (m : verification) (n h : Z) : Prop :=
  forall v, depth v + h <= max_depth -> num_tables v + n <= max_tables ->
  exists v', m v = Some (true, v') /\ depth v' = depth v - 1 /\ num_tables v' = num_tables v + n.
(** Never reads outside the buffer, and accepts only if [P]. *)
Definition safely (m : verification) (P : Prop) : Prop :=
  forall v, exists b v', m v = Some (b, v') /\ (b = true -> P).

(** An object that reads as the message and that the verifier accepts. *)
Definition carries {T} (M : Message T) (o : Obj) (t : T) : Prop :=
  msg_UnPack M o = Some t /\ passes (msg_Verify M o) (msg_tables M t) (msg_height M).
(** A table may be filled into any native object. *)
Definition readable {T} (M : Message T) (o : Obj) : Prop := forall x, is_Some (msg_UnPackTo M x o).

Class MessageOk {T} (M : Message T) : Prop := {
  pack_ok t : msg_fits M t -> exists o, msg_Pack M t = Some o /\ carries M o t;
  verify_ok o : safely (msg_Verify M o) (readable M o);
  unpack_readable o : readable M o -> is_Some (msg_UnPack M o);
  tables_nonneg t : 0 <= msg_tables M t;
  height_nonneg : 0 <= msg_height M
}.

(** *** Composing verifications *)

Lemma passes_within m n h n' h' : passes m n h -> n = n' -> h <= h' -> passes m n' h'.
Proof. intros Hm <- ? v Hd Ht. apply Hm; lia. Qed.

Lemma check_passes : passes (check (Some true)) 0 0.
Proof. intros v _ _. exists v. split_and!; [done|done|lia]. Qed.

Lemma string_passes p q : p = Some q -> VerifyString q = true -> passes (check_string p) 0 0.
Proof. intros -> Hq v _ _. exists v. unfold check_string, on_pointer, check. cbn. rewrite Hq. split_and!; [done|done|lia]. Qed.
Lemma vector_passes e p q : p = Some q -> VerifyVector e q = true -> passes (check_vector e p) 0 0.
Proof. intros -> Hq v _ _. exists v. unfold check_vector, on_pointer, check. cbn. rewrite Hq. split_and!; [done|done|lia]. Qed.
Lemma strings_passes p q : p = Some q -> VerifyVectorOfStrings q = Some true -> passes (check_strings p) 0 0.
Proof. intros -> Hq v _ _. exists v. unfold check_strings, on_pointer, check. cbn. rewrite Hq. split_and!; [done|done|lia]. Qed.

Lemma end_passes : passes_to_end TableEnd 0 0.
Proof.
  intros v _ _. exists (VerifyTableEnd v).2. unfold TableEnd. rewrite verify_end at 1.
  by rewrite verify_end_depth, verify_end_tables, Z.add_0_r.
Qed.

Lemma then_passes m k n h n' h' :
  passes m n h -> passes_to_end k n' h' -> 0 <= n' -> 0 <= n -> passes_to_end (m &&> k) (n + n') (Z.max h h').
Proof.
  intros Hm Hk ? ? v Hd Ht. destruct (Hm v) as (v1 & E1 & Hd1 & Ht1); [lia|lia|].
  destruct (Hk v1) as (v2 & E2 & Hd2 & Ht2); [lia|lia|]. exists v2. unfold and_then. rewrite E1. cbn.
  split_and!; [done|lia|lia].
Qed.

Lemma table_passes ws k n h :
  slots_ok ws = true -> passes_to_end k n h -> 0 <= n -> 0 <= h -> passes (TableStart (EndTable ws) &&> k) (1 + n) (1 + h).
Proof.
  intros Hws Hk ? ? v Hd Ht. unfold and_then, TableStart. cbn.
  destruct (verify_start_built ws v Hws) as (Hs & Hsd & Hst); [lia|lia|].
  destruct (VerifyTableStart (EndTable ws) v) as [b v1]. cbn in *. subst b.
  destruct (Hk v1) as (v2 & E2 & Hd2 & Ht2); [lia|lia|]. exists v2. split_and!; [done|lia|lia].
Qed.

Lemma then_safely m k P Q : safely m P -> (P -> safely k Q) -> safely (m &&> k) (P /\ Q).
Proof.
  intros Hm Hk v. destruct (Hm v) as (b & v1 & E1 & Hb). unfold and_then. rewrite E1. cbn.
  destruct b; [|by exists false, v1]. destruct (Hk (Hb eq_refl) v1) as (b2 & v2 & E2 & Hb2).
  exists b2, v2. split; [done|]. intros Hb'. split; auto.
Qed.

Lemma safely_weaken m (P Q : Prop) : safely m P -> (P -> Q) -> safely m Q.
Proof. intros Hm HPQ v. destruct (Hm v) as (b & v' & E & Hb). exists b, v'. auto. Qed.

Lemma start_safely o : safely (TableStart o) (started o).
Proof.
  intros v. unfold TableStart. destruct (VerifyTableStart o v) as [b v'] eqn:E. exists b, v'. split; [done|].
  intros ->. exists v. by rewrite E.
Qed.
Lemma end_safely : safely TableEnd True.
Proof. intros v. exists true, (VerifyTableEnd v).2. unfold TableEnd. by rewrite verify_end at 1. Qed.

Lemma check_safely b (P : Prop) : is_Some b -> (b = Some true -> P) -> safely (check b) P.
Proof. intros [x ->] HP v. exists x, v. split; [done|]. intros ->. auto. Qed.

(** *** Fields that are built and read back *)

Lemma string_unpacks old s : UnPackString old (Some (CreateString s)) = Some s.
Proof. apply str_built. Qed.
Lemma pack_string_unpacks s : UnPackString "" (PackString s) = Some s.
Proof. destruct s; [done|]. apply str_built. Qed.
Lemma pack_string_verifies s : VerifyString (PackString s) = true.
Proof. destruct s; [apply verify_no_string|apply verify_string_built]. Qed.

Lemma vector_unpacks s l : Forall (fun x => in_range s x = true) l -> UnPackVector s (Some (CreateVector s l)) = Some l.
Proof. apply scalars_built. Qed.
Lemma pack_vector_unpacks s l : Forall (fun x => in_range s x = true) l -> UnPackVector s (PackVector s l) = Some l.
Proof. destruct l; [done|]. apply scalars_built. Qed.
Lemma pack_vector_verifies s l : VerifyVector (VectorOf s) (PackVector s l) = true.
Proof. destruct l; [apply verify_no_vector|apply verify_scalars_built]. Qed.

Lemma string_list_built l : string_list (CreateVectorOfOffsets (CreateString <$> l)) = Some l.
Proof.
  unfold string_list. rewrite offsets_built. cbn. apply mapM_Some_2.
  induction l; constructor; [apply str_built|done].
Qed.
Lemma strings_unpack l : UnPackStrings (Some (CreateVectorOfOffsets (CreateString <$> l))) = Some l.
Proof. apply string_list_built. Qed.
Lemma pack_strings_unpacks l : UnPackStrings (PackStrings l) = Some l.
Proof. destruct l; [done|]. apply string_list_built. Qed.
Lemma pack_strings_verifies l : VerifyVector VectorOfOffsets (PackStrings l) = true.
Proof. destruct l; [apply verify_no_vector|apply verify_offsets_built]. Qed.
Lemma pack_strings_verifies_each l : VerifyVectorOfStrings (PackStrings l) = Some true.
Proof. destruct l; [apply verify_no_strings|apply (verify_strings_built (_ :: _))]. Qed.

Lemma absent_string old : UnPackString old None = Some old.
Proof. done. Qed.
Lemma absent_vector s : UnPackVector s None = Some [].
Proof. done. Qed.
Lemma absent_table {T} (UnPackTo : T -> Obj -> option T) UnPack old : UnPackTable UnPackTo UnPack old None = Some None.
Proof. by destruct old. Qed.
Lemma absent_tables {T} (UnPackTo : T -> Obj -> option T) UnPack old : UnPackTables UnPackTo UnPack old None = Some [].
Proof. done. Qed.

Section NestedMessage.
Context {T : Type} {Pack : T -> option Obj} {UnPackTo : T -> Obj -> option T} {UnPack : Obj -> option T}
  {Verify : Obj -> verification} {fits : T -> Prop} {tables : T -> Z} {height : Z}.
Context {OK : MessageOk (mkMessage Pack UnPackTo UnPack Verify fits tables height)}.

Lemma tables_of_nonneg x : 0 <= tables_of tables x.
Proof. destruct x; [apply (tables_nonneg (MessageOk := OK))|done]. Qed.
Lemma tables_in_nonneg l : 0 <= tables_in tables l.
Proof. induction l as [|x l IH]; [done|]. cbn. pose proof (tables_nonneg (MessageOk := OK) x). cbn in *. lia. Qed.

Lemma pack_table_ok x : from_option fits True x ->
  exists p, PackTable Pack x = Some p /\ UnPackTable UnPackTo UnPack None p = Some x /\
    forall acc, acc = Some p -> passes (check_table Verify acc) (tables_of tables x) height.
Proof.
  destruct x as [x|]; cbn; intros Hx.
  - destruct (pack_ok (MessageOk := OK) x Hx) as (o & E & Hu & Hv). cbn in E, Hu, Hv. exists (Some o).
    rewrite E. cbn. rewrite Hu. split_and!; [done..|]. intros acc -> v Hd Ht.
    unfold check_table, on_pointer. cbn. rewrite verify_table. by apply Hv.
  - exists None. split_and!; [done..|]. intros acc -> v Hd Ht. exists v.
    unfold check_table, on_pointer. cbn. rewrite verify_no_table. split_and!; [done|done|lia].
Qed.

(** A vector of objects that carry messages. *)
Lemma each_carried os l :
  Forall2 (carries (mkMessage Pack UnPackTo UnPack Verify fits tables height)) os l ->
  UnPackElements UnPackTo UnPack [] os = Some l /\ passes (verify_each Verify os) (tables_in tables l) height.
Proof.
  induction 1 as [|o x os l [Hu Hv] _ [IHu IHv]].
  - split; [done|]. intros v _ _. exists v. split_and!; [done|done|cbn; lia].
  - cbn in Hu, Hv. cbn. rewrite Hu. cbn. rewrite IHu. split; [done|].
    intros v Hd Ht. pose proof (tables_in_nonneg l). pose proof (tables_nonneg (MessageOk := OK) x). cbn in *.
    destruct (Hv v) as (v1 & E1 & Hd1 & Ht1); [lia|lia|]. rewrite E1. cbn.
    destruct (IHv v1) as (v2 & E2 & Hd2 & Ht2); [lia|lia|]. exists v2. split_and!; [done|lia|lia].
Qed.

Lemma tables_carried os l :
  Forall2 (carries (mkMessage Pack UnPackTo UnPack Verify fits tables height)) os l ->
  UnPackTables UnPackTo UnPack [] (Some (CreateVectorOfOffsets os)) = Some l /\
  VerifyVector VectorOfOffsets (Some (CreateVectorOfOffsets os)) = true /\
  forall acc, acc = Some (Some (CreateVectorOfOffsets os)) ->
    passes (check_tables Verify acc) (tables_in tables l) height.
Proof.
  intros [Hu Hv]%each_carried. unfold UnPackTables. rewrite offsets_built.
  split_and!; [done|apply verify_offsets_built|]. intros acc -> v Hd Ht.
  unfold check_tables, on_pointer. cbn [mbind option_bind].
  rewrite (verify_tables Verify _ os v) by apply offsets_built. by apply Hv.
Qed.

Lemma pack_each_ok l : Forall fits l ->
  exists os, mapM Pack l = Some os /\
    Forall2 (carries (mkMessage Pack UnPackTo UnPack Verify fits tables height)) os l.
Proof.
  induction 1 as [|x l Hx _ (os & IHp & IHc)]; [by exists []|].
  destruct (pack_ok (MessageOk := OK) x Hx) as (o & E & Hc). cbn in E. exists (o :: os). cbn. rewrite E. cbn.
  rewrite IHp. split; [done|by constructor].
Qed.

Lemma pack_tables_ok l : Forall fits l ->
  exists p, PackTables Pack l = Some p /\ UnPackTables UnPackTo UnPack [] p = Some l /\
    VerifyVector VectorOfOffsets p = true /\
    forall acc, acc = Some p -> passes (check_tables Verify acc) (tables_in tables l) height.
Proof.
  intros Hl. destruct (decide (l = [])) as [->|Hne].
  - exists None. split_and!; [done|done|apply verify_no_vector|]. intros acc -> v Hd Ht. exists v.
    unfold check_tables, on_pointer. cbn. rewrite verify_no_tables. split_and!; [done|done|lia].
  - destruct (pack_each_ok l Hl) as (os & E & Hc%tables_carried). exists (Some (CreateVectorOfOffsets os)).
    destruct l as [|x l]; [done|]. cbn [PackTables]. by rewrite E.
Qed.

(** A nested table or vector that was not written. *)
Lemma no_table_passes p : p = Some None -> passes (check_table Verify p) 0 0.
Proof.
  intros -> v Hd Ht. exists v. unfold check_table, on_pointer. cbn. rewrite verify_no_table.
  split_and!; [done|done|lia].
Qed.
Lemma no_tables_passes p : p = Some None -> passes (check_tables Verify p) 0 0.
Proof.
  intros -> v Hd Ht. exists v. unfold check_tables, on_pointer. cbn. rewrite verify_no_tables.
  split_and!; [done|done|lia].
Qed.

(** *** Nested tables that are verified before they are read *)

Lemma elements_defined old l :
  Forall (fun o => forall x, is_Some (UnPackTo x o)) l -> is_Some (UnPackElements UnPackTo UnPack old l).
Proof.
  intros Hl. revert old. induction Hl as [|o l Ho Hl IH]; intros old; [done|]. destruct old as [|x old]; cbn.
  - destruct (unpack_readable (MessageOk := OK) o Ho) as [y E]. cbn in E. rewrite E. cbn.
    destruct (IH []) as [ys ->]. by eexists.
  - destruct (Ho x) as [y ->]. cbn. destruct (IH old) as [ys ->]. by eexists.
Qed.

Lemma verify_each_safely l : safely (verify_each Verify l) (Forall (fun o => forall x, is_Some (UnPackTo x o)) l).
Proof.
  induction l as [|o l IH]; intros v; cbn.
  - exists true, v. split; [done|by constructor].
  - destruct (verify_ok (MessageOk := OK) o v) as (b & v1 & E & Hb). cbn in E. rewrite E. cbn.
    destruct b; [|by exists false, v1]. destruct (IH v1) as (b2 & v2 & E2 & Hb2).
    exists b2, v2. split; [done|]. intros Hb'. constructor; [by apply Hb|by apply Hb2].
Qed.

Lemma tables_safely p : (exists q, p = Some q /\ VerifyVector VectorOfOffsets q = true) ->
  safely (check_tables Verify p) (forall old, is_Some (p ≫= UnPackTables UnPackTo UnPack old)).
Proof.
  intros (q & -> & Hq) v. unfold check_tables, on_pointer. cbn. destruct q as [o|].
  - destruct (verified_offsets o Hq) as [l El]. rewrite (verify_tables _ _ _ _ El).
    destruct (verify_each_safely l v) as (b & v' & E & Hb). exists b, v'. split; [done|]. intros Hb' old.
    cbn. rewrite El. cbn. by apply elements_defined, Hb.
  - rewrite verify_no_tables. exists true, v. split; [done|]. intros _ old. by eexists.
Qed.

Lemma table_safely p : is_Some p ->
  safely (check_table Verify p) (forall old, is_Some (p ≫= UnPackTable UnPackTo UnPack old)).
Proof.
  intros [q ->] v. unfold check_table, on_pointer. cbn. destruct q as [o|].
  - rewrite verify_table. destruct (verify_ok (MessageOk := OK) o v) as (b & v' & E & Hb). cbn in E.
    exists b, v'. split; [done|]. intros Hb' old. specialize (Hb Hb'). destruct old as [x|]; cbn.
    + destruct (Hb x) as [y E']. cbn in E'. rewrite E'. by eexists.
    + destruct (unpack_readable (MessageOk := OK) o Hb) as [y E']. cbn in E'. rewrite E'. by eexists.
  - rewrite verify_no_table. exists true, v. split; [done|]. intros _ old. by destruct old; eexists.
Qed.
End NestedMessage.

(** *** Fields that are verified before they are read *)

Lemma field_safely s o vt a : started o ->
  safely (check (VerifyField s o vt a)) (forall d, is_Some (GetField s o vt d)).
Proof. intros Ho. apply check_safely; [by apply verify_field_defined|]. intros E d. by eapply verified_field. Qed.
Lemma float_safely o vt a : started o ->
  safely (check (VerifyFieldF o vt a)) (forall d, is_Some (GetFieldF o vt d)).
Proof. intros Ho. apply check_safely; [by apply verify_float_defined|]. intros E d. by eapply verified_float. Qed.
Lemma offset_safely o vt : started o -> safely (check (VerifyOffset o vt)) (is_Some (GetPointer o vt)).
Proof. intros Ho. apply check_safely; [by apply verify_offset_defined|]. apply verified_offset. Qed.
Lemma required_safely o vt : started o -> safely (check (VerifyOffsetRequired o vt)) (is_Some (GetPointer o vt)).
Proof.
  intros Ho. apply check_safely; [by apply verify_required_defined|].
  intros E. by destruct (verified_required o vt E); eexists.
Qed.

Lemma string_safely p : is_Some p ->
  safely (check_string p) (forall old, is_Some (p ≫= UnPackString old)).
Proof.
  intros [q ->]. apply (check_safely (Some (VerifyString q))); [by eexists|]. intros [= Hq] old.
  destruct q; [by apply verified_string|by eexists].
Qed.
Lemma vector_safely s p : is_Some p ->
  safely (check_vector (VectorOf s) p) (is_Some (p ≫= UnPackVector s)).
Proof.
  intros [q ->]. apply (check_safely (Some (VerifyVector (VectorOf s) q))); [by eexists|]. intros [= Hq].
  destruct q; [by apply verified_scalars|by eexists].
Qed.
Lemma offsets_safely p : is_Some p ->
  safely (check_vector VectorOfOffsets p) (exists q, p = Some q /\ VerifyVector VectorOfOffsets q = true).
Proof.
  intros [q ->]. apply (check_safely (Some (VerifyVector VectorOfOffsets q))); [by eexists|].
  intros [= Hq]. by exists q.
Qed.
Lemma strings_safely p : (exists q, p = Some q /\ VerifyVector VectorOfOffsets q = true) ->
  safely (check_strings p) (is_Some (p ≫= UnPackStrings)).
Proof.
  intros (q & -> & Hq). apply (check_safely (VerifyVectorOfStrings q)).
  - destruct q as [o|]; [by apply verify_strings_defined, verified_offsets|]. rewrite verify_no_strings. by eexists.
  - destruct q as [o|]; [apply verified_strings|by eexists].
Qed.
End Laws.

Lemma bind_is_Some {A B} (m : option A) (k : A -> option B) :
  is_Some m -> (forall x, is_Some (k x)) -> is_Some (m ≫= k).
Proof. intros [x ->] Hk. apply Hk. Qed.

(** A table with its required fields written passes the assertions. *)
Lemma required_table {F : FlatBuffers} {FO : FlatBuffersOk F} required ws :
  slots_ok ws = true ->
  forallb (fun vt => match pointer_at (written vt ws) with Some (Some _) => true | _ => false end) required = true ->
  EndTableRequired required ws = Some (EndTable ws).
Proof.
  intros Hws Hall. unfold EndTableRequired. assert (forallb (Required (EndTable ws)) required = true) as ->; [|done].
  rewrite forallb_forall in *. intros vt Hvt. specialize (Hall vt Hvt).
  destruct (pointer_at (written vt ws)) as [[o|]|] eqn:E; [|done..]. by eapply required_built.
Qed.

#[global] Arguments in_range : simpl never.
#[global] Arguments float_field : simpl never.
#[global] Arguments slots_ok : simpl never.
#[global] Arguments written : simpl never.
#[global] Arguments scalar_at : simpl never.
#[global] Arguments float_at : simpl never.
#[global] Arguments pointer_at : simpl never.
#[global] Arguments UnPackString : simpl never.
#[global] Arguments UnPackVector : simpl never.
#[global] Arguments UnPackStrings : simpl never.
#[global] Arguments UnPackTable : simpl never.
#[global] Arguments UnPackTables : simpl never.
#[global] Arguments PackString : simpl never.
#[global] Arguments PackVector : simpl never.
#[global] Arguments PackStrings : simpl never.
#[global] Arguments PackTable : simpl never.
#[global] Arguments PackTables : simpl never.
#[global] Arguments EndTableRequired : simpl never.
#[global] Arguments and_then : simpl never.
#[global] Arguments check : simpl never.
#[global] Arguments TableStart : simpl never.
#[global] Arguments TableEnd : simpl never.
#[global] Arguments check_string : simpl never.
#[global] Arguments check_vector : simpl never.
#[global] Arguments check_strings : simpl never.
#[global] Arguments check_tables : simpl never.
#[global] Arguments check_table : simpl never.
#[global] Arguments tables_of : simpl never.
#[global] Arguments tables_in : simpl never.
#[global] Arguments Z.b2z : simpl never.
#[global] Arguments Z.mul : simpl never.

(** ** The proof for a table *)

(** The write of a slot, computed. *)
Ltac the_write vt ws := eval cbn [List.find slot Z.eqb Pos.eqb] in (List.find (fun w => slot w =? vt) ws).

(** A read of a slot of a built table. *)
Ltac read_built Hws :=
  match goal with
  | |- context [GetField ?s (EndTable ?ws) ?vt ?d] =>
      lazymatch the_write vt ws with
      | None => rewrite (get_field_built s ws vt d d Hws) by reflexivity
      | Some (Element _ _ ?x _) =>
          rewrite (get_field_built s ws vt d x Hws) by (apply element_at; first [assumption | apply in_range_bool])
      end
  | |- context [GetFieldF (EndTable ?ws) ?vt ?d] =>
      lazymatch the_write vt ws with
      | None => rewrite (get_float_built ws vt d d Hws) by reflexivity
      | Some (ElementF _ ?x _) =>
          rewrite (get_float_built ws vt d x Hws) by (apply float_element_at; assumption)
      end
  | |- context [GetPointer (EndTable ?ws) ?vt] =>
      lazymatch the_write vt ws with
      | None => rewrite (get_pointer_built ws vt None Hws) by reflexivity
      | Some (OffsetAt _ ?p) => rewrite (get_pointer_built ws vt p Hws) by reflexivity
      end
  end.

(** The number of tables of a nested field is a variable of the arithmetic. *)
Ltac abstract_tables Hv :=
  match type of Hv with
  | forall acc, _ -> passes _ ?m _ => let n := fresh "n" in set (n := m) in *; clearbody n
  end.

(** The nested tables of a message are packed by their own code. *)
Ltac pack_nested :=
  repeat match goal with
  | H : from_option ?P True ?x |- context [PackTable ?f ?x] =>
      let p := fresh "p" in let E := fresh "E" in let Hu := fresh "Hu" in let Hv := fresh "Hv" in
      pose proof (tables_of_nonneg (Pack := f) x);
      destruct (pack_table_ok (Pack := f) x H) as (p & E & Hu & Hv); rewrite E; clear E; cbn [mbind option_bind];
      abstract_tables Hv
  | H : Forall ?P ?x |- context [PackTables ?f ?x] =>
      let p := fresh "p" in let E := fresh "E" in let Hu := fresh "Hu" in let Hv := fresh "Hv" in let Hw := fresh "Hw" in
      pose proof (tables_in_nonneg (Pack := f) x);
      destruct (pack_tables_ok (Pack := f) x H) as (p & E & Hu & Hw & Hv); rewrite E; clear E; cbn [mbind option_bind];
      abstract_tables Hv
  end.

Ltac unpack_built Hws :=
  repeat first
    [ read_built Hws; cbn [mbind option_bind]
    | rewrite nonzero_bool
    | rewrite string_unpacks | rewrite pack_string_unpacks
    | rewrite vector_unpacks by assumption | rewrite pack_vector_unpacks by assumption
    | rewrite strings_unpack | rewrite pack_strings_unpacks
    | rewrite absent_string | rewrite absent_vector | rewrite absent_table | rewrite absent_tables
    | match goal with H : ?read = Some _ |- context [?read] => rewrite H; clear H end
    | progress cbn [mbind option_bind] ].

(** Steps a table adds for a field of a kind of its own. *)
Ltac pack_hook := fail.
Ltac passes_hook Hws := fail.
Ltac safely_hook := fail.
Ltac read_hook := fail.
Ltac nonneg_hook := fail.

(** One operand of the verification of a built table. *)
Ltac built_pointer Hws := eapply (get_pointer_built _ _ _ Hws); reflexivity.
Ltac passes_step Hws :=
  lazymatch goal with
  | |- passes (check (VerifyField ?s (EndTable ?ws) ?vt ?a)) _ _ =>
      rewrite (verify_field_built s ws vt a Hws); [apply check_passes| |reflexivity];
      first [ apply element_some; first [assumption | apply in_range_bool] | eexists; reflexivity ]
  | |- passes (check (VerifyFieldF (EndTable ?ws) ?vt ?a)) _ _ =>
      rewrite (verify_float_built ws vt a Hws); [apply check_passes| |reflexivity];
      first [ eexists; apply float_element_at; assumption | eexists; reflexivity ]
  | |- passes (check (VerifyOffset (EndTable ?ws) ?vt)) _ _ =>
      rewrite (verify_offset_built ws vt Hws) by (eexists; reflexivity); apply check_passes
  | |- passes (check (VerifyOffsetRequired (EndTable ?ws) ?vt)) _ _ =>
      erewrite (verify_required_built ws vt _ Hws) by reflexivity; apply check_passes
  | |- passes (check_string _) _ _ =>
      eapply string_passes; [built_pointer Hws|];
      first [apply verify_string_built | apply pack_string_verifies | apply verify_no_string]
  | |- passes (check_vector _ _) _ _ =>
      eapply vector_passes; [built_pointer Hws|];
      first [ assumption | apply verify_scalars_built | apply pack_vector_verifies
            | apply pack_strings_verifies | apply verify_offsets_built | apply verify_no_vector ]
  | |- passes (check_strings _) _ _ =>
      eapply strings_passes; [built_pointer Hws|];
      first [apply pack_strings_verifies_each | apply verify_strings_built]
  | |- passes (_ _ (GetPointer (EndTable ?ws) ?vt)) _ _ =>
      lazymatch the_write vt ws with
      | None => first [apply no_table_passes | apply no_tables_passes]; built_pointer Hws
      | Some (OffsetAt _ None) => first [apply no_table_passes | apply no_tables_passes]; built_pointer Hws
      | Some (OffsetAt _ ?p) =>
          match goal with H : forall acc, acc = Some p -> _ |- _ => eapply H; built_pointer Hws end
      end
  | _ => passes_hook Hws
  end.
Ltac passes_chain Hws :=
  lazymatch goal with
  | |- passes_to_end TableEnd _ _ => apply end_passes
  | |- passes_to_end (_ &&> _) _ _ =>
      eapply then_passes; [passes_step Hws | passes_chain Hws | lia | lia]
  end.

(** One operand of the verification of any table. *)
Ltac safely_step :=
  lazymatch goal with
  | H : started ?o |- safely (check (VerifyField _ ?o _ _)) _ => apply (field_safely _ _ _ _ H)
  | H : started ?o |- safely (check (VerifyFieldF ?o _ _)) _ => apply (float_safely _ _ _ H)
  | H : started ?o |- safely (check (VerifyOffset ?o _)) _ => apply (offset_safely _ _ H)
  | H : started ?o |- safely (check (VerifyOffsetRequired ?o _)) _ => apply (required_safely _ _ H)
  | |- safely (check_string _) _ => apply string_safely; assumption
  | |- safely (check_vector (VectorOf _) _) _ => apply vector_safely; assumption
  | |- safely (check_vector VectorOfOffsets _) _ => apply offsets_safely; assumption
  | |- safely (check_strings _) _ => apply strings_safely; assumption
  | |- safely (check_table _ _) _ => apply table_safely; assumption
  | |- safely (check_tables _ _) _ => apply tables_safely; assumption
  | _ => safely_hook
  end.
Ltac safely_chain :=
  lazymatch goal with
  | |- safely TableEnd _ => apply end_safely
  | |- safely (TableStart _ &&> _) _ => eapply then_safely; [apply start_safely | intros ?; safely_chain]
  | |- safely (_ &&> _) _ => eapply then_safely; [safely_step | intros ?; safely_chain]
  end.
Ltac read_verified :=
  lazymatch goal with
  | |- is_Some (Some _) => eexists; reflexivity
  | |- is_Some (mbind _ _) =>
      first [ read_hook
            | match goal with
              | H : forall old, is_Some _ |- _ => apply H
              | H : is_Some _ |- _ => apply H
              end
            | apply bind_is_Some; [read_verified | intros ?; read_verified] ]
  | |- is_Some _ =>
      match goal with H : forall d, is_Some _ |- _ => apply H | H : is_Some _ |- _ => apply H end
  end.

Ltac split_facts :=
  repeat match goal with H : _ /\ _ |- _ => destruct H end.

(** Nested tables that were left out count for none. *)
Ltac absent_nested :=
  repeat match goal with
  | |- context [tables_of ?f None] => change (tables_of f None) with 0
  | |- context [tables_in ?f []] => change (tables_in f []) with 0
  end.

(** An object built by a builder carries a message. *)
Ltac solve_carries :=
  let Hws := fresh "Hws" in
  eexists; split;
  [ first [reflexivity | apply required_table; reflexivity] | ];
  match goal with |- context [EndTable ?ws] => assert (slots_ok ws = true) as Hws by reflexivity end;
  split;
  [ cbn; unpack_built Hws; reflexivity
  | cbn; absent_nested; eapply passes_within;
    [ eapply table_passes; [exact Hws | passes_chain Hws | lia | vm_compute; discriminate] | | ];
    [lia | vm_compute; discriminate] ].

(** [unfold_it] unfolds the functions generated for the table. *)
Ltac solve_message_with unfold_it :=
  constructor;
  [ intros t Hfits; destruct t; unfold carries; unfold_it tt; cbn in *; split_facts; pack_nested;
    try pack_hook; solve_carries
  | intros o; unfold readable; unfold_it tt; cbn; eapply safely_weaken;
    [ safely_chain | intros Hall x; split_facts; read_verified ]
  | intros o Ho; red in Ho; cbn in Ho |- *; apply Ho
  | intros t; unfold_it tt; cbn;
    repeat match goal with
    | |- context [tables_of ?f ?x] => let n := fresh "n" in pose proof (tables_of_nonneg (tables := f) x); set (n := tables_of f x) in *; clearbody n
    | |- context [tables_in ?f ?x] => let n := fresh "n" in pose proof (tables_in_nonneg (tables := f) x); set (n := tables_in f x) in *; clearbody n
    end; try nonneg_hook; lia
  | unfold_it tt; cbn; lia ].
