(* ===== verification/FlatTree.v ===== *)
(** * FlatTree: a concrete FlatBuffers library

    Objects as trees, and buffers as an encoding of them: an implementation of
    [FlatBuffers] that satisfies [FlatBuffersOk], so the hypotheses under which
    the messages are proved correct can hold.  Its bytes are not those of the
    library, whose source is not part of the repository. *)
From S2P Require Import Prelude Float32 Frame Flat.
From Stdlib Require Import SpecFloat.
Local Open Scope Z_scope.

Inductive tree : Type :=
  | TTable (ws : list (write tree))
  | TString (s : string)
  | TScalars (s : scalar) (l : list Z)
  | TOffsets (l : list tree)
  | TJunk.

(** ** Encoding *)

Definition scalar_code (s : scalar) : Z :=
  match s with U8 => 0 | I8 => 1 | U16 => 2 | U32 => 3 | I32 => 4 | U64 => 5 end.
Definition scalar_of (z : Z) : scalar :=
  if z =? 0 then U8 else if z =? 1 then I8 else if z =? 2 then U16 else if z =? 3 then U32
  else if z =? 4 then I32 else U64.
Lemma scalar_of_code s : scalar_of (scalar_code s) = s.
Proof. by destruct s. Qed.

Definition float_code (x : spec_float) : Z * Z * Z :=
  match x with
  | S754_zero s => (0, Z.b2z s, 0) | S754_infinity s => (1, Z.b2z s, 0) | S754_nan => (2, 0, 0)
  | S754_finite s m e => (3 + Z.b2z s, Zpos m, e)
  end.
Definition float_of (c : Z * Z * Z) : spec_float :=
  let '(k, a, e) := c in
  if k =? 0 then S754_zero (a =? 1) else if k =? 1 then S754_infinity (a =? 1)
  else if k =? 2 then S754_nan else S754_finite (k =? 4) (Z.to_pos a) e.
Lemma float_of_code x : float_of (float_code x) = x.
Proof. by destruct x as [[]|[]| |[] m e]. Qed.

#[local] Arguments scalar_of : simpl never.
#[local] Arguments scalar_code : simpl never.
#[local] Arguments float_of : simpl never.
#[local] Arguments float_code : simpl never.

(** Leaves are integers and strings. *)
Notation gtree := (gen_tree (Z + string)).
Notation num z := (GenLeaf (inl z) : gtree).

Section Encode.
Variable encode_tree : tree -> gtree.
Definition encode_write (w : write tree) : gtree :=
  match w with
  | Element s vt x d => GenNode 0 [num (scalar_code s); num vt; num x; num d]
  | ElementF vt x d =>
      let '(a, b, c) := float_code x in let '(a', b', c') := float_code d in
      GenNode 1 [num vt; num a; num b; num c; num a'; num b'; num c']
  | OffsetAt vt None => GenNode 2 [num vt]
  | OffsetAt vt (Some o) => GenNode 3 [num vt; encode_tree o]
  end.
End Encode.
Fixpoint encode_tree (t : tree) : gtree :=
  match t with
  | TTable ws => GenNode 0 (map (encode_write encode_tree) ws)
  | TString s => GenNode 1 [GenLeaf (inr s)]
  | TScalars s l => GenNode 2 (num (scalar_code s) :: map (fun z => num z) l)
  | TOffsets l => GenNode 3 (map encode_tree l)
  | TJunk => GenNode 4 []
  end.

Definition num_of (t : gtree) : Z := match t with GenLeaf (inl z) => z | _ => 0 end.
Section Decode.
Variable decode_tree : gtree -> tree.
Definition decode_write (t : gtree) : write tree :=
  match t with
  | GenNode 0 [s; vt; x; d] => Element (scalar_of (num_of s)) (num_of vt) (num_of x) (num_of d)
  | GenNode 1 [vt; a; b; c; a'; b'; c'] =>
      ElementF (num_of vt) (float_of (num_of a, num_of b, num_of c)) (float_of (num_of a', num_of b', num_of c'))
  | GenNode 3 [vt; o] => OffsetAt (num_of vt) (Some (decode_tree o))
  | GenNode _ (vt :: _) => OffsetAt (num_of vt) None
  | _ => OffsetAt 0 None
  end.
End Decode.
Fixpoint decode_tree (t : gtree) : tree :=
  match t with
  | GenNode 0 l => TTable (map (decode_write decode_tree) l)
  | GenNode 1 [GenLeaf (inr s)] => TString s
  | GenNode 2 (s :: l) => TScalars (scalar_of (num_of s)) (map num_of l)
  | GenNode 3 l => TOffsets (map decode_tree l)
  | _ => TJunk
  end.

Lemma map_id {A B} (f : A -> B) (g : B -> A) l : Forall (fun x => g (f x) = x) l -> map g (map f l) = l.
Proof. induction 1 as [|x l Hx _ IH]; [done|]. cbn. by rewrite Hx, IH. Qed.

Fixpoint decode_encode_tree (t : tree) : decode_tree (encode_tree t) = t.
Proof.
  destruct t as [ws|s|s l|l|]; cbn [encode_tree decode_tree]; [| done | | | done].
  - f_equal. apply map_id. induction ws as [|w ws IH]; constructor; [|exact IH].
    destruct w as [s vt x d|vt x d|vt [o|]]; cbn.
    + by rewrite scalar_of_code.
    + destruct (float_code x) as [[a b] c] eqn:Ex, (float_code d) as [[a' b'] c'] eqn:Ed. cbn [decode_write num_of].
      by rewrite <- Ex, <- Ed, (float_of_code x), (float_of_code d).
    + by rewrite decode_encode_tree.
    + done.
  - cbn [num_of]. rewrite scalar_of_code. f_equal. apply map_id. by induction l; constructor.
  - f_equal. apply map_id. induction l as [|o l IH]; constructor; [apply decode_encode_tree|exact IH].
Qed.

Fixpoint bits (p : positive) : list byte :=
  match p with xH => [] | xO p => 0 :: bits p | xI p => 1 :: bits p end.
Fixpoint unbits (l : list byte) : positive :=
  match l with [] => xH | b :: l => if b =? 0 then xO (unbits l) else xI (unbits l) end.
Lemma unbits_bits p : unbits (bits p) = p.
Proof. induction p as [p IH|p IH|]; cbn; by rewrite ?IH. Qed.
Lemma bits_bytes p : Forall is_byte (bits p).
Proof. by induction p; cbn; repeat constructor. Qed.

(** ** The library *)

Definition table (o : tree) : option (list (write tree)) := match o with TTable ws => Some ws | _ => None end.

#[global] Instance tree_library : FlatBuffers := {|
  Obj := tree;
  GetField s o vt d := ws ← table o; scalar_at s d (written vt ws);
  GetFieldF o vt d := ws ← table o; float_at d (written vt ws);
  GetPointer o vt := ws ← table o; pointer_at (written vt ws);
  str o := match o with TString s => Some s | _ => None end;
  scalars s o := match o with TScalars s' l => if bool_decide (s' = s) then Some l else None | _ => None end;
  offsets o := match o with TOffsets l => Some l | _ => None end;
  EndTable := TTable;
  Required o vt :=
    match ws ← table o; pointer_at (written vt ws) with Some (Some _) => true | _ => false end;
  CreateString := TString;
  CreateVector := TScalars;
  CreateVectorOfOffsets := TOffsets;
  Finish o := bits (encode (encode_tree o));
  GetRoot buf := default TJunk (decode_tree <$> decode (unbits buf));
  Verifier := Z * Z;
  fresh := (0, 0);
  depth := fst;
  num_tables := snd;
  VerifyTableStart o v :=
    (bool_decide (is_Some (table o)) && (v.1 + 1 <=? max_depth) && (v.2 + 1 <=? max_tables), (v.1 + 1, v.2 + 1));
  VerifyTableEnd v := (true, (v.1 - 1, v.2));
  VerifyField s o vt a := ws ← table o; Some (bool_decide (is_Some (scalar_at s 0 (written vt ws))));
  VerifyFieldF o vt a := ws ← table o; Some (bool_decide (is_Some (float_at f32_zero (written vt ws))));
  VerifyOffset o vt := ws ← table o; Some (bool_decide (is_Some (pointer_at (written vt ws))));
  VerifyOffsetRequired o vt :=
    ws ← table o; Some (match pointer_at (written vt ws) with Some (Some _) => true | _ => false end);
  VerifyString p := match p with Some (TString _) | None => true | _ => false end;
  VerifyVector e p :=
    match p, e with
    | None, _ => true
    | Some (TScalars s' _), VectorOf s => bool_decide (s' = s)
    | Some (TOffsets _), VectorOfOffsets => true
    | _, _ => false
    end;
  VerifyVectorOfStrings p :=
    match p with
    | None => Some true
    | Some (TOffsets l) => Some (forallb (fun o => match o with TString _ => true | _ => false end) l)
    | Some _ => None
    end;
  VerifyVectorOfTables f p v :=
    match p with
    | None => Some (true, v)
    | Some (TOffsets l) => verify_each f l v
    | Some _ => Some (false, v)
    end;
  VerifyTable f p v := match p with None => Some (true, v) | Some o => f o v end;
  VerifyBuffer f buf := fst <$> f (default TJunk (decode_tree <$> decode (unbits buf))) (0, 0)
|}.

Lemma root_tree o : (default TJunk (decode_tree <$> decode (unbits (bits (encode (encode_tree o))))) : tree) = o.
Proof. rewrite unbits_bits, countable.decode_encode. cbn. apply decode_encode_tree. Qed.

Lemma is_string_list (l : list tree) :
  forallb (fun o => match o with TString _ => true | _ => false end) l = true ->
  is_Some (mapM (fun o => match o with TString s => Some s | _ => None end) l).
Proof.
  induction l as [|o l IH]; [by eexists|]. cbn. intros [Ho Hl]%andb_prop. destruct o; try done. cbn.
  destruct (IH Hl) as [ss ->]. by eexists.
Qed.

Lemma all_strings (l : list string) :
  forallb (fun o => match o with TString _ => true | _ => false end) (TString <$> l) = true.
Proof. by induction l. Qed.

Lemma started_table (o : tree) : started o -> is_Some (table o).
Proof. intros [v Hv]. cbn in Hv. by case_bool_decide. Qed.

(** Whether a scalar may be read does not depend on the reader's default. *)
Lemma scalar_at_default s d d' (w : option (write tree)) :
  is_Some (scalar_at s d w) -> is_Some (scalar_at s d' w).
Proof. destruct w as [[]|]; unfold scalar_at; try case_match; try done; by eexists. Qed.
Lemma float_at_default d d' (w : option (write tree)) : is_Some (float_at d w) -> is_Some (float_at d' w).
Proof. destruct w as [[]|]; unfold float_at; try case_match; try done; by eexists. Qed.
Lemma scalar_at_range s d (w : option (write tree)) x :
  in_range s d = true -> scalar_at s d w = Some x -> in_range s x = true.
Proof.
  intros Hd. destruct w as [[s' vt y d'| |]|]; unfold scalar_at; try done; [|by intros [= <-]].
  case_bool_decide; cbn; [|done]. destruct (in_range s y) eqn:E; [|done]. intros [= <-]. by case_match.
Qed.

#[global] Instance tree_library_ok : FlatBuffersOk tree_library.
Proof.
  constructor; cbn.
  all: try (intros; done).
  all: try (intros; by eexists).
  all: try (by intros * _ ->).
  all: try (intros * _ Hs; by rewrite bool_decide_true).
  all: try (intros * _ Hs _; by rewrite bool_decide_true).
  all: try (intros * Ho; apply started_table in Ho; destruct Ho as [ws ->]; by eexists).
  all: try (intros * _ Ho; apply started_table in Ho; destruct Ho as [ws ->]; by eexists).
  - intros s l _. by rewrite bool_decide_true.
  - apply root_tree.
  - intros s o vt d x Hd. destruct (table o); [|done]. by apply scalar_at_range.
  - intros o. apply bits_bytes.
  - intros s o vt _ d. destruct (table o); [|done]. intros [= H%bool_decide_eq_true]. by eapply scalar_at_default.
  - intros o vt _ d. destruct (table o); [|done]. intros [= H%bool_decide_eq_true]. by eapply float_at_default.
  - intros o vt. destruct (table o); [|done]. by intros [= H%bool_decide_eq_true].
  - intros o vt. destruct (table o) as [ws|]; [|done]. cbn.
    destruct (pointer_at (written vt ws)) as [[p|]|]; try done. by exists p.
  - intros o Ho. by destruct o.
  - intros s o. destruct o; try done. intros H%bool_decide_eq_true. rewrite bool_decide_true by done. by eexists.
  - intros o Ho. by destruct o.
  - intros o [l Hl]. by destruct o.
  - intros o. destruct o; try done. intros [= H]. by apply is_string_list.
  - intros f o l v. destruct o; try done. by intros [= ->].
  - intros ws v _ Hd Ht. rewrite (proj2 (Z.leb_le (v.1 + 1) max_depth)) by lia.
    by rewrite (proj2 (Z.leb_le (v.2 + 1) max_tables)) by lia.
  - intros s _. by rewrite bool_decide_true.
  - intros l. by rewrite all_strings.
  - intros f buf Hf. destruct (Hf (default TJunk (decode_tree <$> decode (unbits buf))) (0, 0)) as [x ->]. by eexists.
  - intros f buf. destruct (f _ _) as [[b v]|]; [|done]. cbn. intros [= ->]. by exists v.
  - intros f o v Hf. rewrite root_tree. by rewrite Hf.
Qed.
