(* ===== verification/ProtoCommon.v ===== *)
(** * ProtoCommon: the enumerations of the wire protocol

    [autogens/proto/common_generated.h], the code the FlatBuffers compiler
    writes for [proto/common.fbs], in the namespace [proto].  An enumeration is
    a module with its enumerators; a field of a message holds the integer,
    which may name no enumerator. *)
From S2P Require Import Prelude.
Local Open Scope Z_scope.

Definition IsOutRange (e low high : Z) : bool := (e <? low) || (high <? e).

Module proto.
(** Signal aspects as displayed on EbiScreen / technical diagram. Values must
    match engine::core::SignalAspect (engine/include/engine/core/types.hpp). *)
(* SRC autogens/proto/common_generated.h 20-40 Aspect *)
Module Aspect.
Inductive t : Set :=
  | S1_STOP | S2_PROCEED | S3_PROCEED_40 | S4_PROCEED_40_EXPECT_STOP | S5_EXPECT_STOP |
    S6_PROCEED_100 | S7_PROCEED_100_EXPECT_STOP | S8_PROCEED_100_EXPECT_40 |
    S9_PROCEED_100_EXPECT_60 | S10_PROCEED_40 | S11_PROCEED_40_EXPECT_40 | S12_PROCEED_60 |
    S13_PROCEED_60_EXPECT_60 | SZ_PROCEED | SZN_PROCEED_W24 | MS1_STOP | MS2_SHUNTING_ALLOWED.
Definition to_code (x : t) : BinNums.Z :=
  match x with
  | S1_STOP => 0 | S2_PROCEED => 1 | S3_PROCEED_40 => 2 | S4_PROCEED_40_EXPECT_STOP => 3 |
    S5_EXPECT_STOP => 4 | S6_PROCEED_100 => 5 | S7_PROCEED_100_EXPECT_STOP => 6 |
    S8_PROCEED_100_EXPECT_40 => 7 | S9_PROCEED_100_EXPECT_60 => 8 | S10_PROCEED_40 => 9 |
    S11_PROCEED_40_EXPECT_40 => 10 | S12_PROCEED_60 => 11 | S13_PROCEED_60_EXPECT_60 => 12 |
    SZ_PROCEED => 13 | SZN_PROCEED_W24 => 14 | MS1_STOP => 15 | MS2_SHUNTING_ALLOWED => 16
  end%Z.
Definition all : list t :=
  [S1_STOP; S2_PROCEED; S3_PROCEED_40; S4_PROCEED_40_EXPECT_STOP; S5_EXPECT_STOP;
    S6_PROCEED_100; S7_PROCEED_100_EXPECT_STOP; S8_PROCEED_100_EXPECT_40;
    S9_PROCEED_100_EXPECT_60; S10_PROCEED_40; S11_PROCEED_40_EXPECT_40; S12_PROCEED_60;
    S13_PROCEED_60_EXPECT_60; SZ_PROCEED; SZN_PROCEED_W24; MS1_STOP; MS2_SHUNTING_ALLOWED].
#[global] Instance enum : Enum t.
Proof. refine {| code := to_code; enumerators := all |}. by intros []. Defined.
End Aspect.
(* SRC autogens/proto/common_generated.h 42-63 EnumValuesAspect *)
Definition EnumValuesAspect : list Aspect.t :=
  [Aspect.S1_STOP; Aspect.S2_PROCEED; Aspect.S3_PROCEED_40; Aspect.S4_PROCEED_40_EXPECT_STOP;
    Aspect.S5_EXPECT_STOP; Aspect.S6_PROCEED_100; Aspect.S7_PROCEED_100_EXPECT_STOP;
    Aspect.S8_PROCEED_100_EXPECT_40; Aspect.S9_PROCEED_100_EXPECT_60; Aspect.S10_PROCEED_40;
    Aspect.S11_PROCEED_40_EXPECT_40; Aspect.S12_PROCEED_60; Aspect.S13_PROCEED_60_EXPECT_60;
    Aspect.SZ_PROCEED; Aspect.SZN_PROCEED_W24; Aspect.MS1_STOP; Aspect.MS2_SHUNTING_ALLOWED].
(* SRC autogens/proto/common_generated.h 65-87 EnumNamesAspect *)
Definition EnumNamesAspect : list string :=
  ["S1_STOP"; "S2_PROCEED"; "S3_PROCEED_40"; "S4_PROCEED_40_EXPECT_STOP"; "S5_EXPECT_STOP";
    "S6_PROCEED_100"; "S7_PROCEED_100_EXPECT_STOP"; "S8_PROCEED_100_EXPECT_40";
    "S9_PROCEED_100_EXPECT_60"; "S10_PROCEED_40"; "S11_PROCEED_40_EXPECT_40"; "S12_PROCEED_60";
    "S13_PROCEED_60_EXPECT_60"; "SZ_PROCEED"; "SZN_PROCEED_W24"; "MS1_STOP";
    "MS2_SHUNTING_ALLOWED"]%string.
(* SRC autogens/proto/common_generated.h 89-93 EnumNameAspect *)
Definition EnumNameAspect (e : Z) : string :=
  if IsOutRange e (code Aspect.S1_STOP) (code Aspect.MS2_SHUNTING_ALLOWED) then ""%string
  else default ""%string (EnumNamesAspect !! Z.to_nat e).

(** Switch (zwrotnica) position. Values must match engine::core::SwitchPosition
    (engine/include/engine/core/types.hpp). *)
(* SRC autogens/proto/common_generated.h 97-103 SwitchPosition *)
Module SwitchPosition.
Inductive t : Set :=
  | STRAIGHT | DIVERGENT | MOVING.
Definition to_code (x : t) : BinNums.Z :=
  match x with
  | STRAIGHT => 0 | DIVERGENT => 1 | MOVING => 2
  end%Z.
Definition all : list t :=
  [STRAIGHT; DIVERGENT; MOVING].
#[global] Instance enum : Enum t.
Proof. refine {| code := to_code; enumerators := all |}. by intros []. Defined.
End SwitchPosition.
(* SRC autogens/proto/common_generated.h 105-112 EnumValuesSwitchPosition *)
Definition EnumValuesSwitchPosition : list SwitchPosition.t :=
  [SwitchPosition.STRAIGHT; SwitchPosition.DIVERGENT; SwitchPosition.MOVING].
(* SRC autogens/proto/common_generated.h 114-122 EnumNamesSwitchPosition *)
Definition EnumNamesSwitchPosition : list string :=
  ["STRAIGHT"; "DIVERGENT"; "MOVING"]%string.
(* SRC autogens/proto/common_generated.h 124-128 EnumNameSwitchPosition *)
Definition EnumNameSwitchPosition (e : Z) : string :=
  if IsOutRange e (code SwitchPosition.STRAIGHT) (code SwitchPosition.MOVING) then ""%string
  else default ""%string (EnumNamesSwitchPosition !! Z.to_nat e).

(** Derailer (wykolejnica) position *)
(* SRC autogens/proto/common_generated.h 131-136 DerailerPosition *)
Module DerailerPosition.
Inductive t : Set :=
  | LOCKED | UNLOCKED.
Definition to_code (x : t) : BinNums.Z :=
  match x with
  | LOCKED => 0 | UNLOCKED => 1
  end%Z.
Definition all : list t :=
  [LOCKED; UNLOCKED].
#[global] Instance enum : Enum t.
Proof. refine {| code := to_code; enumerators := all |}. by intros []. Defined.
End DerailerPosition.
(* SRC autogens/proto/common_generated.h 138-144 EnumValuesDerailerPosition *)
Definition EnumValuesDerailerPosition : list DerailerPosition.t :=
  [DerailerPosition.LOCKED; DerailerPosition.UNLOCKED].
(* SRC autogens/proto/common_generated.h 146-153 EnumNamesDerailerPosition *)
Definition EnumNamesDerailerPosition : list string :=
  ["LOCKED"; "UNLOCKED"]%string.
(* SRC autogens/proto/common_generated.h 155-159 EnumNameDerailerPosition *)
Definition EnumNameDerailerPosition (e : Z) : string :=
  if IsOutRange e (code DerailerPosition.LOCKED) (code DerailerPosition.UNLOCKED) then ""%string
  else default ""%string (EnumNamesDerailerPosition !! Z.to_nat e).

(** Block section state (blok liniowy) *)
(* SRC autogens/proto/common_generated.h 162-167 BlockSectionState *)
Module BlockSectionState.
Inductive t : Set :=
  | OPEN | CLOSED.
Definition to_code (x : t) : BinNums.Z :=
  match x with
  | OPEN => 0 | CLOSED => 1
  end%Z.
Definition all : list t :=
  [OPEN; CLOSED].
#[global] Instance enum : Enum t.
Proof. refine {| code := to_code; enumerators := all |}. by intros []. Defined.
End BlockSectionState.
(* SRC autogens/proto/common_generated.h 169-175 EnumValuesBlockSectionState *)
Definition EnumValuesBlockSectionState : list BlockSectionState.t :=
  [BlockSectionState.OPEN; BlockSectionState.CLOSED].
(* SRC autogens/proto/common_generated.h 177-184 EnumNamesBlockSectionState *)
Definition EnumNamesBlockSectionState : list string :=
  ["OPEN"; "CLOSED"]%string.
(* SRC autogens/proto/common_generated.h 186-190 EnumNameBlockSectionState *)
Definition EnumNameBlockSectionState (e : Z) : string :=
  if IsOutRange e (code BlockSectionState.OPEN) (code BlockSectionState.CLOSED) then ""%string
  else default ""%string (EnumNamesBlockSectionState !! Z.to_nat e).

(** SHL-12 block direction state. Values must match
    engine::core::BlockDirectionState (engine/include/engine/core/types.hpp). *)
(* SRC autogens/proto/common_generated.h 194-204 BlockDirectionState *)
Module BlockDirectionState.
Inductive t : Set :=
  | NEUTRAL | OUTBOUND_PENDING | OUTBOUND | INBOUND_PENDING | INBOUND | EMERGENCY |
    RESET_PENDING.
Definition to_code (x : t) : BinNums.Z :=
  match x with
  | NEUTRAL => 0 | OUTBOUND_PENDING => 1 | OUTBOUND => 2 | INBOUND_PENDING => 3 |
    INBOUND => 4 | EMERGENCY => 5 | RESET_PENDING => 6
  end%Z.
Definition all : list t :=
  [NEUTRAL; OUTBOUND_PENDING; OUTBOUND; INBOUND_PENDING; INBOUND; EMERGENCY; RESET_PENDING].
#[global] Instance enum : Enum t.
Proof. refine {| code := to_code; enumerators := all |}. by intros []. Defined.
End BlockDirectionState.
(* SRC autogens/proto/common_generated.h 206-217 EnumValuesBlockDirectionState *)
Definition EnumValuesBlockDirectionState : list BlockDirectionState.t :=
  [BlockDirectionState.NEUTRAL; BlockDirectionState.OUTBOUND_PENDING;
    BlockDirectionState.OUTBOUND; BlockDirectionState.INBOUND_PENDING;
    BlockDirectionState.INBOUND; BlockDirectionState.EMERGENCY;
    BlockDirectionState.RESET_PENDING].
(* SRC autogens/proto/common_generated.h 219-231 EnumNamesBlockDirectionState *)
Definition EnumNamesBlockDirectionState : list string :=
  ["NEUTRAL"; "OUTBOUND_PENDING"; "OUTBOUND"; "INBOUND_PENDING"; "INBOUND"; "EMERGENCY";
    "RESET_PENDING"]%string.
(* SRC autogens/proto/common_generated.h 233-237 EnumNameBlockDirectionState *)
Definition EnumNameBlockDirectionState (e : Z) : string :=
  if IsOutRange e (code BlockDirectionState.NEUTRAL) (code BlockDirectionState.RESET_PENDING)
      then ""%string
  else default ""%string (EnumNamesBlockDirectionState !! Z.to_nat e).

(** Generic cause for a state change *)
(* SRC autogens/proto/common_generated.h 240-246 ChangeCause *)
Module ChangeCause.
Inductive t : Set :=
  | COMMAND | AUTO | TIMEOUT.
Definition to_code (x : t) : BinNums.Z :=
  match x with
  | COMMAND => 0 | AUTO => 1 | TIMEOUT => 2
  end%Z.
Definition all : list t :=
  [COMMAND; AUTO; TIMEOUT].
#[global] Instance enum : Enum t.
Proof. refine {| code := to_code; enumerators := all |}. by intros []. Defined.
End ChangeCause.
(* SRC autogens/proto/common_generated.h 248-255 EnumValuesChangeCause *)
Definition EnumValuesChangeCause : list ChangeCause.t :=
  [ChangeCause.COMMAND; ChangeCause.AUTO; ChangeCause.TIMEOUT].
(* SRC autogens/proto/common_generated.h 257-265 EnumNamesChangeCause *)
Definition EnumNamesChangeCause : list string :=
  ["COMMAND"; "AUTO"; "TIMEOUT"]%string.
(* SRC autogens/proto/common_generated.h 267-271 EnumNameChangeCause *)
Definition EnumNameChangeCause (e : Z) : string :=
  if IsOutRange e (code ChangeCause.COMMAND) (code ChangeCause.TIMEOUT) then ""%string
  else default ""%string (EnumNamesChangeCause !! Z.to_nat e).

(** Dispatch form types exchanged between neighbouring areas via dispatch channel. *)
(* SRC autogens/proto/common_generated.h 274-283 DispatchFormType *)
Module DispatchFormType.
Inductive t : Set :=
  | S2 | S24 | S25 | S26 | S55 | S56.
Definition to_code (x : t) : BinNums.Z :=
  match x with
  | S2 => 0 | S24 => 1 | S25 => 2 | S26 => 3 | S55 => 4 | S56 => 5
  end%Z.
Definition all : list t :=
  [S2; S24; S25; S26; S55; S56].
#[global] Instance enum : Enum t.
Proof. refine {| code := to_code; enumerators := all |}. by intros []. Defined.
End DispatchFormType.
(* SRC autogens/proto/common_generated.h 285-295 EnumValuesDispatchFormType *)
Definition EnumValuesDispatchFormType : list DispatchFormType.t :=
  [DispatchFormType.S2; DispatchFormType.S24; DispatchFormType.S25; DispatchFormType.S26;
    DispatchFormType.S55; DispatchFormType.S56].
(* SRC autogens/proto/common_generated.h 297-308 EnumNamesDispatchFormType *)
Definition EnumNamesDispatchFormType : list string :=
  ["S2"; "S24"; "S25"; "S26"; "S55"; "S56"]%string.
(* SRC autogens/proto/common_generated.h 310-314 EnumNameDispatchFormType *)
Definition EnumNameDispatchFormType (e : Z) : string :=
  if IsOutRange e (code DispatchFormType.S2) (code DispatchFormType.S56) then ""%string
  else default ""%string (EnumNamesDispatchFormType !! Z.to_nat e).

(** Direction of a dispatch telegram from the perspective of the sending area. *)
(* SRC autogens/proto/common_generated.h 317-322 TelegramDirection *)
Module TelegramDirection.
Inductive t : Set :=
  | SENT | RECEIVED.
Definition to_code (x : t) : BinNums.Z :=
  match x with
  | SENT => 0 | RECEIVED => 1
  end%Z.
Definition all : list t :=
  [SENT; RECEIVED].
#[global] Instance enum : Enum t.
Proof. refine {| code := to_code; enumerators := all |}. by intros []. Defined.
End TelegramDirection.
(* SRC autogens/proto/common_generated.h 324-330 EnumValuesTelegramDirection *)
Definition EnumValuesTelegramDirection : list TelegramDirection.t :=
  [TelegramDirection.SENT; TelegramDirection.RECEIVED].
(* SRC autogens/proto/common_generated.h 332-339 EnumNamesTelegramDirection *)
Definition EnumNamesTelegramDirection : list string :=
  ["SENT"; "RECEIVED"]%string.
(* SRC autogens/proto/common_generated.h 341-345 EnumNameTelegramDirection *)
Definition EnumNameTelegramDirection (e : Z) : string :=
  if IsOutRange e (code TelegramDirection.SENT) (code TelegramDirection.RECEIVED) then ""%string
  else default ""%string (EnumNamesTelegramDirection !! Z.to_nat e).

(** Exchange lifecycle state (used in DispatchChannelMessage.exchange_status). *)
(* SRC autogens/proto/common_generated.h 348-355 ExchangeStatus *)
Module ExchangeStatus.
Inductive t : Set :=
  | PENDING | ACCEPTED | REJECTED | CLOSED.
Definition to_code (x : t) : BinNums.Z :=
  match x with
  | PENDING => 0 | ACCEPTED => 1 | REJECTED => 2 | CLOSED => 3
  end%Z.
Definition all : list t :=
  [PENDING; ACCEPTED; REJECTED; CLOSED].
#[global] Instance enum : Enum t.
Proof. refine {| code := to_code; enumerators := all |}. by intros []. Defined.
End ExchangeStatus.
(* SRC autogens/proto/common_generated.h 357-365 EnumValuesExchangeStatus *)
Definition EnumValuesExchangeStatus : list ExchangeStatus.t :=
  [ExchangeStatus.PENDING; ExchangeStatus.ACCEPTED; ExchangeStatus.REJECTED;
    ExchangeStatus.CLOSED].
(* SRC autogens/proto/common_generated.h 367-376 EnumNamesExchangeStatus *)
Definition EnumNamesExchangeStatus : list string :=
  ["PENDING"; "ACCEPTED"; "REJECTED"; "CLOSED"]%string.
(* SRC autogens/proto/common_generated.h 378-382 EnumNameExchangeStatus *)
Definition EnumNameExchangeStatus (e : Z) : string :=
  if IsOutRange e (code ExchangeStatus.PENDING) (code ExchangeStatus.CLOSED) then ""%string
  else default ""%string (EnumNamesExchangeStatus !! Z.to_nat e).

(** Session lifecycle state *)
(* SRC autogens/proto/common_generated.h 385-392 SessionState *)
Module SessionState.
Inductive t : Set :=
  | STARTED | PAUSED | RESUMED | ENDED.
Definition to_code (x : t) : BinNums.Z :=
  match x with
  | STARTED => 0 | PAUSED => 1 | RESUMED => 2 | ENDED => 3
  end%Z.
Definition all : list t :=
  [STARTED; PAUSED; RESUMED; ENDED].
#[global] Instance enum : Enum t.
Proof. refine {| code := to_code; enumerators := all |}. by intros []. Defined.
End SessionState.
(* SRC autogens/proto/common_generated.h 394-402 EnumValuesSessionState *)
Definition EnumValuesSessionState : list SessionState.t :=
  [SessionState.STARTED; SessionState.PAUSED; SessionState.RESUMED; SessionState.ENDED].
(* SRC autogens/proto/common_generated.h 404-413 EnumNamesSessionState *)
Definition EnumNamesSessionState : list string :=
  ["STARTED"; "PAUSED"; "RESUMED"; "ENDED"]%string.
(* SRC autogens/proto/common_generated.h 415-419 EnumNameSessionState *)
Definition EnumNameSessionState (e : Z) : string :=
  if IsOutRange e (code SessionState.STARTED) (code SessionState.ENDED) then ""%string
  else default ""%string (EnumNamesSessionState !! Z.to_nat e).

End proto.
