(* ===== verification/ProtoCommands.v ===== *)
(** * ProtoCommands: the messages of operator commands

    [autogens/proto/commands_generated.h]: for each table of
    [proto/commands.fbs] its native struct, its accessors and [Verify], its
    builder, [Create...] and the object API, as the compiler writes them, and
    the laws of [Message]. In [fits] a field holds a value of its C++ type. *)
From S2P Require Import Prelude Float32 Frame Flat ProtoCommon.
Local Open Scope Z_scope.

Module proto.
Import ProtoCommon.proto.

(** SHL-12 block-section direction control (ESTW ML8 only). Values must match
    engine::core::Shl12Op (engine/include/engine/core/command.hpp). *)
(* SRC autogens/proto/commands_generated.h 78-88 Shl12Op *)
Module Shl12Op.
Inductive t : Set :=
  | BLW | BLP | BLO | BLZ | BLAI | BLA | OPS.
Definition to_code (x : t) : BinNums.Z :=
  match x with
  | BLW => 0 | BLP => 1 | BLO => 2 | BLZ => 3 | BLAI => 4 | BLA => 5 | OPS => 6
  end%Z.
Definition all : list t :=
  [BLW; BLP; BLO; BLZ; BLAI; BLA; OPS].
#[global] Instance enum : Enum t.
Proof. refine {| code := to_code; enumerators := all |}. by intros []. Defined.
End Shl12Op.
(* SRC autogens/proto/commands_generated.h 90-101 EnumValuesShl12Op *)
Definition EnumValuesShl12Op : list Shl12Op.t :=
  [Shl12Op.BLW; Shl12Op.BLP; Shl12Op.BLO; Shl12Op.BLZ; Shl12Op.BLAI; Shl12Op.BLA; Shl12Op.OPS].
(* SRC autogens/proto/commands_generated.h 103-115 EnumNamesShl12Op *)
Definition EnumNamesShl12Op : list string :=
  ["BLW"; "BLP"; "BLO"; "BLZ"; "BLAI"; "BLA"; "OPS"]%string.
(* SRC autogens/proto/commands_generated.h 117-121 EnumNameShl12Op *)
Definition EnumNameShl12Op (e : Z) : string :=
  if IsOutRange e (code Shl12Op.BLW) (code Shl12Op.OPS) then ""%string
  else default ""%string (EnumNamesShl12Op !! Z.to_nat e).

(* SRC autogens/proto/commands_generated.h 123-137 OperatorTargetKind *)
Module OperatorTargetKind.
Inductive t : Set :=
  | SIGNAL | SWITCH | DERAILER | TRACK_SECTION | BLOCK_SECTION | AXLE_COUNTER_SYSTEM |
    STATION | ROUTE | LEVEL_CROSSING | INTERLOCKING_COMPUTER | POWER_SUPPLY.
Definition to_code (x : t) : BinNums.Z :=
  match x with
  | SIGNAL => 0 | SWITCH => 1 | DERAILER => 2 | TRACK_SECTION => 3 | BLOCK_SECTION => 4 |
    AXLE_COUNTER_SYSTEM => 5 | STATION => 6 | ROUTE => 7 | LEVEL_CROSSING => 8 |
    INTERLOCKING_COMPUTER => 9 | POWER_SUPPLY => 10
  end%Z.
Definition all : list t :=
  [SIGNAL; SWITCH; DERAILER; TRACK_SECTION; BLOCK_SECTION; AXLE_COUNTER_SYSTEM; STATION;
    ROUTE; LEVEL_CROSSING; INTERLOCKING_COMPUTER; POWER_SUPPLY].
#[global] Instance enum : Enum t.
Proof. refine {| code := to_code; enumerators := all |}. by intros []. Defined.
End OperatorTargetKind.
(* SRC autogens/proto/commands_generated.h 139-154 EnumValuesOperatorTargetKind *)
Definition EnumValuesOperatorTargetKind : list OperatorTargetKind.t :=
  [OperatorTargetKind.SIGNAL; OperatorTargetKind.SWITCH; OperatorTargetKind.DERAILER;
    OperatorTargetKind.TRACK_SECTION; OperatorTargetKind.BLOCK_SECTION;
    OperatorTargetKind.AXLE_COUNTER_SYSTEM; OperatorTargetKind.STATION;
    OperatorTargetKind.ROUTE; OperatorTargetKind.LEVEL_CROSSING;
    OperatorTargetKind.INTERLOCKING_COMPUTER; OperatorTargetKind.POWER_SUPPLY].
(* SRC autogens/proto/commands_generated.h 156-172 EnumNamesOperatorTargetKind *)
Definition EnumNamesOperatorTargetKind : list string :=
  ["SIGNAL"; "SWITCH"; "DERAILER"; "TRACK_SECTION"; "BLOCK_SECTION"; "AXLE_COUNTER_SYSTEM";
    "STATION"; "ROUTE"; "LEVEL_CROSSING"; "INTERLOCKING_COMPUTER"; "POWER_SUPPLY"]%string.
(* SRC autogens/proto/commands_generated.h 174-178 EnumNameOperatorTargetKind *)
Definition EnumNameOperatorTargetKind (e : Z) : string :=
  if IsOutRange e (code OperatorTargetKind.SIGNAL) (code OperatorTargetKind.POWER_SUPPLY) then
      ""%string
  else default ""%string (EnumNamesOperatorTargetKind !! Z.to_nat e).

(* SRC autogens/proto/commands_generated.h 180-257 OperatorCommandCode *)
Module OperatorCommandCode.
Inductive t : Set :=
  | SES | SEO | SZI | SZW | SZN | SZO | SAM | SAW | ZWP | ZWM | ZWS | ZWO | ITS | ITO | ZWB |
    ZBP | ZBM | ZRI | ZRK | OPS | SLI | SLK | BLW | BLP | BLO | BLZ | BLAI | BLA | BLS | OST |
    ZKB | PZM | OZK | ZESI | ZES | PZZI | PZZ | POZ | DPOI | DPO | DKOI | DKO | DKPI | DKP |
    BPZ | DPWI | DPW | BTW | BTO | BPO | BKO | PDZ | PDO | PZT | PAZ | PZO | PDII | PDI | MRS |
    ODS | ZAL | POC | PZA | PZAI | PZW | SSO | SSS | UPAI | UPA | UPAO | UPN | UPO | ZSO | ZSS.
Definition to_code (x : t) : BinNums.Z :=
  match x with
  | SES => 0 | SEO => 1 | SZI => 2 | SZW => 3 | SZN => 4 | SZO => 5 | SAM => 6 | SAW => 7 |
    ZWP => 8 | ZWM => 9 | ZWS => 10 | ZWO => 11 | ITS => 12 | ITO => 13 | ZWB => 14 |
    ZBP => 15 | ZBM => 16 | ZRI => 17 | ZRK => 18 | OPS => 19 | SLI => 20 | SLK => 21 |
    BLW => 22 | BLP => 23 | BLO => 24 | BLZ => 25 | BLAI => 26 | BLA => 27 | BLS => 28 |
    OST => 29 | ZKB => 30 | PZM => 31 | OZK => 32 | ZESI => 33 | ZES => 34 | PZZI => 35 |
    PZZ => 36 | POZ => 37 | DPOI => 38 | DPO => 39 | DKOI => 40 | DKO => 41 | DKPI => 42 |
    DKP => 43 | BPZ => 44 | DPWI => 45 | DPW => 46 | BTW => 47 | BTO => 48 | BPO => 49 |
    BKO => 50 | PDZ => 51 | PDO => 52 | PZT => 53 | PAZ => 54 | PZO => 55 | PDII => 56 |
    PDI => 57 | MRS => 58 | ODS => 59 | ZAL => 60 | POC => 61 | PZA => 62 | PZAI => 63 |
    PZW => 64 | SSO => 65 | SSS => 66 | UPAI => 67 | UPA => 68 | UPAO => 69 | UPN => 70 |
    UPO => 71 | ZSO => 72 | ZSS => 73
  end%Z.
Definition all : list t :=
  [SES; SEO; SZI; SZW; SZN; SZO; SAM; SAW; ZWP; ZWM; ZWS; ZWO; ITS; ITO; ZWB; ZBP; ZBM; ZRI;
    ZRK; OPS; SLI; SLK; BLW; BLP; BLO; BLZ; BLAI; BLA; BLS; OST; ZKB; PZM; OZK; ZESI; ZES;
    PZZI; PZZ; POZ; DPOI; DPO; DKOI; DKO; DKPI; DKP; BPZ; DPWI; DPW; BTW; BTO; BPO; BKO; PDZ;
    PDO; PZT; PAZ; PZO; PDII; PDI; MRS; ODS; ZAL; POC; PZA; PZAI; PZW; SSO; SSS; UPAI; UPA;
    UPAO; UPN; UPO; ZSO; ZSS].
#[global] Instance enum : Enum t.
Proof. refine {| code := to_code; enumerators := all |}. by intros []. Defined.
End OperatorCommandCode.
(* SRC autogens/proto/commands_generated.h 259-337 EnumValuesOperatorCommandCode *)
Definition EnumValuesOperatorCommandCode : list OperatorCommandCode.t :=
  [OperatorCommandCode.SES; OperatorCommandCode.SEO; OperatorCommandCode.SZI;
    OperatorCommandCode.SZW; OperatorCommandCode.SZN; OperatorCommandCode.SZO;
    OperatorCommandCode.SAM; OperatorCommandCode.SAW; OperatorCommandCode.ZWP;
    OperatorCommandCode.ZWM; OperatorCommandCode.ZWS; OperatorCommandCode.ZWO;
    OperatorCommandCode.ITS; OperatorCommandCode.ITO; OperatorCommandCode.ZWB;
    OperatorCommandCode.ZBP; OperatorCommandCode.ZBM; OperatorCommandCode.ZRI;
    OperatorCommandCode.ZRK; OperatorCommandCode.OPS; OperatorCommandCode.SLI;
    OperatorCommandCode.SLK; OperatorCommandCode.BLW; OperatorCommandCode.BLP;
    OperatorCommandCode.BLO; OperatorCommandCode.BLZ; OperatorCommandCode.BLAI;
    OperatorCommandCode.BLA; OperatorCommandCode.BLS; OperatorCommandCode.OST;
    OperatorCommandCode.ZKB; OperatorCommandCode.PZM; OperatorCommandCode.OZK;
    OperatorCommandCode.ZESI; OperatorCommandCode.ZES; OperatorCommandCode.PZZI;
    OperatorCommandCode.PZZ; OperatorCommandCode.POZ; OperatorCommandCode.DPOI;
    OperatorCommandCode.DPO; OperatorCommandCode.DKOI; OperatorCommandCode.DKO;
    OperatorCommandCode.DKPI; OperatorCommandCode.DKP; OperatorCommandCode.BPZ;
    OperatorCommandCode.DPWI; OperatorCommandCode.DPW; OperatorCommandCode.BTW;
    OperatorCommandCode.BTO; OperatorCommandCode.BPO; OperatorCommandCode.BKO;
    OperatorCommandCode.PDZ; OperatorCommandCode.PDO; OperatorCommandCode.PZT;
    OperatorCommandCode.PAZ; OperatorCommandCode.PZO; OperatorCommandCode.PDII;
    OperatorCommandCode.PDI; OperatorCommandCode.MRS; OperatorCommandCode.ODS;
    OperatorCommandCode.ZAL; OperatorCommandCode.POC; OperatorCommandCode.PZA;
    OperatorCommandCode.PZAI; OperatorCommandCode.PZW; OperatorCommandCode.SSO;
    OperatorCommandCode.SSS; OperatorCommandCode.UPAI; OperatorCommandCode.UPA;
    OperatorCommandCode.UPAO; OperatorCommandCode.UPN; OperatorCommandCode.UPO;
    OperatorCommandCode.ZSO; OperatorCommandCode.ZSS].
(* SRC autogens/proto/commands_generated.h 339-418 EnumNamesOperatorCommandCode *)
Definition EnumNamesOperatorCommandCode : list string :=
  ["SES"; "SEO"; "SZI"; "SZW"; "SZN"; "SZO"; "SAM"; "SAW"; "ZWP"; "ZWM"; "ZWS"; "ZWO"; "ITS";
    "ITO"; "ZWB"; "ZBP"; "ZBM"; "ZRI"; "ZRK"; "OPS"; "SLI"; "SLK"; "BLW"; "BLP"; "BLO"; "BLZ";
    "BLAI"; "BLA"; "BLS"; "OST"; "ZKB"; "PZM"; "OZK"; "ZESI"; "ZES"; "PZZI"; "PZZ"; "POZ";
    "DPOI"; "DPO"; "DKOI"; "DKO"; "DKPI"; "DKP"; "BPZ"; "DPWI"; "DPW"; "BTW"; "BTO"; "BPO";
    "BKO"; "PDZ"; "PDO"; "PZT"; "PAZ"; "PZO"; "PDII"; "PDI"; "MRS"; "ODS"; "ZAL"; "POC"; "PZA";
    "PZAI"; "PZW"; "SSO"; "SSS"; "UPAI"; "UPA"; "UPAO"; "UPN"; "UPO"; "ZSO"; "ZSS"]%string.
(* SRC autogens/proto/commands_generated.h 420-424 EnumNameOperatorCommandCode *)
Definition EnumNameOperatorCommandCode (e : Z) : string :=
  if IsOutRange e (code OperatorCommandCode.SES) (code OperatorCommandCode.ZSS) then ""%string
  else default ""%string (EnumNamesOperatorCommandCode !! Z.to_nat e).

(* SRC autogens/proto/commands_generated.h 426-500 Ml8CommandCode *)
Module Ml8CommandCode.
Inductive t : Set :=
  | AK | AZK | BLZ | BLZC | DOP | DOPS | DPZ | HMI | KRA | KSR | LKA | LOFF | MAN | NPU | NPW |
    NPZ | OGI | OP | OPO | OSTOP | OTB | OTE | OTEYYY | OTP | OTPON | OT | OTZ | OUZ | OUZ_DR |
    OUZ_DZ | OUZ_JN | OUZ_PJ | OUZ_X | OUZ_ZN | OWBL | OZCZ | P | POC | POT | PZK | PPN | PPZ |
    PZ | PZB | PZS | SPEC | STJ | STOJ | STOP | SZ | NSZ | WBL | WPN | WPZ | WZ | ZCZ | ZDM |
    ZDP | ZEROLO | ZI | ZO | ZPO | ZW | ZWBL | Z | Z_DR | Z_DZ | Z_JN | Z_PJ | Z_X | Z_ZN.
Definition to_code (x : t) : BinNums.Z :=
  match x with
  | AK => 0 | AZK => 1 | BLZ => 2 | BLZC => 3 | DOP => 4 | DOPS => 5 | DPZ => 6 | HMI => 7 |
    KRA => 8 | KSR => 9 | LKA => 10 | LOFF => 11 | MAN => 12 | NPU => 13 | NPW => 14 |
    NPZ => 15 | OGI => 16 | OP => 17 | OPO => 18 | OSTOP => 19 | OTB => 20 | OTE => 21 |
    OTEYYY => 22 | OTP => 23 | OTPON => 24 | OT => 25 | OTZ => 26 | OUZ => 27 | OUZ_DR => 28 |
    OUZ_DZ => 29 | OUZ_JN => 30 | OUZ_PJ => 31 | OUZ_X => 32 | OUZ_ZN => 33 | OWBL => 34 |
    OZCZ => 35 | P => 36 | POC => 37 | POT => 38 | PZK => 39 | PPN => 40 | PPZ => 41 |
    PZ => 42 | PZB => 43 | PZS => 44 | SPEC => 45 | STJ => 46 | STOJ => 47 | STOP => 48 |
    SZ => 49 | NSZ => 50 | WBL => 51 | WPN => 52 | WPZ => 53 | WZ => 54 | ZCZ => 55 |
    ZDM => 56 | ZDP => 57 | ZEROLO => 58 | ZI => 59 | ZO => 60 | ZPO => 61 | ZW => 62 |
    ZWBL => 63 | Z => 64 | Z_DR => 65 | Z_DZ => 66 | Z_JN => 67 | Z_PJ => 68 | Z_X => 69 |
    Z_ZN => 70
  end%Z.
Definition all : list t :=
  [AK; AZK; BLZ; BLZC; DOP; DOPS; DPZ; HMI; KRA; KSR; LKA; LOFF; MAN; NPU; NPW; NPZ; OGI; OP;
    OPO; OSTOP; OTB; OTE; OTEYYY; OTP; OTPON; OT; OTZ; OUZ; OUZ_DR; OUZ_DZ; OUZ_JN; OUZ_PJ;
    OUZ_X; OUZ_ZN; OWBL; OZCZ; P; POC; POT; PZK; PPN; PPZ; PZ; PZB; PZS; SPEC; STJ; STOJ; STOP;
    SZ; NSZ; WBL; WPN; WPZ; WZ; ZCZ; ZDM; ZDP; ZEROLO; ZI; ZO; ZPO; ZW; ZWBL; Z; Z_DR; Z_DZ;
    Z_JN; Z_PJ; Z_X; Z_ZN].
#[global] Instance enum : Enum t.
Proof. refine {| code := to_code; enumerators := all |}. by intros []. Defined.
End Ml8CommandCode.
(* SRC autogens/proto/commands_generated.h 502-577 EnumValuesMl8CommandCode *)
Definition EnumValuesMl8CommandCode : list Ml8CommandCode.t :=
  [Ml8CommandCode.AK; Ml8CommandCode.AZK; Ml8CommandCode.BLZ; Ml8CommandCode.BLZC;
    Ml8CommandCode.DOP; Ml8CommandCode.DOPS; Ml8CommandCode.DPZ; Ml8CommandCode.HMI;
    Ml8CommandCode.KRA; Ml8CommandCode.KSR; Ml8CommandCode.LKA; Ml8CommandCode.LOFF;
    Ml8CommandCode.MAN; Ml8CommandCode.NPU; Ml8CommandCode.NPW; Ml8CommandCode.NPZ;
    Ml8CommandCode.OGI; Ml8CommandCode.OP; Ml8CommandCode.OPO; Ml8CommandCode.OSTOP;
    Ml8CommandCode.OTB; Ml8CommandCode.OTE; Ml8CommandCode.OTEYYY; Ml8CommandCode.OTP;
    Ml8CommandCode.OTPON; Ml8CommandCode.OT; Ml8CommandCode.OTZ; Ml8CommandCode.OUZ;
    Ml8CommandCode.OUZ_DR; Ml8CommandCode.OUZ_DZ; Ml8CommandCode.OUZ_JN; Ml8CommandCode.OUZ_PJ;
    Ml8CommandCode.OUZ_X; Ml8CommandCode.OUZ_ZN; Ml8CommandCode.OWBL; Ml8CommandCode.OZCZ;
    Ml8CommandCode.P; Ml8CommandCode.POC; Ml8CommandCode.POT; Ml8CommandCode.PZK;
    Ml8CommandCode.PPN; Ml8CommandCode.PPZ; Ml8CommandCode.PZ; Ml8CommandCode.PZB;
    Ml8CommandCode.PZS; Ml8CommandCode.SPEC; Ml8CommandCode.STJ; Ml8CommandCode.STOJ;
    Ml8CommandCode.STOP; Ml8CommandCode.SZ; Ml8CommandCode.NSZ; Ml8CommandCode.WBL;
    Ml8CommandCode.WPN; Ml8CommandCode.WPZ; Ml8CommandCode.WZ; Ml8CommandCode.ZCZ;
    Ml8CommandCode.ZDM; Ml8CommandCode.ZDP; Ml8CommandCode.ZEROLO; Ml8CommandCode.ZI;
    Ml8CommandCode.ZO; Ml8CommandCode.ZPO; Ml8CommandCode.ZW; Ml8CommandCode.ZWBL;
    Ml8CommandCode.Z; Ml8CommandCode.Z_DR; Ml8CommandCode.Z_DZ; Ml8CommandCode.Z_JN;
    Ml8CommandCode.Z_PJ; Ml8CommandCode.Z_X; Ml8CommandCode.Z_ZN].
(* SRC autogens/proto/commands_generated.h 579-655 EnumNamesMl8CommandCode *)
Definition EnumNamesMl8CommandCode : list string :=
  ["AK"; "AZK"; "BLZ"; "BLZC"; "DOP"; "DOPS"; "DPZ"; "HMI"; "KRA"; "KSR"; "LKA"; "LOFF";
    "MAN"; "NPU"; "NPW"; "NPZ"; "OGI"; "OP"; "OPO"; "OSTOP"; "OTB"; "OTE"; "OTEYYY"; "OTP";
    "OTPON"; "OT"; "OTZ"; "OUZ"; "OUZ_DR"; "OUZ_DZ"; "OUZ_JN"; "OUZ_PJ"; "OUZ_X"; "OUZ_ZN";
    "OWBL"; "OZCZ"; "P"; "POC"; "POT"; "PZK"; "PPN"; "PPZ"; "PZ"; "PZB"; "PZS"; "SPEC"; "STJ";
    "STOJ"; "STOP"; "SZ"; "NSZ"; "WBL"; "WPN"; "WPZ"; "WZ"; "ZCZ"; "ZDM"; "ZDP"; "ZEROLO";
    "ZI"; "ZO"; "ZPO"; "ZW"; "ZWBL"; "Z"; "Z_DR"; "Z_DZ"; "Z_JN"; "Z_PJ"; "Z_X"; "Z_ZN"]%string.
(* SRC autogens/proto/commands_generated.h 657-661 EnumNameMl8CommandCode *)
Definition EnumNameMl8CommandCode (e : Z) : string :=
  if IsOutRange e (code Ml8CommandCode.AK) (code Ml8CommandCode.Z_ZN) then ""%string
  else default ""%string (EnumNamesMl8CommandCode !! Z.to_nat e).

(* SRC autogens/proto/commands_generated.h 663-676 NakReason *)
Module NakReason.
Inductive t : Set :=
  | UNSPECIFIED | NOT_FOUND | SAFETY_BLOCK | INVALID_STATE | ROUTE_LOCKED | NO_PATH |
    SWITCH_MOVING | UNSUPPORTED | UNAUTHORIZED | SESSION_PAUSED.
Definition to_code (x : t) : BinNums.Z :=
  match x with
  | UNSPECIFIED => 0 | NOT_FOUND => 1 | SAFETY_BLOCK => 2 | INVALID_STATE => 3 |
    ROUTE_LOCKED => 4 | NO_PATH => 5 | SWITCH_MOVING => 6 | UNSUPPORTED => 7 |
    UNAUTHORIZED => 8 | SESSION_PAUSED => 9
  end%Z.
Definition all : list t :=
  [UNSPECIFIED; NOT_FOUND; SAFETY_BLOCK; INVALID_STATE; ROUTE_LOCKED; NO_PATH; SWITCH_MOVING;
    UNSUPPORTED; UNAUTHORIZED; SESSION_PAUSED].
#[global] Instance enum : Enum t.
Proof. refine {| code := to_code; enumerators := all |}. by intros []. Defined.
End NakReason.
(* SRC autogens/proto/commands_generated.h 678-692 EnumValuesNakReason *)
Definition EnumValuesNakReason : list NakReason.t :=
  [NakReason.UNSPECIFIED; NakReason.NOT_FOUND; NakReason.SAFETY_BLOCK;
    NakReason.INVALID_STATE; NakReason.ROUTE_LOCKED; NakReason.NO_PATH;
    NakReason.SWITCH_MOVING; NakReason.UNSUPPORTED; NakReason.UNAUTHORIZED;
    NakReason.SESSION_PAUSED].
(* SRC autogens/proto/commands_generated.h 694-709 EnumNamesNakReason *)
Definition EnumNamesNakReason : list string :=
  ["UNSPECIFIED"; "NOT_FOUND"; "SAFETY_BLOCK"; "INVALID_STATE"; "ROUTE_LOCKED"; "NO_PATH";
    "SWITCH_MOVING"; "UNSUPPORTED"; "UNAUTHORIZED"; "SESSION_PAUSED"]%string.
(* SRC autogens/proto/commands_generated.h 711-715 EnumNameNakReason *)
Definition EnumNameNakReason (e : Z) : string :=
  if IsOutRange e (code NakReason.UNSPECIFIED) (code NakReason.SESSION_PAUSED) then ""%string
  else default ""%string (EnumNamesNakReason !! Z.to_nat e).

(** Move a switch (zwrotnica) to the requested position. *)
Module SetSwitchPositionT.
(* SRC autogens/proto/commands_generated.h 717-721 SetSwitchPositionT *)
Record t : Type := mk {
  uid : Z;
  position : Z }.
(* SRC autogens/proto/commands_generated.h 717-721 SetSwitchPositionT *)
Definition init : t := mk 0 (code SwitchPosition.STRAIGHT).
Definition fits (_o : t) : Prop :=
  in_range U64 (uid _o) = true /\
  in_range I8 (position _o) = true.
Definition tables (_o : t) : Z := 1.
End SetSwitchPositionT.

Module SetSwitchPosition.
Notation VT_UID := 4 (only parsing).
Notation VT_POSITION := 6 (only parsing).
Section Table.
Context {F : FlatBuffers}.
(* SRC autogens/proto/commands_generated.h 731-733 SetSwitchPosition::uid *)
Definition uid (this_ : Obj) : option Z := GetField U64 this_ VT_UID 0.
(* SRC autogens/proto/commands_generated.h 734-736 SetSwitchPosition::position *)
Definition position (this_ : Obj) : option Z := GetField I8 this_ VT_POSITION 0.
(* SRC autogens/proto/commands_generated.h 738-743 SetSwitchPosition::Verify *)
Definition Verify (this_ : Obj) : verification :=
  TableStart this_ &&>
  check (VerifyField U64 this_ VT_UID 8) &&>
  check (VerifyField I8 this_ VT_POSITION 1) &&>
  TableEnd.
End Table.
End SetSwitchPosition.

Module SetSwitchPositionBuilder.
Section Builder.
Context {F : FlatBuffers}.
(* SRC autogens/proto/commands_generated.h 753-755 SetSwitchPositionBuilder::add_uid *)
Definition add_uid (builder_ : builder) (uid : Z) : builder :=
  builder_ ++ [Element U64 SetSwitchPosition.VT_UID uid 0].
(* SRC autogens/proto/commands_generated.h 756-758 SetSwitchPositionBuilder::add_position *)
Definition add_position (builder_ : builder) (position : Z) : builder :=
  builder_ ++ [Element I8 SetSwitchPosition.VT_POSITION position 0].
(* SRC autogens/proto/commands_generated.h 763-767 SetSwitchPositionBuilder::Finish *)
Definition Finish (builder_ : builder) : option Obj := Some (EndTable builder_).
End Builder.
End SetSwitchPositionBuilder.

Section SetSwitchPositionFunctions.
Context {F : FlatBuffers}.
(* SRC autogens/proto/commands_generated.h 770-778 CreateSetSwitchPosition *)
Definition CreateSetSwitchPosition (uid : Z) (position : Z) : option Obj :=
  let builder_ := [] in
  let builder_ := SetSwitchPositionBuilder.add_uid builder_ uid in
  let builder_ := SetSwitchPositionBuilder.add_position builder_ position in
  SetSwitchPositionBuilder.Finish builder_.
(* SRC autogens/proto/commands_generated.h 1633-1638 SetSwitchPosition::UnPackTo *)
Definition SetSwitchPosition_UnPackTo (_o : SetSwitchPositionT.t) (this_ : Obj) : option
    SetSwitchPositionT.t :=
  uid ← SetSwitchPosition.uid this_;
  position ← SetSwitchPosition.position this_;
  Some (SetSwitchPositionT.mk uid position).
(* SRC autogens/proto/commands_generated.h 1627-1631 SetSwitchPosition::UnPack *)
Definition SetSwitchPosition_UnPack (this_ : Obj) : option SetSwitchPositionT.t :=
  SetSwitchPosition_UnPackTo SetSwitchPositionT.init this_.
(* SRC autogens/proto/commands_generated.h 1644-1654 SetSwitchPosition::Pack *)
Definition SetSwitchPosition_Pack (_o : SetSwitchPositionT.t) : option Obj :=
  let _uid := SetSwitchPositionT.uid _o in
  let _position := SetSwitchPositionT.position _o in
  CreateSetSwitchPosition _uid _position.
Definition SetSwitchPosition_message : Message SetSwitchPositionT.t :=
  mkMessage SetSwitchPosition_Pack SetSwitchPosition_UnPackTo SetSwitchPosition_UnPack
      SetSwitchPosition.Verify SetSwitchPositionT.fits SetSwitchPositionT.tables 1.
End SetSwitchPositionFunctions.
Ltac unfold_SetSwitchPosition := cbv beta iota zeta delta [SetSwitchPosition_message
    SetSwitchPosition_Pack SetSwitchPosition_UnPack SetSwitchPosition_UnPackTo
        CreateSetSwitchPosition
    SetSwitchPositionBuilder.add_uid SetSwitchPositionBuilder.add_position
    SetSwitchPositionBuilder.Finish SetSwitchPosition.uid SetSwitchPosition.position
    SetSwitchPosition.Verify SetSwitchPositionT.init SetSwitchPositionT.fits
        SetSwitchPositionT.tables
    SetSwitchPositionT.uid SetSwitchPositionT.position] in *.
#[global] Instance SetSwitchPosition_ok {F : FlatBuffers} {FO : FlatBuffersOk F} : MessageOk
    SetSwitchPosition_message.
Proof. solve_message_with ltac:(fun _ => unfold_SetSwitchPosition). Qed.
#[global] Arguments SetSwitchPosition_Pack : simpl never.
#[global] Arguments SetSwitchPosition_UnPackTo : simpl never.
#[global] Arguments SetSwitchPosition_UnPack : simpl never.
#[global] Arguments SetSwitchPosition.Verify : simpl never.
#[global] Arguments SetSwitchPositionT.fits : simpl never.
#[global] Arguments SetSwitchPositionT.tables : simpl never.
#[global] Typeclasses Opaque SetSwitchPosition.Verify.

(** Override the aspect displayed on a signal (semafor). Prefer RequestRoute for
    normal operation; use this only for manual override. *)
Module SetSignalAspectT.
(* SRC autogens/proto/commands_generated.h 782-786 SetSignalAspectT *)
Record t : Type := mk {
  uid : Z;
  aspect : Z }.
(* SRC autogens/proto/commands_generated.h 782-786 SetSignalAspectT *)
Definition init : t := mk 0 (code Aspect.S1_STOP).
Definition fits (_o : t) : Prop :=
  in_range U64 (uid _o) = true /\
  in_range I8 (aspect _o) = true.
Definition tables (_o : t) : Z := 1.
End SetSignalAspectT.

Module SetSignalAspect.
Notation VT_UID := 4 (only parsing).
Notation VT_ASPECT := 6 (only parsing).
Section Table.
Context {F : FlatBuffers}.
(* SRC autogens/proto/commands_generated.h 797-799 SetSignalAspect::uid *)
Definition uid (this_ : Obj) : option Z := GetField U64 this_ VT_UID 0.
(* SRC autogens/proto/commands_generated.h 800-802 SetSignalAspect::aspect *)
Definition aspect (this_ : Obj) : option Z := GetField I8 this_ VT_ASPECT 0.
(* SRC autogens/proto/commands_generated.h 804-809 SetSignalAspect::Verify *)
Definition Verify (this_ : Obj) : verification :=
  TableStart this_ &&>
  check (VerifyField U64 this_ VT_UID 8) &&>
  check (VerifyField I8 this_ VT_ASPECT 1) &&>
  TableEnd.
End Table.
End SetSignalAspect.

Module SetSignalAspectBuilder.
Section Builder.
Context {F : FlatBuffers}.
(* SRC autogens/proto/commands_generated.h 819-821 SetSignalAspectBuilder::add_uid *)
Definition add_uid (builder_ : builder) (uid : Z) : builder :=
  builder_ ++ [Element U64 SetSignalAspect.VT_UID uid 0].
(* SRC autogens/proto/commands_generated.h 822-824 SetSignalAspectBuilder::add_aspect *)
Definition add_aspect (builder_ : builder) (aspect : Z) : builder :=
  builder_ ++ [Element I8 SetSignalAspect.VT_ASPECT aspect 0].
(* SRC autogens/proto/commands_generated.h 829-833 SetSignalAspectBuilder::Finish *)
Definition Finish (builder_ : builder) : option Obj := Some (EndTable builder_).
End Builder.
End SetSignalAspectBuilder.

Section SetSignalAspectFunctions.
Context {F : FlatBuffers}.
(* SRC autogens/proto/commands_generated.h 836-844 CreateSetSignalAspect *)
Definition CreateSetSignalAspect (uid : Z) (aspect : Z) : option Obj :=
  let builder_ := [] in
  let builder_ := SetSignalAspectBuilder.add_uid builder_ uid in
  let builder_ := SetSignalAspectBuilder.add_aspect builder_ aspect in
  SetSignalAspectBuilder.Finish builder_.
(* SRC autogens/proto/commands_generated.h 1662-1667 SetSignalAspect::UnPackTo *)
Definition SetSignalAspect_UnPackTo (_o : SetSignalAspectT.t) (this_ : Obj) : option
    SetSignalAspectT.t :=
  uid ← SetSignalAspect.uid this_;
  aspect ← SetSignalAspect.aspect this_;
  Some (SetSignalAspectT.mk uid aspect).
(* SRC autogens/proto/commands_generated.h 1656-1660 SetSignalAspect::UnPack *)
Definition SetSignalAspect_UnPack (this_ : Obj) : option SetSignalAspectT.t :=
  SetSignalAspect_UnPackTo SetSignalAspectT.init this_.
(* SRC autogens/proto/commands_generated.h 1673-1683 SetSignalAspect::Pack *)
Definition SetSignalAspect_Pack (_o : SetSignalAspectT.t) : option Obj :=
  let _uid := SetSignalAspectT.uid _o in
  let _aspect := SetSignalAspectT.aspect _o in
  CreateSetSignalAspect _uid _aspect.
Definition SetSignalAspect_message : Message SetSignalAspectT.t :=
  mkMessage SetSignalAspect_Pack SetSignalAspect_UnPackTo SetSignalAspect_UnPack
      SetSignalAspect.Verify SetSignalAspectT.fits SetSignalAspectT.tables 1.
End SetSignalAspectFunctions.
Ltac unfold_SetSignalAspect := cbv beta iota zeta delta [SetSignalAspect_message
    SetSignalAspect_Pack SetSignalAspect_UnPack SetSignalAspect_UnPackTo CreateSetSignalAspect
    SetSignalAspectBuilder.add_uid SetSignalAspectBuilder.add_aspect SetSignalAspectBuilder.Finish
    SetSignalAspect.uid SetSignalAspect.aspect SetSignalAspect.Verify SetSignalAspectT.init
    SetSignalAspectT.fits SetSignalAspectT.tables SetSignalAspectT.uid SetSignalAspectT.aspect]
        in *.
#[global] Instance SetSignalAspect_ok {F : FlatBuffers} {FO : FlatBuffersOk F} : MessageOk
    SetSignalAspect_message.
Proof. solve_message_with ltac:(fun _ => unfold_SetSignalAspect). Qed.
#[global] Arguments SetSignalAspect_Pack : simpl never.
#[global] Arguments SetSignalAspect_UnPackTo : simpl never.
#[global] Arguments SetSignalAspect_UnPack : simpl never.
#[global] Arguments SetSignalAspect.Verify : simpl never.
#[global] Arguments SetSignalAspectT.fits : simpl never.
#[global] Arguments SetSignalAspectT.tables : simpl never.
#[global] Typeclasses Opaque SetSignalAspect.Verify.

(** Toggle a derailer (wykolejnica). *)
Module SetDerailerPositionT.
(* SRC autogens/proto/commands_generated.h 848-852 SetDerailerPositionT *)
Record t : Type := mk {
  uid : Z;
  position : Z }.
(* SRC autogens/proto/commands_generated.h 848-852 SetDerailerPositionT *)
Definition init : t := mk 0 (code DerailerPosition.LOCKED).
Definition fits (_o : t) : Prop :=
  in_range U64 (uid _o) = true /\
  in_range I8 (position _o) = true.
Definition tables (_o : t) : Z := 1.
End SetDerailerPositionT.

Module SetDerailerPosition.
Notation VT_UID := 4 (only parsing).
Notation VT_POSITION := 6 (only parsing).
Section Table.
Context {F : FlatBuffers}.
(* SRC autogens/proto/commands_generated.h 862-864 SetDerailerPosition::uid *)
Definition uid (this_ : Obj) : option Z := GetField U64 this_ VT_UID 0.
(* SRC autogens/proto/commands_generated.h 865-867 SetDerailerPosition::position *)
Definition position (this_ : Obj) : option Z := GetField I8 this_ VT_POSITION 0.
(* SRC autogens/proto/commands_generated.h 869-874 SetDerailerPosition::Verify *)
Definition Verify (this_ : Obj) : verification :=
  TableStart this_ &&>
  check (VerifyField U64 this_ VT_UID 8) &&>
  check (VerifyField I8 this_ VT_POSITION 1) &&>
  TableEnd.
End Table.
End SetDerailerPosition.

Module SetDerailerPositionBuilder.
Section Builder.
Context {F : FlatBuffers}.
(* SRC autogens/proto/commands_generated.h 884-886 SetDerailerPositionBuilder::add_uid *)
Definition add_uid (builder_ : builder) (uid : Z) : builder :=
  builder_ ++ [Element U64 SetDerailerPosition.VT_UID uid 0].
(* SRC autogens/proto/commands_generated.h 887-889 SetDerailerPositionBuilder::add_position *)
Definition add_position (builder_ : builder) (position : Z) : builder :=
  builder_ ++ [Element I8 SetDerailerPosition.VT_POSITION position 0].
(* SRC autogens/proto/commands_generated.h 894-898 SetDerailerPositionBuilder::Finish *)
Definition Finish (builder_ : builder) : option Obj := Some (EndTable builder_).
End Builder.
End SetDerailerPositionBuilder.

Section SetDerailerPositionFunctions.
Context {F : FlatBuffers}.
(* SRC autogens/proto/commands_generated.h 901-909 CreateSetDerailerPosition *)
Definition CreateSetDerailerPosition (uid : Z) (position : Z) : option Obj :=
  let builder_ := [] in
  let builder_ := SetDerailerPositionBuilder.add_uid builder_ uid in
  let builder_ := SetDerailerPositionBuilder.add_position builder_ position in
  SetDerailerPositionBuilder.Finish builder_.
(* SRC autogens/proto/commands_generated.h 1691-1696 SetDerailerPosition::UnPackTo *)
Definition SetDerailerPosition_UnPackTo (_o : SetDerailerPositionT.t) (this_ : Obj) : option
    SetDerailerPositionT.t :=
  uid ← SetDerailerPosition.uid this_;
  position ← SetDerailerPosition.position this_;
  Some (SetDerailerPositionT.mk uid position).
(* SRC autogens/proto/commands_generated.h 1685-1689 SetDerailerPosition::UnPack *)
Definition SetDerailerPosition_UnPack (this_ : Obj) : option SetDerailerPositionT.t :=
  SetDerailerPosition_UnPackTo SetDerailerPositionT.init this_.
(* SRC autogens/proto/commands_generated.h 1702-1712 SetDerailerPosition::Pack *)
Definition SetDerailerPosition_Pack (_o : SetDerailerPositionT.t) : option Obj :=
  let _uid := SetDerailerPositionT.uid _o in
  let _position := SetDerailerPositionT.position _o in
  CreateSetDerailerPosition _uid _position.
Definition SetDerailerPosition_message : Message SetDerailerPositionT.t :=
  mkMessage SetDerailerPosition_Pack SetDerailerPosition_UnPackTo SetDerailerPosition_UnPack
      SetDerailerPosition.Verify SetDerailerPositionT.fits SetDerailerPositionT.tables 1.
End SetDerailerPositionFunctions.
Ltac unfold_SetDerailerPosition := cbv beta iota zeta delta [SetDerailerPosition_message
    SetDerailerPosition_Pack SetDerailerPosition_UnPack SetDerailerPosition_UnPackTo
    CreateSetDerailerPosition SetDerailerPositionBuilder.add_uid
    SetDerailerPositionBuilder.add_position SetDerailerPositionBuilder.Finish
        SetDerailerPosition.uid
    SetDerailerPosition.position SetDerailerPosition.Verify SetDerailerPositionT.init
    SetDerailerPositionT.fits SetDerailerPositionT.tables SetDerailerPositionT.uid
    SetDerailerPositionT.position] in *.
#[global] Instance SetDerailerPosition_ok {F : FlatBuffers} {FO : FlatBuffersOk F} : MessageOk
    SetDerailerPosition_message.
Proof. solve_message_with ltac:(fun _ => unfold_SetDerailerPosition). Qed.
#[global] Arguments SetDerailerPosition_Pack : simpl never.
#[global] Arguments SetDerailerPosition_UnPackTo : simpl never.
#[global] Arguments SetDerailerPosition_UnPack : simpl never.
#[global] Arguments SetDerailerPosition.Verify : simpl never.
#[global] Arguments SetDerailerPositionT.fits : simpl never.
#[global] Arguments SetDerailerPositionT.tables : simpl never.
#[global] Typeclasses Opaque SetDerailerPosition.Verify.

(** Open or close a block section (blok liniowy). *)
Module SetBlockSectionT.
(* SRC autogens/proto/commands_generated.h 913-917 SetBlockSectionT *)
Record t : Type := mk {
  uid : Z;
  state : Z }.
(* SRC autogens/proto/commands_generated.h 913-917 SetBlockSectionT *)
Definition init : t := mk 0 (code BlockSectionState.OPEN).
Definition fits (_o : t) : Prop :=
  in_range U64 (uid _o) = true /\
  in_range I8 (state _o) = true.
Definition tables (_o : t) : Z := 1.
End SetBlockSectionT.

Module SetBlockSection.
Notation VT_UID := 4 (only parsing).
Notation VT_STATE := 6 (only parsing).
Section Table.
Context {F : FlatBuffers}.
(* SRC autogens/proto/commands_generated.h 927-929 SetBlockSection::uid *)
Definition uid (this_ : Obj) : option Z := GetField U64 this_ VT_UID 0.
(* SRC autogens/proto/commands_generated.h 930-932 SetBlockSection::state *)
Definition state (this_ : Obj) : option Z := GetField I8 this_ VT_STATE 0.
(* SRC autogens/proto/commands_generated.h 934-939 SetBlockSection::Verify *)
Definition Verify (this_ : Obj) : verification :=
  TableStart this_ &&>
  check (VerifyField U64 this_ VT_UID 8) &&>
  check (VerifyField I8 this_ VT_STATE 1) &&>
  TableEnd.
End Table.
End SetBlockSection.

Module SetBlockSectionBuilder.
Section Builder.
Context {F : FlatBuffers}.
(* SRC autogens/proto/commands_generated.h 949-951 SetBlockSectionBuilder::add_uid *)
Definition add_uid (builder_ : builder) (uid : Z) : builder :=
  builder_ ++ [Element U64 SetBlockSection.VT_UID uid 0].
(* SRC autogens/proto/commands_generated.h 952-954 SetBlockSectionBuilder::add_state *)
Definition add_state (builder_ : builder) (state : Z) : builder :=
  builder_ ++ [Element I8 SetBlockSection.VT_STATE state 0].
(* SRC autogens/proto/commands_generated.h 959-963 SetBlockSectionBuilder::Finish *)
Definition Finish (builder_ : builder) : option Obj := Some (EndTable builder_).
End Builder.
End SetBlockSectionBuilder.

Section SetBlockSectionFunctions.
Context {F : FlatBuffers}.
(* SRC autogens/proto/commands_generated.h 966-974 CreateSetBlockSection *)
Definition CreateSetBlockSection (uid : Z) (state : Z) : option Obj :=
  let builder_ := [] in
  let builder_ := SetBlockSectionBuilder.add_uid builder_ uid in
  let builder_ := SetBlockSectionBuilder.add_state builder_ state in
  SetBlockSectionBuilder.Finish builder_.
(* SRC autogens/proto/commands_generated.h 1720-1725 SetBlockSection::UnPackTo *)
Definition SetBlockSection_UnPackTo (_o : SetBlockSectionT.t) (this_ : Obj) : option
    SetBlockSectionT.t :=
  uid ← SetBlockSection.uid this_;
  state ← SetBlockSection.state this_;
  Some (SetBlockSectionT.mk uid state).
(* SRC autogens/proto/commands_generated.h 1714-1718 SetBlockSection::UnPack *)
Definition SetBlockSection_UnPack (this_ : Obj) : option SetBlockSectionT.t :=
  SetBlockSection_UnPackTo SetBlockSectionT.init this_.
(* SRC autogens/proto/commands_generated.h 1731-1741 SetBlockSection::Pack *)
Definition SetBlockSection_Pack (_o : SetBlockSectionT.t) : option Obj :=
  let _uid := SetBlockSectionT.uid _o in
  let _state := SetBlockSectionT.state _o in
  CreateSetBlockSection _uid _state.
Definition SetBlockSection_message : Message SetBlockSectionT.t :=
  mkMessage SetBlockSection_Pack SetBlockSection_UnPackTo SetBlockSection_UnPack
      SetBlockSection.Verify SetBlockSectionT.fits SetBlockSectionT.tables 1.
End SetBlockSectionFunctions.
Ltac unfold_SetBlockSection := cbv beta iota zeta delta [SetBlockSection_message
    SetBlockSection_Pack SetBlockSection_UnPack SetBlockSection_UnPackTo CreateSetBlockSection
    SetBlockSectionBuilder.add_uid SetBlockSectionBuilder.add_state SetBlockSectionBuilder.Finish
    SetBlockSection.uid SetBlockSection.state SetBlockSection.Verify SetBlockSectionT.init
    SetBlockSectionT.fits SetBlockSectionT.tables SetBlockSectionT.uid SetBlockSectionT.state] in *.
#[global] Instance SetBlockSection_ok {F : FlatBuffers} {FO : FlatBuffersOk F} : MessageOk
    SetBlockSection_message.
Proof. solve_message_with ltac:(fun _ => unfold_SetBlockSection). Qed.
#[global] Arguments SetBlockSection_Pack : simpl never.
#[global] Arguments SetBlockSection_UnPackTo : simpl never.
#[global] Arguments SetBlockSection_UnPack : simpl never.
#[global] Arguments SetBlockSection.Verify : simpl never.
#[global] Arguments SetBlockSectionT.fits : simpl never.
#[global] Arguments SetBlockSectionT.tables : simpl never.
#[global] Typeclasses Opaque SetBlockSection.Verify.

(** High-level route request. The engine resolves required switch positions and
    signal aspects internally. *)
Module RequestRouteT.
(* SRC autogens/proto/commands_generated.h 978-982 RequestRouteT *)
Record t : Type := mk {
  from_signal_uid : Z;
  to_signal_uid : Z }.
(* SRC autogens/proto/commands_generated.h 978-982 RequestRouteT *)
Definition init : t := mk 0 0.
Definition fits (_o : t) : Prop :=
  in_range U64 (from_signal_uid _o) = true /\
  in_range U64 (to_signal_uid _o) = true.
Definition tables (_o : t) : Z := 1.
End RequestRouteT.

Module RequestRoute.
Notation VT_FROM_SIGNAL_UID := 4 (only parsing).
Notation VT_TO_SIGNAL_UID := 6 (only parsing).
Section Table.
Context {F : FlatBuffers}.
(* SRC autogens/proto/commands_generated.h 993-995 RequestRoute::from_signal_uid *)
Definition from_signal_uid (this_ : Obj) : option Z := GetField U64 this_ VT_FROM_SIGNAL_UID 0.
(* SRC autogens/proto/commands_generated.h 996-998 RequestRoute::to_signal_uid *)
Definition to_signal_uid (this_ : Obj) : option Z := GetField U64 this_ VT_TO_SIGNAL_UID 0.
(* SRC autogens/proto/commands_generated.h 1000-1005 RequestRoute::Verify *)
Definition Verify (this_ : Obj) : verification :=
  TableStart this_ &&>
  check (VerifyField U64 this_ VT_FROM_SIGNAL_UID 8) &&>
  check (VerifyField U64 this_ VT_TO_SIGNAL_UID 8) &&>
  TableEnd.
End Table.
End RequestRoute.

Module RequestRouteBuilder.
Section Builder.
Context {F : FlatBuffers}.
(* SRC autogens/proto/commands_generated.h 1015-1017 RequestRouteBuilder::add_from_signal_uid *)
Definition add_from_signal_uid (builder_ : builder) (from_signal_uid : Z) : builder :=
  builder_ ++ [Element U64 RequestRoute.VT_FROM_SIGNAL_UID from_signal_uid 0].
(* SRC autogens/proto/commands_generated.h 1018-1020 RequestRouteBuilder::add_to_signal_uid *)
Definition add_to_signal_uid (builder_ : builder) (to_signal_uid : Z) : builder :=
  builder_ ++ [Element U64 RequestRoute.VT_TO_SIGNAL_UID to_signal_uid 0].
(* SRC autogens/proto/commands_generated.h 1025-1029 RequestRouteBuilder::Finish *)
Definition Finish (builder_ : builder) : option Obj := Some (EndTable builder_).
End Builder.
End RequestRouteBuilder.

Section RequestRouteFunctions.
Context {F : FlatBuffers}.
(* SRC autogens/proto/commands_generated.h 1032-1040 CreateRequestRoute *)
Definition CreateRequestRoute (from_signal_uid : Z) (to_signal_uid : Z) : option Obj :=
  let builder_ := [] in
  let builder_ := RequestRouteBuilder.add_to_signal_uid builder_ to_signal_uid in
  let builder_ := RequestRouteBuilder.add_from_signal_uid builder_ from_signal_uid in
  RequestRouteBuilder.Finish builder_.
(* SRC autogens/proto/commands_generated.h 1749-1754 RequestRoute::UnPackTo *)
Definition RequestRoute_UnPackTo (_o : RequestRouteT.t) (this_ : Obj) : option RequestRouteT.t :=
  from_signal_uid ← RequestRoute.from_signal_uid this_;
  to_signal_uid ← RequestRoute.to_signal_uid this_;
  Some (RequestRouteT.mk from_signal_uid to_signal_uid).
(* SRC autogens/proto/commands_generated.h 1743-1747 RequestRoute::UnPack *)
Definition RequestRoute_UnPack (this_ : Obj) : option RequestRouteT.t :=
  RequestRoute_UnPackTo RequestRouteT.init this_.
(* SRC autogens/proto/commands_generated.h 1760-1770 RequestRoute::Pack *)
Definition RequestRoute_Pack (_o : RequestRouteT.t) : option Obj :=
  let _from_signal_uid := RequestRouteT.from_signal_uid _o in
  let _to_signal_uid := RequestRouteT.to_signal_uid _o in
  CreateRequestRoute _from_signal_uid _to_signal_uid.
Definition RequestRoute_message : Message RequestRouteT.t :=
  mkMessage RequestRoute_Pack RequestRoute_UnPackTo RequestRoute_UnPack RequestRoute.Verify
      RequestRouteT.fits RequestRouteT.tables 1.
End RequestRouteFunctions.
Ltac unfold_RequestRoute := cbv beta iota zeta delta [RequestRoute_message RequestRoute_Pack
    RequestRoute_UnPack RequestRoute_UnPackTo CreateRequestRoute
    RequestRouteBuilder.add_from_signal_uid RequestRouteBuilder.add_to_signal_uid
    RequestRouteBuilder.Finish RequestRoute.from_signal_uid RequestRoute.to_signal_uid
    RequestRoute.Verify RequestRouteT.init RequestRouteT.fits RequestRouteT.tables
    RequestRouteT.from_signal_uid RequestRouteT.to_signal_uid] in *.
#[global] Instance RequestRoute_ok {F : FlatBuffers} {FO : FlatBuffersOk F} : MessageOk
    RequestRoute_message.
Proof. solve_message_with ltac:(fun _ => unfold_RequestRoute). Qed.
#[global] Arguments RequestRoute_Pack : simpl never.
#[global] Arguments RequestRoute_UnPackTo : simpl never.
#[global] Arguments RequestRoute_UnPack : simpl never.
#[global] Arguments RequestRoute.Verify : simpl never.
#[global] Arguments RequestRouteT.fits : simpl never.
#[global] Arguments RequestRouteT.tables : simpl never.
#[global] Typeclasses Opaque RequestRoute.Verify.

(** Cancel a previously set route. *)
Module CancelRouteT.
(* SRC autogens/proto/commands_generated.h 1044-1047 CancelRouteT *)
Record t : Type := mk {
  route_uid : Z }.
(* SRC autogens/proto/commands_generated.h 1044-1047 CancelRouteT *)
Definition init : t := mk 0.
Definition fits (_o : t) : Prop :=
  in_range U64 (route_uid _o) = true.
Definition tables (_o : t) : Z := 1.
End CancelRouteT.

Module CancelRoute.
Notation VT_ROUTE_UID := 4 (only parsing).
Section Table.
Context {F : FlatBuffers}.
(* SRC autogens/proto/commands_generated.h 1056-1058 CancelRoute::route_uid *)
Definition route_uid (this_ : Obj) : option Z := GetField U64 this_ VT_ROUTE_UID 0.
(* SRC autogens/proto/commands_generated.h 1060-1064 CancelRoute::Verify *)
Definition Verify (this_ : Obj) : verification :=
  TableStart this_ &&>
  check (VerifyField U64 this_ VT_ROUTE_UID 8) &&>
  TableEnd.
End Table.
End CancelRoute.

Module CancelRouteBuilder.
Section Builder.
Context {F : FlatBuffers}.
(* SRC autogens/proto/commands_generated.h 1074-1076 CancelRouteBuilder::add_route_uid *)
Definition add_route_uid (builder_ : builder) (route_uid : Z) : builder :=
  builder_ ++ [Element U64 CancelRoute.VT_ROUTE_UID route_uid 0].
(* SRC autogens/proto/commands_generated.h 1081-1085 CancelRouteBuilder::Finish *)
Definition Finish (builder_ : builder) : option Obj := Some (EndTable builder_).
End Builder.
End CancelRouteBuilder.

Section CancelRouteFunctions.
Context {F : FlatBuffers}.
(* SRC autogens/proto/commands_generated.h 1088-1094 CreateCancelRoute *)
Definition CreateCancelRoute (route_uid : Z) : option Obj :=
  let builder_ := [] in
  let builder_ := CancelRouteBuilder.add_route_uid builder_ route_uid in
  CancelRouteBuilder.Finish builder_.
(* SRC autogens/proto/commands_generated.h 1778-1782 CancelRoute::UnPackTo *)
Definition CancelRoute_UnPackTo (_o : CancelRouteT.t) (this_ : Obj) : option CancelRouteT.t :=
  route_uid ← CancelRoute.route_uid this_;
  Some (CancelRouteT.mk route_uid).
(* SRC autogens/proto/commands_generated.h 1772-1776 CancelRoute::UnPack *)
Definition CancelRoute_UnPack (this_ : Obj) : option CancelRouteT.t :=
  CancelRoute_UnPackTo CancelRouteT.init this_.
(* SRC autogens/proto/commands_generated.h 1788-1796 CancelRoute::Pack *)
Definition CancelRoute_Pack (_o : CancelRouteT.t) : option Obj :=
  let _route_uid := CancelRouteT.route_uid _o in
  CreateCancelRoute _route_uid.
Definition CancelRoute_message : Message CancelRouteT.t :=
  mkMessage CancelRoute_Pack CancelRoute_UnPackTo CancelRoute_UnPack CancelRoute.Verify
      CancelRouteT.fits CancelRouteT.tables 1.
End CancelRouteFunctions.
Ltac unfold_CancelRoute := cbv beta iota zeta delta [CancelRoute_message CancelRoute_Pack
    CancelRoute_UnPack CancelRoute_UnPackTo CreateCancelRoute CancelRouteBuilder.add_route_uid
    CancelRouteBuilder.Finish CancelRoute.route_uid CancelRoute.Verify CancelRouteT.init
    CancelRouteT.fits CancelRouteT.tables CancelRouteT.route_uid] in *.
#[global] Instance CancelRoute_ok {F : FlatBuffers} {FO : FlatBuffersOk F} : MessageOk
    CancelRoute_message.
Proof. solve_message_with ltac:(fun _ => unfold_CancelRoute). Qed.
#[global] Arguments CancelRoute_Pack : simpl never.
#[global] Arguments CancelRoute_UnPackTo : simpl never.
#[global] Arguments CancelRoute_UnPack : simpl never.
#[global] Arguments CancelRoute.Verify : simpl never.
#[global] Arguments CancelRouteT.fits : simpl never.
#[global] Arguments CancelRouteT.tables : simpl never.
#[global] Typeclasses Opaque CancelRoute.Verify.

(** Acknowledge an alarm displayed on the dispatcher's panel. *)
Module AcknowledgeAlarmT.
(* SRC autogens/proto/commands_generated.h 1098-1101 AcknowledgeAlarmT *)
Record t : Type := mk {
  alarm_uid : Z }.
(* SRC autogens/proto/commands_generated.h 1098-1101 AcknowledgeAlarmT *)
Definition init : t := mk 0.
Definition fits (_o : t) : Prop :=
  in_range U64 (alarm_uid _o) = true.
Definition tables (_o : t) : Z := 1.
End AcknowledgeAlarmT.

Module AcknowledgeAlarm.
Notation VT_ALARM_UID := 4 (only parsing).
Section Table.
Context {F : FlatBuffers}.
(* SRC autogens/proto/commands_generated.h 1110-1112 AcknowledgeAlarm::alarm_uid *)
Definition alarm_uid (this_ : Obj) : option Z := GetField U64 this_ VT_ALARM_UID 0.
(* SRC autogens/proto/commands_generated.h 1114-1118 AcknowledgeAlarm::Verify *)
Definition Verify (this_ : Obj) : verification :=
  TableStart this_ &&>
  check (VerifyField U64 this_ VT_ALARM_UID 8) &&>
  TableEnd.
End Table.
End AcknowledgeAlarm.

Module AcknowledgeAlarmBuilder.
Section Builder.
Context {F : FlatBuffers}.
(* SRC autogens/proto/commands_generated.h 1128-1130 AcknowledgeAlarmBuilder::add_alarm_uid *)
Definition add_alarm_uid (builder_ : builder) (alarm_uid : Z) : builder :=
  builder_ ++ [Element U64 AcknowledgeAlarm.VT_ALARM_UID alarm_uid 0].
(* SRC autogens/proto/commands_generated.h 1135-1139 AcknowledgeAlarmBuilder::Finish *)
Definition Finish (builder_ : builder) : option Obj := Some (EndTable builder_).
End Builder.
End AcknowledgeAlarmBuilder.

Section AcknowledgeAlarmFunctions.
Context {F : FlatBuffers}.
(* SRC autogens/proto/commands_generated.h 1142-1148 CreateAcknowledgeAlarm *)
Definition CreateAcknowledgeAlarm (alarm_uid : Z) : option Obj :=
  let builder_ := [] in
  let builder_ := AcknowledgeAlarmBuilder.add_alarm_uid builder_ alarm_uid in
  AcknowledgeAlarmBuilder.Finish builder_.
(* SRC autogens/proto/commands_generated.h 1804-1808 AcknowledgeAlarm::UnPackTo *)
Definition AcknowledgeAlarm_UnPackTo (_o : AcknowledgeAlarmT.t) (this_ : Obj) : option
    AcknowledgeAlarmT.t :=
  alarm_uid ← AcknowledgeAlarm.alarm_uid this_;
  Some (AcknowledgeAlarmT.mk alarm_uid).
(* SRC autogens/proto/commands_generated.h 1798-1802 AcknowledgeAlarm::UnPack *)
Definition AcknowledgeAlarm_UnPack (this_ : Obj) : option AcknowledgeAlarmT.t :=
  AcknowledgeAlarm_UnPackTo AcknowledgeAlarmT.init this_.
(* SRC autogens/proto/commands_generated.h 1814-1822 AcknowledgeAlarm::Pack *)
Definition AcknowledgeAlarm_Pack (_o : AcknowledgeAlarmT.t) : option Obj :=
  let _alarm_uid := AcknowledgeAlarmT.alarm_uid _o in
  CreateAcknowledgeAlarm _alarm_uid.
Definition AcknowledgeAlarm_message : Message AcknowledgeAlarmT.t :=
  mkMessage AcknowledgeAlarm_Pack AcknowledgeAlarm_UnPackTo AcknowledgeAlarm_UnPack
      AcknowledgeAlarm.Verify AcknowledgeAlarmT.fits AcknowledgeAlarmT.tables 1.
End AcknowledgeAlarmFunctions.
Ltac unfold_AcknowledgeAlarm := cbv beta iota zeta delta [AcknowledgeAlarm_message
    AcknowledgeAlarm_Pack AcknowledgeAlarm_UnPack AcknowledgeAlarm_UnPackTo CreateAcknowledgeAlarm
    AcknowledgeAlarmBuilder.add_alarm_uid AcknowledgeAlarmBuilder.Finish AcknowledgeAlarm.alarm_uid
    AcknowledgeAlarm.Verify AcknowledgeAlarmT.init AcknowledgeAlarmT.fits AcknowledgeAlarmT.tables
    AcknowledgeAlarmT.alarm_uid] in *.
#[global] Instance AcknowledgeAlarm_ok {F : FlatBuffers} {FO : FlatBuffersOk F} : MessageOk
    AcknowledgeAlarm_message.
Proof. solve_message_with ltac:(fun _ => unfold_AcknowledgeAlarm). Qed.
#[global] Arguments AcknowledgeAlarm_Pack : simpl never.
#[global] Arguments AcknowledgeAlarm_UnPackTo : simpl never.
#[global] Arguments AcknowledgeAlarm_UnPack : simpl never.
#[global] Arguments AcknowledgeAlarm.Verify : simpl never.
#[global] Arguments AcknowledgeAlarmT.fits : simpl never.
#[global] Arguments AcknowledgeAlarmT.tables : simpl never.
#[global] Typeclasses Opaque AcknowledgeAlarm.Verify.

Module SetBlockDirectionT.
(* SRC autogens/proto/commands_generated.h 1152-1156 SetBlockDirectionT *)
Record t : Type := mk {
  block_section_uid : Z;
  operation : Z }.
(* SRC autogens/proto/commands_generated.h 1152-1156 SetBlockDirectionT *)
Definition init : t := mk 0 (code Shl12Op.BLW).
Definition fits (_o : t) : Prop :=
  in_range U64 (block_section_uid _o) = true /\
  in_range I8 (operation _o) = true.
Definition tables (_o : t) : Z := 1.
End SetBlockDirectionT.

Module SetBlockDirection.
Notation VT_BLOCK_SECTION_UID := 4 (only parsing).
Notation VT_OPERATION := 6 (only parsing).
Section Table.
Context {F : FlatBuffers}.
(* SRC autogens/proto/commands_generated.h 1165-1167 SetBlockDirection::block_section_uid *)
Definition block_section_uid (this_ : Obj) : option Z := GetField U64 this_ VT_BLOCK_SECTION_UID 0.
(* SRC autogens/proto/commands_generated.h 1168-1170 SetBlockDirection::operation *)
Definition operation (this_ : Obj) : option Z := GetField I8 this_ VT_OPERATION 0.
(* SRC autogens/proto/commands_generated.h 1172-1177 SetBlockDirection::Verify *)
Definition Verify (this_ : Obj) : verification :=
  TableStart this_ &&>
  check (VerifyField U64 this_ VT_BLOCK_SECTION_UID 8) &&>
  check (VerifyField I8 this_ VT_OPERATION 1) &&>
  TableEnd.
End Table.
End SetBlockDirection.

Module SetBlockDirectionBuilder.
Section Builder.
Context {F : FlatBuffers}.
(* SRC autogens/proto/commands_generated.h 1187-1189 SetBlockDirectionBuilder::add_block_section_uid *)
Definition add_block_section_uid (builder_ : builder) (block_section_uid : Z) : builder :=
  builder_ ++ [Element U64 SetBlockDirection.VT_BLOCK_SECTION_UID block_section_uid 0].
(* SRC autogens/proto/commands_generated.h 1190-1192 SetBlockDirectionBuilder::add_operation *)
Definition add_operation (builder_ : builder) (operation : Z) : builder :=
  builder_ ++ [Element I8 SetBlockDirection.VT_OPERATION operation 0].
(* SRC autogens/proto/commands_generated.h 1197-1201 SetBlockDirectionBuilder::Finish *)
Definition Finish (builder_ : builder) : option Obj := Some (EndTable builder_).
End Builder.
End SetBlockDirectionBuilder.

Section SetBlockDirectionFunctions.
Context {F : FlatBuffers}.
(* SRC autogens/proto/commands_generated.h 1204-1212 CreateSetBlockDirection *)
Definition CreateSetBlockDirection (block_section_uid : Z) (operation : Z) : option Obj :=
  let builder_ := [] in
  let builder_ := SetBlockDirectionBuilder.add_block_section_uid builder_ block_section_uid in
  let builder_ := SetBlockDirectionBuilder.add_operation builder_ operation in
  SetBlockDirectionBuilder.Finish builder_.
(* SRC autogens/proto/commands_generated.h 1830-1835 SetBlockDirection::UnPackTo *)
Definition SetBlockDirection_UnPackTo (_o : SetBlockDirectionT.t) (this_ : Obj) : option
    SetBlockDirectionT.t :=
  block_section_uid ← SetBlockDirection.block_section_uid this_;
  operation ← SetBlockDirection.operation this_;
  Some (SetBlockDirectionT.mk block_section_uid operation).
(* SRC autogens/proto/commands_generated.h 1824-1828 SetBlockDirection::UnPack *)
Definition SetBlockDirection_UnPack (this_ : Obj) : option SetBlockDirectionT.t :=
  SetBlockDirection_UnPackTo SetBlockDirectionT.init this_.
(* SRC autogens/proto/commands_generated.h 1841-1851 SetBlockDirection::Pack *)
Definition SetBlockDirection_Pack (_o : SetBlockDirectionT.t) : option Obj :=
  let _block_section_uid := SetBlockDirectionT.block_section_uid _o in
  let _operation := SetBlockDirectionT.operation _o in
  CreateSetBlockDirection _block_section_uid _operation.
Definition SetBlockDirection_message : Message SetBlockDirectionT.t :=
  mkMessage SetBlockDirection_Pack SetBlockDirection_UnPackTo SetBlockDirection_UnPack
      SetBlockDirection.Verify SetBlockDirectionT.fits SetBlockDirectionT.tables 1.
End SetBlockDirectionFunctions.
Ltac unfold_SetBlockDirection := cbv beta iota zeta delta [SetBlockDirection_message
    SetBlockDirection_Pack SetBlockDirection_UnPack SetBlockDirection_UnPackTo
        CreateSetBlockDirection
    SetBlockDirectionBuilder.add_block_section_uid SetBlockDirectionBuilder.add_operation
    SetBlockDirectionBuilder.Finish SetBlockDirection.block_section_uid SetBlockDirection.operation
    SetBlockDirection.Verify SetBlockDirectionT.init SetBlockDirectionT.fits
        SetBlockDirectionT.tables
    SetBlockDirectionT.block_section_uid SetBlockDirectionT.operation] in *.
#[global] Instance SetBlockDirection_ok {F : FlatBuffers} {FO : FlatBuffersOk F} : MessageOk
    SetBlockDirection_message.
Proof. solve_message_with ltac:(fun _ => unfold_SetBlockDirection). Qed.
#[global] Arguments SetBlockDirection_Pack : simpl never.
#[global] Arguments SetBlockDirection_UnPackTo : simpl never.
#[global] Arguments SetBlockDirection_UnPack : simpl never.
#[global] Arguments SetBlockDirection.Verify : simpl never.
#[global] Arguments SetBlockDirectionT.fits : simpl never.
#[global] Arguments SetBlockDirectionT.tables : simpl never.
#[global] Typeclasses Opaque SetBlockDirection.Verify.

(** Initiate axle-counter reset sequence (SLI - ESTW ML8 only). *)
Module InitAxleCounterResetT.
(* SRC autogens/proto/commands_generated.h 1216-1219 InitAxleCounterResetT *)
Record t : Type := mk {
  block_section_uid : Z }.
(* SRC autogens/proto/commands_generated.h 1216-1219 InitAxleCounterResetT *)
Definition init : t := mk 0.
Definition fits (_o : t) : Prop :=
  in_range U64 (block_section_uid _o) = true.
Definition tables (_o : t) : Z := 1.
End InitAxleCounterResetT.

Module InitAxleCounterReset.
Notation VT_BLOCK_SECTION_UID := 4 (only parsing).
Section Table.
Context {F : FlatBuffers}.
(* SRC autogens/proto/commands_generated.h 1228-1230 InitAxleCounterReset::block_section_uid *)
Definition block_section_uid (this_ : Obj) : option Z := GetField U64 this_ VT_BLOCK_SECTION_UID 0.
(* SRC autogens/proto/commands_generated.h 1232-1236 InitAxleCounterReset::Verify *)
Definition Verify (this_ : Obj) : verification :=
  TableStart this_ &&>
  check (VerifyField U64 this_ VT_BLOCK_SECTION_UID 8) &&>
  TableEnd.
End Table.
End InitAxleCounterReset.

Module InitAxleCounterResetBuilder.
Section Builder.
Context {F : FlatBuffers}.
(* SRC autogens/proto/commands_generated.h 1246-1248 InitAxleCounterResetBuilder::add_block_section_uid *)
Definition add_block_section_uid (builder_ : builder) (block_section_uid : Z) : builder :=
  builder_ ++ [Element U64 InitAxleCounterReset.VT_BLOCK_SECTION_UID block_section_uid 0].
(* SRC autogens/proto/commands_generated.h 1253-1257 InitAxleCounterResetBuilder::Finish *)
Definition Finish (builder_ : builder) : option Obj := Some (EndTable builder_).
End Builder.
End InitAxleCounterResetBuilder.

Section InitAxleCounterResetFunctions.
Context {F : FlatBuffers}.
(* SRC autogens/proto/commands_generated.h 1260-1266 CreateInitAxleCounterReset *)
Definition CreateInitAxleCounterReset (block_section_uid : Z) : option Obj :=
  let builder_ := [] in
  let builder_ := InitAxleCounterResetBuilder.add_block_section_uid builder_ block_section_uid in
  InitAxleCounterResetBuilder.Finish builder_.
(* SRC autogens/proto/commands_generated.h 1859-1863 InitAxleCounterReset::UnPackTo *)
Definition InitAxleCounterReset_UnPackTo (_o : InitAxleCounterResetT.t) (this_ : Obj) : option
    InitAxleCounterResetT.t :=
  block_section_uid ← InitAxleCounterReset.block_section_uid this_;
  Some (InitAxleCounterResetT.mk block_section_uid).
(* SRC autogens/proto/commands_generated.h 1853-1857 InitAxleCounterReset::UnPack *)
Definition InitAxleCounterReset_UnPack (this_ : Obj) : option InitAxleCounterResetT.t :=
  InitAxleCounterReset_UnPackTo InitAxleCounterResetT.init this_.
(* SRC autogens/proto/commands_generated.h 1869-1877 InitAxleCounterReset::Pack *)
Definition InitAxleCounterReset_Pack (_o : InitAxleCounterResetT.t) : option Obj :=
  let _block_section_uid := InitAxleCounterResetT.block_section_uid _o in
  CreateInitAxleCounterReset _block_section_uid.
Definition InitAxleCounterReset_message : Message InitAxleCounterResetT.t :=
  mkMessage InitAxleCounterReset_Pack InitAxleCounterReset_UnPackTo InitAxleCounterReset_UnPack
      InitAxleCounterReset.Verify InitAxleCounterResetT.fits InitAxleCounterResetT.tables 1.
End InitAxleCounterResetFunctions.
Ltac unfold_InitAxleCounterReset := cbv beta iota zeta delta [InitAxleCounterReset_message
    InitAxleCounterReset_Pack InitAxleCounterReset_UnPack InitAxleCounterReset_UnPackTo
    CreateInitAxleCounterReset InitAxleCounterResetBuilder.add_block_section_uid
    InitAxleCounterResetBuilder.Finish InitAxleCounterReset.block_section_uid
    InitAxleCounterReset.Verify InitAxleCounterResetT.init InitAxleCounterResetT.fits
    InitAxleCounterResetT.tables InitAxleCounterResetT.block_section_uid] in *.
#[global] Instance InitAxleCounterReset_ok {F : FlatBuffers} {FO : FlatBuffersOk F} : MessageOk
    InitAxleCounterReset_message.
Proof. solve_message_with ltac:(fun _ => unfold_InitAxleCounterReset). Qed.
#[global] Arguments InitAxleCounterReset_Pack : simpl never.
#[global] Arguments InitAxleCounterReset_UnPackTo : simpl never.
#[global] Arguments InitAxleCounterReset_UnPack : simpl never.
#[global] Arguments InitAxleCounterReset.Verify : simpl never.
#[global] Arguments InitAxleCounterResetT.fits : simpl never.
#[global] Arguments InitAxleCounterResetT.tables : simpl never.
#[global] Typeclasses Opaque InitAxleCounterReset.Verify.

(** Execute axle-counter reset (SLK - ESTW ML8 only). *)
Module ResetAxleCounterT.
(* SRC autogens/proto/commands_generated.h 1270-1273 ResetAxleCounterT *)
Record t : Type := mk {
  block_section_uid : Z }.
(* SRC autogens/proto/commands_generated.h 1270-1273 ResetAxleCounterT *)
Definition init : t := mk 0.
Definition fits (_o : t) : Prop :=
  in_range U64 (block_section_uid _o) = true.
Definition tables (_o : t) : Z := 1.
End ResetAxleCounterT.

Module ResetAxleCounter.
Notation VT_BLOCK_SECTION_UID := 4 (only parsing).
Section Table.
Context {F : FlatBuffers}.
(* SRC autogens/proto/commands_generated.h 1282-1284 ResetAxleCounter::block_section_uid *)
Definition block_section_uid (this_ : Obj) : option Z := GetField U64 this_ VT_BLOCK_SECTION_UID 0.
(* SRC autogens/proto/commands_generated.h 1286-1290 ResetAxleCounter::Verify *)
Definition Verify (this_ : Obj) : verification :=
  TableStart this_ &&>
  check (VerifyField U64 this_ VT_BLOCK_SECTION_UID 8) &&>
  TableEnd.
End Table.
End ResetAxleCounter.

Module ResetAxleCounterBuilder.
Section Builder.
Context {F : FlatBuffers}.
(* SRC autogens/proto/commands_generated.h 1300-1302 ResetAxleCounterBuilder::add_block_section_uid *)
Definition add_block_section_uid (builder_ : builder) (block_section_uid : Z) : builder :=
  builder_ ++ [Element U64 ResetAxleCounter.VT_BLOCK_SECTION_UID block_section_uid 0].
(* SRC autogens/proto/commands_generated.h 1307-1311 ResetAxleCounterBuilder::Finish *)
Definition Finish (builder_ : builder) : option Obj := Some (EndTable builder_).
End Builder.
End ResetAxleCounterBuilder.

Section ResetAxleCounterFunctions.
Context {F : FlatBuffers}.
(* SRC autogens/proto/commands_generated.h 1314-1320 CreateResetAxleCounter *)
Definition CreateResetAxleCounter (block_section_uid : Z) : option Obj :=
  let builder_ := [] in
  let builder_ := ResetAxleCounterBuilder.add_block_section_uid builder_ block_section_uid in
  ResetAxleCounterBuilder.Finish builder_.
(* SRC autogens/proto/commands_generated.h 1885-1889 ResetAxleCounter::UnPackTo *)
Definition ResetAxleCounter_UnPackTo (_o : ResetAxleCounterT.t) (this_ : Obj) : option
    ResetAxleCounterT.t :=
  block_section_uid ← ResetAxleCounter.block_section_uid this_;
  Some (ResetAxleCounterT.mk block_section_uid).
(* SRC autogens/proto/commands_generated.h 1879-1883 ResetAxleCounter::UnPack *)
Definition ResetAxleCounter_UnPack (this_ : Obj) : option ResetAxleCounterT.t :=
  ResetAxleCounter_UnPackTo ResetAxleCounterT.init this_.
(* SRC autogens/proto/commands_generated.h 1895-1903 ResetAxleCounter::Pack *)
Definition ResetAxleCounter_Pack (_o : ResetAxleCounterT.t) : option Obj :=
  let _block_section_uid := ResetAxleCounterT.block_section_uid _o in
  CreateResetAxleCounter _block_section_uid.
Definition ResetAxleCounter_message : Message ResetAxleCounterT.t :=
  mkMessage ResetAxleCounter_Pack ResetAxleCounter_UnPackTo ResetAxleCounter_UnPack
      ResetAxleCounter.Verify ResetAxleCounterT.fits ResetAxleCounterT.tables 1.
End ResetAxleCounterFunctions.
Ltac unfold_ResetAxleCounter := cbv beta iota zeta delta [ResetAxleCounter_message
    ResetAxleCounter_Pack ResetAxleCounter_UnPack ResetAxleCounter_UnPackTo CreateResetAxleCounter
    ResetAxleCounterBuilder.add_block_section_uid ResetAxleCounterBuilder.Finish
    ResetAxleCounter.block_section_uid ResetAxleCounter.Verify ResetAxleCounterT.init
    ResetAxleCounterT.fits ResetAxleCounterT.tables ResetAxleCounterT.block_section_uid] in *.
#[global] Instance ResetAxleCounter_ok {F : FlatBuffers} {FO : FlatBuffersOk F} : MessageOk
    ResetAxleCounter_message.
Proof. solve_message_with ltac:(fun _ => unfold_ResetAxleCounter). Qed.
#[global] Arguments ResetAxleCounter_Pack : simpl never.
#[global] Arguments ResetAxleCounter_UnPackTo : simpl never.
#[global] Arguments ResetAxleCounter_UnPack : simpl never.
#[global] Arguments ResetAxleCounter.Verify : simpl never.
#[global] Arguments ResetAxleCounterT.fits : simpl never.
#[global] Arguments ResetAxleCounterT.tables : simpl never.
#[global] Typeclasses Opaque ResetAxleCounter.Verify.

Module OperatorCommandT.
(* SRC autogens/proto/commands_generated.h 1324-1329 OperatorCommandT *)
Record t : Type := mk {
  target_uid : Z;
  target_kind : Z;
  command_code : Z }.
(* SRC autogens/proto/commands_generated.h 1324-1329 OperatorCommandT *)
Definition init : t := mk 0 (code OperatorTargetKind.SIGNAL) (code OperatorCommandCode.SES).
Definition fits (_o : t) : Prop :=
  in_range U64 (target_uid _o) = true /\
  in_range I8 (target_kind _o) = true /\
  in_range I8 (command_code _o) = true.
Definition tables (_o : t) : Z := 1.
End OperatorCommandT.

Module OperatorCommand.
Notation VT_TARGET_UID := 4 (only parsing).
Notation VT_TARGET_KIND := 6 (only parsing).
Notation VT_COMMAND_CODE := 8 (only parsing).
Section Table.
Context {F : FlatBuffers}.
(* SRC autogens/proto/commands_generated.h 1339-1341 OperatorCommand::target_uid *)
Definition target_uid (this_ : Obj) : option Z := GetField U64 this_ VT_TARGET_UID 0.
(* SRC autogens/proto/commands_generated.h 1342-1344 OperatorCommand::target_kind *)
Definition target_kind (this_ : Obj) : option Z := GetField I8 this_ VT_TARGET_KIND 0.
(* SRC autogens/proto/commands_generated.h 1345-1347 OperatorCommand::command_code *)
Definition command_code (this_ : Obj) : option Z := GetField I8 this_ VT_COMMAND_CODE 0.
(* SRC autogens/proto/commands_generated.h 1349-1355 OperatorCommand::Verify *)
Definition Verify (this_ : Obj) : verification :=
  TableStart this_ &&>
  check (VerifyField U64 this_ VT_TARGET_UID 8) &&>
  check (VerifyField I8 this_ VT_TARGET_KIND 1) &&>
  check (VerifyField I8 this_ VT_COMMAND_CODE 1) &&>
  TableEnd.
End Table.
End OperatorCommand.

Module OperatorCommandBuilder.
Section Builder.
Context {F : FlatBuffers}.
(* SRC autogens/proto/commands_generated.h 1365-1367 OperatorCommandBuilder::add_target_uid *)
Definition add_target_uid (builder_ : builder) (target_uid : Z) : builder :=
  builder_ ++ [Element U64 OperatorCommand.VT_TARGET_UID target_uid 0].
(* SRC autogens/proto/commands_generated.h 1368-1370 OperatorCommandBuilder::add_target_kind *)
Definition add_target_kind (builder_ : builder) (target_kind : Z) : builder :=
  builder_ ++ [Element I8 OperatorCommand.VT_TARGET_KIND target_kind 0].
(* SRC autogens/proto/commands_generated.h 1371-1373 OperatorCommandBuilder::add_command_code *)
Definition add_command_code (builder_ : builder) (command_code : Z) : builder :=
  builder_ ++ [Element I8 OperatorCommand.VT_COMMAND_CODE command_code 0].
(* SRC autogens/proto/commands_generated.h 1378-1382 OperatorCommandBuilder::Finish *)
Definition Finish (builder_ : builder) : option Obj := Some (EndTable builder_).
End Builder.
End OperatorCommandBuilder.

Section OperatorCommandFunctions.
Context {F : FlatBuffers}.
(* SRC autogens/proto/commands_generated.h 1385-1395 CreateOperatorCommand *)
Definition CreateOperatorCommand (target_uid : Z) (target_kind : Z) (command_code : Z) : option
    Obj :=
  let builder_ := [] in
  let builder_ := OperatorCommandBuilder.add_target_uid builder_ target_uid in
  let builder_ := OperatorCommandBuilder.add_command_code builder_ command_code in
  let builder_ := OperatorCommandBuilder.add_target_kind builder_ target_kind in
  OperatorCommandBuilder.Finish builder_.
(* SRC autogens/proto/commands_generated.h 1911-1917 OperatorCommand::UnPackTo *)
Definition OperatorCommand_UnPackTo (_o : OperatorCommandT.t) (this_ : Obj) : option
    OperatorCommandT.t :=
  target_uid ← OperatorCommand.target_uid this_;
  target_kind ← OperatorCommand.target_kind this_;
  command_code ← OperatorCommand.command_code this_;
  Some (OperatorCommandT.mk target_uid target_kind command_code).
(* SRC autogens/proto/commands_generated.h 1905-1909 OperatorCommand::UnPack *)
Definition OperatorCommand_UnPack (this_ : Obj) : option OperatorCommandT.t :=
  OperatorCommand_UnPackTo OperatorCommandT.init this_.
(* SRC autogens/proto/commands_generated.h 1923-1935 OperatorCommand::Pack *)
Definition OperatorCommand_Pack (_o : OperatorCommandT.t) : option Obj :=
  let _target_uid := OperatorCommandT.target_uid _o in
  let _target_kind := OperatorCommandT.target_kind _o in
  let _command_code := OperatorCommandT.command_code _o in
  CreateOperatorCommand _target_uid _target_kind _command_code.
Definition OperatorCommand_message : Message OperatorCommandT.t :=
  mkMessage OperatorCommand_Pack OperatorCommand_UnPackTo OperatorCommand_UnPack
      OperatorCommand.Verify OperatorCommandT.fits OperatorCommandT.tables 1.
End OperatorCommandFunctions.
Ltac unfold_OperatorCommand := cbv beta iota zeta delta [OperatorCommand_message
    OperatorCommand_Pack OperatorCommand_UnPack OperatorCommand_UnPackTo CreateOperatorCommand
    OperatorCommandBuilder.add_target_uid OperatorCommandBuilder.add_target_kind
    OperatorCommandBuilder.add_command_code OperatorCommandBuilder.Finish OperatorCommand.target_uid
    OperatorCommand.target_kind OperatorCommand.command_code OperatorCommand.Verify
    OperatorCommandT.init OperatorCommandT.fits OperatorCommandT.tables OperatorCommandT.target_uid
    OperatorCommandT.target_kind OperatorCommandT.command_code] in *.
#[global] Instance OperatorCommand_ok {F : FlatBuffers} {FO : FlatBuffersOk F} : MessageOk
    OperatorCommand_message.
Proof. solve_message_with ltac:(fun _ => unfold_OperatorCommand). Qed.
#[global] Arguments OperatorCommand_Pack : simpl never.
#[global] Arguments OperatorCommand_UnPackTo : simpl never.
#[global] Arguments OperatorCommand_UnPack : simpl never.
#[global] Arguments OperatorCommand.Verify : simpl never.
#[global] Arguments OperatorCommandT.fits : simpl never.
#[global] Arguments OperatorCommandT.tables : simpl never.
#[global] Typeclasses Opaque OperatorCommand.Verify.

Module Ml8CommandT.
(* SRC autogens/proto/commands_generated.h 1399-1404 Ml8CommandT *)
Record t : Type := mk {
  target_uid : Z;
  target_kind : Z;
  command_code : Z }.
(* SRC autogens/proto/commands_generated.h 1399-1404 Ml8CommandT *)
Definition init : t := mk 0 (code OperatorTargetKind.SIGNAL) (code Ml8CommandCode.AK).
Definition fits (_o : t) : Prop :=
  in_range U64 (target_uid _o) = true /\
  in_range I8 (target_kind _o) = true /\
  in_range I8 (command_code _o) = true.
Definition tables (_o : t) : Z := 1.
End Ml8CommandT.

Module Ml8Command.
Notation VT_TARGET_UID := 4 (only parsing).
Notation VT_TARGET_KIND := 6 (only parsing).
Notation VT_COMMAND_CODE := 8 (only parsing).
Section Table.
Context {F : FlatBuffers}.
(* SRC autogens/proto/commands_generated.h 1414-1416 Ml8Command::target_uid *)
Definition target_uid (this_ : Obj) : option Z := GetField U64 this_ VT_TARGET_UID 0.
(* SRC autogens/proto/commands_generated.h 1417-1419 Ml8Command::target_kind *)
Definition target_kind (this_ : Obj) : option Z := GetField I8 this_ VT_TARGET_KIND 0.
(* SRC autogens/proto/commands_generated.h 1420-1422 Ml8Command::command_code *)
Definition command_code (this_ : Obj) : option Z := GetField I8 this_ VT_COMMAND_CODE 0.
(* SRC autogens/proto/commands_generated.h 1424-1430 Ml8Command::Verify *)
Definition Verify (this_ : Obj) : verification :=
  TableStart this_ &&>
  check (VerifyField U64 this_ VT_TARGET_UID 8) &&>
  check (VerifyField I8 this_ VT_TARGET_KIND 1) &&>
  check (VerifyField I8 this_ VT_COMMAND_CODE 1) &&>
  TableEnd.
End Table.
End Ml8Command.

Module Ml8CommandBuilder.
Section Builder.
Context {F : FlatBuffers}.
(* SRC autogens/proto/commands_generated.h 1440-1442 Ml8CommandBuilder::add_target_uid *)
Definition add_target_uid (builder_ : builder) (target_uid : Z) : builder :=
  builder_ ++ [Element U64 Ml8Command.VT_TARGET_UID target_uid 0].
(* SRC autogens/proto/commands_generated.h 1443-1445 Ml8CommandBuilder::add_target_kind *)
Definition add_target_kind (builder_ : builder) (target_kind : Z) : builder :=
  builder_ ++ [Element I8 Ml8Command.VT_TARGET_KIND target_kind 0].
(* SRC autogens/proto/commands_generated.h 1446-1448 Ml8CommandBuilder::add_command_code *)
Definition add_command_code (builder_ : builder) (command_code : Z) : builder :=
  builder_ ++ [Element I8 Ml8Command.VT_COMMAND_CODE command_code 0].
(* SRC autogens/proto/commands_generated.h 1453-1457 Ml8CommandBuilder::Finish *)
Definition Finish (builder_ : builder) : option Obj := Some (EndTable builder_).
End Builder.
End Ml8CommandBuilder.

Section Ml8CommandFunctions.
Context {F : FlatBuffers}.
(* SRC autogens/proto/commands_generated.h 1460-1470 CreateMl8Command *)
Definition CreateMl8Command (target_uid : Z) (target_kind : Z) (command_code : Z) : option Obj :=
  let builder_ := [] in
  let builder_ := Ml8CommandBuilder.add_target_uid builder_ target_uid in
  let builder_ := Ml8CommandBuilder.add_command_code builder_ command_code in
  let builder_ := Ml8CommandBuilder.add_target_kind builder_ target_kind in
  Ml8CommandBuilder.Finish builder_.
(* SRC autogens/proto/commands_generated.h 1943-1949 Ml8Command::UnPackTo *)
Definition Ml8Command_UnPackTo (_o : Ml8CommandT.t) (this_ : Obj) : option Ml8CommandT.t :=
  target_uid ← Ml8Command.target_uid this_;
  target_kind ← Ml8Command.target_kind this_;
  command_code ← Ml8Command.command_code this_;
  Some (Ml8CommandT.mk target_uid target_kind command_code).
(* SRC autogens/proto/commands_generated.h 1937-1941 Ml8Command::UnPack *)
Definition Ml8Command_UnPack (this_ : Obj) : option Ml8CommandT.t :=
  Ml8Command_UnPackTo Ml8CommandT.init this_.
(* SRC autogens/proto/commands_generated.h 1955-1967 Ml8Command::Pack *)
Definition Ml8Command_Pack (_o : Ml8CommandT.t) : option Obj :=
  let _target_uid := Ml8CommandT.target_uid _o in
  let _target_kind := Ml8CommandT.target_kind _o in
  let _command_code := Ml8CommandT.command_code _o in
  CreateMl8Command _target_uid _target_kind _command_code.
Definition Ml8Command_message : Message Ml8CommandT.t :=
  mkMessage Ml8Command_Pack Ml8Command_UnPackTo Ml8Command_UnPack Ml8Command.Verify
      Ml8CommandT.fits Ml8CommandT.tables 1.
End Ml8CommandFunctions.
Ltac unfold_Ml8Command := cbv beta iota zeta delta [Ml8Command_message Ml8Command_Pack
    Ml8Command_UnPack Ml8Command_UnPackTo CreateMl8Command Ml8CommandBuilder.add_target_uid
    Ml8CommandBuilder.add_target_kind Ml8CommandBuilder.add_command_code Ml8CommandBuilder.Finish
    Ml8Command.target_uid Ml8Command.target_kind Ml8Command.command_code Ml8Command.Verify
    Ml8CommandT.init Ml8CommandT.fits Ml8CommandT.tables Ml8CommandT.target_uid
    Ml8CommandT.target_kind Ml8CommandT.command_code] in *.
#[global] Instance Ml8Command_ok {F : FlatBuffers} {FO : FlatBuffersOk F} : MessageOk
    Ml8Command_message.
Proof. solve_message_with ltac:(fun _ => unfold_Ml8Command). Qed.
#[global] Arguments Ml8Command_Pack : simpl never.
#[global] Arguments Ml8Command_UnPackTo : simpl never.
#[global] Arguments Ml8Command_UnPack : simpl never.
#[global] Arguments Ml8Command.Verify : simpl never.
#[global] Arguments Ml8CommandT.fits : simpl never.
#[global] Arguments Ml8CommandT.tables : simpl never.
#[global] Typeclasses Opaque Ml8Command.Verify.

Module CommandAckT.
(* SRC autogens/proto/commands_generated.h 1474-1478 CommandAckT *)
Record t : Type := mk {
  req_seq_id : Z;
  event_id : Z }.
(* SRC autogens/proto/commands_generated.h 1474-1478 CommandAckT *)
Definition init : t := mk 0 0.
Definition fits (_o : t) : Prop :=
  in_range U32 (req_seq_id _o) = true /\
  in_range U32 (event_id _o) = true.
Definition tables (_o : t) : Z := 1.
End CommandAckT.

Module CommandAck.
Notation VT_REQ_SEQ_ID := 4 (only parsing).
Notation VT_EVENT_ID := 6 (only parsing).
Section Table.
Context {F : FlatBuffers}.
(* SRC autogens/proto/commands_generated.h 1487-1489 CommandAck::req_seq_id *)
Definition req_seq_id (this_ : Obj) : option Z := GetField U32 this_ VT_REQ_SEQ_ID 0.
(* SRC autogens/proto/commands_generated.h 1490-1492 CommandAck::event_id *)
Definition event_id (this_ : Obj) : option Z := GetField U32 this_ VT_EVENT_ID 0.
(* SRC autogens/proto/commands_generated.h 1494-1499 CommandAck::Verify *)
Definition Verify (this_ : Obj) : verification :=
  TableStart this_ &&>
  check (VerifyField U32 this_ VT_REQ_SEQ_ID 4) &&>
  check (VerifyField U32 this_ VT_EVENT_ID 4) &&>
  TableEnd.
End Table.
End CommandAck.

Module CommandAckBuilder.
Section Builder.
Context {F : FlatBuffers}.
(* SRC autogens/proto/commands_generated.h 1509-1511 CommandAckBuilder::add_req_seq_id *)
Definition add_req_seq_id (builder_ : builder) (req_seq_id : Z) : builder :=
  builder_ ++ [Element U32 CommandAck.VT_REQ_SEQ_ID req_seq_id 0].
(* SRC autogens/proto/commands_generated.h 1512-1514 CommandAckBuilder::add_event_id *)
Definition add_event_id (builder_ : builder) (event_id : Z) : builder :=
  builder_ ++ [Element U32 CommandAck.VT_EVENT_ID event_id 0].
(* SRC autogens/proto/commands_generated.h 1519-1523 CommandAckBuilder::Finish *)
Definition Finish (builder_ : builder) : option Obj := Some (EndTable builder_).
End Builder.
End CommandAckBuilder.

Section CommandAckFunctions.
Context {F : FlatBuffers}.
(* SRC autogens/proto/commands_generated.h 1526-1534 CreateCommandAck *)
Definition CreateCommandAck (req_seq_id : Z) (event_id : Z) : option Obj :=
  let builder_ := [] in
  let builder_ := CommandAckBuilder.add_event_id builder_ event_id in
  let builder_ := CommandAckBuilder.add_req_seq_id builder_ req_seq_id in
  CommandAckBuilder.Finish builder_.
(* SRC autogens/proto/commands_generated.h 1975-1980 CommandAck::UnPackTo *)
Definition CommandAck_UnPackTo (_o : CommandAckT.t) (this_ : Obj) : option CommandAckT.t :=
  req_seq_id ← CommandAck.req_seq_id this_;
  event_id ← CommandAck.event_id this_;
  Some (CommandAckT.mk req_seq_id event_id).
(* SRC autogens/proto/commands_generated.h 1969-1973 CommandAck::UnPack *)
Definition CommandAck_UnPack (this_ : Obj) : option CommandAckT.t :=
  CommandAck_UnPackTo CommandAckT.init this_.
(* SRC autogens/proto/commands_generated.h 1986-1996 CommandAck::Pack *)
Definition CommandAck_Pack (_o : CommandAckT.t) : option Obj :=
  let _req_seq_id := CommandAckT.req_seq_id _o in
  let _event_id := CommandAckT.event_id _o in
  CreateCommandAck _req_seq_id _event_id.
Definition CommandAck_message : Message CommandAckT.t :=
  mkMessage CommandAck_Pack CommandAck_UnPackTo CommandAck_UnPack CommandAck.Verify
      CommandAckT.fits CommandAckT.tables 1.
End CommandAckFunctions.
Ltac unfold_CommandAck := cbv beta iota zeta delta [CommandAck_message CommandAck_Pack
    CommandAck_UnPack CommandAck_UnPackTo CreateCommandAck CommandAckBuilder.add_req_seq_id
    CommandAckBuilder.add_event_id CommandAckBuilder.Finish CommandAck.req_seq_id
        CommandAck.event_id
    CommandAck.Verify CommandAckT.init CommandAckT.fits CommandAckT.tables CommandAckT.req_seq_id
    CommandAckT.event_id] in *.
#[global] Instance CommandAck_ok {F : FlatBuffers} {FO : FlatBuffersOk F} : MessageOk
    CommandAck_message.
Proof. solve_message_with ltac:(fun _ => unfold_CommandAck). Qed.
#[global] Arguments CommandAck_Pack : simpl never.
#[global] Arguments CommandAck_UnPackTo : simpl never.
#[global] Arguments CommandAck_UnPack : simpl never.
#[global] Arguments CommandAck.Verify : simpl never.
#[global] Arguments CommandAckT.fits : simpl never.
#[global] Arguments CommandAckT.tables : simpl never.
#[global] Typeclasses Opaque CommandAck.Verify.

Module CommandNakT.
(* SRC autogens/proto/commands_generated.h 1538-1543 CommandNakT *)
Record t : Type := mk {
  req_seq_id : Z;
  reason : Z;
  reason_text : string }.
(* SRC autogens/proto/commands_generated.h 1538-1543 CommandNakT *)
Definition init : t := mk 0 (code NakReason.UNSPECIFIED) "".
Definition fits (_o : t) : Prop :=
  in_range U32 (req_seq_id _o) = true /\
  in_range I8 (reason _o) = true.
Definition tables (_o : t) : Z := 1.
End CommandNakT.

Module CommandNak.
Notation VT_REQ_SEQ_ID := 4 (only parsing).
Notation VT_REASON := 6 (only parsing).
Notation VT_REASON_TEXT := 8 (only parsing).
Section Table.
Context {F : FlatBuffers}.
(* SRC autogens/proto/commands_generated.h 1553-1555 CommandNak::req_seq_id *)
Definition req_seq_id (this_ : Obj) : option Z := GetField U32 this_ VT_REQ_SEQ_ID 0.
(* SRC autogens/proto/commands_generated.h 1556-1558 CommandNak::reason *)
Definition reason (this_ : Obj) : option Z := GetField I8 this_ VT_REASON 0.
(* SRC autogens/proto/commands_generated.h 1559-1561 CommandNak::reason_text *)
Definition reason_text (this_ : Obj) : option (option Obj) := GetPointer this_ VT_REASON_TEXT.
(* SRC autogens/proto/commands_generated.h 1563-1570 CommandNak::Verify *)
Definition Verify (this_ : Obj) : verification :=
  TableStart this_ &&>
  check (VerifyField U32 this_ VT_REQ_SEQ_ID 4) &&>
  check (VerifyField I8 this_ VT_REASON 1) &&>
  check (VerifyOffset this_ VT_REASON_TEXT) &&>
  check_string (reason_text this_) &&>
  TableEnd.
End Table.
End CommandNak.

Module CommandNakBuilder.
Section Builder.
Context {F : FlatBuffers}.
(* SRC autogens/proto/commands_generated.h 1580-1582 CommandNakBuilder::add_req_seq_id *)
Definition add_req_seq_id (builder_ : builder) (req_seq_id : Z) : builder :=
  builder_ ++ [Element U32 CommandNak.VT_REQ_SEQ_ID req_seq_id 0].
(* SRC autogens/proto/commands_generated.h 1583-1585 CommandNakBuilder::add_reason *)
Definition add_reason (builder_ : builder) (reason : Z) : builder :=
  builder_ ++ [Element I8 CommandNak.VT_REASON reason 0].
(* SRC autogens/proto/commands_generated.h 1586-1588 CommandNakBuilder::add_reason_text *)
Definition add_reason_text (builder_ : builder) (reason_text : option Obj) : builder :=
  builder_ ++ [OffsetAt CommandNak.VT_REASON_TEXT reason_text].
(* SRC autogens/proto/commands_generated.h 1593-1597 CommandNakBuilder::Finish *)
Definition Finish (builder_ : builder) : option Obj := Some (EndTable builder_).
End Builder.
End CommandNakBuilder.

Section CommandNakFunctions.
Context {F : FlatBuffers}.
(* SRC autogens/proto/commands_generated.h 1600-1610 CreateCommandNak *)
Definition CreateCommandNak (req_seq_id : Z) (reason : Z) (reason_text : option Obj) : option Obj
    :=
  let builder_ := [] in
  let builder_ := CommandNakBuilder.add_reason_text builder_ reason_text in
  let builder_ := CommandNakBuilder.add_req_seq_id builder_ req_seq_id in
  let builder_ := CommandNakBuilder.add_reason builder_ reason in
  CommandNakBuilder.Finish builder_.
(* SRC autogens/proto/commands_generated.h 1612-1623 CreateCommandNakDirect *)
Definition CreateCommandNakDirect (req_seq_id : Z) (reason : Z) (reason_text : option string) :
    option Obj :=
  let reason_text__ := CreateString <$> reason_text in
  CreateCommandNak req_seq_id reason reason_text__.
(* SRC autogens/proto/commands_generated.h 2004-2010 CommandNak::UnPackTo *)
Definition CommandNak_UnPackTo (_o : CommandNakT.t) (this_ : Obj) : option CommandNakT.t :=
  req_seq_id ← CommandNak.req_seq_id this_;
  reason ← CommandNak.reason this_;
  reason_text ← (_e ← CommandNak.reason_text this_; UnPackString (CommandNakT.reason_text _o) _e);
  Some (CommandNakT.mk req_seq_id reason reason_text).
(* SRC autogens/proto/commands_generated.h 1998-2002 CommandNak::UnPack *)
Definition CommandNak_UnPack (this_ : Obj) : option CommandNakT.t :=
  CommandNak_UnPackTo CommandNakT.init this_.
(* SRC autogens/proto/commands_generated.h 2016-2028 CommandNak::Pack *)
Definition CommandNak_Pack (_o : CommandNakT.t) : option Obj :=
  let _req_seq_id := CommandNakT.req_seq_id _o in
  let _reason := CommandNakT.reason _o in
  let _reason_text := PackString (CommandNakT.reason_text _o) in
  CreateCommandNak _req_seq_id _reason _reason_text.
Definition CommandNak_message : Message CommandNakT.t :=
  mkMessage CommandNak_Pack CommandNak_UnPackTo CommandNak_UnPack CommandNak.Verify
      CommandNakT.fits CommandNakT.tables 1.
(* SRC autogens/proto/commands_generated.h 2030-2032 GetCommandNak *)
Definition GetCommandNak (buf : list byte) : Obj := GetRoot buf.
(* SRC autogens/proto/commands_generated.h 2038-2042 VerifyCommandNakBuffer *)
Definition VerifyCommandNakBuffer (buf : list byte) : option bool :=
  VerifyBuffer CommandNak.Verify buf.
(* SRC autogens/proto/commands_generated.h 2050-2054 FinishCommandNakBuffer *)
Definition FinishCommandNakBuffer (root : Obj) : list byte := Finish root.
(* SRC autogens/proto/commands_generated.h 2062-2066 UnPackCommandNak *)
Definition UnPackCommandNak (buf : list byte) : option CommandNakT.t :=
  CommandNak_UnPack (GetCommandNak buf).
End CommandNakFunctions.
Ltac unfold_CommandNak := cbv beta iota zeta delta [CommandNak_message CommandNak_Pack
    CommandNak_UnPack CommandNak_UnPackTo CreateCommandNak CommandNakBuilder.add_req_seq_id
    CommandNakBuilder.add_reason CommandNakBuilder.add_reason_text CommandNakBuilder.Finish
    CommandNak.req_seq_id CommandNak.reason CommandNak.reason_text CommandNak.Verify
        CommandNakT.init
    CommandNakT.fits CommandNakT.tables CommandNakT.req_seq_id CommandNakT.reason
    CommandNakT.reason_text] in *.
#[global] Instance CommandNak_ok {F : FlatBuffers} {FO : FlatBuffersOk F} : MessageOk
    CommandNak_message.
Proof. solve_message_with ltac:(fun _ => unfold_CommandNak). Qed.
#[global] Arguments CommandNak_Pack : simpl never.
#[global] Arguments CommandNak_UnPackTo : simpl never.
#[global] Arguments CommandNak_UnPack : simpl never.
#[global] Arguments CommandNak.Verify : simpl never.
#[global] Arguments CommandNakT.fits : simpl never.
#[global] Arguments CommandNakT.tables : simpl never.
#[global] Typeclasses Opaque CommandNak.Verify.

End proto.
