(* ===== verification/ProtoSession.v ===== *)
(** * ProtoSession: the messages of a client session

    [autogens/proto/session_generated.h]: handshake, heartbeat, snapshot
    request and notices, as [ProtoCommands] has the tables of commands. *)
From S2P Require Import Prelude Float32 Frame Flat ProtoCommon.
Local Open Scope Z_scope.

Module proto.
Import ProtoCommon.proto.

(* SRC autogens/proto/session_generated.h 48-56 SessionNoticeType *)
Module SessionNoticeType.
Inductive t : Set :=
  | INFO | WARNING | ERROR | STATE_CHANGE | OWNERSHIP_REVOKED.
Definition to_code (x : t) : BinNums.Z :=
  match x with
  | INFO => 0 | WARNING => 1 | ERROR => 2 | STATE_CHANGE => 3 | OWNERSHIP_REVOKED => 4
  end%Z.
Definition all : list t :=
  [INFO; WARNING; ERROR; STATE_CHANGE; OWNERSHIP_REVOKED].
#[global] Instance enum : Enum t.
Proof. refine {| code := to_code; enumerators := all |}. by intros []. Defined.
End SessionNoticeType.
(* SRC autogens/proto/session_generated.h 58-67 EnumValuesSessionNoticeType *)
Definition EnumValuesSessionNoticeType : list SessionNoticeType.t :=
  [SessionNoticeType.INFO; SessionNoticeType.WARNING; SessionNoticeType.ERROR;
    SessionNoticeType.STATE_CHANGE; SessionNoticeType.OWNERSHIP_REVOKED].
(* SRC autogens/proto/session_generated.h 69-79 EnumNamesSessionNoticeType *)
Definition EnumNamesSessionNoticeType : list string :=
  ["INFO"; "WARNING"; "ERROR"; "STATE_CHANGE"; "OWNERSHIP_REVOKED"]%string.
(* SRC autogens/proto/session_generated.h 81-85 EnumNameSessionNoticeType *)
Definition EnumNameSessionNoticeType (e : Z) : string :=
  if IsOutRange e (code SessionNoticeType.INFO) (code SessionNoticeType.OWNERSHIP_REVOKED) then
      ""%string
  else default ""%string (EnumNamesSessionNoticeType !! Z.to_nat e).

(** Scope of objects (switches, signals) that belong to one dispatch area (sub-post). *)
Module DispatchAreaInfoT.
(* SRC autogens/proto/session_generated.h 87-92 DispatchAreaInfoT *)
Record t : Type := mk {
  dispatch_area_id : string;
  station_sid : string;
  display_name : string }.
(* SRC autogens/proto/session_generated.h 87-92 DispatchAreaInfoT *)
Definition init : t := mk "" "" "".
Definition fits (_o : t) : Prop :=
  True.
Definition tables (_o : t) : Z := 1.
End DispatchAreaInfoT.

Module DispatchAreaInfo.
Notation VT_DISPATCH_AREA_ID := 4 (only parsing).
Notation VT_STATION_SID := 6 (only parsing).
Notation VT_DISPLAY_NAME := 8 (only parsing).
Section Table.
Context {F : FlatBuffers}.
(* SRC autogens/proto/session_generated.h 103-105 DispatchAreaInfo::dispatch_area_id *)
Definition dispatch_area_id (this_ : Obj) : option (option Obj) :=
  GetPointer this_ VT_DISPATCH_AREA_ID.
(* SRC autogens/proto/session_generated.h 106-108 DispatchAreaInfo::station_sid *)
Definition station_sid (this_ : Obj) : option (option Obj) := GetPointer this_ VT_STATION_SID.
(* SRC autogens/proto/session_generated.h 109-111 DispatchAreaInfo::display_name *)
Definition display_name (this_ : Obj) : option (option Obj) := GetPointer this_ VT_DISPLAY_NAME.
(* SRC autogens/proto/session_generated.h 113-122 DispatchAreaInfo::Verify *)
Definition Verify (this_ : Obj) : verification :=
  TableStart this_ &&>
  check (VerifyOffsetRequired this_ VT_DISPATCH_AREA_ID) &&>
  check_string (dispatch_area_id this_) &&>
  check (VerifyOffsetRequired this_ VT_STATION_SID) &&>
  check_string (station_sid this_) &&>
  check (VerifyOffset this_ VT_DISPLAY_NAME) &&>
  check_string (display_name this_) &&>
  TableEnd.
End Table.
End DispatchAreaInfo.

Module DispatchAreaInfoBuilder.
Section Builder.
Context {F : FlatBuffers}.
(* SRC autogens/proto/session_generated.h 132-134 DispatchAreaInfoBuilder::add_dispatch_area_id *)
Definition add_dispatch_area_id (builder_ : builder) (dispatch_area_id : option Obj) : builder :=
  builder_ ++ [OffsetAt DispatchAreaInfo.VT_DISPATCH_AREA_ID dispatch_area_id].
(* SRC autogens/proto/session_generated.h 135-137 DispatchAreaInfoBuilder::add_station_sid *)
Definition add_station_sid (builder_ : builder) (station_sid : option Obj) : builder :=
  builder_ ++ [OffsetAt DispatchAreaInfo.VT_STATION_SID station_sid].
(* SRC autogens/proto/session_generated.h 138-140 DispatchAreaInfoBuilder::add_display_name *)
Definition add_display_name (builder_ : builder) (display_name : option Obj) : builder :=
  builder_ ++ [OffsetAt DispatchAreaInfo.VT_DISPLAY_NAME display_name].
(* SRC autogens/proto/session_generated.h 145-151 DispatchAreaInfoBuilder::Finish *)
Definition Finish (builder_ : builder) : option Obj :=
  EndTableRequired [DispatchAreaInfo.VT_DISPATCH_AREA_ID; DispatchAreaInfo.VT_STATION_SID] builder_.
End Builder.
End DispatchAreaInfoBuilder.

Section DispatchAreaInfoFunctions.
Context {F : FlatBuffers}.
(* SRC autogens/proto/session_generated.h 154-164 CreateDispatchAreaInfo *)
Definition CreateDispatchAreaInfo (dispatch_area_id : option Obj) (station_sid : option Obj)
    (display_name : option Obj) : option Obj :=
  let builder_ := [] in
  let builder_ := DispatchAreaInfoBuilder.add_display_name builder_ display_name in
  let builder_ := DispatchAreaInfoBuilder.add_station_sid builder_ station_sid in
  let builder_ := DispatchAreaInfoBuilder.add_dispatch_area_id builder_ dispatch_area_id in
  DispatchAreaInfoBuilder.Finish builder_.
(* SRC autogens/proto/session_generated.h 166-179 CreateDispatchAreaInfoDirect *)
Definition CreateDispatchAreaInfoDirect (dispatch_area_id : option string) (station_sid : option
    string) (display_name : option string) : option Obj :=
  let dispatch_area_id__ := CreateString <$> dispatch_area_id in
  let station_sid__ := CreateString <$> station_sid in
  let display_name__ := CreateString <$> display_name in
  CreateDispatchAreaInfo dispatch_area_id__ station_sid__ display_name__.
(* SRC autogens/proto/session_generated.h 729-735 DispatchAreaInfo::UnPackTo *)
Definition DispatchAreaInfo_UnPackTo (_o : DispatchAreaInfoT.t) (this_ : Obj) : option
    DispatchAreaInfoT.t :=
  dispatch_area_id ← (_e ← DispatchAreaInfo.dispatch_area_id this_; UnPackString
      (DispatchAreaInfoT.dispatch_area_id _o) _e);
  station_sid ← (_e ← DispatchAreaInfo.station_sid this_; UnPackString
      (DispatchAreaInfoT.station_sid _o) _e);
  display_name ← (_e ← DispatchAreaInfo.display_name this_; UnPackString
      (DispatchAreaInfoT.display_name _o) _e);
  Some (DispatchAreaInfoT.mk dispatch_area_id station_sid display_name).
(* SRC autogens/proto/session_generated.h 723-727 DispatchAreaInfo::UnPack *)
Definition DispatchAreaInfo_UnPack (this_ : Obj) : option DispatchAreaInfoT.t :=
  DispatchAreaInfo_UnPackTo DispatchAreaInfoT.init this_.
(* SRC autogens/proto/session_generated.h 741-753 DispatchAreaInfo::Pack *)
Definition DispatchAreaInfo_Pack (_o : DispatchAreaInfoT.t) : option Obj :=
  let _dispatch_area_id := Some (CreateString (DispatchAreaInfoT.dispatch_area_id _o)) in
  let _station_sid := Some (CreateString (DispatchAreaInfoT.station_sid _o)) in
  let _display_name := PackString (DispatchAreaInfoT.display_name _o) in
  CreateDispatchAreaInfo _dispatch_area_id _station_sid _display_name.
Definition DispatchAreaInfo_message : Message DispatchAreaInfoT.t :=
  mkMessage DispatchAreaInfo_Pack DispatchAreaInfo_UnPackTo DispatchAreaInfo_UnPack
      DispatchAreaInfo.Verify DispatchAreaInfoT.fits DispatchAreaInfoT.tables 1.
End DispatchAreaInfoFunctions.
Ltac unfold_DispatchAreaInfo := cbv beta iota zeta delta [DispatchAreaInfo_message
    DispatchAreaInfo_Pack DispatchAreaInfo_UnPack DispatchAreaInfo_UnPackTo CreateDispatchAreaInfo
    DispatchAreaInfoBuilder.add_dispatch_area_id DispatchAreaInfoBuilder.add_station_sid
    DispatchAreaInfoBuilder.add_display_name DispatchAreaInfoBuilder.Finish
    DispatchAreaInfo.dispatch_area_id DispatchAreaInfo.station_sid DispatchAreaInfo.display_name
    DispatchAreaInfo.Verify DispatchAreaInfoT.init DispatchAreaInfoT.fits DispatchAreaInfoT.tables
    DispatchAreaInfoT.dispatch_area_id DispatchAreaInfoT.station_sid DispatchAreaInfoT.display_name]
    in *.
#[global] Instance DispatchAreaInfo_ok {F : FlatBuffers} {FO : FlatBuffersOk F} : MessageOk
    DispatchAreaInfo_message.
Proof. solve_message_with ltac:(fun _ => unfold_DispatchAreaInfo). Qed.
#[global] Arguments DispatchAreaInfo_Pack : simpl never.
#[global] Arguments DispatchAreaInfo_UnPackTo : simpl never.
#[global] Arguments DispatchAreaInfo_UnPack : simpl never.
#[global] Arguments DispatchAreaInfo.Verify : simpl never.
#[global] Arguments DispatchAreaInfoT.fits : simpl never.
#[global] Arguments DispatchAreaInfoT.tables : simpl never.
#[global] Typeclasses Opaque DispatchAreaInfo.Verify.

(** C to S  (msg_type 0x01) *)
Module HandshakeT.
(* SRC autogens/proto/session_generated.h 183-189 HandshakeT *)
Record t : Type := mk {
  proto_version : Z;
  player_id : string;
  auth_token : string;
  client_version : string }.
(* SRC autogens/proto/session_generated.h 183-189 HandshakeT *)
Definition init : t := mk 0 "" "" "".
Definition fits (_o : t) : Prop :=
  in_range U32 (proto_version _o) = true.
Definition tables (_o : t) : Z := 1.
End HandshakeT.

Module Handshake.
Notation VT_PROTO_VERSION := 4 (only parsing).
Notation VT_PLAYER_ID := 6 (only parsing).
Notation VT_AUTH_TOKEN := 8 (only parsing).
Notation VT_CLIENT_VERSION := 10 (only parsing).
Section Table.
Context {F : FlatBuffers}.
(** Protocol version - must match server's supported version. *)
(* SRC autogens/proto/session_generated.h 202-204 Handshake::proto_version *)
Definition proto_version (this_ : Obj) : option Z := GetField U32 this_ VT_PROTO_VERSION 0.
(** Player identifier from the game-management system. *)
(* SRC autogens/proto/session_generated.h 206-208 Handshake::player_id *)
Definition player_id (this_ : Obj) : option (option Obj) := GetPointer this_ VT_PLAYER_ID.
(** Bearer token issued by the auth service (HMAC-SHA256 signed JWT). *)
(* SRC autogens/proto/session_generated.h 210-212 Handshake::auth_token *)
Definition auth_token (this_ : Obj) : option (option Obj) := GetPointer this_ VT_AUTH_TOKEN.
(** Human-readable client version string for diagnostics. *)
(* SRC autogens/proto/session_generated.h 214-216 Handshake::client_version *)
Definition client_version (this_ : Obj) : option (option Obj) := GetPointer this_ VT_CLIENT_VERSION.
(* SRC autogens/proto/session_generated.h 218-228 Handshake::Verify *)
Definition Verify (this_ : Obj) : verification :=
  TableStart this_ &&>
  check (VerifyField U32 this_ VT_PROTO_VERSION 4) &&>
  check (VerifyOffsetRequired this_ VT_PLAYER_ID) &&>
  check_string (player_id this_) &&>
  check (VerifyOffsetRequired this_ VT_AUTH_TOKEN) &&>
  check_string (auth_token this_) &&>
  check (VerifyOffset this_ VT_CLIENT_VERSION) &&>
  check_string (client_version this_) &&>
  TableEnd.
End Table.
End Handshake.

Module HandshakeBuilder.
Section Builder.
Context {F : FlatBuffers}.
(* SRC autogens/proto/session_generated.h 238-240 HandshakeBuilder::add_proto_version *)
Definition add_proto_version (builder_ : builder) (proto_version : Z) : builder :=
  builder_ ++ [Element U32 Handshake.VT_PROTO_VERSION proto_version 0].
(* SRC autogens/proto/session_generated.h 241-243 HandshakeBuilder::add_player_id *)
Definition add_player_id (builder_ : builder) (player_id : option Obj) : builder :=
  builder_ ++ [OffsetAt Handshake.VT_PLAYER_ID player_id].
(* SRC autogens/proto/session_generated.h 244-246 HandshakeBuilder::add_auth_token *)
Definition add_auth_token (builder_ : builder) (auth_token : option Obj) : builder :=
  builder_ ++ [OffsetAt Handshake.VT_AUTH_TOKEN auth_token].
(* SRC autogens/proto/session_generated.h 247-249 HandshakeBuilder::add_client_version *)
Definition add_client_version (builder_ : builder) (client_version : option Obj) : builder :=
  builder_ ++ [OffsetAt Handshake.VT_CLIENT_VERSION client_version].
(* SRC autogens/proto/session_generated.h 254-260 HandshakeBuilder::Finish *)
Definition Finish (builder_ : builder) : option Obj :=
  EndTableRequired [Handshake.VT_PLAYER_ID; Handshake.VT_AUTH_TOKEN] builder_.
End Builder.
End HandshakeBuilder.

Section HandshakeFunctions.
Context {F : FlatBuffers}.
(* SRC autogens/proto/session_generated.h 263-275 CreateHandshake *)
Definition CreateHandshake (proto_version : Z) (player_id : option Obj) (auth_token : option Obj)
    (client_version : option Obj) : option Obj :=
  let builder_ := [] in
  let builder_ := HandshakeBuilder.add_client_version builder_ client_version in
  let builder_ := HandshakeBuilder.add_auth_token builder_ auth_token in
  let builder_ := HandshakeBuilder.add_player_id builder_ player_id in
  let builder_ := HandshakeBuilder.add_proto_version builder_ proto_version in
  HandshakeBuilder.Finish builder_.
(* SRC autogens/proto/session_generated.h 277-292 CreateHandshakeDirect *)
Definition CreateHandshakeDirect (proto_version : Z) (player_id : option string) (auth_token :
    option string) (client_version : option string) : option Obj :=
  let player_id__ := CreateString <$> player_id in
  let auth_token__ := CreateString <$> auth_token in
  let client_version__ := CreateString <$> client_version in
  CreateHandshake proto_version player_id__ auth_token__ client_version__.
(* SRC autogens/proto/session_generated.h 761-768 Handshake::UnPackTo *)
Definition Handshake_UnPackTo (_o : HandshakeT.t) (this_ : Obj) : option HandshakeT.t :=
  proto_version ← Handshake.proto_version this_;
  player_id ← (_e ← Handshake.player_id this_; UnPackString (HandshakeT.player_id _o) _e);
  auth_token ← (_e ← Handshake.auth_token this_; UnPackString (HandshakeT.auth_token _o) _e);
  client_version ← (_e ← Handshake.client_version this_; UnPackString (HandshakeT.client_version
      _o) _e);
  Some (HandshakeT.mk proto_version player_id auth_token client_version).
(* SRC autogens/proto/session_generated.h 755-759 Handshake::UnPack *)
Definition Handshake_UnPack (this_ : Obj) : option HandshakeT.t :=
  Handshake_UnPackTo HandshakeT.init this_.
(* SRC autogens/proto/session_generated.h 774-788 Handshake::Pack *)
Definition Handshake_Pack (_o : HandshakeT.t) : option Obj :=
  let _proto_version := HandshakeT.proto_version _o in
  let _player_id := Some (CreateString (HandshakeT.player_id _o)) in
  let _auth_token := Some (CreateString (HandshakeT.auth_token _o)) in
  let _client_version := PackString (HandshakeT.client_version _o) in
  CreateHandshake _proto_version _player_id _auth_token _client_version.
Definition Handshake_message : Message HandshakeT.t :=
  mkMessage Handshake_Pack Handshake_UnPackTo Handshake_UnPack Handshake.Verify HandshakeT.fits
      HandshakeT.tables 1.
End HandshakeFunctions.
Ltac unfold_Handshake := cbv beta iota zeta delta [Handshake_message Handshake_Pack
    Handshake_UnPack Handshake_UnPackTo CreateHandshake HandshakeBuilder.add_proto_version
    HandshakeBuilder.add_player_id HandshakeBuilder.add_auth_token
        HandshakeBuilder.add_client_version
    HandshakeBuilder.Finish Handshake.proto_version Handshake.player_id Handshake.auth_token
    Handshake.client_version Handshake.Verify HandshakeT.init HandshakeT.fits HandshakeT.tables
    HandshakeT.proto_version HandshakeT.player_id HandshakeT.auth_token
        HandshakeT.client_version] in
    *.
#[global] Instance Handshake_ok {F : FlatBuffers} {FO : FlatBuffersOk F} : MessageOk
    Handshake_message.
Proof. solve_message_with ltac:(fun _ => unfold_Handshake). Qed.
#[global] Arguments Handshake_Pack : simpl never.
#[global] Arguments Handshake_UnPackTo : simpl never.
#[global] Arguments Handshake_UnPack : simpl never.
#[global] Arguments Handshake.Verify : simpl never.
#[global] Arguments HandshakeT.fits : simpl never.
#[global] Arguments HandshakeT.tables : simpl never.
#[global] Typeclasses Opaque Handshake.Verify.

(** S to C  (msg_type 0x02) *)
Module HandshakeAckT.
(* SRC autogens/proto/session_generated.h 296-306 HandshakeAckT *)
Record t : Type := mk {
  session_id : string;
  server_tick_hz : Z;
  assigned_dispatch_areas : list DispatchAreaInfoT.t;
  server_time_us : Z }.
(* SRC autogens/proto/session_generated.h 296-306 HandshakeAckT *)
Definition init : t := mk "" 20 [] 0.
Definition fits (_o : t) : Prop :=
  in_range U32 (server_tick_hz _o) = true /\
  Forall DispatchAreaInfoT.fits (assigned_dispatch_areas _o) /\
  in_range U64 (server_time_us _o) = true.
Definition tables (_o : t) : Z :=
  1 + tables_in DispatchAreaInfoT.tables (assigned_dispatch_areas _o).
End HandshakeAckT.

Module HandshakeAck.
Notation VT_SESSION_ID := 4 (only parsing).
Notation VT_SERVER_TICK_HZ := 6 (only parsing).
Notation VT_ASSIGNED_DISPATCH_AREAS := 8 (only parsing).
Notation VT_SERVER_TIME_US := 10 (only parsing).
Section Table.
Context {F : FlatBuffers}.
(** Unique identifier for this simulation session. *)
(* SRC autogens/proto/session_generated.h 319-321 HandshakeAck::session_id *)
Definition session_id (this_ : Obj) : option (option Obj) := GetPointer this_ VT_SESSION_ID.
(** Tick rate of the simulation engine in Hz (default: 20). *)
(* SRC autogens/proto/session_generated.h 323-325 HandshakeAck::server_tick_hz *)
Definition server_tick_hz (this_ : Obj) : option Z := GetField U32 this_ VT_SERVER_TICK_HZ 20.
(** List of dispatch areas this client is authorised to command. *)
(* SRC autogens/proto/session_generated.h 327-329 HandshakeAck::assigned_dispatch_areas *)
Definition assigned_dispatch_areas (this_ : Obj) : option (option Obj) :=
  GetPointer this_ VT_ASSIGNED_DISPATCH_AREAS.
(** Current wall-clock time at session start, microseconds since Unix epoch. *)
(* SRC autogens/proto/session_generated.h 331-333 HandshakeAck::server_time_us *)
Definition server_time_us (this_ : Obj) : option Z := GetField U64 this_ VT_SERVER_TIME_US 0.
(* SRC autogens/proto/session_generated.h 335-345 HandshakeAck::Verify *)
Definition Verify (this_ : Obj) : verification :=
  TableStart this_ &&>
  check (VerifyOffsetRequired this_ VT_SESSION_ID) &&>
  check_string (session_id this_) &&>
  check (VerifyField U32 this_ VT_SERVER_TICK_HZ 4) &&>
  check (VerifyOffset this_ VT_ASSIGNED_DISPATCH_AREAS) &&>
  check_vector VectorOfOffsets (assigned_dispatch_areas this_) &&>
  check_tables DispatchAreaInfo.Verify (assigned_dispatch_areas this_) &&>
  check (VerifyField U64 this_ VT_SERVER_TIME_US 8) &&>
  TableEnd.
End Table.
End HandshakeAck.

Module HandshakeAckBuilder.
Section Builder.
Context {F : FlatBuffers}.
(* SRC autogens/proto/session_generated.h 355-357 HandshakeAckBuilder::add_session_id *)
Definition add_session_id (builder_ : builder) (session_id : option Obj) : builder :=
  builder_ ++ [OffsetAt HandshakeAck.VT_SESSION_ID session_id].
(* SRC autogens/proto/session_generated.h 358-360 HandshakeAckBuilder::add_server_tick_hz *)
Definition add_server_tick_hz (builder_ : builder) (server_tick_hz : Z) : builder :=
  builder_ ++ [Element U32 HandshakeAck.VT_SERVER_TICK_HZ server_tick_hz 20].
(* SRC autogens/proto/session_generated.h 361-363 HandshakeAckBuilder::add_assigned_dispatch_areas *)
Definition add_assigned_dispatch_areas (builder_ : builder) (assigned_dispatch_areas : option
    Obj) : builder :=
  builder_ ++ [OffsetAt HandshakeAck.VT_ASSIGNED_DISPATCH_AREAS assigned_dispatch_areas].
(* SRC autogens/proto/session_generated.h 364-366 HandshakeAckBuilder::add_server_time_us *)
Definition add_server_time_us (builder_ : builder) (server_time_us : Z) : builder :=
  builder_ ++ [Element U64 HandshakeAck.VT_SERVER_TIME_US server_time_us 0].
(* SRC autogens/proto/session_generated.h 371-376 HandshakeAckBuilder::Finish *)
Definition Finish (builder_ : builder) : option Obj :=
  EndTableRequired [HandshakeAck.VT_SESSION_ID] builder_.
End Builder.
End HandshakeAckBuilder.

Section HandshakeAckFunctions.
Context {F : FlatBuffers}.
(* SRC autogens/proto/session_generated.h 379-391 CreateHandshakeAck *)
Definition CreateHandshakeAck (session_id : option Obj) (server_tick_hz : Z)
    (assigned_dispatch_areas : option Obj) (server_time_us : Z) : option Obj :=
  let builder_ := [] in
  let builder_ := HandshakeAckBuilder.add_server_time_us builder_ server_time_us in
  let builder_ := HandshakeAckBuilder.add_assigned_dispatch_areas builder_
      assigned_dispatch_areas in
  let builder_ := HandshakeAckBuilder.add_server_tick_hz builder_ server_tick_hz in
  let builder_ := HandshakeAckBuilder.add_session_id builder_ session_id in
  HandshakeAckBuilder.Finish builder_.
(* SRC autogens/proto/session_generated.h 393-407 CreateHandshakeAckDirect *)
Definition CreateHandshakeAckDirect (session_id : option string) (server_tick_hz : Z)
    (assigned_dispatch_areas : option (list Obj)) (server_time_us : Z) : option Obj :=
  let session_id__ := CreateString <$> session_id in
  let assigned_dispatch_areas__ := CreateVectorOfOffsets <$> assigned_dispatch_areas in
  CreateHandshakeAck session_id__ server_tick_hz assigned_dispatch_areas__ server_time_us.
(* SRC autogens/proto/session_generated.h 812-819 HandshakeAck::UnPackTo *)
Definition HandshakeAck_UnPackTo (_o : HandshakeAckT.t) (this_ : Obj) : option HandshakeAckT.t :=
  session_id ← (_e ← HandshakeAck.session_id this_; UnPackString (HandshakeAckT.session_id _o) _e);
  server_tick_hz ← HandshakeAck.server_tick_hz this_;
  assigned_dispatch_areas ← (_e ← HandshakeAck.assigned_dispatch_areas this_;
    UnPackTables DispatchAreaInfo_UnPackTo DispatchAreaInfo_UnPack
        (HandshakeAckT.assigned_dispatch_areas _o) _e);
  server_time_us ← HandshakeAck.server_time_us this_;
  Some (HandshakeAckT.mk session_id server_tick_hz assigned_dispatch_areas server_time_us).
(* SRC autogens/proto/session_generated.h 806-810 HandshakeAck::UnPack *)
Definition HandshakeAck_UnPack (this_ : Obj) : option HandshakeAckT.t :=
  HandshakeAck_UnPackTo HandshakeAckT.init this_.
(* SRC autogens/proto/session_generated.h 825-839 HandshakeAck::Pack *)
Definition HandshakeAck_Pack (_o : HandshakeAckT.t) : option Obj :=
  let _session_id := Some (CreateString (HandshakeAckT.session_id _o)) in
  let _server_tick_hz := HandshakeAckT.server_tick_hz _o in
  _assigned_dispatch_areas ← PackTables DispatchAreaInfo_Pack
      (HandshakeAckT.assigned_dispatch_areas _o);
  let _server_time_us := HandshakeAckT.server_time_us _o in
  CreateHandshakeAck _session_id _server_tick_hz _assigned_dispatch_areas _server_time_us.
Definition HandshakeAck_message : Message HandshakeAckT.t :=
  mkMessage HandshakeAck_Pack HandshakeAck_UnPackTo HandshakeAck_UnPack HandshakeAck.Verify
      HandshakeAckT.fits HandshakeAckT.tables 2.
(* SRC autogens/proto/session_generated.h 963-965 GetHandshakeAck *)
Definition GetHandshakeAck (buf : list byte) : Obj := GetRoot buf.
(* SRC autogens/proto/session_generated.h 971-975 VerifyHandshakeAckBuffer *)
Definition VerifyHandshakeAckBuffer (buf : list byte) : option bool :=
  VerifyBuffer HandshakeAck.Verify buf.
(* SRC autogens/proto/session_generated.h 983-987 FinishHandshakeAckBuffer *)
Definition FinishHandshakeAckBuffer (root : Obj) : list byte := Finish root.
(* SRC autogens/proto/session_generated.h 995-999 UnPackHandshakeAck *)
Definition UnPackHandshakeAck (buf : list byte) : option HandshakeAckT.t :=
  HandshakeAck_UnPack (GetHandshakeAck buf).
End HandshakeAckFunctions.
Ltac unfold_HandshakeAck := cbv beta iota zeta delta [HandshakeAck_message HandshakeAck_Pack
    HandshakeAck_UnPack HandshakeAck_UnPackTo CreateHandshakeAck HandshakeAckBuilder.add_session_id
    HandshakeAckBuilder.add_server_tick_hz HandshakeAckBuilder.add_assigned_dispatch_areas
    HandshakeAckBuilder.add_server_time_us HandshakeAckBuilder.Finish HandshakeAck.session_id
    HandshakeAck.server_tick_hz HandshakeAck.assigned_dispatch_areas HandshakeAck.server_time_us
    HandshakeAck.Verify HandshakeAckT.init HandshakeAckT.fits HandshakeAckT.tables
    HandshakeAckT.session_id HandshakeAckT.server_tick_hz HandshakeAckT.assigned_dispatch_areas
    HandshakeAckT.server_time_us] in *.
#[global] Instance HandshakeAck_ok {F : FlatBuffers} {FO : FlatBuffersOk F} : MessageOk
    HandshakeAck_message.
Proof. solve_message_with ltac:(fun _ => unfold_HandshakeAck). Qed.
#[global] Arguments HandshakeAck_Pack : simpl never.
#[global] Arguments HandshakeAck_UnPackTo : simpl never.
#[global] Arguments HandshakeAck_UnPack : simpl never.
#[global] Arguments HandshakeAck.Verify : simpl never.
#[global] Arguments HandshakeAckT.fits : simpl never.
#[global] Arguments HandshakeAckT.tables : simpl never.
#[global] Typeclasses Opaque HandshakeAck.Verify.

(** C and S  (msg_type 0x03) *)
Module HeartbeatT.
(* SRC autogens/proto/session_generated.h 411-414 HeartbeatT *)
Record t : Type := mk {
  sender_time_us : Z }.
(* SRC autogens/proto/session_generated.h 411-414 HeartbeatT *)
Definition init : t := mk 0.
Definition fits (_o : t) : Prop :=
  in_range U64 (sender_time_us _o) = true.
Definition tables (_o : t) : Z := 1.
End HeartbeatT.

Module Heartbeat.
Notation VT_SENDER_TIME_US := 4 (only parsing).
Section Table.
Context {F : FlatBuffers}.
(** Sender wall-clock time in microseconds (diagnostics/latency probe). *)
(* SRC autogens/proto/session_generated.h 424-426 Heartbeat::sender_time_us *)
Definition sender_time_us (this_ : Obj) : option Z := GetField U64 this_ VT_SENDER_TIME_US 0.
(* SRC autogens/proto/session_generated.h 428-432 Heartbeat::Verify *)
Definition Verify (this_ : Obj) : verification :=
  TableStart this_ &&>
  check (VerifyField U64 this_ VT_SENDER_TIME_US 8) &&>
  TableEnd.
End Table.
End Heartbeat.

Module HeartbeatBuilder.
Section Builder.
Context {F : FlatBuffers}.
(* SRC autogens/proto/session_generated.h 442-444 HeartbeatBuilder::add_sender_time_us *)
Definition add_sender_time_us (builder_ : builder) (sender_time_us : Z) : builder :=
  builder_ ++ [Element U64 Heartbeat.VT_SENDER_TIME_US sender_time_us 0].
(* SRC autogens/proto/session_generated.h 449-453 HeartbeatBuilder::Finish *)
Definition Finish (builder_ : builder) : option Obj := Some (EndTable builder_).
End Builder.
End HeartbeatBuilder.

Section HeartbeatFunctions.
Context {F : FlatBuffers}.
(* SRC autogens/proto/session_generated.h 456-462 CreateHeartbeat *)
Definition CreateHeartbeat (sender_time_us : Z) : option Obj :=
  let builder_ := [] in
  let builder_ := HeartbeatBuilder.add_sender_time_us builder_ sender_time_us in
  HeartbeatBuilder.Finish builder_.
(* SRC autogens/proto/session_generated.h 847-851 Heartbeat::UnPackTo *)
Definition Heartbeat_UnPackTo (_o : HeartbeatT.t) (this_ : Obj) : option HeartbeatT.t :=
  sender_time_us ← Heartbeat.sender_time_us this_;
  Some (HeartbeatT.mk sender_time_us).
(* SRC autogens/proto/session_generated.h 841-845 Heartbeat::UnPack *)
Definition Heartbeat_UnPack (this_ : Obj) : option HeartbeatT.t :=
  Heartbeat_UnPackTo HeartbeatT.init this_.
(* SRC autogens/proto/session_generated.h 857-865 Heartbeat::Pack *)
Definition Heartbeat_Pack (_o : HeartbeatT.t) : option Obj :=
  let _sender_time_us := HeartbeatT.sender_time_us _o in
  CreateHeartbeat _sender_time_us.
Definition Heartbeat_message : Message HeartbeatT.t :=
  mkMessage Heartbeat_Pack Heartbeat_UnPackTo Heartbeat_UnPack Heartbeat.Verify HeartbeatT.fits
      HeartbeatT.tables 1.
End HeartbeatFunctions.
Ltac unfold_Heartbeat := cbv beta iota zeta delta [Heartbeat_message Heartbeat_Pack
    Heartbeat_UnPack Heartbeat_UnPackTo CreateHeartbeat HeartbeatBuilder.add_sender_time_us
    HeartbeatBuilder.Finish Heartbeat.sender_time_us Heartbeat.Verify HeartbeatT.init
        HeartbeatT.fits
    HeartbeatT.tables HeartbeatT.sender_time_us] in *.
#[global] Instance Heartbeat_ok {F : FlatBuffers} {FO : FlatBuffersOk F} : MessageOk
    Heartbeat_message.
Proof. solve_message_with ltac:(fun _ => unfold_Heartbeat). Qed.
#[global] Arguments Heartbeat_Pack : simpl never.
#[global] Arguments Heartbeat_UnPackTo : simpl never.
#[global] Arguments Heartbeat_UnPack : simpl never.
#[global] Arguments Heartbeat.Verify : simpl never.
#[global] Arguments HeartbeatT.fits : simpl never.
#[global] Arguments HeartbeatT.tables : simpl never.
#[global] Typeclasses Opaque Heartbeat.Verify.

(** C and S  (msg_type 0x04) *)
Module HeartbeatAckT.
(* SRC autogens/proto/session_generated.h 466-470 HeartbeatAckT *)
Record t : Type := mk {
  req_seq_id : Z;
  responder_time_us : Z }.
(* SRC autogens/proto/session_generated.h 466-470 HeartbeatAckT *)
Definition init : t := mk 0 0.
Definition fits (_o : t) : Prop :=
  in_range U32 (req_seq_id _o) = true /\
  in_range U64 (responder_time_us _o) = true.
Definition tables (_o : t) : Z := 1.
End HeartbeatAckT.

Module HeartbeatAck.
Notation VT_REQ_SEQ_ID := 4 (only parsing).
Notation VT_RESPONDER_TIME_US := 6 (only parsing).
Section Table.
Context {F : FlatBuffers}.
(** seq_id of HEARTBEAT frame being acknowledged. *)
(* SRC autogens/proto/session_generated.h 481-483 HeartbeatAck::req_seq_id *)
Definition req_seq_id (this_ : Obj) : option Z := GetField U32 this_ VT_REQ_SEQ_ID 0.
(** Responder wall-clock time in microseconds. *)
(* SRC autogens/proto/session_generated.h 485-487 HeartbeatAck::responder_time_us *)
Definition responder_time_us (this_ : Obj) : option Z := GetField U64 this_ VT_RESPONDER_TIME_US 0.
(* SRC autogens/proto/session_generated.h 489-494 HeartbeatAck::Verify *)
Definition Verify (this_ : Obj) : verification :=
  TableStart this_ &&>
  check (VerifyField U32 this_ VT_REQ_SEQ_ID 4) &&>
  check (VerifyField U64 this_ VT_RESPONDER_TIME_US 8) &&>
  TableEnd.
End Table.
End HeartbeatAck.

Module HeartbeatAckBuilder.
Section Builder.
Context {F : FlatBuffers}.
(* SRC autogens/proto/session_generated.h 504-506 HeartbeatAckBuilder::add_req_seq_id *)
Definition add_req_seq_id (builder_ : builder) (req_seq_id : Z) : builder :=
  builder_ ++ [Element U32 HeartbeatAck.VT_REQ_SEQ_ID req_seq_id 0].
(* SRC autogens/proto/session_generated.h 507-509 HeartbeatAckBuilder::add_responder_time_us *)
Definition add_responder_time_us (builder_ : builder) (responder_time_us : Z) : builder :=
  builder_ ++ [Element U64 HeartbeatAck.VT_RESPONDER_TIME_US responder_time_us 0].
(* SRC autogens/proto/session_generated.h 514-518 HeartbeatAckBuilder::Finish *)
Definition Finish (builder_ : builder) : option Obj := Some (EndTable builder_).
End Builder.
End HeartbeatAckBuilder.

Section HeartbeatAckFunctions.
Context {F : FlatBuffers}.
(* SRC autogens/proto/session_generated.h 521-529 CreateHeartbeatAck *)
Definition CreateHeartbeatAck (req_seq_id : Z) (responder_time_us : Z) : option Obj :=
  let builder_ := [] in
  let builder_ := HeartbeatAckBuilder.add_responder_time_us builder_ responder_time_us in
  let builder_ := HeartbeatAckBuilder.add_req_seq_id builder_ req_seq_id in
  HeartbeatAckBuilder.Finish builder_.
(* SRC autogens/proto/session_generated.h 873-878 HeartbeatAck::UnPackTo *)
Definition HeartbeatAck_UnPackTo (_o : HeartbeatAckT.t) (this_ : Obj) : option HeartbeatAckT.t :=
  req_seq_id ← HeartbeatAck.req_seq_id this_;
  responder_time_us ← HeartbeatAck.responder_time_us this_;
  Some (HeartbeatAckT.mk req_seq_id responder_time_us).
(* SRC autogens/proto/session_generated.h 867-871 HeartbeatAck::UnPack *)
Definition HeartbeatAck_UnPack (this_ : Obj) : option HeartbeatAckT.t :=
  HeartbeatAck_UnPackTo HeartbeatAckT.init this_.
(* SRC autogens/proto/session_generated.h 884-894 HeartbeatAck::Pack *)
Definition HeartbeatAck_Pack (_o : HeartbeatAckT.t) : option Obj :=
  let _req_seq_id := HeartbeatAckT.req_seq_id _o in
  let _responder_time_us := HeartbeatAckT.responder_time_us _o in
  CreateHeartbeatAck _req_seq_id _responder_time_us.
Definition HeartbeatAck_message : Message HeartbeatAckT.t :=
  mkMessage HeartbeatAck_Pack HeartbeatAck_UnPackTo HeartbeatAck_UnPack HeartbeatAck.Verify
      HeartbeatAckT.fits HeartbeatAckT.tables 1.
End HeartbeatAckFunctions.
Ltac unfold_HeartbeatAck := cbv beta iota zeta delta [HeartbeatAck_message HeartbeatAck_Pack
    HeartbeatAck_UnPack HeartbeatAck_UnPackTo CreateHeartbeatAck HeartbeatAckBuilder.add_req_seq_id
    HeartbeatAckBuilder.add_responder_time_us HeartbeatAckBuilder.Finish HeartbeatAck.req_seq_id
    HeartbeatAck.responder_time_us HeartbeatAck.Verify HeartbeatAckT.init HeartbeatAckT.fits
    HeartbeatAckT.tables HeartbeatAckT.req_seq_id HeartbeatAckT.responder_time_us] in *.
#[global] Instance HeartbeatAck_ok {F : FlatBuffers} {FO : FlatBuffersOk F} : MessageOk
    HeartbeatAck_message.
Proof. solve_message_with ltac:(fun _ => unfold_HeartbeatAck). Qed.
#[global] Arguments HeartbeatAck_Pack : simpl never.
#[global] Arguments HeartbeatAck_UnPackTo : simpl never.
#[global] Arguments HeartbeatAck_UnPack : simpl never.
#[global] Arguments HeartbeatAck.Verify : simpl never.
#[global] Arguments HeartbeatAckT.fits : simpl never.
#[global] Arguments HeartbeatAckT.tables : simpl never.
#[global] Typeclasses Opaque HeartbeatAck.Verify.

(** C to S  (msg_type 0x30) *)
Module SnapshotRequestT.
(* SRC autogens/proto/session_generated.h 533-537 SnapshotRequestT *)
Record t : Type := mk {
  since_seq_id : Z;
  force_full : bool }.
(* SRC autogens/proto/session_generated.h 533-537 SnapshotRequestT *)
Definition init : t := mk 0 true.
Definition fits (_o : t) : Prop :=
  in_range U32 (since_seq_id _o) = true.
Definition tables (_o : t) : Z := 1.
End SnapshotRequestT.

Module SnapshotRequest.
Notation VT_SINCE_SEQ_ID := 4 (only parsing).
Notation VT_FORCE_FULL := 6 (only parsing).
Section Table.
Context {F : FlatBuffers}.
(** Optional cursor for incremental catch-up; 0 means full snapshot. *)
(* SRC autogens/proto/session_generated.h 548-550 SnapshotRequest::since_seq_id *)
Definition since_seq_id (this_ : Obj) : option Z := GetField U32 this_ VT_SINCE_SEQ_ID 0.
(** Force full snapshot even when server supports diff mode. *)
(* SRC autogens/proto/session_generated.h 552-554 SnapshotRequest::force_full *)
Definition force_full (this_ : Obj) : option bool :=
  e ← GetField U8 this_ VT_FORCE_FULL 1; Some (negb (e =? 0)).
(* SRC autogens/proto/session_generated.h 556-561 SnapshotRequest::Verify *)
Definition Verify (this_ : Obj) : verification :=
  TableStart this_ &&>
  check (VerifyField U32 this_ VT_SINCE_SEQ_ID 4) &&>
  check (VerifyField U8 this_ VT_FORCE_FULL 1) &&>
  TableEnd.
End Table.
End SnapshotRequest.

Module SnapshotRequestBuilder.
Section Builder.
Context {F : FlatBuffers}.
(* SRC autogens/proto/session_generated.h 571-573 SnapshotRequestBuilder::add_since_seq_id *)
Definition add_since_seq_id (builder_ : builder) (since_seq_id : Z) : builder :=
  builder_ ++ [Element U32 SnapshotRequest.VT_SINCE_SEQ_ID since_seq_id 0].
(* SRC autogens/proto/session_generated.h 574-576 SnapshotRequestBuilder::add_force_full *)
Definition add_force_full (builder_ : builder) (force_full : bool) : builder :=
  builder_ ++ [Element U8 SnapshotRequest.VT_FORCE_FULL (Z.b2z force_full) 1].
(* SRC autogens/proto/session_generated.h 581-585 SnapshotRequestBuilder::Finish *)
Definition Finish (builder_ : builder) : option Obj := Some (EndTable builder_).
End Builder.
End SnapshotRequestBuilder.

Section SnapshotRequestFunctions.
Context {F : FlatBuffers}.
(* SRC autogens/proto/session_generated.h 588-596 CreateSnapshotRequest *)
Definition CreateSnapshotRequest (since_seq_id : Z) (force_full : bool) : option Obj :=
  let builder_ := [] in
  let builder_ := SnapshotRequestBuilder.add_since_seq_id builder_ since_seq_id in
  let builder_ := SnapshotRequestBuilder.add_force_full builder_ force_full in
  SnapshotRequestBuilder.Finish builder_.
(* SRC autogens/proto/session_generated.h 902-907 SnapshotRequest::UnPackTo *)
Definition SnapshotRequest_UnPackTo (_o : SnapshotRequestT.t) (this_ : Obj) : option
    SnapshotRequestT.t :=
  since_seq_id ← SnapshotRequest.since_seq_id this_;
  force_full ← SnapshotRequest.force_full this_;
  Some (SnapshotRequestT.mk since_seq_id force_full).
(* SRC autogens/proto/session_generated.h 896-900 SnapshotRequest::UnPack *)
Definition SnapshotRequest_UnPack (this_ : Obj) : option SnapshotRequestT.t :=
  SnapshotRequest_UnPackTo SnapshotRequestT.init this_.
(* SRC autogens/proto/session_generated.h 913-923 SnapshotRequest::Pack *)
Definition SnapshotRequest_Pack (_o : SnapshotRequestT.t) : option Obj :=
  let _since_seq_id := SnapshotRequestT.since_seq_id _o in
  let _force_full := SnapshotRequestT.force_full _o in
  CreateSnapshotRequest _since_seq_id _force_full.
Definition SnapshotRequest_message : Message SnapshotRequestT.t :=
  mkMessage SnapshotRequest_Pack SnapshotRequest_UnPackTo SnapshotRequest_UnPack
      SnapshotRequest.Verify SnapshotRequestT.fits SnapshotRequestT.tables 1.
End SnapshotRequestFunctions.
Ltac unfold_SnapshotRequest := cbv beta iota zeta delta [SnapshotRequest_message
    SnapshotRequest_Pack SnapshotRequest_UnPack SnapshotRequest_UnPackTo CreateSnapshotRequest
    SnapshotRequestBuilder.add_since_seq_id SnapshotRequestBuilder.add_force_full
    SnapshotRequestBuilder.Finish SnapshotRequest.since_seq_id SnapshotRequest.force_full
    SnapshotRequest.Verify SnapshotRequestT.init SnapshotRequestT.fits SnapshotRequestT.tables
    SnapshotRequestT.since_seq_id SnapshotRequestT.force_full] in *.
#[global] Instance SnapshotRequest_ok {F : FlatBuffers} {FO : FlatBuffersOk F} : MessageOk
    SnapshotRequest_message.
Proof. solve_message_with ltac:(fun _ => unfold_SnapshotRequest). Qed.
#[global] Arguments SnapshotRequest_Pack : simpl never.
#[global] Arguments SnapshotRequest_UnPackTo : simpl never.
#[global] Arguments SnapshotRequest_UnPack : simpl never.
#[global] Arguments SnapshotRequest.Verify : simpl never.
#[global] Arguments SnapshotRequestT.fits : simpl never.
#[global] Arguments SnapshotRequestT.tables : simpl never.
#[global] Typeclasses Opaque SnapshotRequest.Verify.

(** S to C  (msg_type 0x40) *)
Module SessionNoticeT.
(* SRC autogens/proto/session_generated.h 600-607 SessionNoticeT *)
Record t : Type := mk {
  type : Z;
  code : Z;
  message : string;
  station_sid : string;
  dispatch_area_id : string }.
(* SRC autogens/proto/session_generated.h 600-607 SessionNoticeT *)
Definition init : t := mk (Prelude.code SessionNoticeType.INFO) 0 "" "" "".
Definition fits (_o : t) : Prop :=
  in_range I8 (type _o) = true /\
  in_range U16 (code _o) = true.
Definition tables (_o : t) : Z := 1.
End SessionNoticeT.

Module SessionNotice.
Notation VT_TYPE := 4 (only parsing).
Notation VT_CODE := 6 (only parsing).
Notation VT_MESSAGE := 8 (only parsing).
Notation VT_STATION_SID := 10 (only parsing).
Notation VT_DISPATCH_AREA_ID := 12 (only parsing).
Section Table.
Context {F : FlatBuffers}.
(* SRC autogens/proto/session_generated.h 620-622 SessionNotice::type *)
Definition type (this_ : Obj) : option Z := GetField I8 this_ VT_TYPE 0.
(** Optional machine-readable code for client-side localization/UX. *)
(* SRC autogens/proto/session_generated.h 624-626 SessionNotice::code *)
Definition code (this_ : Obj) : option Z := GetField U16 this_ VT_CODE 0.
(** Human-readable fallback text. *)
(* SRC autogens/proto/session_generated.h 628-630 SessionNotice::message *)
Definition message (this_ : Obj) : option (option Obj) := GetPointer this_ VT_MESSAGE.
(** Optional context IDs. *)
(* SRC autogens/proto/session_generated.h 632-634 SessionNotice::station_sid *)
Definition station_sid (this_ : Obj) : option (option Obj) := GetPointer this_ VT_STATION_SID.
(* SRC autogens/proto/session_generated.h 635-637 SessionNotice::dispatch_area_id *)
Definition dispatch_area_id (this_ : Obj) : option (option Obj) :=
  GetPointer this_ VT_DISPATCH_AREA_ID.
(* SRC autogens/proto/session_generated.h 639-650 SessionNotice::Verify *)
Definition Verify (this_ : Obj) : verification :=
  TableStart this_ &&>
  check (VerifyField I8 this_ VT_TYPE 1) &&>
  check (VerifyField U16 this_ VT_CODE 2) &&>
  check (VerifyOffset this_ VT_MESSAGE) &&>
  check_string (message this_) &&>
  check (VerifyOffset this_ VT_STATION_SID) &&>
  check_string (station_sid this_) &&>
  check (VerifyOffset this_ VT_DISPATCH_AREA_ID) &&>
  check_string (dispatch_area_id this_) &&>
  TableEnd.
End Table.
End SessionNotice.

Module SessionNoticeBuilder.
Section Builder.
Context {F : FlatBuffers}.
(* SRC autogens/proto/session_generated.h 660-662 SessionNoticeBuilder::add_type *)
Definition add_type (builder_ : builder) (type : Z) : builder :=
  builder_ ++ [Element I8 SessionNotice.VT_TYPE type 0].
(* SRC autogens/proto/session_generated.h 663-665 SessionNoticeBuilder::add_code *)
Definition add_code (builder_ : builder) (code : Z) : builder :=
  builder_ ++ [Element U16 SessionNotice.VT_CODE code 0].
(* SRC autogens/proto/session_generated.h 666-668 SessionNoticeBuilder::add_message *)
Definition add_message (builder_ : builder) (message : option Obj) : builder :=
  builder_ ++ [OffsetAt SessionNotice.VT_MESSAGE message].
(* SRC autogens/proto/session_generated.h 669-671 SessionNoticeBuilder::add_station_sid *)
Definition add_station_sid (builder_ : builder) (station_sid : option Obj) : builder :=
  builder_ ++ [OffsetAt SessionNotice.VT_STATION_SID station_sid].
(* SRC autogens/proto/session_generated.h 672-674 SessionNoticeBuilder::add_dispatch_area_id *)
Definition add_dispatch_area_id (builder_ : builder) (dispatch_area_id : option Obj) : builder :=
  builder_ ++ [OffsetAt SessionNotice.VT_DISPATCH_AREA_ID dispatch_area_id].
(* SRC autogens/proto/session_generated.h 679-683 SessionNoticeBuilder::Finish *)
Definition Finish (builder_ : builder) : option Obj := Some (EndTable builder_).
End Builder.
End SessionNoticeBuilder.

Section SessionNoticeFunctions.
Context {F : FlatBuffers}.
(* SRC autogens/proto/session_generated.h 686-700 CreateSessionNotice *)
Definition CreateSessionNotice (type : Z) (code : Z) (message : option Obj) (station_sid : option
    Obj) (dispatch_area_id : option Obj) : option Obj :=
  let builder_ := [] in
  let builder_ := SessionNoticeBuilder.add_dispatch_area_id builder_ dispatch_area_id in
  let builder_ := SessionNoticeBuilder.add_station_sid builder_ station_sid in
  let builder_ := SessionNoticeBuilder.add_message builder_ message in
  let builder_ := SessionNoticeBuilder.add_code builder_ code in
  let builder_ := SessionNoticeBuilder.add_type builder_ type in
  SessionNoticeBuilder.Finish builder_.
(* SRC autogens/proto/session_generated.h 702-719 CreateSessionNoticeDirect *)
Definition CreateSessionNoticeDirect (type : Z) (code : Z) (message : option string) (station_sid
    : option string) (dispatch_area_id : option string) : option Obj :=
  let message__ := CreateString <$> message in
  let station_sid__ := CreateString <$> station_sid in
  let dispatch_area_id__ := CreateString <$> dispatch_area_id in
  CreateSessionNotice type code message__ station_sid__ dispatch_area_id__.
(* SRC autogens/proto/session_generated.h 931-939 SessionNotice::UnPackTo *)
Definition SessionNotice_UnPackTo (_o : SessionNoticeT.t) (this_ : Obj) : option SessionNoticeT.t :=
  type ← SessionNotice.type this_;
  code ← SessionNotice.code this_;
  message ← (_e ← SessionNotice.message this_; UnPackString (SessionNoticeT.message _o) _e);
  station_sid ← (_e ← SessionNotice.station_sid this_; UnPackString (SessionNoticeT.station_sid
      _o) _e);
  dispatch_area_id ← (_e ← SessionNotice.dispatch_area_id this_; UnPackString
      (SessionNoticeT.dispatch_area_id _o) _e);
  Some (SessionNoticeT.mk type code message station_sid dispatch_area_id).
(* SRC autogens/proto/session_generated.h 925-929 SessionNotice::UnPack *)
Definition SessionNotice_UnPack (this_ : Obj) : option SessionNoticeT.t :=
  SessionNotice_UnPackTo SessionNoticeT.init this_.
(* SRC autogens/proto/session_generated.h 945-961 SessionNotice::Pack *)
Definition SessionNotice_Pack (_o : SessionNoticeT.t) : option Obj :=
  let _type := SessionNoticeT.type _o in
  let _code := SessionNoticeT.code _o in
  let _message := PackString (SessionNoticeT.message _o) in
  let _station_sid := PackString (SessionNoticeT.station_sid _o) in
  let _dispatch_area_id := PackString (SessionNoticeT.dispatch_area_id _o) in
  CreateSessionNotice _type _code _message _station_sid _dispatch_area_id.
Definition SessionNotice_message : Message SessionNoticeT.t :=
  mkMessage SessionNotice_Pack SessionNotice_UnPackTo SessionNotice_UnPack SessionNotice.Verify
      SessionNoticeT.fits SessionNoticeT.tables 1.
End SessionNoticeFunctions.
Ltac unfold_SessionNotice := cbv beta iota zeta delta [SessionNotice_message SessionNotice_Pack
    SessionNotice_UnPack SessionNotice_UnPackTo CreateSessionNotice SessionNoticeBuilder.add_type
    SessionNoticeBuilder.add_code SessionNoticeBuilder.add_message
    SessionNoticeBuilder.add_station_sid SessionNoticeBuilder.add_dispatch_area_id
    SessionNoticeBuilder.Finish SessionNotice.type SessionNotice.code SessionNotice.message
    SessionNotice.station_sid SessionNotice.dispatch_area_id SessionNotice.Verify
        SessionNoticeT.init
    SessionNoticeT.fits SessionNoticeT.tables SessionNoticeT.type SessionNoticeT.code
    SessionNoticeT.message SessionNoticeT.station_sid SessionNoticeT.dispatch_area_id] in *.
#[global] Instance SessionNotice_ok {F : FlatBuffers} {FO : FlatBuffersOk F} : MessageOk
    SessionNotice_message.
Proof. solve_message_with ltac:(fun _ => unfold_SessionNotice). Qed.
#[global] Arguments SessionNotice_Pack : simpl never.
#[global] Arguments SessionNotice_UnPackTo : simpl never.
#[global] Arguments SessionNotice_UnPack : simpl never.
#[global] Arguments SessionNotice.Verify : simpl never.
#[global] Arguments SessionNoticeT.fits : simpl never.
#[global] Arguments SessionNoticeT.tables : simpl never.
#[global] Typeclasses Opaque SessionNotice.Verify.

End proto.
