(* ===== verification/ProtoEvents.v ===== *)
(** * ProtoEvents: the messages of domain events

    [autogens/proto/events_generated.h]: the nineteen tables that announce
    changes of the world, as [ProtoCommands] has the tables of commands. *)
From S2P Require Import Prelude Float32 Frame Flat ProtoCommon ProtoCommands.
Local Open Scope Z_scope.

Module proto.
Import ProtoCommon.proto.
Import ProtoCommands.proto.

(* SRC autogens/proto/events_generated.h 97-104 RouteReleaseReason *)
Module RouteReleaseReason.
Inductive t : Set :=
  | TRAIN_CLEARED | OPERATOR_CANCEL | TIMEOUT | CONFLICT.
Definition to_code (x : t) : BinNums.Z :=
  match x with
  | TRAIN_CLEARED => 0 | OPERATOR_CANCEL => 1 | TIMEOUT => 2 | CONFLICT => 3
  end%Z.
Definition all : list t :=
  [TRAIN_CLEARED; OPERATOR_CANCEL; TIMEOUT; CONFLICT].
#[global] Instance enum : Enum t.
Proof. refine {| code := to_code; enumerators := all |}. by intros []. Defined.
End RouteReleaseReason.
(* SRC autogens/proto/events_generated.h 106-114 EnumValuesRouteReleaseReason *)
Definition EnumValuesRouteReleaseReason : list RouteReleaseReason.t :=
  [RouteReleaseReason.TRAIN_CLEARED; RouteReleaseReason.OPERATOR_CANCEL;
    RouteReleaseReason.TIMEOUT; RouteReleaseReason.CONFLICT].
(* SRC autogens/proto/events_generated.h 116-125 EnumNamesRouteReleaseReason *)
Definition EnumNamesRouteReleaseReason : list string :=
  ["TRAIN_CLEARED"; "OPERATOR_CANCEL"; "TIMEOUT"; "CONFLICT"]%string.
(* SRC autogens/proto/events_generated.h 127-131 EnumNameRouteReleaseReason *)
Definition EnumNameRouteReleaseReason (e : Z) : string :=
  if IsOutRange e (code RouteReleaseReason.TRAIN_CLEARED) (code RouteReleaseReason.CONFLICT)
      then ""%string
  else default ""%string (EnumNamesRouteReleaseReason !! Z.to_nat e).

(* SRC autogens/proto/events_generated.h 133-138 Direction *)
Module Direction.
Inductive t : Set :=
  | FORWARD | BACKWARD.
Definition to_code (x : t) : BinNums.Z :=
  match x with
  | FORWARD => 0 | BACKWARD => 1
  end%Z.
Definition all : list t :=
  [FORWARD; BACKWARD].
#[global] Instance enum : Enum t.
Proof. refine {| code := to_code; enumerators := all |}. by intros []. Defined.
End Direction.
(* SRC autogens/proto/events_generated.h 140-146 EnumValuesDirection *)
Definition EnumValuesDirection : list Direction.t :=
  [Direction.FORWARD; Direction.BACKWARD].
(* SRC autogens/proto/events_generated.h 148-155 EnumNamesDirection *)
Definition EnumNamesDirection : list string :=
  ["FORWARD"; "BACKWARD"]%string.
(* SRC autogens/proto/events_generated.h 157-161 EnumNameDirection *)
Definition EnumNameDirection (e : Z) : string :=
  if IsOutRange e (code Direction.FORWARD) (code Direction.BACKWARD) then ""%string
  else default ""%string (EnumNamesDirection !! Z.to_nat e).

(* SRC autogens/proto/events_generated.h 163-172 AlarmType *)
Module AlarmType.
Inductive t : Set :=
  | TRACK_OCCUPIED_UNEXPECTEDLY | SWITCH_POSITION_MISMATCH | SIGNAL_OVERRUN |
    DERAILER_CONFLICT | COMMS_FAILURE | ENGINE_FAULT.
Definition to_code (x : t) : BinNums.Z :=
  match x with
  | TRACK_OCCUPIED_UNEXPECTEDLY => 0 | SWITCH_POSITION_MISMATCH => 1 | SIGNAL_OVERRUN => 2 |
    DERAILER_CONFLICT => 3 | COMMS_FAILURE => 4 | ENGINE_FAULT => 5
  end%Z.
Definition all : list t :=
  [TRACK_OCCUPIED_UNEXPECTEDLY; SWITCH_POSITION_MISMATCH; SIGNAL_OVERRUN; DERAILER_CONFLICT;
    COMMS_FAILURE; ENGINE_FAULT].
#[global] Instance enum : Enum t.
Proof. refine {| code := to_code; enumerators := all |}. by intros []. Defined.
End AlarmType.
(* SRC autogens/proto/events_generated.h 174-184 EnumValuesAlarmType *)
Definition EnumValuesAlarmType : list AlarmType.t :=
  [AlarmType.TRACK_OCCUPIED_UNEXPECTEDLY; AlarmType.SWITCH_POSITION_MISMATCH;
    AlarmType.SIGNAL_OVERRUN; AlarmType.DERAILER_CONFLICT; AlarmType.COMMS_FAILURE;
    AlarmType.ENGINE_FAULT].
(* SRC autogens/proto/events_generated.h 186-197 EnumNamesAlarmType *)
Definition EnumNamesAlarmType : list string :=
  ["TRACK_OCCUPIED_UNEXPECTEDLY"; "SWITCH_POSITION_MISMATCH"; "SIGNAL_OVERRUN";
    "DERAILER_CONFLICT"; "COMMS_FAILURE"; "ENGINE_FAULT"]%string.
(* SRC autogens/proto/events_generated.h 199-203 EnumNameAlarmType *)
Definition EnumNameAlarmType (e : Z) : string :=
  if IsOutRange e (code AlarmType.TRACK_OCCUPIED_UNEXPECTEDLY) (code AlarmType.ENGINE_FAULT)
      then ""%string
  else default ""%string (EnumNamesAlarmType !! Z.to_nat e).

(* SRC autogens/proto/events_generated.h 205-211 TrainDecomposeReason *)
Module TrainDecomposeReason.
Inductive t : Set :=
  | UNCOUPLED | SCENARIO_RESET | DERAILED.
Definition to_code (x : t) : BinNums.Z :=
  match x with
  | UNCOUPLED => 0 | SCENARIO_RESET => 1 | DERAILED => 2
  end%Z.
Definition all : list t :=
  [UNCOUPLED; SCENARIO_RESET; DERAILED].
#[global] Instance enum : Enum t.
Proof. refine {| code := to_code; enumerators := all |}. by intros []. Defined.
End TrainDecomposeReason.
(* SRC autogens/proto/events_generated.h 213-220 EnumValuesTrainDecomposeReason *)
Definition EnumValuesTrainDecomposeReason : list TrainDecomposeReason.t :=
  [TrainDecomposeReason.UNCOUPLED; TrainDecomposeReason.SCENARIO_RESET;
    TrainDecomposeReason.DERAILED].
(* SRC autogens/proto/events_generated.h 222-230 EnumNamesTrainDecomposeReason *)
Definition EnumNamesTrainDecomposeReason : list string :=
  ["UNCOUPLED"; "SCENARIO_RESET"; "DERAILED"]%string.
(* SRC autogens/proto/events_generated.h 232-236 EnumNameTrainDecomposeReason *)
Definition EnumNameTrainDecomposeReason (e : Z) : string :=
  if IsOutRange e (code TrainDecomposeReason.UNCOUPLED) (code TrainDecomposeReason.DERAILED)
      then ""%string
  else default ""%string (EnumNamesTrainDecomposeReason !! Z.to_nat e).

Module SwitchPositionChangedT.
(* SRC autogens/proto/events_generated.h 238-243 SwitchPositionChangedT *)
Record t : Type := mk {
  uid : Z;
  new_position : Z;
  cause : Z }.
(* SRC autogens/proto/events_generated.h 238-243 SwitchPositionChangedT *)
Definition init : t := mk 0 (code SwitchPosition.STRAIGHT) (code ChangeCause.COMMAND).
Definition fits (_o : t) : Prop :=
  in_range U64 (uid _o) = true /\
  in_range I8 (new_position _o) = true /\
  in_range I8 (cause _o) = true.
Definition tables (_o : t) : Z := 1.
End SwitchPositionChangedT.

Module SwitchPositionChanged.
Notation VT_UID := 4 (only parsing).
Notation VT_NEW_POSITION := 6 (only parsing).
Notation VT_CAUSE := 8 (only parsing).
Section Table.
Context {F : FlatBuffers}.
(* SRC autogens/proto/events_generated.h 253-255 SwitchPositionChanged::uid *)
Definition uid (this_ : Obj) : option Z := GetField U64 this_ VT_UID 0.
(* SRC autogens/proto/events_generated.h 256-258 SwitchPositionChanged::new_position *)
Definition new_position (this_ : Obj) : option Z := GetField I8 this_ VT_NEW_POSITION 0.
(* SRC autogens/proto/events_generated.h 259-261 SwitchPositionChanged::cause *)
Definition cause (this_ : Obj) : option Z := GetField I8 this_ VT_CAUSE 0.
(* SRC autogens/proto/events_generated.h 263-269 SwitchPositionChanged::Verify *)
Definition Verify (this_ : Obj) : verification :=
  TableStart this_ &&>
  check (VerifyField U64 this_ VT_UID 8) &&>
  check (VerifyField I8 this_ VT_NEW_POSITION 1) &&>
  check (VerifyField I8 this_ VT_CAUSE 1) &&>
  TableEnd.
End Table.
End SwitchPositionChanged.

Module SwitchPositionChangedBuilder.
Section Builder.
Context {F : FlatBuffers}.
(* SRC autogens/proto/events_generated.h 279-281 SwitchPositionChangedBuilder::add_uid *)
Definition add_uid (builder_ : builder) (uid : Z) : builder :=
  builder_ ++ [Element U64 SwitchPositionChanged.VT_UID uid 0].
(* SRC autogens/proto/events_generated.h 282-284 SwitchPositionChangedBuilder::add_new_position *)
Definition add_new_position (builder_ : builder) (new_position : Z) : builder :=
  builder_ ++ [Element I8 SwitchPositionChanged.VT_NEW_POSITION new_position 0].
(* SRC autogens/proto/events_generated.h 285-287 SwitchPositionChangedBuilder::add_cause *)
Definition add_cause (builder_ : builder) (cause : Z) : builder :=
  builder_ ++ [Element I8 SwitchPositionChanged.VT_CAUSE cause 0].
(* SRC autogens/proto/events_generated.h 292-296 SwitchPositionChangedBuilder::Finish *)
Definition Finish (builder_ : builder) : option Obj := Some (EndTable builder_).
End Builder.
End SwitchPositionChangedBuilder.

Section SwitchPositionChangedFunctions.
Context {F : FlatBuffers}.
(* SRC autogens/proto/events_generated.h 299-309 CreateSwitchPositionChanged *)
Definition CreateSwitchPositionChanged (uid : Z) (new_position : Z) (cause : Z) : option Obj :=
  let builder_ := [] in
  let builder_ := SwitchPositionChangedBuilder.add_uid builder_ uid in
  let builder_ := SwitchPositionChangedBuilder.add_cause builder_ cause in
  let builder_ := SwitchPositionChangedBuilder.add_new_position builder_ new_position in
  SwitchPositionChangedBuilder.Finish builder_.
(* SRC autogens/proto/events_generated.h 1821-1827 SwitchPositionChanged::UnPackTo *)
Definition SwitchPositionChanged_UnPackTo (_o : SwitchPositionChangedT.t) (this_ : Obj) : option
    SwitchPositionChangedT.t :=
  uid ← SwitchPositionChanged.uid this_;
  new_position ← SwitchPositionChanged.new_position this_;
  cause ← SwitchPositionChanged.cause this_;
  Some (SwitchPositionChangedT.mk uid new_position cause).
(* SRC autogens/proto/events_generated.h 1815-1819 SwitchPositionChanged::UnPack *)
Definition SwitchPositionChanged_UnPack (this_ : Obj) : option SwitchPositionChangedT.t :=
  SwitchPositionChanged_UnPackTo SwitchPositionChangedT.init this_.
(* SRC autogens/proto/events_generated.h 1833-1845 SwitchPositionChanged::Pack *)
Definition SwitchPositionChanged_Pack (_o : SwitchPositionChangedT.t) : option Obj :=
  let _uid := SwitchPositionChangedT.uid _o in
  let _new_position := SwitchPositionChangedT.new_position _o in
  let _cause := SwitchPositionChangedT.cause _o in
  CreateSwitchPositionChanged _uid _new_position _cause.
Definition SwitchPositionChanged_message : Message SwitchPositionChangedT.t :=
  mkMessage SwitchPositionChanged_Pack SwitchPositionChanged_UnPackTo
      SwitchPositionChanged_UnPack SwitchPositionChanged.Verify SwitchPositionChangedT.fits
      SwitchPositionChangedT.tables 1.
End SwitchPositionChangedFunctions.
Ltac unfold_SwitchPositionChanged := cbv beta iota zeta delta [SwitchPositionChanged_message
    SwitchPositionChanged_Pack SwitchPositionChanged_UnPack SwitchPositionChanged_UnPackTo
    CreateSwitchPositionChanged SwitchPositionChangedBuilder.add_uid
    SwitchPositionChangedBuilder.add_new_position SwitchPositionChangedBuilder.add_cause
    SwitchPositionChangedBuilder.Finish SwitchPositionChanged.uid SwitchPositionChanged.new_position
    SwitchPositionChanged.cause SwitchPositionChanged.Verify SwitchPositionChangedT.init
    SwitchPositionChangedT.fits SwitchPositionChangedT.tables SwitchPositionChangedT.uid
    SwitchPositionChangedT.new_position SwitchPositionChangedT.cause] in *.
#[global] Instance SwitchPositionChanged_ok {F : FlatBuffers} {FO : FlatBuffersOk F} : MessageOk
    SwitchPositionChanged_message.
Proof. solve_message_with ltac:(fun _ => unfold_SwitchPositionChanged). Qed.
#[global] Arguments SwitchPositionChanged_Pack : simpl never.
#[global] Arguments SwitchPositionChanged_UnPackTo : simpl never.
#[global] Arguments SwitchPositionChanged_UnPack : simpl never.
#[global] Arguments SwitchPositionChanged.Verify : simpl never.
#[global] Arguments SwitchPositionChangedT.fits : simpl never.
#[global] Arguments SwitchPositionChangedT.tables : simpl never.
#[global] Typeclasses Opaque SwitchPositionChanged.Verify.

Module SwitchOccupancyChangedT.
(* SRC autogens/proto/events_generated.h 313-319 SwitchOccupancyChangedT *)
Record t : Type := mk {
  uid : Z;
  occupied : bool;
  axle_count : Z;
  train_uid : Z }.
(* SRC autogens/proto/events_generated.h 313-319 SwitchOccupancyChangedT *)
Definition init : t := mk 0 false 0 0.
Definition fits (_o : t) : Prop :=
  in_range U64 (uid _o) = true /\
  in_range I32 (axle_count _o) = true /\
  in_range U64 (train_uid _o) = true.
Definition tables (_o : t) : Z := 1.
End SwitchOccupancyChangedT.

Module SwitchOccupancyChanged.
Notation VT_UID := 4 (only parsing).
Notation VT_OCCUPIED := 6 (only parsing).
Notation VT_AXLE_COUNT := 8 (only parsing).
Notation VT_TRAIN_UID := 10 (only parsing).
Section Table.
Context {F : FlatBuffers}.
(* SRC autogens/proto/events_generated.h 330-332 SwitchOccupancyChanged::uid *)
Definition uid (this_ : Obj) : option Z := GetField U64 this_ VT_UID 0.
(* SRC autogens/proto/events_generated.h 333-335 SwitchOccupancyChanged::occupied *)
Definition occupied (this_ : Obj) : option bool :=
  e ← GetField U8 this_ VT_OCCUPIED 0; Some (negb (e =? 0)).
(* SRC autogens/proto/events_generated.h 336-338 SwitchOccupancyChanged::axle_count *)
Definition axle_count (this_ : Obj) : option Z := GetField I32 this_ VT_AXLE_COUNT 0.
(* SRC autogens/proto/events_generated.h 339-341 SwitchOccupancyChanged::train_uid *)
Definition train_uid (this_ : Obj) : option Z := GetField U64 this_ VT_TRAIN_UID 0.
(* SRC autogens/proto/events_generated.h 343-350 SwitchOccupancyChanged::Verify *)
Definition Verify (this_ : Obj) : verification :=
  TableStart this_ &&>
  check (VerifyField U64 this_ VT_UID 8) &&>
  check (VerifyField U8 this_ VT_OCCUPIED 1) &&>
  check (VerifyField I32 this_ VT_AXLE_COUNT 4) &&>
  check (VerifyField U64 this_ VT_TRAIN_UID 8) &&>
  TableEnd.
End Table.
End SwitchOccupancyChanged.

Module SwitchOccupancyChangedBuilder.
Section Builder.
Context {F : FlatBuffers}.
(* SRC autogens/proto/events_generated.h 360-362 SwitchOccupancyChangedBuilder::add_uid *)
Definition add_uid (builder_ : builder) (uid : Z) : builder :=
  builder_ ++ [Element U64 SwitchOccupancyChanged.VT_UID uid 0].
(* SRC autogens/proto/events_generated.h 363-365 SwitchOccupancyChangedBuilder::add_occupied *)
Definition add_occupied (builder_ : builder) (occupied : bool) : builder :=
  builder_ ++ [Element U8 SwitchOccupancyChanged.VT_OCCUPIED (Z.b2z occupied) 0].
(* SRC autogens/proto/events_generated.h 366-368 SwitchOccupancyChangedBuilder::add_axle_count *)
Definition add_axle_count (builder_ : builder) (axle_count : Z) : builder :=
  builder_ ++ [Element I32 SwitchOccupancyChanged.VT_AXLE_COUNT axle_count 0].
(* SRC autogens/proto/events_generated.h 369-371 SwitchOccupancyChangedBuilder::add_train_uid *)
Definition add_train_uid (builder_ : builder) (train_uid : Z) : builder :=
  builder_ ++ [Element U64 SwitchOccupancyChanged.VT_TRAIN_UID train_uid 0].
(* SRC autogens/proto/events_generated.h 376-380 SwitchOccupancyChangedBuilder::Finish *)
Definition Finish (builder_ : builder) : option Obj := Some (EndTable builder_).
End Builder.
End SwitchOccupancyChangedBuilder.

Section SwitchOccupancyChangedFunctions.
Context {F : FlatBuffers}.
(* SRC autogens/proto/events_generated.h 383-395 CreateSwitchOccupancyChanged *)
Definition CreateSwitchOccupancyChanged (uid : Z) (occupied : bool) (axle_count : Z) (train_uid :
    Z) : option Obj :=
  let builder_ := [] in
  let builder_ := SwitchOccupancyChangedBuilder.add_train_uid builder_ train_uid in
  let builder_ := SwitchOccupancyChangedBuilder.add_uid builder_ uid in
  let builder_ := SwitchOccupancyChangedBuilder.add_axle_count builder_ axle_count in
  let builder_ := SwitchOccupancyChangedBuilder.add_occupied builder_ occupied in
  SwitchOccupancyChangedBuilder.Finish builder_.
(* SRC autogens/proto/events_generated.h 1853-1860 SwitchOccupancyChanged::UnPackTo *)
Definition SwitchOccupancyChanged_UnPackTo (_o : SwitchOccupancyChangedT.t) (this_ : Obj) :
    option SwitchOccupancyChangedT.t :=
  uid ← SwitchOccupancyChanged.uid this_;
  occupied ← SwitchOccupancyChanged.occupied this_;
  axle_count ← SwitchOccupancyChanged.axle_count this_;
  train_uid ← SwitchOccupancyChanged.train_uid this_;
  Some (SwitchOccupancyChangedT.mk uid occupied axle_count train_uid).
(* SRC autogens/proto/events_generated.h 1847-1851 SwitchOccupancyChanged::UnPack *)
Definition SwitchOccupancyChanged_UnPack (this_ : Obj) : option SwitchOccupancyChangedT.t :=
  SwitchOccupancyChanged_UnPackTo SwitchOccupancyChangedT.init this_.
(* SRC autogens/proto/events_generated.h 1866-1880 SwitchOccupancyChanged::Pack *)
Definition SwitchOccupancyChanged_Pack (_o : SwitchOccupancyChangedT.t) : option Obj :=
  let _uid := SwitchOccupancyChangedT.uid _o in
  let _occupied := SwitchOccupancyChangedT.occupied _o in
  let _axle_count := SwitchOccupancyChangedT.axle_count _o in
  let _train_uid := SwitchOccupancyChangedT.train_uid _o in
  CreateSwitchOccupancyChanged _uid _occupied _axle_count _train_uid.
Definition SwitchOccupancyChanged_message : Message SwitchOccupancyChangedT.t :=
  mkMessage SwitchOccupancyChanged_Pack SwitchOccupancyChanged_UnPackTo
      SwitchOccupancyChanged_UnPack SwitchOccupancyChanged.Verify SwitchOccupancyChangedT.fits
      SwitchOccupancyChangedT.tables 1.
End SwitchOccupancyChangedFunctions.
Ltac unfold_SwitchOccupancyChanged := cbv beta iota zeta delta [SwitchOccupancyChanged_message
    SwitchOccupancyChanged_Pack SwitchOccupancyChanged_UnPack SwitchOccupancyChanged_UnPackTo
    CreateSwitchOccupancyChanged SwitchOccupancyChangedBuilder.add_uid
    SwitchOccupancyChangedBuilder.add_occupied SwitchOccupancyChangedBuilder.add_axle_count
    SwitchOccupancyChangedBuilder.add_train_uid SwitchOccupancyChangedBuilder.Finish
    SwitchOccupancyChanged.uid SwitchOccupancyChanged.occupied SwitchOccupancyChanged.axle_count
    SwitchOccupancyChanged.train_uid SwitchOccupancyChanged.Verify SwitchOccupancyChangedT.init
    SwitchOccupancyChangedT.fits SwitchOccupancyChangedT.tables SwitchOccupancyChangedT.uid
    SwitchOccupancyChangedT.occupied SwitchOccupancyChangedT.axle_count
    SwitchOccupancyChangedT.train_uid] in *.
#[global] Instance SwitchOccupancyChanged_ok {F : FlatBuffers} {FO : FlatBuffersOk F} :
    MessageOk SwitchOccupancyChanged_message.
Proof. solve_message_with ltac:(fun _ => unfold_SwitchOccupancyChanged). Qed.
#[global] Arguments SwitchOccupancyChanged_Pack : simpl never.
#[global] Arguments SwitchOccupancyChanged_UnPackTo : simpl never.
#[global] Arguments SwitchOccupancyChanged_UnPack : simpl never.
#[global] Arguments SwitchOccupancyChanged.Verify : simpl never.
#[global] Arguments SwitchOccupancyChangedT.fits : simpl never.
#[global] Arguments SwitchOccupancyChangedT.tables : simpl never.
#[global] Typeclasses Opaque SwitchOccupancyChanged.Verify.

Module SignalAspectChangedT.
(* SRC autogens/proto/events_generated.h 399-404 SignalAspectChangedT *)
Record t : Type := mk {
  uid : Z;
  new_aspect : Z;
  cause : Z }.
(* SRC autogens/proto/events_generated.h 399-404 SignalAspectChangedT *)
Definition init : t := mk 0 (code Aspect.S1_STOP) (code ChangeCause.COMMAND).
Definition fits (_o : t) : Prop :=
  in_range U64 (uid _o) = true /\
  in_range I8 (new_aspect _o) = true /\
  in_range I8 (cause _o) = true.
Definition tables (_o : t) : Z := 1.
End SignalAspectChangedT.

Module SignalAspectChanged.
Notation VT_UID := 4 (only parsing).
Notation VT_NEW_ASPECT := 6 (only parsing).
Notation VT_CAUSE := 8 (only parsing).
Section Table.
Context {F : FlatBuffers}.
(* SRC autogens/proto/events_generated.h 414-416 SignalAspectChanged::uid *)
Definition uid (this_ : Obj) : option Z := GetField U64 this_ VT_UID 0.
(* SRC autogens/proto/events_generated.h 417-419 SignalAspectChanged::new_aspect *)
Definition new_aspect (this_ : Obj) : option Z := GetField I8 this_ VT_NEW_ASPECT 0.
(* SRC autogens/proto/events_generated.h 420-422 SignalAspectChanged::cause *)
Definition cause (this_ : Obj) : option Z := GetField I8 this_ VT_CAUSE 0.
(* SRC autogens/proto/events_generated.h 424-430 SignalAspectChanged::Verify *)
Definition Verify (this_ : Obj) : verification :=
  TableStart this_ &&>
  check (VerifyField U64 this_ VT_UID 8) &&>
  check (VerifyField I8 this_ VT_NEW_ASPECT 1) &&>
  check (VerifyField I8 this_ VT_CAUSE 1) &&>
  TableEnd.
End Table.
End SignalAspectChanged.

Module SignalAspectChangedBuilder.
Section Builder.
Context {F : FlatBuffers}.
(* SRC autogens/proto/events_generated.h 440-442 SignalAspectChangedBuilder::add_uid *)
Definition add_uid (builder_ : builder) (uid : Z) : builder :=
  builder_ ++ [Element U64 SignalAspectChanged.VT_UID uid 0].
(* SRC autogens/proto/events_generated.h 443-445 SignalAspectChangedBuilder::add_new_aspect *)
Definition add_new_aspect (builder_ : builder) (new_aspect : Z) : builder :=
  builder_ ++ [Element I8 SignalAspectChanged.VT_NEW_ASPECT new_aspect 0].
(* SRC autogens/proto/events_generated.h 446-448 SignalAspectChangedBuilder::add_cause *)
Definition add_cause (builder_ : builder) (cause : Z) : builder :=
  builder_ ++ [Element I8 SignalAspectChanged.VT_CAUSE cause 0].
(* SRC autogens/proto/events_generated.h 453-457 SignalAspectChangedBuilder::Finish *)
Definition Finish (builder_ : builder) : option Obj := Some (EndTable builder_).
End Builder.
End SignalAspectChangedBuilder.

Section SignalAspectChangedFunctions.
Context {F : FlatBuffers}.
(* SRC autogens/proto/events_generated.h 460-470 CreateSignalAspectChanged *)
Definition CreateSignalAspectChanged (uid : Z) (new_aspect : Z) (cause : Z) : option Obj :=
  let builder_ := [] in
  let builder_ := SignalAspectChangedBuilder.add_uid builder_ uid in
  let builder_ := SignalAspectChangedBuilder.add_cause builder_ cause in
  let builder_ := SignalAspectChangedBuilder.add_new_aspect builder_ new_aspect in
  SignalAspectChangedBuilder.Finish builder_.
(* SRC autogens/proto/events_generated.h 1888-1894 SignalAspectChanged::UnPackTo *)
Definition SignalAspectChanged_UnPackTo (_o : SignalAspectChangedT.t) (this_ : Obj) : option
    SignalAspectChangedT.t :=
  uid ← SignalAspectChanged.uid this_;
  new_aspect ← SignalAspectChanged.new_aspect this_;
  cause ← SignalAspectChanged.cause this_;
  Some (SignalAspectChangedT.mk uid new_aspect cause).
(* SRC autogens/proto/events_generated.h 1882-1886 SignalAspectChanged::UnPack *)
Definition SignalAspectChanged_UnPack (this_ : Obj) : option SignalAspectChangedT.t :=
  SignalAspectChanged_UnPackTo SignalAspectChangedT.init this_.
(* SRC autogens/proto/events_generated.h 1900-1912 SignalAspectChanged::Pack *)
Definition SignalAspectChanged_Pack (_o : SignalAspectChangedT.t) : option Obj :=
  let _uid := SignalAspectChangedT.uid _o in
  let _new_aspect := SignalAspectChangedT.new_aspect _o in
  let _cause := SignalAspectChangedT.cause _o in
  CreateSignalAspectChanged _uid _new_aspect _cause.
Definition SignalAspectChanged_message : Message SignalAspectChangedT.t :=
  mkMessage SignalAspectChanged_Pack SignalAspectChanged_UnPackTo SignalAspectChanged_UnPack
      SignalAspectChanged.Verify SignalAspectChangedT.fits SignalAspectChangedT.tables 1.
End SignalAspectChangedFunctions.
Ltac unfold_SignalAspectChanged := cbv beta iota zeta delta [SignalAspectChanged_message
    SignalAspectChanged_Pack SignalAspectChanged_UnPack SignalAspectChanged_UnPackTo
    CreateSignalAspectChanged SignalAspectChangedBuilder.add_uid
    SignalAspectChangedBuilder.add_new_aspect SignalAspectChangedBuilder.add_cause
    SignalAspectChangedBuilder.Finish SignalAspectChanged.uid SignalAspectChanged.new_aspect
    SignalAspectChanged.cause SignalAspectChanged.Verify SignalAspectChangedT.init
    SignalAspectChangedT.fits SignalAspectChangedT.tables SignalAspectChangedT.uid
    SignalAspectChangedT.new_aspect SignalAspectChangedT.cause] in *.
#[global] Instance SignalAspectChanged_ok {F : FlatBuffers} {FO : FlatBuffersOk F} : MessageOk
    SignalAspectChanged_message.
Proof. solve_message_with ltac:(fun _ => unfold_SignalAspectChanged). Qed.
#[global] Arguments SignalAspectChanged_Pack : simpl never.
#[global] Arguments SignalAspectChanged_UnPackTo : simpl never.
#[global] Arguments SignalAspectChanged_UnPack : simpl never.
#[global] Arguments SignalAspectChanged.Verify : simpl never.
#[global] Arguments SignalAspectChangedT.fits : simpl never.
#[global] Arguments SignalAspectChangedT.tables : simpl never.
#[global] Typeclasses Opaque SignalAspectChanged.Verify.

Module TrackSectionOccupancyChangedT.
(* SRC autogens/proto/events_generated.h 474-480 TrackSectionOccupancyChangedT *)
Record t : Type := mk {
  uid : Z;
  occupied : bool;
  axle_count : Z;
  train_uid : Z }.
(* SRC autogens/proto/events_generated.h 474-480 TrackSectionOccupancyChangedT *)
Definition init : t := mk 0 false 0 0.
Definition fits (_o : t) : Prop :=
  in_range U64 (uid _o) = true /\
  in_range I32 (axle_count _o) = true /\
  in_range U64 (train_uid _o) = true.
Definition tables (_o : t) : Z := 1.
End TrackSectionOccupancyChangedT.

Module TrackSectionOccupancyChanged.
Notation VT_UID := 4 (only parsing).
Notation VT_OCCUPIED := 6 (only parsing).
Notation VT_AXLE_COUNT := 8 (only parsing).
Notation VT_TRAIN_UID := 10 (only parsing).
Section Table.
Context {F : FlatBuffers}.
(* SRC autogens/proto/events_generated.h 491-493 TrackSectionOccupancyChanged::uid *)
Definition uid (this_ : Obj) : option Z := GetField U64 this_ VT_UID 0.
(* SRC autogens/proto/events_generated.h 494-496 TrackSectionOccupancyChanged::occupied *)
Definition occupied (this_ : Obj) : option bool :=
  e ← GetField U8 this_ VT_OCCUPIED 0; Some (negb (e =? 0)).
(* SRC autogens/proto/events_generated.h 497-499 TrackSectionOccupancyChanged::axle_count *)
Definition axle_count (this_ : Obj) : option Z := GetField I32 this_ VT_AXLE_COUNT 0.
(* SRC autogens/proto/events_generated.h 500-502 TrackSectionOccupancyChanged::train_uid *)
Definition train_uid (this_ : Obj) : option Z := GetField U64 this_ VT_TRAIN_UID 0.
(* SRC autogens/proto/events_generated.h 504-511 TrackSectionOccupancyChanged::Verify *)
Definition Verify (this_ : Obj) : verification :=
  TableStart this_ &&>
  check (VerifyField U64 this_ VT_UID 8) &&>
  check (VerifyField U8 this_ VT_OCCUPIED 1) &&>
  check (VerifyField I32 this_ VT_AXLE_COUNT 4) &&>
  check (VerifyField U64 this_ VT_TRAIN_UID 8) &&>
  TableEnd.
End Table.
End TrackSectionOccupancyChanged.

Module TrackSectionOccupancyChangedBuilder.
Section Builder.
Context {F : FlatBuffers}.
(* SRC autogens/proto/events_generated.h 521-523 TrackSectionOccupancyChangedBuilder::add_uid *)
Definition add_uid (builder_ : builder) (uid : Z) : builder :=
  builder_ ++ [Element U64 TrackSectionOccupancyChanged.VT_UID uid 0].
(* SRC autogens/proto/events_generated.h 524-526 TrackSectionOccupancyChangedBuilder::add_occupied *)
Definition add_occupied (builder_ : builder) (occupied : bool) : builder :=
  builder_ ++ [Element U8 TrackSectionOccupancyChanged.VT_OCCUPIED (Z.b2z occupied) 0].
(* SRC autogens/proto/events_generated.h 527-529 TrackSectionOccupancyChangedBuilder::add_axle_count *)
Definition add_axle_count (builder_ : builder) (axle_count : Z) : builder :=
  builder_ ++ [Element I32 TrackSectionOccupancyChanged.VT_AXLE_COUNT axle_count 0].
(* SRC autogens/proto/events_generated.h 530-532 TrackSectionOccupancyChangedBuilder::add_train_uid *)
Definition add_train_uid (builder_ : builder) (train_uid : Z) : builder :=
  builder_ ++ [Element U64 TrackSectionOccupancyChanged.VT_TRAIN_UID train_uid 0].
(* SRC autogens/proto/events_generated.h 537-541 TrackSectionOccupancyChangedBuilder::Finish *)
Definition Finish (builder_ : builder) : option Obj := Some (EndTable builder_).
End Builder.
End TrackSectionOccupancyChangedBuilder.

Section TrackSectionOccupancyChangedFunctions.
Context {F : FlatBuffers}.
(* SRC autogens/proto/events_generated.h 544-556 CreateTrackSectionOccupancyChanged *)
Definition CreateTrackSectionOccupancyChanged (uid : Z) (occupied : bool) (axle_count : Z)
    (train_uid : Z) : option Obj :=
  let builder_ := [] in
  let builder_ := TrackSectionOccupancyChangedBuilder.add_train_uid builder_ train_uid in
  let builder_ := TrackSectionOccupancyChangedBuilder.add_uid builder_ uid in
  let builder_ := TrackSectionOccupancyChangedBuilder.add_axle_count builder_ axle_count in
  let builder_ := TrackSectionOccupancyChangedBuilder.add_occupied builder_ occupied in
  TrackSectionOccupancyChangedBuilder.Finish builder_.
(* SRC autogens/proto/events_generated.h 1920-1927 TrackSectionOccupancyChanged::UnPackTo *)
Definition TrackSectionOccupancyChanged_UnPackTo (_o : TrackSectionOccupancyChangedT.t) (this_ :
    Obj) : option TrackSectionOccupancyChangedT.t :=
  uid ← TrackSectionOccupancyChanged.uid this_;
  occupied ← TrackSectionOccupancyChanged.occupied this_;
  axle_count ← TrackSectionOccupancyChanged.axle_count this_;
  train_uid ← TrackSectionOccupancyChanged.train_uid this_;
  Some (TrackSectionOccupancyChangedT.mk uid occupied axle_count train_uid).
(* SRC autogens/proto/events_generated.h 1914-1918 TrackSectionOccupancyChanged::UnPack *)
Definition TrackSectionOccupancyChanged_UnPack (this_ : Obj) : option
    TrackSectionOccupancyChangedT.t :=
  TrackSectionOccupancyChanged_UnPackTo TrackSectionOccupancyChangedT.init this_.
(* SRC autogens/proto/events_generated.h 1933-1947 TrackSectionOccupancyChanged::Pack *)
Definition TrackSectionOccupancyChanged_Pack (_o : TrackSectionOccupancyChangedT.t) : option Obj :=
  let _uid := TrackSectionOccupancyChangedT.uid _o in
  let _occupied := TrackSectionOccupancyChangedT.occupied _o in
  let _axle_count := TrackSectionOccupancyChangedT.axle_count _o in
  let _train_uid := TrackSectionOccupancyChangedT.train_uid _o in
  CreateTrackSectionOccupancyChanged _uid _occupied _axle_count _train_uid.
Definition TrackSectionOccupancyChanged_message : Message TrackSectionOccupancyChangedT.t :=
  mkMessage TrackSectionOccupancyChanged_Pack TrackSectionOccupancyChanged_UnPackTo
      TrackSectionOccupancyChanged_UnPack TrackSectionOccupancyChanged.Verify
      TrackSectionOccupancyChangedT.fits TrackSectionOccupancyChangedT.tables 1.
End TrackSectionOccupancyChangedFunctions.
Ltac unfold_TrackSectionOccupancyChanged := cbv beta iota zeta delta
    [TrackSectionOccupancyChanged_message TrackSectionOccupancyChanged_Pack
    TrackSectionOccupancyChanged_UnPack TrackSectionOccupancyChanged_UnPackTo
    CreateTrackSectionOccupancyChanged TrackSectionOccupancyChangedBuilder.add_uid
    TrackSectionOccupancyChangedBuilder.add_occupied
    TrackSectionOccupancyChangedBuilder.add_axle_count
    TrackSectionOccupancyChangedBuilder.add_train_uid TrackSectionOccupancyChangedBuilder.Finish
    TrackSectionOccupancyChanged.uid TrackSectionOccupancyChanged.occupied
    TrackSectionOccupancyChanged.axle_count TrackSectionOccupancyChanged.train_uid
    TrackSectionOccupancyChanged.Verify TrackSectionOccupancyChangedT.init
    TrackSectionOccupancyChangedT.fits TrackSectionOccupancyChangedT.tables
    TrackSectionOccupancyChangedT.uid TrackSectionOccupancyChangedT.occupied
    TrackSectionOccupancyChangedT.axle_count TrackSectionOccupancyChangedT.train_uid] in *.
#[global] Instance TrackSectionOccupancyChanged_ok {F : FlatBuffers} {FO : FlatBuffersOk F} :
    MessageOk TrackSectionOccupancyChanged_message.
Proof. solve_message_with ltac:(fun _ => unfold_TrackSectionOccupancyChanged). Qed.
#[global] Arguments TrackSectionOccupancyChanged_Pack : simpl never.
#[global] Arguments TrackSectionOccupancyChanged_UnPackTo : simpl never.
#[global] Arguments TrackSectionOccupancyChanged_UnPack : simpl never.
#[global] Arguments TrackSectionOccupancyChanged.Verify : simpl never.
#[global] Arguments TrackSectionOccupancyChangedT.fits : simpl never.
#[global] Arguments TrackSectionOccupancyChangedT.tables : simpl never.
#[global] Typeclasses Opaque TrackSectionOccupancyChanged.Verify.

Module DerailerPositionChangedT.
(* SRC autogens/proto/events_generated.h 560-565 DerailerPositionChangedT *)
Record t : Type := mk {
  uid : Z;
  new_position : Z;
  cause : Z }.
(* SRC autogens/proto/events_generated.h 560-565 DerailerPositionChangedT *)
Definition init : t := mk 0 (code DerailerPosition.LOCKED) (code ChangeCause.COMMAND).
Definition fits (_o : t) : Prop :=
  in_range U64 (uid _o) = true /\
  in_range I8 (new_position _o) = true /\
  in_range I8 (cause _o) = true.
Definition tables (_o : t) : Z := 1.
End DerailerPositionChangedT.

Module DerailerPositionChanged.
Notation VT_UID := 4 (only parsing).
Notation VT_NEW_POSITION := 6 (only parsing).
Notation VT_CAUSE := 8 (only parsing).
Section Table.
Context {F : FlatBuffers}.
(* SRC autogens/proto/events_generated.h 575-577 DerailerPositionChanged::uid *)
Definition uid (this_ : Obj) : option Z := GetField U64 this_ VT_UID 0.
(* SRC autogens/proto/events_generated.h 578-580 DerailerPositionChanged::new_position *)
Definition new_position (this_ : Obj) : option Z := GetField I8 this_ VT_NEW_POSITION 0.
(* SRC autogens/proto/events_generated.h 581-583 DerailerPositionChanged::cause *)
Definition cause (this_ : Obj) : option Z := GetField I8 this_ VT_CAUSE 0.
(* SRC autogens/proto/events_generated.h 585-591 DerailerPositionChanged::Verify *)
Definition Verify (this_ : Obj) : verification :=
  TableStart this_ &&>
  check (VerifyField U64 this_ VT_UID 8) &&>
  check (VerifyField I8 this_ VT_NEW_POSITION 1) &&>
  check (VerifyField I8 this_ VT_CAUSE 1) &&>
  TableEnd.
End Table.
End DerailerPositionChanged.

Module DerailerPositionChangedBuilder.
Section Builder.
Context {F : FlatBuffers}.
(* SRC autogens/proto/events_generated.h 601-603 DerailerPositionChangedBuilder::add_uid *)
Definition add_uid (builder_ : builder) (uid : Z) : builder :=
  builder_ ++ [Element U64 DerailerPositionChanged.VT_UID uid 0].
(* SRC autogens/proto/events_generated.h 604-606 DerailerPositionChangedBuilder::add_new_position *)
Definition add_new_position (builder_ : builder) (new_position : Z) : builder :=
  builder_ ++ [Element I8 DerailerPositionChanged.VT_NEW_POSITION new_position 0].
(* SRC autogens/proto/events_generated.h 607-609 DerailerPositionChangedBuilder::add_cause *)
Definition add_cause (builder_ : builder) (cause : Z) : builder :=
  builder_ ++ [Element I8 DerailerPositionChanged.VT_CAUSE cause 0].
(* SRC autogens/proto/events_generated.h 614-618 DerailerPositionChangedBuilder::Finish *)
Definition Finish (builder_ : builder) : option Obj := Some (EndTable builder_).
End Builder.
End DerailerPositionChangedBuilder.

Section DerailerPositionChangedFunctions.
Context {F : FlatBuffers}.
(* SRC autogens/proto/events_generated.h 621-631 CreateDerailerPositionChanged *)
Definition CreateDerailerPositionChanged (uid : Z) (new_position : Z) (cause : Z) : option Obj :=
  let builder_ := [] in
  let builder_ := DerailerPositionChangedBuilder.add_uid builder_ uid in
  let builder_ := DerailerPositionChangedBuilder.add_cause builder_ cause in
  let builder_ := DerailerPositionChangedBuilder.add_new_position builder_ new_position in
  DerailerPositionChangedBuilder.Finish builder_.
(* SRC autogens/proto/events_generated.h 1955-1961 DerailerPositionChanged::UnPackTo *)
Definition DerailerPositionChanged_UnPackTo (_o : DerailerPositionChangedT.t) (this_ : Obj) :
    option DerailerPositionChangedT.t :=
  uid ← DerailerPositionChanged.uid this_;
  new_position ← DerailerPositionChanged.new_position this_;
  cause ← DerailerPositionChanged.cause this_;
  Some (DerailerPositionChangedT.mk uid new_position cause).
(* SRC autogens/proto/events_generated.h 1949-1953 DerailerPositionChanged::UnPack *)
Definition DerailerPositionChanged_UnPack (this_ : Obj) : option DerailerPositionChangedT.t :=
  DerailerPositionChanged_UnPackTo DerailerPositionChangedT.init this_.
(* SRC autogens/proto/events_generated.h 1967-1979 DerailerPositionChanged::Pack *)
Definition DerailerPositionChanged_Pack (_o : DerailerPositionChangedT.t) : option Obj :=
  let _uid := DerailerPositionChangedT.uid _o in
  let _new_position := DerailerPositionChangedT.new_position _o in
  let _cause := DerailerPositionChangedT.cause _o in
  CreateDerailerPositionChanged _uid _new_position _cause.
Definition DerailerPositionChanged_message : Message DerailerPositionChangedT.t :=
  mkMessage DerailerPositionChanged_Pack DerailerPositionChanged_UnPackTo
      DerailerPositionChanged_UnPack DerailerPositionChanged.Verify
      DerailerPositionChangedT.fits DerailerPositionChangedT.tables 1.
End DerailerPositionChangedFunctions.
Ltac unfold_DerailerPositionChanged := cbv beta iota zeta delta [DerailerPositionChanged_message
    DerailerPositionChanged_Pack DerailerPositionChanged_UnPack DerailerPositionChanged_UnPackTo
    CreateDerailerPositionChanged DerailerPositionChangedBuilder.add_uid
    DerailerPositionChangedBuilder.add_new_position DerailerPositionChangedBuilder.add_cause
    DerailerPositionChangedBuilder.Finish DerailerPositionChanged.uid
    DerailerPositionChanged.new_position DerailerPositionChanged.cause
        DerailerPositionChanged.Verify
    DerailerPositionChangedT.init DerailerPositionChangedT.fits DerailerPositionChangedT.tables
    DerailerPositionChangedT.uid DerailerPositionChangedT.new_position
        DerailerPositionChangedT.cause]
    in *.
#[global] Instance DerailerPositionChanged_ok {F : FlatBuffers} {FO : FlatBuffersOk F} :
    MessageOk DerailerPositionChanged_message.
Proof. solve_message_with ltac:(fun _ => unfold_DerailerPositionChanged). Qed.
#[global] Arguments DerailerPositionChanged_Pack : simpl never.
#[global] Arguments DerailerPositionChanged_UnPackTo : simpl never.
#[global] Arguments DerailerPositionChanged_UnPack : simpl never.
#[global] Arguments DerailerPositionChanged.Verify : simpl never.
#[global] Arguments DerailerPositionChangedT.fits : simpl never.
#[global] Arguments DerailerPositionChangedT.tables : simpl never.
#[global] Typeclasses Opaque DerailerPositionChanged.Verify.

Module BlockSectionStateChangedT.
(* SRC autogens/proto/events_generated.h 635-639 BlockSectionStateChangedT *)
Record t : Type := mk {
  uid : Z;
  new_state : Z }.
(* SRC autogens/proto/events_generated.h 635-639 BlockSectionStateChangedT *)
Definition init : t := mk 0 (code BlockSectionState.OPEN).
Definition fits (_o : t) : Prop :=
  in_range U64 (uid _o) = true /\
  in_range I8 (new_state _o) = true.
Definition tables (_o : t) : Z := 1.
End BlockSectionStateChangedT.

Module BlockSectionStateChanged.
Notation VT_UID := 4 (only parsing).
Notation VT_NEW_STATE := 6 (only parsing).
Section Table.
Context {F : FlatBuffers}.
(* SRC autogens/proto/events_generated.h 648-650 BlockSectionStateChanged::uid *)
Definition uid (this_ : Obj) : option Z := GetField U64 this_ VT_UID 0.
(* SRC autogens/proto/events_generated.h 651-653 BlockSectionStateChanged::new_state *)
Definition new_state (this_ : Obj) : option Z := GetField I8 this_ VT_NEW_STATE 0.
(* SRC autogens/proto/events_generated.h 655-660 BlockSectionStateChanged::Verify *)
Definition Verify (this_ : Obj) : verification :=
  TableStart this_ &&>
  check (VerifyField U64 this_ VT_UID 8) &&>
  check (VerifyField I8 this_ VT_NEW_STATE 1) &&>
  TableEnd.
End Table.
End BlockSectionStateChanged.

Module BlockSectionStateChangedBuilder.
Section Builder.
Context {F : FlatBuffers}.
(* SRC autogens/proto/events_generated.h 670-672 BlockSectionStateChangedBuilder::add_uid *)
Definition add_uid (builder_ : builder) (uid : Z) : builder :=
  builder_ ++ [Element U64 BlockSectionStateChanged.VT_UID uid 0].
(* SRC autogens/proto/events_generated.h 673-675 BlockSectionStateChangedBuilder::add_new_state *)
Definition add_new_state (builder_ : builder) (new_state : Z) : builder :=
  builder_ ++ [Element I8 BlockSectionStateChanged.VT_NEW_STATE new_state 0].
(* SRC autogens/proto/events_generated.h 680-684 BlockSectionStateChangedBuilder::Finish *)
Definition Finish (builder_ : builder) : option Obj := Some (EndTable builder_).
End Builder.
End BlockSectionStateChangedBuilder.

Section BlockSectionStateChangedFunctions.
Context {F : FlatBuffers}.
(* SRC autogens/proto/events_generated.h 687-695 CreateBlockSectionStateChanged *)
Definition CreateBlockSectionStateChanged (uid : Z) (new_state : Z) : option Obj :=
  let builder_ := [] in
  let builder_ := BlockSectionStateChangedBuilder.add_uid builder_ uid in
  let builder_ := BlockSectionStateChangedBuilder.add_new_state builder_ new_state in
  BlockSectionStateChangedBuilder.Finish builder_.
(* SRC autogens/proto/events_generated.h 1987-1992 BlockSectionStateChanged::UnPackTo *)
Definition BlockSectionStateChanged_UnPackTo (_o : BlockSectionStateChangedT.t) (this_ : Obj) :
    option BlockSectionStateChangedT.t :=
  uid ← BlockSectionStateChanged.uid this_;
  new_state ← BlockSectionStateChanged.new_state this_;
  Some (BlockSectionStateChangedT.mk uid new_state).
(* SRC autogens/proto/events_generated.h 1981-1985 BlockSectionStateChanged::UnPack *)
Definition BlockSectionStateChanged_UnPack (this_ : Obj) : option BlockSectionStateChangedT.t :=
  BlockSectionStateChanged_UnPackTo BlockSectionStateChangedT.init this_.
(* SRC autogens/proto/events_generated.h 1998-2008 BlockSectionStateChanged::Pack *)
Definition BlockSectionStateChanged_Pack (_o : BlockSectionStateChangedT.t) : option Obj :=
  let _uid := BlockSectionStateChangedT.uid _o in
  let _new_state := BlockSectionStateChangedT.new_state _o in
  CreateBlockSectionStateChanged _uid _new_state.
Definition BlockSectionStateChanged_message : Message BlockSectionStateChangedT.t :=
  mkMessage BlockSectionStateChanged_Pack BlockSectionStateChanged_UnPackTo
      BlockSectionStateChanged_UnPack BlockSectionStateChanged.Verify
      BlockSectionStateChangedT.fits BlockSectionStateChangedT.tables 1.
End BlockSectionStateChangedFunctions.
Ltac unfold_BlockSectionStateChanged := cbv beta iota zeta delta [BlockSectionStateChanged_message
    BlockSectionStateChanged_Pack BlockSectionStateChanged_UnPack BlockSectionStateChanged_UnPackTo
    CreateBlockSectionStateChanged BlockSectionStateChangedBuilder.add_uid
    BlockSectionStateChangedBuilder.add_new_state BlockSectionStateChangedBuilder.Finish
    BlockSectionStateChanged.uid BlockSectionStateChanged.new_state BlockSectionStateChanged.Verify
    BlockSectionStateChangedT.init BlockSectionStateChangedT.fits BlockSectionStateChangedT.tables
    BlockSectionStateChangedT.uid BlockSectionStateChangedT.new_state] in *.
#[global] Instance BlockSectionStateChanged_ok {F : FlatBuffers} {FO : FlatBuffersOk F} :
    MessageOk BlockSectionStateChanged_message.
Proof. solve_message_with ltac:(fun _ => unfold_BlockSectionStateChanged). Qed.
#[global] Arguments BlockSectionStateChanged_Pack : simpl never.
#[global] Arguments BlockSectionStateChanged_UnPackTo : simpl never.
#[global] Arguments BlockSectionStateChanged_UnPack : simpl never.
#[global] Arguments BlockSectionStateChanged.Verify : simpl never.
#[global] Arguments BlockSectionStateChangedT.fits : simpl never.
#[global] Arguments BlockSectionStateChangedT.tables : simpl never.
#[global] Typeclasses Opaque BlockSectionStateChanged.Verify.

Module RouteSetT.
(* SRC autogens/proto/events_generated.h 699-705 RouteSetT *)
Record t : Type := mk {
  uid : Z;
  from_signal_uid : Z;
  to_signal_uid : Z;
  section_uids : list Z }.
(* SRC autogens/proto/events_generated.h 699-705 RouteSetT *)
Definition init : t := mk 0 0 0 [].
Definition fits (_o : t) : Prop :=
  in_range U64 (uid _o) = true /\
  in_range U64 (from_signal_uid _o) = true /\
  in_range U64 (to_signal_uid _o) = true /\
  Forall (fun x => in_range U64 x = true) (section_uids _o).
Definition tables (_o : t) : Z := 1.
End RouteSetT.

Module RouteSet.
Notation VT_UID := 4 (only parsing).
Notation VT_FROM_SIGNAL_UID := 6 (only parsing).
Notation VT_TO_SIGNAL_UID := 8 (only parsing).
Notation VT_SECTION_UIDS := 10 (only parsing).
Section Table.
Context {F : FlatBuffers}.
(* SRC autogens/proto/events_generated.h 716-718 RouteSet::uid *)
Definition uid (this_ : Obj) : option Z := GetField U64 this_ VT_UID 0.
(* SRC autogens/proto/events_generated.h 719-721 RouteSet::from_signal_uid *)
Definition from_signal_uid (this_ : Obj) : option Z := GetField U64 this_ VT_FROM_SIGNAL_UID 0.
(* SRC autogens/proto/events_generated.h 722-724 RouteSet::to_signal_uid *)
Definition to_signal_uid (this_ : Obj) : option Z := GetField U64 this_ VT_TO_SIGNAL_UID 0.
(* SRC autogens/proto/events_generated.h 725-727 RouteSet::section_uids *)
Definition section_uids (this_ : Obj) : option (option Obj) := GetPointer this_ VT_SECTION_UIDS.
(* SRC autogens/proto/events_generated.h 729-737 RouteSet::Verify *)
Definition Verify (this_ : Obj) : verification :=
  TableStart this_ &&>
  check (VerifyField U64 this_ VT_UID 8) &&>
  check (VerifyField U64 this_ VT_FROM_SIGNAL_UID 8) &&>
  check (VerifyField U64 this_ VT_TO_SIGNAL_UID 8) &&>
  check (VerifyOffset this_ VT_SECTION_UIDS) &&>
  check_vector (VectorOf U64) (section_uids this_) &&>
  TableEnd.
End Table.
End RouteSet.

Module RouteSetBuilder.
Section Builder.
Context {F : FlatBuffers}.
(* SRC autogens/proto/events_generated.h 747-749 RouteSetBuilder::add_uid *)
Definition add_uid (builder_ : builder) (uid : Z) : builder :=
  builder_ ++ [Element U64 RouteSet.VT_UID uid 0].
(* SRC autogens/proto/events_generated.h 750-752 RouteSetBuilder::add_from_signal_uid *)
Definition add_from_signal_uid (builder_ : builder) (from_signal_uid : Z) : builder :=
  builder_ ++ [Element U64 RouteSet.VT_FROM_SIGNAL_UID from_signal_uid 0].
(* SRC autogens/proto/events_generated.h 753-755 RouteSetBuilder::add_to_signal_uid *)
Definition add_to_signal_uid (builder_ : builder) (to_signal_uid : Z) : builder :=
  builder_ ++ [Element U64 RouteSet.VT_TO_SIGNAL_UID to_signal_uid 0].
(* SRC autogens/proto/events_generated.h 756-758 RouteSetBuilder::add_section_uids *)
Definition add_section_uids (builder_ : builder) (section_uids : option Obj) : builder :=
  builder_ ++ [OffsetAt RouteSet.VT_SECTION_UIDS section_uids].
(* SRC autogens/proto/events_generated.h 763-767 RouteSetBuilder::Finish *)
Definition Finish (builder_ : builder) : option Obj := Some (EndTable builder_).
End Builder.
End RouteSetBuilder.

Section RouteSetFunctions.
Context {F : FlatBuffers}.
(* SRC autogens/proto/events_generated.h 770-782 CreateRouteSet *)
Definition CreateRouteSet (uid : Z) (from_signal_uid : Z) (to_signal_uid : Z) (section_uids :
    option Obj) : option Obj :=
  let builder_ := [] in
  let builder_ := RouteSetBuilder.add_to_signal_uid builder_ to_signal_uid in
  let builder_ := RouteSetBuilder.add_from_signal_uid builder_ from_signal_uid in
  let builder_ := RouteSetBuilder.add_uid builder_ uid in
  let builder_ := RouteSetBuilder.add_section_uids builder_ section_uids in
  RouteSetBuilder.Finish builder_.
(* SRC autogens/proto/events_generated.h 784-797 CreateRouteSetDirect *)
Definition CreateRouteSetDirect (uid : Z) (from_signal_uid : Z) (to_signal_uid : Z) (section_uids
    : option (list Z)) : option Obj :=
  let section_uids__ := CreateVector U64 <$> section_uids in
  CreateRouteSet uid from_signal_uid to_signal_uid section_uids__.
(* SRC autogens/proto/events_generated.h 2016-2023 RouteSet::UnPackTo *)
Definition RouteSet_UnPackTo (_o : RouteSetT.t) (this_ : Obj) : option RouteSetT.t :=
  uid ← RouteSet.uid this_;
  from_signal_uid ← RouteSet.from_signal_uid this_;
  to_signal_uid ← RouteSet.to_signal_uid this_;
  section_uids ← (_e ← RouteSet.section_uids this_; UnPackVector U64 _e);
  Some (RouteSetT.mk uid from_signal_uid to_signal_uid section_uids).
(* SRC autogens/proto/events_generated.h 2010-2014 RouteSet::UnPack *)
Definition RouteSet_UnPack (this_ : Obj) : option RouteSetT.t :=
  RouteSet_UnPackTo RouteSetT.init this_.
(* SRC autogens/proto/events_generated.h 2029-2043 RouteSet::Pack *)
Definition RouteSet_Pack (_o : RouteSetT.t) : option Obj :=
  let _uid := RouteSetT.uid _o in
  let _from_signal_uid := RouteSetT.from_signal_uid _o in
  let _to_signal_uid := RouteSetT.to_signal_uid _o in
  let _section_uids := PackVector U64 (RouteSetT.section_uids _o) in
  CreateRouteSet _uid _from_signal_uid _to_signal_uid _section_uids.
Definition RouteSet_message : Message RouteSetT.t :=
  mkMessage RouteSet_Pack RouteSet_UnPackTo RouteSet_UnPack RouteSet.Verify RouteSetT.fits
      RouteSetT.tables 1.
End RouteSetFunctions.
Ltac unfold_RouteSet := cbv beta iota zeta delta [RouteSet_message RouteSet_Pack RouteSet_UnPack
    RouteSet_UnPackTo CreateRouteSet RouteSetBuilder.add_uid RouteSetBuilder.add_from_signal_uid
    RouteSetBuilder.add_to_signal_uid RouteSetBuilder.add_section_uids RouteSetBuilder.Finish
    RouteSet.uid RouteSet.from_signal_uid RouteSet.to_signal_uid RouteSet.section_uids
        RouteSet.Verify
    RouteSetT.init RouteSetT.fits RouteSetT.tables RouteSetT.uid RouteSetT.from_signal_uid
    RouteSetT.to_signal_uid RouteSetT.section_uids] in *.
#[global] Instance RouteSet_ok {F : FlatBuffers} {FO : FlatBuffersOk F} : MessageOk
    RouteSet_message.
Proof. solve_message_with ltac:(fun _ => unfold_RouteSet). Qed.
#[global] Arguments RouteSet_Pack : simpl never.
#[global] Arguments RouteSet_UnPackTo : simpl never.
#[global] Arguments RouteSet_UnPack : simpl never.
#[global] Arguments RouteSet.Verify : simpl never.
#[global] Arguments RouteSetT.fits : simpl never.
#[global] Arguments RouteSetT.tables : simpl never.
#[global] Typeclasses Opaque RouteSet.Verify.

Module RouteReleasedT.
(* SRC autogens/proto/events_generated.h 801-805 RouteReleasedT *)
Record t : Type := mk {
  route_uid : Z;
  reason : Z }.
(* SRC autogens/proto/events_generated.h 801-805 RouteReleasedT *)
Definition init : t := mk 0 (code RouteReleaseReason.TRAIN_CLEARED).
Definition fits (_o : t) : Prop :=
  in_range U64 (route_uid _o) = true /\
  in_range I8 (reason _o) = true.
Definition tables (_o : t) : Z := 1.
End RouteReleasedT.

Module RouteReleased.
Notation VT_ROUTE_UID := 4 (only parsing).
Notation VT_REASON := 6 (only parsing).
Section Table.
Context {F : FlatBuffers}.
(* SRC autogens/proto/events_generated.h 814-816 RouteReleased::route_uid *)
Definition route_uid (this_ : Obj) : option Z := GetField U64 this_ VT_ROUTE_UID 0.
(* SRC autogens/proto/events_generated.h 817-819 RouteReleased::reason *)
Definition reason (this_ : Obj) : option Z := GetField I8 this_ VT_REASON 0.
(* SRC autogens/proto/events_generated.h 821-826 RouteReleased::Verify *)
Definition Verify (this_ : Obj) : verification :=
  TableStart this_ &&>
  check (VerifyField U64 this_ VT_ROUTE_UID 8) &&>
  check (VerifyField I8 this_ VT_REASON 1) &&>
  TableEnd.
End Table.
End RouteReleased.

Module RouteReleasedBuilder.
Section Builder.
Context {F : FlatBuffers}.
(* SRC autogens/proto/events_generated.h 836-838 RouteReleasedBuilder::add_route_uid *)
Definition add_route_uid (builder_ : builder) (route_uid : Z) : builder :=
  builder_ ++ [Element U64 RouteReleased.VT_ROUTE_UID route_uid 0].
(* SRC autogens/proto/events_generated.h 839-841 RouteReleasedBuilder::add_reason *)
Definition add_reason (builder_ : builder) (reason : Z) : builder :=
  builder_ ++ [Element I8 RouteReleased.VT_REASON reason 0].
(* SRC autogens/proto/events_generated.h 846-850 RouteReleasedBuilder::Finish *)
Definition Finish (builder_ : builder) : option Obj := Some (EndTable builder_).
End Builder.
End RouteReleasedBuilder.

Section RouteReleasedFunctions.
Context {F : FlatBuffers}.
(* SRC autogens/proto/events_generated.h 853-861 CreateRouteReleased *)
Definition CreateRouteReleased (route_uid : Z) (reason : Z) : option Obj :=
  let builder_ := [] in
  let builder_ := RouteReleasedBuilder.add_route_uid builder_ route_uid in
  let builder_ := RouteReleasedBuilder.add_reason builder_ reason in
  RouteReleasedBuilder.Finish builder_.
(* SRC autogens/proto/events_generated.h 2051-2056 RouteReleased::UnPackTo *)
Definition RouteReleased_UnPackTo (_o : RouteReleasedT.t) (this_ : Obj) : option RouteReleasedT.t :=
  route_uid ← RouteReleased.route_uid this_;
  reason ← RouteReleased.reason this_;
  Some (RouteReleasedT.mk route_uid reason).
(* SRC autogens/proto/events_generated.h 2045-2049 RouteReleased::UnPack *)
Definition RouteReleased_UnPack (this_ : Obj) : option RouteReleasedT.t :=
  RouteReleased_UnPackTo RouteReleasedT.init this_.
(* SRC autogens/proto/events_generated.h 2062-2072 RouteReleased::Pack *)
Definition RouteReleased_Pack (_o : RouteReleasedT.t) : option Obj :=
  let _route_uid := RouteReleasedT.route_uid _o in
  let _reason := RouteReleasedT.reason _o in
  CreateRouteReleased _route_uid _reason.
Definition RouteReleased_message : Message RouteReleasedT.t :=
  mkMessage RouteReleased_Pack RouteReleased_UnPackTo RouteReleased_UnPack RouteReleased.Verify
      RouteReleasedT.fits RouteReleasedT.tables 1.
End RouteReleasedFunctions.
Ltac unfold_RouteReleased := cbv beta iota zeta delta [RouteReleased_message RouteReleased_Pack
    RouteReleased_UnPack RouteReleased_UnPackTo CreateRouteReleased
        RouteReleasedBuilder.add_route_uid
    RouteReleasedBuilder.add_reason RouteReleasedBuilder.Finish RouteReleased.route_uid
    RouteReleased.reason RouteReleased.Verify RouteReleasedT.init RouteReleasedT.fits
    RouteReleasedT.tables RouteReleasedT.route_uid RouteReleasedT.reason] in *.
#[global] Instance RouteReleased_ok {F : FlatBuffers} {FO : FlatBuffersOk F} : MessageOk
    RouteReleased_message.
Proof. solve_message_with ltac:(fun _ => unfold_RouteReleased). Qed.
#[global] Arguments RouteReleased_Pack : simpl never.
#[global] Arguments RouteReleased_UnPackTo : simpl never.
#[global] Arguments RouteReleased_UnPack : simpl never.
#[global] Arguments RouteReleased.Verify : simpl never.
#[global] Arguments RouteReleasedT.fits : simpl never.
#[global] Arguments RouteReleasedT.tables : simpl never.
#[global] Typeclasses Opaque RouteReleased.Verify.

Module TrainMovementT.
(* SRC autogens/proto/events_generated.h 865-871 TrainMovementT *)
Record t : Type := mk {
  train_uid : Z;
  section_uid : Z;
  direction : Z;
  speed_kmh : float }.
(* SRC autogens/proto/events_generated.h 865-871 TrainMovementT *)
Definition init : t := mk 0 0 (code Direction.FORWARD) f32_zero.
Definition fits (_o : t) : Prop :=
  in_range U64 (train_uid _o) = true /\
  in_range U64 (section_uid _o) = true /\
  in_range I8 (direction _o) = true /\
  float_field (speed_kmh _o) = true.
Definition tables (_o : t) : Z := 1.
End TrainMovementT.

Module TrainMovement.
Notation VT_TRAIN_UID := 4 (only parsing).
Notation VT_SECTION_UID := 6 (only parsing).
Notation VT_DIRECTION := 8 (only parsing).
Notation VT_SPEED_KMH := 10 (only parsing).
Section Table.
Context {F : FlatBuffers}.
(* SRC autogens/proto/events_generated.h 882-884 TrainMovement::train_uid *)
Definition train_uid (this_ : Obj) : option Z := GetField U64 this_ VT_TRAIN_UID 0.
(* SRC autogens/proto/events_generated.h 885-887 TrainMovement::section_uid *)
Definition section_uid (this_ : Obj) : option Z := GetField U64 this_ VT_SECTION_UID 0.
(* SRC autogens/proto/events_generated.h 888-890 TrainMovement::direction *)
Definition direction (this_ : Obj) : option Z := GetField I8 this_ VT_DIRECTION 0.
(* SRC autogens/proto/events_generated.h 891-893 TrainMovement::speed_kmh *)
Definition speed_kmh (this_ : Obj) : option float := GetFieldF this_ VT_SPEED_KMH f32_zero.
(* SRC autogens/proto/events_generated.h 895-902 TrainMovement::Verify *)
Definition Verify (this_ : Obj) : verification :=
  TableStart this_ &&>
  check (VerifyField U64 this_ VT_TRAIN_UID 8) &&>
  check (VerifyField U64 this_ VT_SECTION_UID 8) &&>
  check (VerifyField I8 this_ VT_DIRECTION 1) &&>
  check (VerifyFieldF this_ VT_SPEED_KMH 4) &&>
  TableEnd.
End Table.
End TrainMovement.

Module TrainMovementBuilder.
Section Builder.
Context {F : FlatBuffers}.
(* SRC autogens/proto/events_generated.h 912-914 TrainMovementBuilder::add_train_uid *)
Definition add_train_uid (builder_ : builder) (train_uid : Z) : builder :=
  builder_ ++ [Element U64 TrainMovement.VT_TRAIN_UID train_uid 0].
(* SRC autogens/proto/events_generated.h 915-917 TrainMovementBuilder::add_section_uid *)
Definition add_section_uid (builder_ : builder) (section_uid : Z) : builder :=
  builder_ ++ [Element U64 TrainMovement.VT_SECTION_UID section_uid 0].
(* SRC autogens/proto/events_generated.h 918-920 TrainMovementBuilder::add_direction *)
Definition add_direction (builder_ : builder) (direction : Z) : builder :=
  builder_ ++ [Element I8 TrainMovement.VT_DIRECTION direction 0].
(* SRC autogens/proto/events_generated.h 921-923 TrainMovementBuilder::add_speed_kmh *)
Definition add_speed_kmh (builder_ : builder) (speed_kmh : float) : builder :=
  builder_ ++ [ElementF TrainMovement.VT_SPEED_KMH speed_kmh f32_zero].
(* SRC autogens/proto/events_generated.h 928-932 TrainMovementBuilder::Finish *)
Definition Finish (builder_ : builder) : option Obj := Some (EndTable builder_).
End Builder.
End TrainMovementBuilder.

Section TrainMovementFunctions.
Context {F : FlatBuffers}.
(* SRC autogens/proto/events_generated.h 935-947 CreateTrainMovement *)
Definition CreateTrainMovement (train_uid : Z) (section_uid : Z) (direction : Z) (speed_kmh :
    float) : option Obj :=
  let builder_ := [] in
  let builder_ := TrainMovementBuilder.add_section_uid builder_ section_uid in
  let builder_ := TrainMovementBuilder.add_train_uid builder_ train_uid in
  let builder_ := TrainMovementBuilder.add_speed_kmh builder_ speed_kmh in
  let builder_ := TrainMovementBuilder.add_direction builder_ direction in
  TrainMovementBuilder.Finish builder_.
(* SRC autogens/proto/events_generated.h 2080-2087 TrainMovement::UnPackTo *)
Definition TrainMovement_UnPackTo (_o : TrainMovementT.t) (this_ : Obj) : option TrainMovementT.t :=
  train_uid ← TrainMovement.train_uid this_;
  section_uid ← TrainMovement.section_uid this_;
  direction ← TrainMovement.direction this_;
  speed_kmh ← TrainMovement.speed_kmh this_;
  Some (TrainMovementT.mk train_uid section_uid direction speed_kmh).
(* SRC autogens/proto/events_generated.h 2074-2078 TrainMovement::UnPack *)
Definition TrainMovement_UnPack (this_ : Obj) : option TrainMovementT.t :=
  TrainMovement_UnPackTo TrainMovementT.init this_.
(* SRC autogens/proto/events_generated.h 2093-2107 TrainMovement::Pack *)
Definition TrainMovement_Pack (_o : TrainMovementT.t) : option Obj :=
  let _train_uid := TrainMovementT.train_uid _o in
  let _section_uid := TrainMovementT.section_uid _o in
  let _direction := TrainMovementT.direction _o in
  let _speed_kmh := TrainMovementT.speed_kmh _o in
  CreateTrainMovement _train_uid _section_uid _direction _speed_kmh.
Definition TrainMovement_message : Message TrainMovementT.t :=
  mkMessage TrainMovement_Pack TrainMovement_UnPackTo TrainMovement_UnPack TrainMovement.Verify
      TrainMovementT.fits TrainMovementT.tables 1.
End TrainMovementFunctions.
Ltac unfold_TrainMovement := cbv beta iota zeta delta [TrainMovement_message TrainMovement_Pack
    TrainMovement_UnPack TrainMovement_UnPackTo CreateTrainMovement
        TrainMovementBuilder.add_train_uid
    TrainMovementBuilder.add_section_uid TrainMovementBuilder.add_direction
    TrainMovementBuilder.add_speed_kmh TrainMovementBuilder.Finish TrainMovement.train_uid
    TrainMovement.section_uid TrainMovement.direction TrainMovement.speed_kmh TrainMovement.Verify
    TrainMovementT.init TrainMovementT.fits TrainMovementT.tables TrainMovementT.train_uid
    TrainMovementT.section_uid TrainMovementT.direction TrainMovementT.speed_kmh] in *.
#[global] Instance TrainMovement_ok {F : FlatBuffers} {FO : FlatBuffersOk F} : MessageOk
    TrainMovement_message.
Proof. solve_message_with ltac:(fun _ => unfold_TrainMovement). Qed.
#[global] Arguments TrainMovement_Pack : simpl never.
#[global] Arguments TrainMovement_UnPackTo : simpl never.
#[global] Arguments TrainMovement_UnPack : simpl never.
#[global] Arguments TrainMovement.Verify : simpl never.
#[global] Arguments TrainMovementT.fits : simpl never.
#[global] Arguments TrainMovementT.tables : simpl never.
#[global] Typeclasses Opaque TrainMovement.Verify.

Module AlarmRaisedT.
(* SRC autogens/proto/events_generated.h 951-957 AlarmRaisedT *)
Record t : Type := mk {
  alarm_uid : Z;
  alarm_type : Z;
  object_uid : Z;
  message : string }.
(* SRC autogens/proto/events_generated.h 951-957 AlarmRaisedT *)
Definition init : t := mk 0 (code AlarmType.TRACK_OCCUPIED_UNEXPECTEDLY) 0 "".
Definition fits (_o : t) : Prop :=
  in_range U64 (alarm_uid _o) = true /\
  in_range I8 (alarm_type _o) = true /\
  in_range U64 (object_uid _o) = true.
Definition tables (_o : t) : Z := 1.
End AlarmRaisedT.

Module AlarmRaised.
Notation VT_ALARM_UID := 4 (only parsing).
Notation VT_ALARM_TYPE := 6 (only parsing).
Notation VT_OBJECT_UID := 8 (only parsing).
Notation VT_MESSAGE := 10 (only parsing).
Section Table.
Context {F : FlatBuffers}.
(* SRC autogens/proto/events_generated.h 968-970 AlarmRaised::alarm_uid *)
Definition alarm_uid (this_ : Obj) : option Z := GetField U64 this_ VT_ALARM_UID 0.
(* SRC autogens/proto/events_generated.h 971-973 AlarmRaised::alarm_type *)
Definition alarm_type (this_ : Obj) : option Z := GetField I8 this_ VT_ALARM_TYPE 0.
(* SRC autogens/proto/events_generated.h 974-976 AlarmRaised::object_uid *)
Definition object_uid (this_ : Obj) : option Z := GetField U64 this_ VT_OBJECT_UID 0.
(* SRC autogens/proto/events_generated.h 977-979 AlarmRaised::message *)
Definition message (this_ : Obj) : option (option Obj) := GetPointer this_ VT_MESSAGE.
(* SRC autogens/proto/events_generated.h 981-989 AlarmRaised::Verify *)
Definition Verify (this_ : Obj) : verification :=
  TableStart this_ &&>
  check (VerifyField U64 this_ VT_ALARM_UID 8) &&>
  check (VerifyField I8 this_ VT_ALARM_TYPE 1) &&>
  check (VerifyField U64 this_ VT_OBJECT_UID 8) &&>
  check (VerifyOffset this_ VT_MESSAGE) &&>
  check_string (message this_) &&>
  TableEnd.
End Table.
End AlarmRaised.

Module AlarmRaisedBuilder.
Section Builder.
Context {F : FlatBuffers}.
(* SRC autogens/proto/events_generated.h 999-1001 AlarmRaisedBuilder::add_alarm_uid *)
Definition add_alarm_uid (builder_ : builder) (alarm_uid : Z) : builder :=
  builder_ ++ [Element U64 AlarmRaised.VT_ALARM_UID alarm_uid 0].
(* SRC autogens/proto/events_generated.h 1002-1004 AlarmRaisedBuilder::add_alarm_type *)
Definition add_alarm_type (builder_ : builder) (alarm_type : Z) : builder :=
  builder_ ++ [Element I8 AlarmRaised.VT_ALARM_TYPE alarm_type 0].
(* SRC autogens/proto/events_generated.h 1005-1007 AlarmRaisedBuilder::add_object_uid *)
Definition add_object_uid (builder_ : builder) (object_uid : Z) : builder :=
  builder_ ++ [Element U64 AlarmRaised.VT_OBJECT_UID object_uid 0].
(* SRC autogens/proto/events_generated.h 1008-1010 AlarmRaisedBuilder::add_message *)
Definition add_message (builder_ : builder) (message : option Obj) : builder :=
  builder_ ++ [OffsetAt AlarmRaised.VT_MESSAGE message].
(* SRC autogens/proto/events_generated.h 1015-1019 AlarmRaisedBuilder::Finish *)
Definition Finish (builder_ : builder) : option Obj := Some (EndTable builder_).
End Builder.
End AlarmRaisedBuilder.

Section AlarmRaisedFunctions.
Context {F : FlatBuffers}.
(* SRC autogens/proto/events_generated.h 1022-1034 CreateAlarmRaised *)
Definition CreateAlarmRaised (alarm_uid : Z) (alarm_type : Z) (object_uid : Z) (message : option
    Obj) : option Obj :=
  let builder_ := [] in
  let builder_ := AlarmRaisedBuilder.add_object_uid builder_ object_uid in
  let builder_ := AlarmRaisedBuilder.add_alarm_uid builder_ alarm_uid in
  let builder_ := AlarmRaisedBuilder.add_message builder_ message in
  let builder_ := AlarmRaisedBuilder.add_alarm_type builder_ alarm_type in
  AlarmRaisedBuilder.Finish builder_.
(* SRC autogens/proto/events_generated.h 1036-1049 CreateAlarmRaisedDirect *)
Definition CreateAlarmRaisedDirect (alarm_uid : Z) (alarm_type : Z) (object_uid : Z) (message :
    option string) : option Obj :=
  let message__ := CreateString <$> message in
  CreateAlarmRaised alarm_uid alarm_type object_uid message__.
(* SRC autogens/proto/events_generated.h 2115-2122 AlarmRaised::UnPackTo *)
Definition AlarmRaised_UnPackTo (_o : AlarmRaisedT.t) (this_ : Obj) : option AlarmRaisedT.t :=
  alarm_uid ← AlarmRaised.alarm_uid this_;
  alarm_type ← AlarmRaised.alarm_type this_;
  object_uid ← AlarmRaised.object_uid this_;
  message ← (_e ← AlarmRaised.message this_; UnPackString (AlarmRaisedT.message _o) _e);
  Some (AlarmRaisedT.mk alarm_uid alarm_type object_uid message).
(* SRC autogens/proto/events_generated.h 2109-2113 AlarmRaised::UnPack *)
Definition AlarmRaised_UnPack (this_ : Obj) : option AlarmRaisedT.t :=
  AlarmRaised_UnPackTo AlarmRaisedT.init this_.
(* SRC autogens/proto/events_generated.h 2128-2142 AlarmRaised::Pack *)
Definition AlarmRaised_Pack (_o : AlarmRaisedT.t) : option Obj :=
  let _alarm_uid := AlarmRaisedT.alarm_uid _o in
  let _alarm_type := AlarmRaisedT.alarm_type _o in
  let _object_uid := AlarmRaisedT.object_uid _o in
  let _message := PackString (AlarmRaisedT.message _o) in
  CreateAlarmRaised _alarm_uid _alarm_type _object_uid _message.
Definition AlarmRaised_message : Message AlarmRaisedT.t :=
  mkMessage AlarmRaised_Pack AlarmRaised_UnPackTo AlarmRaised_UnPack AlarmRaised.Verify
      AlarmRaisedT.fits AlarmRaisedT.tables 1.
End AlarmRaisedFunctions.
Ltac unfold_AlarmRaised := cbv beta iota zeta delta [AlarmRaised_message AlarmRaised_Pack
    AlarmRaised_UnPack AlarmRaised_UnPackTo CreateAlarmRaised AlarmRaisedBuilder.add_alarm_uid
    AlarmRaisedBuilder.add_alarm_type AlarmRaisedBuilder.add_object_uid
        AlarmRaisedBuilder.add_message
    AlarmRaisedBuilder.Finish AlarmRaised.alarm_uid AlarmRaised.alarm_type AlarmRaised.object_uid
    AlarmRaised.message AlarmRaised.Verify AlarmRaisedT.init AlarmRaisedT.fits AlarmRaisedT.tables
    AlarmRaisedT.alarm_uid AlarmRaisedT.alarm_type AlarmRaisedT.object_uid AlarmRaisedT.message]
        in *.
#[global] Instance AlarmRaised_ok {F : FlatBuffers} {FO : FlatBuffersOk F} : MessageOk
    AlarmRaised_message.
Proof. solve_message_with ltac:(fun _ => unfold_AlarmRaised). Qed.
#[global] Arguments AlarmRaised_Pack : simpl never.
#[global] Arguments AlarmRaised_UnPackTo : simpl never.
#[global] Arguments AlarmRaised_UnPack : simpl never.
#[global] Arguments AlarmRaised.Verify : simpl never.
#[global] Arguments AlarmRaisedT.fits : simpl never.
#[global] Arguments AlarmRaisedT.tables : simpl never.
#[global] Typeclasses Opaque AlarmRaised.Verify.

Module AlarmClearedT.
(* SRC autogens/proto/events_generated.h 1053-1056 AlarmClearedT *)
Record t : Type := mk {
  alarm_uid : Z }.
(* SRC autogens/proto/events_generated.h 1053-1056 AlarmClearedT *)
Definition init : t := mk 0.
Definition fits (_o : t) : Prop :=
  in_range U64 (alarm_uid _o) = true.
Definition tables (_o : t) : Z := 1.
End AlarmClearedT.

Module AlarmCleared.
Notation VT_ALARM_UID := 4 (only parsing).
Section Table.
Context {F : FlatBuffers}.
(* SRC autogens/proto/events_generated.h 1064-1066 AlarmCleared::alarm_uid *)
Definition alarm_uid (this_ : Obj) : option Z := GetField U64 this_ VT_ALARM_UID 0.
(* SRC autogens/proto/events_generated.h 1068-1072 AlarmCleared::Verify *)
Definition Verify (this_ : Obj) : verification :=
  TableStart this_ &&>
  check (VerifyField U64 this_ VT_ALARM_UID 8) &&>
  TableEnd.
End Table.
End AlarmCleared.

Module AlarmClearedBuilder.
Section Builder.
Context {F : FlatBuffers}.
(* SRC autogens/proto/events_generated.h 1082-1084 AlarmClearedBuilder::add_alarm_uid *)
Definition add_alarm_uid (builder_ : builder) (alarm_uid : Z) : builder :=
  builder_ ++ [Element U64 AlarmCleared.VT_ALARM_UID alarm_uid 0].
(* SRC autogens/proto/events_generated.h 1089-1093 AlarmClearedBuilder::Finish *)
Definition Finish (builder_ : builder) : option Obj := Some (EndTable builder_).
End Builder.
End AlarmClearedBuilder.

Section AlarmClearedFunctions.
Context {F : FlatBuffers}.
(* SRC autogens/proto/events_generated.h 1096-1102 CreateAlarmCleared *)
Definition CreateAlarmCleared (alarm_uid : Z) : option Obj :=
  let builder_ := [] in
  let builder_ := AlarmClearedBuilder.add_alarm_uid builder_ alarm_uid in
  AlarmClearedBuilder.Finish builder_.
(* SRC autogens/proto/events_generated.h 2150-2154 AlarmCleared::UnPackTo *)
Definition AlarmCleared_UnPackTo (_o : AlarmClearedT.t) (this_ : Obj) : option AlarmClearedT.t :=
  alarm_uid ← AlarmCleared.alarm_uid this_;
  Some (AlarmClearedT.mk alarm_uid).
(* SRC autogens/proto/events_generated.h 2144-2148 AlarmCleared::UnPack *)
Definition AlarmCleared_UnPack (this_ : Obj) : option AlarmClearedT.t :=
  AlarmCleared_UnPackTo AlarmClearedT.init this_.
(* SRC autogens/proto/events_generated.h 2160-2168 AlarmCleared::Pack *)
Definition AlarmCleared_Pack (_o : AlarmClearedT.t) : option Obj :=
  let _alarm_uid := AlarmClearedT.alarm_uid _o in
  CreateAlarmCleared _alarm_uid.
Definition AlarmCleared_message : Message AlarmClearedT.t :=
  mkMessage AlarmCleared_Pack AlarmCleared_UnPackTo AlarmCleared_UnPack AlarmCleared.Verify
      AlarmClearedT.fits AlarmClearedT.tables 1.
End AlarmClearedFunctions.
Ltac unfold_AlarmCleared := cbv beta iota zeta delta [AlarmCleared_message AlarmCleared_Pack
    AlarmCleared_UnPack AlarmCleared_UnPackTo CreateAlarmCleared AlarmClearedBuilder.add_alarm_uid
    AlarmClearedBuilder.Finish AlarmCleared.alarm_uid AlarmCleared.Verify AlarmClearedT.init
    AlarmClearedT.fits AlarmClearedT.tables AlarmClearedT.alarm_uid] in *.
#[global] Instance AlarmCleared_ok {F : FlatBuffers} {FO : FlatBuffersOk F} : MessageOk
    AlarmCleared_message.
Proof. solve_message_with ltac:(fun _ => unfold_AlarmCleared). Qed.
#[global] Arguments AlarmCleared_Pack : simpl never.
#[global] Arguments AlarmCleared_UnPackTo : simpl never.
#[global] Arguments AlarmCleared_UnPack : simpl never.
#[global] Arguments AlarmCleared.Verify : simpl never.
#[global] Arguments AlarmClearedT.fits : simpl never.
#[global] Arguments AlarmClearedT.tables : simpl never.
#[global] Typeclasses Opaque AlarmCleared.Verify.

Module DispatchAreaOwnershipChangedT.
(* SRC autogens/proto/events_generated.h 1106-1111 DispatchAreaOwnershipChangedT *)
Record t : Type := mk {
  dispatch_area_uid : Z;
  station_uid : Z;
  new_owner_client_id : string }.
(* SRC autogens/proto/events_generated.h 1106-1111 DispatchAreaOwnershipChangedT *)
Definition init : t := mk 0 0 "".
Definition fits (_o : t) : Prop :=
  in_range U64 (dispatch_area_uid _o) = true /\
  in_range U64 (station_uid _o) = true.
Definition tables (_o : t) : Z := 1.
End DispatchAreaOwnershipChangedT.

Module DispatchAreaOwnershipChanged.
Notation VT_DISPATCH_AREA_UID := 4 (only parsing).
Notation VT_STATION_UID := 6 (only parsing).
Notation VT_NEW_OWNER_CLIENT_ID := 8 (only parsing).
Section Table.
Context {F : FlatBuffers}.
(* SRC autogens/proto/events_generated.h 1121-1123 DispatchAreaOwnershipChanged::dispatch_area_uid *)
Definition dispatch_area_uid (this_ : Obj) : option Z := GetField U64 this_ VT_DISPATCH_AREA_UID 0.
(* SRC autogens/proto/events_generated.h 1124-1126 DispatchAreaOwnershipChanged::station_uid *)
Definition station_uid (this_ : Obj) : option Z := GetField U64 this_ VT_STATION_UID 0.
(* SRC autogens/proto/events_generated.h 1127-1129 DispatchAreaOwnershipChanged::new_owner_client_id *)
Definition new_owner_client_id (this_ : Obj) : option (option Obj) :=
  GetPointer this_ VT_NEW_OWNER_CLIENT_ID.
(* SRC autogens/proto/events_generated.h 1131-1138 DispatchAreaOwnershipChanged::Verify *)
Definition Verify (this_ : Obj) : verification :=
  TableStart this_ &&>
  check (VerifyField U64 this_ VT_DISPATCH_AREA_UID 8) &&>
  check (VerifyField U64 this_ VT_STATION_UID 8) &&>
  check (VerifyOffset this_ VT_NEW_OWNER_CLIENT_ID) &&>
  check_string (new_owner_client_id this_) &&>
  TableEnd.
End Table.
End DispatchAreaOwnershipChanged.

Module DispatchAreaOwnershipChangedBuilder.
Section Builder.
Context {F : FlatBuffers}.
(* SRC autogens/proto/events_generated.h 1148-1150 DispatchAreaOwnershipChangedBuilder::add_dispatch_area_uid *)
Definition add_dispatch_area_uid (builder_ : builder) (dispatch_area_uid : Z) : builder :=
  builder_ ++ [Element U64 DispatchAreaOwnershipChanged.VT_DISPATCH_AREA_UID dispatch_area_uid 0].
(* SRC autogens/proto/events_generated.h 1151-1153 DispatchAreaOwnershipChangedBuilder::add_station_uid *)
Definition add_station_uid (builder_ : builder) (station_uid : Z) : builder :=
  builder_ ++ [Element U64 DispatchAreaOwnershipChanged.VT_STATION_UID station_uid 0].
(* SRC autogens/proto/events_generated.h 1154-1156 DispatchAreaOwnershipChangedBuilder::add_new_owner_client_id *)
Definition add_new_owner_client_id (builder_ : builder) (new_owner_client_id : option Obj) :
    builder :=
  builder_ ++ [OffsetAt DispatchAreaOwnershipChanged.VT_NEW_OWNER_CLIENT_ID new_owner_client_id].
(* SRC autogens/proto/events_generated.h 1161-1165 DispatchAreaOwnershipChangedBuilder::Finish *)
Definition Finish (builder_ : builder) : option Obj := Some (EndTable builder_).
End Builder.
End DispatchAreaOwnershipChangedBuilder.

Section DispatchAreaOwnershipChangedFunctions.
Context {F : FlatBuffers}.
(* SRC autogens/proto/events_generated.h 1168-1178 CreateDispatchAreaOwnershipChanged *)
Definition CreateDispatchAreaOwnershipChanged (dispatch_area_uid : Z) (station_uid : Z)
    (new_owner_client_id : option Obj) : option Obj :=
  let builder_ := [] in
  let builder_ := DispatchAreaOwnershipChangedBuilder.add_station_uid builder_ station_uid in
  let builder_ := DispatchAreaOwnershipChangedBuilder.add_dispatch_area_uid builder_
      dispatch_area_uid in
  let builder_ := DispatchAreaOwnershipChangedBuilder.add_new_owner_client_id builder_
      new_owner_client_id in
  DispatchAreaOwnershipChangedBuilder.Finish builder_.
(* SRC autogens/proto/events_generated.h 1180-1191 CreateDispatchAreaOwnershipChangedDirect *)
Definition CreateDispatchAreaOwnershipChangedDirect (dispatch_area_uid : Z) (station_uid : Z)
    (new_owner_client_id : option string) : option Obj :=
  let new_owner_client_id__ := CreateString <$> new_owner_client_id in
  CreateDispatchAreaOwnershipChanged dispatch_area_uid station_uid new_owner_client_id__.
(* SRC autogens/proto/events_generated.h 2176-2182 DispatchAreaOwnershipChanged::UnPackTo *)
Definition DispatchAreaOwnershipChanged_UnPackTo (_o : DispatchAreaOwnershipChangedT.t) (this_ :
    Obj) : option DispatchAreaOwnershipChangedT.t :=
  dispatch_area_uid ← DispatchAreaOwnershipChanged.dispatch_area_uid this_;
  station_uid ← DispatchAreaOwnershipChanged.station_uid this_;
  new_owner_client_id ← (_e ← DispatchAreaOwnershipChanged.new_owner_client_id this_;
      UnPackString (DispatchAreaOwnershipChangedT.new_owner_client_id _o) _e);
  Some (DispatchAreaOwnershipChangedT.mk dispatch_area_uid station_uid new_owner_client_id).
(* SRC autogens/proto/events_generated.h 2170-2174 DispatchAreaOwnershipChanged::UnPack *)
Definition DispatchAreaOwnershipChanged_UnPack (this_ : Obj) : option
    DispatchAreaOwnershipChangedT.t :=
  DispatchAreaOwnershipChanged_UnPackTo DispatchAreaOwnershipChangedT.init this_.
(* SRC autogens/proto/events_generated.h 2188-2200 DispatchAreaOwnershipChanged::Pack *)
Definition DispatchAreaOwnershipChanged_Pack (_o : DispatchAreaOwnershipChangedT.t) : option Obj :=
  let _dispatch_area_uid := DispatchAreaOwnershipChangedT.dispatch_area_uid _o in
  let _station_uid := DispatchAreaOwnershipChangedT.station_uid _o in
  let _new_owner_client_id := PackString (DispatchAreaOwnershipChangedT.new_owner_client_id _o) in
  CreateDispatchAreaOwnershipChanged _dispatch_area_uid _station_uid _new_owner_client_id.
Definition DispatchAreaOwnershipChanged_message : Message DispatchAreaOwnershipChangedT.t :=
  mkMessage DispatchAreaOwnershipChanged_Pack DispatchAreaOwnershipChanged_UnPackTo
      DispatchAreaOwnershipChanged_UnPack DispatchAreaOwnershipChanged.Verify
      DispatchAreaOwnershipChangedT.fits DispatchAreaOwnershipChangedT.tables 1.
End DispatchAreaOwnershipChangedFunctions.
Ltac unfold_DispatchAreaOwnershipChanged := cbv beta iota zeta delta
    [DispatchAreaOwnershipChanged_message DispatchAreaOwnershipChanged_Pack
    DispatchAreaOwnershipChanged_UnPack DispatchAreaOwnershipChanged_UnPackTo
    CreateDispatchAreaOwnershipChanged DispatchAreaOwnershipChangedBuilder.add_dispatch_area_uid
    DispatchAreaOwnershipChangedBuilder.add_station_uid
    DispatchAreaOwnershipChangedBuilder.add_new_owner_client_id
    DispatchAreaOwnershipChangedBuilder.Finish DispatchAreaOwnershipChanged.dispatch_area_uid
    DispatchAreaOwnershipChanged.station_uid DispatchAreaOwnershipChanged.new_owner_client_id
    DispatchAreaOwnershipChanged.Verify DispatchAreaOwnershipChangedT.init
    DispatchAreaOwnershipChangedT.fits DispatchAreaOwnershipChangedT.tables
    DispatchAreaOwnershipChangedT.dispatch_area_uid DispatchAreaOwnershipChangedT.station_uid
    DispatchAreaOwnershipChangedT.new_owner_client_id] in *.
#[global] Instance DispatchAreaOwnershipChanged_ok {F : FlatBuffers} {FO : FlatBuffersOk F} :
    MessageOk DispatchAreaOwnershipChanged_message.
Proof. solve_message_with ltac:(fun _ => unfold_DispatchAreaOwnershipChanged). Qed.
#[global] Arguments DispatchAreaOwnershipChanged_Pack : simpl never.
#[global] Arguments DispatchAreaOwnershipChanged_UnPackTo : simpl never.
#[global] Arguments DispatchAreaOwnershipChanged_UnPack : simpl never.
#[global] Arguments DispatchAreaOwnershipChanged.Verify : simpl never.
#[global] Arguments DispatchAreaOwnershipChangedT.fits : simpl never.
#[global] Arguments DispatchAreaOwnershipChangedT.tables : simpl never.
#[global] Typeclasses Opaque DispatchAreaOwnershipChanged.Verify.

Module SessionStateChangedT.
(* SRC autogens/proto/events_generated.h 1195-1198 SessionStateChangedT *)
Record t : Type := mk {
  new_state : Z }.
(* SRC autogens/proto/events_generated.h 1195-1198 SessionStateChangedT *)
Definition init : t := mk (code SessionState.STARTED).
Definition fits (_o : t) : Prop :=
  in_range I8 (new_state _o) = true.
Definition tables (_o : t) : Z := 1.
End SessionStateChangedT.

Module SessionStateChanged.
Notation VT_NEW_STATE := 4 (only parsing).
Section Table.
Context {F : FlatBuffers}.
(* SRC autogens/proto/events_generated.h 1206-1208 SessionStateChanged::new_state *)
Definition new_state (this_ : Obj) : option Z := GetField I8 this_ VT_NEW_STATE 0.
(* SRC autogens/proto/events_generated.h 1210-1214 SessionStateChanged::Verify *)
Definition Verify (this_ : Obj) : verification :=
  TableStart this_ &&>
  check (VerifyField I8 this_ VT_NEW_STATE 1) &&>
  TableEnd.
End Table.
End SessionStateChanged.

Module SessionStateChangedBuilder.
Section Builder.
Context {F : FlatBuffers}.
(* SRC autogens/proto/events_generated.h 1224-1226 SessionStateChangedBuilder::add_new_state *)
Definition add_new_state (builder_ : builder) (new_state : Z) : builder :=
  builder_ ++ [Element I8 SessionStateChanged.VT_NEW_STATE new_state 0].
(* SRC autogens/proto/events_generated.h 1231-1235 SessionStateChangedBuilder::Finish *)
Definition Finish (builder_ : builder) : option Obj := Some (EndTable builder_).
End Builder.
End SessionStateChangedBuilder.

Section SessionStateChangedFunctions.
Context {F : FlatBuffers}.
(* SRC autogens/proto/events_generated.h 1238-1244 CreateSessionStateChanged *)
Definition CreateSessionStateChanged (new_state : Z) : option Obj :=
  let builder_ := [] in
  let builder_ := SessionStateChangedBuilder.add_new_state builder_ new_state in
  SessionStateChangedBuilder.Finish builder_.
(* SRC autogens/proto/events_generated.h 2208-2212 SessionStateChanged::UnPackTo *)
Definition SessionStateChanged_UnPackTo (_o : SessionStateChangedT.t) (this_ : Obj) : option
    SessionStateChangedT.t :=
  new_state ← SessionStateChanged.new_state this_;
  Some (SessionStateChangedT.mk new_state).
(* SRC autogens/proto/events_generated.h 2202-2206 SessionStateChanged::UnPack *)
Definition SessionStateChanged_UnPack (this_ : Obj) : option SessionStateChangedT.t :=
  SessionStateChanged_UnPackTo SessionStateChangedT.init this_.
(* SRC autogens/proto/events_generated.h 2218-2226 SessionStateChanged::Pack *)
Definition SessionStateChanged_Pack (_o : SessionStateChangedT.t) : option Obj :=
  let _new_state := SessionStateChangedT.new_state _o in
  CreateSessionStateChanged _new_state.
Definition SessionStateChanged_message : Message SessionStateChangedT.t :=
  mkMessage SessionStateChanged_Pack SessionStateChanged_UnPackTo SessionStateChanged_UnPack
      SessionStateChanged.Verify SessionStateChangedT.fits SessionStateChangedT.tables 1.
End SessionStateChangedFunctions.
Ltac unfold_SessionStateChanged := cbv beta iota zeta delta [SessionStateChanged_message
    SessionStateChanged_Pack SessionStateChanged_UnPack SessionStateChanged_UnPackTo
    CreateSessionStateChanged SessionStateChangedBuilder.add_new_state
    SessionStateChangedBuilder.Finish SessionStateChanged.new_state SessionStateChanged.Verify
    SessionStateChangedT.init SessionStateChangedT.fits SessionStateChangedT.tables
    SessionStateChangedT.new_state] in *.
#[global] Instance SessionStateChanged_ok {F : FlatBuffers} {FO : FlatBuffersOk F} : MessageOk
    SessionStateChanged_message.
Proof. solve_message_with ltac:(fun _ => unfold_SessionStateChanged). Qed.
#[global] Arguments SessionStateChanged_Pack : simpl never.
#[global] Arguments SessionStateChanged_UnPackTo : simpl never.
#[global] Arguments SessionStateChanged_UnPack : simpl never.
#[global] Arguments SessionStateChanged.Verify : simpl never.
#[global] Arguments SessionStateChangedT.fits : simpl never.
#[global] Arguments SessionStateChangedT.tables : simpl never.
#[global] Typeclasses Opaque SessionStateChanged.Verify.

Module TrainComposedT.
(* SRC autogens/proto/events_generated.h 1248-1254 TrainComposedT *)
Record t : Type := mk {
  train_uid : Z;
  vehicle_uids : list Z;
  total_length_m : float;
  total_axles : Z }.
(* SRC autogens/proto/events_generated.h 1248-1254 TrainComposedT *)
Definition init : t := mk 0 [] f32_zero 0.
Definition fits (_o : t) : Prop :=
  in_range U64 (train_uid _o) = true /\
  Forall (fun x => in_range U64 x = true) (vehicle_uids _o) /\
  float_field (total_length_m _o) = true /\
  in_range I32 (total_axles _o) = true.
Definition tables (_o : t) : Z := 1.
End TrainComposedT.

Module TrainComposed.
Notation VT_TRAIN_UID := 4 (only parsing).
Notation VT_VEHICLE_UIDS := 6 (only parsing).
Notation VT_TOTAL_LENGTH_M := 8 (only parsing).
Notation VT_TOTAL_AXLES := 10 (only parsing).
Section Table.
Context {F : FlatBuffers}.
(* SRC autogens/proto/events_generated.h 1265-1267 TrainComposed::train_uid *)
Definition train_uid (this_ : Obj) : option Z := GetField U64 this_ VT_TRAIN_UID 0.
(* SRC autogens/proto/events_generated.h 1268-1270 TrainComposed::vehicle_uids *)
Definition vehicle_uids (this_ : Obj) : option (option Obj) := GetPointer this_ VT_VEHICLE_UIDS.
(* SRC autogens/proto/events_generated.h 1271-1273 TrainComposed::total_length_m *)
Definition total_length_m (this_ : Obj) : option float :=
  GetFieldF this_ VT_TOTAL_LENGTH_M f32_zero.
(* SRC autogens/proto/events_generated.h 1274-1276 TrainComposed::total_axles *)
Definition total_axles (this_ : Obj) : option Z := GetField I32 this_ VT_TOTAL_AXLES 0.
(* SRC autogens/proto/events_generated.h 1278-1286 TrainComposed::Verify *)
Definition Verify (this_ : Obj) : verification :=
  TableStart this_ &&>
  check (VerifyField U64 this_ VT_TRAIN_UID 8) &&>
  check (VerifyOffset this_ VT_VEHICLE_UIDS) &&>
  check_vector (VectorOf U64) (vehicle_uids this_) &&>
  check (VerifyFieldF this_ VT_TOTAL_LENGTH_M 4) &&>
  check (VerifyField I32 this_ VT_TOTAL_AXLES 4) &&>
  TableEnd.
End Table.
End TrainComposed.

Module TrainComposedBuilder.
Section Builder.
Context {F : FlatBuffers}.
(* SRC autogens/proto/events_generated.h 1296-1298 TrainComposedBuilder::add_train_uid *)
Definition add_train_uid (builder_ : builder) (train_uid : Z) : builder :=
  builder_ ++ [Element U64 TrainComposed.VT_TRAIN_UID train_uid 0].
(* SRC autogens/proto/events_generated.h 1299-1301 TrainComposedBuilder::add_vehicle_uids *)
Definition add_vehicle_uids (builder_ : builder) (vehicle_uids : option Obj) : builder :=
  builder_ ++ [OffsetAt TrainComposed.VT_VEHICLE_UIDS vehicle_uids].
(* SRC autogens/proto/events_generated.h 1302-1304 TrainComposedBuilder::add_total_length_m *)
Definition add_total_length_m (builder_ : builder) (total_length_m : float) : builder :=
  builder_ ++ [ElementF TrainComposed.VT_TOTAL_LENGTH_M total_length_m f32_zero].
(* SRC autogens/proto/events_generated.h 1305-1307 TrainComposedBuilder::add_total_axles *)
Definition add_total_axles (builder_ : builder) (total_axles : Z) : builder :=
  builder_ ++ [Element I32 TrainComposed.VT_TOTAL_AXLES total_axles 0].
(* SRC autogens/proto/events_generated.h 1312-1316 TrainComposedBuilder::Finish *)
Definition Finish (builder_ : builder) : option Obj := Some (EndTable builder_).
End Builder.
End TrainComposedBuilder.

Section TrainComposedFunctions.
Context {F : FlatBuffers}.
(* SRC autogens/proto/events_generated.h 1319-1331 CreateTrainComposed *)
Definition CreateTrainComposed (train_uid : Z) (vehicle_uids : option Obj) (total_length_m :
    float) (total_axles : Z) : option Obj :=
  let builder_ := [] in
  let builder_ := TrainComposedBuilder.add_train_uid builder_ train_uid in
  let builder_ := TrainComposedBuilder.add_total_axles builder_ total_axles in
  let builder_ := TrainComposedBuilder.add_total_length_m builder_ total_length_m in
  let builder_ := TrainComposedBuilder.add_vehicle_uids builder_ vehicle_uids in
  TrainComposedBuilder.Finish builder_.
(* SRC autogens/proto/events_generated.h 1333-1346 CreateTrainComposedDirect *)
Definition CreateTrainComposedDirect (train_uid : Z) (vehicle_uids : option (list Z))
    (total_length_m : float) (total_axles : Z) : option Obj :=
  let vehicle_uids__ := CreateVector U64 <$> vehicle_uids in
  CreateTrainComposed train_uid vehicle_uids__ total_length_m total_axles.
(* SRC autogens/proto/events_generated.h 2234-2241 TrainComposed::UnPackTo *)
Definition TrainComposed_UnPackTo (_o : TrainComposedT.t) (this_ : Obj) : option TrainComposedT.t :=
  train_uid ← TrainComposed.train_uid this_;
  vehicle_uids ← (_e ← TrainComposed.vehicle_uids this_; UnPackVector U64 _e);
  total_length_m ← TrainComposed.total_length_m this_;
  total_axles ← TrainComposed.total_axles this_;
  Some (TrainComposedT.mk train_uid vehicle_uids total_length_m total_axles).
(* SRC autogens/proto/events_generated.h 2228-2232 TrainComposed::UnPack *)
Definition TrainComposed_UnPack (this_ : Obj) : option TrainComposedT.t :=
  TrainComposed_UnPackTo TrainComposedT.init this_.
(* SRC autogens/proto/events_generated.h 2247-2261 TrainComposed::Pack *)
Definition TrainComposed_Pack (_o : TrainComposedT.t) : option Obj :=
  let _train_uid := TrainComposedT.train_uid _o in
  let _vehicle_uids := PackVector U64 (TrainComposedT.vehicle_uids _o) in
  let _total_length_m := TrainComposedT.total_length_m _o in
  let _total_axles := TrainComposedT.total_axles _o in
  CreateTrainComposed _train_uid _vehicle_uids _total_length_m _total_axles.
Definition TrainComposed_message : Message TrainComposedT.t :=
  mkMessage TrainComposed_Pack TrainComposed_UnPackTo TrainComposed_UnPack TrainComposed.Verify
      TrainComposedT.fits TrainComposedT.tables 1.
End TrainComposedFunctions.
Ltac unfold_TrainComposed := cbv beta iota zeta delta [TrainComposed_message TrainComposed_Pack
    TrainComposed_UnPack TrainComposed_UnPackTo CreateTrainComposed
        TrainComposedBuilder.add_train_uid
    TrainComposedBuilder.add_vehicle_uids TrainComposedBuilder.add_total_length_m
    TrainComposedBuilder.add_total_axles TrainComposedBuilder.Finish TrainComposed.train_uid
    TrainComposed.vehicle_uids TrainComposed.total_length_m TrainComposed.total_axles
    TrainComposed.Verify TrainComposedT.init TrainComposedT.fits TrainComposedT.tables
    TrainComposedT.train_uid TrainComposedT.vehicle_uids TrainComposedT.total_length_m
    TrainComposedT.total_axles] in *.
#[global] Instance TrainComposed_ok {F : FlatBuffers} {FO : FlatBuffersOk F} : MessageOk
    TrainComposed_message.
Proof. solve_message_with ltac:(fun _ => unfold_TrainComposed). Qed.
#[global] Arguments TrainComposed_Pack : simpl never.
#[global] Arguments TrainComposed_UnPackTo : simpl never.
#[global] Arguments TrainComposed_UnPack : simpl never.
#[global] Arguments TrainComposed.Verify : simpl never.
#[global] Arguments TrainComposedT.fits : simpl never.
#[global] Arguments TrainComposedT.tables : simpl never.
#[global] Typeclasses Opaque TrainComposed.Verify.

Module TrainDecomposedT.
(* SRC autogens/proto/events_generated.h 1350-1354 TrainDecomposedT *)
Record t : Type := mk {
  train_uid : Z;
  reason : Z }.
(* SRC autogens/proto/events_generated.h 1350-1354 TrainDecomposedT *)
Definition init : t := mk 0 (code TrainDecomposeReason.UNCOUPLED).
Definition fits (_o : t) : Prop :=
  in_range U64 (train_uid _o) = true /\
  in_range I8 (reason _o) = true.
Definition tables (_o : t) : Z := 1.
End TrainDecomposedT.

Module TrainDecomposed.
Notation VT_TRAIN_UID := 4 (only parsing).
Notation VT_REASON := 6 (only parsing).
Section Table.
Context {F : FlatBuffers}.
(* SRC autogens/proto/events_generated.h 1363-1365 TrainDecomposed::train_uid *)
Definition train_uid (this_ : Obj) : option Z := GetField U64 this_ VT_TRAIN_UID 0.
(* SRC autogens/proto/events_generated.h 1366-1368 TrainDecomposed::reason *)
Definition reason (this_ : Obj) : option Z := GetField I8 this_ VT_REASON 0.
(* SRC autogens/proto/events_generated.h 1370-1375 TrainDecomposed::Verify *)
Definition Verify (this_ : Obj) : verification :=
  TableStart this_ &&>
  check (VerifyField U64 this_ VT_TRAIN_UID 8) &&>
  check (VerifyField I8 this_ VT_REASON 1) &&>
  TableEnd.
End Table.
End TrainDecomposed.

Module TrainDecomposedBuilder.
Section Builder.
Context {F : FlatBuffers}.
(* SRC autogens/proto/events_generated.h 1385-1387 TrainDecomposedBuilder::add_train_uid *)
Definition add_train_uid (builder_ : builder) (train_uid : Z) : builder :=
  builder_ ++ [Element U64 TrainDecomposed.VT_TRAIN_UID train_uid 0].
(* SRC autogens/proto/events_generated.h 1388-1390 TrainDecomposedBuilder::add_reason *)
Definition add_reason (builder_ : builder) (reason : Z) : builder :=
  builder_ ++ [Element I8 TrainDecomposed.VT_REASON reason 0].
(* SRC autogens/proto/events_generated.h 1395-1399 TrainDecomposedBuilder::Finish *)
Definition Finish (builder_ : builder) : option Obj := Some (EndTable builder_).
End Builder.
End TrainDecomposedBuilder.

Section TrainDecomposedFunctions.
Context {F : FlatBuffers}.
(* SRC autogens/proto/events_generated.h 1402-1410 CreateTrainDecomposed *)
Definition CreateTrainDecomposed (train_uid : Z) (reason : Z) : option Obj :=
  let builder_ := [] in
  let builder_ := TrainDecomposedBuilder.add_train_uid builder_ train_uid in
  let builder_ := TrainDecomposedBuilder.add_reason builder_ reason in
  TrainDecomposedBuilder.Finish builder_.
(* SRC autogens/proto/events_generated.h 2269-2274 TrainDecomposed::UnPackTo *)
Definition TrainDecomposed_UnPackTo (_o : TrainDecomposedT.t) (this_ : Obj) : option
    TrainDecomposedT.t :=
  train_uid ← TrainDecomposed.train_uid this_;
  reason ← TrainDecomposed.reason this_;
  Some (TrainDecomposedT.mk train_uid reason).
(* SRC autogens/proto/events_generated.h 2263-2267 TrainDecomposed::UnPack *)
Definition TrainDecomposed_UnPack (this_ : Obj) : option TrainDecomposedT.t :=
  TrainDecomposed_UnPackTo TrainDecomposedT.init this_.
(* SRC autogens/proto/events_generated.h 2280-2290 TrainDecomposed::Pack *)
Definition TrainDecomposed_Pack (_o : TrainDecomposedT.t) : option Obj :=
  let _train_uid := TrainDecomposedT.train_uid _o in
  let _reason := TrainDecomposedT.reason _o in
  CreateTrainDecomposed _train_uid _reason.
Definition TrainDecomposed_message : Message TrainDecomposedT.t :=
  mkMessage TrainDecomposed_Pack TrainDecomposed_UnPackTo TrainDecomposed_UnPack
      TrainDecomposed.Verify TrainDecomposedT.fits TrainDecomposedT.tables 1.
End TrainDecomposedFunctions.
Ltac unfold_TrainDecomposed := cbv beta iota zeta delta [TrainDecomposed_message
    TrainDecomposed_Pack TrainDecomposed_UnPack TrainDecomposed_UnPackTo CreateTrainDecomposed
    TrainDecomposedBuilder.add_train_uid TrainDecomposedBuilder.add_reason
    TrainDecomposedBuilder.Finish TrainDecomposed.train_uid TrainDecomposed.reason
    TrainDecomposed.Verify TrainDecomposedT.init TrainDecomposedT.fits TrainDecomposedT.tables
    TrainDecomposedT.train_uid TrainDecomposedT.reason] in *.
#[global] Instance TrainDecomposed_ok {F : FlatBuffers} {FO : FlatBuffersOk F} : MessageOk
    TrainDecomposed_message.
Proof. solve_message_with ltac:(fun _ => unfold_TrainDecomposed). Qed.
#[global] Arguments TrainDecomposed_Pack : simpl never.
#[global] Arguments TrainDecomposed_UnPackTo : simpl never.
#[global] Arguments TrainDecomposed_UnPack : simpl never.
#[global] Arguments TrainDecomposed.Verify : simpl never.
#[global] Arguments TrainDecomposedT.fits : simpl never.
#[global] Arguments TrainDecomposedT.tables : simpl never.
#[global] Typeclasses Opaque TrainDecomposed.Verify.

Module BlockDirectionStateChangedT.
(* SRC autogens/proto/events_generated.h 1414-1419 BlockDirectionStateChangedT *)
Record t : Type := mk {
  uid : Z;
  new_direction : Z;
  cause : Z }.
(* SRC autogens/proto/events_generated.h 1414-1419 BlockDirectionStateChangedT *)
Definition init : t := mk 0 (code BlockDirectionState.NEUTRAL) (code ChangeCause.COMMAND).
Definition fits (_o : t) : Prop :=
  in_range U64 (uid _o) = true /\
  in_range I8 (new_direction _o) = true /\
  in_range I8 (cause _o) = true.
Definition tables (_o : t) : Z := 1.
End BlockDirectionStateChangedT.

Module BlockDirectionStateChanged.
Notation VT_UID := 4 (only parsing).
Notation VT_NEW_DIRECTION := 6 (only parsing).
Notation VT_CAUSE := 8 (only parsing).
Section Table.
Context {F : FlatBuffers}.
(* SRC autogens/proto/events_generated.h 1429-1431 BlockDirectionStateChanged::uid *)
Definition uid (this_ : Obj) : option Z := GetField U64 this_ VT_UID 0.
(* SRC autogens/proto/events_generated.h 1432-1434 BlockDirectionStateChanged::new_direction *)
Definition new_direction (this_ : Obj) : option Z := GetField I8 this_ VT_NEW_DIRECTION 0.
(* SRC autogens/proto/events_generated.h 1435-1437 BlockDirectionStateChanged::cause *)
Definition cause (this_ : Obj) : option Z := GetField I8 this_ VT_CAUSE 0.
(* SRC autogens/proto/events_generated.h 1439-1445 BlockDirectionStateChanged::Verify *)
Definition Verify (this_ : Obj) : verification :=
  TableStart this_ &&>
  check (VerifyField U64 this_ VT_UID 8) &&>
  check (VerifyField I8 this_ VT_NEW_DIRECTION 1) &&>
  check (VerifyField I8 this_ VT_CAUSE 1) &&>
  TableEnd.
End Table.
End BlockDirectionStateChanged.

Module BlockDirectionStateChangedBuilder.
Section Builder.
Context {F : FlatBuffers}.
(* SRC autogens/proto/events_generated.h 1455-1457 BlockDirectionStateChangedBuilder::add_uid *)
Definition add_uid (builder_ : builder) (uid : Z) : builder :=
  builder_ ++ [Element U64 BlockDirectionStateChanged.VT_UID uid 0].
(* SRC autogens/proto/events_generated.h 1458-1460 BlockDirectionStateChangedBuilder::add_new_direction *)
Definition add_new_direction (builder_ : builder) (new_direction : Z) : builder :=
  builder_ ++ [Element I8 BlockDirectionStateChanged.VT_NEW_DIRECTION new_direction 0].
(* SRC autogens/proto/events_generated.h 1461-1463 BlockDirectionStateChangedBuilder::add_cause *)
Definition add_cause (builder_ : builder) (cause : Z) : builder :=
  builder_ ++ [Element I8 BlockDirectionStateChanged.VT_CAUSE cause 0].
(* SRC autogens/proto/events_generated.h 1468-1472 BlockDirectionStateChangedBuilder::Finish *)
Definition Finish (builder_ : builder) : option Obj := Some (EndTable builder_).
End Builder.
End BlockDirectionStateChangedBuilder.

Section BlockDirectionStateChangedFunctions.
Context {F : FlatBuffers}.
(* SRC autogens/proto/events_generated.h 1475-1485 CreateBlockDirectionStateChanged *)
Definition CreateBlockDirectionStateChanged (uid : Z) (new_direction : Z) (cause : Z) : option Obj
    :=
  let builder_ := [] in
  let builder_ := BlockDirectionStateChangedBuilder.add_uid builder_ uid in
  let builder_ := BlockDirectionStateChangedBuilder.add_cause builder_ cause in
  let builder_ := BlockDirectionStateChangedBuilder.add_new_direction builder_ new_direction in
  BlockDirectionStateChangedBuilder.Finish builder_.
(* SRC autogens/proto/events_generated.h 2298-2304 BlockDirectionStateChanged::UnPackTo *)
Definition BlockDirectionStateChanged_UnPackTo (_o : BlockDirectionStateChangedT.t) (this_ :
    Obj) : option BlockDirectionStateChangedT.t :=
  uid ← BlockDirectionStateChanged.uid this_;
  new_direction ← BlockDirectionStateChanged.new_direction this_;
  cause ← BlockDirectionStateChanged.cause this_;
  Some (BlockDirectionStateChangedT.mk uid new_direction cause).
(* SRC autogens/proto/events_generated.h 2292-2296 BlockDirectionStateChanged::UnPack *)
Definition BlockDirectionStateChanged_UnPack (this_ : Obj) : option
    BlockDirectionStateChangedT.t :=
  BlockDirectionStateChanged_UnPackTo BlockDirectionStateChangedT.init this_.
(* SRC autogens/proto/events_generated.h 2310-2322 BlockDirectionStateChanged::Pack *)
Definition BlockDirectionStateChanged_Pack (_o : BlockDirectionStateChangedT.t) : option Obj :=
  let _uid := BlockDirectionStateChangedT.uid _o in
  let _new_direction := BlockDirectionStateChangedT.new_direction _o in
  let _cause := BlockDirectionStateChangedT.cause _o in
  CreateBlockDirectionStateChanged _uid _new_direction _cause.
Definition BlockDirectionStateChanged_message : Message BlockDirectionStateChangedT.t :=
  mkMessage BlockDirectionStateChanged_Pack BlockDirectionStateChanged_UnPackTo
      BlockDirectionStateChanged_UnPack BlockDirectionStateChanged.Verify
      BlockDirectionStateChangedT.fits BlockDirectionStateChangedT.tables 1.
End BlockDirectionStateChangedFunctions.
Ltac unfold_BlockDirectionStateChanged := cbv beta iota zeta delta
    [BlockDirectionStateChanged_message BlockDirectionStateChanged_Pack
    BlockDirectionStateChanged_UnPack BlockDirectionStateChanged_UnPackTo
    CreateBlockDirectionStateChanged BlockDirectionStateChangedBuilder.add_uid
    BlockDirectionStateChangedBuilder.add_new_direction BlockDirectionStateChangedBuilder.add_cause
    BlockDirectionStateChangedBuilder.Finish BlockDirectionStateChanged.uid
    BlockDirectionStateChanged.new_direction BlockDirectionStateChanged.cause
    BlockDirectionStateChanged.Verify BlockDirectionStateChangedT.init
    BlockDirectionStateChangedT.fits BlockDirectionStateChangedT.tables
    BlockDirectionStateChangedT.uid BlockDirectionStateChangedT.new_direction
    BlockDirectionStateChangedT.cause] in *.
#[global] Instance BlockDirectionStateChanged_ok {F : FlatBuffers} {FO : FlatBuffersOk F} :
    MessageOk BlockDirectionStateChanged_message.
Proof. solve_message_with ltac:(fun _ => unfold_BlockDirectionStateChanged). Qed.
#[global] Arguments BlockDirectionStateChanged_Pack : simpl never.
#[global] Arguments BlockDirectionStateChanged_UnPackTo : simpl never.
#[global] Arguments BlockDirectionStateChanged_UnPack : simpl never.
#[global] Arguments BlockDirectionStateChanged.Verify : simpl never.
#[global] Arguments BlockDirectionStateChangedT.fits : simpl never.
#[global] Arguments BlockDirectionStateChangedT.tables : simpl never.
#[global] Typeclasses Opaque BlockDirectionStateChanged.Verify.

Module OperatorCommandStateChangedT.
(* SRC autogens/proto/events_generated.h 1489-1495 OperatorCommandStateChangedT *)
Record t : Type := mk {
  uid : Z;
  target_kind : Z;
  command_code : Z;
  active : bool }.
(* SRC autogens/proto/events_generated.h 1489-1495 OperatorCommandStateChangedT *)
Definition init : t := mk 0 (code OperatorTargetKind.SIGNAL) (code OperatorCommandCode.SES) false.
Definition fits (_o : t) : Prop :=
  in_range U64 (uid _o) = true /\
  in_range I8 (target_kind _o) = true /\
  in_range I8 (command_code _o) = true.
Definition tables (_o : t) : Z := 1.
End OperatorCommandStateChangedT.

Module OperatorCommandStateChanged.
Notation VT_UID := 4 (only parsing).
Notation VT_TARGET_KIND := 6 (only parsing).
Notation VT_COMMAND_CODE := 8 (only parsing).
Notation VT_ACTIVE := 10 (only parsing).
Section Table.
Context {F : FlatBuffers}.
(* SRC autogens/proto/events_generated.h 1506-1508 OperatorCommandStateChanged::uid *)
Definition uid (this_ : Obj) : option Z := GetField U64 this_ VT_UID 0.
(* SRC autogens/proto/events_generated.h 1509-1511 OperatorCommandStateChanged::target_kind *)
Definition target_kind (this_ : Obj) : option Z := GetField I8 this_ VT_TARGET_KIND 0.
(* SRC autogens/proto/events_generated.h 1512-1514 OperatorCommandStateChanged::command_code *)
Definition command_code (this_ : Obj) : option Z := GetField I8 this_ VT_COMMAND_CODE 0.
(* SRC autogens/proto/events_generated.h 1515-1517 OperatorCommandStateChanged::active *)
Definition active (this_ : Obj) : option bool :=
  e ← GetField U8 this_ VT_ACTIVE 0; Some (negb (e =? 0)).
(* SRC autogens/proto/events_generated.h 1519-1526 OperatorCommandStateChanged::Verify *)
Definition Verify (this_ : Obj) : verification :=
  TableStart this_ &&>
  check (VerifyField U64 this_ VT_UID 8) &&>
  check (VerifyField I8 this_ VT_TARGET_KIND 1) &&>
  check (VerifyField I8 this_ VT_COMMAND_CODE 1) &&>
  check (VerifyField U8 this_ VT_ACTIVE 1) &&>
  TableEnd.
End Table.
End OperatorCommandStateChanged.

Module OperatorCommandStateChangedBuilder.
Section Builder.
Context {F : FlatBuffers}.
(* SRC autogens/proto/events_generated.h 1536-1538 OperatorCommandStateChangedBuilder::add_uid *)
Definition add_uid (builder_ : builder) (uid : Z) : builder :=
  builder_ ++ [Element U64 OperatorCommandStateChanged.VT_UID uid 0].
(* SRC autogens/proto/events_generated.h 1539-1541 OperatorCommandStateChangedBuilder::add_target_kind *)
Definition add_target_kind (builder_ : builder) (target_kind : Z) : builder :=
  builder_ ++ [Element I8 OperatorCommandStateChanged.VT_TARGET_KIND target_kind 0].
(* SRC autogens/proto/events_generated.h 1542-1544 OperatorCommandStateChangedBuilder::add_command_code *)
Definition add_command_code (builder_ : builder) (command_code : Z) : builder :=
  builder_ ++ [Element I8 OperatorCommandStateChanged.VT_COMMAND_CODE command_code 0].
(* SRC autogens/proto/events_generated.h 1545-1547 OperatorCommandStateChangedBuilder::add_active *)
Definition add_active (builder_ : builder) (active : bool) : builder :=
  builder_ ++ [Element U8 OperatorCommandStateChanged.VT_ACTIVE (Z.b2z active) 0].
(* SRC autogens/proto/events_generated.h 1552-1556 OperatorCommandStateChangedBuilder::Finish *)
Definition Finish (builder_ : builder) : option Obj := Some (EndTable builder_).
End Builder.
End OperatorCommandStateChangedBuilder.

Section OperatorCommandStateChangedFunctions.
Context {F : FlatBuffers}.
(* SRC autogens/proto/events_generated.h 1559-1571 CreateOperatorCommandStateChanged *)
Definition CreateOperatorCommandStateChanged (uid : Z) (target_kind : Z) (command_code : Z)
    (active : bool) : option Obj :=
  let builder_ := [] in
  let builder_ := OperatorCommandStateChangedBuilder.add_uid builder_ uid in
  let builder_ := OperatorCommandStateChangedBuilder.add_active builder_ active in
  let builder_ := OperatorCommandStateChangedBuilder.add_command_code builder_ command_code in
  let builder_ := OperatorCommandStateChangedBuilder.add_target_kind builder_ target_kind in
  OperatorCommandStateChangedBuilder.Finish builder_.
(* SRC autogens/proto/events_generated.h 2330-2337 OperatorCommandStateChanged::UnPackTo *)
Definition OperatorCommandStateChanged_UnPackTo (_o : OperatorCommandStateChangedT.t) (this_ :
    Obj) : option OperatorCommandStateChangedT.t :=
  uid ← OperatorCommandStateChanged.uid this_;
  target_kind ← OperatorCommandStateChanged.target_kind this_;
  command_code ← OperatorCommandStateChanged.command_code this_;
  active ← OperatorCommandStateChanged.active this_;
  Some (OperatorCommandStateChangedT.mk uid target_kind command_code active).
(* SRC autogens/proto/events_generated.h 2324-2328 OperatorCommandStateChanged::UnPack *)
Definition OperatorCommandStateChanged_UnPack (this_ : Obj) : option
    OperatorCommandStateChangedT.t :=
  OperatorCommandStateChanged_UnPackTo OperatorCommandStateChangedT.init this_.
(* SRC autogens/proto/events_generated.h 2343-2357 OperatorCommandStateChanged::Pack *)
Definition OperatorCommandStateChanged_Pack (_o : OperatorCommandStateChangedT.t) : option Obj :=
  let _uid := OperatorCommandStateChangedT.uid _o in
  let _target_kind := OperatorCommandStateChangedT.target_kind _o in
  let _command_code := OperatorCommandStateChangedT.command_code _o in
  let _active := OperatorCommandStateChangedT.active _o in
  CreateOperatorCommandStateChanged _uid _target_kind _command_code _active.
Definition OperatorCommandStateChanged_message : Message OperatorCommandStateChangedT.t :=
  mkMessage OperatorCommandStateChanged_Pack OperatorCommandStateChanged_UnPackTo
      OperatorCommandStateChanged_UnPack OperatorCommandStateChanged.Verify
      OperatorCommandStateChangedT.fits OperatorCommandStateChangedT.tables 1.
End OperatorCommandStateChangedFunctions.
Ltac unfold_OperatorCommandStateChanged := cbv beta iota zeta delta
    [OperatorCommandStateChanged_message OperatorCommandStateChanged_Pack
    OperatorCommandStateChanged_UnPack OperatorCommandStateChanged_UnPackTo
    CreateOperatorCommandStateChanged OperatorCommandStateChangedBuilder.add_uid
    OperatorCommandStateChangedBuilder.add_target_kind
    OperatorCommandStateChangedBuilder.add_command_code
        OperatorCommandStateChangedBuilder.add_active
    OperatorCommandStateChangedBuilder.Finish OperatorCommandStateChanged.uid
    OperatorCommandStateChanged.target_kind OperatorCommandStateChanged.command_code
    OperatorCommandStateChanged.active OperatorCommandStateChanged.Verify
    OperatorCommandStateChangedT.init OperatorCommandStateChangedT.fits
    OperatorCommandStateChangedT.tables OperatorCommandStateChangedT.uid
    OperatorCommandStateChangedT.target_kind OperatorCommandStateChangedT.command_code
    OperatorCommandStateChangedT.active] in *.
#[global] Instance OperatorCommandStateChanged_ok {F : FlatBuffers} {FO : FlatBuffersOk F} :
    MessageOk OperatorCommandStateChanged_message.
Proof. solve_message_with ltac:(fun _ => unfold_OperatorCommandStateChanged). Qed.
#[global] Arguments OperatorCommandStateChanged_Pack : simpl never.
#[global] Arguments OperatorCommandStateChanged_UnPackTo : simpl never.
#[global] Arguments OperatorCommandStateChanged_UnPack : simpl never.
#[global] Arguments OperatorCommandStateChanged.Verify : simpl never.
#[global] Arguments OperatorCommandStateChangedT.fits : simpl never.
#[global] Arguments OperatorCommandStateChangedT.tables : simpl never.
#[global] Typeclasses Opaque OperatorCommandStateChanged.Verify.

Module Ml8CommandStateChangedT.
(* SRC autogens/proto/events_generated.h 1575-1581 Ml8CommandStateChangedT *)
Record t : Type := mk {
  uid : Z;
  target_kind : Z;
  command_code : Z;
  active : bool }.
(* SRC autogens/proto/events_generated.h 1575-1581 Ml8CommandStateChangedT *)
Definition init : t := mk 0 (code OperatorTargetKind.SIGNAL) (code Ml8CommandCode.AK) false.
Definition fits (_o : t) : Prop :=
  in_range U64 (uid _o) = true /\
  in_range I8 (target_kind _o) = true /\
  in_range I8 (command_code _o) = true.
Definition tables (_o : t) : Z := 1.
End Ml8CommandStateChangedT.

Module Ml8CommandStateChanged.
Notation VT_UID := 4 (only parsing).
Notation VT_TARGET_KIND := 6 (only parsing).
Notation VT_COMMAND_CODE := 8 (only parsing).
Notation VT_ACTIVE := 10 (only parsing).
Section Table.
Context {F : FlatBuffers}.
(* SRC autogens/proto/events_generated.h 1592-1594 Ml8CommandStateChanged::uid *)
Definition uid (this_ : Obj) : option Z := GetField U64 this_ VT_UID 0.
(* SRC autogens/proto/events_generated.h 1595-1597 Ml8CommandStateChanged::target_kind *)
Definition target_kind (this_ : Obj) : option Z := GetField I8 this_ VT_TARGET_KIND 0.
(* SRC autogens/proto/events_generated.h 1598-1600 Ml8CommandStateChanged::command_code *)
Definition command_code (this_ : Obj) : option Z := GetField I8 this_ VT_COMMAND_CODE 0.
(* SRC autogens/proto/events_generated.h 1601-1603 Ml8CommandStateChanged::active *)
Definition active (this_ : Obj) : option bool :=
  e ← GetField U8 this_ VT_ACTIVE 0; Some (negb (e =? 0)).
(* SRC autogens/proto/events_generated.h 1605-1612 Ml8CommandStateChanged::Verify *)
Definition Verify (this_ : Obj) : verification :=
  TableStart this_ &&>
  check (VerifyField U64 this_ VT_UID 8) &&>
  check (VerifyField I8 this_ VT_TARGET_KIND 1) &&>
  check (VerifyField I8 this_ VT_COMMAND_CODE 1) &&>
  check (VerifyField U8 this_ VT_ACTIVE 1) &&>
  TableEnd.
End Table.
End Ml8CommandStateChanged.

Module Ml8CommandStateChangedBuilder.
Section Builder.
Context {F : FlatBuffers}.
(* SRC autogens/proto/events_generated.h 1622-1624 Ml8CommandStateChangedBuilder::add_uid *)
Definition add_uid (builder_ : builder) (uid : Z) : builder :=
  builder_ ++ [Element U64 Ml8CommandStateChanged.VT_UID uid 0].
(* SRC autogens/proto/events_generated.h 1625-1627 Ml8CommandStateChangedBuilder::add_target_kind *)
Definition add_target_kind (builder_ : builder) (target_kind : Z) : builder :=
  builder_ ++ [Element I8 Ml8CommandStateChanged.VT_TARGET_KIND target_kind 0].
(* SRC autogens/proto/events_generated.h 1628-1630 Ml8CommandStateChangedBuilder::add_command_code *)
Definition add_command_code (builder_ : builder) (command_code : Z) : builder :=
  builder_ ++ [Element I8 Ml8CommandStateChanged.VT_COMMAND_CODE command_code 0].
(* SRC autogens/proto/events_generated.h 1631-1633 Ml8CommandStateChangedBuilder::add_active *)
Definition add_active (builder_ : builder) (active : bool) : builder :=
  builder_ ++ [Element U8 Ml8CommandStateChanged.VT_ACTIVE (Z.b2z active) 0].
(* SRC autogens/proto/events_generated.h 1638-1642 Ml8CommandStateChangedBuilder::Finish *)
Definition Finish (builder_ : builder) : option Obj := Some (EndTable builder_).
End Builder.
End Ml8CommandStateChangedBuilder.

Section Ml8CommandStateChangedFunctions.
Context {F : FlatBuffers}.
(* SRC autogens/proto/events_generated.h 1645-1657 CreateMl8CommandStateChanged *)
Definition CreateMl8CommandStateChanged (uid : Z) (target_kind : Z) (command_code : Z) (active :
    bool) : option Obj :=
  let builder_ := [] in
  let builder_ := Ml8CommandStateChangedBuilder.add_uid builder_ uid in
  let builder_ := Ml8CommandStateChangedBuilder.add_active builder_ active in
  let builder_ := Ml8CommandStateChangedBuilder.add_command_code builder_ command_code in
  let builder_ := Ml8CommandStateChangedBuilder.add_target_kind builder_ target_kind in
  Ml8CommandStateChangedBuilder.Finish builder_.
(* SRC autogens/proto/events_generated.h 2365-2372 Ml8CommandStateChanged::UnPackTo *)
Definition Ml8CommandStateChanged_UnPackTo (_o : Ml8CommandStateChangedT.t) (this_ : Obj) :
    option Ml8CommandStateChangedT.t :=
  uid ← Ml8CommandStateChanged.uid this_;
  target_kind ← Ml8CommandStateChanged.target_kind this_;
  command_code ← Ml8CommandStateChanged.command_code this_;
  active ← Ml8CommandStateChanged.active this_;
  Some (Ml8CommandStateChangedT.mk uid target_kind command_code active).
(* SRC autogens/proto/events_generated.h 2359-2363 Ml8CommandStateChanged::UnPack *)
Definition Ml8CommandStateChanged_UnPack (this_ : Obj) : option Ml8CommandStateChangedT.t :=
  Ml8CommandStateChanged_UnPackTo Ml8CommandStateChangedT.init this_.
(* SRC autogens/proto/events_generated.h 2378-2392 Ml8CommandStateChanged::Pack *)
Definition Ml8CommandStateChanged_Pack (_o : Ml8CommandStateChangedT.t) : option Obj :=
  let _uid := Ml8CommandStateChangedT.uid _o in
  let _target_kind := Ml8CommandStateChangedT.target_kind _o in
  let _command_code := Ml8CommandStateChangedT.command_code _o in
  let _active := Ml8CommandStateChangedT.active _o in
  CreateMl8CommandStateChanged _uid _target_kind _command_code _active.
Definition Ml8CommandStateChanged_message : Message Ml8CommandStateChangedT.t :=
  mkMessage Ml8CommandStateChanged_Pack Ml8CommandStateChanged_UnPackTo
      Ml8CommandStateChanged_UnPack Ml8CommandStateChanged.Verify Ml8CommandStateChangedT.fits
      Ml8CommandStateChangedT.tables 1.
End Ml8CommandStateChangedFunctions.
Ltac unfold_Ml8CommandStateChanged := cbv beta iota zeta delta [Ml8CommandStateChanged_message
    Ml8CommandStateChanged_Pack Ml8CommandStateChanged_UnPack Ml8CommandStateChanged_UnPackTo
    CreateMl8CommandStateChanged Ml8CommandStateChangedBuilder.add_uid
    Ml8CommandStateChangedBuilder.add_target_kind Ml8CommandStateChangedBuilder.add_command_code
    Ml8CommandStateChangedBuilder.add_active Ml8CommandStateChangedBuilder.Finish
    Ml8CommandStateChanged.uid Ml8CommandStateChanged.target_kind
        Ml8CommandStateChanged.command_code
    Ml8CommandStateChanged.active Ml8CommandStateChanged.Verify Ml8CommandStateChangedT.init
    Ml8CommandStateChangedT.fits Ml8CommandStateChangedT.tables Ml8CommandStateChangedT.uid
    Ml8CommandStateChangedT.target_kind Ml8CommandStateChangedT.command_code
    Ml8CommandStateChangedT.active] in *.
#[global] Instance Ml8CommandStateChanged_ok {F : FlatBuffers} {FO : FlatBuffersOk F} :
    MessageOk Ml8CommandStateChanged_message.
Proof. solve_message_with ltac:(fun _ => unfold_Ml8CommandStateChanged). Qed.
#[global] Arguments Ml8CommandStateChanged_Pack : simpl never.
#[global] Arguments Ml8CommandStateChanged_UnPackTo : simpl never.
#[global] Arguments Ml8CommandStateChanged_UnPack : simpl never.
#[global] Arguments Ml8CommandStateChanged.Verify : simpl never.
#[global] Arguments Ml8CommandStateChangedT.fits : simpl never.
#[global] Arguments Ml8CommandStateChangedT.tables : simpl never.
#[global] Typeclasses Opaque Ml8CommandStateChanged.Verify.

Module DispatchTelegramStateChangedT.
(* SRC autogens/proto/events_generated.h 1661-1671 DispatchTelegramStateChangedT *)
Record t : Type := mk {
  exchange_uid : Z;
  src_area_uid : Z;
  dst_area_uid : Z;
  form_type : Z;
  direction : Z;
  train_number : string;
  new_status : Z;
  timestamp_us : Z }.
(* SRC autogens/proto/events_generated.h 1661-1671 DispatchTelegramStateChangedT *)
Definition init : t :=
  mk 0 0 0 (code DispatchFormType.S2) (code TelegramDirection.SENT) "" (code
    ExchangeStatus.PENDING) 0.
Definition fits (_o : t) : Prop :=
  in_range U64 (exchange_uid _o) = true /\
  in_range U64 (src_area_uid _o) = true /\
  in_range U64 (dst_area_uid _o) = true /\
  in_range I8 (form_type _o) = true /\
  in_range I8 (direction _o) = true /\
  in_range I8 (new_status _o) = true /\
  in_range U64 (timestamp_us _o) = true.
Definition tables (_o : t) : Z := 1.
End DispatchTelegramStateChangedT.

Module DispatchTelegramStateChanged.
Notation VT_EXCHANGE_UID := 4 (only parsing).
Notation VT_SRC_AREA_UID := 6 (only parsing).
Notation VT_DST_AREA_UID := 8 (only parsing).
Notation VT_FORM_TYPE := 10 (only parsing).
Notation VT_DIRECTION := 12 (only parsing).
Notation VT_TRAIN_NUMBER := 14 (only parsing).
Notation VT_NEW_STATUS := 16 (only parsing).
Notation VT_TIMESTAMP_US := 18 (only parsing).
Section Table.
Context {F : FlatBuffers}.
(* SRC autogens/proto/events_generated.h 1686-1688 DispatchTelegramStateChanged::exchange_uid *)
Definition exchange_uid (this_ : Obj) : option Z := GetField U64 this_ VT_EXCHANGE_UID 0.
(* SRC autogens/proto/events_generated.h 1689-1691 DispatchTelegramStateChanged::src_area_uid *)
Definition src_area_uid (this_ : Obj) : option Z := GetField U64 this_ VT_SRC_AREA_UID 0.
(* SRC autogens/proto/events_generated.h 1692-1694 DispatchTelegramStateChanged::dst_area_uid *)
Definition dst_area_uid (this_ : Obj) : option Z := GetField U64 this_ VT_DST_AREA_UID 0.
(* SRC autogens/proto/events_generated.h 1695-1697 DispatchTelegramStateChanged::form_type *)
Definition form_type (this_ : Obj) : option Z := GetField I8 this_ VT_FORM_TYPE 0.
(* SRC autogens/proto/events_generated.h 1698-1700 DispatchTelegramStateChanged::direction *)
Definition direction (this_ : Obj) : option Z := GetField I8 this_ VT_DIRECTION 0.
(* SRC autogens/proto/events_generated.h 1701-1703 DispatchTelegramStateChanged::train_number *)
Definition train_number (this_ : Obj) : option (option Obj) := GetPointer this_ VT_TRAIN_NUMBER.
(* SRC autogens/proto/events_generated.h 1704-1706 DispatchTelegramStateChanged::new_status *)
Definition new_status (this_ : Obj) : option Z := GetField I8 this_ VT_NEW_STATUS 0.
(* SRC autogens/proto/events_generated.h 1707-1709 DispatchTelegramStateChanged::timestamp_us *)
Definition timestamp_us (this_ : Obj) : option Z := GetField U64 this_ VT_TIMESTAMP_US 0.
(* SRC autogens/proto/events_generated.h 1711-1723 DispatchTelegramStateChanged::Verify *)
Definition Verify (this_ : Obj) : verification :=
  TableStart this_ &&>
  check (VerifyField U64 this_ VT_EXCHANGE_UID 8) &&>
  check (VerifyField U64 this_ VT_SRC_AREA_UID 8) &&>
  check (VerifyField U64 this_ VT_DST_AREA_UID 8) &&>
  check (VerifyField I8 this_ VT_FORM_TYPE 1) &&>
  check (VerifyField I8 this_ VT_DIRECTION 1) &&>
  check (VerifyOffset this_ VT_TRAIN_NUMBER) &&>
  check_string (train_number this_) &&>
  check (VerifyField I8 this_ VT_NEW_STATUS 1) &&>
  check (VerifyField U64 this_ VT_TIMESTAMP_US 8) &&>
  TableEnd.
End Table.
End DispatchTelegramStateChanged.

Module DispatchTelegramStateChangedBuilder.
Section Builder.
Context {F : FlatBuffers}.
(* SRC autogens/proto/events_generated.h 1733-1735 DispatchTelegramStateChangedBuilder::add_exchange_uid *)
Definition add_exchange_uid (builder_ : builder) (exchange_uid : Z) : builder :=
  builder_ ++ [Element U64 DispatchTelegramStateChanged.VT_EXCHANGE_UID exchange_uid 0].
(* SRC autogens/proto/events_generated.h 1736-1738 DispatchTelegramStateChangedBuilder::add_src_area_uid *)
Definition add_src_area_uid (builder_ : builder) (src_area_uid : Z) : builder :=
  builder_ ++ [Element U64 DispatchTelegramStateChanged.VT_SRC_AREA_UID src_area_uid 0].
(* SRC autogens/proto/events_generated.h 1739-1741 DispatchTelegramStateChangedBuilder::add_dst_area_uid *)
Definition add_dst_area_uid (builder_ : builder) (dst_area_uid : Z) : builder :=
  builder_ ++ [Element U64 DispatchTelegramStateChanged.VT_DST_AREA_UID dst_area_uid 0].
(* SRC autogens/proto/events_generated.h 1742-1744 DispatchTelegramStateChangedBuilder::add_form_type *)
Definition add_form_type (builder_ : builder) (form_type : Z) : builder :=
  builder_ ++ [Element I8 DispatchTelegramStateChanged.VT_FORM_TYPE form_type 0].
(* SRC autogens/proto/events_generated.h 1745-1747 DispatchTelegramStateChangedBuilder::add_direction *)
Definition add_direction (builder_ : builder) (direction : Z) : builder :=
  builder_ ++ [Element I8 DispatchTelegramStateChanged.VT_DIRECTION direction 0].
(* SRC autogens/proto/events_generated.h 1748-1750 DispatchTelegramStateChangedBuilder::add_train_number *)
Definition add_train_number (builder_ : builder) (train_number : option Obj) : builder :=
  builder_ ++ [OffsetAt DispatchTelegramStateChanged.VT_TRAIN_NUMBER train_number].
(* SRC autogens/proto/events_generated.h 1751-1753 DispatchTelegramStateChangedBuilder::add_new_status *)
Definition add_new_status (builder_ : builder) (new_status : Z) : builder :=
  builder_ ++ [Element I8 DispatchTelegramStateChanged.VT_NEW_STATUS new_status 0].
(* SRC autogens/proto/events_generated.h 1754-1756 DispatchTelegramStateChangedBuilder::add_timestamp_us *)
Definition add_timestamp_us (builder_ : builder) (timestamp_us : Z) : builder :=
  builder_ ++ [Element U64 DispatchTelegramStateChanged.VT_TIMESTAMP_US timestamp_us 0].
(* SRC autogens/proto/events_generated.h 1761-1765 DispatchTelegramStateChangedBuilder::Finish *)
Definition Finish (builder_ : builder) : option Obj := Some (EndTable builder_).
End Builder.
End DispatchTelegramStateChangedBuilder.

Section DispatchTelegramStateChangedFunctions.
Context {F : FlatBuffers}.
(* SRC autogens/proto/events_generated.h 1768-1788 CreateDispatchTelegramStateChanged *)
Definition CreateDispatchTelegramStateChanged (exchange_uid : Z) (src_area_uid : Z) (dst_area_uid
    : Z) (form_type : Z) (direction : Z) (train_number : option Obj) (new_status : Z)
        (timestamp_us :
    Z) : option Obj :=
  let builder_ := [] in
  let builder_ := DispatchTelegramStateChangedBuilder.add_timestamp_us builder_ timestamp_us in
  let builder_ := DispatchTelegramStateChangedBuilder.add_dst_area_uid builder_ dst_area_uid in
  let builder_ := DispatchTelegramStateChangedBuilder.add_src_area_uid builder_ src_area_uid in
  let builder_ := DispatchTelegramStateChangedBuilder.add_exchange_uid builder_ exchange_uid in
  let builder_ := DispatchTelegramStateChangedBuilder.add_train_number builder_ train_number in
  let builder_ := DispatchTelegramStateChangedBuilder.add_new_status builder_ new_status in
  let builder_ := DispatchTelegramStateChangedBuilder.add_direction builder_ direction in
  let builder_ := DispatchTelegramStateChangedBuilder.add_form_type builder_ form_type in
  DispatchTelegramStateChangedBuilder.Finish builder_.
(* SRC autogens/proto/events_generated.h 1790-1811 CreateDispatchTelegramStateChangedDirect *)
Definition CreateDispatchTelegramStateChangedDirect (exchange_uid : Z) (src_area_uid : Z)
    (dst_area_uid : Z) (form_type : Z) (direction : Z) (train_number : option string)
        (new_status : Z)
    (timestamp_us : Z) : option Obj :=
  let train_number__ := CreateString <$> train_number in
  CreateDispatchTelegramStateChanged exchange_uid src_area_uid dst_area_uid form_type direction
    train_number__ new_status timestamp_us.
(* SRC autogens/proto/events_generated.h 2400-2411 DispatchTelegramStateChanged::UnPackTo *)
Definition DispatchTelegramStateChanged_UnPackTo (_o : DispatchTelegramStateChangedT.t) (this_ :
    Obj) : option DispatchTelegramStateChangedT.t :=
  exchange_uid ← DispatchTelegramStateChanged.exchange_uid this_;
  src_area_uid ← DispatchTelegramStateChanged.src_area_uid this_;
  dst_area_uid ← DispatchTelegramStateChanged.dst_area_uid this_;
  form_type ← DispatchTelegramStateChanged.form_type this_;
  direction ← DispatchTelegramStateChanged.direction this_;
  train_number ← (_e ← DispatchTelegramStateChanged.train_number this_; UnPackString
      (DispatchTelegramStateChangedT.train_number _o) _e);
  new_status ← DispatchTelegramStateChanged.new_status this_;
  timestamp_us ← DispatchTelegramStateChanged.timestamp_us this_;
  Some (DispatchTelegramStateChangedT.mk exchange_uid src_area_uid dst_area_uid form_type
    direction train_number new_status timestamp_us).
(* SRC autogens/proto/events_generated.h 2394-2398 DispatchTelegramStateChanged::UnPack *)
Definition DispatchTelegramStateChanged_UnPack (this_ : Obj) : option
    DispatchTelegramStateChangedT.t :=
  DispatchTelegramStateChanged_UnPackTo DispatchTelegramStateChangedT.init this_.
(* SRC autogens/proto/events_generated.h 2417-2439 DispatchTelegramStateChanged::Pack *)
Definition DispatchTelegramStateChanged_Pack (_o : DispatchTelegramStateChangedT.t) : option Obj :=
  let _exchange_uid := DispatchTelegramStateChangedT.exchange_uid _o in
  let _src_area_uid := DispatchTelegramStateChangedT.src_area_uid _o in
  let _dst_area_uid := DispatchTelegramStateChangedT.dst_area_uid _o in
  let _form_type := DispatchTelegramStateChangedT.form_type _o in
  let _direction := DispatchTelegramStateChangedT.direction _o in
  let _train_number := PackString (DispatchTelegramStateChangedT.train_number _o) in
  let _new_status := DispatchTelegramStateChangedT.new_status _o in
  let _timestamp_us := DispatchTelegramStateChangedT.timestamp_us _o in
  CreateDispatchTelegramStateChanged _exchange_uid _src_area_uid _dst_area_uid _form_type
    _direction _train_number _new_status _timestamp_us.
Definition DispatchTelegramStateChanged_message : Message DispatchTelegramStateChangedT.t :=
  mkMessage DispatchTelegramStateChanged_Pack DispatchTelegramStateChanged_UnPackTo
      DispatchTelegramStateChanged_UnPack DispatchTelegramStateChanged.Verify
      DispatchTelegramStateChangedT.fits DispatchTelegramStateChangedT.tables 1.
End DispatchTelegramStateChangedFunctions.
Ltac unfold_DispatchTelegramStateChanged := cbv beta iota zeta delta
    [DispatchTelegramStateChanged_message DispatchTelegramStateChanged_Pack
    DispatchTelegramStateChanged_UnPack DispatchTelegramStateChanged_UnPackTo
    CreateDispatchTelegramStateChanged DispatchTelegramStateChangedBuilder.add_exchange_uid
    DispatchTelegramStateChangedBuilder.add_src_area_uid
    DispatchTelegramStateChangedBuilder.add_dst_area_uid
    DispatchTelegramStateChangedBuilder.add_form_type
    DispatchTelegramStateChangedBuilder.add_direction
    DispatchTelegramStateChangedBuilder.add_train_number
    DispatchTelegramStateChangedBuilder.add_new_status
    DispatchTelegramStateChangedBuilder.add_timestamp_us DispatchTelegramStateChangedBuilder.Finish
    DispatchTelegramStateChanged.exchange_uid DispatchTelegramStateChanged.src_area_uid
    DispatchTelegramStateChanged.dst_area_uid DispatchTelegramStateChanged.form_type
    DispatchTelegramStateChanged.direction DispatchTelegramStateChanged.train_number
    DispatchTelegramStateChanged.new_status DispatchTelegramStateChanged.timestamp_us
    DispatchTelegramStateChanged.Verify DispatchTelegramStateChangedT.init
    DispatchTelegramStateChangedT.fits DispatchTelegramStateChangedT.tables
    DispatchTelegramStateChangedT.exchange_uid DispatchTelegramStateChangedT.src_area_uid
    DispatchTelegramStateChangedT.dst_area_uid DispatchTelegramStateChangedT.form_type
    DispatchTelegramStateChangedT.direction DispatchTelegramStateChangedT.train_number
    DispatchTelegramStateChangedT.new_status DispatchTelegramStateChangedT.timestamp_us] in *.
#[global] Instance DispatchTelegramStateChanged_ok {F : FlatBuffers} {FO : FlatBuffersOk F} :
    MessageOk DispatchTelegramStateChanged_message.
Proof. solve_message_with ltac:(fun _ => unfold_DispatchTelegramStateChanged). Qed.
#[global] Arguments DispatchTelegramStateChanged_Pack : simpl never.
#[global] Arguments DispatchTelegramStateChanged_UnPackTo : simpl never.
#[global] Arguments DispatchTelegramStateChanged_UnPack : simpl never.
#[global] Arguments DispatchTelegramStateChanged.Verify : simpl never.
#[global] Arguments DispatchTelegramStateChangedT.fits : simpl never.
#[global] Arguments DispatchTelegramStateChangedT.tables : simpl never.
#[global] Typeclasses Opaque DispatchTelegramStateChanged.Verify.

End proto.
