(* ===== verification/ProtoSnapshot.v ===== *)
(** * ProtoSnapshot: the snapshot message

    [autogens/proto/snapshot_generated.h]: the tables of a full state, nested
    in [Snapshot] as vectors of tables, as [ProtoCommands] has its tables. *)
From S2P Require Import Prelude Float32 Frame Flat ProtoCommon ProtoCommands.
Local Open Scope Z_scope.

Module proto.
Import ProtoCommon.proto.
Import ProtoCommands.proto.

Module OperatorCommandRuntimeStateT.
(* SRC autogens/proto/snapshot_generated.h 65-79 OperatorCommandRuntimeStateT *)
Record t : Type := mk {
  stopped : bool;
  substitute_initialized : bool;
  substitute_active : bool;
  automatic_route_enabled : bool;
  clamped : bool;
  traffic_closed : bool;
  detection_bypassed : bool;
  special_initialized : bool;
  special_active : bool;
  axle_reset_initialized : bool;
  ml8_command_active : bool;
  ml8_command_code : Z }.
(* SRC autogens/proto/snapshot_generated.h 65-79 OperatorCommandRuntimeStateT *)
Definition init : t :=
  mk false false false false false false false false false false false (code Ml8CommandCode.AK).
Definition fits (_o : t) : Prop :=
  in_range I8 (ml8_command_code _o) = true.
Definition tables (_o : t) : Z := 1.
End OperatorCommandRuntimeStateT.

Module OperatorCommandRuntimeState.
Notation VT_STOPPED := 4 (only parsing).
Notation VT_SUBSTITUTE_INITIALIZED := 6 (only parsing).
Notation VT_SUBSTITUTE_ACTIVE := 8 (only parsing).
Notation VT_AUTOMATIC_ROUTE_ENABLED := 10 (only parsing).
Notation VT_CLAMPED := 12 (only parsing).
Notation VT_TRAFFIC_CLOSED := 14 (only parsing).
Notation VT_DETECTION_BYPASSED := 16 (only parsing).
Notation VT_SPECIAL_INITIALIZED := 18 (only parsing).
Notation VT_SPECIAL_ACTIVE := 20 (only parsing).
Notation VT_AXLE_RESET_INITIALIZED := 22 (only parsing).
Notation VT_ML8_COMMAND_ACTIVE := 24 (only parsing).
Notation VT_ML8_COMMAND_CODE := 26 (only parsing).
Section Table.
Context {F : FlatBuffers}.
(* SRC autogens/proto/snapshot_generated.h 98-100 OperatorCommandRuntimeState::stopped *)
Definition stopped (this_ : Obj) : option bool :=
  e ← GetField U8 this_ VT_STOPPED 0; Some (negb (e =? 0)).
(* SRC autogens/proto/snapshot_generated.h 101-103 OperatorCommandRuntimeState::substitute_initialized *)
Definition substitute_initialized (this_ : Obj) : option bool :=
  e ← GetField U8 this_ VT_SUBSTITUTE_INITIALIZED 0; Some (negb (e =? 0)).
(* SRC autogens/proto/snapshot_generated.h 104-106 OperatorCommandRuntimeState::substitute_active *)
Definition substitute_active (this_ : Obj) : option bool :=
  e ← GetField U8 this_ VT_SUBSTITUTE_ACTIVE 0; Some (negb (e =? 0)).
(* SRC autogens/proto/snapshot_generated.h 107-109 OperatorCommandRuntimeState::automatic_route_enabled *)
Definition automatic_route_enabled (this_ : Obj) : option bool :=
  e ← GetField U8 this_ VT_AUTOMATIC_ROUTE_ENABLED 0; Some (negb (e =? 0)).
(* SRC autogens/proto/snapshot_generated.h 110-112 OperatorCommandRuntimeState::clamped *)
Definition clamped (this_ : Obj) : option bool :=
  e ← GetField U8 this_ VT_CLAMPED 0; Some (negb (e =? 0)).
(* SRC autogens/proto/snapshot_generated.h 113-115 OperatorCommandRuntimeState::traffic_closed *)
Definition traffic_closed (this_ : Obj) : option bool :=
  e ← GetField U8 this_ VT_TRAFFIC_CLOSED 0; Some (negb (e =? 0)).
(* SRC autogens/proto/snapshot_generated.h 116-118 OperatorCommandRuntimeState::detection_bypassed *)
Definition detection_bypassed (this_ : Obj) : option bool :=
  e ← GetField U8 this_ VT_DETECTION_BYPASSED 0; Some (negb (e =? 0)).
(* SRC autogens/proto/snapshot_generated.h 119-121 OperatorCommandRuntimeState::special_initialized *)
Definition special_initialized (this_ : Obj) : option bool :=
  e ← GetField U8 this_ VT_SPECIAL_INITIALIZED 0; Some (negb (e =? 0)).
(* SRC autogens/proto/snapshot_generated.h 122-124 OperatorCommandRuntimeState::special_active *)
Definition special_active (this_ : Obj) : option bool :=
  e ← GetField U8 this_ VT_SPECIAL_ACTIVE 0; Some (negb (e =? 0)).
(* SRC autogens/proto/snapshot_generated.h 125-127 OperatorCommandRuntimeState::axle_reset_initialized *)
Definition axle_reset_initialized (this_ : Obj) : option bool :=
  e ← GetField U8 this_ VT_AXLE_RESET_INITIALIZED 0; Some (negb (e =? 0)).
(* SRC autogens/proto/snapshot_generated.h 128-130 OperatorCommandRuntimeState::ml8_command_active *)
Definition ml8_command_active (this_ : Obj) : option bool :=
  e ← GetField U8 this_ VT_ML8_COMMAND_ACTIVE 0; Some (negb (e =? 0)).
(* SRC autogens/proto/snapshot_generated.h 131-133 OperatorCommandRuntimeState::ml8_command_code *)
Definition ml8_command_code (this_ : Obj) : option Z := GetField I8 this_ VT_ML8_COMMAND_CODE 0.
(* SRC autogens/proto/snapshot_generated.h 135-150 OperatorCommandRuntimeState::Verify *)
Definition Verify (this_ : Obj) : verification :=
  TableStart this_ &&>
  check (VerifyField U8 this_ VT_STOPPED 1) &&>
  check (VerifyField U8 this_ VT_SUBSTITUTE_INITIALIZED 1) &&>
  check (VerifyField U8 this_ VT_SUBSTITUTE_ACTIVE 1) &&>
  check (VerifyField U8 this_ VT_AUTOMATIC_ROUTE_ENABLED 1) &&>
  check (VerifyField U8 this_ VT_CLAMPED 1) &&>
  check (VerifyField U8 this_ VT_TRAFFIC_CLOSED 1) &&>
  check (VerifyField U8 this_ VT_DETECTION_BYPASSED 1) &&>
  check (VerifyField U8 this_ VT_SPECIAL_INITIALIZED 1) &&>
  check (VerifyField U8 this_ VT_SPECIAL_ACTIVE 1) &&>
  check (VerifyField U8 this_ VT_AXLE_RESET_INITIALIZED 1) &&>
  check (VerifyField U8 this_ VT_ML8_COMMAND_ACTIVE 1) &&>
  check (VerifyField I8 this_ VT_ML8_COMMAND_CODE 1) &&>
  TableEnd.
End Table.
End OperatorCommandRuntimeState.

Module OperatorCommandRuntimeStateBuilder.
Section Builder.
Context {F : FlatBuffers}.
(* SRC autogens/proto/snapshot_generated.h 160-162 OperatorCommandRuntimeStateBuilder::add_stopped *)
Definition add_stopped (builder_ : builder) (stopped : bool) : builder :=
  builder_ ++ [Element U8 OperatorCommandRuntimeState.VT_STOPPED (Z.b2z stopped) 0].
(* SRC autogens/proto/snapshot_generated.h 163-165 OperatorCommandRuntimeStateBuilder::add_substitute_initialized *)
Definition add_substitute_initialized (builder_ : builder) (substitute_initialized : bool) :
    builder :=
  builder_ ++ [Element U8 OperatorCommandRuntimeState.VT_SUBSTITUTE_INITIALIZED (Z.b2z
      substitute_initialized) 0].
(* SRC autogens/proto/snapshot_generated.h 166-168 OperatorCommandRuntimeStateBuilder::add_substitute_active *)
Definition add_substitute_active (builder_ : builder) (substitute_active : bool) : builder :=
  builder_ ++ [Element U8 OperatorCommandRuntimeState.VT_SUBSTITUTE_ACTIVE (Z.b2z
      substitute_active) 0].
(* SRC autogens/proto/snapshot_generated.h 169-171 OperatorCommandRuntimeStateBuilder::add_automatic_route_enabled *)
Definition add_automatic_route_enabled (builder_ : builder) (automatic_route_enabled : bool) :
    builder :=
  builder_ ++ [Element U8 OperatorCommandRuntimeState.VT_AUTOMATIC_ROUTE_ENABLED (Z.b2z
      automatic_route_enabled) 0].
(* SRC autogens/proto/snapshot_generated.h 172-174 OperatorCommandRuntimeStateBuilder::add_clamped *)
Definition add_clamped (builder_ : builder) (clamped : bool) : builder :=
  builder_ ++ [Element U8 OperatorCommandRuntimeState.VT_CLAMPED (Z.b2z clamped) 0].
(* SRC autogens/proto/snapshot_generated.h 175-177 OperatorCommandRuntimeStateBuilder::add_traffic_closed *)
Definition add_traffic_closed (builder_ : builder) (traffic_closed : bool) : builder :=
  builder_ ++ [Element U8 OperatorCommandRuntimeState.VT_TRAFFIC_CLOSED (Z.b2z traffic_closed) 0].
(* SRC autogens/proto/snapshot_generated.h 178-180 OperatorCommandRuntimeStateBuilder::add_detection_bypassed *)
Definition add_detection_bypassed (builder_ : builder) (detection_bypassed : bool) : builder :=
  builder_ ++ [Element U8 OperatorCommandRuntimeState.VT_DETECTION_BYPASSED (Z.b2z
      detection_bypassed) 0].
(* SRC autogens/proto/snapshot_generated.h 181-183 OperatorCommandRuntimeStateBuilder::add_special_initialized *)
Definition add_special_initialized (builder_ : builder) (special_initialized : bool) : builder :=
  builder_ ++ [Element U8 OperatorCommandRuntimeState.VT_SPECIAL_INITIALIZED (Z.b2z
      special_initialized) 0].
(* SRC autogens/proto/snapshot_generated.h 184-186 OperatorCommandRuntimeStateBuilder::add_special_active *)
Definition add_special_active (builder_ : builder) (special_active : bool) : builder :=
  builder_ ++ [Element U8 OperatorCommandRuntimeState.VT_SPECIAL_ACTIVE (Z.b2z special_active) 0].
(* SRC autogens/proto/snapshot_generated.h 187-189 OperatorCommandRuntimeStateBuilder::add_axle_reset_initialized *)
Definition add_axle_reset_initialized (builder_ : builder) (axle_reset_initialized : bool) :
    builder :=
  builder_ ++ [Element U8 OperatorCommandRuntimeState.VT_AXLE_RESET_INITIALIZED (Z.b2z
      axle_reset_initialized) 0].
(* SRC autogens/proto/snapshot_generated.h 190-192 OperatorCommandRuntimeStateBuilder::add_ml8_command_active *)
Definition add_ml8_command_active (builder_ : builder) (ml8_command_active : bool) : builder :=
  builder_ ++ [Element U8 OperatorCommandRuntimeState.VT_ML8_COMMAND_ACTIVE (Z.b2z
      ml8_command_active) 0].
(* SRC autogens/proto/snapshot_generated.h 193-195 OperatorCommandRuntimeStateBuilder::add_ml8_command_code *)
Definition add_ml8_command_code (builder_ : builder) (ml8_command_code : Z) : builder :=
  builder_ ++ [Element I8 OperatorCommandRuntimeState.VT_ML8_COMMAND_CODE ml8_command_code 0].
(* SRC autogens/proto/snapshot_generated.h 200-204 OperatorCommandRuntimeStateBuilder::Finish *)
Definition Finish (builder_ : builder) : option Obj := Some (EndTable builder_).
End Builder.
End OperatorCommandRuntimeStateBuilder.

Section OperatorCommandRuntimeStateFunctions.
Context {F : FlatBuffers}.
(* SRC autogens/proto/snapshot_generated.h 207-235 CreateOperatorCommandRuntimeState *)
Definition CreateOperatorCommandRuntimeState (stopped : bool) (substitute_initialized : bool)
    (substitute_active : bool) (automatic_route_enabled : bool) (clamped : bool) (traffic_closed :
    bool) (detection_bypassed : bool) (special_initialized : bool) (special_active : bool)
    (axle_reset_initialized : bool) (ml8_command_active : bool) (ml8_command_code : Z) : option
        Obj :=
  let builder_ := [] in
  let builder_ := OperatorCommandRuntimeStateBuilder.add_ml8_command_code builder_
      ml8_command_code in
  let builder_ := OperatorCommandRuntimeStateBuilder.add_ml8_command_active builder_
      ml8_command_active in
  let builder_ := OperatorCommandRuntimeStateBuilder.add_axle_reset_initialized builder_
      axle_reset_initialized in
  let builder_ := OperatorCommandRuntimeStateBuilder.add_special_active builder_ special_active in
  let builder_ := OperatorCommandRuntimeStateBuilder.add_special_initialized builder_
      special_initialized in
  let builder_ := OperatorCommandRuntimeStateBuilder.add_detection_bypassed builder_
      detection_bypassed in
  let builder_ := OperatorCommandRuntimeStateBuilder.add_traffic_closed builder_ traffic_closed in
  let builder_ := OperatorCommandRuntimeStateBuilder.add_clamped builder_ clamped in
  let builder_ := OperatorCommandRuntimeStateBuilder.add_automatic_route_enabled builder_
      automatic_route_enabled in
  let builder_ := OperatorCommandRuntimeStateBuilder.add_substitute_active builder_
      substitute_active in
  let builder_ := OperatorCommandRuntimeStateBuilder.add_substitute_initialized builder_
      substitute_initialized in
  let builder_ := OperatorCommandRuntimeStateBuilder.add_stopped builder_ stopped in
  OperatorCommandRuntimeStateBuilder.Finish builder_.
(* SRC autogens/proto/snapshot_generated.h 1411-1426 OperatorCommandRuntimeState::UnPackTo *)
Definition OperatorCommandRuntimeState_UnPackTo (_o : OperatorCommandRuntimeStateT.t) (this_ :
    Obj) : option OperatorCommandRuntimeStateT.t :=
  stopped ← OperatorCommandRuntimeState.stopped this_;
  substitute_initialized ← OperatorCommandRuntimeState.substitute_initialized this_;
  substitute_active ← OperatorCommandRuntimeState.substitute_active this_;
  automatic_route_enabled ← OperatorCommandRuntimeState.automatic_route_enabled this_;
  clamped ← OperatorCommandRuntimeState.clamped this_;
  traffic_closed ← OperatorCommandRuntimeState.traffic_closed this_;
  detection_bypassed ← OperatorCommandRuntimeState.detection_bypassed this_;
  special_initialized ← OperatorCommandRuntimeState.special_initialized this_;
  special_active ← OperatorCommandRuntimeState.special_active this_;
  axle_reset_initialized ← OperatorCommandRuntimeState.axle_reset_initialized this_;
  ml8_command_active ← OperatorCommandRuntimeState.ml8_command_active this_;
  ml8_command_code ← OperatorCommandRuntimeState.ml8_command_code this_;
  Some (OperatorCommandRuntimeStateT.mk stopped substitute_initialized substitute_active
    automatic_route_enabled clamped traffic_closed detection_bypassed special_initialized
    special_active axle_reset_initialized ml8_command_active ml8_command_code).
(* SRC autogens/proto/snapshot_generated.h 1405-1409 OperatorCommandRuntimeState::UnPack *)
Definition OperatorCommandRuntimeState_UnPack (this_ : Obj) : option
    OperatorCommandRuntimeStateT.t :=
  OperatorCommandRuntimeState_UnPackTo OperatorCommandRuntimeStateT.init this_.
(* SRC autogens/proto/snapshot_generated.h 1432-1462 OperatorCommandRuntimeState::Pack *)
Definition OperatorCommandRuntimeState_Pack (_o : OperatorCommandRuntimeStateT.t) : option Obj :=
  let _stopped := OperatorCommandRuntimeStateT.stopped _o in
  let _substitute_initialized := OperatorCommandRuntimeStateT.substitute_initialized _o in
  let _substitute_active := OperatorCommandRuntimeStateT.substitute_active _o in
  let _automatic_route_enabled := OperatorCommandRuntimeStateT.automatic_route_enabled _o in
  let _clamped := OperatorCommandRuntimeStateT.clamped _o in
  let _traffic_closed := OperatorCommandRuntimeStateT.traffic_closed _o in
  let _detection_bypassed := OperatorCommandRuntimeStateT.detection_bypassed _o in
  let _special_initialized := OperatorCommandRuntimeStateT.special_initialized _o in
  let _special_active := OperatorCommandRuntimeStateT.special_active _o in
  let _axle_reset_initialized := OperatorCommandRuntimeStateT.axle_reset_initialized _o in
  let _ml8_command_active := OperatorCommandRuntimeStateT.ml8_command_active _o in
  let _ml8_command_code := OperatorCommandRuntimeStateT.ml8_command_code _o in
  CreateOperatorCommandRuntimeState _stopped _substitute_initialized _substitute_active
    _automatic_route_enabled _clamped _traffic_closed _detection_bypassed _special_initialized
    _special_active _axle_reset_initialized _ml8_command_active _ml8_command_code.
Definition OperatorCommandRuntimeState_message : Message OperatorCommandRuntimeStateT.t :=
  mkMessage OperatorCommandRuntimeState_Pack OperatorCommandRuntimeState_UnPackTo
      OperatorCommandRuntimeState_UnPack OperatorCommandRuntimeState.Verify
      OperatorCommandRuntimeStateT.fits OperatorCommandRuntimeStateT.tables 1.
End OperatorCommandRuntimeStateFunctions.
Ltac unfold_OperatorCommandRuntimeState := cbv beta iota zeta delta
    [OperatorCommandRuntimeState_message OperatorCommandRuntimeState_Pack
    OperatorCommandRuntimeState_UnPack OperatorCommandRuntimeState_UnPackTo
    CreateOperatorCommandRuntimeState OperatorCommandRuntimeStateBuilder.add_stopped
    OperatorCommandRuntimeStateBuilder.add_substitute_initialized
    OperatorCommandRuntimeStateBuilder.add_substitute_active
    OperatorCommandRuntimeStateBuilder.add_automatic_route_enabled
    OperatorCommandRuntimeStateBuilder.add_clamped
    OperatorCommandRuntimeStateBuilder.add_traffic_closed
    OperatorCommandRuntimeStateBuilder.add_detection_bypassed
    OperatorCommandRuntimeStateBuilder.add_special_initialized
    OperatorCommandRuntimeStateBuilder.add_special_active
    OperatorCommandRuntimeStateBuilder.add_axle_reset_initialized
    OperatorCommandRuntimeStateBuilder.add_ml8_command_active
    OperatorCommandRuntimeStateBuilder.add_ml8_command_code
        OperatorCommandRuntimeStateBuilder.Finish
    OperatorCommandRuntimeState.stopped OperatorCommandRuntimeState.substitute_initialized
    OperatorCommandRuntimeState.substitute_active
        OperatorCommandRuntimeState.automatic_route_enabled
    OperatorCommandRuntimeState.clamped OperatorCommandRuntimeState.traffic_closed
    OperatorCommandRuntimeState.detection_bypassed OperatorCommandRuntimeState.special_initialized
    OperatorCommandRuntimeState.special_active OperatorCommandRuntimeState.axle_reset_initialized
    OperatorCommandRuntimeState.ml8_command_active OperatorCommandRuntimeState.ml8_command_code
    OperatorCommandRuntimeState.Verify OperatorCommandRuntimeStateT.init
    OperatorCommandRuntimeStateT.fits OperatorCommandRuntimeStateT.tables
    OperatorCommandRuntimeStateT.stopped OperatorCommandRuntimeStateT.substitute_initialized
    OperatorCommandRuntimeStateT.substitute_active
    OperatorCommandRuntimeStateT.automatic_route_enabled OperatorCommandRuntimeStateT.clamped
    OperatorCommandRuntimeStateT.traffic_closed OperatorCommandRuntimeStateT.detection_bypassed
    OperatorCommandRuntimeStateT.special_initialized OperatorCommandRuntimeStateT.special_active
    OperatorCommandRuntimeStateT.axle_reset_initialized
    OperatorCommandRuntimeStateT.ml8_command_active
        OperatorCommandRuntimeStateT.ml8_command_code] in
    *.
#[global] Instance OperatorCommandRuntimeState_ok {F : FlatBuffers} {FO : FlatBuffersOk F} :
    MessageOk OperatorCommandRuntimeState_message.
Proof. solve_message_with ltac:(fun _ => unfold_OperatorCommandRuntimeState). Qed.
#[global] Arguments OperatorCommandRuntimeState_Pack : simpl never.
#[global] Arguments OperatorCommandRuntimeState_UnPackTo : simpl never.
#[global] Arguments OperatorCommandRuntimeState_UnPack : simpl never.
#[global] Arguments OperatorCommandRuntimeState.Verify : simpl never.
#[global] Arguments OperatorCommandRuntimeStateT.fits : simpl never.
#[global] Arguments OperatorCommandRuntimeStateT.tables : simpl never.
#[global] Typeclasses Opaque OperatorCommandRuntimeState.Verify.

Module SwitchStateT.
(* SRC autogens/proto/snapshot_generated.h 239-252 SwitchStateT *)
Record t : Type := mk {
  uid : Z;
  position : Z;
  occupied : bool;
  axle_count : Z;
  train_uid : Z;
  locked_by_route : bool;
  operator_state : option OperatorCommandRuntimeStateT.t }.
(* SRC autogens/proto/snapshot_generated.h 239-252 SwitchStateT *)
Definition init : t := mk 0 (code SwitchPosition.STRAIGHT) false 0 0 false None.
Definition fits (_o : t) : Prop :=
  in_range U64 (uid _o) = true /\
  in_range I8 (position _o) = true /\
  in_range I32 (axle_count _o) = true /\
  in_range U64 (train_uid _o) = true /\
  from_option OperatorCommandRuntimeStateT.fits True (operator_state _o).
Definition tables (_o : t) : Z :=
  1 + tables_of OperatorCommandRuntimeStateT.tables (operator_state _o).
End SwitchStateT.

Module SwitchState.
Notation VT_UID := 4 (only parsing).
Notation VT_POSITION := 6 (only parsing).
Notation VT_OCCUPIED := 8 (only parsing).
Notation VT_AXLE_COUNT := 10 (only parsing).
Notation VT_TRAIN_UID := 12 (only parsing).
Notation VT_LOCKED_BY_ROUTE := 14 (only parsing).
Notation VT_OPERATOR_STATE := 16 (only parsing).
Section Table.
Context {F : FlatBuffers}.
(* SRC autogens/proto/snapshot_generated.h 266-268 SwitchState::uid *)
Definition uid (this_ : Obj) : option Z := GetField U64 this_ VT_UID 0.
(* SRC autogens/proto/snapshot_generated.h 269-271 SwitchState::position *)
Definition position (this_ : Obj) : option Z := GetField I8 this_ VT_POSITION 0.
(* SRC autogens/proto/snapshot_generated.h 272-274 SwitchState::occupied *)
Definition occupied (this_ : Obj) : option bool :=
  e ← GetField U8 this_ VT_OCCUPIED 0; Some (negb (e =? 0)).
(* SRC autogens/proto/snapshot_generated.h 275-277 SwitchState::axle_count *)
Definition axle_count (this_ : Obj) : option Z := GetField I32 this_ VT_AXLE_COUNT 0.
(* SRC autogens/proto/snapshot_generated.h 278-280 SwitchState::train_uid *)
Definition train_uid (this_ : Obj) : option Z := GetField U64 this_ VT_TRAIN_UID 0.
(* SRC autogens/proto/snapshot_generated.h 281-283 SwitchState::locked_by_route *)
Definition locked_by_route (this_ : Obj) : option bool :=
  e ← GetField U8 this_ VT_LOCKED_BY_ROUTE 0; Some (negb (e =? 0)).
(* SRC autogens/proto/snapshot_generated.h 284-286 SwitchState::operator_state *)
Definition operator_state (this_ : Obj) : option (option Obj) := GetPointer this_ VT_OPERATOR_STATE.
(* SRC autogens/proto/snapshot_generated.h 288-299 SwitchState::Verify *)
Definition Verify (this_ : Obj) : verification :=
  TableStart this_ &&>
  check (VerifyField U64 this_ VT_UID 8) &&>
  check (VerifyField I8 this_ VT_POSITION 1) &&>
  check (VerifyField U8 this_ VT_OCCUPIED 1) &&>
  check (VerifyField I32 this_ VT_AXLE_COUNT 4) &&>
  check (VerifyField U64 this_ VT_TRAIN_UID 8) &&>
  check (VerifyField U8 this_ VT_LOCKED_BY_ROUTE 1) &&>
  check (VerifyOffset this_ VT_OPERATOR_STATE) &&>
  check_table OperatorCommandRuntimeState.Verify (operator_state this_) &&>
  TableEnd.
End Table.
End SwitchState.

Module SwitchStateBuilder.
Section Builder.
Context {F : FlatBuffers}.
(* SRC autogens/proto/snapshot_generated.h 309-311 SwitchStateBuilder::add_uid *)
Definition add_uid (builder_ : builder) (uid : Z) : builder :=
  builder_ ++ [Element U64 SwitchState.VT_UID uid 0].
(* SRC autogens/proto/snapshot_generated.h 312-314 SwitchStateBuilder::add_position *)
Definition add_position (builder_ : builder) (position : Z) : builder :=
  builder_ ++ [Element I8 SwitchState.VT_POSITION position 0].
(* SRC autogens/proto/snapshot_generated.h 315-317 SwitchStateBuilder::add_occupied *)
Definition add_occupied (builder_ : builder) (occupied : bool) : builder :=
  builder_ ++ [Element U8 SwitchState.VT_OCCUPIED (Z.b2z occupied) 0].
(* SRC autogens/proto/snapshot_generated.h 318-320 SwitchStateBuilder::add_axle_count *)
Definition add_axle_count (builder_ : builder) (axle_count : Z) : builder :=
  builder_ ++ [Element I32 SwitchState.VT_AXLE_COUNT axle_count 0].
(* SRC autogens/proto/snapshot_generated.h 321-323 SwitchStateBuilder::add_train_uid *)
Definition add_train_uid (builder_ : builder) (train_uid : Z) : builder :=
  builder_ ++ [Element U64 SwitchState.VT_TRAIN_UID train_uid 0].
(* SRC autogens/proto/snapshot_generated.h 324-326 SwitchStateBuilder::add_locked_by_route *)
Definition add_locked_by_route (builder_ : builder) (locked_by_route : bool) : builder :=
  builder_ ++ [Element U8 SwitchState.VT_LOCKED_BY_ROUTE (Z.b2z locked_by_route) 0].
(* SRC autogens/proto/snapshot_generated.h 327-329 SwitchStateBuilder::add_operator_state *)
Definition add_operator_state (builder_ : builder) (operator_state : option Obj) : builder :=
  builder_ ++ [OffsetAt SwitchState.VT_OPERATOR_STATE operator_state].
(* SRC autogens/proto/snapshot_generated.h 334-338 SwitchStateBuilder::Finish *)
Definition Finish (builder_ : builder) : option Obj := Some (EndTable builder_).
End Builder.
End SwitchStateBuilder.

Section SwitchStateFunctions.
Context {F : FlatBuffers}.
(* SRC autogens/proto/snapshot_generated.h 341-359 CreateSwitchState *)
Definition CreateSwitchState (uid : Z) (position : Z) (occupied : bool) (axle_count : Z)
    (train_uid : Z) (locked_by_route : bool) (operator_state : option Obj) : option Obj :=
  let builder_ := [] in
  let builder_ := SwitchStateBuilder.add_train_uid builder_ train_uid in
  let builder_ := SwitchStateBuilder.add_uid builder_ uid in
  let builder_ := SwitchStateBuilder.add_operator_state builder_ operator_state in
  let builder_ := SwitchStateBuilder.add_axle_count builder_ axle_count in
  let builder_ := SwitchStateBuilder.add_locked_by_route builder_ locked_by_route in
  let builder_ := SwitchStateBuilder.add_occupied builder_ occupied in
  let builder_ := SwitchStateBuilder.add_position builder_ position in
  SwitchStateBuilder.Finish builder_.
(* SRC autogens/proto/snapshot_generated.h 1491-1501 SwitchState::UnPackTo *)
Definition SwitchState_UnPackTo (_o : SwitchStateT.t) (this_ : Obj) : option SwitchStateT.t :=
  uid ← SwitchState.uid this_;
  position ← SwitchState.position this_;
  occupied ← SwitchState.occupied this_;
  axle_count ← SwitchState.axle_count this_;
  train_uid ← SwitchState.train_uid this_;
  locked_by_route ← SwitchState.locked_by_route this_;
  operator_state ← (_e ← SwitchState.operator_state this_;
    UnPackTable OperatorCommandRuntimeState_UnPackTo OperatorCommandRuntimeState_UnPack
        (SwitchStateT.operator_state _o) _e);
  Some (SwitchStateT.mk uid position occupied axle_count train_uid locked_by_route
    operator_state).
(* SRC autogens/proto/snapshot_generated.h 1485-1489 SwitchState::UnPack *)
Definition SwitchState_UnPack (this_ : Obj) : option SwitchStateT.t :=
  SwitchState_UnPackTo SwitchStateT.init this_.
(* SRC autogens/proto/snapshot_generated.h 1507-1527 SwitchState::Pack *)
Definition SwitchState_Pack (_o : SwitchStateT.t) : option Obj :=
  let _uid := SwitchStateT.uid _o in
  let _position := SwitchStateT.position _o in
  let _occupied := SwitchStateT.occupied _o in
  let _axle_count := SwitchStateT.axle_count _o in
  let _train_uid := SwitchStateT.train_uid _o in
  let _locked_by_route := SwitchStateT.locked_by_route _o in
  _operator_state ← PackTable OperatorCommandRuntimeState_Pack (SwitchStateT.operator_state _o);
  CreateSwitchState _uid _position _occupied _axle_count _train_uid _locked_by_route
    _operator_state.
Definition SwitchState_message : Message SwitchStateT.t :=
  mkMessage SwitchState_Pack SwitchState_UnPackTo SwitchState_UnPack SwitchState.Verify
      SwitchStateT.fits SwitchStateT.tables 2.
End SwitchStateFunctions.
Ltac unfold_SwitchState := cbv beta iota zeta delta [SwitchState_message SwitchState_Pack
    SwitchState_UnPack SwitchState_UnPackTo CreateSwitchState SwitchStateBuilder.add_uid
    SwitchStateBuilder.add_position SwitchStateBuilder.add_occupied
        SwitchStateBuilder.add_axle_count
    SwitchStateBuilder.add_train_uid SwitchStateBuilder.add_locked_by_route
    SwitchStateBuilder.add_operator_state SwitchStateBuilder.Finish SwitchState.uid
    SwitchState.position SwitchState.occupied SwitchState.axle_count SwitchState.train_uid
    SwitchState.locked_by_route SwitchState.operator_state SwitchState.Verify SwitchStateT.init
    SwitchStateT.fits SwitchStateT.tables SwitchStateT.uid SwitchStateT.position
        SwitchStateT.occupied
    SwitchStateT.axle_count SwitchStateT.train_uid SwitchStateT.locked_by_route
    SwitchStateT.operator_state] in *.
#[global] Instance SwitchState_ok {F : FlatBuffers} {FO : FlatBuffersOk F} : MessageOk
    SwitchState_message.
Proof. solve_message_with ltac:(fun _ => unfold_SwitchState). Qed.
#[global] Arguments SwitchState_Pack : simpl never.
#[global] Arguments SwitchState_UnPackTo : simpl never.
#[global] Arguments SwitchState_UnPack : simpl never.
#[global] Arguments SwitchState.Verify : simpl never.
#[global] Arguments SwitchStateT.fits : simpl never.
#[global] Arguments SwitchStateT.tables : simpl never.
#[global] Typeclasses Opaque SwitchState.Verify.

Module TrackSectionStateT.
(* SRC autogens/proto/snapshot_generated.h 363-374 TrackSectionStateT *)
Record t : Type := mk {
  uid : Z;
  occupied : bool;
  axle_count : Z;
  train_uid : Z;
  operator_state : option OperatorCommandRuntimeStateT.t }.
(* SRC autogens/proto/snapshot_generated.h 363-374 TrackSectionStateT *)
Definition init : t := mk 0 false 0 0 None.
Definition fits (_o : t) : Prop :=
  in_range U64 (uid _o) = true /\
  in_range I32 (axle_count _o) = true /\
  in_range U64 (train_uid _o) = true /\
  from_option OperatorCommandRuntimeStateT.fits True (operator_state _o).
Definition tables (_o : t) : Z :=
  1 + tables_of OperatorCommandRuntimeStateT.tables (operator_state _o).
End TrackSectionStateT.

Module TrackSectionState.
Notation VT_UID := 4 (only parsing).
Notation VT_OCCUPIED := 6 (only parsing).
Notation VT_AXLE_COUNT := 8 (only parsing).
Notation VT_TRAIN_UID := 10 (only parsing).
Notation VT_OPERATOR_STATE := 12 (only parsing).
Section Table.
Context {F : FlatBuffers}.
(* SRC autogens/proto/snapshot_generated.h 386-388 TrackSectionState::uid *)
Definition uid (this_ : Obj) : option Z := GetField U64 this_ VT_UID 0.
(* SRC autogens/proto/snapshot_generated.h 389-391 TrackSectionState::occupied *)
Definition occupied (this_ : Obj) : option bool :=
  e ← GetField U8 this_ VT_OCCUPIED 0; Some (negb (e =? 0)).
(* SRC autogens/proto/snapshot_generated.h 392-394 TrackSectionState::axle_count *)
Definition axle_count (this_ : Obj) : option Z := GetField I32 this_ VT_AXLE_COUNT 0.
(* SRC autogens/proto/snapshot_generated.h 395-397 TrackSectionState::train_uid *)
Definition train_uid (this_ : Obj) : option Z := GetField U64 this_ VT_TRAIN_UID 0.
(* SRC autogens/proto/snapshot_generated.h 398-400 TrackSectionState::operator_state *)
Definition operator_state (this_ : Obj) : option (option Obj) := GetPointer this_ VT_OPERATOR_STATE.
(* SRC autogens/proto/snapshot_generated.h 402-411 TrackSectionState::Verify *)
Definition Verify (this_ : Obj) : verification :=
  TableStart this_ &&>
  check (VerifyField U64 this_ VT_UID 8) &&>
  check (VerifyField U8 this_ VT_OCCUPIED 1) &&>
  check (VerifyField I32 this_ VT_AXLE_COUNT 4) &&>
  check (VerifyField U64 this_ VT_TRAIN_UID 8) &&>
  check (VerifyOffset this_ VT_OPERATOR_STATE) &&>
  check_table OperatorCommandRuntimeState.Verify (operator_state this_) &&>
  TableEnd.
End Table.
End TrackSectionState.

Module TrackSectionStateBuilder.
Section Builder.
Context {F : FlatBuffers}.
(* SRC autogens/proto/snapshot_generated.h 421-423 TrackSectionStateBuilder::add_uid *)
Definition add_uid (builder_ : builder) (uid : Z) : builder :=
  builder_ ++ [Element U64 TrackSectionState.VT_UID uid 0].
(* SRC autogens/proto/snapshot_generated.h 424-426 TrackSectionStateBuilder::add_occupied *)
Definition add_occupied (builder_ : builder) (occupied : bool) : builder :=
  builder_ ++ [Element U8 TrackSectionState.VT_OCCUPIED (Z.b2z occupied) 0].
(* SRC autogens/proto/snapshot_generated.h 427-429 TrackSectionStateBuilder::add_axle_count *)
Definition add_axle_count (builder_ : builder) (axle_count : Z) : builder :=
  builder_ ++ [Element I32 TrackSectionState.VT_AXLE_COUNT axle_count 0].
(* SRC autogens/proto/snapshot_generated.h 430-432 TrackSectionStateBuilder::add_train_uid *)
Definition add_train_uid (builder_ : builder) (train_uid : Z) : builder :=
  builder_ ++ [Element U64 TrackSectionState.VT_TRAIN_UID train_uid 0].
(* SRC autogens/proto/snapshot_generated.h 433-435 TrackSectionStateBuilder::add_operator_state *)
Definition add_operator_state (builder_ : builder) (operator_state : option Obj) : builder :=
  builder_ ++ [OffsetAt TrackSectionState.VT_OPERATOR_STATE operator_state].
(* SRC autogens/proto/snapshot_generated.h 440-444 TrackSectionStateBuilder::Finish *)
Definition Finish (builder_ : builder) : option Obj := Some (EndTable builder_).
End Builder.
End TrackSectionStateBuilder.

Section TrackSectionStateFunctions.
Context {F : FlatBuffers}.
(* SRC autogens/proto/snapshot_generated.h 447-461 CreateTrackSectionState *)
Definition CreateTrackSectionState (uid : Z) (occupied : bool) (axle_count : Z) (train_uid : Z)
    (operator_state : option Obj) : option Obj :=
  let builder_ := [] in
  let builder_ := TrackSectionStateBuilder.add_train_uid builder_ train_uid in
  let builder_ := TrackSectionStateBuilder.add_uid builder_ uid in
  let builder_ := TrackSectionStateBuilder.add_operator_state builder_ operator_state in
  let builder_ := TrackSectionStateBuilder.add_axle_count builder_ axle_count in
  let builder_ := TrackSectionStateBuilder.add_occupied builder_ occupied in
  TrackSectionStateBuilder.Finish builder_.
(* SRC autogens/proto/snapshot_generated.h 1552-1560 TrackSectionState::UnPackTo *)
Definition TrackSectionState_UnPackTo (_o : TrackSectionStateT.t) (this_ : Obj) : option
    TrackSectionStateT.t :=
  uid ← TrackSectionState.uid this_;
  occupied ← TrackSectionState.occupied this_;
  axle_count ← TrackSectionState.axle_count this_;
  train_uid ← TrackSectionState.train_uid this_;
  operator_state ← (_e ← TrackSectionState.operator_state this_;
    UnPackTable OperatorCommandRuntimeState_UnPackTo OperatorCommandRuntimeState_UnPack
        (TrackSectionStateT.operator_state _o) _e);
  Some (TrackSectionStateT.mk uid occupied axle_count train_uid operator_state).
(* SRC autogens/proto/snapshot_generated.h 1546-1550 TrackSectionState::UnPack *)
Definition TrackSectionState_UnPack (this_ : Obj) : option TrackSectionStateT.t :=
  TrackSectionState_UnPackTo TrackSectionStateT.init this_.
(* SRC autogens/proto/snapshot_generated.h 1566-1582 TrackSectionState::Pack *)
Definition TrackSectionState_Pack (_o : TrackSectionStateT.t) : option Obj :=
  let _uid := TrackSectionStateT.uid _o in
  let _occupied := TrackSectionStateT.occupied _o in
  let _axle_count := TrackSectionStateT.axle_count _o in
  let _train_uid := TrackSectionStateT.train_uid _o in
  _operator_state ← PackTable OperatorCommandRuntimeState_Pack
      (TrackSectionStateT.operator_state _o);
  CreateTrackSectionState _uid _occupied _axle_count _train_uid _operator_state.
Definition TrackSectionState_message : Message TrackSectionStateT.t :=
  mkMessage TrackSectionState_Pack TrackSectionState_UnPackTo TrackSectionState_UnPack
      TrackSectionState.Verify TrackSectionStateT.fits TrackSectionStateT.tables 2.
End TrackSectionStateFunctions.
Ltac unfold_TrackSectionState := cbv beta iota zeta delta [TrackSectionState_message
    TrackSectionState_Pack TrackSectionState_UnPack TrackSectionState_UnPackTo
        CreateTrackSectionState
    TrackSectionStateBuilder.add_uid TrackSectionStateBuilder.add_occupied
    TrackSectionStateBuilder.add_axle_count TrackSectionStateBuilder.add_train_uid
    TrackSectionStateBuilder.add_operator_state TrackSectionStateBuilder.Finish
        TrackSectionState.uid
    TrackSectionState.occupied TrackSectionState.axle_count TrackSectionState.train_uid
    TrackSectionState.operator_state TrackSectionState.Verify TrackSectionStateT.init
    TrackSectionStateT.fits TrackSectionStateT.tables TrackSectionStateT.uid
    TrackSectionStateT.occupied TrackSectionStateT.axle_count TrackSectionStateT.train_uid
    TrackSectionStateT.operator_state] in *.
#[global] Instance TrackSectionState_ok {F : FlatBuffers} {FO : FlatBuffersOk F} : MessageOk
    TrackSectionState_message.
Proof. solve_message_with ltac:(fun _ => unfold_TrackSectionState). Qed.
#[global] Arguments TrackSectionState_Pack : simpl never.
#[global] Arguments TrackSectionState_UnPackTo : simpl never.
#[global] Arguments TrackSectionState_UnPack : simpl never.
#[global] Arguments TrackSectionState.Verify : simpl never.
#[global] Arguments TrackSectionStateT.fits : simpl never.
#[global] Arguments TrackSectionStateT.tables : simpl never.
#[global] Typeclasses Opaque TrackSectionState.Verify.

Module SignalStateT.
(* SRC autogens/proto/snapshot_generated.h 465-474 SignalStateT *)
Record t : Type := mk {
  uid : Z;
  aspect : Z;
  operator_state : option OperatorCommandRuntimeStateT.t }.
(* SRC autogens/proto/snapshot_generated.h 465-474 SignalStateT *)
Definition init : t := mk 0 (code Aspect.S1_STOP) None.
Definition fits (_o : t) : Prop :=
  in_range U64 (uid _o) = true /\
  in_range I8 (aspect _o) = true /\
  from_option OperatorCommandRuntimeStateT.fits True (operator_state _o).
Definition tables (_o : t) : Z :=
  1 + tables_of OperatorCommandRuntimeStateT.tables (operator_state _o).
End SignalStateT.

Module SignalState.
Notation VT_UID := 4 (only parsing).
Notation VT_ASPECT := 6 (only parsing).
Notation VT_OPERATOR_STATE := 8 (only parsing).
Section Table.
Context {F : FlatBuffers}.
(* SRC autogens/proto/snapshot_generated.h 484-486 SignalState::uid *)
Definition uid (this_ : Obj) : option Z := GetField U64 this_ VT_UID 0.
(* SRC autogens/proto/snapshot_generated.h 487-489 SignalState::aspect *)
Definition aspect (this_ : Obj) : option Z := GetField I8 this_ VT_ASPECT 0.
(* SRC autogens/proto/snapshot_generated.h 490-492 SignalState::operator_state *)
Definition operator_state (this_ : Obj) : option (option Obj) := GetPointer this_ VT_OPERATOR_STATE.
(* SRC autogens/proto/snapshot_generated.h 494-501 SignalState::Verify *)
Definition Verify (this_ : Obj) : verification :=
  TableStart this_ &&>
  check (VerifyField U64 this_ VT_UID 8) &&>
  check (VerifyField I8 this_ VT_ASPECT 1) &&>
  check (VerifyOffset this_ VT_OPERATOR_STATE) &&>
  check_table OperatorCommandRuntimeState.Verify (operator_state this_) &&>
  TableEnd.
End Table.
End SignalState.

Module SignalStateBuilder.
Section Builder.
Context {F : FlatBuffers}.
(* SRC autogens/proto/snapshot_generated.h 511-513 SignalStateBuilder::add_uid *)
Definition add_uid (builder_ : builder) (uid : Z) : builder :=
  builder_ ++ [Element U64 SignalState.VT_UID uid 0].
(* SRC autogens/proto/snapshot_generated.h 514-516 SignalStateBuilder::add_aspect *)
Definition add_aspect (builder_ : builder) (aspect : Z) : builder :=
  builder_ ++ [Element I8 SignalState.VT_ASPECT aspect 0].
(* SRC autogens/proto/snapshot_generated.h 517-519 SignalStateBuilder::add_operator_state *)
Definition add_operator_state (builder_ : builder) (operator_state : option Obj) : builder :=
  builder_ ++ [OffsetAt SignalState.VT_OPERATOR_STATE operator_state].
(* SRC autogens/proto/snapshot_generated.h 524-528 SignalStateBuilder::Finish *)
Definition Finish (builder_ : builder) : option Obj := Some (EndTable builder_).
End Builder.
End SignalStateBuilder.

Section SignalStateFunctions.
Context {F : FlatBuffers}.
(* SRC autogens/proto/snapshot_generated.h 531-541 CreateSignalState *)
Definition CreateSignalState (uid : Z) (aspect : Z) (operator_state : option Obj) : option Obj :=
  let builder_ := [] in
  let builder_ := SignalStateBuilder.add_uid builder_ uid in
  let builder_ := SignalStateBuilder.add_operator_state builder_ operator_state in
  let builder_ := SignalStateBuilder.add_aspect builder_ aspect in
  SignalStateBuilder.Finish builder_.
(* SRC autogens/proto/snapshot_generated.h 1603-1609 SignalState::UnPackTo *)
Definition SignalState_UnPackTo (_o : SignalStateT.t) (this_ : Obj) : option SignalStateT.t :=
  uid ← SignalState.uid this_;
  aspect ← SignalState.aspect this_;
  operator_state ← (_e ← SignalState.operator_state this_;
    UnPackTable OperatorCommandRuntimeState_UnPackTo OperatorCommandRuntimeState_UnPack
        (SignalStateT.operator_state _o) _e);
  Some (SignalStateT.mk uid aspect operator_state).
(* SRC autogens/proto/snapshot_generated.h 1597-1601 SignalState::UnPack *)
Definition SignalState_UnPack (this_ : Obj) : option SignalStateT.t :=
  SignalState_UnPackTo SignalStateT.init this_.
(* SRC autogens/proto/snapshot_generated.h 1615-1627 SignalState::Pack *)
Definition SignalState_Pack (_o : SignalStateT.t) : option Obj :=
  let _uid := SignalStateT.uid _o in
  let _aspect := SignalStateT.aspect _o in
  _operator_state ← PackTable OperatorCommandRuntimeState_Pack (SignalStateT.operator_state _o);
  CreateSignalState _uid _aspect _operator_state.
Definition SignalState_message : Message SignalStateT.t :=
  mkMessage SignalState_Pack SignalState_UnPackTo SignalState_UnPack SignalState.Verify
      SignalStateT.fits SignalStateT.tables 2.
End SignalStateFunctions.
Ltac unfold_SignalState := cbv beta iota zeta delta [SignalState_message SignalState_Pack
    SignalState_UnPack SignalState_UnPackTo CreateSignalState SignalStateBuilder.add_uid
    SignalStateBuilder.add_aspect SignalStateBuilder.add_operator_state SignalStateBuilder.Finish
    SignalState.uid SignalState.aspect SignalState.operator_state SignalState.Verify
        SignalStateT.init
    SignalStateT.fits SignalStateT.tables SignalStateT.uid SignalStateT.aspect
    SignalStateT.operator_state] in *.
#[global] Instance SignalState_ok {F : FlatBuffers} {FO : FlatBuffersOk F} : MessageOk
    SignalState_message.
Proof. solve_message_with ltac:(fun _ => unfold_SignalState). Qed.
#[global] Arguments SignalState_Pack : simpl never.
#[global] Arguments SignalState_UnPackTo : simpl never.
#[global] Arguments SignalState_UnPack : simpl never.
#[global] Arguments SignalState.Verify : simpl never.
#[global] Arguments SignalStateT.fits : simpl never.
#[global] Arguments SignalStateT.tables : simpl never.
#[global] Typeclasses Opaque SignalState.Verify.

Module DerailerStateT.
(* SRC autogens/proto/snapshot_generated.h 545-554 DerailerStateT *)
Record t : Type := mk {
  uid : Z;
  position : Z;
  operator_state : option OperatorCommandRuntimeStateT.t }.
(* SRC autogens/proto/snapshot_generated.h 545-554 DerailerStateT *)
Definition init : t := mk 0 (code DerailerPosition.LOCKED) None.
Definition fits (_o : t) : Prop :=
  in_range U64 (uid _o) = true /\
  in_range I8 (position _o) = true /\
  from_option OperatorCommandRuntimeStateT.fits True (operator_state _o).
Definition tables (_o : t) : Z :=
  1 + tables_of OperatorCommandRuntimeStateT.tables (operator_state _o).
End DerailerStateT.

Module DerailerState.
Notation VT_UID := 4 (only parsing).
Notation VT_POSITION := 6 (only parsing).
Notation VT_OPERATOR_STATE := 8 (only parsing).
Section Table.
Context {F : FlatBuffers}.
(* SRC autogens/proto/snapshot_generated.h 564-566 DerailerState::uid *)
Definition uid (this_ : Obj) : option Z := GetField U64 this_ VT_UID 0.
(* SRC autogens/proto/snapshot_generated.h 567-569 DerailerState::position *)
Definition position (this_ : Obj) : option Z := GetField I8 this_ VT_POSITION 0.
(* SRC autogens/proto/snapshot_generated.h 570-572 DerailerState::operator_state *)
Definition operator_state (this_ : Obj) : option (option Obj) := GetPointer this_ VT_OPERATOR_STATE.
(* SRC autogens/proto/snapshot_generated.h 574-581 DerailerState::Verify *)
Definition Verify (this_ : Obj) : verification :=
  TableStart this_ &&>
  check (VerifyField U64 this_ VT_UID 8) &&>
  check (VerifyField I8 this_ VT_POSITION 1) &&>
  check (VerifyOffset this_ VT_OPERATOR_STATE) &&>
  check_table OperatorCommandRuntimeState.Verify (operator_state this_) &&>
  TableEnd.
End Table.
End DerailerState.

Module DerailerStateBuilder.
Section Builder.
Context {F : FlatBuffers}.
(* SRC autogens/proto/snapshot_generated.h 591-593 DerailerStateBuilder::add_uid *)
Definition add_uid (builder_ : builder) (uid : Z) : builder :=
  builder_ ++ [Element U64 DerailerState.VT_UID uid 0].
(* SRC autogens/proto/snapshot_generated.h 594-596 DerailerStateBuilder::add_position *)
Definition add_position (builder_ : builder) (position : Z) : builder :=
  builder_ ++ [Element I8 DerailerState.VT_POSITION position 0].
(* SRC autogens/proto/snapshot_generated.h 597-599 DerailerStateBuilder::add_operator_state *)
Definition add_operator_state (builder_ : builder) (operator_state : option Obj) : builder :=
  builder_ ++ [OffsetAt DerailerState.VT_OPERATOR_STATE operator_state].
(* SRC autogens/proto/snapshot_generated.h 604-608 DerailerStateBuilder::Finish *)
Definition Finish (builder_ : builder) : option Obj := Some (EndTable builder_).
End Builder.
End DerailerStateBuilder.

Section DerailerStateFunctions.
Context {F : FlatBuffers}.
(* SRC autogens/proto/snapshot_generated.h 611-621 CreateDerailerState *)
Definition CreateDerailerState (uid : Z) (position : Z) (operator_state : option Obj) : option Obj
    :=
  let builder_ := [] in
  let builder_ := DerailerStateBuilder.add_uid builder_ uid in
  let builder_ := DerailerStateBuilder.add_operator_state builder_ operator_state in
  let builder_ := DerailerStateBuilder.add_position builder_ position in
  DerailerStateBuilder.Finish builder_.
(* SRC autogens/proto/snapshot_generated.h 1648-1654 DerailerState::UnPackTo *)
Definition DerailerState_UnPackTo (_o : DerailerStateT.t) (this_ : Obj) : option DerailerStateT.t :=
  uid ← DerailerState.uid this_;
  position ← DerailerState.position this_;
  operator_state ← (_e ← DerailerState.operator_state this_;
    UnPackTable OperatorCommandRuntimeState_UnPackTo OperatorCommandRuntimeState_UnPack
        (DerailerStateT.operator_state _o) _e);
  Some (DerailerStateT.mk uid position operator_state).
(* SRC autogens/proto/snapshot_generated.h 1642-1646 DerailerState::UnPack *)
Definition DerailerState_UnPack (this_ : Obj) : option DerailerStateT.t :=
  DerailerState_UnPackTo DerailerStateT.init this_.
(* SRC autogens/proto/snapshot_generated.h 1660-1672 DerailerState::Pack *)
Definition DerailerState_Pack (_o : DerailerStateT.t) : option Obj :=
  let _uid := DerailerStateT.uid _o in
  let _position := DerailerStateT.position _o in
  _operator_state ← PackTable OperatorCommandRuntimeState_Pack (DerailerStateT.operator_state _o);
  CreateDerailerState _uid _position _operator_state.
Definition DerailerState_message : Message DerailerStateT.t :=
  mkMessage DerailerState_Pack DerailerState_UnPackTo DerailerState_UnPack DerailerState.Verify
      DerailerStateT.fits DerailerStateT.tables 2.
End DerailerStateFunctions.
Ltac unfold_DerailerState := cbv beta iota zeta delta [DerailerState_message DerailerState_Pack
    DerailerState_UnPack DerailerState_UnPackTo CreateDerailerState DerailerStateBuilder.add_uid
    DerailerStateBuilder.add_position DerailerStateBuilder.add_operator_state
    DerailerStateBuilder.Finish DerailerState.uid DerailerState.position
        DerailerState.operator_state
    DerailerState.Verify DerailerStateT.init DerailerStateT.fits DerailerStateT.tables
    DerailerStateT.uid DerailerStateT.position DerailerStateT.operator_state] in *.
#[global] Instance DerailerState_ok {F : FlatBuffers} {FO : FlatBuffersOk F} : MessageOk
    DerailerState_message.
Proof. solve_message_with ltac:(fun _ => unfold_DerailerState). Qed.
#[global] Arguments DerailerState_Pack : simpl never.
#[global] Arguments DerailerState_UnPackTo : simpl never.
#[global] Arguments DerailerState_UnPack : simpl never.
#[global] Arguments DerailerState.Verify : simpl never.
#[global] Arguments DerailerStateT.fits : simpl never.
#[global] Arguments DerailerStateT.tables : simpl never.
#[global] Typeclasses Opaque DerailerState.Verify.

Module BlockSectionSnapshotStateT.
(* SRC autogens/proto/snapshot_generated.h 625-635 BlockSectionSnapshotStateT *)
Record t : Type := mk {
  uid : Z;
  state : Z;
  block_direction : Z;
  operator_state : option OperatorCommandRuntimeStateT.t }.
(* SRC autogens/proto/snapshot_generated.h 625-635 BlockSectionSnapshotStateT *)
Definition init : t := mk 0 (code BlockSectionState.OPEN) (code BlockDirectionState.NEUTRAL) None.
Definition fits (_o : t) : Prop :=
  in_range U64 (uid _o) = true /\
  in_range I8 (state _o) = true /\
  in_range I8 (block_direction _o) = true /\
  from_option OperatorCommandRuntimeStateT.fits True (operator_state _o).
Definition tables (_o : t) : Z :=
  1 + tables_of OperatorCommandRuntimeStateT.tables (operator_state _o).
End BlockSectionSnapshotStateT.

Module BlockSectionSnapshotState.
Notation VT_UID := 4 (only parsing).
Notation VT_STATE := 6 (only parsing).
Notation VT_BLOCK_DIRECTION := 8 (only parsing).
Notation VT_OPERATOR_STATE := 10 (only parsing).
Section Table.
Context {F : FlatBuffers}.
(* SRC autogens/proto/snapshot_generated.h 646-648 BlockSectionSnapshotState::uid *)
Definition uid (this_ : Obj) : option Z := GetField U64 this_ VT_UID 0.
(* SRC autogens/proto/snapshot_generated.h 649-651 BlockSectionSnapshotState::state *)
Definition state (this_ : Obj) : option Z := GetField I8 this_ VT_STATE 0.
(* SRC autogens/proto/snapshot_generated.h 652-654 BlockSectionSnapshotState::block_direction *)
Definition block_direction (this_ : Obj) : option Z := GetField I8 this_ VT_BLOCK_DIRECTION 0.
(* SRC autogens/proto/snapshot_generated.h 655-657 BlockSectionSnapshotState::operator_state *)
Definition operator_state (this_ : Obj) : option (option Obj) := GetPointer this_ VT_OPERATOR_STATE.
(* SRC autogens/proto/snapshot_generated.h 659-667 BlockSectionSnapshotState::Verify *)
Definition Verify (this_ : Obj) : verification :=
  TableStart this_ &&>
  check (VerifyField U64 this_ VT_UID 8) &&>
  check (VerifyField I8 this_ VT_STATE 1) &&>
  check (VerifyField I8 this_ VT_BLOCK_DIRECTION 1) &&>
  check (VerifyOffset this_ VT_OPERATOR_STATE) &&>
  check_table OperatorCommandRuntimeState.Verify (operator_state this_) &&>
  TableEnd.
End Table.
End BlockSectionSnapshotState.

Module BlockSectionSnapshotStateBuilder.
Section Builder.
Context {F : FlatBuffers}.
(* SRC autogens/proto/snapshot_generated.h 677-679 BlockSectionSnapshotStateBuilder::add_uid *)
Definition add_uid (builder_ : builder) (uid : Z) : builder :=
  builder_ ++ [Element U64 BlockSectionSnapshotState.VT_UID uid 0].
(* SRC autogens/proto/snapshot_generated.h 680-682 BlockSectionSnapshotStateBuilder::add_state *)
Definition add_state (builder_ : builder) (state : Z) : builder :=
  builder_ ++ [Element I8 BlockSectionSnapshotState.VT_STATE state 0].
(* SRC autogens/proto/snapshot_generated.h 683-685 BlockSectionSnapshotStateBuilder::add_block_direction *)
Definition add_block_direction (builder_ : builder) (block_direction : Z) : builder :=
  builder_ ++ [Element I8 BlockSectionSnapshotState.VT_BLOCK_DIRECTION block_direction 0].
(* SRC autogens/proto/snapshot_generated.h 686-688 BlockSectionSnapshotStateBuilder::add_operator_state *)
Definition add_operator_state (builder_ : builder) (operator_state : option Obj) : builder :=
  builder_ ++ [OffsetAt BlockSectionSnapshotState.VT_OPERATOR_STATE operator_state].
(* SRC autogens/proto/snapshot_generated.h 693-697 BlockSectionSnapshotStateBuilder::Finish *)
Definition Finish (builder_ : builder) : option Obj := Some (EndTable builder_).
End Builder.
End BlockSectionSnapshotStateBuilder.

Section BlockSectionSnapshotStateFunctions.
Context {F : FlatBuffers}.
(* SRC autogens/proto/snapshot_generated.h 700-712 CreateBlockSectionSnapshotState *)
Definition CreateBlockSectionSnapshotState (uid : Z) (state : Z) (block_direction : Z)
    (operator_state : option Obj) : option Obj :=
  let builder_ := [] in
  let builder_ := BlockSectionSnapshotStateBuilder.add_uid builder_ uid in
  let builder_ := BlockSectionSnapshotStateBuilder.add_operator_state builder_ operator_state in
  let builder_ := BlockSectionSnapshotStateBuilder.add_block_direction builder_ block_direction in
  let builder_ := BlockSectionSnapshotStateBuilder.add_state builder_ state in
  BlockSectionSnapshotStateBuilder.Finish builder_.
(* SRC autogens/proto/snapshot_generated.h 1695-1702 BlockSectionSnapshotState::UnPackTo *)
Definition BlockSectionSnapshotState_UnPackTo (_o : BlockSectionSnapshotStateT.t) (this_ : Obj)
    : option BlockSectionSnapshotStateT.t :=
  uid ← BlockSectionSnapshotState.uid this_;
  state ← BlockSectionSnapshotState.state this_;
  block_direction ← BlockSectionSnapshotState.block_direction this_;
  operator_state ← (_e ← BlockSectionSnapshotState.operator_state this_;
    UnPackTable OperatorCommandRuntimeState_UnPackTo OperatorCommandRuntimeState_UnPack
        (BlockSectionSnapshotStateT.operator_state _o) _e);
  Some (BlockSectionSnapshotStateT.mk uid state block_direction operator_state).
(* SRC autogens/proto/snapshot_generated.h 1689-1693 BlockSectionSnapshotState::UnPack *)
Definition BlockSectionSnapshotState_UnPack (this_ : Obj) : option BlockSectionSnapshotStateT.t
    :=
  BlockSectionSnapshotState_UnPackTo BlockSectionSnapshotStateT.init this_.
(* SRC autogens/proto/snapshot_generated.h 1708-1722 BlockSectionSnapshotState::Pack *)
Definition BlockSectionSnapshotState_Pack (_o : BlockSectionSnapshotStateT.t) : option Obj :=
  let _uid := BlockSectionSnapshotStateT.uid _o in
  let _state := BlockSectionSnapshotStateT.state _o in
  let _block_direction := BlockSectionSnapshotStateT.block_direction _o in
  _operator_state ← PackTable OperatorCommandRuntimeState_Pack
      (BlockSectionSnapshotStateT.operator_state _o);
  CreateBlockSectionSnapshotState _uid _state _block_direction _operator_state.
Definition BlockSectionSnapshotState_message : Message BlockSectionSnapshotStateT.t :=
  mkMessage BlockSectionSnapshotState_Pack BlockSectionSnapshotState_UnPackTo
      BlockSectionSnapshotState_UnPack BlockSectionSnapshotState.Verify
      BlockSectionSnapshotStateT.fits BlockSectionSnapshotStateT.tables 2.
End BlockSectionSnapshotStateFunctions.
Ltac unfold_BlockSectionSnapshotState := cbv beta iota zeta delta
    [BlockSectionSnapshotState_message BlockSectionSnapshotState_Pack
        BlockSectionSnapshotState_UnPack
    BlockSectionSnapshotState_UnPackTo CreateBlockSectionSnapshotState
    BlockSectionSnapshotStateBuilder.add_uid BlockSectionSnapshotStateBuilder.add_state
    BlockSectionSnapshotStateBuilder.add_block_direction
    BlockSectionSnapshotStateBuilder.add_operator_state BlockSectionSnapshotStateBuilder.Finish
    BlockSectionSnapshotState.uid BlockSectionSnapshotState.state
    BlockSectionSnapshotState.block_direction BlockSectionSnapshotState.operator_state
    BlockSectionSnapshotState.Verify BlockSectionSnapshotStateT.init BlockSectionSnapshotStateT.fits
    BlockSectionSnapshotStateT.tables BlockSectionSnapshotStateT.uid
        BlockSectionSnapshotStateT.state
    BlockSectionSnapshotStateT.block_direction BlockSectionSnapshotStateT.operator_state] in *.
#[global] Instance BlockSectionSnapshotState_ok {F : FlatBuffers} {FO : FlatBuffersOk F} :
    MessageOk BlockSectionSnapshotState_message.
Proof. solve_message_with ltac:(fun _ => unfold_BlockSectionSnapshotState). Qed.
#[global] Arguments BlockSectionSnapshotState_Pack : simpl never.
#[global] Arguments BlockSectionSnapshotState_UnPackTo : simpl never.
#[global] Arguments BlockSectionSnapshotState_UnPack : simpl never.
#[global] Arguments BlockSectionSnapshotState.Verify : simpl never.
#[global] Arguments BlockSectionSnapshotStateT.fits : simpl never.
#[global] Arguments BlockSectionSnapshotStateT.tables : simpl never.
#[global] Typeclasses Opaque BlockSectionSnapshotState.Verify.

Module RouteStateT.
(* SRC autogens/proto/snapshot_generated.h 716-722 RouteStateT *)
Record t : Type := mk {
  uid : Z;
  from_signal_uid : Z;
  to_signal_uid : Z;
  section_uids : list Z }.
(* SRC autogens/proto/snapshot_generated.h 716-722 RouteStateT *)
Definition init : t := mk 0 0 0 [].
Definition fits (_o : t) : Prop :=
  in_range U64 (uid _o) = true /\
  in_range U64 (from_signal_uid _o) = true /\
  in_range U64 (to_signal_uid _o) = true /\
  Forall (fun x => in_range U64 x = true) (section_uids _o).
Definition tables (_o : t) : Z := 1.
End RouteStateT.

Module RouteState.
Notation VT_UID := 4 (only parsing).
Notation VT_FROM_SIGNAL_UID := 6 (only parsing).
Notation VT_TO_SIGNAL_UID := 8 (only parsing).
Notation VT_SECTION_UIDS := 10 (only parsing).
Section Table.
Context {F : FlatBuffers}.
(* SRC autogens/proto/snapshot_generated.h 733-735 RouteState::uid *)
Definition uid (this_ : Obj) : option Z := GetField U64 this_ VT_UID 0.
(* SRC autogens/proto/snapshot_generated.h 736-738 RouteState::from_signal_uid *)
Definition from_signal_uid (this_ : Obj) : option Z := GetField U64 this_ VT_FROM_SIGNAL_UID 0.
(* SRC autogens/proto/snapshot_generated.h 739-741 RouteState::to_signal_uid *)
Definition to_signal_uid (this_ : Obj) : option Z := GetField U64 this_ VT_TO_SIGNAL_UID 0.
(* SRC autogens/proto/snapshot_generated.h 742-744 RouteState::section_uids *)
Definition section_uids (this_ : Obj) : option (option Obj) := GetPointer this_ VT_SECTION_UIDS.
(* SRC autogens/proto/snapshot_generated.h 746-754 RouteState::Verify *)
Definition Verify (this_ : Obj) : verification :=
  TableStart this_ &&>
  check (VerifyField U64 this_ VT_UID 8) &&>
  check (VerifyField U64 this_ VT_FROM_SIGNAL_UID 8) &&>
  check (VerifyField U64 this_ VT_TO_SIGNAL_UID 8) &&>
  check (VerifyOffset this_ VT_SECTION_UIDS) &&>
  check_vector (VectorOf U64) (section_uids this_) &&>
  TableEnd.
End Table.
End RouteState.

Module RouteStateBuilder.
Section Builder.
Context {F : FlatBuffers}.
(* SRC autogens/proto/snapshot_generated.h 764-766 RouteStateBuilder::add_uid *)
Definition add_uid (builder_ : builder) (uid : Z) : builder :=
  builder_ ++ [Element U64 RouteState.VT_UID uid 0].
(* SRC autogens/proto/snapshot_generated.h 767-769 RouteStateBuilder::add_from_signal_uid *)
Definition add_from_signal_uid (builder_ : builder) (from_signal_uid : Z) : builder :=
  builder_ ++ [Element U64 RouteState.VT_FROM_SIGNAL_UID from_signal_uid 0].
(* SRC autogens/proto/snapshot_generated.h 770-772 RouteStateBuilder::add_to_signal_uid *)
Definition add_to_signal_uid (builder_ : builder) (to_signal_uid : Z) : builder :=
  builder_ ++ [Element U64 RouteState.VT_TO_SIGNAL_UID to_signal_uid 0].
(* SRC autogens/proto/snapshot_generated.h 773-775 RouteStateBuilder::add_section_uids *)
Definition add_section_uids (builder_ : builder) (section_uids : option Obj) : builder :=
  builder_ ++ [OffsetAt RouteState.VT_SECTION_UIDS section_uids].
(* SRC autogens/proto/snapshot_generated.h 780-784 RouteStateBuilder::Finish *)
Definition Finish (builder_ : builder) : option Obj := Some (EndTable builder_).
End Builder.
End RouteStateBuilder.

Section RouteStateFunctions.
Context {F : FlatBuffers}.
(* SRC autogens/proto/snapshot_generated.h 787-799 CreateRouteState *)
Definition CreateRouteState (uid : Z) (from_signal_uid : Z) (to_signal_uid : Z) (section_uids :
    option Obj) : option Obj :=
  let builder_ := [] in
  let builder_ := RouteStateBuilder.add_to_signal_uid builder_ to_signal_uid in
  let builder_ := RouteStateBuilder.add_from_signal_uid builder_ from_signal_uid in
  let builder_ := RouteStateBuilder.add_uid builder_ uid in
  let builder_ := RouteStateBuilder.add_section_uids builder_ section_uids in
  RouteStateBuilder.Finish builder_.
(* SRC autogens/proto/snapshot_generated.h 801-814 CreateRouteStateDirect *)
Definition CreateRouteStateDirect (uid : Z) (from_signal_uid : Z) (to_signal_uid : Z)
    (section_uids : option (list Z)) : option Obj :=
  let section_uids__ := CreateVector U64 <$> section_uids in
  CreateRouteState uid from_signal_uid to_signal_uid section_uids__.
(* SRC autogens/proto/snapshot_generated.h 1730-1737 RouteState::UnPackTo *)
Definition RouteState_UnPackTo (_o : RouteStateT.t) (this_ : Obj) : option RouteStateT.t :=
  uid ← RouteState.uid this_;
  from_signal_uid ← RouteState.from_signal_uid this_;
  to_signal_uid ← RouteState.to_signal_uid this_;
  section_uids ← (_e ← RouteState.section_uids this_; UnPackVector U64 _e);
  Some (RouteStateT.mk uid from_signal_uid to_signal_uid section_uids).
(* SRC autogens/proto/snapshot_generated.h 1724-1728 RouteState::UnPack *)
Definition RouteState_UnPack (this_ : Obj) : option RouteStateT.t :=
  RouteState_UnPackTo RouteStateT.init this_.
(* SRC autogens/proto/snapshot_generated.h 1743-1757 RouteState::Pack *)
Definition RouteState_Pack (_o : RouteStateT.t) : option Obj :=
  let _uid := RouteStateT.uid _o in
  let _from_signal_uid := RouteStateT.from_signal_uid _o in
  let _to_signal_uid := RouteStateT.to_signal_uid _o in
  let _section_uids := PackVector U64 (RouteStateT.section_uids _o) in
  CreateRouteState _uid _from_signal_uid _to_signal_uid _section_uids.
Definition RouteState_message : Message RouteStateT.t :=
  mkMessage RouteState_Pack RouteState_UnPackTo RouteState_UnPack RouteState.Verify
      RouteStateT.fits RouteStateT.tables 1.
End RouteStateFunctions.
Ltac unfold_RouteState := cbv beta iota zeta delta [RouteState_message RouteState_Pack
    RouteState_UnPack RouteState_UnPackTo CreateRouteState RouteStateBuilder.add_uid
    RouteStateBuilder.add_from_signal_uid RouteStateBuilder.add_to_signal_uid
    RouteStateBuilder.add_section_uids RouteStateBuilder.Finish RouteState.uid
    RouteState.from_signal_uid RouteState.to_signal_uid RouteState.section_uids RouteState.Verify
    RouteStateT.init RouteStateT.fits RouteStateT.tables RouteStateT.uid RouteStateT.from_signal_uid
    RouteStateT.to_signal_uid RouteStateT.section_uids] in *.
#[global] Instance RouteState_ok {F : FlatBuffers} {FO : FlatBuffersOk F} : MessageOk
    RouteState_message.
Proof. solve_message_with ltac:(fun _ => unfold_RouteState). Qed.
#[global] Arguments RouteState_Pack : simpl never.
#[global] Arguments RouteState_UnPackTo : simpl never.
#[global] Arguments RouteState_UnPack : simpl never.
#[global] Arguments RouteState.Verify : simpl never.
#[global] Arguments RouteStateT.fits : simpl never.
#[global] Arguments RouteStateT.tables : simpl never.
#[global] Typeclasses Opaque RouteState.Verify.

Module AlarmStateT.
(* SRC autogens/proto/snapshot_generated.h 818-824 AlarmStateT *)
Record t : Type := mk {
  uid : Z;
  alarm_type : Z;
  object_uid : Z;
  message : string }.
(* SRC autogens/proto/snapshot_generated.h 818-824 AlarmStateT *)
Definition init : t := mk 0 0 0 "".
Definition fits (_o : t) : Prop :=
  in_range U64 (uid _o) = true /\
  in_range I8 (alarm_type _o) = true /\
  in_range U64 (object_uid _o) = true.
Definition tables (_o : t) : Z := 1.
End AlarmStateT.

Module AlarmState.
Notation VT_UID := 4 (only parsing).
Notation VT_ALARM_TYPE := 6 (only parsing).
Notation VT_OBJECT_UID := 8 (only parsing).
Notation VT_MESSAGE := 10 (only parsing).
Section Table.
Context {F : FlatBuffers}.
(* SRC autogens/proto/snapshot_generated.h 835-837 AlarmState::uid *)
Definition uid (this_ : Obj) : option Z := GetField U64 this_ VT_UID 0.
(* SRC autogens/proto/snapshot_generated.h 838-840 AlarmState::alarm_type *)
Definition alarm_type (this_ : Obj) : option Z := GetField I8 this_ VT_ALARM_TYPE 0.
(* SRC autogens/proto/snapshot_generated.h 841-843 AlarmState::object_uid *)
Definition object_uid (this_ : Obj) : option Z := GetField U64 this_ VT_OBJECT_UID 0.
(* SRC autogens/proto/snapshot_generated.h 844-846 AlarmState::message *)
Definition message (this_ : Obj) : option (option Obj) := GetPointer this_ VT_MESSAGE.
(* SRC autogens/proto/snapshot_generated.h 848-856 AlarmState::Verify *)
Definition Verify (this_ : Obj) : verification :=
  TableStart this_ &&>
  check (VerifyField U64 this_ VT_UID 8) &&>
  check (VerifyField I8 this_ VT_ALARM_TYPE 1) &&>
  check (VerifyField U64 this_ VT_OBJECT_UID 8) &&>
  check (VerifyOffset this_ VT_MESSAGE) &&>
  check_string (message this_) &&>
  TableEnd.
End Table.
End AlarmState.

Module AlarmStateBuilder.
Section Builder.
Context {F : FlatBuffers}.
(* SRC autogens/proto/snapshot_generated.h 866-868 AlarmStateBuilder::add_uid *)
Definition add_uid (builder_ : builder) (uid : Z) : builder :=
  builder_ ++ [Element U64 AlarmState.VT_UID uid 0].
(* SRC autogens/proto/snapshot_generated.h 869-871 AlarmStateBuilder::add_alarm_type *)
Definition add_alarm_type (builder_ : builder) (alarm_type : Z) : builder :=
  builder_ ++ [Element I8 AlarmState.VT_ALARM_TYPE alarm_type 0].
(* SRC autogens/proto/snapshot_generated.h 872-874 AlarmStateBuilder::add_object_uid *)
Definition add_object_uid (builder_ : builder) (object_uid : Z) : builder :=
  builder_ ++ [Element U64 AlarmState.VT_OBJECT_UID object_uid 0].
(* SRC autogens/proto/snapshot_generated.h 875-877 AlarmStateBuilder::add_message *)
Definition add_message (builder_ : builder) (message : option Obj) : builder :=
  builder_ ++ [OffsetAt AlarmState.VT_MESSAGE message].
(* SRC autogens/proto/snapshot_generated.h 882-886 AlarmStateBuilder::Finish *)
Definition Finish (builder_ : builder) : option Obj := Some (EndTable builder_).
End Builder.
End AlarmStateBuilder.

Section AlarmStateFunctions.
Context {F : FlatBuffers}.
(* SRC autogens/proto/snapshot_generated.h 889-901 CreateAlarmState *)
Definition CreateAlarmState (uid : Z) (alarm_type : Z) (object_uid : Z) (message : option Obj) :
    option Obj :=
  let builder_ := [] in
  let builder_ := AlarmStateBuilder.add_object_uid builder_ object_uid in
  let builder_ := AlarmStateBuilder.add_uid builder_ uid in
  let builder_ := AlarmStateBuilder.add_message builder_ message in
  let builder_ := AlarmStateBuilder.add_alarm_type builder_ alarm_type in
  AlarmStateBuilder.Finish builder_.
(* SRC autogens/proto/snapshot_generated.h 903-916 CreateAlarmStateDirect *)
Definition CreateAlarmStateDirect (uid : Z) (alarm_type : Z) (object_uid : Z) (message : option
    string) : option Obj :=
  let message__ := CreateString <$> message in
  CreateAlarmState uid alarm_type object_uid message__.
(* SRC autogens/proto/snapshot_generated.h 1765-1772 AlarmState::UnPackTo *)
Definition AlarmState_UnPackTo (_o : AlarmStateT.t) (this_ : Obj) : option AlarmStateT.t :=
  uid ← AlarmState.uid this_;
  alarm_type ← AlarmState.alarm_type this_;
  object_uid ← AlarmState.object_uid this_;
  message ← (_e ← AlarmState.message this_; UnPackString (AlarmStateT.message _o) _e);
  Some (AlarmStateT.mk uid alarm_type object_uid message).
(* SRC autogens/proto/snapshot_generated.h 1759-1763 AlarmState::UnPack *)
Definition AlarmState_UnPack (this_ : Obj) : option AlarmStateT.t :=
  AlarmState_UnPackTo AlarmStateT.init this_.
(* SRC autogens/proto/snapshot_generated.h 1778-1792 AlarmState::Pack *)
Definition AlarmState_Pack (_o : AlarmStateT.t) : option Obj :=
  let _uid := AlarmStateT.uid _o in
  let _alarm_type := AlarmStateT.alarm_type _o in
  let _object_uid := AlarmStateT.object_uid _o in
  let _message := PackString (AlarmStateT.message _o) in
  CreateAlarmState _uid _alarm_type _object_uid _message.
Definition AlarmState_message : Message AlarmStateT.t :=
  mkMessage AlarmState_Pack AlarmState_UnPackTo AlarmState_UnPack AlarmState.Verify
      AlarmStateT.fits AlarmStateT.tables 1.
End AlarmStateFunctions.
Ltac unfold_AlarmState := cbv beta iota zeta delta [AlarmState_message AlarmState_Pack
    AlarmState_UnPack AlarmState_UnPackTo CreateAlarmState AlarmStateBuilder.add_uid
    AlarmStateBuilder.add_alarm_type AlarmStateBuilder.add_object_uid AlarmStateBuilder.add_message
    AlarmStateBuilder.Finish AlarmState.uid AlarmState.alarm_type AlarmState.object_uid
    AlarmState.message AlarmState.Verify AlarmStateT.init AlarmStateT.fits AlarmStateT.tables
    AlarmStateT.uid AlarmStateT.alarm_type AlarmStateT.object_uid AlarmStateT.message] in *.
#[global] Instance AlarmState_ok {F : FlatBuffers} {FO : FlatBuffersOk F} : MessageOk
    AlarmState_message.
Proof. solve_message_with ltac:(fun _ => unfold_AlarmState). Qed.
#[global] Arguments AlarmState_Pack : simpl never.
#[global] Arguments AlarmState_UnPackTo : simpl never.
#[global] Arguments AlarmState_UnPack : simpl never.
#[global] Arguments AlarmState.Verify : simpl never.
#[global] Arguments AlarmStateT.fits : simpl never.
#[global] Arguments AlarmStateT.tables : simpl never.
#[global] Typeclasses Opaque AlarmState.Verify.

Module DispatchAreaOwnershipT.
(* SRC autogens/proto/snapshot_generated.h 920-925 DispatchAreaOwnershipT *)
Record t : Type := mk {
  dispatch_area_uid : Z;
  station_uid : Z;
  owner_client_id : string }.
(* SRC autogens/proto/snapshot_generated.h 920-925 DispatchAreaOwnershipT *)
Definition init : t := mk 0 0 "".
Definition fits (_o : t) : Prop :=
  in_range U64 (dispatch_area_uid _o) = true /\
  in_range U64 (station_uid _o) = true.
Definition tables (_o : t) : Z := 1.
End DispatchAreaOwnershipT.

Module DispatchAreaOwnership.
Notation VT_DISPATCH_AREA_UID := 4 (only parsing).
Notation VT_STATION_UID := 6 (only parsing).
Notation VT_OWNER_CLIENT_ID := 8 (only parsing).
Section Table.
Context {F : FlatBuffers}.
(* SRC autogens/proto/snapshot_generated.h 935-937 DispatchAreaOwnership::dispatch_area_uid *)
Definition dispatch_area_uid (this_ : Obj) : option Z := GetField U64 this_ VT_DISPATCH_AREA_UID 0.
(* SRC autogens/proto/snapshot_generated.h 938-940 DispatchAreaOwnership::station_uid *)
Definition station_uid (this_ : Obj) : option Z := GetField U64 this_ VT_STATION_UID 0.
(* SRC autogens/proto/snapshot_generated.h 941-943 DispatchAreaOwnership::owner_client_id *)
Definition owner_client_id (this_ : Obj) : option (option Obj) :=
  GetPointer this_ VT_OWNER_CLIENT_ID.
(* SRC autogens/proto/snapshot_generated.h 945-952 DispatchAreaOwnership::Verify *)
Definition Verify (this_ : Obj) : verification :=
  TableStart this_ &&>
  check (VerifyField U64 this_ VT_DISPATCH_AREA_UID 8) &&>
  check (VerifyField U64 this_ VT_STATION_UID 8) &&>
  check (VerifyOffset this_ VT_OWNER_CLIENT_ID) &&>
  check_string (owner_client_id this_) &&>
  TableEnd.
End Table.
End DispatchAreaOwnership.

Module DispatchAreaOwnershipBuilder.
Section Builder.
Context {F : FlatBuffers}.
(* SRC autogens/proto/snapshot_generated.h 962-964 DispatchAreaOwnershipBuilder::add_dispatch_area_uid *)
Definition add_dispatch_area_uid (builder_ : builder) (dispatch_area_uid : Z) : builder :=
  builder_ ++ [Element U64 DispatchAreaOwnership.VT_DISPATCH_AREA_UID dispatch_area_uid 0].
(* SRC autogens/proto/snapshot_generated.h 965-967 DispatchAreaOwnershipBuilder::add_station_uid *)
Definition add_station_uid (builder_ : builder) (station_uid : Z) : builder :=
  builder_ ++ [Element U64 DispatchAreaOwnership.VT_STATION_UID station_uid 0].
(* SRC autogens/proto/snapshot_generated.h 968-970 DispatchAreaOwnershipBuilder::add_owner_client_id *)
Definition add_owner_client_id (builder_ : builder) (owner_client_id : option Obj) : builder :=
  builder_ ++ [OffsetAt DispatchAreaOwnership.VT_OWNER_CLIENT_ID owner_client_id].
(* SRC autogens/proto/snapshot_generated.h 975-979 DispatchAreaOwnershipBuilder::Finish *)
Definition Finish (builder_ : builder) : option Obj := Some (EndTable builder_).
End Builder.
End DispatchAreaOwnershipBuilder.

Section DispatchAreaOwnershipFunctions.
Context {F : FlatBuffers}.
(* SRC autogens/proto/snapshot_generated.h 982-992 CreateDispatchAreaOwnership *)
Definition CreateDispatchAreaOwnership (dispatch_area_uid : Z) (station_uid : Z) (owner_client_id
    : option Obj) : option Obj :=
  let builder_ := [] in
  let builder_ := DispatchAreaOwnershipBuilder.add_station_uid builder_ station_uid in
  let builder_ := DispatchAreaOwnershipBuilder.add_dispatch_area_uid builder_ dispatch_area_uid in
  let builder_ := DispatchAreaOwnershipBuilder.add_owner_client_id builder_ owner_client_id in
  DispatchAreaOwnershipBuilder.Finish builder_.
(* SRC autogens/proto/snapshot_generated.h 994-1005 CreateDispatchAreaOwnershipDirect *)
Definition CreateDispatchAreaOwnershipDirect (dispatch_area_uid : Z) (station_uid : Z)
    (owner_client_id : option string) : option Obj :=
  let owner_client_id__ := CreateString <$> owner_client_id in
  CreateDispatchAreaOwnership dispatch_area_uid station_uid owner_client_id__.
(* SRC autogens/proto/snapshot_generated.h 1800-1806 DispatchAreaOwnership::UnPackTo *)
Definition DispatchAreaOwnership_UnPackTo (_o : DispatchAreaOwnershipT.t) (this_ : Obj) : option
    DispatchAreaOwnershipT.t :=
  dispatch_area_uid ← DispatchAreaOwnership.dispatch_area_uid this_;
  station_uid ← DispatchAreaOwnership.station_uid this_;
  owner_client_id ← (_e ← DispatchAreaOwnership.owner_client_id this_; UnPackString
      (DispatchAreaOwnershipT.owner_client_id _o) _e);
  Some (DispatchAreaOwnershipT.mk dispatch_area_uid station_uid owner_client_id).
(* SRC autogens/proto/snapshot_generated.h 1794-1798 DispatchAreaOwnership::UnPack *)
Definition DispatchAreaOwnership_UnPack (this_ : Obj) : option DispatchAreaOwnershipT.t :=
  DispatchAreaOwnership_UnPackTo DispatchAreaOwnershipT.init this_.
(* SRC autogens/proto/snapshot_generated.h 1812-1824 DispatchAreaOwnership::Pack *)
Definition DispatchAreaOwnership_Pack (_o : DispatchAreaOwnershipT.t) : option Obj :=
  let _dispatch_area_uid := DispatchAreaOwnershipT.dispatch_area_uid _o in
  let _station_uid := DispatchAreaOwnershipT.station_uid _o in
  let _owner_client_id := PackString (DispatchAreaOwnershipT.owner_client_id _o) in
  CreateDispatchAreaOwnership _dispatch_area_uid _station_uid _owner_client_id.
Definition DispatchAreaOwnership_message : Message DispatchAreaOwnershipT.t :=
  mkMessage DispatchAreaOwnership_Pack DispatchAreaOwnership_UnPackTo
      DispatchAreaOwnership_UnPack DispatchAreaOwnership.Verify DispatchAreaOwnershipT.fits
      DispatchAreaOwnershipT.tables 1.
End DispatchAreaOwnershipFunctions.
Ltac unfold_DispatchAreaOwnership := cbv beta iota zeta delta [DispatchAreaOwnership_message
    DispatchAreaOwnership_Pack DispatchAreaOwnership_UnPack DispatchAreaOwnership_UnPackTo
    CreateDispatchAreaOwnership DispatchAreaOwnershipBuilder.add_dispatch_area_uid
    DispatchAreaOwnershipBuilder.add_station_uid DispatchAreaOwnershipBuilder.add_owner_client_id
    DispatchAreaOwnershipBuilder.Finish DispatchAreaOwnership.dispatch_area_uid
    DispatchAreaOwnership.station_uid DispatchAreaOwnership.owner_client_id
    DispatchAreaOwnership.Verify DispatchAreaOwnershipT.init DispatchAreaOwnershipT.fits
    DispatchAreaOwnershipT.tables DispatchAreaOwnershipT.dispatch_area_uid
    DispatchAreaOwnershipT.station_uid DispatchAreaOwnershipT.owner_client_id] in *.
#[global] Instance DispatchAreaOwnership_ok {F : FlatBuffers} {FO : FlatBuffersOk F} : MessageOk
    DispatchAreaOwnership_message.
Proof. solve_message_with ltac:(fun _ => unfold_DispatchAreaOwnership). Qed.
#[global] Arguments DispatchAreaOwnership_Pack : simpl never.
#[global] Arguments DispatchAreaOwnership_UnPackTo : simpl never.
#[global] Arguments DispatchAreaOwnership_UnPack : simpl never.
#[global] Arguments DispatchAreaOwnership.Verify : simpl never.
#[global] Arguments DispatchAreaOwnershipT.fits : simpl never.
#[global] Arguments DispatchAreaOwnershipT.tables : simpl never.
#[global] Typeclasses Opaque DispatchAreaOwnership.Verify.

Module TrainStateT.
(* SRC autogens/proto/snapshot_generated.h 1009-1018 TrainStateT *)
Record t : Type := mk {
  uid : Z;
  vehicle_uids : list Z;
  section_uid : Z;
  direction : Z;
  speed_kmh : float;
  total_length_m : float;
  total_axles : Z }.
(* SRC autogens/proto/snapshot_generated.h 1009-1018 TrainStateT *)
Definition init : t := mk 0 [] 0 0 f32_zero f32_zero 0.
Definition fits (_o : t) : Prop :=
  in_range U64 (uid _o) = true /\
  Forall (fun x => in_range U64 x = true) (vehicle_uids _o) /\
  in_range U64 (section_uid _o) = true /\
  in_range I8 (direction _o) = true /\
  float_field (speed_kmh _o) = true /\
  float_field (total_length_m _o) = true /\
  in_range I32 (total_axles _o) = true.
Definition tables (_o : t) : Z := 1.
End TrainStateT.

Module TrainState.
Notation VT_UID := 4 (only parsing).
Notation VT_VEHICLE_UIDS := 6 (only parsing).
Notation VT_SECTION_UID := 8 (only parsing).
Notation VT_DIRECTION := 10 (only parsing).
Notation VT_SPEED_KMH := 12 (only parsing).
Notation VT_TOTAL_LENGTH_M := 14 (only parsing).
Notation VT_TOTAL_AXLES := 16 (only parsing).
Section Table.
Context {F : FlatBuffers}.
(* SRC autogens/proto/snapshot_generated.h 1032-1034 TrainState::uid *)
Definition uid (this_ : Obj) : option Z := GetField U64 this_ VT_UID 0.
(* SRC autogens/proto/snapshot_generated.h 1035-1037 TrainState::vehicle_uids *)
Definition vehicle_uids (this_ : Obj) : option (option Obj) := GetPointer this_ VT_VEHICLE_UIDS.
(* SRC autogens/proto/snapshot_generated.h 1038-1040 TrainState::section_uid *)
Definition section_uid (this_ : Obj) : option Z := GetField U64 this_ VT_SECTION_UID 0.
(* SRC autogens/proto/snapshot_generated.h 1041-1043 TrainState::direction *)
Definition direction (this_ : Obj) : option Z := GetField I8 this_ VT_DIRECTION 0.
(* SRC autogens/proto/snapshot_generated.h 1044-1046 TrainState::speed_kmh *)
Definition speed_kmh (this_ : Obj) : option float := GetFieldF this_ VT_SPEED_KMH f32_zero.
(* SRC autogens/proto/snapshot_generated.h 1047-1049 TrainState::total_length_m *)
Definition total_length_m (this_ : Obj) : option float :=
  GetFieldF this_ VT_TOTAL_LENGTH_M f32_zero.
(* SRC autogens/proto/snapshot_generated.h 1050-1052 TrainState::total_axles *)
Definition total_axles (this_ : Obj) : option Z := GetField I32 this_ VT_TOTAL_AXLES 0.
(* SRC autogens/proto/snapshot_generated.h 1054-1065 TrainState::Verify *)
Definition Verify (this_ : Obj) : verification :=
  TableStart this_ &&>
  check (VerifyField U64 this_ VT_UID 8) &&>
  check (VerifyOffset this_ VT_VEHICLE_UIDS) &&>
  check_vector (VectorOf U64) (vehicle_uids this_) &&>
  check (VerifyField U64 this_ VT_SECTION_UID 8) &&>
  check (VerifyField I8 this_ VT_DIRECTION 1) &&>
  check (VerifyFieldF this_ VT_SPEED_KMH 4) &&>
  check (VerifyFieldF this_ VT_TOTAL_LENGTH_M 4) &&>
  check (VerifyField I32 this_ VT_TOTAL_AXLES 4) &&>
  TableEnd.
End Table.
End TrainState.

Module TrainStateBuilder.
Section Builder.
Context {F : FlatBuffers}.
(* SRC autogens/proto/snapshot_generated.h 1075-1077 TrainStateBuilder::add_uid *)
Definition add_uid (builder_ : builder) (uid : Z) : builder :=
  builder_ ++ [Element U64 TrainState.VT_UID uid 0].
(* SRC autogens/proto/snapshot_generated.h 1078-1080 TrainStateBuilder::add_vehicle_uids *)
Definition add_vehicle_uids (builder_ : builder) (vehicle_uids : option Obj) : builder :=
  builder_ ++ [OffsetAt TrainState.VT_VEHICLE_UIDS vehicle_uids].
(* SRC autogens/proto/snapshot_generated.h 1081-1083 TrainStateBuilder::add_section_uid *)
Definition add_section_uid (builder_ : builder) (section_uid : Z) : builder :=
  builder_ ++ [Element U64 TrainState.VT_SECTION_UID section_uid 0].
(* SRC autogens/proto/snapshot_generated.h 1084-1086 TrainStateBuilder::add_direction *)
Definition add_direction (builder_ : builder) (direction : Z) : builder :=
  builder_ ++ [Element I8 TrainState.VT_DIRECTION direction 0].
(* SRC autogens/proto/snapshot_generated.h 1087-1089 TrainStateBuilder::add_speed_kmh *)
Definition add_speed_kmh (builder_ : builder) (speed_kmh : float) : builder :=
  builder_ ++ [ElementF TrainState.VT_SPEED_KMH speed_kmh f32_zero].
(* SRC autogens/proto/snapshot_generated.h 1090-1092 TrainStateBuilder::add_total_length_m *)
Definition add_total_length_m (builder_ : builder) (total_length_m : float) : builder :=
  builder_ ++ [ElementF TrainState.VT_TOTAL_LENGTH_M total_length_m f32_zero].
(* SRC autogens/proto/snapshot_generated.h 1093-1095 TrainStateBuilder::add_total_axles *)
Definition add_total_axles (builder_ : builder) (total_axles : Z) : builder :=
  builder_ ++ [Element I32 TrainState.VT_TOTAL_AXLES total_axles 0].
(* SRC autogens/proto/snapshot_generated.h 1100-1104 TrainStateBuilder::Finish *)
Definition Finish (builder_ : builder) : option Obj := Some (EndTable builder_).
End Builder.
End TrainStateBuilder.

Section TrainStateFunctions.
Context {F : FlatBuffers}.
(* SRC autogens/proto/snapshot_generated.h 1107-1125 CreateTrainState *)
Definition CreateTrainState (uid : Z) (vehicle_uids : option Obj) (section_uid : Z) (direction :
    Z) (speed_kmh : float) (total_length_m : float) (total_axles : Z) : option Obj :=
  let builder_ := [] in
  let builder_ := TrainStateBuilder.add_section_uid builder_ section_uid in
  let builder_ := TrainStateBuilder.add_uid builder_ uid in
  let builder_ := TrainStateBuilder.add_total_axles builder_ total_axles in
  let builder_ := TrainStateBuilder.add_total_length_m builder_ total_length_m in
  let builder_ := TrainStateBuilder.add_speed_kmh builder_ speed_kmh in
  let builder_ := TrainStateBuilder.add_vehicle_uids builder_ vehicle_uids in
  let builder_ := TrainStateBuilder.add_direction builder_ direction in
  TrainStateBuilder.Finish builder_.
(* SRC autogens/proto/snapshot_generated.h 1127-1146 CreateTrainStateDirect *)
Definition CreateTrainStateDirect (uid : Z) (vehicle_uids : option (list Z)) (section_uid : Z)
    (direction : Z) (speed_kmh : float) (total_length_m : float) (total_axles : Z) : option Obj :=
  let vehicle_uids__ := CreateVector U64 <$> vehicle_uids in
  CreateTrainState uid vehicle_uids__ section_uid direction speed_kmh total_length_m total_axles.
(* SRC autogens/proto/snapshot_generated.h 1832-1842 TrainState::UnPackTo *)
Definition TrainState_UnPackTo (_o : TrainStateT.t) (this_ : Obj) : option TrainStateT.t :=
  uid ← TrainState.uid this_;
  vehicle_uids ← (_e ← TrainState.vehicle_uids this_; UnPackVector U64 _e);
  section_uid ← TrainState.section_uid this_;
  direction ← TrainState.direction this_;
  speed_kmh ← TrainState.speed_kmh this_;
  total_length_m ← TrainState.total_length_m this_;
  total_axles ← TrainState.total_axles this_;
  Some (TrainStateT.mk uid vehicle_uids section_uid direction speed_kmh total_length_m
    total_axles).
(* SRC autogens/proto/snapshot_generated.h 1826-1830 TrainState::UnPack *)
Definition TrainState_UnPack (this_ : Obj) : option TrainStateT.t :=
  TrainState_UnPackTo TrainStateT.init this_.
(* SRC autogens/proto/snapshot_generated.h 1848-1868 TrainState::Pack *)
Definition TrainState_Pack (_o : TrainStateT.t) : option Obj :=
  let _uid := TrainStateT.uid _o in
  let _vehicle_uids := PackVector U64 (TrainStateT.vehicle_uids _o) in
  let _section_uid := TrainStateT.section_uid _o in
  let _direction := TrainStateT.direction _o in
  let _speed_kmh := TrainStateT.speed_kmh _o in
  let _total_length_m := TrainStateT.total_length_m _o in
  let _total_axles := TrainStateT.total_axles _o in
  CreateTrainState _uid _vehicle_uids _section_uid _direction _speed_kmh _total_length_m
    _total_axles.
Definition TrainState_message : Message TrainStateT.t :=
  mkMessage TrainState_Pack TrainState_UnPackTo TrainState_UnPack TrainState.Verify
      TrainStateT.fits TrainStateT.tables 1.
End TrainStateFunctions.
Ltac unfold_TrainState := cbv beta iota zeta delta [TrainState_message TrainState_Pack
    TrainState_UnPack TrainState_UnPackTo CreateTrainState TrainStateBuilder.add_uid
    TrainStateBuilder.add_vehicle_uids TrainStateBuilder.add_section_uid
    TrainStateBuilder.add_direction TrainStateBuilder.add_speed_kmh
    TrainStateBuilder.add_total_length_m TrainStateBuilder.add_total_axles TrainStateBuilder.Finish
    TrainState.uid TrainState.vehicle_uids TrainState.section_uid TrainState.direction
    TrainState.speed_kmh TrainState.total_length_m TrainState.total_axles TrainState.Verify
    TrainStateT.init TrainStateT.fits TrainStateT.tables TrainStateT.uid TrainStateT.vehicle_uids
    TrainStateT.section_uid TrainStateT.direction TrainStateT.speed_kmh TrainStateT.total_length_m
    TrainStateT.total_axles] in *.
#[global] Instance TrainState_ok {F : FlatBuffers} {FO : FlatBuffersOk F} : MessageOk
    TrainState_message.
Proof. solve_message_with ltac:(fun _ => unfold_TrainState). Qed.
#[global] Arguments TrainState_Pack : simpl never.
#[global] Arguments TrainState_UnPackTo : simpl never.
#[global] Arguments TrainState_UnPack : simpl never.
#[global] Arguments TrainState.Verify : simpl never.
#[global] Arguments TrainStateT.fits : simpl never.
#[global] Arguments TrainStateT.tables : simpl never.
#[global] Typeclasses Opaque TrainState.Verify.

Module SnapshotT.
(* SRC autogens/proto/snapshot_generated.h 1150-1169 SnapshotT *)
Record t : Type := mk {
  schema_version : Z;
  session_id : string;
  seq_cursor : Z;
  timestamp_us : Z;
  switches : list SwitchStateT.t;
  track_sections : list TrackSectionStateT.t;
  signals : list SignalStateT.t;
  derailers : list DerailerStateT.t;
  block_sections : list BlockSectionSnapshotStateT.t;
  active_routes : list RouteStateT.t;
  active_alarms : list AlarmStateT.t;
  dispatch_area_assignments : list DispatchAreaOwnershipT.t;
  trains : list TrainStateT.t }.
(* SRC autogens/proto/snapshot_generated.h 1150-1169 SnapshotT *)
Definition init : t := mk 0 "" 0 0 [] [] [] [] [] [] [] [] [].
Definition fits (_o : t) : Prop :=
  in_range U32 (schema_version _o) = true /\
  in_range U32 (seq_cursor _o) = true /\
  in_range U64 (timestamp_us _o) = true /\
  Forall SwitchStateT.fits (switches _o) /\
  Forall TrackSectionStateT.fits (track_sections _o) /\
  Forall SignalStateT.fits (signals _o) /\
  Forall DerailerStateT.fits (derailers _o) /\
  Forall BlockSectionSnapshotStateT.fits (block_sections _o) /\
  Forall RouteStateT.fits (active_routes _o) /\
  Forall AlarmStateT.fits (active_alarms _o) /\
  Forall DispatchAreaOwnershipT.fits (dispatch_area_assignments _o) /\
  Forall TrainStateT.fits (trains _o).
Definition tables (_o : t) : Z :=
  1 + tables_in SwitchStateT.tables (switches _o) + tables_in TrackSectionStateT.tables
    (track_sections _o) + tables_in SignalStateT.tables (signals _o) + tables_in
    DerailerStateT.tables (derailers _o) + tables_in BlockSectionSnapshotStateT.tables
    (block_sections _o) + tables_in RouteStateT.tables (active_routes _o) + tables_in
    AlarmStateT.tables (active_alarms _o) + tables_in DispatchAreaOwnershipT.tables
    (dispatch_area_assignments _o) + tables_in TrainStateT.tables (trains _o).
End SnapshotT.

Module Snapshot.
Notation VT_SCHEMA_VERSION := 4 (only parsing).
Notation VT_SESSION_ID := 6 (only parsing).
Notation VT_SEQ_CURSOR := 8 (only parsing).
Notation VT_TIMESTAMP_US := 10 (only parsing).
Notation VT_SWITCHES := 12 (only parsing).
Notation VT_TRACK_SECTIONS := 14 (only parsing).
Notation VT_SIGNALS := 16 (only parsing).
Notation VT_DERAILERS := 18 (only parsing).
Notation VT_BLOCK_SECTIONS := 20 (only parsing).
Notation VT_ACTIVE_ROUTES := 22 (only parsing).
Notation VT_ACTIVE_ALARMS := 24 (only parsing).
Notation VT_DISPATCH_AREA_ASSIGNMENTS := 26 (only parsing).
Notation VT_TRAINS := 28 (only parsing).
Section Table.
Context {F : FlatBuffers}.
(** Must match the server's current schema_version to be parseable. *)
(* SRC autogens/proto/snapshot_generated.h 1190-1192 Snapshot::schema_version *)
Definition schema_version (this_ : Obj) : option Z := GetField U32 this_ VT_SCHEMA_VERSION 0.
(* SRC autogens/proto/snapshot_generated.h 1193-1195 Snapshot::session_id *)
Definition session_id (this_ : Obj) : option (option Obj) := GetPointer this_ VT_SESSION_ID.
(** seq_id of the last DOMAIN_EVENT included in this snapshot. Events with
    seq_id > seq_cursor are guaranteed to be newer. *)
(* SRC autogens/proto/snapshot_generated.h 1198-1200 Snapshot::seq_cursor *)
Definition seq_cursor (this_ : Obj) : option Z := GetField U32 this_ VT_SEQ_CURSOR 0.
(** Server wall-clock time when snapshot was captured, us since Unix epoch. *)
(* SRC autogens/proto/snapshot_generated.h 1202-1204 Snapshot::timestamp_us *)
Definition timestamp_us (this_ : Obj) : option Z := GetField U64 this_ VT_TIMESTAMP_US 0.
(* SRC autogens/proto/snapshot_generated.h 1205-1207 Snapshot::switches *)
Definition switches (this_ : Obj) : option (option Obj) := GetPointer this_ VT_SWITCHES.
(* SRC autogens/proto/snapshot_generated.h 1208-1210 Snapshot::track_sections *)
Definition track_sections (this_ : Obj) : option (option Obj) := GetPointer this_ VT_TRACK_SECTIONS.
(* SRC autogens/proto/snapshot_generated.h 1211-1213 Snapshot::signals *)
Definition signals (this_ : Obj) : option (option Obj) := GetPointer this_ VT_SIGNALS.
(* SRC autogens/proto/snapshot_generated.h 1214-1216 Snapshot::derailers *)
Definition derailers (this_ : Obj) : option (option Obj) := GetPointer this_ VT_DERAILERS.
(* SRC autogens/proto/snapshot_generated.h 1217-1219 Snapshot::block_sections *)
Definition block_sections (this_ : Obj) : option (option Obj) := GetPointer this_ VT_BLOCK_SECTIONS.
(* SRC autogens/proto/snapshot_generated.h 1220-1222 Snapshot::active_routes *)
Definition active_routes (this_ : Obj) : option (option Obj) := GetPointer this_ VT_ACTIVE_ROUTES.
(* SRC autogens/proto/snapshot_generated.h 1223-1225 Snapshot::active_alarms *)
Definition active_alarms (this_ : Obj) : option (option Obj) := GetPointer this_ VT_ACTIVE_ALARMS.
(* SRC autogens/proto/snapshot_generated.h 1226-1228 Snapshot::dispatch_area_assignments *)
Definition dispatch_area_assignments (this_ : Obj) : option (option Obj) :=
  GetPointer this_ VT_DISPATCH_AREA_ASSIGNMENTS.
(* SRC autogens/proto/snapshot_generated.h 1229-1231 Snapshot::trains *)
Definition trains (this_ : Obj) : option (option Obj) := GetPointer this_ VT_TRAINS.
(* SRC autogens/proto/snapshot_generated.h 1233-1268 Snapshot::Verify *)
Definition Verify (this_ : Obj) : verification :=
  TableStart this_ &&>
  check (VerifyField U32 this_ VT_SCHEMA_VERSION 4) &&>
  check (VerifyOffsetRequired this_ VT_SESSION_ID) &&>
  check_string (session_id this_) &&>
  check (VerifyField U32 this_ VT_SEQ_CURSOR 4) &&>
  check (VerifyField U64 this_ VT_TIMESTAMP_US 8) &&>
  check (VerifyOffset this_ VT_SWITCHES) &&>
  check_vector VectorOfOffsets (switches this_) &&>
  check_tables SwitchState.Verify (switches this_) &&>
  check (VerifyOffset this_ VT_TRACK_SECTIONS) &&>
  check_vector VectorOfOffsets (track_sections this_) &&>
  check_tables TrackSectionState.Verify (track_sections this_) &&>
  check (VerifyOffset this_ VT_SIGNALS) &&>
  check_vector VectorOfOffsets (signals this_) &&>
  check_tables SignalState.Verify (signals this_) &&>
  check (VerifyOffset this_ VT_DERAILERS) &&>
  check_vector VectorOfOffsets (derailers this_) &&>
  check_tables DerailerState.Verify (derailers this_) &&>
  check (VerifyOffset this_ VT_BLOCK_SECTIONS) &&>
  check_vector VectorOfOffsets (block_sections this_) &&>
  check_tables BlockSectionSnapshotState.Verify (block_sections this_) &&>
  check (VerifyOffset this_ VT_ACTIVE_ROUTES) &&>
  check_vector VectorOfOffsets (active_routes this_) &&>
  check_tables RouteState.Verify (active_routes this_) &&>
  check (VerifyOffset this_ VT_ACTIVE_ALARMS) &&>
  check_vector VectorOfOffsets (active_alarms this_) &&>
  check_tables AlarmState.Verify (active_alarms this_) &&>
  check (VerifyOffset this_ VT_DISPATCH_AREA_ASSIGNMENTS) &&>
  check_vector VectorOfOffsets (dispatch_area_assignments this_) &&>
  check_tables DispatchAreaOwnership.Verify (dispatch_area_assignments this_) &&>
  check (VerifyOffset this_ VT_TRAINS) &&>
  check_vector VectorOfOffsets (trains this_) &&>
  check_tables TrainState.Verify (trains this_) &&>
  TableEnd.
End Table.
End Snapshot.

Module SnapshotBuilder.
Section Builder.
Context {F : FlatBuffers}.
(* SRC autogens/proto/snapshot_generated.h 1278-1280 SnapshotBuilder::add_schema_version *)
Definition add_schema_version (builder_ : builder) (schema_version : Z) : builder :=
  builder_ ++ [Element U32 Snapshot.VT_SCHEMA_VERSION schema_version 0].
(* SRC autogens/proto/snapshot_generated.h 1281-1283 SnapshotBuilder::add_session_id *)
Definition add_session_id (builder_ : builder) (session_id : option Obj) : builder :=
  builder_ ++ [OffsetAt Snapshot.VT_SESSION_ID session_id].
(* SRC autogens/proto/snapshot_generated.h 1284-1286 SnapshotBuilder::add_seq_cursor *)
Definition add_seq_cursor (builder_ : builder) (seq_cursor : Z) : builder :=
  builder_ ++ [Element U32 Snapshot.VT_SEQ_CURSOR seq_cursor 0].
(* SRC autogens/proto/snapshot_generated.h 1287-1289 SnapshotBuilder::add_timestamp_us *)
Definition add_timestamp_us (builder_ : builder) (timestamp_us : Z) : builder :=
  builder_ ++ [Element U64 Snapshot.VT_TIMESTAMP_US timestamp_us 0].
(* SRC autogens/proto/snapshot_generated.h 1290-1292 SnapshotBuilder::add_switches *)
Definition add_switches (builder_ : builder) (switches : option Obj) : builder :=
  builder_ ++ [OffsetAt Snapshot.VT_SWITCHES switches].
(* SRC autogens/proto/snapshot_generated.h 1293-1295 SnapshotBuilder::add_track_sections *)
Definition add_track_sections (builder_ : builder) (track_sections : option Obj) : builder :=
  builder_ ++ [OffsetAt Snapshot.VT_TRACK_SECTIONS track_sections].
(* SRC autogens/proto/snapshot_generated.h 1296-1298 SnapshotBuilder::add_signals *)
Definition add_signals (builder_ : builder) (signals : option Obj) : builder :=
  builder_ ++ [OffsetAt Snapshot.VT_SIGNALS signals].
(* SRC autogens/proto/snapshot_generated.h 1299-1301 SnapshotBuilder::add_derailers *)
Definition add_derailers (builder_ : builder) (derailers : option Obj) : builder :=
  builder_ ++ [OffsetAt Snapshot.VT_DERAILERS derailers].
(* SRC autogens/proto/snapshot_generated.h 1302-1304 SnapshotBuilder::add_block_sections *)
Definition add_block_sections (builder_ : builder) (block_sections : option Obj) : builder :=
  builder_ ++ [OffsetAt Snapshot.VT_BLOCK_SECTIONS block_sections].
(* SRC autogens/proto/snapshot_generated.h 1305-1307 SnapshotBuilder::add_active_routes *)
Definition add_active_routes (builder_ : builder) (active_routes : option Obj) : builder :=
  builder_ ++ [OffsetAt Snapshot.VT_ACTIVE_ROUTES active_routes].
(* SRC autogens/proto/snapshot_generated.h 1308-1310 SnapshotBuilder::add_active_alarms *)
Definition add_active_alarms (builder_ : builder) (active_alarms : option Obj) : builder :=
  builder_ ++ [OffsetAt Snapshot.VT_ACTIVE_ALARMS active_alarms].
(* SRC autogens/proto/snapshot_generated.h 1311-1313 SnapshotBuilder::add_dispatch_area_assignments *)
Definition add_dispatch_area_assignments (builder_ : builder) (dispatch_area_assignments :
    option Obj) : builder :=
  builder_ ++ [OffsetAt Snapshot.VT_DISPATCH_AREA_ASSIGNMENTS dispatch_area_assignments].
(* SRC autogens/proto/snapshot_generated.h 1314-1316 SnapshotBuilder::add_trains *)
Definition add_trains (builder_ : builder) (trains : option Obj) : builder :=
  builder_ ++ [OffsetAt Snapshot.VT_TRAINS trains].
(* SRC autogens/proto/snapshot_generated.h 1321-1326 SnapshotBuilder::Finish *)
Definition Finish (builder_ : builder) : option Obj :=
  EndTableRequired [Snapshot.VT_SESSION_ID] builder_.
End Builder.
End SnapshotBuilder.

Section SnapshotFunctions.
Context {F : FlatBuffers}.
(* SRC autogens/proto/snapshot_generated.h 1329-1359 CreateSnapshot *)
Definition CreateSnapshot (schema_version : Z) (session_id : option Obj) (seq_cursor : Z)
    (timestamp_us : Z) (switches : option Obj) (track_sections : option Obj) (signals : option Obj)
    (derailers : option Obj) (block_sections : option Obj) (active_routes : option Obj)
        (active_alarms
    : option Obj) (dispatch_area_assignments : option Obj) (trains : option Obj) : option Obj :=
  let builder_ := [] in
  let builder_ := SnapshotBuilder.add_timestamp_us builder_ timestamp_us in
  let builder_ := SnapshotBuilder.add_trains builder_ trains in
  let builder_ := SnapshotBuilder.add_dispatch_area_assignments builder_
      dispatch_area_assignments in
  let builder_ := SnapshotBuilder.add_active_alarms builder_ active_alarms in
  let builder_ := SnapshotBuilder.add_active_routes builder_ active_routes in
  let builder_ := SnapshotBuilder.add_block_sections builder_ block_sections in
  let builder_ := SnapshotBuilder.add_derailers builder_ derailers in
  let builder_ := SnapshotBuilder.add_signals builder_ signals in
  let builder_ := SnapshotBuilder.add_track_sections builder_ track_sections in
  let builder_ := SnapshotBuilder.add_switches builder_ switches in
  let builder_ := SnapshotBuilder.add_seq_cursor builder_ seq_cursor in
  let builder_ := SnapshotBuilder.add_session_id builder_ session_id in
  let builder_ := SnapshotBuilder.add_schema_version builder_ schema_version in
  SnapshotBuilder.Finish builder_.
(* SRC autogens/proto/snapshot_generated.h 1361-1401 CreateSnapshotDirect *)
Definition CreateSnapshotDirect (schema_version : Z) (session_id : option string) (seq_cursor : Z)
    (timestamp_us : Z) (switches : option (list Obj)) (track_sections : option (list Obj))
        (signals :
    option (list Obj)) (derailers : option (list Obj)) (block_sections : option (list Obj))
    (active_routes : option (list Obj)) (active_alarms : option (list Obj))
        (dispatch_area_assignments
    : option (list Obj)) (trains : option (list Obj)) : option Obj :=
  let session_id__ := CreateString <$> session_id in
  let switches__ := CreateVectorOfOffsets <$> switches in
  let track_sections__ := CreateVectorOfOffsets <$> track_sections in
  let signals__ := CreateVectorOfOffsets <$> signals in
  let derailers__ := CreateVectorOfOffsets <$> derailers in
  let block_sections__ := CreateVectorOfOffsets <$> block_sections in
  let active_routes__ := CreateVectorOfOffsets <$> active_routes in
  let active_alarms__ := CreateVectorOfOffsets <$> active_alarms in
  let dispatch_area_assignments__ := CreateVectorOfOffsets <$> dispatch_area_assignments in
  let trains__ := CreateVectorOfOffsets <$> trains in
  CreateSnapshot schema_version session_id__ seq_cursor timestamp_us switches__ track_sections__
    signals__ derailers__ block_sections__ active_routes__ active_alarms__
        dispatch_area_assignments__
    trains__.
(* SRC autogens/proto/snapshot_generated.h 1918-1934 Snapshot::UnPackTo *)
Definition Snapshot_UnPackTo (_o : SnapshotT.t) (this_ : Obj) : option SnapshotT.t :=
  schema_version ← Snapshot.schema_version this_;
  session_id ← (_e ← Snapshot.session_id this_; UnPackString (SnapshotT.session_id _o) _e);
  seq_cursor ← Snapshot.seq_cursor this_;
  timestamp_us ← Snapshot.timestamp_us this_;
  switches ← (_e ← Snapshot.switches this_;
    UnPackTables SwitchState_UnPackTo SwitchState_UnPack (SnapshotT.switches _o) _e);
  track_sections ← (_e ← Snapshot.track_sections this_;
    UnPackTables TrackSectionState_UnPackTo TrackSectionState_UnPack (SnapshotT.track_sections
        _o) _e);
  signals ← (_e ← Snapshot.signals this_;
    UnPackTables SignalState_UnPackTo SignalState_UnPack (SnapshotT.signals _o) _e);
  derailers ← (_e ← Snapshot.derailers this_;
    UnPackTables DerailerState_UnPackTo DerailerState_UnPack (SnapshotT.derailers _o) _e);
  block_sections ← (_e ← Snapshot.block_sections this_;
    UnPackTables BlockSectionSnapshotState_UnPackTo BlockSectionSnapshotState_UnPack
        (SnapshotT.block_sections _o) _e);
  active_routes ← (_e ← Snapshot.active_routes this_;
    UnPackTables RouteState_UnPackTo RouteState_UnPack (SnapshotT.active_routes _o) _e);
  active_alarms ← (_e ← Snapshot.active_alarms this_;
    UnPackTables AlarmState_UnPackTo AlarmState_UnPack (SnapshotT.active_alarms _o) _e);
  dispatch_area_assignments ← (_e ← Snapshot.dispatch_area_assignments this_;
    UnPackTables DispatchAreaOwnership_UnPackTo DispatchAreaOwnership_UnPack
        (SnapshotT.dispatch_area_assignments _o) _e);
  trains ← (_e ← Snapshot.trains this_;
    UnPackTables TrainState_UnPackTo TrainState_UnPack (SnapshotT.trains _o) _e);
  Some (SnapshotT.mk schema_version session_id seq_cursor timestamp_us switches track_sections
    signals derailers block_sections active_routes active_alarms dispatch_area_assignments trains).
(* SRC autogens/proto/snapshot_generated.h 1912-1916 Snapshot::UnPack *)
Definition Snapshot_UnPack (this_ : Obj) : option SnapshotT.t :=
  Snapshot_UnPackTo SnapshotT.init this_.
(* SRC autogens/proto/snapshot_generated.h 1940-1972 Snapshot::Pack *)
Definition Snapshot_Pack (_o : SnapshotT.t) : option Obj :=
  let _schema_version := SnapshotT.schema_version _o in
  let _session_id := Some (CreateString (SnapshotT.session_id _o)) in
  let _seq_cursor := SnapshotT.seq_cursor _o in
  let _timestamp_us := SnapshotT.timestamp_us _o in
  _switches ← PackTables SwitchState_Pack (SnapshotT.switches _o);
  _track_sections ← PackTables TrackSectionState_Pack (SnapshotT.track_sections _o);
  _signals ← PackTables SignalState_Pack (SnapshotT.signals _o);
  _derailers ← PackTables DerailerState_Pack (SnapshotT.derailers _o);
  _block_sections ← PackTables BlockSectionSnapshotState_Pack (SnapshotT.block_sections _o);
  _active_routes ← PackTables RouteState_Pack (SnapshotT.active_routes _o);
  _active_alarms ← PackTables AlarmState_Pack (SnapshotT.active_alarms _o);
  _dispatch_area_assignments ← PackTables DispatchAreaOwnership_Pack
      (SnapshotT.dispatch_area_assignments _o);
  _trains ← PackTables TrainState_Pack (SnapshotT.trains _o);
  CreateSnapshot _schema_version _session_id _seq_cursor _timestamp_us _switches _track_sections
    _signals _derailers _block_sections _active_routes _active_alarms _dispatch_area_assignments
    _trains.
Definition Snapshot_message : Message SnapshotT.t :=
  mkMessage Snapshot_Pack Snapshot_UnPackTo Snapshot_UnPack Snapshot.Verify SnapshotT.fits
      SnapshotT.tables 3.
(* SRC autogens/proto/snapshot_generated.h 1974-1976 GetSnapshot *)
Definition GetSnapshot (buf : list byte) : Obj := GetRoot buf.
(* SRC autogens/proto/snapshot_generated.h 1982-1986 VerifySnapshotBuffer *)
Definition VerifySnapshotBuffer (buf : list byte) : option bool := VerifyBuffer Snapshot.Verify buf.
(* SRC autogens/proto/snapshot_generated.h 1994-1998 FinishSnapshotBuffer *)
Definition FinishSnapshotBuffer (root : Obj) : list byte := Finish root.
(* SRC autogens/proto/snapshot_generated.h 2006-2010 UnPackSnapshot *)
Definition UnPackSnapshot (buf : list byte) : option SnapshotT.t :=
  Snapshot_UnPack (GetSnapshot buf).
End SnapshotFunctions.
Ltac unfold_Snapshot := cbv beta iota zeta delta [Snapshot_message Snapshot_Pack Snapshot_UnPack
    Snapshot_UnPackTo CreateSnapshot SnapshotBuilder.add_schema_version
        SnapshotBuilder.add_session_id
    SnapshotBuilder.add_seq_cursor SnapshotBuilder.add_timestamp_us SnapshotBuilder.add_switches
    SnapshotBuilder.add_track_sections SnapshotBuilder.add_signals SnapshotBuilder.add_derailers
    SnapshotBuilder.add_block_sections SnapshotBuilder.add_active_routes
    SnapshotBuilder.add_active_alarms SnapshotBuilder.add_dispatch_area_assignments
    SnapshotBuilder.add_trains SnapshotBuilder.Finish Snapshot.schema_version Snapshot.session_id
    Snapshot.seq_cursor Snapshot.timestamp_us Snapshot.switches Snapshot.track_sections
    Snapshot.signals Snapshot.derailers Snapshot.block_sections Snapshot.active_routes
    Snapshot.active_alarms Snapshot.dispatch_area_assignments Snapshot.trains Snapshot.Verify
    SnapshotT.init SnapshotT.fits SnapshotT.tables SnapshotT.schema_version SnapshotT.session_id
    SnapshotT.seq_cursor SnapshotT.timestamp_us SnapshotT.switches SnapshotT.track_sections
    SnapshotT.signals SnapshotT.derailers SnapshotT.block_sections SnapshotT.active_routes
    SnapshotT.active_alarms SnapshotT.dispatch_area_assignments SnapshotT.trains] in *.
#[global] Instance Snapshot_ok {F : FlatBuffers} {FO : FlatBuffersOk F} : MessageOk
    Snapshot_message.
Proof. solve_message_with ltac:(fun _ => unfold_Snapshot). Qed.
#[global] Arguments Snapshot_Pack : simpl never.
#[global] Arguments Snapshot_UnPackTo : simpl never.
#[global] Arguments Snapshot_UnPack : simpl never.
#[global] Arguments Snapshot.Verify : simpl never.
#[global] Arguments SnapshotT.fits : simpl never.
#[global] Arguments SnapshotT.tables : simpl never.
#[global] Typeclasses Opaque Snapshot.Verify.

End proto.
