(* ===== verification/ProtoDispatch.v ===== *)
(** * ProtoDispatch: the messages of the dispatch channel

    [autogens/proto/dispatch_channel_generated.h]: forms and free texts, and
    the message whose body is a union of the two. *)
From S2P Require Import Prelude Float32 Frame Flat ProtoCommon.
Local Open Scope Z_scope.

Module proto.
Import ProtoCommon.proto.

(* SRC autogens/proto/dispatch_channel_generated.h 32-37 DispatchChannelMessageKind *)
Module DispatchChannelMessageKind.
Inductive t : Set :=
  | DISPATCH_FORM | FREE_TEXT.
Definition to_code (x : t) : BinNums.Z :=
  match x with
  | DISPATCH_FORM => 0 | FREE_TEXT => 1
  end%Z.
Definition all : list t :=
  [DISPATCH_FORM; FREE_TEXT].
#[global] Instance enum : Enum t.
Proof. refine {| code := to_code; enumerators := all |}. by intros []. Defined.
End DispatchChannelMessageKind.
(* SRC autogens/proto/dispatch_channel_generated.h 39-45 EnumValuesDispatchChannelMessageKind *)
Definition EnumValuesDispatchChannelMessageKind : list DispatchChannelMessageKind.t :=
  [DispatchChannelMessageKind.DISPATCH_FORM; DispatchChannelMessageKind.FREE_TEXT].
(* SRC autogens/proto/dispatch_channel_generated.h 47-54 EnumNamesDispatchChannelMessageKind *)
Definition EnumNamesDispatchChannelMessageKind : list string :=
  ["DISPATCH_FORM"; "FREE_TEXT"]%string.
(* SRC autogens/proto/dispatch_channel_generated.h 56-60 EnumNameDispatchChannelMessageKind *)
Definition EnumNameDispatchChannelMessageKind (e : Z) : string :=
  if IsOutRange e (code DispatchChannelMessageKind.DISPATCH_FORM) (code
      DispatchChannelMessageKind.FREE_TEXT) then ""%string
  else default ""%string (EnumNamesDispatchChannelMessageKind !! Z.to_nat e).

(* SRC autogens/proto/dispatch_channel_generated.h 62-68 DispatchChannelMessageBody *)
Module DispatchChannelMessageBody.
Inductive t : Set :=
  | NONE | DispatchFormPayload | FreeTextPayload.
Definition to_code (x : t) : BinNums.Z :=
  match x with
  | NONE => 0 | DispatchFormPayload => 1 | FreeTextPayload => 2
  end%Z.
Definition all : list t :=
  [NONE; DispatchFormPayload; FreeTextPayload].
#[global] Instance enum : Enum t.
Proof. refine {| code := to_code; enumerators := all |}. by intros []. Defined.
End DispatchChannelMessageBody.
(* SRC autogens/proto/dispatch_channel_generated.h 70-77 EnumValuesDispatchChannelMessageBody *)
Definition EnumValuesDispatchChannelMessageBody : list DispatchChannelMessageBody.t :=
  [DispatchChannelMessageBody.NONE; DispatchChannelMessageBody.DispatchFormPayload;
    DispatchChannelMessageBody.FreeTextPayload].
(* SRC autogens/proto/dispatch_channel_generated.h 79-87 EnumNamesDispatchChannelMessageBody *)
Definition EnumNamesDispatchChannelMessageBody : list string :=
  ["NONE"; "DispatchFormPayload"; "FreeTextPayload"]%string.
(* SRC autogens/proto/dispatch_channel_generated.h 89-93 EnumNameDispatchChannelMessageBody *)
Definition EnumNameDispatchChannelMessageBody (e : Z) : string :=
  if IsOutRange e (code DispatchChannelMessageBody.NONE) (code
      DispatchChannelMessageBody.FreeTextPayload) then ""%string
  else default ""%string (EnumNamesDispatchChannelMessageBody !! Z.to_nat e).

Module DispatchFormPayloadT.
(* SRC autogens/proto/dispatch_channel_generated.h 172-178 DispatchFormPayloadT *)
Record t : Type := mk {
  form_type : Z;
  train_number : string;
  km_markers : list string;
  track_number : string }.
(* SRC autogens/proto/dispatch_channel_generated.h 172-178 DispatchFormPayloadT *)
Definition init : t := mk (code DispatchFormType.S2) "" [] "".
Definition fits (_o : t) : Prop :=
  in_range I8 (form_type _o) = true.
Definition tables (_o : t) : Z := 1.
End DispatchFormPayloadT.

Module DispatchFormPayload.
Notation VT_FORM_TYPE := 4 (only parsing).
Notation VT_TRAIN_NUMBER := 6 (only parsing).
Notation VT_KM_MARKERS := 8 (only parsing).
Notation VT_TRACK_NUMBER := 10 (only parsing).
Section Table.
Context {F : FlatBuffers}.
(* SRC autogens/proto/dispatch_channel_generated.h 189-191 DispatchFormPayload::form_type *)
Definition form_type (this_ : Obj) : option Z := GetField I8 this_ VT_FORM_TYPE 0.
(* SRC autogens/proto/dispatch_channel_generated.h 192-194 DispatchFormPayload::train_number *)
Definition train_number (this_ : Obj) : option (option Obj) := GetPointer this_ VT_TRAIN_NUMBER.
(** Kilometre markers of the protected section (e.g. ['102.4', '118.7']). *)
(* SRC autogens/proto/dispatch_channel_generated.h 196-198 DispatchFormPayload::km_markers *)
Definition km_markers (this_ : Obj) : option (option Obj) := GetPointer this_ VT_KM_MARKERS.
(** Track number / line side (optional, e.g. 'tor 1'). *)
(* SRC autogens/proto/dispatch_channel_generated.h 200-202 DispatchFormPayload::track_number *)
Definition track_number (this_ : Obj) : option (option Obj) := GetPointer this_ VT_TRACK_NUMBER.
(* SRC autogens/proto/dispatch_channel_generated.h 204-215 DispatchFormPayload::Verify *)
Definition Verify (this_ : Obj) : verification :=
  TableStart this_ &&>
  check (VerifyField I8 this_ VT_FORM_TYPE 1) &&>
  check (VerifyOffsetRequired this_ VT_TRAIN_NUMBER) &&>
  check_string (train_number this_) &&>
  check (VerifyOffset this_ VT_KM_MARKERS) &&>
  check_vector VectorOfOffsets (km_markers this_) &&>
  check_strings (km_markers this_) &&>
  check (VerifyOffset this_ VT_TRACK_NUMBER) &&>
  check_string (track_number this_) &&>
  TableEnd.
End Table.
End DispatchFormPayload.

Module DispatchFormPayloadBuilder.
Section Builder.
Context {F : FlatBuffers}.
(* SRC autogens/proto/dispatch_channel_generated.h 225-227 DispatchFormPayloadBuilder::add_form_type *)
Definition add_form_type (builder_ : builder) (form_type : Z) : builder :=
  builder_ ++ [Element I8 DispatchFormPayload.VT_FORM_TYPE form_type 0].
(* SRC autogens/proto/dispatch_channel_generated.h 228-230 DispatchFormPayloadBuilder::add_train_number *)
Definition add_train_number (builder_ : builder) (train_number : option Obj) : builder :=
  builder_ ++ [OffsetAt DispatchFormPayload.VT_TRAIN_NUMBER train_number].
(* SRC autogens/proto/dispatch_channel_generated.h 231-233 DispatchFormPayloadBuilder::add_km_markers *)
Definition add_km_markers (builder_ : builder) (km_markers : option Obj) : builder :=
  builder_ ++ [OffsetAt DispatchFormPayload.VT_KM_MARKERS km_markers].
(* SRC autogens/proto/dispatch_channel_generated.h 234-236 DispatchFormPayloadBuilder::add_track_number *)
Definition add_track_number (builder_ : builder) (track_number : option Obj) : builder :=
  builder_ ++ [OffsetAt DispatchFormPayload.VT_TRACK_NUMBER track_number].
(* SRC autogens/proto/dispatch_channel_generated.h 241-246 DispatchFormPayloadBuilder::Finish *)
Definition Finish (builder_ : builder) : option Obj :=
  EndTableRequired [DispatchFormPayload.VT_TRAIN_NUMBER] builder_.
End Builder.
End DispatchFormPayloadBuilder.

Section DispatchFormPayloadFunctions.
Context {F : FlatBuffers}.
(* SRC autogens/proto/dispatch_channel_generated.h 249-261 CreateDispatchFormPayload *)
Definition CreateDispatchFormPayload (form_type : Z) (train_number : option Obj) (km_markers :
    option Obj) (track_number : option Obj) : option Obj :=
  let builder_ := [] in
  let builder_ := DispatchFormPayloadBuilder.add_track_number builder_ track_number in
  let builder_ := DispatchFormPayloadBuilder.add_km_markers builder_ km_markers in
  let builder_ := DispatchFormPayloadBuilder.add_train_number builder_ train_number in
  let builder_ := DispatchFormPayloadBuilder.add_form_type builder_ form_type in
  DispatchFormPayloadBuilder.Finish builder_.
(* SRC autogens/proto/dispatch_channel_generated.h 263-278 CreateDispatchFormPayloadDirect *)
Definition CreateDispatchFormPayloadDirect (form_type : Z) (train_number : option string)
    (km_markers : option (list Obj)) (track_number : option string) : option Obj :=
  let train_number__ := CreateString <$> train_number in
  let km_markers__ := CreateVectorOfOffsets <$> km_markers in
  let track_number__ := CreateString <$> track_number in
  CreateDispatchFormPayload form_type train_number__ km_markers__ track_number__.
(* SRC autogens/proto/dispatch_channel_generated.h 549-556 DispatchFormPayload::UnPackTo *)
Definition DispatchFormPayload_UnPackTo (_o : DispatchFormPayloadT.t) (this_ : Obj) : option
    DispatchFormPayloadT.t :=
  form_type ← DispatchFormPayload.form_type this_;
  train_number ← (_e ← DispatchFormPayload.train_number this_; UnPackString
      (DispatchFormPayloadT.train_number _o) _e);
  km_markers ← (_e ← DispatchFormPayload.km_markers this_; UnPackStrings _e);
  track_number ← (_e ← DispatchFormPayload.track_number this_; UnPackString
      (DispatchFormPayloadT.track_number _o) _e);
  Some (DispatchFormPayloadT.mk form_type train_number km_markers track_number).
(* SRC autogens/proto/dispatch_channel_generated.h 543-547 DispatchFormPayload::UnPack *)
Definition DispatchFormPayload_UnPack (this_ : Obj) : option DispatchFormPayloadT.t :=
  DispatchFormPayload_UnPackTo DispatchFormPayloadT.init this_.
(* SRC autogens/proto/dispatch_channel_generated.h 562-576 DispatchFormPayload::Pack *)
Definition DispatchFormPayload_Pack (_o : DispatchFormPayloadT.t) : option Obj :=
  let _form_type := DispatchFormPayloadT.form_type _o in
  let _train_number := Some (CreateString (DispatchFormPayloadT.train_number _o)) in
  let _km_markers := PackStrings (DispatchFormPayloadT.km_markers _o) in
  let _track_number := PackString (DispatchFormPayloadT.track_number _o) in
  CreateDispatchFormPayload _form_type _train_number _km_markers _track_number.
Definition DispatchFormPayload_message : Message DispatchFormPayloadT.t :=
  mkMessage DispatchFormPayload_Pack DispatchFormPayload_UnPackTo DispatchFormPayload_UnPack
      DispatchFormPayload.Verify DispatchFormPayloadT.fits DispatchFormPayloadT.tables 1.
End DispatchFormPayloadFunctions.
Ltac unfold_DispatchFormPayload := cbv beta iota zeta delta [DispatchFormPayload_message
    DispatchFormPayload_Pack DispatchFormPayload_UnPack DispatchFormPayload_UnPackTo
    CreateDispatchFormPayload DispatchFormPayloadBuilder.add_form_type
    DispatchFormPayloadBuilder.add_train_number DispatchFormPayloadBuilder.add_km_markers
    DispatchFormPayloadBuilder.add_track_number DispatchFormPayloadBuilder.Finish
    DispatchFormPayload.form_type DispatchFormPayload.train_number DispatchFormPayload.km_markers
    DispatchFormPayload.track_number DispatchFormPayload.Verify DispatchFormPayloadT.init
    DispatchFormPayloadT.fits DispatchFormPayloadT.tables DispatchFormPayloadT.form_type
    DispatchFormPayloadT.train_number DispatchFormPayloadT.km_markers
    DispatchFormPayloadT.track_number] in *.
#[global] Instance DispatchFormPayload_ok {F : FlatBuffers} {FO : FlatBuffersOk F} : MessageOk
    DispatchFormPayload_message.
Proof. solve_message_with ltac:(fun _ => unfold_DispatchFormPayload). Qed.
#[global] Arguments DispatchFormPayload_Pack : simpl never.
#[global] Arguments DispatchFormPayload_UnPackTo : simpl never.
#[global] Arguments DispatchFormPayload_UnPack : simpl never.
#[global] Arguments DispatchFormPayload.Verify : simpl never.
#[global] Arguments DispatchFormPayloadT.fits : simpl never.
#[global] Arguments DispatchFormPayloadT.tables : simpl never.
#[global] Typeclasses Opaque DispatchFormPayload.Verify.

Module FreeTextPayloadT.
(* SRC autogens/proto/dispatch_channel_generated.h 282-285 FreeTextPayloadT *)
Record t : Type := mk {
  body : string }.
(* SRC autogens/proto/dispatch_channel_generated.h 282-285 FreeTextPayloadT *)
Definition init : t := mk "".
Definition fits (_o : t) : Prop :=
  True.
Definition tables (_o : t) : Z := 1.
End FreeTextPayloadT.

Module FreeTextPayload.
Notation VT_BODY := 4 (only parsing).
Section Table.
Context {F : FlatBuffers}.
(* SRC autogens/proto/dispatch_channel_generated.h 293-295 FreeTextPayload::body *)
Definition body (this_ : Obj) : option (option Obj) := GetPointer this_ VT_BODY.
(* SRC autogens/proto/dispatch_channel_generated.h 297-302 FreeTextPayload::Verify *)
Definition Verify (this_ : Obj) : verification :=
  TableStart this_ &&>
  check (VerifyOffsetRequired this_ VT_BODY) &&>
  check_string (body this_) &&>
  TableEnd.
End Table.
End FreeTextPayload.

Module FreeTextPayloadBuilder.
Section Builder.
Context {F : FlatBuffers}.
(* SRC autogens/proto/dispatch_channel_generated.h 312-314 FreeTextPayloadBuilder::add_body *)
Definition add_body (builder_ : builder) (body : option Obj) : builder :=
  builder_ ++ [OffsetAt FreeTextPayload.VT_BODY body].
(* SRC autogens/proto/dispatch_channel_generated.h 319-324 FreeTextPayloadBuilder::Finish *)
Definition Finish (builder_ : builder) : option Obj :=
  EndTableRequired [FreeTextPayload.VT_BODY] builder_.
End Builder.
End FreeTextPayloadBuilder.

Section FreeTextPayloadFunctions.
Context {F : FlatBuffers}.
(* SRC autogens/proto/dispatch_channel_generated.h 327-333 CreateFreeTextPayload *)
Definition CreateFreeTextPayload (body : option Obj) : option Obj :=
  let builder_ := [] in
  let builder_ := FreeTextPayloadBuilder.add_body builder_ body in
  FreeTextPayloadBuilder.Finish builder_.
(* SRC autogens/proto/dispatch_channel_generated.h 335-342 CreateFreeTextPayloadDirect *)
Definition CreateFreeTextPayloadDirect (body : option string) : option Obj :=
  let body__ := CreateString <$> body in
  CreateFreeTextPayload body__.
(* SRC autogens/proto/dispatch_channel_generated.h 584-588 FreeTextPayload::UnPackTo *)
Definition FreeTextPayload_UnPackTo (_o : FreeTextPayloadT.t) (this_ : Obj) : option
    FreeTextPayloadT.t :=
  body ← (_e ← FreeTextPayload.body this_; UnPackString (FreeTextPayloadT.body _o) _e);
  Some (FreeTextPayloadT.mk body).
(* SRC autogens/proto/dispatch_channel_generated.h 578-582 FreeTextPayload::UnPack *)
Definition FreeTextPayload_UnPack (this_ : Obj) : option FreeTextPayloadT.t :=
  FreeTextPayload_UnPackTo FreeTextPayloadT.init this_.
(* SRC autogens/proto/dispatch_channel_generated.h 594-602 FreeTextPayload::Pack *)
Definition FreeTextPayload_Pack (_o : FreeTextPayloadT.t) : option Obj :=
  let _body := Some (CreateString (FreeTextPayloadT.body _o)) in
  CreateFreeTextPayload _body.
Definition FreeTextPayload_message : Message FreeTextPayloadT.t :=
  mkMessage FreeTextPayload_Pack FreeTextPayload_UnPackTo FreeTextPayload_UnPack
      FreeTextPayload.Verify FreeTextPayloadT.fits FreeTextPayloadT.tables 1.
End FreeTextPayloadFunctions.
Ltac unfold_FreeTextPayload := cbv beta iota zeta delta [FreeTextPayload_message
    FreeTextPayload_Pack FreeTextPayload_UnPack FreeTextPayload_UnPackTo CreateFreeTextPayload
    FreeTextPayloadBuilder.add_body FreeTextPayloadBuilder.Finish FreeTextPayload.body
    FreeTextPayload.Verify FreeTextPayloadT.init FreeTextPayloadT.fits FreeTextPayloadT.tables
    FreeTextPayloadT.body] in *.
#[global] Instance FreeTextPayload_ok {F : FlatBuffers} {FO : FlatBuffersOk F} : MessageOk
    FreeTextPayload_message.
Proof. solve_message_with ltac:(fun _ => unfold_FreeTextPayload). Qed.
#[global] Arguments FreeTextPayload_Pack : simpl never.
#[global] Arguments FreeTextPayload_UnPackTo : simpl never.
#[global] Arguments FreeTextPayload_UnPack : simpl never.
#[global] Arguments FreeTextPayload.Verify : simpl never.
#[global] Arguments FreeTextPayloadT.fits : simpl never.
#[global] Arguments FreeTextPayloadT.tables : simpl never.
#[global] Typeclasses Opaque FreeTextPayload.Verify.

(** The body of a message: the member of the union and its native struct. *)
Module DispatchChannelMessageBodyUnion.
Inductive native : Type :=
  | nullptr
  | ADispatchFormPayload (p : DispatchFormPayloadT.t)
  | AFreeTextPayload (p : FreeTextPayloadT.t).
(* SRC autogens/proto/dispatch_channel_generated.h 116-118 DispatchChannelMessageBodyUnion *)
Record t : Type := mk { type : Z; value : native }.
(* SRC autogens/proto/dispatch_channel_generated.h 120-120 DispatchChannelMessageBodyUnion::DispatchChannelMessageBodyUnion *)
Definition init : t := mk (code DispatchChannelMessageBody.NONE) nullptr.
(* SRC autogens/proto/dispatch_channel_generated.h 716-731 DispatchChannelMessageBodyUnion::Reset *)
Definition Reset (_o : t) : t := init.
(** The [Set] of each member, by the traits of its native struct. *)
(* SRC autogens/proto/dispatch_channel_generated.h 137-145 DispatchChannelMessageBodyUnion::Set *)
Definition Set_ (val : native) (_o : t) : t :=
  let _o := Reset _o in
  match val with
  | ADispatchFormPayload _ => mk (code DispatchChannelMessageBody.DispatchFormPayload) val
  | AFreeTextPayload _ => mk (code DispatchChannelMessageBody.FreeTextPayload) val
  | nullptr => _o
  end.
(** A pointer read as the type of another member is undefined: [None]. *)
(* SRC autogens/proto/dispatch_channel_generated.h 150-157 DispatchChannelMessageBodyUnion::AsDispatchFormPayload *)
Definition AsDispatchFormPayload (_o : t) : option (option DispatchFormPayloadT.t) :=
  if type _o =? code DispatchChannelMessageBody.DispatchFormPayload then
    match value _o with ADispatchFormPayload p => Some (Some p) | nullptr => Some None | _ =>
        None end
  else Some None.
(* SRC autogens/proto/dispatch_channel_generated.h 158-165 DispatchChannelMessageBodyUnion::AsFreeTextPayload *)
Definition AsFreeTextPayload (_o : t) : option (option FreeTextPayloadT.t) :=
  if type _o =? code DispatchChannelMessageBody.FreeTextPayload then
    match value _o with AFreeTextPayload p => Some (Some p) | nullptr => Some None | _ => None end
  else Some None.
(** The type names the native struct, as [Set] leaves it. *)
Definition fits (_o : t) : Prop :=
  in_range U8 (type _o) = true /\
  match value _o with
  | nullptr => type _o <> 1 /\ type _o <> 2
  | ADispatchFormPayload p => type _o = 1 /\ DispatchFormPayloadT.fits p
  | AFreeTextPayload p => type _o = 2 /\ FreeTextPayloadT.fits p
  end.
Definition tables (_o : t) : Z := match value _o with nullptr => 0 | _ => 1 end.
End DispatchChannelMessageBodyUnion.

Section DispatchChannelMessageBodyFunctions.
Context {F : FlatBuffers}.
(* SRC autogens/proto/dispatch_channel_generated.h 658-672 VerifyDispatchChannelMessageBody *)
Definition VerifyDispatchChannelMessageBody (obj : option Obj) (type : Z) : verification :=
  if type =? code DispatchChannelMessageBody.NONE then check (Some true)
  else if type =? code DispatchChannelMessageBody.DispatchFormPayload then
    VerifyTable DispatchFormPayload.Verify obj
  else if type =? code DispatchChannelMessageBody.FreeTextPayload then
    VerifyTable FreeTextPayload.Verify obj
  else check (Some true).
(** The call of it, with the two accessors read. *)
Definition check_body (obj : option (option Obj)) (type : option Z) : verification :=
  fun v => obj ← obj; type ← type; VerifyDispatchChannelMessageBody obj type v.

(* SRC autogens/proto/dispatch_channel_generated.h 687-700 DispatchChannelMessageBodyUnion::UnPack *)
Definition DispatchChannelMessageBodyUnion_UnPack (obj : Obj) (type : Z)
    : option DispatchChannelMessageBodyUnion.native :=
  if type =? code DispatchChannelMessageBody.DispatchFormPayload then
    DispatchChannelMessageBodyUnion.ADispatchFormPayload <$> DispatchFormPayload_UnPack obj
  else if type =? code DispatchChannelMessageBody.FreeTextPayload then
    DispatchChannelMessageBodyUnion.AFreeTextPayload <$> FreeTextPayload_UnPack obj
  else Some DispatchChannelMessageBodyUnion.nullptr.
(** The two assignments to the union: without a body its value stays. *)
(* SRC autogens/proto/dispatch_channel_generated.h 617-618 DispatchChannelMessage::UnPackTo *)
Definition DispatchChannelMessageBodyUnion_UnPackTo (_o : DispatchChannelMessageBodyUnion.t)
    (body_type : Z) (body : option Obj) : option DispatchChannelMessageBodyUnion.t :=
  match body with
  | Some _e =>
      value ← DispatchChannelMessageBodyUnion_UnPack _e body_type;
      Some (DispatchChannelMessageBodyUnion.mk body_type value)
  | None => Some (DispatchChannelMessageBodyUnion.mk body_type
      (DispatchChannelMessageBodyUnion.value _o))
  end.
(* SRC autogens/proto/dispatch_channel_generated.h 702-716 DispatchChannelMessageBodyUnion::Pack *)
Definition DispatchChannelMessageBodyUnion_Pack (_o : DispatchChannelMessageBodyUnion.t)
    : option (option Obj) :=
  if DispatchChannelMessageBodyUnion.type _o =? code
      DispatchChannelMessageBody.DispatchFormPayload then
    match DispatchChannelMessageBodyUnion.value _o with
    | DispatchChannelMessageBodyUnion.ADispatchFormPayload ptr => Some <$>
        DispatchFormPayload_Pack ptr
    | _ => None
    end
  else if DispatchChannelMessageBodyUnion.type _o =? code
      DispatchChannelMessageBody.FreeTextPayload then
    match DispatchChannelMessageBodyUnion.value _o with
    | DispatchChannelMessageBodyUnion.AFreeTextPayload ptr => Some <$> FreeTextPayload_Pack ptr
    | _ => None
    end
  else Some None.

Context {FO : FlatBuffersOk F}.

Lemma pack_body_ok x : DispatchChannelMessageBodyUnion.fits x ->
  exists p, DispatchChannelMessageBodyUnion_Pack x = Some p /\
    DispatchChannelMessageBodyUnion_UnPackTo DispatchChannelMessageBodyUnion.init
      (DispatchChannelMessageBodyUnion.type x) p = Some x /\
    forall acc type, acc = Some p -> type = Some (DispatchChannelMessageBodyUnion.type x) ->
      passes (check_body acc type) (DispatchChannelMessageBodyUnion.tables x) 1.
Proof.
  intros [Hr Hx]. destruct x as [type [|p|p]]; cbn in Hr, Hx.
  - destruct Hx as [H1 H2]. exists None. unfold DispatchChannelMessageBodyUnion_Pack. cbn.
    rewrite (proj2 (Z.eqb_neq type 1) H1), (proj2 (Z.eqb_neq type 2) H2). split_and!; [done..|].
    intros acc ty -> -> v Hd Ht. exists v. unfold check_body, VerifyDispatchChannelMessageBody. cbn.
    rewrite (proj2 (Z.eqb_neq type 1) H1), (proj2 (Z.eqb_neq type 2) H2).
    destruct (type =? 0); (split_and!; [done|done|cbn; lia]).
  - destruct Hx as [-> Hp].
    destruct (pack_ok (MessageOk := DispatchFormPayload_ok) p Hp) as (o & E & Hu & Hv). cbn in
        E, Hu, Hv.
    exists (Some o). unfold DispatchChannelMessageBodyUnion_Pack. cbn. rewrite E. cbn.
    unfold DispatchChannelMessageBodyUnion_UnPack. cbn. rewrite Hu. split_and!; [done..|].
    intros acc ty -> -> v Hd Ht. unfold check_body, VerifyDispatchChannelMessageBody. cbn.
    rewrite verify_table. by apply Hv.
  - destruct Hx as [-> Hp].
    destruct (pack_ok (MessageOk := FreeTextPayload_ok) p Hp) as (o & E & Hu & Hv). cbn in E,
        Hu, Hv.
    exists (Some o). unfold DispatchChannelMessageBodyUnion_Pack. cbn. rewrite E. cbn.
    unfold DispatchChannelMessageBodyUnion_UnPack. cbn. rewrite Hu. split_and!; [done..|].
    intros acc ty -> -> v Hd Ht. unfold check_body, VerifyDispatchChannelMessageBody. cbn.
    rewrite verify_table. by apply Hv.
Qed.

Lemma body_safely p ty : is_Some p -> (forall d : Z, is_Some (ty d)) ->
  safely (check_body p (ty 0)) (forall old, is_Some (type ← ty 0; q ← p;
      DispatchChannelMessageBodyUnion_UnPackTo old type q)).
Proof.
  intros [q ->] Hty v. destruct (Hty 0) as [type ->]. unfold check_body,
      VerifyDispatchChannelMessageBody. cbn.
  destruct q as [o|].
  - destruct (Z.eqb_spec type 1) as [->|H1]; [|destruct (Z.eqb_spec type 2) as [->|H2]].
    + cbn. rewrite verify_table. destruct (verify_ok (MessageOk := DispatchFormPayload_ok) o v)
        as (b & v' & E & Hb).
      cbn in E. exists b, v'. split; [done|]. intros Hb' old. specialize (Hb Hb').
      destruct (unpack_readable (MessageOk := DispatchFormPayload_ok) o Hb) as [y Ey]. cbn in Ey.
      unfold DispatchChannelMessageBodyUnion_UnPack. cbn. rewrite Ey. by eexists.
    + cbn. rewrite verify_table. destruct (verify_ok (MessageOk := FreeTextPayload_ok) o v) as
        (b & v' & E & Hb).
      cbn in E. exists b, v'. split; [done|]. intros Hb' old. specialize (Hb Hb').
      destruct (unpack_readable (MessageOk := FreeTextPayload_ok) o Hb) as [y Ey]. cbn in Ey.
      unfold DispatchChannelMessageBodyUnion_UnPack. cbn. rewrite Ey. by eexists.
    + exists true, v. split; [by destruct (type =? 0)|]. intros _ old.
      unfold DispatchChannelMessageBodyUnion_UnPackTo, DispatchChannelMessageBodyUnion_UnPack. cbn.
      rewrite (proj2 (Z.eqb_neq type 1) H1), (proj2 (Z.eqb_neq type 2) H2). by eexists.
  - exists true, v. cbn. split; [|intros _ old; by eexists].
    repeat case_match; rewrite ?verify_no_table; done.
Qed.
End DispatchChannelMessageBodyFunctions.
#[global] Arguments check_body : simpl never.
#[global] Arguments DispatchChannelMessageBodyUnion_UnPackTo : simpl never.
#[global] Arguments DispatchChannelMessageBodyUnion_Pack : simpl never.
#[global] Arguments DispatchChannelMessageBodyUnion.fits : simpl never.
#[global] Arguments DispatchChannelMessageBodyUnion.tables : simpl never.

Lemma body_tables_nonneg x : 0 <= DispatchChannelMessageBodyUnion.tables x.
Proof. by destruct x as [type []]. Qed.

Ltac pack_hook ::=
  match goal with
  | H : DispatchChannelMessageBodyUnion.fits ?x |- _ =>
      let p := fresh "p" in let E := fresh "E" in let Hu := fresh "Hu" in let Hv := fresh "Hv" in
      pose proof (proj1 H); pose proof (body_tables_nonneg x);
      destruct (pack_body_ok x H) as (p & E & Hu & Hv); rewrite E; clear E; cbn [mbind option_bind]
  end.
Ltac passes_hook Hws ::=
  match goal with
  | H : forall acc type, _ |- passes (check_body _ _) _ _ =>
      apply H; [built_pointer Hws | apply (get_field_built _ _ _ _ _ Hws), element_at; assumption]
  end.
Ltac safely_hook ::=
  match goal with
  | |- safely (check_body ?p (GetField ?s ?o ?vt _)) _ =>
      apply (body_safely p (fun d => GetField s o vt d)); assumption
  end.
(** The type of the body is read once for both assignments. *)
Ltac read_hook ::=
  match goal with
  | H : forall old, is_Some (mbind _ (GetField ?s ?o ?vt ?d)) |- is_Some (mbind _ (GetField ?s
      ?o ?vt ?d)) =>
      destruct (GetField s o vt d);
      [ cbn [mbind option_bind] in *; read_verified
      | exfalso; destruct (H DispatchChannelMessageBodyUnion.init) as [? E]; discriminate E ]
  end.
Ltac nonneg_hook ::=
  match goal with
  | |- context [DispatchChannelMessageBodyUnion.tables ?x] => pose proof (body_tables_nonneg x)
  end.

Module DispatchChannelMessageT.
(* SRC autogens/proto/dispatch_channel_generated.h 346-357 DispatchChannelMessageT *)
Record t : Type := mk {
  src_area_uid : Z;
  dst_area_uid : Z;
  direction : Z;
  kind : Z;
  body : DispatchChannelMessageBodyUnion.t;
  exchange_uid : Z;
  exchange_status : Z;
  timestamp_us : Z;
  sender_id : string }.
(* SRC autogens/proto/dispatch_channel_generated.h 346-357 DispatchChannelMessageT *)
Definition init : t :=
  mk 0 0 (code TelegramDirection.SENT) (code DispatchChannelMessageKind.DISPATCH_FORM)
    DispatchChannelMessageBodyUnion.init 0 (code ExchangeStatus.PENDING) 0 "".
Definition fits (_o : t) : Prop :=
  in_range U64 (src_area_uid _o) = true /\
  in_range U64 (dst_area_uid _o) = true /\
  in_range I8 (direction _o) = true /\
  in_range I8 (kind _o) = true /\
  DispatchChannelMessageBodyUnion.fits (body _o) /\
  in_range U64 (exchange_uid _o) = true /\
  in_range I8 (exchange_status _o) = true /\
  in_range U64 (timestamp_us _o) = true.
Definition tables (_o : t) : Z := 1 + DispatchChannelMessageBodyUnion.tables (body _o).
End DispatchChannelMessageT.

Module DispatchChannelMessage.
Notation VT_SRC_AREA_UID := 4 (only parsing).
Notation VT_DST_AREA_UID := 6 (only parsing).
Notation VT_DIRECTION := 8 (only parsing).
Notation VT_KIND := 10 (only parsing).
Notation VT_BODY_TYPE := 12 (only parsing).
Notation VT_BODY := 14 (only parsing).
Notation VT_EXCHANGE_UID := 16 (only parsing).
Notation VT_EXCHANGE_STATUS := 18 (only parsing).
Notation VT_TIMESTAMP_US := 20 (only parsing).
Notation VT_SENDER_ID := 22 (only parsing).
Section Table.
Context {F : FlatBuffers}.
(** Dispatch area UID of the initiating side (always filled by sender). *)
(* SRC autogens/proto/dispatch_channel_generated.h 375-377 DispatchChannelMessage::src_area_uid *)
Definition src_area_uid (this_ : Obj) : option Z := GetField U64 this_ VT_SRC_AREA_UID 0.
(** Dispatch area UID of the receiving side (always filled by sender). *)
(* SRC autogens/proto/dispatch_channel_generated.h 379-381 DispatchChannelMessage::dst_area_uid *)
Definition dst_area_uid (this_ : Obj) : option Z := GetField U64 this_ VT_DST_AREA_UID 0.
(* SRC autogens/proto/dispatch_channel_generated.h 382-384 DispatchChannelMessage::direction *)
Definition direction (this_ : Obj) : option Z := GetField I8 this_ VT_DIRECTION 0.
(* SRC autogens/proto/dispatch_channel_generated.h 385-387 DispatchChannelMessage::kind *)
Definition kind (this_ : Obj) : option Z := GetField I8 this_ VT_KIND 0.
(* SRC autogens/proto/dispatch_channel_generated.h 388-390 DispatchChannelMessage::body_type *)
Definition body_type (this_ : Obj) : option Z := GetField U8 this_ VT_BODY_TYPE 0.
(* SRC autogens/proto/dispatch_channel_generated.h 391-393 DispatchChannelMessage::body *)
Definition body (this_ : Obj) : option (option Obj) := GetPointer this_ VT_BODY.
(* SRC autogens/proto/dispatch_channel_generated.h 401-403 DispatchChannelMessage::exchange_uid *)
Definition exchange_uid (this_ : Obj) : option Z := GetField U64 this_ VT_EXCHANGE_UID 0.
(* SRC autogens/proto/dispatch_channel_generated.h 404-406 DispatchChannelMessage::exchange_status *)
Definition exchange_status (this_ : Obj) : option Z := GetField I8 this_ VT_EXCHANGE_STATUS 0.
(* SRC autogens/proto/dispatch_channel_generated.h 407-409 DispatchChannelMessage::timestamp_us *)
Definition timestamp_us (this_ : Obj) : option Z := GetField U64 this_ VT_TIMESTAMP_US 0.
(* SRC autogens/proto/dispatch_channel_generated.h 410-412 DispatchChannelMessage::sender_id *)
Definition sender_id (this_ : Obj) : option (option Obj) := GetPointer this_ VT_SENDER_ID.
(* SRC autogens/proto/dispatch_channel_generated.h 395-397 DispatchChannelMessage::body_as_DispatchFormPayload *)
Definition body_as_DispatchFormPayload (this_ : Obj) : option (option Obj) :=
  type ← body_type this_;
  if type =? code DispatchChannelMessageBody.DispatchFormPayload then body this_ else Some None.
(* SRC autogens/proto/dispatch_channel_generated.h 398-400 DispatchChannelMessage::body_as_FreeTextPayload *)
Definition body_as_FreeTextPayload (this_ : Obj) : option (option Obj) :=
  type ← body_type this_;
  if type =? code DispatchChannelMessageBody.FreeTextPayload then body this_ else Some None.
(* SRC autogens/proto/dispatch_channel_generated.h 414-429 DispatchChannelMessage::Verify *)
Definition Verify (this_ : Obj) : verification :=
  TableStart this_ &&>
  check (VerifyField U64 this_ VT_SRC_AREA_UID 8) &&>
  check (VerifyField U64 this_ VT_DST_AREA_UID 8) &&>
  check (VerifyField I8 this_ VT_DIRECTION 1) &&>
  check (VerifyField I8 this_ VT_KIND 1) &&>
  check (VerifyField U8 this_ VT_BODY_TYPE 1) &&>
  check (VerifyOffset this_ VT_BODY) &&>
  check_body (body this_) (body_type this_) &&>
  check (VerifyField U64 this_ VT_EXCHANGE_UID 8) &&>
  check (VerifyField I8 this_ VT_EXCHANGE_STATUS 1) &&>
  check (VerifyField U64 this_ VT_TIMESTAMP_US 8) &&>
  check (VerifyOffset this_ VT_SENDER_ID) &&>
  check_string (sender_id this_) &&>
  TableEnd.
End Table.
End DispatchChannelMessage.

Module DispatchChannelMessageBuilder.
Section Builder.
Context {F : FlatBuffers}.
(* SRC autogens/proto/dispatch_channel_generated.h 447-449 DispatchChannelMessageBuilder::add_src_area_uid *)
Definition add_src_area_uid (builder_ : builder) (src_area_uid : Z) : builder :=
  builder_ ++ [Element U64 DispatchChannelMessage.VT_SRC_AREA_UID src_area_uid 0].
(* SRC autogens/proto/dispatch_channel_generated.h 450-452 DispatchChannelMessageBuilder::add_dst_area_uid *)
Definition add_dst_area_uid (builder_ : builder) (dst_area_uid : Z) : builder :=
  builder_ ++ [Element U64 DispatchChannelMessage.VT_DST_AREA_UID dst_area_uid 0].
(* SRC autogens/proto/dispatch_channel_generated.h 453-455 DispatchChannelMessageBuilder::add_direction *)
Definition add_direction (builder_ : builder) (direction : Z) : builder :=
  builder_ ++ [Element I8 DispatchChannelMessage.VT_DIRECTION direction 0].
(* SRC autogens/proto/dispatch_channel_generated.h 456-458 DispatchChannelMessageBuilder::add_kind *)
Definition add_kind (builder_ : builder) (kind : Z) : builder :=
  builder_ ++ [Element I8 DispatchChannelMessage.VT_KIND kind 0].
(* SRC autogens/proto/dispatch_channel_generated.h 459-461 DispatchChannelMessageBuilder::add_body_type *)
Definition add_body_type (builder_ : builder) (body_type : Z) : builder :=
  builder_ ++ [Element U8 DispatchChannelMessage.VT_BODY_TYPE body_type 0].
(* SRC autogens/proto/dispatch_channel_generated.h 462-464 DispatchChannelMessageBuilder::add_body *)
Definition add_body (builder_ : builder) (body : option Obj) : builder :=
  builder_ ++ [OffsetAt DispatchChannelMessage.VT_BODY body].
(* SRC autogens/proto/dispatch_channel_generated.h 465-467 DispatchChannelMessageBuilder::add_exchange_uid *)
Definition add_exchange_uid (builder_ : builder) (exchange_uid : Z) : builder :=
  builder_ ++ [Element U64 DispatchChannelMessage.VT_EXCHANGE_UID exchange_uid 0].
(* SRC autogens/proto/dispatch_channel_generated.h 468-470 DispatchChannelMessageBuilder::add_exchange_status *)
Definition add_exchange_status (builder_ : builder) (exchange_status : Z) : builder :=
  builder_ ++ [Element I8 DispatchChannelMessage.VT_EXCHANGE_STATUS exchange_status 0].
(* SRC autogens/proto/dispatch_channel_generated.h 471-473 DispatchChannelMessageBuilder::add_timestamp_us *)
Definition add_timestamp_us (builder_ : builder) (timestamp_us : Z) : builder :=
  builder_ ++ [Element U64 DispatchChannelMessage.VT_TIMESTAMP_US timestamp_us 0].
(* SRC autogens/proto/dispatch_channel_generated.h 474-476 DispatchChannelMessageBuilder::add_sender_id *)
Definition add_sender_id (builder_ : builder) (sender_id : option Obj) : builder :=
  builder_ ++ [OffsetAt DispatchChannelMessage.VT_SENDER_ID sender_id].
(* SRC autogens/proto/dispatch_channel_generated.h 481-485 DispatchChannelMessageBuilder::Finish *)
Definition Finish (builder_ : builder) : option Obj := Some (EndTable builder_).
End Builder.
End DispatchChannelMessageBuilder.

Section DispatchChannelMessageFunctions.
Context {F : FlatBuffers}.
(* SRC autogens/proto/dispatch_channel_generated.h 488-512 CreateDispatchChannelMessage *)
Definition CreateDispatchChannelMessage (src_area_uid : Z) (dst_area_uid : Z) (direction : Z)
    (kind : Z) (body_type : Z) (body : option Obj) (exchange_uid : Z) (exchange_status : Z)
    (timestamp_us : Z) (sender_id : option Obj) : option Obj :=
  let builder_ := [] in
  let builder_ := DispatchChannelMessageBuilder.add_timestamp_us builder_ timestamp_us in
  let builder_ := DispatchChannelMessageBuilder.add_exchange_uid builder_ exchange_uid in
  let builder_ := DispatchChannelMessageBuilder.add_dst_area_uid builder_ dst_area_uid in
  let builder_ := DispatchChannelMessageBuilder.add_src_area_uid builder_ src_area_uid in
  let builder_ := DispatchChannelMessageBuilder.add_sender_id builder_ sender_id in
  let builder_ := DispatchChannelMessageBuilder.add_body builder_ body in
  let builder_ := DispatchChannelMessageBuilder.add_exchange_status builder_ exchange_status in
  let builder_ := DispatchChannelMessageBuilder.add_body_type builder_ body_type in
  let builder_ := DispatchChannelMessageBuilder.add_kind builder_ kind in
  let builder_ := DispatchChannelMessageBuilder.add_direction builder_ direction in
  DispatchChannelMessageBuilder.Finish builder_.
(* SRC autogens/proto/dispatch_channel_generated.h 514-539 CreateDispatchChannelMessageDirect *)
Definition CreateDispatchChannelMessageDirect (src_area_uid : Z) (dst_area_uid : Z) (direction :
    Z) (kind : Z) (body_type : Z) (body : option Obj) (exchange_uid : Z) (exchange_status : Z)
    (timestamp_us : Z) (sender_id : option string) : option Obj :=
  let sender_id__ := CreateString <$> sender_id in
  CreateDispatchChannelMessage src_area_uid dst_area_uid direction kind body_type body
    exchange_uid exchange_status timestamp_us sender_id__.
(* SRC autogens/proto/dispatch_channel_generated.h 610-623 DispatchChannelMessage::UnPackTo *)
Definition DispatchChannelMessage_UnPackTo (_o : DispatchChannelMessageT.t) (this_ : Obj) :
    option DispatchChannelMessageT.t :=
  src_area_uid ← DispatchChannelMessage.src_area_uid this_;
  dst_area_uid ← DispatchChannelMessage.dst_area_uid this_;
  direction ← DispatchChannelMessage.direction this_;
  kind ← DispatchChannelMessage.kind this_;
  body_type ← DispatchChannelMessage.body_type this_;
  body ← (_e ← DispatchChannelMessage.body this_;
    DispatchChannelMessageBodyUnion_UnPackTo (DispatchChannelMessageT.body _o) body_type _e);
  exchange_uid ← DispatchChannelMessage.exchange_uid this_;
  exchange_status ← DispatchChannelMessage.exchange_status this_;
  timestamp_us ← DispatchChannelMessage.timestamp_us this_;
  sender_id ← (_e ← DispatchChannelMessage.sender_id this_; UnPackString
      (DispatchChannelMessageT.sender_id _o) _e);
  Some (DispatchChannelMessageT.mk src_area_uid dst_area_uid direction kind body exchange_uid
    exchange_status timestamp_us sender_id).
(* SRC autogens/proto/dispatch_channel_generated.h 604-608 DispatchChannelMessage::UnPack *)
Definition DispatchChannelMessage_UnPack (this_ : Obj) : option DispatchChannelMessageT.t :=
  DispatchChannelMessage_UnPackTo DispatchChannelMessageT.init this_.
(* SRC autogens/proto/dispatch_channel_generated.h 629-655 DispatchChannelMessage::Pack *)
Definition DispatchChannelMessage_Pack (_o : DispatchChannelMessageT.t) : option Obj :=
  let _src_area_uid := DispatchChannelMessageT.src_area_uid _o in
  let _dst_area_uid := DispatchChannelMessageT.dst_area_uid _o in
  let _direction := DispatchChannelMessageT.direction _o in
  let _kind := DispatchChannelMessageT.kind _o in
  let _body_type := DispatchChannelMessageBodyUnion.type (DispatchChannelMessageT.body _o) in
  _body ← DispatchChannelMessageBodyUnion_Pack (DispatchChannelMessageT.body _o);
  let _exchange_uid := DispatchChannelMessageT.exchange_uid _o in
  let _exchange_status := DispatchChannelMessageT.exchange_status _o in
  let _timestamp_us := DispatchChannelMessageT.timestamp_us _o in
  let _sender_id := PackString (DispatchChannelMessageT.sender_id _o) in
  CreateDispatchChannelMessage _src_area_uid _dst_area_uid _direction _kind _body_type _body
    _exchange_uid _exchange_status _timestamp_us _sender_id.
Definition DispatchChannelMessage_message : Message DispatchChannelMessageT.t :=
  mkMessage DispatchChannelMessage_Pack DispatchChannelMessage_UnPackTo
      DispatchChannelMessage_UnPack DispatchChannelMessage.Verify DispatchChannelMessageT.fits
      DispatchChannelMessageT.tables 2.
(* SRC autogens/proto/dispatch_channel_generated.h 751-753 GetDispatchChannelMessage *)
Definition GetDispatchChannelMessage (buf : list byte) : Obj := GetRoot buf.
(* SRC autogens/proto/dispatch_channel_generated.h 759-763 VerifyDispatchChannelMessageBuffer *)
Definition VerifyDispatchChannelMessageBuffer (buf : list byte) : option bool :=
  VerifyBuffer DispatchChannelMessage.Verify buf.
(* SRC autogens/proto/dispatch_channel_generated.h 771-775 FinishDispatchChannelMessageBuffer *)
Definition FinishDispatchChannelMessageBuffer (root : Obj) : list byte := Finish root.
(* SRC autogens/proto/dispatch_channel_generated.h 783-787 UnPackDispatchChannelMessage *)
Definition UnPackDispatchChannelMessage (buf : list byte) : option DispatchChannelMessageT.t :=
  DispatchChannelMessage_UnPack (GetDispatchChannelMessage buf).
End DispatchChannelMessageFunctions.
Ltac unfold_DispatchChannelMessage := cbv beta iota zeta delta [DispatchChannelMessage_message
    DispatchChannelMessage_Pack DispatchChannelMessage_UnPack DispatchChannelMessage_UnPackTo
    CreateDispatchChannelMessage DispatchChannelMessageBuilder.add_src_area_uid
    DispatchChannelMessageBuilder.add_dst_area_uid DispatchChannelMessageBuilder.add_direction
    DispatchChannelMessageBuilder.add_kind DispatchChannelMessageBuilder.add_body_type
    DispatchChannelMessageBuilder.add_body DispatchChannelMessageBuilder.add_exchange_uid
    DispatchChannelMessageBuilder.add_exchange_status DispatchChannelMessageBuilder.add_timestamp_us
    DispatchChannelMessageBuilder.add_sender_id DispatchChannelMessageBuilder.Finish
    DispatchChannelMessage.src_area_uid DispatchChannelMessage.dst_area_uid
    DispatchChannelMessage.direction DispatchChannelMessage.kind DispatchChannelMessage.body_type
    DispatchChannelMessage.body DispatchChannelMessage.exchange_uid
    DispatchChannelMessage.exchange_status DispatchChannelMessage.timestamp_us
    DispatchChannelMessage.sender_id DispatchChannelMessage.Verify DispatchChannelMessageT.init
    DispatchChannelMessageT.fits DispatchChannelMessageT.tables DispatchChannelMessageT.src_area_uid
    DispatchChannelMessageT.dst_area_uid DispatchChannelMessageT.direction
    DispatchChannelMessageT.kind DispatchChannelMessageT.body DispatchChannelMessageT.exchange_uid
    DispatchChannelMessageT.exchange_status DispatchChannelMessageT.timestamp_us
    DispatchChannelMessageT.sender_id] in *.
#[global] Instance DispatchChannelMessage_ok {F : FlatBuffers} {FO : FlatBuffersOk F} :
    MessageOk DispatchChannelMessage_message.
Proof. solve_message_with ltac:(fun _ => unfold_DispatchChannelMessage). Qed.
#[global] Arguments DispatchChannelMessage_Pack : simpl never.
#[global] Arguments DispatchChannelMessage_UnPackTo : simpl never.
#[global] Arguments DispatchChannelMessage_UnPack : simpl never.
#[global] Arguments DispatchChannelMessage.Verify : simpl never.
#[global] Arguments DispatchChannelMessageT.fits : simpl never.
#[global] Arguments DispatchChannelMessageT.tables : simpl never.
#[global] Typeclasses Opaque DispatchChannelMessage.Verify.

End proto.
