(* ===== verification/ProtoMisc.v ===== *)
(** * ProtoMisc: takeover, chat and voice messages

    [autogens/proto/ownership_generated.h], [chat_generated.h] and
    [voice_generated.h]: tables of the schema the server does not use yet. *)
From S2P Require Import Prelude Float32 Frame Flat ProtoCommon.
Local Open Scope Z_scope.

Module proto.
Import ProtoCommon.proto.

(** C to S  (msg_type 0x50) *)
Module TakeoverRequestT.
(* SRC autogens/proto/ownership_generated.h 26-32 TakeoverRequestT *)
Record t : Type := mk {
  dispatch_area_uid : Z;
  station_uid : Z;
  release : bool;
  reason_text : string }.
(* SRC autogens/proto/ownership_generated.h 26-32 TakeoverRequestT *)
Definition init : t := mk 0 0 false "".
Definition fits (_o : t) : Prop :=
  in_range U64 (dispatch_area_uid _o) = true /\
  in_range U64 (station_uid _o) = true.
Definition tables (_o : t) : Z := 1.
End TakeoverRequestT.

Module TakeoverRequest.
Notation VT_DISPATCH_AREA_UID := 4 (only parsing).
Notation VT_STATION_UID := 6 (only parsing).
Notation VT_RELEASE := 8 (only parsing).
Notation VT_REASON_TEXT := 10 (only parsing).
Section Table.
Context {F : FlatBuffers}.
(* SRC autogens/proto/ownership_generated.h 44-46 TakeoverRequest::dispatch_area_uid *)
Definition dispatch_area_uid (this_ : Obj) : option Z := GetField U64 this_ VT_DISPATCH_AREA_UID 0.
(* SRC autogens/proto/ownership_generated.h 47-49 TakeoverRequest::station_uid *)
Definition station_uid (this_ : Obj) : option Z := GetField U64 this_ VT_STATION_UID 0.
(** True means release ownership instead of acquire. *)
(* SRC autogens/proto/ownership_generated.h 51-53 TakeoverRequest::release *)
Definition release (this_ : Obj) : option bool :=
  e ← GetField U8 this_ VT_RELEASE 0; Some (negb (e =? 0)).
(** Optional human-readable reason (audit/logging). *)
(* SRC autogens/proto/ownership_generated.h 55-57 TakeoverRequest::reason_text *)
Definition reason_text (this_ : Obj) : option (option Obj) := GetPointer this_ VT_REASON_TEXT.
(* SRC autogens/proto/ownership_generated.h 59-67 TakeoverRequest::Verify *)
Definition Verify (this_ : Obj) : verification :=
  TableStart this_ &&>
  check (VerifyField U64 this_ VT_DISPATCH_AREA_UID 8) &&>
  check (VerifyField U64 this_ VT_STATION_UID 8) &&>
  check (VerifyField U8 this_ VT_RELEASE 1) &&>
  check (VerifyOffset this_ VT_REASON_TEXT) &&>
  check_string (reason_text this_) &&>
  TableEnd.
End Table.
End TakeoverRequest.

Module TakeoverRequestBuilder.
Section Builder.
Context {F : FlatBuffers}.
(* SRC autogens/proto/ownership_generated.h 77-79 TakeoverRequestBuilder::add_dispatch_area_uid *)
Definition add_dispatch_area_uid (builder_ : builder) (dispatch_area_uid : Z) : builder :=
  builder_ ++ [Element U64 TakeoverRequest.VT_DISPATCH_AREA_UID dispatch_area_uid 0].
(* SRC autogens/proto/ownership_generated.h 80-82 TakeoverRequestBuilder::add_station_uid *)
Definition add_station_uid (builder_ : builder) (station_uid : Z) : builder :=
  builder_ ++ [Element U64 TakeoverRequest.VT_STATION_UID station_uid 0].
(* SRC autogens/proto/ownership_generated.h 83-85 TakeoverRequestBuilder::add_release *)
Definition add_release (builder_ : builder) (release : bool) : builder :=
  builder_ ++ [Element U8 TakeoverRequest.VT_RELEASE (Z.b2z release) 0].
(* SRC autogens/proto/ownership_generated.h 86-88 TakeoverRequestBuilder::add_reason_text *)
Definition add_reason_text (builder_ : builder) (reason_text : option Obj) : builder :=
  builder_ ++ [OffsetAt TakeoverRequest.VT_REASON_TEXT reason_text].
(* SRC autogens/proto/ownership_generated.h 93-97 TakeoverRequestBuilder::Finish *)
Definition Finish (builder_ : builder) : option Obj := Some (EndTable builder_).
End Builder.
End TakeoverRequestBuilder.

Section TakeoverRequestFunctions.
Context {F : FlatBuffers}.
(* SRC autogens/proto/ownership_generated.h 100-112 CreateTakeoverRequest *)
Definition CreateTakeoverRequest (dispatch_area_uid : Z) (station_uid : Z) (release : bool)
    (reason_text : option Obj) : option Obj :=
  let builder_ := [] in
  let builder_ := TakeoverRequestBuilder.add_station_uid builder_ station_uid in
  let builder_ := TakeoverRequestBuilder.add_dispatch_area_uid builder_ dispatch_area_uid in
  let builder_ := TakeoverRequestBuilder.add_reason_text builder_ reason_text in
  let builder_ := TakeoverRequestBuilder.add_release builder_ release in
  TakeoverRequestBuilder.Finish builder_.
(* SRC autogens/proto/ownership_generated.h 114-127 CreateTakeoverRequestDirect *)
Definition CreateTakeoverRequestDirect (dispatch_area_uid : Z) (station_uid : Z) (release : bool)
    (reason_text : option string) : option Obj :=
  let reason_text__ := CreateString <$> reason_text in
  CreateTakeoverRequest dispatch_area_uid station_uid release reason_text__.
(* SRC autogens/proto/ownership_generated.h 241-248 TakeoverRequest::UnPackTo *)
Definition TakeoverRequest_UnPackTo (_o : TakeoverRequestT.t) (this_ : Obj) : option
    TakeoverRequestT.t :=
  dispatch_area_uid ← TakeoverRequest.dispatch_area_uid this_;
  station_uid ← TakeoverRequest.station_uid this_;
  release ← TakeoverRequest.release this_;
  reason_text ← (_e ← TakeoverRequest.reason_text this_; UnPackString
      (TakeoverRequestT.reason_text _o) _e);
  Some (TakeoverRequestT.mk dispatch_area_uid station_uid release reason_text).
(* SRC autogens/proto/ownership_generated.h 235-239 TakeoverRequest::UnPack *)
Definition TakeoverRequest_UnPack (this_ : Obj) : option TakeoverRequestT.t :=
  TakeoverRequest_UnPackTo TakeoverRequestT.init this_.
(* SRC autogens/proto/ownership_generated.h 254-268 TakeoverRequest::Pack *)
Definition TakeoverRequest_Pack (_o : TakeoverRequestT.t) : option Obj :=
  let _dispatch_area_uid := TakeoverRequestT.dispatch_area_uid _o in
  let _station_uid := TakeoverRequestT.station_uid _o in
  let _release := TakeoverRequestT.release _o in
  let _reason_text := PackString (TakeoverRequestT.reason_text _o) in
  CreateTakeoverRequest _dispatch_area_uid _station_uid _release _reason_text.
Definition TakeoverRequest_message : Message TakeoverRequestT.t :=
  mkMessage TakeoverRequest_Pack TakeoverRequest_UnPackTo TakeoverRequest_UnPack
      TakeoverRequest.Verify TakeoverRequestT.fits TakeoverRequestT.tables 1.
End TakeoverRequestFunctions.
Ltac unfold_TakeoverRequest := cbv beta iota zeta delta [TakeoverRequest_message
    TakeoverRequest_Pack TakeoverRequest_UnPack TakeoverRequest_UnPackTo CreateTakeoverRequest
    TakeoverRequestBuilder.add_dispatch_area_uid TakeoverRequestBuilder.add_station_uid
    TakeoverRequestBuilder.add_release TakeoverRequestBuilder.add_reason_text
    TakeoverRequestBuilder.Finish TakeoverRequest.dispatch_area_uid TakeoverRequest.station_uid
    TakeoverRequest.release TakeoverRequest.reason_text TakeoverRequest.Verify TakeoverRequestT.init
    TakeoverRequestT.fits TakeoverRequestT.tables TakeoverRequestT.dispatch_area_uid
    TakeoverRequestT.station_uid TakeoverRequestT.release TakeoverRequestT.reason_text] in *.
#[global] Instance TakeoverRequest_ok {F : FlatBuffers} {FO : FlatBuffersOk F} : MessageOk
    TakeoverRequest_message.
Proof. solve_message_with ltac:(fun _ => unfold_TakeoverRequest). Qed.
#[global] Arguments TakeoverRequest_Pack : simpl never.
#[global] Arguments TakeoverRequest_UnPackTo : simpl never.
#[global] Arguments TakeoverRequest_UnPack : simpl never.
#[global] Arguments TakeoverRequest.Verify : simpl never.
#[global] Arguments TakeoverRequestT.fits : simpl never.
#[global] Arguments TakeoverRequestT.tables : simpl never.
#[global] Typeclasses Opaque TakeoverRequest.Verify.

(** S to C  (msg_type 0x51) *)
Module TakeoverResponseT.
(* SRC autogens/proto/ownership_generated.h 131-137 TakeoverResponseT *)
Record t : Type := mk {
  granted : bool;
  dispatch_area_uid : Z;
  station_uid : Z;
  reject_reason : string }.
(* SRC autogens/proto/ownership_generated.h 131-137 TakeoverResponseT *)
Definition init : t := mk false 0 0 "".
Definition fits (_o : t) : Prop :=
  in_range U64 (dispatch_area_uid _o) = true /\
  in_range U64 (station_uid _o) = true.
Definition tables (_o : t) : Z := 1.
End TakeoverResponseT.

Module TakeoverResponse.
Notation VT_GRANTED := 4 (only parsing).
Notation VT_DISPATCH_AREA_UID := 6 (only parsing).
Notation VT_STATION_UID := 8 (only parsing).
Notation VT_REJECT_REASON := 10 (only parsing).
Section Table.
Context {F : FlatBuffers}.
(* SRC autogens/proto/ownership_generated.h 149-151 TakeoverResponse::granted *)
Definition granted (this_ : Obj) : option bool :=
  e ← GetField U8 this_ VT_GRANTED 0; Some (negb (e =? 0)).
(* SRC autogens/proto/ownership_generated.h 152-154 TakeoverResponse::dispatch_area_uid *)
Definition dispatch_area_uid (this_ : Obj) : option Z := GetField U64 this_ VT_DISPATCH_AREA_UID 0.
(* SRC autogens/proto/ownership_generated.h 155-157 TakeoverResponse::station_uid *)
Definition station_uid (this_ : Obj) : option Z := GetField U64 this_ VT_STATION_UID 0.
(** Present only when granted=false. *)
(* SRC autogens/proto/ownership_generated.h 159-161 TakeoverResponse::reject_reason *)
Definition reject_reason (this_ : Obj) : option (option Obj) := GetPointer this_ VT_REJECT_REASON.
(* SRC autogens/proto/ownership_generated.h 163-171 TakeoverResponse::Verify *)
Definition Verify (this_ : Obj) : verification :=
  TableStart this_ &&>
  check (VerifyField U8 this_ VT_GRANTED 1) &&>
  check (VerifyField U64 this_ VT_DISPATCH_AREA_UID 8) &&>
  check (VerifyField U64 this_ VT_STATION_UID 8) &&>
  check (VerifyOffset this_ VT_REJECT_REASON) &&>
  check_string (reject_reason this_) &&>
  TableEnd.
End Table.
End TakeoverResponse.

Module TakeoverResponseBuilder.
Section Builder.
Context {F : FlatBuffers}.
(* SRC autogens/proto/ownership_generated.h 181-183 TakeoverResponseBuilder::add_granted *)
Definition add_granted (builder_ : builder) (granted : bool) : builder :=
  builder_ ++ [Element U8 TakeoverResponse.VT_GRANTED (Z.b2z granted) 0].
(* SRC autogens/proto/ownership_generated.h 184-186 TakeoverResponseBuilder::add_dispatch_area_uid *)
Definition add_dispatch_area_uid (builder_ : builder) (dispatch_area_uid : Z) : builder :=
  builder_ ++ [Element U64 TakeoverResponse.VT_DISPATCH_AREA_UID dispatch_area_uid 0].
(* SRC autogens/proto/ownership_generated.h 187-189 TakeoverResponseBuilder::add_station_uid *)
Definition add_station_uid (builder_ : builder) (station_uid : Z) : builder :=
  builder_ ++ [Element U64 TakeoverResponse.VT_STATION_UID station_uid 0].
(* SRC autogens/proto/ownership_generated.h 190-192 TakeoverResponseBuilder::add_reject_reason *)
Definition add_reject_reason (builder_ : builder) (reject_reason : option Obj) : builder :=
  builder_ ++ [OffsetAt TakeoverResponse.VT_REJECT_REASON reject_reason].
(* SRC autogens/proto/ownership_generated.h 197-201 TakeoverResponseBuilder::Finish *)
Definition Finish (builder_ : builder) : option Obj := Some (EndTable builder_).
End Builder.
End TakeoverResponseBuilder.

Section TakeoverResponseFunctions.
Context {F : FlatBuffers}.
(* SRC autogens/proto/ownership_generated.h 204-216 CreateTakeoverResponse *)
Definition CreateTakeoverResponse (granted : bool) (dispatch_area_uid : Z) (station_uid : Z)
    (reject_reason : option Obj) : option Obj :=
  let builder_ := [] in
  let builder_ := TakeoverResponseBuilder.add_station_uid builder_ station_uid in
  let builder_ := TakeoverResponseBuilder.add_dispatch_area_uid builder_ dispatch_area_uid in
  let builder_ := TakeoverResponseBuilder.add_reject_reason builder_ reject_reason in
  let builder_ := TakeoverResponseBuilder.add_granted builder_ granted in
  TakeoverResponseBuilder.Finish builder_.
(* SRC autogens/proto/ownership_generated.h 218-231 CreateTakeoverResponseDirect *)
Definition CreateTakeoverResponseDirect (granted : bool) (dispatch_area_uid : Z) (station_uid : Z)
    (reject_reason : option string) : option Obj :=
  let reject_reason__ := CreateString <$> reject_reason in
  CreateTakeoverResponse granted dispatch_area_uid station_uid reject_reason__.
(* SRC autogens/proto/ownership_generated.h 276-283 TakeoverResponse::UnPackTo *)
Definition TakeoverResponse_UnPackTo (_o : TakeoverResponseT.t) (this_ : Obj) : option
    TakeoverResponseT.t :=
  granted ← TakeoverResponse.granted this_;
  dispatch_area_uid ← TakeoverResponse.dispatch_area_uid this_;
  station_uid ← TakeoverResponse.station_uid this_;
  reject_reason ← (_e ← TakeoverResponse.reject_reason this_; UnPackString
      (TakeoverResponseT.reject_reason _o) _e);
  Some (TakeoverResponseT.mk granted dispatch_area_uid station_uid reject_reason).
(* SRC autogens/proto/ownership_generated.h 270-274 TakeoverResponse::UnPack *)
Definition TakeoverResponse_UnPack (this_ : Obj) : option TakeoverResponseT.t :=
  TakeoverResponse_UnPackTo TakeoverResponseT.init this_.
(* SRC autogens/proto/ownership_generated.h 289-303 TakeoverResponse::Pack *)
Definition TakeoverResponse_Pack (_o : TakeoverResponseT.t) : option Obj :=
  let _granted := TakeoverResponseT.granted _o in
  let _dispatch_area_uid := TakeoverResponseT.dispatch_area_uid _o in
  let _station_uid := TakeoverResponseT.station_uid _o in
  let _reject_reason := PackString (TakeoverResponseT.reject_reason _o) in
  CreateTakeoverResponse _granted _dispatch_area_uid _station_uid _reject_reason.
Definition TakeoverResponse_message : Message TakeoverResponseT.t :=
  mkMessage TakeoverResponse_Pack TakeoverResponse_UnPackTo TakeoverResponse_UnPack
      TakeoverResponse.Verify TakeoverResponseT.fits TakeoverResponseT.tables 1.
(* SRC autogens/proto/ownership_generated.h 305-307 GetTakeoverResponse *)
Definition GetTakeoverResponse (buf : list byte) : Obj := GetRoot buf.
(* SRC autogens/proto/ownership_generated.h 313-317 VerifyTakeoverResponseBuffer *)
Definition VerifyTakeoverResponseBuffer (buf : list byte) : option bool :=
  VerifyBuffer TakeoverResponse.Verify buf.
(* SRC autogens/proto/ownership_generated.h 325-329 FinishTakeoverResponseBuffer *)
Definition FinishTakeoverResponseBuffer (root : Obj) : list byte := Finish root.
(* SRC autogens/proto/ownership_generated.h 337-341 UnPackTakeoverResponse *)
Definition UnPackTakeoverResponse (buf : list byte) : option TakeoverResponseT.t :=
  TakeoverResponse_UnPack (GetTakeoverResponse buf).
End TakeoverResponseFunctions.
Ltac unfold_TakeoverResponse := cbv beta iota zeta delta [TakeoverResponse_message
    TakeoverResponse_Pack TakeoverResponse_UnPack TakeoverResponse_UnPackTo CreateTakeoverResponse
    TakeoverResponseBuilder.add_granted TakeoverResponseBuilder.add_dispatch_area_uid
    TakeoverResponseBuilder.add_station_uid TakeoverResponseBuilder.add_reject_reason
    TakeoverResponseBuilder.Finish TakeoverResponse.granted TakeoverResponse.dispatch_area_uid
    TakeoverResponse.station_uid TakeoverResponse.reject_reason TakeoverResponse.Verify
    TakeoverResponseT.init TakeoverResponseT.fits TakeoverResponseT.tables TakeoverResponseT.granted
    TakeoverResponseT.dispatch_area_uid TakeoverResponseT.station_uid
        TakeoverResponseT.reject_reason]
    in *.
#[global] Instance TakeoverResponse_ok {F : FlatBuffers} {FO : FlatBuffersOk F} : MessageOk
    TakeoverResponse_message.
Proof. solve_message_with ltac:(fun _ => unfold_TakeoverResponse). Qed.
#[global] Arguments TakeoverResponse_Pack : simpl never.
#[global] Arguments TakeoverResponse_UnPackTo : simpl never.
#[global] Arguments TakeoverResponse_UnPack : simpl never.
#[global] Arguments TakeoverResponse.Verify : simpl never.
#[global] Arguments TakeoverResponseT.fits : simpl never.
#[global] Arguments TakeoverResponseT.tables : simpl never.
#[global] Typeclasses Opaque TakeoverResponse.Verify.

(* SRC autogens/proto/chat_generated.h 22-28 ChatTarget *)
Module ChatTarget.
Inductive t : Set :=
  | BROADCAST | STATION | PLAYER.
Definition to_code (x : t) : BinNums.Z :=
  match x with
  | BROADCAST => 0 | STATION => 1 | PLAYER => 2
  end%Z.
Definition all : list t :=
  [BROADCAST; STATION; PLAYER].
#[global] Instance enum : Enum t.
Proof. refine {| code := to_code; enumerators := all |}. by intros []. Defined.
End ChatTarget.
(* SRC autogens/proto/chat_generated.h 30-37 EnumValuesChatTarget *)
Definition EnumValuesChatTarget : list ChatTarget.t :=
  [ChatTarget.BROADCAST; ChatTarget.STATION; ChatTarget.PLAYER].
(* SRC autogens/proto/chat_generated.h 39-47 EnumNamesChatTarget *)
Definition EnumNamesChatTarget : list string :=
  ["BROADCAST"; "STATION"; "PLAYER"]%string.
(* SRC autogens/proto/chat_generated.h 49-53 EnumNameChatTarget *)
Definition EnumNameChatTarget (e : Z) : string :=
  if IsOutRange e (code ChatTarget.BROADCAST) (code ChatTarget.PLAYER) then ""%string
  else default ""%string (EnumNamesChatTarget !! Z.to_nat e).

Module ChatMessageT.
(* SRC autogens/proto/chat_generated.h 55-62 ChatMessageT *)
Record t : Type := mk {
  target : Z;
  target_id : string;
  text : string;
  sender_id : string;
  timestamp_us : Z }.
(* SRC autogens/proto/chat_generated.h 55-62 ChatMessageT *)
Definition init : t := mk (code ChatTarget.BROADCAST) "" "" "" 0.
Definition fits (_o : t) : Prop :=
  in_range I8 (target _o) = true /\
  in_range U64 (timestamp_us _o) = true.
Definition tables (_o : t) : Z := 1.
End ChatMessageT.

Module ChatMessage.
Notation VT_TARGET := 4 (only parsing).
Notation VT_TARGET_ID := 6 (only parsing).
Notation VT_TEXT := 8 (only parsing).
Notation VT_SENDER_ID := 10 (only parsing).
Notation VT_TIMESTAMP_US := 12 (only parsing).
Section Table.
Context {F : FlatBuffers}.
(* SRC autogens/proto/chat_generated.h 74-76 ChatMessage::target *)
Definition target (this_ : Obj) : option Z := GetField I8 this_ VT_TARGET 0.
(** Station SID for target=STATION or client_id for target=PLAYER. *)
(* SRC autogens/proto/chat_generated.h 78-80 ChatMessage::target_id *)
Definition target_id (this_ : Obj) : option (option Obj) := GetPointer this_ VT_TARGET_ID.
(** Raw chat body; server enforces max length. *)
(* SRC autogens/proto/chat_generated.h 82-84 ChatMessage::text *)
Definition text (this_ : Obj) : option (option Obj) := GetPointer this_ VT_TEXT.
(** Filled by server on outbound delivery. *)
(* SRC autogens/proto/chat_generated.h 86-88 ChatMessage::sender_id *)
Definition sender_id (this_ : Obj) : option (option Obj) := GetPointer this_ VT_SENDER_ID.
(* SRC autogens/proto/chat_generated.h 89-91 ChatMessage::timestamp_us *)
Definition timestamp_us (this_ : Obj) : option Z := GetField U64 this_ VT_TIMESTAMP_US 0.
(* SRC autogens/proto/chat_generated.h 93-104 ChatMessage::Verify *)
Definition Verify (this_ : Obj) : verification :=
  TableStart this_ &&>
  check (VerifyField I8 this_ VT_TARGET 1) &&>
  check (VerifyOffset this_ VT_TARGET_ID) &&>
  check_string (target_id this_) &&>
  check (VerifyOffsetRequired this_ VT_TEXT) &&>
  check_string (text this_) &&>
  check (VerifyOffset this_ VT_SENDER_ID) &&>
  check_string (sender_id this_) &&>
  check (VerifyField U64 this_ VT_TIMESTAMP_US 8) &&>
  TableEnd.
End Table.
End ChatMessage.

Module ChatMessageBuilder.
Section Builder.
Context {F : FlatBuffers}.
(* SRC autogens/proto/chat_generated.h 114-116 ChatMessageBuilder::add_target *)
Definition add_target (builder_ : builder) (target : Z) : builder :=
  builder_ ++ [Element I8 ChatMessage.VT_TARGET target 0].
(* SRC autogens/proto/chat_generated.h 117-119 ChatMessageBuilder::add_target_id *)
Definition add_target_id (builder_ : builder) (target_id : option Obj) : builder :=
  builder_ ++ [OffsetAt ChatMessage.VT_TARGET_ID target_id].
(* SRC autogens/proto/chat_generated.h 120-122 ChatMessageBuilder::add_text *)
Definition add_text (builder_ : builder) (text : option Obj) : builder :=
  builder_ ++ [OffsetAt ChatMessage.VT_TEXT text].
(* SRC autogens/proto/chat_generated.h 123-125 ChatMessageBuilder::add_sender_id *)
Definition add_sender_id (builder_ : builder) (sender_id : option Obj) : builder :=
  builder_ ++ [OffsetAt ChatMessage.VT_SENDER_ID sender_id].
(* SRC autogens/proto/chat_generated.h 126-128 ChatMessageBuilder::add_timestamp_us *)
Definition add_timestamp_us (builder_ : builder) (timestamp_us : Z) : builder :=
  builder_ ++ [Element U64 ChatMessage.VT_TIMESTAMP_US timestamp_us 0].
(* SRC autogens/proto/chat_generated.h 133-138 ChatMessageBuilder::Finish *)
Definition Finish (builder_ : builder) : option Obj :=
  EndTableRequired [ChatMessage.VT_TEXT] builder_.
End Builder.
End ChatMessageBuilder.

Section ChatMessageFunctions.
Context {F : FlatBuffers}.
(* SRC autogens/proto/chat_generated.h 141-155 CreateChatMessage *)
Definition CreateChatMessage (target : Z) (target_id : option Obj) (text : option Obj) (sender_id
    : option Obj) (timestamp_us : Z) : option Obj :=
  let builder_ := [] in
  let builder_ := ChatMessageBuilder.add_timestamp_us builder_ timestamp_us in
  let builder_ := ChatMessageBuilder.add_sender_id builder_ sender_id in
  let builder_ := ChatMessageBuilder.add_text builder_ text in
  let builder_ := ChatMessageBuilder.add_target_id builder_ target_id in
  let builder_ := ChatMessageBuilder.add_target builder_ target in
  ChatMessageBuilder.Finish builder_.
(* SRC autogens/proto/chat_generated.h 157-174 CreateChatMessageDirect *)
Definition CreateChatMessageDirect (target : Z) (target_id : option string) (text : option string)
    (sender_id : option string) (timestamp_us : Z) : option Obj :=
  let target_id__ := CreateString <$> target_id in
  let text__ := CreateString <$> text in
  let sender_id__ := CreateString <$> sender_id in
  CreateChatMessage target target_id__ text__ sender_id__ timestamp_us.
(* SRC autogens/proto/chat_generated.h 184-192 ChatMessage::UnPackTo *)
Definition ChatMessage_UnPackTo (_o : ChatMessageT.t) (this_ : Obj) : option ChatMessageT.t :=
  target ← ChatMessage.target this_;
  target_id ← (_e ← ChatMessage.target_id this_; UnPackString (ChatMessageT.target_id _o) _e);
  text ← (_e ← ChatMessage.text this_; UnPackString (ChatMessageT.text _o) _e);
  sender_id ← (_e ← ChatMessage.sender_id this_; UnPackString (ChatMessageT.sender_id _o) _e);
  timestamp_us ← ChatMessage.timestamp_us this_;
  Some (ChatMessageT.mk target target_id text sender_id timestamp_us).
(* SRC autogens/proto/chat_generated.h 178-182 ChatMessage::UnPack *)
Definition ChatMessage_UnPack (this_ : Obj) : option ChatMessageT.t :=
  ChatMessage_UnPackTo ChatMessageT.init this_.
(* SRC autogens/proto/chat_generated.h 198-214 ChatMessage::Pack *)
Definition ChatMessage_Pack (_o : ChatMessageT.t) : option Obj :=
  let _target := ChatMessageT.target _o in
  let _target_id := PackString (ChatMessageT.target_id _o) in
  let _text := Some (CreateString (ChatMessageT.text _o)) in
  let _sender_id := PackString (ChatMessageT.sender_id _o) in
  let _timestamp_us := ChatMessageT.timestamp_us _o in
  CreateChatMessage _target _target_id _text _sender_id _timestamp_us.
Definition ChatMessage_message : Message ChatMessageT.t :=
  mkMessage ChatMessage_Pack ChatMessage_UnPackTo ChatMessage_UnPack ChatMessage.Verify
      ChatMessageT.fits ChatMessageT.tables 1.
(* SRC autogens/proto/chat_generated.h 216-218 GetChatMessage *)
Definition GetChatMessage (buf : list byte) : Obj := GetRoot buf.
(* SRC autogens/proto/chat_generated.h 224-228 VerifyChatMessageBuffer *)
Definition VerifyChatMessageBuffer (buf : list byte) : option bool :=
  VerifyBuffer ChatMessage.Verify buf.
(* SRC autogens/proto/chat_generated.h 236-240 FinishChatMessageBuffer *)
Definition FinishChatMessageBuffer (root : Obj) : list byte := Finish root.
(* SRC autogens/proto/chat_generated.h 248-252 UnPackChatMessage *)
Definition UnPackChatMessage (buf : list byte) : option ChatMessageT.t :=
  ChatMessage_UnPack (GetChatMessage buf).
End ChatMessageFunctions.
Ltac unfold_ChatMessage := cbv beta iota zeta delta [ChatMessage_message ChatMessage_Pack
    ChatMessage_UnPack ChatMessage_UnPackTo CreateChatMessage ChatMessageBuilder.add_target
    ChatMessageBuilder.add_target_id ChatMessageBuilder.add_text ChatMessageBuilder.add_sender_id
    ChatMessageBuilder.add_timestamp_us ChatMessageBuilder.Finish ChatMessage.target
    ChatMessage.target_id ChatMessage.text ChatMessage.sender_id ChatMessage.timestamp_us
    ChatMessage.Verify ChatMessageT.init ChatMessageT.fits ChatMessageT.tables ChatMessageT.target
    ChatMessageT.target_id ChatMessageT.text ChatMessageT.sender_id ChatMessageT.timestamp_us] in *.
#[global] Instance ChatMessage_ok {F : FlatBuffers} {FO : FlatBuffersOk F} : MessageOk
    ChatMessage_message.
Proof. solve_message_with ltac:(fun _ => unfold_ChatMessage). Qed.
#[global] Arguments ChatMessage_Pack : simpl never.
#[global] Arguments ChatMessage_UnPackTo : simpl never.
#[global] Arguments ChatMessage_UnPack : simpl never.
#[global] Arguments ChatMessage.Verify : simpl never.
#[global] Arguments ChatMessageT.fits : simpl never.
#[global] Arguments ChatMessageT.tables : simpl never.
#[global] Typeclasses Opaque ChatMessage.Verify.

(** C to S  (msg_type 0x70) *)
Module VoiceChanJoinT.
(* SRC autogens/proto/voice_generated.h 34-37 VoiceChanJoinT *)
Record t : Type := mk {
  channel_id : string }.
(* SRC autogens/proto/voice_generated.h 34-37 VoiceChanJoinT *)
Definition init : t := mk "".
Definition fits (_o : t) : Prop :=
  True.
Definition tables (_o : t) : Z := 1.
End VoiceChanJoinT.

Module VoiceChanJoin.
Notation VT_CHANNEL_ID := 4 (only parsing).
Section Table.
Context {F : FlatBuffers}.
(* SRC autogens/proto/voice_generated.h 46-48 VoiceChanJoin::channel_id *)
Definition channel_id (this_ : Obj) : option (option Obj) := GetPointer this_ VT_CHANNEL_ID.
(* SRC autogens/proto/voice_generated.h 50-55 VoiceChanJoin::Verify *)
Definition Verify (this_ : Obj) : verification :=
  TableStart this_ &&>
  check (VerifyOffsetRequired this_ VT_CHANNEL_ID) &&>
  check_string (channel_id this_) &&>
  TableEnd.
End Table.
End VoiceChanJoin.

Module VoiceChanJoinBuilder.
Section Builder.
Context {F : FlatBuffers}.
(* SRC autogens/proto/voice_generated.h 65-67 VoiceChanJoinBuilder::add_channel_id *)
Definition add_channel_id (builder_ : builder) (channel_id : option Obj) : builder :=
  builder_ ++ [OffsetAt VoiceChanJoin.VT_CHANNEL_ID channel_id].
(* SRC autogens/proto/voice_generated.h 72-77 VoiceChanJoinBuilder::Finish *)
Definition Finish (builder_ : builder) : option Obj :=
  EndTableRequired [VoiceChanJoin.VT_CHANNEL_ID] builder_.
End Builder.
End VoiceChanJoinBuilder.

Section VoiceChanJoinFunctions.
Context {F : FlatBuffers}.
(* SRC autogens/proto/voice_generated.h 80-86 CreateVoiceChanJoin *)
Definition CreateVoiceChanJoin (channel_id : option Obj) : option Obj :=
  let builder_ := [] in
  let builder_ := VoiceChanJoinBuilder.add_channel_id builder_ channel_id in
  VoiceChanJoinBuilder.Finish builder_.
(* SRC autogens/proto/voice_generated.h 88-95 CreateVoiceChanJoinDirect *)
Definition CreateVoiceChanJoinDirect (channel_id : option string) : option Obj :=
  let channel_id__ := CreateString <$> channel_id in
  CreateVoiceChanJoin channel_id__.
(* SRC autogens/proto/voice_generated.h 345-349 VoiceChanJoin::UnPackTo *)
Definition VoiceChanJoin_UnPackTo (_o : VoiceChanJoinT.t) (this_ : Obj) : option VoiceChanJoinT.t :=
  channel_id ← (_e ← VoiceChanJoin.channel_id this_; UnPackString (VoiceChanJoinT.channel_id _o)
      _e);
  Some (VoiceChanJoinT.mk channel_id).
(* SRC autogens/proto/voice_generated.h 339-343 VoiceChanJoin::UnPack *)
Definition VoiceChanJoin_UnPack (this_ : Obj) : option VoiceChanJoinT.t :=
  VoiceChanJoin_UnPackTo VoiceChanJoinT.init this_.
(* SRC autogens/proto/voice_generated.h 355-363 VoiceChanJoin::Pack *)
Definition VoiceChanJoin_Pack (_o : VoiceChanJoinT.t) : option Obj :=
  let _channel_id := Some (CreateString (VoiceChanJoinT.channel_id _o)) in
  CreateVoiceChanJoin _channel_id.
Definition VoiceChanJoin_message : Message VoiceChanJoinT.t :=
  mkMessage VoiceChanJoin_Pack VoiceChanJoin_UnPackTo VoiceChanJoin_UnPack VoiceChanJoin.Verify
      VoiceChanJoinT.fits VoiceChanJoinT.tables 1.
End VoiceChanJoinFunctions.
Ltac unfold_VoiceChanJoin := cbv beta iota zeta delta [VoiceChanJoin_message VoiceChanJoin_Pack
    VoiceChanJoin_UnPack VoiceChanJoin_UnPackTo CreateVoiceChanJoin
    VoiceChanJoinBuilder.add_channel_id VoiceChanJoinBuilder.Finish VoiceChanJoin.channel_id
    VoiceChanJoin.Verify VoiceChanJoinT.init VoiceChanJoinT.fits VoiceChanJoinT.tables
    VoiceChanJoinT.channel_id] in *.
#[global] Instance VoiceChanJoin_ok {F : FlatBuffers} {FO : FlatBuffersOk F} : MessageOk
    VoiceChanJoin_message.
Proof. solve_message_with ltac:(fun _ => unfold_VoiceChanJoin). Qed.
#[global] Arguments VoiceChanJoin_Pack : simpl never.
#[global] Arguments VoiceChanJoin_UnPackTo : simpl never.
#[global] Arguments VoiceChanJoin_UnPack : simpl never.
#[global] Arguments VoiceChanJoin.Verify : simpl never.
#[global] Arguments VoiceChanJoinT.fits : simpl never.
#[global] Arguments VoiceChanJoinT.tables : simpl never.
#[global] Typeclasses Opaque VoiceChanJoin.Verify.

(** C to S  (msg_type 0x71) *)
Module VoiceChanLeaveT.
(* SRC autogens/proto/voice_generated.h 99-102 VoiceChanLeaveT *)
Record t : Type := mk {
  channel_id : string }.
(* SRC autogens/proto/voice_generated.h 99-102 VoiceChanLeaveT *)
Definition init : t := mk "".
Definition fits (_o : t) : Prop :=
  True.
Definition tables (_o : t) : Z := 1.
End VoiceChanLeaveT.

Module VoiceChanLeave.
Notation VT_CHANNEL_ID := 4 (only parsing).
Section Table.
Context {F : FlatBuffers}.
(* SRC autogens/proto/voice_generated.h 111-113 VoiceChanLeave::channel_id *)
Definition channel_id (this_ : Obj) : option (option Obj) := GetPointer this_ VT_CHANNEL_ID.
(* SRC autogens/proto/voice_generated.h 115-120 VoiceChanLeave::Verify *)
Definition Verify (this_ : Obj) : verification :=
  TableStart this_ &&>
  check (VerifyOffsetRequired this_ VT_CHANNEL_ID) &&>
  check_string (channel_id this_) &&>
  TableEnd.
End Table.
End VoiceChanLeave.

Module VoiceChanLeaveBuilder.
Section Builder.
Context {F : FlatBuffers}.
(* SRC autogens/proto/voice_generated.h 130-132 VoiceChanLeaveBuilder::add_channel_id *)
Definition add_channel_id (builder_ : builder) (channel_id : option Obj) : builder :=
  builder_ ++ [OffsetAt VoiceChanLeave.VT_CHANNEL_ID channel_id].
(* SRC autogens/proto/voice_generated.h 137-142 VoiceChanLeaveBuilder::Finish *)
Definition Finish (builder_ : builder) : option Obj :=
  EndTableRequired [VoiceChanLeave.VT_CHANNEL_ID] builder_.
End Builder.
End VoiceChanLeaveBuilder.

Section VoiceChanLeaveFunctions.
Context {F : FlatBuffers}.
(* SRC autogens/proto/voice_generated.h 145-151 CreateVoiceChanLeave *)
Definition CreateVoiceChanLeave (channel_id : option Obj) : option Obj :=
  let builder_ := [] in
  let builder_ := VoiceChanLeaveBuilder.add_channel_id builder_ channel_id in
  VoiceChanLeaveBuilder.Finish builder_.
(* SRC autogens/proto/voice_generated.h 153-160 CreateVoiceChanLeaveDirect *)
Definition CreateVoiceChanLeaveDirect (channel_id : option string) : option Obj :=
  let channel_id__ := CreateString <$> channel_id in
  CreateVoiceChanLeave channel_id__.
(* SRC autogens/proto/voice_generated.h 371-375 VoiceChanLeave::UnPackTo *)
Definition VoiceChanLeave_UnPackTo (_o : VoiceChanLeaveT.t) (this_ : Obj) : option
    VoiceChanLeaveT.t :=
  channel_id ← (_e ← VoiceChanLeave.channel_id this_; UnPackString (VoiceChanLeaveT.channel_id
      _o) _e);
  Some (VoiceChanLeaveT.mk channel_id).
(* SRC autogens/proto/voice_generated.h 365-369 VoiceChanLeave::UnPack *)
Definition VoiceChanLeave_UnPack (this_ : Obj) : option VoiceChanLeaveT.t :=
  VoiceChanLeave_UnPackTo VoiceChanLeaveT.init this_.
(* SRC autogens/proto/voice_generated.h 381-389 VoiceChanLeave::Pack *)
Definition VoiceChanLeave_Pack (_o : VoiceChanLeaveT.t) : option Obj :=
  let _channel_id := Some (CreateString (VoiceChanLeaveT.channel_id _o)) in
  CreateVoiceChanLeave _channel_id.
Definition VoiceChanLeave_message : Message VoiceChanLeaveT.t :=
  mkMessage VoiceChanLeave_Pack VoiceChanLeave_UnPackTo VoiceChanLeave_UnPack
      VoiceChanLeave.Verify VoiceChanLeaveT.fits VoiceChanLeaveT.tables 1.
End VoiceChanLeaveFunctions.
Ltac unfold_VoiceChanLeave := cbv beta iota zeta delta [VoiceChanLeave_message VoiceChanLeave_Pack
    VoiceChanLeave_UnPack VoiceChanLeave_UnPackTo CreateVoiceChanLeave
    VoiceChanLeaveBuilder.add_channel_id VoiceChanLeaveBuilder.Finish VoiceChanLeave.channel_id
    VoiceChanLeave.Verify VoiceChanLeaveT.init VoiceChanLeaveT.fits VoiceChanLeaveT.tables
    VoiceChanLeaveT.channel_id] in *.
#[global] Instance VoiceChanLeave_ok {F : FlatBuffers} {FO : FlatBuffersOk F} : MessageOk
    VoiceChanLeave_message.
Proof. solve_message_with ltac:(fun _ => unfold_VoiceChanLeave). Qed.
#[global] Arguments VoiceChanLeave_Pack : simpl never.
#[global] Arguments VoiceChanLeave_UnPackTo : simpl never.
#[global] Arguments VoiceChanLeave_UnPack : simpl never.
#[global] Arguments VoiceChanLeave.Verify : simpl never.
#[global] Arguments VoiceChanLeaveT.fits : simpl never.
#[global] Arguments VoiceChanLeaveT.tables : simpl never.
#[global] Typeclasses Opaque VoiceChanLeave.Verify.

Module VoiceParticipantT.
(* SRC autogens/proto/voice_generated.h 164-169 VoiceParticipantT *)
Record t : Type := mk {
  client_id : string;
  muted : bool;
  deafened : bool }.
(* SRC autogens/proto/voice_generated.h 164-169 VoiceParticipantT *)
Definition init : t := mk "" false false.
Definition fits (_o : t) : Prop :=
  True.
Definition tables (_o : t) : Z := 1.
End VoiceParticipantT.

Module VoiceParticipant.
Notation VT_CLIENT_ID := 4 (only parsing).
Notation VT_MUTED := 6 (only parsing).
Notation VT_DEAFENED := 8 (only parsing).
Section Table.
Context {F : FlatBuffers}.
(* SRC autogens/proto/voice_generated.h 179-181 VoiceParticipant::client_id *)
Definition client_id (this_ : Obj) : option (option Obj) := GetPointer this_ VT_CLIENT_ID.
(* SRC autogens/proto/voice_generated.h 182-184 VoiceParticipant::muted *)
Definition muted (this_ : Obj) : option bool :=
  e ← GetField U8 this_ VT_MUTED 0; Some (negb (e =? 0)).
(* SRC autogens/proto/voice_generated.h 185-187 VoiceParticipant::deafened *)
Definition deafened (this_ : Obj) : option bool :=
  e ← GetField U8 this_ VT_DEAFENED 0; Some (negb (e =? 0)).
(* SRC autogens/proto/voice_generated.h 189-196 VoiceParticipant::Verify *)
Definition Verify (this_ : Obj) : verification :=
  TableStart this_ &&>
  check (VerifyOffsetRequired this_ VT_CLIENT_ID) &&>
  check_string (client_id this_) &&>
  check (VerifyField U8 this_ VT_MUTED 1) &&>
  check (VerifyField U8 this_ VT_DEAFENED 1) &&>
  TableEnd.
End Table.
End VoiceParticipant.

Module VoiceParticipantBuilder.
Section Builder.
Context {F : FlatBuffers}.
(* SRC autogens/proto/voice_generated.h 206-208 VoiceParticipantBuilder::add_client_id *)
Definition add_client_id (builder_ : builder) (client_id : option Obj) : builder :=
  builder_ ++ [OffsetAt VoiceParticipant.VT_CLIENT_ID client_id].
(* SRC autogens/proto/voice_generated.h 209-211 VoiceParticipantBuilder::add_muted *)
Definition add_muted (builder_ : builder) (muted : bool) : builder :=
  builder_ ++ [Element U8 VoiceParticipant.VT_MUTED (Z.b2z muted) 0].
(* SRC autogens/proto/voice_generated.h 212-214 VoiceParticipantBuilder::add_deafened *)
Definition add_deafened (builder_ : builder) (deafened : bool) : builder :=
  builder_ ++ [Element U8 VoiceParticipant.VT_DEAFENED (Z.b2z deafened) 0].
(* SRC autogens/proto/voice_generated.h 219-224 VoiceParticipantBuilder::Finish *)
Definition Finish (builder_ : builder) : option Obj :=
  EndTableRequired [VoiceParticipant.VT_CLIENT_ID] builder_.
End Builder.
End VoiceParticipantBuilder.

Section VoiceParticipantFunctions.
Context {F : FlatBuffers}.
(* SRC autogens/proto/voice_generated.h 227-237 CreateVoiceParticipant *)
Definition CreateVoiceParticipant (client_id : option Obj) (muted : bool) (deafened : bool) :
    option Obj :=
  let builder_ := [] in
  let builder_ := VoiceParticipantBuilder.add_client_id builder_ client_id in
  let builder_ := VoiceParticipantBuilder.add_deafened builder_ deafened in
  let builder_ := VoiceParticipantBuilder.add_muted builder_ muted in
  VoiceParticipantBuilder.Finish builder_.
(* SRC autogens/proto/voice_generated.h 239-250 CreateVoiceParticipantDirect *)
Definition CreateVoiceParticipantDirect (client_id : option string) (muted : bool) (deafened :
    bool) : option Obj :=
  let client_id__ := CreateString <$> client_id in
  CreateVoiceParticipant client_id__ muted deafened.
(* SRC autogens/proto/voice_generated.h 397-403 VoiceParticipant::UnPackTo *)
Definition VoiceParticipant_UnPackTo (_o : VoiceParticipantT.t) (this_ : Obj) : option
    VoiceParticipantT.t :=
  client_id ← (_e ← VoiceParticipant.client_id this_; UnPackString (VoiceParticipantT.client_id
      _o) _e);
  muted ← VoiceParticipant.muted this_;
  deafened ← VoiceParticipant.deafened this_;
  Some (VoiceParticipantT.mk client_id muted deafened).
(* SRC autogens/proto/voice_generated.h 391-395 VoiceParticipant::UnPack *)
Definition VoiceParticipant_UnPack (this_ : Obj) : option VoiceParticipantT.t :=
  VoiceParticipant_UnPackTo VoiceParticipantT.init this_.
(* SRC autogens/proto/voice_generated.h 409-421 VoiceParticipant::Pack *)
Definition VoiceParticipant_Pack (_o : VoiceParticipantT.t) : option Obj :=
  let _client_id := Some (CreateString (VoiceParticipantT.client_id _o)) in
  let _muted := VoiceParticipantT.muted _o in
  let _deafened := VoiceParticipantT.deafened _o in
  CreateVoiceParticipant _client_id _muted _deafened.
Definition VoiceParticipant_message : Message VoiceParticipantT.t :=
  mkMessage VoiceParticipant_Pack VoiceParticipant_UnPackTo VoiceParticipant_UnPack
      VoiceParticipant.Verify VoiceParticipantT.fits VoiceParticipantT.tables 1.
End VoiceParticipantFunctions.
Ltac unfold_VoiceParticipant := cbv beta iota zeta delta [VoiceParticipant_message
    VoiceParticipant_Pack VoiceParticipant_UnPack VoiceParticipant_UnPackTo CreateVoiceParticipant
    VoiceParticipantBuilder.add_client_id VoiceParticipantBuilder.add_muted
    VoiceParticipantBuilder.add_deafened VoiceParticipantBuilder.Finish VoiceParticipant.client_id
    VoiceParticipant.muted VoiceParticipant.deafened VoiceParticipant.Verify VoiceParticipantT.init
    VoiceParticipantT.fits VoiceParticipantT.tables VoiceParticipantT.client_id
    VoiceParticipantT.muted VoiceParticipantT.deafened] in *.
#[global] Instance VoiceParticipant_ok {F : FlatBuffers} {FO : FlatBuffersOk F} : MessageOk
    VoiceParticipant_message.
Proof. solve_message_with ltac:(fun _ => unfold_VoiceParticipant). Qed.
#[global] Arguments VoiceParticipant_Pack : simpl never.
#[global] Arguments VoiceParticipant_UnPackTo : simpl never.
#[global] Arguments VoiceParticipant_UnPack : simpl never.
#[global] Arguments VoiceParticipant.Verify : simpl never.
#[global] Arguments VoiceParticipantT.fits : simpl never.
#[global] Arguments VoiceParticipantT.tables : simpl never.
#[global] Typeclasses Opaque VoiceParticipant.Verify.

(** S to C  (msg_type 0x72) *)
Module VoiceChanStateT.
(* SRC autogens/proto/voice_generated.h 254-262 VoiceChanStateT *)
Record t : Type := mk {
  channel_id : string;
  participants : list VoiceParticipantT.t }.
(* SRC autogens/proto/voice_generated.h 254-262 VoiceChanStateT *)
Definition init : t := mk "" [].
Definition fits (_o : t) : Prop :=
  Forall VoiceParticipantT.fits (participants _o).
Definition tables (_o : t) : Z := 1 + tables_in VoiceParticipantT.tables (participants _o).
End VoiceChanStateT.

Module VoiceChanState.
Notation VT_CHANNEL_ID := 4 (only parsing).
Notation VT_PARTICIPANTS := 6 (only parsing).
Section Table.
Context {F : FlatBuffers}.
(* SRC autogens/proto/voice_generated.h 272-274 VoiceChanState::channel_id *)
Definition channel_id (this_ : Obj) : option (option Obj) := GetPointer this_ VT_CHANNEL_ID.
(* SRC autogens/proto/voice_generated.h 275-277 VoiceChanState::participants *)
Definition participants (this_ : Obj) : option (option Obj) := GetPointer this_ VT_PARTICIPANTS.
(* SRC autogens/proto/voice_generated.h 279-287 VoiceChanState::Verify *)
Definition Verify (this_ : Obj) : verification :=
  TableStart this_ &&>
  check (VerifyOffsetRequired this_ VT_CHANNEL_ID) &&>
  check_string (channel_id this_) &&>
  check (VerifyOffset this_ VT_PARTICIPANTS) &&>
  check_vector VectorOfOffsets (participants this_) &&>
  check_tables VoiceParticipant.Verify (participants this_) &&>
  TableEnd.
End Table.
End VoiceChanState.

Module VoiceChanStateBuilder.
Section Builder.
Context {F : FlatBuffers}.
(* SRC autogens/proto/voice_generated.h 297-299 VoiceChanStateBuilder::add_channel_id *)
Definition add_channel_id (builder_ : builder) (channel_id : option Obj) : builder :=
  builder_ ++ [OffsetAt VoiceChanState.VT_CHANNEL_ID channel_id].
(* SRC autogens/proto/voice_generated.h 300-302 VoiceChanStateBuilder::add_participants *)
Definition add_participants (builder_ : builder) (participants : option Obj) : builder :=
  builder_ ++ [OffsetAt VoiceChanState.VT_PARTICIPANTS participants].
(* SRC autogens/proto/voice_generated.h 307-312 VoiceChanStateBuilder::Finish *)
Definition Finish (builder_ : builder) : option Obj :=
  EndTableRequired [VoiceChanState.VT_CHANNEL_ID] builder_.
End Builder.
End VoiceChanStateBuilder.

Section VoiceChanStateFunctions.
Context {F : FlatBuffers}.
(* SRC autogens/proto/voice_generated.h 315-323 CreateVoiceChanState *)
Definition CreateVoiceChanState (channel_id : option Obj) (participants : option Obj) : option Obj
    :=
  let builder_ := [] in
  let builder_ := VoiceChanStateBuilder.add_participants builder_ participants in
  let builder_ := VoiceChanStateBuilder.add_channel_id builder_ channel_id in
  VoiceChanStateBuilder.Finish builder_.
(* SRC autogens/proto/voice_generated.h 325-335 CreateVoiceChanStateDirect *)
Definition CreateVoiceChanStateDirect (channel_id : option string) (participants : option (list
    Obj)) : option Obj :=
  let channel_id__ := CreateString <$> channel_id in
  let participants__ := CreateVectorOfOffsets <$> participants in
  CreateVoiceChanState channel_id__ participants__.
(* SRC autogens/proto/voice_generated.h 441-446 VoiceChanState::UnPackTo *)
Definition VoiceChanState_UnPackTo (_o : VoiceChanStateT.t) (this_ : Obj) : option
    VoiceChanStateT.t :=
  channel_id ← (_e ← VoiceChanState.channel_id this_; UnPackString (VoiceChanStateT.channel_id
      _o) _e);
  participants ← (_e ← VoiceChanState.participants this_;
    UnPackTables VoiceParticipant_UnPackTo VoiceParticipant_UnPack (VoiceChanStateT.participants
        _o) _e);
  Some (VoiceChanStateT.mk channel_id participants).
(* SRC autogens/proto/voice_generated.h 435-439 VoiceChanState::UnPack *)
Definition VoiceChanState_UnPack (this_ : Obj) : option VoiceChanStateT.t :=
  VoiceChanState_UnPackTo VoiceChanStateT.init this_.
(* SRC autogens/proto/voice_generated.h 452-462 VoiceChanState::Pack *)
Definition VoiceChanState_Pack (_o : VoiceChanStateT.t) : option Obj :=
  let _channel_id := Some (CreateString (VoiceChanStateT.channel_id _o)) in
  _participants ← PackTables VoiceParticipant_Pack (VoiceChanStateT.participants _o);
  CreateVoiceChanState _channel_id _participants.
Definition VoiceChanState_message : Message VoiceChanStateT.t :=
  mkMessage VoiceChanState_Pack VoiceChanState_UnPackTo VoiceChanState_UnPack
      VoiceChanState.Verify VoiceChanStateT.fits VoiceChanStateT.tables 2.
(* SRC autogens/proto/voice_generated.h 464-466 GetVoiceChanState *)
Definition GetVoiceChanState (buf : list byte) : Obj := GetRoot buf.
(* SRC autogens/proto/voice_generated.h 472-476 VerifyVoiceChanStateBuffer *)
Definition VerifyVoiceChanStateBuffer (buf : list byte) : option bool :=
  VerifyBuffer VoiceChanState.Verify buf.
(* SRC autogens/proto/voice_generated.h 484-488 FinishVoiceChanStateBuffer *)
Definition FinishVoiceChanStateBuffer (root : Obj) : list byte := Finish root.
(* SRC autogens/proto/voice_generated.h 496-500 UnPackVoiceChanState *)
Definition UnPackVoiceChanState (buf : list byte) : option VoiceChanStateT.t :=
  VoiceChanState_UnPack (GetVoiceChanState buf).
End VoiceChanStateFunctions.
Ltac unfold_VoiceChanState := cbv beta iota zeta delta [VoiceChanState_message VoiceChanState_Pack
    VoiceChanState_UnPack VoiceChanState_UnPackTo CreateVoiceChanState
    VoiceChanStateBuilder.add_channel_id VoiceChanStateBuilder.add_participants
    VoiceChanStateBuilder.Finish VoiceChanState.channel_id VoiceChanState.participants
    VoiceChanState.Verify VoiceChanStateT.init VoiceChanStateT.fits VoiceChanStateT.tables
    VoiceChanStateT.channel_id VoiceChanStateT.participants] in *.
#[global] Instance VoiceChanState_ok {F : FlatBuffers} {FO : FlatBuffersOk F} : MessageOk
    VoiceChanState_message.
Proof. solve_message_with ltac:(fun _ => unfold_VoiceChanState). Qed.
#[global] Arguments VoiceChanState_Pack : simpl never.
#[global] Arguments VoiceChanState_UnPackTo : simpl never.
#[global] Arguments VoiceChanState_UnPack : simpl never.
#[global] Arguments VoiceChanState.Verify : simpl never.
#[global] Arguments VoiceChanStateT.fits : simpl never.
#[global] Arguments VoiceChanStateT.tables : simpl never.
#[global] Typeclasses Opaque VoiceChanState.Verify.

End proto.
