(* ===== verification/Protocol.v ===== *)
(** * Protocol: the generated messages as a whole

    Every table of the generated code, under one type of names: what one side
    packs the other unpacks, and what the verifier accepts is read inside the
    buffer.  The enumerations of the wire, and those that must agree with the
    engine's. *)
From S2P Require Import Prelude Float32 Types Commands Frame DeviceRules.
From S2P Require Import Flat FlatTree ProtoCommon ProtoCommands ProtoSession ProtoEvents.
From S2P Require Import ProtoSnapshot ProtoDispatch ProtoMisc.
Local Open Scope Z_scope.

Module Table.
Inductive t : Set :=
  | SetSwitchPosition | SetSignalAspect | SetDerailerPosition | SetBlockSection | RequestRoute
  | CancelRoute | AcknowledgeAlarm | SetBlockDirection | InitAxleCounterReset |
  ResetAxleCounter | OperatorCommand | Ml8Command | CommandAck | CommandNak | DispatchAreaInfo
  | Handshake | HandshakeAck | Heartbeat | HeartbeatAck | SnapshotRequest | SessionNotice |
  SwitchPositionChanged | SwitchOccupancyChanged | SignalAspectChanged |
  TrackSectionOccupancyChanged | DerailerPositionChanged | BlockSectionStateChanged | RouteSet
  | RouteReleased | TrainMovement | AlarmRaised | AlarmCleared | DispatchAreaOwnershipChanged
  | SessionStateChanged | TrainComposed | TrainDecomposed | BlockDirectionStateChanged |
  OperatorCommandStateChanged | Ml8CommandStateChanged | DispatchTelegramStateChanged |
  OperatorCommandRuntimeState | SwitchState | TrackSectionState | SignalState | DerailerState
  | BlockSectionSnapshotState | RouteState | AlarmState | DispatchAreaOwnership | TrainState |
  Snapshot | DispatchFormPayload | FreeTextPayload | DispatchChannelMessage | TakeoverRequest
  | TakeoverResponse | ChatMessage | VoiceChanJoin | VoiceChanLeave | VoiceParticipant |
  VoiceChanState.
End Table.

(** The native struct and the message of a table. *)
Definition native (k : Table.t) : Type :=
  match k with
  | Table.SetSwitchPosition => proto.SetSwitchPositionT.t
  | Table.SetSignalAspect => proto.SetSignalAspectT.t
  | Table.SetDerailerPosition => proto.SetDerailerPositionT.t
  | Table.SetBlockSection => proto.SetBlockSectionT.t
  | Table.RequestRoute => proto.RequestRouteT.t
  | Table.CancelRoute => proto.CancelRouteT.t
  | Table.AcknowledgeAlarm => proto.AcknowledgeAlarmT.t
  | Table.SetBlockDirection => proto.SetBlockDirectionT.t
  | Table.InitAxleCounterReset => proto.InitAxleCounterResetT.t
  | Table.ResetAxleCounter => proto.ResetAxleCounterT.t
  | Table.OperatorCommand => proto.OperatorCommandT.t
  | Table.Ml8Command => proto.Ml8CommandT.t
  | Table.CommandAck => proto.CommandAckT.t
  | Table.CommandNak => proto.CommandNakT.t
  | Table.DispatchAreaInfo => proto.DispatchAreaInfoT.t
  | Table.Handshake => proto.HandshakeT.t
  | Table.HandshakeAck => proto.HandshakeAckT.t
  | Table.Heartbeat => proto.HeartbeatT.t
  | Table.HeartbeatAck => proto.HeartbeatAckT.t
  | Table.SnapshotRequest => proto.SnapshotRequestT.t
  | Table.SessionNotice => proto.SessionNoticeT.t
  | Table.SwitchPositionChanged => proto.SwitchPositionChangedT.t
  | Table.SwitchOccupancyChanged => proto.SwitchOccupancyChangedT.t
  | Table.SignalAspectChanged => proto.SignalAspectChangedT.t
  | Table.TrackSectionOccupancyChanged => proto.TrackSectionOccupancyChangedT.t
  | Table.DerailerPositionChanged => proto.DerailerPositionChangedT.t
  | Table.BlockSectionStateChanged => proto.BlockSectionStateChangedT.t
  | Table.RouteSet => proto.RouteSetT.t
  | Table.RouteReleased => proto.RouteReleasedT.t
  | Table.TrainMovement => proto.TrainMovementT.t
  | Table.AlarmRaised => proto.AlarmRaisedT.t
  | Table.AlarmCleared => proto.AlarmClearedT.t
  | Table.DispatchAreaOwnershipChanged => proto.DispatchAreaOwnershipChangedT.t
  | Table.SessionStateChanged => proto.SessionStateChangedT.t
  | Table.TrainComposed => proto.TrainComposedT.t
  | Table.TrainDecomposed => proto.TrainDecomposedT.t
  | Table.BlockDirectionStateChanged => proto.BlockDirectionStateChangedT.t
  | Table.OperatorCommandStateChanged => proto.OperatorCommandStateChangedT.t
  | Table.Ml8CommandStateChanged => proto.Ml8CommandStateChangedT.t
  | Table.DispatchTelegramStateChanged => proto.DispatchTelegramStateChangedT.t
  | Table.OperatorCommandRuntimeState => proto.OperatorCommandRuntimeStateT.t
  | Table.SwitchState => proto.SwitchStateT.t
  | Table.TrackSectionState => proto.TrackSectionStateT.t
  | Table.SignalState => proto.SignalStateT.t
  | Table.DerailerState => proto.DerailerStateT.t
  | Table.BlockSectionSnapshotState => proto.BlockSectionSnapshotStateT.t
  | Table.RouteState => proto.RouteStateT.t
  | Table.AlarmState => proto.AlarmStateT.t
  | Table.DispatchAreaOwnership => proto.DispatchAreaOwnershipT.t
  | Table.TrainState => proto.TrainStateT.t
  | Table.Snapshot => proto.SnapshotT.t
  | Table.DispatchFormPayload => proto.DispatchFormPayloadT.t
  | Table.FreeTextPayload => proto.FreeTextPayloadT.t
  | Table.DispatchChannelMessage => proto.DispatchChannelMessageT.t
  | Table.TakeoverRequest => proto.TakeoverRequestT.t
  | Table.TakeoverResponse => proto.TakeoverResponseT.t
  | Table.ChatMessage => proto.ChatMessageT.t
  | Table.VoiceChanJoin => proto.VoiceChanJoinT.t
  | Table.VoiceChanLeave => proto.VoiceChanLeaveT.t
  | Table.VoiceParticipant => proto.VoiceParticipantT.t
  | Table.VoiceChanState => proto.VoiceChanStateT.t
  end.
Definition message {F : FlatBuffers} (k : Table.t) : Message (native k) :=
  match k with
  | Table.SetSwitchPosition => proto.SetSwitchPosition_message
  | Table.SetSignalAspect => proto.SetSignalAspect_message
  | Table.SetDerailerPosition => proto.SetDerailerPosition_message
  | Table.SetBlockSection => proto.SetBlockSection_message
  | Table.RequestRoute => proto.RequestRoute_message
  | Table.CancelRoute => proto.CancelRoute_message
  | Table.AcknowledgeAlarm => proto.AcknowledgeAlarm_message
  | Table.SetBlockDirection => proto.SetBlockDirection_message
  | Table.InitAxleCounterReset => proto.InitAxleCounterReset_message
  | Table.ResetAxleCounter => proto.ResetAxleCounter_message
  | Table.OperatorCommand => proto.OperatorCommand_message
  | Table.Ml8Command => proto.Ml8Command_message
  | Table.CommandAck => proto.CommandAck_message
  | Table.CommandNak => proto.CommandNak_message
  | Table.DispatchAreaInfo => proto.DispatchAreaInfo_message
  | Table.Handshake => proto.Handshake_message
  | Table.HandshakeAck => proto.HandshakeAck_message
  | Table.Heartbeat => proto.Heartbeat_message
  | Table.HeartbeatAck => proto.HeartbeatAck_message
  | Table.SnapshotRequest => proto.SnapshotRequest_message
  | Table.SessionNotice => proto.SessionNotice_message
  | Table.SwitchPositionChanged => proto.SwitchPositionChanged_message
  | Table.SwitchOccupancyChanged => proto.SwitchOccupancyChanged_message
  | Table.SignalAspectChanged => proto.SignalAspectChanged_message
  | Table.TrackSectionOccupancyChanged => proto.TrackSectionOccupancyChanged_message
  | Table.DerailerPositionChanged => proto.DerailerPositionChanged_message
  | Table.BlockSectionStateChanged => proto.BlockSectionStateChanged_message
  | Table.RouteSet => proto.RouteSet_message
  | Table.RouteReleased => proto.RouteReleased_message
  | Table.TrainMovement => proto.TrainMovement_message
  | Table.AlarmRaised => proto.AlarmRaised_message
  | Table.AlarmCleared => proto.AlarmCleared_message
  | Table.DispatchAreaOwnershipChanged => proto.DispatchAreaOwnershipChanged_message
  | Table.SessionStateChanged => proto.SessionStateChanged_message
  | Table.TrainComposed => proto.TrainComposed_message
  | Table.TrainDecomposed => proto.TrainDecomposed_message
  | Table.BlockDirectionStateChanged => proto.BlockDirectionStateChanged_message
  | Table.OperatorCommandStateChanged => proto.OperatorCommandStateChanged_message
  | Table.Ml8CommandStateChanged => proto.Ml8CommandStateChanged_message
  | Table.DispatchTelegramStateChanged => proto.DispatchTelegramStateChanged_message
  | Table.OperatorCommandRuntimeState => proto.OperatorCommandRuntimeState_message
  | Table.SwitchState => proto.SwitchState_message
  | Table.TrackSectionState => proto.TrackSectionState_message
  | Table.SignalState => proto.SignalState_message
  | Table.DerailerState => proto.DerailerState_message
  | Table.BlockSectionSnapshotState => proto.BlockSectionSnapshotState_message
  | Table.RouteState => proto.RouteState_message
  | Table.AlarmState => proto.AlarmState_message
  | Table.DispatchAreaOwnership => proto.DispatchAreaOwnership_message
  | Table.TrainState => proto.TrainState_message
  | Table.Snapshot => proto.Snapshot_message
  | Table.DispatchFormPayload => proto.DispatchFormPayload_message
  | Table.FreeTextPayload => proto.FreeTextPayload_message
  | Table.DispatchChannelMessage => proto.DispatchChannelMessage_message
  | Table.TakeoverRequest => proto.TakeoverRequest_message
  | Table.TakeoverResponse => proto.TakeoverResponse_message
  | Table.ChatMessage => proto.ChatMessage_message
  | Table.VoiceChanJoin => proto.VoiceChanJoin_message
  | Table.VoiceChanLeave => proto.VoiceChanLeave_message
  | Table.VoiceParticipant => proto.VoiceParticipant_message
  | Table.VoiceChanState => proto.VoiceChanState_message
  end.

#[global] Instance message_ok {F : FlatBuffers} {FO : FlatBuffersOk F} k : MessageOk (message k).
Proof. destruct k; cbn [message]; typeclasses eauto. Qed.

(** Tables nest three deep at most. *)
Lemma height_small {F : FlatBuffers} k : msg_height (message k) <= 3.
Proof. destruct k; cbn; lia. Qed.

Section Messages.
Context {F : FlatBuffers} {FO : FlatBuffersOk F}.

(** An object that carries a message is accepted from a fresh verifier. *)
Lemma carried_verifies k o m :
  carries (message k) o m -> msg_tables (message k) m <= max_tables ->
  VerifyBuffer (msg_Verify (message k)) (Finish o) = Some true.
Proof.
  intros [_ Hv] Ht. pose proof (height_small k).
  destruct (Hv fresh) as (v & E & _ & _).
  - rewrite fresh_depth. unfold max_depth. lia.
  - rewrite fresh_tables. lia.
  - by eapply verify_buffer_built.
Qed.

Lemma packed_carried k m : msg_fits (message k) m ->
  exists o, msg_Pack (message k) m = Some o /\ carries (message k) o m.
Proof. apply (pack_ok (MessageOk := message_ok k)). Qed.

Lemma verified_readable k buf : exists b,
  VerifyBuffer (msg_Verify (message k)) buf = Some b /\
  (b = true -> readable (message k) (GetRoot buf) /\ is_Some (msg_UnPack (message k) (GetRoot
      buf))).
Proof.
  pose proof (verify_ok (MessageOk := message_ok k)) as Hv.
  destruct (verify_buffer_defined (msg_Verify (message k)) buf) as [b Eb].
  { intros o v. destruct (Hv o v) as (b & v' & E & _). rewrite E. by eexists. }
  exists b. split; [done|]. intros ->. destruct (verified_buffer _ _ Eb) as [v' E].
  destruct (Hv (GetRoot buf) fresh) as (b & v & E' & Hb).
  assert (b = true) as -> by congruence. specialize (Hb eq_refl).
  split; [done|]. by apply (unpack_readable (MessageOk := message_ok k)).
Qed.

(** C15: what one side packs the other unpacks, for each of the
    sixty-one tables of the protocol.  A native struct whose members hold
    values of their types is packed into a buffer of bytes; the buffer unpacks
    to the same struct, it passes the verifier as long as it has no more tables
    than the verifier admits, and no other struct gives the same bytes.  So
    every member has a slot of its own, with the same type and default in the
    accessor, the builder and the verification. *)
Theorem messages_round_trip k (m : native k) :
  msg_fits (message k) m ->
  exists o, msg_Pack (message k) m = Some o /\ Forall is_byte (Finish o) /\
    msg_UnPack (message k) (GetRoot (Finish o)) = Some m /\
    (msg_tables (message k) m <= max_tables ->
     VerifyBuffer (msg_Verify (message k)) (Finish o) = Some true) /\
    (forall m' o', msg_fits (message k) m' -> msg_Pack (message k) m' = Some o' -> Finish o' =
        Finish o -> m' = m).
Proof.
  intros Hm. destruct (packed_carried k m Hm) as (o & E & Hc). exists o.
  split_and!; [done|apply finish_bytes| | |].
  - rewrite root_built. apply Hc.
  - by apply carried_verifies.
  - intros m' o' Hm' E' Eb. destruct (packed_carried k m' Hm') as (o2 & E2 & Hc2).
    assert (o2 = o') as -> by congruence. apply (f_equal GetRoot) in Eb. rewrite !root_built in
        Eb. subst o'.
    destruct Hc as [Hu _], Hc2 as [Hu2 _]. congruence.
Qed.

(** C16: no message is read outside its buffer.  Whatever bytes arrive, the
    verification of each of the sixty-one tables runs to a verdict without a
    read outside the buffer, although it follows the offsets it finds there;
    and when it accepts, every accessor of the table, of the tables nested in
    it and of its vectors and strings stays inside, whether the message is
    unpacked or filled into an existing struct. *)
Theorem verified_messages_safe k buf :
  exists b, VerifyBuffer (msg_Verify (message k)) buf = Some b /\
  (b = true -> is_Some (msg_UnPack (message k) (GetRoot buf)) /\
     forall x, is_Some (msg_UnPackTo (message k) x (GetRoot buf))).
Proof. destruct (verified_readable k buf) as (b & E & Hb). exists b. split; [done|]. by intros
    []%Hb. Qed.
End Messages.

(** A handshake answer with two dispatch areas, one without a name. *)
Module ProtocolDemo.
Definition area (id name : string) : proto.DispatchAreaInfoT.t :=
  proto.DispatchAreaInfoT.mk id "LK12" name.
Definition ack : native Table.HandshakeAck :=
  proto.HandshakeAckT.mk "SID-alice-7" 20 [area "A" "Approach"; area "B" ""] 99.
End ProtocolDemo.

Lemma messages_round_trip_witness :
  exists o, msg_Pack (message Table.HandshakeAck) ProtocolDemo.ack = Some o /\
    msg_UnPack (message Table.HandshakeAck) (GetRoot (Finish o)) = Some ProtocolDemo.ack /\
    VerifyBuffer (msg_Verify (message Table.HandshakeAck)) (Finish o) = Some true.
Proof.
  destruct (messages_round_trip Table.HandshakeAck ProtocolDemo.ack) as (o & H1 & _ & H2 & H3 & _).
  - cbn. unfold proto.HandshakeAckT.fits. cbn. split_and!; [done| |done]. by repeat constructor.
  - exists o. split_and!; [exact H1|exact H2|]. apply H3. vm_compute. discriminate.
Defined.

Lemma verified_messages_safe_witness :
  exists b, VerifyBuffer (msg_Verify (message Table.Snapshot)) [1; 0; 1; 1] = Some b.
Proof. destruct (verified_messages_safe Table.Snapshot [1; 0; 1; 1]) as (b & H & _). by exists
    b. Defined.

(** ** Enumerations *)

(** The values, the names and the naming function of every enumeration. *)
Definition wire_enums : list (list Z * list string * (Z -> string)) := [
  (code <$> proto.EnumValuesAspect, proto.EnumNamesAspect, proto.EnumNameAspect);
  (code <$> proto.EnumValuesSwitchPosition, proto.EnumNamesSwitchPosition,
      proto.EnumNameSwitchPosition);
  (code <$> proto.EnumValuesDerailerPosition, proto.EnumNamesDerailerPosition,
      proto.EnumNameDerailerPosition);
  (code <$> proto.EnumValuesBlockSectionState, proto.EnumNamesBlockSectionState,
      proto.EnumNameBlockSectionState);
  (code <$> proto.EnumValuesBlockDirectionState, proto.EnumNamesBlockDirectionState,
      proto.EnumNameBlockDirectionState);
  (code <$> proto.EnumValuesChangeCause, proto.EnumNamesChangeCause, proto.EnumNameChangeCause);
  (code <$> proto.EnumValuesDispatchFormType, proto.EnumNamesDispatchFormType,
      proto.EnumNameDispatchFormType);
  (code <$> proto.EnumValuesTelegramDirection, proto.EnumNamesTelegramDirection,
      proto.EnumNameTelegramDirection);
  (code <$> proto.EnumValuesExchangeStatus, proto.EnumNamesExchangeStatus,
      proto.EnumNameExchangeStatus);
  (code <$> proto.EnumValuesSessionState, proto.EnumNamesSessionState, proto.EnumNameSessionState);
  (code <$> proto.EnumValuesShl12Op, proto.EnumNamesShl12Op, proto.EnumNameShl12Op);
  (code <$> proto.EnumValuesOperatorTargetKind, proto.EnumNamesOperatorTargetKind,
      proto.EnumNameOperatorTargetKind);
  (code <$> proto.EnumValuesOperatorCommandCode, proto.EnumNamesOperatorCommandCode,
      proto.EnumNameOperatorCommandCode);
  (code <$> proto.EnumValuesMl8CommandCode, proto.EnumNamesMl8CommandCode,
      proto.EnumNameMl8CommandCode);
  (code <$> proto.EnumValuesNakReason, proto.EnumNamesNakReason, proto.EnumNameNakReason);
  (code <$> proto.EnumValuesSessionNoticeType, proto.EnumNamesSessionNoticeType,
      proto.EnumNameSessionNoticeType);
  (code <$> proto.EnumValuesRouteReleaseReason, proto.EnumNamesRouteReleaseReason,
      proto.EnumNameRouteReleaseReason);
  (code <$> proto.EnumValuesDirection, proto.EnumNamesDirection, proto.EnumNameDirection);
  (code <$> proto.EnumValuesAlarmType, proto.EnumNamesAlarmType, proto.EnumNameAlarmType);
  (code <$> proto.EnumValuesTrainDecomposeReason, proto.EnumNamesTrainDecomposeReason,
      proto.EnumNameTrainDecomposeReason);
  (code <$> proto.EnumValuesDispatchChannelMessageKind,
      proto.EnumNamesDispatchChannelMessageKind, proto.EnumNameDispatchChannelMessageKind);
  (code <$> proto.EnumValuesDispatchChannelMessageBody,
      proto.EnumNamesDispatchChannelMessageBody, proto.EnumNameDispatchChannelMessageBody);
  (code <$> proto.EnumValuesChatTarget, proto.EnumNamesChatTarget, proto.EnumNameChatTarget)].

Lemma enum_name (names : list string) hi e : hi = Z.of_nat (length names) - 1 ->
  (if IsOutRange e 0 hi then ""%string else default ""%string (names !! Z.to_nat e)) =
  if e <? 0 then ""%string else default ""%string (names !! Z.to_nat e).
Proof.
  intros ->. unfold IsOutRange. destruct (Z.ltb_spec e 0); [done|]. cbn [orb].
  destruct (Z.ltb_spec (Z.of_nat (length names) - 1) e); [|done]. by rewrite lookup_ge_None_2 by
      lia.
Qed.

(** Each enumeration numbers its enumerators from 0 and names each of
    them, and only them. *)
Lemma wire_enums_named :
  Forall (fun '(values, names, name) =>
    values = seqZ 0 (Z.of_nat (length names)) /\ NoDup names /\
    forall e, name e = if e <? 0 then ""%string else default ""%string (names !! Z.to_nat e))
        wire_enums.
Proof.
  unfold wire_enums. repeat (apply List.Forall_cons; [split_and!; [by vm_compute| |intros e; by
      apply enum_name]|]);
    [..|by constructor].
  all: apply (bool_decide_unpack _); by vm_compute.
Qed.

(** ** The engine's enumerations on the wire

    The enumerators of the same name; a [static_cast] goes by the number. *)

Definition aspect_on_wire (x : SignalAspect.t) : option proto.Aspect.t :=
  match x with
  | SignalAspect.S1_STOP => Some proto.Aspect.S1_STOP
  | SignalAspect.S2_PROCEED => Some proto.Aspect.S2_PROCEED
  | SignalAspect.S3_PROCEED_40 => Some proto.Aspect.S3_PROCEED_40
  | SignalAspect.S4_PROCEED_40_EXPECT_STOP => Some proto.Aspect.S4_PROCEED_40_EXPECT_STOP
  | SignalAspect.S5_EXPECT_STOP => Some proto.Aspect.S5_EXPECT_STOP
  | SignalAspect.S6_PROCEED_100 => Some proto.Aspect.S6_PROCEED_100
  | SignalAspect.S7_PROCEED_100_EXPECT_STOP => Some proto.Aspect.S7_PROCEED_100_EXPECT_STOP
  | SignalAspect.S8_PROCEED_100_EXPECT_40 => Some proto.Aspect.S8_PROCEED_100_EXPECT_40
  | SignalAspect.S9_PROCEED_100_EXPECT_60 => Some proto.Aspect.S9_PROCEED_100_EXPECT_60
  | SignalAspect.S10_PROCEED_40 => Some proto.Aspect.S10_PROCEED_40
  | SignalAspect.S11_PROCEED_40_EXPECT_40 => Some proto.Aspect.S11_PROCEED_40_EXPECT_40
  | SignalAspect.S12_PROCEED_60 => Some proto.Aspect.S12_PROCEED_60
  | SignalAspect.S13_PROCEED_60_EXPECT_60 => Some proto.Aspect.S13_PROCEED_60_EXPECT_60
  | SignalAspect.SZ_PROCEED => Some proto.Aspect.SZ_PROCEED
  | SignalAspect.SZN_PROCEED_W24 => Some proto.Aspect.SZN_PROCEED_W24
  | SignalAspect.MS1_STOP => Some proto.Aspect.MS1_STOP
  | SignalAspect.MS2_SHUNTING_ALLOWED => Some proto.Aspect.MS2_SHUNTING_ALLOWED
  | SignalAspect.Unnamed _ => None
  end.
Definition block_direction_on_wire (x : BlockDirectionState.t) : proto.BlockDirectionState.t :=
  match x with
  | BlockDirectionState.NEUTRAL => proto.BlockDirectionState.NEUTRAL |
  BlockDirectionState.OUTBOUND_PENDING => proto.BlockDirectionState.OUTBOUND_PENDING |
  BlockDirectionState.OUTBOUND => proto.BlockDirectionState.OUTBOUND |
  BlockDirectionState.INBOUND_PENDING => proto.BlockDirectionState.INBOUND_PENDING |
  BlockDirectionState.INBOUND => proto.BlockDirectionState.INBOUND |
  BlockDirectionState.EMERGENCY => proto.BlockDirectionState.EMERGENCY |
  BlockDirectionState.RESET_PENDING => proto.BlockDirectionState.RESET_PENDING
  end.
Definition change_cause_on_wire (x : ChangeCause.t) : proto.ChangeCause.t :=
  match x with
  | ChangeCause.COMMAND => proto.ChangeCause.COMMAND | ChangeCause.AUTO =>
  proto.ChangeCause.AUTO | ChangeCause.TIMEOUT => proto.ChangeCause.TIMEOUT
  end.
Definition shl12_op_on_wire (x : Shl12Op.t) : option proto.Shl12Op.t :=
  match x with
  | Shl12Op.BLW => Some proto.Shl12Op.BLW | Shl12Op.BLP => Some proto.Shl12Op.BLP
  | Shl12Op.BLO => Some proto.Shl12Op.BLO | Shl12Op.BLZ => Some proto.Shl12Op.BLZ
  | Shl12Op.BLAI => Some proto.Shl12Op.BLAI | Shl12Op.BLA => Some proto.Shl12Op.BLA
  | Shl12Op.OPS => Some proto.Shl12Op.OPS
  | Shl12Op.Unnamed _ => None
  end.
Definition target_kind_on_wire (x : OperatorTargetKind.t) : option proto.OperatorTargetKind.t :=
  match x with
  | OperatorTargetKind.SIGNAL => Some proto.OperatorTargetKind.SIGNAL
  | OperatorTargetKind.SWITCH => Some proto.OperatorTargetKind.SWITCH
  | OperatorTargetKind.DERAILER => Some proto.OperatorTargetKind.DERAILER
  | OperatorTargetKind.TRACK_SECTION => Some proto.OperatorTargetKind.TRACK_SECTION
  | OperatorTargetKind.BLOCK_SECTION => Some proto.OperatorTargetKind.BLOCK_SECTION
  | OperatorTargetKind.AXLE_COUNTER_SYSTEM => Some proto.OperatorTargetKind.AXLE_COUNTER_SYSTEM
  | OperatorTargetKind.STATION => Some proto.OperatorTargetKind.STATION
  | OperatorTargetKind.ROUTE => Some proto.OperatorTargetKind.ROUTE
  | OperatorTargetKind.LEVEL_CROSSING => Some proto.OperatorTargetKind.LEVEL_CROSSING
  | OperatorTargetKind.INTERLOCKING_COMPUTER => Some proto.OperatorTargetKind.INTERLOCKING_COMPUTER
  | OperatorTargetKind.POWER_SUPPLY => Some proto.OperatorTargetKind.POWER_SUPPLY
  | OperatorTargetKind.Unnamed _ => None
  end.
Definition operator_code_on_wire (x : OperatorCommandCode.t) : option proto.OperatorCommandCode.t :=
  match x with
  | OperatorCommandCode.SES => Some proto.OperatorCommandCode.SES
  | OperatorCommandCode.SEO => Some proto.OperatorCommandCode.SEO
  | OperatorCommandCode.SZI => Some proto.OperatorCommandCode.SZI
  | OperatorCommandCode.SZW => Some proto.OperatorCommandCode.SZW
  | OperatorCommandCode.SZN => Some proto.OperatorCommandCode.SZN
  | OperatorCommandCode.SZO => Some proto.OperatorCommandCode.SZO
  | OperatorCommandCode.SAM => Some proto.OperatorCommandCode.SAM
  | OperatorCommandCode.SAW => Some proto.OperatorCommandCode.SAW
  | OperatorCommandCode.ZWP => Some proto.OperatorCommandCode.ZWP
  | OperatorCommandCode.ZWM => Some proto.OperatorCommandCode.ZWM
  | OperatorCommandCode.ZWS => Some proto.OperatorCommandCode.ZWS
  | OperatorCommandCode.ZWO => Some proto.OperatorCommandCode.ZWO
  | OperatorCommandCode.ITS => Some proto.OperatorCommandCode.ITS
  | OperatorCommandCode.ITO => Some proto.OperatorCommandCode.ITO
  | OperatorCommandCode.ZWB => Some proto.OperatorCommandCode.ZWB
  | OperatorCommandCode.ZBP => Some proto.OperatorCommandCode.ZBP
  | OperatorCommandCode.ZBM => Some proto.OperatorCommandCode.ZBM
  | OperatorCommandCode.ZRI => Some proto.OperatorCommandCode.ZRI
  | OperatorCommandCode.ZRK => Some proto.OperatorCommandCode.ZRK
  | OperatorCommandCode.OPS => Some proto.OperatorCommandCode.OPS
  | OperatorCommandCode.SLI => Some proto.OperatorCommandCode.SLI
  | OperatorCommandCode.SLK => Some proto.OperatorCommandCode.SLK
  | OperatorCommandCode.BLW => Some proto.OperatorCommandCode.BLW
  | OperatorCommandCode.BLP => Some proto.OperatorCommandCode.BLP
  | OperatorCommandCode.BLO => Some proto.OperatorCommandCode.BLO
  | OperatorCommandCode.BLZ => Some proto.OperatorCommandCode.BLZ
  | OperatorCommandCode.BLAI => Some proto.OperatorCommandCode.BLAI
  | OperatorCommandCode.BLA => Some proto.OperatorCommandCode.BLA
  | OperatorCommandCode.BLS => Some proto.OperatorCommandCode.BLS
  | OperatorCommandCode.OST => Some proto.OperatorCommandCode.OST
  | OperatorCommandCode.ZKB => Some proto.OperatorCommandCode.ZKB
  | OperatorCommandCode.PZM => Some proto.OperatorCommandCode.PZM
  | OperatorCommandCode.OZK => Some proto.OperatorCommandCode.OZK
  | OperatorCommandCode.ZESI => Some proto.OperatorCommandCode.ZESI
  | OperatorCommandCode.ZES => Some proto.OperatorCommandCode.ZES
  | OperatorCommandCode.PZZI => Some proto.OperatorCommandCode.PZZI
  | OperatorCommandCode.PZZ => Some proto.OperatorCommandCode.PZZ
  | OperatorCommandCode.POZ => Some proto.OperatorCommandCode.POZ
  | OperatorCommandCode.DPOI => Some proto.OperatorCommandCode.DPOI
  | OperatorCommandCode.DPO => Some proto.OperatorCommandCode.DPO
  | OperatorCommandCode.DKOI => Some proto.OperatorCommandCode.DKOI
  | OperatorCommandCode.DKO => Some proto.OperatorCommandCode.DKO
  | OperatorCommandCode.DKPI => Some proto.OperatorCommandCode.DKPI
  | OperatorCommandCode.DKP => Some proto.OperatorCommandCode.DKP
  | OperatorCommandCode.BPZ => Some proto.OperatorCommandCode.BPZ
  | OperatorCommandCode.DPWI => Some proto.OperatorCommandCode.DPWI
  | OperatorCommandCode.DPW => Some proto.OperatorCommandCode.DPW
  | OperatorCommandCode.BTW => Some proto.OperatorCommandCode.BTW
  | OperatorCommandCode.BTO => Some proto.OperatorCommandCode.BTO
  | OperatorCommandCode.BPO => Some proto.OperatorCommandCode.BPO
  | OperatorCommandCode.BKO => Some proto.OperatorCommandCode.BKO
  | OperatorCommandCode.PDZ => Some proto.OperatorCommandCode.PDZ
  | OperatorCommandCode.PDO => Some proto.OperatorCommandCode.PDO
  | OperatorCommandCode.PZT => Some proto.OperatorCommandCode.PZT
  | OperatorCommandCode.PAZ => Some proto.OperatorCommandCode.PAZ
  | OperatorCommandCode.PZO => Some proto.OperatorCommandCode.PZO
  | OperatorCommandCode.PDII => Some proto.OperatorCommandCode.PDII
  | OperatorCommandCode.PDI => Some proto.OperatorCommandCode.PDI
  | OperatorCommandCode.MRS => Some proto.OperatorCommandCode.MRS
  | OperatorCommandCode.ODS => Some proto.OperatorCommandCode.ODS
  | OperatorCommandCode.ZAL => Some proto.OperatorCommandCode.ZAL
  | OperatorCommandCode.POC => Some proto.OperatorCommandCode.POC
  | OperatorCommandCode.PZA => Some proto.OperatorCommandCode.PZA
  | OperatorCommandCode.PZAI => Some proto.OperatorCommandCode.PZAI
  | OperatorCommandCode.PZW => Some proto.OperatorCommandCode.PZW
  | OperatorCommandCode.SSO => Some proto.OperatorCommandCode.SSO
  | OperatorCommandCode.SSS => Some proto.OperatorCommandCode.SSS
  | OperatorCommandCode.UPAI => Some proto.OperatorCommandCode.UPAI
  | OperatorCommandCode.UPA => Some proto.OperatorCommandCode.UPA
  | OperatorCommandCode.UPAO => Some proto.OperatorCommandCode.UPAO
  | OperatorCommandCode.UPN => Some proto.OperatorCommandCode.UPN
  | OperatorCommandCode.UPO => Some proto.OperatorCommandCode.UPO
  | OperatorCommandCode.ZSO => Some proto.OperatorCommandCode.ZSO
  | OperatorCommandCode.ZSS => Some proto.OperatorCommandCode.ZSS
  | OperatorCommandCode.Unnamed _ => None
  end.
Definition ml8_code_on_wire (x : Ml8CommandCode.t) : option proto.Ml8CommandCode.t :=
  match x with
  | Ml8CommandCode.AK => Some proto.Ml8CommandCode.AK
  | Ml8CommandCode.AZK => Some proto.Ml8CommandCode.AZK
  | Ml8CommandCode.BLZ => Some proto.Ml8CommandCode.BLZ
  | Ml8CommandCode.BLZC => Some proto.Ml8CommandCode.BLZC
  | Ml8CommandCode.DOP => Some proto.Ml8CommandCode.DOP
  | Ml8CommandCode.DOPS => Some proto.Ml8CommandCode.DOPS
  | Ml8CommandCode.DPZ => Some proto.Ml8CommandCode.DPZ
  | Ml8CommandCode.HMI => Some proto.Ml8CommandCode.HMI
  | Ml8CommandCode.KRA => Some proto.Ml8CommandCode.KRA
  | Ml8CommandCode.KSR => Some proto.Ml8CommandCode.KSR
  | Ml8CommandCode.LKA => Some proto.Ml8CommandCode.LKA
  | Ml8CommandCode.LOFF => Some proto.Ml8CommandCode.LOFF
  | Ml8CommandCode.MAN => Some proto.Ml8CommandCode.MAN
  | Ml8CommandCode.NPU => Some proto.Ml8CommandCode.NPU
  | Ml8CommandCode.NPW => Some proto.Ml8CommandCode.NPW
  | Ml8CommandCode.NPZ => Some proto.Ml8CommandCode.NPZ
  | Ml8CommandCode.OGI => Some proto.Ml8CommandCode.OGI
  | Ml8CommandCode.OP => Some proto.Ml8CommandCode.OP
  | Ml8CommandCode.OPO => Some proto.Ml8CommandCode.OPO
  | Ml8CommandCode.OSTOP => Some proto.Ml8CommandCode.OSTOP
  | Ml8CommandCode.OTB => Some proto.Ml8CommandCode.OTB
  | Ml8CommandCode.OTE => Some proto.Ml8CommandCode.OTE
  | Ml8CommandCode.OTEYYY => Some proto.Ml8CommandCode.OTEYYY
  | Ml8CommandCode.OTP => Some proto.Ml8CommandCode.OTP
  | Ml8CommandCode.OTPON => Some proto.Ml8CommandCode.OTPON
  | Ml8CommandCode.OT => Some proto.Ml8CommandCode.OT
  | Ml8CommandCode.OTZ => Some proto.Ml8CommandCode.OTZ
  | Ml8CommandCode.OUZ => Some proto.Ml8CommandCode.OUZ
  | Ml8CommandCode.OUZ_DR => Some proto.Ml8CommandCode.OUZ_DR
  | Ml8CommandCode.OUZ_DZ => Some proto.Ml8CommandCode.OUZ_DZ
  | Ml8CommandCode.OUZ_JN => Some proto.Ml8CommandCode.OUZ_JN
  | Ml8CommandCode.OUZ_PJ => Some proto.Ml8CommandCode.OUZ_PJ
  | Ml8CommandCode.OUZ_X => Some proto.Ml8CommandCode.OUZ_X
  | Ml8CommandCode.OUZ_ZN => Some proto.Ml8CommandCode.OUZ_ZN
  | Ml8CommandCode.OWBL => Some proto.Ml8CommandCode.OWBL
  | Ml8CommandCode.OZCZ => Some proto.Ml8CommandCode.OZCZ
  | Ml8CommandCode.P => Some proto.Ml8CommandCode.P
  | Ml8CommandCode.POC => Some proto.Ml8CommandCode.POC
  | Ml8CommandCode.POT => Some proto.Ml8CommandCode.POT
  | Ml8CommandCode.PZK => Some proto.Ml8CommandCode.PZK
  | Ml8CommandCode.PPN => Some proto.Ml8CommandCode.PPN
  | Ml8CommandCode.PPZ => Some proto.Ml8CommandCode.PPZ
  | Ml8CommandCode.PZ => Some proto.Ml8CommandCode.PZ
  | Ml8CommandCode.PZB => Some proto.Ml8CommandCode.PZB
  | Ml8CommandCode.PZS => Some proto.Ml8CommandCode.PZS
  | Ml8CommandCode.SPEC => Some proto.Ml8CommandCode.SPEC
  | Ml8CommandCode.STJ => Some proto.Ml8CommandCode.STJ
  | Ml8CommandCode.STOJ => Some proto.Ml8CommandCode.STOJ
  | Ml8CommandCode.STOP => Some proto.Ml8CommandCode.STOP
  | Ml8CommandCode.SZ => Some proto.Ml8CommandCode.SZ
  | Ml8CommandCode.NSZ => Some proto.Ml8CommandCode.NSZ
  | Ml8CommandCode.WBL => Some proto.Ml8CommandCode.WBL
  | Ml8CommandCode.WPN => Some proto.Ml8CommandCode.WPN
  | Ml8CommandCode.WPZ => Some proto.Ml8CommandCode.WPZ
  | Ml8CommandCode.WZ => Some proto.Ml8CommandCode.WZ
  | Ml8CommandCode.ZCZ => Some proto.Ml8CommandCode.ZCZ
  | Ml8CommandCode.ZDM => Some proto.Ml8CommandCode.ZDM
  | Ml8CommandCode.ZDP => Some proto.Ml8CommandCode.ZDP
  | Ml8CommandCode.ZEROLO => Some proto.Ml8CommandCode.ZEROLO
  | Ml8CommandCode.ZI => Some proto.Ml8CommandCode.ZI
  | Ml8CommandCode.ZO => Some proto.Ml8CommandCode.ZO
  | Ml8CommandCode.ZPO => Some proto.Ml8CommandCode.ZPO
  | Ml8CommandCode.ZW => Some proto.Ml8CommandCode.ZW
  | Ml8CommandCode.ZWBL => Some proto.Ml8CommandCode.ZWBL
  | Ml8CommandCode.Z => Some proto.Ml8CommandCode.Z
  | Ml8CommandCode.Z_DR => Some proto.Ml8CommandCode.Z_DR
  | Ml8CommandCode.Z_DZ => Some proto.Ml8CommandCode.Z_DZ
  | Ml8CommandCode.Z_JN => Some proto.Ml8CommandCode.Z_JN
  | Ml8CommandCode.Z_PJ => Some proto.Ml8CommandCode.Z_PJ
  | Ml8CommandCode.Z_X => Some proto.Ml8CommandCode.Z_X
  | Ml8CommandCode.Z_ZN => Some proto.Ml8CommandCode.Z_ZN
  | Ml8CommandCode.Unnamed _ => None
  end.
Definition switch_position_on_wire (x : SwitchPosition.t) : option proto.SwitchPosition.t :=
  match x with
  | SwitchPosition.STRAIGHT => Some proto.SwitchPosition.STRAIGHT
  | SwitchPosition.DIVERGENT => Some proto.SwitchPosition.DIVERGENT
  | SwitchPosition.MOVING => Some proto.SwitchPosition.MOVING
  | SwitchPosition.TRAILED_DAMAGED => None
  end.

(** The numbers of the wire's enumerations are the engine's.  Aspects,
    block directions, causes, SHL-12 operations, kinds of targets and the codes
    of both consoles have the same number as the enumerator of the same name on
    the other side, so the casts between them keep the meaning, and the reasons
    of a refusal are those the interlocking gives.  The values without a name have no
    counterpart, nor has the engine's trailed switch: its number names no position on the wire. *)
Theorem engine_enums_match :
  (forall x, match aspect_on_wire x with Some y => code y = code x | None => exists n, x = SignalAspect.Unnamed n end) /\
  (forall x, code (block_direction_on_wire x) = code x) /\
  (forall x, code (change_cause_on_wire x) = code x) /\
  (forall x, match shl12_op_on_wire x with Some y => code y = code x | None => exists n, x = Shl12Op.Unnamed n end) /\
  (forall x, match target_kind_on_wire x with Some y => code y = code x | None => exists n, x = OperatorTargetKind.Unnamed n end) /\
  (forall x, match operator_code_on_wire x with Some y => code y = code x | None => exists n, x = OperatorCommandCode.Unnamed n end) /\
  (forall x, match ml8_code_on_wire x with Some y => code y = code x | None => exists n, x = Ml8CommandCode.Unnamed n end) /\
  code <$> proto.EnumValuesNakReason =
    [NAK_UNSPECIFIED; NAK_NOT_FOUND; NAK_SAFETY_BLOCK; NAK_INVALID_STATE; NAK_ROUTE_LOCKED;
     NAK_NO_PATH; NAK_SWITCH_MOVING; NAK_UNSUPPORTED; NAK_UNAUTHORIZED; NAK_SESSION_PAUSED] /\
  (forall x, match switch_position_on_wire x with
             | Some y => code y = code x
             | None => x = SwitchPosition.TRAILED_DAMAGED /\ of_code (T :=
                 proto.SwitchPosition.t) (code x) = None /\
                       proto.EnumNameSwitchPosition (code x) = ""%string
             end).
Proof. split_and!; try (by intros []); try (by intros []; first [reflexivity|eexists]); by vm_compute. Qed.
