(* ===== verification/Wire.v ===== *)
(** * Wire: the commands on the generated messages

    [CommandIngress::parse_command] with its reader made of the generated code
    as the server uses it, and the client's side of it.  [verified] and
    [finished] are the ends of every buffer, shared by [WireSession],
    [WireEvents] and [WireDispatch].  Theorem: what a client builds arrives as
    the command, and nothing else arrives as one. *)
From S2P Require Import Prelude Types Commands Frame Ingress Flat FlatTree ProtoCommon ProtoCommands Protocol.
Import CommandIngress.
Local Open Scope Z_scope.

(** A buffer that [VerifyBuffer] accepts, as its root table. *)
(* SRC server/src/command_ingress.cpp 99-101 CommandIngress::parse_command *)
Definition verified {F : FlatBuffers} (k : Table.t) (buf : list byte) : option Obj :=
  ok ← VerifyBuffer (msg_Verify (message k)) buf; if ok : bool then Some (GetRoot buf) else None.

(** The buffer of a finished table; a failed assertion gives none. *)
(* SRC server/src/dispatch_bus.cpp 134-134 DispatchBus::make_event_frame *)
Definition finished {F : FlatBuffers} (o : option Obj) : list byte := from_option Finish [] o.

Lemma verified_finished {F : FlatBuffers} {FO : FlatBuffersOk F} k o m :
  carries (message k) o m -> msg_tables (message k) m <= max_tables -> verified k (Finish o) = Some o.
Proof. intros Hc Ht. unfold verified. rewrite (carried_verifies k o m) by done. cbn. by rewrite root_built. Qed.

Lemma verified_unpacks {F : FlatBuffers} {FO : FlatBuffersOk F} k buf o :
  verified k buf = Some o -> o = GetRoot buf /\ is_Some (msg_UnPack (message k) o).
Proof.
  unfold verified. destruct (verified_readable k buf) as (b & -> & Hb). cbn. destruct b; [|done].
  intros [= <-]. split; [done|]. by apply Hb.
Qed.

(** [player_id()->str()] with the check for null before it. *)
(* SRC server/src/transport_gateway.cpp 132-138 ClientSession::handle_handshake *)
Definition text {F : FlatBuffers} (p : option Obj) : option (option string) :=
  match p with Some e => Some <$> str e | None => Some None end.

(** ** Commands *)

(** The table a command's body holds. *)
Definition cmd_message (k : CmdTable) : Table.t :=
  match k with
  | T_SetSwitchPosition => Table.SetSwitchPosition | T_SetSignalAspect => Table.SetSignalAspect
  | T_SetDerailerPosition => Table.SetDerailerPosition | T_SetBlockSection => Table.SetBlockSection
  | T_RequestRoute => Table.RequestRoute | T_CancelRoute => Table.CancelRoute
  | T_AcknowledgeAlarm => Table.AcknowledgeAlarm | T_SetBlockDirection => Table.SetBlockDirection
  | T_InitAxleCounterReset => Table.InitAxleCounterReset | T_ResetAxleCounter => Table.ResetAxleCounter
  | T_OperatorCommand => Table.OperatorCommand | T_Ml8Command => Table.Ml8Command
  end.

Section Commands.
Context {F : FlatBuffers}.

(** The fields the ingress reads of a verified table. *)
(* SRC server/src/command_ingress.cpp 87-223 parse_command *)
Definition command_fields (k : CmdTable) (msg : Obj) : option CmdFields :=
  match k with
  | T_SetSwitchPosition =>
      uid ← proto.SetSwitchPosition.uid msg; position ← proto.SetSwitchPosition.position msg;
      Some (mkCmdFields uid 0 position 0)
  | T_SetSignalAspect =>
      uid ← proto.SetSignalAspect.uid msg; aspect ← proto.SetSignalAspect.aspect msg;
      Some (mkCmdFields uid 0 aspect 0)
  | T_SetDerailerPosition =>
      uid ← proto.SetDerailerPosition.uid msg; position ← proto.SetDerailerPosition.position msg;
      Some (mkCmdFields uid 0 position 0)
  | T_SetBlockSection =>
      uid ← proto.SetBlockSection.uid msg; state ← proto.SetBlockSection.state msg;
      Some (mkCmdFields uid 0 state 0)
  | T_RequestRoute =>
      from ← proto.RequestRoute.from_signal_uid msg; to ← proto.RequestRoute.to_signal_uid msg;
      Some (mkCmdFields from to 0 0)
  | T_CancelRoute => uid ← proto.CancelRoute.route_uid msg; Some (mkCmdFields uid 0 0 0)
  | T_AcknowledgeAlarm => uid ← proto.AcknowledgeAlarm.alarm_uid msg; Some (mkCmdFields uid 0 0 0)
  | T_SetBlockDirection =>
      uid ← proto.SetBlockDirection.block_section_uid msg; op ← proto.SetBlockDirection.operation msg;
      Some (mkCmdFields uid 0 op 0)
  | T_InitAxleCounterReset =>
      uid ← proto.InitAxleCounterReset.block_section_uid msg; Some (mkCmdFields uid 0 0 0)
  | T_ResetAxleCounter =>
      uid ← proto.ResetAxleCounter.block_section_uid msg; Some (mkCmdFields uid 0 0 0)
  | T_OperatorCommand =>
      uid ← proto.OperatorCommand.target_uid msg; kind ← proto.OperatorCommand.target_kind msg;
      code ← proto.OperatorCommand.command_code msg; Some (mkCmdFields uid 0 kind code)
  | T_Ml8Command =>
      uid ← proto.Ml8Command.target_uid msg; kind ← proto.Ml8Command.target_kind msg;
      code ← proto.Ml8Command.command_code msg; Some (mkCmdFields uid 0 kind code)
  end.
#[global] Instance generated_reader : CommandReader | 0 := fun k fb_data =>
  msg ← verified (cmd_message k) fb_data; command_fields k msg.

(** What a client builds for a command. *)
Definition client_table (k : CmdTable) (f : CmdFields) : option Obj :=
  match k with
  | T_SetSwitchPosition => proto.CreateSetSwitchPosition (fl_uid f) (fl_enum f)
  | T_SetSignalAspect => proto.CreateSetSignalAspect (fl_uid f) (fl_enum f)
  | T_SetDerailerPosition => proto.CreateSetDerailerPosition (fl_uid f) (fl_enum f)
  | T_SetBlockSection => proto.CreateSetBlockSection (fl_uid f) (fl_enum f)
  | T_RequestRoute => proto.CreateRequestRoute (fl_uid f) (fl_uid2 f)
  | T_CancelRoute => proto.CreateCancelRoute (fl_uid f)
  | T_AcknowledgeAlarm => proto.CreateAcknowledgeAlarm (fl_uid f)
  | T_SetBlockDirection => proto.CreateSetBlockDirection (fl_uid f) (fl_enum f)
  | T_InitAxleCounterReset => proto.CreateInitAxleCounterReset (fl_uid f)
  | T_ResetAxleCounter => proto.CreateResetAxleCounter (fl_uid f)
  | T_OperatorCommand => proto.CreateOperatorCommand (fl_uid f) (fl_enum f) (fl_enum2 f)
  | T_Ml8Command => proto.CreateMl8Command (fl_uid f) (fl_enum f) (fl_enum2 f)
  end.
Definition client_payload (k : CmdTable) (f : CmdFields) : list byte :=
  cmd_type_of k :: finished (client_table k f).
End Commands.

(** The native struct of a command table, and its fields. *)
Definition native_command (k : CmdTable) (f : CmdFields) : native (cmd_message k) :=
  match k with
  | T_SetSwitchPosition => proto.SetSwitchPositionT.mk (fl_uid f) (fl_enum f)
  | T_SetSignalAspect => proto.SetSignalAspectT.mk (fl_uid f) (fl_enum f)
  | T_SetDerailerPosition => proto.SetDerailerPositionT.mk (fl_uid f) (fl_enum f)
  | T_SetBlockSection => proto.SetBlockSectionT.mk (fl_uid f) (fl_enum f)
  | T_RequestRoute => proto.RequestRouteT.mk (fl_uid f) (fl_uid2 f)
  | T_CancelRoute => proto.CancelRouteT.mk (fl_uid f)
  | T_AcknowledgeAlarm => proto.AcknowledgeAlarmT.mk (fl_uid f)
  | T_SetBlockDirection => proto.SetBlockDirectionT.mk (fl_uid f) (fl_enum f)
  | T_InitAxleCounterReset => proto.InitAxleCounterResetT.mk (fl_uid f)
  | T_ResetAxleCounter => proto.ResetAxleCounterT.mk (fl_uid f)
  | T_OperatorCommand => proto.OperatorCommandT.mk (fl_uid f) (fl_enum f) (fl_enum2 f)
  | T_Ml8Command => proto.Ml8CommandT.mk (fl_uid f) (fl_enum f) (fl_enum2 f)
  end.
Definition native_fields (k : CmdTable) : native (cmd_message k) -> CmdFields :=
  match k with
  | T_SetSwitchPosition => fun m => mkCmdFields (proto.SetSwitchPositionT.uid m) 0 (proto.SetSwitchPositionT.position m) 0
  | T_SetSignalAspect => fun m => mkCmdFields (proto.SetSignalAspectT.uid m) 0 (proto.SetSignalAspectT.aspect m) 0
  | T_SetDerailerPosition => fun m =>
      mkCmdFields (proto.SetDerailerPositionT.uid m) 0 (proto.SetDerailerPositionT.position m) 0
  | T_SetBlockSection => fun m => mkCmdFields (proto.SetBlockSectionT.uid m) 0 (proto.SetBlockSectionT.state m) 0
  | T_RequestRoute => fun m =>
      mkCmdFields (proto.RequestRouteT.from_signal_uid m) (proto.RequestRouteT.to_signal_uid m) 0 0
  | T_CancelRoute => fun m => mkCmdFields (proto.CancelRouteT.route_uid m) 0 0 0
  | T_AcknowledgeAlarm => fun m => mkCmdFields (proto.AcknowledgeAlarmT.alarm_uid m) 0 0 0
  | T_SetBlockDirection => fun m =>
      mkCmdFields (proto.SetBlockDirectionT.block_section_uid m) 0 (proto.SetBlockDirectionT.operation m) 0
  | T_InitAxleCounterReset => fun m => mkCmdFields (proto.InitAxleCounterResetT.block_section_uid m) 0 0 0
  | T_ResetAxleCounter => fun m => mkCmdFields (proto.ResetAxleCounterT.block_section_uid m) 0 0 0
  | T_OperatorCommand => fun m =>
      mkCmdFields (proto.OperatorCommandT.target_uid m) 0 (proto.OperatorCommandT.target_kind m)
        (proto.OperatorCommandT.command_code m)
  | T_Ml8Command => fun m =>
      mkCmdFields (proto.Ml8CommandT.target_uid m) 0 (proto.Ml8CommandT.target_kind m)
        (proto.Ml8CommandT.command_code m)
  end.

Section CommandFacts.
Context {F : FlatBuffers} {FO : FlatBuffersOk F}.

(** The accessors give the fields of the unpacked struct. *)
Lemma command_fields_unpack k o :
  command_fields k o = native_fields k <$> msg_UnPack (message (cmd_message k)) o.
Proof.
  destruct k; cbn [command_fields native_fields message cmd_message].
  all: cbv beta iota delta [msg_UnPack
      proto.SetSwitchPosition_message proto.SetSwitchPosition_UnPack
      proto.SetSwitchPosition_UnPackTo proto.SetSignalAspect_message
      proto.SetSignalAspect_UnPack proto.SetSignalAspect_UnPackTo
      proto.SetDerailerPosition_message proto.SetDerailerPosition_UnPack
      proto.SetDerailerPosition_UnPackTo proto.SetBlockSection_message
      proto.SetBlockSection_UnPack proto.SetBlockSection_UnPackTo proto.RequestRoute_message
      proto.RequestRoute_UnPack proto.RequestRoute_UnPackTo proto.CancelRoute_message
      proto.CancelRoute_UnPack proto.CancelRoute_UnPackTo proto.AcknowledgeAlarm_message
      proto.AcknowledgeAlarm_UnPack proto.AcknowledgeAlarm_UnPackTo
      proto.SetBlockDirection_message proto.SetBlockDirection_UnPack
      proto.SetBlockDirection_UnPackTo proto.InitAxleCounterReset_message
      proto.InitAxleCounterReset_UnPack proto.InitAxleCounterReset_UnPackTo
      proto.ResetAxleCounter_message proto.ResetAxleCounter_UnPack
      proto.ResetAxleCounter_UnPackTo proto.OperatorCommand_message
      proto.OperatorCommand_UnPack proto.OperatorCommand_UnPackTo proto.Ml8Command_message
      proto.Ml8Command_UnPack proto.Ml8Command_UnPackTo].
  all: repeat match goal with |- context [mbind _ ?read] => destruct read; [|done]; cbn [mbind option_bind] end; done.
Qed.

(** A client's call builds what packing the native struct builds. *)
Lemma client_table_pack k f : client_table k f = msg_Pack (message (cmd_message k)) (native_command k f).
Proof. by destruct k. Qed.

(** Identifiers are 64-bit and enumerations 8-bit. *)
Definition fields_fit (f : CmdFields) : Prop :=
  in_range U64 (fl_uid f) = true /\ in_range U64 (fl_uid2 f) = true /\
  in_range I8 (fl_enum f) = true /\ in_range I8 (fl_enum2 f) = true.

Lemma native_command_fits k f : fields_fit f -> msg_fits (message (cmd_message k)) (native_command k f).
Proof. intros (? & ? & ? & ?). destruct k; cbn; red; cbn; tauto. Qed.

Lemma i8_in_range z : in_range I8 (i8 z) = true.
Proof. pose proof (i8_range z). unfold in_range. apply andb_true_iff. rewrite Z.leb_le, Z.ltb_lt. cbn. lia. Qed.

(** The fields a command does not have are zero, and its enumerations fit. *)
Lemma table_for_fit c k f :
  table_for c = Some (k, f) -> in_range U64 (fl_uid f) = true -> in_range U64 (fl_uid2 f) = true ->
  fields_fit f /\ native_fields k (native_command k f) = f.
Proof.
  intros E H1 H2. unfold fields_fit.
  destruct c as [[u p]|[u a]|[u p]|[u st]|[u v]|[u fo]|[u]|[u op]|[u]|[u]|[u kind co]|[u kind co]];
    unfold table_for in E; cbn [ssp_position cr_force] in E.
  all: repeat case_match; simplify_eq; cbn [fl_uid fl_uid2 fl_enum fl_enum2] in *; split_and!; try done.
  all: try apply i8_in_range; by case_bool_decide.
Qed.

(** C19: a client's command arrives as it was meant, through the generated
    code of both sides.  For each command the wire can express, the table the
    client builds with the generated functions passes the server's verifier and
    parses to that command, unless an identifier is zero, which is refused.
    Whatever bytes a client sends instead, they are refused or read without
    leaving the buffer; and whatever parses is a command the wire can express, the one of the
    verified table behind the byte of its kind, with no identifier zero.  A byte that names no
    value of an enumeration is among what the wire can express. *)
Theorem wire_commands c :
  (forall k f, table_for c = Some (k, f) -> in_range U64 (fl_uid f) = true -> in_range U64 (fl_uid2 f) = true ->
     parse_payload (client_payload k f) = if uid_missing k f then None else Some c) /\
  (forall payload, parse_payload payload = Some c ->
     exists k f body fields, table_for c = Some (k, f) /\ payload = cmd_type_of k :: body /\
       VerifyBuffer (msg_Verify (message (cmd_message k))) body = Some true /\
       command_fields k (GetRoot body) = Some fields /\ uid_missing k fields = false /\ command_of k fields = c) /\
  (forall k body, exists b, VerifyBuffer (msg_Verify (message (cmd_message k))) body = Some b /\
     (b = true <-> is_Some (read_table k body))).
Proof.
  assert (forall k body, read_table k body =
    native_fields k <$> (msg ← verified (cmd_message k) body; msg_UnPack (message (cmd_message k)) msg)) as Hread.
  { intros k body. unfold read_table, generated_reader. destruct (verified (cmd_message k) body) as [o|]; [|done].
    cbn. apply command_fields_unpack. }
  split_and!.
  - intros k f E H1 H2. destruct (table_for_fit c k f E H1 H2) as [Hfit Hf].
    destruct (packed_carried (cmd_message k) (native_command k f) (native_command_fits k f Hfit)) as (o & Ep & Hc).
    unfold client_payload, parse_payload, parse_command. rewrite table_of_cmd_type. cbn [mbind option_bind].
    rewrite client_table_pack, Ep, Hread. cbn [finished from_option].
    rewrite (verified_finished _ _ _ Hc) by (destruct k; vm_compute; discriminate). cbn [mbind option_bind].
    rewrite (proj1 Hc). cbn [fmap option_fmap option_map mbind option_bind]. rewrite Hf.
    by rewrite (command_of_table c k f E).
  - intros payload E. destruct (parse_payload_inv payload _ E) as (k & f & body & -> & Hr & Hu & Hc).
    destruct (command_of_expressible k f) as [f' Hf']. rewrite Hc in Hf'. exists k, f', body, f.
    split; [done|]. split; [done|]. unfold read_table, generated_reader, verified in Hr.
    destruct (verified_readable (cmd_message k) body) as (b & Eb & _). rewrite Eb in *. by destruct b.
  - intros k body. destruct (verified_readable (cmd_message k) body) as (b & Eb & Hb). exists b. split; [done|].
    rewrite Hread. unfold verified. rewrite Eb. cbn. destruct b; cbn.
    + split; [|done]. intros _. destruct (Hb eq_refl) as [_ [m ->]]. by eexists.
    + split; [done|]. by intros [? ?].
Qed.
End CommandFacts.

Lemma wire_commands_witness :
  let route := CRequestRoute (mkRequestRouteCmd (mkUID 17) (mkUID 18)) in
  parse_payload (client_payload T_RequestRoute (mkCmdFields 17 18 0 0)) = Some route.
Proof. intros route. destruct (wire_commands route) as (H & _). by rewrite (H T_RequestRoute (mkCmdFields 17 18 0 0)). Defined.
