(* ===== verification/WireSession.v ===== *)
(** * WireSession: sessions and snapshots on the generated messages

    The answers of [ClientSession] and the tables of
    [SnapshotService::serialize], laid out by the generated builders: the
    instance [generated_session] of [SessionWire].  Theorems: handshakes are
    read and answers read back; a snapshot unpacks at the client to the message
    that [Snapshot] fills in from the world. *)
From S2P Require Import Prelude Float32 Types Commands Track World Frame Ingress Snapshot Session.
From S2P Require Import Flat FlatTree ProtoCommon ProtoCommands ProtoSession ProtoSnapshot Protocol Wire.
Local Open Scope Z_scope.

(** ** Sessions *)

Section Sessions.
Context {F : FlatBuffers}.

(* SRC server/src/transport_gateway.cpp 126-140 ClientSession::handle_handshake *)
Definition parse_handshake (payload : list byte) : option (option string * option string) :=
  hs ← verified Table.Handshake payload;
  player_id ← (p ← proto.Handshake.player_id hs; text p);
  auth_token ← (p ← proto.Handshake.auth_token hs; text p);
  Some (player_id, auth_token).
(* SRC server/src/transport_gateway.cpp 144-150 ClientSession::handle_handshake *)
Definition handshake_ack (session_id : string) (server_tick_hz server_time_us : Z) : option Obj :=
  let sid_off := Some (CreateString session_id) in
  proto.CreateHandshakeAck sid_off server_tick_hz None server_time_us.
(* SRC server/src/transport_gateway.cpp 207-211 ClientSession::handle_command *)
Definition command_ack (seq_id : Z) : option Obj := proto.CreateCommandAck seq_id 0.
(* SRC server/src/session_server.cpp 292-299 SessionServer::make_nak_frame *)
Definition command_nak (seq_id reason : Z) (reason_text : string) : option Obj :=
  let text_off := Some (CreateString reason_text) in
  proto.CreateCommandNak seq_id reason text_off.
(* SRC server/src/transport_gateway.cpp 214-220 ClientSession::handle_heartbeat *)
Definition heartbeat_ack (seq_id now : Z) : option Obj := proto.CreateHeartbeatAck seq_id now.

(* SRC engine/src/snapshot_service.cpp 82-88 SnapshotService::serialize *)
Definition switch_table (m : SwitchMsg) : option Obj :=
  let sb := [] in
  let sb := proto.SwitchStateBuilder.add_uid sb (swm_uid m) in
  let sb := proto.SwitchStateBuilder.add_position sb (swm_position m) in
  let sb := proto.SwitchStateBuilder.add_occupied sb (swm_occupied m) in
  let sb := proto.SwitchStateBuilder.add_axle_count sb (swm_axle_count m) in
  let sb := proto.SwitchStateBuilder.add_locked_by_route sb (swm_locked_by_route m) in
  proto.SwitchStateBuilder.Finish sb.
(** The train of a section no train stands on is not written; it is 0 in the
    message, the default of the field. *)
(* SRC engine/src/snapshot_service.cpp 104-110 SnapshotService::serialize *)
Definition track_section_table (m : TrackSectionMsg) : option Obj :=
  let tb := [] in
  let tb := proto.TrackSectionStateBuilder.add_uid tb (tsm_uid m) in
  let tb := proto.TrackSectionStateBuilder.add_occupied tb (tsm_occupied m) in
  let tb := proto.TrackSectionStateBuilder.add_axle_count tb (tsm_axle_count m) in
  let tb := if tsm_train_uid m =? 0 then tb
            else proto.TrackSectionStateBuilder.add_train_uid tb (tsm_train_uid m) in
  proto.TrackSectionStateBuilder.Finish tb.
(* SRC engine/src/snapshot_service.cpp 119-122 SnapshotService::serialize *)
Definition signal_table (m : SignalMsg) : option Obj :=
  let sigb := [] in
  let sigb := proto.SignalStateBuilder.add_uid sigb (sgm_uid m) in
  let sigb := proto.SignalStateBuilder.add_aspect sigb (sgm_aspect m) in
  proto.SignalStateBuilder.Finish sigb.
(* SRC engine/src/snapshot_service.cpp 131-134 SnapshotService::serialize *)
Definition derailer_table (m : DerailerMsg) : option Obj :=
  let db := [] in
  let db := proto.DerailerStateBuilder.add_uid db (drm_uid m) in
  let db := proto.DerailerStateBuilder.add_position db (drm_position m) in
  proto.DerailerStateBuilder.Finish db.
(* SRC engine/src/snapshot_service.cpp 143-147 SnapshotService::serialize *)
Definition block_section_table (m : BlockSectionMsg) : option Obj :=
  let bsb := [] in
  let bsb := proto.BlockSectionSnapshotStateBuilder.add_uid bsb (bsm_uid m) in
  let bsb := proto.BlockSectionSnapshotStateBuilder.add_state bsb (bsm_state m) in
  let bsb := proto.BlockSectionSnapshotStateBuilder.add_block_direction bsb (bsm_block_direction m) in
  proto.BlockSectionSnapshotStateBuilder.Finish bsb.
(* SRC engine/src/snapshot_service.cpp 156-167 SnapshotService::serialize *)
Definition route_table (m : RouteMsg) : option Obj :=
  let secs_off := Some (CreateVector U64 (rtm_section_uids m)) in
  let rb := [] in
  let rb := proto.RouteStateBuilder.add_uid rb (rtm_uid m) in
  let rb := proto.RouteStateBuilder.add_from_signal_uid rb (rtm_from_signal_uid m) in
  let rb := proto.RouteStateBuilder.add_to_signal_uid rb (rtm_to_signal_uid m) in
  let rb := proto.RouteStateBuilder.add_section_uids rb secs_off in
  proto.RouteStateBuilder.Finish rb.
(* SRC engine/src/snapshot_service.cpp 176-182 SnapshotService::serialize *)
Definition alarm_table (m : AlarmMsg) : option Obj :=
  let msg_off := Some (CreateString (alm_message m)) in
  let ab := [] in
  let ab := proto.AlarmStateBuilder.add_uid ab (alm_uid m) in
  let ab := proto.AlarmStateBuilder.add_alarm_type ab (alm_alarm_type m) in
  let ab := proto.AlarmStateBuilder.add_object_uid ab (alm_object_uid m) in
  let ab := proto.AlarmStateBuilder.add_message ab msg_off in
  proto.AlarmStateBuilder.Finish ab.
(* SRC engine/src/snapshot_service.cpp 191-204 SnapshotService::serialize *)
Definition train_table (m : TrainMsg) : option Obj :=
  let veh_off := Some (CreateVector U64 (trm_vehicle_uids m)) in
  let trb := [] in
  let trb := proto.TrainStateBuilder.add_uid trb (trm_uid m) in
  let trb := proto.TrainStateBuilder.add_vehicle_uids trb veh_off in
  let trb := proto.TrainStateBuilder.add_section_uid trb (trm_section_uid m) in
  let trb := proto.TrainStateBuilder.add_speed_kmh trb (trm_speed_kmh m) in
  let trb := proto.TrainStateBuilder.add_total_length_m trb (trm_total_length_m m) in
  let trb := proto.TrainStateBuilder.add_total_axles trb (trm_total_axles m) in
  proto.TrainStateBuilder.Finish trb.
(* SRC engine/src/snapshot_service.cpp 73-225 SnapshotService::serialize *)
Definition snapshot_table (m : SnapshotMsg) : option Obj :=
  switch_offsets ← mapM switch_table (snm_switches m);
  ts_offsets ← mapM track_section_table (snm_track_sections m);
  sig_offsets ← mapM signal_table (snm_signals m);
  der_offsets ← mapM derailer_table (snm_derailers m);
  bs_offsets ← mapM block_section_table (snm_block_sections m);
  route_offsets ← mapM route_table (snm_active_routes m);
  alarm_offsets ← mapM alarm_table (snm_active_alarms m);
  train_offsets ← mapM train_table (snm_trains m);
  let session_off := Some (CreateString (snm_session_id m)) in
  let sb := [] in
  let sb := proto.SnapshotBuilder.add_schema_version sb (snm_schema_version m) in
  let sb := proto.SnapshotBuilder.add_session_id sb session_off in
  let sb := proto.SnapshotBuilder.add_seq_cursor sb (snm_seq_cursor m) in
  let sb := proto.SnapshotBuilder.add_switches sb (Some (CreateVectorOfOffsets switch_offsets)) in
  let sb := proto.SnapshotBuilder.add_track_sections sb (Some (CreateVectorOfOffsets ts_offsets)) in
  let sb := proto.SnapshotBuilder.add_signals sb (Some (CreateVectorOfOffsets sig_offsets)) in
  let sb := proto.SnapshotBuilder.add_derailers sb (Some (CreateVectorOfOffsets der_offsets)) in
  let sb := proto.SnapshotBuilder.add_block_sections sb (Some (CreateVectorOfOffsets bs_offsets)) in
  let sb := proto.SnapshotBuilder.add_active_routes sb (Some (CreateVectorOfOffsets route_offsets)) in
  let sb := proto.SnapshotBuilder.add_active_alarms sb (Some (CreateVectorOfOffsets alarm_offsets)) in
  let sb := proto.SnapshotBuilder.add_trains sb (Some (CreateVectorOfOffsets train_offsets)) in
  proto.SnapshotBuilder.Finish sb.

#[global] Instance generated_session : SessionWire | 0 := {|
  read_Handshake := parse_handshake;
  build_HandshakeAck sid hz time := finished (handshake_ack sid hz time);
  build_CommandAck seq := finished (command_ack seq);
  build_CommandNak seq reason reason_text := finished (command_nak seq reason reason_text);
  build_HeartbeatAck seq now := finished (heartbeat_ack seq now);
  build_Snapshot m := finished (snapshot_table m) |}.
End Sessions.

(** *** What the client reads *)

(** The native structs of the messages: the service leaves the train of a
    switch, the operator states, the time, the assignments and the direction
    of a train at their defaults. *)
Definition native_switch (m : SwitchMsg) : proto.SwitchStateT.t :=
  proto.SwitchStateT.mk (swm_uid m) (swm_position m) (swm_occupied m) (swm_axle_count m) 0 (swm_locked_by_route m) None.
Definition native_track_section (m : TrackSectionMsg) : proto.TrackSectionStateT.t :=
  proto.TrackSectionStateT.mk (tsm_uid m) (tsm_occupied m) (tsm_axle_count m) (tsm_train_uid m) None.
Definition native_signal (m : SignalMsg) : proto.SignalStateT.t := proto.SignalStateT.mk (sgm_uid m) (sgm_aspect m) None.
Definition native_derailer (m : DerailerMsg) : proto.DerailerStateT.t :=
  proto.DerailerStateT.mk (drm_uid m) (drm_position m) None.
Definition native_block_section (m : BlockSectionMsg) : proto.BlockSectionSnapshotStateT.t :=
  proto.BlockSectionSnapshotStateT.mk (bsm_uid m) (bsm_state m) (bsm_block_direction m) None.
Definition native_route (m : RouteMsg) : proto.RouteStateT.t :=
  proto.RouteStateT.mk (rtm_uid m) (rtm_from_signal_uid m) (rtm_to_signal_uid m) (rtm_section_uids m).
Definition native_alarm (m : AlarmMsg) : proto.AlarmStateT.t :=
  proto.AlarmStateT.mk (alm_uid m) (alm_alarm_type m) (alm_object_uid m) (alm_message m).
Definition native_train (m : TrainMsg) : proto.TrainStateT.t :=
  proto.TrainStateT.mk (trm_uid m) (trm_vehicle_uids m) (trm_section_uid m) 0 (trm_speed_kmh m)
    (trm_total_length_m m) (trm_total_axles m).
Definition native_snapshot (m : SnapshotMsg) : proto.SnapshotT.t :=
  proto.SnapshotT.mk (snm_schema_version m) (snm_session_id m) (snm_seq_cursor m) 0
    (native_switch <$> snm_switches m) (native_track_section <$> snm_track_sections m)
    (native_signal <$> snm_signals m) (native_derailer <$> snm_derailers m)
    (native_block_section <$> snm_block_sections m) (native_route <$> snm_active_routes m)
    (native_alarm <$> snm_active_alarms m) [] (native_train <$> snm_trains m).

(** The native structs as a client reads them, with the fields that the server writes. *)
Definition client_switch (m : proto.SwitchStateT.t) : SwitchMsg :=
  mkSwitchMsg (proto.SwitchStateT.uid m) (proto.SwitchStateT.position m) (proto.SwitchStateT.occupied m)
    (proto.SwitchStateT.axle_count m) (proto.SwitchStateT.locked_by_route m).
Definition client_track_section (m : proto.TrackSectionStateT.t) : TrackSectionMsg :=
  mkTrackSectionMsg (proto.TrackSectionStateT.uid m) (proto.TrackSectionStateT.occupied m)
    (proto.TrackSectionStateT.axle_count m) (proto.TrackSectionStateT.train_uid m).
Definition client_signal (m : proto.SignalStateT.t) : SignalMsg :=
  mkSignalMsg (proto.SignalStateT.uid m) (proto.SignalStateT.aspect m).
Definition client_derailer (m : proto.DerailerStateT.t) : DerailerMsg :=
  mkDerailerMsg (proto.DerailerStateT.uid m) (proto.DerailerStateT.position m).
Definition client_block_section (m : proto.BlockSectionSnapshotStateT.t) : BlockSectionMsg :=
  mkBlockSectionMsg (proto.BlockSectionSnapshotStateT.uid m) (proto.BlockSectionSnapshotStateT.state m)
    (proto.BlockSectionSnapshotStateT.block_direction m).
Definition client_route (m : proto.RouteStateT.t) : RouteMsg :=
  mkRouteMsg (proto.RouteStateT.uid m) (proto.RouteStateT.from_signal_uid m) (proto.RouteStateT.to_signal_uid m)
    (proto.RouteStateT.section_uids m).
Definition client_alarm (m : proto.AlarmStateT.t) : AlarmMsg :=
  mkAlarmMsg (proto.AlarmStateT.uid m) (proto.AlarmStateT.alarm_type m) (proto.AlarmStateT.object_uid m)
    (proto.AlarmStateT.message m).
Definition client_train (m : proto.TrainStateT.t) : TrainMsg :=
  mkTrainMsg (proto.TrainStateT.uid m) (proto.TrainStateT.vehicle_uids m) (proto.TrainStateT.section_uid m)
    (proto.TrainStateT.speed_kmh m) (proto.TrainStateT.total_length_m m) (proto.TrainStateT.total_axles m).
Definition client_snapshot (m : proto.SnapshotT.t) : SnapshotMsg := {|
  snm_schema_version := proto.SnapshotT.schema_version m; snm_session_id := proto.SnapshotT.session_id m;
  snm_seq_cursor := proto.SnapshotT.seq_cursor m;
  snm_switches := client_switch <$> proto.SnapshotT.switches m;
  snm_track_sections := client_track_section <$> proto.SnapshotT.track_sections m;
  snm_signals := client_signal <$> proto.SnapshotT.signals m;
  snm_derailers := client_derailer <$> proto.SnapshotT.derailers m;
  snm_block_sections := client_block_section <$> proto.SnapshotT.block_sections m;
  snm_active_routes := client_route <$> proto.SnapshotT.active_routes m;
  snm_active_alarms := client_alarm <$> proto.SnapshotT.active_alarms m;
  snm_trains := client_train <$> proto.SnapshotT.trains m |}.

Lemma map_back {A B} (f : A -> B) (g : B -> A) (l : list A) : (forall x, g (f x) = x) -> g <$> (f <$> l) = l.
Proof. intros H. induction l as [|x l IH]; [done|]. cbn. by rewrite H, IH. Qed.

Lemma client_native m : client_snapshot (native_snapshot m) = m.
Proof. destruct m. unfold client_snapshot, native_snapshot. cbn. f_equal; apply map_back; by intros []. Qed.

Section SnapshotFacts.
Context {F : FlatBuffers} {FO : FlatBuffersOk F}.

Lemma switch_carried m : proto.SwitchStateT.fits (native_switch m) ->
  exists o, switch_table m = Some o /\ carries proto.SwitchState_message o (native_switch m).
Proof.
  unfold carries, native_switch, switch_table. proto.unfold_SwitchState.
  intros Hfits. cbn in *. split_facts. solve_carries.
Qed.
Lemma track_section_carried m : proto.TrackSectionStateT.fits (native_track_section m) ->
  exists o, track_section_table m = Some o /\ carries proto.TrackSectionState_message o (native_track_section m).
Proof.
  unfold carries, native_track_section, track_section_table. proto.unfold_TrackSectionState.
  intros Hfits. cbn in *. split_facts. destruct (Z.eqb_spec (tsm_train_uid m) 0) as [E|_]; [rewrite E in *|]; solve_carries.
Qed.
Lemma signal_carried m : proto.SignalStateT.fits (native_signal m) ->
  exists o, signal_table m = Some o /\ carries proto.SignalState_message o (native_signal m).
Proof.
  unfold carries, native_signal, signal_table. proto.unfold_SignalState.
  intros Hfits. cbn in *. split_facts. solve_carries.
Qed.
Lemma derailer_carried m : proto.DerailerStateT.fits (native_derailer m) ->
  exists o, derailer_table m = Some o /\ carries proto.DerailerState_message o (native_derailer m).
Proof.
  unfold carries, native_derailer, derailer_table. proto.unfold_DerailerState.
  intros Hfits. cbn in *. split_facts. solve_carries.
Qed.
Lemma block_section_carried m : proto.BlockSectionSnapshotStateT.fits (native_block_section m) ->
  exists o, block_section_table m = Some o /\ carries proto.BlockSectionSnapshotState_message o (native_block_section m).
Proof.
  unfold carries, native_block_section, block_section_table. proto.unfold_BlockSectionSnapshotState.
  intros Hfits. cbn in *. split_facts. solve_carries.
Qed.
Lemma route_carried m : proto.RouteStateT.fits (native_route m) ->
  exists o, route_table m = Some o /\ carries proto.RouteState_message o (native_route m).
Proof.
  unfold carries, native_route, route_table. proto.unfold_RouteState.
  intros Hfits. cbn in *. split_facts. solve_carries.
Qed.
Lemma alarm_carried m : proto.AlarmStateT.fits (native_alarm m) ->
  exists o, alarm_table m = Some o /\ carries proto.AlarmState_message o (native_alarm m).
Proof.
  unfold carries, native_alarm, alarm_table. proto.unfold_AlarmState.
  intros Hfits. cbn in *. split_facts. solve_carries.
Qed.
Lemma train_carried m : proto.TrainStateT.fits (native_train m) ->
  exists o, train_table m = Some o /\ carries proto.TrainState_message o (native_train m).
Proof.
  unfold carries, native_train, train_table. proto.unfold_TrainState.
  intros Hfits. cbn in *. split_facts. solve_carries.
Qed.

Lemma build_all {A T} (M : Message T) (build : A -> option Obj) (f : A -> T) l :
  (forall x, msg_fits M (f x) -> exists o, build x = Some o /\ carries M o (f x)) ->
  Forall (msg_fits M) (f <$> l) ->
  exists os, mapM build l = Some os /\ Forall2 (carries M) os (f <$> l).
Proof.
  intros Hbuild. induction l as [|x l IH]; [by exists []|]. intros [Hx Hl]%Forall_cons.
  destruct (Hbuild x Hx) as (o & E & Ho), (IH Hl) as (os & Es & Hos). exists (o :: os).
  cbn. rewrite E. cbn. rewrite Es. split; [done|by constructor].
Qed.

(** Builds the objects of a vector of the snapshot with the lemma of its table. *)
Ltac build_tables M carried :=
  match goal with H : Forall _ (?f <$> ?l) |- context [mapM ?build ?l] =>
    let os := fresh "os" in let E := fresh "E" in let Hos := fresh "Hos" in
    destruct (build_all M build f l carried H) as (os & E & Hos); rewrite E; clear E; cbn [mbind option_bind];
    apply tables_carried in Hos as (? & ? & Hos);
    match type of Hos with forall acc, _ -> passes _ (tables_in ?g ?l') _ =>
      pose proof (tables_in_nonneg (tables := g) l') end;
    abstract_tables Hos
  end.
Lemma snapshot_carried m : proto.SnapshotT.fits (native_snapshot m) ->
  exists o, snapshot_table m = Some o /\ carries proto.Snapshot_message o (native_snapshot m).
Proof.
  unfold carries, native_snapshot, snapshot_table. proto.unfold_Snapshot.
  intros Hfits. cbn [msg_UnPack msg_Verify msg_tables msg_height] in *. split_facts.
  build_tables proto.SwitchState_message switch_carried.
  build_tables proto.TrackSectionState_message track_section_carried.
  build_tables proto.SignalState_message signal_carried. build_tables proto.DerailerState_message derailer_carried.
  build_tables proto.BlockSectionSnapshotState_message block_section_carried.
  build_tables proto.RouteState_message route_carried. build_tables proto.AlarmState_message alarm_carried.
  build_tables proto.TrainState_message train_carried. solve_carries.
Qed.
End SnapshotFacts.

(** *** A snapshot on the wire *)

(** The values of a snapshot are those of their C++ types: 64-bit identifiers,
    32-bit counters, and single floats (the negative zero, which the wire
    renders as zero, left aside). *)
Definition uid_fits (u : UID) : bool := in_range U64 (value u).
Definition train_fits (tr : TrainSnapshot) : Prop :=
  uid_fits (tsn_uid tr) = true /\ Forall (fun u => uid_fits u = true) (tsn_vehicle_uids tr) /\
  uid_fits (tsn_section_uid tr) = true /\ float_field (tsn_speed_kmh tr) = true /\
  float_field (tsn_total_length_m tr) = true /\ in_range I32 (tsn_total_axles tr) = true.
Record snapshot_fits (snap : EngineSnapshot.t) : Prop := {
  switches_fit : map_Forall (fun u s => uid_fits u = true /\ in_range I32 (sw_axle_count s) = true)
    (EngineSnapshot.switches snap);
  track_sections_fit : map_Forall (fun u s => uid_fits u = true /\ in_range I32 (ts_axle_count s) = true)
    (EngineSnapshot.track_sections snap);
  signals_fit : map_Forall (fun u _ => uid_fits u = true) (EngineSnapshot.signals snap);
  derailers_fit : map_Forall (fun u _ => uid_fits u = true) (EngineSnapshot.derailers snap);
  block_sections_fit : map_Forall (fun u _ => uid_fits u = true) (EngineSnapshot.block_sections snap);
  routes_fit : map_Forall (fun _ r => uid_fits (rt_uid r) = true /\ uid_fits (rt_from_signal_uid r) = true /\
    uid_fits (rt_to_signal_uid r) = true /\ Forall (fun u => uid_fits u = true) (rt_section_uids r))
    (EngineSnapshot.routes snap);
  alarms_fit : map_Forall (fun _ a => uid_fits (al_uid a) = true /\ uid_fits (al_object_uid a) = true)
    (EngineSnapshot.alarms snap);
  trains_fit : Forall train_fits (EngineSnapshot.trains snap)
}.

(** The objects of a snapshot. *)
Definition snapshot_objects (snap : EngineSnapshot.t) : Z :=
  Z.of_nat (size (EngineSnapshot.switches snap) + size (EngineSnapshot.track_sections snap) +
    size (EngineSnapshot.signals snap) + size (EngineSnapshot.derailers snap) +
    size (EngineSnapshot.block_sections snap) + size (EngineSnapshot.routes snap) +
    size (EngineSnapshot.alarms snap) + length (EngineSnapshot.trains snap)).

Lemma uids_fit l : Forall (fun u => uid_fits u = true) l -> Forall (fun x => in_range U64 x = true) (value <$> l).
Proof. intros Hl. by apply Forall_fmap. Qed.

Lemma visited_fit {MO : MapOrder} {A M} (P : UID -> A -> Prop) (Q : M -> Prop) (f : UID * A -> M) m :
  map_Forall P m -> (forall u x, P u x -> Q (f (u, x))) -> Forall Q (f <$> visit m).
Proof.
  intros Hm Hf. apply Forall_fmap, Forall_forall. intros [u x] Hx%elem_of_visit. by apply Hf, Hm.
Qed.

Lemma train_by_section_fits trains k :
  Forall train_fits trains -> in_range U64 (default 0 (train_by_section trains !! k)) = true.
Proof.
  intros Htr. rewrite train_by_section_lookup. destruct (List.find _ trains) as [tr|] eqn:E; [|done]. cbn.
  apply find_some in E as [Hin%list_elem_of_In _]. rewrite Forall_forall in Htr. by destruct (Htr tr Hin).
Qed.

(** What the snapshot service fills in fits the fields of the tables. *)
Lemma snapshot_message_fits {MO : MapOrder} snap :
  snapshot_fits snap -> proto.SnapshotT.fits (native_snapshot (snapshot_message snap)).
Proof.
  intros [Hsw Hts Hsig Hder Hbs Hrt Hal Htr].
  red. cbn [native_snapshot snapshot_message proto.SnapshotT.schema_version proto.SnapshotT.seq_cursor
    proto.SnapshotT.timestamp_us proto.SnapshotT.switches proto.SnapshotT.track_sections proto.SnapshotT.signals
    proto.SnapshotT.derailers proto.SnapshotT.block_sections proto.SnapshotT.active_routes
    proto.SnapshotT.active_alarms proto.SnapshotT.dispatch_area_assignments proto.SnapshotT.trains
    snm_schema_version snm_seq_cursor snm_switches snm_track_sections snm_signals snm_derailers
    snm_block_sections snm_active_routes snm_active_alarms snm_trains].
  rewrite <- !list_fmap_compose. split_and!; try done.
  - unfold u32. apply andb_true_intro. split; [apply Z.leb_le|apply Z.ltb_lt]; apply Z.mod_pos_bound; lia.
  - eapply visited_fit; [exact Hsw|]. intros u s [Hu Ha]. red. cbn. split_and!; try done. by destruct (sw_position s).
  - eapply visited_fit; [exact Hts|]. intros u s [Hu Ha]. red. cbn. split_and!; try done.
    by apply train_by_section_fits.
  - eapply visited_fit; [exact Hsig|]. intros u s Hu. red. cbn. split_and!; try done. apply i8_in_range.
  - eapply visited_fit; [exact Hder|]. intros u s Hu. red. cbn. split_and!; try done. by destruct (der_state s).
  - eapply visited_fit; [exact Hbs|]. intros u s Hu. red. cbn. split_and!; try done; [|by destruct (bs_direction s)].
    unfold to_proto_block_state. by case_bool_decide.
  - eapply visited_fit; [exact Hrt|]. intros u s (? & ? & ? & ?). red. cbn. split_and!; try done. by apply uids_fit.
  - eapply visited_fit; [exact Hal|]. intros u s [? ?]. red. cbn. split_and!; try done.
    unfold alarm_kind_byte. by repeat case_bool_decide.
  - apply Forall_fmap. eapply Forall_impl; [exact Htr|]. intros tr (? & ? & ? & ? & ? & ?). red. cbn.
    split_and!; try done. by apply uids_fit.
Qed.

Lemma tables_one {A T} (tables : T -> Z) (f : A -> T) (l : list A) :
  (forall x, tables (f x) = 1) -> tables_in tables (f <$> l) = Z.of_nat (length l).
Proof. intros Hf. induction l as [|x l IH]; [done|]. unfold tables_in in *. cbn. rewrite Hf, IH. lia. Qed.

Lemma visit_length {MO : MapOrder} {A} (m : gmap UID A) : length (visit m) = size m.
Proof. rewrite visit_perm. apply length_map_to_list. Qed.

(** One table for each object, and the snapshot's own. *)
Lemma snapshot_message_tables {MO : MapOrder} snap :
  proto.SnapshotT.tables (native_snapshot (snapshot_message snap)) = 1 + snapshot_objects snap.
Proof.
  unfold proto.SnapshotT.tables, snapshot_objects, native_snapshot, snapshot_message.
  cbn [proto.SnapshotT.switches proto.SnapshotT.track_sections proto.SnapshotT.signals
    proto.SnapshotT.derailers proto.SnapshotT.block_sections proto.SnapshotT.active_routes
    proto.SnapshotT.active_alarms proto.SnapshotT.dispatch_area_assignments proto.SnapshotT.trains
    snm_switches snm_track_sections snm_signals snm_derailers
    snm_block_sections snm_active_routes snm_active_alarms snm_trains].
  rewrite <- !list_fmap_compose, !tables_one by done. rewrite !visit_length. unfold tables_in. lia.
Qed.

Section SnapshotOnTheWire.
Context {F : FlatBuffers} {FO : FlatBuffersOk F} {MO : MapOrder}.

(** What the client unpacks is the message, field by field. *)
Lemma snapshot_read (snap : EngineSnapshot.t) :
  snapshot_fits snap ->
  let bytes := serialize build_Snapshot snap in
  proto.UnPackSnapshot bytes = Some (native_snapshot (snapshot_message snap)) /\
  (1 + snapshot_objects snap <= max_tables -> proto.VerifySnapshotBuffer bytes = Some true).
Proof.
  intros Hfits%snapshot_message_fits bytes.
  destruct (snapshot_carried _ Hfits) as (o & Eo & Hc).
  assert (bytes = Finish o) as ->.
  { unfold bytes, serialize, build_Snapshot, generated_session. by rewrite Eo. }
  split.
  - unfold proto.UnPackSnapshot, proto.GetSnapshot. rewrite root_built. apply Hc.
  - intros Ht. apply (carried_verifies Table.Snapshot _ _ Hc).
    change (proto.SnapshotT.tables (native_snapshot (snapshot_message snap)) <= max_tables).
    by rewrite snapshot_message_tables.
Qed.

(** C23: a snapshot reaches the client as the world it was taken of.  The bytes that the
    snapshot service lays out with the generated builders, table by table and vector by vector,
    are unpacked by the generated code at the client to a message that describes the world: every
    switch, section, signal, derailer, block section, route and alarm once and nothing else, each
    with its state in the numbers of the schema, and the trains in their order.  They pass the
    client's verifier unless the world has more objects than the verifier's limit of a million
    tables. *)
Theorem snapshot_on_the_wire (snap : EngineSnapshot.t) :
  snapshot_fits snap -> snapshot_keyed snap ->
  let bytes := serialize build_Snapshot snap in
  (exists m, proto.UnPackSnapshot bytes = Some m /\ describes snap (client_snapshot m)) /\
  (1 + snapshot_objects snap <= max_tables -> proto.VerifySnapshotBuffer bytes = Some true).
Proof.
  intros Hf Hk bytes. destruct (snapshot_read snap Hf) as [Hu Hv]. split; [|exact Hv].
  eexists. split; [exact Hu|]. rewrite client_native. by apply snapshot_described.
Qed.

(** Fields of the schema that no snapshot fills in: the operator's state of the devices, the time,
    the dispatch areas, the direction of the trains. *)
Theorem snapshot_unset_fields (snap : EngineSnapshot.t) :
  snapshot_fits snap ->
  exists m, proto.UnPackSnapshot (serialize build_Snapshot snap) = Some m /\
    proto.SnapshotT.timestamp_us m = 0 /\ proto.SnapshotT.dispatch_area_assignments m = [] /\
    Forall (fun s => proto.SwitchStateT.operator_state s = None /\ proto.SwitchStateT.train_uid s = 0)
      (proto.SnapshotT.switches m) /\
    Forall (fun s => proto.TrackSectionStateT.operator_state s = None) (proto.SnapshotT.track_sections m) /\
    Forall (fun s => proto.SignalStateT.operator_state s = None) (proto.SnapshotT.signals m) /\
    Forall (fun s => proto.DerailerStateT.operator_state s = None) (proto.SnapshotT.derailers m) /\
    Forall (fun s => proto.BlockSectionSnapshotStateT.operator_state s = None) (proto.SnapshotT.block_sections m) /\
    Forall (fun t => proto.TrainStateT.direction t = 0) (proto.SnapshotT.trains m).
Proof.
  intros Hf. destruct (snapshot_read snap Hf) as [Hu _]. eexists. split; [exact Hu|].
  split_and!; try done; cbn; apply Forall_fmap, Forall_true; done.
Qed.
End SnapshotOnTheWire.

Lemma snapshot_demo_fits : snapshot_fits SnapshotDemo.demo.
Proof. split; try (by apply map_Forall_empty); [|repeat constructor]. by apply (bool_decide_unpack _); vm_compute. Qed.

Lemma snapshot_on_the_wire_witness :
  let bytes := serialize (MO := canonical_order) (build_Snapshot (SessionWire := generated_session)) SnapshotDemo.demo in
  (exists m, proto.UnPackSnapshot bytes = Some m /\ describes SnapshotDemo.demo (client_snapshot m)) /\
  proto.VerifySnapshotBuffer bytes = Some true.
Proof.
  intros bytes. destruct (snapshot_on_the_wire (MO := canonical_order) SnapshotDemo.demo
    snapshot_demo_fits snapshot_demo_keyed) as [Hu Hv].
  split; [exact Hu|apply Hv]. by vm_compute.
Defined.

(** *** Handshakes and answers *)

Section SessionFacts.
Context {F : FlatBuffers} {FO : FlatBuffersOk F}.

Lemma built_read k o m : carries (message k) o m -> msg_tables (message k) m <= max_tables ->
  (o' ← verified k (finished (Some o)); msg_UnPack (message k) o') = Some m.
Proof. intros Hc Ht. cbn [finished from_option]. rewrite (verified_finished k o m Hc Ht). apply Hc. Qed.

(** A handshake that a client packs opens the session for its player: neither
    the version of the protocol nor the one of the client is looked at, and the
    token only has to be there. *)
Lemma handshake_read m : proto.HandshakeT.fits m ->
  exists o, proto.Handshake_Pack m = Some o /\
    parse_handshake (Finish o) = Some (Some (proto.HandshakeT.player_id m), Some (proto.HandshakeT.auth_token m)).
Proof.
  intros Hfits. destruct (packed_carried Table.Handshake m Hfits) as (o & E & Hc). exists o. split; [exact E|].
  unfold parse_handshake. rewrite (verified_finished _ _ _ Hc) by (vm_compute; discriminate).
  change (proto.Handshake_Pack m = Some o) in E. clear Hc. revert E. destruct m. proto.unfold_Handshake.
  cbn in *. rewrite required_table by reflexivity. intros [= <-].
  match goal with |- context [EndTable ?ws] => assert (slots_ok ws = true) as Hws by reflexivity end.
  repeat (read_built Hws; cbn [mbind option_bind]). unfold text. rewrite !str_built. done.
Qed.

Lemma handshake_ack_carried sid hz time : in_range U32 hz = true -> in_range U64 time = true ->
  exists o, handshake_ack sid hz time = Some o /\
    carries proto.HandshakeAck_message o (proto.HandshakeAckT.mk sid hz [] time).
Proof. intros ? ?. unfold carries, handshake_ack. proto.unfold_HandshakeAck. cbn. solve_carries. Qed.
Lemma command_nak_carried seq reason reason_text : in_range U32 seq = true -> in_range I8 reason = true ->
  exists o, command_nak seq reason reason_text = Some o /\
    carries proto.CommandNak_message o (proto.CommandNakT.mk seq reason reason_text).
Proof. intros ? ?. unfold carries, command_nak. proto.unfold_CommandNak. cbn. solve_carries. Qed.

(** The client reads the answers of its session as they were meant. *)
Theorem answers_on_the_wire sid hz time seq reason reason_text :
  in_range U32 hz = true -> in_range U64 time = true -> in_range U32 seq = true -> in_range I8 reason = true ->
  (o ← verified Table.HandshakeAck (build_HandshakeAck sid hz time); msg_UnPack (message Table.HandshakeAck) o) =
    Some (proto.HandshakeAckT.mk sid hz [] time) /\
  (o ← verified Table.CommandAck (build_CommandAck seq); msg_UnPack (message Table.CommandAck) o) =
    Some (proto.CommandAckT.mk seq 0) /\
  (o ← verified Table.CommandNak (build_CommandNak seq reason reason_text); msg_UnPack (message Table.CommandNak) o) =
    Some (proto.CommandNakT.mk seq reason reason_text) /\
  (o ← verified Table.HeartbeatAck (build_HeartbeatAck seq time); msg_UnPack (message Table.HeartbeatAck) o) =
    Some (proto.HeartbeatAckT.mk seq time).
Proof.
  intros Hhz Ht Hseq Hr. unfold build_HandshakeAck, build_CommandAck, build_CommandNak, build_HeartbeatAck, generated_session.
  split_and!.
  - destruct (handshake_ack_carried sid hz time Hhz Ht) as (o & -> & Hc). by apply (built_read Table.HandshakeAck).
  - destruct (packed_carried Table.CommandAck (proto.CommandAckT.mk seq 0)) as (o & E & Hc); [by split|].
    change (command_ack seq = Some o) in E. rewrite E. by apply (built_read Table.CommandAck).
  - destruct (command_nak_carried seq reason reason_text Hseq Hr) as (o & -> & Hc). by apply (built_read Table.CommandNak).
  - destruct (packed_carried Table.HeartbeatAck (proto.HeartbeatAckT.mk seq time)) as (o & E & Hc); [by split|].
    change (heartbeat_ack seq time = Some o) in E. rewrite E. by apply (built_read Table.HeartbeatAck).
Qed.
End SessionFacts.
