(* ===== verification/WireEvents.v ===== *)
(** * WireEvents: domain events on the generated messages

    The bodies of [DispatchBus::make_event_frame], laid out by the generated
    [Create...] functions, and what a client makes of the bytes of an event frame:
    it decodes the frame, verifies and unpacks the table that the type byte names, and
    reads its numbers by the schema.  Theorem: a client reads of every change what
    happened. *)
From S2P Require Import Prelude Float32 Types Commands Track World Changes DbWriter Frame Schema Bus.
From S2P Require Import Flat FlatTree ProtoCommon ProtoEvents Protocol Wire WireSession.
Local Open Scope Z_scope.

(** ** Domain events *)

(** The table of an event. *)
Definition event_kind (e : EventBody) : Table.t :=
  match e with
  | SignalAspectChanged _ _ _ => Table.SignalAspectChanged
  | SwitchPositionChanged _ _ _ => Table.SwitchPositionChanged
  | DerailerPositionChanged _ _ _ => Table.DerailerPositionChanged
  | TrackSectionOccupancyChanged _ _ _ _ => Table.TrackSectionOccupancyChanged
  | BlockSectionStateChanged _ _ => Table.BlockSectionStateChanged
  | BlockDirectionStateChanged _ _ _ => Table.BlockDirectionStateChanged
  | OperatorCommandStateChanged _ _ _ _ => Table.OperatorCommandStateChanged
  | Ml8CommandStateChanged _ _ _ _ => Table.Ml8CommandStateChanged
  | RouteSet _ _ _ _ => Table.RouteSet
  | RouteReleased _ _ => Table.RouteReleased
  | AlarmRaised _ _ _ _ => Table.AlarmRaised
  | AlarmCleared _ => Table.AlarmCleared
  end.

Section Events.
Context {F : FlatBuffers}.

(* SRC server/src/dispatch_bus.cpp 120-262 DispatchBus::make_event_frame *)
Definition event_table (e : EventBody) : option Obj :=
  match e with
  | SignalAspectChanged uid new_aspect cause => proto.CreateSignalAspectChanged uid new_aspect cause
  | SwitchPositionChanged uid new_position cause => proto.CreateSwitchPositionChanged uid new_position cause
  | DerailerPositionChanged uid new_position cause => proto.CreateDerailerPositionChanged uid new_position cause
  | TrackSectionOccupancyChanged uid occupied axle_count train_uid =>
      proto.CreateTrackSectionOccupancyChanged uid occupied axle_count train_uid
  | BlockSectionStateChanged uid new_state => proto.CreateBlockSectionStateChanged uid new_state
  | BlockDirectionStateChanged uid new_direction cause =>
      proto.CreateBlockDirectionStateChanged uid new_direction cause
  | OperatorCommandStateChanged uid target_kind command_code active =>
      proto.CreateOperatorCommandStateChanged uid target_kind command_code active
  | Ml8CommandStateChanged uid target_kind command_code active =>
      proto.CreateMl8CommandStateChanged uid target_kind command_code active
  | RouteSet uid from_signal_uid to_signal_uid section_uids =>
      let sec_vec := Some (CreateVector U64 section_uids) in
      proto.CreateRouteSet uid from_signal_uid to_signal_uid sec_vec
  | RouteReleased route_uid reason => proto.CreateRouteReleased route_uid reason
  | AlarmRaised alarm_uid alarm_type object_uid message =>
      let message_off := Some (CreateString message) in
      proto.CreateAlarmRaised alarm_uid alarm_type object_uid message_off
  | AlarmCleared alarm_uid => proto.CreateAlarmCleared alarm_uid
  end.
(* SRC server/src/dispatch_bus.cpp 120-268 DispatchBus::make_event_frame *)
Definition build_Event (e : EventBody) : list byte := finished (event_table e).
End Events.

Definition native_event (e : EventBody) : native (event_kind e) :=
  match e with
  | SignalAspectChanged uid new_aspect cause => proto.SignalAspectChangedT.mk uid new_aspect cause
  | SwitchPositionChanged uid new_position cause => proto.SwitchPositionChangedT.mk uid new_position cause
  | DerailerPositionChanged uid new_position cause => proto.DerailerPositionChangedT.mk uid new_position cause
  | TrackSectionOccupancyChanged uid occupied axle_count train_uid =>
      proto.TrackSectionOccupancyChangedT.mk uid occupied axle_count train_uid
  | BlockSectionStateChanged uid new_state => proto.BlockSectionStateChangedT.mk uid new_state
  | BlockDirectionStateChanged uid new_direction cause =>
      proto.BlockDirectionStateChangedT.mk uid new_direction cause
  | OperatorCommandStateChanged uid target_kind command_code active =>
      proto.OperatorCommandStateChangedT.mk uid target_kind command_code active
  | Ml8CommandStateChanged uid target_kind command_code active =>
      proto.Ml8CommandStateChangedT.mk uid target_kind command_code active
  | RouteSet uid from_signal_uid to_signal_uid section_uids =>
      proto.RouteSetT.mk uid from_signal_uid to_signal_uid section_uids
  | RouteReleased route_uid reason => proto.RouteReleasedT.mk route_uid reason
  | AlarmRaised alarm_uid alarm_type object_uid message =>
      proto.AlarmRaisedT.mk alarm_uid alarm_type object_uid message
  | AlarmCleared alarm_uid => proto.AlarmClearedT.mk alarm_uid
  end.

(** The identifiers and the counters of a change have the widths of their C++
    types. *)
Definition change_fits (change : DeviceStateChange) : Prop :=
  match change with
  | DSignalAspect ev => uid_fits (sac_uid ev) = true
  | DSwitchPosition ev => uid_fits (spc_uid ev) = true
  | DSwitchLocked ev => uid_fits (sl_switch_uid ev) = true
  | DSwitchUnlocked ev => uid_fits (su_switch_uid ev) = true
  | DDerailerState ev => uid_fits (dsc_uid ev) = true
  | DTrackSectionOccupancy ev =>
      uid_fits (tsoc_uid ev) = true /\ in_range I32 (tsoc_axle_count ev) = true /\ uid_fits (tsoc_train_uid ev) = true
  | DBlockSectionState ev => uid_fits (bssc_uid ev) = true
  | DBlockDirection ev => uid_fits (bdc_uid ev) = true
  | DOperatorCommandState ev => uid_fits (ocsc_uid ev) = true
  | DMl8CommandState ev => uid_fits (mcsc_uid ev) = true
  | DRouteAdded r => uid_fits (rt_uid r) = true /\ uid_fits (rt_from_signal_uid r) = true /\
      uid_fits (rt_to_signal_uid r) = true /\ Forall (fun u => uid_fits u = true) (rt_section_uids r)
  | DRouteRemoved ev => uid_fits (rrm_route_uid ev) = true
  | DAlarmRaised a => uid_fits (al_uid a) = true /\ uid_fits (al_object_uid a) = true
  | DAlarmCleared u => uid_fits u = true
  | DAxleCounterReset _ | DRouteOverlapTimerStarted _ | DEmergencyRouteReleaseExecuted _
  | DLevelCrossingState _ | DSwitchControlState _ => True
  end.

Lemma event_fits change et body `{FlatBuffers} :
  event_of change = Some (et, body) -> change_fits change -> msg_fits (message (event_kind body)) (native_event body).
Proof.
  destruct change; intros [= <- <-]; cbn [change_fits]; intros Hc; split_facts; cbn; red; cbn; repeat split; try done.
  all: try (by apply uids_fit).
  all: try apply i8_in_range.
  all: try match goal with |- in_range I8 (?f ?x) = true => by destruct x end.
  all: unfold to_proto_derailer, to_proto_block_section, to_proto_release_reason, alarm_type.
  all: by repeat case_bool_decide.
Qed.

Section EventFacts.
Context {F : FlatBuffers} {FO : FlatBuffersOk F}.

Lemma event_carried e : msg_fits (message (event_kind e)) (native_event e) ->
  exists o, event_table e = Some o /\ carries (message (event_kind e)) o (native_event e).
Proof.
  intros Hfits. destruct e.
  all: try (destruct (packed_carried _ _ Hfits) as (o & E & Hc); exists o; split; [exact E|exact Hc]).
  - cbn [event_kind native_event Protocol.message event_table] in *. unfold carries. proto.unfold_RouteSet.
    cbn in Hfits |- *. split_facts. solve_carries.
  - cbn [event_kind native_event Protocol.message event_table] in *. unfold carries. proto.unfold_AlarmRaised.
    cbn in Hfits |- *. split_facts. solve_carries.
Qed.

(** *** What a client hears

    What an event tells; [None] for a number that the schema has no name for. *)
Inductive Fact : Type :=
| SignalShows (u : Z) (aspect : option SignalAspect.t) (cause : option ChangeCause.t)
| SwitchIs (u : Z) (position : option SwitchPosition.t) (cause : option ChangeCause.t)
| DerailerIs (u : Z) (position : option DerailerState.t) (cause : option ChangeCause.t)
| SectionIs (u : Z) (occupancy : TrackOccupancy.t) (axle_count train_uid : Z)
| BlockIs (u : Z) (state : option BlockSectionState.t)
| BlockDirectionIs (u : Z) (direction : option BlockDirectionState.t) (cause : option ChangeCause.t)
| OperatorCommandIs (u : Z) (kind : option OperatorTargetKind.t) (code : option OperatorCommandCode.t) (active : bool)
| Ml8CommandIs (u : Z) (kind : option OperatorTargetKind.t) (code : option Ml8CommandCode.t) (active : bool)
| RouteIsSet (u from_signal to_signal : Z) (sections : list Z)
| RouteIsReleased (u : Z) (reason : option string)
| AlarmIsRaised (u : Z) (kind : option string) (object : Z) (message : string)
| AlarmIsCleared (u : Z).

(** The unpacked table of an event, read by the schema. *)
Definition fact_of (k : Table.t) : native k -> option Fact :=
  match k with
  | Table.SignalAspectChanged => fun m => Some (SignalShows (proto.SignalAspectChangedT.uid m)
      (schema_Aspect (proto.SignalAspectChangedT.new_aspect m))
      (schema_ChangeCause (proto.SignalAspectChangedT.cause m)))
  | Table.SwitchPositionChanged => fun m => Some (SwitchIs (proto.SwitchPositionChangedT.uid m)
      (schema_SwitchPosition (proto.SwitchPositionChangedT.new_position m))
      (schema_ChangeCause (proto.SwitchPositionChangedT.cause m)))
  | Table.DerailerPositionChanged => fun m => Some (DerailerIs (proto.DerailerPositionChangedT.uid m)
      (schema_DerailerPosition (proto.DerailerPositionChangedT.new_position m))
      (schema_ChangeCause (proto.DerailerPositionChangedT.cause m)))
  | Table.TrackSectionOccupancyChanged => fun m => Some (SectionIs (proto.TrackSectionOccupancyChangedT.uid m)
      (schema_occupied (proto.TrackSectionOccupancyChangedT.occupied m))
      (proto.TrackSectionOccupancyChangedT.axle_count m) (proto.TrackSectionOccupancyChangedT.train_uid m))
  | Table.BlockSectionStateChanged => fun m => Some (BlockIs (proto.BlockSectionStateChangedT.uid m)
      (schema_BlockSectionState (proto.BlockSectionStateChangedT.new_state m)))
  | Table.BlockDirectionStateChanged => fun m => Some (BlockDirectionIs (proto.BlockDirectionStateChangedT.uid m)
      (schema_BlockDirectionState (proto.BlockDirectionStateChangedT.new_direction m))
      (schema_ChangeCause (proto.BlockDirectionStateChangedT.cause m)))
  | Table.OperatorCommandStateChanged => fun m => Some (OperatorCommandIs
      (proto.OperatorCommandStateChangedT.uid m)
      (schema_OperatorTargetKind (proto.OperatorCommandStateChangedT.target_kind m))
      (schema_OperatorCommandCode (proto.OperatorCommandStateChangedT.command_code m))
      (proto.OperatorCommandStateChangedT.active m))
  | Table.Ml8CommandStateChanged => fun m => Some (Ml8CommandIs (proto.Ml8CommandStateChangedT.uid m)
      (schema_OperatorTargetKind (proto.Ml8CommandStateChangedT.target_kind m))
      (schema_Ml8CommandCode (proto.Ml8CommandStateChangedT.command_code m))
      (proto.Ml8CommandStateChangedT.active m))
  | Table.RouteSet => fun m => Some (RouteIsSet (proto.RouteSetT.uid m) (proto.RouteSetT.from_signal_uid m)
      (proto.RouteSetT.to_signal_uid m) (proto.RouteSetT.section_uids m))
  | Table.RouteReleased => fun m => Some (RouteIsReleased (proto.RouteReleasedT.route_uid m)
      (schema_RouteReleaseReason (proto.RouteReleasedT.reason m)))
  | Table.AlarmRaised => fun m => Some (AlarmIsRaised (proto.AlarmRaisedT.alarm_uid m)
      (schema_AlarmType (proto.AlarmRaisedT.alarm_type m)) (proto.AlarmRaisedT.object_uid m)
      (proto.AlarmRaisedT.message m))
  | Table.AlarmCleared => fun m => Some (AlarmIsCleared (proto.AlarmClearedT.alarm_uid m))
  | _ => fun _ => None
  end.

(** The table behind each type of event, by the comments of [proto/events.fbs]. *)
Definition table_of_event (event_type : byte) : option Table.t :=
  snd <$> List.find (fun e => e.1 =? event_type)
    [ (0x01, Table.SwitchPositionChanged); (0x03, Table.SignalAspectChanged);
      (0x04, Table.TrackSectionOccupancyChanged); (0x05, Table.DerailerPositionChanged);
      (0x06, Table.BlockSectionStateChanged); (0x07, Table.RouteSet); (0x08, Table.RouteReleased);
      (0x0A, Table.AlarmRaised); (0x0B, Table.AlarmCleared); (0x10, Table.BlockDirectionStateChanged);
      (0x11, Table.OperatorCommandStateChanged); (0x12, Table.Ml8CommandStateChanged) ].
(** The type byte names the table that the buffer behind the prefix of 13 bytes holds. *)
Definition client_event (payload : list byte) : option Fact :=
  event_type ← head payload; k ← table_of_event event_type;
  event ← verified k (drop 13 payload); m ← msg_UnPack (message k) event; fact_of k m.
(** What a client makes of the bytes it receives: a frame of the type 0x20 is an event. *)
Definition client_hears (bytes : list byte) : option Fact :=
  match decode_frame bytes with
  | mkFrameDecodeResult kOk frame _ =>
      if fr_msg_type frame =? 0x20 then client_event (fr_payload frame) else None
  | _ => None
  end.

(** *** What a change has to tell *)

(** The alarms of the engine in the words of the schema; a kind that has no counterpart may be
    shown as any. *)
Definition alarm_shown (kind : string) (name : option string) : Prop :=
  (kind = "SWITCH_FAILURE" -> name = Some "SWITCH_POSITION_MISMATCH") /\
  (kind = "SIGNAL_FAILURE" -> name = Some "SIGNAL_OVERRUN") /\
  (kind ∈ ["TRACK_OCCUPIED_UNEXPECTEDLY"; "DERAILER_CONFLICT"; "COMMS_FAILURE"; "ENGINE_FAULT"] ->
     name = Some kind).

(** A change is stated by a fact about its object that has its new state; a reason that the schema
    does not name may be shown as any, and the change of a block has no cause of its own.  Nothing is
    said here of the lock of a switch, and the other changes are not stated to clients. *)
Definition states (change : DeviceStateChange) (f : Fact) : Prop :=
  match change with
  | DSignalAspect ev =>
      f = SignalShows (value (sac_uid ev)) (shown Aspect_names (sac_new_aspect ev)) (Some (sac_cause ev))
  | DSwitchPosition ev =>
      f = SwitchIs (value (spc_uid ev)) (shown SwitchPosition_names (spc_new_position ev)) (Some (spc_cause ev))
  | DDerailerState ev => f = DerailerIs (value (dsc_uid ev)) (Some (dsc_new_state ev)) (Some (dsc_cause ev))
  | DTrackSectionOccupancy ev =>
      f = SectionIs (value (tsoc_uid ev)) (tsoc_occupancy ev) (tsoc_axle_count ev) (value (tsoc_train_uid ev))
  | DBlockSectionState ev => f = BlockIs (value (bssc_uid ev)) (Some (bssc_new_state ev))
  | DBlockDirection ev =>
      exists cause, f = BlockDirectionIs (value (bdc_uid ev)) (Some (bdc_new_direction ev)) cause
  | DOperatorCommandState ev =>
      f = OperatorCommandIs (value (ocsc_uid ev)) (shown OperatorTargetKind_names (ocsc_target_kind ev))
            (shown OperatorCommandCode_names (ocsc_code ev)) (ocsc_active ev)
  | DMl8CommandState ev =>
      f = Ml8CommandIs (value (mcsc_uid ev)) (shown OperatorTargetKind_names (mcsc_target_kind ev))
            (shown Ml8CommandCode_names (mcsc_code ev)) (mcsc_active ev)
  | DRouteAdded r =>
      f = RouteIsSet (value (rt_uid r)) (value (rt_from_signal_uid r)) (value (rt_to_signal_uid r))
            (value <$> rt_section_uids r)
  | DRouteRemoved ev =>
      exists reason, f = RouteIsReleased (value (rrm_route_uid ev)) reason /\
        (rrm_reason ev ∈ RouteReleaseReason_names -> reason = Some (rrm_reason ev))
  | DAlarmRaised a =>
      exists kind, f = AlarmIsRaised (value (al_uid a)) kind (value (al_object_uid a)) (al_message a) /\
        alarm_shown (al_kind a) kind
  | DAlarmCleared u => f = AlarmIsCleared (value u)
  | DSwitchLocked _ | DSwitchUnlocked _ | DAxleCounterReset _ | DRouteOverlapTimerStarted _
  | DEmergencyRouteReleaseExecuted _ | DLevelCrossingState _ | DSwitchControlState _ => False
  end.

Lemma reason_sent reason :
  reason ∈ RouteReleaseReason_names -> schema_RouteReleaseReason (to_proto_release_reason reason) = Some reason.
Proof.
  intros Hr. repeat (apply elem_of_cons in Hr as [->|Hr]; [by vm_compute|]). by apply not_elem_of_nil in Hr.
Qed.
Lemma alarm_sent kind : alarm_shown kind (schema_AlarmType (alarm_type kind)).
Proof.
  split_and!; [by intros ->|by intros ->|]. intros Hk.
  repeat (apply elem_of_cons in Hk as [->|Hk]; [by vm_compute|]). by apply not_elem_of_nil in Hk.
Qed.

Lemma event_states change et body :
  event_of change = Some (et, body) -> ~ switch_lock change ->
  exists f, fact_of (event_kind body) (native_event body) = Some f /\ states change f.
Proof.
  destruct change; intros [= <- <-] Hl; try (by destruct (Hl I)); eexists; (split; [reflexivity|]); cbn -[i8 code].
  all: rewrite ?aspect_sent, ?position_sent, ?cause_sent, ?direction_sent, ?target_kind_sent, ?operator_code_sent,
    ?ml8_code_sent, ?derailer_sent, ?block_sent, ?occupancy_sent; try done.
  - by eexists.
  - eexists. split; [done|]. apply reason_sent.
  - eexists. split; [done|]. apply alarm_sent.
Qed.

Lemma event_of_table change et body : event_of change = Some (et, body) -> table_of_event et = Some (event_kind body).
Proof. by destruct change; intros [= <- <-]. Qed.

Lemma event_tables e : msg_tables (message (event_kind e)) (native_event e) = 1.
Proof. by destruct e. Qed.

(** The frame of an event, and what a client reads of it. *)
Lemma event_heard change ts bus et body :
  event_of change = Some (et, body) -> change_fits change -> fits 32 (tx_seq_ bus) ->
  exists payload, (make_event_frame build_Event change ts bus).2 =
      Some (encode_frame msg_type.kDomainEvent 0 (tx_seq_ bus) payload) /\
    (short payload -> client_hears (encode_frame msg_type.kDomainEvent 0 (tx_seq_ bus) payload) =
       fact_of (event_kind body) (native_event body)).
Proof.
  intros E Hfits Hseq. exists (build_event_prefix et (next_event_id_ bus) ts ++ build_Event body).
  split; [unfold make_event_frame; by rewrite E|]. intros Hs.
  unfold client_hears. rewrite <-(app_nil_r (encode_frame _ _ _ _)), decode_encode by done.
  cbn [fr_msg_type fr_payload Z.eqb]. change (msg_type.kDomainEvent =? 0x20) with true. cbv iota.
  destruct (event_carried body (event_fits _ _ _ E Hfits)) as (o & Eo & Hc).
  unfold client_event. change (head _) with (Some et). cbn [mbind option_bind].
  rewrite (event_of_table _ _ _ E). cbn [mbind option_bind].
  rewrite <- (prefix_length et (next_event_id_ bus) ts), drop_app_length.
  unfold build_Event. rewrite Eo. cbn [finished from_option].
  rewrite (verified_finished _ _ _ Hc) by (rewrite event_tables; by vm_compute).
  cbn [mbind option_bind]. by rewrite (proj1 Hc).
Qed.


(** The lock of a switch is heard as the position STRAIGHT, whatever the position is. *)
Theorem lock_heard_as_straight change ts bus :
  change_fits change -> fits 32 (tx_seq_ bus) -> switch_lock change ->
  exists u payload, (make_event_frame build_Event change ts bus).2 =
      Some (encode_frame msg_type.kDomainEvent 0 (tx_seq_ bus) payload) /\
    (short payload -> client_hears (encode_frame msg_type.kDomainEvent 0 (tx_seq_ bus) payload) =
       Some (SwitchIs u (Some SwitchPosition.STRAIGHT) (Some ChangeCause.AUTO))).
Proof.
  intros Hfits Hseq Hl.
  assert (exists u, event_of change = Some (event_type.kSwitchPositionChanged, SwitchPositionChanged u 0 1)) as [u E]
    by (destruct change; try done; by eexists).
  destruct (event_heard change ts bus _ _ E Hfits Hseq) as (payload & Ef & Hh). exists u, payload.
  split; [exact Ef|]. intros Hs. by rewrite (Hh Hs).
Qed.

(** A kind of alarm that is a name of the schema, and that the snapshot sends as this name, is
    heard as another. *)
Theorem alarm_named_differently u object message time :
  event_of (DAlarmRaised (mkAlarmState u "SWITCH_POSITION_MISMATCH" object message time)) =
    Some (event_type.kAlarmRaised, AlarmRaised (value u) 0 (value object) message) /\
  schema_AlarmType 0 = Some "TRACK_OCCUPIED_UNEXPECTEDLY"%string.
Proof. done. Qed.
End EventFacts.

