(* ===== verification/WireDispatch.v ===== *)
(** * WireDispatch: the dispatch channel on the generated messages

    [DispatchChannel::on_inbound] with its reader and its builder made of the
    generated code: the payload of a telegram between two areas is verified,
    read through the accessors of the union's member, and answered with a
    message that the generated functions lay out.  Theorems: a telegram that a
    client packs is handled as [Dispatch] says, and both areas unpack the
    answer; whatever else arrives neither throws nor leaves the buffer. *)
From S2P Require Import Prelude Float32 Types Commands Track World Frame Text Schema DbWriter Dispatch.
From S2P Require Import Flat FlatTree ProtoCommon ProtoDispatch Protocol Wire.
Local Open Scope Z_scope.

Section Channel.
Context {F : FlatBuffers}.

(** ** Reading a telegram *)

(* SRC server/src/dispatch_channel.cpp 139-146 DispatchChannel::on_inbound *)
Definition texts (p : option Obj) : option (option (list (option string))) :=
  match p with Some km => (fun l : list string => Some (Some <$> l)) <$> string_list km | None => Some None end.

(* SRC server/src/dispatch_channel.cpp 128-146 DispatchChannel::on_inbound *)
Definition parse_form (df_payload : Obj) : option DispatchFormPayload :=
  form_type ← proto.DispatchFormPayload.form_type df_payload;
  train_number ← (p ← proto.DispatchFormPayload.train_number df_payload; text p);
  km_markers ← (p ← proto.DispatchFormPayload.km_markers df_payload; texts p);
  track_number ← (p ← proto.DispatchFormPayload.track_number df_payload; text p);
  Some (mkDispatchFormPayload form_type train_number km_markers track_number).
(* SRC server/src/dispatch_channel.cpp 100-104 DispatchChannel::on_inbound *)
Definition parse_free_text (ft_payload : Obj) : option FreeTextPayload :=
  body ← (p ← proto.FreeTextPayload.body ft_payload; text p);
  Some (mkFreeTextPayload body).
(** The body as the two [body_as_...] accessors show it. *)
Definition parse_member (ft_payload df_payload : option Obj) : option DispatchChannelMessageBody :=
  match ft_payload, df_payload with
  | Some ft_payload, _ => body_FreeTextPayload <$> parse_free_text ft_payload
  | None, Some df_payload => body_DispatchFormPayload <$> parse_form df_payload
  | None, None => Some body_NONE
  end.
(* SRC server/src/dispatch_channel.cpp 100-126 DispatchChannel::on_inbound *)
Definition parse_body (msg : Obj) : option DispatchChannelMessageBody :=
  ft_payload ← proto.DispatchChannelMessage.body_as_FreeTextPayload msg;
  df_payload ← proto.DispatchChannelMessage.body_as_DispatchFormPayload msg;
  parse_member ft_payload df_payload.
(** The last four fields are read for the record of [Dispatch]; the channel does
    not look at them, and their reads do not fail on a verified message. *)
(* SRC server/src/dispatch_channel.cpp 78-90 DispatchChannel::on_inbound *)
Definition parse_message (payload : list byte) : option DispatchChannelMessage :=
  msg ← verified Table.DispatchChannelMessage payload;
  src_uid ← proto.DispatchChannelMessage.src_area_uid msg;
  dst_uid ← proto.DispatchChannelMessage.dst_area_uid msg;
  direction ← proto.DispatchChannelMessage.direction msg;
  kind ← proto.DispatchChannelMessage.kind msg;
  body ← parse_body msg;
  exchange_uid ← proto.DispatchChannelMessage.exchange_uid msg;
  exchange_status ← proto.DispatchChannelMessage.exchange_status msg;
  timestamp_us ← proto.DispatchChannelMessage.timestamp_us msg;
  sender_id ← (p ← proto.DispatchChannelMessage.sender_id msg; text p);
  Some (mkDispatchChannelMessage src_uid dst_uid direction kind body exchange_uid exchange_status
    timestamp_us sender_id).

(** ** Laying out the answer *)

(* SRC server/src/dispatch_channel.cpp 109-110 DispatchChannel::on_inbound *)
Definition free_text_table (body : string) : option Obj :=
  let body_str := Some (CreateString body) in
  proto.CreateFreeTextPayload body_str.
(* SRC server/src/dispatch_channel.cpp 165-177 DispatchChannel::on_inbound *)
Definition form_table (form_type : Z) (train_number : string) (km_markers : list string)
    (track_number : option string) : option Obj :=
  let train_off := Some (CreateString train_number) in
  let km_offs := CreateString <$> km_markers in
  let km_vec := Some (CreateVectorOfOffsets km_offs) in
  let track_off := CreateString <$> track_number in
  proto.CreateDispatchFormPayload form_type train_off km_vec track_off.
(** The channel builds no other bodies. *)
(* SRC server/src/dispatch_channel.cpp 164-182 DispatchChannel::on_inbound *)
Definition answer_table (m : DispatchChannelMessage) : option Obj :=
  sender_off ← CreateString <$> dm_sender_id m;
  '(body_type, off) ←
    match dm_body m with
    | body_FreeTextPayload {| ft_body := Some body |} =>
        off ← free_text_table body; Some (code proto.DispatchChannelMessageBody.FreeTextPayload, off)
    | body_DispatchFormPayload {| df_form_type := form_type; df_train_number := Some train_number;
          df_km_markers := km; df_track_number := track_number |} =>
        off ← form_table form_type train_number (km_strings km) track_number;
        Some (code proto.DispatchChannelMessageBody.DispatchFormPayload, off)
    | _ => None
    end;
  proto.CreateDispatchChannelMessage (dm_src_area_uid m) (dm_dst_area_uid m) (dm_direction m) (dm_kind m)
    body_type (Some off) (dm_exchange_uid m) (dm_exchange_status m) (dm_timestamp_us m) (Some sender_off).
(* SRC server/src/dispatch_channel.cpp 183-186 DispatchChannel::on_inbound *)
Definition build_message (m : DispatchChannelMessage) : list byte := finished (answer_table m).
End Channel.

(** ** What is read of a packed telegram *)

(** An empty string or vector is not written. *)
Definition form_of (p : proto.DispatchFormPayloadT.t) : DispatchFormPayload :=
  mkDispatchFormPayload (proto.DispatchFormPayloadT.form_type p) (Some (proto.DispatchFormPayloadT.train_number p))
    (match proto.DispatchFormPayloadT.km_markers p with [] => None | km => Some (Some <$> km) end)
    (match proto.DispatchFormPayloadT.track_number p with EmptyString => None | track => Some track end).
Definition body_of (b : proto.DispatchChannelMessageBodyUnion.native) : DispatchChannelMessageBody :=
  match b with
  | proto.DispatchChannelMessageBodyUnion.nullptr => body_NONE
  | proto.DispatchChannelMessageBodyUnion.ADispatchFormPayload p => body_DispatchFormPayload (form_of p)
  | proto.DispatchChannelMessageBodyUnion.AFreeTextPayload p =>
      body_FreeTextPayload (mkFreeTextPayload (Some (proto.FreeTextPayloadT.body p)))
  end.
Definition message_of (m : proto.DispatchChannelMessageT.t) : DispatchChannelMessage :=
  mkDispatchChannelMessage (proto.DispatchChannelMessageT.src_area_uid m) (proto.DispatchChannelMessageT.dst_area_uid m)
    (proto.DispatchChannelMessageT.direction m) (proto.DispatchChannelMessageT.kind m)
    (body_of (proto.DispatchChannelMessageBodyUnion.value (proto.DispatchChannelMessageT.body m)))
    (proto.DispatchChannelMessageT.exchange_uid m) (proto.DispatchChannelMessageT.exchange_status m)
    (proto.DispatchChannelMessageT.timestamp_us m)
    (match proto.DispatchChannelMessageT.sender_id m with EmptyString => None | id => Some id end).

Section Reading.
Context {F : FlatBuffers} {FO : FlatBuffersOk F}.

Lemma text_pack s : text (PackString s) = Some (match s with EmptyString => None | s => Some s end).
Proof. destruct s; [done|]. unfold PackString, text. by rewrite str_built. Qed.
Lemma text_built s : text (Some (CreateString s)) = Some (Some s).
Proof. unfold text. by rewrite str_built. Qed.
Lemma texts_pack l : texts (PackStrings l) = Some (match l with [] => None | l => Some (Some <$> l) end).
Proof. destruct l; [done|]. unfold PackStrings, texts. by rewrite string_list_built. Qed.

Ltac built_table :=
  match goal with |- context [EndTable ?ws] => assert (slots_ok ws = true) as Hws by reflexivity end.
Ltac read_texts Hws :=
  repeat first [ read_built Hws; cbn [mbind option_bind] | rewrite text_pack | rewrite text_built | rewrite texts_pack
               | progress cbn [mbind option_bind] ].

Lemma parse_packed_form p o : proto.DispatchFormPayloadT.fits p ->
  proto.DispatchFormPayload_Pack p = Some o -> parse_form o = Some (form_of p).
Proof.
  destruct p. unfold parse_form, form_of. proto.unfold_DispatchFormPayload. cbn. intros Hfits.
  rewrite required_table by reflexivity. intros [= <-]. built_table. read_texts Hws. by destruct km_markers, track_number.
Qed.
Lemma parse_packed_text p o :
  proto.FreeTextPayload_Pack p = Some o -> parse_free_text o = Some (mkFreeTextPayload (Some (proto.FreeTextPayloadT.body p))).
Proof.
  destruct p. unfold parse_free_text. proto.unfold_FreeTextPayload. cbn.
  rewrite required_table by reflexivity. intros [= <-]. built_table. by read_texts Hws.
Qed.

(** Every message that the generated code packs is read as it is. *)
Lemma parse_packed m : proto.DispatchChannelMessageT.fits m ->
  exists o, proto.DispatchChannelMessage_Pack m = Some o /\ parse_message (Finish o) = Some (message_of m).
Proof.
  intros Hfits. destruct (packed_carried Table.DispatchChannelMessage m Hfits) as (o & E & Hc).
  exists o. split; [exact E|]. unfold parse_message.
  rewrite (verified_finished _ _ _ Hc) by
    (destruct m as [? ? ? ? [? []] ? ? ? ?]; vm_compute; discriminate).
  cbn [mbind option_bind]. clear Hc.
  change (proto.DispatchChannelMessage_Pack m = Some o) in E. revert E.
  destruct m as [src dst dir kind body exch status ts sender]. unfold parse_body.
  proto.unfold_DispatchChannelMessage. cbn in Hfits |- *. split_facts.
  match goal with H : proto.DispatchChannelMessageBodyUnion.fits body |- _ => rename H into Hb end.
  destruct body as [ty b]. destruct Hb as [Hty Hb].
  unfold proto.DispatchChannelMessageBodyUnion_Pack, proto.DispatchChannelMessage.body_as_FreeTextPayload,
    proto.DispatchChannelMessage.body_as_DispatchFormPayload, proto.DispatchChannelMessage.body_type,
    proto.DispatchChannelMessage.body.
  cbn [proto.DispatchChannelMessageBodyUnion.type proto.DispatchChannelMessageBodyUnion.value] in *.
  unfold message_of.
  destruct b as [|p|p].
  - destruct Hb as [Hn1%Z.eqb_neq Hn2%Z.eqb_neq]. change (code proto.DispatchChannelMessageBody.DispatchFormPayload) with 1.
    change (code proto.DispatchChannelMessageBody.FreeTextPayload) with 2.
    rewrite Hn1, Hn2. intros [= <-]. built_table. read_texts Hws. rewrite Hn1, Hn2. cbn. by destruct sender.
  - destruct Hb as [-> Hp]. cbn [Z.eqb]. destruct (proto.DispatchFormPayload_Pack p) as [d|] eqn:Ed; cbn; [intros [= <-]|discriminate].
    built_table. read_texts Hws. change (1 =? 2) with false. change (1 =? 1) with true. cbn.
    rewrite (parse_packed_form _ _ Hp Ed). cbn. by destruct sender.
  - destruct Hb as [-> Hp]. cbn [Z.eqb]. destruct (proto.FreeTextPayload_Pack p) as [d|] eqn:Ed; cbn; [intros [= <-]|discriminate].
    built_table. read_texts Hws. change (2 =? 2) with true. change (2 =? 1) with false. cbn.
    rewrite (parse_packed_text _ _ Ed). cbn. by destruct sender.
Qed.

(** *** Whatever arrives *)

Lemma text_defined old p : is_Some (UnPackString old p) -> is_Some (text p).
Proof. unfold UnPackString, text. destruct p; [|by eexists]. intros [s ->]. by eexists. Qed.
Lemma texts_defined p : is_Some (UnPackStrings p) -> is_Some (texts p).
Proof. unfold UnPackStrings, texts. destruct p; [|by eexists]. intros [s ->]. by eexists. Qed.

(** A table that unpacks gives each of its reads. *)
Ltac inner_read r := lazymatch r with mbind _ ?r' => inner_read r' | _ => r end.
Ltac read_is_there H r := destruct r; [|by destruct H]; cbn [mbind option_bind] in *.
Ltac follow_read H :=
  lazymatch type of H with is_Some (mbind _ ?r) =>
    let r := inner_read r in
    lazymatch r with
    | UnPackString ?old ?p =>
        let E := fresh "E" in destruct (text_defined old p) as [? E];
        [destruct r; [by eexists|by destruct H] | rewrite E; read_is_there H r]
    | UnPackStrings ?p =>
        let E := fresh "E" in destruct (texts_defined p) as [? E];
        [destruct r; [by eexists|by destruct H] | rewrite E; read_is_there H r]
    | _ => read_is_there H r
    end
  end.

Lemma parse_form_defined o : is_Some (proto.DispatchFormPayload_UnPack o) -> is_Some (parse_form o).
Proof. unfold parse_form. proto.unfold_DispatchFormPayload. intros H. repeat follow_read H. by eexists. Qed.
Lemma parse_free_text_defined o : is_Some (proto.FreeTextPayload_UnPack o) -> is_Some (parse_free_text o).
Proof. unfold parse_free_text. proto.unfold_FreeTextPayload. intros H. repeat follow_read H. by eexists. Qed.

(** The body of a message that unpacks, with the two reads it needs done. *)
Lemma parse_body_defined (type : Z) (p : option Obj) old :
  is_Some (proto.DispatchChannelMessageBodyUnion_UnPackTo old type p) ->
  is_Some (ft_payload ← (if type =? code proto.DispatchChannelMessageBody.FreeTextPayload then Some p else Some None);
    df_payload ← (if type =? code proto.DispatchChannelMessageBody.DispatchFormPayload then Some p else Some None);
    parse_member ft_payload df_payload).
Proof.
  unfold proto.DispatchChannelMessageBodyUnion_UnPackTo, proto.DispatchChannelMessageBodyUnion_UnPack.
  change (code proto.DispatchChannelMessageBody.DispatchFormPayload) with 1.
  change (code proto.DispatchChannelMessageBody.FreeTextPayload) with 2.
  destruct p as [o|]; [|by destruct (type =? 2), (type =? 1); eexists].
  destruct (Z.eqb_spec type 1) as [->|H1]; cbn [Z.eqb Pos.eqb]; [|destruct (Z.eqb_spec type 2) as [->|H2]]; cbn.
  - intros H. destruct (parse_form_defined o) as [? ->]; [|by eexists].
    destruct (proto.DispatchFormPayload_UnPack o); [by eexists|by destruct H].
  - intros H. destruct (parse_free_text_defined o) as [? ->]; [|by eexists].
    destruct (proto.FreeTextPayload_UnPack o); [by eexists|by destruct H].
  - by eexists.
Qed.

(** A payload is read as soon as the verifier accepts it, and gives 64-bit
    area identifiers. *)
Lemma parse_message_defined payload :
  is_Some (parse_message payload) <-> VerifyBuffer (msg_Verify (message Table.DispatchChannelMessage)) payload = Some true.
Proof.
  unfold parse_message. unfold verified at 1.
  destruct (verified_readable Table.DispatchChannelMessage payload) as (b & Hb & Hr). rewrite Hb. cbn [mbind option_bind].
  destruct b; [|by split; [intros []|]]. split; [done|]. intros _. destruct (Hr eq_refl) as [_ H]. clear Hr Hb.
  revert H. generalize (GetRoot payload). intros o H.
  change (is_Some (proto.DispatchChannelMessage_UnPack o)) in H. unfold parse_body. cbn [mbind option_bind].
  unfold proto.DispatchChannelMessage.body_as_FreeTextPayload, proto.DispatchChannelMessage.body_as_DispatchFormPayload,
    proto.DispatchChannelMessage.body_type, proto.DispatchChannelMessage.body.
  proto.unfold_DispatchChannelMessage.
  do 6 follow_read H.
  match type of H with is_Some (mbind _ ?r) => assert (is_Some r) as Hbody by (destruct r; [by eexists|by destruct H]);
    apply parse_body_defined in Hbody as [? ->]; read_is_there H r end.
  repeat follow_read H. by eexists.
Qed.

Lemma parse_message_uids payload msg : parse_message payload = Some msg ->
  fits 64 (dm_src_area_uid msg) /\ fits 64 (dm_dst_area_uid msg).
Proof.
  unfold parse_message. destruct (verified _ payload) as [o|]; [|done]. cbn [mbind option_bind].
  unfold proto.DispatchChannelMessage.src_area_uid, proto.DispatchChannelMessage.dst_area_uid.
  destruct (GetField U64 o 4 0) as [src|] eqn:Es; [|done]. destruct (GetField U64 o 6 0) as [dst|] eqn:Ed; [|done].
  cbn [mbind option_bind]. intros H. repeat case_match; simplify_option_eq.
  apply get_field_range in Es, Ed; [|done..]. unfold in_range in Es, Ed. unfold fits. cbn. lia.
Qed.
End Reading.

(** ** What both areas read of the answer *)

Section Answer.
Context {F : FlatBuffers} {FO : FlatBuffersOk F}.
Import proto.DispatchChannelMessageBodyUnion.

(** A body whose object carries the native struct. *)
Lemma form_body_carried d p : carries proto.DispatchFormPayload_message d p ->
  let x := mk 1 (ADispatchFormPayload p) in
  proto.DispatchChannelMessageBodyUnion_UnPackTo init 1 (Some d) = Some x /\
  forall acc type, acc = Some (Some d) -> type = Some 1 -> passes (proto.check_body acc type) 1 1.
Proof.
  intros [Hu Hv]. cbn in Hu, Hv. unfold proto.DispatchChannelMessageBodyUnion_UnPackTo,
    proto.DispatchChannelMessageBodyUnion_UnPack. cbn. rewrite Hu. split; [done|].
  intros acc ty -> -> v Hd Ht. unfold proto.check_body, proto.VerifyDispatchChannelMessageBody. cbn.
  rewrite verify_table. by apply Hv.
Qed.
Lemma text_body_carried d p : carries proto.FreeTextPayload_message d p ->
  let x := mk 2 (AFreeTextPayload p) in
  proto.DispatchChannelMessageBodyUnion_UnPackTo init 2 (Some d) = Some x /\
  forall acc type, acc = Some (Some d) -> type = Some 2 -> passes (proto.check_body acc type) 1 1.
Proof.
  intros [Hu Hv]. cbn in Hu, Hv. unfold proto.DispatchChannelMessageBodyUnion_UnPackTo,
    proto.DispatchChannelMessageBodyUnion_UnPack. cbn. rewrite Hu. split; [done|].
  intros acc ty -> -> v Hd Ht. unfold proto.check_body, proto.VerifyDispatchChannelMessageBody. cbn.
  rewrite verify_table. by apply Hv.
Qed.

Lemma form_carried form_type train km track : in_range I8 form_type = true ->
  let p := proto.DispatchFormPayloadT.mk form_type train km (default "" track)%string in
  exists o, form_table form_type train km track = Some o /\ carries proto.DispatchFormPayload_message o p.
Proof.
  intros Hft. unfold carries, form_table. proto.unfold_DispatchFormPayload. cbn.
  destruct track; cbn; solve_carries.
Qed.

Lemma free_text_carried body :
  exists o, free_text_table body = Some o /\
    carries proto.FreeTextPayload_message o (proto.FreeTextPayloadT.mk body).
Proof. unfold carries, free_text_table. proto.unfold_FreeTextPayload. cbn. solve_carries. Qed.

(** The native struct of the message that the channel sends. *)
Definition native_answer (m : DispatchChannelMessage) : proto.DispatchChannelMessageT.t :=
  proto.DispatchChannelMessageT.mk (dm_src_area_uid m) (dm_dst_area_uid m) (dm_direction m) (dm_kind m)
    (match dm_body m with
     | body_FreeTextPayload p => mk 2 (AFreeTextPayload (proto.FreeTextPayloadT.mk (default "" (ft_body p))%string))
     | body_DispatchFormPayload p =>
         mk 1 (ADispatchFormPayload (proto.DispatchFormPayloadT.mk (df_form_type p) (default "" (df_train_number p))%string
           (km_strings (df_km_markers p)) (default "" (df_track_number p))%string))
     | body_NONE => init
     end)
    (dm_exchange_uid m) (dm_exchange_status m) (dm_timestamp_us m) (default "" (dm_sender_id m))%string.

(** What the channel builds: a sender, and a body with its required string. *)
Definition answerable (m : DispatchChannelMessage) : Prop :=
  is_Some (dm_sender_id m) /\
  match dm_body m with
  | body_FreeTextPayload p => is_Some (ft_body p)
  | body_DispatchFormPayload p => is_Some (df_train_number p) /\ in_range I8 (df_form_type p) = true
  | body_NONE => False
  end /\
  in_range U64 (dm_src_area_uid m) = true /\ in_range U64 (dm_dst_area_uid m) = true /\
  in_range I8 (dm_direction m) = true /\ in_range I8 (dm_kind m) = true /\
  in_range U64 (dm_exchange_uid m) = true /\ in_range I8 (dm_exchange_status m) = true /\
  in_range U64 (dm_timestamp_us m) = true.

Lemma answer_carried m : answerable m ->
  exists o, answer_table m = Some o /\ carries proto.DispatchChannelMessage_message o (native_answer m).
Proof.
  destruct m as [src dst dir kind body exch status ts [sender|]]; [|by intros [[] _]].
  intros (_ & Hb & ? & ? & ? & ? & ? & ? & ?). cbn in *. unfold answer_table, native_answer. cbn.
  destruct body as [|[ft [train|] km track]|[[body|]]]; [done| |by destruct Hb as [[] _]| |by destruct Hb].
  - destruct Hb as [_ Hft]. destruct (form_carried ft train (km_strings km) track Hft) as (d & -> & Hd%form_body_carried).
    destruct Hd as [Hu Hv]. cbn [fmap option_fmap option_map mbind option_bind].
    unfold carries. proto.unfold_DispatchChannelMessage.
    unfold proto.DispatchChannelMessageBodyUnion.tables. cbn. assert (in_range U8 1 = true) by done. solve_carries.
  - destruct (free_text_carried body) as (d & -> & [Hu Hv]%text_body_carried).
    cbn [fmap option_fmap option_map mbind option_bind].
    unfold carries. proto.unfold_DispatchChannelMessage.
    unfold proto.DispatchChannelMessageBodyUnion.tables. cbn. assert (in_range U8 2 = true) by done. solve_carries.
Qed.
End Answer.

(** ** The channel *)

Section OnTheWire.
Context {F : FlatBuffers} {FO : FlatBuffersOk F} {DB : Type} `{IDbWriter DB}.
Variable session_id : string.

(** Whatever arrives: the channel does not throw, and a payload that the
    verifier refuses changes nothing. *)
Lemma any_payload i (s : Channel (DB := DB)) :
  let r := receive session_id parse_message build_message i s in
  r.2 = Some tt /\
  exists b, VerifyBuffer (msg_Verify (message Table.DispatchChannelMessage)) (in_payload i) = Some b /\
    (b = false -> r.1 = s).
Proof.
  cbn zeta. split; [by eapply receive_exchanges, parse_message_uids|].
  destruct (verified_readable Table.DispatchChannelMessage (in_payload i)) as (b & Hb & _). exists b.
  split; [done|]. intros ->. unfold receive, on_inbound.
  destruct (parse_message (in_payload i)) eqn:E; [|done].
  assert (is_Some (parse_message (in_payload i))) as Hs%parse_message_defined by (by rewrite E; eexists). congruence.
Qed.

Lemma km_strings_all (l : list string) : km_strings (Some (Some <$> l)) = l.
Proof. induction l as [|x l IH]; [done|]. cbn in *. by rewrite IH. Qed.
Lemma form_of_km p : km_strings (df_km_markers (form_of p)) = proto.DispatchFormPayloadT.km_markers p.
Proof. destruct p as [ft train [|k km] track]; [done|]. apply (km_strings_all (k :: km)). Qed.

(** The numbers of [proto/common.fbs] that a telegram carries, and the words of the answer. *)
Definition schema_form : Z -> option DispatchFormType.t :=
  numbered [DispatchFormType.S2; DispatchFormType.S24; DispatchFormType.S25; DispatchFormType.S26;
            DispatchFormType.S55; DispatchFormType.S56].
Definition schema_direction : Z -> option TelegramDirection.t :=
  numbered [TelegramDirection.SENT; TelegramDirection.RECEIVED].
Definition schema_status : Z -> option string := numbered ["PENDING"; "ACCEPTED"; "REJECTED"; "CLOSED"]%string.
Definition status_shown (s : ExchangeStatus.t) : string :=
  match s with
  | ExchangeStatus.IDLE | ExchangeStatus.S2_SENT | ExchangeStatus.S25_SENT => "PENDING"
  | ExchangeStatus.S24_RECEIVED | ExchangeStatus.S26_RECEIVED => "ACCEPTED"
  | ExchangeStatus.CANCELLED => "REJECTED"
  | ExchangeStatus.CLOSED => "CLOSED"
  end.

Lemma form_read z f : schema_form z = Some f -> to_engine_form z = f.
Proof.
  unfold schema_form, numbered. destruct (Z.leb_spec 0 z) as [Hz|]; [|done]. intros E.
  pose proof (lookup_lt_Some _ _ _ E) as Hlt. cbn in Hlt.
  assert (z = 0 \/ z = 1 \/ z = 2 \/ z = 3 \/ z = 4 \/ z = 5) as Hcases by lia.
  destruct_or! Hcases; subst z; by injection E as <-.
Qed.
Lemma direction_read z d :
  schema_direction z = Some d -> (if z =? direction_SENT then TelegramDirection.SENT else TelegramDirection.RECEIVED) = d.
Proof.
  unfold schema_direction, numbered. destruct (Z.leb_spec 0 z) as [Hz|]; [|done]. intros E.
  pose proof (lookup_lt_Some _ _ _ E) as Hlt. cbn in Hlt. assert (z = 0 \/ z = 1) as Hcases by lia.
  destruct_or! Hcases; subst z; by injection E as <-.
Qed.

(** A form that a client of the sending area packs, and that gets to the channel. *)
Record written (m : proto.DispatchChannelMessageT.t) (p : proto.DispatchFormPayloadT.t) (i : Inbound)
    (f : DispatchFormType.t) (d : TelegramDirection.t) : Prop := {
  wr_fits : proto.DispatchChannelMessageT.fits m;
  wr_time : in_range U64 (in_ts i) = true;
  wr_body : proto.DispatchChannelMessageBodyUnion.value (proto.DispatchChannelMessageT.body m) =
    proto.DispatchChannelMessageBodyUnion.ADispatchFormPayload p;
  wr_src : proto.DispatchChannelMessageT.src_area_uid m <> 0;
  wr_dst : proto.DispatchChannelMessageT.dst_area_uid m <> 0;
  wr_area : in_area i = to_string (proto.DispatchChannelMessageT.src_area_uid m);
  wr_kind : proto.DispatchChannelMessageT.kind m <> kind_FREE_TEXT;
  wr_form : schema_form (proto.DispatchFormPayloadT.form_type p) = Some f;
  wr_direction : schema_direction (proto.DispatchChannelMessageT.direction m) = Some d;
  wr_payload : in_payload i = finished (proto.DispatchChannelMessage_Pack m) }.

(** What the exchange state machine decides of it. *)
Definition decided (m : proto.DispatchChannelMessageT.t) (p : proto.DispatchFormPayloadT.t)
    (f : DispatchFormType.t) (d : TelegramDirection.t) (s : Channel (DB := DB)) : TelegramOutcome :=
  (DispatchExchangeManager.submit_telegram (to_string (proto.DispatchChannelMessageT.src_area_uid m))
    (to_string (proto.DispatchChannelMessageT.dst_area_uid m)) f d (proto.DispatchFormPayloadT.train_number p)
    (be_exchanges (ch_backend s))).2.

(** The answer that the channel lays out. *)
Lemma telegram_answered m p i f d (s : Channel (DB := DB)) log :
  DispatchExchangeManager.runs (be_exchanges (ch_backend s)) log -> written m p i f d ->
  let o := decided m p f d s in
  let src := proto.DispatchChannelMessageT.src_area_uid m in
  let dst := proto.DispatchChannelMessageT.dst_area_uid m in
  exists answer,
    ch_posted (receive session_id parse_message build_message i s).1 =
      ch_posted s ++ (if bool_decide (to_result o = ACCEPTED)
                      then [mkPairBroadcast (to_string src) (to_string dst)
                              (encode_frame msg_type.kDispatchChannel 0 0 (build_message answer))] else []) /\
    answerable answer /\
    native_answer answer = proto.DispatchChannelMessageT.mk src dst (proto.DispatchChannelMessageT.direction m) 0
      (proto.DispatchChannelMessageT.body m) 0 (to_proto_status (to_new_status o)) (in_ts i) (in_client i).
Proof.
  intros Hr [Hfits Hts Hbody Hsrc Hdst Ha Hk Hf%form_read Hd%direction_read Hp] o src dst.
  destruct (parse_packed m Hfits) as (t & Et & Hparse). rewrite Et in Hp. cbn in Hp. rewrite <- Hp in Hparse.
  destruct m as [src' dst' dir kind [ty b] exch status ts sender].
  cbn in Hbody, Hk, Hd, src, dst. subst b src dst f d.
  destruct Hfits as (Hs & Hdd & Hdir & _ & [_ [Hty Hft]] & _). cbn in Hs, Hdd, Hdir, Hty, Hft. subst ty.
  pose proof (inbound_form_effect session_id parse_message build_message parse_message_uids i s log _
    (df_form_type (form_of p)) (proto.DispatchFormPayloadT.train_number p) (df_km_markers (form_of p))
    (df_track_number (form_of p)) Hr Hparse Hsrc Hdst Ha Hk eq_refl) as Heff.
  cbn zeta in Heff. rewrite form_of_km in Heff. eexists. rewrite Heff. clear Heff.
  unfold decided in o. cbn [message_of dm_src_area_uid dm_dst_area_uid dm_direction
    proto.DispatchChannelMessageT.src_area_uid proto.DispatchChannelMessageT.dst_area_uid
    proto.DispatchChannelMessageT.direction] in *.
  change (df_form_type (form_of p)) with (proto.DispatchFormPayloadT.form_type p). fold o.
  split_and!.
  - case_bool_decide; [done|]. cbn. by rewrite app_nil_r.
  - split_and!; try done; cbn. by destruct (to_new_status o).
  - unfold native_answer. cbn [dm_body df_km_markers dm_sender_id default from_option]. rewrite km_strings_all. f_equal.
    clear. destruct p as [ft train km track]. cbn. by destruct track.
Qed.


(** A telegram that the machine refuses is answered to nobody: the duplicate of a line-clear,
    which is to be rejected with a warning that the dispatcher sees, among them. *)
Theorem refused_telegram_unanswered m p i f d (s : Channel (DB := DB)) log :
  DispatchExchangeManager.runs (be_exchanges (ch_backend s)) log -> written m p i f d ->
  to_result (decided m p f d s) <> ACCEPTED ->
  ch_posted (receive session_id parse_message build_message i s).1 = ch_posted s.
Proof.
  intros Hr Hw Hacc. destruct (telegram_answered m p i f d s log Hr Hw) as (answer & Hpost & _).
  rewrite bool_decide_false in Hpost by done. by rewrite app_nil_r in Hpost.
Qed.
End OnTheWire.

(** Train 12345 is asked for at kilometre 102.4, from area 7 to area 9. *)
Module TelegramDemo.
Definition form : proto.DispatchFormPayloadT.t := proto.DispatchFormPayloadT.mk 0 "12345" ["102.4"%string] "".
Definition telegram : proto.DispatchChannelMessageT.t :=
  proto.DispatchChannelMessageT.mk 7 9 0 0
    (proto.DispatchChannelMessageBodyUnion.mk 1 (proto.DispatchChannelMessageBodyUnion.ADispatchFormPayload form)) 0 0 0 "alice".
Definition inbound : Inbound := mkInbound (finished (proto.DispatchChannelMessage_Pack telegram)) "alice" "7" 1000.
End TelegramDemo.

Lemma telegram_demo_written :
  written TelegramDemo.telegram TelegramDemo.form TelegramDemo.inbound DispatchFormType.S2 TelegramDirection.SENT.
Proof. split; try reflexivity; try discriminate. red. repeat split; reflexivity. Qed.

